(* ===== verification/_CoqProject ===== *)
-Q . S2P
Prelude.v
Text.v
EditDistance.v
SpawnProtocol.v
Types.v
Externals.v
State.v
Init.v
Samples.v
StableStore.v
Transitions.v
Scheduler.v
Retry.v
Evidence.v
Escrow.v
Room.v
Evm.v
Broadcast.v
Refund.v
Steward.v
Child.v
Spawn.v
Sessions.v
Reproduction.v
Repository.v
Admin.v
AgentTypes.v
AgentDomain.v
TopUpTypes.v
TopUp.v
AgentStore.v
AgentScheduler.v
AgentLease.v
AgentMortality.v
StrategyTypes.v
StrategyStore.v
StrategyValidator.v
StrategyAbi.v
StrategyCompiler.v
StrategyCodec.v
StrategyPlan.v
StrategyPolicy.v
StrategyExecution.v
StrategyLedger.v
StrategyRegistry.v
StrategyLifecycle.v
StrategyExposure.v
StrategySamples.v
TurnTypes.v
TurnStore.v
Sanitize.v
TurnText.v
TurnPolicy.v
TurnPolicyFacts.v
TurnTools.v
TurnDecision.v
Turn.v
TurnSteps.v
TurnOutcome.v
TurnPlan.v
TurnSamples.v
AgentConfig.v
EvmRpc.v
HouseSamples.v
HttpFetch.v
WebSearch.v
CanisterCall.v
AgentMemory.v
AgentSteward.v
