(* ===== verification/Prelude.v ===== *)
(** * The automaton spawn factory: a verification library

    ** The program

    The repository is a Rust workspace around two Internet Computer canisters.
    The factory ([src/backend/factory/src]) sells autonomous agents: a user
    opens a spawn session, pays a USDC deposit into an escrow contract on Base,
    and the factory observes the deposit, installs an automaton canister and
    releases the deposit to it, or refunds it.  The automaton itself
    ([src/components/ic-automaton/src]) is the agent runtime: a heartbeat runs
    jobs - turns, inbox polls, cycle checks, top-ups - from a queue under a
    lease, until its resources run out and it dies.  Both share
    [src/crates/spawn-protocol], which fixes the genesis rules.  This library
    models the factory, the protocol crate, and of the automaton the policies,
    the scheduler with its store, the cycle top-up, its strategies, the
    reasoning turn, its configuration and steward, and several of its tools,
    in the canister build ([target_arch = "wasm32"]) where the
    source has two.

    ** How the model is built

    The canister's memory is the record [State.Canister.t]: the factory state
    ([FactoryState.t], one field per field of the struct of [state.rs]) and
    the provider secrets.  A handler is a computation in the monad [M S E A] of this file:
    from a state to a return ([Done]), an error together with the state it
    leaves ([Fail]: a handler that returns [Err] keeps what it wrote), or a
    panic ([Trap]: the message is rolled back).  [State.write_state] and
    [State.read_state] are the functions of the same names.  [F] abbreviates
    computations on the factory state and [C] those on the canister.
    An asynchronous call is a method of a class ([Escrow.Rpc],
    [Broadcast.ReleaseRpc]): an arbitrary computation on the whole canister,
    so that whatever other messages do while a call is outstanding is an
    instance of it, and every theorem holds for all of them.  Code of
    third-party crates (digests, candid, JSON, ECDSA, principals) is the class
    [Externals.Externals], of which theorems assume nothing beyond the digest
    sizes ([ExternalsOk]).  Machine integers are [N] with the operations of
    the source: [checked_add], [saturating_add], and [wrapping_add] for plain
    [+], which wraps in release builds.  Strings are byte strings; [Text]
    models UTF-8 characters, trimming, decimal and hexadecimal text.

    ** Files

    - [Prelude]: record update, results, the monad with its rules ([stable]:
      an invariant and a relation kept on every path), ordered-map iteration.
    - [Text]: characters, [trim], [split_whitespace], integers, hexadecimal.
    - [EditDistance], [SpawnProtocol] ([crates/spawn-protocol/src/lib.rs]):
      genesis, inheritance and constitution-mutation rules.  The banded
      distance computation equals the reference distance below its threshold
      and never indexes out of range.
    - [Types] ([types.rs]): the data model, amounts, quote hashing.
    - [Externals], [Samples]: parameters; concrete values for examples.
    - [State] ([state.rs]): the factory state, defaults, audit log, secrets.
    - [StableStore] ([state.rs]): the delta-writing stable storage, which
      refines a plain state cell ([mutate_refines]).
    - [Transitions] ([session_transitions.rs], [expiry.rs]): session events.
      The handler refines the relation [session_step], keeps the derived
      flags, claims and audit logs consistent, and never leaves a terminal
      state.
    - [Scheduler] ([scheduler.rs]), [Retry] ([retry.rs]): job tables, leases,
      the synchronous and asynchronous ticks.  Interleavings of ticks,
      completions and messages are a step relation, along which no job runs
      twice at once while executions respect their lease.
    - [Evidence], [Escrow] ([escrow.rs]): deposit evidence, the block scan
      plan, payment reconciliation with its guards, refund finalisation.
    - [Evm] ([evm.rs]): RLP, calldata, EIP-1559 transactions, refund drafts;
      an independent decoder recovers each encoded transaction.
    - [Broadcast] ([evm.rs], parts of [spawn.rs] and [cycles.rs]): guards,
      signing, sending, persisting and confirming transactions.
    - [Refund] ([escrow.rs]): claiming a refund through all the points it can
      be resumed from.
    - [Steward] ([api/public.rs]): commands authorised by a signature.
    - [Room] ([api/public.rs]): the bounded message room and its pages.
    - [Init], [Child] ([init.rs], parts of [spawn.rs]): child configuration,
      install arguments, recipe JSON, chunked installation, verification.
    - [Spawn] ([spawn.rs], [cycles.rs], [controllers.rs]): running a spawn to
      completion or failure, with resumption.
    - [Sessions] ([api/public.rs]), [Reproduction] ([reproduction.rs]): opening
      sessions, the registry, death reports; children of automatons.
    - [Repository] ([strategy_repository.rs], [api/repository.rs]), [Admin]
      ([api/admin.rs]): strategies on offer and the administrative calls.
    - [AgentTypes], [AgentDomain] ([ic-automaton: timing.rs, domain/]): the
      automaton's types and policies: the turn's state machine, recovery,
      cycle admission, mortality tiers.
    - [TopUpTypes], [TopUp] ([features/cycle_topup/mod.rs]): the top-up
      pipeline, which refines the relation [pipeline].
    - [AgentStore] ([storage/sqlite.rs], [storage/stable.rs]): the scheduler's
      part of the store; [quiet] is what messages may do to its queue.
    - [AgentScheduler] ([scheduler.rs], [features/cycle_topup_host.rs]): the
      heartbeat.  [AgentLease]: its interleavings as a step relation
      ([agent_step]), the exclusivity of the lease, and when a job
      runs again.  [AgentMortality]: lives
      as sequences of [life_step].
    - [StrategyTypes], [StrategyStore] ([domain/types.rs], [storage/]): the
      strategies' data and tables; the state is the record [Book.t].
    - [StrategyValidator] ([strategy/validator.rs]), [StrategyAbi] ([abi.rs]),
      [StrategyCompiler] ([compiler.rs]): checking plans, normalising ABIs,
      compiling an intent to a plan.  [StrategyCodec] gives the
      arguments of a call their meaning and decodes what the compiler encodes
      back to it; [StrategyPlan] characterises the plans it returns.
    - [StrategyPolicy] ([strategy/execution_policy.rs], [tools.rs]): limits and
      quarantines.  [StrategyExecution] ([tools.rs]): executing,
      sending, resuming and booking; [StrategyLedger]: its interleavings.
    - [StrategyRegistry] ([registry.rs], [scheduler.rs]): registration from a
      recipe, activation, revocation, reconciliation; [StrategyLifecycle]:
      what these leave, over sequences of [lifecycle_step], and what a final
      failure stops, over sequences of [execution_step].
    - [StrategyExposure] ([exposure_reconciliation.rs]): open positions
      recomputed from the confirmed executions.  [StrategySamples]: concrete
      strategies for the witnesses of all of these.
    - [TurnTypes], [TurnStore] ([domain/types.rs], [storage/]): the data and
      tables of a turn - messages, conversations, journal, decisions,
      reflections, tool failures, proxy jobs; the state is the record
      [Desk.t], which holds the strategies' [Book.t] and the hot state.
    - [Sanitize] ([sanitize.rs]): redacting and framing what comes from
      outside, and the validator of tool sequences.  [TurnText] ([agent.rs],
      [tools.rs]): texts, memory keys, classes of errors.
    - [TurnPolicy] ([agent.rs]): fingerprints, suppressed calls, synthetic
      records, the cap on degraded rounds, reflections; [TurnPolicyFacts]:
      what suppresses a call, and for how long.
    - [TurnTools] ([tools.rs]): the tool manager - policies by state, the
      dispatch with its survival gates, batches of reads.
    - [TurnDecision] ([agent.rs], [features/inference.rs]): reserves, the gate
      before inference, decision envelopes and their parsing.
    - [Turn] ([agent.rs]): the turn, from its guards through the rounds and
      the decision to its record, one definition per phase of the function
      [run_scheduled_turn_job_with_limits_and_tool_cap_inner] and one record
      field per mutable local ([Turn.t]); its [break] is an error of the monad
      [R].  [TurnSteps] counts its rounds and calls, [TurnOutcome] says what
      it leaves in the store, [TurnPlan] which calls a round executes;
      [TurnSamples]: turns that run under stand-ins, for the witnesses.
    - [AgentConfig] ([storage/stable.rs]): the setters of the configuration
      and the allowlist of HTTP domains.  The state of this and the following
      files is the record [House.t]: the turn's [Desk.t] and the tables of
      domains, skills, memory facts and prompt layers.  [HouseSamples]:
      concrete houses for the witnesses.
    - [EvmRpc] ([features/evm.rs]): HTTP outcalls and the JSON-RPC client.
      The outcall is the class [OutcallPlatform].
    - [AgentSteward] ([features/evm.rs], [lib.rs]): proofs of the steward,
      nonces, and the two entry points for commands.
    - [HttpFetch] ([features/http_fetch.rs]), [WebSearch]
      ([features/web_search.rs]), [CanisterCall] ([features/canister_call.rs],
      [features/skills.rs]), [AgentMemory] ([storage/stable.rs],
      [storage/sqlite.rs], [tools.rs]): the tools that fetch, search, call
      canisters and remember, each with the tables it depends on.

    ** What the theorems show

    Sessions: [apply_session_event_refines], [terminal_sessions_stay] and
    [apply_session_event_preserves_inv] give the state machine;
    [create_spawn_session_correct], [create_spawn_session_keeps] and
    [reproduction_session_correct] how sessions begin.  Payments:
    [merged_claim_evidence_correct], [amounts_by_claim_correct],
    [next_payment_scan_plan_correct], [commit_update_correct] and
    [reconcile_escrow_payments_safe] show that a session becomes paid only on
    recorded, uncounted-before evidence, with any messages interleaved that
    keep the invariants themselves, and that what these messages wrote to a
    session or claim is not overwritten.  Spawning:
    [execute_spawn_completes], [release_needs_handoff],
    [handoff_failure_strands_session].  Jobs: [lease_due_jobs_correct],
    [run_scheduler_tick_correct], [no_concurrent_execution],
    [backoff_delay_ms_correct].  Refunds:
    [claim_escrow_refund_confirmed], [refund_write_ahead],
    [confirm_release_receipt_depth_correct], [reserve_refund_draft_correct],
    [refund_is_final] show that money is reported back only on confirmed
    evidence, that bytes are stored before they are sent and that a nonce is
    reserved once.  Authorisation: [authorize_and_consume_authorizes],
    [no_replay], [refund_fenced], [prepared_command_verifies],
    [admin_calls_authorised].  Configuration and registry:
    [admin_calls_keep_config], [artifact_upload_correct],
    [death_reports_advance], [repository_calls_keep_wf],
    [revoked_strategy_unselectable].  Encodings:
    [signing_payload_roundtrip], [signed_transaction_roundtrip],
    [calldata_correct].  The automaton: [turn_lifecycle],
    [recovery_decision_sound], [tier_observations] for its policies;
    [begin_pending_job_correct] and [agent_lease_exclusive] for its queue,
    [scheduler_tick_steps] for the fit of the step relation;
    [mortality_one_way] for its death; [topup_follows_pipeline] and
    [topup_advance_terminates] for the top-up.  Strategies:
    [register_from_recipe_ready], [normalize_abi_artifact_correct],
    [compile_intent_correct] and [encode_abi_params_decodes] follow a strategy
    from its recipe to calldata;
    [validate_execution_plan_passed] and
    [enforce_strategy_execution_policy_bounds] say what is let through (by a
    policy that does not ask for simulation first, everything);
    [ledger_balances] and [closed_executions_final] that the books agree with
    what was executed however sending and reconciling interleave;
    [terminal_failure_stops_strategy], [revocation_is_final] and
    [reconcile_templates_verdict] what stops a strategy and what does not;
    [collect_observed_exposures_complete] and
    [reconcile_active_exposures_settles] that positions are repaired to what
    was confirmed.  The turn: [turn_releases_lock], [turn_answers_messages] and
    [terminal_turn_dies] hold whatever tools and providers answer, as long as
    what runs meanwhile leaves the turn alone ([PortsUndisturbed]);
    [run_rounds_ends] and [turn_record_bounds] bound it;
    [executed_calls_cleared], [round_records_match],
    [execute_actions_records] and [parallel_batch_reads] say which calls run
    and what they leave; [success_suppresses], [failures_suppress] and
    [degrade_tracking_refines] what keeps a call from running again;
    [redact_forbidden_phrases_clean], [frame_extract] and [verdict_adjacent]
    what is done about hostile input; [normalize_memory_key_idem] that a
    memory key has one form.  Authority over the automaton:
    [steward_command_authorised], [nonces_consecutive] and
    [ingress_authorised] say whose commands are obeyed, and
    [config_change_ok] and [allowlist_exact] that a change is refused or
    leaves a valid configuration.  What the tools may reach:
    [http_fetch_only_allowed], [web_search_only_brave],
    [canister_calls_permitted] and [rpc_call_requests] compare platforms that
    differ only in what must not be asked; [http_fetch_retries_end],
    [json_path_roundtrip] and [search_url_roundtrip] are about what is asked.
    [memory_write_exact], [memory_calls_safe] and [seeding_keeps_skills] are
    about the tables.  [replay_after_rotation], [local_url_userinfo],
    [refused_search_stores_key], [prune_wildcard], [prune_future_cutoff],
    [class_scope_blind], [retry_races_refund],
    [refund_generation_restarts], [handoff_failure_strands_session],
    [poll_after_death], the second half of [topup_advance_terminates] and the
    canonicity clause of [signed_transaction_roundtrip] exhibit behaviour that
    the code does not intend.

    ** Bounds and fuel

    The loops of the two schedulers are recursions on the bound of the source
    ([MAX_JOBS_PER_TICK] and [MAX_MUTATING_JOBS_PER_TICK] rounds).  The loop of
    the top-up's [advance] has no bound in the source and takes fuel; without
    an answer it yields no outcome, and [topup_advance_terminates] says how
    much is enough and when none is.  The RLP decoder of the specification
    takes the length of its input as fuel, enough because every item consumes
    at least its prefix byte.  The exposures are read in pages of 250 rows
    with one more round than there are rows, which is shown to be enough.  The
    loop of a turn takes one round more than the turn may have, enough by
    [run_rounds_ends]; the batches of its tools and the search for a phrase
    take one more than there are calls and bytes.  Numbers that the source keeps
    at a width carry [in_uint w] hypotheses where a theorem depends on it.

    ** Not modelled

    HTTP outcalls and JSON parsing of the factory's [base_rpc.rs] stay behind
    the RPC classes; candid endpoints ([lib.rs]), timers and the test-only
    builds are glue.  Of the automaton, the tools that plan, keep goals, read
    markets and query the database, the inference providers, the prompt and
    the inbox poll are parameters or absent ([Turn] takes all tools as the
    class [TurnTools.Tools]); cycle telemetry,
    the RPC calls that send and simulate a call, the recipe's JSON and the
    reports of tools are parameters; of the tables of the database those of
    the scheduler, the strategies and the turn are there, and a statement on
    the database is taken to succeed.  Contracts, workers and the
    TypeScript apps are in other languages. *)

From stdpp Require Export base numbers option list strings gmap sets sorting pretty.
From Stdlib Require Export Lia.

#[export] Set Warnings "-clear-no-such-hyp".
#[export] Set Default Proof Using "Type*".

(** ** Functional record update

    Rust mutates a field of a struct in place; the model rebuilds the record.
    [r <| p := v |>] is [r] with the field read by the projection [p] replaced
    by [v], and [r <| p ::= f |>] applies [f] to that field.  A record that is
    updated somewhere declares its eta expansion once as an [Eta] instance;
    setters are derived from it by unification. *)

Class Eta (R : Type) := eta : R -> R.

Class Setter {R T : Type} (p : R -> T) := set : (T -> T) -> R -> R.
Arguments set {R T} p {_} f r.

Ltac solve_setter :=
  match goal with
  | |- @Setter ?R ?T ?p =>
      let f := fresh "f" in
      let r := fresh "r" in
      intros f r;
      let e := eval cbv [eta] in (eta r) in
      let e := lazymatch e with
               | ?h r => let h' := eval unfold h in h in eval cbv beta in (h' r)
               | _ => e
               end in
      let e' := eval pattern (p r) in e in
      lazymatch e' with
      | ?g _ => let y := eval cbv beta in (g (f (p r))) in exact y
      end
  end.

#[export] Hint Extern 1 (Setter _) => solve_setter : typeclass_instances.

Declare Scope factory_scope.
Delimit Scope factory_scope with factory.
#[export] Set Warnings "-postfix-notation-not-level-1".

Notation "r <| p := v |>" := (set p (fun _ => v) r)
  (at level 12, left associativity, p at level 9, v at level 200) : factory_scope.
Notation "r <| p ::= f |>" := (set p f r)
  (at level 12, left associativity, p at level 9, f at level 200) : factory_scope.
#[global] Open Scope factory_scope.

(** Two updates of a field agree when they agree on the value it has. *)
Lemma set_ext {R T} (p : R -> T) `{!Setter p} (f g : T -> T) (r : R) :
  (forall h x, set p h x = set p (fun _ => h (p x)) x) ->
  f (p r) = g (p r) -> set p f r = set p g r.
Proof. intros Hc H. by rewrite (Hc f), (Hc g), H. Qed.

(** Compute the fields of an updated record, and merge two updates of the same
    field, one conversion step at a time: the records are too wide to be
    unfolded. *)
Ltac simpl_set :=
  repeat match goal with
  | |- context [?q (@set ?R ?T ?p ?i ?f ?r)] =>
      first [ unify q p; change (q (@set R T p i f r)) with (f (q r)); cbv beta
            | change (q (@set R T p i f r)) with (q r) ]
  end.

(** The same by rewriting, for long chains of updates, where conversion would
    compare the chains field by field. *)
Ltac deep_set :=
  repeat match goal with
  | |- context [?q (@set ?R ?T ?p ?i ?f ?r)] =>
      let H := fresh in
      first [ unify q p;
              assert (H : forall g x, q (@set R T p i g x) = g (q x)) by (intros; reflexivity)
            | assert (H : forall g x, q (@set R T p i g x) = q x) by (intros; reflexivity) ];
      rewrite (H f r); clear H; cbv beta
  end.

Ltac merge_set :=
  repeat match goal with
  | |- context [@set ?R ?T ?p ?i ?f (@set ?R ?T ?p ?j ?g ?r)] =>
      change (@set R T p i f (@set R T p j g r)) with (@set R T p i (fun x => f (g x)) r)
  end; cbv beta.

(** ** Unsigned machine integers

    A [u8], [u16], [u32], [u64], [u128] or [usize] value is an [N]; the
    operations below take the width [w] first and write the overflow behaviour
    out.  The canisters are built without [overflow-checks], so a plain [+] of
    the source is [wrapping_add] (a plain [-] is guarded where it occurs), and
    [usize] is 32 bits wide on [wasm32].  [saturating_sub] is [N.sub]. *)

Definition max_uint (w : N) : N := 2 ^ w - 1.
Definition in_uint (w : N) (a : N) : Prop := (a <= max_uint w)%N.
Definition wrapping_add (w a b : N) : N := (a + b) `mod` 2 ^ w.
Definition wrapping_mul (w a b : N) : N := (a * b) `mod` 2 ^ w.
Definition saturating_add (w a b : N) : N := N.min (a + b) (max_uint w).
Definition saturating_mul (w a b : N) : N := N.min (a * b) (max_uint w).
Definition saturating_sub (a b : N) : N := (a - b)%N.
Definition checked_add (w a b : N) : option N :=
  if (a + b <=? max_uint w)%N then Some (a + b)%N else None.

Lemma pow2_pos (w : N) : (0 < 2 ^ w)%N.
Proof. pose proof (N.pow_nonzero 2 w). lia. Qed.

Lemma wrapping_add_small w a b : in_uint w (a + b) -> wrapping_add w a b = (a + b)%N.
Proof.
  unfold in_uint, wrapping_add, max_uint. intros H.
  pose proof (pow2_pos w). apply N.mod_small. lia.
Qed.

Lemma wrapping_add_in_uint w a b : in_uint w (wrapping_add w a b).
Proof.
  unfold in_uint, wrapping_add, max_uint. pose proof (pow2_pos w).
  pose proof (N.mod_lt (a + b) (2 ^ w)). lia.
Qed.

Lemma saturating_add_in_uint w a b : in_uint w (saturating_add w a b).
Proof. unfold in_uint, saturating_add. lia. Qed.

Lemma checked_add_Some w a b c :
  checked_add w a b = Some c <-> c = (a + b)%N /\ in_uint w c.
Proof.
  unfold checked_add, in_uint. destruct (N.leb_spec (a + b) (max_uint w)).
  - split; [intros [= <-]; done | intros [-> _]; done].
  - split; [done | intros [-> ?]; lia].
Qed.

Lemma existsb_false {A} (f : A -> bool) (l : list A) :
  existsb f l = false <-> forall x, x ∈ l -> f x = false.
Proof.
  induction l as [|x l IH]; simpl; [set_solver|].
  rewrite orb_false_iff, IH. set_solver.
Qed.

Lemma forall_elem_of_3 {A} (P : A -> Prop) (a b c : A) :
  (forall x, x ∈ [a; b; c] -> P x) <-> P a /\ P b /\ P c.
Proof.
  split.
  - intros H. split_and!; apply H; rewrite !elem_of_cons; tauto.
  - intros (? & ? & ?) x. rewrite !elem_of_cons, elem_of_nil.
    intros [->|[->|[->|[]]]]; done.
Qed.

Lemma length_omap_le {A B} (f : A -> option B) (l : list A) : length (omap f l) <= length l.
Proof. induction l as [|x l IH]; cbn in *; [lia|]. destruct (f x); cbn; lia. Qed.

Lemma StronglySorted_app_inv {A} (R : relation A) (l k : list A) :
  StronglySorted R (l ++ k) -> forall x y, x ∈ l -> y ∈ k -> R x y.
Proof.
  induction l as [|z l IH]; simpl; [set_solver|].
  intros [Hs Hz]%StronglySorted_inv x y [->|Hx]%elem_of_cons Hy; [|by eapply IH].
  rewrite Forall_forall in Hz. apply Hz. set_solver.
Qed.

(** [sort_by_key] is stable; insertion from the right keeps equal keys in
    order. *)
Section SortByKey.
Context {A : Type} (key : A -> N).

Fixpoint insert_by_key (x : A) (l : list A) : list A :=
  match l with
  | [] => [x]
  | y :: l' => if (key x <=? key y)%N then x :: l else y :: insert_by_key x l'
  end.

Definition sort_by_key (l : list A) : list A := foldr insert_by_key [] l.

Definition key_sorted (l : list A) : Prop := StronglySorted (fun x y => (key x <= key y)%N) l.

Lemma insert_by_key_perm x l : insert_by_key x l ≡ₚ x :: l.
Proof.
  induction l as [|y l IH]; simpl; [done|]. destruct (_ <=? _)%N; [done|].
  rewrite IH. apply Permutation_swap.
Qed.

Lemma sort_by_key_perm l : sort_by_key l ≡ₚ l.
Proof. induction l as [|x l IH]; simpl; [done|]. by rewrite insert_by_key_perm, IH. Qed.

Lemma insert_by_key_sorted x l : key_sorted l -> key_sorted (insert_by_key x l).
Proof.
  unfold key_sorted. induction l as [|y l IH]; simpl; [by repeat constructor|].
  intros [Hs Hy]%StronglySorted_inv. destruct (N.leb_spec (key x) (key y)).
  - constructor; [by constructor|]. constructor; [done|].
    eapply Forall_impl; [exact Hy|]. simpl. intros z Hz. lia.
  - constructor; [by apply IH|]. rewrite Forall_forall in *. intros z Hz.
    rewrite insert_by_key_perm in Hz. apply elem_of_cons in Hz as [->|Hz]; [lia|]. by apply Hy.
Qed.

Lemma sort_by_key_sorted l : key_sorted (sort_by_key l).
Proof. induction l; simpl; [constructor | by apply insert_by_key_sorted]. Qed.

Lemma insert_by_key_id x l :
  Forall (fun y => (key x <= key y)%N) l -> insert_by_key x l = x :: l.
Proof.
  destruct l as [|y l]; [done|]. intros [Hy _]%Forall_cons. simpl.
  by rewrite (proj2 (N.leb_le _ _) Hy).
Qed.

Lemma sort_by_key_id l : key_sorted l -> sort_by_key l = l.
Proof.
  induction l as [|x l IH]; [done|]. intros [Hs Hx]%StronglySorted_inv. simpl.
  rewrite IH by done. by apply insert_by_key_id.
Qed.
End SortByKey.

Definition sum_N (l : list N) : N := foldr N.add 0%N l.

Lemma sum_N_app l k : sum_N (l ++ k) = (sum_N l + sum_N k)%N.
Proof. induction l as [|x l IH]; simpl; [done|]. rewrite IH. lia. Qed.

#[export] Instance sum_N_perm : Proper ((≡ₚ) ==> eq) sum_N.
Proof. intros l k. induction 1; simpl; lia. Qed.

(** ** Results

    [Result<A, E>] of the source; [?] is the monadic bind. *)

Inductive result (E A : Type) : Type :=
| Ok (a : A)
| Err (e : E).
Arguments Ok {E A} a.
Arguments Err {E A} e.

#[export] Instance result_ret E : MRet (result E) := fun A a => Ok a.
#[export] Instance result_bind E : MBind (result E) := fun A B f m =>
  match m with Ok a => f a | Err e => Err e end.
#[export] Instance result_fmap E : FMap (result E) := fun A B f m =>
  match m with Ok a => Ok (f a) | Err e => Err e end.
#[export] Instance result_throw E : MThrow E (result E) := fun A e => Err e.
#[export] Instance result_eq_dec E A `{EqDecision E, EqDecision A} : EqDecision (result E A).
Proof. solve_decision. Defined.

Definition ok_or {E A} (o : option A) (e : E) : result E A :=
  match o with Some a => Ok a | None => Err e end.

Definition map_err {E F A} (f : E -> F) (r : result E A) : result F A :=
  match r with Ok a => Ok a | Err e => Err (f e) end.

Definition is_ok {E A} (r : result E A) : bool :=
  match r with Ok _ => true | Err _ => false end.

Definition is_some {A} (o : option A) : bool :=
  match o with Some _ => true | None => false end.

(** [Option::is_some_and] and [Option::is_none_or]. *)
Definition is_some_and {A} (f : A -> bool) (o : option A) : bool :=
  match o with Some a => f a | None => false end.
Definition is_none_or {A} (f : A -> bool) (o : option A) : bool :=
  match o with Some a => f a | None => true end.

Lemma result_bind_Ok {E A B} (m : result E A) (f : A -> result E B) b :
  (m ≫= f) = Ok b <-> exists a, m = Ok a /\ f a = Ok b.
Proof.
  destruct m as [a|e]; simpl; split.
  - eauto.
  - intros (? & [= <-] & ?). done.
  - done.
  - intros (? & ? & _). done.
Qed.

Lemma ok_or_Ok {E A} (o : option A) (e : E) a : ok_or o e = Ok a <-> o = Some a.
Proof. destruct o; simpl; naive_solver. Qed.

Lemma map_err_Ok {E F A} (f : E -> F) (r : result E A) a : map_err f r = Ok a <-> r = Ok a.
Proof. destruct r; simpl; naive_solver. Qed.

(** A [for] loop over a list whose body may return early with an error. *)
Fixpoint try_each {E A} (l : list A) (body : A -> result E unit) : result E unit :=
  match l with
  | [] => Ok tt
  | x :: l' => body x ;; try_each l' body
  end.

Definition err_if {E} (b : bool) (e : E) : result E unit := if b then Err e else Ok tt.

Lemma err_if_Ok {E} (b : bool) (e : E) u : err_if b e = Ok u <-> b = false.
Proof. destruct b, u; done. Qed.

Lemma err_if_seq_Ok {E B} (b : bool) (e : E) (k : result E B) x :
  (err_if b e ;; k) = Ok x <-> b = false /\ k = Ok x.
Proof. destruct b; simpl; naive_solver. Qed.

Lemma result_seq_Ok {E A B} (m : result E A) (k : result E B) b :
  (m ;; k) = Ok b <-> is_ok m = true /\ k = Ok b.
Proof. destruct m; simpl; naive_solver. Qed.

Lemma is_ok_unit {E} (r : result E unit) : is_ok r = true <-> r = Ok tt.
Proof. destruct r as [[]|]; done. Qed.

Lemma try_each_Ok {E A} (l : list A) (body : A -> result E unit) :
  try_each l body = Ok tt <-> forall x, x ∈ l -> body x = Ok tt.
Proof.
  induction l as [|x l IH]; simpl.
  - split; [intros _ x Hx; set_solver | done].
  - rewrite result_seq_Ok, is_ok_unit, IH. split.
    + intros [Hx Hl] y [->|Hy]%elem_of_cons; auto.
    + intros H. split; intros; apply H; set_solver.
Qed.

(** Sequence the results of a list. *)
Fixpoint try_map {E A B} (f : A -> result E B) (l : list A) : result E (list B) :=
  match l with
  | [] => Ok []
  | x :: l' => y ← f x; ys ← try_map f l'; Ok (y :: ys)
  end.

Lemma try_map_Ok {E A B} (f : A -> result E B) (l : list A) ys :
  try_map f l = Ok ys <-> Forall2 (fun x y => f x = Ok y) l ys.
Proof.
  revert ys. induction l as [|x l IH]; intros ys; cbn [try_map].
  - split; [intros [= <-]; constructor | by intros ->%Forall2_nil_inv_l].
  - rewrite result_bind_Ok. setoid_rewrite result_bind_Ok. setoid_rewrite IH. split.
    + intros (y & Hy & zs & Hzs & [= <-]). by constructor.
    + intros (y & zs & Hy & Hzs & ->)%Forall2_cons_inv_l. eauto 6.
Qed.

Lemma try_map_elem {E A B} (f : A -> result E B) (l : list A) ys y :
  try_map f l = Ok ys -> y ∈ ys -> exists x, x ∈ l /\ f x = Ok y.
Proof.
  intros Hl%try_map_Ok Hy. induction Hl as [|x y' l ys Hx _ IH]; [set_solver|].
  apply elem_of_cons in Hy as [->|Hy]; [|destruct (IH Hy)]; set_solver.
Qed.

(** ** Stateful, fallible, possibly trapping computations

    A canister method runs on the canister's state and ends in one of three
    ways: it returns, it returns an error, or it traps.  A returned error does
    {b not} undo the writes made before it: [write_state] persists the state
    its closure leaves behind whatever the closure returns.  So the failing
    outcome carries a state as well.  A trap carries none: the platform rolls
    the message back. *)

Inductive outcome (S E A : Type) : Type :=
| Done (a : A) (s : S)
| Fail (e : E) (s : S)
| Trap.
Arguments Done {S E A} a s.
Arguments Fail {S E A} e s.
Arguments Trap {S E A}.

Definition M (S E A : Type) : Type := S -> outcome S E A.

#[export] Instance M_ret S E : MRet (M S E) := fun A a s => Done a s.
#[export] Instance M_bind S E : MBind (M S E) := fun A B f m s =>
  match m s with
  | Done a s' => f a s'
  | Fail e s' => Fail e s'
  | Trap => Trap
  end.
#[export] Instance M_fmap S E : FMap (M S E) := fun A B f m s =>
  match m s with
  | Done a s' => Done (f a) s'
  | Fail e s' => Fail e s'
  | Trap => Trap
  end.
#[export] Instance M_throw S E : MThrow E (M S E) := fun A e s => Fail e s.

Definition get_state {S E} : M S E S := fun s => Done s s.
Definition put_state {S E} (s : S) : M S E unit := fun _ => Done tt s.
Definition modify {S E} (f : S -> S) : M S E unit := fun s => Done tt (f s).
Definition gets {S E A} (f : S -> A) : M S E A := fun s => Done (f s) s.
Definition trap {S E A} : M S E A := fun _ => Trap.

(** Lift a pure result; [?] on a computation that does not touch the state. *)
Definition lift {S E A} (r : result E A) : M S E A := fun s =>
  match r with Ok a => Done a s | Err e => Fail e s end.

(** [.expect(..)] and [.unwrap()]: a missing value traps. *)
Definition expect {S E A} (o : option A) : M S E A := fun s =>
  match o with Some a => Done a s | None => Trap end.

(** A conditional early return with an error. *)
Definition fail_if {S E} (b : bool) (e : E) : M S E unit :=
  if b then mthrow e else mret tt.

(** A [for] loop over a list whose body may return early with an error. *)
Fixpoint for_each {S E A} (l : list A) (body : A -> M S E unit) : M S E unit :=
  match l with
  | [] => mret tt
  | x :: l' => body x ;; for_each l' body
  end.

(** Run a computation on a component of the state. *)
Definition zoom {S T E A} (get : S -> T) (put : T -> S -> S) (m : M T E A) : M S E A :=
  fun s => match m (get s) with
           | Done a t => Done a (put t s)
           | Fail e t => Fail e (put t s)
           | Trap => Trap
           end.

(** [let result = ...] without [?]: the error becomes a value. *)
Definition catch {S E E' A} (m : M S E A) : M S E' (result E A) := fun s =>
  match m s with
  | Done a s' => Done (Ok a) s'
  | Fail e s' => Done (Err e) s'
  | Trap => Trap
  end.

(** [.map_err(..)]. *)
Definition map_fail {S E E' A} (f : E -> E') (m : M S E A) : M S E' A := fun s =>
  match m s with
  | Done a s' => Done a s'
  | Fail e s' => Fail (f e) s'
  | Trap => Trap
  end.

(** The state an outcome leaves behind, if the message was not rolled back. *)
Definition final_state {S E A} (o : outcome S E A) : option S :=
  match o with Done _ s | Fail _ s => Some s | Trap => None end.

(** *** Partial correctness of computations

    [holds m s P Q]: run from [s], a return satisfies [P] and an error
    satisfies [Q]; a trap satisfies nothing (so [holds] also says that the
    computation does not trap). *)

Definition holds {S E A} (m : M S E A) (s : S) (P : A -> S -> Prop) (Q : E -> S -> Prop) : Prop :=
  match m s with Done a s' => P a s' | Fail e s' => Q e s' | Trap => False end.

(** [stable I R m]: from a state with the invariant [I], the computation [m]
    leaves a state with [I] that is related to the first one by [R], whether it
    returns or fails. *)
Definition stable {S E A} (I : S -> Prop) (R : relation S) (m : M S E A) : Prop :=
  forall s s', final_state (m s) = Some s' -> I s -> I s' /\ R s s'.

Section Stable.
Context {S E : Type} (I : S -> Prop) (R : relation S) `{!PreOrder R}.

Lemma stable_same {A} (m : M S E A) :
  (forall s s', final_state (m s) = Some s' -> s' = s) -> stable I R m.
Proof. intros H s s' Hf HI. by rewrite (H _ _ Hf). Qed.

Lemma stable_ret {A} (a : A) : stable (E:=E) I R (mret a).
Proof. apply stable_same. intros s s' [= <-]. done. Qed.

Lemma stable_throw {A} (e : E) : stable (A:=A) I R (mthrow e).
Proof. apply stable_same. intros s s' [= <-]. done. Qed.

Lemma stable_gets {A} (f : S -> A) : stable (E:=E) I R (gets f).
Proof. apply stable_same. intros s s' [= <-]. done. Qed.

Lemma stable_get_state : stable (E:=E) I R get_state.
Proof. apply stable_same. intros s s' [= <-]. done. Qed.

Lemma stable_lift {A} (r : result E A) : stable I R (lift r).
Proof. apply stable_same. intros s s'. destruct r; intros [= <-]; done. Qed.

Lemma stable_expect {A} (o : option A) : stable (E:=E) I R (expect o).
Proof. apply stable_same. intros s s'. destruct o; [intros [= <-]; done | done]. Qed.

Lemma stable_fail_if (b : bool) (e : E) : stable I R (fail_if b e).
Proof. destruct b; [apply stable_throw | apply stable_ret]. Qed.

Lemma stable_modify (f : S -> S) :
  (forall s, I s -> I (f s) /\ R s (f s)) -> stable (E:=E) I R (modify f).
Proof using Type. intros Hf s s' [= <-] HI. by apply Hf. Qed.

Lemma stable_bind {A B} (m : M S E A) (f : A -> M S E B) :
  stable I R m -> (forall a, stable I R (f a)) -> stable I R (m ≫= f).
Proof.
  intros Hm Hf s s' Hs' HI. unfold mbind, M_bind in Hs'. specialize (Hm s).
  destruct (m s) as [a t|e t|]; [| |discriminate].
  - destruct (Hm t eq_refl HI) as [HIt Ht]. destruct (Hf a t s' Hs' HIt) as [HI' Ht'].
    split; [done|]. by etrans.
  - injection Hs' as ->. by apply Hm.
Qed.

Lemma stable_for_each {A} (l : list A) (body : A -> M S E unit) :
  (forall a, a ∈ l -> stable I R (body a)) -> stable I R (for_each l body).
Proof.
  induction l as [|x l IH]; intros Hb; simpl; [apply stable_ret|].
  apply stable_bind; [apply Hb; set_solver | intros _; apply IH; set_solver].
Qed.

Lemma stable_catch {E' A} (m : M S E A) : stable I R m -> stable (E:=E') I R (catch m).
Proof using Type. intros Hm s s' Hf. apply Hm. unfold catch in Hf. by destruct (m s). Qed.
End Stable.

Lemma stable_map_fail {S E E' A} (I : S -> Prop) (R : relation S) (f : E -> E') (m : M S E A) :
  stable I R m -> stable I R (map_fail f m).
Proof. intros Hm s s' Hf. apply Hm. unfold map_fail in Hf. by destruct (m s). Qed.

Lemma stable_zoom {S T E A} (get : S -> T) (put : T -> S -> S) (I : T -> Prop) (R : relation T)
    (m : M T E A) :
  (forall t s, get (put t s) = t) -> stable I R m ->
  stable (fun s => I (get s)) (fun s s' => R (get s) (get s')) (zoom get put m).
Proof.
  intros Hget Hm s s' Hf HI. unfold zoom in Hf. specialize (Hm (get s)).
  destruct (m (get s)); [| |discriminate]; injection Hf as <-; rewrite Hget; by apply Hm.
Qed.

Create HintDb stable discriminated.
#[export] Hint Extern 0 (PreOrder _) => apply _ : stable.
#[export] Hint Resolve stable_ret stable_throw stable_gets stable_get_state stable_lift
  stable_expect stable_fail_if stable_catch stable_map_fail : stable.

(** [preserves I m]: the invariant [I] survives [m] whether it returns or
    fails. *)
Abbreviation preserves I := (stable I (fun _ _ => True)).

#[export] Instance true_preorder {S} : PreOrder (fun _ _ : S => True).
Proof. by split. Qed.

Lemma M_bind_Done {S E A B} (m : M S E A) (f : A -> M S E B) s b s' :
  (m ≫= f) s = Done b s' <-> exists a t, m s = Done a t /\ f a t = Done b s'.
Proof.
  unfold mbind, M_bind. split.
  - destruct (m s) as [a t|e t|]; [eauto | discriminate..].
  - intros (a & t & -> & Hf). exact Hf.
Qed.

Lemma M_bind_run {S E A B} (m : M S E A) (f : A -> M S E B) s a t :
  m s = Done a t -> (m ≫= f) s = f a t.
Proof. unfold mbind, M_bind. intros ->. done. Qed.

(** Run the elementary steps of a computation that has reached its state. *)
Ltac exec :=
  cbv beta iota zeta delta [mbind M_bind mret M_ret mthrow M_throw fmap M_fmap gets modify
    lift expect fail_if get_state put_state trap ok_or err_if catch].

(** Split a hypothesis [(m ≫= f) s = Done b s'] into its steps. *)
Ltac done_inv :=
  repeat match goal with
  | H : (_ ≫= _) _ = Done _ _ |- _ =>
      let a := fresh "a" in let t := fresh "t" in
      let H1 := fresh "Hrun" in
      apply M_bind_Done in H; destruct H as (a & t & H1 & H)
  | H : lift ?r _ = Done _ _ |- _ =>
      unfold lift in H; destruct r eqn:?; [|discriminate H]
  | H : gets _ _ = Done _ _ |- _ => unfold gets in H
  | H : expect ?o _ = Done _ _ |- _ =>
      unfold expect in H; destruct o eqn:?; [|discriminate H]
  | H : modify _ _ = Done _ _ |- _ => unfold modify in H
  | H : fail_if ?b _ _ = Done _ _ |- _ =>
      unfold fail_if in H; destruct b eqn:?; [discriminate H|]
  | H : mthrow _ _ = Done _ _ |- _ => discriminate H
  | H : mret _ _ = Done _ _ |- _ => unfold mret, M_ret in H
  | H : Done _ _ = Done _ _ |- _ => injection H as ? ?
  end; subst.

(** *** Inverting runs *)

Lemma map_fail_Done {S E E' A} (f : E -> E') (m : M S E A) s a t :
  map_fail f m s = Done a t <-> m s = Done a t.
Proof. unfold map_fail. destruct (m s); naive_solver. Qed.

Lemma lift_Done {S E A} (r : result E A) (s : S) a t :
  lift r s = Done a t <-> r = Ok a /\ t = s.
Proof. unfold lift. destruct r; naive_solver. Qed.

Lemma fail_if_Done {S E} (b : bool) (e : E) (s : S) u t :
  fail_if b e s = Done u t <-> b = false /\ t = s.
Proof. destruct u. unfold fail_if, mthrow, M_throw, mret, M_ret. destruct b; naive_solver. Qed.

Lemma catch_Done {S E E' A} (m : M S E A) s r t :
  (catch m : M S E' _) s = Done r t <->
  match r with Ok a => m s = Done a t | Err e => m s = Fail e t end.
Proof. unfold catch. destruct (m s), r; naive_solver. Qed.

Lemma bind_ext {S E A B} (m : M S E A) (f g : A -> M S E B) s :
  (forall a t, m s = Done a t -> f a t = g a t) ->
  (m ≫= f : M S E B) s = (m ≫= g : M S E B) s.
Proof. intros H. unfold mbind, M_bind. destruct (m s) as [a t| |]; [by apply H|done|done]. Qed.

(** The first step of a run that returned. *)
Tactic Notation "run_inv" hyp(H) "as" ident(a) ident(t) ident(Hrun) :=
  apply M_bind_Done in H; destruct H as (a & t & Hrun & H); rewrite ?map_fail_Done in Hrun.

Lemma M_bind_Fail {S E A B} (m : M S E A) (f : A -> M S E B) s e t :
  (m ≫= f) s = Fail e t -> m s = Fail e t \/ exists a s1, m s = Done a s1 /\ f a s1 = Fail e t.
Proof. unfold mbind, M_bind. destruct (m s) as [a s1| |]; [|naive_solver..]. right. eauto. Qed.

(** The computation fails and leaves the state as it was. *)
Definition stops {S E A} (m : M S E A) (s : S) : Prop := exists e, m s = Fail e s.

Lemma stops_bind {S E A B} (m : M S E A) (k : A -> M S E B) s : stops m s -> stops (m ≫= k) s.
Proof. intros [e He]. exists e. unfold mbind, M_bind. by rewrite He. Qed.

Lemma stops_lift {S E A B} (r : result E A) (k : A -> M S E B) s :
  (forall a, stops (k a) s) -> stops (lift r ≫= k) s.
Proof. intros Hk. destruct r as [a|e]; [apply Hk|by exists e]. Qed.

Lemma stops_fail_if {S E B} (b : bool) (e : E) (k : unit -> M S E B) s :
  stops (k tt) s -> stops (fail_if b e ≫= k) s.
Proof. intros Hk. destruct b; [by exists e|apply Hk]. Qed.

Lemma stops_get_state {S E B} (k : S -> M S E B) s : stops (k s) s -> stops (get_state ≫= k) s.
Proof. done. Qed.

(** ** Ordered maps

    [BTreeMap] and the stable maps iterate in key order; a [gmap] does not.
    [btree_iter m] is the entry list in ascending key order.  [KeyOrder] names
    the order of a key type: lexicographic on the bytes of a string, numeric
    on integers. *)

Class KeyOrder (K : Type) := key_le : relation K.
#[export] Instance string_key_order : KeyOrder string := String.le.
#[export] Instance N_key_order : KeyOrder N := N.le.

Class KeyOrderOk (K : Type) `{KeyOrder K} := {
  key_le_dec :: RelDecision key_le;
  key_le_po :: PartialOrder key_le;
  key_le_total :: Total key_le
}.
#[export] Instance string_key_order_ok : KeyOrderOk string.
Proof. split; unfold key_le, string_key_order; apply _. Defined.
#[export] Instance N_key_order_ok : KeyOrderOk N.
Proof. split; unfold key_le, N_key_order; apply _. Defined.

Section BTree.
Context {K V : Type} `{KeyOrderOk K} `{Countable K}.
Implicit Types m : gmap K V.

Definition entry_le : relation (K * V) := fun p q => key_le p.1 q.1.

#[export] Instance entry_le_dec : RelDecision entry_le := fun p q => key_le_dec p.1 q.1.

#[local] Instance entry_le_total : Total entry_le.
Proof. intros p q. apply (key_le_total p.1 q.1). Qed.

#[local] Instance entry_le_trans : Transitive entry_le.
Proof. intros p q r Hpq Hqr. unfold entry_le in *. by etrans. Qed.

Definition btree_iter m : list (K * V) := merge_sort entry_le (map_to_list m).
Definition btree_keys m : list K := (btree_iter m).*1.
Definition btree_values m : list V := (btree_iter m).*2.

Lemma btree_iter_perm m : btree_iter m ≡ₚ map_to_list m.
Proof. apply merge_sort_Permutation. Qed.

Lemma elem_of_btree_iter m k v : (k, v) ∈ btree_iter m <-> m !! k = Some v.
Proof. rewrite btree_iter_perm. apply elem_of_map_to_list. Qed.

Lemma elem_of_btree_keys m k : k ∈ btree_keys m <-> is_Some (m !! k).
Proof.
    unfold btree_keys. rewrite list_elem_of_fmap. split.
    - intros ([k' v] & -> & Hin%elem_of_btree_iter). eauto.
    - intros [v Hv%elem_of_btree_iter]. by exists (k, v).
Qed.

Lemma elem_of_btree_values m v : v ∈ btree_values m <-> exists k, m !! k = Some v.
Proof.
    unfold btree_values. rewrite list_elem_of_fmap. split.
    - intros ([k v'] & -> & Hin%elem_of_btree_iter). eauto.
    - intros [k Hk%elem_of_btree_iter]. by exists (k, v).
Qed.

Lemma btree_iter_sorted m : StronglySorted entry_le (btree_iter m).
Proof. apply StronglySorted_merge_sort; apply _. Qed.

Lemma NoDup_btree_keys m : NoDup (btree_keys m).
Proof.
    unfold btree_keys. rewrite btree_iter_perm. apply NoDup_fst_map_to_list.
Qed.

Lemma StronglySorted_distinct (l : list (K * V)) :
  StronglySorted entry_le l -> NoDup l.*1 ->
  StronglySorted (fun p q => entry_le p q /\ p.1 <> q.1) l.
Proof.
    intros Hsorted. induction Hsorted as [|p l Hs IH Hp]; [constructor|].
    rewrite fmap_cons. intros [Hp1 Hnd]%NoDup_cons.
    constructor; [by apply IH|]. rewrite Forall_forall in *. intros q Hq.
    split; [by apply Hp|]. intros Heq. apply Hp1. rewrite Heq. by apply list_elem_of_fmap_2.
Qed.

(** No key appears twice, so the order is strict. *)
Lemma btree_iter_strict m :
  StronglySorted (fun p q => entry_le p q /\ p.1 <> q.1) (btree_iter m).
Proof. apply StronglySorted_distinct; [apply btree_iter_sorted | apply NoDup_btree_keys]. Qed.

Lemma StronglySorted_merge_sort_entries (l : list (K * V)) :
  StronglySorted entry_le (merge_sort entry_le l).
Proof. apply StronglySorted_merge_sort; apply _. Qed.

Lemma length_btree_iter m : length (btree_iter m) = size m.
Proof. rewrite btree_iter_perm. apply length_map_to_list. Qed.

  (** The entries in ascending key order are determined by the map. *)
Lemma btree_iter_unique m (l : list (K * V)) :
    StronglySorted entry_le l -> NoDup (l.*1) ->
    (forall k v, (k, v) ∈ l <-> m !! k = Some v) -> btree_iter m = l.
Proof.
    intros Hs Hnd Hm.
    assert (Hp : btree_iter m ≡ₚ l).
    { apply NoDup_Permutation.
      - eapply NoDup_fmap_1, NoDup_btree_keys.
      - by eapply NoDup_fmap_1.
      - intros [k v]. rewrite elem_of_btree_iter, Hm. done. }
    eapply (StronglySorted_unique_strong entry_le); [| apply btree_iter_sorted | done | done].
    intros [k1 v1] [k2 v2] Hin1 Hin2 Hle1 Hle2. unfold entry_le in *; simpl in *.
    assert (k1 = k2) as -> by (by apply (anti_symm (@key_le K _))).
    apply elem_of_btree_iter in Hin1. apply Hm in Hin2. congruence.
Qed.
End BTree.
