(* ===== verification/Text.v ===== *)
(** * Text: the string operations the sources use

    A Rust [String] or [&str] is a [string] of bytes that hold UTF-8.  This
    file writes out the standard-library operations on it that the canisters
    call: the split into [char]s, [trim], the ASCII case operations, prefix
    and substring tests, the decimal text of integers and its parser, and the
    hexadecimal codecs.  Everything computes. *)

From S2P Require Import Prelude.
From Stdlib Require Import Ascii Strings.Byte.

(** ** Characters *)

Definition byte_of (a : ascii) : N := N_of_ascii a.

(** A UTF-8 continuation byte has the bit pattern [10xxxxxx]. *)
Definition is_cont (a : ascii) : bool := (128 <=? byte_of a)%N && (byte_of a <? 192)%N.

(** [str::chars]: one group of bytes per character. *)
Fixpoint chars (s : string) : list string :=
  match s with
  | EmptyString => []
  | String a s' =>
      match s' with
      | String b _ =>
          if is_cont b
          then match chars s' with
               | g :: gs => String a g :: gs
               | [] => [String a EmptyString]
               end
          else String a EmptyString :: chars s'
      | EmptyString => [String a EmptyString]
      end
  end.

(** [collect::<String>] of a sequence of characters. *)
Fixpoint concat_str (l : list string) : string :=
  match l with
  | [] => EmptyString
  | g :: l' => g +:+ concat_str l'
  end.

Fixpoint str_bytes (s : string) : list ascii :=
  match s with EmptyString => [] | String a s' => a :: str_bytes s' end.

(** [str::len] counts bytes, [chars().count()] counts characters. *)
Definition str_len (s : string) : N := N.of_nat (String.length s).
Definition char_count (s : string) : N := N.of_nat (length (chars s)).

Definition is_empty (s : string) : bool :=
  match s with EmptyString => true | _ => false end.

Lemma is_empty_false s : is_empty s = false <-> s <> EmptyString.
Proof. by destruct s. Qed.

Fixpoint all_cont (s : string) : bool :=
  match s with EmptyString => true | String a s' => is_cont a && all_cont s' end.

Definition is_group (g : string) : Prop :=
  match g with EmptyString => False | String _ t => all_cont t = true end.
Definition is_lead_group (g : string) : Prop :=
  match g with EmptyString => False | String a t => is_cont a = false /\ all_cont t = true end.
Definition is_char_list (l : list string) : Prop :=
  match l with [] => True | g :: l' => is_group g /\ Forall is_lead_group l' end.

Lemma concat_chars s : concat_str (chars s) = s.
Proof.
  induction s as [|a s IH]; [done|]. destruct s as [|b s']; [done|].
  change (concat_str (if is_cont b
    then match chars (String b s') with g :: gs => String a g :: gs | [] => [String a ""] end
    else String a "" :: chars (String b s')) = String a (String b s')).
  destruct (is_cont b).
  - destruct (chars (String b s')) as [|g gs]; [discriminate IH|].
    simpl in *. unfold String.app in *. by f_equal.
  - simpl in *. unfold String.app in *. simpl. by f_equal.
Qed.

Lemma chars_String a s :
  chars (String a s) =
  match s with
  | EmptyString => [String a EmptyString]
  | String b _ =>
      if is_cont b
      then match chars s with g :: gs => String a g :: gs | [] => [String a EmptyString] end
      else String a EmptyString :: chars s
  end.
Proof. destruct s; done. Qed.

Lemma chars_head a s :
  exists t gs, chars (String a s) = String a t :: gs /\
    all_cont t = true /\ Forall is_lead_group gs.
Proof.
  revert a. induction s as [|b s IH]; intros a; rewrite chars_String.
  { by exists "", []. }
  destruct (IH b) as (t & gs & Hc & Ht & Hgs). rewrite Hc. destruct (is_cont b) eqn:Hb.
  - exists (String b t), gs. simpl. by rewrite Hb, Ht.
  - exists "", (String b t :: gs). split_and!; [done..|]. by constructor.
Qed.

Lemma chars_wf s : is_char_list (chars s).
Proof.
  destruct s as [|a s]; [done|]. destruct (chars_head a s) as (t & gs & -> & Ht & Hgs).
  by split.
Qed.

Lemma chars_app_group t l :
  all_cont t = true -> Forall is_lead_group l -> forall a,
  chars (concat_str l) = l ->
  chars (String a (t +:+ concat_str l)) = String a t :: l.
Proof.
  intros Ht Hl. induction t as [|b t IH]; intros a Hc.
  - simpl. unfold String.app. destruct l as [|g l]; [done|].
    inversion Hl as [|? ? Hg]; subst. destruct g as [|b g]; [done|].
    destruct Hg as [Hb Hg]. unfold String.app in *. simpl concat_str in *.
    simpl in Hc |- *. rewrite Hb. by rewrite Hc.
  - simpl in Ht. apply andb_true_iff in Ht as [Hb Ht].
    change (String b t +:+ concat_str l) with (String b (t +:+ concat_str l)).
    rewrite chars_String, Hb, (IH Ht b Hc). done.
Qed.

Lemma chars_concat l : is_char_list l -> chars (concat_str l) = l.
Proof.
  destruct l as [|g l]; [done|]. intros [Hg Hl].
  assert (Hcl : chars (concat_str l) = l).
  { clear g Hg. induction Hl as [|g l Hg Hl IH]; [done|].
    destruct g as [|a t]; [done|]. destruct Hg as [_ Ht]. by apply chars_app_group. }
  destruct g as [|a t]; [done|]. by apply chars_app_group.
Qed.

Lemma is_char_list_infix l1 l l2 : is_char_list (l1 ++ l ++ l2) -> is_char_list l.
Proof.
  destruct l as [|g l]; [done|]. destruct l1 as [|g1 l1]; simpl.
  - intros [Hg H%Forall_app]. split; [done|apply H].
  - intros [_ H%Forall_app]. destruct H as [_ H]. inversion H as [|? ? Hg Hl]; subst.
    apply Forall_app in Hl as [Hl _]. split; [|done].
    destruct g; [done|]. apply Hg.
Qed.

(** ** [char::is_whitespace] and [str::trim]

    The characters with the Unicode property White_Space, by their UTF-8
    bytes: U+0009..U+000D, U+0020, U+0085, U+00A0, U+1680, U+2000..U+200A,
    U+2028, U+2029, U+202F, U+205F and U+3000. *)
Definition is_whitespace (c : string) : bool :=
  match byte_of <$> str_bytes c with
  | [b] => ((9 <=? b) && (b <=? 13))%N || (b =? 32)%N
  | [b1; b2] => (b1 =? 194)%N && ((b2 =? 133) || (b2 =? 160))%N
  | [b1; b2; b3] =>
      ((b1 =? 225) && (b2 =? 154) && (b3 =? 128))%N
      || ((b1 =? 226) && (b2 =? 128)
          && (((128 <=? b3) && (b3 <=? 138)) || (b3 =? 168) || (b3 =? 169) || (b3 =? 175)))%N
      || ((b1 =? 226) && (b2 =? 129) && (b3 =? 159))%N
      || ((b1 =? 227) && (b2 =? 128) && (b3 =? 128))%N
  | _ => false
  end.

Fixpoint drop_while {A} (p : A -> bool) (l : list A) : list A :=
  match l with
  | [] => []
  | x :: l' => if p x then drop_while p l' else l
  end.

Definition trim_list {A} (p : A -> bool) (l : list A) : list A :=
  reverse (drop_while p (reverse (drop_while p l))).

Definition trim (s : string) : string := concat_str (trim_list is_whitespace (chars s)).

Section TrimList.
Context {A : Type} (p : A -> bool).
Implicit Types l : list A.

Lemma drop_while_suffix l : exists l1, l = l1 ++ drop_while p l.
Proof.
    induction l as [|x l [l1 IH]]; simpl; [by exists []|].
    destruct (p x); [|by exists []]. exists (x :: l1). simpl. congruence.
Qed.

Lemma drop_while_head l x l' : drop_while p l = x :: l' -> p x = false.
Proof.
    induction l as [|y l IH]; simpl; [done|]. destruct (p y) eqn:Hy; [auto|]. by intros [= <- <-].
Qed.

Lemma drop_while_id l : (forall x l', l = x :: l' -> p x = false) -> drop_while p l = l.
Proof. destruct l as [|x l]; simpl; [done|]. intros H. by rewrite (H x l). Qed.

Lemma trim_list_infix l : exists l1 l2, l = l1 ++ trim_list p l ++ l2.
Proof.
    destruct (drop_while_suffix l) as [l1 H1].
    destruct (drop_while_suffix (reverse (drop_while p l))) as [l2 H2].
    exists l1, (reverse l2). rewrite H1 at 1. f_equal. unfold trim_list.
    rewrite <- reverse_app, <- H2. by rewrite reverse_involutive.
Qed.

Lemma trim_list_idem l : trim_list p (trim_list p l) = trim_list p l.
Proof.
    unfold trim_list at 1. rewrite (drop_while_id (trim_list p l)).
    - unfold trim_list. rewrite reverse_involutive. f_equal. apply drop_while_id.
      intros x l'. apply drop_while_head.
    - intros x l' Hx. unfold trim_list in Hx.
      destruct (drop_while_suffix (reverse (drop_while p l))) as [l2 H2].
      assert (Hr : drop_while p l = (x :: l') ++ reverse l2).
      { rewrite <- Hx, <- reverse_app, <- H2. by rewrite reverse_involutive. }
      by eapply drop_while_head.
Qed.
End TrimList.

Lemma chars_trim s : chars (trim s) = trim_list is_whitespace (chars s).
Proof.
  apply chars_concat. destruct (trim_list_infix is_whitespace (chars s)) as (l1 & l2 & H).
  pose proof (chars_wf s) as Hwf. rewrite H in Hwf. by eapply is_char_list_infix.
Qed.

Lemma trim_idem s : trim (trim s) = trim s.
Proof. unfold trim at 1. by rewrite chars_trim, trim_list_idem. Qed.

(** ** Prefixes, substrings and ASCII case *)

Fixpoint starts_with (s p : string) : bool :=
  match p, s with
  | EmptyString, _ => true
  | String a p', String b s' => bool_decide (a = b) && starts_with s' p'
  | String _ _, EmptyString => false
  end.

(** [str::strip_prefix]. *)
Fixpoint strip_prefix (s p : string) : option string :=
  match p, s with
  | EmptyString, _ => Some s
  | String a p', String b s' => if bool_decide (a = b) then strip_prefix s' p' else None
  | String _ _, EmptyString => None
  end.

(** [str::contains]. *)
Fixpoint contains (s p : string) : bool :=
  starts_with s p || match s with EmptyString => false | String _ s' => contains s' p end.

Fixpoint map_str (f : ascii -> ascii) (s : string) : string :=
  match s with EmptyString => EmptyString | String a s' => String (f a) (map_str f s') end.

Definition ascii_lower (a : ascii) : ascii :=
  let n := byte_of a in
  if (65 <=? n)%N && (n <=? 90)%N then ascii_of_N (n + 32) else a.

Definition to_ascii_lowercase (s : string) : string := map_str ascii_lower s.
Definition eq_ignore_ascii_case (s t : string) : bool :=
  bool_decide (to_ascii_lowercase s = to_ascii_lowercase t).

Lemma eq_ignore_ascii_case_refl s : eq_ignore_ascii_case s s = true.
Proof. by apply bool_decide_eq_true. Qed.

(** [split_whitespace().collect::<Vec<_>>().join(" ")]: runs of whitespace
    collapse to one space and the ends are trimmed. *)
Fixpoint split_chars (acc : list string) (l : list string) : list (list string) :=
  match l with
  | [] => match acc with [] => [] | _ => [reverse acc] end
  | c :: l' =>
      if is_whitespace c
      then match acc with [] => split_chars [] l' | _ => reverse acc :: split_chars [] l' end
      else split_chars (c :: acc) l'
  end.

Definition split_whitespace (s : string) : list string :=
  concat_str <$> split_chars [] (chars s).

Fixpoint join (sep : string) (l : list string) : string :=
  match l with
  | [] => EmptyString
  | [x] => x
  | x :: l' => x +:+ sep +:+ join sep l'
  end.

(** [str::to_lowercase] as far as an ASCII pattern can see it.  ASCII letters
    are lowered; U+212A (Kelvin sign) and U+0130 (dotted capital I) are the
    only other characters whose lowercase contains an ASCII letter.  Every
    other character keeps a lowercase made of non-ASCII, non-whitespace
    characters, for which the character itself stands: neither a substring
    test against an ASCII pattern nor a split at whitespace can tell them
    apart. *)
Definition char_lowercase (c : string) : string :=
  match c with
  | String a EmptyString => String (ascii_lower a) EmptyString
  | _ =>
      if bool_decide (byte_of <$> str_bytes c = [226; 132; 170]%N) then "k"
      else if bool_decide (byte_of <$> str_bytes c = [196; 176]%N)
           then String "i" (String (ascii_of_N 204) (String (ascii_of_N 135) EmptyString))
           else c
  end.

Definition to_lowercase (s : string) : string := concat_str (char_lowercase <$> chars s).

(** ** Decimal integers

    [to_string] and [Display] of an unsigned integer are [pretty]; [parse]
    accepts one leading [+], requires a digit, and fails on any other
    character and on overflow of the width. *)

Definition digit_value (a : ascii) : option N :=
  let n := byte_of a in
  if (48 <=? n)%N && (n <=? 57)%N then Some (n - 48)%N else None.

Fixpoint parse_digits (w acc : N) (s : string) : option N :=
  match s with
  | EmptyString => Some acc
  | String a s' =>
      match digit_value a with
      | Some d =>
          if (acc * 10 + d <=? max_uint w)%N then parse_digits w (acc * 10 + d) s' else None
      | None => None
      end
  end.

Definition parse_uint (w : N) (s : string) : option N :=
  let body := default s (strip_prefix s "+") in
  match body with EmptyString => None | _ => parse_digits w 0 body end.

Lemma digit_value_pretty x : (x < 10)%N -> digit_value (pretty_N_char x) = Some x.
Proof.
  intros H. assert (x = 0 \/ x = 1 \/ x = 2 \/ x = 3 \/ x = 4 \/ x = 5 \/ x = 6
    \/ x = 7 \/ x = 8 \/ x = 9)%N as Hx by lia.
  destruct_or! Hx; subst; reflexivity.
Qed.

Lemma parse_digits_pretty_go w x s :
  in_uint w x -> parse_digits w 0 (pretty_N_go x s) = parse_digits w x s.
Proof.
  unfold in_uint. revert s. induction (N.lt_wf_0 x) as [x _ IH]; intros s Hx.
  assert (x = 0 \/ 0 < x)%N as [->|Hpos] by lia; [by rewrite pretty_N_go_0|].
  rewrite pretty_N_go_step by done.
  assert (Hdm : (x `div` 10 * 10 + x `mod` 10 = x)%N)
    by (pose proof (N.div_mod x 10); lia).
  rewrite IH; [|by apply N.div_lt|pose proof (N.div_lt x 10); lia].
  simpl. rewrite digit_value_pretty by (by apply N.mod_lt). rewrite Hdm.
  by apply N.leb_le in Hx as ->.
Qed.

Lemma pretty_N_go_digit_head x s :
  (forall a s', s = String a s' -> is_Some (digit_value a)) ->
  forall a s', pretty_N_go x s = String a s' -> is_Some (digit_value a).
Proof.
  revert s. induction (N.lt_wf_0 x) as [x _ IH]; intros s Hs a s'.
  assert (x = 0 \/ 0 < x)%N as [->|Hpos] by lia; [rewrite pretty_N_go_0; eauto|].
  rewrite pretty_N_go_step by done. apply IH; [by apply N.div_lt|].
  intros b t [= <- <-]. rewrite digit_value_pretty by (by apply N.mod_lt). eauto.
Qed.

Lemma pretty_N_digit_head (x : N) a s' :
  pretty x = String a s' -> is_Some (digit_value a).
Proof.
  unfold pretty, pretty_N. case_decide.
  - intros [= <- <-]. simpl. eauto.
  - apply pretty_N_go_digit_head. done.
Qed.

Lemma strip_plus_digit s :
  (forall a s', s = String a s' -> is_Some (digit_value a)) -> strip_prefix s "+" = None.
Proof.
  intros H. destruct s as [|a s]; [done|]. simpl. case_bool_decide as Ha; [|done].
  subst. destruct (H _ _ eq_refl) as [? [=]].
Qed.

Lemma pretty_N_nonempty (x : N) : pretty x <> EmptyString.
Proof.
  unfold pretty, pretty_N. case_decide; [done|]. rewrite pretty_N_go_step by lia.
  assert (Hg : forall y s, s <> EmptyString -> pretty_N_go y s <> EmptyString).
  { intros y. induction (N.lt_wf_0 y) as [y _ IH]; intros s Hs.
    assert (y = 0 \/ 0 < y)%N as [->|Hpos] by lia; [by rewrite pretty_N_go_0|].
    rewrite pretty_N_go_step by done. apply IH; [by apply N.div_lt|done]. }
  by apply Hg.
Qed.

(** Printing then parsing an integer of the width gives it back. *)
Lemma parse_uint_pretty w x : in_uint w x -> parse_uint w (pretty x) = Some x.
Proof.
  intros Hx. unfold parse_uint. rewrite strip_plus_digit by (apply pretty_N_digit_head).
  simpl. pose proof (pretty_N_nonempty x) as Hne.
  assert (Hp : parse_digits w 0 (pretty x) = Some x).
  { unfold pretty, pretty_N. case_decide.
    - subst. simpl. by destruct (max_uint w).
    - by rewrite parse_digits_pretty_go. }
  destruct (pretty x); done.
Qed.

Lemma parse_digits_in_uint w s acc x :
  in_uint w acc -> parse_digits w acc s = Some x -> in_uint w x.
Proof.
  revert acc. induction s as [|a s IH]; intros acc Hacc; simpl; [by intros [= <-]|].
  destruct (digit_value a); [|done]. case_match eqn:Hle; [|done].
  apply IH. by apply N.leb_le.
Qed.

Lemma parse_uint_in_uint w s x : parse_uint w s = Some x -> in_uint w x.
Proof.
  unfold parse_uint. destruct (default s (strip_prefix s "+")); [done|].
  apply parse_digits_in_uint. unfold in_uint. lia.
Qed.

(** ** Hexadecimal *)

Definition hex_digit (n : N) : ascii :=
  if (n <? 10)%N then ascii_of_N (48 + n) else ascii_of_N (87 + n).

(** [format!("{byte:02x}")]. *)
Definition hex_byte (b : byte) : string :=
  let n := Byte.to_N b in
  String (hex_digit (n `div` 16)) (String (hex_digit (n `mod` 16)) EmptyString).

(** [format!("{n:0kx}")] for [n < 16 ^ k]. *)
Fixpoint hex_fixed (k : nat) (n : N) : string :=
  match k with
  | O => EmptyString
  | S k' => hex_fixed k' (n `div` 16) +:+ String (hex_digit (n `mod` 16)) EmptyString
  end.

(** [u8::is_ascii_hexdigit] and the digit it stands for. *)
Definition hex_value (a : ascii) : option N :=
  let n := byte_of a in
  if (48 <=? n)%N && (n <=? 57)%N then Some (n - 48)%N
  else if (97 <=? n)%N && (n <=? 102)%N then Some (n - 87)%N
  else if (65 <=? n)%N && (n <=? 70)%N then Some (n - 55)%N
  else None.

(** [u128::from_str_radix(s, 16)] at width [w]. *)
Fixpoint parse_hex_digits (w acc : N) (s : string) : option N :=
  match s with
  | EmptyString => Some acc
  | String a s' =>
      match hex_value a with
      | Some d =>
          if (acc * 16 + d <=? max_uint w)%N then parse_hex_digits w (acc * 16 + d) s' else None
      | None => None
      end
  end.

Definition parse_hex_uint (w : N) (s : string) : option N :=
  let body := default s (strip_prefix s "+") in
  match body with EmptyString => None | _ => parse_hex_digits w 0 body end.

(** [s.trim_start_matches("0x")]. *)
Fixpoint trim_start_0x (s : string) : string :=
  match s with
  | String a (String b s') =>
      if bool_decide (byte_of a = 48%N) && bool_decide (byte_of b = 120%N)
      then trim_start_0x s' else s
  | _ => s
  end.

Definition is_ascii_hexdigit (a : ascii) : bool := is_some (hex_value a).
Definition is_lower_hex_digit (a : ascii) : bool :=
  let n := byte_of a in
  ((48 <=? n)%N && (n <=? 57)%N) || ((97 <=? n)%N && (n <=? 102)%N).

(** [u8::from_str_radix(&body[i..i + 2], 16)] over consecutive pairs. *)
Fixpoint decode_hex_pairs (s : string) : option (list byte) :=
  match s with
  | EmptyString => Some []
  | String a (String b s') =>
      h ← hex_value a; l ← hex_value b;
      v ← Byte.of_N (h * 16 + l); rest ← decode_hex_pairs s'; Some (v :: rest)
  | String _ EmptyString => None
  end.

(** [format!("{s:0>64}")]. *)
Definition pad_64 (s : string) : string :=
  concat_str (replicate (64 - length (chars s)) "0") +:+ s.

Lemma hex_byte_digits b : forallb is_lower_hex_digit (str_bytes (hex_byte b)) = true.
Proof. destruct b; reflexivity. Qed.

Lemma hex_byte_decode b :
  exists h l, str_bytes (hex_byte b) = [h; l] /\
    hex_value h = Some (Byte.to_N b `div` 16)%N /\ hex_value l = Some (Byte.to_N b `mod` 16)%N.
Proof. destruct b; eexists _, _; repeat split. Qed.

Lemma byte_of_div_mod b : Byte.of_N (Byte.to_N b `div` 16 * 16 + Byte.to_N b `mod` 16) = Some b.
Proof. destruct b; reflexivity. Qed.

Lemma str_bytes_app s t : str_bytes (s +:+ t) = str_bytes s ++ str_bytes t.
Proof. induction s as [|a s IH]; [done|]. unfold String.app in *. simpl. by rewrite IH. Qed.

Lemma length_str_bytes s : length (str_bytes s) = String.length s.
Proof. induction s; simpl; congruence. Qed.

Lemma str_bytes_inj s t : str_bytes s = str_bytes t -> s = t.
Proof.
  revert t. induction s as [|a s IH]; intros [|b t]; simpl; [done..|].
  intros [= -> H]. f_equal. auto.
Qed.

Lemma decode_hex_pairs_byte b s :
  decode_hex_pairs (hex_byte b +:+ s) = rest ← decode_hex_pairs s; Some (b :: rest).
Proof.
  destruct (hex_byte_decode b) as (h & l & Hs & Hh & Hl).
  change (hex_byte b +:+ s) with
    (String (hex_digit (Byte.to_N b `div` 16)) (String (hex_digit (Byte.to_N b `mod` 16)) s)).
  unfold hex_byte in Hs. simpl in Hs. injection Hs as <- <-.
  simpl. rewrite Hh, Hl. simpl. rewrite byte_of_div_mod. done.
Qed.

#[global] Instance byte_eq_decision : EqDecision byte := Byte.byte_eq_dec.

(** ** Plain ASCII and lower-case hexadecimal text *)

(** A printable ASCII byte. *)
Definition is_plain (a : ascii) : bool := (33 <=? byte_of a)%N && (byte_of a <? 127)%N.

Lemma chars_plain s :
  forallb is_plain (str_bytes s) = true -> chars s = (fun a => String a EmptyString) <$> str_bytes s.
Proof.
  induction s as [|a s IH]; [done|]. rewrite chars_String. simpl str_bytes.
  intros [Ha Hs]%andb_true_iff. rewrite (IH Hs). destruct s as [|b s]; [done|].
  simpl in Hs. apply andb_true_iff in Hs as [Hb _]. unfold is_plain in Hb.
  replace (is_cont b) with false; [done|]. unfold is_cont.
  destruct (N.leb_spec 128 (byte_of b)); [|done]. apply andb_true_iff in Hb as [_ Hb].
  apply N.ltb_lt in Hb. lia.
Qed.

Lemma plain_not_whitespace a : is_plain a = true -> is_whitespace (String a EmptyString) = false.
Proof.
  unfold is_plain, is_whitespace. simpl. intros [H1 H2]%andb_true_iff.
  apply N.leb_le in H1. apply N.ltb_lt in H2. apply orb_false_iff.
  rewrite andb_false_iff, N.leb_gt, N.leb_gt, N.eqb_neq. lia.
Qed.

Lemma trim_plain s : forallb is_plain (str_bytes s) = true -> trim s = s.
Proof.
  intros Hs. unfold trim. rewrite (chars_plain s Hs).
  assert (Hid : forall l, Forall (fun a => is_plain a = true) l ->
    drop_while is_whitespace ((fun a => String a EmptyString) <$> l)
    = (fun a => String a EmptyString) <$> l).
  { intros [|a l]; [done|]. intros [Ha _]%Forall_cons. simpl. by rewrite plain_not_whitespace. }
  assert (Hplain : Forall (fun a => is_plain a = true) (str_bytes s)).
  { apply Forall_forall. intros a Ha. rewrite forallb_forall in Hs. apply Hs. by apply list_elem_of_In. }
  unfold trim_list. rewrite Hid by done. rewrite <-fmap_reverse, Hid by by apply Forall_reverse.
  rewrite <-fmap_reverse, reverse_involutive. clear. induction s as [|a s IH]; [done|].
  cbn [str_bytes fmap list_fmap concat_str]. rewrite IH. done.
Qed.

Lemma lower_hex_of_hexdigit a :
  is_ascii_hexdigit a = true -> ascii_lower a = a -> is_lower_hex_digit a = true.
Proof. by destruct a as [[] [] [] [] [] [] [] []]. Qed.

Lemma lower_hex_digit_plain a :
  is_lower_hex_digit a = true -> is_plain a = true /\ ascii_lower a = a /\ is_ascii_hexdigit a = true.
Proof. by destruct a as [[] [] [] [] [] [] [] []]. Qed.

Lemma ascii_lower_idem a : ascii_lower (ascii_lower a) = ascii_lower a.
Proof. by destruct a as [[] [] [] [] [] [] [] []]. Qed.

Lemma str_bytes_map_str f s : str_bytes (map_str f s) = f <$> str_bytes s.
Proof. induction s as [|a s IH]; [done|]. simpl. by rewrite IH. Qed.

(** Lower-case hex text with its prefix is trimmed and lower-cased already. *)
Lemma lower_hex_normal body :
  forallb is_lower_hex_digit (str_bytes body) = true ->
  trim ("0x" +:+ body) = "0x" +:+ body
  /\ to_ascii_lowercase ("0x" +:+ body) = "0x" +:+ body
  /\ forallb is_ascii_hexdigit (str_bytes body) = true.
Proof.
  intros Hbody.
  assert (Hall : forall a, a ∈ str_bytes body ->
    is_plain a = true /\ ascii_lower a = a /\ is_ascii_hexdigit a = true).
  { intros a Ha. apply lower_hex_digit_plain. rewrite forallb_forall in Hbody.
    apply Hbody. by apply list_elem_of_In. }
  split; [|split].
  - apply trim_plain. rewrite str_bytes_app, forallb_app. apply andb_true_iff. split; [done|].
    apply forallb_forall. intros a Ha%list_elem_of_In. by apply Hall.
  - unfold to_ascii_lowercase. apply str_bytes_inj. rewrite str_bytes_map_str, str_bytes_app.
    rewrite fmap_app. f_equal. rewrite <-(list_fmap_id (str_bytes body)) at 2.
    apply list_fmap_ext. intros i a Ha. by apply Hall, list_elem_of_lookup_2 with i.
  - apply forallb_forall. intros a Ha%list_elem_of_In. by apply Hall.
Qed.

Lemma strip_0x s : strip_prefix ("0x" +:+ s) "0x" = Some s.
Proof. by destruct s. Qed.

Lemma strip_prefix_Some s p t : strip_prefix s p = Some t -> s = p +:+ t.
Proof.
  revert s. induction p as [|a p IH]; intros s.
  - intros Hs. destruct s; apply (inj Some) in Hs; by subst t.
  - destruct s as [|b s]; [done|]. simpl. case_bool_decide as Hab; [|done].
    subst b. intros Ht. apply IH in Ht. by rewrite Ht.
Qed.
