(* ===== verification/EditDistance.v ===== *)
(** * EditDistance: Levenshtein distance, the specification of heredity

    The contract between the factory and a child bounds how far a child's
    constitution may drift from its parent's.  This file holds what that bound
    is about, independently of the code: edit scripts and their cost, the
    recurrence over prefixes, and the facts about it that a banded evaluation
    relies on.  [SpawnProtocol] models the code and refines it to this. *)

From S2P Require Import Prelude.

Section Edits.
Context {A : Type}.

(** [edits l r k]: the list [l] can be turned into [r] by insertions,
    deletions and substitutions of total cost [k]. *)
Inductive edits : list A -> list A -> N -> Prop :=
| edits_nil : edits [] [] 0
| edits_keep x l r k : edits l r k -> edits (x :: l) (x :: r) k
| edits_subst x y l r k : edits l r k -> edits (x :: l) (y :: r) (1 + k)
| edits_delete x l r k : edits l r k -> edits (x :: l) r (1 + k)
| edits_insert y l r k : edits l r k -> edits l (y :: r) (1 + k).

(** [d] is the edit distance of [l] and [r]. *)
Definition is_edit_distance (l r : list A) (d : N) : Prop :=
    edits l r d /\ forall k, edits l r k -> (d <= k)%N.

Lemma edits_app l1 r1 k1 l2 r2 k2 :
    edits l1 r1 k1 -> edits l2 r2 k2 -> edits (l1 ++ l2) (r1 ++ r2) (k1 + k2).
Proof.
    intros H1 H2. induction H1; simpl; [done|rewrite <- ?N.add_assoc; by constructor..].
Qed.

Lemma is_edit_distance_unique l r d d' :
    is_edit_distance l r d -> is_edit_distance l r d' -> d = d'.
Proof. intros [H1 H2] [H3 H4]. apply N.le_antisymm; auto. Qed.
End Edits.

Lemma drop_cons_inv {A} (l : list A) i x l' :
  drop i l = x :: l' -> l !! i = Some x /\ drop (S i) l = l' /\ S i <= length l.
Proof.
  intros H. assert (Hx : l !! i = Some x).
  { rewrite <- (Nat.add_0_r i), <- lookup_drop, H. done. }
  split_and!; [done| |by apply lookup_lt_Some in Hx].
  rewrite (drop_S _ _ _ Hx) in H. by injection H.
Qed.

Section Lev.
Context {A : Type} `{EqDecision A} (left right : list A).

Definition mismatch (i j : nat) : N := if decide (left !! i = right !! j) then 0 else 1.

(** [lev i j]: the distance between the first [i] elements of [left] and the
    first [j] elements of [right]. *)
Fixpoint lev (i : nat) : nat -> N :=
    match i with
    | O => fun j => N.of_nat j
    | S i' =>
        fix row (j : nat) : N :=
          match j with
          | O => N.of_nat (S i')
          | S j' =>
              N.min (N.min (lev i' (S j') + 1) (row j' + 1)) (lev i' j' + mismatch i' j')
          end
    end.

Lemma lev_0 j : lev 0 j = N.of_nat j.
Proof. reflexivity. Qed.
Lemma lev_S_0 i : lev (S i) 0 = N.of_nat (S i).
Proof. reflexivity. Qed.
Lemma lev_i_0 i : lev i 0 = N.of_nat i.
Proof. destruct i; reflexivity. Qed.
Lemma lev_S_S i j :
    lev (S i) (S j) = N.min (N.min (lev i (S j) + 1) (lev (S i) j + 1)) (lev i j + mismatch i j).
Proof. reflexivity. Qed.

#[local] Opaque lev.

Lemma mismatch_le i j : (mismatch i j <= 1)%N.
Proof. unfold mismatch. case_decide; lia. Qed.

(** Cells off the diagonal are at least their distance from it. *)
Lemma lev_lower i j : (N.of_nat (i - j) + N.of_nat (j - i) <= lev i j)%N.
Proof.
    revert j. induction i as [|i IHi]; intros j; [rewrite (lev_0 j); lia|].
    induction j as [|j IHj]; [rewrite lev_S_0; lia|].
    rewrite lev_S_S. pose proof (IHi (S j)). pose proof (IHi j).
    pose proof (mismatch_le i j). lia.
Qed.

(** Column 1 never exceeds column 0 below the first row. *)
Lemma lev_column_1 i : (lev (S i) 1 <= lev (S i) 0)%N.
Proof. rewrite lev_S_S, lev_S_0, lev_i_0. pose proof (mismatch_le i 0). lia. Qed.

(** If a whole row exceeds a bound, so does every later row. *)
Lemma lev_row_mono t m i :
    (forall j, j <= m -> (t < lev i j)%N) -> forall j, j <= m -> (t < lev (S i) j)%N.
Proof.
    intros H j. induction j as [|j IHj]; intros Hj.
    - rewrite lev_S_0. pose proof (H 0 Hj) as H0. rewrite lev_i_0 in H0. lia.
    - rewrite lev_S_S. pose proof (H (S j) Hj). pose proof (H j ltac:(lia)).
      pose proof (IHj ltac:(lia)). lia.
Qed.

Lemma lev_rows_mono t m i i' :
    i <= i' -> (forall j, j <= m -> (t < lev i j)%N) -> forall j, j <= m -> (t < lev i' j)%N.
Proof.
    intros Hle H. induction Hle as [|i' Hle IH]; [done|]. by apply lev_row_mono.
Qed.

Lemma lev_insert_le i j : (lev i (S j) <= lev i j + 1)%N.
Proof. destruct i; [rewrite (lev_0 j), (lev_0 (S j)); lia | rewrite lev_S_S; lia]. Qed.
Lemma lev_delete_le i j : (lev (S i) j <= lev i j + 1)%N.
Proof. destruct j; [rewrite lev_S_0, lev_i_0; lia | rewrite lev_S_S; lia]. Qed.
Lemma lev_diag_le i j : (lev (S i) (S j) <= lev i j + mismatch i j)%N.
Proof. rewrite lev_S_S. lia. Qed.

(** Some script achieves [lev]. *)
Lemma lev_achieved i j :
    i <= length left -> j <= length right ->
    edits (take i left) (take j right) (lev i j).
Proof.
    revert j. induction i as [|i IHi]; intros j.
    - intros _. induction j as [|j IHj]; intros Hj; [constructor|].
      destruct (lookup_lt_is_Some_2 right j) as [y Hy]; [lia|].
      rewrite (take_S_r _ _ y Hy), take_0, (lev_0 (S j)).
      replace (N.of_nat (S j)) with (N.of_nat j + (1 + 0))%N by lia.
      change (@nil A) with (take 0 left ++ []).
      rewrite <- (lev_0 j). apply edits_app; [apply IHj; lia | repeat constructor].
    - intros Hi. destruct (lookup_lt_is_Some_2 left i) as [x Hx]; [lia|].
      induction j as [|j IHj]; intros Hj.
      + rewrite (take_S_r _ _ x Hx), take_0, lev_S_0.
        replace (N.of_nat (S i)) with (lev i 0 + (1 + 0))%N by (rewrite lev_i_0; lia).
        change (@nil A) with (take 0 right ++ []).
        apply edits_app; [apply IHi; lia | repeat constructor].
      + destruct (lookup_lt_is_Some_2 right j) as [y Hy]; [lia|].
        assert (lev (S i) (S j) = lev i (S j) + (1 + 0) \/
                lev (S i) (S j) = lev (S i) j + (1 + 0) \/
                lev (S i) (S j) = lev i j + mismatch i j)%N as [->|[->| ->]]
          by (rewrite lev_S_S; lia).
        * rewrite (take_S_r _ _ x Hx). rewrite <- (app_nil_r (take (S j) right)).
          apply edits_app; [apply IHi; lia | repeat constructor].
        * rewrite (take_S_r _ _ y Hy). rewrite <- (app_nil_r (take (S i) left)).
          apply edits_app; [apply IHj; lia | repeat constructor].
        * rewrite (take_S_r _ _ x Hx), (take_S_r _ _ y Hy).
          apply edits_app; [apply IHi; lia|]. unfold mismatch. rewrite Hx, Hy.
          case_decide; simplify_eq; [repeat constructor|].
          apply (edits_subst x y [] [] 0). constructor.
Qed.

(** Every script costs at least [lev]. *)
Lemma lev_minimal_from l r k :
    edits l r k -> forall i j, drop i left = l -> drop j right = r ->
    i <= length left -> j <= length right ->
    (lev (length left) (length right) <= lev i j + k)%N.
Proof.
    induction 1 as [|x l r k _ IH|x y l r k _ IH|x l r k _ IH|y l r k _ IH];
      intros i j Hl Hr Hi Hj.
    - apply (f_equal length) in Hl, Hr. rewrite length_drop in Hl, Hr. simpl in *.
      replace i with (length left) by lia. replace j with (length right) by lia. lia.
    - destruct (drop_cons_inv left i x l Hl) as (? & ? & ?).
      destruct (drop_cons_inv right j x r Hr) as (? & ? & ?).
      pose proof (IH (S i) (S j)). pose proof (lev_diag_le i j).
      assert (mismatch i j = 0)%N by (unfold mismatch; by rewrite decide_True by congruence).
      assert (lev (length left) (length right) <= lev (S i) (S j) + k)%N by auto. lia.
    - destruct (drop_cons_inv left i x l Hl) as (? & ? & ?).
      destruct (drop_cons_inv right j y r Hr) as (? & ? & ?).
      pose proof (lev_diag_le i j). pose proof (mismatch_le i j).
      assert (lev (length left) (length right) <= lev (S i) (S j) + k)%N by auto. lia.
    - destruct (drop_cons_inv left i x l Hl) as (? & ? & ?).
      pose proof (lev_delete_le i j).
      assert (lev (length left) (length right) <= lev (S i) j + k)%N by auto. lia.
    - destruct (drop_cons_inv right j y r Hr) as (? & ? & ?).
      pose proof (lev_insert_le i j).
      assert (lev (length left) (length right) <= lev i (S j) + k)%N by auto. lia.
Qed.

Lemma lev_is_edit_distance :
    is_edit_distance left right (lev (length left) (length right)).
Proof.
    split.
    - pose proof (lev_achieved (length left) (length right)) as H.
      rewrite !firstn_all in H. auto.
    - intros k Hk. pose proof (lev_minimal_from _ _ _ Hk 0 0) as H.
      rewrite (lev_0 0) in H. simpl in H. apply H; auto; lia.
Qed.
End Lev.

#[global] Arguments lev : simpl never.
