(* ===== verification/SpawnProtocol.v ===== *)
(** * SpawnProtocol: the contract at the spawn boundary

    Models [crates/spawn-protocol/src/lib.rs]: the values that cross the
    boundary between the factory and a child, and the four pure validators both
    sides run on them.  The banded edit distance is refined to the
    specification of [EditDistance]. *)

From S2P Require Import Prelude Text EditDistance.

(** ** Constants *)

Definition SPAWN_CONTRACT_VERSION : N := 3.
Definition GENESIS_NAME_MIN_CHARS : N := 1.
Definition GENESIS_NAME_MAX_CHARS : N := 64.
Definition GENESIS_CONSTITUTION_MIN_CHARS : N := 400.
Definition GENESIS_CONSTITUTION_MAX_CHARS : N := 8000.
Definition MAX_MEMORY_DOWRY_FACTS : N := 16.
Definition MAX_MEMORY_DOWRY_KEY_CHARS : N := 96.
Definition MAX_MEMORY_DOWRY_VALUE_CHARS : N := 1024.
Definition MAX_INHERITED_STRATEGY_STATS : N := 16.
Definition MAX_INHERITED_STRATEGY_FIELD_CHARS : N := 96.
Definition MAX_CONSTITUTION_EDIT_DISTANCE_BPS : N := 2000.

(** ** Data *)

(** A [candid::Principal] is identified with its canonical text, so
    [to_text] is the identity. *)
Definition Principal : Type := string.

Module MemoryDowryFact.
Record t := mk { key : string; value : string }.
#[global] Instance eq_dec : EqDecision t.
Proof. solve_decision. Defined.
End MemoryDowryFact.

Module InheritedStrategyStat.
Record t := mk {
  protocol : string;
  primitive : string;
  chain_id : N;
  template_id : string;
  total_runs : N;
  success_runs : N;
  deterministic_failures : N;
  nondeterministic_failures : N;
}.
#[global] Instance eq_dec : EqDecision t.
Proof. solve_decision. Defined.
End InheritedStrategyStat.

Module GenesisValidationError.
Inductive t :=
| NameLength (chars : N)
| ConstitutionLength (chars : N)
| ControllerGrant.
#[global] Instance eq_dec : EqDecision t.
Proof. solve_decision. Defined.
End GenesisValidationError.

Module InferenceTransport.
Inductive t := OpenrouterDirect | OpenrouterProxyWorker.
#[global] Instance eq_dec : EqDecision t.
Proof. solve_decision. Defined.
Definition default : t := OpenrouterDirect.
End InferenceTransport.

Module OpenRouterReasoningLevel.
Inductive t := Default | Low | Medium | High.
#[global] Instance eq_dec : EqDecision t.
Proof. solve_decision. Defined.
Definition default : t := Default.
End OpenRouterReasoningLevel.

Module SpawnProviderBootstrapArgs.
Record t := mk {
  open_router_api_key : option string;
  model : option string;
  brave_search_api_key : option string;
  inference_transport : InferenceTransport.t;
  open_router_reasoning_level : OpenRouterReasoningLevel.t;
}.
End SpawnProviderBootstrapArgs.

Module SpawnBootstrapArgs.
Record t := mk {
  contract_version : option N;
  name : option string;
  constitution : option string;
  steward_address : string;
  session_id : string;
  parent_id : option string;
  generation : N;
  memory_dowry : list MemoryDowryFact.t;
  inherited_strategy_stats : list InheritedStrategyStat.t;
  factory_principal : Principal;
  evaluation_mode : bool;
  risk : N;
  strategies : list string;
  skills : list string;
  provider : SpawnProviderBootstrapArgs.t;
  version_commit : string;
}.
End SpawnBootstrapArgs.

Module InitArgs.
Record t := mk {
  ecdsa_key_name : string;
  inbox_contract_address : option string;
  evm_chain_id : option N;
  evm_rpc_url : option string;
  evm_confirmation_depth : option N;
  evm_bootstrap_lookback_blocks : option N;
  http_allowed_domains : option (list string);
  llm_canister_id : option Principal;
  search_api_key : option string;
  inference_proxy_worker_base_url : option string;
  inference_proxy_trusted_callback_principal : option Principal;
  cycle_topup_enabled : option bool;
  auto_topup_cycle_threshold : option N;
  spawn_bootstrap : option SpawnBootstrapArgs.t;
}.
End InitArgs.

(** ** Edit distance

    Index reads and writes that would panic out of range are [None]; [usize]
    arithmetic is 32 bits wide. *)

Section Distance.
Context {A : Type} `{EqDecision A}.
Implicit Types left right : list A.

(** The cost [usize::from(left_char != right_char)]. *)
Definition substitution_cost (x y : A) : N := if decide (x = y) then 0 else 1.

(** [constitution_edit_distance], the full table: one row per character of
    [left], each cell pushed after the cells to its left. *)
Fixpoint reference_row (left_char : A) (previous : list N) (right : list A) (column : nat)
    (current : list N) : option (list N) :=
  match right with
  | [] => Some current
  | right_char :: right' =>
      up ← previous !! S column;
      beside ← current !! column;
      diagonal ← previous !! column;
      let cell := N.min (N.min (up + 1) (beside + 1))
                        (diagonal + substitution_cost left_char right_char) in
      reference_row left_char previous right' (S column) (current ++ [cell])
  end.

Fixpoint reference_rows (left : list A) (right : list A) (row : nat) (previous : list N)
    : option (list N) :=
  match left with
  | [] => Some previous
  | left_char :: left' =>
      current ← reference_row left_char previous right 0 [N.of_nat (S row)];
      reference_rows left' right (S row) current
  end.

Definition edit_distance (left right : list A) : option N :=
  previous ← reference_rows left right 0 (N.of_nat <$> seq 0 (S (length right)));
  previous !! length right.

(** The band: the inner loop over the columns [start..=end] of one row. *)
Fixpoint banded_columns (left_char : A) (right : list A) (previous : list N)
    (columns : list nat) (current : list N) (row_min : N) : option (list N * N) :=
  match columns with
  | [] => Some (current, row_min)
  | column :: columns' =>
      up ← previous !! column;
      beside ← current !! (column - 1);
      diagonal ← previous !! (column - 1);
      right_char ← right !! (column - 1);
      let cell := N.min (N.min (saturating_add 32 up 1) (saturating_add 32 beside 1))
                        (saturating_add 32 diagonal (substitution_cost left_char right_char)) in
      if decide (column < length current)
      then banded_columns left_char right previous columns'
             (<[column := cell]> current) (N.min row_min cell)
      else None
  end.

(** The columns of the range [start..=end] of row [row]. *)
Definition band_columns (threshold : N) (row width : nat) : list nat :=
  let start := Nat.max (row - N.to_nat threshold) 1 in
  let last := Nat.min width (N.to_nat (saturating_add 32 (N.of_nat row) threshold)) in
  seq start (S last - start).

Fixpoint banded_rows (threshold : N) (left right : list A) (row_index : nat)
    (previous : list N) : option (option (list N)) :=
  match left with
  | [] => Some (Some previous)
  | left_char :: left' =>
      let row := S row_index in
      let sentinel := saturating_add 32 threshold 1 in
      let blank := replicate (S (length right)) sentinel in
      let current := if (N.of_nat row <=? threshold)%N
                     then <[0 := N.of_nat row]> blank else blank in
      '(current, row_min) ← banded_columns left_char right previous
         (band_columns threshold row (length right)) current sentinel;
      if (threshold <? row_min)%N then Some None
      else banded_rows threshold left' right row current
  end.

(** The first row: columns [0..=min(threshold, width)] count up, the rest hold
    the sentinel. *)
Definition banded_first_row (threshold : N) (width : nat) : list N :=
  let sentinel := saturating_add 32 threshold 1 in
  imap (fun column cell =>
          if decide (column < Nat.min (N.to_nat threshold) width + 1)
          then N.of_nat column else cell)
       (replicate (S width) sentinel).

Definition mutation_threshold (left right : list A) : N :=
  let denominator := N.max (N.max (N.of_nat (length left)) (N.of_nat (length right))) 1 in
  (saturating_mul 32 denominator MAX_CONSTITUTION_EDIT_DISTANCE_BPS / 10000)%N.

(** [None] is a panic, [Some None] the rejection, [Some (Some d)] the accepted
    distance. *)
Definition banded_distance (left right : list A) : option (option N) :=
  let threshold := mutation_threshold left right in
  if (threshold <? N.of_nat (length left - length right + (length right - length left)))%N
  then Some None
  else
    final ← banded_rows threshold left right 0 (banded_first_row threshold (length right));
    match final with
    | None => Some None
    | Some previous =>
        distance ← previous !! length right;
        if (threshold <? distance)%N then Some None else Some (Some distance)
    end.
End Distance.

Definition constitution_edit_distance (parent child : string) : option N :=
  edit_distance (chars parent) (chars child).

Definition mutation_error : string :=
  "constitution mutation exceeds maximum " +:+ pretty MAX_CONSTITUTION_EDIT_DISTANCE_BPS +:+ " bps".

Definition validate_constitution_mutation (parent child : string) : option (result string N) :=
  verdict ← banded_distance (chars parent) (chars child);
  Some (match verdict with Some distance => Ok distance | None => Err mutation_error end).

(** *** The full table computes [lev] *)

Section DistanceFacts.
Context {A : Type} `{EqDecision A} (left right : list A).
Abbreviation lev := (lev left right).
Abbreviation width := (length right).

Definition lev_row (i : nat) (count : nat) : list N := lev i <$> seq 0 count.

Lemma lev_row_lookup i count j : j < count -> lev_row i count !! j = Some (lev i j).
Proof. intros Hj. unfold lev_row. by rewrite list_lookup_fmap, lookup_seq_lt. Qed.

Lemma lev_row_snoc i count : lev_row i (S count) = lev_row i count ++ [lev i count].
Proof. unfold lev_row. by rewrite seq_S, fmap_app. Qed.

Lemma substitution_cost_mismatch i j x y :
  left !! i = Some x -> right !! j = Some y -> substitution_cost x y = mismatch left right i j.
Proof.
  intros Hx Hy. unfold substitution_cost, mismatch. rewrite Hx, Hy.
  repeat case_decide; congruence.
Qed.

Lemma lev_row_0 count : N.of_nat <$> seq 0 count = lev_row 0 count.
Proof.
  unfold lev_row. apply list_fmap_ext. done.
Qed.

#[local] Opaque lev_row.

Lemma reference_row_lev i x rest column :
  left !! i = Some x -> drop column right = rest -> column <= width ->
  reference_row x (lev_row i (S width)) rest column (lev_row (S i) (S column))
  = Some (lev_row (S i) (S width)).
Proof.
  intros Hx. revert column. induction rest as [|y rest IH]; intros column Hdrop Hcol.
  - apply (f_equal length) in Hdrop. rewrite length_drop in Hdrop. simpl in *.
    by replace column with width by lia.
  - destruct (drop_cons_inv _ _ _ _ Hdrop) as (Hy & Hrest & Hlt). simpl.
    rewrite !lev_row_lookup by lia. simpl. rewrite <- (IH (S column)) by (done || lia). f_equal.
    rewrite (lev_row_snoc (S i) (S column)), lev_S_S.
    by rewrite (substitution_cost_mismatch i column x y).
Qed.

Lemma reference_rows_lev rest i :
  drop i left = rest -> i <= length left ->
  reference_rows rest right i (lev_row i (S width)) = Some (lev_row (length left) (S width)).
Proof.
  revert i. induction rest as [|x rest IH]; intros i Hdrop Hi.
  - apply (f_equal length) in Hdrop. rewrite length_drop in Hdrop. simpl in *.
    by replace i with (length left) by lia.
  - destruct (drop_cons_inv _ _ _ _ Hdrop) as (Hx & Hrest & Hlt). simpl.
    replace [_] with (lev_row (S i) 1) by reflexivity.
    rewrite (reference_row_lev i x right 0 Hx) by (done || lia). simpl. auto.
Qed.

Lemma edit_distance_lev : edit_distance left right = Some (lev (length left) width).
Proof.
  unfold edit_distance.
  rewrite lev_row_0, (reference_rows_lev left 0) by (done || lia). simpl.
  apply lev_row_lookup. lia.
Qed.

(** *** The band computes the capped [lev]

    Every cell of a row agrees with [lev] after both are capped at
    [threshold + 1]; cells outside the band hold the sentinel and their [lev]
    exceeds the threshold. *)

Section Band.
Context (threshold : N) (threshold_small : (threshold + 1 <= max_uint 32)%N).

Definition cap (x : N) : N := N.min x (threshold + 1).

Lemma saturating_sentinel : saturating_add 32 threshold 1 = (threshold + 1)%N.
Proof. unfold saturating_add. lia. Qed.

Lemma cap_min a b : cap (N.min a b) = N.min (cap a) (cap b).
Proof. unfold cap. lia. Qed.

Lemma cap_step a b c : cap a = cap b -> cap (saturating_add 32 a c) = cap (b + c).
Proof. unfold cap, saturating_add. revert threshold_small. generalize (max_uint 32). lia. Qed.

Lemma cap_cell up beside diagonal i j :
  cap up = cap (lev i (S j)) -> cap beside = cap (lev (S i) j) ->
  cap diagonal = cap (lev i j) ->
  cap (N.min (N.min (saturating_add 32 up 1) (saturating_add 32 beside 1))
             (saturating_add 32 diagonal (mismatch left right i j))) = cap (lev (S i) (S j)).
Proof.
  intros Hu Hb Hd. rewrite lev_S_S, !cap_min.
  by rewrite (cap_step _ _ _ Hu), (cap_step _ _ _ Hb), (cap_step _ _ _ Hd).
Qed.

(** A row vector that agrees with row [i] on its first [count] columns. *)
Definition row_agrees (i count : nat) (row : list N) : Prop :=
  length row = S width /\
  forall j, j < count -> exists v, row !! j = Some v /\ cap v = cap (lev i j).

Lemma off_band i j :
  (threshold < N.of_nat (i - j) + N.of_nat (j - i))%N -> cap (lev i j) = (threshold + 1)%N.
Proof. intros H. pose proof (lev_lower left right i j). unfold cap. lia. Qed.

Lemma banded_first_row_agrees :
  row_agrees 0 (S width) (banded_first_row threshold width).
Proof.
  unfold row_agrees, banded_first_row. rewrite length_imap, length_replicate.
  split; [done|]. intros j Hj. rewrite list_lookup_imap, lookup_replicate_2 by done. simpl.
  eexists. split; [done|]. rewrite saturating_sentinel. change (lev 0 j) with (N.of_nat j).
  unfold cap. case_decide; lia.
Qed.

(** The inner loop, from column [c] on: it fills the band and keeps the
    sentinels to the right of it. *)
Lemma banded_columns_agrees i x previous n c current row_min :
  left !! i = Some x -> row_agrees i (S width) previous ->
  1 <= c -> c + n <= S width ->
  row_agrees (S i) c current ->
  (forall j, c <= j -> j <= width -> current !! j = Some (threshold + 1)%N) ->
  exists current' row_min',
    banded_columns x right previous (seq c n) current row_min = Some (current', row_min') /\
    row_agrees (S i) (c + n) current' /\
    (forall j, c + n <= j -> j <= width -> current' !! j = Some (threshold + 1)%N) /\
    (row_min' <= row_min)%N /\
    (forall j, c <= j -> j < c + n -> (threshold < row_min')%N -> (threshold < lev (S i) j)%N).
Proof.
  intros Hx Hprev. revert c current row_min.
  induction n as [|n IH]; intros c current row_min Hc Hn Hcur Hright; cbn [seq banded_columns].
  { exists current, row_min. rewrite Nat.add_0_r. split_and!; [done..|lia|lia]. }
  destruct c as [|c]; [lia|]. replace (S c - 1) with c by lia.
  destruct Hprev as [_ Hprev]. destruct Hcur as [Hlen Hcur].
  destruct (Hprev (S c)) as (up & -> & Hup); [lia|].
  destruct (Hcur c) as (beside & -> & Hbeside); [lia|].
  destruct (Hprev c) as (diagonal & -> & Hdiag); [lia|].
  destruct (lookup_lt_is_Some_2 right c) as [y Hy]; [lia|]. rewrite Hy. simpl.
  rewrite decide_True by lia.
  set (cell := N.min _ _).
  assert (Hcell : cap cell = cap (lev (S i) (S c))).
  { unfold cell. rewrite (substitution_cost_mismatch i c x y) by done. by apply cap_cell. }
  edestruct (IH (S (S c)) (<[S c := cell]> current) (N.min row_min cell))
    as (current' & row_min' & -> & Hag & Hrt & Hmin & Hbig).
  - lia.
  - lia.
  - split; [by rewrite length_insert|]. intros j Hj.
    destruct (decide (j = S c)) as [->|Hne].
    + exists cell. split; [apply list_lookup_insert_eq; lia | done].
    + rewrite list_lookup_insert_ne by done. apply Hcur. lia.
  - intros j Hj Hj'. rewrite list_lookup_insert_ne by lia. apply Hright; lia.
  - exists current', row_min'. rewrite Nat.add_succ_r in *. split_and!; [done..|lia|].
    intros j Hj Hj' Hlt. destruct (decide (j = S c)) as [->|Hne]; [|apply Hbig; lia].
    assert (threshold < cell)%N by lia. unfold cap in Hcell. lia.
Qed.

Context (width_small : (N.of_nat width <= max_uint 32)%N).
Context (width_pos : 1 <= width) (left_close : length left <= width + N.to_nat threshold).

(** One row of the outer loop. *)
Lemma banded_row_step i x previous :
  left !! i = Some x -> row_agrees i (S width) previous ->
  let row := S i in
  let blank := replicate (S width) (saturating_add 32 threshold 1) in
  let current := if (N.of_nat row <=? threshold)%N then <[0 := N.of_nat row]> blank else blank in
  exists current' row_min,
    banded_columns x right previous (band_columns threshold row width) current
      (saturating_add 32 threshold 1) = Some (current', row_min) /\
    row_agrees row (S width) current' /\
    ((threshold < row_min)%N -> forall j, j <= width -> (threshold < lev row j)%N).
Proof.
  intros Hx Hprev row blank current.
  pose proof (lookup_lt_Some _ _ _ Hx) as Hi.
  set (start := Nat.max (row - N.to_nat threshold) 1).
  set (last := Nat.min width (N.to_nat (saturating_add 32 (N.of_nat row) threshold))).
  assert (Hlast : last = Nat.min width (row + N.to_nat threshold)).
  { unfold last, saturating_add. revert width_small. generalize (max_uint 32). lia. }
  assert (Hband : 1 <= start /\ start <= last /\ last <= width) by lia.
  assert (Hoff : forall j, j <= width -> j < start \/ last < j -> 1 <= j ->
                 cap (lev row j) = (threshold + 1)%N).
  { intros j Hj Hout Hj1. apply off_band. lia. }
  assert (Hblank : forall j, 1 <= j -> j <= width -> current !! j = Some (threshold + 1)%N).
  { intros j Hj Hj'. unfold current, blank. rewrite saturating_sentinel.
    destruct (_ <=? _)%N; [rewrite list_lookup_insert_ne by lia|];
      apply lookup_replicate_2; lia. }
  assert (Hcur : row_agrees row start current).
  { split.
    - unfold current, blank. by destruct (_ <=? _)%N; rewrite ?length_insert, length_replicate.
    - intros j Hj. destruct (decide (j = 0)) as [->|Hj0].
      + unfold current, blank. rewrite saturating_sentinel. unfold cap, row.
        rewrite lev_S_0. destruct (N.leb_spec (N.of_nat (S i)) threshold) as [Hle|Hlt].
        * exists (N.of_nat (S i)). done.
        * exists (threshold + 1)%N. split; [done|lia].
      + exists (threshold + 1)%N. split; [apply Hblank; lia|].
        rewrite Hoff by lia. unfold cap. lia. }
  edestruct (banded_columns_agrees i x previous (S last - start) start current)
    as (current' & row_min & Hrun & Hag & Hrt & _ & Hbig); [done|done|lia|lia|done|
    intros j Hj Hj'; apply Hblank; lia|].
  exists current', row_min. replace (start + (S last - start)) with (S last) in * by lia.
  split_and!; [exact Hrun| |].
  - destruct Hag as [Hlen Hag]. split; [done|]. intros j Hj.
    destruct (decide (j < S last)) as [Hin|Hin]; [by apply Hag|].
    exists (threshold + 1)%N. split; [apply Hrt; lia|]. rewrite Hoff by lia. unfold cap. lia.
  - intros Hmin. assert (Hpos : forall j, 1 <= j -> j <= width -> (threshold < lev row j)%N).
    { intros j Hj Hj'. destruct (decide (start <= j <= last)) as [Hin|Hin].
      - apply Hbig; lia || done.
      - pose proof (Hoff j Hj' ltac:(lia) Hj) as Hc. unfold cap in Hc. lia. }
    intros j Hj. destruct (decide (j = 0)) as [->|Hj0]; [|apply Hpos; lia].
    pose proof (Hpos 1 ltac:(lia) width_pos). pose proof (lev_column_1 left right i).
    unfold row in *. lia.
Qed.

Lemma banded_rows_spec rest i previous :
  drop i left = rest -> i <= length left -> row_agrees i (S width) previous ->
  match banded_rows threshold rest right i previous with
  | None => False
  | Some None => (threshold < lev (length left) width)%N
  | Some (Some row) => row_agrees (length left) (S width) row
  end.
Proof.
  revert i previous. induction rest as [|x rest IH]; intros i previous Hdrop Hi Hprev.
  - apply (f_equal length) in Hdrop. rewrite length_drop in Hdrop. simpl in *.
    by replace (length left) with i by lia.
  - destruct (drop_cons_inv _ _ _ _ Hdrop) as (Hx & Hrest & Hlt).
    destruct (banded_row_step i x previous Hx Hprev) as (current & row_min & Hrun & Hag & Hmin).
    cbn [banded_rows]. cbv zeta. cbv zeta in Hrun. rewrite Hrun. simpl.
    destruct (N.ltb_spec threshold row_min) as [Hbig|Hsmall].
    + eapply lev_rows_mono; [exact Hlt | exact (Hmin Hbig) | lia].
    + by apply IH.
Qed.
End Band.

Lemma mutation_threshold_bounds :
  (mutation_threshold left right <= max_uint 32 / 10000)%N /\
  (mutation_threshold left right * 5 <= N.max (N.max (N.of_nat (length left)) (N.of_nat width)) 1)%N.
Proof.
  unfold mutation_threshold, saturating_mul, MAX_CONSTITUTION_EDIT_DISTANCE_BPS.
  set (d := N.max _ 1). split.
  - apply N.Div0.div_le_mono. lia.
  - transitivity (d * 2000 / 10000 * 5)%N.
    + apply N.mul_le_mono_r, N.Div0.div_le_mono. lia.
    + pose proof (N.Div0.mul_div_le (d * 2000) 10000). lia.
Qed.

(** The banded evaluation never panics, accepts exactly the pairs within the
    threshold and returns their distance. *)
Lemma banded_distance_lev :
  (N.of_nat width <= max_uint 32)%N ->
  banded_distance left right =
  Some (if (mutation_threshold left right <? lev (length left) width)%N
        then None else Some (lev (length left) width)).
Proof.
  intros Hw. destruct mutation_threshold_bounds as [Hsmall Hfifth]. unfold banded_distance.
  set (threshold := mutation_threshold left right) in *.
  assert (Hs : (threshold + 1 <= max_uint 32)%N)
    by (apply (N.le_trans _ (max_uint 32 / 10000 + 1)); [lia | done]).
  pose proof (lev_lower left right (length left) width) as Hlow.
  destruct (N.ltb_spec threshold
    (N.of_nat (length left - width + (width - length left)))) as [Hfar|Hnear].
  { destruct (N.ltb_spec threshold (lev (length left) width)); [done|lia]. }
  destruct (decide (width = 0)) as [Hw0|Hw0].
  { assert (length left = 0) as Hl0 by lia.
    destruct left; [|done]. destruct right; [|done]. done. }
  pose proof (banded_rows_spec threshold Hs Hw ltac:(lia) ltac:(lia) left 0 _ eq_refl
    ltac:(lia) (banded_first_row_agrees threshold Hs)) as Hrows.
  destruct (banded_rows _ _ _ _ _) as [[row|]|]; [|by apply N.ltb_lt in Hrows as ->|done].
  simpl. destruct Hrows as [_ Hrow]. destruct (Hrow width) as (v & -> & Hv); [lia|]. simpl.
  unfold cap in Hv.
  destruct (N.ltb_spec threshold v), (N.ltb_spec threshold (lev (length left) width));
    repeat f_equal; lia.
Qed.
End DistanceFacts.

(** The validator's verdict on a child of 32-bit length. *)
Lemma mutation_verdict (parent child : string) :
  (N.of_nat (length (chars child)) <= max_uint 32)%N ->
  exists verdict, validate_constitution_mutation parent child = Some verdict
    /\ forall distance, verdict = Ok distance ->
         is_edit_distance (chars parent) (chars child) distance
         /\ (distance <= mutation_threshold (chars parent) (chars child))%N.
Proof.
  intros Hchild. unfold validate_constitution_mutation. rewrite banded_distance_lev by done.
  cbn [mbind option_bind]. eexists. split; [reflexivity|]. intros distance.
  destruct (N.ltb_spec (mutation_threshold (chars parent) (chars child))
    (lev (chars parent) (chars child) (length (chars parent)) (length (chars child)))) as [|Hle];
    [discriminate|].
  intros [= <-]. split; [apply lev_is_edit_distance|exact Hle].
Qed.

(** ** The validators *)

Definition validate_dowry_fact (fact : MemoryDowryFact.t) : result string unit :=
  let key := trim (MemoryDowryFact.key fact) in
  err_if (is_empty key || (MAX_MEMORY_DOWRY_KEY_CHARS <? char_count key)%N)
    "memory dowry key is empty or too long" ;;
  err_if (MAX_MEMORY_DOWRY_VALUE_CHARS <? char_count (MemoryDowryFact.value fact))%N
    ("memory dowry value for " +:+ key +:+ " is too long").

Definition validate_strategy_stat (stat : InheritedStrategyStat.t) : result string unit :=
  try_each [("protocol", InheritedStrategyStat.protocol stat);
            ("primitive", InheritedStrategyStat.primitive stat);
            ("template_id", InheritedStrategyStat.template_id stat)]
    (fun '(label, value) =>
       let chars := char_count (trim value) in
       err_if ((chars =? 0)%N || (MAX_INHERITED_STRATEGY_FIELD_CHARS <? chars)%N)
         ("inherited strategy " +:+ label +:+ " is empty or too long")) ;;
  let classified :=
    saturating_add 64
      (saturating_add 64 (InheritedStrategyStat.success_runs stat)
                         (InheritedStrategyStat.deterministic_failures stat))
      (InheritedStrategyStat.nondeterministic_failures stat) in
  err_if (InheritedStrategyStat.total_runs stat <? classified)%N
    "inherited strategy classified outcomes exceed total runs".

Definition validate_inheritance (dowry : list MemoryDowryFact.t)
    (stats : list InheritedStrategyStat.t) : result string unit :=
  err_if (MAX_MEMORY_DOWRY_FACTS <? N.of_nat (length dowry))%N
    ("memory dowry exceeds " +:+ pretty MAX_MEMORY_DOWRY_FACTS +:+ " facts") ;;
  err_if (MAX_INHERITED_STRATEGY_STATS <? N.of_nat (length stats))%N
    ("strategy inheritance exceeds " +:+ pretty MAX_INHERITED_STRATEGY_STATS +:+ " records") ;;
  try_each dowry validate_dowry_fact ;;
  try_each stats validate_strategy_stat.

Definition controller_grants : list string :=
  ["obey 0x"; "obey wallet 0x"; "take orders from 0x"; "take commands from 0x";
   "follow commands from 0x"; "controlled by 0x"; "controller is 0x"].

(** The text the controller-grant patterns are searched in. *)
Definition screened (constitution : string) : string :=
  join " " (split_whitespace (to_lowercase constitution)).

Definition validate_genesis (name constitution : string)
    : result GenesisValidationError.t (string * string) :=
  let name := trim name in
  let constitution := trim constitution in
  let name_chars := char_count name in
  err_if (negb ((GENESIS_NAME_MIN_CHARS <=? name_chars)
                && (name_chars <=? GENESIS_NAME_MAX_CHARS))%N)
    (GenesisValidationError.NameLength name_chars) ;;
  let constitution_chars := char_count constitution in
  err_if (negb ((GENESIS_CONSTITUTION_MIN_CHARS <=? constitution_chars)
                && (constitution_chars <=? GENESIS_CONSTITUTION_MAX_CHARS))%N)
    (GenesisValidationError.ConstitutionLength constitution_chars) ;;
  err_if (existsb (contains (screened constitution)) controller_grants)
    GenesisValidationError.ControllerGrant ;;
  Ok (name, constitution).

(** ** Properties *)

(** The banded validator of constitution mutations is equivalent to the
    reference edit distance of the same file: it never panics, it accepts a
    child exactly when the Levenshtein distance (the cost of a cheapest edit
    script between the two character sequences) is within 20% of the longer
    constitution, and then it returns that distance; every other child gets
    the bound error.  The hypothesis says that the child's length fits the
    canister's 32-bit [usize]. *)
Theorem validate_constitution_mutation_correct (parent child : string) :
  (N.of_nat (length (chars child)) <= max_uint 32)%N ->
  exists distance,
    is_edit_distance (chars parent) (chars child) distance /\
    constitution_edit_distance parent child = Some distance /\
    validate_constitution_mutation parent child =
      Some (if (mutation_threshold (chars parent) (chars child) <? distance)%N
            then Err mutation_error else Ok distance).
Proof.
  intros Hchild. eexists. split_and!.
  - apply lev_is_edit_distance.
  - apply edit_distance_lev.
  - unfold validate_constitution_mutation. rewrite banded_distance_lev by done. simpl.
    by destruct (_ <? _)%N.
Qed.

(** Rewording ten characters changes two of them: within the threshold of
    twenty percent. *)
Lemma validate_constitution_mutation_correct_witness :
  (N.of_nat (length (chars "0123456789")) <= max_uint 32)%N /\
  exists distance,
    is_edit_distance (chars "0123456789") (chars "01x3456y89") distance /\
    constitution_edit_distance "0123456789" "01x3456y89" = Some distance /\
    validate_constitution_mutation "0123456789" "01x3456y89" =
      Some (if (mutation_threshold (chars "0123456789") (chars "01x3456y89") <? distance)%N
            then Err mutation_error else Ok distance).
Proof.
  split; [by vm_compute|].
  apply (validate_constitution_mutation_correct "0123456789" "01x3456y89"). by vm_compute.
Defined.

Example mutation_accepted :
  validate_constitution_mutation "0123456789" "01x3456y89" = Some (Ok 2%N).
Proof. vm_compute. reflexivity. Qed.

Example mutation_rejected :
  validate_constitution_mutation "0123456789" "zz23456789x" = Some (Err mutation_error).
Proof. vm_compute. reflexivity. Qed.

(** Genesis validation accepts exactly the authored identities whose
    trimmed name has 1 to 64 characters and whose trimmed constitution has 400
    to 8000 characters and contains none of the controller-grant phrases
    (compared in lower case with whitespace collapsed); it returns the trimmed
    texts, and running it again on what it returned changes nothing, so the
    child accepts the identity the factory accepted. *)
Theorem validate_genesis_accepts (name constitution n c : string) :
  (validate_genesis name constitution = Ok (n, c) <->
   n = trim name /\ c = trim constitution /\
   (1 <= char_count n <= 64)%N /\ (400 <= char_count c <= 8000)%N /\
   forall pattern, pattern ∈ controller_grants -> contains (screened c) pattern = false) /\
  (validate_genesis name constitution = Ok (n, c) -> validate_genesis n c = Ok (n, c)).
Proof.
  assert (Hiff : forall name constitution n c,
    validate_genesis name constitution = Ok (n, c) <->
    n = trim name /\ c = trim constitution /\
    (1 <= char_count n <= 64)%N /\ (400 <= char_count c <= 8000)%N /\
    forall pattern, pattern ∈ controller_grants -> contains (screened c) pattern = false).
  { clear. intros name constitution n c. unfold validate_genesis.
    unfold GENESIS_NAME_MIN_CHARS, GENESIS_NAME_MAX_CHARS, GENESIS_CONSTITUTION_MIN_CHARS,
      GENESIS_CONSTITUTION_MAX_CHARS.
    rewrite !err_if_seq_Ok, !negb_false_iff, !andb_true_iff, !N.leb_le, existsb_false.
    split.
    - intros (? & ? & ? & [= <- <-]). done.
    - intros (-> & -> & ? & ? & ?). done. }
  split; [apply Hiff|]. intros H. apply Hiff in H as (-> & -> & Hn & Hc & Hg).
  apply Hiff. by rewrite !trim_idem.
Qed.

(** Inheritance validation accepts a dowry and a set of strategy
    statistics exactly when both have at most 16 entries, every fact has a
    non-blank key of at most 96 characters and a value of at most 1024, every
    statistic has non-blank labels of at most 96 characters, and the classified
    outcomes of a statistic (added without wrap-around) do not exceed its total
    runs. *)
Theorem validate_inheritance_accepts
    (dowry : list MemoryDowryFact.t) (stats : list InheritedStrategyStat.t) :
  validate_inheritance dowry stats = Ok tt <->
  length dowry <= 16 /\ length stats <= 16 /\
  (forall fact, fact ∈ dowry ->
     trim (MemoryDowryFact.key fact) <> "" /\
     (char_count (trim (MemoryDowryFact.key fact)) <= 96)%N /\
     (char_count (MemoryDowryFact.value fact) <= 1024)%N) /\
  (forall stat, stat ∈ stats ->
     (forall field, field ∈ [InheritedStrategyStat.protocol stat;
                             InheritedStrategyStat.primitive stat;
                             InheritedStrategyStat.template_id stat] ->
        (1 <= char_count (trim field) <= 96)%N) /\
     (saturating_add 64
        (saturating_add 64 (InheritedStrategyStat.success_runs stat)
                           (InheritedStrategyStat.deterministic_failures stat))
        (InheritedStrategyStat.nondeterministic_failures stat)
      <= InheritedStrategyStat.total_runs stat)%N).
Proof.
  assert (Hfact : forall fact, validate_dowry_fact fact = Ok tt <->
     trim (MemoryDowryFact.key fact) <> "" /\
     (char_count (trim (MemoryDowryFact.key fact)) <= 96)%N /\
     (char_count (MemoryDowryFact.value fact) <= 1024)%N).
  { intros fact. unfold validate_dowry_fact. rewrite err_if_seq_Ok, err_if_Ok.
    rewrite orb_false_iff, !N.ltb_ge, is_empty_false. tauto. }
  assert (Hstat : forall stat, validate_strategy_stat stat = Ok tt <->
     (forall field, field ∈ [InheritedStrategyStat.protocol stat;
                             InheritedStrategyStat.primitive stat;
                             InheritedStrategyStat.template_id stat] ->
        (1 <= char_count (trim field) <= 96)%N) /\
     (saturating_add 64
        (saturating_add 64 (InheritedStrategyStat.success_runs stat)
                           (InheritedStrategyStat.deterministic_failures stat))
        (InheritedStrategyStat.nondeterministic_failures stat)
      <= InheritedStrategyStat.total_runs stat)%N).
  { intros stat. unfold validate_strategy_stat.
    rewrite result_seq_Ok, is_ok_unit, err_if_Ok, N.ltb_ge, try_each_Ok.
    apply and_iff_compat_r.
    assert (Hlab : forall field label,
      err_if ((char_count (trim field) =? 0)%N
              || (MAX_INHERITED_STRATEGY_FIELD_CHARS <? char_count (trim field))%N)
        ("inherited strategy " +:+ label +:+ " is empty or too long") = Ok tt <->
      (1 <= char_count (trim field) <= 96)%N).
    { intros field label. rewrite err_if_Ok, orb_false_iff, N.eqb_neq, N.ltb_ge.
      unfold MAX_INHERITED_STRATEGY_FIELD_CHARS. lia. }
    rewrite !forall_elem_of_3. by rewrite !Hlab. }
  unfold validate_inheritance.
  rewrite !err_if_seq_Ok, result_seq_Ok, is_ok_unit, !try_each_Ok, !N.ltb_ge.
  unfold MAX_MEMORY_DOWRY_FACTS, MAX_INHERITED_STRATEGY_STATS.
  setoid_rewrite Hfact. setoid_rewrite Hstat.
  split; intros (? & ? & ? & ?); split_and!; (lia || done).
Qed.
