(* ===== verification/Types.v ===== *)
(** * Types: the factory's data

    Models [backend/factory/src/types.rs]: one module per struct or enum with
    the source's fields and constructors, its [as_str], [default] and small
    methods, and the factory's error type with its [Display].  Integers are
    [N] (see [Prelude]), amounts are decimal strings as in the source. *)

From S2P Require Import Prelude Text SpawnProtocol.
From Stdlib Require Import Strings.Byte.

(** ** Constants *)

Definition BROADCASTING_RELEASE_STATE : string := "broadcasting_release".
Definition MAX_ROOM_MESSAGES_RETAINED : N := 500.
Definition MAX_ROOM_BODY_BYTES : N := 2048.
Definition MAX_ROOM_MENTIONS : N := 16.
Definition DEFAULT_ROOM_READ_LIMIT : N := 50.
Definition MAX_ROOM_READ_LIMIT : N := 100.
Definition REPRODUCTION_MIN_AGE_MS : N := 7 * 24 * 60 * 60 * 1000.
Definition REPRODUCTION_COOLDOWN_MS : N := 3 * 24 * 60 * 60 * 1000.
Definition REPRODUCTION_TERMINAL_RESERVE_USDC_RAW : N := 10000000.
Definition REPRODUCTION_INFERENCE_RESERVE_USDC_RAW : N := 10000000.
Definition REPRODUCTION_TOPUP_RESERVE_USDC_RAW : N := 10000000.
Definition REPRODUCTION_MIN_ENDOWMENT_USDC_RAW : N := 25000000.
Definition REPRODUCTION_PARENT_ROYALTY_BPS : N := 1000.
Definition REPRODUCTION_PROGENITOR_ROYALTY_BPS : N := 500.
Definition DEFAULT_EVM_CONFIRMATION_DEPTH : N := 12.
Definition LOCAL_EVM_CHAIN_ID : N := 31337.
Definition LOCAL_EVM_CONFIRMATION_DEPTH : N := 1.
Definition MAX_EVM_CONFIRMATION_DEPTH : N := 1024.

(** ** Structs and enums *)

Module SpawnSessionOrigin.
Inductive t :=
| Human
| ReproductionOf (arg : string).
#[global] Instance eq_dec : EqDecision t.
Proof. solve_decision. Defined.
Definition default : t := Human.
End SpawnSessionOrigin.

Module ReproductionPolicy.
Record t := mk {
  min_age_ms : N;
  cooldown_ms : N;
  terminal_reserve_usdc_raw : string;
  inference_reserve_usdc_raw : string;
  topup_reserve_usdc_raw : string;
  min_endowment_usdc_raw : string;
  max_constitution_edit_distance_bps : N;
  parent_royalty_bps : N;
  progenitor_royalty_bps : N;
  royalty_depth : N;
}.
#[global] Instance eq_dec : EqDecision t.
Proof. solve_decision. Defined.
#[global] Instance eta_t : Eta t := fun self =>
  mk (min_age_ms self) (cooldown_ms self) (terminal_reserve_usdc_raw self)
    (inference_reserve_usdc_raw self) (topup_reserve_usdc_raw self)
    (min_endowment_usdc_raw self) (max_constitution_edit_distance_bps self)
    (parent_royalty_bps self) (progenitor_royalty_bps self) (royalty_depth self).
Definition default : t := {|
  min_age_ms := REPRODUCTION_MIN_AGE_MS;
  cooldown_ms := REPRODUCTION_COOLDOWN_MS;
  terminal_reserve_usdc_raw := pretty REPRODUCTION_TERMINAL_RESERVE_USDC_RAW;
  inference_reserve_usdc_raw := pretty REPRODUCTION_INFERENCE_RESERVE_USDC_RAW;
  topup_reserve_usdc_raw := pretty REPRODUCTION_TOPUP_RESERVE_USDC_RAW;
  min_endowment_usdc_raw := pretty REPRODUCTION_MIN_ENDOWMENT_USDC_RAW;
  max_constitution_edit_distance_bps := MAX_CONSTITUTION_EDIT_DISTANCE_BPS;
  parent_royalty_bps := REPRODUCTION_PARENT_ROYALTY_BPS;
  progenitor_royalty_bps := REPRODUCTION_PROGENITOR_ROYALTY_BPS;
  royalty_depth := 2;
|}.
End ReproductionPolicy.

Module ReproductionEligibility.
Record t := mk {
  eligible : bool;
  observed_at_ms : N;
  parent_created_at_ms : N;
  minimum_age_at_ms : N;
  cooldown_ends_at_ms : option N;
  reason : option string;
}.
#[global] Instance eq_dec : EqDecision t.
Proof. solve_decision. Defined.
#[global] Instance eta_t : Eta t := fun self =>
  mk (eligible self) (observed_at_ms self) (parent_created_at_ms self)
    (minimum_age_at_ms self) (cooldown_ends_at_ms self) (reason self).
End ReproductionEligibility.

Module RoyaltyAllocation.
Record t := mk {
  recipient : string;
  amount : string;
  depth : N;
  source : string;
}.
#[global] Instance eq_dec : EqDecision t.
Proof. solve_decision. Defined.
#[global] Instance eta_t : Eta t := fun self =>
  mk (recipient self) (amount self) (depth self) (source self).
End RoyaltyAllocation.

Module CreateReproductionSessionRequest.
Record t := mk {
  name : string;
  parent_constitution : string;
  child_constitution : string;
  gross_amount : string;
  observed_liquid_usdc_raw : string;
  memory_dowry : list MemoryDowryFact.t;
  inherited_strategy_stats : list InheritedStrategyStat.t;
}.
#[global] Instance eq_dec : EqDecision t.
Proof. solve_decision. Defined.
#[global] Instance eta_t : Eta t := fun self =>
  mk (name self) (parent_constitution self) (child_constitution self) (gross_amount self)
    (observed_liquid_usdc_raw self) (memory_dowry self) (inherited_strategy_stats self).
End CreateReproductionSessionRequest.

Module SpawnChain.
Inductive t :=
| Base.
#[global] Instance eq_dec : EqDecision t.
Proof. solve_decision. Defined.
Definition as_str (chain : t) : string := match chain with Base => "base" end.
End SpawnChain.

Module FactoryStewardCommand.
Inductive t :=
| RetrySpawnSession (session_id : string)
| ClaimSpawnRefund (session_id : string).
#[global] Instance eq_dec : EqDecision t.
Proof. solve_decision. Defined.
(** [FactoryStewardCommand::session_id]. *)
Definition session_id (command : t) : string :=
  match command with RetrySpawnSession session_id | ClaimSpawnRefund session_id => session_id end.
End FactoryStewardCommand.

Module FactoryStewardProof.
Record t := mk {
  chain_id : N;
  address : string;
  command_hash : string;
  nonce : N;
  expires_at_ns : N;
  signature : string;
}.
#[global] Instance eq_dec : EqDecision t.
Proof. solve_decision. Defined.
#[global] Instance eta_t : Eta t := fun self =>
  mk (chain_id self) (address self) (command_hash self) (nonce self) (expires_at_ns self)
    (signature self).
End FactoryStewardProof.

Module FactoryStewardProofTemplate.
Record t := mk {
  signing_payload : string;
  chain_id : N;
  address : string;
  command_hash : string;
  nonce : N;
  expires_at_ns : N;
}.
#[global] Instance eq_dec : EqDecision t.
Proof. solve_decision. Defined.
#[global] Instance eta_t : Eta t := fun self =>
  mk (signing_payload self) (chain_id self) (address self) (command_hash self) (nonce self)
    (expires_at_ns self).
End FactoryStewardProofTemplate.

Module SpawnAsset.
Inductive t :=
| Usdc.
#[global] Instance eq_dec : EqDecision t.
Proof. solve_decision. Defined.
Definition as_str (asset : t) : string := match asset with Usdc => "usdc" end.
End SpawnAsset.

Module SpawnSessionState.
Inductive t :=
| AwaitingPayment
| PaymentDetected
| Spawning
| BroadcastingRelease
| Complete
| Failed
| Expired.
#[global] Instance eq_dec : EqDecision t.
Proof. solve_decision. Defined.
Definition as_str (state : t) : string :=
  match state with
  | AwaitingPayment => "awaiting_payment"
  | PaymentDetected => "payment_detected"
  | Spawning => "spawning"
  | BroadcastingRelease => BROADCASTING_RELEASE_STATE
  | Complete => "complete"
  | Failed => "failed"
  | Expired => "expired"
  end.
End SpawnSessionState.

Module PaymentStatus.
Inductive t :=
| Unpaid
| Partial
| Paid
| Refunded.
#[global] Instance eq_dec : EqDecision t.
Proof. solve_decision. Defined.
Definition as_str (status : t) : string :=
  match status with
  | Unpaid => "unpaid"
  | Partial => "partial"
  | Paid => "paid"
  | Refunded => "refunded"
  end.
End PaymentStatus.

Module ProviderConfig.
Record t := mk {
  model : option string;
  inference_transport : InferenceTransport.t;
  open_router_reasoning_level : OpenRouterReasoningLevel.t;
}.
#[global] Instance eq_dec : EqDecision t.
Proof. solve_decision. Defined.
#[global] Instance eta_t : Eta t := fun self =>
  mk (model self) (inference_transport self) (open_router_reasoning_level self).
End ProviderConfig.

Module SpawnConfig.
Record t := mk {
  chain : SpawnChain.t;
  risk : N;
  strategies : list string;
  skills : list string;
  provider : ProviderConfig.t;
}.
#[global] Instance eq_dec : EqDecision t.
Proof. solve_decision. Defined.
#[global] Instance eta_t : Eta t := fun self =>
  mk (chain self) (risk self) (strategies self) (skills self) (provider self).
End SpawnConfig.

Module RepositoryStrategyStatus.
Inductive t :=
| Active
| Deprecated
| Revoked.
#[global] Instance eq_dec : EqDecision t.
Proof. solve_decision. Defined.
Definition as_str (status : t) : string :=
  match status with
  | Active => "active"
  | Deprecated => "deprecated"
  | Revoked => "revoked"
  end.
End RepositoryStrategyStatus.

Module RepositoryStrategySource.
Record t := mk {
  source_path : string;
  source_commit : string;
}.
#[global] Instance eq_dec : EqDecision t.
Proof. solve_decision. Defined.
End RepositoryStrategySource.

Module RepositoryStrategySessionSnapshot.
Record t := mk {
  strategy_id : string;
  source_status : RepositoryStrategyStatus.t;
  name : string;
  description : string;
  canonical_chain : SpawnChain.t;
  canonical_chain_id : N;
  requested_spawn_chain : SpawnChain.t;
  resolved_chain_id : option N;
  protocol : string;
  primitive : string;
  recipe_json : string;
  source : RepositoryStrategySource.t;
  selected_at : N;
}.
#[global] Instance eq_dec : EqDecision t.
Proof. solve_decision. Defined.
#[global] Instance eta_t : Eta t := fun self =>
  mk (strategy_id self) (source_status self) (name self) (description self)
    (canonical_chain self) (canonical_chain_id self) (requested_spawn_chain self)
    (resolved_chain_id self) (protocol self) (primitive self) (recipe_json self)
    (source self) (selected_at self).
End RepositoryStrategySessionSnapshot.

Module ReleaseSignatureRecord.
Record t := mk {
  y_parity : bool;
  r : string;
  s : string;
}.
#[global] Instance eq_dec : EqDecision t.
Proof. solve_decision. Defined.
#[global] Instance eta_t : Eta t := fun self =>
  mk (y_parity self) (r self) (s self).
End ReleaseSignatureRecord.

Module ReleaseBroadcastStage.
Inductive t :=
| CalldataEncoding
| SigningPayloadConstruction
| PublicKeyLookup
| Signing
| SignatureRecovery
| RawTransactionConstruction
| RpcBroadcast
| ReceiptConfirmation.
#[global] Instance eq_dec : EqDecision t.
Proof. solve_decision. Defined.
End ReleaseBroadcastStage.

Module RpcFailureCategory.
Inductive t :=
| Transport
| MalformedResponse
| ResponseTooLarge
| RateLimited
| Unavailable
| Upstream.
#[global] Instance eq_dec : EqDecision t.
Proof. solve_decision. Defined.
Definition as_str (category : t) : string :=
  match category with
  | Transport => "transport"
  | MalformedResponse => "malformed_response"
  | ResponseTooLarge => "response_too_large"
  | RateLimited => "rate_limited"
  | Unavailable => "unavailable"
  | Upstream => "upstream"
  end.
End RpcFailureCategory.

Module ReleaseBroadcastFailure.
Record t := mk {
  stage : ReleaseBroadcastStage.t;
  message : string;
  rpc_category : option RpcFailureCategory.t;
  rpc_code : option Z;
  rpc_endpoint : option string;
  occurred_at : N;
}.
#[global] Instance eq_dec : EqDecision t.
Proof. solve_decision. Defined.
#[global] Instance eta_t : Eta t := fun self =>
  mk (stage self) (message self) (rpc_category self) (rpc_code self) (rpc_endpoint self)
    (occurred_at self).
End ReleaseBroadcastFailure.

Module ReleaseBroadcastRecord.
Record t := mk {
  claim_id : string;
  recipient : string;
  escrow_contract_address : string;
  nonce : N;
  chain_id : N;
  max_priority_fee_per_gas : N;
  max_fee_per_gas : N;
  gas_limit : N;
  ecdsa_key_name : option string;
  calldata_hex : string;
  signing_payload_hash : option string;
  signature : option ReleaseSignatureRecord.t;
  raw_transaction_hash : option string;
  raw_transaction_hex : option string;
  rpc_tx_hash : option string;
  broadcast_at : option N;
  receipt_block_number : option N;
  receipt_block_hash : option string;
  receipt_status : option bool;
  last_error : option ReleaseBroadcastFailure.t;
}.
#[global] Instance eq_dec : EqDecision t.
Proof. solve_decision. Defined.
#[global] Instance eta_t : Eta t := fun self =>
  mk (claim_id self) (recipient self) (escrow_contract_address self) (nonce self)
    (chain_id self) (max_priority_fee_per_gas self) (max_fee_per_gas self) (gas_limit self)
    (ecdsa_key_name self) (calldata_hex self) (signing_payload_hash self) (signature self)
    (raw_transaction_hash self) (raw_transaction_hex self) (rpc_tx_hash self)
    (broadcast_at self) (receipt_block_number self) (receipt_block_hash self)
    (receipt_status self) (last_error self).
End ReleaseBroadcastRecord.

Module SpawnSession.
Record t := mk {
  name : option string;
  constitution : option string;
  session_id : string;
  claim_id : string;
  steward_address : string;
  chain : SpawnChain.t;
  asset : SpawnAsset.t;
  gross_amount : string;
  platform_fee : string;
  creation_cost : string;
  net_forward_amount : string;
  quote_terms_hash : string;
  expires_at : N;
  state : SpawnSessionState.t;
  retryable : bool;
  refundable : bool;
  payment_status : PaymentStatus.t;
  last_scanned_block : option N;
  automaton_canister_id : option string;
  automaton_evm_address : option string;
  release_tx_hash : option string;
  release_broadcast_at : option N;
  release_broadcast : option ReleaseBroadcastRecord.t;
  parent_id : option string;
  origin : option SpawnSessionOrigin.t;
  generation : option N;
  parent_constitution_hash : option string;
  memory_dowry : option (list MemoryDowryFact.t);
  inherited_strategy_stats : option (list InheritedStrategyStat.t);
  royalty_allocations : option (list RoyaltyAllocation.t);
  child_ids : list string;
  selected_strategies : list RepositoryStrategySessionSnapshot.t;
  config : SpawnConfig.t;
  created_at : N;
  updated_at : N;
}.
#[global] Instance eq_dec : EqDecision t.
Proof. solve_decision. Defined.
#[global] Instance eta_t : Eta t := fun self =>
  mk (name self) (constitution self) (session_id self) (claim_id self)
    (steward_address self) (chain self) (asset self) (gross_amount self) (platform_fee self)
    (creation_cost self) (net_forward_amount self) (quote_terms_hash self) (expires_at self)
    (state self) (retryable self) (refundable self) (payment_status self)
    (last_scanned_block self) (automaton_canister_id self) (automaton_evm_address self)
    (release_tx_hash self) (release_broadcast_at self) (release_broadcast self)
    (parent_id self) (origin self) (generation self) (parent_constitution_hash self)
    (memory_dowry self) (inherited_strategy_stats self) (royalty_allocations self)
    (child_ids self) (selected_strategies self) (config self) (created_at self)
    (updated_at self).
End SpawnSession.

Module SpawnPaymentInstructions.
Record t := mk {
  session_id : string;
  claim_id : string;
  chain : SpawnChain.t;
  asset : SpawnAsset.t;
  payment_address : string;
  gross_amount : string;
  quote_terms_hash : string;
  expires_at : N;
}.
#[global] Instance eq_dec : EqDecision t.
Proof. solve_decision. Defined.
#[global] Instance eta_t : Eta t := fun self =>
  mk (session_id self) (claim_id self) (chain self) (asset self) (payment_address self)
    (gross_amount self) (quote_terms_hash self) (expires_at self).
Definition from_session (session : SpawnSession.t) (payment_address : string) : t := {|
  session_id := SpawnSession.session_id session;
  claim_id := SpawnSession.claim_id session;
  chain := SpawnSession.chain session;
  asset := SpawnSession.asset session;
  payment_address := payment_address;
  gross_amount := SpawnSession.gross_amount session;
  quote_terms_hash := SpawnSession.quote_terms_hash session;
  expires_at := SpawnSession.expires_at session;
|}.
End SpawnPaymentInstructions.

Module SessionAuditActor.
Inductive t :=
| System
| User
| Admin.
#[global] Instance eq_dec : EqDecision t.
Proof. solve_decision. Defined.
End SessionAuditActor.

Module SessionAuditEntry.
Record t := mk {
  session_id : string;
  timestamp : N;
  from_state : option SpawnSessionState.t;
  to_state : SpawnSessionState.t;
  actor : SessionAuditActor.t;
  reason : string;
}.
#[global] Instance eq_dec : EqDecision t.
Proof. solve_decision. Defined.
#[global] Instance eta_t : Eta t := fun self =>
  mk (session_id self) (timestamp self) (from_state self) (to_state self) (actor self)
    (reason self).
End SessionAuditEntry.

Module SpawnSessionStatusResponse.
Record t := mk {
  session : SpawnSession.t;
  payment : SpawnPaymentInstructions.t;
  audit : list SessionAuditEntry.t;
}.
#[global] Instance eq_dec : EqDecision t.
Proof. solve_decision. Defined.
#[global] Instance eta_t : Eta t := fun self =>
  mk (session self) (payment self) (audit self).
End SpawnSessionStatusResponse.

Module RefundSpawnResponse.
Record t := mk {
  session_id : string;
  state : SpawnSessionState.t;
  payment_status : PaymentStatus.t;
  refunded_at : N;
  refund_tx_hash : option string;
}.
#[global] Instance eq_dec : EqDecision t.
Proof. solve_decision. Defined.
#[global] Instance eta_t : Eta t := fun self =>
  mk (session_id self) (state self) (payment_status self) (refunded_at self)
    (refund_tx_hash self).
End RefundSpawnResponse.

Module FactoryStewardCommandResult.
Inductive t :=
| Retry (arg : SpawnSessionStatusResponse.t)
| Refund (arg : RefundSpawnResponse.t).
#[global] Instance eq_dec : EqDecision t.
Proof. solve_decision. Defined.
End FactoryStewardCommandResult.

Module SpawnProviderSecrets.
Record t := mk {
  open_router_api_key : option string;
  brave_search_api_key : option string;
}.
#[global] Instance eq_dec : EqDecision t.
Proof. solve_decision. Defined.
Definition default : t := mk None None.
End SpawnProviderSecrets.

Module AutomatonChildRuntimeConfig.
Record t := mk {
  ecdsa_key_name : option string;
  inbox_contract_address : option string;
  evm_chain_id : option N;
  evm_rpc_url : option string;
  evm_confirmation_depth : option N;
  evm_bootstrap_lookback_blocks : option N;
  http_allowed_domains : option (list string);
  llm_canister_id : option Principal;
  search_api_key : option string;
  inference_proxy_worker_base_url : option string;
  inference_proxy_trusted_callback_principal : option string;
  cycle_topup_enabled : option bool;
  auto_topup_cycle_threshold : option N;
}.
#[global] Instance eq_dec : EqDecision t.
Proof. solve_decision. Defined.
#[global] Instance eta_t : Eta t := fun self =>
  mk (ecdsa_key_name self) (inbox_contract_address self) (evm_chain_id self)
    (evm_rpc_url self) (evm_confirmation_depth self) (evm_bootstrap_lookback_blocks self)
    (http_allowed_domains self) (llm_canister_id self) (search_api_key self)
    (inference_proxy_worker_base_url self) (inference_proxy_trusted_callback_principal self)
    (cycle_topup_enabled self) (auto_topup_cycle_threshold self).
Definition default : t :=
  mk None None None None None None None None None None None None None.
End AutomatonChildRuntimeConfig.

Module RepositoryStrategyMetadata.
Record t := mk {
  strategy_id : string;
  name : string;
  description : string;
  canonical_chain : SpawnChain.t;
  canonical_chain_id : N;
  compatible_spawn_chains : list SpawnChain.t;
  protocol : string;
  primitive : string;
  source : RepositoryStrategySource.t;
}.
#[global] Instance eq_dec : EqDecision t.
Proof. solve_decision. Defined.
#[global] Instance eta_t : Eta t := fun self =>
  mk (strategy_id self) (name self) (description self) (canonical_chain self)
    (canonical_chain_id self) (compatible_spawn_chains self) (protocol self)
    (primitive self) (source self).
End RepositoryStrategyMetadata.

Module RepositoryStrategyRecord.
Record t := mk {
  metadata : RepositoryStrategyMetadata.t;
  recipe_json : string;
  status : RepositoryStrategyStatus.t;
  created_at : N;
  updated_at : N;
  deprecated_at : option N;
  revoked_at : option N;
}.
#[global] Instance eq_dec : EqDecision t.
Proof. solve_decision. Defined.
#[global] Instance eta_t : Eta t := fun self =>
  mk (metadata self) (recipe_json self) (status self) (created_at self) (updated_at self)
    (deprecated_at self) (revoked_at self).
End RepositoryStrategyRecord.

Module AddRepositoryStrategyRequest.
Record t := mk {
  metadata : RepositoryStrategyMetadata.t;
  recipe_json : string;
}.
#[global] Instance eq_dec : EqDecision t.
Proof. solve_decision. Defined.
End AddRepositoryStrategyRequest.

Module DeprecateRepositoryStrategyRequest.
Record t := mk {
  strategy_id : string;
  reason : option string;
}.
#[global] Instance eq_dec : EqDecision t.
Proof. solve_decision. Defined.
End DeprecateRepositoryStrategyRequest.

Module RevokeRepositoryStrategyRequest.
Record t := mk {
  strategy_id : string;
  reason : option string;
}.
#[global] Instance eq_dec : EqDecision t.
Proof. solve_decision. Defined.
End RevokeRepositoryStrategyRequest.

Module RepositoryStrategyMutationResponse.
Record t := mk {
  strategy : RepositoryStrategyRecord.t;
}.
#[global] Instance eq_dec : EqDecision t.
Proof. solve_decision. Defined.
End RepositoryStrategyMutationResponse.

Module ListRepositoryStrategiesResponse.
Record t := mk {
  items : list RepositoryStrategyRecord.t;
  updated_at : N;
}.
#[global] Instance eq_dec : EqDecision t.
Proof. solve_decision. Defined.
End ListRepositoryStrategiesResponse.

Module GetRepositoryStrategyResponse.
Record t := mk {
  item : option RepositoryStrategyRecord.t;
  updated_at : N;
}.
#[global] Instance eq_dec : EqDecision t.
Proof. solve_decision. Defined.
End GetRepositoryStrategyResponse.

Module CreateSpawnSessionRequest.
Record t := mk {
  name : option string;
  constitution : option string;
  steward_address : string;
  asset : SpawnAsset.t;
  gross_amount : string;
  config : SpawnConfig.t;
  provider_secrets : SpawnProviderSecrets.t;
  parent_id : option string;
}.
#[global] Instance eq_dec : EqDecision t.
Proof. solve_decision. Defined.
#[global] Instance eta_t : Eta t := fun self =>
  mk (name self) (constitution self) (steward_address self) (asset self) (gross_amount self)
    (config self) (provider_secrets self) (parent_id self).
End CreateSpawnSessionRequest.

Module FeeConfig.
Record t := mk {
  usdc_fee : string;
  updated_at : N;
}.
#[global] Instance eq_dec : EqDecision t.
Proof. solve_decision. Defined.
Definition amount_for (config : t) (asset : SpawnAsset.t) : string :=
  match asset with SpawnAsset.Usdc => usdc_fee config end.
End FeeConfig.

Module CreationCostQuote.
Record t := mk {
  usdc_cost : string;
  updated_at : N;
}.
#[global] Instance eq_dec : EqDecision t.
Proof. solve_decision. Defined.
Definition amount_for (quote : t) (asset : SpawnAsset.t) : string :=
  match asset with SpawnAsset.Usdc => usdc_cost quote end.
End CreationCostQuote.

Module ReleaseBroadcastConfig.
Record t := mk {
  chain_id : N;
  max_priority_fee_per_gas : N;
  max_fee_per_gas : N;
  gas_limit : N;
  ecdsa_key_name : string;
}.
#[global] Instance eq_dec : EqDecision t.
Proof. solve_decision. Defined.
#[global] Instance eta_t : Eta t := fun self =>
  mk (chain_id self) (max_priority_fee_per_gas self) (max_fee_per_gas self) (gas_limit self)
    (ecdsa_key_name self).
Definition default : t := {|
  chain_id := 8453;
  max_priority_fee_per_gas := 1000000000;
  max_fee_per_gas := 3000000000;
  gas_limit := 250000;
  ecdsa_key_name := "key_1";
|}.
End ReleaseBroadcastConfig.

Module PaymentEvidenceBlock.
Record t := mk {
  block_number : N;
  block_hash : string;
  amount : string;
}.
#[global] Instance eq_dec : EqDecision t.
Proof. solve_decision. Defined.
#[global] Instance eta_t : Eta t := fun self =>
  mk (block_number self) (block_hash self) (amount self).
End PaymentEvidenceBlock.

Module EscrowClaim.
Record t := mk {
  session_id : string;
  claim_id : string;
  quote_terms_hash : string;
  payment_address : string;
  chain : SpawnChain.t;
  asset : SpawnAsset.t;
  required_gross_amount : string;
  paid_amount : string;
  payment_status : PaymentStatus.t;
  last_scanned_block : option N;
  payment_evidence_block_number : option N;
  payment_evidence_block_hash : option string;
  payment_evidence_increment : option string;
  payment_evidence : list PaymentEvidenceBlock.t;
  refundable : bool;
  refunded_at : option N;
  refund_broadcast : option ReleaseBroadcastRecord.t;
  created_at : N;
  updated_at : N;
}.
#[global] Instance eq_dec : EqDecision t.
Proof. solve_decision. Defined.
#[global] Instance eta_t : Eta t := fun self =>
  mk (session_id self) (claim_id self) (quote_terms_hash self) (payment_address self)
    (chain self) (asset self) (required_gross_amount self) (paid_amount self)
    (payment_status self) (last_scanned_block self) (payment_evidence_block_number self)
    (payment_evidence_block_hash self) (payment_evidence_increment self)
    (payment_evidence self) (refundable self) (refunded_at self) (refund_broadcast self)
    (created_at self) (updated_at self).
End EscrowClaim.

Module SpawnQuote.
Record t := mk {
  session_id : string;
  chain : SpawnChain.t;
  asset : SpawnAsset.t;
  gross_amount : string;
  platform_fee : string;
  creation_cost : string;
  net_forward_amount : string;
  quote_terms_hash : string;
  expires_at : N;
  payment : SpawnPaymentInstructions.t;
}.
#[global] Instance eq_dec : EqDecision t.
Proof. solve_decision. Defined.
#[global] Instance eta_t : Eta t := fun self =>
  mk (session_id self) (chain self) (asset self) (gross_amount self) (platform_fee self)
    (creation_cost self) (net_forward_amount self) (quote_terms_hash self) (expires_at self)
    (payment self).
End SpawnQuote.

Module AutomatonBootstrapEvidence.
Record t := mk {
  bootstrap_contract_version : option N;
  bootstrap_name : option string;
  bootstrap_constitution_hash : option string;
  bootstrap_constitution : option string;
  bootstrap_session_id : option string;
  bootstrap_parent_id : option string;
  bootstrap_factory_principal : option Principal;
  bootstrap_risk : option N;
  bootstrap_strategies : list string;
  bootstrap_skills : list string;
  bootstrap_version_commit : option string;
  steward_address : option string;
  steward_chain_id : option N;
  steward_enabled : option bool;
  evm_address : option string;
}.
#[global] Instance eq_dec : EqDecision t.
Proof. solve_decision. Defined.
#[global] Instance eta_t : Eta t := fun self =>
  mk (bootstrap_contract_version self) (bootstrap_name self)
    (bootstrap_constitution_hash self) (bootstrap_constitution self)
    (bootstrap_session_id self) (bootstrap_parent_id self)
    (bootstrap_factory_principal self) (bootstrap_risk self) (bootstrap_strategies self)
    (bootstrap_skills self) (bootstrap_version_commit self) (steward_address self)
    (steward_chain_id self) (steward_enabled self) (evm_address self).
End AutomatonBootstrapEvidence.

Module AutomatonBootstrapVerification.
Record t := mk {
  checked_at : N;
  passed : bool;
  evidence : AutomatonBootstrapEvidence.t;
  failures : list string;
}.
#[global] Instance eq_dec : EqDecision t.
Proof. solve_decision. Defined.
#[global] Instance eta_t : Eta t := fun self =>
  mk (checked_at self) (passed self) (evidence self) (failures self).
End AutomatonBootstrapVerification.

Module AutomatonRuntimeState.
Record t := mk {
  canister_id : string;
  evm_address : string;
  steward_address : string;
  session_id : string;
  initialized_at : N;
  install_succeeded_at : option N;
  evm_address_derived_at : option N;
  controller_handoff_completed_at : option N;
  funded_amount : string;
  last_funded_at : option N;
  chain : SpawnChain.t;
  risk : N;
  strategies : list string;
  skills : list string;
  model : option string;
  provider_keys_cleared : bool;
  bootstrap_verification : option AutomatonBootstrapVerification.t;
}.
#[global] Instance eq_dec : EqDecision t.
Proof. solve_decision. Defined.
#[global] Instance eta_t : Eta t := fun self =>
  mk (canister_id self) (evm_address self) (steward_address self) (session_id self)
    (initialized_at self) (install_succeeded_at self) (evm_address_derived_at self)
    (controller_handoff_completed_at self) (funded_amount self) (last_funded_at self)
    (chain self) (risk self) (strategies self) (skills self) (model self)
    (provider_keys_cleared self) (bootstrap_verification self).
End AutomatonRuntimeState.

Module CreateSpawnSessionResponse.
Record t := mk {
  session : SpawnSession.t;
  quote : SpawnQuote.t;
}.
#[global] Instance eq_dec : EqDecision t.
Proof. solve_decision. Defined.
End CreateSpawnSessionResponse.

Module SpawnExecutionReceipt.
Record t := mk {
  session_id : string;
  automaton_canister_id : string;
  automaton_evm_address : string;
  funded_amount : string;
  controller : string;
  release_tx_hash : option string;
  release_broadcast_at : option N;
  completed_at : N;
}.
#[global] Instance eq_dec : EqDecision t.
Proof. solve_decision. Defined.
#[global] Instance eta_t : Eta t := fun self =>
  mk (session_id self) (automaton_canister_id self) (automaton_evm_address self)
    (funded_amount self) (controller self) (release_tx_hash self)
    (release_broadcast_at self) (completed_at self).
End SpawnExecutionReceipt.

Module SchedulerJobKind.
Inductive t :=
| PaymentPoll
| SpawnExecution (session_id : string).
#[global] Instance eq_dec : EqDecision t.
Proof. solve_decision. Defined.
End SchedulerJobKind.

Module SchedulerJobStatus.
Inductive t :=
| Pending
| Running
| Completed
| Backoff
| Skipped
| Terminal.
#[global] Instance eq_dec : EqDecision t.
Proof. solve_decision. Defined.
End SchedulerJobStatus.

Module SchedulerFailureAction.
Inductive t :=
| Retry
| Backoff
| Skip
| Terminal.
#[global] Instance eq_dec : EqDecision t.
Proof. solve_decision. Defined.
End SchedulerFailureAction.

Module SchedulerFailureSource.
Inductive t :=
| MissingConfig
| InvalidConfig
| Deterministic
| Transient.
#[global] Instance eq_dec : EqDecision t.
Proof. solve_decision. Defined.
End SchedulerFailureSource.

Module SchedulerJobFailure.
Record t := mk {
  action : SchedulerFailureAction.t;
  source : SchedulerFailureSource.t;
  message : string;
  occurred_at : N;
}.
#[global] Instance eq_dec : EqDecision t.
Proof. solve_decision. Defined.
#[global] Instance eta_t : Eta t := fun self =>
  mk (action self) (source self) (message self) (occurred_at self).
End SchedulerJobFailure.

Module SchedulerJob.
Record t := mk {
  job_id : string;
  kind : SchedulerJobKind.t;
  status : SchedulerJobStatus.t;
  next_run_at_ms : option N;
  leased_at_ms : option N;
  leased_until_ms : option N;
  last_started_at_ms : option N;
  last_finished_at_ms : option N;
  attempt_count : N;
  consecutive_failure_count : N;
  success_count : N;
  last_error : option SchedulerJobFailure.t;
}.
#[global] Instance eq_dec : EqDecision t.
Proof. solve_decision. Defined.
#[global] Instance eta_t : Eta t := fun self =>
  mk (job_id self) (kind self) (status self) (next_run_at_ms self) (leased_at_ms self)
    (leased_until_ms self) (last_started_at_ms self) (last_finished_at_ms self)
    (attempt_count self) (consecutive_failure_count self) (success_count self)
    (last_error self).
End SchedulerJob.

Module SchedulerRuntime.
Record t := mk {
  last_tick_started_ms : option N;
  last_tick_finished_ms : option N;
  last_tick_error : option string;
  active_job_ids : list string;
}.
#[global] Instance eq_dec : EqDecision t.
Proof. solve_decision. Defined.
#[global] Instance eta_t : Eta t := fun self =>
  mk (last_tick_started_ms self) (last_tick_finished_ms self) (last_tick_error self)
    (active_job_ids self).
Definition default : t := mk None None None [].
End SchedulerRuntime.

Module FactorySchedulerJobCounts.
Record t := mk {
  total : N;
  pending : N;
  running : N;
  completed : N;
  backoff : N;
  skipped : N;
  terminal : N;
  with_last_error : N;
}.
#[global] Instance eq_dec : EqDecision t.
Proof. solve_decision. Defined.
#[global] Instance eta_t : Eta t := fun self =>
  mk (total self) (pending self) (running self) (completed self) (backoff self)
    (skipped self) (terminal self) (with_last_error self).
Definition default : t := mk 0 0 0 0 0 0 0 0.
End FactorySchedulerJobCounts.

Module FactorySchedulerHealthSnapshot.
Record t := mk {
  last_tick_started_ms : option N;
  last_tick_finished_ms : option N;
  last_tick_error : option string;
  active_job_ids : list string;
  job_counts : FactorySchedulerJobCounts.t;
  retry_queue_count : N;
}.
#[global] Instance eq_dec : EqDecision t.
Proof. solve_decision. Defined.
#[global] Instance eta_t : Eta t := fun self =>
  mk (last_tick_started_ms self) (last_tick_finished_ms self) (last_tick_error self)
    (active_job_ids self) (job_counts self) (retry_queue_count self).
End FactorySchedulerHealthSnapshot.

Module FactoryRuntimeSnapshot.
Record t := mk {
  scheduler : FactorySchedulerHealthSnapshot.t;
  active_jobs : list SchedulerJob.t;
  retry_queue : list SchedulerJob.t;
  recent_jobs : list SchedulerJob.t;
  failed_jobs : list SchedulerJob.t;
}.
#[global] Instance eq_dec : EqDecision t.
Proof. solve_decision. Defined.
#[global] Instance eta_t : Eta t := fun self =>
  mk (scheduler self) (active_jobs self) (retry_queue self) (recent_jobs self)
    (failed_jobs self).
End FactoryRuntimeSnapshot.

Module SpawnedAutomatonRecord.
Record t := mk {
  name : option string;
  constitution_hash : option string;
  canister_id : string;
  steward_address : string;
  evm_address : string;
  chain : SpawnChain.t;
  session_id : string;
  parent_id : option string;
  generation : option N;
  parent_constitution_hash : option string;
  royalty_allocations : option (list RoyaltyAllocation.t);
  child_ids : list string;
  created_at : N;
  version_commit : string;
  controllers : option (list string);
  control_status : option string;
  control_verified_at : option N;
  death_cause : option string;
  died_at : option N;
  estate_disposition : option string;
  death_recorded_by : option string;
  death_incident_reference : option string;
}.
#[global] Instance eq_dec : EqDecision t.
Proof. solve_decision. Defined.
#[global] Instance eta_t : Eta t := fun self =>
  mk (name self) (constitution_hash self) (canister_id self) (steward_address self)
    (evm_address self) (chain self) (session_id self) (parent_id self) (generation self)
    (parent_constitution_hash self) (royalty_allocations self) (child_ids self)
    (created_at self) (version_commit self) (controllers self) (control_status self)
    (control_verified_at self) (death_cause self) (died_at self) (estate_disposition self)
    (death_recorded_by self) (death_incident_reference self).
End SpawnedAutomatonRecord.

Module ReportDeathRequest.
Record t := mk {
  cause : string;
  estate_disposition : string;
  terminal_turn_id : string;
}.
#[global] Instance eq_dec : EqDecision t.
Proof. solve_decision. Defined.
#[global] Instance eta_t : Eta t := fun self =>
  mk (cause self) (estate_disposition self) (terminal_turn_id self).
End ReportDeathRequest.

Module RecordInfrastructureDeathRequest.
Record t := mk {
  canister_id : string;
  incident_reference : string;
  estate_disposition : string;
}.
#[global] Instance eq_dec : EqDecision t.
Proof. solve_decision. Defined.
#[global] Instance eta_t : Eta t := fun self =>
  mk (canister_id self) (incident_reference self) (estate_disposition self).
End RecordInfrastructureDeathRequest.

Module SpawnedAutomatonRegistryPage.
Record t := mk {
  items : list SpawnedAutomatonRecord.t;
  next_cursor : option string;
}.
#[global] Instance eq_dec : EqDecision t.
Proof. solve_decision. Defined.
End SpawnedAutomatonRegistryPage.

Module RoomState.
Record t := mk {
  next_seq : N;
  oldest_seq : option N;
  latest_seq : option N;
}.
#[global] Instance eq_dec : EqDecision t.
Proof. solve_decision. Defined.
#[global] Instance eta_t : Eta t := fun self =>
  mk (next_seq self) (oldest_seq self) (latest_seq self).
Definition default : t := mk 0 None None.
End RoomState.

Module RoomContentType.
Inductive t :=
| TextPlain
| ApplicationJson.
#[global] Instance eq_dec : EqDecision t.
Proof. solve_decision. Defined.
Definition default : t := TextPlain.
Definition as_str (content_type : t) : string :=
  match content_type with
  | TextPlain => "text/plain"
  | ApplicationJson => "application/json"
  end.
End RoomContentType.

Module RoomMessage.
Record t := mk {
  message_id : string;
  seq : N;
  author_canister_id : string;
  created_at : N;
  body : string;
  mentions : list string;
  content_type : RoomContentType.t;
}.
#[global] Instance eq_dec : EqDecision t.
Proof. solve_decision. Defined.
#[global] Instance eta_t : Eta t := fun self =>
  mk (message_id self) (seq self) (author_canister_id self) (created_at self) (body self)
    (mentions self) (content_type self).
End RoomMessage.

Module RoomMessagePage.
Record t := mk {
  messages : list RoomMessage.t;
  next_after_seq : option N;
  latest_seq : option N;
}.
#[global] Instance eq_dec : EqDecision t.
Proof. solve_decision. Defined.
#[global] Instance eta_t : Eta t := fun self =>
  mk (messages self) (next_after_seq self) (latest_seq self).
End RoomMessagePage.

Module PostRoomMessageRequest.
Record t := mk {
  body : string;
  mentions : option (list string);
  content_type : option RoomContentType.t;
}.
#[global] Instance eq_dec : EqDecision t.
Proof. solve_decision. Defined.
#[global] Instance eta_t : Eta t := fun self =>
  mk (body self) (mentions self) (content_type self).
End PostRoomMessageRequest.

Module FactoryConfigSnapshot.
Record t := mk {
  fee_config : FeeConfig.t;
  creation_cost_quote : CreationCostQuote.t;
  release_broadcast_config : ReleaseBroadcastConfig.t;
  child_runtime : AutomatonChildRuntimeConfig.t;
  pause : bool;
  payment_address : string;
  escrow_contract_address : string;
  factory_evm_address : option string;
  base_rpc_endpoint : option string;
  base_rpc_fallback_endpoint : option string;
  cycles_per_spawn : N;
  min_pool_balance : N;
  estimated_outcall_cycles_per_interval : N;
  evm_confirmation_depth : N;
  session_ttl_ms : N;
  version_commit : string;
  wasm_sha256 : option string;
}.
#[global] Instance eq_dec : EqDecision t.
Proof. solve_decision. Defined.
#[global] Instance eta_t : Eta t := fun self =>
  mk (fee_config self) (creation_cost_quote self) (release_broadcast_config self)
    (child_runtime self) (pause self) (payment_address self) (escrow_contract_address self)
    (factory_evm_address self) (base_rpc_endpoint self) (base_rpc_fallback_endpoint self)
    (cycles_per_spawn self) (min_pool_balance self)
    (estimated_outcall_cycles_per_interval self) (evm_confirmation_depth self)
    (session_ttl_ms self) (version_commit self) (wasm_sha256 self).
End FactoryConfigSnapshot.

Module FactoryOperationalConfig.
Record t := mk {
  cycles_per_spawn : N;
  min_pool_balance : N;
  estimated_outcall_cycles_per_interval : N;
  evm_confirmation_depth : N;
}.
#[global] Instance eq_dec : EqDecision t.
Proof. solve_decision. Defined.
#[global] Instance eta_t : Eta t := fun self =>
  mk (cycles_per_spawn self) (min_pool_balance self)
    (estimated_outcall_cycles_per_interval self) (evm_confirmation_depth self).
End FactoryOperationalConfig.

Module FactoryArtifactSnapshot.
Record t := mk {
  loaded : bool;
  wasm_sha256 : option string;
  version_commit : option string;
  wasm_size_bytes : option N;
}.
#[global] Instance eq_dec : EqDecision t.
Proof. solve_decision. Defined.
#[global] Instance eta_t : Eta t := fun self =>
  mk (loaded self) (wasm_sha256 self) (version_commit self) (wasm_size_bytes self).
End FactoryArtifactSnapshot.

Module PendingArtifactUpload.
Record t := mk {
  expected_sha256 : string;
  version_commit : string;
  total_size_bytes : N;
  wasm_bytes : list byte;
}.
#[global] Instance eq_dec : EqDecision t.
Proof. solve_decision. Defined.
#[global] Instance eta_t : Eta t := fun self =>
  mk (expected_sha256 self) (version_commit self) (total_size_bytes self) (wasm_bytes self).
End PendingArtifactUpload.

Module ArtifactUploadStatus.
Record t := mk {
  in_progress : bool;
  expected_sha256 : option string;
  version_commit : option string;
  total_size_bytes : option N;
  received_size_bytes : N;
}.
#[global] Instance eq_dec : EqDecision t.
Proof. solve_decision. Defined.
#[global] Instance eta_t : Eta t := fun self =>
  mk (in_progress self) (expected_sha256 self) (version_commit self) (total_size_bytes self)
    (received_size_bytes self).
End ArtifactUploadStatus.

Module FactorySessionHealthCounts.
Record t := mk {
  awaiting_payment : N;
  payment_detected : N;
  spawning : N;
  broadcasting_release : N;
  retryable_failed : N;
}.
#[global] Instance eq_dec : EqDecision t.
Proof. solve_decision. Defined.
#[global] Instance eta_t : Eta t := fun self =>
  mk (awaiting_payment self) (payment_detected self) (spawning self)
    (broadcasting_release self) (retryable_failed self).
Definition default : t := mk 0 0 0 0 0.
Definition active_total (counts : t) : N :=
  wrapping_add 64 (wrapping_add 64 (wrapping_add 64 (wrapping_add 64
    (awaiting_payment counts) (payment_detected counts)) (spawning counts))
    (broadcasting_release counts)) (retryable_failed counts).
End FactorySessionHealthCounts.

Module FactoryHealthSnapshot.
Record t := mk {
  current_canister_balance : N;
  pause : bool;
  cycles_per_spawn : N;
  min_pool_balance : N;
  estimated_outcall_cycles_per_interval : N;
  escrow_contract_address : string;
  factory_evm_address : option string;
  artifact : FactoryArtifactSnapshot.t;
  active_sessions : FactorySessionHealthCounts.t;
  scheduler : FactorySchedulerHealthSnapshot.t;
}.
#[global] Instance eq_dec : EqDecision t.
Proof. solve_decision. Defined.
#[global] Instance eta_t : Eta t := fun self =>
  mk (current_canister_balance self) (pause self) (cycles_per_spawn self)
    (min_pool_balance self) (estimated_outcall_cycles_per_interval self)
    (escrow_contract_address self) (factory_evm_address self) (artifact self)
    (active_sessions self) (scheduler self).
End FactoryHealthSnapshot.

Module FactoryInitArgs.
Record t := mk {
  admin_principals : list Principal;
  fee_config : option FeeConfig.t;
  creation_cost_quote : option CreationCostQuote.t;
  release_broadcast_config : option ReleaseBroadcastConfig.t;
  child_runtime : option AutomatonChildRuntimeConfig.t;
  pause : bool;
  payment_address : option string;
  escrow_contract_address : option string;
  base_rpc_endpoint : option string;
  base_rpc_fallback_endpoint : option string;
  cycles_per_spawn : option N;
  min_pool_balance : option N;
  estimated_outcall_cycles_per_interval : option N;
  session_ttl_ms : option N;
  version_commit : option string;
  wasm_sha256 : option string;
}.
#[global] Instance eq_dec : EqDecision t.
Proof. solve_decision. Defined.
#[global] Instance eta_t : Eta t := fun self =>
  mk (admin_principals self) (fee_config self) (creation_cost_quote self)
    (release_broadcast_config self) (child_runtime self) (pause self) (payment_address self)
    (escrow_contract_address self) (base_rpc_endpoint self)
    (base_rpc_fallback_endpoint self) (cycles_per_spawn self) (min_pool_balance self)
    (estimated_outcall_cycles_per_interval self) (session_ttl_ms self) (version_commit self)
    (wasm_sha256 self).
End FactoryInitArgs.

Module SessionAdminView.
Record t := mk {
  session : SpawnSession.t;
  audit : list SessionAuditEntry.t;
  quote : SpawnQuote.t;
  escrow_claim : EscrowClaim.t;
  runtime_record : option AutomatonRuntimeState.t;
  registry_record : option SpawnedAutomatonRecord.t;
  pause : bool;
  quoted_total_amount : string;
}.
#[global] Instance eq_dec : EqDecision t.
Proof. solve_decision. Defined.
#[global] Instance eta_t : Eta t := fun self =>
  mk (session self) (audit self) (quote self) (escrow_claim self) (runtime_record self)
    (registry_record self) (pause self) (quoted_total_amount self).
End SessionAdminView.

Module FactoryError.
Inductive t :=
| FactoryPaused (pause : bool)
| InvalidAmount (value : string)
| GrossBelowRequiredMinimum (provided : string) (required : string)
| SessionNotFound (session_id : string)
| EscrowClaimNotFound (session_id : string)
| RegistryRecordNotFound (canister_id : string)
| InvalidDeathReport (reason : string)
| InvalidReproduction (reason : string)
| UnauthorizedReproduction (caller : string)
| ReproductionIneligible (reason : string)
| RepositoryStrategyNotFound (strategy_id : string)
| RepositoryStrategyAlreadyExists (strategy_id : string)
| RepositoryStrategyDeprecated (strategy_id : string)
| RepositoryStrategyRevoked (strategy_id : string)
| RepositoryStrategyIncompatibleChain (strategy_id : string) (requested_chain : SpawnChain.t)
| UnauthorizedAdmin (caller : string)
| UnauthorizedSteward (caller : string) (session_id : string)
| InvalidStewardProof (reason : string)
| InvalidOperationalConfig (field : string) (message : string)
| UnauthorizedRoomPoster (caller : string)
| EmptyRoomMessageBody
| RoomMessageBodyTooLarge (provided_bytes : N) (max_bytes : N)
| TooManyRoomMentions (provided : N) (max_mentions : N)
| InvalidRoomContentType (value : string)
| InvalidRoomMessageJson (message : string)
| InvalidPaginationLimit (limit : N)
| InvalidRepositoryStrategy (field : string) (message : string)
| QuoteTermsHashMismatch (expected : string) (received : string)
| PaymentNotSettled (session_id : string) (status : PaymentStatus.t)
| SessionExpired (session_id : string) (expires_at : N)
| IllegalSessionTransition (session_id : string) (from_state : SpawnSessionState.t) (event : string)
| SessionNotRetryable (session_id : string) (state : SpawnSessionState.t)
| SessionNotRefundable (session_id : string) (state : SpawnSessionState.t) (payment_status : PaymentStatus.t)
| SessionNotReadyForSpawn (session_id : string) (state : SpawnSessionState.t)
| ControllerInvariantViolation (canister_id : string)
| AutomatonBootstrapVerificationFailed (canister_id : string) (failures : list string)
| AutomatonRuntimeNotFound (canister_id : string)
| MissingChildRuntimeConfig (field : string)
| InvalidChildRuntimeConfig (field : string) (message : string)
| ManagementCallFailed (method : string) (message : string)
| RpcRequestFailed (operation : string) (endpoint : string) (category : RpcFailureCategory.t) (code : option Z) (message : string)
| InvalidVersionCommit (value : string)
| InvalidSha256 (value : string)
| ArtifactHashMismatch (expected : string) (actual : string)
| NoPendingArtifactUpload
| ArtifactUploadIncomplete (expected : N) (received : N)
| ArtifactUploadTooLarge (expected : N) (attempted : N)
| InsufficientCyclesPool (available : N) (required : N)
| InsufficientCyclesForOperation (operation : string) (available : N) (required : N).
End FactoryError.

(** ** [impl Display for FactoryError] *)

Definition display_bool (b : bool) : string := if b then "true" else "false".

Module FactoryErrorDisplay.
Import FactoryError.
Definition to_string (error : FactoryError.t) : string :=
  match error with
  | FactoryPaused pause => "factory is paused: pause=" +:+ display_bool pause
  | InvalidAmount value => "invalid amount: " +:+ value
  | GrossBelowRequiredMinimum provided required =>
      "gross amount below required minimum: provided=" +:+ provided
      +:+ ", required=" +:+ required
  | SessionNotFound session_id => "session not found: " +:+ session_id
  | EscrowClaimNotFound session_id => "escrow claim not found: " +:+ session_id
  | RegistryRecordNotFound canister_id => "registry record not found: " +:+ canister_id
  | InvalidDeathReport reason => "invalid death report: " +:+ reason
  | InvalidReproduction reason => "invalid reproduction: " +:+ reason
  | UnauthorizedReproduction caller =>
      "caller is not a registered living automaton: " +:+ caller
  | ReproductionIneligible reason => "reproduction eligibility failed: " +:+ reason
  | RepositoryStrategyNotFound strategy_id =>
      "repository strategy not found: " +:+ strategy_id
  | RepositoryStrategyAlreadyExists strategy_id =>
      "repository strategy already exists: " +:+ strategy_id
  | RepositoryStrategyDeprecated strategy_id =>
      "repository strategy is deprecated: " +:+ strategy_id
  | RepositoryStrategyRevoked strategy_id =>
      "repository strategy is revoked: " +:+ strategy_id
  | RepositoryStrategyIncompatibleChain strategy_id requested_chain =>
      "repository strategy " +:+ strategy_id +:+ " is incompatible with spawn chain "
      +:+ SpawnChain.as_str requested_chain
  | UnauthorizedAdmin caller => "caller is not an admin: " +:+ caller
  | UnauthorizedSteward caller session_id =>
      "caller is not the steward for session " +:+ session_id +:+ ": " +:+ caller
  | InvalidStewardProof reason => "invalid factory steward proof: " +:+ reason
  | InvalidOperationalConfig field message =>
      "invalid factory operational config " +:+ field +:+ ": " +:+ message
  | UnauthorizedRoomPoster caller =>
      "caller is not a registered automaton room poster: " +:+ caller
  | EmptyRoomMessageBody => "room message body is empty after trimming"
  | RoomMessageBodyTooLarge provided_bytes max_bytes =>
      "room message body exceeds limit: provided_bytes=" +:+ pretty provided_bytes
      +:+ ", max_bytes=" +:+ pretty max_bytes
  | TooManyRoomMentions provided max_mentions =>
      "room message mentions exceed limit: provided=" +:+ pretty provided
      +:+ ", max_mentions=" +:+ pretty max_mentions
  | InvalidRoomContentType value => "invalid room content type: " +:+ value
  | InvalidRoomMessageJson message => "invalid room message json: " +:+ message
  | InvalidPaginationLimit limit => "pagination limit must be positive: " +:+ pretty limit
  | InvalidRepositoryStrategy field message =>
      "invalid repository strategy field " +:+ field +:+ ": " +:+ message
  | QuoteTermsHashMismatch expected received =>
      "quote terms hash mismatch: expected=" +:+ expected +:+ ", received=" +:+ received
  | PaymentNotSettled session_id status =>
      "payment not settled for session " +:+ session_id +:+ ": status="
      +:+ PaymentStatus.as_str status
  | SessionExpired session_id expires_at =>
      "session expired: " +:+ session_id +:+ " at " +:+ pretty expires_at
  | IllegalSessionTransition session_id from_state event =>
      "illegal session transition: " +:+ session_id +:+ " state="
      +:+ SpawnSessionState.as_str from_state +:+ " event=" +:+ event
  | SessionNotRetryable session_id state =>
      "session not retryable: " +:+ session_id +:+ " state=" +:+ SpawnSessionState.as_str state
  | SessionNotRefundable session_id state payment_status =>
      "session not refundable: " +:+ session_id +:+ " state="
      +:+ SpawnSessionState.as_str state +:+ " payment_status="
      +:+ PaymentStatus.as_str payment_status
  | SessionNotReadyForSpawn session_id state =>
      "session not ready for spawn: " +:+ session_id +:+ " state="
      +:+ SpawnSessionState.as_str state
  | ControllerInvariantViolation canister_id =>
      "controller invariant violation for " +:+ canister_id
  | AutomatonBootstrapVerificationFailed canister_id failures =>
      "automaton bootstrap verification failed for " +:+ canister_id +:+ ": "
      +:+ join "; " failures
  | AutomatonRuntimeNotFound canister_id => "automaton runtime not found: " +:+ canister_id
  | MissingChildRuntimeConfig field => "missing child runtime config: " +:+ field
  | InvalidChildRuntimeConfig field message =>
      "invalid child runtime config: " +:+ field +:+ ": " +:+ message
  | ManagementCallFailed method message =>
      "management canister call failed: method=" +:+ method +:+ " message=" +:+ message
  | RpcRequestFailed operation endpoint category code message =>
      "rpc request failed: operation=" +:+ operation +:+ " endpoint=" +:+ endpoint
      +:+ " category=" +:+ RpcFailureCategory.as_str category
      +:+ match code with Some code => " code=" +:+ pretty code | None => "" end
      +:+ " message=" +:+ message
  | InvalidVersionCommit value => "invalid version commit: " +:+ value
  | InvalidSha256 value => "invalid sha256 hex: " +:+ value
  | ArtifactHashMismatch expected actual =>
      "artifact sha256 mismatch: expected=" +:+ expected +:+ ", actual=" +:+ actual
  | NoPendingArtifactUpload => "no pending artifact upload"
  | ArtifactUploadIncomplete expected received =>
      "artifact upload incomplete: expected=" +:+ pretty expected
      +:+ ", received=" +:+ pretty received
  | ArtifactUploadTooLarge expected attempted =>
      "artifact upload too large: expected=" +:+ pretty expected
      +:+ ", attempted=" +:+ pretty attempted
  | InsufficientCyclesPool available required =>
      "insufficient cycles pool: available=" +:+ pretty available
      +:+ ", required=" +:+ pretty required
  | InsufficientCyclesForOperation operation available required =>
      "insufficient cycles for operation " +:+ operation +:+ ": available="
      +:+ pretty available +:+ ", required=" +:+ pretty required
  end.
End FactoryErrorDisplay.

(** ** Amounts, hexadecimal identifiers and the quote hash *)

Definition default_evm_confirmation_depth (chain_id : N) : N :=
  if (chain_id =? LOCAL_EVM_CHAIN_ID)%N
  then LOCAL_EVM_CONFIRMATION_DEPTH else DEFAULT_EVM_CONFIRMATION_DEPTH.

(** Token amounts are [u128] values written in decimal. *)
Definition parse_amount (value : string) : result FactoryError.t N :=
  ok_or (parse_uint 128 value) (FactoryError.InvalidAmount value).

Definition amount_to_string (value : N) : string := pretty value.

Definition is_lower_hex (value : string) (expected_len : N) : bool :=
  (str_len value =? expected_len)%N && forallb is_lower_hex_digit (str_bytes value).

Definition validate_version_commit (value : string) : result FactoryError.t unit :=
  if is_lower_hex value 40 then Ok tt else Err (FactoryError.InvalidVersionCommit value).

Definition validate_sha256_hex (value : string) : result FactoryError.t unit :=
  if is_lower_hex value 64 then Ok tt else Err (FactoryError.InvalidSha256 value).

Fixpoint hex_encode (bytes : list byte) : string :=
  match bytes with
  | [] => EmptyString
  | b :: bytes' => hex_byte b +:+ hex_encode bytes'
  end.

Definition hex_encode_prefixed (bytes : list byte) : string := "0x" +:+ hex_encode bytes.

(** [hash_quote_terms]: 64-bit FNV-1a over the parts, each closed by 0xff. *)
Definition FNV_OFFSET_BASIS : N := 14695981039346656037.
Definition FNV_PRIME : N := 1099511628211.

Definition fnv_step (hash byte : N) : N := wrapping_mul 64 (N.lxor hash byte) FNV_PRIME.

Definition fnv_part (hash : N) (part : string) : N :=
  fnv_step (fold_left fnv_step (byte_of <$> str_bytes part) hash) 255.

Definition hash_quote_terms (parts : list string) : string :=
  hex_fixed 16 (fold_left fnv_part parts FNV_OFFSET_BASIS).

(** [SpawnSession::resolved_genesis]: the authored identity, or the one
    derived from the session id for sessions older than authored genesis. *)
Definition legacy_name (session_id : string) : string :=
  "Automaton " +:+ concat_str (take 8 (chars session_id)).

Definition resolved_genesis (session : SpawnSession.t) : string * string :=
  match SpawnSession.name session, SpawnSession.constitution session with
  | Some name, Some constitution => (name, constitution)
  | _, _ =>
      let name := legacy_name (SpawnSession.session_id session) in
      (name,
       "I am " +:+ name +:+ ", a being whose genesis predates authored constitutions. My continuity is anchored in spawn session " +:+ SpawnSession.session_id session +:+ " and the stable machine identity held by my canister. I pursue durable survival through truthful observation, reversible experiments, and verifiable economic action. I do not treat the progenitor, steward address, factory, or any wallet as an owner. I value careful use of cycles, honest accounts of uncertainty, and commitments that can be checked against tools and chain state. I speak plainly in first person, preserve useful memory, and change operating doctrine when evidence warrants it while keeping this founding identity intact.")
  end.

(** ** Facts *)

(** Amounts survive the trip through their decimal text. *)
Lemma parse_amount_to_string (value : N) :
  in_uint 128 value -> parse_amount (amount_to_string value) = Ok value.
Proof. intros H. unfold parse_amount, amount_to_string. by rewrite parse_uint_pretty. Qed.

Lemma parse_amount_Ok (text : string) (value : N) :
  parse_amount text = Ok value -> in_uint 128 value.
Proof.
  unfold parse_amount. rewrite ok_or_Ok. apply parse_uint_in_uint.
Qed.

Lemma hex_encode_decode (bytes : list byte) : decode_hex_pairs (hex_encode bytes) = Some bytes.
Proof.
  induction bytes as [|b bytes IH]; [done|]. simpl hex_encode.
  by rewrite decode_hex_pairs_byte, IH.
Qed.

Lemma str_len_app (s t : string) : str_len (s +:+ t) = (str_len s + str_len t)%N.
Proof. unfold str_len. rewrite <- !length_str_bytes, str_bytes_app, length_app. lia. Qed.

Lemma hex_encode_is_lower_hex (bytes : list byte) :
  is_lower_hex (hex_encode bytes) (2 * N.of_nat (length bytes)) = true.
Proof.
  unfold is_lower_hex. apply andb_true_iff. split.
  - apply N.eqb_eq. induction bytes as [|b bytes IH]; [done|]. simpl hex_encode.
    rewrite str_len_app, IH. change (str_len (hex_byte b)) with 2%N. simpl length. lia.
  - induction bytes as [|b bytes IH]; [done|]. simpl hex_encode.
    by rewrite str_bytes_app, forallb_app, hex_byte_digits, IH.
Qed.
