(* ===== verification/Externals.v ===== *)
(** * Externals: code the factory calls and the repository does not contain

    Cryptographic digests, candid and JSON codecs, ECDSA recovery and principal
    parsing come from third-party crates.  They are the fields of one class;
    [ExternalsOk] states the documented facts about them that some properties
    rely on (the digest sizes).  [toy_externals] is a concrete instance on
    which the examples compute. *)

From S2P Require Import Prelude Text SpawnProtocol Types.
From Stdlib Require Import Ascii Strings.Byte.

(** The fields of a recipe JSON that [parse_recipe_summary] decodes. *)
Module StrategyRecipeSummary.
Record t := mk {
  template_id : string;
  chain_id : N;
  protocol : string;
  primitive : string;
}.
End StrategyRecipeSummary.

Class Externals := {
  (** [sha3::Keccak256::digest] and [sha2::Sha256::digest]. *)
  keccak256 : list byte -> list byte;
  sha256 : list byte -> list byte;
  (** [candid::encode_one] of a steward command. *)
  encode_command : FactoryStewardCommand.t -> list byte;
  (** [k256]: [Signature::from_slice] and [VerifyingKey::recover_from_prehash]
      followed by [to_encoded_point(false)]; errors are their [Display]. *)
  Signature : Type;
  signature_from_slice : list byte -> result string Signature;
  recover_from_prehash : list byte -> Signature -> N -> result string (list byte);
  (** [serde_json::from_str::<Value>] as its error, if any, and
      [serde_json::from_str::<StrategyRecipeSummary>]. *)
  json_error : string -> option string;
  recipe_from_json : string -> result string StrategyRecipeSummary.t;
  (** [candid::Principal::from_text]. *)
  principal_from_text : string -> result string Principal;
}.

Class ExternalsOk (ext : Externals) : Prop := {
  length_keccak256 : forall message, length (keccak256 message) = 32;
  length_sha256 : forall message, length (sha256 message) = 32;
}.

Definition as_bytes (s : string) : list byte := Ascii.byte_of_ascii <$> str_bytes s.

(** [derive_claim_id]. *)
Definition derive_claim_id `{Externals} (session_id : string) : string :=
  hex_encode_prefixed (keccak256 (as_bytes session_id)).

(** A stand-in for the digests: the message cut or padded to 32 bytes. *)
Definition toy_digest (message : list byte) : list byte :=
  take 32 (message ++ replicate 32 x00).

Definition toy_command (command : FactoryStewardCommand.t) : list byte :=
  match command with
  | FactoryStewardCommand.RetrySpawnSession session_id => x00 :: as_bytes session_id
  | FactoryStewardCommand.ClaimSpawnRefund session_id => x01 :: as_bytes session_id
  end.

#[local] Instance toy_externals : Externals := {
  keccak256 := toy_digest;
  sha256 := toy_digest;
  encode_command := toy_command;
  Signature := list byte;
  signature_from_slice := fun bytes => Ok bytes;
  recover_from_prehash := fun _ signature _ => Ok (x04 :: signature);
  json_error := fun text => if is_empty text then Some "EOF" else None;
  recipe_from_json := fun text => Ok (StrategyRecipeSummary.mk text 8453 "p" "q");
  principal_from_text := fun text => if is_empty text then Err "empty" else Ok text;
}.

Lemma toy_externals_ok : ExternalsOk toy_externals.
Proof.
  split; intros message; simpl; unfold toy_digest;
    rewrite length_take, length_app, length_replicate; lia.
Qed.
