(* ===== verification/State.v ===== *)
(** * State: the factory's state

    Models [backend/factory/src/state.rs]: the record every factory operation
    reads and writes, its initial value and the init arguments, the admin
    check and the bounded audit log.  The stable memory behind it is modelled
    in [StableStore]. *)

From S2P Require Import Prelude Text SpawnProtocol Types.
From Stdlib Require Import Strings.Byte.

Module RefundCommandLease.
Record t := mk {
  generation : N;
  expires_at_ms : N;
}.
#[global] Instance eq_dec : EqDecision t.
Proof. solve_decision. Defined.
#[global] Instance eta_t : Eta t := fun self =>
  mk (generation self) (expires_at_ms self).
End RefundCommandLease.

Module FactoryState.
Record t := mk {
  repository_strategies : gmap string RepositoryStrategyRecord.t;
  sessions : gmap string SpawnSession.t;
  escrow_claims : gmap string EscrowClaim.t;
  registry : gmap string SpawnedAutomatonRecord.t;
  runtimes : gmap string AutomatonRuntimeState.t;
  audit_log : gmap string (list SessionAuditEntry.t);
  room_state : RoomState.t;
  room_messages : gmap N RoomMessage.t;
  scheduler_jobs : gmap string SchedulerJob.t;
  scheduler_runtime : SchedulerRuntime.t;
  fee_config : FeeConfig.t;
  creation_cost_quote : CreationCostQuote.t;
  release_broadcast_config : ReleaseBroadcastConfig.t;
  child_runtime : AutomatonChildRuntimeConfig.t;
  pause : bool;
  next_session_nonce : N;
  next_automaton_nonce : N;
  next_release_nonce : option N;
  steward_command_nonces : gmap string N;
  steward_refunds_in_flight : gset string;
  steward_refund_leases : gmap string RefundCommandLease.t;
  payment_address : string;
  escrow_contract_address : string;
  payment_last_scanned_block : option N;
  next_payment_poll_at_ms : option N;
  factory_evm_address : option string;
  factory_evm_address_derived_at : option N;
  base_rpc_endpoint : option string;
  base_rpc_fallback_endpoint : option string;
  cycles_per_spawn : N;
  min_pool_balance : N;
  estimated_outcall_cycles_per_interval : N;
  evm_confirmation_depth : N;
  wasm_bytes : option (list byte);
  wasm_sha256 : option string;
  pending_artifact_upload : option PendingArtifactUpload.t;
  admin_principals : gset string;
  session_ttl_ms : N;
  version_commit : string;
}.
#[global] Instance eq_dec : EqDecision t.
Proof. solve_decision. Defined.
#[global] Instance eta_t : Eta t := fun self =>
  mk (repository_strategies self) (sessions self) (escrow_claims self) (registry self)
    (runtimes self) (audit_log self) (room_state self) (room_messages self)
    (scheduler_jobs self) (scheduler_runtime self) (fee_config self)
    (creation_cost_quote self) (release_broadcast_config self) (child_runtime self)
    (pause self) (next_session_nonce self) (next_automaton_nonce self)
    (next_release_nonce self) (steward_command_nonces self) (steward_refunds_in_flight self)
    (steward_refund_leases self) (payment_address self) (escrow_contract_address self)
    (payment_last_scanned_block self) (next_payment_poll_at_ms self)
    (factory_evm_address self) (factory_evm_address_derived_at self)
    (base_rpc_endpoint self) (base_rpc_fallback_endpoint self) (cycles_per_spawn self)
    (min_pool_balance self) (estimated_outcall_cycles_per_interval self)
    (evm_confirmation_depth self) (wasm_bytes self) (wasm_sha256 self)
    (pending_artifact_upload self) (admin_principals self) (session_ttl_ms self)
    (version_commit self).
End FactoryState.

(** The computations of the factory on its state, and on its state together
    with the provider secrets, which live in a stable map of their own. *)
Abbreviation F A := (M FactoryState.t FactoryError.t A).

Module Canister.
Record t := mk {
  factory : FactoryState.t;
  spawn_provider_secrets : gmap string SpawnProviderSecrets.t;
}.
#[global] Instance eta_t : Eta t := fun self =>
  mk (factory self) (spawn_provider_secrets self).
End Canister.

Abbreviation C A := (M Canister.t FactoryError.t A).

(** [write_state]: the closure's writes persist whatever it returns. *)
Definition write_state {A} (writer : F A) : C A :=
  zoom Canister.factory (fun state canister => canister <| Canister.factory := state |>) writer.

Definition read_state {A} (reader : FactoryState.t -> result FactoryError.t A) : C A :=
  fun canister => lift (reader (Canister.factory canister)) canister.

Definition store_spawn_provider_secrets (session_id : string) (secrets : SpawnProviderSecrets.t)
    : C unit :=
  modify (fun canister =>
    canister <| Canister.spawn_provider_secrets ::= <[session_id := secrets]> |>).

Definition delete_spawn_provider_secrets (session_id : string) : C unit :=
  modify (fun canister =>
    canister <| Canister.spawn_provider_secrets ::= delete session_id |>).

Definition load_spawn_provider_secrets (session_id : string) (canister : Canister.t)
    : option SpawnProviderSecrets.t :=
  Canister.spawn_provider_secrets canister !! session_id.

(** ** Initial state *)

Definition resolve_evm_confirmation_depth (chain_id : N) (explicit_depth : option N) : N :=
  default (default_evm_confirmation_depth chain_id) explicit_depth.

(** [FactoryState::default], given the seeded strategy repository. *)
Definition default_state (seed : gmap string RepositoryStrategyRecord.t) : FactoryState.t := {|
  FactoryState.repository_strategies := seed;
  FactoryState.sessions := ∅;
  FactoryState.escrow_claims := ∅;
  FactoryState.registry := ∅;
  FactoryState.runtimes := ∅;
  FactoryState.audit_log := ∅;
  FactoryState.room_state := RoomState.default;
  FactoryState.room_messages := ∅;
  FactoryState.scheduler_jobs := ∅;
  FactoryState.scheduler_runtime := SchedulerRuntime.default;
  FactoryState.fee_config := FeeConfig.mk "5000000" 0;
  FactoryState.creation_cost_quote := CreationCostQuote.mk "45000000" 0;
  FactoryState.release_broadcast_config := ReleaseBroadcastConfig.default;
  FactoryState.child_runtime := AutomatonChildRuntimeConfig.default;
  FactoryState.pause := false;
  FactoryState.next_session_nonce := 0;
  FactoryState.next_automaton_nonce := 0;
  FactoryState.next_release_nonce := None;
  FactoryState.steward_command_nonces := ∅;
  FactoryState.steward_refunds_in_flight := ∅;
  FactoryState.steward_refund_leases := ∅;
  FactoryState.payment_address := "0x1111111111111111111111111111111111111111";
  FactoryState.escrow_contract_address := "0x2222222222222222222222222222222222222222";
  FactoryState.payment_last_scanned_block := None;
  FactoryState.next_payment_poll_at_ms := None;
  FactoryState.factory_evm_address := None;
  FactoryState.factory_evm_address_derived_at := None;
  FactoryState.base_rpc_endpoint := None;
  FactoryState.base_rpc_fallback_endpoint := None;
  FactoryState.cycles_per_spawn := 0;
  FactoryState.min_pool_balance := 0;
  FactoryState.estimated_outcall_cycles_per_interval := 0;
  FactoryState.evm_confirmation_depth :=
    default_evm_confirmation_depth
      (ReleaseBroadcastConfig.chain_id ReleaseBroadcastConfig.default);
  FactoryState.wasm_bytes := None;
  FactoryState.wasm_sha256 := None;
  FactoryState.pending_artifact_upload := None;
  FactoryState.admin_principals := {["admin"]};
  FactoryState.session_ttl_ms := 30 * 60 * 1000;
  FactoryState.version_commit := "dev-build";
|}.

(** [if let Some(x) = value { field = x }]. *)
Definition set_if_some {A B} (value : option A) (assign : A -> B -> B) (state : B) : B :=
  match value with Some x => assign x state | None => state end.

(** The fees, the release configuration and the child's. *)
Definition init_configured (seed : gmap string RepositoryStrategyRecord.t)
    (args : FactoryInitArgs.t) : FactoryState.t :=
  let state := default_state seed in
  let state := set_if_some (FactoryInitArgs.fee_config args)
    (fun x s => s <| FactoryState.fee_config := x |>) state in
  let state := set_if_some (FactoryInitArgs.creation_cost_quote args)
    (fun x s => s <| FactoryState.creation_cost_quote := x |>) state in
  let state := set_if_some (FactoryInitArgs.release_broadcast_config args)
    (fun x s => s <| FactoryState.release_broadcast_config := x |>) state in
  set_if_some (FactoryInitArgs.child_runtime args)
    (fun x s =>
       let s := s <| FactoryState.child_runtime := x |> in
       set_if_some (AutomatonChildRuntimeConfig.evm_chain_id x)
         (fun chain_id s =>
            s <| FactoryState.release_broadcast_config ::=
                   set ReleaseBroadcastConfig.chain_id (fun _ => chain_id) |>) s) state.

(** The addresses, endpoints and limits. *)
Definition init_operations (args : FactoryInitArgs.t) (state : FactoryState.t) : FactoryState.t :=
  let state := state <| FactoryState.pause := FactoryInitArgs.pause args |> in
  let state := set_if_some (FactoryInitArgs.payment_address args)
    (fun x s => s <| FactoryState.payment_address := x |>) state in
  let state := set_if_some (FactoryInitArgs.escrow_contract_address args)
    (fun x s => s <| FactoryState.escrow_contract_address := x |>) state in
  state
    <| FactoryState.base_rpc_endpoint := FactoryInitArgs.base_rpc_endpoint args |>
    <| FactoryState.base_rpc_fallback_endpoint :=
         FactoryInitArgs.base_rpc_fallback_endpoint args |>
    <| FactoryState.cycles_per_spawn := default 0%N (FactoryInitArgs.cycles_per_spawn args) |>
    <| FactoryState.min_pool_balance := default 0%N (FactoryInitArgs.min_pool_balance args) |>
    <| FactoryState.estimated_outcall_cycles_per_interval :=
         default 0%N (FactoryInitArgs.estimated_outcall_cycles_per_interval args) |>
    <| FactoryState.session_ttl_ms ::= fun ttl =>
         default ttl (FactoryInitArgs.session_ttl_ms args) |>
    <| FactoryState.version_commit ::= fun commit =>
         default commit (FactoryInitArgs.version_commit args) |>
    <| FactoryState.wasm_sha256 := FactoryInitArgs.wasm_sha256 args |>.

Definition init_admins (principals : list Principal) (init_caller : option string)
    (state : FactoryState.t) : FactoryState.t :=
  match init_caller with
  | Some admin_caller =>
      if decide (principals = [])
      then state <| FactoryState.admin_principals := {[admin_caller]} |>
      else state <| FactoryState.admin_principals := list_to_set principals |>
  | None =>
      if decide (principals = []) then state
      else state <| FactoryState.admin_principals := list_to_set principals |>
  end.

Definition apply_factory_init_args (seed : gmap string RepositoryStrategyRecord.t)
    (args : FactoryInitArgs.t) (init_caller : option string) : FactoryState.t :=
  let state := init_admins (FactoryInitArgs.admin_principals args) init_caller
    (init_operations args (init_configured seed args)) in
  state <| FactoryState.evm_confirmation_depth :=
    resolve_evm_confirmation_depth
      (ReleaseBroadcastConfig.chain_id (FactoryState.release_broadcast_config state))
      (AutomatonChildRuntimeConfig.evm_confirmation_depth (FactoryState.child_runtime state)) |>.

(** ** Admin check and audit log *)

Definition ensure_admin_in_state (state : FactoryState.t) (caller : string)
    : result FactoryError.t unit :=
  if decide (caller ∈ FactoryState.admin_principals state)
  then Ok tt else Err (FactoryError.UnauthorizedAdmin caller).

Definition insert_spawned_automaton_record (record : SpawnedAutomatonRecord.t) : C unit :=
  write_state (modify (fun state =>
    state <| FactoryState.registry ::=
      <[SpawnedAutomatonRecord.canister_id record := record]> |>)).

Definition MAX_AUDIT_ENTRIES_PER_SESSION : nat := 100.

(** Append an entry and drain the oldest ones beyond the cap. *)
Definition push_audit (entry : SessionAuditEntry.t) (entries : list SessionAuditEntry.t)
    : list SessionAuditEntry.t :=
  let entries := entries ++ [entry] in
  if decide (MAX_AUDIT_ENTRIES_PER_SESSION < length entries)
  then drop (length entries - MAX_AUDIT_ENTRIES_PER_SESSION) entries
  else entries.

Definition record_session_audit (session_id : string)
    (from_state : option SpawnSessionState.t) (to_state : SpawnSessionState.t)
    (actor : SessionAuditActor.t) (timestamp : N) (reason : string)
    (state : FactoryState.t) : FactoryState.t :=
  let entries := default [] (FactoryState.audit_log state !! session_id) in
  let entry := SessionAuditEntry.mk session_id timestamp from_state to_state actor reason in
  state <| FactoryState.audit_log ::= <[session_id := push_audit entry entries]> |>.

Lemma length_push_audit entry entries :
  length (push_audit entry entries) <= MAX_AUDIT_ENTRIES_PER_SESSION
  \/ length (push_audit entry entries) = S (length entries).
Proof.
  unfold push_audit. case_decide; rewrite ?length_drop, length_app; simpl; lia.
Qed.

Lemma push_audit_bounded entry entries :
  length entries <= MAX_AUDIT_ENTRIES_PER_SESSION ->
  length (push_audit entry entries) <= MAX_AUDIT_ENTRIES_PER_SESSION.
Proof.
  unfold push_audit. case_decide; rewrite ?length_drop; [lia|].
  rewrite length_app in *. simpl in *. lia.
Qed.

(** The log keeps its end: only what does not fit is dropped at its start. *)
Lemma push_audit_spec entry entries :
  exists dropped kept, entries = dropped ++ kept /\ push_audit entry entries = kept ++ [entry]
    /\ (dropped = [] \/ length (kept ++ [entry]) = MAX_AUDIT_ENTRIES_PER_SESSION).
Proof.
  unfold push_audit. case_decide as Hlen; [|by exists [], entries; auto].
  rewrite length_app in *. cbn [length] in *. set (n := _ - _).
  assert (n <= length entries) by (unfold n, MAX_AUDIT_ENTRIES_PER_SESSION in *; lia).
  exists (take n entries), (drop n entries). split; [by rewrite take_drop|].
  rewrite drop_app_le by done. split; [done|]. right.
  rewrite length_app, length_drop. cbn [length]. unfold n in *. lia.
Qed.

Lemma last_push_audit entry entries : last (push_audit entry entries) = Some entry.
Proof.
  unfold push_audit. case_decide as Hlen; [|apply last_snoc].
  unfold MAX_AUDIT_ENTRIES_PER_SESSION in *. rewrite length_app in *. simpl in *.
  rewrite drop_app_le by lia. apply last_snoc.
Qed.

Lemma read_state_Done {A} (f : FactoryState.t -> result FactoryError.t A) s a t :
  read_state f s = Done a t <-> f (Canister.factory s) = Ok a /\ t = s.
Proof. unfold read_state, lift. destruct (f _); naive_solver. Qed.

(** A relation of states, seen on canisters. *)
#[export] Instance canister_preorder (R : relation FactoryState.t) `{!PreOrder R} :
  PreOrder (fun before after => R (Canister.factory before) (Canister.factory after)).
Proof. split; [intros c; done | intros c1 c2 c3 H12 H23; by etrans]. Qed.

Lemma stable_write_state {A} (I : FactoryState.t -> Prop) (R : relation FactoryState.t) (m : F A) :
  stable I R m ->
  stable (fun canister => I (Canister.factory canister))
    (fun before after => R (Canister.factory before) (Canister.factory after)) (write_state m).
Proof. intros Hm. by apply stable_zoom. Qed.
