(* ===== verification/Init.v ===== *)
(** * Init: configuring and describing a child automaton

    Models [backend/factory/src/init.rs]: the chain a deployment runs on, the
    validation of the child's runtime configuration, the install arguments as
    the value that is handed to the candid encoder, the derived EVM address and
    the initial runtime record.  [build_strategy_install_recipe] rewrites a
    JSON value of [serde_json] and is left out. *)

From S2P Require Import Prelude Text SpawnProtocol Types Externals State.
From Stdlib Require Import Ascii Strings.Byte.

Definition canonical_deployment_chain_id (child_runtime : AutomatonChildRuntimeConfig.t)
    (release_broadcast : ReleaseBroadcastConfig.t) : result FactoryError.t N :=
  match AutomatonChildRuntimeConfig.evm_chain_id child_runtime with
  | Some child_chain_id =>
      err_if (negb (child_chain_id =? ReleaseBroadcastConfig.chain_id release_broadcast)%N)
        (FactoryError.InvalidChildRuntimeConfig "child_runtime.evm_chain_id"
          ("deployment chain " +:+ pretty child_chain_id
           +:+ " does not match release broadcast chain "
           +:+ pretty (ReleaseBroadcastConfig.chain_id release_broadcast)));;
      Ok child_chain_id
  | None => Ok (ReleaseBroadcastConfig.chain_id release_broadcast)
  end.

Module ValidatedAutomatonChildRuntimeConfig.
Record t := mk {
  ecdsa_key_name : string;
  inbox_contract_address : option string;
  evm_chain_id : N;
  evm_rpc_url : string;
  evm_confirmation_depth : option N;
  evm_bootstrap_lookback_blocks : option N;
  http_allowed_domains : option (list string);
  llm_canister_id : option Principal;
  search_api_key : option string;
  inference_proxy_worker_base_url : option string;
  inference_proxy_trusted_callback_principal : option Principal;
  cycle_topup_enabled : option bool;
  auto_topup_cycle_threshold : option N;
}.
End ValidatedAutomatonChildRuntimeConfig.

Definition normalize_optional_text (value : option string) : option string :=
  entry ← value;
  let trimmed := trim entry in
  if is_empty trimmed then None else Some trimmed.

Definition require_text_field (value : option string) (field : string)
    : result FactoryError.t string :=
  ok_or (normalize_optional_text value) (FactoryError.MissingChildRuntimeConfig field).

Definition require_u64_field (value : option N) (field : string) : result FactoryError.t N :=
  ok_or value (FactoryError.MissingChildRuntimeConfig field).

Definition normalize_string_list (value : option (list string)) : option (list string) :=
  let items := omap (fun entry => normalize_optional_text (Some entry)) (default [] value) in
  if decide (items = []) then None else Some items.

Section Config.
Context `{Externals}.

Definition parse_optional_principal_field (value : option string) (field : string)
    : result FactoryError.t (option Principal) :=
  match normalize_optional_text value with
  | Some principal_text =>
      map_err (FactoryError.InvalidChildRuntimeConfig field)
        (principal ← principal_from_text principal_text; Ok (Some principal))
  | None => Ok None
  end.

Definition validate_automaton_child_runtime_config (config : AutomatonChildRuntimeConfig.t)
    : result FactoryError.t ValidatedAutomatonChildRuntimeConfig.t :=
  ecdsa_key_name ← require_text_field (AutomatonChildRuntimeConfig.ecdsa_key_name config)
    "child_runtime.ecdsa_key_name";
  evm_chain_id ← require_u64_field (AutomatonChildRuntimeConfig.evm_chain_id config)
    "child_runtime.evm_chain_id";
  evm_rpc_url ← require_text_field (AutomatonChildRuntimeConfig.evm_rpc_url config)
    "child_runtime.evm_rpc_url";
  callback ← parse_optional_principal_field
    (AutomatonChildRuntimeConfig.inference_proxy_trusted_callback_principal config)
    "child_runtime.inference_proxy_trusted_callback_principal";
  Ok (ValidatedAutomatonChildRuntimeConfig.mk
    ecdsa_key_name
    (normalize_optional_text (AutomatonChildRuntimeConfig.inbox_contract_address config))
    evm_chain_id
    evm_rpc_url
    (AutomatonChildRuntimeConfig.evm_confirmation_depth config)
    (AutomatonChildRuntimeConfig.evm_bootstrap_lookback_blocks config)
    (normalize_string_list (AutomatonChildRuntimeConfig.http_allowed_domains config))
    (AutomatonChildRuntimeConfig.llm_canister_id config)
    (normalize_optional_text (AutomatonChildRuntimeConfig.search_api_key config))
    (normalize_optional_text (AutomatonChildRuntimeConfig.inference_proxy_worker_base_url config))
    callback
    (AutomatonChildRuntimeConfig.cycle_topup_enabled config)
    (AutomatonChildRuntimeConfig.auto_topup_cycle_threshold config)).

(** [&hash[26..]]: the last 40 digits of the 66 characters of the hash. *)
Definition derive_automaton_evm_address (canister_id : string) : string :=
  "0x" +:+ String.substring 26 40 (derive_claim_id canister_id).
End Config.

(** The argument of [Encode!] in [build_automaton_install_args]. *)
Definition build_automaton_install_args (session : SpawnSession.t)
    (provider_secrets : option SpawnProviderSecrets.t) (factory_principal : Principal)
    (version_commit : string) (child_runtime : ValidatedAutomatonChildRuntimeConfig.t)
    : InitArgs.t :=
  let '(name, constitution) := resolved_genesis session in
  let config := SpawnSession.config session in
  let provider := SpawnConfig.provider config in
  InitArgs.mk
    (ValidatedAutomatonChildRuntimeConfig.ecdsa_key_name child_runtime)
    (ValidatedAutomatonChildRuntimeConfig.inbox_contract_address child_runtime)
    (Some (ValidatedAutomatonChildRuntimeConfig.evm_chain_id child_runtime))
    (Some (ValidatedAutomatonChildRuntimeConfig.evm_rpc_url child_runtime))
    (ValidatedAutomatonChildRuntimeConfig.evm_confirmation_depth child_runtime)
    (ValidatedAutomatonChildRuntimeConfig.evm_bootstrap_lookback_blocks child_runtime)
    (ValidatedAutomatonChildRuntimeConfig.http_allowed_domains child_runtime)
    (ValidatedAutomatonChildRuntimeConfig.llm_canister_id child_runtime)
    (ValidatedAutomatonChildRuntimeConfig.search_api_key child_runtime)
    (ValidatedAutomatonChildRuntimeConfig.inference_proxy_worker_base_url child_runtime)
    (ValidatedAutomatonChildRuntimeConfig.inference_proxy_trusted_callback_principal child_runtime)
    (ValidatedAutomatonChildRuntimeConfig.cycle_topup_enabled child_runtime)
    (ValidatedAutomatonChildRuntimeConfig.auto_topup_cycle_threshold child_runtime)
    (Some (SpawnBootstrapArgs.mk
      (Some SPAWN_CONTRACT_VERSION)
      (Some name)
      (Some constitution)
      (SpawnSession.steward_address session)
      (SpawnSession.session_id session)
      (SpawnSession.parent_id session)
      (default 0%N (SpawnSession.generation session))
      (default [] (SpawnSession.memory_dowry session))
      (default [] (SpawnSession.inherited_strategy_stats session))
      factory_principal
      (ValidatedAutomatonChildRuntimeConfig.evm_chain_id child_runtime =? 20260326)%N
      (SpawnConfig.risk config)
      (SpawnConfig.strategies config)
      (SpawnConfig.skills config)
      (SpawnProviderBootstrapArgs.mk
        (provider_secrets ≫= SpawnProviderSecrets.open_router_api_key)
        (ProviderConfig.model provider)
        (provider_secrets ≫= SpawnProviderSecrets.brave_search_api_key)
        (ProviderConfig.inference_transport provider)
        (ProviderConfig.open_router_reasoning_level provider))
      version_commit)).

Definition initialize_automaton (session : SpawnSession.t) (canister_id evm_address : string)
    (now_ms : N) : AutomatonRuntimeState.t :=
  let config := SpawnSession.config session in {|
  AutomatonRuntimeState.canister_id := canister_id;
  AutomatonRuntimeState.evm_address := evm_address;
  AutomatonRuntimeState.steward_address := SpawnSession.steward_address session;
  AutomatonRuntimeState.session_id := SpawnSession.session_id session;
  AutomatonRuntimeState.initialized_at := now_ms;
  AutomatonRuntimeState.install_succeeded_at := None;
  AutomatonRuntimeState.evm_address_derived_at := None;
  AutomatonRuntimeState.controller_handoff_completed_at := None;
  AutomatonRuntimeState.funded_amount := "0";
  AutomatonRuntimeState.last_funded_at := None;
  AutomatonRuntimeState.chain := SpawnSession.chain session;
  AutomatonRuntimeState.risk := SpawnConfig.risk config;
  AutomatonRuntimeState.strategies := SpawnConfig.strategies config;
  AutomatonRuntimeState.skills := SpawnConfig.skills config;
  AutomatonRuntimeState.model := ProviderConfig.model (SpawnConfig.provider config);
  AutomatonRuntimeState.provider_keys_cleared := false;
  AutomatonRuntimeState.bootstrap_verification := None;
|}.

(** ** Properties *)

Lemma str_bytes_substring n m s :
  str_bytes (String.substring n m s) = take m (drop n (str_bytes s)).
Proof.
  revert m s. induction n as [|n IHn]; intros m s.
  - revert s. induction m as [|m IHm]; intros [|a s]; try done. simpl. by rewrite IHm.
  - destruct s as [|a s]; simpl; [by rewrite take_nil|]. apply IHn.
Qed.

Lemma str_bytes_hex_drop bytes n :
  drop (2 * n) (str_bytes (hex_encode bytes)) = str_bytes (hex_encode (drop n bytes)).
Proof.
  revert bytes. induction n as [|n IH]; intros bytes; [done|].
  destruct bytes as [|b bytes]; [by rewrite !drop_nil|].
  replace (2 * S n) with (S (S (2 * n))) by lia. apply IH.
Qed.

Lemma length_str_bytes_hex bytes : length (str_bytes (hex_encode bytes)) = 2 * length bytes.
Proof.
  induction bytes as [|b bytes IH]; [done|]. simpl hex_encode. rewrite str_bytes_app, length_app, IH.
  simpl. lia.
Qed.

(** A text field that was given: the trimmed text, not empty. *)
Definition text_given (value : option string) (text : string) : Prop :=
  exists raw, value = Some raw /\ text = trim raw /\ text <> EmptyString.

Lemma normalize_optional_text_Some value text :
  normalize_optional_text value = Some text <-> text_given value text.
Proof.
  unfold normalize_optional_text, text_given. destruct value as [raw|]; [|naive_solver].
  cbn [mbind option_bind]. destruct (is_empty (trim raw)) eqn:He.
  - split; [done|]. intros (raw' & [= <-] & -> & Hne). apply is_empty_false in Hne. congruence.
  - apply is_empty_false in He. naive_solver.
Qed.

Lemma require_text_field_spec value field :
  match require_text_field value field with
  | Ok text => text_given value text
  | Err e => e = FactoryError.MissingChildRuntimeConfig field
             /\ forall text, ~ text_given value text
  end.
Proof.
  unfold require_text_field. destruct (normalize_optional_text value) as [text|] eqn:Hn; cbn.
  - by apply normalize_optional_text_Some.
  - split; [done|]. intros text Hgiven%normalize_optional_text_Some. congruence.
Qed.

Section InitProof.
Context `{ext : Externals}.

(** The child runtime configuration is accepted exactly when the key
    name, the chain id and the RPC url are given (blank text counts as missing)
    and the callback principal, if given, parses; the first missing or invalid
    field is the one reported.  Every text of an accepted configuration is
    trimmed and not empty. *)
Theorem validate_child_runtime_correct config :
  match validate_automaton_child_runtime_config config with
  | Ok valid =>
      text_given (AutomatonChildRuntimeConfig.ecdsa_key_name config)
        (ValidatedAutomatonChildRuntimeConfig.ecdsa_key_name valid)
      /\ AutomatonChildRuntimeConfig.evm_chain_id config =
         Some (ValidatedAutomatonChildRuntimeConfig.evm_chain_id valid)
      /\ text_given (AutomatonChildRuntimeConfig.evm_rpc_url config)
           (ValidatedAutomatonChildRuntimeConfig.evm_rpc_url valid)
      /\ (forall principal, ValidatedAutomatonChildRuntimeConfig.inference_proxy_trusted_callback_principal
            valid = Some principal <-> exists text,
            text_given (AutomatonChildRuntimeConfig.inference_proxy_trusted_callback_principal config)
              text /\ principal_from_text text = Ok principal)
      /\ (forall domain, domain ∈ default []
            (ValidatedAutomatonChildRuntimeConfig.http_allowed_domains valid) <->
          exists raw, raw ∈ default [] (AutomatonChildRuntimeConfig.http_allowed_domains config)
            /\ text_given (Some raw) domain)
      /\ ValidatedAutomatonChildRuntimeConfig.http_allowed_domains valid <> Some []
  | Err (FactoryError.MissingChildRuntimeConfig field) =>
      (field = "child_runtime.ecdsa_key_name"
         /\ forall text, ~ text_given (AutomatonChildRuntimeConfig.ecdsa_key_name config) text)
      \/ (field = "child_runtime.evm_chain_id"
         /\ AutomatonChildRuntimeConfig.evm_chain_id config = None)
      \/ (field = "child_runtime.evm_rpc_url"
         /\ forall text, ~ text_given (AutomatonChildRuntimeConfig.evm_rpc_url config) text)
  | Err e => exists text message,
      e = FactoryError.InvalidChildRuntimeConfig
            "child_runtime.inference_proxy_trusted_callback_principal" message
      /\ text_given (AutomatonChildRuntimeConfig.inference_proxy_trusted_callback_principal config)
           text
      /\ principal_from_text text = Err message
  end.
Proof.
  unfold validate_automaton_child_runtime_config.
  pose proof (require_text_field_spec (AutomatonChildRuntimeConfig.ecdsa_key_name config)
    "child_runtime.ecdsa_key_name") as Hkey.
  destruct (require_text_field (AutomatonChildRuntimeConfig.ecdsa_key_name config) _) as [key|e];
    cbn [mbind result_bind]; [|destruct Hkey as [-> Hkey]; by left].
  unfold require_u64_field. destruct (AutomatonChildRuntimeConfig.evm_chain_id config) as [chain|];
    cbn [ok_or mbind result_bind]; [|by right; left].
  pose proof (require_text_field_spec (AutomatonChildRuntimeConfig.evm_rpc_url config)
    "child_runtime.evm_rpc_url") as Hurl.
  destruct (require_text_field (AutomatonChildRuntimeConfig.evm_rpc_url config) _) as [url|e];
    cbn [mbind result_bind]; [|destruct Hurl as [-> Hurl]; by right; right].
  set (value := AutomatonChildRuntimeConfig.inference_proxy_trusted_callback_principal config).
  assert (Hcallback : match parse_optional_principal_field value
      "child_runtime.inference_proxy_trusted_callback_principal" with
    | Ok callback => forall principal, callback = Some principal <->
        exists text, text_given value text /\ principal_from_text text = Ok principal
    | Err e => exists text message, e = FactoryError.InvalidChildRuntimeConfig
          "child_runtime.inference_proxy_trusted_callback_principal" message
        /\ text_given value text /\ principal_from_text text = Err message
    end).
  { unfold parse_optional_principal_field.
    destruct (normalize_optional_text value) as [text|] eqn:Hn.
    - apply normalize_optional_text_Some in Hn as Hgiven.
      destruct (principal_from_text text) as [principal|message] eqn:Hp; cbn; [|by eauto].
      intros other. split; [intros [= ->]; eauto|]. intros (text' & Hgiven' & Hp').
      apply normalize_optional_text_Some in Hgiven'. congruence.
    - intros principal. split; [done|]. intros (text & Hgiven & _).
      apply normalize_optional_text_Some in Hgiven. congruence. }
  destruct (parse_optional_principal_field value _) as [callback|e]; cbn [mbind result_bind].
  2:{ destruct Hcallback as (text & message & -> & Hrest). by exists text, message. }
  cbn. split; [done|]. split; [done|]. split; [done|]. split; [exact Hcallback|].
  unfold normalize_string_list. set (items := omap _ _).
  assert (Hitems : forall domain, domain ∈ items <-> exists raw,
    raw ∈ default [] (AutomatonChildRuntimeConfig.http_allowed_domains config)
    /\ text_given (Some raw) domain).
  { intros domain. unfold items. rewrite list_elem_of_omap.
    setoid_rewrite normalize_optional_text_Some. done. }
  case_decide as Hnil; split; try done.
  - intros domain. rewrite <-Hitems, Hnil. done.
  - intros [= H]. done.
Qed.
End InitProof.

(** the EVM address derived from a canister id is the hexadecimal text of
    the last 20 bytes of the hash of the id. *)
Theorem derive_automaton_evm_address_correct `{ExternalsOk} canister_id :
  derive_automaton_evm_address canister_id =
  hex_encode_prefixed (drop 12 (keccak256 (as_bytes canister_id))).
Proof.
  unfold derive_automaton_evm_address, hex_encode_prefixed. f_equal. apply str_bytes_inj.
  rewrite str_bytes_substring. unfold derive_claim_id, hex_encode_prefixed.
  set (hash := keccak256 (as_bytes canister_id)).
  rewrite str_bytes_app. change (drop 26 (str_bytes "0x" ++ ?l)) with (drop (2 * 12) l).
  rewrite str_bytes_hex_drop. apply take_ge. rewrite length_str_bytes_hex, length_drop.
  unfold hash. rewrite length_keccak256. lia.
Qed.

Lemma derive_automaton_evm_address_correct_witness :
  str_len (@derive_automaton_evm_address toy_externals "aaaaa-aa") = 42%N
  /\ @derive_automaton_evm_address toy_externals "aaaaa-aa" =
     hex_encode_prefixed (drop 12 (toy_digest (as_bytes "aaaaa-aa"))).
Proof.
  split; [vm_compute; reflexivity|].
  apply (@derive_automaton_evm_address_correct toy_externals toy_externals_ok).
Defined.
