(* ===== verification/Samples.v ===== *)
(** * Samples: concrete values the witnesses compute on

    A session, its claim and a state that holds them; nothing here models
    code. *)

From S2P Require Import Prelude Text SpawnProtocol Types State.

Module Samples.

Definition config : SpawnConfig.t :=
  SpawnConfig.mk SpawnChain.Base 1 [] []
    (ProviderConfig.mk None InferenceTransport.default OpenRouterReasoningLevel.default).

Definition session (current : SpawnSessionState.t) (payment : PaymentStatus.t)
    : SpawnSession.t := {|
  SpawnSession.name := None;
  SpawnSession.constitution := None;
  SpawnSession.session_id := "s";
  SpawnSession.claim_id := "0xc";
  SpawnSession.steward_address := "0xs";
  SpawnSession.chain := SpawnChain.Base;
  SpawnSession.asset := SpawnAsset.Usdc;
  SpawnSession.gross_amount := "75";
  SpawnSession.platform_fee := "5";
  SpawnSession.creation_cost := "45";
  SpawnSession.net_forward_amount := "25";
  SpawnSession.quote_terms_hash := "0xq";
  SpawnSession.expires_at := 1000;
  SpawnSession.state := current;
  SpawnSession.retryable := false;
  SpawnSession.refundable := false;
  SpawnSession.payment_status := payment;
  SpawnSession.last_scanned_block := None;
  SpawnSession.automaton_canister_id := None;
  SpawnSession.automaton_evm_address := None;
  SpawnSession.release_tx_hash := None;
  SpawnSession.release_broadcast_at := None;
  SpawnSession.release_broadcast := None;
  SpawnSession.parent_id := None;
  SpawnSession.origin := None;
  SpawnSession.generation := None;
  SpawnSession.parent_constitution_hash := None;
  SpawnSession.memory_dowry := None;
  SpawnSession.inherited_strategy_stats := None;
  SpawnSession.royalty_allocations := None;
  SpawnSession.child_ids := [];
  SpawnSession.selected_strategies := [];
  SpawnSession.config := config;
  SpawnSession.created_at := 1;
  SpawnSession.updated_at := 1;
|}.

Definition claim (paid : string) (payment : PaymentStatus.t) : EscrowClaim.t := {|
  EscrowClaim.session_id := "s";
  EscrowClaim.claim_id := "0xc";
  EscrowClaim.quote_terms_hash := "0xq";
  EscrowClaim.payment_address := "0xp";
  EscrowClaim.chain := SpawnChain.Base;
  EscrowClaim.asset := SpawnAsset.Usdc;
  EscrowClaim.required_gross_amount := "75";
  EscrowClaim.paid_amount := paid;
  EscrowClaim.payment_status := payment;
  EscrowClaim.last_scanned_block := None;
  EscrowClaim.payment_evidence_block_number := None;
  EscrowClaim.payment_evidence_block_hash := None;
  EscrowClaim.payment_evidence_increment := None;
  EscrowClaim.payment_evidence := [];
  EscrowClaim.refundable := false;
  EscrowClaim.refunded_at := None;
  EscrowClaim.refund_broadcast := None;
  EscrowClaim.created_at := 1;
  EscrowClaim.updated_at := 1;
|}.

Definition initial : FactoryState.t := default_state ∅.

Definition state_with (stored : SpawnSession.t) : FactoryState.t :=
  initial <| FactoryState.sessions := {["s" := stored]} |>.

Definition state_with_claim (stored : SpawnSession.t) (stored_claim : EscrowClaim.t)
    : FactoryState.t :=
  state_with stored <| FactoryState.escrow_claims := {["s" := stored_claim]} |>.

End Samples.
