(* ===== verification/StableStore.v ===== *)
(** * StableStore: the stable memory behind the factory state

    Models the stable storage of [backend/factory/src/state.rs]: the memories
    ([StableCell]s and [StableBTreeMap]s) the state is spread over, the codec
    of its configuration record, the load that rebuilds the state and the
    delta that [write_state] persists.  The abstract contract is that of one
    memory cell holding a [FactoryState]; [mutate_refines] proves that the
    storage implements it, which is what lets the other files work on
    [FactoryState] directly. *)

From S2P Require Import Prelude Text SpawnProtocol Types State Samples.
From Stdlib Require Import Strings.Byte.

Definition STORAGE_SCHEMA_VERSION : N := 5.
Definition PREVIOUS_STORAGE_SCHEMA_VERSION : N := 4.

Module AuditStorageLayout.
Inductive t := SessionKeyedCollection.
#[global] Instance eq_dec : EqDecision t.
Proof. solve_decision. Defined.
End AuditStorageLayout.

Module StorageMetadata.
Record t := mk {
  schema_version : N;
  audit_storage_layout : AuditStorageLayout.t;
}.
#[global] Instance eq_dec : EqDecision t.
Proof. solve_decision. Defined.
#[global] Instance eta_t : Eta t := fun self =>
  mk (schema_version self) (audit_storage_layout self).
End StorageMetadata.

Module FactoryStableConfig.
Record t := mk {
  fee_config : FeeConfig.t;
  creation_cost_quote : CreationCostQuote.t;
  release_broadcast_config : ReleaseBroadcastConfig.t;
  child_runtime : option AutomatonChildRuntimeConfig.t;
  pause : bool;
  next_session_nonce : N;
  next_automaton_nonce : N;
  next_release_nonce : option N;
  steward_command_nonces : option (gmap string N);
  steward_refunds_in_flight : option (gset string);
  steward_refund_leases : option (gmap string RefundCommandLease.t);
  payment_address : string;
  escrow_contract_address : string;
  payment_last_scanned_block : option N;
  next_payment_poll_at_ms : option N;
  factory_evm_address : option string;
  factory_evm_address_derived_at : option N;
  base_rpc_endpoint : option string;
  base_rpc_fallback_endpoint : option string;
  cycles_per_spawn : N;
  min_pool_balance : N;
  estimated_outcall_cycles_per_interval : N;
  evm_confirmation_depth : option N;
  wasm_bytes : option (list byte);
  wasm_sha256 : option string;
  pending_artifact_upload : option PendingArtifactUpload.t;
  admin_principals : gset string;
  session_ttl_ms : N;
  version_commit : string;
}.
#[global] Instance eq_dec : EqDecision t.
Proof. solve_decision. Defined.
#[global] Instance eta_t : Eta t := fun self =>
  mk (fee_config self) (creation_cost_quote self) (release_broadcast_config self)
    (child_runtime self) (pause self) (next_session_nonce self) (next_automaton_nonce self)
    (next_release_nonce self) (steward_command_nonces self) (steward_refunds_in_flight self)
    (steward_refund_leases self) (payment_address self) (escrow_contract_address self)
    (payment_last_scanned_block self) (next_payment_poll_at_ms self)
    (factory_evm_address self) (factory_evm_address_derived_at self)
    (base_rpc_endpoint self) (base_rpc_fallback_endpoint self) (cycles_per_spawn self)
    (min_pool_balance self) (estimated_outcall_cycles_per_interval self)
    (evm_confirmation_depth self) (wasm_bytes self) (wasm_sha256 self)
    (pending_artifact_upload self) (admin_principals self) (session_ttl_ms self)
    (version_commit self).
End FactoryStableConfig.

Definition default_metadata : StorageMetadata.t :=
  StorageMetadata.mk STORAGE_SCHEMA_VERSION AuditStorageLayout.SessionKeyedCollection.

Module StableAuditEntries.
Record t := mk { entries : list SessionAuditEntry.t }.
#[global] Instance eq_dec : EqDecision t.
Proof. solve_decision. Defined.
End StableAuditEntries.

(** [impl From<&FactoryState> for FactoryStableConfig]. *)
Definition config_of (value : FactoryState.t) : FactoryStableConfig.t := {|
  FactoryStableConfig.fee_config := FactoryState.fee_config value;
  FactoryStableConfig.creation_cost_quote := FactoryState.creation_cost_quote value;
  FactoryStableConfig.release_broadcast_config := FactoryState.release_broadcast_config value;
  FactoryStableConfig.child_runtime := Some (FactoryState.child_runtime value);
  FactoryStableConfig.pause := FactoryState.pause value;
  FactoryStableConfig.next_session_nonce := FactoryState.next_session_nonce value;
  FactoryStableConfig.next_automaton_nonce := FactoryState.next_automaton_nonce value;
  FactoryStableConfig.next_release_nonce := FactoryState.next_release_nonce value;
  FactoryStableConfig.steward_command_nonces := Some (FactoryState.steward_command_nonces value);
  FactoryStableConfig.steward_refunds_in_flight := Some (FactoryState.steward_refunds_in_flight value);
  FactoryStableConfig.steward_refund_leases := Some (FactoryState.steward_refund_leases value);
  FactoryStableConfig.payment_address := FactoryState.payment_address value;
  FactoryStableConfig.escrow_contract_address := FactoryState.escrow_contract_address value;
  FactoryStableConfig.payment_last_scanned_block := FactoryState.payment_last_scanned_block value;
  FactoryStableConfig.next_payment_poll_at_ms := FactoryState.next_payment_poll_at_ms value;
  FactoryStableConfig.factory_evm_address := FactoryState.factory_evm_address value;
  FactoryStableConfig.factory_evm_address_derived_at := FactoryState.factory_evm_address_derived_at value;
  FactoryStableConfig.base_rpc_endpoint := FactoryState.base_rpc_endpoint value;
  FactoryStableConfig.base_rpc_fallback_endpoint := FactoryState.base_rpc_fallback_endpoint value;
  FactoryStableConfig.cycles_per_spawn := FactoryState.cycles_per_spawn value;
  FactoryStableConfig.min_pool_balance := FactoryState.min_pool_balance value;
  FactoryStableConfig.estimated_outcall_cycles_per_interval := FactoryState.estimated_outcall_cycles_per_interval value;
  FactoryStableConfig.evm_confirmation_depth := Some (FactoryState.evm_confirmation_depth value);
  FactoryStableConfig.wasm_bytes := FactoryState.wasm_bytes value;
  FactoryStableConfig.wasm_sha256 := FactoryState.wasm_sha256 value;
  FactoryStableConfig.pending_artifact_upload := FactoryState.pending_artifact_upload value;
  FactoryStableConfig.admin_principals := FactoryState.admin_principals value;
  FactoryStableConfig.session_ttl_ms := FactoryState.session_ttl_ms value;
  FactoryStableConfig.version_commit := FactoryState.version_commit value;
|}.

Module FactoryStableStorage.
Record t := mk {
  metadata : StorageMetadata.t;
  config : FactoryStableConfig.t;
  scheduler_runtime : SchedulerRuntime.t;
  room_state : RoomState.t;
  repository_strategies : gmap string RepositoryStrategyRecord.t;
  sessions : gmap string SpawnSession.t;
  spawn_provider_secrets : gmap string SpawnProviderSecrets.t;
  escrow_claims : gmap string EscrowClaim.t;
  registry : gmap string SpawnedAutomatonRecord.t;
  runtimes : gmap string AutomatonRuntimeState.t;
  audit_log : gmap string StableAuditEntries.t;
  room_messages : gmap N RoomMessage.t;
  scheduler_jobs : gmap string SchedulerJob.t;
}.
#[global] Instance eta_t : Eta t := fun self =>
  mk (metadata self) (config self) (scheduler_runtime self) (room_state self)
    (repository_strategies self) (sessions self) (spawn_provider_secrets self)
    (escrow_claims self) (registry self) (runtimes self) (audit_log self) (room_messages self)
    (scheduler_jobs self).
End FactoryStableStorage.

(** [FactoryStableConfig::into_state]: the collections come from their own
    memories, the optional fields of older records get their defaults. *)
Definition into_state (self : FactoryStableConfig.t)
    (repository_strategies : gmap string RepositoryStrategyRecord.t)
    (sessions : gmap string SpawnSession.t) (escrow_claims : gmap string EscrowClaim.t)
    (registry : gmap string SpawnedAutomatonRecord.t)
    (runtimes : gmap string AutomatonRuntimeState.t) (room_state : RoomState.t)
    (room_messages : gmap N RoomMessage.t) (scheduler_jobs : gmap string SchedulerJob.t)
    (scheduler_runtime : SchedulerRuntime.t)
    (audit_log : gmap string (list SessionAuditEntry.t)) : FactoryState.t := {|
  FactoryState.repository_strategies := repository_strategies;
  FactoryState.sessions := sessions;
  FactoryState.escrow_claims := escrow_claims;
  FactoryState.registry := registry;
  FactoryState.runtimes := runtimes;
  FactoryState.audit_log := audit_log;
  FactoryState.room_state := room_state;
  FactoryState.room_messages := room_messages;
  FactoryState.scheduler_jobs := scheduler_jobs;
  FactoryState.scheduler_runtime := scheduler_runtime;
  FactoryState.fee_config := FactoryStableConfig.fee_config self;
  FactoryState.creation_cost_quote := FactoryStableConfig.creation_cost_quote self;
  FactoryState.release_broadcast_config := FactoryStableConfig.release_broadcast_config self;
  FactoryState.child_runtime := default AutomatonChildRuntimeConfig.default (FactoryStableConfig.child_runtime self);
  FactoryState.pause := FactoryStableConfig.pause self;
  FactoryState.next_session_nonce := FactoryStableConfig.next_session_nonce self;
  FactoryState.next_automaton_nonce := FactoryStableConfig.next_automaton_nonce self;
  FactoryState.next_release_nonce := FactoryStableConfig.next_release_nonce self;
  FactoryState.steward_command_nonces := default ∅ (FactoryStableConfig.steward_command_nonces self);
  FactoryState.steward_refunds_in_flight := default ∅ (FactoryStableConfig.steward_refunds_in_flight self);
  FactoryState.steward_refund_leases := default ∅ (FactoryStableConfig.steward_refund_leases self);
  FactoryState.payment_address := FactoryStableConfig.payment_address self;
  FactoryState.escrow_contract_address := FactoryStableConfig.escrow_contract_address self;
  FactoryState.payment_last_scanned_block := FactoryStableConfig.payment_last_scanned_block self;
  FactoryState.next_payment_poll_at_ms := FactoryStableConfig.next_payment_poll_at_ms self;
  FactoryState.factory_evm_address := FactoryStableConfig.factory_evm_address self;
  FactoryState.factory_evm_address_derived_at := FactoryStableConfig.factory_evm_address_derived_at self;
  FactoryState.base_rpc_endpoint := FactoryStableConfig.base_rpc_endpoint self;
  FactoryState.base_rpc_fallback_endpoint := FactoryStableConfig.base_rpc_fallback_endpoint self;
  FactoryState.cycles_per_spawn := FactoryStableConfig.cycles_per_spawn self;
  FactoryState.min_pool_balance := FactoryStableConfig.min_pool_balance self;
  FactoryState.estimated_outcall_cycles_per_interval := FactoryStableConfig.estimated_outcall_cycles_per_interval self;
  FactoryState.evm_confirmation_depth := 
    resolve_evm_confirmation_depth
      (ReleaseBroadcastConfig.chain_id (FactoryStableConfig.release_broadcast_config self))
      (FactoryStableConfig.evm_confirmation_depth self);
  FactoryState.wasm_bytes := FactoryStableConfig.wasm_bytes self;
  FactoryState.wasm_sha256 := FactoryStableConfig.wasm_sha256 self;
  FactoryState.pending_artifact_upload := FactoryStableConfig.pending_artifact_upload self;
  FactoryState.admin_principals := FactoryStableConfig.admin_principals self;
  FactoryState.session_ttl_ms := FactoryStableConfig.session_ttl_ms self;
  FactoryState.version_commit := FactoryStableConfig.version_commit self;
|}.

(** [assert_supported_schema]; a failed assertion traps. *)
Definition supported_schema (storage : FactoryStableStorage.t) : bool :=
  let metadata := FactoryStableStorage.metadata storage in
  ((StorageMetadata.schema_version metadata =? STORAGE_SCHEMA_VERSION)%N
   || (StorageMetadata.schema_version metadata =? PREVIOUS_STORAGE_SCHEMA_VERSION)%N)
  && bool_decide (StorageMetadata.audit_storage_layout metadata
                  = AuditStorageLayout.SessionKeyedCollection).

Definition load_state (storage : FactoryStableStorage.t) : option FactoryState.t :=
  if supported_schema storage then
    Some (into_state (FactoryStableStorage.config storage)
      (FactoryStableStorage.repository_strategies storage)
      (FactoryStableStorage.sessions storage)
      (FactoryStableStorage.escrow_claims storage)
      (FactoryStableStorage.registry storage)
      (FactoryStableStorage.runtimes storage)
      (FactoryStableStorage.room_state storage)
      (FactoryStableStorage.room_messages storage)
      (FactoryStableStorage.scheduler_jobs storage)
      (FactoryStableStorage.scheduler_runtime storage)
      (StableAuditEntries.entries <$> FactoryStableStorage.audit_log storage))
  else None.

(** [sync_collection]: remove the keys that are gone, insert the entries that
    changed, one write each. *)
Definition sync_collection {K V} `{Countable K, KeyOrderOk K, EqDecision V}
    (current next map : gmap K V) : gmap K V :=
  let map := foldl (fun map key =>
      if decide (next !! key = None) then delete key map else map)
    map (btree_keys current) in
  foldl (fun map (entry : K * V) =>
      if decide (current !! entry.1 = Some entry.2) then map
      else <[entry.1 := entry.2]> map)
    map (btree_iter next).

Definition sync_audit_log (current next : gmap string (list SessionAuditEntry.t))
    (map : gmap string StableAuditEntries.t) : gmap string StableAuditEntries.t :=
  let map := foldl (fun map session_id =>
      if decide (next !! session_id = None) then delete session_id map else map)
    map (btree_keys current) in
  foldl (fun map (entry : string * list SessionAuditEntry.t) =>
      if decide (current !! entry.1 = Some entry.2) then map
      else <[entry.1 := StableAuditEntries.mk entry.2]> map)
    map (btree_iter next).

(** A cell is written only if its value changes. *)
Definition set_cell {A} `{EqDecision A} (changed : bool) (value : A) (cell : A) : A :=
  if changed then value else cell.

Definition persist_delta (current next : FactoryState.t) (storage : FactoryStableStorage.t)
    : FactoryStableStorage.t := {|
  FactoryStableStorage.metadata :=
    set_cell (bool_decide (FactoryStableStorage.metadata storage <> default_metadata))
      default_metadata (FactoryStableStorage.metadata storage);
  FactoryStableStorage.config :=
    set_cell (bool_decide (config_of current <> config_of next))
      (config_of next) (FactoryStableStorage.config storage);
  FactoryStableStorage.scheduler_runtime :=
    set_cell (bool_decide (FactoryStableStorage.scheduler_runtime storage
                           <> FactoryState.scheduler_runtime next))
      (FactoryState.scheduler_runtime next) (FactoryStableStorage.scheduler_runtime storage);
  FactoryStableStorage.room_state :=
    set_cell (bool_decide (FactoryStableStorage.room_state storage
                           <> FactoryState.room_state next))
      (FactoryState.room_state next) (FactoryStableStorage.room_state storage);
  FactoryStableStorage.repository_strategies :=
    sync_collection (FactoryState.repository_strategies current)
      (FactoryState.repository_strategies next)
      (FactoryStableStorage.repository_strategies storage);
  FactoryStableStorage.sessions :=
    sync_collection (FactoryState.sessions current) (FactoryState.sessions next)
      (FactoryStableStorage.sessions storage);
  FactoryStableStorage.spawn_provider_secrets :=
    FactoryStableStorage.spawn_provider_secrets storage;
  FactoryStableStorage.escrow_claims :=
    sync_collection (FactoryState.escrow_claims current) (FactoryState.escrow_claims next)
      (FactoryStableStorage.escrow_claims storage);
  FactoryStableStorage.registry :=
    sync_collection (FactoryState.registry current) (FactoryState.registry next)
      (FactoryStableStorage.registry storage);
  FactoryStableStorage.runtimes :=
    sync_collection (FactoryState.runtimes current) (FactoryState.runtimes next)
      (FactoryStableStorage.runtimes storage);
  FactoryStableStorage.audit_log :=
    sync_audit_log (FactoryState.audit_log current) (FactoryState.audit_log next)
      (FactoryStableStorage.audit_log storage);
  FactoryStableStorage.room_messages :=
    sync_collection (FactoryState.room_messages current) (FactoryState.room_messages next)
      (FactoryStableStorage.room_messages storage);
  FactoryStableStorage.scheduler_jobs :=
    sync_collection (FactoryState.scheduler_jobs current) (FactoryState.scheduler_jobs next)
      (FactoryStableStorage.scheduler_jobs storage);
|}.

(** [mutate]: the closure works on a copy; what it leaves is persisted as a
    delta whatever it returns. *)
Definition mutate {E A} (writer : M FactoryState.t E A) : M FactoryStableStorage.t E A :=
  fun storage =>
    match load_state storage with
    | None => Trap
    | Some current =>
        match writer current with
        | Done result next => Done result (persist_delta current next storage)
        | Fail error next => Fail error (persist_delta current next storage)
        | Trap => Trap
        end
    end.

(** [replace_state]. *)
Definition replace_state (next : FactoryState.t) (storage : FactoryStableStorage.t)
    : option FactoryStableStorage.t :=
  current ← load_state storage;
  Some (persist_delta current next storage).

(** ** The delta is the state *)

Section Sync.
Context {K V : Type} `{Countable K, !KeyOrder K, !KeyOrderOk K}.

(** The two loops of a sync, over lists: removals of absent keys, then
    insertions of changed entries [f]-encoded. *)
Lemma foldl_delete_lookup (P : K -> Prop) `{forall k, Decision (P k)} (keys : list K)
    (map : gmap K V) (key : K) :
  foldl (fun map key => if decide (P key) then delete key map else map) map keys !! key
  = if decide (key ∈ keys /\ P key) then None else map !! key.
Proof.
  revert map. induction keys as [|k keys IH]; intros map.
  - rewrite decide_False; [done|]. intros [Hin _]. by apply not_elem_of_nil in Hin.
  - cbn [foldl]. rewrite IH. destruct (decide (P k)) as [Hk|Hk].
    + destruct (decide (key ∈ keys /\ P key)); [rewrite decide_True by set_solver; done|].
      destruct (decide (key = k)) as [->|Hne].
      * rewrite decide_True by set_solver. apply lookup_delete_eq.
      * rewrite decide_False by set_solver. by rewrite lookup_delete_ne.
    + destruct (decide (key ∈ keys /\ P key)) as [Hd|Hd];
        [rewrite decide_True by set_solver | rewrite decide_False by set_solver]; done.
Qed.

Lemma foldl_insert_lookup {W} (encode : V -> W) (P : K * V -> Prop)
    `{forall e, Decision (P e)} (entries : list (K * V)) (map : gmap K W) (key : K) :
  NoDup entries.*1 ->
  foldl (fun map entry => if decide (P entry) then map
                          else <[entry.1 := encode entry.2]> map) map entries !! key
  = match (list_to_map entries : gmap K V) !! key with
    | Some value => if decide (P (key, value)) then map !! key else Some (encode value)
    | None => map !! key
    end.
Proof.
  revert map. induction entries as [|[k v] entries IH]; intros map; simpl; [done|].
  intros [Hn Hnd]%NoDup_cons. rewrite IH by done.
  destruct (decide (key = k)) as [->|Hne].
  - rewrite lookup_insert_eq, (proj1 (not_elem_of_list_to_map _ _)) by done.
    destruct (decide (P (k, v))); [done|]. apply lookup_insert_eq.
  - rewrite !lookup_insert_ne by done.
    assert (forall w, (if decide (P (k, v)) then map else <[k:=encode w]> map) !! key = map !! key)
      as Hsame by (intros w; destruct (decide _); [done|by rewrite lookup_insert_ne]).
    rewrite Hsame. done.
Qed.
End Sync.

Lemma btree_iter_to_map {K V} `{Countable K, KeyOrderOk K} (m : gmap K V) :
  list_to_map (btree_iter m) = m.
Proof.
  apply map_eq. intros k. destruct (m !! k) as [v|] eqn:Hv.
  - apply elem_of_list_to_map; [apply NoDup_btree_keys|]. by apply elem_of_btree_iter.
  - apply not_elem_of_list_to_map. intros Hin. change (k ∈ btree_keys m) in Hin.
    apply elem_of_btree_keys in Hin as [v Hv']. congruence.
Qed.

(** Syncing a map that holds the encoding of [current] makes it hold the
    encoding of [next]. *)
Lemma sync_lookup {K V W} `{Countable K, !KeyOrder K, !KeyOrderOk K, EqDecision V}
    (encode : V -> W) (current next : gmap K V) (key : K) :
  foldl (fun map (entry : K * V) =>
      if decide (current !! entry.1 = Some entry.2) then map
      else <[entry.1 := encode entry.2]> map)
    (foldl (fun map key => if decide (next !! key = None) then delete key map else map)
      (encode <$> current) (btree_keys current)) (btree_iter next) !! key
  = (encode <$> next) !! key.
Proof.
  rewrite (foldl_insert_lookup encode) by apply NoDup_btree_keys.
  pose proof (foldl_delete_lookup (fun k => next !! k = None) (btree_keys current)
    (encode <$> current) key) as Hdel. cbv beta in Hdel.
  rewrite btree_iter_to_map, Hdel, !lookup_fmap. clear Hdel.
  assert (Hkeys : key ∈ btree_keys current <-> is_Some (current !! key))
    by apply elem_of_btree_keys.
  destruct (next !! key) as [value|] eqn:Hnext; simpl.
  - destruct (decide (current !! key = Some value)) as [->|]; [|done].
    destruct (decide _) as [[_ ?]|]; done.
  - destruct (decide _) as [|Hno]; [done|].
    destruct (current !! key) as [old|]; [|done]. destruct Hno. split; [by apply Hkeys|done].
Qed.

Lemma sync_collection_correct {K V} `{Countable K, !KeyOrder K, !KeyOrderOk K, EqDecision V}
    (current next : gmap K V) :
  sync_collection current next current = next.
Proof.
  apply map_eq. intros key. pose proof (sync_lookup id current next key) as Hlookup.
  rewrite !map_fmap_id in Hlookup. exact Hlookup.
Qed.

Lemma sync_audit_log_correct (current next : gmap string (list SessionAuditEntry.t)) map :
  StableAuditEntries.entries <$> map = current ->
  StableAuditEntries.entries <$> sync_audit_log current next map = next.
Proof.
  intros Hcurrent. assert (Hmap : map = StableAuditEntries.mk <$> current).
  { rewrite <-Hcurrent, <-map_fmap_compose. rewrite <-(map_fmap_id map) at 1.
    apply map_fmap_ext. intros k [entries] _. done. }
  apply map_eq. intros key. rewrite lookup_fmap, Hmap. unfold sync_audit_log.
  rewrite sync_lookup, lookup_fmap. by destruct (next !! key).
Qed.

(** The configuration survives its encoding. *)
Lemma into_state_config_of (state : FactoryState.t) :
  into_state (config_of state)
    (FactoryState.repository_strategies state) (FactoryState.sessions state)
    (FactoryState.escrow_claims state) (FactoryState.registry state)
    (FactoryState.runtimes state) (FactoryState.room_state state)
    (FactoryState.room_messages state) (FactoryState.scheduler_jobs state)
    (FactoryState.scheduler_runtime state) (FactoryState.audit_log state) = state.
Proof. by destruct state. Qed.

(** Two states with the same configuration record agree on it. *)
Lemma config_of_inj_into (state state' : FactoryState.t) config :
  config_of state = config_of state' ->
  into_state config
    (FactoryState.repository_strategies state) (FactoryState.sessions state)
    (FactoryState.escrow_claims state) (FactoryState.registry state)
    (FactoryState.runtimes state) (FactoryState.room_state state)
    (FactoryState.room_messages state) (FactoryState.scheduler_jobs state)
    (FactoryState.scheduler_runtime state) (FactoryState.audit_log state) = state ->
  into_state config
    (FactoryState.repository_strategies state') (FactoryState.sessions state')
    (FactoryState.escrow_claims state') (FactoryState.registry state')
    (FactoryState.runtimes state') (FactoryState.room_state state')
    (FactoryState.room_messages state') (FactoryState.scheduler_jobs state')
    (FactoryState.scheduler_runtime state') (FactoryState.audit_log state') = state'.
Proof.
  intros Hsame Hstate. rewrite <-(into_state_config_of state'), <-Hsame.
  assert (Hconfig : config_of (into_state config
    (FactoryState.repository_strategies state) (FactoryState.sessions state)
    (FactoryState.escrow_claims state) (FactoryState.registry state)
    (FactoryState.runtimes state) (FactoryState.room_state state)
    (FactoryState.room_messages state) (FactoryState.scheduler_jobs state)
    (FactoryState.scheduler_runtime state) (FactoryState.audit_log state)) = config_of state)
    by (by rewrite Hstate).
  rewrite <-Hconfig. done.
Qed.

Lemma set_cell_eq {A} `{EqDecision A} (cell value : A) :
  set_cell (bool_decide (cell <> value)) value cell = value.
Proof. unfold set_cell. destruct (decide (cell = value)) as [->|]; by case_bool_decide. Qed.

(** The delta of a loaded state makes the storage load the next one. *)
Lemma load_persist_delta storage current next :
  load_state storage = Some current ->
  load_state (persist_delta current next storage) = Some next
  /\ FactoryStableStorage.spawn_provider_secrets (persist_delta current next storage)
     = FactoryStableStorage.spawn_provider_secrets storage.
Proof.
  intros Hload. split; [|done]. unfold load_state in Hload.
  destruct (supported_schema storage) eqn:Hschema; [|done]. injection Hload as Hload.
  assert (Hcurrent := f_equal FactoryState.audit_log Hload). cbn in Hcurrent.
  unfold load_state.
  assert (supported_schema (persist_delta current next storage) = true) as ->.
  { unfold supported_schema. cbn. rewrite set_cell_eq. reflexivity. }
  cbn. rewrite !set_cell_eq. rewrite (sync_audit_log_correct _ _ _ Hcurrent).
  assert (Hsync :
    sync_collection (FactoryState.repository_strategies current)
      (FactoryState.repository_strategies next)
      (FactoryStableStorage.repository_strategies storage)
      = FactoryState.repository_strategies next
    /\ sync_collection (FactoryState.sessions current) (FactoryState.sessions next)
      (FactoryStableStorage.sessions storage) = FactoryState.sessions next
    /\ sync_collection (FactoryState.escrow_claims current) (FactoryState.escrow_claims next)
      (FactoryStableStorage.escrow_claims storage) = FactoryState.escrow_claims next
    /\ sync_collection (FactoryState.registry current) (FactoryState.registry next)
      (FactoryStableStorage.registry storage) = FactoryState.registry next
    /\ sync_collection (FactoryState.runtimes current) (FactoryState.runtimes next)
      (FactoryStableStorage.runtimes storage) = FactoryState.runtimes next
    /\ sync_collection (FactoryState.room_messages current) (FactoryState.room_messages next)
      (FactoryStableStorage.room_messages storage) = FactoryState.room_messages next
    /\ sync_collection (FactoryState.scheduler_jobs current) (FactoryState.scheduler_jobs next)
      (FactoryStableStorage.scheduler_jobs storage) = FactoryState.scheduler_jobs next).
  { rewrite <-Hload. split_and!; apply sync_collection_correct. }
  destruct Hsync as (-> & -> & -> & -> & -> & -> & ->). f_equal.
  unfold set_cell. case_bool_decide as Hconfig; [apply into_state_config_of|].
  apply (config_of_inj_into current); [done|]. by subst current.
Qed.

(** C36 - the stable storage implements one memory cell.  From storage that loads
    state [current], [mutate] runs the writer on [current]; whatever the writer
    returns, the storage then loads exactly the state the writer left, and the
    provider secrets, which have a memory of their own, are untouched.  A trap
    of the writer traps. *)
Theorem mutate_refines {E A} (writer : M FactoryState.t E A) storage current :
  load_state storage = Some current ->
  match writer current with
  | Done result next => exists storage',
      mutate writer storage = Done result storage'
      /\ load_state storage' = Some next
      /\ FactoryStableStorage.spawn_provider_secrets storage'
         = FactoryStableStorage.spawn_provider_secrets storage
  | Fail error next => exists storage',
      mutate writer storage = Fail error storage'
      /\ load_state storage' = Some next
      /\ FactoryStableStorage.spawn_provider_secrets storage'
         = FactoryStableStorage.spawn_provider_secrets storage
  | Trap => mutate writer storage = Trap
  end.
Proof.
  intros Hload. unfold mutate. rewrite Hload.
  destruct (writer current) as [result next|error next|]; [| |done];
    (eexists; split; [reflexivity|]; by apply load_persist_delta).
Qed.

(** Storage of the previous schema version, with the optional fields absent, is
    loaded with their defaults and upgraded by the first write. *)
Definition sample_storage : FactoryStableStorage.t := {|
  FactoryStableStorage.metadata :=
    StorageMetadata.mk PREVIOUS_STORAGE_SCHEMA_VERSION AuditStorageLayout.SessionKeyedCollection;
  FactoryStableStorage.config := config_of Samples.initial
    <| FactoryStableConfig.evm_confirmation_depth := None |>
    <| FactoryStableConfig.steward_refund_leases := None |>;
  FactoryStableStorage.scheduler_runtime := SchedulerRuntime.default;
  FactoryStableStorage.room_state := RoomState.default;
  FactoryStableStorage.repository_strategies := ∅;
  FactoryStableStorage.sessions :=
    {["s" := Samples.session SpawnSessionState.AwaitingPayment PaymentStatus.Unpaid]};
  FactoryStableStorage.spawn_provider_secrets := ∅;
  FactoryStableStorage.escrow_claims := ∅;
  FactoryStableStorage.registry := ∅;
  FactoryStableStorage.runtimes := ∅;
  FactoryStableStorage.audit_log := ∅;
  FactoryStableStorage.room_messages := ∅;
  FactoryStableStorage.scheduler_jobs := ∅;
|}.

Definition sample_writer : F unit :=
  modify (fun state => state <| FactoryState.pause := true |> <| FactoryState.sessions := ∅ |>).

Lemma mutate_refines_witness :
  exists current storage',
    load_state sample_storage = Some current
    /\ mutate sample_writer sample_storage = Done tt storage'
    /\ FactoryState.pause <$> load_state storage' = Some true.
Proof.
  destruct (load_state sample_storage) as [current|] eqn:Hload; [|vm_compute in Hload; discriminate].
  destruct (mutate_refines sample_writer sample_storage current Hload)
    as (storage' & Hrun & Hload' & _).
  exists current, storage'. split; [reflexivity|]. split; [exact Hrun|].
  rewrite Hload'. reflexivity.
Defined.
