(* ===== verification/Transitions.v ===== *)
(** * Transitions: the spawn-session state machine

    Models [backend/factory/src/session_transitions.rs] and [expiry.rs]: the
    events of a spawn session, their guards, the derived [retryable] and
    [refundable] flags (mirrored in the escrow claim) and the audit entry each
    event leaves.  [session_step] is the state machine as a relation, which
    [apply_session_event_in_state] is proved to implement. *)

From S2P Require Import Prelude Text SpawnProtocol Types State Samples.

Module SpawnSessionEvent.
Inductive t :=
| SessionCreated
| PaymentObserved
| SpawnStarted
| InstallSucceeded
| ReleaseBroadcast
| SpawnFailed
| RetryRequested
| SessionExpired.
#[global] Instance eq_dec : EqDecision t.
Proof. solve_decision. Defined.
Definition as_str (event : t) : string :=
  match event with
  | SessionCreated => "session_created"
  | PaymentObserved => "payment_observed"
  | SpawnStarted => "spawn_started"
  | InstallSucceeded => "install_succeeded"
  | ReleaseBroadcast => "release_broadcast"
  | SpawnFailed => "spawn_failed"
  | RetryRequested => "retry_requested"
  | SessionExpired => "session_expired"
  end.
End SpawnSessionEvent.

Definition is_retryable_payment_status (payment_status : PaymentStatus.t) : bool :=
  bool_decide (payment_status = PaymentStatus.Paid).

Definition is_refundable_payment_status (payment_status : PaymentStatus.t) : bool :=
  match payment_status with
  | PaymentStatus.Partial | PaymentStatus.Paid => true
  | _ => false
  end.

Definition derive_retryable (session : SpawnSession.t) (now_ms : N) : bool :=
  bool_decide (SpawnSession.state session = SpawnSessionState.Failed)
  && is_retryable_payment_status (SpawnSession.payment_status session)
  && (now_ms <=? SpawnSession.expires_at session)%N.

Definition derive_refundable (session : SpawnSession.t) : bool :=
  match SpawnSession.state session with
  | SpawnSessionState.Expired | SpawnSessionState.Failed => true
  | _ => false
  end
  && is_refundable_payment_status (SpawnSession.payment_status session).

Definition transition_error (session_id : string) (from_state : SpawnSessionState.t)
    (event : SpawnSessionEvent.t) : FactoryError.t :=
  FactoryError.IllegalSessionTransition session_id from_state (SpawnSessionEvent.as_str event).

(** [state.sessions.get(session_id).cloned().ok_or(SessionNotFound)]. *)
Definition get_session (session_id : string) : F SpawnSession.t := fun state =>
  lift (ok_or (FactoryState.sessions state !! session_id)
              (FactoryError.SessionNotFound session_id)) state.

Definition put_session (session_id : string) (session : SpawnSession.t) : F unit :=
  modify (fun state => state <| FactoryState.sessions ::= <[session_id := session]> |>).

Definition with_derived_flags (now_ms : N) (session : SpawnSession.t) : SpawnSession.t :=
  let session := session <| SpawnSession.retryable := derive_retryable session now_ms |> in
  session <| SpawnSession.refundable := derive_refundable session |>.

Definition sync_claim (refundable : bool) (now_ms : N) (claim : EscrowClaim.t) : EscrowClaim.t :=
  claim <| EscrowClaim.refundable := refundable |> <| EscrowClaim.updated_at := now_ms |>.

Definition sync_session_derived_flags_in_state (session_id : string) (now_ms : N)
    : F SpawnSession.t :=
  session ← get_session session_id;
  let session := with_derived_flags now_ms session in
  put_session session_id session;;
  modify (fun state =>
    state <| FactoryState.escrow_claims ::=
      alter (sync_claim (SpawnSession.refundable session) now_ms) session_id |>);;
  stored ← gets (fun state => FactoryState.sessions state !! session_id);
  expect stored.

(** What an event asks for: the [from] state of the audit entry, the new state
    and whether the expiry is reset; [None] when the event returns the session
    untouched. *)
Definition event_outcome (session_id : string) (snapshot : SpawnSession.t)
    (audit : option (list SessionAuditEntry.t)) (now_ms : N) (event : SpawnSessionEvent.t)
    : result FactoryError.t
        (option (option SpawnSessionState.t * SpawnSessionState.t * bool)) :=
  let from_state := SpawnSession.state snapshot in
  let payment_status := SpawnSession.payment_status snapshot in
  let require (allowed : list SpawnSessionState.t) :=
    err_if (bool_decide (from_state ∉ allowed)) (transition_error session_id from_state event) in
  match event with
  | SpawnSessionEvent.SessionCreated =>
      err_if (bool_decide (from_state <> SpawnSessionState.AwaitingPayment)
              || is_some_and (fun entries => bool_decide (entries <> [])) audit)
        (transition_error session_id from_state event);;
      Ok (Some (None, SpawnSessionState.AwaitingPayment, false))
  | SpawnSessionEvent.PaymentObserved =>
      require [SpawnSessionState.AwaitingPayment];;
      err_if (bool_decide (payment_status <> PaymentStatus.Paid))
        (FactoryError.PaymentNotSettled session_id payment_status);;
      Ok (Some (Some from_state, SpawnSessionState.PaymentDetected, false))
  | SpawnSessionEvent.SpawnStarted =>
      require [SpawnSessionState.PaymentDetected];;
      Ok (Some (Some from_state, SpawnSessionState.Spawning, false))
  | SpawnSessionEvent.InstallSucceeded =>
      require [SpawnSessionState.Spawning];;
      Ok (Some (Some from_state, SpawnSessionState.BroadcastingRelease, false))
  | SpawnSessionEvent.ReleaseBroadcast =>
      require [SpawnSessionState.BroadcastingRelease];;
      Ok (Some (Some from_state, SpawnSessionState.Complete, false))
  | SpawnSessionEvent.SpawnFailed =>
      require [SpawnSessionState.PaymentDetected; SpawnSessionState.Spawning;
               SpawnSessionState.BroadcastingRelease];;
      Ok (Some (Some from_state, SpawnSessionState.Failed, false))
  | SpawnSessionEvent.RetryRequested =>
      err_if (bool_decide (from_state <> SpawnSessionState.Failed)
              || negb (SpawnSession.retryable snapshot))
        (FactoryError.SessionNotRetryable session_id from_state);;
      err_if (bool_decide (payment_status <> PaymentStatus.Paid))
        (FactoryError.PaymentNotSettled session_id payment_status);;
      Ok (Some (Some from_state, SpawnSessionState.PaymentDetected, true))
  | SpawnSessionEvent.SessionExpired =>
      if bool_decide (from_state ∈ [SpawnSessionState.Complete; SpawnSessionState.Expired])
         || bool_decide (payment_status = PaymentStatus.Refunded)
         || (now_ms <=? SpawnSession.expires_at snapshot)%N
      then Ok None
      else Ok (Some (Some from_state, SpawnSessionState.Expired, false))
  end.

(** The writes of a transition to the session itself. *)
Definition move_session (to_state : SpawnSessionState.t) (reset_expiry : bool)
    (session_ttl_ms now_ms : N) (session : SpawnSession.t) : SpawnSession.t :=
  let session := session <| SpawnSession.state := to_state |> in
  let session :=
    if reset_expiry
    then session <| SpawnSession.expires_at := wrapping_add 64 now_ms session_ttl_ms |>
    else session in
  session <| SpawnSession.updated_at := now_ms |>.

Definition apply_session_event_in_state (session_id : string) (actor : SessionAuditActor.t)
    (now_ms : N) (event : SpawnSessionEvent.t) (reason : string) : F SpawnSession.t :=
  snapshot ← get_session session_id;
  audit ← gets (fun state => FactoryState.audit_log state !! session_id);
  outcome ← lift (event_outcome session_id snapshot audit now_ms event);
  match outcome with
  | None => mret snapshot
  | Some (audit_from_state, to_state, reset_expiry) =>
      session_ttl_ms ← gets FactoryState.session_ttl_ms;
      stored ← gets (fun state => FactoryState.sessions state !! session_id);
      session ← expect stored;
      put_session session_id (move_session to_state reset_expiry session_ttl_ms now_ms session);;
      session ← sync_session_derived_flags_in_state session_id now_ms;
      modify (record_session_audit session_id audit_from_state to_state actor now_ms reason);;
      mret session
  end.

(** ** Expiry *)

Definition expire_session_in_state (session_id : string) (actor : SessionAuditActor.t)
    (now_ms : N) (reason : string) : F SpawnSession.t :=
  apply_session_event_in_state session_id actor now_ms SpawnSessionEvent.SessionExpired reason.

(** [expire_spawn_session]: a successful call also drops the stored secrets. *)
Definition expire_spawn_session (session_id : string) (now_ms : N) : C SpawnSession.t :=
  result ← catch (write_state
    (expire_session_in_state session_id SessionAuditActor.System now_ms "session expired"));
  (if is_ok result then delete_spawn_provider_secrets session_id else mret tt);;
  lift result.

(** ** What an event does to the state *)

(** The session an event that moves to [to_state] leaves. *)
Definition moved_session (to_state : SpawnSessionState.t) (reset_expiry : bool) (now_ms : N)
    (state : FactoryState.t) (session : SpawnSession.t) : SpawnSession.t :=
  with_derived_flags now_ms
    (move_session to_state reset_expiry (FactoryState.session_ttl_ms state) now_ms session).

(** The state a transition leaves: the session, its claim and its audit log,
    and nothing else, are written. *)
Definition moved_state (session_id : string) (actor : SessionAuditActor.t) (now_ms : N)
    (reason : string) (from : option SpawnSessionState.t) (to_state : SpawnSessionState.t)
    (session : SpawnSession.t) (state : FactoryState.t) : FactoryState.t :=
  state
    <| FactoryState.sessions ::= <[session_id := session]> |>
    <| FactoryState.escrow_claims ::=
         alter (sync_claim (SpawnSession.refundable session) now_ms) session_id |>
    <| FactoryState.audit_log ::= <[session_id :=
         push_audit (SessionAuditEntry.mk session_id now_ms from to_state actor reason)
           (default [] (FactoryState.audit_log state !! session_id))]> |>.

Lemma get_session_Some session_id session state :
  FactoryState.sessions state !! session_id = Some session ->
  get_session session_id state = Done session state.
Proof. intros H. unfold get_session. by rewrite H. Qed.

Lemma sync_session_derived_flags_run session_id now_ms session state :
  FactoryState.sessions state !! session_id = Some session ->
  sync_session_derived_flags_in_state session_id now_ms state =
  Done (with_derived_flags now_ms session)
    (state
      <| FactoryState.sessions ::= <[session_id := with_derived_flags now_ms session]> |>
      <| FactoryState.escrow_claims ::=
           alter (sync_claim (derive_refundable session) now_ms) session_id |>).
Proof.
  intros H. unfold sync_session_derived_flags_in_state.
  rewrite (M_bind_run _ _ _ _ _ (get_session_Some _ _ _ H)).
  unfold put_session. exec. cbn. rewrite lookup_insert_eq. reflexivity.
Qed.

Lemma apply_session_event_run session_id actor now_ms event reason session state :
  FactoryState.sessions state !! session_id = Some session ->
  apply_session_event_in_state session_id actor now_ms event reason state =
  match event_outcome session_id session (FactoryState.audit_log state !! session_id)
          now_ms event with
  | Err e => Fail e state
  | Ok None => Done session state
  | Ok (Some (from, to_state, reset_expiry)) =>
      let session' := moved_session to_state reset_expiry now_ms state session in
      Done session' (moved_state session_id actor now_ms reason from to_state session' state)
  end.
Proof.
  intros H. unfold apply_session_event_in_state.
  rewrite (M_bind_run _ _ _ _ _ (get_session_Some _ _ _ H)).
  exec. destruct (event_outcome _ _ _ _ _) as [[[[from to_state] reset]|]|e]; [|done..].
  rewrite H. unfold put_session. exec.
  erewrite sync_session_derived_flags_run by apply lookup_insert_eq.
  unfold moved_state, record_session_audit, moved_session.
  f_equal. merge_set. simpl_set. do 2 f_equal.
  apply set_ext; [reflexivity|]. by rewrite insert_insert_eq.
Qed.

Lemma apply_session_event_missing session_id actor now_ms event reason state :
  FactoryState.sessions state !! session_id = None ->
  apply_session_event_in_state session_id actor now_ms event reason state =
  Fail (FactoryError.SessionNotFound session_id) state.
Proof.
  intros H. unfold apply_session_event_in_state, mbind, M_bind, get_session.
  by rewrite H.
Qed.

(** ** The state machine as a relation *)

(** [session_step now_ms unlogged session event to]: the event moves the
    session to state [to].  [unlogged] says that no audit entry exists yet. *)
Inductive session_step (now_ms : N) (unlogged : Prop) (session : SpawnSession.t) :
    SpawnSessionEvent.t -> SpawnSessionState.t -> Prop :=
| step_created :
    unlogged ->
    SpawnSession.state session = SpawnSessionState.AwaitingPayment ->
    session_step now_ms unlogged session
      SpawnSessionEvent.SessionCreated SpawnSessionState.AwaitingPayment
| step_payment_observed :
    SpawnSession.state session = SpawnSessionState.AwaitingPayment ->
    SpawnSession.payment_status session = PaymentStatus.Paid ->
    session_step now_ms unlogged session
      SpawnSessionEvent.PaymentObserved SpawnSessionState.PaymentDetected
| step_spawn_started :
    SpawnSession.state session = SpawnSessionState.PaymentDetected ->
    session_step now_ms unlogged session
      SpawnSessionEvent.SpawnStarted SpawnSessionState.Spawning
| step_install_succeeded :
    SpawnSession.state session = SpawnSessionState.Spawning ->
    session_step now_ms unlogged session
      SpawnSessionEvent.InstallSucceeded SpawnSessionState.BroadcastingRelease
| step_release_broadcast :
    SpawnSession.state session = SpawnSessionState.BroadcastingRelease ->
    session_step now_ms unlogged session
      SpawnSessionEvent.ReleaseBroadcast SpawnSessionState.Complete
| step_spawn_failed :
    SpawnSession.state session ∈ [SpawnSessionState.PaymentDetected;
      SpawnSessionState.Spawning; SpawnSessionState.BroadcastingRelease] ->
    session_step now_ms unlogged session
      SpawnSessionEvent.SpawnFailed SpawnSessionState.Failed
| step_retry_requested :
    SpawnSession.state session = SpawnSessionState.Failed ->
    SpawnSession.retryable session = true ->
    SpawnSession.payment_status session = PaymentStatus.Paid ->
    session_step now_ms unlogged session
      SpawnSessionEvent.RetryRequested SpawnSessionState.PaymentDetected
| step_expired :
    SpawnSession.state session <> SpawnSessionState.Complete ->
    SpawnSession.state session <> SpawnSessionState.Expired ->
    SpawnSession.payment_status session <> PaymentStatus.Refunded ->
    (SpawnSession.expires_at session < now_ms)%N ->
    session_step now_ms unlogged session
      SpawnSessionEvent.SessionExpired SpawnSessionState.Expired.

(** The edges of the machine, as the audit entries record them. *)
Definition session_edge (from : option SpawnSessionState.t) (to_state : SpawnSessionState.t)
    : bool :=
  match from, to_state with
  | None, SpawnSessionState.AwaitingPayment
  | Some SpawnSessionState.AwaitingPayment, SpawnSessionState.PaymentDetected
  | Some SpawnSessionState.PaymentDetected, SpawnSessionState.Spawning
  | Some SpawnSessionState.Spawning, SpawnSessionState.BroadcastingRelease
  | Some SpawnSessionState.BroadcastingRelease, SpawnSessionState.Complete
  | Some (SpawnSessionState.PaymentDetected | SpawnSessionState.Spawning
          | SpawnSessionState.BroadcastingRelease), SpawnSessionState.Failed
  | Some SpawnSessionState.Failed, SpawnSessionState.PaymentDetected => true
  | Some (SpawnSessionState.Complete | SpawnSessionState.Expired),
    SpawnSessionState.Expired => false
  | Some _, SpawnSessionState.Expired => true
  | _, _ => false
  end.

Definition unlogged (audit : option (list SessionAuditEntry.t)) : Prop :=
  default [] audit = [].

Ltac decide_step :=
  repeat match goal with
  | H : err_if _ _ = Ok _ |- _ => rewrite err_if_Ok in H
  | H : (err_if _ _ ;; _) = Ok _ |- _ => rewrite err_if_seq_Ok in H; destruct H
  | H : orb _ _ = false |- _ => apply orb_false_iff in H; destruct H
  | H : orb _ _ = true |- _ => apply orb_true_iff in H
  | H : bool_decide _ = false |- _ => apply bool_decide_eq_false in H
  | H : bool_decide _ = true |- _ => apply bool_decide_eq_true in H
  | H : negb _ = false |- _ => apply negb_false_iff in H
  | H : N.leb _ _ = false |- _ => apply N.leb_gt in H
  | H : ~ ~ _ |- _ => apply dec_stable in H
  | H : ~ (_ <> _) |- _ => apply dec_stable in H
  | H : ~ (_ ∉ _) |- _ => apply dec_stable in H
  | H : _ ∈ [_] |- _ => apply list_elem_of_singleton in H
  end.

(** A move of the code is a step of the machine ... *)
Lemma event_outcome_step session_id session audit now_ms event from to_state reset :
  event_outcome session_id session audit now_ms event = Ok (Some (from, to_state, reset)) ->
  session_step now_ms (unlogged audit) session event to_state
  /\ from = (if decide (event = SpawnSessionEvent.SessionCreated) then None
             else Some (SpawnSession.state session))
  /\ reset = bool_decide (event = SpawnSessionEvent.RetryRequested).
Proof.
  unfold event_outcome, unlogged.
  destruct event; intros H; decide_step;
    try (destruct (_ || _ || _) eqn:?; [discriminate|]);
    match goal with H : Ok _ = Ok _ |- _ => injection H as <- <- <- end;
    decide_step; (split; [|done]).
  - apply step_created; [|done]. destruct audit as [[]|]; simpl in *; done.
  - by apply step_payment_observed.
  - by apply step_spawn_started.
  - by apply step_install_succeeded.
  - by apply step_release_broadcast.
  - by apply step_spawn_failed.
  - by apply step_retry_requested.
  - apply step_expired; [rewrite elem_of_cons, list_elem_of_singleton in *; tauto..|done|done].
Qed.

(** ... and every step of the machine is a move of the code. *)
Lemma step_event_outcome session_id session audit now_ms event to_state :
  session_step now_ms (unlogged audit) session event to_state ->
  event_outcome session_id session audit now_ms event =
  Ok (Some (if decide (event = SpawnSessionEvent.SessionCreated) then None
            else Some (SpawnSession.state session),
            to_state, bool_decide (event = SpawnSessionEvent.RetryRequested))).
Proof.
  unfold unlogged. destruct 1; unfold event_outcome.
  - rewrite H0. destruct audit as [[]|]; simpl in *; done.
  - rewrite H, H0. done.
  - rewrite H. done.
  - rewrite H. done.
  - rewrite H. done.
  - rewrite (bool_decide_eq_false_2 (_ ∉ _)) by (intros ?; contradiction). done.
  - rewrite H, H0, H1. done.
  - rewrite (bool_decide_eq_false_2 (_ ∈ _)) by set_solver.
    rewrite (bool_decide_eq_false_2 (_ = _)) by done.
    rewrite (proj2 (N.leb_gt _ _)) by done. done.
Qed.

Lemma session_step_edge now_ms unl session event to_state :
  session_step now_ms unl session event to_state ->
  session_edge (if decide (event = SpawnSessionEvent.SessionCreated) then None
                else Some (SpawnSession.state session)) to_state = true.
Proof.
  destruct 1; simpl;
    repeat match goal with H : SpawnSession.state _ = _ |- _ => rewrite H end; try done.
  - rewrite !elem_of_cons, elem_of_nil in H. by destruct H as [->|[->|[->|[]]]].
  - destruct (SpawnSession.state session); done.
Qed.

(** ** Invariants of the stored sessions *)

(** [retryable] is never stale towards true, [refundable] is exact. *)
Definition flags_consistent (session : SpawnSession.t) : Prop :=
  (SpawnSession.retryable session = true ->
   SpawnSession.state session = SpawnSessionState.Failed
   /\ SpawnSession.payment_status session = PaymentStatus.Paid)
  /\ SpawnSession.refundable session = derive_refundable session.

(** Each entry starts where the previous one ended. *)
Fixpoint linked (entries : list SessionAuditEntry.t) : Prop :=
  match entries with
  | first :: ((second :: _) as rest) =>
      SessionAuditEntry.from_state second = Some (SessionAuditEntry.to_state first) /\ linked rest
  | _ => True
  end.

(** A confirmed refund is logged without a change of state. *)
Definition refund_edge (from : option SpawnSessionState.t) (to_state : SpawnSessionState.t)
    : bool :=
  bool_decide (from = Some to_state)
  && match to_state with
     | SpawnSessionState.Expired | SpawnSessionState.Failed => true
     | _ => false
     end.

Definition entry_legal (session_id : string) (entry : SessionAuditEntry.t) : Prop :=
  let from := SessionAuditEntry.from_state entry in
  let to_state := SessionAuditEntry.to_state entry in
  SessionAuditEntry.session_id entry = session_id
  /\ session_edge from to_state || refund_edge from to_state = true.

(** The audit log of a session is a path of the state machine that ends in the
    state the session is in. *)
Definition audit_consistent (session_id : string) (current : SpawnSessionState.t)
    (entries : list SessionAuditEntry.t) : Prop :=
  linked entries
  /\ Forall (entry_legal session_id) entries
  /\ length entries <= MAX_AUDIT_ENTRIES_PER_SESSION
  /\ match last entries with
     | Some entry => SessionAuditEntry.to_state entry = current
     | None => current = SpawnSessionState.AwaitingPayment
     end.

Definition session_inv (state : FactoryState.t) (session_id : string) (session : SpawnSession.t)
    : Prop :=
  flags_consistent session
  /\ audit_consistent session_id (SpawnSession.state session)
       (default [] (FactoryState.audit_log state !! session_id))
  /\ (forall claim, FactoryState.escrow_claims state !! session_id = Some claim ->
        EscrowClaim.refundable claim = SpawnSession.refundable session).

Definition sessions_inv (state : FactoryState.t) : Prop :=
  forall session_id session, FactoryState.sessions state !! session_id = Some session ->
    session_inv state session_id session.

Lemma with_derived_flags_consistent now_ms session :
  flags_consistent (with_derived_flags now_ms session).
Proof.
  split; [|done]. cbn. unfold derive_retryable, is_retryable_payment_status.
  rewrite !andb_true_iff, !bool_decide_eq_true. tauto.
Qed.

Lemma linked_snoc entries entry :
  linked entries ->
  match last entries with
  | Some previous =>
      SessionAuditEntry.from_state entry = Some (SessionAuditEntry.to_state previous)
  | None => True
  end ->
  linked (entries ++ [entry]).
Proof.
  induction entries as [|first [|second rest] IH]; simpl; [done| |].
  - intros _ H. done.
  - intros [Hf Hr] H. split; [done|]. apply IH; done.
Qed.

Lemma linked_drop n entries : linked entries -> linked (drop n entries).
Proof.
  revert entries. induction n as [|n IH]; [done|].
  intros [|first [|second rest]]; simpl; [done| |].
  - intros _. rewrite drop_nil. done.
  - intros [_ H]. apply IH, H.
Qed.

Lemma audit_consistent_push session_id current entries entry :
  audit_consistent session_id current entries ->
  entry_legal session_id entry ->
  (SessionAuditEntry.from_state entry = Some current
   \/ SessionAuditEntry.from_state entry = None /\ entries = []) ->
  audit_consistent session_id (SessionAuditEntry.to_state entry) (push_audit entry entries).
Proof.
  intros (Hlinked & Hlegal & Hlen & Hlast) Hentry Hfrom.
  assert (Hlinked' : linked (entries ++ [entry])).
  { apply linked_snoc; [done|]. destruct (last entries) eqn:Hl; [|done].
    subst current. destruct Hfrom as [-> | [_ ->]]; done. }
  assert (Hlegal' : Forall (entry_legal session_id) (entries ++ [entry])).
  { apply Forall_app; split; [done|]. by constructor. }
  split_and!.
  - unfold push_audit. case_decide; [apply linked_drop|]; done.
  - unfold push_audit. case_decide; [apply Forall_drop|]; done.
  - by apply push_audit_bounded.
  - by rewrite last_push_audit.
Qed.

Lemma state_moved_session to_state reset now_ms state session :
  SpawnSession.state (moved_session to_state reset now_ms state session) = to_state.
Proof. unfold moved_session, move_session. by destruct reset. Qed.

Lemma moved_state_inv session_id actor now_ms reason event session to_state reset state :
  sessions_inv state ->
  FactoryState.sessions state !! session_id = Some session ->
  session_step now_ms (unlogged (FactoryState.audit_log state !! session_id))
    session event to_state ->
  sessions_inv (moved_state session_id actor now_ms reason
    (if decide (event = SpawnSessionEvent.SessionCreated) then None
     else Some (SpawnSession.state session)) to_state
    (moved_session to_state reset now_ms state session) state).
Proof.
  intros Hinv Hs Hstep other found. unfold moved_state. simpl_set.
  pose proof (Hinv _ _ Hs) as (_ & Haudit & _).
  destruct (decide (other = session_id)) as [->|Hne].
  - rewrite lookup_insert_eq. intros [= <-]. split; [|split].
    + apply with_derived_flags_consistent.
    + simpl_set. rewrite lookup_insert_eq, state_moved_session.
      eapply (audit_consistent_push _ _ _ (SessionAuditEntry.mk _ _ _ to_state _ _));
        [exact Haudit | split; [done | apply orb_true_iff; left; exact (session_step_edge _ _ _ _ _ Hstep)] |].
      simpl. destruct (decide _) as [->|]; [right | by left].
      by inversion Hstep; subst.
    + simpl_set. intros claim. rewrite lookup_alter_eq.
      intros (claim' & _ & ->)%fmap_Some_1. done.
  - rewrite lookup_insert_ne by done. intros Hfound.
    destruct (Hinv _ _ Hfound) as (Hflags & Hlog & Hclaim). split; [done|split]; simpl_set.
    + rewrite lookup_insert_ne; done.
    + rewrite lookup_alter_ne; done.
Qed.

(** The stored sessions, claims and logs are all [sessions_inv] looks at. *)
Lemma sessions_inv_frame state state' :
  FactoryState.sessions state' = FactoryState.sessions state ->
  FactoryState.escrow_claims state' = FactoryState.escrow_claims state ->
  FactoryState.audit_log state' = FactoryState.audit_log state ->
  sessions_inv state -> sessions_inv state'.
Proof. intros Hs Hc Ha. unfold sessions_inv, session_inv. by rewrite Hs, Hc, Ha. Qed.

Lemma preserves_apply_session_event session_id actor now_ms event reason :
  preserves sessions_inv (apply_session_event_in_state session_id actor now_ms event reason).
Proof.
  intros state state' Hfinal Hinv. split; [|done]. revert Hfinal.
  destruct (FactoryState.sessions state !! session_id) as [session|] eqn:Hs.
  - rewrite (apply_session_event_run _ _ _ _ _ _ _ Hs).
    destruct (event_outcome _ _ _ _ _) as [[[[from to_state] reset]|]|e] eqn:Ho;
      intros [= <-]; [|done..].
    apply event_outcome_step in Ho as (Hstep & -> & ->).
    by apply moved_state_inv.
  - rewrite (apply_session_event_missing _ _ _ _ _ _ Hs). intros [= <-]. done.
Qed.
#[export] Hint Resolve preserves_apply_session_event : stable.

(** ** Properties of the state machine *)

(** C30 - the code implements the state machine.  On a stored session an event
    returns the session in state [to] exactly when [session_step] has a step to
    [to].  The state is then the old one but for three entries: the session,
    which has the new state and time of update, flags derived from them, and on
    a retry a new expiry; its claim, whose [refundable] flag follows the
    session's; and its audit log, to which an entry naming the event's actor and
    reason is appended, the oldest entries making room at the limit.  Every
    other session, claim and log, the registry, the jobs and the configuration
    are as before.  Otherwise the event either returns an error, or (an expiry
    that does not apply) returns the session as it is; in both cases the state
    is untouched.  It never traps. *)
Theorem apply_session_event_refines session_id actor now_ms event reason state session :
  FactoryState.sessions state !! session_id = Some session ->
  let step := session_step now_ms (unlogged (FactoryState.audit_log state !! session_id))
                session event in
  match apply_session_event_in_state session_id actor now_ms event reason state with
  | Done session' state' =>
      (exists to_state dropped kept, step to_state
        /\ session' = session
             <| SpawnSession.state := to_state |>
             <| SpawnSession.expires_at :=
                  if decide (event = SpawnSessionEvent.RetryRequested)
                  then wrapping_add 64 now_ms (FactoryState.session_ttl_ms state)
                  else SpawnSession.expires_at session |>
             <| SpawnSession.updated_at := now_ms |>
             <| SpawnSession.retryable := derive_retryable session' now_ms |>
             <| SpawnSession.refundable := derive_refundable session' |>
        /\ default [] (FactoryState.audit_log state !! session_id) = dropped ++ kept
        /\ (dropped = [] \/ S (length kept) = MAX_AUDIT_ENTRIES_PER_SESSION)
        /\ state' = state
             <| FactoryState.sessions ::= <[session_id := session']> |>
             <| FactoryState.escrow_claims ::= alter (fun claim => claim
                  <| EscrowClaim.refundable := SpawnSession.refundable session' |>
                  <| EscrowClaim.updated_at := now_ms |>) session_id |>
             <| FactoryState.audit_log ::= <[session_id := kept ++
                  [SessionAuditEntry.mk session_id now_ms
                    (if decide (event = SpawnSessionEvent.SessionCreated) then None
                     else Some (SpawnSession.state session)) to_state actor reason]]> |>)
      \/ (event = SpawnSessionEvent.SessionExpired /\ (forall to_state, ~ step to_state)
          /\ session' = session /\ state' = state)
  | Fail _ state' => (forall to_state, ~ step to_state) /\ state' = state
  | Trap => False
  end.
Proof.
  intros Hs step. rewrite (apply_session_event_run _ _ _ _ _ _ _ Hs).
  destruct (event_outcome _ _ _ _ _) as [[[[from to_state] reset]|]|e] eqn:Ho.
  - left. apply event_outcome_step in Ho as (Hstep & -> & ->). unfold moved_state.
    match goal with |- context [push_audit ?entry ?entries] =>
      destruct (push_audit_spec entry entries) as (dropped & kept & Hold & -> & Hroom) end.
    exists to_state, dropped, kept. split; [exact Hstep|].
    split; [|split; [exact Hold|split; [rewrite length_app, Nat.add_1_r in Hroom; exact Hroom|reflexivity]]].
    unfold moved_session, move_session.
    destruct (decide (event = SpawnSessionEvent.RetryRequested)) as [He|He];
      [rewrite (bool_decide_eq_true_2 (event = _)) by done
      |rewrite (bool_decide_eq_false_2 (event = _)) by done];
      reflexivity.
  - right. split_and!; try done.
    + destruct event; cbn in Ho; try done; revert Ho;
        repeat (destruct (bool_decide _); try done); destruct (_ || _); done.
    + intros to_state Hstep%(step_event_outcome session_id). congruence.
  - split; [|done]. intros to_state Hstep%(step_event_outcome session_id). congruence.
Qed.

(** The invariant of the stored sessions (flags that agree with state and
    payment, claims that agree with their session, audit logs that are bounded
    paths of the machine ending in the session's state) survives every event,
    accepted or not. *)
Theorem apply_session_event_preserves_inv session_id actor now_ms event reason :
  preserves sessions_inv (apply_session_event_in_state session_id actor now_ms event reason).
Proof. auto with stable. Qed.

(** A sequence of events on one session; refused ones are skipped. *)
Fixpoint run_events (session_id : string)
    (events : list (SessionAuditActor.t * N * SpawnSessionEvent.t * string)) : F unit :=
  match events with
  | [] => mret tt
  | (actor, now_ms, event, reason) :: rest =>
      catch (apply_session_event_in_state session_id actor now_ms event reason);;
      run_events session_id rest
  end.

(** [Complete] and [Expired] are final: whatever events are then applied to
    the session, in any order and at any time, the whole state stays as it
    is. *)
Theorem terminal_sessions_stay session_id events state session :
  FactoryState.sessions state !! session_id = Some session ->
  SpawnSession.state session ∈ [SpawnSessionState.Complete; SpawnSessionState.Expired] ->
  run_events session_id events state = Done tt state.
Proof.
  intros Hs Hfinal. induction events as [|[[[actor now_ms] event] reason] rest IH]; [done|].
  simpl. assert (Hsame : final_state
    (apply_session_event_in_state session_id actor now_ms event reason state) = Some state).
  { rewrite (apply_session_event_run _ _ _ _ _ _ _ Hs).
    destruct (event_outcome _ _ _ _ _) as [[[[from to_state] reset]|]|e] eqn:Ho; [|done..].
    apply event_outcome_step in Ho as (Hstep & _). exfalso.
    rewrite elem_of_cons, list_elem_of_singleton in Hfinal.
    destruct Hstep; try (destruct Hfinal; congruence).
    destruct Hfinal as [Hf|Hf]; rewrite Hf in *; set_solver. }
  exec. destruct (apply_session_event_in_state _ _ _ _ _ state); try done;
    injection Hsame as ->; exact IH.
Qed.

(** *** Witnesses *)

Lemma apply_session_event_refines_witness :
  let state := Samples.state_with
    (Samples.session SpawnSessionState.AwaitingPayment PaymentStatus.Paid) in
  match apply_session_event_in_state "s" SessionAuditActor.System 5
          SpawnSessionEvent.PaymentObserved "seen" state with
  | Done session' state' =>
      session_step 5 (unlogged None) (Samples.session SpawnSessionState.AwaitingPayment PaymentStatus.Paid)
        SpawnSessionEvent.PaymentObserved (SpawnSession.state session')
      /\ SpawnSession.state session' = SpawnSessionState.PaymentDetected
  | _ => False
  end.
Proof.
  intros state.
  pose proof (apply_session_event_refines "s" SessionAuditActor.System 5
    SpawnSessionEvent.PaymentObserved "seen" state
    (Samples.session SpawnSessionState.AwaitingPayment PaymentStatus.Paid) eq_refl) as H.
  destruct (apply_session_event_in_state _ _ _ _ _ state) as [session' state'| |] eqn:Hrun;
    [|vm_compute in Hrun; discriminate Hrun..].
  destruct H as [(to_state & dropped & kept & Hstep & Hto & _)|[[=] _]].
  split; [rewrite Hto; exact Hstep|]. vm_compute in Hrun. by injection Hrun as <- _.
Defined.

Lemma terminal_sessions_stay_witness :
  let state := Samples.state_with
    (Samples.session SpawnSessionState.Complete PaymentStatus.Paid) in
  run_events "s"
    [(SessionAuditActor.Admin, 7%N, SpawnSessionEvent.RetryRequested, "again");
     (SessionAuditActor.System, 9%N, SpawnSessionEvent.SpawnFailed, "late")] state
  = Done tt state.
Proof.
  intros state. eapply terminal_sessions_stay; [reflexivity|].
  apply (bool_decide_unpack _). reflexivity.
Defined.
