(* ===== verification/Scheduler.v ===== *)
(** * Scheduler: leases, backoff and the scheduler tick

    Models [backend/factory/src/scheduler.rs]: the payment-poll job and the
    spawn-execution jobs, how due jobs are leased in order and under a limit,
    how a finished job is rescheduled, and the two drivers, the synchronous
    [run_scheduler_tick] and the concurrent [schedule_due_jobs] of the canister
    build, whose spawned executions finish in any order ([sched_step]). *)

From S2P Require Import Prelude Text SpawnProtocol Types State Samples.

Definition PAYMENT_POLL_INTERVAL_MS : N := 30000.
Definition JOB_LEASE_DURATION_MS : N := 60000.
Definition INITIAL_BACKOFF_MS : N := 5000.
Definition MAX_BACKOFF_MS : N := 5 * 60000.
Definition MAX_JOBS_PER_TICK : nat := 8.
Definition PAYMENT_POLL_JOB_ID : string := "payment-poll:base".

Module SchedulerRunReport.
Record t := mk {
  job_id : string;
  kind : SchedulerJobKind.t;
  spawn_receipt : option SpawnExecutionReceipt.t;
  error : option FactoryError.t;
}.
End SchedulerRunReport.

Module JobExecutionFailure.
Record t := mk {
  error : option FactoryError.t;
  failure : SchedulerJobFailure.t;
}.
End JobExecutionFailure.

Definition session_needs_payment_poll (session : SpawnSession.t) : bool :=
  bool_decide (SpawnSession.state session = SpawnSessionState.AwaitingPayment)
  && negb (match SpawnSession.payment_status session with
           | PaymentStatus.Paid | PaymentStatus.Refunded => true
           | _ => false
           end).

Definition spawn_job_id (session_id : string) : string := "spawn-execution:" +:+ session_id.

Definition payment_poll_job (now_ms : N) : SchedulerJob.t :=
  SchedulerJob.mk PAYMENT_POLL_JOB_ID SchedulerJobKind.PaymentPoll SchedulerJobStatus.Pending
    (Some now_ms) None None None None 0 0 0 None.

Definition spawn_execution_job (session_id : string) (now_ms : N) : SchedulerJob.t :=
  SchedulerJob.mk (spawn_job_id session_id) (SchedulerJobKind.SpawnExecution session_id)
    SchedulerJobStatus.Pending (Some now_ms) None None None None 0 0 0 None.

Definition job_has_live_lease (job : SchedulerJob.t) (now_ms : N) : bool :=
  match SchedulerJob.leased_until_ms job with
  | Some leased_until_ms => (now_ms <? leased_until_ms)%N
  | None => false
  end.

Definition job_is_due (job : SchedulerJob.t) (now_ms : N) : bool :=
  match SchedulerJob.next_run_at_ms job with
  | Some next_run_at_ms => (next_run_at_ms <=? now_ms)%N
  | None => false
  end
  && negb (job_has_live_lease job now_ms).

Definition active_job_ids (jobs : gmap string SchedulerJob.t) (now_ms : N) : list string :=
  merge_sort String.le
    (SchedulerJob.job_id <$> filter (fun job => job_has_live_lease job now_ms = true)
       (btree_values jobs)).

Definition refresh_active_job_ids (now_ms : N) (state : FactoryState.t) : FactoryState.t :=
  state <| FactoryState.scheduler_runtime ::=
    set SchedulerRuntime.active_job_ids
      (fun _ => active_job_ids (FactoryState.scheduler_jobs state) now_ms) |>.

Definition start_tick (now_ms : N) (state : FactoryState.t) : FactoryState.t :=
  refresh_active_job_ids now_ms
    (state <| FactoryState.scheduler_runtime ::= fun runtime =>
       runtime <| SchedulerRuntime.last_tick_started_ms := Some now_ms |>
               <| SchedulerRuntime.last_tick_error := None |> |>).

Definition finish_tick (now_ms : N) (state : FactoryState.t) : FactoryState.t :=
  refresh_active_job_ids now_ms
    (state <| FactoryState.scheduler_runtime ::=
       set SchedulerRuntime.last_tick_finished_ms (fun _ => Some now_ms) |>).

(** ** Prerequisites of the payment poll

    [endpoint_has_scheme] and [configured_rpc_endpoints] of [base_rpc.rs]. *)

Definition endpoint_has_scheme (endpoint : string) : bool := contains endpoint "://".

Definition configured_rpc_endpoints (primary fallback : option string) : list string :=
  foldl (fun endpoints candidate =>
      let trimmed := trim candidate in
      if is_empty trimmed then endpoints
      else if decide (trimmed ∈ endpoints) then endpoints
      else endpoints ++ [trimmed])
    [] (omap id [primary; fallback]).

Definition skip_failure (source : SchedulerFailureSource.t) (message : string) (now_ms : N)
    : SchedulerJobFailure.t :=
  SchedulerJobFailure.mk SchedulerFailureAction.Skip source message now_ms.

Definition backoff_failure (message : string) (now_ms : N) : SchedulerJobFailure.t :=
  SchedulerJobFailure.mk SchedulerFailureAction.Backoff SchedulerFailureSource.Transient
    message now_ms.

Definition base_rpc_missing_or_invalid_failure (primary_endpoint fallback_endpoint : option string)
    (now_ms : N) : option SchedulerJobFailure.t :=
  let endpoints := configured_rpc_endpoints primary_endpoint fallback_endpoint in
  if decide (endpoints = []) then
    Some (skip_failure SchedulerFailureSource.MissingConfig
            "base RPC endpoint is not configured" now_ms)
  else if forallb (fun endpoint => negb (endpoint_has_scheme endpoint)) endpoints then
    Some (skip_failure SchedulerFailureSource.InvalidConfig
            ("base RPC endpoints have no scheme: " +:+ join ", " endpoints) now_ms)
  else None.

Definition payment_poll_prerequisite_failure (now_ms : N) (state : FactoryState.t)
    : option SchedulerJobFailure.t :=
  match base_rpc_missing_or_invalid_failure (FactoryState.base_rpc_endpoint state)
          (FactoryState.base_rpc_fallback_endpoint state) now_ms with
  | Some failure => Some failure
  | None =>
      if is_empty (trim (FactoryState.escrow_contract_address state)) then
        Some (skip_failure SchedulerFailureSource.MissingConfig
                "escrow contract address is not configured" now_ms)
      else None
  end.

Definition backoff_delay_ms (consecutive_failures : N) : N :=
  let shift := N.min (saturating_sub consecutive_failures 1) 16 in
  let multiplier := N.shiftl 1 shift in
  N.min (saturating_mul 64 INITIAL_BACKOFF_MS multiplier) MAX_BACKOFF_MS.

(** ** Enqueueing *)

Definition clear_lease (job : SchedulerJob.t) : SchedulerJob.t :=
  job <| SchedulerJob.leased_at_ms := None |> <| SchedulerJob.leased_until_ms := None |>.

Definition polls_remain (state : FactoryState.t) : bool :=
  existsb session_needs_payment_poll (btree_values (FactoryState.sessions state)).

Definition sync_payment_poll_job_in_state (now_ms : N) (state : FactoryState.t)
    : FactoryState.t :=
  if negb (polls_remain state) then
    state <| FactoryState.scheduler_jobs ::= alter (fun job =>
        if job_has_live_lease job now_ms then job
        else clear_lease (job <| SchedulerJob.status := SchedulerJobStatus.Completed |>
                              <| SchedulerJob.next_run_at_ms := None |>))
      PAYMENT_POLL_JOB_ID |>
  else
    let job := default (payment_poll_job now_ms)
      (FactoryState.scheduler_jobs state !! PAYMENT_POLL_JOB_ID) in
    let job :=
      if job_has_live_lease job now_ms then job
      else clear_lease
        (job <| SchedulerJob.next_run_at_ms ::= fun next => Some (N.min (default now_ms next) now_ms) |>
             <| SchedulerJob.status := SchedulerJobStatus.Pending |>) in
    state <| FactoryState.scheduler_jobs ::= <[PAYMENT_POLL_JOB_ID := job]> |>.

Definition enqueue_spawn_execution_in_state (session_id : string) (now_ms : N)
    (state : FactoryState.t) : FactoryState.t :=
  let job_id := spawn_job_id session_id in
  let job := default (spawn_execution_job session_id now_ms)
    (FactoryState.scheduler_jobs state !! job_id) in
  let job :=
    if job_has_live_lease job now_ms then job
    else clear_lease (job <| SchedulerJob.status := SchedulerJobStatus.Pending |>
                          <| SchedulerJob.next_run_at_ms := Some now_ms |>) in
  state <| FactoryState.scheduler_jobs ::= <[job_id := job]> |>.

(** ** Leasing *)

(** The order of the [(u64, String)] pairs that [due_jobs.sort()] sorts. *)
Definition due_le : relation (N * string) := fun p q =>
  (p.1 < q.1)%N \/ p.1 = q.1 /\ String.le p.2 q.2.
#[export] Instance due_le_dec : RelDecision due_le.
Proof. intros p q. unfold due_le. apply _. Defined.

Definition due_key (job : SchedulerJob.t) : N * string :=
  (default (max_uint 64) (SchedulerJob.next_run_at_ms job), SchedulerJob.job_id job).

Definition due_jobs (jobs : gmap string SchedulerJob.t) (now_ms : N) : list (N * string) :=
  merge_sort due_le
    (due_key <$> filter (fun job => job_is_due job now_ms = true) (btree_values jobs)).

Definition lease_job (now_ms : N) (job : SchedulerJob.t) : SchedulerJob.t :=
  job <| SchedulerJob.status := SchedulerJobStatus.Running |>
      <| SchedulerJob.leased_at_ms := Some now_ms |>
      <| SchedulerJob.leased_until_ms := Some (wrapping_add 64 now_ms JOB_LEASE_DURATION_MS) |>
      <| SchedulerJob.last_started_at_ms := Some now_ms |>
      <| SchedulerJob.attempt_count ::= fun count => saturating_add 32 count 1 |>.

Fixpoint lease_each (now_ms : N) (job_ids : list string) (jobs : gmap string SchedulerJob.t)
    : list SchedulerJob.t * gmap string SchedulerJob.t :=
  match job_ids with
  | [] => ([], jobs)
  | job_id :: rest =>
      match jobs !! job_id with
      | None => lease_each now_ms rest jobs
      | Some job =>
          let job := lease_job now_ms job in
          let '(leased, jobs) := lease_each now_ms rest (<[job_id := job]> jobs) in
          (job :: leased, jobs)
      end
  end.

Definition lease_due_jobs (now_ms : N) (limit : nat) (state : FactoryState.t)
    : list SchedulerJob.t * FactoryState.t :=
  let state := refresh_active_job_ids now_ms state in
  let due := take limit (due_jobs (FactoryState.scheduler_jobs state) now_ms) in
  let '(leased, jobs) := lease_each now_ms due.*2 (FactoryState.scheduler_jobs state) in
  (leased, refresh_active_job_ids now_ms (state <| FactoryState.scheduler_jobs := jobs |>)).

(** ** Finishing a job *)

Definition succeed_job (poll_remains_active : bool) (now_ms : N) (job : SchedulerJob.t)
    : SchedulerJob.t :=
  let job := clear_lease (job <| SchedulerJob.last_finished_at_ms := Some now_ms |>)
    <| SchedulerJob.success_count ::= fun count => saturating_add 32 count 1 |>
    <| SchedulerJob.consecutive_failure_count := 0%N |>
    <| SchedulerJob.last_error := None |> in
  match SchedulerJob.kind job with
  | SchedulerJobKind.PaymentPoll =>
      if poll_remains_active
      then job <| SchedulerJob.status := SchedulerJobStatus.Pending |>
               <| SchedulerJob.next_run_at_ms :=
                    Some (wrapping_add 64 now_ms PAYMENT_POLL_INTERVAL_MS) |>
      else job <| SchedulerJob.status := SchedulerJobStatus.Completed |>
               <| SchedulerJob.next_run_at_ms := None |>
  | SchedulerJobKind.SpawnExecution _ =>
      job <| SchedulerJob.status := SchedulerJobStatus.Completed |>
          <| SchedulerJob.next_run_at_ms := None |>
  end.

Definition finalize_job_success (job_id : string) (now_ms : N) (state : FactoryState.t)
    : FactoryState.t :=
  match FactoryState.scheduler_jobs state !! job_id with
  | None => state
  | Some job =>
      refresh_active_job_ids now_ms
        (state <| FactoryState.scheduler_jobs ::=
           <[job_id := succeed_job (polls_remain state) now_ms job]> |>)
  end.

Definition fail_job (poll_remains_active : bool) (failure : SchedulerJobFailure.t) (now_ms : N)
    (job : SchedulerJob.t) : SchedulerJob.t :=
  let job := clear_lease (job <| SchedulerJob.last_finished_at_ms := Some now_ms |>)
    <| SchedulerJob.consecutive_failure_count ::= fun count => saturating_add 32 count 1 |>
    <| SchedulerJob.last_error := Some failure |> in
  match SchedulerJobFailure.action failure with
  | SchedulerFailureAction.Retry =>
      job <| SchedulerJob.status := SchedulerJobStatus.Pending |>
          <| SchedulerJob.next_run_at_ms := Some now_ms |>
  | SchedulerFailureAction.Backoff =>
      job <| SchedulerJob.status := SchedulerJobStatus.Backoff |>
          <| SchedulerJob.next_run_at_ms := Some (wrapping_add 64 now_ms
               (backoff_delay_ms (SchedulerJob.consecutive_failure_count job))) |>
  | SchedulerFailureAction.Skip =>
      job <| SchedulerJob.status := SchedulerJobStatus.Skipped |>
          <| SchedulerJob.next_run_at_ms :=
               match SchedulerJob.kind job with
               | SchedulerJobKind.PaymentPoll =>
                   if poll_remains_active
                   then Some (wrapping_add 64 now_ms PAYMENT_POLL_INTERVAL_MS) else None
               | _ => None
               end |>
  | SchedulerFailureAction.Terminal =>
      job <| SchedulerJob.status := SchedulerJobStatus.Terminal |>
          <| SchedulerJob.next_run_at_ms := None |>
  end.

Definition finalize_job_failure (job_id : string) (failure : SchedulerJobFailure.t) (now_ms : N)
    (state : FactoryState.t) : FactoryState.t :=
  let error_message := job_id +:+ ": " +:+ SchedulerJobFailure.message failure in
  match FactoryState.scheduler_jobs state !! job_id with
  | None => state
  | Some job =>
      refresh_active_job_ids now_ms
        (state <| FactoryState.scheduler_jobs ::=
           <[job_id := fail_job (polls_remain state) failure now_ms job]> |>)
      <| FactoryState.scheduler_runtime ::= fun runtime =>
           runtime <| SchedulerRuntime.last_tick_error := Some error_message |>
                   <| SchedulerRuntime.last_tick_finished_ms := Some now_ms |> |>
  end.

Definition classify_payment_poll_error (error : FactoryError.t) (now_ms : N)
    : SchedulerJobFailure.t :=
  match error with
  | FactoryError.RpcRequestFailed _ _ _ _ message
  | FactoryError.ManagementCallFailed _ message => backoff_failure message now_ms
  | FactoryError.InvalidAmount value =>
      skip_failure SchedulerFailureSource.Deterministic
        ("invalid payment log amount: " +:+ value) now_ms
  | other =>
      skip_failure SchedulerFailureSource.Deterministic
        (FactoryErrorDisplay.to_string other) now_ms
  end.

Definition terminal_failure (message : string) (now_ms : N) : SchedulerJobFailure.t :=
  SchedulerJobFailure.mk SchedulerFailureAction.Terminal SchedulerFailureSource.Deterministic
    message now_ms.

Definition classify_spawn_error (error : FactoryError.t) (now_ms : N) : SchedulerJobFailure.t :=
  match error with
  | FactoryError.MissingChildRuntimeConfig field =>
      skip_failure SchedulerFailureSource.MissingConfig
        ("missing child runtime config: " +:+ field) now_ms
  | FactoryError.ManagementCallFailed _ message =>
      if contains message "not configured"
      then skip_failure SchedulerFailureSource.MissingConfig message now_ms
      else backoff_failure message now_ms
  | FactoryError.RpcRequestFailed _ _ _ _ message => backoff_failure message now_ms
  | FactoryError.InsufficientCyclesPool available required =>
      backoff_failure ("insufficient cycles pool: available=" +:+ pretty available
        +:+ ", required=" +:+ pretty required) now_ms
  | FactoryError.InsufficientCyclesForOperation operation available required =>
      backoff_failure ("insufficient cycles for operation " +:+ operation +:+ ": available="
        +:+ pretty available +:+ ", required=" +:+ pretty required) now_ms
  | FactoryError.SessionExpired session_id expires_at =>
      terminal_failure ("session expired: " +:+ session_id +:+ " at " +:+ pretty expires_at)
        now_ms
  | FactoryError.SessionNotReadyForSpawn _ _ | FactoryError.PaymentNotSettled _ _ =>
      skip_failure SchedulerFailureSource.Deterministic
        (FactoryErrorDisplay.to_string error) now_ms
  | FactoryError.SessionNotFound _ =>
      terminal_failure (FactoryErrorDisplay.to_string error) now_ms
  | other =>
      skip_failure SchedulerFailureSource.Deterministic
        (FactoryErrorDisplay.to_string other) now_ms
  end.

(** ** The synchronous tick

    What a job does is the escrow poll or a spawn execution; the tick only
    needs to know how they run. *)

Section Tick.
Context (poll_escrow_payments : N -> C unit).
Context (execute_spawn : string -> N -> C SpawnExecutionReceipt.t).

(** [execute_job_sync]: the job's outcome as a value. *)
Definition execute_job_sync (job : SchedulerJob.t) (now_ms : N)
    : C (result JobExecutionFailure.t (option SpawnExecutionReceipt.t)) :=
  match SchedulerJob.kind job with
  | SchedulerJobKind.PaymentPoll =>
      prerequisite ← gets (fun canister =>
        payment_poll_prerequisite_failure now_ms (Canister.factory canister));
      match prerequisite with
      | Some failure => mret (Err (JobExecutionFailure.mk None failure))
      | None =>
          outcome ← catch (poll_escrow_payments now_ms);
          mret (match outcome with
                | Ok _ => Ok None
                | Err error => Err (JobExecutionFailure.mk (Some error)
                                      (classify_payment_poll_error error now_ms))
                end)
      end
  | SchedulerJobKind.SpawnExecution session_id =>
      outcome ← catch (execute_spawn session_id now_ms);
      mret (match outcome with
            | Ok receipt => Ok (Some receipt)
            | Err error => Err (JobExecutionFailure.mk (Some error)
                                  (classify_spawn_error error now_ms))
            end)
  end.

Definition on_factory (f : FactoryState.t -> FactoryState.t) : C unit :=
  modify (set Canister.factory f).

(** The body of the inner loop: run one leased job and settle it. *)
Definition run_leased_job (now_ms : N) (job : SchedulerJob.t) : C SchedulerRunReport.t :=
  outcome ← execute_job_sync job now_ms;
  match outcome with
  | Ok spawn_receipt =>
      on_factory (finalize_job_success (SchedulerJob.job_id job) now_ms);;
      mret (SchedulerRunReport.mk (SchedulerJob.job_id job) (SchedulerJob.kind job)
              spawn_receipt None)
  | Err error =>
      on_factory (finalize_job_failure (SchedulerJob.job_id job)
                    (JobExecutionFailure.failure error) now_ms);;
      mret (SchedulerRunReport.mk (SchedulerJob.job_id job) (SchedulerJob.kind job)
              None (JobExecutionFailure.error error))
  end.

Fixpoint run_leased_jobs (now_ms : N) (jobs : list SchedulerJob.t)
    : C (list SchedulerRunReport.t) :=
  match jobs with
  | [] => mret []
  | job :: rest =>
      report ← run_leased_job now_ms job;
      reports ← run_leased_jobs now_ms rest;
      mret (report :: reports)
  end.

Definition lease_due_jobs_c (now_ms : N) (limit : nat) : C (list SchedulerJob.t) :=
  fun canister =>
    let '(leased, factory) := lease_due_jobs now_ms limit (Canister.factory canister) in
    Done leased (canister <| Canister.factory := factory |>).

(** The outer loop: [rounds] is the bound of [for _ in 0..MAX_JOBS_PER_TICK]. *)
Fixpoint run_rounds (rounds : nat) (now_ms : N) : C (list SchedulerRunReport.t) :=
  match rounds with
  | O => mret []
  | S rounds =>
      leased_jobs ← lease_due_jobs_c now_ms MAX_JOBS_PER_TICK;
      if decide (leased_jobs = []) then mret []
      else
        reports ← run_leased_jobs now_ms leased_jobs;
        more ← run_rounds rounds now_ms;
        mret (reports ++ more)
  end.

Definition run_scheduler_tick (now_ms : N) : C (list SchedulerRunReport.t) :=
  paused ← gets (fun canister => FactoryState.pause (Canister.factory canister));
  if paused : bool then
    on_factory (start_tick now_ms);;
    on_factory (finish_tick now_ms);;
    mret []
  else
    on_factory (start_tick now_ms);;
    reports ← run_rounds MAX_JOBS_PER_TICK now_ms;
    on_factory (finish_tick now_ms);;
    mret reports.
End Tick.

(** ** Facts about the job table *)

(** Every job is stored under its own id. *)
Definition jobs_keyed (jobs : gmap string SchedulerJob.t) : Prop :=
  forall job_id job, jobs !! job_id = Some job -> SchedulerJob.job_id job = job_id.

Lemma jobs_keyed_insert jobs job :
  jobs_keyed jobs -> jobs_keyed (<[SchedulerJob.job_id job := job]> jobs).
Proof.
  intros H job_id found. destruct (decide (job_id = SchedulerJob.job_id job)) as [->|Hne].
  - rewrite lookup_insert_eq. congruence.
  - rewrite lookup_insert_ne by done. apply H.
Qed.

Lemma jobs_keyed_insert_at jobs job_id job :
  jobs_keyed jobs -> SchedulerJob.job_id job = job_id -> jobs_keyed (<[job_id := job]> jobs).
Proof. intros H <-. by apply jobs_keyed_insert. Qed.

#[export] Instance due_le_total : Total due_le.
Proof.
  intros [a s] [b u]. unfold due_le; simpl.
  destruct (N.lt_trichotomy a b) as [|[->|]]; [tauto| |tauto].
  destruct (total String.le s u); tauto.
Qed.

#[export] Instance due_le_trans : Transitive due_le.
Proof.
  intros [a s] [b u] [c v]. unfold due_le; simpl.
  intros [H1|[-> H1]] [H2|[-> H2]]; [left; lia|tauto|tauto|].
  right. split; [done|]. by etrans.
Qed.

Lemma elem_of_due_jobs jobs now_ms key :
  key ∈ due_jobs jobs now_ms <->
  exists job_id job, jobs !! job_id = Some job /\ job_is_due job now_ms = true /\ key = due_key job.
Proof.
  unfold due_jobs. rewrite merge_sort_Permutation, list_elem_of_fmap. split.
  - intros (job & -> & [Hdue [k Hk]%elem_of_btree_values]%list_elem_of_filter). eauto 6.
  - intros (k & job & Hk & Hdue & ->). exists job. split; [done|].
    apply list_elem_of_filter. split; [done|]. apply elem_of_btree_values. eauto.
Qed.

(** Under [jobs_keyed] the ids of the due jobs are distinct. *)
Lemma due_jobs_NoDup jobs now_ms :
  jobs_keyed jobs -> NoDup (due_jobs jobs now_ms).*2.
Proof.
  intros Hkeyed. unfold due_jobs. rewrite merge_sort_Permutation.
  rewrite <-list_fmap_compose. unfold btree_values.
  assert (Hk : forall l, (forall k job, (k, job) ∈ l -> jobs !! k = Some job) -> NoDup l.*1 ->
    NoDup ((snd ∘ due_key) <$> filter (fun job => job_is_due job now_ms = true) (l.*2))).
  { induction l as [|[k job] l IH]; intros Hin Hnd; [constructor|].
    rewrite fmap_cons in *. inversion Hnd as [|? ? Hk Hnd']; subst. simpl in *.
    rewrite filter_cons. case_decide; [|apply IH; set_solver].
    rewrite fmap_cons. constructor; [|apply IH; set_solver].
    intros (other & Heq & [_ Hother]%list_elem_of_filter)%list_elem_of_fmap. simpl in *.
    apply list_elem_of_fmap in Hother as ([k' other'] & -> & Hin'). simpl in *.
    rewrite (Hkeyed k job), (Hkeyed k' other') in Heq by (apply Hin; set_solver).
    subst k'. apply Hk. apply list_elem_of_fmap. by exists (k, other'). }
  apply Hk; [|apply NoDup_btree_keys]. intros k job. by apply elem_of_btree_iter.
Qed.

Lemma lease_each_spec now_ms job_ids jobs leased jobs' :
  NoDup job_ids ->
  lease_each now_ms job_ids jobs = (leased, jobs') ->
  leased = omap (fun job_id => lease_job now_ms <$> jobs !! job_id) job_ids
  /\ forall job_id, jobs' !! job_id =
       (if decide (job_id ∈ job_ids) then lease_job now_ms <$> jobs !! job_id
        else jobs !! job_id).
Proof.
  revert jobs leased jobs'. induction job_ids as [|job_id rest IH]; intros jobs leased jobs'.
  - intros _ [= <- <-]. split; [done|]. intros k. rewrite decide_False by set_solver. done.
  - intros [Hnotin Hnd]%NoDup_cons. simpl.
    destruct (jobs !! job_id) as [job|] eqn:Hjob; simpl.
    + destruct (lease_each now_ms rest _) as [l m] eqn:Hrest. intros [= <- <-].
      apply IH in Hrest as [-> Hm]; [|done]. split.
      * f_equal. apply list_omap_ext, Forall2_same_length_lookup_2; [done|].
        intros i x y Hx Hy. simplify_eq. rewrite lookup_insert_ne; [done|].
        intros ->. apply Hnotin. by eapply list_elem_of_lookup_2.
      * intros k. rewrite Hm. destruct (decide (k = job_id)) as [->|Hne].
        -- rewrite decide_False, lookup_insert_eq, decide_True, Hjob by set_solver. done.
        -- rewrite lookup_insert_ne by done.
           destruct (decide (k ∈ rest)); [rewrite decide_True by set_solver; done|].
           rewrite decide_False by set_solver. done.
    + intros Hrest. apply IH in Hrest as [-> Hm]; [|done]. split; [done|].
      intros k. rewrite Hm. destruct (decide (k = job_id)) as [->|Hne].
      * rewrite decide_False, Hjob, decide_True by set_solver. done.
      * destruct (decide (k ∈ rest)); [rewrite decide_True by set_solver; done|].
        rewrite decide_False by set_solver. done.
Qed.

(** What [lease_due_jobs] does, through the list [due] of ids it takes. *)
Lemma lease_due_jobs_run now_ms limit state leased state' :
  jobs_keyed (FactoryState.scheduler_jobs state) ->
  lease_due_jobs now_ms limit state = (leased, state') ->
  let jobs := FactoryState.scheduler_jobs state in
  let due := (take limit (due_jobs jobs now_ms)).*2 in
  NoDup due
  /\ leased = omap (fun job_id => lease_job now_ms <$> jobs !! job_id) due
  /\ (forall job_id, job_id ∈ due ->
        exists job, jobs !! job_id = Some job /\ job_is_due job now_ms = true)
  /\ forall job_id, FactoryState.scheduler_jobs state' !! job_id =
       (if decide (job_id ∈ due) then lease_job now_ms <$> jobs !! job_id else jobs !! job_id).
Proof.
  intros Hkeyed Hrun jobs due. unfold lease_due_jobs in Hrun.
  change (FactoryState.scheduler_jobs (refresh_active_job_ids now_ms state)) with jobs in Hrun.
  fold due in Hrun.
  destruct (lease_each now_ms due jobs) as [l m] eqn:Hl. injection Hrun as <- <-.
  assert (Hnd : NoDup due).
  { unfold due. rewrite fmap_take. apply sublist_NoDup with (due_jobs jobs now_ms).*2; [by apply due_jobs_NoDup | apply sublist_take]. }
  destruct (lease_each_spec _ _ _ _ _ Hnd Hl) as [Hleased Hm].
  split; [done|]. split; [done|]. split; [|exact Hm].
  intros job_id ([a b] & -> & Hin)%list_elem_of_fmap.
  apply elem_of_take in Hin as (i & Hi & _). apply list_elem_of_lookup_2 in Hi.
  apply elem_of_due_jobs in Hi as (k & job & Hk & Hdue & [= -> ->]).
  exists job. by rewrite (Hkeyed _ _ Hk).
Qed.

Lemma lease_live now_ms now_ms' job :
  in_uint 64 (now_ms + JOB_LEASE_DURATION_MS) ->
  (now_ms' < now_ms + JOB_LEASE_DURATION_MS)%N ->
  job_has_live_lease (lease_job now_ms job) now_ms' = true.
Proof.
  intros Hin Hlt. rewrite <-(wrapping_add_small _ _ _ Hin) in Hlt.
  apply N.ltb_lt, Hlt.
Qed.

Lemma live_not_due job now_ms : job_has_live_lease job now_ms = true -> job_is_due job now_ms = false.
Proof. unfold job_is_due. intros ->. apply andb_false_r. Qed.

(** *** The live leases of a state *)

Definition live (now_ms : N) (state : FactoryState.t) (job_id : string) : Prop :=
  exists job, FactoryState.scheduler_jobs state !! job_id = Some job
    /\ job_has_live_lease job now_ms = true.

(** A computation that takes no lease and keeps the job table keyed. *)
Definition quiet {A} (now_ms : N) (m : C A) : Prop :=
  forall canister canister', final_state (m canister) = Some canister' ->
    jobs_keyed (FactoryState.scheduler_jobs (Canister.factory canister)) ->
    jobs_keyed (FactoryState.scheduler_jobs (Canister.factory canister'))
    /\ forall job_id, live now_ms (Canister.factory canister') job_id ->
         live now_ms (Canister.factory canister) job_id.

Definition never_traps {A} (m : C A) : Prop := forall canister, m canister <> Trap.

Lemma job_id_fail_job polls failure now_ms job :
  SchedulerJob.job_id (fail_job polls failure now_ms job) = SchedulerJob.job_id job.
Proof. unfold fail_job. by destruct (SchedulerJobFailure.action failure). Qed.

Lemma job_id_succeed_job polls now_ms job :
  SchedulerJob.job_id (succeed_job polls now_ms job) = SchedulerJob.job_id job.
Proof. unfold succeed_job. cbn. destruct (SchedulerJob.kind job), polls; done. Qed.

Lemma fail_job_unleased polls failure now_ms job now_ms' :
  job_has_live_lease (fail_job polls failure now_ms job) now_ms' = false.
Proof. unfold fail_job, job_has_live_lease. by destruct (SchedulerJobFailure.action failure). Qed.

Lemma succeed_job_unleased polls now_ms job now_ms' :
  job_has_live_lease (succeed_job polls now_ms job) now_ms' = false.
Proof.
  unfold succeed_job, job_has_live_lease. cbn.
  destruct (SchedulerJob.kind job), polls; done.
Qed.

(** Settling a job replaces it by an unleased job of the same id. *)
Definition settles (job_id : string) (before after : FactoryState.t) : Prop :=
  match FactoryState.scheduler_jobs before !! job_id with
  | None => FactoryState.scheduler_jobs after = FactoryState.scheduler_jobs before
  | Some job => exists job',
      FactoryState.scheduler_jobs after =
        <[job_id := job']> (FactoryState.scheduler_jobs before)
      /\ SchedulerJob.job_id job' = SchedulerJob.job_id job
      /\ forall now_ms, job_has_live_lease job' now_ms = false
  end.

Lemma finalize_job_success_settles job_id now_ms state :
  settles job_id state (finalize_job_success job_id now_ms state).
Proof.
  unfold settles, finalize_job_success.
  destruct (FactoryState.scheduler_jobs state !! job_id) as [job|]; [|done].
  eexists. split; [reflexivity|]. split; [apply job_id_succeed_job|].
  intros. apply succeed_job_unleased.
Qed.

Lemma finalize_job_failure_settles job_id failure now_ms state :
  settles job_id state (finalize_job_failure job_id failure now_ms state).
Proof.
  unfold settles, finalize_job_failure.
  destruct (FactoryState.scheduler_jobs state !! job_id) as [job|]; [|done].
  eexists. split; [reflexivity|]. split; [apply job_id_fail_job|].
  intros. apply fail_job_unleased.
Qed.

Lemma settles_keyed job_id before after :
  settles job_id before after ->
  jobs_keyed (FactoryState.scheduler_jobs before) ->
  jobs_keyed (FactoryState.scheduler_jobs after).
Proof.
  unfold settles. destruct (_ !! job_id) as [job|] eqn:Hj; [|by intros ->].
  intros (job' & -> & Hid & _) Hkeyed. apply jobs_keyed_insert_at; [done|].
  rewrite Hid. by apply Hkeyed.
Qed.

Lemma settles_live job_id before after now_ms other :
  settles job_id before after -> live now_ms after other ->
  other <> job_id /\ live now_ms before other.
Proof.
  unfold settles, live. destruct (_ !! job_id) as [job|] eqn:Hj.
  - intros (job' & -> & _ & Hdead) (found & Hfound & Hlive).
    destruct (decide (other = job_id)) as [->|Hne].
    + rewrite lookup_insert_eq in Hfound. injection Hfound as <-. by rewrite Hdead in Hlive.
    + rewrite lookup_insert_ne in Hfound by done. eauto.
  - intros -> (found & Hfound & Hlive). split; [intros ->; congruence | eauto].
Qed.

Section TickFacts.
Context (poll_escrow_payments : N -> C unit).
Context (execute_spawn : string -> N -> C SpawnExecutionReceipt.t).
Context (now_ms : N).
Hypothesis poll_quiet : quiet now_ms (poll_escrow_payments now_ms).
Hypothesis spawn_quiet : forall session_id, quiet now_ms (execute_spawn session_id now_ms).
Hypothesis poll_runs : never_traps (poll_escrow_payments now_ms).
Hypothesis spawn_runs : forall session_id, never_traps (execute_spawn session_id now_ms).

Lemma catch_final {E' A} (m : C A) canister r canister' :
  (catch m : M _ E' _) canister = Done r canister' -> final_state (m canister) = Some canister'.
Proof. unfold catch. destruct (m canister); naive_solver. Qed.

Lemma catch_runs {E' A} (m : C A) canister :
  never_traps m -> exists r canister', (catch m : M _ E' _) canister = Done r canister'.
Proof. intros H. specialize (H canister). unfold catch. destruct (m canister); eauto. done. Qed.

Lemma execute_job_sync_run job canister :
  exists outcome canister',
    execute_job_sync poll_escrow_payments execute_spawn job now_ms canister
      = Done outcome canister'
    /\ (jobs_keyed (FactoryState.scheduler_jobs (Canister.factory canister)) ->
        jobs_keyed (FactoryState.scheduler_jobs (Canister.factory canister'))
        /\ forall job_id, live now_ms (Canister.factory canister') job_id ->
             live now_ms (Canister.factory canister) job_id).
Proof.
  unfold execute_job_sync. destruct (SchedulerJob.kind job) as [|session_id].
  - unfold mbind at 1, M_bind at 1, gets.
    destruct (payment_poll_prerequisite_failure _ _) as [failure|]; [by eauto 6|].
    destruct (catch_runs (E' := FactoryError.t) (poll_escrow_payments now_ms) canister poll_runs)
      as (r & canister' & Hrun).
    rewrite (M_bind_run _ _ _ _ _ Hrun). eexists _, canister'. split; [reflexivity|].
    intros Hkeyed. eapply poll_quiet; [by eapply catch_final | done].
  - destruct (catch_runs (E' := FactoryError.t) (execute_spawn session_id now_ms) canister (spawn_runs session_id))
      as (r & canister' & Hrun).
    rewrite (M_bind_run _ _ _ _ _ Hrun). eexists _, canister'. split; [reflexivity|].
    intros Hkeyed. eapply spawn_quiet; [by eapply catch_final | done].
Qed.

Lemma run_leased_job_run job canister :
  jobs_keyed (FactoryState.scheduler_jobs (Canister.factory canister)) ->
  exists report canister',
    run_leased_job poll_escrow_payments execute_spawn now_ms job canister = Done report canister'
    /\ SchedulerRunReport.job_id report = SchedulerJob.job_id job
    /\ jobs_keyed (FactoryState.scheduler_jobs (Canister.factory canister'))
    /\ forall job_id, live now_ms (Canister.factory canister') job_id ->
         job_id <> SchedulerJob.job_id job /\ live now_ms (Canister.factory canister) job_id.
Proof.
  intros Hkeyed. unfold run_leased_job.
  destruct (execute_job_sync_run job canister) as (outcome & canister1 & Hrun & Hq).
  destruct (Hq Hkeyed) as [Hkeyed1 Hlive1].
  rewrite (M_bind_run _ _ _ _ _ Hrun). destruct outcome as [receipt|error].
  - eexists _, _. split; [reflexivity|]. split; [done|].
    pose proof (finalize_job_success_settles (SchedulerJob.job_id job) now_ms
      (Canister.factory canister1)) as Hs.
    split; [by eapply settles_keyed|]. intros job_id H.
    destruct (settles_live _ _ _ _ _ Hs H). auto.
  - eexists _, _. split; [reflexivity|]. split; [done|].
    pose proof (finalize_job_failure_settles (SchedulerJob.job_id job)
      (JobExecutionFailure.failure error) now_ms (Canister.factory canister1)) as Hs.
    split; [by eapply settles_keyed|]. intros job_id H.
    destruct (settles_live _ _ _ _ _ Hs H). auto.
Qed.

Lemma run_leased_jobs_run jobs canister :
  jobs_keyed (FactoryState.scheduler_jobs (Canister.factory canister)) ->
  exists reports canister',
    run_leased_jobs poll_escrow_payments execute_spawn now_ms jobs canister
      = Done reports canister'
    /\ (SchedulerRunReport.job_id <$> reports) = (SchedulerJob.job_id <$> jobs)
    /\ jobs_keyed (FactoryState.scheduler_jobs (Canister.factory canister'))
    /\ forall job_id, live now_ms (Canister.factory canister') job_id ->
         (job_id ∉ (SchedulerJob.job_id <$> jobs)) /\ live now_ms (Canister.factory canister) job_id.
Proof.
  revert canister. induction jobs as [|job jobs IH]; intros canister Hkeyed.
  - exists [], canister. split; [done|]. split; [done|]. split; [done|]. set_solver.
  - simpl. destruct (run_leased_job_run job canister Hkeyed)
      as (report & canister1 & Hrun & Hid & Hkeyed1 & Hlive1).
    destruct (IH canister1 Hkeyed1) as (reports & canister2 & Hruns & Hids & Hkeyed2 & Hlive2).
    exists (report :: reports), canister2.
    rewrite (M_bind_run _ _ _ _ _ Hrun), (M_bind_run _ _ _ _ _ Hruns).
    split; [done|]. split; [by rewrite fmap_cons, Hid, Hids|]. split; [done|].
    intros job_id [Hn [Hne Hl]%Hlive1]%Hlive2. split; [|done].
    rewrite not_elem_of_cons. done.
Qed.

Lemma run_rounds_run rounds canister :
  jobs_keyed (FactoryState.scheduler_jobs (Canister.factory canister)) ->
  exists reports canister',
    run_rounds poll_escrow_payments execute_spawn rounds now_ms canister = Done reports canister'
    /\ length reports <= rounds * MAX_JOBS_PER_TICK
    /\ jobs_keyed (FactoryState.scheduler_jobs (Canister.factory canister'))
    /\ forall job_id, live now_ms (Canister.factory canister') job_id ->
         live now_ms (Canister.factory canister) job_id.
Proof.
  revert canister. induction rounds as [|rounds IH]; intros canister Hkeyed.
  - exists [], canister. simpl. auto with lia.
  - simpl. unfold lease_due_jobs_c, mbind at 1, M_bind at 1.
    destruct (lease_due_jobs now_ms MAX_JOBS_PER_TICK (Canister.factory canister))
      as [leased factory] eqn:Hlease.
    destruct (lease_due_jobs_run _ _ _ _ _ Hkeyed Hlease) as (Hnd & Hleased & Hdue & Hafter).
    assert (Hlen : length leased <= MAX_JOBS_PER_TICK).
    { rewrite Hleased. etrans; [apply length_omap_le|].
      rewrite length_fmap, length_take. lia. }
    assert (Hkeyed1 : jobs_keyed (FactoryState.scheduler_jobs factory)).
    { intros k job. rewrite Hafter. case_decide; [|apply Hkeyed].
      intros (job' & Hj & ->)%fmap_Some_1. exact (Hkeyed _ _ Hj). }
    assert (Hlive1 : forall k, live now_ms factory k ->
      k ∈ SchedulerJob.job_id <$> leased \/ live now_ms (Canister.factory canister) k).
    { intros k (job & Hj & Hl). rewrite Hafter in Hj. case_decide as Hin; [left|right; by exists job].
      apply fmap_Some_1 in Hj as (job' & Hj & ->). apply list_elem_of_fmap.
      exists (lease_job now_ms job'). split; [symmetry; exact (Hkeyed _ _ Hj)|].
      rewrite Hleased. apply list_elem_of_omap. exists k. split; [done|]. by rewrite Hj. }
    set (canister1 := canister <| Canister.factory := factory |>).
    destruct (decide (leased = [])) as [->|_].
    + exists [], canister1. split; [done|].
      split; [simpl; lia|]. split; [done|]. intros k [Hin|Hl]%Hlive1; [|done].
      by apply not_elem_of_nil in Hin.
    + destruct (run_leased_jobs_run leased canister1 Hkeyed1)
        as (reports & canister2 & Hruns & Hids & Hkeyed2 & Hlive2).
      destruct (IH canister2 Hkeyed2) as (more & canister3 & Hmore & Hlen3 & Hkeyed3 & Hlive3).
      exists (reports ++ more), canister3.
      rewrite (M_bind_run _ _ _ _ _ Hruns), (M_bind_run _ _ _ _ _ Hmore).
      apply (f_equal length) in Hids. rewrite !length_fmap in Hids.
      split; [done|]. rewrite length_app. split; [unfold MAX_JOBS_PER_TICK in *; lia|].
      split; [done|]. intros k [Hn [Hin|Hl]%Hlive1]%Hlive3%Hlive2; done.
Qed.
End TickFacts.

(** ** Properties of the scheduler *)

Lemma elem_of_leased now_ms (jobs : gmap string SchedulerJob.t) (due : list string) job :
  job ∈ omap (fun job_id => lease_job now_ms <$> jobs !! job_id) due <->
  exists job_id old, job_id ∈ due /\ jobs !! job_id = Some old /\ job = lease_job now_ms old.
Proof.
  rewrite list_elem_of_omap. split.
  - intros (k & Hk & (old & Hold & ->)%fmap_Some_1). eauto.
  - intros (k & old & Hk & Hold & ->). exists k. split; [done|]. by rewrite Hold.
Qed.

Lemma leased_ids now_ms (jobs : gmap string SchedulerJob.t) (due : list string) :
  jobs_keyed jobs -> (forall job_id, job_id ∈ due -> is_Some (jobs !! job_id)) ->
  (SchedulerJob.job_id <$> omap (fun job_id => lease_job now_ms <$> jobs !! job_id) due) = due.
Proof.
  intros Hkeyed Hdue. induction due as [|k due IH]; [done|]. cbn.
  destruct (Hdue k) as [job Hjob]; [set_solver|]. rewrite Hjob. cbn.
  f_equal; [exact (Hkeyed _ _ Hjob) | apply IH; set_solver].
Qed.

(** [lease_due_jobs] takes the due jobs that are due first, up to the limit:
    each returned job was due, is now [Running] and leased for
    [JOB_LEASE_DURATION_MS]; no job is returned twice; a job that is not
    returned is untouched, and if it was due then the limit was reached by jobs
    that were due no later. *)
Theorem lease_due_jobs_correct now_ms limit state leased state' :
  jobs_keyed (FactoryState.scheduler_jobs state) ->
  lease_due_jobs now_ms limit state = (leased, state') ->
  let jobs := FactoryState.scheduler_jobs state in
  let jobs' := FactoryState.scheduler_jobs state' in
  length leased <= limit
  /\ NoDup (SchedulerJob.job_id <$> leased)
  /\ (forall job', job' ∈ leased ->
        exists job, jobs !! SchedulerJob.job_id job' = Some job
          /\ job_is_due job now_ms = true
          /\ job' = lease_job now_ms job
          /\ jobs' !! SchedulerJob.job_id job' = Some job')
  /\ (forall job_id job, jobs !! job_id = Some job ->
        job_id ∉ (SchedulerJob.job_id <$> leased) ->
        jobs' !! job_id = Some job
        /\ (job_is_due job now_ms = true ->
            length leased = limit
            /\ forall job', job' ∈ leased -> due_le (due_key job') (due_key job))).
Proof.
  intros Hkeyed Hrun jobs jobs'.
  destruct (lease_due_jobs_run _ _ _ _ _ Hkeyed Hrun) as (Hnd & Hleased & Hdue & Hafter).
  fold jobs in Hnd, Hleased, Hdue, Hafter. fold jobs' in Hafter.
  set (due := (take limit (due_jobs jobs now_ms)).*2) in *.
  assert (Hids : (SchedulerJob.job_id <$> leased) = due).
  { rewrite Hleased. apply leased_ids; [done|]. intros k (job & -> & _)%Hdue. done. }
  assert (Hlen : length leased = length due) by (by rewrite <-Hids, length_fmap).
  rewrite Hids. split_and!; [|done|..].
  - rewrite Hlen. unfold due. rewrite length_fmap, length_take. lia.
  - intros job' Hin. rewrite Hleased in Hin.
    apply elem_of_leased in Hin as (k & job & Hk & Hjob & ->).
    assert (SchedulerJob.job_id (lease_job now_ms job) = k) as -> by exact (Hkeyed _ _ Hjob).
    destruct (Hdue k Hk) as (job0 & Hjob0 & Hd). fold jobs in Hjob0.
    exists job. split; [done|]. split; [congruence|]. split; [done|].
    rewrite Hafter, decide_True by done. by rewrite Hjob.
  - intros k job Hjob Hk. split; [by rewrite Hafter, decide_False|]. intros Hd.
    assert (Hin : due_key job ∈ drop limit (due_jobs jobs now_ms)).
    { assert (due_key job ∈ due_jobs jobs now_ms) as Hin by (apply elem_of_due_jobs; eauto).
      rewrite <-(take_drop limit (due_jobs jobs now_ms)) in Hin.
      apply elem_of_app in Hin as [Hin|Hin]; [|done]. destruct Hk.
      rewrite <-(Hkeyed _ _ Hjob). apply list_elem_of_fmap. exists (due_key job). done. }
    split.
    + rewrite Hlen. unfold due. rewrite length_fmap, length_take.
      destruct (drop limit _) as [|? rest] eqn:Hdrop; [by apply not_elem_of_nil in Hin|].
      apply (f_equal length) in Hdrop. rewrite length_drop in Hdrop. simpl in Hdrop. lia.
    + intros job' Hin'. rewrite Hleased in Hin'.
      apply elem_of_leased in Hin' as (k' & old & Hk' & Hold & ->).
      apply list_elem_of_fmap in Hk' as (key & -> & Hkey).
      assert (due_key (lease_job now_ms old) = key) as ->.
      { assert (Hdj : key ∈ due_jobs jobs now_ms)
          by (rewrite <-(take_drop limit (due_jobs jobs now_ms)); set_solver).
        apply elem_of_due_jobs in Hdj as (k0 & job0 & Hjob0 & _ & ->).
        cbn in Hold. rewrite (Hkeyed _ _ Hjob0) in Hold.
        rewrite Hjob0 in Hold. injection Hold as ->. done. }
      eapply StronglySorted_app_inv; [|exact Hkey|exact Hin].
      rewrite take_drop. apply StronglySorted_merge_sort; apply _.
Qed.

(** the retry delay is [INITIAL_BACKOFF_MS] doubled with every further
    consecutive failure and capped at [MAX_BACKOFF_MS]; so it never decreases
    with the number of failures and stays within its two bounds. *)
Theorem backoff_delay_ms_correct failures :
  (1 <= failures)%N ->
  backoff_delay_ms failures = N.min (INITIAL_BACKOFF_MS * 2 ^ (failures - 1)) MAX_BACKOFF_MS
  /\ (INITIAL_BACKOFF_MS <= backoff_delay_ms failures <= MAX_BACKOFF_MS)%N
  /\ (forall more, (failures <= more)%N -> (backoff_delay_ms failures <= backoff_delay_ms more)%N).
Proof.
  assert (Hexact : forall n, (1 <= n)%N ->
    backoff_delay_ms n = N.min (INITIAL_BACKOFF_MS * 2 ^ (n - 1)) MAX_BACKOFF_MS).
  { intros n Hn. unfold backoff_delay_ms, saturating_sub, saturating_mul, max_uint.
    rewrite N.shiftl_1_l. destruct (N.le_gt_cases (n - 1) 16) as [Hle|Hgt].
    - rewrite (N.min_l (n - 1)) by done.
      assert (2 ^ (n - 1) <= 2 ^ 16)%N by (apply N.pow_le_mono_r; lia).
      rewrite (N.min_l (_ * _)); [done|].
      etrans; [apply N.mul_le_mono_l; eassumption|]. by vm_compute.
    - rewrite (N.min_r (n - 1)) by lia.
      assert (2 ^ 16 <= 2 ^ (n - 1))%N by (apply N.pow_le_mono_r; lia).
      rewrite (N.min_r (INITIAL_BACKOFF_MS * 2 ^ (n - 1))); [by vm_compute|].
      etrans; [|apply N.mul_le_mono_l; eassumption]. by vm_compute. }
  intros Hf. rewrite Hexact by done. split; [done|].
  assert (Hmono : forall a b, (a <= b)%N -> (2 ^ (a - 1) <= 2 ^ (b - 1))%N).
  { intros a b Hab. apply N.pow_le_mono_r; lia. }
  split.
  - pose proof (Hmono 1%N failures Hf) as H1. change (2 ^ (1 - 1))%N with 1%N in H1.
    unfold INITIAL_BACKOFF_MS, MAX_BACKOFF_MS. lia.
  - intros more Hmore. rewrite Hexact by lia. specialize (Hmono _ _ Hmore).
    unfold INITIAL_BACKOFF_MS, MAX_BACKOFF_MS. lia.
Qed.

(** A scheduler tick returns whenever the executions it calls do: the loop
    over at most [MAX_JOBS_PER_TICK] rounds of at most [MAX_JOBS_PER_TICK] jobs
    is bounded, never fails, and leaves no lease behind - a job that is leased
    after the tick was leased before it.  While the factory is paused the tick
    runs no job and leaves the job table alone. *)
Theorem run_scheduler_tick_correct
    (poll_escrow_payments : N -> C unit)
    (execute_spawn : string -> N -> C SpawnExecutionReceipt.t) (now_ms : N) (canister : Canister.t) :
  quiet now_ms (poll_escrow_payments now_ms) ->
  (forall session_id, quiet now_ms (execute_spawn session_id now_ms)) ->
  never_traps (poll_escrow_payments now_ms) ->
  (forall session_id, never_traps (execute_spawn session_id now_ms)) ->
  jobs_keyed (FactoryState.scheduler_jobs (Canister.factory canister)) ->
  exists reports canister',
    run_scheduler_tick poll_escrow_payments execute_spawn now_ms canister = Done reports canister'
    /\ length reports <= MAX_JOBS_PER_TICK * MAX_JOBS_PER_TICK
    /\ (forall job_id, live now_ms (Canister.factory canister') job_id ->
          live now_ms (Canister.factory canister) job_id)
    /\ SchedulerRuntime.last_tick_finished_ms
         (FactoryState.scheduler_runtime (Canister.factory canister')) = Some now_ms
    /\ (FactoryState.pause (Canister.factory canister) = true ->
        reports = [] /\
        FactoryState.scheduler_jobs (Canister.factory canister') =
        FactoryState.scheduler_jobs (Canister.factory canister)).
Proof.
  intros Hpq Hsq Hpr Hsr Hkeyed. unfold run_scheduler_tick.
  unfold mbind at 1, M_bind at 1, gets.
  destruct (FactoryState.pause (Canister.factory canister)) eqn:Hpause.
  - eexists [], _. split; [reflexivity|]. split; [simpl; lia|]. auto.
  - set (canister1 := canister <| Canister.factory ::= start_tick now_ms |>).
    destruct (run_rounds_run _ _ now_ms Hpq Hsq Hpr Hsr MAX_JOBS_PER_TICK canister1 Hkeyed)
      as (reports & canister2 & Hrun & Hlen & _ & Hlive).
    exists reports, (canister2 <| Canister.factory ::= finish_tick now_ms |>).
    change ((on_factory (start_tick now_ms);; ?k) canister) with (k canister1).
    rewrite (M_bind_run _ _ canister1 _ _ Hrun).
    split; [reflexivity|]. split; [done|]. split; [exact Hlive|]. done.
Qed.

(** ** The concurrent driver

    In the canister build [schedule_due_jobs] leases due jobs and spawns their
    executions; each one settles its job when it finishes and then schedules
    again.  Between those messages other messages change the state. *)

Module System.
Record t := mk {
  clock : N;
  factory : FactoryState.t;
  in_flight : list SchedulerJob.t;
}.
#[global] Instance eta_t : Eta t := fun self => mk (clock self) (factory self) (in_flight self).
End System.

Definition schedule_due_jobs (now_ms : N) (system : System.t) : System.t :=
  if FactoryState.pause (System.factory system) then system
  else
    let factory := start_tick now_ms (System.factory system) in
    let '(leased_jobs, factory) := lease_due_jobs now_ms MAX_JOBS_PER_TICK factory in
    system <| System.factory := finish_tick now_ms factory |>
           <| System.in_flight ::= fun running => running ++ leased_jobs |>.

Definition settle (job : SchedulerJob.t) (outcome : option SchedulerJobFailure.t) (now_ms : N)
    (factory : FactoryState.t) : FactoryState.t :=
  match outcome with
  | None => finalize_job_success (SchedulerJob.job_id job) now_ms factory
  | Some failure => finalize_job_failure (SchedulerJob.job_id job) failure now_ms factory
  end.

(** What any other message may do to the job table: it leaves leased jobs alone
    and takes no lease ([enqueue_spawn_execution_in_state] and
    [sync_payment_poll_job_in_state] are such changes). *)
Definition leases_kept (now_ms : N) (before after : FactoryState.t) : Prop :=
  jobs_keyed (FactoryState.scheduler_jobs after)
  /\ forall job_id job, FactoryState.scheduler_jobs before !! job_id = Some job ->
       job_has_live_lease job now_ms = true ->
       FactoryState.scheduler_jobs after !! job_id = Some job.

(** Time passes only while every execution in flight is within its lease: the
    lease duration is meant to outlast an execution. *)
Definition within_lease (now_ms : N) (system : System.t) : Prop :=
  in_uint 64 (now_ms + JOB_LEASE_DURATION_MS)
  /\ forall job, job ∈ System.in_flight system -> job_has_live_lease job now_ms = true.

Inductive sched_step : System.t -> System.t -> Prop :=
| step_tick system now_ms :
    (System.clock system <= now_ms)%N -> within_lease now_ms system ->
    sched_step system (schedule_due_jobs now_ms (system <| System.clock := now_ms |>))
| step_finish system now_ms before job after outcome :
    (System.clock system <= now_ms)%N -> within_lease now_ms system ->
    System.in_flight system = before ++ job :: after ->
    sched_step system
      (schedule_due_jobs now_ms
        (system <| System.clock := now_ms |>
                <| System.in_flight := before ++ after |>
                <| System.factory ::= settle job outcome now_ms |>))
| step_message system now_ms factory :
    (System.clock system <= now_ms)%N -> within_lease now_ms system ->
    leases_kept now_ms (System.factory system) factory ->
    sched_step system (system <| System.clock := now_ms |> <| System.factory := factory |>).

Inductive sched_reachable : System.t -> Prop :=
| reachable_start factory clock :
    jobs_keyed (FactoryState.scheduler_jobs factory) ->
    sched_reachable (System.mk clock factory [])
| reachable_step system system' :
    sched_reachable system -> sched_step system system' -> sched_reachable system'.

(** The executions in flight have distinct ids and hold the leases of the job
    table. *)
Definition system_inv (system : System.t) : Prop :=
  jobs_keyed (FactoryState.scheduler_jobs (System.factory system))
  /\ NoDup (SchedulerJob.job_id <$> System.in_flight system)
  /\ forall job, job ∈ System.in_flight system ->
       FactoryState.scheduler_jobs (System.factory system) !! SchedulerJob.job_id job = Some job.

Lemma schedule_due_jobs_inv now_ms system :
  system_inv system -> within_lease now_ms system -> system_inv (schedule_due_jobs now_ms system).
Proof.
  intros (Hkeyed & Hnd & Hheld) [Hbound Hlive]. unfold schedule_due_jobs.
  destruct (FactoryState.pause (System.factory system)); [done|].
  destruct (lease_due_jobs now_ms MAX_JOBS_PER_TICK _) as [leased factory] eqn:Hrun.
  destruct (lease_due_jobs_run now_ms _ (start_tick now_ms (System.factory system)) _ _ Hkeyed Hrun)
    as (Hnd' & Hleased & Hdue & Hafter).
  change (FactoryState.scheduler_jobs (start_tick now_ms (System.factory system)))
    with (FactoryState.scheduler_jobs (System.factory system)) in *.
  set (jobs := FactoryState.scheduler_jobs (System.factory system)) in *.
  set (due := (take MAX_JOBS_PER_TICK (due_jobs jobs now_ms)).*2) in *.
  assert (Hids : (SchedulerJob.job_id <$> leased) = due).
  { rewrite Hleased. apply leased_ids; [done|]. intros k (job & -> & _)%Hdue. done. }
  assert (Hfresh : forall job, job ∈ System.in_flight system -> SchedulerJob.job_id job ∉ due).
  { intros job Hin (other & Hother & Hd)%Hdue. rewrite (Hheld _ Hin) in Hother.
    injection Hother as ->. by rewrite live_not_due in Hd by auto. }
  split; [|split].
  - simpl_set. intros k job Hk.
    change (FactoryState.scheduler_jobs factory !! k = Some job) in Hk.
    rewrite Hafter in Hk. case_decide; [|by apply Hkeyed].
    apply fmap_Some_1 in Hk as (old & Hold & ->). exact (Hkeyed _ _ Hold).
  - simpl_set. rewrite fmap_app, NoDup_app, Hids. split; [done|]. split; [|done].
    intros k (job & -> & Hin)%list_elem_of_fmap. by apply Hfresh.
  - simpl_set. intros job.
    change (FactoryState.scheduler_jobs (finish_tick now_ms factory))
      with (FactoryState.scheduler_jobs factory).
    rewrite Hafter. intros [Hin|Hin]%elem_of_app.
    + rewrite decide_False by (by apply Hfresh). by apply Hheld.
    + assert (SchedulerJob.job_id job ∈ due) by (rewrite <-Hids; by apply list_elem_of_fmap_2).
      rewrite decide_True by done. rewrite Hleased in Hin.
      apply elem_of_leased in Hin as (k & old & _ & Hold & ->).
      change (SchedulerJob.job_id (lease_job now_ms old)) with (SchedulerJob.job_id old).
      by rewrite (Hkeyed _ _ Hold), Hold.
Qed.

Lemma settle_settles job outcome now_ms factory :
  settles (SchedulerJob.job_id job) factory (settle job outcome now_ms factory).
Proof.
  destruct outcome; [apply finalize_job_failure_settles | apply finalize_job_success_settles].
Qed.

Lemma settles_other job_id before after other :
  settles job_id before after -> other <> job_id ->
  FactoryState.scheduler_jobs after !! other = FactoryState.scheduler_jobs before !! other.
Proof.
  unfold settles. destruct (_ !! job_id); [|by intros ->].
  intros (job' & -> & _) Hne. by rewrite lookup_insert_ne.
Qed.

Lemma sched_step_inv system system' :
  system_inv system -> sched_step system system' -> system_inv system'.
Proof.
  intros Hinv. destruct 1 as [system now_ms Hclock Hlease
    |system now_ms before job after outcome Hclock Hlease Hflight
    |system now_ms factory Hclock Hlease Hkept].
  - by apply schedule_due_jobs_inv.
  - destruct Hinv as (Hkeyed & Hnd & Hheld), Hlease as [Hbound Hlive].
    rewrite Hflight in Hnd, Hheld, Hlive.
    rewrite fmap_app, fmap_cons in Hnd.
    apply NoDup_app in Hnd as (Hnd1 & Hdisj & [Hjob Hnd2]%NoDup_cons).
    pose proof (settle_settles job outcome now_ms (System.factory system)) as Hs.
    apply schedule_due_jobs_inv; (split; [|try split]).
    + exact (settles_keyed _ _ _ Hs Hkeyed).
    + simpl_set. rewrite fmap_app. apply NoDup_app. split; [done|]. split; [|done].
      intros k Hk. specialize (Hdisj k Hk). set_solver.
    + simpl_set. intros other Hin. rewrite (settles_other _ _ _ _ Hs); [apply Hheld; set_solver|].
      apply elem_of_app in Hin as [Hin|Hin]; intros Heq.
      * apply (Hdisj (SchedulerJob.job_id job)); [|set_solver].
        rewrite <-Heq. by apply list_elem_of_fmap_2.
      * apply Hjob. rewrite <-Heq. by apply list_elem_of_fmap_2.
    + done.
    + simpl_set. intros other Hin. apply Hlive. set_solver.
  - destruct Hinv as (Hkeyed & Hnd & Hheld), Hkept as [Hkeyed' Hkept].
    split; [exact Hkeyed'|]. split; [exact Hnd|]. simpl_set. intros job Hin.
    apply Hkept; [by apply Hheld|]. by apply Hlease.
Qed.

(** C32 - mutual exclusion: as long as executions finish within their lease, no
    interleaving of ticks, completions and other messages ever has two
    executions of the same job in flight, and every execution in flight holds
    the lease recorded in the job table. *)
Theorem no_concurrent_execution system :
  sched_reachable system ->
  NoDup (SchedulerJob.job_id <$> System.in_flight system)
  /\ forall job, job ∈ System.in_flight system ->
       FactoryState.scheduler_jobs (System.factory system) !! SchedulerJob.job_id job = Some job.
Proof.
  intros Hreach. enough (system_inv system) as (_ & ?) by done.
  induction Hreach as [factory clock Hkeyed|]; [|by eapply sched_step_inv].
  split; [done|]. split; [constructor|]. intros job []%not_elem_of_nil.
Qed.

Lemma enqueue_leases_kept session_id now_ms state :
  jobs_keyed (FactoryState.scheduler_jobs state) ->
  leases_kept now_ms state (enqueue_spawn_execution_in_state session_id now_ms state).
Proof.
  intros Hkeyed. unfold enqueue_spawn_execution_in_state. split.
  - simpl_set. apply jobs_keyed_insert_at; [done|].
    destruct (FactoryState.scheduler_jobs state !! spawn_job_id session_id) as [job|] eqn:Hj;
      simpl; [|done].
    destruct (job_has_live_lease job now_ms); exact (Hkeyed _ _ Hj).
  - simpl_set. intros k job Hk Hlive. destruct (decide (k = spawn_job_id session_id)) as [->|].
    + rewrite lookup_insert_eq, Hk. simpl. by rewrite Hlive.
    + by rewrite lookup_insert_ne.
Qed.

Lemma sync_poll_leases_kept now_ms state :
  jobs_keyed (FactoryState.scheduler_jobs state) ->
  leases_kept now_ms state (sync_payment_poll_job_in_state now_ms state).
Proof.
  intros Hkeyed. unfold sync_payment_poll_job_in_state. destruct (negb (polls_remain state)).
  - split; simpl_set.
    + intros k job. rewrite lookup_alter. case_decide as Hk; [subst k|apply Hkeyed].
      intros (old & Hold & ->)%fmap_Some_1.
      destruct (job_has_live_lease old now_ms); exact (Hkeyed _ _ Hold).
    + intros k job Hk Hlive. rewrite lookup_alter. case_decide; [subst k|done].
      rewrite Hk. simpl. by rewrite Hlive.
  - split; simpl_set.
    + apply jobs_keyed_insert_at; [done|].
      destruct (FactoryState.scheduler_jobs state !! PAYMENT_POLL_JOB_ID) as [job|] eqn:Hj;
        simpl; [|done].
      destruct (job_has_live_lease job now_ms); exact (Hkeyed _ _ Hj).
    + intros k job Hk Hlive. destruct (decide (k = PAYMENT_POLL_JOB_ID)) as [->|].
      * rewrite lookup_insert_eq, Hk. simpl. by rewrite Hlive.
      * by rewrite lookup_insert_ne.
Qed.

Lemma polls_remain_true state :
  polls_remain state = true <->
  exists session_id session, FactoryState.sessions state !! session_id = Some session
    /\ session_needs_payment_poll session = true.
Proof.
  unfold polls_remain. rewrite existsb_exists. split.
  - intros (session & Hin & Hs). apply list_elem_of_In, elem_of_btree_values in Hin as [k Hk].
    eauto.
  - intros (k & session & Hk & Hs). exists session. split; [|done].
    apply list_elem_of_In, elem_of_btree_values. eauto.
Qed.

(** after [sync_payment_poll_job_in_state] an unleased poll job is due now
    exactly when some session still awaits payment; a leased one is left
    alone; no other job changes. *)
Theorem sync_payment_poll_job_correct now_ms state :
  let state' := sync_payment_poll_job_in_state now_ms state in
  (live now_ms state PAYMENT_POLL_JOB_ID ->
     FactoryState.scheduler_jobs state' = FactoryState.scheduler_jobs state)
  /\ (~ live now_ms state PAYMENT_POLL_JOB_ID ->
       ((exists session_id session, FactoryState.sessions state !! session_id = Some session
           /\ session_needs_payment_poll session = true) <->
        exists job, FactoryState.scheduler_jobs state' !! PAYMENT_POLL_JOB_ID = Some job
          /\ job_is_due job now_ms = true))
  /\ forall job_id, job_id <> PAYMENT_POLL_JOB_ID ->
       FactoryState.scheduler_jobs state' !! job_id = FactoryState.scheduler_jobs state !! job_id.
Proof.
  intros state'. rewrite <-polls_remain_true. subst state'.
  unfold sync_payment_poll_job_in_state, live.
  destruct (polls_remain state); simpl negb; cbv iota zeta; simpl_set.
  - split; [|split].
    + intros (job & Hj & Hlive). rewrite Hj. simpl. rewrite Hlive. by apply insert_id.
    + intros Hdead. split; [|done]. intros _. rewrite lookup_insert_eq. eexists. split; [done|].
      assert (job_has_live_lease (default (payment_poll_job now_ms)
        (FactoryState.scheduler_jobs state !! PAYMENT_POLL_JOB_ID)) now_ms = false) as ->.
      { destruct (_ !! _) as [job|]; [|done]. simpl.
        destruct (job_has_live_lease job now_ms) eqn:Hl; [|done]. destruct Hdead. eauto. }
      unfold job_is_due. cbn. rewrite andb_true_r. apply N.leb_le. lia.
    + intros k Hk. by rewrite lookup_insert_ne.
  - split; [|split].
    + intros (job & Hj & Hlive). apply map_eq. intros k. rewrite lookup_alter.
      case_decide as Hk; [subst k|done]. rewrite Hj. simpl. by rewrite Hlive.
    + intros Hdead. split; [done|]. intros (job & Hjob & Hdue). exfalso.
      rewrite lookup_alter_eq in Hjob. apply fmap_Some_1 in Hjob as (old & Hold & ->).
      destruct (job_has_live_lease old now_ms) eqn:Hl; [destruct Hdead; eauto|done].
    + intros k Hk. by rewrite lookup_alter_ne.
Qed.

(** *** Witnesses *)

Definition sample_state : FactoryState.t :=
  Samples.state_with (Samples.session SpawnSessionState.AwaitingPayment PaymentStatus.Unpaid)
  <| FactoryState.scheduler_jobs := {[
       PAYMENT_POLL_JOB_ID := payment_poll_job 10;
       spawn_job_id "s" := spawn_execution_job "s" 20 ]} |>.

Lemma sample_state_keyed : jobs_keyed (FactoryState.scheduler_jobs sample_state).
Proof.
  apply (map_Forall_lookup (fun job_id job => SchedulerJob.job_id job = job_id)).
  apply (bool_decide_unpack _). vm_compute. exact I.
Qed.

Lemma lease_due_jobs_correct_witness :
  let '(leased, state') := lease_due_jobs 100 1 sample_state in
  (SchedulerJob.job_id <$> leased) = [PAYMENT_POLL_JOB_ID] /\ length leased <= 1.
Proof.
  destruct (lease_due_jobs 100 1 sample_state) as [leased state'] eqn:Hrun.
  destruct (lease_due_jobs_correct 100 1 sample_state leased state' sample_state_keyed Hrun)
    as [Hlen _].
  split; [|exact Hlen].
  vm_compute in Hrun. injection Hrun as <- _. reflexivity.
Defined.

Lemma backoff_delay_ms_correct_witness :
  backoff_delay_ms 3 = 20000%N /\ backoff_delay_ms 9 = 300000%N
  /\ (INITIAL_BACKOFF_MS <= backoff_delay_ms 9)%N.
Proof.
  split; [reflexivity|]. split; [reflexivity|].
  exact (proj1 (proj1 (proj2 (backoff_delay_ms_correct 9 ltac:(lia))))).
Defined.

(** Executions that change nothing: a poll that succeeds, a spawn that is not
    ready. *)
Definition idle_poll (now_ms : N) : C unit := mret tt.
Definition idle_spawn (session_id : string) (now_ms : N) : C SpawnExecutionReceipt.t :=
  mthrow (FactoryError.SessionNotReadyForSpawn session_id SpawnSessionState.AwaitingPayment).

Lemma run_scheduler_tick_correct_witness :
  exists reports canister',
    run_scheduler_tick idle_poll idle_spawn 100 (Canister.mk sample_state ∅)
      = Done reports canister'
    /\ length reports <= 64.
Proof.
  destruct (run_scheduler_tick_correct idle_poll idle_spawn 100 (Canister.mk sample_state ∅))
    as (reports & canister' & Hrun & Hlen & _).
  - intros c c' [= <-] H. auto.
  - intros s c c' [= <-] H. auto.
  - intros c. discriminate.
  - intros s c. discriminate.
  - exact sample_state_keyed.
  - exists reports, canister'. split; [exact Hrun | exact Hlen].
Defined.

Lemma no_concurrent_execution_witness :
  let system := schedule_due_jobs 100
    (System.mk 10 sample_state [] <| System.clock := 100%N |>) in
  length (System.in_flight system) = 2
  /\ NoDup (SchedulerJob.job_id <$> System.in_flight system).
Proof.
  intros system. split; [vm_compute; reflexivity|].
  apply (no_concurrent_execution system).
  eapply reachable_step; [apply (reachable_start _ 10 sample_state_keyed)|].
  apply step_tick; [vm_compute; discriminate|]. split; [vm_compute; discriminate|].
  intros job []%not_elem_of_nil.
Defined.
