(* ===== verification/Retry.v ===== *)
(** * Retry: failing and retrying a spawn

    Models [backend/factory/src/retry.rs]: the two session transitions that
    also put the spawn-execution job back in the scheduler's queue. *)

From S2P Require Import Prelude Text SpawnProtocol Types State Samples Transitions Scheduler.

Definition mark_session_failed_in_state (session_id : string) (actor : SessionAuditActor.t)
    (now_ms : N) (reason : string) : F SpawnSession.t :=
  session ← apply_session_event_in_state session_id actor now_ms
    SpawnSessionEvent.SpawnFailed reason;
  (if SpawnSession.retryable session
   then modify (enqueue_spawn_execution_in_state session_id now_ms) else mret tt);;
  mret session.

Definition retry_spawn_session_in_state (session_id : string) (actor : SessionAuditActor.t)
    (now_ms : N) (reason : string) : F SpawnSession.t :=
  session ← apply_session_event_in_state session_id actor now_ms
    SpawnSessionEvent.RetryRequested reason;
  modify (enqueue_spawn_execution_in_state session_id now_ms);;
  mret session.

Definition mark_session_failed (session_id : string) (actor : SessionAuditActor.t)
    (now_ms : N) (reason : string) : C SpawnSession.t :=
  write_state (mark_session_failed_in_state session_id actor now_ms reason).

Definition retry_failed_session (session_id : string) (actor : SessionAuditActor.t)
    (now_ms : N) (reason : string) : C SpawnSession.t :=
  write_state (retry_spawn_session_in_state session_id actor now_ms reason).

Lemma sessions_enqueue session_id now_ms state :
  FactoryState.sessions (enqueue_spawn_execution_in_state session_id now_ms state)
  = FactoryState.sessions state.
Proof. reflexivity. Qed.

(** After enqueueing, the execution job is due now or holds a live lease. *)
Lemma enqueue_spawn_execution_scheduled session_id now_ms state :
  exists job,
    FactoryState.scheduler_jobs (enqueue_spawn_execution_in_state session_id now_ms state)
      !! spawn_job_id session_id = Some job
    /\ (job_is_due job now_ms = true \/ job_has_live_lease job now_ms = true).
Proof.
  unfold enqueue_spawn_execution_in_state. simpl_set. rewrite lookup_insert_eq.
  eexists. split; [done|].
  destruct (job_has_live_lease (default _ _) now_ms) eqn:Hl; [by right|]. left.
  unfold job_is_due. cbn. rewrite N.leb_refl. done.
Qed.

Lemma preserves_enqueue session_id now_ms :
  preserves sessions_inv
    (modify (enqueue_spawn_execution_in_state session_id now_ms) : F unit).
Proof. apply stable_modify. intros state Hinv. split; [|done]. by eapply sessions_inv_frame. Qed.

#[export] Hint Resolve preserves_enqueue : stable.
