(* ===== verification/Evidence.v ===== *)
(** * Evidence: what the deposit logs of the escrow contract add up to

    Models the pure part of [backend/factory/src/escrow.rs] and the log and
    scan-plan types of [base_rpc.rs]: the amounts of the deposit logs per claim
    and block, their merge into a claim's persisted evidence, the payment
    status they give, and the block window the next scan reads. *)

From S2P Require Import Prelude Text SpawnProtocol Types State Samples Transitions Scheduler.

Definition BASE_LOG_WINDOW_LIMIT : N := 10000.

Module BaseDepositLog.
Record t := mk {
  claim_id : string;
  amount : string;
  block_number : N;
  block_hash : string;
}.
End BaseDepositLog.

Module PaymentScanPlan.
Record t := mk {
  claim_ids : list string;
  from_block : N;
  to_block : N;
}.
End PaymentScanPlan.

(** [DepositAmountByBlock] and [DepositAmountsByClaim]. *)
Abbreviation DepositAmountByBlock := (gmap N (N * string)).
Abbreviation DepositAmountsByClaim := (gmap string DepositAmountByBlock).

Definition payment_status_for_amount (total_paid required : N) : PaymentStatus.t :=
  if (required <=? total_paid)%N then PaymentStatus.Paid
  else if (0 <? total_paid)%N then PaymentStatus.Partial
  else PaymentStatus.Unpaid.

Definition finalize_payment_status_for_escrow (payment_status : PaymentStatus.t)
    (block_hashes_canonical : bool) : PaymentStatus.t :=
  if bool_decide (payment_status = PaymentStatus.Paid) && negb block_hashes_canonical
  then PaymentStatus.Partial else payment_status.

Definition reconcile_error (message : string) : FactoryError.t :=
  FactoryError.ManagementCallFailed "reconcile_escrow_payments" message.

Definition add_deposit_log (amounts : DepositAmountsByClaim) (log : BaseDepositLog.t)
    : result FactoryError.t DepositAmountsByClaim :=
  amount ← parse_amount (BaseDepositLog.amount log);
  let blocks : DepositAmountByBlock :=
    default ∅ (amounts !! BaseDepositLog.claim_id log) in
  let per_block :=
    default (0%N, BaseDepositLog.block_hash log) (blocks !! BaseDepositLog.block_number log) in
  err_if (negb (eq_ignore_ascii_case per_block.2 (BaseDepositLog.block_hash log)))
    (reconcile_error "deposit log block hash is inconsistent for the same block");;
  total ← ok_or (checked_add 128 per_block.1 amount)
    (FactoryError.InvalidAmount (BaseDepositLog.amount log));
  Ok (<[BaseDepositLog.claim_id log :=
        <[BaseDepositLog.block_number log := (total, per_block.2)]> blocks]> amounts).

Fixpoint add_deposit_logs (amounts : DepositAmountsByClaim) (logs : list BaseDepositLog.t)
    : result FactoryError.t DepositAmountsByClaim :=
  match logs with
  | [] => Ok amounts
  | log :: rest => amounts ← add_deposit_log amounts log; add_deposit_logs amounts rest
  end.

Definition amounts_by_claim (logs : list BaseDepositLog.t)
    : result FactoryError.t DepositAmountsByClaim :=
  add_deposit_logs ∅ logs.

(** The evidence indexed by block; a later entry of a block shadows an earlier
    one. *)
Definition evidence_by_block (evidence : list PaymentEvidenceBlock.t)
    : gmap N PaymentEvidenceBlock.t :=
  list_to_map (reverse
    ((fun entry => (PaymentEvidenceBlock.block_number entry, entry)) <$> evidence)).

(** The loop variables of the merge: the evidence, the total paid, the payment
    added by this scan and the claim's cursor. *)
Module Merge.
Record t := mk {
  evidence : list PaymentEvidenceBlock.t;
  total_paid : N;
  incremental_payment : N;
  claim_cursor : option N;
}.
End Merge.

Definition merge_block (acc : Merge.t) (block : N * (N * string))
    : result FactoryError.t Merge.t :=
  let '(block_number, (amount, block_hash)) := block in
  match evidence_by_block (Merge.evidence acc) !! block_number with
  | Some existing =>
      err_if (negb (eq_ignore_ascii_case (PaymentEvidenceBlock.block_hash existing) block_hash))
        (reconcile_error "persisted payment evidence block hash changed for the same block");;
      Ok acc
  | None =>
      total_paid ← ok_or (checked_add 128 (Merge.total_paid acc) amount)
        (FactoryError.InvalidAmount (amount_to_string amount));
      incremental_payment ← ok_or (checked_add 128 (Merge.incremental_payment acc) amount)
        (FactoryError.InvalidAmount (amount_to_string amount));
      Ok (Merge.mk
        (Merge.evidence acc ++
          [PaymentEvidenceBlock.mk block_number block_hash (amount_to_string amount)])
        total_paid incremental_payment
        (Some (N.max (default 0%N (Merge.claim_cursor acc)) block_number)))
  end.

Fixpoint merge_blocks (acc : Merge.t) (blocks : list (N * (N * string)))
    : result FactoryError.t Merge.t :=
  match blocks with
  | [] => Ok acc
  | block :: rest => acc ← merge_block acc block; merge_blocks acc rest
  end.

Definition merged_claim_evidence_for_session (prior_claim : EscrowClaim.t)
    (blocks : option DepositAmountByBlock) : result FactoryError.t Merge.t :=
  total_paid ← parse_amount (EscrowClaim.paid_amount prior_claim);
  let acc := Merge.mk (EscrowClaim.payment_evidence prior_claim) total_paid 0
    (EscrowClaim.last_scanned_block prior_claim) in
  match blocks with
  | None => Ok acc
  | Some blocks =>
      acc ← merge_blocks acc (btree_iter blocks);
      Ok (Merge.mk (sort_by_key PaymentEvidenceBlock.block_number (Merge.evidence acc))
            (Merge.total_paid acc) (Merge.incremental_payment acc) (Merge.claim_cursor acc))
  end.

(** [next_payment_scan_plan]; [Iterator::min] of the cursors of the sessions
    that have one. *)
Definition min_block (blocks : list N) : option N :=
  foldr (fun block acc => Some (match acc with Some least => N.min block least | None => block end))
    None blocks.

Definition next_block (block : N) : N := saturating_add 64 block 1.

Definition next_payment_scan_plan (latest_block : N) (state : FactoryState.t)
    : option PaymentScanPlan.t :=
  let active_sessions :=
    filter (fun session => session_needs_payment_poll session = true)
      (btree_values (FactoryState.sessions state)) in
  if decide (active_sessions = []) then None
  else if (FactoryState.evm_confirmation_depth state =? 0)%N then None
  else
    let confirmations_to_wait := saturating_sub (FactoryState.evm_confirmation_depth state) 1 in
    if (latest_block <? confirmations_to_wait)%N then None
    else
      let safe_head_block := (latest_block - confirmations_to_wait)%N in
      let fallback_from_block := saturating_sub safe_head_block (BASE_LOG_WINDOW_LIMIT - 1) in
      let cursors := omap (fun session =>
        next_block <$> SpawnSession.last_scanned_block session) active_sessions in
      let from_block :=
        match min_block cursors with
        | Some block => block
        | None =>
            default fallback_from_block
              (next_block <$> FactoryState.payment_last_scanned_block state)
        end in
      let from_block := N.min from_block safe_head_block in
      let to_block :=
        N.min (saturating_add 64 from_block (BASE_LOG_WINDOW_LIMIT - 1)) safe_head_block in
      let claim_ids :=
        merge_sort String.le (remove_dups (SpawnSession.claim_id <$> active_sessions)) in
      Some (PaymentScanPlan.mk claim_ids from_block to_block).

(** ** Facts about the merge *)

Definition amount_value (text : string) : N :=
  match parse_amount text with Ok value => value | Err _ => 0%N end.

Definition evidence_blocks (evidence : list PaymentEvidenceBlock.t) : list N :=
  PaymentEvidenceBlock.block_number <$> evidence.

Definition evidence_total (evidence : list PaymentEvidenceBlock.t) : N :=
  sum_N ((fun entry => amount_value (PaymentEvidenceBlock.amount entry)) <$> evidence).

(** The evidence of a claim is well formed: one entry per block, in ascending
    block order, whose amounts add up to the amount paid. *)
Definition evidence_ok (evidence : list PaymentEvidenceBlock.t) (paid : N) : Prop :=
  NoDup (evidence_blocks evidence)
  /\ key_sorted PaymentEvidenceBlock.block_number evidence
  /\ paid = evidence_total evidence
  /\ in_uint 128 paid.

#[local] Arguments sort_by_key : simpl never.

Lemma evidence_by_block_Some evidence block entry :
  NoDup (evidence_blocks evidence) ->
  evidence_by_block evidence !! block = Some entry <->
  entry ∈ evidence /\ PaymentEvidenceBlock.block_number entry = block.
Proof.
  intros Hnd. unfold evidence_by_block.
  assert (Hnd' : NoDup (reverse ((fun entry => (PaymentEvidenceBlock.block_number entry, entry))
    <$> evidence)).*1).
  { rewrite fmap_reverse, <-list_fmap_compose, reverse_Permutation. exact Hnd. }
  rewrite <-elem_of_list_to_map, elem_of_reverse, list_elem_of_fmap by done.
  split; [intros (e & [= -> ->] & ?); done | intros [? <-]; eauto].
Qed.

Lemma evidence_by_block_None evidence block :
  evidence_by_block evidence !! block = None <-> block ∉ evidence_blocks evidence.
Proof.
  unfold evidence_by_block, evidence_blocks.
  rewrite <-not_elem_of_list_to_map, fmap_reverse, elem_of_reverse, <-list_fmap_compose.
  done.
Qed.

(** The blocks of a scan the evidence does not have yet. *)
Definition fresh_blocks (evidence : list PaymentEvidenceBlock.t)
    (blocks : list (N * (N * string))) : list (N * (N * string)) :=
  filter (fun block => block.1 ∉ evidence_blocks evidence) blocks.

Definition evidence_of (block : N * (N * string)) : PaymentEvidenceBlock.t :=
  PaymentEvidenceBlock.mk block.1 block.2.2 (amount_to_string block.2.1).

Definition deposited (blocks : list (N * (N * string))) : N :=
  sum_N ((fun block => block.2.1) <$> blocks).

(** The scan's hash of a block agrees with the one in evidence. *)
Definition hashes_agree (evidence : list PaymentEvidenceBlock.t)
    (blocks : list (N * (N * string))) : Prop :=
  forall block entry, block ∈ blocks -> entry ∈ evidence ->
    PaymentEvidenceBlock.block_number entry = block.1 ->
    eq_ignore_ascii_case (PaymentEvidenceBlock.block_hash entry) block.2.2 = true.

Lemma amount_value_to_string amount : in_uint 128 amount -> amount_value (amount_to_string amount) = amount.
Proof. intros H. unfold amount_value. by rewrite parse_amount_to_string. Qed.

Lemma evidence_blocks_of blocks : evidence_blocks (evidence_of <$> blocks) = blocks.*1.
Proof. unfold evidence_blocks. by rewrite <-list_fmap_compose. Qed.

Lemma evidence_total_of blocks :
  (forall block, block ∈ blocks -> in_uint 128 block.2.1) ->
  evidence_total (evidence_of <$> blocks) = deposited blocks.
Proof.
  unfold evidence_total, deposited. rewrite <-list_fmap_compose.
  induction blocks as [|block blocks IH]; intros Hin; [done|]. cbn.
  f_equal; [apply amount_value_to_string, Hin; set_solver | apply IH; set_solver].
Qed.

Lemma evidence_blocks_app evidence more :
  evidence_blocks (evidence ++ more) = evidence_blocks evidence ++ evidence_blocks more.
Proof. unfold evidence_blocks. apply fmap_app. Qed.

Lemma fresh_blocks_snoc evidence block blocks :
  block.1 ∉ blocks.*1 ->
  fresh_blocks (evidence ++ [evidence_of block]) blocks = fresh_blocks evidence blocks.
Proof.
  intros Hn. unfold fresh_blocks. induction blocks as [|other blocks IH]; [done|].
  rewrite fmap_cons, not_elem_of_cons in Hn. destruct Hn as [Hne Hn].
  rewrite !filter_cons, IH by done.
  assert (Hiff : other.1 ∈ evidence_blocks (evidence ++ [evidence_of block])
    <-> other.1 ∈ evidence_blocks evidence).
  { rewrite evidence_blocks_app, elem_of_app. cbn. rewrite list_elem_of_singleton.
    split; [intros [H|H]; [done|congruence] | auto]. }
  destruct (decide _) as [H1|H1], (decide _) as [H2|H2]; tauto.
Qed.

Lemma deposited_cons block blocks : deposited (block :: blocks) = (block.2.1 + deposited blocks)%N.
Proof. done. Qed.

(** A merge that succeeds appends exactly the fresh blocks and adds exactly
    their amounts. *)
Lemma merge_blocks_Ok acc blocks acc' :
  NoDup blocks.*1 -> NoDup (evidence_blocks (Merge.evidence acc)) ->
  merge_blocks acc blocks = Ok acc' ->
  let fresh := fresh_blocks (Merge.evidence acc) blocks in
  Merge.evidence acc' = Merge.evidence acc ++ (evidence_of <$> fresh)
  /\ Merge.total_paid acc' = (Merge.total_paid acc + deposited fresh)%N
  /\ Merge.incremental_payment acc' = (Merge.incremental_payment acc + deposited fresh)%N
  /\ (in_uint 128 (Merge.total_paid acc) -> in_uint 128 (Merge.total_paid acc'))
  /\ hashes_agree (Merge.evidence acc) blocks
  /\ (fresh = [] -> acc' = acc).
Proof.
  revert acc. induction blocks as [|[block [amount hash]] blocks IH]; intros acc.
  { intros _ _ [= <-]. cbn. rewrite app_nil_r, !N.add_0_r. split_and!; try done.
    intros b e Hb. by apply not_elem_of_nil in Hb. }
  rewrite fmap_cons. intros [Hn Hnd]%NoDup_cons Hev. cbn [merge_blocks].
  rewrite result_bind_Ok. intros (acc1 & Hstep & Hrest). unfold merge_block in Hstep. cbv zeta.
  destruct (evidence_by_block (Merge.evidence acc) !! block) as [existing|] eqn:Hfound.
  - rewrite err_if_seq_Ok, negb_false_iff in Hstep. destruct Hstep as [Hhash [= <-]].
    apply evidence_by_block_Some in Hfound as [Hin Hblock]; [|done].
    assert (fresh_blocks (Merge.evidence acc) ((block, (amount, hash)) :: blocks)
      = fresh_blocks (Merge.evidence acc) blocks) as ->.
    { unfold fresh_blocks. rewrite filter_cons, decide_False; [done|]. simpl. intros Hnot.
      apply Hnot. rewrite <-Hblock. unfold evidence_blocks. by apply list_elem_of_fmap_2. }
    destruct (IH acc Hnd Hev Hrest) as (? & ? & ? & ? & Hagree & ?). split_and!; try done.
    intros b e [->|Hb]%elem_of_cons He Heq; [|by eapply Hagree]. simpl in *.
    assert (Hsame : forall x, x ∈ Merge.evidence acc ->
      PaymentEvidenceBlock.block_number x = block ->
      evidence_by_block (Merge.evidence acc) !! block = Some x)
      by (intros; by apply evidence_by_block_Some).
    pose proof (Hsame _ He Heq) as Hone. rewrite (Hsame _ Hin Hblock) in Hone. by injection Hone as <-.
  - rewrite result_bind_Ok in Hstep. destruct Hstep as (total & Htotal & Hstep).
    rewrite result_bind_Ok in Hstep. destruct Hstep as (increment & Hincr & [= <-]).
    rewrite ok_or_Ok, checked_add_Some in Htotal, Hincr.
    destruct Htotal as [-> Htotal], Hincr as [-> _].
    apply evidence_by_block_None in Hfound.
    set (entry := (block, (amount, hash))) in *.
    assert (fresh_blocks (Merge.evidence acc) (entry :: blocks)
      = entry :: fresh_blocks (Merge.evidence acc) blocks) as ->.
    { unfold fresh_blocks. by rewrite filter_cons, decide_True. }
    match type of Hrest with merge_blocks ?a _ = _ => set (acc1 := a) in * end.
    assert (Hev1 : Merge.evidence acc1 = Merge.evidence acc ++ [evidence_of entry]) by done.
    assert (Hnd1 : NoDup (evidence_blocks (Merge.evidence acc1))).
    { rewrite Hev1, evidence_blocks_app. apply NoDup_app.
      split; [done|]. split; [|apply NoDup_singleton].
      intros x Hx ->%list_elem_of_singleton. done. }
    destruct (IH acc1 Hnd Hnd1 Hrest) as (He & Ht & Hi & Hbound & Hagree & _).
    rewrite Hev1, fresh_blocks_snoc in * by done. split_and!; try done.
    + rewrite He, fmap_cons, <-app_assoc. done.
    + rewrite Ht, deposited_cons. apply eq_sym, N.add_assoc.
    + rewrite Hi, deposited_cons. apply eq_sym, N.add_assoc.
    + intros _. by apply Hbound.
    + intros b e [->|Hb]%elem_of_cons Hin Heq.
      * simpl in Heq. destruct Hfound. rewrite <-Heq. by apply list_elem_of_fmap_2.
      * eapply Hagree; [done| |done]. set_solver.
Qed.

#[local] Arguments evidence_blocks : simpl never.

(** Merging blocks the evidence already has changes nothing. *)
Lemma merge_blocks_known acc blocks :
  NoDup (evidence_blocks (Merge.evidence acc)) ->
  (forall block, block ∈ blocks -> block.1 ∈ evidence_blocks (Merge.evidence acc)) ->
  hashes_agree (Merge.evidence acc) blocks ->
  merge_blocks acc blocks = Ok acc.
Proof.
  intros Hnd. induction blocks as [|[block [amount hash]] blocks IH]; intros Hin Hagree; [done|].
  assert (Hb : block ∈ evidence_blocks (Merge.evidence acc))
    by (apply (Hin (block, (amount, hash))); set_solver).
  unfold evidence_blocks in Hb. apply list_elem_of_fmap in Hb as (entry & -> & He).
  cbn [merge_blocks merge_block].
  assert (evidence_by_block (Merge.evidence acc) !! PaymentEvidenceBlock.block_number entry
    = Some entry) as -> by (by apply evidence_by_block_Some).
  assert (eq_ignore_ascii_case (PaymentEvidenceBlock.block_hash entry) hash = true) as ->.
  { apply (Hagree (PaymentEvidenceBlock.block_number entry, (amount, hash)) entry);
      [set_solver|done|done]. }
  cbn. apply IH; [set_solver|]. intros b e Hb. apply Hagree. set_solver.
Qed.

Lemma evidence_total_app evidence more :
  evidence_total (evidence ++ more) = (evidence_total evidence + evidence_total more)%N.
Proof. unfold evidence_total. by rewrite fmap_app, sum_N_app. Qed.

#[export] Instance evidence_total_perm : Proper ((≡ₚ) ==> eq) evidence_total.
Proof. intros l k H. unfold evidence_total. by rewrite H. Qed.

#[export] Instance evidence_blocks_perm : Proper ((≡ₚ) ==> (≡ₚ)) evidence_blocks.
Proof. intros l k H. unfold evidence_blocks. by rewrite H. Qed.

Lemma evidence_ok_sort evidence paid :
  NoDup (evidence_blocks evidence) -> paid = evidence_total evidence -> in_uint 128 paid ->
  evidence_ok (sort_by_key PaymentEvidenceBlock.block_number evidence) paid.
Proof.
  intros Hnd Hpaid Hin. split_and!; [by rewrite sort_by_key_perm| |by rewrite sort_by_key_perm|done].
  apply sort_by_key_sorted.
Qed.

Lemma NoDup_fresh evidence blocks :
  NoDup (evidence_blocks evidence) -> NoDup blocks.*1 ->
  NoDup (evidence_blocks (evidence ++ (evidence_of <$> fresh_blocks evidence blocks))).
Proof.
  intros Hev Hnd. rewrite evidence_blocks_app, evidence_blocks_of. apply NoDup_app.
  split; [done|]. split.
  - intros b Hb (block & -> & [Hfresh _]%list_elem_of_filter)%list_elem_of_fmap. done.
  - unfold fresh_blocks. clear Hev. induction blocks as [|block blocks IH]; [constructor|].
    rewrite fmap_cons in Hnd. apply NoDup_cons in Hnd as [Hn Hnd]. rewrite filter_cons.
    case_decide; [|by apply IH]. rewrite fmap_cons. constructor; [|by apply IH].
    intros (other & Heq & [_ Hin]%list_elem_of_filter)%list_elem_of_fmap.
    apply Hn. rewrite Heq. by apply list_elem_of_fmap_2.
Qed.

(** The blocks of a map of amounts are machine integers. *)
Definition amounts_in_range (blocks : DepositAmountByBlock) : Prop :=
  forall number amount hash, blocks !! number = Some (amount, hash) -> in_uint 128 amount.

(** What a successful merge gives, in terms of the fresh blocks. *)
Lemma merged_claim_evidence_run claim paid blocks acc :
  parse_amount (EscrowClaim.paid_amount claim) = Ok paid ->
  NoDup (evidence_blocks (EscrowClaim.payment_evidence claim)) ->
  merged_claim_evidence_for_session claim (Some blocks) = Ok acc ->
  let evidence := EscrowClaim.payment_evidence claim in
  let fresh := fresh_blocks evidence (btree_iter blocks) in
  Merge.evidence acc = sort_by_key PaymentEvidenceBlock.block_number
    (evidence ++ (evidence_of <$> fresh))
  /\ Merge.total_paid acc = (paid + deposited fresh)%N
  /\ Merge.incremental_payment acc = deposited fresh
  /\ (in_uint 128 paid -> in_uint 128 (Merge.total_paid acc))
  /\ hashes_agree evidence (btree_iter blocks).
Proof.
  intros Hparse Hnd Hmerge evidence fresh.
  unfold merged_claim_evidence_for_session in Hmerge. rewrite Hparse in Hmerge. cbn in Hmerge.
  change (result_bind FactoryError.t) with (@mbind (result FactoryError.t) _) in Hmerge.
  apply result_bind_Ok in Hmerge as (acc1 & Hloop & [= <-]). cbn.
  apply merge_blocks_Ok in Hloop as (He & Ht & Hi & Hbound & Hagree & _);
    [|apply NoDup_btree_keys|done].
  by rewrite He.
Qed.

Lemma deposited_fresh evidence blocks :
  amounts_in_range blocks ->
  evidence_total (evidence_of <$> fresh_blocks evidence (btree_iter blocks))
  = deposited (fresh_blocks evidence (btree_iter blocks)).
Proof.
  intros Hrange. apply evidence_total_of.
  intros [number [amount hash]] [_ Hb]%list_elem_of_filter.
  apply elem_of_btree_iter in Hb. by eapply Hrange.
Qed.

Lemma merged_evidence_ok claim paid blocks acc :
  parse_amount (EscrowClaim.paid_amount claim) = Ok paid ->
  evidence_ok (EscrowClaim.payment_evidence claim) paid ->
  amounts_in_range blocks ->
  merged_claim_evidence_for_session claim (Some blocks) = Ok acc ->
  evidence_ok (Merge.evidence acc) (Merge.total_paid acc).
Proof.
  intros Hparse (Hnd & _ & Hpaid & Hin) Hrange Hmerge.
  destruct (merged_claim_evidence_run _ _ _ _ Hparse Hnd Hmerge) as (-> & -> & _ & Hbound & _).
  apply evidence_ok_sort; [apply NoDup_fresh; [done|apply NoDup_btree_keys]| |by apply Hbound].
  by rewrite evidence_total_app, deposited_fresh, Hpaid.
Qed.

Lemma merged_evidence_blocks evidence blocks number :
  number ∈ evidence_blocks (sort_by_key PaymentEvidenceBlock.block_number
    (evidence ++ (evidence_of <$> fresh_blocks evidence (btree_iter blocks)))) <->
  number ∈ evidence_blocks evidence \/ is_Some ((blocks : DepositAmountByBlock) !! number).
Proof.
  rewrite sort_by_key_perm, evidence_blocks_app, evidence_blocks_of, elem_of_app.
  rewrite <-elem_of_btree_keys. unfold btree_keys, fresh_blocks.
  rewrite !list_elem_of_fmap. setoid_rewrite list_elem_of_filter.
  destruct (decide (number ∈ evidence_blocks evidence)); naive_solver.
Qed.

(** After a merge the scan agrees with the evidence everywhere. *)
Lemma merged_hashes_agree evidence blocks :
  hashes_agree evidence (btree_iter blocks) ->
  hashes_agree (sort_by_key PaymentEvidenceBlock.block_number
    (evidence ++ (evidence_of <$> fresh_blocks evidence (btree_iter blocks)))) (btree_iter blocks).
Proof.
  intros Hagree block entry Hb. rewrite sort_by_key_perm, elem_of_app.
  intros [Hin|(known & -> & [_ Hknown]%list_elem_of_filter)%list_elem_of_fmap] Heq;
    [by eapply Hagree|]. simpl in Heq.
  destruct block as [number block], known as [number' known]. simpl in *. subst number'.
  apply elem_of_btree_iter in Hb, Hknown. rewrite Hb in Hknown. injection Hknown as ->.
  apply eq_ignore_ascii_case_refl.
Qed.

(** A scan is added to the evidence of a claim exactly once.  From
    well-formed evidence whose sum is the amount paid, a successful merge gives
    well-formed evidence again, covering the old blocks and those of the scan,
    whose sum is the new total; the increment is the sum over the blocks that
    were not in evidence before; and merging the same scan into the updated
    claim succeeds and adds nothing. *)
Theorem merged_claim_evidence_correct claim paid blocks acc :
  parse_amount (EscrowClaim.paid_amount claim) = Ok paid ->
  evidence_ok (EscrowClaim.payment_evidence claim) paid ->
  amounts_in_range blocks ->
  merged_claim_evidence_for_session claim (Some blocks) = Ok acc ->
  evidence_ok (Merge.evidence acc) (Merge.total_paid acc)
  /\ (forall number, number ∈ evidence_blocks (Merge.evidence acc) <->
        number ∈ evidence_blocks (EscrowClaim.payment_evidence claim) \/ is_Some (blocks !! number))
  /\ Merge.total_paid acc = (paid + Merge.incremental_payment acc)%N
  /\ Merge.incremental_payment acc =
       deposited (fresh_blocks (EscrowClaim.payment_evidence claim) (btree_iter blocks))
  /\ (forall claim',
        EscrowClaim.payment_evidence claim' = Merge.evidence acc ->
        EscrowClaim.paid_amount claim' = amount_to_string (Merge.total_paid acc) ->
        merged_claim_evidence_for_session claim' (Some blocks) =
        Ok (Merge.mk (Merge.evidence acc) (Merge.total_paid acc) 0
              (EscrowClaim.last_scanned_block claim'))).
Proof.
  intros Hparse Hev Hrange Hmerge.
  pose proof (merged_evidence_ok _ _ _ _ Hparse Hev Hrange Hmerge) as Hok.
  destruct (merged_claim_evidence_run _ _ _ _ Hparse (proj1 Hev) Hmerge)
    as (He & Ht & Hi & _ & Hagree).
  split_and!; [apply Hok..| |by rewrite Ht, Hi|done|].
  - intros number. rewrite He. apply merged_evidence_blocks.
  - intros claim' Hev' Hpaid'. unfold merged_claim_evidence_for_session.
    rewrite Hpaid', parse_amount_to_string by apply Hok. cbn.
    rewrite Hev', merge_blocks_known; cbn; [|apply Hok|..].
    + rewrite (sort_by_key_id _ (Merge.evidence acc)); [done|apply Hok].
    + intros [number block] Hb. rewrite He. apply merged_evidence_blocks. right.
      apply elem_of_btree_iter in Hb. by eexists.
    + rewrite He. by apply merged_hashes_agree.
Qed.

(** ** The amounts of the logs *)

(** The amount and hash recorded for a claim and block. *)
Definition recorded (amounts : DepositAmountsByClaim) (claim_id : string) (block : N)
    : option (N * string) :=
  amounts !! claim_id ≫= fun blocks => blocks !! block.

Definition logs_of (logs : list BaseDepositLog.t) (claim_id : string) (block : N)
    : list BaseDepositLog.t :=
  filter (fun log => BaseDepositLog.claim_id log = claim_id
                     /\ BaseDepositLog.block_number log = block) logs.

Definition logs_total (logs : list BaseDepositLog.t) : N :=
  sum_N ((fun log => amount_value (BaseDepositLog.amount log)) <$> logs).

(** Fold the logs of one claim and block into what is recorded already. *)
Definition record_logs (before : option (N * string)) (logs : list BaseDepositLog.t)
    : option (N * string) :=
  match before, logs with
  | Some (amount, hash), _ => Some ((amount + logs_total logs)%N, hash)
  | None, [] => None
  | None, first :: _ => Some (logs_total logs, BaseDepositLog.block_hash first)
  end.

Lemma add_deposit_log_Ok amounts log amounts' :
  add_deposit_log amounts log = Ok amounts' ->
  is_ok (parse_amount (BaseDepositLog.amount log)) = true
  /\ (forall claim_id block,
        recorded amounts' claim_id block =
        record_logs (recorded amounts claim_id block) (logs_of [log] claim_id block))
  /\ (forall claim_id block amount hash,
        recorded amounts' claim_id block = Some (amount, hash) ->
        recorded amounts claim_id block = Some (amount, hash) \/ in_uint 128 amount).
Proof.
  unfold add_deposit_log. rewrite result_bind_Ok. intros (amount & Hamount & H).
  rewrite err_if_seq_Ok, negb_false_iff in H. destruct H as [Hhash H].
  rewrite result_bind_Ok in H. destruct H as (total & Htotal & [= <-]).
  rewrite ok_or_Ok, checked_add_Some in Htotal. destruct Htotal as [-> Hbound].
  assert (Hvalue : amount_value (BaseDepositLog.amount log) = amount)
    by (unfold amount_value; by rewrite Hamount).
  split; [by rewrite Hamount|].
  assert (Hcases : forall claim_id block,
    BaseDepositLog.claim_id log = claim_id /\ BaseDepositLog.block_number log = block
    \/ ~ (BaseDepositLog.claim_id log = claim_id /\ BaseDepositLog.block_number log = block))
    by (intros c b; destruct (decide (BaseDepositLog.claim_id log = c)),
          (decide (BaseDepositLog.block_number log = b)); tauto).
  set (blocks := default ∅ (amounts !! BaseDepositLog.claim_id log)) in *.
  assert (Hrec : forall block, recorded amounts (BaseDepositLog.claim_id log) block = blocks !! block).
  { intros block. unfold recorded, blocks.
    destruct (amounts !! BaseDepositLog.claim_id log); simpl; [done|]. by rewrite lookup_empty. }
  assert (Hother : forall claim_id block,
    ~ (BaseDepositLog.claim_id log = claim_id /\ BaseDepositLog.block_number log = block) ->
    recorded (<[BaseDepositLog.claim_id log := <[BaseDepositLog.block_number log :=
      ((default (0%N, BaseDepositLog.block_hash log)
        (blocks !! BaseDepositLog.block_number log)).1 + amount,
       (default (0, BaseDepositLog.block_hash log)
        (blocks !! BaseDepositLog.block_number log)).2)%N]> blocks]> amounts) claim_id block
    = recorded amounts claim_id block).
  { intros c b Hne. destruct (decide (c = BaseDepositLog.claim_id log)) as [->|Hc].
    - rewrite Hrec. unfold recorded. rewrite lookup_insert_eq. simpl.
      rewrite lookup_insert_ne; [done|]. intros Heq. by apply Hne.
    - unfold recorded. by rewrite lookup_insert_ne. }
  split.
  - intros c b. destruct (Hcases c b) as [[<- <-]|Hne].
    + unfold logs_of. rewrite filter_cons, decide_True, filter_nil by done. rewrite Hrec.
      unfold recorded. rewrite lookup_insert_eq. simpl. rewrite lookup_insert_eq.
      destruct (blocks !! BaseDepositLog.block_number log) as [[a h]|]; cbn; f_equal;
        unfold logs_total; cbn; by rewrite Hvalue, ?N.add_0_r.
    + rewrite Hother by done. unfold logs_of. rewrite filter_cons, decide_False, filter_nil by done.
      destruct (recorded amounts c b) as [[a h]|]; cbn; [by rewrite N.add_0_r|done].
  - intros c b a h. destruct (Hcases c b) as [[<- <-]|Hne]; [|rewrite Hother by done; by left].
    unfold recorded at 1. rewrite lookup_insert_eq. simpl. rewrite lookup_insert_eq.
    intros [= <- _]. by right.
Qed.

Lemma logs_total_app logs more : logs_total (logs ++ more) = (logs_total logs + logs_total more)%N.
Proof. unfold logs_total. by rewrite fmap_app, sum_N_app. Qed.

Lemma record_logs_app before logs more :
  record_logs (record_logs before logs) more = record_logs before (logs ++ more).
Proof.
  destruct before as [[a h]|]; simpl.
  - by rewrite logs_total_app, N.add_assoc.
  - destruct logs as [|log logs]; [done|].
    change ((log :: logs) ++ more) with (log :: (logs ++ more)). cbn [record_logs].
    by rewrite <-logs_total_app.
Qed.

Lemma add_deposit_logs_Ok logs amounts amounts' :
  add_deposit_logs amounts logs = Ok amounts' ->
  Forall (fun log => is_ok (parse_amount (BaseDepositLog.amount log)) = true) logs
  /\ (forall claim_id block,
        recorded amounts' claim_id block =
        record_logs (recorded amounts claim_id block) (logs_of logs claim_id block))
  /\ (forall claim_id block amount hash,
        recorded amounts' claim_id block = Some (amount, hash) ->
        recorded amounts claim_id block = Some (amount, hash) \/ in_uint 128 amount).
Proof.
  revert amounts. induction logs as [|log logs IH]; intros amounts; cbn [add_deposit_logs].
  - intros [= <-]. split; [constructor|]. split; [|by left].
    intros c b. destruct (recorded amounts c b) as [[a h]|]; cbn; [by rewrite N.add_0_r|done].
  - rewrite result_bind_Ok. intros (amounts1 & Hstep & Hrest).
    apply add_deposit_log_Ok in Hstep as (Hparse & Hrec & Hin).
    apply IH in Hrest as (Hparses & Hrecs & Hins). split; [by constructor|]. split.
    + intros c b. rewrite Hrecs, Hrec, record_logs_app. f_equal.
      unfold logs_of. by rewrite <-filter_app.
    + intros c b a h [H|H]%Hins; [|by right]. by apply Hin in H.
Qed.

Lemma amounts_by_claim_ranges logs amounts :
  amounts_by_claim logs = Ok amounts ->
  forall claim_id blocks, amounts !! claim_id = Some blocks -> amounts_in_range blocks.
Proof.
  intros H. apply add_deposit_logs_Ok in H as (_ & _ & Hin).
  intros c blocks Hblocks number amount hash Hb.
  destruct (Hin c number amount hash) as [Hno|]; [| |done].
  - unfold recorded. by rewrite Hblocks.
  - unfold recorded in Hno. by rewrite lookup_empty in Hno.
Qed.

(** [amounts_by_claim] loses no deposit and counts none twice: when it
    succeeds every log has an amount, a claim has an entry for a block exactly
    when there are logs of that claim in that block, and the entry is the sum
    of their amounts, which fits 128 bits. *)
Theorem amounts_by_claim_correct logs amounts :
  amounts_by_claim logs = Ok amounts ->
  Forall (fun log => is_ok (parse_amount (BaseDepositLog.amount log)) = true) logs
  /\ (forall claim_id block,
        fst <$> recorded amounts claim_id block =
        if decide (logs_of logs claim_id block = []) then None
        else Some (logs_total (logs_of logs claim_id block)))
  /\ (forall claim_id blocks, amounts !! claim_id = Some blocks -> amounts_in_range blocks).
Proof.
  intros H. pose proof (amounts_by_claim_ranges _ _ H) as Hrange.
  apply add_deposit_logs_Ok in H as (Hparse & Hrec & _). split; [done|]. split; [|done].
  intros c b. rewrite Hrec. unfold recorded. rewrite lookup_empty. simpl.
  by destruct (logs_of logs c b).
Qed.

(** ** The scan window *)

Lemma min_block_None blocks : min_block blocks = None <-> blocks = [].
Proof. destruct blocks as [|b l]; simpl; [done|]. destruct (min_block l); done. Qed.

Lemma min_block_Some blocks least :
  min_block blocks = Some least -> least ∈ blocks /\ forall block, block ∈ blocks -> (least <= block)%N.
Proof.
  revert least. induction blocks as [|b l IH]; intros least; [done|].
  change (min_block (b :: l)) with
    (Some (match min_block l with Some least => N.min b least | None => b end)).
  destruct (min_block l) as [m|] eqn:Hm; intros [= <-].
  - destruct (IH m eq_refl) as [Hin Hle]. split.
    + destruct (N.min_spec b m) as [[_ ->]|[_ ->]]; set_solver.
    + intros x [->|Hx]%elem_of_cons; [lia|]. specialize (Hle x Hx). lia.
  - apply min_block_None in Hm as ->. split; [set_solver|].
    intros x ->%list_elem_of_singleton. done.
Qed.

Lemma next_block_le block : (next_block block <= block + 1)%N.
Proof. unfold next_block, saturating_add. lia. Qed.

(** The scan window is safe and complete: it is not empty, at most
    [BASE_LOG_WINDOW_LIMIT] blocks long, ends at a block with the configured
    number of confirmations, asks for the claims of exactly the sessions that
    await payment, and starts no later than the block after the last one
    scanned for any of them, so that no block is skipped.  There is no plan
    only if no session awaits payment, confirmations are configured to 0 or the
    chain is too short. *)
Theorem next_payment_scan_plan_correct latest_block state :
  in_uint 64 latest_block ->
  let active session := (exists session_id,
    FactoryState.sessions state !! session_id = Some session)
    /\ session_needs_payment_poll session = true in
  match next_payment_scan_plan latest_block state with
  | Some plan =>
      (PaymentScanPlan.from_block plan <= PaymentScanPlan.to_block plan)%N
      /\ (PaymentScanPlan.to_block plan < PaymentScanPlan.from_block plan + BASE_LOG_WINDOW_LIMIT)%N
      /\ (PaymentScanPlan.to_block plan + FactoryState.evm_confirmation_depth state
          <= latest_block + 1)%N
      /\ (forall session block, active session ->
            SpawnSession.last_scanned_block session = Some block ->
            (PaymentScanPlan.from_block plan <= block + 1)%N)
      /\ (forall claim_id, claim_id ∈ PaymentScanPlan.claim_ids plan <->
            exists session, active session /\ SpawnSession.claim_id session = claim_id)
  | None =>
      (forall session, ~ active session)
      \/ FactoryState.evm_confirmation_depth state = 0%N
      \/ (latest_block + 1 < FactoryState.evm_confirmation_depth state)%N
  end.
Proof.
  intros Hlatest active. unfold next_payment_scan_plan.
  set (sessions := filter (fun session => session_needs_payment_poll session = true)
    (btree_values (FactoryState.sessions state))).
  assert (Hactive : forall session, session ∈ sessions <-> active session).
  { intros session. unfold sessions, active. rewrite list_elem_of_filter, elem_of_btree_values. tauto. }
  destruct (decide (sessions = [])) as [Hnone|Hsome].
  { left. intros session Hs%Hactive. rewrite Hnone in Hs. by apply not_elem_of_nil in Hs. }
  destruct (N.eqb_spec (FactoryState.evm_confirmation_depth state) 0) as [|Hdepth]; [auto|].
  unfold saturating_sub. set (depth := FactoryState.evm_confirmation_depth state) in *.
  destruct (N.ltb_spec latest_block (depth - 1)) as [Hshort|Hlong]; [right; right; lia|].
  cbv zeta. cbn [PaymentScanPlan.from_block PaymentScanPlan.to_block PaymentScanPlan.claim_ids].
  set (cursors := omap _ sessions).
  set (start := match min_block cursors with Some block => block | None => _ end).
  assert (Hsat : forall a, (saturating_add 64 a (BASE_LOG_WINDOW_LIMIT - 1)
    <= a + (BASE_LOG_WINDOW_LIMIT - 1))%N) by (intros; unfold saturating_add; lia).
  assert (Hsat' : forall a, (a <= saturating_add 64 a (BASE_LOG_WINDOW_LIMIT - 1))%N
    \/ (max_uint 64 < a)%N) by (intros; unfold saturating_add; lia).
  split_and!.
  - specialize (Hsat' (N.min start (latest_block - (depth - 1)))).
    unfold in_uint in Hlatest. generalize dependent (max_uint 64). intros. lia.
  - specialize (Hsat (N.min start (latest_block - (depth - 1)))).
    unfold BASE_LOG_WINDOW_LIMIT in *. lia.
  - lia.
  - intros session block Hs Hblock. etrans; [apply N.le_min_l|].
    assert (Hc : next_block block ∈ cursors).
    { apply list_elem_of_omap. exists session. split; [by apply Hactive|]. by rewrite Hblock. }
    unfold start. destruct (min_block cursors) as [least|] eqn:Hmin.
    + apply min_block_Some in Hmin as [_ Hle]. specialize (Hle _ Hc).
      pose proof (next_block_le block). lia.
    + apply min_block_None in Hmin. rewrite Hmin in Hc. by apply not_elem_of_nil in Hc.
  - intros claim_id. rewrite merge_sort_Permutation, elem_of_remove_dups, list_elem_of_fmap.
    split; [intros (s & -> & Hs%Hactive); eauto | intros (s & Hs%Hactive & <-); eauto].
Qed.

(** *** Witnesses *)

Definition sample_logs : list BaseDepositLog.t :=
  [BaseDepositLog.mk "0xc" "30" 7 "0xAB"; BaseDepositLog.mk "0xd" "9" 7 "0xab";
   BaseDepositLog.mk "0xc" "12" 7 "0xab"; BaseDepositLog.mk "0xc" "33" 5 "0x05"].

Definition sample_blocks : DepositAmountByBlock :=
  {[ 7%N := (42%N, "0xAB"); 5%N := (33%N, "0x05") ]}.

Lemma amounts_by_claim_correct_witness :
  match amounts_by_claim sample_logs with
  | Ok amounts => fst <$> recorded amounts "0xc" 7 = Some 42%N
  | Err _ => False
  end.
Proof.
  destruct (amounts_by_claim sample_logs) as [amounts|e] eqn:H; [|vm_compute in H; discriminate H].
  rewrite (proj1 (proj2 (amounts_by_claim_correct sample_logs amounts H)) "0xc" 7%N).
  vm_compute. reflexivity.
Defined.

Lemma merged_claim_evidence_correct_witness :
  match merged_claim_evidence_for_session (Samples.claim "0" PaymentStatus.Unpaid)
          (Some sample_blocks) with
  | Ok acc => evidence_ok (Merge.evidence acc) (Merge.total_paid acc)
      /\ Merge.total_paid acc = 75%N
  | Err _ => False
  end.
Proof.
  destruct (merged_claim_evidence_for_session (Samples.claim "0" PaymentStatus.Unpaid)
    (Some sample_blocks)) as [acc|e] eqn:H; [|vm_compute in H; discriminate H].
  destruct (merged_claim_evidence_correct (Samples.claim "0" PaymentStatus.Unpaid) 0%N
    sample_blocks acc) as (Hok & _ & Htotal & Hincr & _).
  - vm_compute. reflexivity.
  - split; [constructor|]. split; [constructor|]. split; [reflexivity|]. vm_compute. discriminate.
  - intros number amount hash Hb. unfold sample_blocks in Hb.
    apply lookup_insert_Some in Hb as [[_ [= <- _]]|[_ Hb]]; [vm_compute; discriminate|].
    apply lookup_singleton_Some in Hb as [_ [= <- _]]. vm_compute. discriminate.
  - exact H.
  - split; [exact Hok|]. vm_compute in H. injection H as <-. reflexivity.
Defined.

Lemma next_payment_scan_plan_correct_witness :
  let state := Samples.state_with
    (Samples.session SpawnSessionState.AwaitingPayment PaymentStatus.Unpaid
       <| SpawnSession.last_scanned_block := Some 100%N |>) in
  match next_payment_scan_plan 50000 state with
  | Some plan => PaymentScanPlan.from_block plan = 101%N
      /\ (PaymentScanPlan.to_block plan < PaymentScanPlan.from_block plan + 10000)%N
  | None => False
  end.
Proof.
  intros state. assert (Hin : in_uint 64 50000) by (vm_compute; discriminate).
  pose proof (next_payment_scan_plan_correct 50000 state Hin) as H. cbv zeta in H.
  destruct (next_payment_scan_plan 50000 state) as [plan|] eqn:Hplan.
  - split; [|exact (proj1 (proj2 H))]. vm_compute in Hplan. injection Hplan as <-. reflexivity.
  - vm_compute in Hplan. discriminate Hplan.
Defined.
