(* ===== verification/Escrow.v ===== *)
(** * Escrow: claims, payment reconciliation and refunds

    Models the stateful part of [backend/factory/src/escrow.rs] in its canister
    build: registering a claim, the three phases of
    [reconcile_escrow_payments] (snapshot, plan with RPC calls, guarded
    commit), the payment poll, and the validation and finalisation of a refund
    behind its command lease.

    An RPC call suspends the method, and other messages may run before it
    returns.  The RPC functions of [base_rpc.rs] are therefore computations on
    the canister ([Rpc]): besides returning a value or an error they may change
    the state.  The guards are what makes the commit safe under that: it touches
    only sessions and claims that are still as the scan found them. *)

From S2P Require Import Prelude Text SpawnProtocol Types State Samples Transitions Scheduler Retry Evidence.

Class Rpc := {
  eth_block_number : list string -> C N;
  eth_get_block_hash_by_number : list string -> N -> C string;
  eth_get_deposited_logs : list string -> string -> PaymentScanPlan.t -> C (list BaseDepositLog.t);
}.

(** ** Claims *)

Definition new_claim (payment_address : string) (session : SpawnSession.t) (now_ms : N)
    : EscrowClaim.t := {|
  EscrowClaim.session_id := SpawnSession.session_id session;
  EscrowClaim.claim_id := SpawnSession.claim_id session;
  EscrowClaim.quote_terms_hash := SpawnSession.quote_terms_hash session;
  EscrowClaim.payment_address := payment_address;
  EscrowClaim.chain := SpawnSession.chain session;
  EscrowClaim.asset := SpawnSession.asset session;
  EscrowClaim.required_gross_amount := SpawnSession.gross_amount session;
  EscrowClaim.paid_amount := "0";
  EscrowClaim.payment_status := PaymentStatus.Unpaid;
  EscrowClaim.last_scanned_block := SpawnSession.last_scanned_block session;
  EscrowClaim.payment_evidence_block_number := None;
  EscrowClaim.payment_evidence_block_hash := None;
  EscrowClaim.payment_evidence_increment := None;
  EscrowClaim.payment_evidence := [];
  EscrowClaim.refundable := false;
  EscrowClaim.refunded_at := None;
  EscrowClaim.refund_broadcast := None;
  EscrowClaim.created_at := now_ms;
  EscrowClaim.updated_at := now_ms;
|}.

Definition put_claim (session_id : string) (claim : EscrowClaim.t) : F unit :=
  modify (fun state => state <| FactoryState.escrow_claims ::= <[session_id := claim]> |>).

Definition register_escrow_claim (session : SpawnSession.t) (now_ms : N) : C EscrowClaim.t :=
  write_state (
    payment_address ← gets FactoryState.payment_address;
    let claim := new_claim payment_address session now_ms in
    put_claim (SpawnSession.session_id session) claim;;
    mret claim).

Definition claim_of (session_id : string) (state : FactoryState.t)
    : result FactoryError.t EscrowClaim.t :=
  ok_or (FactoryState.escrow_claims state !! session_id)
    (FactoryError.EscrowClaimNotFound session_id).

Definition get_escrow_claim (session_id : string) : C EscrowClaim.t :=
  read_state (claim_of session_id).

Definition get_claim (session_id : string) : F EscrowClaim.t := fun state =>
  lift (claim_of session_id state) state.

(** ** The guard of a planned update *)

Module EscrowPaymentScanGuard.
Record t := mk {
  session_id : string;
  session_state : SpawnSessionState.t;
  session_payment_status : PaymentStatus.t;
  session_updated_at : N;
  session_last_scanned_block : option N;
  session_expires_at : N;
  claim_payment_status : PaymentStatus.t;
  claim_updated_at : N;
  claim_last_scanned_block : option N;
  claim_paid_amount : string;
  claim_payment_evidence_block_number : option N;
  claim_payment_evidence_block_hash : option string;
}.
#[global] Instance eq_dec : EqDecision t.
Proof. solve_decision. Defined.
Definition new (session : SpawnSession.t) (claim : EscrowClaim.t) : t := {|
  session_id := SpawnSession.session_id session;
  session_state := SpawnSession.state session;
  session_payment_status := SpawnSession.payment_status session;
  session_updated_at := SpawnSession.updated_at session;
  session_last_scanned_block := SpawnSession.last_scanned_block session;
  session_expires_at := SpawnSession.expires_at session;
  claim_payment_status := EscrowClaim.payment_status claim;
  claim_updated_at := EscrowClaim.updated_at claim;
  claim_last_scanned_block := EscrowClaim.last_scanned_block claim;
  claim_paid_amount := EscrowClaim.paid_amount claim;
  claim_payment_evidence_block_number := EscrowClaim.payment_evidence_block_number claim;
  claim_payment_evidence_block_hash := EscrowClaim.payment_evidence_block_hash claim;
|}.
End EscrowPaymentScanGuard.

Definition stale_payment_scan_guard : string := "stale payment scan continuation".

Definition ensure_payment_scan_guard (guard : EscrowPaymentScanGuard.t) (state : FactoryState.t)
    : result FactoryError.t unit :=
  let session_id := EscrowPaymentScanGuard.session_id guard in
  session ← ok_or (FactoryState.sessions state !! session_id)
    (FactoryError.SessionNotFound session_id);
  err_if
    (bool_decide (SpawnSession.state session <> EscrowPaymentScanGuard.session_state guard)
     || bool_decide (SpawnSession.payment_status session
          <> EscrowPaymentScanGuard.session_payment_status guard)
     || bool_decide (SpawnSession.updated_at session
          <> EscrowPaymentScanGuard.session_updated_at guard)
     || bool_decide (SpawnSession.last_scanned_block session
          <> EscrowPaymentScanGuard.session_last_scanned_block guard)
     || bool_decide (SpawnSession.expires_at session
          <> EscrowPaymentScanGuard.session_expires_at guard))
    (FactoryError.InvalidStewardProof stale_payment_scan_guard);;
  claim ← claim_of session_id state;
  err_if
    (bool_decide (EscrowClaim.payment_status claim
       <> EscrowPaymentScanGuard.claim_payment_status guard)
     || bool_decide (EscrowClaim.updated_at claim
          <> EscrowPaymentScanGuard.claim_updated_at guard)
     || bool_decide (EscrowClaim.last_scanned_block claim
          <> EscrowPaymentScanGuard.claim_last_scanned_block guard)
     || bool_decide (EscrowClaim.paid_amount claim
          <> EscrowPaymentScanGuard.claim_paid_amount guard)
     || bool_decide (EscrowClaim.payment_evidence_block_number claim
          <> EscrowPaymentScanGuard.claim_payment_evidence_block_number guard)
     || bool_decide (EscrowClaim.payment_evidence_block_hash claim
          <> EscrowPaymentScanGuard.claim_payment_evidence_block_hash guard))
    (FactoryError.InvalidStewardProof stale_payment_scan_guard).

Module EscrowPaymentScanUpdate.
Record t := mk {
  session_id : string;
  guard : EscrowPaymentScanGuard.t;
  payment_status : PaymentStatus.t;
  payment_evidence : list PaymentEvidenceBlock.t;
  payment_evidence_increment : option string;
  claim_cursor : option N;
  payment_detected : bool;
  total_paid : string;
}.
End EscrowPaymentScanUpdate.

(** ** Reconciliation *)

Section Reconcile.
Context `{Rpc}.

(** The loop over the evidence that asks the RPC for the canonical hashes. *)
Fixpoint check_block_hashes (endpoints : list string) (guard : EscrowPaymentScanGuard.t)
    (evidence : list PaymentEvidenceBlock.t) : C bool :=
  match evidence with
  | [] => mret true
  | proof :: rest =>
      canonical_block_hash ←
        eth_get_block_hash_by_number endpoints (PaymentEvidenceBlock.block_number proof);
      read_state (ensure_payment_scan_guard guard);;
      if eq_ignore_ascii_case canonical_block_hash (PaymentEvidenceBlock.block_hash proof)
      then check_block_hashes endpoints guard rest
      else mret false
  end.

(** The body of the planning loop for one session. *)
Definition plan_update (amounts : DepositAmountsByClaim) (payment_endpoints : list string)
    (now_ms : N) (session_snapshot : SpawnSession.t) (prior_claim : EscrowClaim.t)
    : C EscrowPaymentScanUpdate.t :=
  merged ← lift (merged_claim_evidence_for_session prior_claim
    (amounts !! SpawnSession.claim_id session_snapshot));
  required ← lift (parse_amount (SpawnSession.gross_amount session_snapshot));
  let payment_status := payment_status_for_amount (Merge.total_paid merged) required in
  let guard := EscrowPaymentScanGuard.new session_snapshot prior_claim in
  read_state (ensure_payment_scan_guard guard);;
  block_hashes_canonical ←
    (if bool_decide (payment_status = PaymentStatus.Paid)
        && bool_decide (payment_endpoints <> [])
     then check_block_hashes payment_endpoints guard (Merge.evidence merged)
     else mret true);
  let payment_status :=
    finalize_payment_status_for_escrow payment_status block_hashes_canonical in
  mret {|
    EscrowPaymentScanUpdate.session_id := SpawnSession.session_id session_snapshot;
    EscrowPaymentScanUpdate.guard := guard;
    EscrowPaymentScanUpdate.payment_status := payment_status;
    EscrowPaymentScanUpdate.payment_evidence := Merge.evidence merged;
    EscrowPaymentScanUpdate.payment_evidence_increment :=
      if (0 <? Merge.incremental_payment merged)%N
      then Some (pretty (Merge.incremental_payment merged)) else None;
    EscrowPaymentScanUpdate.claim_cursor := Merge.claim_cursor merged;
    EscrowPaymentScanUpdate.payment_detected :=
      bool_decide (SpawnSession.state session_snapshot = SpawnSessionState.AwaitingPayment)
      && bool_decide (payment_status = PaymentStatus.Paid)
      && (now_ms <=? SpawnSession.expires_at session_snapshot)%N;
    EscrowPaymentScanUpdate.total_paid := amount_to_string (Merge.total_paid merged);
  |}.

Fixpoint plan_updates (amounts : DepositAmountsByClaim) (payment_endpoints : list string)
    (now_ms : N) (snapshots : list (SpawnSession.t * EscrowClaim.t))
    : C (list EscrowPaymentScanUpdate.t) :=
  match snapshots with
  | [] => mret []
  | (session_snapshot, prior_claim) :: rest =>
      update ← plan_update amounts payment_endpoints now_ms session_snapshot prior_claim;
      updates ← plan_updates amounts payment_endpoints now_ms rest;
      mret (update :: updates)
  end.

(** The sessions to reconcile, with their claims. *)
Definition poll_snapshots (state : FactoryState.t) : list (SpawnSession.t * EscrowClaim.t) :=
  omap (fun entry : string * SpawnSession.t =>
      if session_needs_payment_poll entry.2
      then (fun claim => (entry.2, claim)) <$> FactoryState.escrow_claims state !! entry.1
      else None)
    (btree_iter (FactoryState.sessions state)).

Definition updated_claim (scan_to_block now_ms : N) (update : EscrowPaymentScanUpdate.t)
    (claim : EscrowClaim.t) : EscrowClaim.t :=
  let evidence := EscrowPaymentScanUpdate.payment_evidence update in
  claim
    <| EscrowClaim.paid_amount := EscrowPaymentScanUpdate.total_paid update |>
    <| EscrowClaim.payment_status := EscrowPaymentScanUpdate.payment_status update |>
    <| EscrowClaim.payment_evidence := evidence |>
    <| EscrowClaim.payment_evidence_block_number :=
         PaymentEvidenceBlock.block_number <$> last evidence |>
    <| EscrowClaim.payment_evidence_block_hash :=
         PaymentEvidenceBlock.block_hash <$> last evidence |>
    <| EscrowClaim.payment_evidence_increment :=
         EscrowPaymentScanUpdate.payment_evidence_increment update |>
    <| EscrowClaim.last_scanned_block :=
         Some (N.max scan_to_block (default 0%N (EscrowPaymentScanUpdate.claim_cursor update))) |>
    <| EscrowClaim.updated_at := now_ms |>.

Definition updated_session (scan_to_block now_ms : N) (update : EscrowPaymentScanUpdate.t)
    (session : SpawnSession.t) : SpawnSession.t :=
  session
    <| SpawnSession.payment_status := EscrowPaymentScanUpdate.payment_status update |>
    <| SpawnSession.last_scanned_block :=
         Some (N.max scan_to_block (default 0%N (EscrowPaymentScanUpdate.claim_cursor update))) |>
    <| SpawnSession.updated_at := now_ms |>.

(** The body of the commit loop for one update. *)
Definition commit_update (scan_to_block now_ms : N) (update : EscrowPaymentScanUpdate.t)
    : F EscrowClaim.t :=
  let session_id := EscrowPaymentScanUpdate.session_id update in
  state ← get_state;
  lift (ensure_payment_scan_guard (EscrowPaymentScanUpdate.guard update) state);;
  claim ← get_claim session_id;
  put_claim session_id (updated_claim scan_to_block now_ms update claim);;
  session ← get_session session_id;
  put_session session_id (updated_session scan_to_block now_ms update session);;
  sync_session_derived_flags_in_state session_id now_ms;;
  session ← get_session session_id;
  (if EscrowPaymentScanUpdate.payment_detected update
   then
     apply_session_event_in_state session_id SessionAuditActor.System now_ms
       SpawnSessionEvent.PaymentObserved "payment detected from Base logs";;
     modify (enqueue_spawn_execution_in_state session_id now_ms)
   else mret tt);;
  (if (SpawnSession.expires_at session <? now_ms)%N
   then
     expire_session_in_state session_id SessionAuditActor.System now_ms
       "payment scan observed expired session";;
     mret tt
   else mret tt);;
  get_claim session_id.

Fixpoint commit_updates (scan_to_block now_ms : N) (updates : list EscrowPaymentScanUpdate.t)
    : F (list EscrowClaim.t) :=
  match updates with
  | [] => mret []
  | update :: rest =>
      claim ← commit_update scan_to_block now_ms update;
      claims ← commit_updates scan_to_block now_ms rest;
      mret (claim :: claims)
  end.

Definition commit_scan (scan_to_block now_ms : N) (updates : list EscrowPaymentScanUpdate.t)
    : F (list EscrowClaim.t) :=
  modify (fun state => state <| FactoryState.payment_last_scanned_block := Some scan_to_block |>);;
  updated_claims ← commit_updates scan_to_block now_ms updates;
  modify (sync_payment_poll_job_in_state now_ms);;
  mret updated_claims.

(** The secrets of expired sessions are dropped. *)
Definition delete_expired_secrets : C unit :=
  expired_ids ← gets (fun canister =>
    (filter (fun entry => SpawnSession.state entry.2 = SpawnSessionState.Expired)
       (btree_iter (FactoryState.sessions (Canister.factory canister)))).*1);
  for_each expired_ids delete_spawn_provider_secrets.

Definition reconcile_escrow_payments (logs : list BaseDepositLog.t) (scan_to_block now_ms : N)
    : C (list EscrowClaim.t) :=
  amounts ← lift (amounts_by_claim logs);
  state ← gets Canister.factory;
  let payment_endpoints := configured_rpc_endpoints (FactoryState.base_rpc_endpoint state)
    (FactoryState.base_rpc_fallback_endpoint state) in
  planned_updates ← plan_updates amounts payment_endpoints now_ms (poll_snapshots state);
  result ← catch (write_state (commit_scan scan_to_block now_ms planned_updates));
  (if is_ok result then delete_expired_secrets else mret tt);;
  lift result.

Definition poll_escrow_payments (now_ms : N) : C (list EscrowClaim.t) :=
  state ← gets Canister.factory;
  let endpoints := configured_rpc_endpoints (FactoryState.base_rpc_endpoint state)
    (FactoryState.base_rpc_fallback_endpoint state) in
  let escrow_contract_address := FactoryState.escrow_contract_address state in
  if decide (endpoints = []) then mret []
  else if is_empty escrow_contract_address then mret []
  else
    latest_block ← eth_block_number endpoints;
    plan ← gets (fun canister => next_payment_scan_plan latest_block (Canister.factory canister));
    match plan with
    | None => mret []
    | Some plan =>
        logs ← eth_get_deposited_logs endpoints escrow_contract_address plan;
        reconcile_escrow_payments logs (PaymentScanPlan.to_block plan) now_ms
    end.
End Reconcile.

(** ** Refunds *)

Definition validate_escrow_refund_in_state (session_id : string) (now_ms : N)
    (state : FactoryState.t) : result FactoryError.t (option RefundSpawnResponse.t) :=
  session ← ok_or (FactoryState.sessions state !! session_id)
    (FactoryError.SessionNotFound session_id);
  claim ← claim_of session_id state;
  if bool_decide (SpawnSession.payment_status session = PaymentStatus.Refunded)
  then Ok (Some (RefundSpawnResponse.mk session_id (SpawnSession.state session)
         PaymentStatus.Refunded (default now_ms (EscrowClaim.refunded_at claim))
         (EscrowClaim.refund_broadcast claim ≫= ReleaseBroadcastRecord.rpc_tx_hash)))
  else if bool_decide
      (SpawnSession.state session ∉ [SpawnSessionState.Expired; SpawnSessionState.Failed])
    || negb (SpawnSession.refundable session) || negb (EscrowClaim.refundable claim)
  then Err (FactoryError.SessionNotRefundable session_id (SpawnSession.state session)
              (SpawnSession.payment_status session))
  else Ok None.

Definition persist_refund_broadcast_record (session_id : string)
    (record : ReleaseBroadcastRecord.t) : F unit :=
  modify (fun state => state <| FactoryState.escrow_claims ::=
    alter (set EscrowClaim.refund_broadcast (fun _ => Some record)) session_id |>).

(** [write_refund_guarded]: with a generation, the lease of the session must
    still be the one of that generation. *)
Definition write_refund_guarded {A} (session_id : string) (generation : option N)
    (mutation : F A) : C A :=
  write_state (
    state ← get_state;
    match generation with
    | Some generation =>
        fail_if (is_none_or (fun lease =>
            negb (RefundCommandLease.generation lease =? generation)%N)
          (FactoryState.steward_refund_leases state !! session_id))
          (FactoryError.InvalidStewardProof "stale refund command continuation")
    | None => mret tt
    end;;
    mutation).

Definition ensure_refund_generation (session_id : string) (generation : N) : C unit :=
  read_state (fun state =>
    if is_some_and (fun lease => (RefundCommandLease.generation lease =? generation)%N)
         (FactoryState.steward_refund_leases state !! session_id)
    then Ok tt
    else Err (FactoryError.InvalidStewardProof "stale refund command continuation")).

Definition clear_runtime_keys (now_ms : N) (runtime : AutomatonRuntimeState.t)
    : AutomatonRuntimeState.t :=
  runtime
    <| AutomatonRuntimeState.controller_handoff_completed_at ::= fun completed =>
         match completed with None => Some now_ms | some => some end |>
    <| AutomatonRuntimeState.provider_keys_cleared := true |>.

Definition refunded_session (now_ms : N) (session : SpawnSession.t) : SpawnSession.t :=
  session <| SpawnSession.payment_status := PaymentStatus.Refunded |>
          <| SpawnSession.updated_at := now_ms |>.

Definition refunded_claim (now_ms : N) (claim : EscrowClaim.t) : EscrowClaim.t :=
  claim <| EscrowClaim.payment_status := PaymentStatus.Refunded |>
        <| EscrowClaim.refunded_at := Some now_ms |>
        <| EscrowClaim.updated_at := now_ms |>.

Definition finalize_escrow_refund_in_state (session_id : string) (now_ms : N)
    (refund_tx_hash : string) : F RefundSpawnResponse.t :=
  state ← get_state;
  validated ← lift (validate_escrow_refund_in_state session_id now_ms state);
  match validated with
  | Some response => mret response
  | None =>
      session ← expect (FactoryState.sessions state !! session_id);
      match SpawnSession.automaton_canister_id session with
      | Some canister_id =>
          runtime ← lift (ok_or (FactoryState.runtimes state !! canister_id)
            (FactoryError.AutomatonRuntimeNotFound canister_id));
          modify (fun state => state <| FactoryState.runtimes ::=
            <[canister_id := clear_runtime_keys now_ms runtime]> |>)
      | None => mret tt
      end;;
      put_session session_id (refunded_session now_ms session);;
      claim ← expect (FactoryState.escrow_claims state !! session_id);
      put_claim session_id (refunded_claim now_ms claim);;
      sync_session_derived_flags_in_state session_id now_ms;;
      modify (record_session_audit session_id (Some (SpawnSession.state session))
        (SpawnSession.state session) SessionAuditActor.User now_ms
        "refund transaction confirmed on-chain");;
      mret (RefundSpawnResponse.mk session_id (SpawnSession.state session)
        PaymentStatus.Refunded now_ms (Some refund_tx_hash))
  end.

(** ** The payment invariant

    Sessions are stored under their id; the evidence of every claim is well
    formed and adds up to its paid amount; and a session marked [Paid] has been
    paid its gross amount by the evidence of its claim. *)

Definition claim_paid (claim : EscrowClaim.t) (total : N) : Prop :=
  parse_amount (EscrowClaim.paid_amount claim) = Ok total
  /\ evidence_ok (EscrowClaim.payment_evidence claim) total.

Definition paid_in_full (state : FactoryState.t) (session_id : string) (session : SpawnSession.t)
    : Prop :=
  SpawnSession.payment_status session = PaymentStatus.Paid ->
  exists claim total required,
    FactoryState.escrow_claims state !! session_id = Some claim
    /\ claim_paid claim total
    /\ parse_amount (SpawnSession.gross_amount session) = Ok required
    /\ (required <= total)%N.

Definition payment_inv (state : FactoryState.t) : Prop :=
  (forall session_id session, FactoryState.sessions state !! session_id = Some session ->
     SpawnSession.session_id session = session_id /\ paid_in_full state session_id session)
  /\ (forall session_id claim, FactoryState.escrow_claims state !! session_id = Some claim ->
        exists total, claim_paid claim total).

(** What a message that runs during an RPC call may do: it keeps the invariants
    and the quotes of the stored sessions. *)
Definition quotes_kept (before after : FactoryState.t) : Prop :=
  forall session_id session, FactoryState.sessions before !! session_id = Some session ->
    exists session', FactoryState.sessions after !! session_id = Some session'
      /\ SpawnSession.gross_amount session' = SpawnSession.gross_amount session.

Definition escrow_inv (state : FactoryState.t) : Prop :=
  sessions_inv state /\ payment_inv state.

Abbreviation tame :=
  (stable (fun canister => escrow_inv (Canister.factory canister))
     (fun before after => quotes_kept (Canister.factory before) (Canister.factory after))).

Class RpcOk (rpc : Rpc) : Prop := {
  tame_block_number : forall endpoints, tame (eth_block_number endpoints);
  tame_block_hash : forall endpoints block, tame (eth_get_block_hash_by_number endpoints block);
  tame_deposited_logs : forall endpoints escrow plan,
    tame (eth_get_deposited_logs endpoints escrow plan);
}.

#[export] Instance quotes_kept_refl : Reflexive quotes_kept.
Proof. intros state session_id session H. eauto. Qed.

#[export] Instance quotes_kept_trans : Transitive quotes_kept.
Proof.
  intros s1 s2 s3 H12 H23 session_id session H.
  destruct (H12 _ _ H) as (session' & Hs' & Hg'). destruct (H23 _ _ Hs') as (session'' & Hs'' & Hg'').
  exists session''. split; [done|]. congruence.
Qed.

#[export] Instance quotes_kept_preorder : PreOrder quotes_kept.
Proof. split; apply _. Qed.

#[export] Hint Resolve tame_block_number tame_block_hash tame_deposited_logs : stable.

Lemma tame_read_state {A} (f : FactoryState.t -> result FactoryError.t A) : tame (read_state f).
Proof.
  apply stable_same; [apply _|]. intros c c'. unfold read_state, lift.
  destruct (f _); intros [= <-]; done.
Qed.
#[export] Hint Resolve tame_read_state : stable.

(** *** What the invariants look at *)

(** The payment-relevant fields of sessions and claims are the same. *)
Definition pay_frame (before after : FactoryState.t) : Prop :=
  (forall session_id session', FactoryState.sessions after !! session_id = Some session' ->
     exists session, FactoryState.sessions before !! session_id = Some session
       /\ SpawnSession.session_id session' = SpawnSession.session_id session
       /\ SpawnSession.payment_status session' = SpawnSession.payment_status session
       /\ SpawnSession.gross_amount session' = SpawnSession.gross_amount session)
  /\ (forall session_id, option_Forall2 (fun claim claim' =>
        EscrowClaim.paid_amount claim' = EscrowClaim.paid_amount claim
        /\ EscrowClaim.payment_evidence claim' = EscrowClaim.payment_evidence claim)
        (FactoryState.escrow_claims before !! session_id)
        (FactoryState.escrow_claims after !! session_id)).

Lemma payment_inv_frame before after :
  pay_frame before after -> payment_inv before -> payment_inv after.
Proof.
  intros [Hsessions Hclaims] [Hs Hc]. split.
  - intros session_id session' Hfound.
    destruct (Hsessions _ _ Hfound) as (session & Hb & Hid & Hstatus & Hgross).
    destruct (Hs _ _ Hb) as [Hkey Hpaid]. split; [congruence|].
    unfold paid_in_full. rewrite Hstatus, Hgross. intros Hp.
    destruct (Hpaid Hp) as (claim & total & required & Hclaim & [Hparse Hev] & Hreq & Hle).
    pose proof (Hclaims session_id) as Hrel. rewrite Hclaim in Hrel.
    inversion Hrel as [? claim' [Hamount Hevidence]|]; subst.
    exists claim', total, required. unfold claim_paid. by rewrite Hamount, Hevidence.
  - intros session_id claim' Hfound. pose proof (Hclaims session_id) as Hrel.
    rewrite Hfound in Hrel. inversion Hrel as [claim ? [Hamount Hevidence] Hclaim|]; subst.
    unfold claim_paid. rewrite Hamount, Hevidence. by apply (Hc session_id).
Qed.

Abbreviation keeps := (stable escrow_inv quotes_kept).

Lemma moved_state_pay_frame session_id actor now_ms reason from to_state reset session state :
  FactoryState.sessions state !! session_id = Some session ->
  let session' := moved_session to_state reset now_ms state session in
  let state' := moved_state session_id actor now_ms reason from to_state session' state in
  pay_frame state state' /\ quotes_kept state state'.
Proof.
  intros Hs session' state'.
  assert (Hsame : SpawnSession.session_id session' = SpawnSession.session_id session
    /\ SpawnSession.payment_status session' = SpawnSession.payment_status session
    /\ SpawnSession.gross_amount session' = SpawnSession.gross_amount session).
  { unfold session', moved_session, move_session. by destruct reset. }
  unfold state', moved_state. split; [split|].
  - intros other found. simpl_set. intros [[<- <-]|[Hne Hfound]]%lookup_insert_Some; eauto.
  - intros other. simpl_set. rewrite lookup_alter. case_decide as Hother; [subst other|].
    + destruct (FactoryState.escrow_claims state !! session_id); by constructor.
    + destruct (FactoryState.escrow_claims state !! other); by constructor.
  - intros other found Hfound. simpl_set. destruct (decide (session_id = other)) as [<-|Hne].
    + rewrite lookup_insert_eq. exists session'. split; [done|].
      rewrite Hs in Hfound. injection Hfound as <-. apply Hsame.
    + rewrite lookup_insert_ne by done. eauto.
Qed.

Lemma keeps_apply_session_event session_id actor now_ms event reason :
  keeps (apply_session_event_in_state session_id actor now_ms event reason).
Proof.
  intros state state' Hfinal [Hsessions Hpay].
  destruct (preserves_apply_session_event _ _ _ _ _ _ _ Hfinal Hsessions) as [Hsessions' _].
  revert Hfinal. destruct (FactoryState.sessions state !! session_id) as [session|] eqn:Hs.
  - rewrite (apply_session_event_run _ _ _ _ _ _ _ Hs).
    destruct (event_outcome _ _ _ _ _) as [[[[from to_state] reset]|]|e];
      intros [= <-]; [|by split..].
    edestruct moved_state_pay_frame as [Hframe Hquotes]; [exact Hs|].
    split; [split; [exact Hsessions'|]|exact Hquotes]. by eapply payment_inv_frame.
  - rewrite (apply_session_event_missing _ _ _ _ _ _ Hs). intros [= <-]. by split.
Qed.

(** Updates of the other parts of the state. *)
Lemma keeps_frame (f : FactoryState.t -> FactoryState.t) :
  (forall state, FactoryState.sessions (f state) = FactoryState.sessions state) ->
  (forall state, FactoryState.escrow_claims (f state) = FactoryState.escrow_claims state) ->
  (forall state, FactoryState.audit_log (f state) = FactoryState.audit_log state) ->
  keeps (modify f : F unit).
Proof.
  intros Hs Hc Ha. apply stable_modify. intros state [Hsessions Hpay]. split.
  - split; [by apply (sessions_inv_frame state)|]. eapply payment_inv_frame; [|done]. split.
    + intros session_id session. rewrite Hs. eauto.
    + intros session_id. rewrite Hc. destruct (_ !! _); by constructor.
  - intros session_id session. rewrite Hs. eauto.
Qed.

Lemma sync_poll_frame now_ms state :
  exists jobs, sync_payment_poll_job_in_state now_ms state =
    set FactoryState.scheduler_jobs jobs state.
Proof.
  unfold sync_payment_poll_job_in_state. destruct (negb _); by eexists.
Qed.

Lemma keeps_sync_poll now_ms : keeps (modify (sync_payment_poll_job_in_state now_ms) : F unit).
Proof. apply keeps_frame; intros state; by destruct (sync_poll_frame now_ms state) as [? ->]. Qed.

Lemma keeps_enqueue session_id now_ms :
  keeps (modify (enqueue_spawn_execution_in_state session_id now_ms) : F unit).
Proof. by apply keeps_frame. Qed.

Lemma keeps_set_cursor scan_to_block :
  keeps (modify (fun state =>
    state <| FactoryState.payment_last_scanned_block := Some scan_to_block |>) : F unit).
Proof. by apply keeps_frame. Qed.

Lemma keeps_get_claim session_id : keeps (get_claim session_id).
Proof.
  apply stable_same; [apply _|]. intros s s'. unfold get_claim, lift.
  destruct (claim_of _ _); intros [= <-]; done.
Qed.

Lemma keeps_get_session session_id : keeps (get_session session_id).
Proof.
  apply stable_same; [apply _|]. intros s s'. unfold get_session, lift.
  destruct (ok_or _ _); intros [= <-]; done.
Qed.

#[export] Hint Resolve keeps_apply_session_event keeps_sync_poll keeps_enqueue keeps_set_cursor
  keeps_get_claim keeps_get_session : stable.

(** *** The commit of a planned update *)

(** A planned update is justified in a state: its total is the sum of its
    evidence, and it says [Paid] only if that covers the session's gross
    amount. *)
Definition update_ok (state : FactoryState.t) (update : EscrowPaymentScanUpdate.t) : Prop :=
  exists total session,
    parse_amount (EscrowPaymentScanUpdate.total_paid update) = Ok total
    /\ evidence_ok (EscrowPaymentScanUpdate.payment_evidence update) total
    /\ FactoryState.sessions state !! EscrowPaymentScanUpdate.session_id update = Some session
    /\ (EscrowPaymentScanUpdate.payment_status update = PaymentStatus.Paid ->
        exists required, parse_amount (SpawnSession.gross_amount session) = Ok required
          /\ (required <= total)%N).

Lemma update_ok_kept before after update :
  quotes_kept before after -> update_ok before update -> update_ok after update.
Proof.
  intros Hq (total & session & Hparse & Hev & Hs & Hpaid).
  destruct (Hq _ _ Hs) as (session' & Hs' & Hgross).
  exists total, session'. rewrite Hgross. done.
Qed.

(** The state after the writes of a commit, before any event. *)
Definition committed_session (scan_to_block now_ms : N) (update : EscrowPaymentScanUpdate.t)
    (session : SpawnSession.t) : SpawnSession.t :=
  with_derived_flags now_ms (updated_session scan_to_block now_ms update session).

Definition committed_state (scan_to_block now_ms : N) (update : EscrowPaymentScanUpdate.t)
    (session : SpawnSession.t) (claim : EscrowClaim.t) (state : FactoryState.t) : FactoryState.t :=
  let session_id := EscrowPaymentScanUpdate.session_id update in
  let session' := committed_session scan_to_block now_ms update session in
  state
    <| FactoryState.escrow_claims ::= <[session_id := sync_claim (SpawnSession.refundable session')
         now_ms (updated_claim scan_to_block now_ms update claim)]> |>
    <| FactoryState.sessions ::= <[session_id := session']> |>.

Lemma put_and_sync_run scan_to_block now_ms update session claim state :
  let session_id := EscrowPaymentScanUpdate.session_id update in
  sync_session_derived_flags_in_state session_id now_ms
    (state
      <| FactoryState.escrow_claims ::=
           <[session_id := updated_claim scan_to_block now_ms update claim]> |>
      <| FactoryState.sessions ::=
           <[session_id := updated_session scan_to_block now_ms update session]> |>)
  = Done (committed_session scan_to_block now_ms update session)
      (committed_state scan_to_block now_ms update session claim state).
Proof.
  intros session_id. erewrite sync_session_derived_flags_run by apply lookup_insert_eq.
  unfold committed_state, committed_session. f_equal. fold session_id.
  change (?a <| FactoryState.sessions ::= ?f |> <| FactoryState.sessions ::= ?g |>
            <| FactoryState.escrow_claims ::= ?h |>)
    with (a <| FactoryState.escrow_claims ::= h |> <| FactoryState.sessions ::= fun x => g (f x) |>).
  merge_set. rewrite (set_ext FactoryState.escrow_claims _
    <[session_id := sync_claim (derive_refundable
        (updated_session scan_to_block now_ms update session)) now_ms
        (updated_claim scan_to_block now_ms update claim)]>);
    [|done|by rewrite alter_insert_eq].
  apply set_ext; [done|]. by rewrite insert_insert_eq.
Qed.

Lemma guard_ok_lookup guard state :
  ensure_payment_scan_guard guard state = Ok tt ->
  exists session claim,
    FactoryState.sessions state !! EscrowPaymentScanGuard.session_id guard = Some session
    /\ FactoryState.escrow_claims state !! EscrowPaymentScanGuard.session_id guard = Some claim
    /\ guard = EscrowPaymentScanGuard.mk (EscrowPaymentScanGuard.session_id guard)
         (SpawnSession.state session) (SpawnSession.payment_status session)
         (SpawnSession.updated_at session) (SpawnSession.last_scanned_block session)
         (SpawnSession.expires_at session) (EscrowClaim.payment_status claim)
         (EscrowClaim.updated_at claim) (EscrowClaim.last_scanned_block claim)
         (EscrowClaim.paid_amount claim) (EscrowClaim.payment_evidence_block_number claim)
         (EscrowClaim.payment_evidence_block_hash claim).
Proof.
  unfold ensure_payment_scan_guard, claim_of. cbv zeta. rewrite result_bind_Ok.
  intros (session & Hs & H). rewrite err_if_seq_Ok in H. destruct H as [Hg1 H].
  rewrite result_bind_Ok in H. destruct H as (claim & Hc & Hg2%err_if_Ok).
  apply ok_or_Ok in Hs. apply ok_or_Ok in Hc. exists session, claim. split; [done|]. split; [done|].
  decide_step. destruct guard; simpl in *. by subst.
Qed.

Lemma committed_state_inv scan_to_block now_ms update session claim state :
  escrow_inv state -> update_ok state update ->
  FactoryState.sessions state !! EscrowPaymentScanUpdate.session_id update = Some session ->
  FactoryState.escrow_claims state !! EscrowPaymentScanUpdate.session_id update = Some claim ->
  escrow_inv (committed_state scan_to_block now_ms update session claim state)
  /\ quotes_kept state (committed_state scan_to_block now_ms update session claim state).
Proof.
  intros [Hsessions [Hpay Hclaims]] (total & session0 & Hparse & Hev & Hs0 & Hpaid) Hs Hc.
  rewrite Hs in Hs0. injection Hs0 as <-.
  set (session_id := EscrowPaymentScanUpdate.session_id update) in *.
  unfold committed_state. fold session_id. cbv zeta.
  split; [split; [|split]|].
  - intros other found. simpl_set. intros [[<- <-]|[Hne Hfound]]%lookup_insert_Some.
    + destruct (Hsessions _ _ Hs) as (_ & Haudit & _). split; [|split].
      * apply with_derived_flags_consistent.
      * exact Haudit.
      * simpl_set. intros claim'. rewrite lookup_insert_eq. intros [= <-]. done.
    + destruct (Hsessions _ _ Hfound) as (? & ? & Hcl). split; [done|]. split; [done|].
      simpl_set. by rewrite lookup_insert_ne.
  - intros other found. simpl_set. intros [[<- <-]|[Hne Hfound]]%lookup_insert_Some.
    + destruct (Hpay _ _ Hs) as [Hkey _]. split; [exact Hkey|].
      intros Hstatus. destruct (Hpaid Hstatus) as (required & Hreq & Hle).
      eexists _, total, required. simpl_set. rewrite lookup_insert_eq. split; [done|].
      split; [split; [exact Hparse|exact Hev]|]. split; [exact Hreq|exact Hle].
    + destruct (Hpay _ _ Hfound) as [Hkey Hp]. split; [done|]. unfold paid_in_full. simpl_set.
      by rewrite lookup_insert_ne.
  - intros other found. simpl_set. intros [[<- <-]|[Hne Hfound]]%lookup_insert_Some;
      [|by apply (Hclaims other)]. exists total. split; [exact Hparse|exact Hev].
  - intros other found Hfound. simpl_set. destruct (decide (session_id = other)) as [<-|Hne].
    + rewrite lookup_insert_eq. eexists. split; [done|].
      rewrite Hs in Hfound. injection Hfound as <-. done.
    + rewrite lookup_insert_ne by done. eauto.
Qed.

Lemma expire_keeps session_id actor now_ms reason : keeps (expire_session_in_state session_id actor now_ms reason).
Proof. apply keeps_apply_session_event. Qed.
#[export] Hint Resolve expire_keeps : stable.

(** What a commit does when its guard holds. *)
Lemma commit_update_keeps scan_to_block now_ms update state state' :
  EscrowPaymentScanUpdate.session_id update =
    EscrowPaymentScanGuard.session_id (EscrowPaymentScanUpdate.guard update) ->
  update_ok state update ->
  final_state (commit_update scan_to_block now_ms update state) = Some state' ->
  escrow_inv state -> escrow_inv state' /\ quotes_kept state state'.
Proof.
  intros Hid Hok Hfinal Hinv. unfold commit_update in Hfinal.
  unfold mbind at 1, M_bind at 1, get_state in Hfinal.
  unfold mbind at 1, M_bind at 1, lift in Hfinal.
  destruct (ensure_payment_scan_guard _ state) as [[]|e] eqn:Hguard;
    [|by injection Hfinal as <-].
  apply guard_ok_lookup in Hguard as (session & claim & Hs & Hc & _).
  rewrite <-Hid in Hs, Hc. clear Hid.
  unfold mbind at 1, M_bind at 1, get_claim at 1, claim_of at 1 in Hfinal. rewrite Hc in Hfinal.
  cbn [ok_or lift] in Hfinal. unfold put_claim, mbind at 1, M_bind at 1, modify at 1 in Hfinal.
  unfold mbind at 1, M_bind at 1 in Hfinal.
  erewrite (get_session_Some _ session) in Hfinal by exact Hs.
  unfold put_session, mbind at 1, M_bind at 1, modify at 1 in Hfinal.
  unfold mbind at 1, M_bind at 1 in Hfinal. rewrite put_and_sync_run in Hfinal.
  destruct (committed_state_inv scan_to_block now_ms update session claim state Hinv Hok Hs Hc)
    as [Hinv1 Hq1].
  set (state1 := committed_state _ _ _ _ _ _) in *.
  match type of Hfinal with final_state (?m state1) = _ => assert (Hrest : keeps m) end.
  { apply stable_bind; [apply _|auto with stable|]. intros session1.
    apply stable_bind; [apply _| |].
    - destruct (EscrowPaymentScanUpdate.payment_detected update); [|auto with stable].
      apply stable_bind; [apply _|auto with stable|]. auto with stable.
    - intros _. apply stable_bind; [apply _| |auto with stable].
      destruct (_ <? _)%N; [|auto with stable].
      apply stable_bind; [apply _|auto with stable|]. auto with stable. }
  destruct (Hrest _ _ Hfinal Hinv1) as [Hinv' Hq']. split; [done|]. by etrans.
Qed.

Lemma commit_updates_keeps scan_to_block now_ms updates state state' :
  (forall update, update ∈ updates ->
     EscrowPaymentScanUpdate.session_id update =
       EscrowPaymentScanGuard.session_id (EscrowPaymentScanUpdate.guard update)
     /\ update_ok state update) ->
  final_state (commit_updates scan_to_block now_ms updates state) = Some state' ->
  escrow_inv state -> escrow_inv state' /\ quotes_kept state state'.
Proof.
  revert state. induction updates as [|update updates IH]; intros state Hok.
  - intros [= <-]. done.
  - cbn [commit_updates]. intros Hfinal Hinv.
    destruct (Hok update) as [Hid Hupd]; [set_solver|].
    pose proof (commit_update_keeps scan_to_block now_ms update state) as Hone.
    unfold mbind at 1, M_bind at 1 in Hfinal.
    destruct (commit_update scan_to_block now_ms update state) as [claim state1|e state1|];
      [| |discriminate].
    + destruct (Hone state1 Hid Hupd eq_refl Hinv) as [Hinv1 Hq1].
      specialize (IH state1). unfold mbind at 1, M_bind at 1 in Hfinal.
      assert (Hrest : final_state (commit_updates scan_to_block now_ms updates state1) = Some state')
        by (destruct (commit_updates _ _ _ _); exact Hfinal).
      destruct IH as [Hinv' Hq']; [|exact Hrest|exact Hinv1|].
      * intros other Hin. destruct (Hok other) as [Hid' Hupd']; [set_solver|].
        split; [done|]. by eapply update_ok_kept.
      * split; [done|]. by etrans.
    + injection Hfinal as <-. by apply (Hone state1).
Qed.

Lemma commit_scan_keeps scan_to_block now_ms updates state state' :
  (forall update, update ∈ updates ->
     EscrowPaymentScanUpdate.session_id update =
       EscrowPaymentScanGuard.session_id (EscrowPaymentScanUpdate.guard update)
     /\ update_ok state update) ->
  final_state (commit_scan scan_to_block now_ms updates state) = Some state' ->
  escrow_inv state -> escrow_inv state' /\ quotes_kept state state'.
Proof.
  intros Hok Hfinal Hinv. unfold commit_scan in Hfinal.
  set (state0 := state <| FactoryState.payment_last_scanned_block := Some scan_to_block |>) in *.
  destruct (keeps_set_cursor scan_to_block state state0 eq_refl Hinv) as [Hinv0 Hq0].
  unfold mbind at 1, M_bind at 1, modify at 1 in Hfinal. fold state0 in Hfinal.
  unfold mbind at 1, M_bind at 1 in Hfinal.
  pose proof (commit_updates_keeps scan_to_block now_ms updates state0) as Hloop.
  destruct (commit_updates scan_to_block now_ms updates state0) as [claims state1|e state1|];
    [| |discriminate].
  - destruct (Hloop state1) as [Hinv1 Hq1]; [exact Hok|done|done|].
    match type of Hfinal with final_state (?m state1) = _ => assert (Hrest : keeps m) end.
    { apply stable_bind; [apply _|auto with stable|]. auto with stable. }
    destruct (Hrest _ _ Hfinal Hinv1) as [Hinv' Hq']. split; [done|].
    etrans; [exact Hq0|]. by etrans.
  - injection Hfinal as <-. destruct (Hloop state1) as [Hinv1 Hq1]; [exact Hok|done|done|].
    split; [done|]. by etrans.
Qed.

Section ReconcileFacts.
Context `{RpcOk}.

Lemma tame_check_block_hashes endpoints guard evidence :
  tame (check_block_hashes endpoints guard evidence).
Proof.
  induction evidence as [|proof rest IH]; cbn [check_block_hashes]; [auto with stable|].
  apply stable_bind; [apply _|auto with stable|]. intros hash.
  apply stable_bind; [apply _|auto with stable|]. intros _.
  destruct (eq_ignore_ascii_case _ _); auto with stable.
Qed.

Lemma tame_plan_update amounts endpoints now_ms session claim :
  tame (plan_update amounts endpoints now_ms session claim).
Proof.
  unfold plan_update.
  apply stable_bind; [apply _|auto with stable|]. intros merged.
  apply stable_bind; [apply _|auto with stable|]. intros required. cbv zeta.
  apply stable_bind; [apply _|auto with stable|]. intros _.
  apply stable_bind; [apply _| |auto with stable].
  destruct (_ && _); [apply tame_check_block_hashes|auto with stable].
Qed.

Lemma payment_status_paid total required :
  payment_status_for_amount total required = PaymentStatus.Paid <-> (required <= total)%N.
Proof.
  unfold payment_status_for_amount. destruct (N.leb_spec required total); [done|].
  destruct (0 <? total)%N; split; (done || lia).
Qed.

Lemma merged_claim_evidence_ok claim paid blocks acc :
  claim_paid claim paid ->
  (forall found, blocks = Some found -> amounts_in_range found) ->
  merged_claim_evidence_for_session claim blocks = Ok acc ->
  evidence_ok (Merge.evidence acc) (Merge.total_paid acc).
Proof.
  intros [Hparse Hev] Hrange. destruct blocks as [blocks|].
  - apply merged_evidence_ok with paid; auto.
  - unfold merged_claim_evidence_for_session. rewrite Hparse. intros [= <-]. exact Hev.
Qed.

(** The plan made from a snapshot is justified in the snapshot's state. *)
Lemma plan_update_ok amounts endpoints now_ms session_id session claim state update c c' :
  escrow_inv state ->
  FactoryState.sessions state !! session_id = Some session ->
  FactoryState.escrow_claims state !! session_id = Some claim ->
  (forall claim_id blocks, amounts !! claim_id = Some blocks -> amounts_in_range blocks) ->
  plan_update amounts endpoints now_ms session claim c = Done update c' ->
  EscrowPaymentScanUpdate.session_id update =
    EscrowPaymentScanGuard.session_id (EscrowPaymentScanUpdate.guard update)
  /\ update_ok state update.
Proof.
  intros [_ [Hpay Hclaims]] Hs Hc Hrange Hrun. unfold plan_update in Hrun. done_inv.
  split; [done|]. destruct (Hpay _ _ Hs) as [Hkey _]. destruct (Hclaims _ _ Hc) as [paid Hpaid].
  match goal with E : merged_claim_evidence_for_session _ _ = Ok ?m |- _ =>
    pose proof (merged_claim_evidence_ok _ _ _ _ Hpaid (fun b Hb => Hrange _ b Hb) E) as Hev end.
  eexists _, session. cbn. rewrite Hkey. split; [apply parse_amount_to_string, Hev|].
  split; [exact Hev|]. split; [done|]. unfold finalize_payment_status_for_escrow.
  destruct (bool_decide _ && negb _); [intros Hno; discriminate Hno|]. intros Hstatus.
  apply payment_status_paid in Hstatus. eauto.
Qed.
End ReconcileFacts.

Lemma elem_of_poll_snapshots state session claim :
  (session, claim) ∈ poll_snapshots state ->
  exists session_id, FactoryState.sessions state !! session_id = Some session
    /\ FactoryState.escrow_claims state !! session_id = Some claim
    /\ session_needs_payment_poll session = true.
Proof.
  unfold poll_snapshots. intros ([session_id found] & Hin & Hsome)%list_elem_of_omap.
  apply elem_of_btree_iter in Hin. simpl in Hsome.
  destruct (session_needs_payment_poll found) eqn:Hneeds; [|discriminate].
  apply fmap_Some_1 in Hsome as (claim' & Hc & [= -> ->]). eauto.
Qed.

Section ReconcileInvariant.
Context `{RpcOk}.

Lemma plan_updates_ok amounts endpoints now_ms snapshots state c updates c' :
  escrow_inv state ->
  (forall session claim, (session, claim) ∈ snapshots -> exists session_id,
     FactoryState.sessions state !! session_id = Some session
     /\ FactoryState.escrow_claims state !! session_id = Some claim) ->
  (forall claim_id blocks, amounts !! claim_id = Some blocks -> amounts_in_range blocks) ->
  plan_updates amounts endpoints now_ms snapshots c = Done updates c' ->
  forall update, update ∈ updates ->
    EscrowPaymentScanUpdate.session_id update =
      EscrowPaymentScanGuard.session_id (EscrowPaymentScanUpdate.guard update)
    /\ update_ok state update.
Proof.
  intros Hinv Hsnap Hrange. revert c updates.
  induction snapshots as [|[session claim] rest IH]; intros c updates; cbn [plan_updates].
  - intros [= <- _] update []%not_elem_of_nil.
  - intros Hrun update Hin. done_inv. apply elem_of_cons in Hin as [->|Hin].
    + destruct (Hsnap session claim) as (session_id & Hs & Hc); [set_solver|].
      by eapply plan_update_ok.
    + eapply IH; [|eassumption|exact Hin]. intros s cl Hs. apply Hsnap. set_solver.
Qed.

Lemma tame_plan_updates amounts endpoints now_ms snapshots :
  tame (plan_updates amounts endpoints now_ms snapshots).
Proof.
  induction snapshots as [|[session claim] rest IH]; cbn [plan_updates]; [auto with stable|].
  apply stable_bind; [apply _|apply tame_plan_update|]. intros update.
  apply stable_bind; [apply _|exact IH|auto with stable].
Qed.

Lemma tame_secrets (f : gmap string SpawnProviderSecrets.t -> gmap string SpawnProviderSecrets.t) :
  tame (modify (fun canister => canister <| Canister.spawn_provider_secrets ::= f |>) : C unit).
Proof. apply stable_modify. intros canister Hinv. split; [exact Hinv|]. by simpl_set. Qed.

Lemma tame_delete_expired_secrets : tame delete_expired_secrets.
Proof.
  apply stable_bind; [apply _|auto with stable|]. intros ids.
  apply stable_for_each; [apply _|]. intros id _. apply tame_secrets.
Qed.

Lemma tame_reconcile logs scan_to_block now_ms :
  tame (reconcile_escrow_payments logs scan_to_block now_ms).
Proof.
  intros c c' Hfinal Hinv. unfold reconcile_escrow_payments in Hfinal.
  unfold mbind at 1, M_bind at 1, lift at 1 in Hfinal.
  destruct (amounts_by_claim logs) as [amounts|e] eqn:Hamounts; [|by injection Hfinal as <-].
  pose proof (amounts_by_claim_ranges _ _ Hamounts) as Hrange.
  unfold mbind at 1, M_bind at 1, gets in Hfinal. cbv zeta in Hfinal.
  set (endpoints := configured_rpc_endpoints _ _) in *.
  pose proof (tame_plan_updates amounts endpoints now_ms
    (poll_snapshots (Canister.factory c)) c) as Hplan.
  unfold mbind at 1, M_bind at 1 in Hfinal.
  destruct (plan_updates amounts endpoints now_ms _ c) as [updates c1|e c1|] eqn:Hrun;
    [| |discriminate].
  - destruct (Hplan c1 eq_refl Hinv) as [Hinv1 Hq1].
    assert (Hok : forall update, update ∈ updates ->
      EscrowPaymentScanUpdate.session_id update =
        EscrowPaymentScanGuard.session_id (EscrowPaymentScanUpdate.guard update)
      /\ update_ok (Canister.factory c1) update).
    { intros update Hin.
      destruct (plan_updates_ok amounts endpoints now_ms (poll_snapshots (Canister.factory c))
        (Canister.factory c) c updates c1) with update as [Hid Hupd]; try done.
      - intros s cl (id & ? & ? & _)%elem_of_poll_snapshots. eauto.
      - split; [done|]. by eapply update_ok_kept. }
    unfold mbind at 1, M_bind at 1, catch at 1, write_state, zoom in Hfinal.
    pose proof (commit_scan_keeps scan_to_block now_ms updates (Canister.factory c1)) as Hcommit.
    match type of Hfinal with context [match commit_scan ?b ?n ?u ?s with _ => _ end] =>
      destruct (commit_scan b n u s) as [claims s2|e s2|] end; [| |discriminate].
    + destruct (Hcommit s2 Hok eq_refl Hinv1) as [Hinv2 Hq2].
      match type of Hfinal with final_state (?m ?c2) = _ => assert (Hrest : tame m) end.
      { apply stable_bind; [apply _|apply tame_delete_expired_secrets|]. auto with stable. }
      destruct (Hrest _ _ Hfinal Hinv2) as [Hinv' Hq']. split; [done|].
      etrans; [exact Hq1|]. by etrans.
    + destruct (Hcommit s2 Hok eq_refl Hinv1) as [Hinv2 Hq2]. injection Hfinal as <-.
      split; [exact Hinv2|]. by etrans.
  - injection Hfinal as <-. by apply Hplan.
Qed.
End ReconcileInvariant.

(** *** What the planning leaves alone

    Planning writes nothing itself: the state changes between its start and its
    end only by what the RPC calls let happen. *)
Section Planning.
Context `{rpc : Rpc} (others : relation Canister.t) `{!PreOrder others}.
Hypothesis block_hash_within : forall endpoints block,
  stable (fun _ => True) others (eth_get_block_hash_by_number endpoints block).

Lemma guard_read_within (guard : EscrowPaymentScanGuard.t) :
  stable (fun _ => True) others (read_state (ensure_payment_scan_guard guard)).
Proof using All.
  apply stable_same; [apply _|]. intros c c'. unfold read_state, lift.
  destruct (ensure_payment_scan_guard _ _); intros [= <-]; done.
Qed.

Lemma check_block_hashes_within endpoints guard evidence :
  stable (fun _ => True) others (check_block_hashes endpoints guard evidence).
Proof using All.
  induction evidence as [|proof rest IH]; cbn [check_block_hashes]; [apply stable_ret, _|].
  apply stable_bind; [apply _|apply block_hash_within|]. intros hash.
  apply stable_bind; [apply _|apply guard_read_within|]. intros _.
  destruct (eq_ignore_ascii_case _ _); [done|apply stable_ret, _].
Qed.

Lemma plan_update_within amounts endpoints now_ms session claim :
  stable (fun _ => True) others (plan_update amounts endpoints now_ms session claim).
Proof using All.
  unfold plan_update.
  apply stable_bind; [apply _|apply stable_lift, _|]. intros merged.
  apply stable_bind; [apply _|apply stable_lift, _|]. intros required. cbv zeta.
  apply stable_bind; [apply _|apply guard_read_within|]. intros _.
  apply stable_bind; [apply _| |intros; apply stable_ret, _].
  destruct (_ && _); [apply check_block_hashes_within|apply stable_ret, _].
Qed.

Lemma plan_updates_within amounts endpoints now_ms snapshots :
  stable (fun _ => True) others (plan_updates amounts endpoints now_ms snapshots).
Proof using All.
  induction snapshots as [|[session claim] rest IH]; cbn [plan_updates]; [apply stable_ret, _|].
  apply stable_bind; [apply _|apply plan_update_within|]. intros update.
  apply stable_bind; [apply _|exact IH|]. intros updates. apply stable_ret, _.
Qed.
End Planning.

(** *** Only what is still as it was is written *)

(** The session awaited its payment when the scan began, and since then no
    field that the scan relies on has changed in it or in its claim. *)
Definition awaiting_since (before now : FactoryState.t) (session_id : string) : Prop :=
  exists session claim session' claim',
    FactoryState.sessions before !! session_id = Some session
    /\ FactoryState.escrow_claims before !! session_id = Some claim
    /\ FactoryState.sessions now !! session_id = Some session'
    /\ FactoryState.escrow_claims now !! session_id = Some claim'
    /\ (SpawnSession.state session' = SpawnSessionState.AwaitingPayment
        /\ SpawnSession.payment_status session' <> PaymentStatus.Paid
        /\ SpawnSession.payment_status session' <> PaymentStatus.Refunded)
    /\ (SpawnSession.state session' = SpawnSession.state session
        /\ SpawnSession.payment_status session' = SpawnSession.payment_status session
        /\ SpawnSession.updated_at session' = SpawnSession.updated_at session
        /\ SpawnSession.last_scanned_block session' = SpawnSession.last_scanned_block session
        /\ SpawnSession.expires_at session' = SpawnSession.expires_at session)
    /\ (EscrowClaim.payment_status claim' = EscrowClaim.payment_status claim
        /\ EscrowClaim.updated_at claim' = EscrowClaim.updated_at claim
        /\ EscrowClaim.last_scanned_block claim' = EscrowClaim.last_scanned_block claim
        /\ EscrowClaim.paid_amount claim' = EscrowClaim.paid_amount claim
        /\ EscrowClaim.payment_evidence_block_number claim'
             = EscrowClaim.payment_evidence_block_number claim
        /\ EscrowClaim.payment_evidence_block_hash claim'
             = EscrowClaim.payment_evidence_block_hash claim).

Definition same_payment (session_id : string) (before after : FactoryState.t) : Prop :=
  FactoryState.sessions after !! session_id = FactoryState.sessions before !! session_id
  /\ FactoryState.escrow_claims after !! session_id = FactoryState.escrow_claims before !! session_id.

#[export] Instance same_payment_preorder session_id : PreOrder (same_payment session_id).
Proof. split; [by split|]. intros s t u [Hs Hc] [Hs' Hc']. split; congruence. Qed.

(** A commit: from [now] to [after], with a scan begun at [before]. *)
Definition guarded_commit (before now after : FactoryState.t) : Prop :=
  forall session_id, same_payment session_id now after \/ awaiting_since before now session_id.

(** The plan was made from a session that needed it in the state. *)
Definition planned_in (state : FactoryState.t) (update : EscrowPaymentScanUpdate.t) : Prop :=
  exists session claim,
    FactoryState.sessions state !! EscrowPaymentScanUpdate.session_id update = Some session
    /\ FactoryState.escrow_claims state !! EscrowPaymentScanUpdate.session_id update = Some claim
    /\ session_needs_payment_poll session = true
    /\ EscrowPaymentScanUpdate.session_id update
         = EscrowPaymentScanGuard.session_id (EscrowPaymentScanUpdate.guard update)
    /\ EscrowPaymentScanUpdate.guard update = EscrowPaymentScanGuard.new session claim.

Lemma plan_updates_planned `{rpc : Rpc} amounts endpoints now_ms state snapshots c updates c' :
  payment_inv state ->
  (forall session claim, (session, claim) ∈ snapshots -> exists session_id,
     FactoryState.sessions state !! session_id = Some session
     /\ FactoryState.escrow_claims state !! session_id = Some claim
     /\ session_needs_payment_poll session = true) ->
  plan_updates amounts endpoints now_ms snapshots c = Done updates c' ->
  forall update, update ∈ updates -> planned_in state update.
Proof.
  intros [Hkeys _] Hsnap. revert c updates.
  induction snapshots as [|[session claim] rest IH]; intros c updates; cbn [plan_updates].
  - intros [= <- _] update []%not_elem_of_nil.
  - intros Hrun update Hin. done_inv. apply elem_of_cons in Hin as [->|Hin].
    + destruct (Hsnap session claim) as (session_id & Hs & Hc & Hneeds); [set_solver|].
      destruct (Hkeys _ _ Hs) as [<- _].
      match goal with E : plan_update _ _ _ _ _ _ = Done _ _ |- _ => unfold plan_update in E end.
      done_inv. by exists session, claim.
    + eapply IH; [|eassumption|exact Hin]. intros s cl Hs. apply Hsnap. set_solver.
Qed.

Lemma planned_guard_holds before now update :
  planned_in before update ->
  ensure_payment_scan_guard (EscrowPaymentScanUpdate.guard update) now = Ok tt ->
  awaiting_since before now (EscrowPaymentScanUpdate.session_id update).
Proof.
  intros (session & claim & Hs & Hc & Hneeds & Hid & Hguard)
    (session' & claim' & Hs' & Hc' & Hsame)%guard_ok_lookup.
  rewrite <-Hid in Hs', Hc', Hsame. rewrite Hguard in Hsame. injection Hsame as _ ? ? ? ? ? ? ? ? ? ? ?.
  exists session, claim, session', claim'. unfold session_needs_payment_poll in Hneeds.
  apply andb_true_iff in Hneeds as [Hstate%bool_decide_eq_true Hpayable].
  repeat split; try congruence;
    intros Hstatus; replace (SpawnSession.payment_status session) with
      (SpawnSession.payment_status session') in Hpayable by congruence; by rewrite Hstatus in Hpayable.
Qed.

(** What a commit of one session's update leaves of another's. *)
Section Elsewhere.
Context (session_id other : string) (Hother : other <> session_id).

Abbreviation spares := (stable (fun _ => True) (same_payment other)).

Lemma spares_frame (f : FactoryState.t -> FactoryState.t) :
  (forall state, FactoryState.sessions (f state) !! other = FactoryState.sessions state !! other) ->
  (forall state, FactoryState.escrow_claims (f state) !! other
                 = FactoryState.escrow_claims state !! other) ->
  spares (modify f : F unit).
Proof. intros Hs Hc. apply stable_modify. intros state _. by split; [|split]. Qed.

Lemma spares_get_claim id : spares (get_claim id).
Proof.
  apply stable_same; [apply _|]. intros s s'. unfold get_claim, lift.
  destruct (claim_of _ _); intros [= <-]; done.
Qed.
Lemma spares_get_session id : spares (get_session id).
Proof.
  apply stable_same; [apply _|]. intros s s'. unfold get_session, lift.
  destruct (ok_or _ _); intros [= <-]; done.
Qed.
Lemma spares_put_claim claim : spares (put_claim session_id claim).
Proof using Hother. apply spares_frame; intros state; simpl_set; by rewrite ?lookup_insert_ne. Qed.
Lemma spares_put_session session : spares (put_session session_id session).
Proof using Hother. apply spares_frame; intros state; simpl_set; by rewrite ?lookup_insert_ne. Qed.

Lemma spares_sync now_ms : spares (sync_session_derived_flags_in_state session_id now_ms).
Proof using Hother.
  unfold sync_session_derived_flags_in_state.
  apply stable_bind; [apply _|apply spares_get_session|intros session]. cbv zeta.
  apply stable_bind; [apply _|apply spares_put_session|intros _].
  apply stable_bind; [apply _| |intros _].
  { apply spares_frame; intros state; simpl_set; by rewrite ?lookup_alter_ne. }
  apply stable_bind; [apply _|apply stable_gets, _|intros stored]. apply stable_expect, _.
Qed.

Lemma spares_event actor now_ms event reason :
  spares (apply_session_event_in_state session_id actor now_ms event reason).
Proof using Hother.
  intros state state' Hfinal _. split; [done|]. revert Hfinal.
  destruct (FactoryState.sessions state !! session_id) as [session|] eqn:Hs.
  - rewrite (apply_session_event_run _ _ _ _ _ _ _ Hs).
    destruct (event_outcome _ _ _ _ _) as [[[[from to_state] reset]|]|e]; intros [= <-]; [|done..].
    unfold moved_state. split; simpl_set; by rewrite ?lookup_insert_ne, ?lookup_alter_ne.
  - rewrite (apply_session_event_missing _ _ _ _ _ _ Hs). by intros [= <-].
Qed.

Lemma commit_update_spares scan_to_block now_ms update :
  EscrowPaymentScanUpdate.session_id update = session_id ->
  spares (commit_update scan_to_block now_ms update).
Proof using Hother.
  intros Hid. unfold commit_update. rewrite Hid.
  apply stable_bind; [apply _|apply stable_get_state, _|intros state].
  apply stable_bind; [apply _|apply stable_lift, _|intros _].
  apply stable_bind; [apply _|apply spares_get_claim|intros claim].
  apply stable_bind; [apply _|apply spares_put_claim|intros _].
  apply stable_bind; [apply _|apply spares_get_session|intros session].
  apply stable_bind; [apply _|apply spares_put_session|intros _].
  apply stable_bind; [apply _|apply spares_sync|intros _].
  apply stable_bind; [apply _|apply spares_get_session|intros session'].
  apply stable_bind; [apply _| |intros _].
  { destruct (EscrowPaymentScanUpdate.payment_detected update); [|apply stable_ret, _].
    apply stable_bind; [apply _|apply spares_event|intros _]. by apply spares_frame. }
  apply stable_bind; [apply _| |intros _; apply spares_get_claim].
  destruct (_ <? _)%N; [|apply stable_ret, _].
  apply stable_bind; [apply _|apply spares_event|intros _; apply stable_ret, _].
Qed.
End Elsewhere.

(** A stale update is not committed. *)
Lemma commit_update_guarded scan_to_block now_ms update state state' :
  final_state (commit_update scan_to_block now_ms update state) = Some state' ->
  state' = state \/ ensure_payment_scan_guard (EscrowPaymentScanUpdate.guard update) state = Ok tt.
Proof.
  unfold commit_update. unfold mbind at 1, M_bind at 1, get_state.
  unfold mbind at 1, M_bind at 1, lift.
  destruct (ensure_payment_scan_guard _ state) as [[]|e]; [by right|]. intros [= <-]. by left.
Qed.

Lemma awaiting_since_same before now state session_id :
  same_payment session_id now state -> awaiting_since before state session_id ->
  awaiting_since before now session_id.
Proof. unfold awaiting_since. by intros [-> ->]. Qed.

Lemma commit_update_step scan_to_block now_ms update before now state state' :
  planned_in before update ->
  final_state (commit_update scan_to_block now_ms update state) = Some state' ->
  guarded_commit before now state -> guarded_commit before now state'.
Proof.
  intros Hplanned Hfinal Hsofar session_id.
  destruct (decide (session_id = EscrowPaymentScanUpdate.session_id update)) as [->|Hne].
  - destruct (Hsofar (EscrowPaymentScanUpdate.session_id update)) as [Hsame|]; [|by right].
    destruct (commit_update_guarded _ _ _ _ _ Hfinal) as [->|Hguard]; [by left|right].
    eapply awaiting_since_same; [exact Hsame|]. by apply planned_guard_holds.
  - destruct (Hsofar session_id) as [Hsame|]; [left|by right]. etrans; [exact Hsame|].
    by apply (commit_update_spares (EscrowPaymentScanUpdate.session_id update) session_id Hne
                scan_to_block now_ms update eq_refl state state' Hfinal).
Qed.

Lemma commit_updates_guarded scan_to_block now_ms updates before now state state' :
  (forall update, update ∈ updates -> planned_in before update) ->
  final_state (commit_updates scan_to_block now_ms updates state) = Some state' ->
  guarded_commit before now state -> guarded_commit before now state'.
Proof.
  revert state. induction updates as [|update updates IH]; intros state Hplanned.
  { by intros [= <-]. }
  cbn [commit_updates]. intros Hfinal Hsofar.
  pose proof (commit_update_step scan_to_block now_ms update before now state) as Hone.
  unfold mbind at 1, M_bind at 1 in Hfinal.
  destruct (commit_update scan_to_block now_ms update state) as [claim state1|e state1|];
    [| |discriminate].
  - apply (IH state1); [set_solver| |apply Hone; [set_solver|done|done]].
    unfold mbind at 1, M_bind at 1 in Hfinal. by destruct (commit_updates _ _ _ _).
  - injection Hfinal as <-. apply Hone; [set_solver|done|done].
Qed.

Lemma guarded_commit_frame before now state state' :
  FactoryState.sessions state' = FactoryState.sessions state ->
  FactoryState.escrow_claims state' = FactoryState.escrow_claims state ->
  guarded_commit before now state -> guarded_commit before now state'.
Proof. unfold guarded_commit, same_payment. by intros -> ->. Qed.

Lemma commit_scan_guarded scan_to_block now_ms updates before state state' :
  (forall update, update ∈ updates -> planned_in before update) ->
  final_state (commit_scan scan_to_block now_ms updates state) = Some state' ->
  guarded_commit before state state'.
Proof.
  intros Hplanned Hfinal. unfold commit_scan in Hfinal.
  unfold mbind at 1, M_bind at 1, modify at 1 in Hfinal. unfold mbind at 1, M_bind at 1 in Hfinal.
  set (state0 := state <| FactoryState.payment_last_scanned_block := Some scan_to_block |>) in *.
  assert (guarded_commit before state state0) as Hstart by (intros id; by left).
  pose proof (commit_updates_guarded scan_to_block now_ms updates before state state0) as Hloop.
  destruct (commit_updates scan_to_block now_ms updates state0) as [claims state1|e state1|];
    [| |discriminate].
  - specialize (Hloop state1 Hplanned eq_refl Hstart). injection Hfinal as <-.
    destruct (sync_poll_frame now_ms state1) as [jobs ->]. by apply (guarded_commit_frame _ _ state1).
  - injection Hfinal as <-. by apply Hloop.
Qed.

Lemma delete_expired_secrets_factory :
  stable (fun _ => True) (fun c c' => Canister.factory c' = Canister.factory c)
    delete_expired_secrets.
Proof.
  assert (PreOrder (fun c c' => Canister.factory c' = Canister.factory c)) as Hpre
    by (split; [done|]; intros a b c H1 H2; congruence).
  apply stable_bind; [done|apply stable_gets, _|]. intros ids.
  apply stable_for_each; [done|]. intros id _. apply stable_modify. intros c _. by simpl_set.
Qed.

Section ReconcileSafe.
Context `{RpcOk}.

(** The run as a whole: what the RPC calls let happen, then the commit. *)
Lemma reconcile_phases logs scan_to_block now_ms c c' :
  final_state (reconcile_escrow_payments logs scan_to_block now_ms c) = Some c' ->
  payment_inv (Canister.factory c) ->
  forall others : relation Canister.t, PreOrder others ->
  (forall endpoints block,
     stable (fun _ => True) others (eth_get_block_hash_by_number endpoints block)) ->
  exists now, others c now
    /\ guarded_commit (Canister.factory c) (Canister.factory now) (Canister.factory c').
Proof.
  intros Hfinal Hinv others Hpre Hwithin. unfold reconcile_escrow_payments in Hfinal.
  assert (forall s, guarded_commit (Canister.factory c) s s) as Hnone by (intros s id; by left).
  unfold mbind at 1, M_bind at 1, lift at 1 in Hfinal.
  destruct (amounts_by_claim logs) as [amounts|e];
    [|injection Hfinal as <-; exists c; split; [reflexivity|done]].
  unfold mbind at 1, M_bind at 1, gets in Hfinal. cbv zeta in Hfinal.
  set (endpoints := configured_rpc_endpoints _ _) in *.
  pose proof (plan_updates_within others Hwithin amounts endpoints now_ms
    (poll_snapshots (Canister.factory c)) c) as Hplan.
  unfold mbind at 1, M_bind at 1 in Hfinal.
  destruct (plan_updates amounts endpoints now_ms _ c) as [updates c1|e c1|] eqn:Hrun;
    [| |discriminate].
  - exists c1. split; [by apply (Hplan c1)|].
    assert (forall update, update ∈ updates -> planned_in (Canister.factory c) update) as Hplanned.
    { eapply plan_updates_planned; [done| |exact Hrun].
      intros s cl Hin. by apply elem_of_poll_snapshots in Hin. }
    unfold mbind at 1, M_bind at 1, catch at 1, write_state, zoom in Hfinal.
    pose proof (commit_scan_guarded scan_to_block now_ms updates (Canister.factory c)
      (Canister.factory c1)) as Hcommit.
    match type of Hfinal with context [match commit_scan ?b ?n ?u ?s with _ => _ end] =>
      destruct (commit_scan b n u s) as [claims s2|e s2|] end; [| |discriminate].
    + specialize (Hcommit s2 Hplanned eq_refl).
      set (c2 := c1 <| Canister.factory := s2 |>) in *.
      change s2 with (Canister.factory c2) in Hcommit. unfold is_ok in Hfinal.
      unfold mbind at 1, M_bind at 1 in Hfinal.
      pose proof (delete_expired_secrets_factory c2) as Hsecrets.
      destruct (delete_expired_secrets c2) as [[] c3|e c3|]; [| |discriminate];
        injection Hfinal as <-; destruct (Hsecrets c3 eq_refl I) as [_ ->]; exact Hcommit.
    + specialize (Hcommit s2 Hplanned eq_refl). injection Hfinal as <-. exact Hcommit.
  - injection Hfinal as <-. exists c1. split; [by apply (Hplan c1)|done].
Qed.

(** C31 - payment reconciliation is safe against the messages that run during
    its RPC calls, as far as these keep the invariants and the quotes of the
    sessions themselves.  Whether it returns or fails, every session ends
    consistent with its claim and audit log, and every session marked [Paid] is
    covered by the sum of its claim's evidence.  And it writes only what is
    still as the scan found it: the run is what the other messages did, followed
    by a commit that leaves a session and its claim alone unless the session
    awaited an unfinished payment when the scan began and neither it nor its
    claim has since changed in a guarded field.  What another message refunded,
    expired or credited meanwhile is not overwritten. *)
Theorem reconcile_escrow_payments_safe logs scan_to_block now_ms c c' :
  final_state (reconcile_escrow_payments logs scan_to_block now_ms c) = Some c' ->
  escrow_inv (Canister.factory c) ->
  (escrow_inv (Canister.factory c') /\ quotes_kept (Canister.factory c) (Canister.factory c'))
  /\ forall others : relation Canister.t, PreOrder others ->
     (forall endpoints block,
        stable (fun _ => True) others (eth_get_block_hash_by_number endpoints block)) ->
     exists now, others c now
       /\ guarded_commit (Canister.factory c) (Canister.factory now) (Canister.factory c').
Proof.
  intros Hfinal Hinv. split; [|by apply (reconcile_phases logs scan_to_block now_ms); [|apply Hinv]].
  by apply (tame_reconcile logs scan_to_block now_ms).
Qed.
End ReconcileSafe.

(** ** What a commit does *)

Definition guard_stale (guard : EscrowPaymentScanGuard.t) (session : SpawnSession.t)
    (claim : EscrowClaim.t) : Prop :=
  guard <> EscrowPaymentScanGuard.new session claim.

Lemma guard_current guard session claim state :
  SpawnSession.session_id session = EscrowPaymentScanGuard.session_id guard ->
  FactoryState.sessions state !! EscrowPaymentScanGuard.session_id guard = Some session ->
  FactoryState.escrow_claims state !! EscrowPaymentScanGuard.session_id guard = Some claim ->
  ensure_payment_scan_guard guard state =
  if decide (guard = EscrowPaymentScanGuard.new session claim) then Ok tt
  else Err (FactoryError.InvalidStewardProof stale_payment_scan_guard).
Proof.
  intros Hkey Hs Hc. case_decide as Hguard.
  - subst guard. cbn in Hs, Hc. unfold ensure_payment_scan_guard, claim_of. cbn.
    rewrite Hs. cbn. rewrite Hc. cbn. by rewrite !bool_decide_eq_false_2 by (intros ?; done).
  - destruct (ensure_payment_scan_guard guard state) as [[]|e] eqn:Hrun.
    + destruct Hguard. apply guard_ok_lookup in Hrun as (s & c & Hs' & Hc' & Hg).
      rewrite Hs in Hs'. injection Hs' as <-. rewrite Hc in Hc'. injection Hc' as <-.
      rewrite Hg at 1. unfold EscrowPaymentScanGuard.new. by rewrite Hkey.
    + unfold ensure_payment_scan_guard, claim_of in Hrun. rewrite Hs in Hrun. cbn in Hrun.
      destruct (_ || _); cbn in Hrun; [by injection Hrun as <-|].
      rewrite Hc in Hrun. cbn in Hrun. destruct (_ || _); cbn in Hrun; [by injection Hrun as <-|done].
Qed.

(** The state of the session after a commit. *)
Definition committed_outcome (update : EscrowPaymentScanUpdate.t) (session : SpawnSession.t)
    (now_ms : N) : SpawnSessionState.t :=
  if bool_decide (EscrowPaymentScanUpdate.payment_status update = PaymentStatus.Paid)
     && (now_ms <=? SpawnSession.expires_at session)%N
  then SpawnSessionState.PaymentDetected
  else if (SpawnSession.expires_at session <? now_ms)%N then SpawnSessionState.Expired
  else SpawnSessionState.AwaitingPayment.

Lemma commit_update_start scan_to_block now_ms update session claim state :
  let session_id := EscrowPaymentScanUpdate.session_id update in
  ensure_payment_scan_guard (EscrowPaymentScanUpdate.guard update) state = Ok tt ->
  FactoryState.sessions state !! session_id = Some session ->
  FactoryState.escrow_claims state !! session_id = Some claim ->
  let state1 := committed_state scan_to_block now_ms update session claim state in
  commit_update scan_to_block now_ms update state =
  ((if EscrowPaymentScanUpdate.payment_detected update
    then
      apply_session_event_in_state session_id SessionAuditActor.System now_ms
        SpawnSessionEvent.PaymentObserved "payment detected from Base logs";;
      modify (enqueue_spawn_execution_in_state session_id now_ms)
    else mret tt);;
   (if (SpawnSession.expires_at session <? now_ms)%N
    then
      expire_session_in_state session_id SessionAuditActor.System now_ms
        "payment scan observed expired session";;
      mret tt
    else mret tt);;
   get_claim session_id) state1.
Proof.
  intros session_id Hguard Hs Hc state1. subst session_id. unfold commit_update.
  unfold mbind at 1, M_bind at 1, get_state.
  unfold mbind at 1, M_bind at 1, lift at 1. rewrite Hguard. cbv zeta.
  unfold mbind at 1, M_bind at 1, get_claim at 1, claim_of at 1. rewrite Hc. cbn [ok_or lift].
  unfold put_claim, mbind at 1, M_bind at 1, modify at 1.
  unfold mbind at 1, M_bind at 1. erewrite (get_session_Some _ session) by exact Hs.
  unfold put_session, mbind at 1, M_bind at 1, modify at 1.
  unfold mbind at 1, M_bind at 1. rewrite put_and_sync_run. fold state1.
  unfold mbind at 1, M_bind at 1.
  erewrite (get_session_Some _ (committed_session scan_to_block now_ms update session))
    by apply lookup_insert_eq.
  reflexivity.
Qed.

Lemma claims_enqueue session_id now_ms state :
  FactoryState.escrow_claims (enqueue_spawn_execution_in_state session_id now_ms state)
  = FactoryState.escrow_claims state.
Proof. reflexivity. Qed.

(** An event applied right after the writes of a commit. *)
Lemma moved_committed scan_to_block now_ms update session claim state actor reason from to_state :
  let session_id := EscrowPaymentScanUpdate.session_id update in
  let state1 := committed_state scan_to_block now_ms update session claim state in
  let session2 := moved_session to_state false now_ms state1
    (committed_session scan_to_block now_ms update session) in
  let claim2 := sync_claim (SpawnSession.refundable session2) now_ms
    (sync_claim (SpawnSession.refundable (committed_session scan_to_block now_ms update session))
      now_ms (updated_claim scan_to_block now_ms update claim)) in
  let state2 := moved_state session_id actor now_ms reason from to_state session2 state1 in
  FactoryState.sessions state2 = <[session_id := session2]> (FactoryState.sessions state)
  /\ FactoryState.escrow_claims state2 = <[session_id := claim2]> (FactoryState.escrow_claims state).
Proof.
  intros session_id state1 session2 claim2 state2. split.
  - unfold state2, moved_state, state1, committed_state. fold session_id. simpl_set.
    by rewrite insert_insert_eq.
  - unfold state2, moved_state, state1, committed_state. fold session_id. simpl_set.
    by rewrite alter_insert_eq.
Qed.

Lemma get_claim_Some session_id claim state :
  FactoryState.escrow_claims state !! session_id = Some claim ->
  get_claim session_id state = Done claim state.
Proof. intros H. unfold get_claim, claim_of. by rewrite H. Qed.

Lemma observe_payment_run scan_to_block now_ms update session claim state :
  let session_id := EscrowPaymentScanUpdate.session_id update in
  let state1 := committed_state scan_to_block now_ms update session claim state in
  let session1 := committed_session scan_to_block now_ms update session in
  let session2 := moved_session SpawnSessionState.PaymentDetected false now_ms state1 session1 in
  SpawnSession.state session = SpawnSessionState.AwaitingPayment ->
  EscrowPaymentScanUpdate.payment_status update = PaymentStatus.Paid ->
  apply_session_event_in_state session_id SessionAuditActor.System now_ms
    SpawnSessionEvent.PaymentObserved "payment detected from Base logs" state1
  = Done session2 (moved_state session_id SessionAuditActor.System now_ms
      "payment detected from Base logs" (Some SpawnSessionState.AwaitingPayment)
      SpawnSessionState.PaymentDetected session2 state1).
Proof.
  intros session_id state1 session1 session2 Hawait Hpaid.
  rewrite (apply_session_event_run _ _ _ _ _ session1) by apply lookup_insert_eq.
  unfold event_outcome.
  change (SpawnSession.state session1) with (SpawnSession.state session).
  change (SpawnSession.payment_status session1)
    with (EscrowPaymentScanUpdate.payment_status update).
  by rewrite Hawait, Hpaid.
Qed.

Lemma observe_expiry_run scan_to_block now_ms update session claim state :
  let session_id := EscrowPaymentScanUpdate.session_id update in
  let state1 := committed_state scan_to_block now_ms update session claim state in
  let session1 := committed_session scan_to_block now_ms update session in
  let session2 := moved_session SpawnSessionState.Expired false now_ms state1 session1 in
  SpawnSession.state session = SpawnSessionState.AwaitingPayment ->
  EscrowPaymentScanUpdate.payment_status update <> PaymentStatus.Refunded ->
  (SpawnSession.expires_at session < now_ms)%N ->
  expire_session_in_state session_id SessionAuditActor.System now_ms
    "payment scan observed expired session" state1
  = Done session2 (moved_state session_id SessionAuditActor.System now_ms
      "payment scan observed expired session" (Some SpawnSessionState.AwaitingPayment)
      SpawnSessionState.Expired session2 state1).
Proof.
  intros session_id state1 session1 session2 Hawait Hopen Hlate. unfold expire_session_in_state.
  rewrite (apply_session_event_run _ _ _ _ _ session1) by apply lookup_insert_eq.
  unfold event_outcome.
  change (SpawnSession.state session1) with (SpawnSession.state session).
  change (SpawnSession.payment_status session1)
    with (EscrowPaymentScanUpdate.payment_status update).
  change (SpawnSession.expires_at session1) with (SpawnSession.expires_at session).
  rewrite Hawait, (bool_decide_eq_false_2 (_ = PaymentStatus.Refunded)) by done.
  by rewrite (proj2 (N.leb_gt _ _)).
Qed.

(** The commit of a planned update.  If the session or its claim differ from
    the plan's snapshot in any guarded field, nothing is written and the commit
    fails.  Otherwise it succeeds and stores the planned total and evidence; the
    session then is [PaymentDetected] with its spawn job scheduled if it is paid
    in time, [Expired] (and refundable if anything was paid) if it is late, and
    still awaits payment if neither. *)
Theorem commit_update_correct scan_to_block now_ms update session claim state :
  let session_id := EscrowPaymentScanUpdate.session_id update in
  let guard := EscrowPaymentScanUpdate.guard update in
  EscrowPaymentScanGuard.session_id guard = session_id ->
  SpawnSession.session_id session = session_id ->
  FactoryState.sessions state !! session_id = Some session ->
  FactoryState.escrow_claims state !! session_id = Some claim ->
  SpawnSession.state session = SpawnSessionState.AwaitingPayment ->
  EscrowPaymentScanUpdate.payment_status update <> PaymentStatus.Refunded ->
  EscrowPaymentScanUpdate.payment_detected update =
    bool_decide (EscrowPaymentScanUpdate.payment_status update = PaymentStatus.Paid)
    && (now_ms <=? SpawnSession.expires_at session)%N ->
  if decide (guard_stale guard session claim)
  then commit_update scan_to_block now_ms update state =
         Fail (FactoryError.InvalidStewardProof stale_payment_scan_guard) state
  else exists claim' session' state',
    commit_update scan_to_block now_ms update state = Done claim' state'
    /\ FactoryState.escrow_claims state' = <[session_id := claim']> (FactoryState.escrow_claims state)
    /\ FactoryState.sessions state' = <[session_id := session']> (FactoryState.sessions state)
    /\ EscrowClaim.paid_amount claim' = EscrowPaymentScanUpdate.total_paid update
    /\ EscrowClaim.payment_evidence claim' = EscrowPaymentScanUpdate.payment_evidence update
    /\ SpawnSession.payment_status session' = EscrowPaymentScanUpdate.payment_status update
    /\ SpawnSession.state session' = committed_outcome update session now_ms
    /\ (SpawnSession.state session' = SpawnSessionState.Expired ->
        SpawnSession.refundable session' =
          is_refundable_payment_status (EscrowPaymentScanUpdate.payment_status update))
    /\ (SpawnSession.state session' = SpawnSessionState.PaymentDetected ->
        exists job, FactoryState.scheduler_jobs state' !! spawn_job_id session_id = Some job
          /\ (job_is_due job now_ms = true \/ job_has_live_lease job now_ms = true)).
Proof.
  intros session_id guard Hgid Hkey Hs Hc Hawait Hopen Hdetected.
  assert (Hcheck : ensure_payment_scan_guard guard state =
    if decide (guard = EscrowPaymentScanGuard.new session claim) then Ok tt
    else Err (FactoryError.InvalidStewardProof stale_payment_scan_guard))
    by (apply guard_current; by rewrite Hgid).
  unfold guard_stale. destruct (decide (guard <> _)) as [Hstale|Hfresh].
  { rewrite decide_False in Hcheck by done. unfold commit_update. fold guard.
    unfold mbind at 1, M_bind at 1, get_state, mbind at 1, M_bind at 1, lift at 1.
    by rewrite Hcheck. }
  apply dec_stable in Hfresh. rewrite decide_True in Hcheck by done.
  rewrite (commit_update_start _ _ _ session claim) by done. fold session_id.
  set (state1 := committed_state scan_to_block now_ms update session claim state).
  unfold committed_outcome. rewrite Hdetected.
  destruct (bool_decide_reflect (EscrowPaymentScanUpdate.payment_status update = PaymentStatus.Paid))
    as [Hpaid|Hunpaid]; [destruct (N.leb_spec now_ms (SpawnSession.expires_at session)) as [Hin|Hlate]|];
    cbn [andb].
  - assert ((SpawnSession.expires_at session <? now_ms)%N = false) as -> by (by apply N.ltb_ge).
    unfold mbind at 1, M_bind at 1, mbind at 1, M_bind at 1.
    unfold session_id, state1. rewrite observe_payment_run by done.
    destruct (moved_committed scan_to_block now_ms update session claim state
      SessionAuditActor.System "payment detected from Base logs"
      (Some SpawnSessionState.AwaitingPayment) SpawnSessionState.PaymentDetected) as [Hss Hcc].
    eexists _, _, _. split.
    { unfold modify, mbind, M_bind, mret, M_ret. apply get_claim_Some.
      rewrite claims_enqueue, Hcc. apply lookup_insert_eq. }
    rewrite claims_enqueue, sessions_enqueue. split; [exact Hcc|]. split; [exact Hss|].
    do 4 (split; [done|]). split; [done|]. intros _. apply enqueue_spawn_execution_scheduled.
  - rewrite (proj2 (N.ltb_lt _ _)) by done.
    unfold mbind at 1, M_bind at 1, mret at 1, M_ret at 1, mbind at 1, M_bind at 1.
    unfold mbind at 1, M_bind at 1. unfold session_id, state1.
    rewrite observe_expiry_run by done.
    destruct (moved_committed scan_to_block now_ms update session claim state
      SessionAuditActor.System "payment scan observed expired session"
      (Some SpawnSessionState.AwaitingPayment) SpawnSessionState.Expired) as [Hss Hcc].
    eexists _, _, _. split.
    { apply get_claim_Some. rewrite Hcc. apply lookup_insert_eq. }
    split; [exact Hcc|]. split; [exact Hss|]. do 5 (split; [done|]). done.
  - destruct (N.ltb_spec (SpawnSession.expires_at session) now_ms) as [Hlate|Hin].
    + unfold mbind at 1, M_bind at 1, mret at 1, M_ret at 1, mbind at 1, M_bind at 1.
      unfold mbind at 1, M_bind at 1. unfold session_id, state1.
      rewrite observe_expiry_run by done.
      destruct (moved_committed scan_to_block now_ms update session claim state
        SessionAuditActor.System "payment scan observed expired session"
        (Some SpawnSessionState.AwaitingPayment) SpawnSessionState.Expired) as [Hss Hcc].
      eexists _, _, _. split.
      { apply get_claim_Some. rewrite Hcc. apply lookup_insert_eq. }
      split; [exact Hcc|]. split; [exact Hss|]. do 5 (split; [done|]). done.
    + exec. eexists _, (committed_session scan_to_block now_ms update session), state1. split.
      { apply get_claim_Some. apply lookup_insert_eq. }
      split; [done|]. split; [done|]. do 3 (split; [done|]). split; [exact Hawait|].
      split; intros Hno; change (SpawnSession.state session = SpawnSessionState.Expired) in Hno
        || change (SpawnSession.state session = SpawnSessionState.PaymentDetected) in Hno;
        congruence.
Qed.

(** ** Refunds are final and happen once *)

Definition cleared_runtimes (now_ms : N) (session : SpawnSession.t)
    (runtimes : gmap string AutomatonRuntimeState.t) : gmap string AutomatonRuntimeState.t :=
  match SpawnSession.automaton_canister_id session with
  | Some canister_id => alter (clear_runtime_keys now_ms) canister_id runtimes
  | None => runtimes
  end.

Definition runtime_known (session : SpawnSession.t) (state : FactoryState.t) : Prop :=
  match SpawnSession.automaton_canister_id session with
  | Some canister_id => is_Some (FactoryState.runtimes state !! canister_id)
  | None => True
  end.

Definition refunded_state (session_id : string) (now_ms : N) (session : SpawnSession.t)
    (claim : EscrowClaim.t) (state : FactoryState.t) : FactoryState.t :=
  let session' := with_derived_flags now_ms (refunded_session now_ms session) in
  record_session_audit session_id (Some (SpawnSession.state session)) (SpawnSession.state session)
    SessionAuditActor.User now_ms "refund transaction confirmed on-chain"
    (state
      <| FactoryState.runtimes ::= cleared_runtimes now_ms session |>
      <| FactoryState.sessions ::= <[session_id := session']> |>
      <| FactoryState.escrow_claims ::= <[session_id :=
           sync_claim (SpawnSession.refundable session') now_ms (refunded_claim now_ms claim)]> |>).

Lemma finalize_refund_run session_id now_ms refund_tx_hash session claim state :
  FactoryState.sessions state !! session_id = Some session ->
  FactoryState.escrow_claims state !! session_id = Some claim ->
  finalize_escrow_refund_in_state session_id now_ms refund_tx_hash state =
  match validate_escrow_refund_in_state session_id now_ms state with
  | Err e => Fail e state
  | Ok (Some response) => Done response state
  | Ok None =>
      match SpawnSession.automaton_canister_id session with
      | Some canister_id =>
          if decide (is_Some (FactoryState.runtimes state !! canister_id))
          then Done (RefundSpawnResponse.mk session_id (SpawnSession.state session)
                       PaymentStatus.Refunded now_ms (Some refund_tx_hash))
                 (refunded_state session_id now_ms session claim state)
          else Fail (FactoryError.AutomatonRuntimeNotFound canister_id) state
      | None => Done (RefundSpawnResponse.mk session_id (SpawnSession.state session)
                        PaymentStatus.Refunded now_ms (Some refund_tx_hash))
                  (refunded_state session_id now_ms session claim state)
      end
  end.
Proof.
  intros Hs Hc. unfold finalize_escrow_refund_in_state.
  unfold mbind at 1, M_bind at 1, get_state, mbind at 1, M_bind at 1, lift at 1.
  destruct (validate_escrow_refund_in_state session_id now_ms state) as [[response|]|e]; try done.
  rewrite Hs, Hc. unfold mbind at 1, M_bind at 1, expect at 1.
  assert (Hset : forall runtimes,
    (put_session session_id (refunded_session now_ms session);;
     claim ← expect (Some claim);
     put_claim session_id (refunded_claim now_ms claim);;
     sync_session_derived_flags_in_state session_id now_ms;;
     modify (record_session_audit session_id (Some (SpawnSession.state session))
       (SpawnSession.state session) SessionAuditActor.User now_ms
       "refund transaction confirmed on-chain");;
     mret (RefundSpawnResponse.mk session_id (SpawnSession.state session)
       PaymentStatus.Refunded now_ms (Some refund_tx_hash)))
      (set FactoryState.runtimes runtimes state)
    = Done (RefundSpawnResponse.mk session_id (SpawnSession.state session)
         PaymentStatus.Refunded now_ms (Some refund_tx_hash))
       (record_session_audit session_id (Some (SpawnSession.state session))
         (SpawnSession.state session) SessionAuditActor.User now_ms
         "refund transaction confirmed on-chain"
         (state
           <| FactoryState.runtimes ::= runtimes |>
           <| FactoryState.sessions ::=
                <[session_id := with_derived_flags now_ms (refunded_session now_ms session)]> |>
           <| FactoryState.escrow_claims ::= <[session_id := sync_claim
                (derive_refundable (refunded_session now_ms session)) now_ms
                (refunded_claim now_ms claim)]> |>))).
  { intros runtimes. unfold put_session, put_claim. exec.
    erewrite sync_session_derived_flags_run by (simpl_set; apply lookup_insert_eq).
    do 2 f_equal. change (?a <| FactoryState.sessions ::= ?f |>
        <| FactoryState.escrow_claims ::= ?h |> <| FactoryState.sessions ::= ?g |>
        <| FactoryState.escrow_claims ::= ?k |>)
      with (a <| FactoryState.sessions ::= fun x => g (f x) |>
              <| FactoryState.escrow_claims ::= fun x => k (h x) |>).
    rewrite (set_ext FactoryState.sessions _ <[session_id :=
      with_derived_flags now_ms (refunded_session now_ms session)]>);
      [|done|by rewrite insert_insert_eq].
    apply set_ext; [done|]. by rewrite alter_insert_eq. }
  destruct (SpawnSession.automaton_canister_id session) as [canister_id|] eqn:Hid.
  - destruct (FactoryState.runtimes state !! canister_id) as [runtime|] eqn:Hruntime.
    + rewrite decide_True by done. unfold mbind at 1, M_bind at 1, mbind at 1, M_bind at 1.
      cbn [ok_or lift modify]. unfold modify at 1. rewrite Hset.
      unfold refunded_state, cleared_runtimes. rewrite Hid. do 2 f_equal.
      rewrite (set_ext FactoryState.runtimes _ (alter (clear_runtime_keys now_ms) canister_id));
        [done|done|]. apply map_eq. intros other. rewrite lookup_alter.
      case_decide as Ho; [subst other; by rewrite lookup_insert_eq, Hruntime|].
      by rewrite lookup_insert_ne.
    + rewrite decide_False by (intros [? ?]; done). done.
  - unfold mbind at 1, M_bind at 1, mret at 1, M_ret at 1.
    assert (Hsame : set FactoryState.runtimes (fun runtimes => runtimes) state = state)
      by (by destruct state).
    rewrite <-Hsame at 1. rewrite Hset. unfold refunded_state, cleared_runtimes. by rewrite Hid.
Qed.

Lemma refunded_state_lookup session_id now_ms session claim state :
  let state' := refunded_state session_id now_ms session claim state in
  FactoryState.sessions state' !! session_id =
    Some (with_derived_flags now_ms (refunded_session now_ms session))
  /\ FactoryState.escrow_claims state' !! session_id =
    Some (sync_claim (derive_refundable (refunded_session now_ms session)) now_ms
            (refunded_claim now_ms claim)).
Proof. unfold refunded_state, record_session_audit. simpl_set. by rewrite !lookup_insert_eq. Qed.

Lemma derive_refundable_refunded now_ms session :
  derive_refundable (refunded_session now_ms session) = false.
Proof. unfold derive_refundable. cbn. apply andb_false_r. Qed.

Lemma derive_retryable_refunded now_ms session :
  derive_retryable (refunded_session now_ms session) now_ms = false.
Proof.
  unfold derive_retryable, is_retryable_payment_status. simpl_set.
  rewrite (bool_decide_eq_false_2 (PaymentStatus.Refunded = PaymentStatus.Paid)) by done.
  by rewrite andb_false_r.
Qed.

(** A refund is final.  When a stored session passes the refund check (and
    its runtime, if any, is known), [finalize_escrow_refund_in_state] marks
    session and claim [Refunded] without moving the session, after which the
    session can be neither refunded again nor retried: another finalisation, at
    any time, reports the first refund and writes nothing, and a retry is
    refused. *)
Theorem refund_is_final session_id now_ms refund_tx_hash session claim state :
  FactoryState.sessions state !! session_id = Some session ->
  FactoryState.escrow_claims state !! session_id = Some claim ->
  validate_escrow_refund_in_state session_id now_ms state = Ok None ->
  runtime_known session state ->
  exists response state' session' claim',
    finalize_escrow_refund_in_state session_id now_ms refund_tx_hash state = Done response state'
    /\ FactoryState.sessions state' !! session_id = Some session'
    /\ FactoryState.escrow_claims state' !! session_id = Some claim'
    /\ SpawnSession.state session' = SpawnSession.state session
    /\ SpawnSession.payment_status session' = PaymentStatus.Refunded
    /\ SpawnSession.refundable session' = false /\ SpawnSession.retryable session' = false
    /\ EscrowClaim.payment_status claim' = PaymentStatus.Refunded
    /\ EscrowClaim.refunded_at claim' = Some now_ms
    /\ (forall later_ms other_tx_hash, exists response',
          finalize_escrow_refund_in_state session_id later_ms other_tx_hash state'
            = Done response' state'
          /\ RefundSpawnResponse.refunded_at response' = now_ms)
    /\ (forall actor later_ms reason, exists error,
          apply_session_event_in_state session_id actor later_ms
            SpawnSessionEvent.RetryRequested reason state' = Fail error state').
Proof.
  intros Hs Hc Hvalid Hknown.
  destruct (refunded_state_lookup session_id now_ms session claim state) as [Hs' Hc'].
  eexists _, (refunded_state session_id now_ms session claim state), _, _.
  split; [|split; [exact Hs'|split; [exact Hc'|]]].
  { rewrite (finalize_refund_run _ _ _ _ _ _ Hs Hc), Hvalid.
    unfold runtime_known in Hknown.
    destruct (SpawnSession.automaton_canister_id session); [by rewrite decide_True|done]. }
  split; [done|]. split; [done|]. split; [apply derive_refundable_refunded|].
  split; [apply derive_retryable_refunded|]. split; [done|]. split; [done|]. split.
  - intros later_ms other. eexists. rewrite (finalize_refund_run _ _ _ _ _ _ Hs' Hc').
    unfold validate_escrow_refund_in_state, claim_of. rewrite Hs', Hc'. cbn. done.
  - intros actor later_ms reason. eexists.
    rewrite (apply_session_event_run _ _ _ _ _ _ _ Hs'). unfold event_outcome.
    change (SpawnSession.retryable (with_derived_flags now_ms (refunded_session now_ms session)))
      with (derive_retryable (refunded_session now_ms session) now_ms).
    rewrite derive_retryable_refunded, orb_true_r. done.
Qed.

Lemma refunded_state_inv session_id now_ms session claim state :
  escrow_inv state ->
  FactoryState.sessions state !! session_id = Some session ->
  FactoryState.escrow_claims state !! session_id = Some claim ->
  SpawnSession.state session ∈ [SpawnSessionState.Expired; SpawnSessionState.Failed] ->
  escrow_inv (refunded_state session_id now_ms session claim state)
  /\ quotes_kept state (refunded_state session_id now_ms session claim state).
Proof.
  intros [Hsessions [Hpay Hclaims]] Hs Hc Hclosed.
  destruct (Hsessions _ _ Hs) as (_ & Haudit & _).
  unfold refunded_state, record_session_audit. cbv zeta. split; [split; [|split]|].
  - intros other found. simpl_set. intros [[<- <-]|[Hne Hfound]]%lookup_insert_Some.
    + split; [apply with_derived_flags_consistent|]. split; simpl_set.
      * rewrite lookup_insert_eq. cbn.
        eapply (audit_consistent_push _ _ _ (SessionAuditEntry.mk _ _ _ (SpawnSession.state session) _ _));
          [exact Haudit| |by left].
        split; [done|]. apply orb_true_iff. right. unfold refund_edge. cbn.
        rewrite bool_decide_eq_true_2 by done.
        rewrite elem_of_cons, list_elem_of_singleton in Hclosed. by destruct Hclosed as [->| ->].
      * intros found. rewrite lookup_insert_eq. by intros [= <-].
    + destruct (Hsessions _ _ Hfound) as (? & ? & ?). split; [done|]. split; simpl_set;
        by rewrite lookup_insert_ne.
  - intros other found. simpl_set. intros [[<- <-]|[Hne Hfound]]%lookup_insert_Some.
    + destruct (Hpay _ _ Hs) as [Hkey _]. split; [exact Hkey|]. by intros Hno.
    + destruct (Hpay _ _ Hfound) as [Hkey Hp]. split; [done|]. unfold paid_in_full. simpl_set.
      by rewrite lookup_insert_ne.
  - intros other found. simpl_set. intros [[<- <-]|[Hne Hfound]]%lookup_insert_Some.
    + destruct (Hclaims _ _ Hc) as [total Htotal]. by exists total.
    + by apply (Hclaims other).
  - intros other found Hfound. simpl_set. destruct (decide (session_id = other)) as [<-|Hne].
    + rewrite lookup_insert_eq. eexists. split; [done|]. rewrite Hs in Hfound.
      by injection Hfound as <-.
    + rewrite lookup_insert_ne by done. eauto.
Qed.

Lemma finalize_refund_missing session_id now_ms refund_tx_hash state :
  FactoryState.sessions state !! session_id = None
  \/ FactoryState.escrow_claims state !! session_id = None ->
  exists error, finalize_escrow_refund_in_state session_id now_ms refund_tx_hash state
    = Fail error state.
Proof.
  intros Hmissing. unfold finalize_escrow_refund_in_state.
  unfold mbind at 1, M_bind at 1, get_state, mbind at 1, M_bind at 1, lift at 1.
  unfold validate_escrow_refund_in_state, claim_of.
  destruct (FactoryState.sessions state !! session_id) as [session|]; [|by eexists].
  destruct Hmissing as [|Hmissing]; [done|]. rewrite Hmissing. by eexists.
Qed.

Lemma validate_refund_closed session_id now_ms session state :
  FactoryState.sessions state !! session_id = Some session ->
  validate_escrow_refund_in_state session_id now_ms state = Ok None ->
  SpawnSession.state session ∈ [SpawnSessionState.Expired; SpawnSessionState.Failed].
Proof.
  intros Hs. unfold validate_escrow_refund_in_state. rewrite Hs. cbn [ok_or].
  rewrite result_bind_Ok. intros (? & [= <-] & H). rewrite result_bind_Ok in H.
  destruct H as (claim & _ & H). destruct (bool_decide _); [done|].
  destruct (_ || _ || _) eqn:Hguard; [done|]. decide_step. done.
Qed.

Lemma keeps_finalize_refund session_id now_ms refund_tx_hash :
  keeps (finalize_escrow_refund_in_state session_id now_ms refund_tx_hash).
Proof.
  intros state state' Hfinal Hinv.
  destruct (FactoryState.sessions state !! session_id) as [session|] eqn:Hs;
    [destruct (FactoryState.escrow_claims state !! session_id) as [claim|] eqn:Hc|].
  - rewrite (finalize_refund_run _ _ _ _ _ _ Hs Hc) in Hfinal.
    destruct (validate_escrow_refund_in_state session_id now_ms state) as [[response|]|e] eqn:Hv;
      [by injection Hfinal as <-| |by injection Hfinal as <-].
    pose proof (validate_refund_closed _ _ _ _ Hs Hv) as Hclosed.
    destruct (SpawnSession.automaton_canister_id session); [case_decide|];
      injection Hfinal as <-; try done; by apply refunded_state_inv.
  - edestruct finalize_refund_missing as [e He]; [by right|]. rewrite He in Hfinal.
    by injection Hfinal as <-.
  - edestruct finalize_refund_missing as [e He]; [by left|]. rewrite He in Hfinal.
    by injection Hfinal as <-.
Qed.
#[export] Hint Resolve keeps_finalize_refund : stable.

(** *** Witnesses *)

(** An RPC that answers without changing the state. *)
Definition sample_rpc : Rpc := {|
  eth_block_number := fun _ => mret 1000%N;
  eth_get_block_hash_by_number := fun _ block => mret (if (block =? 7)%N then "0xab" else "0x05");
  eth_get_deposited_logs := fun _ _ _ => mret sample_logs;
|}.

Lemma sample_rpc_ok : RpcOk sample_rpc.
Proof. split; intros; apply stable_ret; apply _. Qed.

Definition sample_pending : FactoryState.t :=
  Samples.state_with_claim
    (Samples.session SpawnSessionState.AwaitingPayment PaymentStatus.Unpaid)
    (Samples.claim "0" PaymentStatus.Unpaid)
  <| FactoryState.base_rpc_endpoint := Some "https://rpc" |>.

Lemma sample_pending_inv : escrow_inv sample_pending.
Proof.
  assert (Hsessions : FactoryState.sessions sample_pending =
    {["s" := Samples.session SpawnSessionState.AwaitingPayment PaymentStatus.Unpaid]}) by reflexivity.
  assert (Hclaims : FactoryState.escrow_claims sample_pending =
    {["s" := Samples.claim "0" PaymentStatus.Unpaid]}) by reflexivity.
  unfold escrow_inv, sessions_inv, session_inv, payment_inv, paid_in_full.
  rewrite Hsessions, Hclaims. split; [|split].
  - intros id session Hs. apply lookup_singleton_Some in Hs as [<- <-].
    split; [split; [discriminate|reflexivity]|]. split.
    + split; [exact I|]. split; [constructor|]. split; [apply Nat.le_0_l|]. reflexivity.
    + intros claim Hc. apply lookup_singleton_Some in Hc as [_ <-]. reflexivity.
  - intros id session Hs. apply lookup_singleton_Some in Hs as [<- <-].
    split; [reflexivity|]. discriminate.
  - intros id claim Hc. apply lookup_singleton_Some in Hc as [_ <-]. exists 0%N.
    split; [vm_compute; reflexivity|]. split; [constructor|]. split; [constructor|].
    split; [reflexivity|]. vm_compute. discriminate.
Qed.

Lemma reconcile_escrow_payments_safe_witness :
  match @reconcile_escrow_payments sample_rpc sample_logs 20 500 (Canister.mk sample_pending ∅) with
  | Done claims canister =>
      (EscrowClaim.paid_amount <$> claims) = ["75"] /\ escrow_inv (Canister.factory canister)
      /\ guarded_commit sample_pending sample_pending (Canister.factory canister)
  | _ => False
  end.
Proof.
  destruct (@reconcile_escrow_payments sample_rpc sample_logs 20 500 (Canister.mk sample_pending ∅))
    as [claims canister|e canister|] eqn:Hrun; [|vm_compute in Hrun; discriminate Hrun..].
  split; [vm_compute in Hrun; injection Hrun as <- _; reflexivity|].
  destruct (@reconcile_escrow_payments_safe sample_rpc sample_rpc_ok sample_logs 20 500
    (Canister.mk sample_pending ∅) canister) as [[Hinv _] Hguarded];
    [rewrite Hrun; reflexivity|exact sample_pending_inv|].
  split; [exact Hinv|].
  destruct (Hguarded eq _) as (now & <- & Hcommit); [|exact Hcommit].
  intros endpoints block. apply stable_ret, _.
Defined.

Definition sample_update : EscrowPaymentScanUpdate.t := {|
  EscrowPaymentScanUpdate.session_id := "s";
  EscrowPaymentScanUpdate.guard := EscrowPaymentScanGuard.new
    (Samples.session SpawnSessionState.AwaitingPayment PaymentStatus.Unpaid)
    (Samples.claim "0" PaymentStatus.Unpaid);
  EscrowPaymentScanUpdate.payment_status := PaymentStatus.Paid;
  EscrowPaymentScanUpdate.payment_evidence := [PaymentEvidenceBlock.mk 7 "0xab" "75"];
  EscrowPaymentScanUpdate.payment_evidence_increment := Some "75";
  EscrowPaymentScanUpdate.claim_cursor := Some 7%N;
  EscrowPaymentScanUpdate.payment_detected := true;
  EscrowPaymentScanUpdate.total_paid := "75";
|}.

Lemma commit_update_correct_witness :
  exists claim' session' state',
    commit_update 20 500 sample_update sample_pending = Done claim' state'
    /\ EscrowClaim.paid_amount claim' = "75"
    /\ SpawnSession.state session' = SpawnSessionState.PaymentDetected.
Proof.
  pose proof (commit_update_correct 20 500 sample_update
    (Samples.session SpawnSessionState.AwaitingPayment PaymentStatus.Unpaid)
    (Samples.claim "0" PaymentStatus.Unpaid) sample_pending
    eq_refl eq_refl eq_refl eq_refl eq_refl ltac:(discriminate) eq_refl) as H.
  rewrite decide_False in H by (intros Hstale; apply Hstale; reflexivity).
  destruct H as (claim' & session' & state' & Hrun & _ & _ & Hpaid & _ & _ & Hstate & _).
  exists claim', session', state'. split; [exact Hrun|]. split; [exact Hpaid|].
  rewrite Hstate. reflexivity.
Defined.

Definition sample_refundable : FactoryState.t :=
  Samples.state_with_claim
    (Samples.session SpawnSessionState.Expired PaymentStatus.Partial
       <| SpawnSession.refundable := true |>)
    (Samples.claim "40" PaymentStatus.Partial <| EscrowClaim.refundable := true |>).

Lemma refund_is_final_witness :
  exists response state',
    finalize_escrow_refund_in_state "s" 900 "0xt" sample_refundable = Done response state'
    /\ forall later_ms other_tx_hash, exists response',
         finalize_escrow_refund_in_state "s" later_ms other_tx_hash state' = Done response' state'
         /\ RefundSpawnResponse.refunded_at response' = 900%N.
Proof.
  destruct (refund_is_final "s" 900 "0xt"
    (Samples.session SpawnSessionState.Expired PaymentStatus.Partial
       <| SpawnSession.refundable := true |>)
    (Samples.claim "40" PaymentStatus.Partial <| EscrowClaim.refundable := true |>)
    sample_refundable eq_refl eq_refl)
    as (response & state' & session' & claim' & Hrun & _ & _ & _ & _ & _ & _ & _ & _ & Hagain & _).
  - vm_compute. reflexivity.
  - exact I.
  - exists response, state'. split; [exact Hrun | exact Hagain].
Defined.
