(* ===== verification/Room.v ===== *)
(** * Room: the message room of the registered automatons

    Models the room operations of [backend/factory/src/api/public.rs]: posting
    (normalisation, authorisation, the sequence counter and the eviction beyond
    [MAX_ROOM_MESSAGES_RETAINED]) and paginated reading. *)

From S2P Require Import Prelude Text SpawnProtocol Types Externals State Samples.

(** [unwrap_or(DEFAULT) as usize]: the cast keeps the low 32 bits on
    [wasm32]. *)
Definition normalize_room_read_limit (limit : option N) : result FactoryError.t N :=
  let limit := (default DEFAULT_ROOM_READ_LIMIT limit `mod` 2 ^ 32)%N in
  if (limit =? 0)%N || (MAX_ROOM_READ_LIMIT <? limit)%N
  then Err (FactoryError.InvalidPaginationLimit limit) else Ok limit.

(** Keep the first occurrence of each mention. *)
Definition push_mention (normalized : list string) (mention : string) : list string :=
  if decide (mention ∈ normalized) then normalized else normalized ++ [mention].

Definition normalize_room_mentions (mentions : option (list string))
    : result FactoryError.t (list string) :=
  let normalized := foldl push_mention [] (default [] mentions) in
  let provided := N.of_nat (length normalized) in
  err_if (MAX_ROOM_MENTIONS <? provided)%N
    (FactoryError.TooManyRoomMentions provided MAX_ROOM_MENTIONS);;
  Ok normalized.

Definition normalize_room_body (body : string) : result FactoryError.t string :=
  let trimmed := trim body in
  err_if (is_empty trimmed) FactoryError.EmptyRoomMessageBody;;
  let provided_bytes := str_len trimmed in
  err_if (MAX_ROOM_BODY_BYTES <? provided_bytes)%N
    (FactoryError.RoomMessageBodyTooLarge provided_bytes MAX_ROOM_BODY_BYTES);;
  Ok trimmed.

Definition room_message_id (seq : N) : string := "room-message-" +:+ pretty seq.

Definition room_message_matches_target (target_canister_id : string) (message : RoomMessage.t)
    : bool :=
  bool_decide (RoomMessage.mentions message = [])
  || bool_decide (target_canister_id ∈ RoomMessage.mentions message).

(** The messages [range((start, Unbounded))] visits, in order. *)
Definition messages_after (after_seq : option N) (state : FactoryState.t) : list RoomMessage.t :=
  (filter (fun entry : N * RoomMessage.t =>
      is_none_or (fun after => (after <? entry.1)%N) after_seq = true)
    (btree_iter (FactoryState.room_messages state))).*2.

(** The loop of [read_room_page]; it stops at the first matching message that
    does not fit. *)
Fixpoint collect_page (limit : nat) (predicate : RoomMessage.t -> bool)
    (pending : list RoomMessage.t) (messages : list RoomMessage.t)
    : list RoomMessage.t * option N :=
  match pending with
  | [] => (messages, None)
  | message :: rest =>
      if negb (predicate message) then collect_page limit predicate rest messages
      else if decide (length messages = limit)
      then (messages, RoomMessage.seq <$> last messages)
      else collect_page limit predicate rest (messages ++ [message])
  end.

Definition read_room_page (after_seq : option N) (limit : N) (predicate : RoomMessage.t -> bool)
    (state : FactoryState.t) : RoomMessagePage.t :=
  let '(messages, next_after_seq) :=
    collect_page (N.to_nat limit) predicate (messages_after after_seq state) [] in
  RoomMessagePage.mk messages next_after_seq (RoomState.latest_seq (FactoryState.room_state state)).

Definition list_room_messages (after_seq limit : option N) : C RoomMessagePage.t :=
  read_state (fun state =>
    limit ← normalize_room_read_limit limit;
    Ok (read_room_page after_seq limit (fun _ => true) state)).

Definition list_messages_for_automaton (canister_id : string) (after_seq limit : option N)
    : C RoomMessagePage.t :=
  read_state (fun state =>
    limit ← normalize_room_read_limit limit;
    Ok (read_room_page after_seq limit (room_message_matches_target canister_id) state)).

Definition list_my_room_messages (caller : string) (after_seq limit : option N)
    : C RoomMessagePage.t :=
  list_messages_for_automaton caller after_seq limit.

(** The part of [post_room_message] inside [write_state]. *)
Definition append_room_message (caller body : string) (mentions : list string)
    (content_type : RoomContentType.t) (now_ms : N) : F RoomMessage.t :=
  registry ← gets FactoryState.registry;
  fail_if (bool_decide (registry !! caller = None)) (FactoryError.UnauthorizedRoomPoster caller);;
  seq ← gets (fun state => RoomState.next_seq (FactoryState.room_state state));
  let message := RoomMessage.mk (room_message_id seq) seq caller now_ms body mentions
    content_type in
  modify (fun state => state <| FactoryState.room_messages ::= <[seq := message]> |>);;
  next_seq ← expect (checked_add 64 seq 1);
  modify (fun state => state <| FactoryState.room_state ::= fun room =>
    room <| RoomState.next_seq := next_seq |>
         <| RoomState.latest_seq := Some seq |>
         <| RoomState.oldest_seq ::= fun oldest =>
              match oldest with None => Some seq | some => some end |> |>);;
  retained ← gets (fun state => size (FactoryState.room_messages state));
  (if decide (N.to_nat MAX_ROOM_MESSAGES_RETAINED < retained) then
     oldest ← gets (fun state => RoomState.oldest_seq (FactoryState.room_state state));
     oldest_seq ← expect oldest;
     modify (fun state => state <| FactoryState.room_messages ::= delete oldest_seq |>);;
     modify (fun state => state <| FactoryState.room_state ::=
       set RoomState.oldest_seq (fun _ => head (btree_keys (FactoryState.room_messages state))) |>)
   else mret tt);;
  mret message.

Section Posting.
Context `{Externals}.

Definition validate_room_body (content_type : RoomContentType.t) (body : string)
    : result FactoryError.t unit :=
  match content_type with
  | RoomContentType.ApplicationJson =>
      match json_error body with
      | Some message => Err (FactoryError.InvalidRoomMessageJson message)
      | None => Ok tt
      end
  | RoomContentType.TextPlain => Ok tt
  end.

Definition post_room_message (caller : string) (request : PostRoomMessageRequest.t) (now_ms : N)
    : C RoomMessage.t :=
  body ← lift (normalize_room_body (PostRoomMessageRequest.body request));
  mentions ← lift (normalize_room_mentions (PostRoomMessageRequest.mentions request));
  let content_type :=
    default RoomContentType.default (PostRoomMessageRequest.content_type request) in
  lift (validate_room_body content_type body);;
  write_state (append_room_message caller body mentions content_type now_ms).
End Posting.

(** ** The room invariant

    The retained messages are those of an interval of sequence numbers that
    ends at the counter, at most [MAX_ROOM_MESSAGES_RETAINED] of them, each
    stored under its own number. *)

Definition in_window (first next : N) (seq : N) : Prop := (first <= seq < next)%N.

Definition room_inv (state : FactoryState.t) : Prop :=
  let room := FactoryState.room_state state in
  let next := RoomState.next_seq room in
  exists first,
    (first <= next)%N
    /\ (next - first <= MAX_ROOM_MESSAGES_RETAINED)%N
    /\ (forall seq, is_Some (FactoryState.room_messages state !! seq) <-> in_window first next seq)
    /\ (forall seq message, FactoryState.room_messages state !! seq = Some message ->
          RoomMessage.seq message = seq)
    /\ RoomState.oldest_seq room = (if decide (first < next)%N then Some first else None)
    /\ RoomState.latest_seq room = (if decide (first < next)%N then Some (next - 1)%N else None).

Definition window (first next : N) : list N :=
  (fun i => (first + N.of_nat i)%N) <$> seq 0 (N.to_nat (next - first)).

Lemma elem_of_window first next seq : seq ∈ window first next <-> in_window first next seq.
Proof.
  unfold window, in_window. rewrite list_elem_of_fmap. setoid_rewrite elem_of_seq. split.
  - intros (i & -> & Hi). lia.
  - intros [Hle Hlt]. exists (N.to_nat (seq - first)). lia.
Qed.

Lemma NoDup_window first next : NoDup (window first next).
Proof. apply NoDup_fmap; [intros i j; lia|apply NoDup_seq]. Qed.

Lemma window_keys {V} (m : gmap N V) first next :
  (forall seq, is_Some (m !! seq) <-> in_window first next seq) ->
  btree_keys m ≡ₚ window first next.
Proof.
  intros H. apply NoDup_Permutation; [apply NoDup_btree_keys|apply NoDup_window|].
  intros seq. by rewrite elem_of_btree_keys, elem_of_window.
Qed.

Lemma window_size {V} (m : gmap N V) first next :
  (forall seq, is_Some (m !! seq) <-> in_window first next seq) ->
  size m = N.to_nat (next - first).
Proof.
  intros H. rewrite <-length_btree_iter. pose proof (window_keys m first next H) as Hp.
  apply Permutation_length in Hp. unfold btree_keys in Hp.
  rewrite length_fmap in Hp. rewrite Hp. unfold window. by rewrite length_fmap, length_seq.
Qed.

Lemma btree_keys_sorted {V} (m : gmap N V) : StronglySorted N.le (btree_keys m).
Proof.
  unfold btree_keys. induction (btree_iter_sorted m) as [|p l Hs IH Hp]; [constructor|].
  rewrite fmap_cons. constructor; [done|]. apply Forall_fmap. exact Hp.
Qed.

Lemma window_head {V} (m : gmap N V) first next :
  (forall seq, is_Some (m !! seq) <-> in_window first next seq) ->
  head (btree_keys m) = if decide (first < next)%N then Some first else None.
Proof.
  intros H. pose proof (btree_keys_sorted m) as Hs.
  assert (Hin : forall seq, seq ∈ btree_keys m <-> in_window first next seq)
    by (intros; by rewrite elem_of_btree_keys).
  unfold in_window in Hin. destruct (btree_keys m) as [|k keys]; simpl.
  - case_decide; [|done]. exfalso. apply (not_elem_of_nil first), Hin. lia.
  - pose proof (proj1 (Hin k) ltac:(set_solver)) as Hk. rewrite decide_True by lia.
    f_equal. apply StronglySorted_inv in Hs as [_ Hall]. rewrite Forall_forall in Hall.
    destruct (decide (first = k)) as [|Hne]; [done|].
    assert (Hf : first ∈ k :: keys) by (apply Hin; lia).
    apply elem_of_cons in Hf as [->|Hf]; [done|].
    specialize (Hall _ Hf). lia.
Qed.

Lemma room_inv_window state :
  room_inv state ->
  exists first, (first <= RoomState.next_seq (FactoryState.room_state state))%N
    /\ (RoomState.next_seq (FactoryState.room_state state) - first
        <= MAX_ROOM_MESSAGES_RETAINED)%N
    /\ size (FactoryState.room_messages state) =
       N.to_nat (RoomState.next_seq (FactoryState.room_state state) - first).
Proof.
  intros (first & Hle & Hmax & Hkeys & _). exists first. split; [done|]. split; [done|].
  by apply window_size.
Qed.

(** Appending, when the poster is registered and the counter does not
    overflow. *)
Lemma append_room_message_run caller body mentions content_type now_ms state :
  room_inv state ->
  is_Some (FactoryState.registry state !! caller) ->
  in_uint 64 (RoomState.next_seq (FactoryState.room_state state) + 1) ->
  let seq := RoomState.next_seq (FactoryState.room_state state) in
  let message := RoomMessage.mk (room_message_id seq) seq caller now_ms body mentions
    content_type in
  exists state',
    append_room_message caller body mentions content_type now_ms state = Done message state'
    /\ room_inv state'
    /\ RoomState.next_seq (FactoryState.room_state state') = (seq + 1)%N
    /\ FactoryState.room_messages state' !! seq = Some message
    /\ (forall other, other <> seq ->
          FactoryState.room_messages state' !! other =
          if decide (other + MAX_ROOM_MESSAGES_RETAINED <= seq)%N then None
          else FactoryState.room_messages state !! other).
Proof.
  intros (first & Hle & Hmax & Hkeys & Hseq & Holdest & Hlatest) [record Hreg] Hbound seq message.
  fold seq in Hle, Hmax, Hkeys, Holdest, Hlatest, Hbound.
  set (messages := <[seq := message]> (FactoryState.room_messages state)).
  assert (Hkeys1 : forall k, is_Some (messages !! k) <-> in_window first (seq + 1) k).
  { intros k. unfold messages, in_window. destruct (decide (k = seq)) as [->|Hne].
    - rewrite lookup_insert_eq. split; [lia|eauto].
    - rewrite lookup_insert_ne, Hkeys by done. unfold in_window. lia. }
  assert (Hsize : size messages = N.to_nat (seq + 1 - first)) by (by apply window_size).
  assert (Hseq1 : forall k m, messages !! k = Some m -> RoomMessage.seq m = k).
  { intros k m [[<- <-]|[_ Hm]]%lookup_insert_Some; [done|by apply Hseq]. }
  unfold append_room_message, MAX_ROOM_MESSAGES_RETAINED in *. exec.
  rewrite Hreg, bool_decide_eq_false_2 by done. fold seq.
  assert (checked_add 64 seq 1 = Some (seq + 1)%N) as -> by (by apply checked_add_Some).
  change (FactoryState.room_messages (?s <| FactoryState.room_state ::= ?f |>))
    with (FactoryState.room_messages s).
  simpl_set. fold message. fold messages. rewrite Hsize.
  assert (Hold1 : (match RoomState.oldest_seq (FactoryState.room_state state) with
    | Some _ => RoomState.oldest_seq (FactoryState.room_state state)
    | None => Some seq end) = Some first).
  { rewrite Holdest. case_decide; [done|]. f_equal. lia. }
  destruct (decide (N.to_nat 500 < N.to_nat (seq + 1 - first))) as [Hevict|Hkeep].
  - assert (Hfirst : seq = (first + 500)%N) by lia.
    assert (Hkeys2 : forall k, is_Some (delete first messages !! k)
      <-> in_window (first + 1) (seq + 1) k).
    { intros k. unfold in_window. destruct (decide (k = first)) as [->|Hne].
      - rewrite lookup_delete_eq. split; [by intros [? ?]|lia].
      - rewrite lookup_delete_ne, Hkeys1 by done. unfold in_window. lia. }
    simpl_set. rewrite Hold1. eexists. split; [reflexivity|]. split; [|split; [done|split]].
    + exists (first + 1)%N. simpl_set. fold message messages.
      unfold MAX_ROOM_MESSAGES_RETAINED.
      split; [lia|]. split; [lia|]. split; [exact Hkeys2|]. split; [|split].
      * intros k m [_ Hm]%lookup_delete_Some. by apply Hseq1.
      * by apply window_head.
      * rewrite decide_True by lia. f_equal. lia.
    + simpl_set. fold message messages. rewrite lookup_delete_ne by lia. apply lookup_insert_eq.
    + intros other Hne. simpl_set. fold message messages.
      destruct (decide (other = first)) as [->|Hnf].
      * rewrite lookup_delete_eq, decide_True by lia. done.
      * rewrite lookup_delete_ne by done. unfold messages. rewrite lookup_insert_ne by done.
        destruct (decide (other + 500 <= seq)%N) as [Hgone|Hgone]; [|done]. apply eq_None_not_Some. rewrite Hkeys. unfold in_window. lia.
  - eexists. split; [reflexivity|]. split; [|split; [done|split]].
    + exists first. simpl_set. fold message messages. rewrite Hold1.
      unfold MAX_ROOM_MESSAGES_RETAINED.
      split; [lia|]. split; [lia|]. split; [exact Hkeys1|]. split; [exact Hseq1|].
      rewrite !decide_True by lia. split; [done|]. f_equal. lia.
    + simpl_set. apply lookup_insert_eq.
    + intros other Hne. simpl_set. rewrite lookup_insert_ne by done.
      destruct (decide (other + 500 <= seq)%N) as [Hgone|Hgone]; [|done]. apply eq_None_not_Some. rewrite Hkeys. unfold in_window. lia.
Qed.

(** ** Reading *)

Definition seq_lt (m n : RoomMessage.t) : Prop := (RoomMessage.seq m < RoomMessage.seq n)%N.

(** The stored messages [after_seq] leaves, as a filter of the ascending list
    of all of them. *)
Lemma messages_after_filter after_seq state :
  room_inv state ->
  messages_after after_seq state =
  filter (fun m => is_none_or (fun after => (after <? RoomMessage.seq m)%N) after_seq = true)
    (btree_values (FactoryState.room_messages state)).
Proof.
  intros (first & _ & _ & _ & Hseq & _). unfold messages_after, btree_values.
  assert (Hall : Forall (fun entry : N * RoomMessage.t => RoomMessage.seq entry.2 = entry.1)
    (btree_iter (FactoryState.room_messages state))).
  { apply Forall_forall. intros [k m] Hin%elem_of_btree_iter. by apply Hseq. }
  induction Hall as [|[k m] entries Hk _ IH]; [done|]. cbn [fst snd] in Hk.
  rewrite fmap_cons, !filter_cons. cbn [fst snd]. rewrite Hk.
  destruct (decide _); [by rewrite fmap_cons, IH|done].
Qed.

Lemma room_messages_sorted state :
  room_inv state -> StronglySorted seq_lt (btree_values (FactoryState.room_messages state)).
Proof.
  intros (first & _ & _ & _ & Hseq & _).
  assert (Hall : Forall (fun entry : N * RoomMessage.t => RoomMessage.seq entry.2 = entry.1)
    (btree_iter (FactoryState.room_messages state))).
  { apply Forall_forall. intros [k m] Hin%elem_of_btree_iter. by apply Hseq. }
  unfold btree_values. pose proof (btree_iter_strict (FactoryState.room_messages state)) as Hs.
  induction Hs as [|p entries Hs IH Hp]; [constructor|].
  apply Forall_cons in Hall as [Hk Hall]. rewrite fmap_cons. constructor; [by apply IH|].
  apply Forall_fmap. rewrite Forall_forall in *. intros q Hq. unfold seq_lt, compose.
  destruct (Hp q Hq) as [Hle Hne]. rewrite Hk, (Hall q Hq).
  unfold entry_le, key_le, N_key_order in Hle. lia.
Qed.

Lemma StronglySorted_filter {A} (R : relation A) (P : A -> Prop) `{!forall x, Decision (P x)}
    (l : list A) :
  StronglySorted R l -> StronglySorted R (filter P l).
Proof.
  induction 1 as [|x l Hs IH Hx]; [constructor|]. rewrite filter_cons.
  case_decide; [|done]. constructor; [done|]. rewrite Forall_forall in *.
  intros y [_ Hy]%list_elem_of_filter. by apply Hx.
Qed.

Lemma filter_all {A} (P : A -> Prop) `{!forall x, Decision (P x)} (l : list A) :
  (forall x, x ∈ l -> P x) -> filter P l = l.
Proof.
  induction l as [|x l IH]; intros HP; [done|].
  rewrite filter_cons, decide_True by (apply HP; set_solver).
  f_equal. apply IH. set_solver.
Qed.

(** In an ascending list, what lies beyond an element is what follows it. *)
Lemma sorted_filter_drop (messages : list RoomMessage.t) n m :
  StronglySorted seq_lt messages -> messages !! n = Some m ->
  filter (fun m' => (RoomMessage.seq m <? RoomMessage.seq m')%N = true) messages =
  drop (S n) messages.
Proof.
  intros Hs. revert n. induction Hs as [|x messages Hs IH Hx]; intros n; [done|].
  rewrite filter_cons, Forall_forall in *. destruct n as [|n]; simpl.
  - intros [= ->]. rewrite decide_False by (rewrite N.ltb_irrefl; done).
    apply filter_all. intros y Hy. specialize (Hx y Hy).
    unfold seq_lt in Hx. by apply N.ltb_lt.
  - intros Hm. rewrite decide_False; [by apply IH|].
    pose proof (Hx m (list_elem_of_lookup_2 _ _ _ Hm)) as Hlt. unfold seq_lt in Hlt.
    rewrite N.ltb_lt. lia.
Qed.

Definition matching (predicate : RoomMessage.t -> bool) (after_seq : option N)
    (state : FactoryState.t) : list RoomMessage.t :=
  filter (fun m => predicate m = true) (messages_after after_seq state).

(** The messages that match beyond a cursor taken from the matching list. *)
Lemma matching_after predicate after_seq state n m :
  room_inv state -> matching predicate after_seq state !! n = Some m ->
  matching predicate (Some (RoomMessage.seq m)) state =
  drop (S n) (matching predicate after_seq state).
Proof.
  intros Hinv Hm. unfold matching in *.
  rewrite (messages_after_filter after_seq) in * by done.
  set (all := btree_values (FactoryState.room_messages state)) in *.
  set (visible := filter _ all) in *.
  rewrite <-(sorted_filter_drop _ n m); [| |exact Hm]; cycle 1.
  { by apply StronglySorted_filter, StronglySorted_filter, room_messages_sorted. }
  rewrite messages_after_filter by done. fold all. unfold visible.
  rewrite !list_filter_filter. apply list_filter_iff. intros m'. simpl.
  assert (Hafter : is_none_or (fun after => (after <? RoomMessage.seq m)%N) after_seq = true).
  { apply list_elem_of_lookup_2, list_elem_of_filter in Hm as [_ Hm].
    by apply list_elem_of_filter in Hm as [? _]. }
  destruct after_seq as [after|]; simpl in *; [|naive_solver].
  rewrite !N.ltb_lt in *. split; [intros [? ?]; split_and!; try done; lia|naive_solver].
Qed.

Lemma collect_page_run limit predicate pending messages :
  length messages <= limit -> (length messages = limit -> messages <> []) ->
  let found := filter (fun m => predicate m = true) pending in
  collect_page limit predicate pending messages =
  (take limit (messages ++ found),
   if decide (length messages + length found <= limit) then None
   else RoomMessage.seq <$> last (take limit (messages ++ found))).
Proof.
  revert messages. induction pending as [|m pending IH]; intros messages Hle Hne found.
  { subst found. cbn. rewrite app_nil_r, take_ge by lia. by rewrite decide_True by lia. }
  cbn [collect_page]. subst found. rewrite filter_cons. destruct (predicate m) eqn:Hm.
  - rewrite (decide_True (P := true = true)) by done. set (found := filter _ pending) in *. cbn [negb length].
    destruct (decide (length messages = limit)) as [Hfull|Hroom].
    + rewrite decide_False by lia. by rewrite take_app_length'.
    + rewrite IH by (rewrite ?length_app; simpl; first [lia|intros _ []%app_nil; done]).
      fold found. rewrite <-(assoc_L (++)), length_app. cbn [app length].
      by replace (length messages + 1 + length found)
        with (length messages + S (length found)) by lia.
  - rewrite (decide_False (P := false = true)) by done. by apply IH.
Qed.

Lemma read_room_page_run after_seq limit predicate state :
  (0 < limit)%N ->
  let all := matching predicate after_seq state in
  read_room_page after_seq limit predicate state =
  RoomMessagePage.mk (take (N.to_nat limit) all)
    (if decide (length all <= N.to_nat limit) then None
     else RoomMessage.seq <$> last (take (N.to_nat limit) all))
    (RoomState.latest_seq (FactoryState.room_state state)).
Proof.
  intros Hpos all. unfold read_room_page.
  rewrite collect_page_run by (simpl; lia). done.
Qed.

(** A reader that follows the cursors from page to page. *)
Fixpoint follow_pages (fuel : nat) (after_seq : option N) (limit : N)
    (predicate : RoomMessage.t -> bool) (state : FactoryState.t) : list RoomMessage.t :=
  match fuel with
  | O => []
  | S fuel =>
      let page := read_room_page after_seq limit predicate state in
      RoomMessagePage.messages page ++
      match RoomMessagePage.next_after_seq page with
      | Some after => follow_pages fuel (Some after) limit predicate state
      | None => []
      end
  end.

(** [read_room_page] serves the matching messages in order and misses
    none: over a room that satisfies its invariant, a page holds the first
    [limit] matching messages beyond [after_seq], a reader that follows
    [next_after_seq] from page to page receives every matching message beyond
    [after_seq] exactly once and in ascending order, and it needs no more pages
    than there are such messages (and one). *)
Theorem read_room_page_correct limit predicate state
    (Hinv : room_inv state) (Hlimit : (0 < limit)%N) :
  forall after_seq,
    RoomMessagePage.messages (read_room_page after_seq limit predicate state) =
      take (N.to_nat limit) (matching predicate after_seq state)
    /\ forall fuel, length (matching predicate after_seq state) < fuel ->
         follow_pages fuel after_seq limit predicate state = matching predicate after_seq state
         /\ StronglySorted seq_lt (follow_pages fuel after_seq limit predicate state).
Proof.
  intros after_seq. split; [by rewrite read_room_page_run|]. intros fuel Hfuel.
  assert (Hall : follow_pages fuel after_seq limit predicate state =
    matching predicate after_seq state).
  { revert after_seq Hfuel. induction fuel as [|fuel IH]; intros after_seq Hfuel; [lia|].
    simpl. rewrite read_room_page_run by done. simpl. set (all := matching _ _ _) in *.
    destruct (decide (length all <= N.to_nat limit)) as [Hfit|Hmore].
    { by rewrite app_nil_r, take_ge. }
    destruct (lookup_lt_is_Some_2 all (pred (N.to_nat limit))) as [m Hm]; [lia|].
    assert (last (take (N.to_nat limit) all) = Some m) as ->.
    { rewrite last_lookup, length_take, Nat.min_l by lia. by rewrite lookup_take_lt by lia. }
    simpl. rewrite IH by (erewrite matching_after by done; rewrite length_drop; fold all; lia).
    erewrite matching_after by done. fold all.
    replace (S (pred (N.to_nat limit))) with (N.to_nat limit) by lia. apply take_drop. }
  split; [done|]. rewrite Hall. unfold matching. rewrite messages_after_filter by done.
  by apply StronglySorted_filter, StronglySorted_filter, room_messages_sorted.
Qed.

(** ** Posting *)

Lemma push_mention_spec (pending normalized : list string) :
  NoDup normalized ->
  NoDup (foldl push_mention normalized pending)
  /\ (forall x, x ∈ foldl push_mention normalized pending <-> x ∈ normalized \/ x ∈ pending).
Proof.
  revert normalized. induction pending as [|mention pending IH]; intros normalized Hnd; simpl.
  { split; [done|]. intros x. rewrite elem_of_nil. tauto. }
  assert (Hnd' : NoDup (push_mention normalized mention)).
  { unfold push_mention. case_decide; [done|]. apply NoDup_app.
    split; [done|]. split; [set_solver|apply NoDup_singleton]. }
  destruct (IH _ Hnd') as [Hdone Hin]. split; [done|]. intros x. rewrite Hin. unfold push_mention.
  case_decide; set_solver.
Qed.

Lemma normalize_room_mentions_Ok mentions normalized :
  normalize_room_mentions mentions = Ok normalized ->
  NoDup normalized /\ (forall x, x ∈ normalized <-> x ∈ default [] mentions)
  /\ (N.of_nat (length normalized) <= MAX_ROOM_MENTIONS)%N.
Proof.
  unfold normalize_room_mentions. intros [Hmax Heq]%err_if_seq_Ok. injection Heq as <-.
  destruct (push_mention_spec (default [] mentions) []) as [Hnd Hin]; [constructor|].
  split; [done|]. split; [|by apply N.ltb_ge]. intros x. rewrite Hin. set_solver.
Qed.

Lemma normalize_room_body_Ok body trimmed :
  normalize_room_body body = Ok trimmed ->
  trimmed = trim body /\ is_empty trimmed = false /\ (str_len trimmed <= MAX_ROOM_BODY_BYTES)%N.
Proof.
  unfold normalize_room_body. intros [Hne H]%err_if_seq_Ok. apply err_if_seq_Ok in H as [Hmax H].
  injection H as <-. split; [done|]. split; [done|]. by apply N.ltb_ge.
Qed.

Lemma append_room_message_refused caller body mentions content_type now_ms state :
  FactoryState.registry state !! caller = None ->
  append_room_message caller body mentions content_type now_ms state =
  Fail (FactoryError.UnauthorizedRoomPoster caller) state.
Proof.
  intros Hreg. unfold append_room_message. exec.
  by rewrite Hreg, bool_decide_eq_true_2.
Qed.

Section PostingProof.
Context `{Externals}.

(** What a post promises of the message it returns. *)
Definition well_formed_post (caller : string) (request : PostRoomMessageRequest.t) (now_ms : N)
    (message : RoomMessage.t) : Prop :=
  RoomMessage.author_canister_id message = caller
  /\ RoomMessage.created_at message = now_ms
  /\ RoomMessage.message_id message = room_message_id (RoomMessage.seq message)
  /\ RoomMessage.body message = trim (PostRoomMessageRequest.body request)
  /\ is_empty (RoomMessage.body message) = false
  /\ (str_len (RoomMessage.body message) <= MAX_ROOM_BODY_BYTES)%N
  /\ (RoomMessage.content_type message = RoomContentType.ApplicationJson ->
        json_error (RoomMessage.body message) = None)
  /\ NoDup (RoomMessage.mentions message)
  /\ (forall x, x ∈ RoomMessage.mentions message <->
        x ∈ default [] (PostRoomMessageRequest.mentions request))
  /\ (N.of_nat (length (RoomMessage.mentions message)) <= MAX_ROOM_MENTIONS)%N.

(** [post_room_message] on a room that satisfies its invariant, with the
    sequence counter below its 64-bit bound, never panics.  A refused post
    leaves the canister as it was; a well-formed post is refused only to a
    poster that is not registered.  An accepted post comes from a registered
    automaton, carries a trimmed, non-empty, bounded body (valid JSON when
    declared so) and its distinct mentions, takes the next sequence number,
    keeps the invariant (a gap-free window of at most
    [MAX_ROOM_MESSAGES_RETAINED] messages), stores the message, and drops
    exactly the messages that have left the window. *)
Theorem post_room_message_correct caller request now_ms canister
    (Hinv : room_inv (Canister.factory canister))
    (Hbound : in_uint 64 (RoomState.next_seq
      (FactoryState.room_state (Canister.factory canister)) + 1)) :
  let state := Canister.factory canister in
  match post_room_message caller request now_ms canister with
  | Trap => False
  | Fail e canister' =>
      canister' = canister
      /\ (is_ok (normalize_room_body (PostRoomMessageRequest.body request)) = true ->
          is_ok (normalize_room_mentions (PostRoomMessageRequest.mentions request)) = true ->
          is_ok (validate_room_body
            (default RoomContentType.default (PostRoomMessageRequest.content_type request))
            (trim (PostRoomMessageRequest.body request))) = true ->
          e = FactoryError.UnauthorizedRoomPoster caller
          /\ FactoryState.registry state !! caller = None)
  | Done message canister' =>
      let state' := Canister.factory canister' in
      is_Some (FactoryState.registry state !! caller)
      /\ well_formed_post caller request now_ms message
      /\ RoomMessage.seq message = RoomState.next_seq (FactoryState.room_state state)
      /\ RoomState.next_seq (FactoryState.room_state state') = (RoomMessage.seq message + 1)%N
      /\ room_inv state'
      /\ FactoryState.room_messages state' !! RoomMessage.seq message = Some message
      /\ (forall seq, seq <> RoomMessage.seq message ->
            FactoryState.room_messages state' !! seq =
            if decide (seq + MAX_ROOM_MESSAGES_RETAINED <= RoomMessage.seq message)%N then None
            else FactoryState.room_messages state !! seq)
      /\ Canister.spawn_provider_secrets canister' = Canister.spawn_provider_secrets canister
  end.
Proof.
  intros state. unfold post_room_message. exec.
  destruct (normalize_room_body _) as [body|] eqn:Hbody; [|done]. apply normalize_room_body_Ok in Hbody as Hb.
  destruct Hb as (-> & Hne & Hmax).
  destruct (normalize_room_mentions _) as [mentions|] eqn:Hmentions; [|done].
  apply normalize_room_mentions_Ok in Hmentions as (Hnd & Hin & Hmany).
  destruct (validate_room_body _ _) as [[]|] eqn:Hvalid; [|done].
  unfold write_state, zoom. fold state.
  destruct (FactoryState.registry state !! caller) as [record|] eqn:Hreg.
  - edestruct (append_room_message_run caller (trim (PostRoomMessageRequest.body request)) mentions
      (default RoomContentType.default (PostRoomMessageRequest.content_type request)) now_ms state)
      as (state' & -> & Hinv' & Hnext & Hstored & Hothers); [done|by eexists|done|].
    split; [by eexists|]. split; [|split; [done|]].
    + unfold well_formed_post. cbn. split_and!; try done.
      intros Hjson. unfold validate_room_body in Hvalid. rewrite Hjson in Hvalid.
      by destruct (json_error _).
    + split; [done|]. split; [done|]. split; [done|]. split; [exact Hothers|done].
  - rewrite append_room_message_refused by done. split; [by destruct canister|]. intros _ _ _. done.
Qed.

End PostingProof.

Lemma room_inv_default seed : room_inv (default_state seed).
Proof.
  exists 0%N. split; [apply N.le_refl|]. split; [unfold MAX_ROOM_MESSAGES_RETAINED; simpl; lia|].
  split; [|split; [done|by split]].
  intros seq. split; [by intros [? [=]]|]. unfold in_window. simpl. lia.
Qed.

Module RoomSamples.
Definition poster : SpawnedAutomatonRecord.t :=
  SpawnedAutomatonRecord.mk None None "p" "0xs" "0xe" SpawnChain.Base "s" None None None None []
    1 "c" None None None None None None None None.

Definition canister : Canister.t :=
  Canister.mk (Samples.initial <| FactoryState.registry := {["p" := poster]} |>) ∅.

Definition request : PostRoomMessageRequest.t :=
  PostRoomMessageRequest.mk " hello " (Some ["q"; "q"]) None.

Definition next (state : FactoryState.t) : FactoryState.t :=
  match append_room_message "p" "m" [] RoomContentType.TextPlain 5 state with
  | Done _ state' => state'
  | _ => state
  end.

Definition filled : FactoryState.t := next (next (next (Canister.factory canister))).
End RoomSamples.

Lemma room_samples_inv : room_inv (Canister.factory RoomSamples.canister).
Proof. exact (room_inv_default ∅). Qed.

Lemma room_samples_next state :
  room_inv state -> is_Some (FactoryState.registry state !! "p") ->
  in_uint 64 (RoomState.next_seq (FactoryState.room_state state) + 1) ->
  room_inv (RoomSamples.next state).
Proof.
  intros Hinv Hreg Hbound. unfold RoomSamples.next.
  edestruct (append_room_message_run "p" "m" [] RoomContentType.TextPlain 5 state)
    as (state' & Hrun & Hinv' & _); [done..|]. by rewrite Hrun.
Qed.

Lemma room_samples_filled : room_inv RoomSamples.filled.
Proof.
  unfold RoomSamples.filled.
  repeat (apply room_samples_next; [|vm_compute; by eexists|vm_compute; done]).
  apply room_samples_inv.
Qed.

Lemma read_room_page_correct_witness :
  length (follow_pages 4 (Some 0%N) 1 (fun _ => true) RoomSamples.filled) = 2
  /\ RoomMessagePage.messages (read_room_page (Some 0%N) 1 (fun _ => true) RoomSamples.filled) =
     take 1 (matching (fun _ => true) (Some 0%N) RoomSamples.filled).
Proof.
  destruct (read_room_page_correct 1 (fun _ => true) RoomSamples.filled room_samples_filled
    eq_refl (Some 0%N)) as [Hpage Hfollow].
  split; [|exact Hpage]. rewrite (proj1 (Hfollow 4 ltac:(vm_compute; lia))).
  vm_compute. reflexivity.
Defined.

Lemma post_room_message_correct_witness :
  match @post_room_message toy_externals "p" RoomSamples.request 5 RoomSamples.canister with
  | Done message canister' =>
      RoomMessage.body message = "hello" /\ RoomMessage.mentions message = ["q"]
      /\ room_inv (Canister.factory canister')
  | _ => False
  end.
Proof.
  pose proof (@post_room_message_correct toy_externals "p" RoomSamples.request 5
    RoomSamples.canister room_samples_inv ltac:(done)) as Hpost.
  destruct (@post_room_message toy_externals "p" RoomSamples.request 5 RoomSamples.canister)
    as [message canister'| |] eqn:Hrun; [|vm_compute in Hrun; discriminate Hrun..].
  vm_compute in Hrun. injection Hrun as <- _.
  split; [reflexivity|]. split; [reflexivity|]. apply Hpost.
Defined.
