(* ===== verification/Evm.v ===== *)
(** * Evm: transaction encoding

    Models the pure half of [backend/factory/src/evm.rs]: hexadecimal decoding,
    RLP, the calldata of the escrow contract, release and refund plans, the
    unsigned and signed EIP-1559 transactions and the refund drafts that are
    persisted before anything is signed.  A buffer the code appends to is the
    list it appends.

    RLP is specified by a decoder, [rlp_item]; the round trips show that the
    bytes that are hashed and signed determine every field of the
    transaction. *)

From S2P Require Import Prelude Text SpawnProtocol Types Externals.
From Stdlib Require Import Ascii Strings.Byte.

(** ** Big-endian integers *)

(** [n as u8]. *)
Definition u8 (n : N) : byte := default x00 (Byte.of_N (n `mod` 256)).

(** [n.to_be_bytes()] of a [k]-byte integer. *)
Fixpoint to_be_bytes (k : nat) (n : N) : list byte :=
  match k with
  | O => []
  | S k' => to_be_bytes k' (n `div` 256) ++ [u8 n]
  end.

(** The bytes from the first that is not zero; the last byte at least. *)
Definition strip_zeros (bytes : list byte) : list byte :=
  drop (default (length bytes - 1) (fst <$> list_find (fun b => b <> x00) bytes)) bytes.

(** The integer big-endian bytes stand for. *)
Definition be_value (bytes : list byte) : N :=
  fold_left (fun acc b => acc * 256 + Byte.to_N b)%N bytes 0%N.

(** ** RLP *)

(** [usize] is four bytes on [wasm32]. *)
Definition rlp_encode_length_prefix (len offset : N) : list byte :=
  if (len <=? 55)%N then [u8 (offset + len)]
  else
    let length_slice := strip_zeros (to_be_bytes 4 len) in
    u8 (offset + 55 + N.of_nat (length length_slice)) :: length_slice.

Definition rlp_encode_bytes (bytes : list byte) : list byte :=
  match bytes with
  | [b] => if (Byte.to_N b <? 128)%N then [b] else rlp_encode_length_prefix 1 128 ++ [b]
  | _ => rlp_encode_length_prefix (N.of_nat (length bytes)) 128 ++ bytes
  end.

Definition rlp_encode_u64 (value : N) : list byte :=
  if (value =? 0)%N then [x80] else rlp_encode_bytes (strip_zeros (to_be_bytes 8 value)).

Definition rlp_encode_list (items : list (list byte)) : list byte :=
  let payload := concat items in
  rlp_encode_length_prefix (N.of_nat (length payload)) 192 ++ payload.

(** ** Hexadecimal fields *)

Definition decode_hex (value : string) : result FactoryError.t (list byte) :=
  let trimmed := default value (strip_prefix value "0x") in
  ok_or (decode_hex_pairs trimmed) (FactoryError.InvalidAmount value).

Definition decode_fixed_hex (size : nat) (value : string) : result FactoryError.t (list byte) :=
  bytes ← decode_hex value;
  err_if (negb (bool_decide (length bytes = size))) (FactoryError.InvalidAmount value);;
  Ok bytes.

(** ** Plans and transactions *)

Module ReproductionRelease.
Record t := mk {
  child_amount : N;
  royalty_one_recipient : string;
  royalty_one_amount : N;
  royalty_two_recipient : string;
  royalty_two_amount : N;
}.
End ReproductionRelease.

Module ReleaseTransactionPlan.
Record t := mk {
  claim_id : string;
  recipient : string;
  escrow_contract_address : string;
  nonce : N;
  config : ReleaseBroadcastConfig.t;
  calldata : list byte;
}.
End ReleaseTransactionPlan.

Module UnsignedEip1559Transaction.
Record t := mk {
  chain_id : N;
  nonce : N;
  max_priority_fee_per_gas : N;
  max_fee_per_gas : N;
  gas_limit : N;
  to : list byte;
  data : list byte;
}.
End UnsignedEip1559Transaction.

Definition encode_u128_word (value : N) : list byte := replicate 16 x00 ++ to_be_bytes 16 value.

Definition encode_address_word (value : string) : result FactoryError.t (list byte) :=
  address ← decode_fixed_hex 20 value;
  Ok (replicate 12 x00 ++ address).

Definition rlp_encode_eip1559_base_fields (tx : UnsignedEip1559Transaction.t)
    : list (list byte) :=
  [rlp_encode_u64 (UnsignedEip1559Transaction.chain_id tx);
   rlp_encode_u64 (UnsignedEip1559Transaction.nonce tx);
   rlp_encode_u64 (UnsignedEip1559Transaction.max_priority_fee_per_gas tx);
   rlp_encode_u64 (UnsignedEip1559Transaction.max_fee_per_gas tx);
   rlp_encode_u64 (UnsignedEip1559Transaction.gas_limit tx);
   rlp_encode_bytes (UnsignedEip1559Transaction.to tx);
   rlp_encode_u64 0;
   rlp_encode_bytes (UnsignedEip1559Transaction.data tx);
   [xc0]].

Definition eip1559_envelope (payload : list byte) : list byte := x02 :: payload.

Definition build_signing_payload (tx : UnsignedEip1559Transaction.t) : list byte :=
  eip1559_envelope (rlp_encode_list (rlp_encode_eip1559_base_fields tx)).

Definition signature_length_error : FactoryError.t :=
  FactoryError.ManagementCallFailed "sign_with_ecdsa" "signature must be 64 bytes".

Definition build_signed_raw_transaction (tx : UnsignedEip1559Transaction.t) (y_parity : bool)
    (signature : list byte) : result FactoryError.t (list byte) :=
  err_if (negb (bool_decide (length signature = 64))) signature_length_error;;
  let fields := rlp_encode_eip1559_base_fields tx ++
    [rlp_encode_u64 (N.b2n y_parity);
     rlp_encode_bytes (take 32 signature);
     rlp_encode_bytes (drop 32 signature)] in
  Ok (eip1559_envelope (rlp_encode_list fields)).

Definition signature_record (y_parity : bool) (signature : list byte)
    : result FactoryError.t ReleaseSignatureRecord.t :=
  err_if (negb (bool_decide (length signature = 64))) signature_length_error;;
  Ok (ReleaseSignatureRecord.mk y_parity (hex_encode_prefixed (take 32 signature))
        (hex_encode_prefixed (drop 32 signature))).

Definition build_unsigned_release_transaction (plan : ReleaseTransactionPlan.t)
    : result FactoryError.t UnsignedEip1559Transaction.t :=
  let config := ReleaseTransactionPlan.config plan in
  to ← decode_fixed_hex 20 (ReleaseTransactionPlan.escrow_contract_address plan);
  Ok (UnsignedEip1559Transaction.mk
    (ReleaseBroadcastConfig.chain_id config)
    (ReleaseTransactionPlan.nonce plan)
    (ReleaseBroadcastConfig.max_priority_fee_per_gas config)
    (ReleaseBroadcastConfig.max_fee_per_gas config)
    (ReleaseBroadcastConfig.gas_limit config)
    to (ReleaseTransactionPlan.calldata plan)).

Definition build_release_broadcast_record (plan : ReleaseTransactionPlan.t)
    : ReleaseBroadcastRecord.t :=
  let config := ReleaseTransactionPlan.config plan in {|
    ReleaseBroadcastRecord.claim_id := ReleaseTransactionPlan.claim_id plan;
    ReleaseBroadcastRecord.recipient := ReleaseTransactionPlan.recipient plan;
    ReleaseBroadcastRecord.escrow_contract_address :=
      ReleaseTransactionPlan.escrow_contract_address plan;
    ReleaseBroadcastRecord.nonce := ReleaseTransactionPlan.nonce plan;
    ReleaseBroadcastRecord.chain_id := ReleaseBroadcastConfig.chain_id config;
    ReleaseBroadcastRecord.max_priority_fee_per_gas :=
      ReleaseBroadcastConfig.max_priority_fee_per_gas config;
    ReleaseBroadcastRecord.max_fee_per_gas := ReleaseBroadcastConfig.max_fee_per_gas config;
    ReleaseBroadcastRecord.gas_limit := ReleaseBroadcastConfig.gas_limit config;
    ReleaseBroadcastRecord.ecdsa_key_name := Some (ReleaseBroadcastConfig.ecdsa_key_name config);
    ReleaseBroadcastRecord.calldata_hex :=
      hex_encode_prefixed (ReleaseTransactionPlan.calldata plan);
    ReleaseBroadcastRecord.signing_payload_hash := None;
    ReleaseBroadcastRecord.signature := None;
    ReleaseBroadcastRecord.raw_transaction_hash := None;
    ReleaseBroadcastRecord.raw_transaction_hex := None;
    ReleaseBroadcastRecord.rpc_tx_hash := None;
    ReleaseBroadcastRecord.broadcast_at := None;
    ReleaseBroadcastRecord.receipt_block_number := None;
    ReleaseBroadcastRecord.receipt_block_hash := None;
    ReleaseBroadcastRecord.receipt_status := None;
    ReleaseBroadcastRecord.last_error := None;
  |}.

Section Plans.
Context `{Externals}.

Definition keccak_hex (bytes : list byte) : string := hex_encode_prefixed (keccak256 bytes).

Definition selector (signature : string) : list byte := take 4 (keccak256 (as_bytes signature)).

Definition encode_release_calldata (claim_id recipient : string)
    : result FactoryError.t (list byte) :=
  claim_id ← decode_fixed_hex 32 claim_id;
  recipient ← decode_fixed_hex 20 recipient;
  Ok (selector "release(bytes32,address)" ++ claim_id ++ replicate 12 x00 ++ recipient).

Definition encode_refund_calldata (claim_id : string) : result FactoryError.t (list byte) :=
  claim_id ← decode_fixed_hex 32 claim_id;
  Ok (selector "refund(bytes32)" ++ claim_id).

Definition encode_reproduction_release_calldata (claim_id child : string)
    (release : ReproductionRelease.t) : result FactoryError.t (list byte) :=
  claim_id ← decode_fixed_hex 32 claim_id;
  child ← encode_address_word child;
  one ← encode_address_word (ReproductionRelease.royalty_one_recipient release);
  two ← encode_address_word (ReproductionRelease.royalty_two_recipient release);
  Ok (selector "releaseReproduction(bytes32,address,uint256,address,uint256,address,uint256)"
    ++ claim_id ++ child ++ encode_u128_word (ReproductionRelease.child_amount release)
    ++ one ++ encode_u128_word (ReproductionRelease.royalty_one_amount release)
    ++ two ++ encode_u128_word (ReproductionRelease.royalty_two_amount release)).

Definition build_release_plan (claim_id recipient escrow_contract_address : string) (nonce : N)
    (config : ReleaseBroadcastConfig.t) : result FactoryError.t ReleaseTransactionPlan.t :=
  calldata ← encode_release_calldata claim_id recipient;
  Ok (ReleaseTransactionPlan.mk claim_id recipient escrow_contract_address nonce config calldata).

Definition build_refund_plan (claim_id recipient escrow_contract_address : string) (nonce : N)
    (config : ReleaseBroadcastConfig.t) : result FactoryError.t ReleaseTransactionPlan.t :=
  calldata ← encode_refund_calldata claim_id;
  Ok (ReleaseTransactionPlan.mk claim_id recipient escrow_contract_address nonce config calldata).

Definition build_reproduction_release_plan (claim_id recipient escrow_contract_address : string)
    (nonce : N) (config : ReleaseBroadcastConfig.t) (release : ReproductionRelease.t)
    : result FactoryError.t ReleaseTransactionPlan.t :=
  calldata ← encode_reproduction_release_calldata claim_id recipient release;
  Ok (ReleaseTransactionPlan.mk claim_id recipient escrow_contract_address nonce config calldata).

(** *** Refund drafts *)

Definition build_refund_transaction_draft (claim_id recipient escrow_contract_address : string)
    (nonce : N) (config : ReleaseBroadcastConfig.t)
    : result FactoryError.t ReleaseBroadcastRecord.t :=
  plan ← build_refund_plan claim_id recipient escrow_contract_address nonce config;
  unsigned ← build_unsigned_release_transaction plan;
  Ok (build_release_broadcast_record plan
    <| ReleaseBroadcastRecord.signing_payload_hash :=
         Some (keccak_hex (build_signing_payload unsigned)) |>).

Definition draft_error (message : string) : FactoryError.t :=
  FactoryError.ManagementCallFailed "resume_refund_draft" message.

Definition validate_refund_transaction_draft (record : ReleaseBroadcastRecord.t)
    (expected_claim_id expected_recipient ecdsa_key_name : string)
    : result FactoryError.t ReleaseBroadcastConfig.t :=
  err_if (negb (bool_decide (ReleaseBroadcastRecord.claim_id record = expected_claim_id))
          || negb (bool_decide (ReleaseBroadcastRecord.recipient record = expected_recipient)))
    (draft_error "persisted refund draft identity does not match the session");;
  let config := ReleaseBroadcastConfig.mk
    (ReleaseBroadcastRecord.chain_id record)
    (ReleaseBroadcastRecord.max_priority_fee_per_gas record)
    (ReleaseBroadcastRecord.max_fee_per_gas record)
    (ReleaseBroadcastRecord.gas_limit record)
    (default ecdsa_key_name (ReleaseBroadcastRecord.ecdsa_key_name record)) in
  expected ← build_refund_transaction_draft (ReleaseBroadcastRecord.claim_id record)
    (ReleaseBroadcastRecord.recipient record)
    (ReleaseBroadcastRecord.escrow_contract_address record)
    (ReleaseBroadcastRecord.nonce record) config;
  err_if (negb (bool_decide (ReleaseBroadcastRecord.calldata_hex expected =
                             ReleaseBroadcastRecord.calldata_hex record))
          || negb (bool_decide (ReleaseBroadcastRecord.signing_payload_hash expected =
                                ReleaseBroadcastRecord.signing_payload_hash record)))
    (draft_error "persisted refund draft transaction fields are inconsistent");;
  Ok config.

Definition resume_error (message : string) : FactoryError.t :=
  FactoryError.ManagementCallFailed "resume_refund_broadcast" message.

Definition reconstruct_legacy_refund_raw_transaction (record : ReleaseBroadcastRecord.t)
    : result FactoryError.t string :=
  let config := ReleaseBroadcastConfig.default
    <| ReleaseBroadcastConfig.chain_id := ReleaseBroadcastRecord.chain_id record |>
    <| ReleaseBroadcastConfig.max_priority_fee_per_gas :=
         ReleaseBroadcastRecord.max_priority_fee_per_gas record |>
    <| ReleaseBroadcastConfig.max_fee_per_gas := ReleaseBroadcastRecord.max_fee_per_gas record |>
    <| ReleaseBroadcastConfig.gas_limit := ReleaseBroadcastRecord.gas_limit record |> in
  plan ← build_refund_plan (ReleaseBroadcastRecord.claim_id record)
    (ReleaseBroadcastRecord.recipient record)
    (ReleaseBroadcastRecord.escrow_contract_address record)
    (ReleaseBroadcastRecord.nonce record) config;
  err_if (negb (bool_decide (hex_encode_prefixed (ReleaseTransactionPlan.calldata plan) =
                             ReleaseBroadcastRecord.calldata_hex record)))
    (resume_error "legacy refund calldata does not match the deterministic refund plan");;
  signature ← ok_or (ReleaseBroadcastRecord.signature record)
    (resume_error "legacy refund requires explicit migration: signature is missing");
  r ← decode_hex (ReleaseSignatureRecord.r signature);
  s ← decode_hex (ReleaseSignatureRecord.s signature);
  unsigned ← build_unsigned_release_transaction plan;
  raw ← build_signed_raw_transaction unsigned (ReleaseSignatureRecord.y_parity signature) (r ++ s);
  expected ← ok_or (ReleaseBroadcastRecord.raw_transaction_hash record)
    (resume_error "legacy refund requires explicit migration: raw transaction hash is missing");
  err_if (negb (bool_decide (keccak_hex raw = expected)))
    (resume_error "legacy refund reconstruction does not match its persisted transaction hash");;
  Ok (hex_encode_prefixed raw).
End Plans.

(** ** A decoder, the specification of RLP

    [rlp_item bytes] splits off the first item: whether it is a list, its
    payload, and the bytes after it. *)

Definition rlp_take (is_list : bool) (len : N) (bytes : list byte)
    : option (bool * list byte * list byte) :=
  if (len <=? N.of_nat (length bytes))%N
  then Some (is_list, take (N.to_nat len) bytes, drop (N.to_nat len) bytes) else None.

Definition rlp_take_long (is_list : bool) (size : N) (bytes : list byte)
    : option (bool * list byte * list byte) :=
  rlp_take is_list (be_value (take (N.to_nat size) bytes)) (drop (N.to_nat size) bytes).

Definition rlp_item (bytes : list byte) : option (bool * list byte * list byte) :=
  match bytes with
  | [] => None
  | b :: rest =>
      let n := Byte.to_N b in
      if (n <? 128)%N then Some (false, [b], rest)
      else if (n <? 184)%N then rlp_take false (n - 128) rest
      else if (n <? 192)%N then rlp_take_long false (n - 183) rest
      else if (n <? 248)%N then rlp_take true (n - 192) rest
      else rlp_take_long true (n - 247) rest
  end.

Fixpoint rlp_items (fuel : nat) (bytes : list byte) : option (list (bool * list byte)) :=
  match bytes, fuel with
  | [], _ => Some []
  | _, O => None
  | _, S fuel =>
      '(is_list, payload, rest) ← rlp_item bytes;
      items ← rlp_items fuel rest;
      Some ((is_list, payload) :: items)
  end.

(** The items of a typed transaction. *)
Definition decode_envelope (bytes : list byte) : option (list (bool * list byte)) :=
  match bytes with
  | x02 :: payload =>
      '(is_list, body, rest) ← rlp_item payload;
      if is_list && bool_decide (rest = []) then rlp_items (length body) body else None
  | _ => None
  end.

(** A big-endian integer without leading zeros, as RLP requires of scalars. *)
Definition canonical_scalar (bytes : list byte) : Prop := head bytes <> Some x00.

Definition scalar (bytes : list byte) : bool * list byte := (false, bytes).

(** *** Big-endian bytes *)

Lemma to_N_u8 n : Byte.to_N (u8 n) = (n `mod` 256)%N.
Proof.
  unfold u8. pose proof (N.mod_lt n 256 ltac:(lia)) as Hlt.
  destruct (Byte.of_N (n `mod` 256)) as [b|] eqn:Hb.
  - simpl. by apply Byte.to_of_N_iff.
  - apply Byte.of_N_None_iff in Hb. lia.
Qed.

Lemma length_to_be_bytes k n : length (to_be_bytes k n) = k.
Proof. revert n. induction k as [|k IH]; intros n; [done|]. simpl. rewrite length_app, IH. simpl. lia. Qed.

Lemma be_value_snoc bytes b : be_value (bytes ++ [b]) = (be_value bytes * 256 + Byte.to_N b)%N.
Proof. unfold be_value. by rewrite fold_left_app. Qed.

Lemma be_value_to_be_bytes k n : be_value (to_be_bytes k n) = (n `mod` 256 ^ N.of_nat k)%N.
Proof.
  revert n. induction k as [|k IH]; intros n; [simpl; by rewrite N.mod_1_r|].
  simpl to_be_bytes. rewrite be_value_snoc, IH, to_N_u8, Nat2N.inj_succ, N.pow_succ_r'.
  pose proof (pow2_pos (8 * N.of_nat k)) as Hpos.
  rewrite (N.Div0.mod_mul_r n 256). lia.
Qed.

Lemma be_value_zeros count bytes : be_value (replicate count x00 ++ bytes) = be_value bytes.
Proof. unfold be_value. induction count as [|count IH]; [done|]. simpl. exact IH. Qed.

(** What [strip_zeros] cuts off is zeros. *)
Lemma strip_zeros_spec bytes :
  exists count, bytes = replicate count x00 ++ strip_zeros bytes
    /\ (bytes <> [] -> strip_zeros bytes <> [])
    /\ (be_value bytes <> 0%N -> canonical_scalar (strip_zeros bytes)).
Proof.
  unfold strip_zeros.
  destruct (list_find (fun b => b <> x00) bytes) as [[i b]|] eqn:Hfind; simpl.
  - apply list_find_Some in Hfind as (Hi & Hb & Hzero).
    pose proof (lookup_lt_Some _ _ _ Hi) as Hlt.
    assert (Htake : take i bytes = replicate i x00).
    { apply list_eq_same_length with i; rewrite ?length_take, ?length_replicate; [lia..|].
      intros j x y Hj Hx Hy. rewrite lookup_take_lt in Hx by done.
      rewrite lookup_replicate in Hy. destruct Hy as [-> _].
      destruct (decide (x = x00)) as [|Hne]; [done|]. by destruct (Hzero j x Hx). }
    exists i. split; [by rewrite <-Htake, take_drop|].
    assert (Hhead : drop i bytes = b :: drop (S i) bytes) by (by apply drop_S).
    rewrite Hhead. split; [done|]. intros _ [= ->]. done.
  - rewrite list_find_None, Forall_forall in Hfind.
    assert (Hall : bytes = replicate (length bytes) x00).
    { symmetry. apply replicate_as_Forall. split; [done|]. apply Forall_forall. intros x Hx.
      destruct (decide (x00 = x)) as [|Hne]; [done|]. by destruct (Hfind x Hx). }
    exists (length bytes - 1).
    assert (Hzero : be_value bytes = 0%N).
    { rewrite Hall, <-(app_nil_r (replicate _ _)), be_value_zeros. done. }
    split; [|split; [|congruence]].
    + rewrite <-(take_drop (length bytes - 1) bytes) at 1. f_equal. rewrite Hall at 2.
      rewrite take_replicate. f_equal. lia.
    + intros Hne Hdrop. apply (f_equal length) in Hdrop. rewrite length_drop in Hdrop.
      destruct bytes; simpl in *; [done|lia].
Qed.

Lemma be_value_strip bytes : be_value (strip_zeros bytes) = be_value bytes.
Proof.
  destruct (strip_zeros_spec bytes) as (count & Heq & _). rewrite Heq at 2.
  by rewrite be_value_zeros.
Qed.

Lemma length_strip bytes : length (strip_zeros bytes) <= length bytes.
Proof. unfold strip_zeros. rewrite length_drop. lia. Qed.

(** *** Decoding what the encoder wrote *)

Lemma length_slice_bounds len :
  (55 < len)%N -> (len < 2 ^ 32)%N ->
  let length_slice := strip_zeros (to_be_bytes 4 len) in
  1 <= length length_slice <= 4 /\ be_value length_slice = len.
Proof.
  intros Hmin Hmax length_slice. split.
  - pose proof (length_strip (to_be_bytes 4 len)) as Hle. rewrite length_to_be_bytes in Hle.
    destruct (strip_zeros_spec (to_be_bytes 4 len)) as (_ & _ & Hne & _).
    assert (Hwhole : to_be_bytes 4 len <> []).
    { intros Heq%(f_equal length). by rewrite length_to_be_bytes in Heq. }
    specialize (Hne Hwhole). fold length_slice in Hle, Hne.
    destruct length_slice; [done|]. cbn [length] in *. lia.
  - unfold length_slice. rewrite be_value_strip, be_value_to_be_bytes.
    apply N.mod_small. exact Hmax.
Qed.

Lemma rlp_take_app is_list payload rest :
  rlp_take is_list (N.of_nat (length payload)) (payload ++ rest) = Some (is_list, payload, rest).
Proof.
  unfold rlp_take. rewrite length_app, (proj2 (N.leb_le _ _)) by lia.
  by rewrite Nat2N.id, take_app_length, drop_app_length.
Qed.

Lemma rlp_item_prefixed (is_list : bool) payload rest :
  (N.of_nat (length payload) < 2 ^ 32)%N ->
  rlp_item (rlp_encode_length_prefix (N.of_nat (length payload))
              (if is_list then 192 else 128) ++ payload ++ rest)
  = Some (is_list, payload, rest).
Proof.
  intros Hmax. unfold rlp_encode_length_prefix. destruct (N.leb_spec (N.of_nat (length payload)) 55).
  - simpl. rewrite to_N_u8, N.mod_small by (destruct is_list; lia).
    destruct is_list;
      repeat (rewrite (proj2 (N.ltb_ge _ _)) by lia); rewrite (proj2 (N.ltb_lt _ _)) by lia;
      rewrite <-rlp_take_app; f_equal; lia.
  - destruct (length_slice_bounds _ H Hmax) as [Hlen Hvalue].
    set (length_slice := strip_zeros _) in *. cbn [app rlp_item].
    rewrite to_N_u8, N.mod_small by (destruct is_list; lia).
    destruct is_list; repeat (rewrite (proj2 (N.ltb_ge _ _)) by lia);
      [|rewrite (proj2 (N.ltb_lt _ _)) by lia]; unfold rlp_take_long;
      rewrite take_app_length' by lia; rewrite drop_app_length' by lia;
      by rewrite Hvalue, rlp_take_app.
Qed.

Lemma rlp_item_bytes bytes rest :
  (N.of_nat (length bytes) < 2 ^ 32)%N ->
  rlp_item (rlp_encode_bytes bytes ++ rest) = Some (false, bytes, rest).
Proof.
  intros Hmax. pose proof (rlp_item_prefixed false bytes rest Hmax) as Hprefixed.
  destruct bytes as [|b [|b' bytes]]; [exact Hprefixed| |by rewrite <-Hprefixed, (assoc_L (++))].
  unfold rlp_encode_bytes. destruct (Byte.to_N b <? 128)%N eqn:Hsmall.
  - simpl. by rewrite Hsmall.
  - by rewrite <-Hprefixed, (assoc_L (++)).
Qed.

(** The bytes [rlp_encode_u64] writes as the item. *)
Definition minimal (value : N) : list byte :=
  if (value =? 0)%N then [] else strip_zeros (to_be_bytes 8 value).

Lemma minimal_spec value :
  in_uint 64 value ->
  be_value (minimal value) = value /\ canonical_scalar (minimal value)
  /\ (N.of_nat (length (minimal value)) < 2 ^ 32)%N
  /\ rlp_encode_u64 value = rlp_encode_bytes (minimal value).
Proof.
  intros Hvalue. unfold minimal, rlp_encode_u64. destruct (N.eqb_spec value 0) as [->|Hne].
  { split; [done|]. split; [done|]. split; [simpl; lia|done]. }
  assert (Hbe : be_value (to_be_bytes 8 value) = value).
  { rewrite be_value_to_be_bytes. apply N.mod_small. unfold in_uint, max_uint in Hvalue.
    change (256 ^ N.of_nat 8)%N with (2 ^ 64)%N. pose proof (pow2_pos 64). lia. }
  split; [by rewrite be_value_strip|]. split.
  - destruct (strip_zeros_spec (to_be_bytes 8 value)) as (_ & _ & _ & Hcanon).
    apply Hcanon. congruence.
  - split; [|done]. pose proof (length_strip (to_be_bytes 8 value)) as Hlen.
    rewrite length_to_be_bytes in Hlen. lia.
Qed.

Lemma rlp_encode_nonempty bytes : rlp_encode_bytes bytes <> [].
Proof.
  unfold rlp_encode_bytes, rlp_encode_length_prefix.
  destruct bytes as [|b [|b' bytes]]; repeat (destruct (_ <? _)%N || destruct (_ <=? _)%N); done.
Qed.

(** One more item in front. *)
Lemma rlp_items_cons fuel bytes rest :
  (N.of_nat (length bytes) < 2 ^ 32)%N ->
  rlp_items (S fuel) (rlp_encode_bytes bytes ++ rest) =
  items ← rlp_items fuel rest; Some (scalar bytes :: items).
Proof.
  intros Hmax. pose proof (rlp_item_bytes bytes rest Hmax) as Hitem.
  pose proof (rlp_encode_nonempty bytes) as Hne.
  destruct (rlp_encode_bytes bytes ++ rest) as [|b l] eqn:Heq.
  - by apply app_nil in Heq as [? _].
  - cbn [rlp_items]. by rewrite Hitem.
Qed.

Lemma rlp_items_more fuel bytes items :
  rlp_items fuel bytes = Some items -> rlp_items (S fuel) bytes = Some items.
Proof.
  revert bytes items. induction fuel as [|fuel IH]; intros [|b bytes] items; try done.
  intros H. cbn [rlp_items] in *.
  destruct (rlp_item (b :: bytes)) as [[[is_list payload] rest]|]; [|done]. cbn in *.
  destruct (rlp_items fuel rest) as [items'|] eqn:Hrest; [|done]. apply IH in Hrest.
  cbn [rlp_items] in Hrest. by rewrite Hrest.
Qed.

Lemma rlp_items_fuel fuel fuel' bytes items :
  fuel <= fuel' -> rlp_items fuel bytes = Some items -> rlp_items fuel' bytes = Some items.
Proof. induction 1 as [|fuel' _ IH]; [done|]. intros H. by apply rlp_items_more, IH. Qed.

(** The envelope of encoded items decodes to what the items decode to. *)
Lemma decode_envelope_items fields items fuel :
  (N.of_nat (length (concat fields)) < 2 ^ 32)%N ->
  rlp_items fuel (concat fields) = Some items -> fuel <= length (concat fields) ->
  decode_envelope (eip1559_envelope (rlp_encode_list fields)) = Some items.
Proof.
  intros Hmax Hitems Hfuel. unfold decode_envelope, eip1559_envelope, rlp_encode_list.
  pose proof (rlp_item_prefixed true (concat fields) [] Hmax) as Hitem.
  rewrite app_nil_r in Hitem. rewrite Hitem. simpl. by eapply rlp_items_fuel.
Qed.

(** ** Transactions determine their bytes, and bytes their transaction *)

(** The ranges of a transaction's fields, and a payload below [usize::MAX]. *)
Definition tx_ok (tx : UnsignedEip1559Transaction.t) : Prop :=
  in_uint 64 (UnsignedEip1559Transaction.chain_id tx)
  /\ in_uint 64 (UnsignedEip1559Transaction.nonce tx)
  /\ in_uint 64 (UnsignedEip1559Transaction.max_priority_fee_per_gas tx)
  /\ in_uint 64 (UnsignedEip1559Transaction.max_fee_per_gas tx)
  /\ in_uint 64 (UnsignedEip1559Transaction.gas_limit tx)
  /\ length (UnsignedEip1559Transaction.to tx) = 20
  /\ (N.of_nat (length (UnsignedEip1559Transaction.data tx)) < 2 ^ 31)%N.

(** The scalar fields in front of the access list. *)
Definition tx_scalars (tx : UnsignedEip1559Transaction.t) : list (list byte) :=
  [minimal (UnsignedEip1559Transaction.chain_id tx);
   minimal (UnsignedEip1559Transaction.nonce tx);
   minimal (UnsignedEip1559Transaction.max_priority_fee_per_gas tx);
   minimal (UnsignedEip1559Transaction.max_fee_per_gas tx);
   minimal (UnsignedEip1559Transaction.gas_limit tx);
   UnsignedEip1559Transaction.to tx;
   [];
   UnsignedEip1559Transaction.data tx].

Definition tx_items (tx : UnsignedEip1559Transaction.t) : list (bool * list byte) :=
  (scalar <$> tx_scalars tx) ++ [(true, [])].

Definition decode_tx_items (items : list (bool * list byte))
    : option (UnsignedEip1559Transaction.t * list (bool * list byte)) :=
  match items with
  | (false, chain_id) :: (false, nonce) :: (false, tip) :: (false, fee) :: (false, gas)
      :: (false, to) :: (false, []) :: (false, data) :: (true, []) :: rest =>
      Some (UnsignedEip1559Transaction.mk (be_value chain_id) (be_value nonce) (be_value tip)
              (be_value fee) (be_value gas) to data, rest)
  | _ => None
  end.

Definition decode_unsigned (bytes : list byte) : option UnsignedEip1559Transaction.t :=
  items ← decode_envelope bytes;
  '(tx, rest) ← decode_tx_items items;
  if decide (rest = []) then Some tx else None.

Definition decode_signed (bytes : list byte)
    : option (UnsignedEip1559Transaction.t * N * list byte * list byte) :=
  items ← decode_envelope bytes;
  '(tx, rest) ← decode_tx_items items;
  match rest with
  | [(false, y); (false, r); (false, s)] => Some (tx, be_value y, r, s)
  | _ => None
  end.

Lemma decode_tx_items_of tx rest :
  tx_ok tx -> decode_tx_items (tx_items tx ++ rest) = Some (tx, rest).
Proof.
  intros (Hchain & Hnonce & Htip & Hfee & Hgas & _). unfold tx_items, tx_scalars, scalar.
  cbn [fmap list_fmap app decode_tx_items].
  rewrite (proj1 (minimal_spec _ Hchain)), (proj1 (minimal_spec _ Hnonce)),
    (proj1 (minimal_spec _ Htip)), (proj1 (minimal_spec _ Hfee)), (proj1 (minimal_spec _ Hgas)).
  by destruct tx.
Qed.

(** Encoded byte strings, one after the other. *)
Lemma rlp_items_bytes fields fuel rest items :
  Forall (fun field : list byte => N.of_nat (length field) < 2 ^ 32)%N fields ->
  rlp_items fuel rest = Some items ->
  rlp_items (length fields + fuel) (concat (rlp_encode_bytes <$> fields) ++ rest) =
  Some ((scalar <$> fields) ++ items).
Proof.
  intros Hfields Hrest. induction Hfields as [|field fields Hfield _ IH]; [done|].
  rewrite !fmap_cons. cbn [concat length Nat.add]. rewrite <-(assoc_L (++)).
  by rewrite rlp_items_cons, IH.
Qed.

Lemma base_fields_eq tx :
  tx_ok tx ->
  rlp_encode_eip1559_base_fields tx = (rlp_encode_bytes <$> tx_scalars tx) ++ [[xc0]]
  /\ Forall (fun field : list byte => N.of_nat (length field) < 2 ^ 32)%N (tx_scalars tx).
Proof.
  intros (Hchain & Hnonce & Htip & Hfee & Hgas & Hto & Hdata).
  apply minimal_spec in Hchain as (_ & _ & ? & Hchain).
  apply minimal_spec in Hnonce as (_ & _ & ? & Hnonce).
  apply minimal_spec in Htip as (_ & _ & ? & Htip).
  apply minimal_spec in Hfee as (_ & _ & ? & Hfee).
  apply minimal_spec in Hgas as (_ & _ & ? & Hgas). split.
  - unfold rlp_encode_eip1559_base_fields. by rewrite Hchain, Hnonce, Htip, Hfee, Hgas.
  - unfold tx_scalars. rewrite !Forall_cons, Hto. split_and!; try done.
    by eapply N.lt_trans.
Qed.

Lemma rlp_items_base tx extra :
  tx_ok tx -> Forall (fun field : list byte => N.of_nat (length field) < 2 ^ 32)%N extra ->
  rlp_items (9 + length extra)
    (concat (rlp_encode_eip1559_base_fields tx ++ (rlp_encode_bytes <$> extra))) =
  Some (tx_items tx ++ (scalar <$> extra)).
Proof.
  intros Hok Hextra. destruct (base_fields_eq tx Hok) as [-> Hbase].
  rewrite !concat_app. change (concat [[xc0]]) with [xc0]. rewrite <-!(assoc_L (++)).
  change (9 + length extra) with (length (tx_scalars tx) + (1 + length extra)).
  unfold tx_items. rewrite <-(assoc_L (++)). apply rlp_items_bytes; [done|].
  pose proof (rlp_items_bytes extra 0 [] [] Hextra eq_refl) as Hrest.
  rewrite !app_nil_r, Nat.add_0_r in Hrest.
  change (1 + length extra) with (S (length extra)). cbn [app].
  change (rlp_items (S (length extra)) (xc0 :: ?l)) with
    ('(is_list, payload, rest) ← rlp_item (xc0 :: l);
     items ← rlp_items (length extra) rest; Some ((is_list, payload) :: items)).
  pose proof (rlp_item_prefixed true [] (concat (rlp_encode_bytes <$> extra)) eq_refl) as Hlist.
  change (rlp_encode_length_prefix _ _ ++ ?l) with (xc0 :: l) in Hlist. cbn [app] in Hlist.
  rewrite Hlist. cbn. by rewrite Hrest.
Qed.

Lemma length_concat_nonempty {A} (fields : list (list A)) :
  Forall (fun field => field <> []) fields -> length fields <= length (concat fields).
Proof.
  induction 1 as [|field fields Hfield _ IH]; [done|]. cbn [concat length].
  rewrite length_app. destruct field; [done|]. simpl. lia.
Qed.

Lemma length_rlp_encode_bytes bytes : length (rlp_encode_bytes bytes) <= length bytes + 5.
Proof.
  assert (Hprefix : forall len offset, length (rlp_encode_length_prefix len offset) <= 5).
  { intros len offset. unfold rlp_encode_length_prefix. destruct (len <=? 55)%N; [simpl; lia|].
    cbn [length]. pose proof (length_strip (to_be_bytes 4 len)) as Hle.
    rewrite length_to_be_bytes in Hle. lia. }
  unfold rlp_encode_bytes. destruct bytes as [|b [|b' bytes]]; [simpl; lia| |].
  - destruct (_ <? _)%N; [simpl; lia|]. rewrite length_app. specialize (Hprefix 1%N 128%N). lia.
  - rewrite length_app. specialize (Hprefix (N.of_nat (length (b :: b' :: bytes))) 128%N). lia.
Qed.

Lemma length_concat_le {A} (fields : list (list A)) bound :
  Forall (fun field => length field <= bound) fields ->
  length (concat fields) <= length fields * bound.
Proof.
  induction 1 as [|field fields Hfield _ IH]; [done|]. cbn [concat length].
  rewrite length_app. lia.
Qed.

(** The envelope of the transaction, with extra scalar fields at its end. *)
Lemma decode_envelope_tx tx extra :
  tx_ok tx -> length extra <= 3 -> Forall (fun field : list byte => length field <= 32) extra ->
  decode_envelope (eip1559_envelope (rlp_encode_list
    (rlp_encode_eip1559_base_fields tx ++ (rlp_encode_bytes <$> extra)))) =
  Some (tx_items tx ++ (scalar <$> extra)).
Proof.
  intros Hok Hcount Hextra.
  assert (Hsmall : Forall (fun field : list byte => N.of_nat (length field) < 2 ^ 32)%N extra).
  { eapply Forall_impl; [exact Hextra|]. simpl. lia. }
  apply decode_envelope_items with (9 + length extra); [|by apply rlp_items_base|].
  - destruct (base_fields_eq tx Hok) as [-> _]. unfold tx_scalars.
    rewrite !fmap_cons, !concat_app, !length_app. cbn [concat fmap list_fmap].
    rewrite !length_app. destruct Hok as (_ & _ & _ & _ & _ & Hto & Hdata).
    pose proof (fun n => length_rlp_encode_bytes (minimal n)) as Hmin.
    assert (Hle : forall n, length (minimal n) <= 8).
    { intros n. unfold minimal. destruct (n =? 0)%N; [simpl; lia|].
      pose proof (length_strip (to_be_bytes 8 n)) as Hle. by rewrite length_to_be_bytes in Hle. }
    pose proof (length_rlp_encode_bytes (UnsignedEip1559Transaction.to tx)).
    pose proof (length_rlp_encode_bytes (UnsignedEip1559Transaction.data tx)).
    pose proof (length_rlp_encode_bytes []).
    assert (Hx : length (concat (rlp_encode_bytes <$> extra)) <= 3 * 37).
    { etrans; [apply (length_concat_le _ 37)|].
      - apply Forall_fmap. eapply Forall_impl; [exact Hextra|]. intros field Hf. unfold compose.
        pose proof (length_rlp_encode_bytes field). cbv beta in *. lia.
      - rewrite length_fmap. lia. }
    pose proof (Hmin (UnsignedEip1559Transaction.chain_id tx)).
    pose proof (Hmin (UnsignedEip1559Transaction.nonce tx)).
    pose proof (Hmin (UnsignedEip1559Transaction.max_priority_fee_per_gas tx)).
    pose proof (Hmin (UnsignedEip1559Transaction.max_fee_per_gas tx)).
    pose proof (Hmin (UnsignedEip1559Transaction.gas_limit tx)).
    pose proof (Hle (UnsignedEip1559Transaction.chain_id tx)).
    pose proof (Hle (UnsignedEip1559Transaction.nonce tx)).
    pose proof (Hle (UnsignedEip1559Transaction.max_priority_fee_per_gas tx)).
    pose proof (Hle (UnsignedEip1559Transaction.max_fee_per_gas tx)).
    pose proof (Hle (UnsignedEip1559Transaction.gas_limit tx)).
    cbn [length] in *. lia.
  - etrans; [|apply length_concat_nonempty].
    + destruct (base_fields_eq tx Hok) as [-> _]. rewrite !length_app, !length_fmap. simpl. lia.
    + destruct (base_fields_eq tx Hok) as [-> _]. rewrite !Forall_app. split_and!.
      * apply Forall_fmap, Forall_true. intros. apply rlp_encode_nonempty.
      * by constructor.
      * apply Forall_fmap, Forall_true. intros. apply rlp_encode_nonempty.
Qed.

(** the bytes that are hashed and signed determine the transaction: for a
    transaction whose fields are in range, decoding [build_signing_payload] as
    a typed RLP transaction returns exactly that transaction.  Two transactions
    with the same signing payload are therefore equal. *)
Theorem signing_payload_roundtrip tx (Hok : tx_ok tx) :
  decode_unsigned (build_signing_payload tx) = Some tx
  /\ forall other, tx_ok other -> build_signing_payload other = build_signing_payload tx ->
       other = tx.
Proof.
  assert (Hround : forall t, tx_ok t -> decode_unsigned (build_signing_payload t) = Some t).
  { intros t Ht. unfold decode_unsigned, build_signing_payload.
    pose proof (decode_envelope_tx t [] Ht ltac:(simpl; lia) ltac:(constructor)) as Henvelope.
    rewrite !app_nil_r in Henvelope. rewrite Henvelope. cbn [mbind option_bind].
    by rewrite <-(app_nil_r (tx_items t)), decode_tx_items_of. }
  split; [by apply Hround|]. intros other Hother Heq.
  pose proof (Hround tx Hok) as H1. rewrite <-Heq, (Hround other Hother) in H1. congruence.
Qed.

(** The scalar items of a list of items. *)
Definition scalars_canonical (items : list (bool * list byte)) : Prop :=
  forall bytes, scalar bytes ∈ items -> canonical_scalar bytes.

(** C35 - [build_signed_raw_transaction] accepts exactly the 64-byte signatures,
    and the raw transaction it builds decodes to the transaction, the parity
    and the two halves of the signature.  The signature halves are written as
    they are: the integers [r] and [s] of the raw transaction are in the form
    RLP requires (no leading zero byte) only when neither half starts with a
    zero byte. *)
Theorem signed_transaction_roundtrip tx y_parity signature (Hok : tx_ok tx) :
  match build_signed_raw_transaction tx y_parity signature with
  | Ok raw =>
      length signature = 64
      /\ decode_signed raw = Some (tx, N.b2n y_parity, take 32 signature, drop 32 signature)
      /\ (forall items, decode_envelope raw = Some items ->
            scalars_canonical (drop 9 items) <->
            canonical_scalar (take 32 signature) /\ canonical_scalar (drop 32 signature))
  | Err e => length signature <> 64 /\ e = signature_length_error
  end.
Proof.
  unfold build_signed_raw_transaction. destruct (bool_decide (length signature = 64)) eqn:Hlen;
    cbn [negb err_if mbind result_bind].
  2:{ apply bool_decide_eq_false in Hlen. done. }
  apply bool_decide_eq_true in Hlen. split; [done|].
  assert (Hy : in_uint 64 (N.b2n y_parity)) by (by destruct y_parity).
  pose proof (minimal_spec _ Hy) as (Hvalue & Hcanon & _ & ->).
  set (extra := [minimal (N.b2n y_parity); take 32 signature; drop 32 signature]).
  assert (Henvelope : decode_envelope (eip1559_envelope (rlp_encode_list
    (rlp_encode_eip1559_base_fields tx ++ (rlp_encode_bytes <$> extra)))) =
    Some (tx_items tx ++ (scalar <$> extra))).
  { apply decode_envelope_tx; [done|simpl; lia|]. unfold extra. rewrite !Forall_cons.
    rewrite length_take, length_drop. split_and!; try lia; [by destruct y_parity; simpl; lia|done]. }
  change (rlp_encode_bytes <$> extra) with [rlp_encode_bytes (minimal (N.b2n y_parity));
    rlp_encode_bytes (take 32 signature); rlp_encode_bytes (drop 32 signature)] in Henvelope.
  split.
  - unfold decode_signed. rewrite Henvelope. cbn [mbind option_bind].
    rewrite decode_tx_items_of by done. cbn. by rewrite Hvalue.
  - intros items Hitems. rewrite Henvelope in Hitems. apply (inj Some) in Hitems as <-.
    change (drop 9 (tx_items tx ++ (scalar <$> extra))) with (scalar <$> extra).
    unfold scalars_canonical. split.
    + intros Hall. split; apply Hall; set_solver.
    + intros [Hr Hs] bytes (field & [= ->] & Hin)%list_elem_of_fmap. unfold extra in Hin.
      rewrite !elem_of_cons in Hin. destruct Hin as [->|[->|[->|[]%not_elem_of_nil]]]; done.
Qed.

(** *** Hexadecimal fields *)

Lemma decode_hex_encode bytes : decode_hex (hex_encode_prefixed bytes) = Ok bytes.
Proof.
  unfold decode_hex, hex_encode_prefixed. rewrite strip_0x. change (default ?v (Some ?s)) with s. unfold ok_or. by rewrite hex_encode_decode.
Qed.

Lemma decode_fixed_hex_Ok size value bytes :
  decode_fixed_hex size value = Ok bytes -> length bytes = size.
Proof.
  unfold decode_fixed_hex. destruct (decode_hex value) as [decoded|]; [|done]. simpl.
  intros [Hlen [= ->]]%err_if_seq_Ok. by apply negb_false_iff, bool_decide_eq_true in Hlen.
Qed.

Lemma decode_fixed_hex_encode bytes :
  decode_fixed_hex (length bytes) (hex_encode_prefixed bytes) = Ok bytes.
Proof.
  unfold decode_fixed_hex. rewrite decode_hex_encode. simpl. by rewrite bool_decide_eq_true_2.
Qed.

Section PlansProof.
Context `{ExternalsOk}.

Lemma length_selector signature : length (selector signature) = 4.
Proof. unfold selector. rewrite length_take, length_keccak256. lia. Qed.

(** The [n]-th 32-byte argument of a call. *)
Definition argument (n : nat) (calldata : list byte) : list byte :=
  take 32 (drop (4 + 32 * n) calldata).

(** An address is the low 20 bytes of its word. *)
Definition word_address (word : list byte) : list byte := drop 12 word.

Lemma argument_words (words : list (list byte)) sel n word :
  length sel = 4 -> Forall (fun word => length word = 32) words -> words !! n = Some word ->
  argument n (sel ++ concat words) = word.
Proof.
  intros Hsel Hwords Hn. unfold argument. rewrite drop_app_ge by lia.
  replace (4 + 32 * n - length sel) with (32 * n) by lia. revert n Hn.
  induction Hwords as [|w words Hw _ IH]; intros n Hn; [done|]. cbn [concat]. destruct n as [|n].
  - injection Hn as ->. rewrite Nat.mul_0_r, drop_0. by apply take_app_length'.
  - replace (32 * S n) with (length w + 32 * n) by lia. rewrite drop_app_add'; [by apply IH|done].
Qed.

Lemma encode_address_word_Ok value word :
  encode_address_word value = Ok word ->
  length word = 32 /\ decode_fixed_hex 20 value = Ok (word_address word).
Proof.
  unfold encode_address_word. destruct (decode_fixed_hex 20 value) as [address|] eqn:Haddress; [|done].
  cbn [mbind result_bind]. intros [= <-]. split; [|done].
  apply decode_fixed_hex_Ok in Haddress. simpl. by rewrite Haddress.
Qed.

Lemma length_u128_word value : length (encode_u128_word value) = 32.
Proof. unfold encode_u128_word. by rewrite length_app, length_replicate, length_to_be_bytes. Qed.

Lemma u128_word_value value : in_uint 128 value -> be_value (encode_u128_word value) = value.
Proof.
  intros Hvalue. unfold encode_u128_word. rewrite be_value_zeros, be_value_to_be_bytes.
  apply N.mod_small. unfold in_uint, max_uint in Hvalue.
  change (256 ^ N.of_nat 16)%N with (2 ^ 128)%N. pose proof (pow2_pos 128). lia.
Qed.

(** Calldata: a selector and the words of the arguments. *)
Definition call (signature : string) (words : list (list byte)) (calldata : list byte) : Prop :=
  calldata = selector signature ++ concat words
  /\ forall n word, words !! n = Some word -> argument n calldata = word.

Lemma call_words signature words :
  Forall (fun word => length word = 32) words ->
  call signature words (selector signature ++ concat words).
Proof.
  intros Hwords. split; [done|]. intros n word. by apply argument_words; [apply length_selector|].
Qed.

(** the calldata of the escrow contract: each call is its 4-byte selector
    followed by one 32-byte word per argument, so every argument can be read
    back at its offset: the claim id, the addresses in the low 20 bytes of
    their words, and the 128-bit amounts big-endian.  Encoding fails only when
    an argument is not hexadecimal text of its exact size. *)
Theorem calldata_correct claim_id recipient release
    (Hchild : in_uint 128 (ReproductionRelease.child_amount release))
    (Hone : in_uint 128 (ReproductionRelease.royalty_one_amount release))
    (Htwo : in_uint 128 (ReproductionRelease.royalty_two_amount release)) :
  match encode_refund_calldata claim_id with
  | Ok calldata => exists claim, decode_fixed_hex 32 claim_id = Ok claim
      /\ call "refund(bytes32)" [claim] calldata
  | Err e => decode_fixed_hex 32 claim_id = Err e
  end
  /\ match encode_release_calldata claim_id recipient with
     | Ok calldata => exists claim word, decode_fixed_hex 32 claim_id = Ok claim
         /\ decode_fixed_hex 20 recipient = Ok (word_address word)
         /\ call "release(bytes32,address)" [claim; word] calldata
     | Err e => decode_fixed_hex 32 claim_id = Err e \/ decode_fixed_hex 20 recipient = Err e
     end
  /\ match encode_reproduction_release_calldata claim_id recipient release with
     | Ok calldata => exists claim child amount one one_amount two two_amount,
         decode_fixed_hex 32 claim_id = Ok claim
         /\ decode_fixed_hex 20 recipient = Ok (word_address child)
         /\ be_value amount = ReproductionRelease.child_amount release
         /\ decode_fixed_hex 20 (ReproductionRelease.royalty_one_recipient release)
            = Ok (word_address one)
         /\ be_value one_amount = ReproductionRelease.royalty_one_amount release
         /\ decode_fixed_hex 20 (ReproductionRelease.royalty_two_recipient release)
            = Ok (word_address two)
         /\ be_value two_amount = ReproductionRelease.royalty_two_amount release
         /\ call "releaseReproduction(bytes32,address,uint256,address,uint256,address,uint256)"
              [claim; child; amount; one; one_amount; two; two_amount] calldata
     | Err e => decode_fixed_hex 32 claim_id = Err e
         \/ encode_address_word recipient = Err e
         \/ encode_address_word (ReproductionRelease.royalty_one_recipient release) = Err e
         \/ encode_address_word (ReproductionRelease.royalty_two_recipient release) = Err e
     end.
Proof.
  unfold encode_refund_calldata, encode_release_calldata, encode_reproduction_release_calldata.
  destruct (decode_fixed_hex 32 claim_id) as [claim|e] eqn:Hclaim; cbn [mbind result_bind];
    [|by auto].
  apply decode_fixed_hex_Ok in Hclaim as Hlen. split; [|split].
  - exists claim. split; [done|]. rewrite <-(app_nil_r claim) at 2. by apply (call_words _ [claim]); constructor.
  - destruct (decode_fixed_hex 20 recipient) as [to|e] eqn:Hto; cbn [mbind result_bind]; [|by auto].
    exists claim, (replicate 12 x00 ++ to). split; [done|]. split; [done|].
    apply decode_fixed_hex_Ok in Hto as Hlento.
    replace (claim ++ replicate 12 x00 ++ to) with (concat [claim; replicate 12 x00 ++ to])
      by (cbn [concat]; by rewrite app_nil_r).
    apply call_words. repeat constructor; [done|]. rewrite length_app, length_replicate. lia.
  - destruct (encode_address_word recipient) as [child|e] eqn:Hc; cbn [mbind result_bind]; [|by auto].
    destruct (encode_address_word (ReproductionRelease.royalty_one_recipient release))
      as [one|e] eqn:H1; cbn [mbind result_bind]; [|by auto].
    destruct (encode_address_word (ReproductionRelease.royalty_two_recipient release))
      as [two|e] eqn:H2; cbn [mbind result_bind]; [|by auto].
    apply encode_address_word_Ok in Hc as [Hcl Hc], H1 as [H1l H1], H2 as [H2l H2].
    exists claim, child, (encode_u128_word (ReproductionRelease.child_amount release)), one,
      (encode_u128_word (ReproductionRelease.royalty_one_amount release)), two,
      (encode_u128_word (ReproductionRelease.royalty_two_amount release)).
    rewrite !u128_word_value by done. split; [done|]. split; [done|]. split; [done|].
    split; [done|]. split; [done|]. split; [done|]. split; [done|].
    match goal with |- call _ ?words (_ ++ ?tail) =>
      replace tail with (concat words) by (cbn [concat]; by rewrite app_nil_r) end.
    apply call_words. rewrite !Forall_cons, !length_u128_word. done.
Qed.
End PlansProof.

(** ** Refund drafts *)

Section Drafts.
Context `{Externals}.

(** The transaction a record describes. *)
Definition recorded_config (record : ReleaseBroadcastRecord.t) (ecdsa_key_name : string)
    : ReleaseBroadcastConfig.t :=
  ReleaseBroadcastConfig.mk
    (ReleaseBroadcastRecord.chain_id record)
    (ReleaseBroadcastRecord.max_priority_fee_per_gas record)
    (ReleaseBroadcastRecord.max_fee_per_gas record)
    (ReleaseBroadcastRecord.gas_limit record)
    (default ecdsa_key_name (ReleaseBroadcastRecord.ecdsa_key_name record)).

Definition refund_transaction (record : ReleaseBroadcastRecord.t)
    (tx : UnsignedEip1559Transaction.t) : Prop :=
  exists claim to,
    decode_fixed_hex 32 (ReleaseBroadcastRecord.claim_id record) = Ok claim
    /\ decode_fixed_hex 20 (ReleaseBroadcastRecord.escrow_contract_address record) = Ok to
    /\ tx = UnsignedEip1559Transaction.mk
         (ReleaseBroadcastRecord.chain_id record) (ReleaseBroadcastRecord.nonce record)
         (ReleaseBroadcastRecord.max_priority_fee_per_gas record)
         (ReleaseBroadcastRecord.max_fee_per_gas record)
         (ReleaseBroadcastRecord.gas_limit record) to (selector "refund(bytes32)" ++ claim)
    /\ ReleaseBroadcastRecord.calldata_hex record =
       hex_encode_prefixed (UnsignedEip1559Transaction.data tx)
    /\ ReleaseBroadcastRecord.signing_payload_hash record =
       Some (keccak_hex (build_signing_payload tx)).

(** A draft records the transaction it was built for. *)
Lemma build_refund_transaction_draft_Ok claim_id recipient escrow nonce config record :
  build_refund_transaction_draft claim_id recipient escrow nonce config = Ok record <->
  exists claim to,
    decode_fixed_hex 32 claim_id = Ok claim /\ decode_fixed_hex 20 escrow = Ok to
    /\ let plan := ReleaseTransactionPlan.mk claim_id recipient escrow nonce config
         (selector "refund(bytes32)" ++ claim) in
       record = build_release_broadcast_record plan
         <| ReleaseBroadcastRecord.signing_payload_hash := Some (keccak_hex (build_signing_payload
              (UnsignedEip1559Transaction.mk (ReleaseBroadcastConfig.chain_id config) nonce
                (ReleaseBroadcastConfig.max_priority_fee_per_gas config)
                (ReleaseBroadcastConfig.max_fee_per_gas config)
                (ReleaseBroadcastConfig.gas_limit config) to
                (selector "refund(bytes32)" ++ claim)))) |>.
Proof.
  unfold build_refund_transaction_draft, build_refund_plan, encode_refund_calldata,
    build_unsigned_release_transaction.
  destruct (decode_fixed_hex 32 claim_id) as [claim|e]; cbn [mbind result_bind]; [|naive_solver].
  cbn [ReleaseTransactionPlan.escrow_contract_address].
  destruct (decode_fixed_hex 20 escrow) as [to|e]; cbn [mbind result_bind]; [|naive_solver].
  split.
  - intros Heq. exists claim, to. split; [done|]. split; [done|]. by injection Heq as <-.
  - intros (claim' & to' & [= <-] & [= <-] & ->). done.
Qed.

(** Refund drafts.  A draft that was built is accepted for its own session
    and yields the configuration it was built with; and whatever record is
    accepted for a session names that session's claim and recipient and
    carries the calldata and signing hash of exactly one transaction, the one
    its own nonce, fees and contract address describe. *)
Theorem refund_draft_correct claim_id recipient :
  (forall escrow nonce config record key_name,
     build_refund_transaction_draft claim_id recipient escrow nonce config = Ok record ->
     validate_refund_transaction_draft record claim_id recipient key_name = Ok config)
  /\ (forall record key_name config,
     validate_refund_transaction_draft record claim_id recipient key_name = Ok config ->
     ReleaseBroadcastRecord.claim_id record = claim_id
     /\ ReleaseBroadcastRecord.recipient record = recipient
     /\ config = recorded_config record key_name
     /\ exists tx, refund_transaction record tx).
Proof.
  split.
  - intros escrow nonce config record key_name Hbuild. unfold validate_refund_transaction_draft.
    apply build_refund_transaction_draft_Ok in Hbuild as Hrecord.
    destruct Hrecord as (claim & to & Hclaim & Hto & Hrecord). cbv zeta in Hrecord.
    destruct config as [chain tip fee gas key].
    assert (Hagain : build_refund_transaction_draft (ReleaseBroadcastRecord.claim_id record)
      (ReleaseBroadcastRecord.recipient record)
      (ReleaseBroadcastRecord.escrow_contract_address record)
      (ReleaseBroadcastRecord.nonce record)
      (ReleaseBroadcastConfig.mk (ReleaseBroadcastRecord.chain_id record)
        (ReleaseBroadcastRecord.max_priority_fee_per_gas record)
        (ReleaseBroadcastRecord.max_fee_per_gas record)
        (ReleaseBroadcastRecord.gas_limit record)
        (default key_name (ReleaseBroadcastRecord.ecdsa_key_name record))) = Ok record).
    { rewrite Hrecord at 1 2 3 4 5 6 7 8 9. exact Hbuild. }
    rewrite Hagain. cbn [mbind result_bind].
    assert (Hc : ReleaseBroadcastRecord.claim_id record = claim_id) by (by rewrite Hrecord).
    assert (Hr : ReleaseBroadcastRecord.recipient record = recipient) by (by rewrite Hrecord).
    rewrite !bool_decide_eq_true_2 by done. cbn. by rewrite Hrecord.
  - intros record key_name config. unfold validate_refund_transaction_draft.
    intros [Hid Hrest]%err_if_seq_Ok. apply orb_false_iff in Hid as [Hc Hr].
    apply negb_false_iff, bool_decide_eq_true in Hc, Hr.
    destruct (build_refund_transaction_draft _ _ _ _ _) as [expected|e] eqn:Hbuild; [|done].
    cbn [mbind result_bind] in Hrest. apply err_if_seq_Ok in Hrest as [Hsame [= <-]].
    apply orb_false_iff in Hsame as [Hdata Hhash].
    apply negb_false_iff, bool_decide_eq_true in Hdata, Hhash.
    split; [done|]. split; [done|]. split; [done|].
    apply build_refund_transaction_draft_Ok in Hbuild as (claim & to & Hclaim & Hto & ->).
    eexists. exists claim, to. split; [done|]. split; [done|]. split; [reflexivity|].
    split; [by rewrite <-Hdata|by rewrite <-Hhash].
Qed.
End Drafts.

Section Legacy.
Context `{Externals}.

(** Records written before raw transactions were persisted.  Rebuilding
    the raw transaction of a record whose recorded signature and transaction
    hash come from signing the transaction it describes returns exactly those
    signed bytes; and whatever bytes are returned hash to the recorded
    transaction hash, so nothing else can be broadcast in its place. *)
Theorem reconstruct_legacy_refund_correct record tx y_parity signature raw :
  (refund_transaction record tx ->
   signature_record y_parity signature = Ok (default (ReleaseSignatureRecord.mk false "" "")
     (ReleaseBroadcastRecord.signature record)) ->
   ReleaseBroadcastRecord.signature record <> None ->
   build_signed_raw_transaction tx y_parity signature = Ok raw ->
   ReleaseBroadcastRecord.raw_transaction_hash record = Some (keccak_hex raw) ->
   reconstruct_legacy_refund_raw_transaction record = Ok (hex_encode_prefixed raw))
  /\ (forall text, reconstruct_legacy_refund_raw_transaction record = Ok text ->
        exists bytes, text = hex_encode_prefixed bytes
          /\ ReleaseBroadcastRecord.raw_transaction_hash record = Some (keccak_hex bytes)).
Proof.
  unfold reconstruct_legacy_refund_raw_transaction, build_refund_plan, encode_refund_calldata,
    build_unsigned_release_transaction. split.
  - intros (claim & to & Hclaim & Hto & -> & Hdata & _) Hsig Hsome Hraw Hhash.
    rewrite Hclaim. cbn [mbind result_bind ReleaseTransactionPlan.calldata].
    rewrite (bool_decide_eq_true_2 (_ = _)) by (by rewrite Hdata).
    destruct (ReleaseBroadcastRecord.signature record) as [recorded|]; [|done].
    cbn [default from_option] in Hsig. change (default ?d (Some ?r)) with r in Hsig.
    unfold signature_record in Hsig. apply err_if_seq_Ok in Hsig as [_ [= <-]].
    cbn [negb err_if ok_or mbind result_bind ReleaseSignatureRecord.r ReleaseSignatureRecord.s
      ReleaseSignatureRecord.y_parity].
    rewrite !decode_hex_encode. cbn [mbind result_bind
      ReleaseTransactionPlan.escrow_contract_address]. rewrite Hto.
    cbn [mbind result_bind ReleaseTransactionPlan.config ReleaseTransactionPlan.nonce
      ReleaseTransactionPlan.calldata]. rewrite take_drop.
    match goal with |- context [build_signed_raw_transaction ?t _ _] =>
      change t with (UnsignedEip1559Transaction.mk
         (ReleaseBroadcastRecord.chain_id record) (ReleaseBroadcastRecord.nonce record)
         (ReleaseBroadcastRecord.max_priority_fee_per_gas record)
         (ReleaseBroadcastRecord.max_fee_per_gas record)
         (ReleaseBroadcastRecord.gas_limit record) to (selector "refund(bytes32)" ++ claim)) end.
    rewrite Hraw, Hhash. cbn [mbind result_bind ok_or]. by rewrite bool_decide_eq_true_2.
  - intros text.
    destruct (decode_fixed_hex 32 _) as [claim|]; [|done]. cbn [mbind result_bind].
    intros [_ Hrest]%err_if_seq_Ok.
    destruct (ReleaseBroadcastRecord.signature record) as [recorded|]; [|done].
    cbn [ok_or mbind result_bind] in Hrest.
    destruct (decode_hex (ReleaseSignatureRecord.r recorded)) as [r|]; [|done].
    destruct (decode_hex (ReleaseSignatureRecord.s recorded)) as [s|]; [|done].
    cbn [mbind result_bind] in Hrest. destruct (decode_fixed_hex 20 _) as [to|]; [|done].
    cbn [mbind result_bind] in Hrest.
    destruct (build_signed_raw_transaction _ _ _) as [bytes|]; [|done].
    destruct (ReleaseBroadcastRecord.raw_transaction_hash record) as [expected|]; [|done].
    cbn [ok_or mbind result_bind] in Hrest. apply err_if_seq_Ok in Hrest as [Hhash [= <-]].
    apply negb_false_iff, bool_decide_eq_true in Hhash. exists bytes. by rewrite Hhash.
Qed.
End Legacy.

(** ** Witnesses *)

Module EvmSamples.
#[local] Existing Instance toy_externals.

Definition claim_id : string := hex_encode_prefixed (replicate 32 x07).
Definition address : string := hex_encode_prefixed (replicate 20 x05).
Definition tx : UnsignedEip1559Transaction.t :=
  UnsignedEip1559Transaction.mk 8453 300 1000000000 3000000000 250000 (replicate 20 x05)
    (replicate 68 x09).
Definition release : ReproductionRelease.t := ReproductionRelease.mk 90 address 7 address 3.
(** The halves of a signature whose [r] starts with a zero byte. *)
Definition short_signature : list byte := x00 :: replicate 63 x11.
Definition draft : result FactoryError.t ReleaseBroadcastRecord.t :=
  build_refund_transaction_draft claim_id address address 4 ReleaseBroadcastConfig.default.

(** A record of an older version: signed, without its raw transaction. *)
Definition refund_tx : UnsignedEip1559Transaction.t :=
  UnsignedEip1559Transaction.mk 8453 4 1000000000 3000000000 250000 (replicate 20 x05)
    (selector "refund(bytes32)" ++ replicate 32 x07).
Definition raw : list byte :=
  match build_signed_raw_transaction refund_tx true (replicate 64 x11) with
  | Ok raw => raw
  | Err _ => []
  end.
Definition legacy : ReleaseBroadcastRecord.t :=
  match draft with
  | Ok record => record
      <| ReleaseBroadcastRecord.signature := Some (ReleaseSignatureRecord.mk true
           (hex_encode_prefixed (replicate 32 x11)) (hex_encode_prefixed (replicate 32 x11))) |>
      <| ReleaseBroadcastRecord.raw_transaction_hash := Some (keccak_hex raw) |>
  | Err _ => build_release_broadcast_record
      (ReleaseTransactionPlan.mk "" "" "" 0 ReleaseBroadcastConfig.default [])
  end.
End EvmSamples.

Lemma sample_tx_ok : tx_ok EvmSamples.tx.
Proof. repeat split; vm_compute; done. Qed.

Lemma signing_payload_roundtrip_witness :
  build_signing_payload EvmSamples.tx <> []
  /\ decode_unsigned (build_signing_payload EvmSamples.tx) = Some EvmSamples.tx.
Proof. split; [done|]. apply (signing_payload_roundtrip EvmSamples.tx sample_tx_ok). Defined.

(** A signature whose [r] starts with a zero byte is encoded as an integer that
    RLP forbids. *)
Lemma signed_transaction_roundtrip_witness :
  match build_signed_raw_transaction EvmSamples.tx true EvmSamples.short_signature with
  | Ok raw => exists items, decode_envelope raw = Some items /\ ~ scalars_canonical (drop 9 items)
  | Err _ => False
  end.
Proof.
  pose proof (signed_transaction_roundtrip EvmSamples.tx true EvmSamples.short_signature
    sample_tx_ok) as H.
  destruct (build_signed_raw_transaction EvmSamples.tx true EvmSamples.short_signature)
    as [raw|e] eqn:Hraw; [|by destruct H].
  destruct H as (_ & Hdecode & Hcanonical). unfold decode_signed in Hdecode.
  destruct (decode_envelope raw) as [items|]; [|done].
  exists items. split; [done|]. rewrite (Hcanonical items eq_refl). intros [Hr _]. by apply Hr.
Defined.

Lemma calldata_correct_witness :
  match encode_release_calldata (H := toy_externals) EvmSamples.claim_id EvmSamples.address with
  | Ok calldata => word_address (argument 1 calldata) = replicate 20 x05
  | Err _ => False
  end.
Proof.
  destruct (@calldata_correct toy_externals toy_externals_ok EvmSamples.claim_id
    EvmSamples.address EvmSamples.release ltac:(vm_compute; done) ltac:(vm_compute; done)
    ltac:(vm_compute; done)) as (_ & Hrelease & _).
  destruct (encode_release_calldata EvmSamples.claim_id EvmSamples.address) as [calldata|e] eqn:He;
    [|vm_compute in He; discriminate He].
  destruct Hrelease as (claim & word & _ & Hword & _ & Hargs).
  rewrite (Hargs 1 word eq_refl). vm_compute in Hword. by injection Hword.
Defined.

Lemma refund_draft_correct_witness :
  match EvmSamples.draft with
  | Ok record =>
      @validate_refund_transaction_draft toy_externals record EvmSamples.claim_id
        EvmSamples.address "other" = Ok ReleaseBroadcastConfig.default
  | Err _ => False
  end.
Proof.
  destruct EvmSamples.draft as [record|e] eqn:Hdraft; [|vm_compute in Hdraft; discriminate Hdraft].
  exact (proj1 (@refund_draft_correct toy_externals EvmSamples.claim_id EvmSamples.address)
    EvmSamples.address 4%N ReleaseBroadcastConfig.default record "other" Hdraft).
Defined.

Lemma reconstruct_legacy_refund_correct_witness :
  @reconstruct_legacy_refund_raw_transaction toy_externals EvmSamples.legacy
  = Ok (hex_encode_prefixed EvmSamples.raw).
Proof.
  apply (proj1 (@reconstruct_legacy_refund_correct toy_externals EvmSamples.legacy
    EvmSamples.refund_tx true (replicate 64 x11) EvmSamples.raw)); try (vm_compute; reflexivity).
  - exists (replicate 32 x07), (replicate 20 x05). repeat split; vm_compute; reflexivity.
  - vm_compute. discriminate.
Defined.
