(* ===== verification/Broadcast.v ===== *)
(** * Broadcast: signing, sending and confirming escrow transactions

    Models the asynchronous half of [backend/factory/src/evm.rs] in its canister
    build: the continuation guards, the confirmation of a receipt, the
    persistence of a signed refund before it is sent, the resumption of a
    persisted refund and [broadcast_release_transaction].

    The JSON-RPC calls of [base_rpc.rs] and the calls to the management canister
    suspend the method; they are computations on the canister
    ([ReleaseRpc]), so other messages may change the state while they run. *)

From S2P Require Import Prelude Text SpawnProtocol Types Externals State Samples Evidence Escrow Evm.
From Stdlib Require Import Strings.Byte.

Module TransactionReceiptObservation.
Record t := mk { status : bool; block_number : N; block_hash : string }.
End TransactionReceiptObservation.

(** The calls of this module that leave the canister: the RPC methods, the
    threshold-ECDSA interface, the cycle balance and the clock of the
    platform.  [verifying_key_from_sec1_bytes] is [k256]'s, as the
    uncompressed point. *)
Class ReleaseRpc := {
  release_rpc :: Rpc;
  eth_send_raw_transaction : list string -> string -> C string;
  eth_get_transaction_receipt_status :
    list string -> string -> C (option TransactionReceiptObservation.t);
  eth_get_transaction_count : list string -> string -> C N;
  ecdsa_public_key : string -> M Canister.t string (list byte);
  sign_with_ecdsa : list byte -> string -> M Canister.t string (list byte);
  cost_sign_with_ecdsa : list byte -> string -> result string N;
  current_canister_balance : Canister.t -> N;
  api_time : Canister.t -> N;
  verifying_key_from_sec1_bytes : list byte -> result string (list byte);
}.

Module ReleaseBroadcastReceipt.
Record t := mk {
  release_tx_hash : string;
  release_broadcast_at : N;
  record : ReleaseBroadcastRecord.t;
  confirmed : bool;
}.
End ReleaseBroadcastReceipt.

Module ReleaseBroadcastError.
Record t := mk {
  record : ReleaseBroadcastRecord.t;
  source : FactoryError.t;
}.
End ReleaseBroadcastError.

(** Computations that fail with the broadcast record reached so far. *)
Abbreviation B A := (M Canister.t ReleaseBroadcastError.t A).

(** ** Guards *)

Module ReleaseTransactionGuard.
Inductive t :=
| Refund (session_id : string) (generation : N)
| Spawn (session_id : string) (generation : N) (draft_identity : option string).

Definition as_refund_lease (guard : t) : option (string * N) :=
  match guard with
  | Refund session_id generation => Some (session_id, generation)
  | Spawn _ _ _ => None
  end.
End ReleaseTransactionGuard.

(** [release_broadcast_draft_identity] of [spawn.rs]. *)
Definition release_broadcast_draft_identity (record : ReleaseBroadcastRecord.t) : string :=
  join "|" [ReleaseBroadcastRecord.claim_id record;
    ReleaseBroadcastRecord.recipient record;
    ReleaseBroadcastRecord.escrow_contract_address record;
    pretty (ReleaseBroadcastRecord.nonce record);
    pretty (ReleaseBroadcastRecord.chain_id record);
    pretty (ReleaseBroadcastRecord.max_priority_fee_per_gas record);
    pretty (ReleaseBroadcastRecord.max_fee_per_gas record);
    pretty (ReleaseBroadcastRecord.gas_limit record);
    default "" (ReleaseBroadcastRecord.ecdsa_key_name record);
    ReleaseBroadcastRecord.calldata_hex record;
    default "" (ReleaseBroadcastRecord.signing_payload_hash record)].

Definition refund_lease_held (session_id : string) (generation : N) (state : FactoryState.t) : bool :=
  is_some_and (fun lease => (RefundCommandLease.generation lease =? generation)%N)
    (FactoryState.steward_refund_leases state !! session_id).

Definition stale_refund : FactoryError.t :=
  FactoryError.InvalidStewardProof "stale refund command continuation".
Definition stale_spawn : FactoryError.t :=
  FactoryError.InvalidStewardProof "stale spawn continuation".

Definition guard_holds (guard : ReleaseTransactionGuard.t) (state : FactoryState.t)
    : result FactoryError.t unit :=
  match guard with
  | ReleaseTransactionGuard.Refund session_id generation =>
      if refund_lease_held session_id generation state then Ok tt else Err stale_refund
  | ReleaseTransactionGuard.Spawn session_id generation draft_identity =>
      session ← ok_or (FactoryState.sessions state !! session_id)
        (FactoryError.SessionNotFound session_id);
      err_if (negb (default 0 (SpawnSession.generation session) =? generation)%N) stale_spawn;;
      err_if (bool_decide ((release_broadcast_draft_identity <$>
                SpawnSession.release_broadcast session) <> draft_identity)) stale_spawn;;
      Ok tt
  end.

Definition ensure_release_transaction_guard (guard : option ReleaseTransactionGuard.t) : C unit :=
  read_state (fun state =>
    match guard with
    | None => Ok tt
    | Some guard => guard_holds guard state
    end).

(** ** Errors *)

Definition release_broadcast_error (stage : ReleaseBroadcastStage.t)
    (record : ReleaseBroadcastRecord.t) (error : FactoryError.t) (now_ms : N)
    : ReleaseBroadcastError.t :=
  let '(rpc_category, rpc_code, rpc_endpoint, message) :=
    match error with
    | FactoryError.RpcRequestFailed _ endpoint category code message =>
        (Some category, code, Some endpoint, message)
    | FactoryError.ManagementCallFailed _ message => (None, None, None, message)
    | other => (None, None, None, FactoryErrorDisplay.to_string other)
    end in
  ReleaseBroadcastError.mk
    (record <| ReleaseBroadcastRecord.last_error := Some (ReleaseBroadcastFailure.mk stage message
       rpc_category rpc_code rpc_endpoint now_ms) |>)
    error.

(** [.map_err(|error| release_broadcast_error(..))]. *)
Definition at_stage {A} (stage : ReleaseBroadcastStage.t) (record : ReleaseBroadcastRecord.t)
    (now_ms : N) (m : C A) : B A :=
  map_fail (fun error => release_broadcast_error stage record error now_ms) m.

Definition receipt_error (message : string) : FactoryError.t :=
  FactoryError.ManagementCallFailed "eth_getTransactionReceipt" message.

(** ** Persistence *)

(** [values_mut().find(..)]: the first claim, in key order, with the id. *)
Definition find_claim_key (claim_id : string) (state : FactoryState.t) : option string :=
  fst <$> (snd <$> list_find (fun entry : string * EscrowClaim.t =>
    EscrowClaim.claim_id entry.2 = claim_id) (btree_iter (FactoryState.escrow_claims state))).

Definition persist_refund_transaction_record_guarded (claim_id : string)
    (record : ReleaseBroadcastRecord.t) (guard : option (string * N)) : C unit :=
  write_state (
    state ← get_state;
    match guard with
    | Some (session_id, generation) =>
        fail_if (negb (refund_lease_held session_id generation state)) stale_refund
    | None => mret tt
    end;;
    key ← lift (ok_or (find_claim_key claim_id state)
      (FactoryError.ManagementCallFailed "persist_refund_transaction_intent"
        ("escrow claim not found for claim_id " +:+ claim_id)));
    persist_refund_broadcast_record key record).

Section Broadcast.
Context `{Externals, ReleaseRpc}.

(** ** Receipts *)

(** [record] is passed by [&mut]: the caller sees its writes on errors too. *)
Definition confirm_release_receipt_depth (base_rpc_endpoints : list string) (depth : N)
    (record : ReleaseBroadcastRecord.t) (tx_hash : string)
    (guard : option ReleaseTransactionGuard.t)
    : M Canister.t (ReleaseBroadcastRecord.t * FactoryError.t) (ReleaseBroadcastRecord.t * bool) :=
  map_fail (pair record) (ensure_release_transaction_guard guard);;
  latest_block ← map_fail (pair record) (eth_block_number base_rpc_endpoints);
  map_fail (pair record) (ensure_release_transaction_guard guard);;
  receipt ← map_fail (pair record)
    (eth_get_transaction_receipt_status base_rpc_endpoints tx_hash);
  map_fail (pair record) (ensure_release_transaction_guard guard);;
  match receipt with
  | Some receipt =>
      let block_number := TransactionReceiptObservation.block_number receipt in
      let block_hash := TransactionReceiptObservation.block_hash receipt in
      let record := record
        <| ReleaseBroadcastRecord.receipt_block_number := Some block_number |>
        <| ReleaseBroadcastRecord.receipt_block_hash := Some block_hash |>
        <| ReleaseBroadcastRecord.receipt_status :=
             Some (TransactionReceiptObservation.status receipt) |> in
      fail_if (negb (TransactionReceiptObservation.status receipt))
        (record, receipt_error "release transaction reverted");;
      fail_if (latest_block <? block_number)%N
        (record, receipt_error "receipt block is in the future");;
      map_fail (pair record) (ensure_release_transaction_guard guard);;
      canonical_block_hash ← map_fail (pair record)
        (eth_get_block_hash_by_number base_rpc_endpoints block_number);
      map_fail (pair record) (ensure_release_transaction_guard guard);;
      fail_if (negb (eq_ignore_ascii_case canonical_block_hash block_hash))
        (record, receipt_error "receipt block hash is not canonical");;
      confirmations ← lift (ok_or (checked_add 64 (latest_block - block_number) 1)
        (record, receipt_error "latest block number overflow while confirming receipt"));
      mret (record, negb (confirmations <? depth)%N)
  | None =>
      mret (record
        <| ReleaseBroadcastRecord.receipt_block_number := None |>
        <| ReleaseBroadcastRecord.receipt_block_hash := None |>
        <| ReleaseBroadcastRecord.receipt_status := None |>, false)
  end.

(** ** Sending a persisted refund *)

Definition persisted_refund_error (message : string) : FactoryError.t :=
  FactoryError.ManagementCallFailed "resume_refund_broadcast" message.

(** The checks on the raw bytes of a persisted refund. *)
Definition validated_raw_transaction (record : ReleaseBroadcastRecord.t)
    : result FactoryError.t (string * string) :=
  raw_tx_hex ← ok_or (ReleaseBroadcastRecord.raw_transaction_hex record)
    (persisted_refund_error "persisted refund intent is missing exact raw transaction bytes");
  raw_bytes ← decode_hex raw_tx_hex;
  err_if (bool_decide (raw_bytes = []) || (2048 <? N.of_nat (length raw_bytes))%N
          || negb (starts_with raw_tx_hex "0x"))
    (persisted_refund_error
      "persisted refund raw transaction is empty, oversized, or not canonical 0x hex");;
  let local_hash := keccak_hex raw_bytes in
  err_if (negb (bool_decide (ReleaseBroadcastRecord.raw_transaction_hash record = Some local_hash)))
    (persisted_refund_error "persisted refund raw transaction hash mismatch");;
  Ok (raw_tx_hex, local_hash).

(** Confirm a sent transaction: the last part of every broadcast. *)
Definition confirm_broadcast (base_rpc_endpoints : list string) (confirmation_depth now_ms : N)
    (record : ReleaseBroadcastRecord.t) (rpc_hash : string)
    (guard : option ReleaseTransactionGuard.t) : B ReleaseBroadcastReceipt.t :=
  let stage := ReleaseBroadcastStage.ReceiptConfirmation in
  at_stage stage record now_ms (ensure_release_transaction_guard guard);;
  '(record, confirmed) ← map_fail
    (fun '(record, error) => release_broadcast_error stage record error now_ms)
    (confirm_release_receipt_depth base_rpc_endpoints confirmation_depth record rpc_hash guard);
  at_stage stage record now_ms (ensure_release_transaction_guard guard);;
  mret (ReleaseBroadcastReceipt.mk rpc_hash now_ms record confirmed).

Definition broadcast_and_confirm_persisted_refund (base_rpc_endpoints : list string)
    (record : ReleaseBroadcastRecord.t) (now_ms confirmation_depth : N)
    (guard : option ReleaseTransactionGuard.t) : B ReleaseBroadcastReceipt.t :=
  '(raw_tx_hex, local_hash) ←
    at_stage ReleaseBroadcastStage.RawTransactionConstruction record now_ms
      (lift (validated_raw_transaction record));
  let refund_guard := guard ≫= ReleaseTransactionGuard.as_refund_lease in
  let stage := ReleaseBroadcastStage.RpcBroadcast in
  at_stage stage record now_ms (ensure_release_transaction_guard guard);;
  rpc_result ← at_stage stage record now_ms
    (catch (eth_send_raw_transaction base_rpc_endpoints raw_tx_hex));
  at_stage stage record now_ms (ensure_release_transaction_guard guard);;
  rpc_hash ← at_stage stage record now_ms (lift rpc_result);
  at_stage stage record now_ms
    (fail_if (negb (bool_decide (to_ascii_lowercase rpc_hash = local_hash)))
      (FactoryError.ManagementCallFailed "eth_sendRawTransaction"
        ("refund RPC transaction hash mismatch: local=" +:+ local_hash +:+ " rpc=" +:+ rpc_hash)));;
  let record := record <| ReleaseBroadcastRecord.rpc_tx_hash := Some rpc_hash |>
                       <| ReleaseBroadcastRecord.broadcast_at := Some now_ms |> in
  at_stage stage record now_ms
    (persist_refund_transaction_record_guarded (ReleaseBroadcastRecord.claim_id record) record
      refund_guard);;
  confirm_broadcast base_rpc_endpoints confirmation_depth now_ms record rpc_hash guard.

Definition resume_persisted_refund_transaction (base_rpc_endpoints : list string)
    (record : ReleaseBroadcastRecord.t) (now_ms confirmation_depth : N)
    (guard : option ReleaseTransactionGuard.t) : B ReleaseBroadcastReceipt.t :=
  let refund_guard := guard ≫= ReleaseTransactionGuard.as_refund_lease in
  record ←
    match ReleaseBroadcastRecord.raw_transaction_hex record with
    | Some _ => mret record
    | None =>
        let stage := ReleaseBroadcastStage.RawTransactionConstruction in
        raw ← at_stage stage record now_ms
          (lift (reconstruct_legacy_refund_raw_transaction record));
        let record := record <| ReleaseBroadcastRecord.raw_transaction_hex := Some raw |> in
        at_stage stage record now_ms
          (persist_refund_transaction_record_guarded (ReleaseBroadcastRecord.claim_id record)
            record refund_guard);;
        mret record
    end;
  let stage := ReleaseBroadcastStage.RpcBroadcast in
  at_stage stage record now_ms (ensure_release_transaction_guard guard);;
  receipt ← catch (broadcast_and_confirm_persisted_refund base_rpc_endpoints record now_ms
    confirmation_depth guard);
  at_stage stage record now_ms (ensure_release_transaction_guard guard);;
  lift receipt.

(** ** Signing *)

Definition signing_error (message : string) : FactoryError.t :=
  FactoryError.ManagementCallFailed "sign_with_ecdsa" message.

(** [derive_signed_recid]: the parity of the recovery id under which the
    signature recovers the expected key; keys are compared as points. *)
Definition derive_signed_recid (prehash signature public_key : list byte)
    : result FactoryError.t bool :=
  signature ← map_err signing_error (signature_from_slice signature);
  expected_key ← map_err (FactoryError.ManagementCallFailed "ecdsa_public_key")
    (verifying_key_from_sec1_bytes public_key);
  match list_find (fun candidate =>
      recover_from_prehash prehash signature candidate = Ok expected_key) [0; 1; 2; 3]%N with
  | Some (_, candidate) => Ok (N.odd candidate)
  | None => Err (signing_error "unable to recover ECDSA recovery id")
  end.

(** [ensure_follow_up_cycles] of [cycles.rs]. *)
Definition ensure_follow_up_cycles (operation : string) (operation_cycles : N) : C unit :=
  available ← gets current_canister_balance;
  fail_if (available <? operation_cycles)%N
    (FactoryError.InsufficientCyclesForOperation operation available operation_cycles).

Definition ensure_sign_with_ecdsa_cycles (operation : string) (message_hash : list byte)
    (key_name : string) : C unit :=
  cost ← lift (map_err (fun error =>
      signing_error ("unable to estimate signing cycle cost: " +:+ error))
    (cost_sign_with_ecdsa message_hash key_name));
  ensure_follow_up_cycles operation cost.

(** [derive_evm_address_from_public_key]. *)
Definition derive_evm_address_from_public_key (public_key : list byte)
    : result FactoryError.t string :=
  encoded ← map_err (FactoryError.ManagementCallFailed "ecdsa_public_key")
    (verifying_key_from_sec1_bytes public_key);
  Ok (hex_encode_prefixed (drop 12 (keccak256 (drop 1 encoded)))).

Definition derive_factory_evm_address_from_public_key (public_key : list byte) : C string :=
  known ← gets (fun canister => FactoryState.factory_evm_address (Canister.factory canister));
  match known with
  | Some address => mret address
  | None =>
      address ← lift (derive_evm_address_from_public_key public_key);
      time ← gets api_time;
      write_state (modify (fun state =>
        state <| FactoryState.factory_evm_address := Some address |>
              <| FactoryState.factory_evm_address_derived_at := Some (time `div` 1000000)%N |>));;
      mret address
  end.

Definition derive_factory_evm_address : C string :=
  known ← gets (fun canister => FactoryState.factory_evm_address (Canister.factory canister));
  match known with
  | Some address => mret address
  | None =>
      key_name ← gets (fun canister => ReleaseBroadcastConfig.ecdsa_key_name
        (FactoryState.release_broadcast_config (Canister.factory canister)));
      public_key ← map_fail (FactoryError.ManagementCallFailed "ecdsa_public_key")
        (ecdsa_public_key key_name);
      derive_factory_evm_address_from_public_key public_key
  end.

(** [pending_release_nonce] of [spawn.rs]. *)
Definition pending_release_nonce (endpoints : list string) : C N :=
  signer ← derive_factory_evm_address;
  eth_get_transaction_count endpoints signer.

(** ** Broadcasting *)

Definition release_plan (claim_id recipient escrow_contract_address : string) (nonce : N)
    (config : ReleaseBroadcastConfig.t) (reproduction : option ReproductionRelease.t)
    (refund : bool) : result FactoryError.t ReleaseTransactionPlan.t :=
  if refund then build_refund_plan claim_id recipient escrow_contract_address nonce config
  else match reproduction with
  | Some release =>
      build_reproduction_release_plan claim_id recipient escrow_contract_address nonce config
        release
  | None => build_release_plan claim_id recipient escrow_contract_address nonce config
  end.

(** The record of a broadcast whose calldata could not be encoded. *)
Definition unplanned_record (claim_id recipient escrow_contract_address : string) (nonce : N)
    (config : ReleaseBroadcastConfig.t) : ReleaseBroadcastRecord.t :=
  build_release_broadcast_record
    (ReleaseTransactionPlan.mk claim_id recipient escrow_contract_address nonce config []).

(** The signed transaction: its plan, the record of it and its raw bytes. *)
Definition sign_release_transaction (claim_id recipient escrow_contract_address : string)
    (nonce now_ms : N) (config : ReleaseBroadcastConfig.t)
    (reproduction : option ReproductionRelease.t) (refund : bool)
    (guard : option ReleaseTransactionGuard.t) : B (ReleaseBroadcastRecord.t * string) :=
  plan ← at_stage ReleaseBroadcastStage.CalldataEncoding
    (unplanned_record claim_id recipient escrow_contract_address nonce config) now_ms
    (lift (release_plan claim_id recipient escrow_contract_address nonce config reproduction
      refund));
  let record := build_release_broadcast_record plan in
  unsigned_tx ← at_stage ReleaseBroadcastStage.SigningPayloadConstruction record now_ms
    (lift (build_unsigned_release_transaction plan));
  let signing_payload := build_signing_payload unsigned_tx in
  let prehash := keccak256 signing_payload in
  let key_name := ReleaseBroadcastConfig.ecdsa_key_name config in
  let record := record
    <| ReleaseBroadcastRecord.signing_payload_hash := Some (keccak_hex signing_payload) |> in
  let at_lookup {A} := @at_stage A ReleaseBroadcastStage.PublicKeyLookup record now_ms in
  let at_signing {A} := @at_stage A ReleaseBroadcastStage.Signing record now_ms in
  at_lookup (ensure_release_transaction_guard guard);;
  public_key_result ← catch (map_fail (fun error => release_broadcast_error
    ReleaseBroadcastStage.PublicKeyLookup record
    (FactoryError.ManagementCallFailed "ecdsa_public_key" error) now_ms)
    (ecdsa_public_key key_name));
  at_lookup (ensure_release_transaction_guard guard);;
  public_key ← lift public_key_result;
  at_signing (ensure_sign_with_ecdsa_cycles "sign_with_ecdsa" prehash key_name);;
  signing_result ← catch (map_fail (fun error => release_broadcast_error
    ReleaseBroadcastStage.Signing record (signing_error error) now_ms)
    (sign_with_ecdsa prehash key_name));
  at_signing (ensure_release_transaction_guard guard);;
  signature ← lift signing_result;
  y_parity ← at_stage ReleaseBroadcastStage.SignatureRecovery record now_ms
    (lift (derive_signed_recid prehash signature public_key));
  recorded ← at_stage ReleaseBroadcastStage.SignatureRecovery record now_ms
    (lift (signature_record y_parity signature));
  let record := record <| ReleaseBroadcastRecord.signature := Some recorded |> in
  raw_tx ← at_stage ReleaseBroadcastStage.RawTransactionConstruction record now_ms
    (lift (build_signed_raw_transaction unsigned_tx y_parity signature));
  let raw_tx_hex := hex_encode_prefixed raw_tx in
  mret (record
    <| ReleaseBroadcastRecord.raw_transaction_hash := Some (keccak_hex raw_tx) |>
    <| ReleaseBroadcastRecord.raw_transaction_hex := Some raw_tx_hex |>, raw_tx_hex).

Definition broadcast_release_transaction (claim_id recipient : string)
    (base_rpc_endpoints : list string) (escrow_contract_address : string) (nonce now_ms : N)
    (config : ReleaseBroadcastConfig.t) (reproduction : option ReproductionRelease.t)
    (refund : bool) (confirmation_depth : N) (guard : option ReleaseTransactionGuard.t)
    : B ReleaseBroadcastReceipt.t :=
  '(record, raw_tx_hex) ← sign_release_transaction claim_id recipient escrow_contract_address
    nonce now_ms config reproduction refund guard;
  let refund_guard := guard ≫= ReleaseTransactionGuard.as_refund_lease in
  if refund then
    let stage := ReleaseBroadcastStage.RawTransactionConstruction in
    at_stage stage record now_ms (ensure_release_transaction_guard guard);;
    at_stage stage record now_ms
      (persist_refund_transaction_record_guarded claim_id record refund_guard);;
    at_stage ReleaseBroadcastStage.RpcBroadcast record now_ms
      (ensure_release_transaction_guard guard);;
    broadcast_and_confirm_persisted_refund base_rpc_endpoints record now_ms confirmation_depth
      guard
  else
    let stage := ReleaseBroadcastStage.RpcBroadcast in
    at_stage stage record now_ms (ensure_release_transaction_guard guard);;
    rpc_hash ← at_stage stage record now_ms
      (eth_send_raw_transaction base_rpc_endpoints raw_tx_hex);
    at_stage stage record now_ms (ensure_release_transaction_guard guard);;
    let record := record <| ReleaseBroadcastRecord.rpc_tx_hash := Some rpc_hash |>
                         <| ReleaseBroadcastRecord.broadcast_at := Some now_ms |> in
    confirm_broadcast base_rpc_endpoints confirmation_depth now_ms record rpc_hash guard.
End Broadcast.

Lemma ensure_guard_Done guard s u t :
  ensure_release_transaction_guard guard s = Done u t <->
  match guard with None => Ok tt | Some g => guard_holds g (Canister.factory s) end = Ok u /\ t = s.
Proof. unfold ensure_release_transaction_guard. by rewrite read_state_Done. Qed.

Definition guard_held (guard : option ReleaseTransactionGuard.t) (canister : Canister.t) : Prop :=
  match guard with
  | None => True
  | Some guard => guard_holds guard (Canister.factory canister) = Ok tt
  end.

Lemma ensure_guard_held guard s u t :
  ensure_release_transaction_guard guard s = Done u t -> t = s /\ guard_held guard s.
Proof.
  rewrite ensure_guard_Done. intros [Hg ->]. split; [done|]. destruct guard; [|done]. by destruct u.
Qed.

Section Confirm.
Context `{ext : Externals, rpc : ReleaseRpc}.

(** The receipt fields a confirmation writes into the record. *)
Definition with_receipt (receipt : TransactionReceiptObservation.t)
    (record : ReleaseBroadcastRecord.t) : ReleaseBroadcastRecord.t :=
  record
    <| ReleaseBroadcastRecord.receipt_block_number :=
         Some (TransactionReceiptObservation.block_number receipt) |>
    <| ReleaseBroadcastRecord.receipt_block_hash :=
         Some (TransactionReceiptObservation.block_hash receipt) |>
    <| ReleaseBroadcastRecord.receipt_status :=
         Some (TransactionReceiptObservation.status receipt) |>.

Lemma confirm_release_receipt_depth_steps endpoints depth record tx_hash guard
    canister record' confirmed canister'
    (Hconfirm : confirm_release_receipt_depth endpoints depth record tx_hash guard canister
       = Done (record', confirmed) canister') :
  guard_held guard canister
  /\ exists latest canister1 receipt canister2,
    eth_block_number endpoints canister = Done latest canister1
    /\ guard_held guard canister1
    /\ eth_get_transaction_receipt_status endpoints tx_hash canister1 = Done receipt canister2
    /\ guard_held guard canister2 /\ guard_held guard canister'
    /\ match receipt with
       | None => confirmed = false /\ canister' = canister2
           /\ ReleaseBroadcastRecord.receipt_status record' = None
       | Some receipt =>
           record' = with_receipt receipt record
           /\ TransactionReceiptObservation.status receipt = true
           /\ (TransactionReceiptObservation.block_number receipt <= latest)%N
           /\ (exists canonical,
                 eth_get_block_hash_by_number endpoints
                   (TransactionReceiptObservation.block_number receipt) canister2
                 = Done canonical canister'
                 /\ eq_ignore_ascii_case canonical
                      (TransactionReceiptObservation.block_hash receipt) = true)
           /\ (confirmed = true <->
               depth <= latest - TransactionReceiptObservation.block_number receipt + 1)%N
       end.
Proof.
  unfold confirm_release_receipt_depth in Hconfirm.
  run_inv Hconfirm as u0 t0 H1. apply ensure_guard_held in H1 as [-> Hg0]. split; [done|].
  run_inv Hconfirm as latest canister1 Hlatest.
  run_inv Hconfirm as u1 t1 H1. apply ensure_guard_held in H1 as [-> Hg1].
  run_inv Hconfirm as receipt canister2 Hreceipt.
  run_inv Hconfirm as u2 t2 H1. apply ensure_guard_held in H1 as [-> Hg2].
  exists latest, canister1, receipt, canister2. split; [done|]. split; [done|]. split; [done|].
  split; [done|]. destruct receipt as [receipt|].
  2:{ injection Hconfirm as <- <- <-. done. }
  run_inv Hconfirm as u3 t3 H1. apply fail_if_Done in H1 as [Hstatus ->].
  run_inv Hconfirm as u4 t4 H1. apply fail_if_Done in H1 as [Hfuture ->].
  run_inv Hconfirm as u5 t5 H1. apply ensure_guard_held in H1 as [-> _].
  run_inv Hconfirm as canonical canister3 Hcanonical.
  run_inv Hconfirm as u6 t6 H1. apply ensure_guard_held in H1 as [-> Hg3].
  run_inv Hconfirm as u7 t7 H1. apply fail_if_Done in H1 as [Hhash ->].
  run_inv Hconfirm as confirmations t8 H1. apply lift_Done in H1 as [Hconf ->].
  apply ok_or_Ok, checked_add_Some in Hconf as [-> _].
  injection Hconfirm as <- <- <-. apply negb_false_iff in Hstatus, Hhash.
  apply N.ltb_ge in Hfuture.
  split; [done|]. split; [done|]. split; [done|]. split; [done|]. split; [by exists canonical|].
  rewrite negb_true_iff, N.ltb_ge. done.
Qed.

(** The evidence of the chain for a transaction: a node that was asked for the
    latest block, for the receipt of [tx_hash] and for the hash of the receipt's
    block answered with a receipt of status success, in a canonical block, which
    is at least [depth] blocks deep, counting its own. *)
Definition chain_confirms (endpoints : list string) (depth : N) (tx_hash : string)
    (receipt : TransactionReceiptObservation.t) : Prop :=
  let block := TransactionReceiptObservation.block_number receipt in
  exists latest canonical s0 s1 s2 s3,
    eth_block_number endpoints s0 = Done latest s1
    /\ eth_get_transaction_receipt_status endpoints tx_hash s1 = Done (Some receipt) s2
    /\ eth_get_block_hash_by_number endpoints block s2 = Done canonical s3
    /\ TransactionReceiptObservation.status receipt = true
    /\ eq_ignore_ascii_case canonical (TransactionReceiptObservation.block_hash receipt) = true
    /\ (block <= latest)%N
    /\ (depth <= latest - block + 1)%N.

Lemma confirm_release_receipt_depth_true endpoints depth record tx_hash guard
    canister record' canister' :
  confirm_release_receipt_depth endpoints depth record tx_hash guard canister
    = Done (record', true) canister' ->
  exists receipt, record' = with_receipt receipt record
    /\ chain_confirms endpoints depth tx_hash receipt.
Proof.
  intros Hrun. apply confirm_release_receipt_depth_steps in Hrun
    as (_ & latest & c1 & [receipt|] & c2 & Hlatest & _ & Hreceipt & _ & _ & Hrest);
    [|by destruct Hrest].
  destruct Hrest as (-> & Hstatus & Hle & (canonical & Hhash & Hsame) & Hdepth).
  exists receipt. split; [done|]. exists latest, canonical, canister, c1, c2, canister'.
  repeat (split; [done|]). by apply Hdepth.
Qed.

(** What a confirmed broadcast hands back: the record of [tx_hash], with the
    receipt that the chain confirms. *)
Definition confirmed_record (endpoints : list string) (depth : N)
    (record : ReleaseBroadcastRecord.t) (tx_hash : string) : Prop :=
  ReleaseBroadcastRecord.rpc_tx_hash record = Some tx_hash
  /\ exists receipt sent, record = with_receipt receipt sent
     /\ chain_confirms endpoints depth tx_hash receipt.

Definition receipt_ok (endpoints : list string) (depth : N)
    (receipt : ReleaseBroadcastReceipt.t) : Prop :=
  ReleaseBroadcastReceipt.confirmed receipt = true ->
  confirmed_record endpoints depth (ReleaseBroadcastReceipt.record receipt)
    (ReleaseBroadcastReceipt.release_tx_hash receipt).

Lemma confirmed_with_receipt endpoints depth record tx_hash receipt :
  ReleaseBroadcastRecord.rpc_tx_hash record = Some tx_hash ->
  chain_confirms endpoints depth tx_hash receipt ->
  confirmed_record endpoints depth (with_receipt receipt record) tx_hash.
Proof. intros Hhash Hchain. split; [exact Hhash|]. by exists receipt, record. Qed.

(** The fields of a record that say which transaction it is about. *)
Definition same_transaction (record sent : ReleaseBroadcastRecord.t) : Prop :=
  ReleaseBroadcastRecord.claim_id record = ReleaseBroadcastRecord.claim_id sent
  /\ ReleaseBroadcastRecord.recipient record = ReleaseBroadcastRecord.recipient sent
  /\ ReleaseBroadcastRecord.escrow_contract_address record
     = ReleaseBroadcastRecord.escrow_contract_address sent
  /\ ReleaseBroadcastRecord.calldata_hex record = ReleaseBroadcastRecord.calldata_hex sent
  /\ ReleaseBroadcastRecord.raw_transaction_hash record
     = ReleaseBroadcastRecord.raw_transaction_hash sent.

Lemma confirm_release_receipt_depth_keeps endpoints depth record tx_hash guard
    canister record' confirmed canister' :
  confirm_release_receipt_depth endpoints depth record tx_hash guard canister
    = Done (record', confirmed) canister' -> same_transaction record' record.
Proof.
  unfold confirm_release_receipt_depth. intros Hrun.
  run_inv Hrun as u0 t0 H0. run_inv Hrun as latest t1 H1. run_inv Hrun as u2 t2 H2.
  run_inv Hrun as receipt t3 H3. run_inv Hrun as u4 t4 H4.
  destruct receipt as [receipt|]; [|by injection Hrun as <- <- <-].
  run_inv Hrun as u5 t5 H5. run_inv Hrun as u6 t6 H6. run_inv Hrun as u7 t7 H7.
  run_inv Hrun as canonical t8 H8. run_inv Hrun as u9 t9 H9. run_inv Hrun as u10 t10 H10.
  run_inv Hrun as confirmations t11 H11. by injection Hrun as <- <- <-.
Qed.

Lemma release_plan_fields claim_id recipient escrow nonce config reproduction refund plan :
  release_plan claim_id recipient escrow nonce config reproduction refund = Ok plan ->
  ReleaseTransactionPlan.claim_id plan = claim_id
  /\ ReleaseTransactionPlan.recipient plan = recipient
  /\ ReleaseTransactionPlan.escrow_contract_address plan = escrow.
Proof.
  unfold release_plan, build_refund_plan, build_reproduction_release_plan, build_release_plan.
  intros Hplan. destruct refund; [|destruct reproduction];
    by apply result_bind_Ok in Hplan as (calldata & _ & [= <-]).
Qed.

Lemma confirm_broadcast_ok endpoints depth now_ms record rpc_hash guard s receipt t :
  ReleaseBroadcastRecord.rpc_tx_hash record = Some rpc_hash ->
  confirm_broadcast endpoints depth now_ms record rpc_hash guard s = Done receipt t ->
  receipt_ok endpoints depth receipt
  /\ ReleaseBroadcastReceipt.release_tx_hash receipt = rpc_hash
  /\ same_transaction (ReleaseBroadcastReceipt.record receipt) record.
Proof.
  intros Hhash Hrun. unfold confirm_broadcast in Hrun. run_inv Hrun as u0 t0 H1.
  run_inv Hrun as result t1 Hconfirm. destruct result as [record' confirmed].
  run_inv Hrun as u2 t2 H2. injection Hrun as <- _.
  split; [|split; [done|]].
  - intros Hconfirmed. cbn in *. subst confirmed.
    apply confirm_release_receipt_depth_true in Hconfirm as (observed & -> & Hchain).
    by apply confirmed_with_receipt.
  - apply confirm_release_receipt_depth_keeps in Hconfirm. exact Hconfirm.
Qed.

Lemma broadcast_and_confirm_ok endpoints record now_ms depth guard s receipt t :
  broadcast_and_confirm_persisted_refund endpoints record now_ms depth guard s = Done receipt t ->
  receipt_ok endpoints depth receipt.
Proof.
  intros Hrun. unfold broadcast_and_confirm_persisted_refund in Hrun.
  run_inv Hrun as raw t0 H0. destruct raw as [raw_tx_hex local_hash].
  run_inv Hrun as u1 t1 H1. run_inv Hrun as sent t1' H1'. run_inv Hrun as u2 t2' H2'.
  run_inv Hrun as rpc_hash t2 H2.
  run_inv Hrun as u3 t3 H3. run_inv Hrun as u4 t4 H4.
  by eapply confirm_broadcast_ok in Hrun as [Hok _].
Qed.

Lemma resume_persisted_refund_ok endpoints record now_ms depth guard s receipt t :
  resume_persisted_refund_transaction endpoints record now_ms depth guard s = Done receipt t ->
  receipt_ok endpoints depth receipt.
Proof.
  intros Hrun. unfold resume_persisted_refund_transaction in Hrun.
  run_inv Hrun as record' t0 H0. run_inv Hrun as u1 t1 H1. run_inv Hrun as result t2 H2.
  run_inv Hrun as u3 t3 H3. apply lift_Done in Hrun as [-> _]. apply catch_Done in H2.
  by eapply broadcast_and_confirm_ok.
Qed.

(** The calldata names the claim and then pays the recipient; only a
    reproduction has further recipients after it. *)
Definition pays (claim_id recipient : string) (reproduction : option ReproductionRelease.t)
    (calldata : list byte) : Prop :=
  exists claim address,
    decode_fixed_hex 32 claim_id = Ok claim /\ decode_fixed_hex 20 recipient = Ok address
    /\ match reproduction with
       | None => calldata =
           selector "release(bytes32,address)" ++ claim ++ replicate 12 x00 ++ address
       | Some _ => exists royalties, calldata =
           selector "releaseReproduction(bytes32,address,uint256,address,uint256,address,uint256)"
             ++ claim ++ (replicate 12 x00 ++ address) ++ royalties
       end.

(** A release of the claim to the recipient was signed, and a node took it under
    the hash [tx_hash]; the record describes that transaction. *)
Definition release_sent (claim_id recipient escrow : string) (endpoints : list string)
    (config : ReleaseBroadcastConfig.t) (reproduction : option ReproductionRelease.t)
    (record : ReleaseBroadcastRecord.t) (tx_hash : string) : Prop :=
  exists nonce plan unsigned y_parity signature raw s t,
    release_plan claim_id recipient escrow nonce config reproduction false = Ok plan
    /\ pays claim_id recipient reproduction (ReleaseTransactionPlan.calldata plan)
    /\ build_unsigned_release_transaction plan = Ok unsigned
    /\ build_signed_raw_transaction unsigned y_parity signature = Ok raw
    /\ eth_send_raw_transaction endpoints (hex_encode_prefixed raw) s = Done tx_hash t
    /\ ReleaseBroadcastRecord.claim_id record = claim_id
    /\ ReleaseBroadcastRecord.recipient record = recipient
    /\ ReleaseBroadcastRecord.escrow_contract_address record = escrow
    /\ ReleaseBroadcastRecord.calldata_hex record
       = hex_encode_prefixed (ReleaseTransactionPlan.calldata plan)
    /\ ReleaseBroadcastRecord.raw_transaction_hash record = Some (keccak_hex raw).

Lemma release_plan_pays claim_id recipient escrow nonce config reproduction plan :
  release_plan claim_id recipient escrow nonce config reproduction false = Ok plan ->
  pays claim_id recipient reproduction (ReleaseTransactionPlan.calldata plan).
Proof.
  unfold release_plan, build_reproduction_release_plan, build_release_plan.
  intros Hplan. destruct reproduction as [release|];
    apply result_bind_Ok in Hplan as (calldata & Hdata & [= <-]); cbn.
  - unfold encode_reproduction_release_calldata, encode_address_word in Hdata.
    apply result_bind_Ok in Hdata as (claim & Hclaim & Hdata).
    apply result_bind_Ok in Hdata as (word & Hword & Hdata).
    apply result_bind_Ok in Hword as (address & Haddress & [= <-]).
    apply result_bind_Ok in Hdata as (one & _ & Hdata).
    apply result_bind_Ok in Hdata as (two & _ & [= <-]).
    exists claim, address. split; [done|]. split; [done|]. by eexists.
  - unfold encode_release_calldata in Hdata.
    apply result_bind_Ok in Hdata as (claim & Hclaim & Hdata).
    apply result_bind_Ok in Hdata as (address & Haddress & [= <-]).
    by exists claim, address.
Qed.

Lemma sign_release_transaction_Done claim_id recipient escrow nonce now_ms config reproduction
    refund guard s record raw_hex t :
  sign_release_transaction claim_id recipient escrow nonce now_ms config reproduction refund guard
    s = Done (record, raw_hex) t ->
  exists plan unsigned y_parity signature raw,
    release_plan claim_id recipient escrow nonce config reproduction refund = Ok plan
    /\ build_unsigned_release_transaction plan = Ok unsigned
    /\ build_signed_raw_transaction unsigned y_parity signature = Ok raw
    /\ raw_hex = hex_encode_prefixed raw
    /\ ReleaseBroadcastRecord.claim_id record = ReleaseTransactionPlan.claim_id plan
    /\ ReleaseBroadcastRecord.recipient record = ReleaseTransactionPlan.recipient plan
    /\ ReleaseBroadcastRecord.escrow_contract_address record
       = ReleaseTransactionPlan.escrow_contract_address plan
    /\ ReleaseBroadcastRecord.calldata_hex record
       = hex_encode_prefixed (ReleaseTransactionPlan.calldata plan)
    /\ ReleaseBroadcastRecord.raw_transaction_hash record = Some (keccak_hex raw).
Proof.
  intros Hrun. unfold sign_release_transaction in Hrun.
  run_inv Hrun as plan t1 H1. apply map_fail_Done, lift_Done in H1 as [Hplan ->].
  run_inv Hrun as unsigned t2 H2. apply map_fail_Done, lift_Done in H2 as [Hunsigned ->].
  run_inv Hrun as u3 t3 H3. run_inv Hrun as public_key t4 H4. run_inv Hrun as u5 t5 H5.
  run_inv Hrun as key t6 H6. run_inv Hrun as u7 t7 H7. run_inv Hrun as signing t8 H8.
  run_inv Hrun as u9 t9 H9. run_inv Hrun as signature t10 H10. run_inv Hrun as y_parity t11 H11.
  run_inv Hrun as recorded t12 H12. run_inv Hrun as raw t13 H13.
  apply map_fail_Done, lift_Done in H13 as [Hraw ->]. injection Hrun as <- <- <-.
  exists plan, unsigned, y_parity, signature, raw. done.
Qed.

Lemma broadcast_release_transaction_ok claim_id recipient endpoints escrow nonce now_ms config
    reproduction refund depth guard s receipt t :
  broadcast_release_transaction claim_id recipient endpoints escrow nonce now_ms config
    reproduction refund depth guard s = Done receipt t ->
  receipt_ok endpoints depth receipt
  /\ (refund = false -> release_sent claim_id recipient escrow endpoints config reproduction
       (ReleaseBroadcastReceipt.record receipt)
       (ReleaseBroadcastReceipt.release_tx_hash receipt)).
Proof.
  intros Hrun. unfold broadcast_release_transaction in Hrun.
  run_inv Hrun as signed t0 H0. destruct signed as [record raw_tx_hex]. destruct refund.
  - run_inv Hrun as u1 t1 H1. run_inv Hrun as u2 t2 H2. run_inv Hrun as u3 t3 H3.
    split; [|done]. by eapply broadcast_and_confirm_ok.
  - run_inv Hrun as u1 t1 H1. run_inv Hrun as rpc_hash t2 H2.
    apply map_fail_Done in H2. run_inv Hrun as u3 t3 H3.
    apply confirm_broadcast_ok in Hrun as (Hok & <- & Hc & Hr & He & Hd & Hh); [|done].
    split; [exact Hok|]. intros _. apply sign_release_transaction_Done in H0
      as (plan & unsigned & y_parity & signature & raw & Hplan & Hunsigned & Hraw & -> & Hfields).
    destruct Hfields as (Fc & Fr & Fe & Fd & Fh).
    exists nonce, plan, unsigned, y_parity, signature, raw, t1, t2.
    split; [exact Hplan|]. split; [by eapply release_plan_pays|].
    destruct (release_plan_fields _ _ _ _ _ _ _ _ Hplan) as (Pc & Pr & Pe).
    split; [done|]. split; [done|]. split; [exact H2|].
    rewrite Hc, Hr, He, Hd, Hh. simpl_set. by rewrite Fc, Fr, Fe, Fd, Fh.
Qed.

(** a transaction counts as confirmed only on the evidence of the chain:
    when [confirm_release_receipt_depth] returns [true], the node reported a
    receipt with a success status, in a block that is not in the future, whose
    hash is the canonical hash of that block, at least [depth] blocks deep
    (counting its own); that receipt is what the record now holds, and the
    continuation guard held after the last of the calls.  With [false] there is
    no receipt, or it is not deep enough. *)
Theorem confirm_release_receipt_depth_correct endpoints depth record tx_hash guard
    canister record' confirmed canister'
    (Hconfirm : confirm_release_receipt_depth endpoints depth record tx_hash guard canister
       = Done (record', confirmed) canister') :
  guard_held guard canister
  /\ exists latest canister1 receipt canister2,
    eth_block_number endpoints canister = Done latest canister1
    /\ guard_held guard canister1
    /\ eth_get_transaction_receipt_status endpoints tx_hash canister1 = Done receipt canister2
    /\ guard_held guard canister2 /\ guard_held guard canister'
    /\ match receipt with
       | None => confirmed = false /\ canister' = canister2
           /\ ReleaseBroadcastRecord.receipt_status record' = None
       | Some receipt =>
           record' = with_receipt receipt record
           /\ TransactionReceiptObservation.status receipt = true
           /\ (TransactionReceiptObservation.block_number receipt <= latest)%N
           /\ (exists canonical,
                 eth_get_block_hash_by_number endpoints
                   (TransactionReceiptObservation.block_number receipt) canister2
                 = Done canonical canister'
                 /\ eq_ignore_ascii_case canonical
                      (TransactionReceiptObservation.block_hash receipt) = true)
           /\ (confirmed = true <->
               depth <= latest - TransactionReceiptObservation.block_number receipt + 1)%N
       end.
Proof. by apply confirm_release_receipt_depth_steps. Qed.
End Confirm.

(** ** Write-ahead persistence of refunds *)

(** The record is the stored refund intent of some claim. *)
Definition refund_intent_stored (record : ReleaseBroadcastRecord.t) (state : FactoryState.t)
    : Prop :=
  exists key claim, FactoryState.escrow_claims state !! key = Some claim
    /\ EscrowClaim.refund_broadcast claim = Some record.

Lemma find_claim_key_Some claim_id state key :
  find_claim_key claim_id state = Some key ->
  exists claim, FactoryState.escrow_claims state !! key = Some claim
    /\ EscrowClaim.claim_id claim = claim_id.
Proof.
  unfold find_claim_key. destruct (list_find _ _) as [[i [key' claim]]|] eqn:Hfind; [|done].
  intros [= <-]. apply list_find_Some in Hfind as (Hi & Hid & _). exists claim. split; [|done].
  apply elem_of_btree_iter. by eapply list_elem_of_lookup_2.
Qed.

Lemma persist_refund_stores claim_id record guard s u t :
  persist_refund_transaction_record_guarded claim_id record guard s = Done u t ->
  refund_intent_stored record (Canister.factory t).
Proof.
  unfold persist_refund_transaction_record_guarded, write_state, zoom. intros Hrun.
  lazymatch type of Hrun with (match ?m with _ => _ end) = _ =>
    destruct m as [u' state| |] eqn:Hwrite; [|done|done] end.
  injection Hrun as <- <-.
  run_inv Hwrite as state0 t0 H0. injection H0 as <- <-.
  run_inv Hwrite as u1 t1 H1.
  assert (t1 = Canister.factory s) as ->.
  { destruct guard as [[session_id generation]|]; [by apply fail_if_Done in H1 as [_ ->]|].
    by injection H1 as _ <-. }
  run_inv Hwrite as key t2 H2. apply lift_Done in H2 as [Hkey ->].
  apply ok_or_Ok, find_claim_key_Some in Hkey as (claim & Hclaim & _).
  injection Hwrite as _ <-. exists key. eexists. simpl_set. split; [|].
  - by rewrite lookup_alter_eq, Hclaim.
  - done.
Qed.

Section WriteAhead.
Context `{Externals, rpc : ReleaseRpc}.

(** The bytes are the stored raw transaction of some claim, and hash to the
    transaction hash stored with them. *)
Definition raw_transaction_stored (raw_tx_hex : string) (state : FactoryState.t) : bool :=
  existsb (fun claim =>
    match EscrowClaim.refund_broadcast claim, decode_hex raw_tx_hex with
    | Some record, Ok bytes =>
        bool_decide (ReleaseBroadcastRecord.raw_transaction_hex record = Some raw_tx_hex)
        && bool_decide (ReleaseBroadcastRecord.raw_transaction_hash record
                        = Some (keccak_hex bytes))
    | _, _ => false
    end) (btree_values (FactoryState.escrow_claims state)).

(** An RPC that refuses to send anything else: it traps. *)
Definition checked_rpc : ReleaseRpc := {|
  release_rpc := release_rpc;
  eth_send_raw_transaction := fun endpoints raw_tx_hex canister =>
    if raw_transaction_stored raw_tx_hex (Canister.factory canister)
    then eth_send_raw_transaction endpoints raw_tx_hex canister else Trap;
  eth_get_transaction_receipt_status := eth_get_transaction_receipt_status;
  eth_get_transaction_count := eth_get_transaction_count;
  ecdsa_public_key := ecdsa_public_key;
  sign_with_ecdsa := sign_with_ecdsa;
  cost_sign_with_ecdsa := cost_sign_with_ecdsa;
  current_canister_balance := current_canister_balance;
  api_time := api_time;
  verifying_key_from_sec1_bytes := verifying_key_from_sec1_bytes;
|}.

Lemma stored_raw_transaction record raw_tx_hex local_hash state :
  refund_intent_stored record state ->
  validated_raw_transaction record = Ok (raw_tx_hex, local_hash) ->
  raw_transaction_stored raw_tx_hex state = true.
Proof.
  intros (key & claim & Hclaim & Hrecord). unfold validated_raw_transaction.
  destruct (ReleaseBroadcastRecord.raw_transaction_hex record) as [raw|] eqn:Hraw; [|done].
  cbn [ok_or mbind result_bind]. destruct (decode_hex raw) as [bytes|] eqn:Hbytes; [|done].
  cbn [mbind result_bind]. intros [_ Hrest]%err_if_seq_Ok.
  apply err_if_seq_Ok in Hrest as [Hhash [= <- <-]].
  apply negb_false_iff, bool_decide_eq_true in Hhash.
  unfold raw_transaction_stored. apply existsb_exists. exists claim. split.
  - apply list_elem_of_In, elem_of_btree_values. eauto.
  - by rewrite Hrecord, Hbytes, !bool_decide_eq_true_2.
Qed.

Lemma checked_broadcast_persisted endpoints record now_ms depth guard canister :
  refund_intent_stored record (Canister.factory canister) ->
  @broadcast_and_confirm_persisted_refund _ checked_rpc endpoints record now_ms depth guard canister
  = @broadcast_and_confirm_persisted_refund _ rpc endpoints record now_ms depth guard canister.
Proof.
  intros Hstored. unfold broadcast_and_confirm_persisted_refund.
  apply bind_ext. intros [raw_tx_hex local_hash] t Hvalid.
  apply map_fail_Done, lift_Done in Hvalid as [Hvalid ->].
  apply bind_ext. intros u t Hguard. apply map_fail_Done, ensure_guard_held in Hguard as [-> _].
  unfold mbind, M_bind, at_stage, map_fail, catch. cbn [eth_send_raw_transaction checked_rpc].
  by rewrite (stored_raw_transaction record raw_tx_hex local_hash).
Qed.

(** refunds are written ahead: a refund transaction is only ever sent
    after exactly its raw bytes, with their hash, have been stored in the
    claim, so a continuation that is lost after the send can always resume the
    same transaction.  An RPC that traps on any other send changes nothing, on
    any state and whatever runs between the calls: for a fresh refund, and for
    the resumption of a stored refund intent. *)
Theorem refund_write_ahead :
  (forall claim_id recipient endpoints escrow nonce now_ms config reproduction depth guard canister,
     @broadcast_release_transaction _ checked_rpc claim_id recipient endpoints escrow nonce now_ms
       config reproduction true depth guard canister
     = @broadcast_release_transaction _ rpc claim_id recipient endpoints escrow nonce now_ms
       config reproduction true depth guard canister)
  /\ (forall endpoints record now_ms depth guard canister,
     refund_intent_stored record (Canister.factory canister) ->
     @resume_persisted_refund_transaction _ checked_rpc endpoints record now_ms depth guard canister
     = @resume_persisted_refund_transaction _ rpc endpoints record now_ms depth guard canister).
Proof.
  split.
  - intros. unfold broadcast_release_transaction.
    change (@sign_release_transaction _ checked_rpc) with (@sign_release_transaction _ rpc).
    apply bind_ext. intros [record raw_tx_hex] t _.
    apply bind_ext. intros u1 t1 _. apply bind_ext. intros u2 t2 Hpersist.
    apply map_fail_Done, persist_refund_stores in Hpersist.
    apply bind_ext. intros u3 t3 Hguard. apply map_fail_Done, ensure_guard_held in Hguard as [-> _].
    by apply checked_broadcast_persisted.
  - intros endpoints record now_ms depth guard canister Hstored.
    unfold resume_persisted_refund_transaction. apply bind_ext. intros record' t Hrecord.
    assert (Hstored' : refund_intent_stored record' (Canister.factory t)).
    { destruct (ReleaseBroadcastRecord.raw_transaction_hex record) as [raw|].
      - by injection Hrecord as <- <-.
      - run_inv Hrecord as raw t0 H0. apply map_fail_Done, lift_Done in H0 as [_ ->].
        run_inv Hrecord as u t1 H1. apply map_fail_Done in H1. injection Hrecord as <- <-.
        by eapply persist_refund_stores. }
    apply bind_ext. intros u t1 Hguard. apply map_fail_Done, ensure_guard_held in Hguard as [-> _].
    unfold mbind, M_bind, catch. by rewrite checked_broadcast_persisted.
Qed.
End WriteAhead.

(** ** Witness *)

(** A node at block 60 whose transactions succeed in block 15. *)
Definition sample_release_rpc : ReleaseRpc := {|
  release_rpc := {|
    eth_block_number := fun _ => mret 60%N;
    eth_get_block_hash_by_number := fun _ _ => mret "0xAB";
    eth_get_deposited_logs := fun _ _ _ => mret [];
  |};
  eth_send_raw_transaction := fun _ raw => mret raw;
  eth_get_transaction_receipt_status := fun _ _ =>
    mret (Some (TransactionReceiptObservation.mk true 15 "0xab"));
  eth_get_transaction_count := fun _ _ => mret 3%N;
  ecdsa_public_key := fun _ => mret [x04];
  sign_with_ecdsa := fun _ _ => mret (replicate 64 x11);
  cost_sign_with_ecdsa := fun _ _ => Ok 10%N;
  current_canister_balance := fun _ => 1000%N;
  api_time := fun _ => 0%N;
  verifying_key_from_sec1_bytes := fun bytes => Ok bytes;
|}.

Definition sample_record : ReleaseBroadcastRecord.t :=
  unplanned_record "0xc" "0xs" "0xe" 0 ReleaseBroadcastConfig.default.

Lemma confirm_release_receipt_depth_correct_witness :
  exists canister receipt,
    @confirm_release_receipt_depth sample_release_rpc ["u"] 6 sample_record "0xt" None
      (Canister.mk Samples.initial ∅) = Done (with_receipt receipt sample_record, true) canister
    /\ TransactionReceiptObservation.status receipt = true.
Proof.
  eexists _, _. split; [reflexivity|].
  destruct (@confirm_release_receipt_depth_correct sample_release_rpc ["u"] 6 sample_record "0xt"
    None (Canister.mk Samples.initial ∅) (with_receipt
      (TransactionReceiptObservation.mk true 15 "0xab") sample_record) true
    (Canister.mk Samples.initial ∅) eq_refl)
    as (_ & latest & c1 & [receipt|] & c2 & _ & _ & Hr & _ & _ & Hrest);
    [|by destruct Hrest as [[=] _]].
  destruct Hrest as (_ & Hstatus & _). injection Hr as <- _. exact Hstatus.
Defined.
