(* ===== verification/Refund.v ===== *)
(** * Refund: claiming the refund of a session

    Models [claim_escrow_refund_inner] of [backend/factory/src/escrow.rs] in its
    canister build, with its two entry points.  It resumes whatever a previous
    attempt left in the claim: a transaction that was sent, a signed
    transaction that may not have been, a draft that reserved a nonce, or
    nothing; and finalises the refund once the transaction is confirmed. *)

From S2P Require Import Prelude Text SpawnProtocol Types Externals State Samples Transitions Scheduler Retry Evidence Escrow Evm Broadcast.
From Stdlib Require Import Strings.Byte.

(** The draft a broadcast starts from. *)
Module RefundDraft.
Record t := mk {
  claim_id : string;
  recipient : string;
  escrow : string;
  config : ReleaseBroadcastConfig.t;
  nonce : N;
}.
End RefundDraft.

Section Refund.
Context `{ext : Externals, rpc : ReleaseRpc}.

(** The last step: finalise, and forget the provider secrets. *)
Definition finish_refund (session_id : string) (now_ms : N) (generation : option N)
    (tx_hash : string) : C RefundSpawnResponse.t :=
  result ← catch (write_refund_guarded session_id generation
    (finalize_escrow_refund_in_state session_id now_ms tx_hash));
  (if is_ok result then delete_spawn_provider_secrets session_id else mret tt);;
  lift result.

(** Store the record of a broadcast; finish if it is confirmed. *)
Definition settle_refund (session_id : string) (now_ms : N) (generation : option N)
    (record : ReleaseBroadcastRecord.t) (confirmed : bool) (tx_hash : string)
    : C RefundSpawnResponse.t :=
  write_refund_guarded session_id generation (persist_refund_broadcast_record session_id record);;
  fail_if (negb confirmed) (receipt_error "refund transaction remains pending");;
  finish_refund session_id now_ms generation tx_hash.

Definition ensure_generation (session_id : string) (generation : option N) : C unit :=
  match generation with
  | Some generation => ensure_refund_generation session_id generation
  | None => mret tt
  end.

(** Reserve a nonce and store a draft, or take over the stored draft. *)
Definition reserve_refund_draft (session_id : string) (session : SpawnSession.t) (escrow : string)
    (config : ReleaseBroadcastConfig.t) (pending_nonce : N) : F RefundDraft.t :=
  state ← get_state;
  match FactoryState.escrow_claims state !! session_id ≫= EscrowClaim.refund_broadcast with
  | Some record =>
      draft_config ← lift (validate_refund_transaction_draft record
        (SpawnSession.claim_id session) (SpawnSession.steward_address session)
        (ReleaseBroadcastConfig.ecdsa_key_name config));
      mret (RefundDraft.mk (ReleaseBroadcastRecord.claim_id record)
        (ReleaseBroadcastRecord.recipient record)
        (ReleaseBroadcastRecord.escrow_contract_address record) draft_config
        (ReleaseBroadcastRecord.nonce record))
  | None =>
      let nonce := N.max (default pending_nonce (FactoryState.next_release_nonce state))
        pending_nonce in
      draft ← lift (build_refund_transaction_draft (SpawnSession.claim_id session)
        (SpawnSession.steward_address session) escrow nonce config);
      modify (fun state => state
        <| FactoryState.next_release_nonce := Some (saturating_add 64 nonce 1) |>);;
      persist_refund_broadcast_record session_id draft;;
      mret (RefundDraft.mk (SpawnSession.claim_id session) (SpawnSession.steward_address session)
        escrow config nonce)
  end.

Definition claim_escrow_refund_inner (session_id : string) (now_ms : N) (generation : option N)
    : C RefundSpawnResponse.t :=
  validated ← read_state (validate_escrow_refund_in_state session_id now_ms);
  match validated with
  | Some response => mret response
  | None =>
  state ← gets Canister.factory;
  session ← expect (FactoryState.sessions state !! session_id);
  claim ← expect (FactoryState.escrow_claims state !! session_id);
  let endpoints := configured_rpc_endpoints (FactoryState.base_rpc_endpoint state)
    (FactoryState.base_rpc_fallback_endpoint state) in
  let escrow := FactoryState.escrow_contract_address state in
  let config := FactoryState.release_broadcast_config state in
  let confirmation_depth := FactoryState.evm_confirmation_depth state in
  let continuation_guard := ReleaseTransactionGuard.Refund session_id <$> generation in
  let restart :=
    pending_nonce ← pending_release_nonce endpoints;
    ensure_generation session_id generation;;
    draft ← write_refund_guarded session_id generation
      (reserve_refund_draft session_id session escrow config pending_nonce);
    receipt ← catch (broadcast_release_transaction (RefundDraft.claim_id draft)
      (RefundDraft.recipient draft) endpoints (RefundDraft.escrow draft)
      (RefundDraft.nonce draft) now_ms (RefundDraft.config draft) None true confirmation_depth
      continuation_guard);
    match receipt with
    | Ok receipt =>
        settle_refund session_id now_ms generation (ReleaseBroadcastReceipt.record receipt)
          (ReleaseBroadcastReceipt.confirmed receipt)
          (ReleaseBroadcastReceipt.release_tx_hash receipt)
    | Err error =>
        write_refund_guarded session_id generation
          (persist_refund_broadcast_record session_id (ReleaseBroadcastError.record error));;
        mthrow (ReleaseBroadcastError.source error)
    end in
  match EscrowClaim.refund_broadcast claim with
  | Some record =>
      match ReleaseBroadcastRecord.rpc_tx_hash record,
            ReleaseBroadcastRecord.raw_transaction_hash record with
      | Some tx_hash, _ =>
          ensure_generation session_id generation;;
          '(receipt_record, confirmed) ← map_fail snd
            (confirm_release_receipt_depth endpoints confirmation_depth record tx_hash
              continuation_guard);
          ensure_generation session_id generation;;
          settle_refund session_id now_ms generation receipt_record confirmed tx_hash
      | None, Some _ =>
          ensure_generation session_id generation;;
          receipt ← map_fail ReleaseBroadcastError.source
            (resume_persisted_refund_transaction endpoints record now_ms confirmation_depth
              continuation_guard);
          settle_refund session_id now_ms generation (ReleaseBroadcastReceipt.record receipt)
            (ReleaseBroadcastReceipt.confirmed receipt)
            (ReleaseBroadcastReceipt.release_tx_hash receipt)
      | None, None => restart
      end
  | None => restart
  end
  end.

Definition claim_escrow_refund (session_id : string) (now_ms : N) : C RefundSpawnResponse.t :=
  claim_escrow_refund_inner session_id now_ms None.

(** The lease is checked before and after; an error of the claim itself is
    reported only while the lease is held. *)
Definition claim_escrow_refund_authorized (session_id : string) (now_ms generation : N)
    : C RefundSpawnResponse.t :=
  ensure_refund_generation session_id generation;;
  result ← catch (claim_escrow_refund_inner session_id now_ms (Some generation));
  ensure_refund_generation session_id generation;;
  lift result.
End Refund.

(** ** Runs that returned *)

Lemma write_refund_guarded_Done {A} session_id generation (mutation : F A) s a t :
  write_refund_guarded session_id generation mutation s = Done a t ->
  (forall g, generation = Some g -> refund_lease_held session_id g (Canister.factory s) = true)
  /\ exists state', mutation (Canister.factory s) = Done a state'
       /\ t = s <| Canister.factory := state' |>.
Proof.
  unfold write_refund_guarded, write_state, zoom. intros Hrun.
  lazymatch type of Hrun with (match ?m with _ => _ end) = _ =>
    destruct m as [a' state'| |] eqn:Hwrite; [|done|done] end. injection Hrun as <- <-.
  run_inv Hwrite as state0 t0 H0. injection H0 as <- <-.
  run_inv Hwrite as u1 t1 H1.
  assert (Hlease : t1 = Canister.factory s /\ forall g, generation = Some g ->
    refund_lease_held session_id g (Canister.factory s) = true).
  { destruct generation as [g|].
    - apply fail_if_Done in H1 as [Hlease ->]. split; [done|]. intros g' [= <-].
      unfold refund_lease_held. destruct (FactoryState.steward_refund_leases _ !! session_id); [|done].
      by apply negb_false_iff in Hlease.
    - injection H1 as _ <-. done. }
  destruct Hlease as [-> Hlease]. split; [done|]. by exists state'.
Qed.

Lemma finalize_refund_Done session_id now_ms tx_hash state response state' :
  finalize_escrow_refund_in_state session_id now_ms tx_hash state = Done response state' ->
  FactoryState.steward_refund_leases state' = FactoryState.steward_refund_leases state
  /\ exists session claim claim',
    FactoryState.sessions state' !! session_id = Some session
    /\ SpawnSession.payment_status session = PaymentStatus.Refunded
    /\ FactoryState.escrow_claims state !! session_id = Some claim
    /\ FactoryState.escrow_claims state' !! session_id = Some claim'
    /\ EscrowClaim.refund_broadcast claim' = EscrowClaim.refund_broadcast claim
    /\ RefundSpawnResponse.payment_status response = PaymentStatus.Refunded
    /\ (RefundSpawnResponse.refund_tx_hash response = Some tx_hash
        \/ RefundSpawnResponse.refund_tx_hash response =
           EscrowClaim.refund_broadcast claim ≫= ReleaseBroadcastRecord.rpc_tx_hash).
Proof.
  intros Hrun.
  destruct (FactoryState.sessions state !! session_id) as [session|] eqn:Hs;
    [|edestruct finalize_refund_missing as [e He]; [left; exact Hs|]; by rewrite He in Hrun].
  destruct (FactoryState.escrow_claims state !! session_id) as [claim|] eqn:Hc;
    [|edestruct finalize_refund_missing as [e He]; [right; exact Hc|]; by rewrite He in Hrun].
  rewrite (finalize_refund_run _ _ _ _ _ _ Hs Hc) in Hrun.
  destruct (validate_escrow_refund_in_state session_id now_ms state) as [[r|]|e] eqn:Hv; [| |done].
  - injection Hrun as <- <-. split; [done|]. exists session, claim, claim.
    unfold validate_escrow_refund_in_state, claim_of in Hv. rewrite Hs, Hc in Hv.
    cbn [ok_or mbind result_bind] in Hv.
    destruct (bool_decide (SpawnSession.payment_status session = PaymentStatus.Refunded)) eqn:Hp;
      [|by destruct (_ || _) in Hv].
    apply bool_decide_eq_true in Hp. injection Hv as <-. split_and!; try done. by right.
  - destruct (refunded_state_lookup session_id now_ms session claim state) as [Hs' Hc'].
    assert (Hdone : response = RefundSpawnResponse.mk session_id (SpawnSession.state session)
        PaymentStatus.Refunded now_ms (Some tx_hash)
      /\ state' = refunded_state session_id now_ms session claim state).
    { destruct (SpawnSession.automaton_canister_id session); [case_decide; [|done]|];
        by injection Hrun as <- <-. }
    destruct Hdone as [-> ->]. split; [done|].
    eexists _, claim, _. split; [exact Hs'|]. split; [done|]. split; [done|].
    split; [exact Hc'|]. split; [done|]. split; [done|]. by left.
Qed.

Section Settled.
Context `{rpc : ReleaseRpc}.

(** What a refund that this call settled leaves behind: the session is refunded,
    and its claim keeps a record whose receipt the nodes of [endpoints] confirm
    as successful, canonical and [depth] blocks deep. *)
Definition refund_settled (endpoints : list string) (depth : N) (session_id : string)
    (generation : option N)
    (response : RefundSpawnResponse.t) (canister : Canister.t) : Prop :=
  let state := Canister.factory canister in
  (forall g, generation = Some g -> refund_lease_held session_id g state = true)
  /\ Canister.spawn_provider_secrets canister !! session_id = None
  /\ exists session claim record tx_hash,
    FactoryState.sessions state !! session_id = Some session
    /\ SpawnSession.payment_status session = PaymentStatus.Refunded
    /\ FactoryState.escrow_claims state !! session_id = Some claim
    /\ EscrowClaim.refund_broadcast claim = Some record
    /\ confirmed_record endpoints depth record tx_hash
    /\ RefundSpawnResponse.refund_tx_hash response = Some tx_hash.

Lemma settle_refund_Done endpoints depth session_id now_ms generation record confirmed tx_hash s response t :
  (confirmed = true -> confirmed_record endpoints depth record tx_hash) ->
  settle_refund session_id now_ms generation record confirmed tx_hash s = Done response t ->
  refund_settled endpoints depth session_id generation response t.
Proof.
  intros Hconfirmed Hrun. unfold settle_refund in Hrun.
  run_inv Hrun as u1 t1 H1. apply write_refund_guarded_Done in H1 as (_ & state1 & H1 & ->).
  injection H1 as _ <-. run_inv Hrun as u2 t2 H2. apply fail_if_Done in H2 as [Hc ->].
  apply negb_false_iff in Hc. pose proof (Hconfirmed Hc) as Hrecord. pose proof (proj1 Hrecord) as Hhash.
  unfold finish_refund in Hrun. run_inv Hrun as result t3 H3. apply catch_Done in H3.
  destruct result as [response'|e].
  2:{ run_inv Hrun as u4 t4 H4. by apply lift_Done in Hrun as [? _]. }
  apply write_refund_guarded_Done in H3 as (Hlease & state3 & H3 & ->).
  run_inv Hrun as u4 t4 H4. injection H4 as _ <-. apply lift_Done in Hrun as [[= ->] ->].
  apply finalize_refund_Done in H3
    as (Hleases & session & claim & claim' & Hs & Hp & Hclaim & Hclaim' & Hrec & Hpay & Htx).
  cbn [Canister.factory] in Hclaim, Hlease.
  split; [|split].
  - intros g Hg. specialize (Hlease g Hg). unfold refund_lease_held in *.
    change (FactoryState.steward_refund_leases state3 !! session_id) with
      (FactoryState.steward_refund_leases state3 !! session_id). simpl_set. rewrite Hleases. exact Hlease.
  - apply lookup_delete_eq.
  - change (alter (set EscrowClaim.refund_broadcast (fun _ => Some record)) session_id
      (FactoryState.escrow_claims (Canister.factory s)) !! session_id = Some claim) in Hclaim.
    apply lookup_alter_Some in Hclaim as [(_ & claim0 & _ & ->)|[? _]]; [|done].
    exists session, claim', record, tx_hash.
    split; [exact Hs|]. split; [done|]. split; [exact Hclaim'|]. split; [by rewrite Hrec|].
    split; [exact Hrecord|]. destruct Htx as [->| ->]; [done|]. exact Hhash.
Qed.
End Settled.

Section RefundProof.
Context `{ext : Externals, rpc : ReleaseRpc}.

(** C34 - a refund is only ever reported on the evidence of the chain.  Whatever
    runs between its calls, when [claim_escrow_refund_inner] returns, either the
    session was refunded already and nothing was written, or the session is now
    refunded and its claim holds a broadcast record with the transaction hash
    that the response reports and with a receipt that was confirmed: at the
    endpoints configured when the call began, a node reported it with a success
    status in a canonical block that was at least the configured number of
    confirmations deep.  The provider secrets are gone, and under a command
    generation the lease was still the one of that generation when the refund
    was finalised. *)
Theorem claim_escrow_refund_confirmed session_id now_ms generation canister response canister'
    (Hrun : claim_escrow_refund_inner session_id now_ms generation canister
       = Done response canister') :
  (canister' = canister
   /\ exists session, FactoryState.sessions (Canister.factory canister) !! session_id = Some session
      /\ SpawnSession.payment_status session = PaymentStatus.Refunded)
  \/ let state := Canister.factory canister in
     refund_settled
       (configured_rpc_endpoints (FactoryState.base_rpc_endpoint state)
         (FactoryState.base_rpc_fallback_endpoint state))
       (FactoryState.evm_confirmation_depth state) session_id generation response canister'.
Proof.
  unfold claim_escrow_refund_inner in Hrun. run_inv Hrun as validated t0 H0.
  apply read_state_Done in H0 as [Hvalid ->]. destruct validated as [response0|].
  { injection Hrun as -> ->. left. split; [done|].
    unfold validate_escrow_refund_in_state in Hvalid.
    destruct (FactoryState.sessions _ !! session_id) as [session|]; [|done]. exists session.
    split; [done|]. cbn [ok_or mbind result_bind] in Hvalid.
    destruct (claim_of _ _) as [claim|]; [|done]. cbn [mbind result_bind] in Hvalid.
    destruct (bool_decide _) eqn:Hp; [|by destruct (_ || _) in Hvalid].
    by apply bool_decide_eq_true in Hp. }
  right. run_inv Hrun as state t1 H1. injection H1 as <- <-. cbv zeta.
  run_inv Hrun as session t2 H2. run_inv Hrun as claim t3 H3. clear H2 H3 Hvalid.
  assert (Hrestart : forall endpoints escrow config depth guard,
    (pending_nonce ← pending_release_nonce endpoints;
     ensure_generation session_id generation;;
     draft ← write_refund_guarded session_id generation
       (reserve_refund_draft session_id session escrow config pending_nonce);
     receipt ← catch (broadcast_release_transaction (RefundDraft.claim_id draft)
       (RefundDraft.recipient draft) endpoints (RefundDraft.escrow draft)
       (RefundDraft.nonce draft) now_ms (RefundDraft.config draft) None true depth guard);
     match receipt with
     | Ok receipt =>
         settle_refund session_id now_ms generation (ReleaseBroadcastReceipt.record receipt)
           (ReleaseBroadcastReceipt.confirmed receipt)
           (ReleaseBroadcastReceipt.release_tx_hash receipt)
     | Err error =>
         write_refund_guarded session_id generation
           (persist_refund_broadcast_record session_id (ReleaseBroadcastError.record error));;
         mthrow (ReleaseBroadcastError.source error)
     end) t3 = Done response canister' ->
    refund_settled endpoints depth session_id generation response canister').
  { intros endpoints escrow config depth guard Hrestart.
    run_inv Hrestart as pending_nonce t4 H4. run_inv Hrestart as u5 t5 H5.
    run_inv Hrestart as draft t6 H6. run_inv Hrestart as receipt t7 H7.
    apply catch_Done in H7. destruct receipt as [receipt|error].
    - eapply settle_refund_Done; [|exact Hrestart].
      by apply broadcast_release_transaction_ok in H7 as [Hok _].
    - run_inv Hrestart as u8 t8 H8. done. }
  destruct (EscrowClaim.refund_broadcast claim) as [record|]; [|by eapply Hrestart].
  destruct (ReleaseBroadcastRecord.rpc_tx_hash record) as [tx_hash|] eqn:Htx.
  - run_inv Hrun as u4 t4 H4. run_inv Hrun as confirmation t5 H5.
    destruct confirmation as [receipt_record confirmed]. run_inv Hrun as u6 t6 H6.
    eapply settle_refund_Done; [|exact Hrun]. intros ->.
    apply confirm_release_receipt_depth_true in H5 as (observed & -> & Hchain).
    by apply confirmed_with_receipt.
  - destruct (ReleaseBroadcastRecord.raw_transaction_hash record) as [hash|];
      [|by eapply Hrestart].
    run_inv Hrun as u4 t4 H4. run_inv Hrun as receipt t5 H5.
    eapply settle_refund_Done; [|exact Hrun]. by eapply resume_persisted_refund_ok.
Qed.

(** reserving a refund draft.  With a stored record, the record's own
    transaction is resumed and nothing is written; otherwise the draft takes a
    nonce that is at least the node's pending nonce and at least every nonce
    reserved before, moves the reservation past it, and is stored in the claim.
    Two fresh reservations therefore never share a nonce.  A refusal writes
    nothing. *)
Theorem reserve_refund_draft_correct session_id session escrow config pending_nonce state :
  match reserve_refund_draft session_id session escrow config pending_nonce state with
  | Trap => False
  | Fail _ state' => state' = state
  | Done draft state' =>
      match FactoryState.escrow_claims state !! session_id ≫= EscrowClaim.refund_broadcast with
      | Some record =>
          state' = state
          /\ RefundDraft.claim_id draft = SpawnSession.claim_id session
          /\ RefundDraft.recipient draft = SpawnSession.steward_address session
          /\ RefundDraft.nonce draft = ReleaseBroadcastRecord.nonce record
      | None =>
          let nonce := RefundDraft.nonce draft in
          (pending_nonce <= nonce)%N
          /\ (default 0%N (FactoryState.next_release_nonce state) <= nonce)%N
          /\ FactoryState.next_release_nonce state' = Some (saturating_add 64 nonce 1)
          /\ (exists record, build_refund_transaction_draft (SpawnSession.claim_id session)
                (SpawnSession.steward_address session) escrow nonce config = Ok record
              /\ FactoryState.escrow_claims state' =
                 alter (set EscrowClaim.refund_broadcast (fun _ => Some record)) session_id
                   (FactoryState.escrow_claims state))
          /\ FactoryState.sessions state' = FactoryState.sessions state
      end
  end.
Proof.
  unfold reserve_refund_draft. unfold mbind at 1, M_bind at 1, get_state.
  destruct (FactoryState.escrow_claims state !! session_id ≫= EscrowClaim.refund_broadcast)
    as [record|].
  - unfold mbind, M_bind, lift. destruct (validate_refund_transaction_draft _ _ _ _) as [c|e] eqn:Hv;
      [|done]. cbn. unfold validate_refund_transaction_draft in Hv.
    apply err_if_seq_Ok in Hv as [Hid _]. apply orb_false_iff in Hid as [Hc Hr].
    apply negb_false_iff, bool_decide_eq_true in Hc, Hr. done.
  - set (nonce := N.max _ _). unfold mbind, M_bind, lift.
    destruct (build_refund_transaction_draft _ _ _ _ _) as [record|e] eqn:Hbuild; [|done].
    cbn. split; [lia|]. split; [|split; [done|split; [by exists record|done]]].
    subst nonce. destruct (FactoryState.next_release_nonce state); cbn; lia.
Qed.
End RefundProof.

(** *** Witness *)

(** A failed, paid session whose refund was sent before. *)
Definition sample_sent_refund : Canister.t :=
  Canister.mk (Samples.state_with_claim
    (Samples.session SpawnSessionState.Failed PaymentStatus.Paid
       <| SpawnSession.refundable := true |>)
    (Samples.claim "75" PaymentStatus.Paid
       <| EscrowClaim.refundable := true |>
       <| EscrowClaim.refund_broadcast := Some (sample_record
            <| ReleaseBroadcastRecord.rpc_tx_hash := Some "0xt" |>) |>)) ∅.

Lemma claim_escrow_refund_confirmed_witness :
  match @claim_escrow_refund_inner toy_externals sample_release_rpc "s" 900 None
          sample_sent_refund with
  | Done response canister' =>
      @refund_settled sample_release_rpc
        (configured_rpc_endpoints
          (FactoryState.base_rpc_endpoint (Canister.factory sample_sent_refund))
          (FactoryState.base_rpc_fallback_endpoint (Canister.factory sample_sent_refund)))
        (FactoryState.evm_confirmation_depth (Canister.factory sample_sent_refund))
        "s" None response canister'
  | _ => False
  end.
Proof.
  destruct (@claim_escrow_refund_inner toy_externals sample_release_rpc "s" 900 None
    sample_sent_refund) as [response canister'| |] eqn:Hrun;
    [|vm_compute in Hrun; discriminate Hrun..].
  destruct (@claim_escrow_refund_confirmed toy_externals sample_release_rpc "s" 900 None
    sample_sent_refund response canister' Hrun) as [(_ & session & Hs & Hp)|Hsettled]; [|done].
  vm_compute in Hs. injection Hs as <-. discriminate Hp.
Defined.
