(* ===== verification/Steward.v ===== *)
(** * Steward: commands authorised by the steward's signature

    Models the steward section of [backend/factory/src/api/public.rs] in its
    canister build: preparing a command, recovering the signer of a personal
    message, authorising a proof and consuming its nonce, the refund leases
    that fence concurrent refunds, and [execute_spawn_steward_command]. *)

From S2P Require Import Prelude Text SpawnProtocol Types Externals State Init Samples Transitions Scheduler Retry Evidence Escrow Evm Broadcast Refund.
From Stdlib Require Import Ascii Strings.Byte.

Definition FACTORY_STEWARD_DOMAIN : string := "ic-automaton:factory-steward:v1".
Definition FACTORY_STEWARD_PROOF_TTL_NS : N := 5 * 60 * 1000000000.
Definition REFUND_COMMAND_LEASE_MS : N := 60000.

Definition invalid_proof (reason : string) : FactoryError.t :=
  FactoryError.InvalidStewardProof reason.

Definition newline : string := String (ascii_of_N 10) EmptyString.

Definition normalize_address (raw : string) : result FactoryError.t string :=
  let value := to_ascii_lowercase (trim raw) in
  body ← ok_or (strip_prefix value "0x") (invalid_proof "address must be 0x-prefixed");
  err_if (negb (str_len body =? 40)%N || negb (forallb is_ascii_hexdigit (str_bytes body)))
    (invalid_proof "address must be 20 bytes of hex");;
  Ok ("0x" +:+ body).

Definition decode_proof_hex (raw : string) (bytes : N) (field : string)
    : result FactoryError.t (list byte) :=
  body ← ok_or (strip_prefix (trim raw) "0x") (invalid_proof (field +:+ " must be 0x-prefixed"));
  err_if (negb (str_len body =? bytes * 2)%N || negb (forallb is_ascii_hexdigit (str_bytes body)))
    (invalid_proof (field +:+ " must be " +:+ pretty bytes +:+ " bytes of hex"));;
  ok_or (decode_hex_pairs body) (invalid_proof ("invalid " +:+ field)).

Definition signing_payload (canister_id : string) (chain_id : N) (address command_hash : string)
    (nonce expires_at_ns : N) : string :=
  join newline [FACTORY_STEWARD_DOMAIN;
    "canister_id:" +:+ canister_id;
    "chain_id:" +:+ pretty chain_id;
    "address:" +:+ address;
    "command_hash:" +:+ command_hash;
    "nonce:" +:+ pretty nonce;
    "expires_at_ns:" +:+ pretty expires_at_ns].

(** [matches!(command, FactoryStewardCommand::ClaimSpawnRefund { .. })]. *)
Definition is_refund (command : FactoryStewardCommand.t) : bool :=
  match command with
  | FactoryStewardCommand.ClaimSpawnRefund _ => true
  | FactoryStewardCommand.RetrySpawnSession _ => false
  end.

Definition session_nonce (session_id : string) (state : FactoryState.t) : N :=
  default 0%N (FactoryState.steward_command_nonces state !! session_id).

(** A refund that was accepted before and has not been settled is resumed. *)
Definition refund_resumes (command : FactoryStewardCommand.t) (state : FactoryState.t) : bool :=
  is_refund command
  && bool_decide (FactoryStewardCommand.session_id command
                  ∈ FactoryState.steward_refunds_in_flight state).

(** The generation of the refund lease the command takes. *)
Definition next_refund_generation (command : FactoryStewardCommand.t) (refund_resume : bool)
    (lease : option RefundCommandLease.t) (now_ms : N) : result FactoryError.t (option N) :=
  if is_refund command then
    match lease with
    | Some lease =>
        err_if (refund_resume && (now_ms <=? RefundCommandLease.expires_at_ms lease)%N)
          (invalid_proof "refund command is already accepted and awaiting reconciliation");;
        generation ← ok_or (checked_add 64 (RefundCommandLease.generation lease) 1)
          (invalid_proof "refund generation overflow");
        Ok (Some generation)
    | None => Ok (Some 1%N)
    end
  else Ok None.

(** The check that a refund may be claimed. *)
Definition ensure_refundable (session_id : string) : F unit :=
  state ← get_state;
  session ← expect (FactoryState.sessions state !! session_id);
  claim ← lift (claim_of session_id state);
  fail_if (negb (bool_decide (SpawnSession.payment_status session = PaymentStatus.Refunded))
           && (bool_decide (SpawnSession.state session
                            ∉ [SpawnSessionState.Expired; SpawnSessionState.Failed])
               || negb (SpawnSession.refundable session) || negb (EscrowClaim.refundable claim)))
    (FactoryError.SessionNotRefundable session_id (SpawnSession.state session)
      (SpawnSession.payment_status session)).

Definition status_response (session_id : string) : F SpawnSessionStatusResponse.t :=
  state ← get_state;
  session ← expect (FactoryState.sessions state !! session_id);
  mret (SpawnSessionStatusResponse.mk session
    (SpawnPaymentInstructions.from_session session (FactoryState.payment_address state))
    (default [] (FactoryState.audit_log state !! session_id))).

(** The effect of the command itself. *)
Definition run_command (command : FactoryStewardCommand.t) (refund_resume : bool) (now_ms : N)
    : F unit :=
  let session_id := FactoryStewardCommand.session_id command in
  if is_refund command then
    (if refund_resume then mret tt
     else expire_session_in_state session_id SessionAuditActor.User now_ms
            "refund requested by verified EVM steward";; mret tt);;
    ensure_refundable session_id
  else
    retry_spawn_session_in_state session_id SessionAuditActor.User now_ms
      "retry requested by verified EVM steward";;
    mret tt.

(** The bookkeeping of an accepted command: consume the nonce, mark the refund
    in flight, take the lease. *)
Definition record_acceptance (command : FactoryStewardCommand.t) (refund_resume : bool)
    (refund_generation : option N) (expected_nonce now_ms : N) : F unit :=
  let session_id := FactoryStewardCommand.session_id command in
  (if refund_resume then mret tt else
     next_nonce ← lift (ok_or (checked_add 64 expected_nonce 1) (invalid_proof "nonce overflow"));
     modify (fun state => state
       <| FactoryState.steward_command_nonces ::= <[session_id := next_nonce]> |>));;
  (if is_refund command && negb refund_resume
   then modify (fun state => state
          <| FactoryState.steward_refunds_in_flight ::= fun ids => {[session_id]} ∪ ids |>)
   else mret tt);;
  match refund_generation with
  | Some generation => modify (fun state => state
      <| FactoryState.steward_refund_leases ::= <[session_id := RefundCommandLease.mk generation
           (saturating_add 64 now_ms REFUND_COMMAND_LEASE_MS)]> |>)
  | None => mret tt
  end.

(** The closure of [write_state] in [authorize_and_consume]. *)
Definition consume_proof (command : FactoryStewardCommand.t) (proof : FactoryStewardProof.t)
    (address : string) (now_ms : N) : F (option SpawnSessionStatusResponse.t * option N) :=
  let session_id := FactoryStewardCommand.session_id command in
  session ← get_session session_id;
  state ← get_state;
  chain_id ← lift (canonical_deployment_chain_id (FactoryState.child_runtime state)
    (FactoryState.release_broadcast_config state));
  fail_if (bool_decide (SpawnSession.chain session <> SpawnChain.Base))
    (invalid_proof "unsupported session chain");;
  fail_if (negb (FactoryStewardProof.chain_id proof =? chain_id)%N)
    (invalid_proof "chain id mismatch");;
  steward ← lift (normalize_address (SpawnSession.steward_address session));
  fail_if (bool_decide (steward <> address)) (invalid_proof "signer is not the session steward");;
  let expected_nonce := session_nonce session_id state in
  fail_if (negb (FactoryStewardProof.nonce proof =? expected_nonce)%N)
    (invalid_proof ("nonce mismatch: expected " +:+ pretty expected_nonce +:+ ", got "
       +:+ pretty (FactoryStewardProof.nonce proof)));;
  let refund_resume := refund_resumes command state in
  refund_generation ← lift (next_refund_generation command refund_resume
    (FactoryState.steward_refund_leases state !! session_id) now_ms);
  run_command command refund_resume now_ms;;
  record_acceptance command refund_resume refund_generation expected_nonce now_ms;;
  if is_refund command then mret (None, refund_generation)
  else response ← status_response session_id; mret (Some response, None).

Section Steward.
Context `{ext : Externals}.

Definition factory_steward_command_hash (command : FactoryStewardCommand.t) : string :=
  hex_encode_prefixed (keccak256 (encode_command command)).

Definition recover_signer (payload signature : string) : result FactoryError.t string :=
  bytes ← decode_proof_hex signature 65 "signature";
  let recovery_byte := Byte.to_N (default x00 (bytes !! 64)) in
  recovery ←
    (if (recovery_byte <=? 1)%N then Ok recovery_byte
     else if (recovery_byte =? 27)%N || (recovery_byte =? 28)%N then Ok (recovery_byte - 27)%N
     else Err (invalid_proof ("unsupported recovery id " +:+ pretty recovery_byte)));
  signature ← map_err (fun error => invalid_proof ("malformed signature: " +:+ error))
    (signature_from_slice (take 64 bytes));
  let prefix := String (ascii_of_N 25) ("Ethereum Signed Message:" +:+ newline
    +:+ pretty (str_len payload)) in
  let digest := keccak256 (as_bytes prefix ++ as_bytes payload) in
  point ← map_err (fun error => invalid_proof ("signature recovery failed: " +:+ error))
    (recover_from_prehash digest signature recovery);
  let hash := keccak256 (drop 1 point) in
  Ok ("0x" +:+ hex_encode (drop 12 hash)).

Definition prepare_spawn_steward_command (command : FactoryStewardCommand.t)
    (canister_id : string) (now_ns : N) : C FactoryStewardProofTemplate.t :=
  let session_id := FactoryStewardCommand.session_id command in
  read_state (fun state =>
    session ← ok_or (FactoryState.sessions state !! session_id)
      (FactoryError.SessionNotFound session_id);
    err_if (bool_decide (SpawnSession.chain session <> SpawnChain.Base))
      (invalid_proof "unsupported session chain");;
    chain_id ← canonical_deployment_chain_id (FactoryState.child_runtime state)
      (FactoryState.release_broadcast_config state);
    address ← normalize_address (SpawnSession.steward_address session);
    let nonce := session_nonce session_id state in
    expires_at_ns ← ok_or (checked_add 64 now_ns FACTORY_STEWARD_PROOF_TTL_NS)
      (invalid_proof "expiry overflow");
    let command_hash := factory_steward_command_hash command in
    Ok (FactoryStewardProofTemplate.mk
      (signing_payload canister_id chain_id address command_hash nonce expires_at_ns)
      chain_id address command_hash nonce expires_at_ns)).

(** The checks in front of the write: what the proof must match, and the
    signature. *)
Definition verify_proof (command : FactoryStewardCommand.t) (proof : FactoryStewardProof.t)
    (canister_id : string) (now_ns : N) (state : FactoryState.t) : result FactoryError.t string :=
  let session_id := FactoryStewardCommand.session_id command in
  let expected_hash := factory_steward_command_hash command in
  address ← normalize_address (FactoryStewardProof.address proof);
  session ← ok_or (FactoryState.sessions state !! session_id)
    (FactoryError.SessionNotFound session_id);
  err_if (bool_decide (SpawnSession.chain session <> SpawnChain.Base))
    (invalid_proof "unsupported session chain");;
  expected_chain_id ← canonical_deployment_chain_id (FactoryState.child_runtime state)
    (FactoryState.release_broadcast_config state);
  expected_address ← normalize_address (SpawnSession.steward_address session);
  let expected_nonce := session_nonce session_id state in
  err_if (negb (FactoryStewardProof.chain_id proof =? expected_chain_id)%N)
    (invalid_proof "chain id mismatch");;
  err_if (bool_decide (address <> expected_address))
    (invalid_proof "signer is not the session steward");;
  err_if (negb (FactoryStewardProof.nonce proof =? expected_nonce)%N)
    (invalid_proof ("nonce mismatch: expected " +:+ pretty expected_nonce +:+ ", got "
       +:+ pretty (FactoryStewardProof.nonce proof)));;
  err_if (bool_decide (to_ascii_lowercase (FactoryStewardProof.command_hash proof)
                       <> expected_hash))
    (invalid_proof "command hash mismatch");;
  err_if (FactoryStewardProof.expires_at_ns proof <? now_ns)%N (invalid_proof "proof expired");;
  err_if (FACTORY_STEWARD_PROOF_TTL_NS
          <? saturating_sub (FactoryStewardProof.expires_at_ns proof) now_ns)%N
    (invalid_proof "proof expiry exceeds maximum");;
  let payload := signing_payload canister_id (FactoryStewardProof.chain_id proof) address
    expected_hash (FactoryStewardProof.nonce proof) (FactoryStewardProof.expires_at_ns proof) in
  signer ← recover_signer payload (FactoryStewardProof.signature proof);
  err_if (bool_decide (signer <> address))
    (invalid_proof "recovered signer does not match proof address");;
  Ok address.

Definition authorize_and_consume (command : FactoryStewardCommand.t)
    (proof : FactoryStewardProof.t) (canister_id : string) (now_ns now_ms : N)
    : C (option SpawnSessionStatusResponse.t * option N) :=
  address ← read_state (verify_proof command proof canister_id now_ns);
  write_state (consume_proof command proof address now_ms).

Definition clear_refund_in_flight (session_id : string) (generation : N) : C unit :=
  write_state (modify (fun state =>
    if refund_lease_held session_id generation state
    then state <| FactoryState.steward_refunds_in_flight ::= fun ids => ids ∖ {[session_id]} |>
               <| FactoryState.steward_refund_leases ::= delete session_id |>
    else state)).

Context `{rpc : ReleaseRpc}.

Definition execute_spawn_steward_command (command : FactoryStewardCommand.t)
    (proof : FactoryStewardProof.t) (canister_id : string) (now_ns now_ms : N)
    : C FactoryStewardCommandResult.t :=
  '(response, refund_generation) ←
    authorize_and_consume command proof canister_id now_ns now_ms;
  match command with
  | FactoryStewardCommand.RetrySpawnSession _ =>
      response ← expect response;
      mret (FactoryStewardCommandResult.Retry response)
  | FactoryStewardCommand.ClaimSpawnRefund session_id =>
      generation ← expect refund_generation;
      result ← catch (claim_escrow_refund_authorized session_id now_ms generation);
      clear_refund_in_flight session_id generation;;
      refund ← lift result;
      mret (FactoryStewardCommandResult.Refund refund)
  end.
End Steward.

(** ** What a command leaves alone

    Only [consume_proof] and [clear_refund_in_flight] write the nonces, the
    in-flight set and the leases. *)

Definition steward_frame (before after : FactoryState.t) : Prop :=
  FactoryState.steward_command_nonces after = FactoryState.steward_command_nonces before
  /\ FactoryState.steward_refunds_in_flight after = FactoryState.steward_refunds_in_flight before
  /\ FactoryState.steward_refund_leases after = FactoryState.steward_refund_leases before.

#[export] Instance steward_frame_preorder : PreOrder steward_frame.
Proof. split; [done|]. unfold steward_frame. intros a b c. intuition congruence. Qed.

Abbreviation frames := (stable (fun _ : FactoryState.t => True) steward_frame).

Lemma frames_modify (f : FactoryState.t -> FactoryState.t) :
  (forall state, steward_frame state (f state)) -> frames (modify f : F unit).
Proof. intros Hf. apply stable_modify. auto. Qed.

Lemma frames_get_session session_id : frames (get_session session_id).
Proof.
  apply stable_same; [apply _|]. intros s s'. unfold get_session, lift.
  by destruct (ok_or _ _); intros [= <-].
Qed.
#[local] Hint Resolve frames_get_session : stable.

Lemma frames_put_session session_id session : frames (put_session session_id session).
Proof. apply frames_modify. done. Qed.
#[local] Hint Resolve frames_put_session : stable.

Ltac frames_bind := apply stable_bind; [apply _|auto with stable|intros ?].

Lemma frames_sync_flags session_id now_ms :
  frames (sync_session_derived_flags_in_state session_id now_ms).
Proof.
  unfold sync_session_derived_flags_in_state. frames_bind. cbv zeta. frames_bind.
  apply stable_bind; [apply _|by apply frames_modify|intros _]. frames_bind. auto with stable.
Qed.
#[local] Hint Resolve frames_sync_flags : stable.

Lemma frames_apply_session_event session_id actor now_ms event reason :
  frames (apply_session_event_in_state session_id actor now_ms event reason).
Proof.
  unfold apply_session_event_in_state. do 3 frames_bind.
  match goal with |- stable _ _ (match ?o with _ => _ end) =>
    destruct o as [[[from to_state] reset]|] end; [|auto with stable].
  do 5 frames_bind. apply stable_bind; [apply _|by apply frames_modify|intros _].
  auto with stable.
Qed.
#[local] Hint Resolve frames_apply_session_event : stable.

Lemma frames_run_command command refund_resume now_ms :
  frames (run_command command refund_resume now_ms).
Proof.
  unfold run_command. destruct (is_refund command).
  - apply stable_bind; [apply _| |intros _].
    + destruct refund_resume; [auto with stable|]. unfold expire_session_in_state.
      frames_bind. auto with stable.
    + unfold ensure_refundable. do 3 frames_bind. auto with stable.
  - apply stable_bind; [apply _| |intros _; auto with stable].
    unfold retry_spawn_session_in_state. frames_bind.
    apply stable_bind; [apply _|by apply frames_modify|intros _]. auto with stable.
Qed.

(** ** What the checks establish *)

Lemma verify_proof_Ok `{ext : Externals} command proof canister_id now_ns state address :
  verify_proof command proof canister_id now_ns state = Ok address ->
  let session_id := FactoryStewardCommand.session_id command in
  exists session chain_id,
    FactoryState.sessions state !! session_id = Some session
    /\ canonical_deployment_chain_id (FactoryState.child_runtime state)
         (FactoryState.release_broadcast_config state) = Ok chain_id
    /\ normalize_address (FactoryStewardProof.address proof) = Ok address
    /\ normalize_address (SpawnSession.steward_address session) = Ok address
    /\ FactoryStewardProof.chain_id proof = chain_id
    /\ FactoryStewardProof.nonce proof = session_nonce session_id state
    /\ to_ascii_lowercase (FactoryStewardProof.command_hash proof)
       = factory_steward_command_hash command
    /\ (now_ns <= FactoryStewardProof.expires_at_ns proof
        <= now_ns + FACTORY_STEWARD_PROOF_TTL_NS)%N
    /\ recover_signer (signing_payload canister_id chain_id address
         (factory_steward_command_hash command) (FactoryStewardProof.nonce proof)
         (FactoryStewardProof.expires_at_ns proof)) (FactoryStewardProof.signature proof)
       = Ok address.
Proof.
  intros Hok session_id. unfold verify_proof in Hok. fold session_id in Hok.
  apply result_bind_Ok in Hok as (address' & Haddress & Hok).
  apply result_bind_Ok in Hok as (session & Hs & Hok). apply ok_or_Ok in Hs.
  apply err_if_seq_Ok in Hok as [_ Hok].
  apply result_bind_Ok in Hok as (chain_id & Hchain & Hok).
  apply result_bind_Ok in Hok as (expected & Hexpected & Hok).
  apply err_if_seq_Ok in Hok as [Hc Hok]. apply err_if_seq_Ok in Hok as [Ha Hok].
  apply err_if_seq_Ok in Hok as [Hn Hok]. apply err_if_seq_Ok in Hok as [Hh Hok].
  apply err_if_seq_Ok in Hok as [He Hok]. apply err_if_seq_Ok in Hok as [Ht Hok].
  apply result_bind_Ok in Hok as (signer & Hsigner & Hok).
  apply err_if_seq_Ok in Hok as [Hsame [= ->]].
  apply negb_false_iff, N.eqb_eq in Hc, Hn.
  apply bool_decide_eq_false, dec_stable in Ha, Hh, Hsame.
  apply N.ltb_ge in He, Ht. unfold saturating_sub in Ht.
  exists session, chain_id. split; [done|]. split; [done|]. split; [done|].
  split; [by rewrite Ha|]. split; [done|]. split; [done|]. split; [done|].
  split; [lia|]. rewrite <-Hc, Hsigner, Hsame. done.
Qed.

(** ** What an accepted proof does *)

Lemma frames_Done {A} (m : F A) s a t : frames m -> m s = Done a t -> steward_frame s t.
Proof. intros Hm Hs. by destruct (Hm s t ltac:(by rewrite Hs) I). Qed.

Lemma frames_Fail {A} (m : F A) s e t : frames m -> m s = Fail e t -> steward_frame s t.
Proof. intros Hm Hs. by destruct (Hm s t ltac:(by rewrite Hs) I). Qed.

Lemma get_session_Done session_id s session t :
  get_session session_id s = Done session t ->
  FactoryState.sessions s !! session_id = Some session /\ t = s.
Proof. unfold get_session, lift. destruct (FactoryState.sessions s !! session_id); naive_solver. Qed.

Lemma status_response_end session_id s :
  match status_response session_id s with Done _ t => t = s | Fail _ _ => False | Trap => True end.
Proof. unfold status_response. exec. by destruct (FactoryState.sessions s !! session_id). Qed.

(** The nonce moves by one unless a refund is resumed; the lease is renewed. *)
Definition accepted (command : FactoryStewardCommand.t) (refund_resume : bool)
    (refund_generation : option N) (expected_nonce now_ms : N) (before after : FactoryState.t) : Prop :=
  let session_id := FactoryStewardCommand.session_id command in
  FactoryState.steward_command_nonces after =
    (if refund_resume then FactoryState.steward_command_nonces before
     else <[session_id := (expected_nonce + 1)%N]> (FactoryState.steward_command_nonces before))
  /\ FactoryState.steward_refunds_in_flight after =
    (if is_refund command && negb refund_resume
     then {[session_id]} ∪ FactoryState.steward_refunds_in_flight before
     else FactoryState.steward_refunds_in_flight before)
  /\ FactoryState.steward_refund_leases after =
    match refund_generation with
    | Some generation => <[session_id := RefundCommandLease.mk generation
        (saturating_add 64 now_ms REFUND_COMMAND_LEASE_MS)]> (FactoryState.steward_refund_leases before)
    | None => FactoryState.steward_refund_leases before
    end.

Lemma record_acceptance_run command refund_resume refund_generation expected_nonce now_ms s :
  match record_acceptance command refund_resume refund_generation expected_nonce now_ms s with
  | Done _ t => accepted command refund_resume refund_generation expected_nonce now_ms s t
  | Fail _ t => t = s
  | Trap => False
  end.
Proof.
  unfold record_acceptance, accepted. cbv zeta. destruct refund_resume.
  - rewrite andb_false_r. by destruct refund_generation.
  - rewrite andb_true_r. destruct (checked_add 64 expected_nonce 1) as [next|] eqn:Hnext; [|done].
    apply checked_add_Some in Hnext as [-> _].
    destruct (is_refund command), refund_generation; exec; simpl_set; done.
Qed.

(** The run of [consume_proof]: the bookkeeping changes only on success. *)
Lemma consume_proof_Done command proof address now_ms state response state' :
  consume_proof command proof address now_ms state = Done response state' ->
  let session_id := FactoryStewardCommand.session_id command in
  let resume := refund_resumes command state in
  exists generation,
    next_refund_generation command resume
      (FactoryState.steward_refund_leases state !! session_id) now_ms = Ok generation
    /\ response.2 = generation
    /\ FactoryStewardProof.nonce proof = session_nonce session_id state
    /\ accepted command resume generation (session_nonce session_id state) now_ms state state'.
Proof.
  intros Hrun session_id resume. unfold consume_proof in Hrun. fold session_id in Hrun.
  run_inv Hrun as session t0 H0. apply get_session_Done in H0 as [_ ->].
  run_inv Hrun as s t1 H1. injection H1 as <- <-.
  run_inv Hrun as chain_id t2 H2. apply lift_Done in H2 as [_ ->].
  run_inv Hrun as u3 t3 H3. apply fail_if_Done in H3 as [_ ->].
  run_inv Hrun as u4 t4 H4. apply fail_if_Done in H4 as [_ ->].
  run_inv Hrun as steward t5 H5. apply lift_Done in H5 as [_ ->].
  run_inv Hrun as u6 t6 H6. apply fail_if_Done in H6 as [_ ->].
  run_inv Hrun as u7 t7 H7. apply fail_if_Done in H7 as [Hnonce ->].
  run_inv Hrun as generation t8 H8. apply lift_Done in H8 as [Hgen ->].
  apply negb_false_iff, N.eqb_eq in Hnonce.
  run_inv Hrun as u9 t9 H9. apply frames_Done in H9 as (Hn & Hf & Hl); [|apply frames_run_command].
  run_inv Hrun as u10 t10 H10.
  pose proof (record_acceptance_run command resume generation (session_nonce session_id state)
    now_ms t9) as Hrec. subst resume. rewrite H10 in Hrec. unfold accepted in *.
  rewrite Hn, Hf, Hl in Hrec. exists generation. split; [exact Hgen|].
  destruct (is_refund command) eqn:Hrefund.
  - injection Hrun as <- <-. done.
  - run_inv Hrun as r t11 H11. pose proof (status_response_end session_id t10) as Hend.
    rewrite H11 in Hend. subst t11. injection Hrun as <- <-. split; [|done].
    unfold next_refund_generation in Hgen. rewrite Hrefund in Hgen. by injection Hgen as <-.
Qed.

(** The first step of a run that failed: it failed itself, and left the frame
    alone, or returned. *)
Tactic Notation "fail_step" hyp(H) "as" ident(a) ident(t) ident(Hstep) :=
  apply M_bind_Fail in H as [H|(a & t & Hstep & H)];
    [by apply frames_Fail in H; auto with stable|].

Lemma consume_proof_Fail command proof address now_ms state e state' :
  consume_proof command proof address now_ms state = Fail e state' -> steward_frame state state'.
Proof.
  unfold consume_proof. set (session_id := FactoryStewardCommand.session_id command). intros Hrun.
  fail_step Hrun as session t0 H0. apply get_session_Done in H0 as [_ ->].
  fail_step Hrun as s t1 H1. injection H1 as <- <-.
  fail_step Hrun as chain_id t2 H2. apply lift_Done in H2 as [_ ->].
  fail_step Hrun as u3 t3 H3. apply fail_if_Done in H3 as [_ ->].
  fail_step Hrun as u4 t4 H4. apply fail_if_Done in H4 as [_ ->].
  fail_step Hrun as steward t5 H5. apply lift_Done in H5 as [_ ->].
  fail_step Hrun as u6 t6 H6. apply fail_if_Done in H6 as [_ ->].
  fail_step Hrun as u7 t7 H7. apply fail_if_Done in H7 as [_ ->].
  fail_step Hrun as generation t8 H8. apply lift_Done in H8 as [_ ->].
  pose proof (frames_run_command command (refund_resumes command state) now_ms) as Hframes.
  apply M_bind_Fail in Hrun as [Hrun|(u9 & t9 & H9 & Hrun)]; [by eapply frames_Fail|].
  apply frames_Done in H9; [|done]. apply M_bind_Fail in Hrun as [Hrun|(u10 & t10 & H10 & Hrun)].
  - pose proof (record_acceptance_run command (refund_resumes command state) generation
      (session_nonce session_id state) now_ms t9) as Hrec. rewrite Hrun in Hrec. by subst state'.
  - destruct (is_refund command); [done|].
    apply M_bind_Fail in Hrun as [Hrun|(r & t11 & _ & Hrun)]; [|done].
    pose proof (status_response_end session_id t10) as Hend. by rewrite Hrun in Hend.
Qed.

(** ** Addresses in normal form *)

Lemma normalize_address_Ok raw address :
  normalize_address raw = Ok address ->
  exists body, address = "0x" +:+ body /\ is_lower_hex body 40 = true.
Proof.
  unfold normalize_address. intros Hok. apply result_bind_Ok in Hok as (body & Hbody & Hok).
  apply err_if_seq_Ok in Hok as [Hlen [= <-]]. apply ok_or_Ok, strip_prefix_Some in Hbody.
  apply orb_false_iff in Hlen as [Hlen%negb_false_iff Hhex%negb_false_iff].
  exists body. split; [done|]. unfold is_lower_hex. rewrite Hlen. cbn [andb].
  rewrite forallb_forall in *. intros a Ha. apply lower_hex_of_hexdigit; [by apply Hhex|].
  assert (Hin : a ∈ str_bytes (to_ascii_lowercase (trim raw))).
  { rewrite Hbody, str_bytes_app. apply elem_of_app. right. by apply list_elem_of_In. }
  unfold to_ascii_lowercase in Hin. rewrite str_bytes_map_str in Hin.
  apply list_elem_of_fmap in Hin as (b & -> & _). apply ascii_lower_idem.
Qed.

Lemma normalize_address_lower body :
  is_lower_hex body 40 = true -> normalize_address ("0x" +:+ body) = Ok ("0x" +:+ body).
Proof.
  unfold is_lower_hex. intros [Hlen Hbody]%andb_true_iff.
  destruct (lower_hex_normal body Hbody) as (Htrim & Hlower & Hhex).
  unfold normalize_address. rewrite Htrim, Hlower, strip_0x. cbn [ok_or mbind result_bind].
  by rewrite Hlen, Hhex.
Qed.

Lemma normalize_address_idem raw address :
  normalize_address raw = Ok address -> normalize_address address = Ok address.
Proof. intros (body & -> & Hbody)%normalize_address_Ok. by apply normalize_address_lower. Qed.

Lemma next_refund_generation_Some command resume lease now_ms generation :
  is_refund command = true ->
  next_refund_generation command resume lease now_ms = Ok generation ->
  exists g, generation = Some g
    /\ match lease with
       | Some lease => g = (RefundCommandLease.generation lease + 1)%N
           /\ (resume = true -> (RefundCommandLease.expires_at_ms lease < now_ms)%N)
       | None => g = 1%N
       end.
Proof.
  unfold next_refund_generation. intros -> Hgen.
  destruct lease as [lease|]; [|injection Hgen as <-; by eexists].
  apply err_if_seq_Ok in Hgen as [Hfree Hgen].
  apply result_bind_Ok in Hgen as (g & Hg & [= <-]). apply ok_or_Ok, checked_add_Some in Hg as [-> _].
  eexists. split; [done|]. split; [done|]. intros ->. by apply N.leb_gt in Hfree.
Qed.

Lemma authorize_Done `{ext : Externals} command proof canister_id now_ns now_ms canister response
    canister' :
  authorize_and_consume command proof canister_id now_ns now_ms canister = Done response canister' ->
  exists address state',
    verify_proof command proof canister_id now_ns (Canister.factory canister) = Ok address
    /\ consume_proof command proof address now_ms (Canister.factory canister) = Done response state'
    /\ canister' = canister <| Canister.factory := state' |>.
Proof.
  unfold authorize_and_consume. intros Hrun. run_inv Hrun as address t0 H0.
  apply read_state_Done in H0 as [Hverify ->]. unfold write_state, zoom in Hrun.
  destruct (consume_proof _ _ _ _ _) as [r state'| |] eqn:Hconsume; [|done|done].
  injection Hrun as <- <-. by exists address, state'.
Qed.

Lemma canister_same (canister : Canister.t) :
  canister <| Canister.factory := Canister.factory canister |> = canister.
Proof. by destruct canister. Qed.

Lemma authorize_Fail `{ext : Externals} command proof canister_id now_ns now_ms canister e
    canister' :
  authorize_and_consume command proof canister_id now_ns now_ms canister = Fail e canister' ->
  steward_frame (Canister.factory canister) (Canister.factory canister').
Proof.
  unfold authorize_and_consume. intros [Hrun|(address & t0 & H0 & Hrun)]%M_bind_Fail.
  - unfold read_state, lift in Hrun. destruct (verify_proof _ _ _ _ _); [done|]. by injection Hrun as <- <-.
  - apply read_state_Done in H0 as [_ ->]. unfold write_state, zoom in Hrun.
    destruct (consume_proof _ _ _ _ _) as [|e' state'|] eqn:Hconsume; [done| |done].
    injection Hrun as <- <-. by eapply consume_proof_Fail.
Qed.

Section StewardProof.
Context `{ext : Externals}.

Lemma command_hash_lower command :
  to_ascii_lowercase (factory_steward_command_hash command) = factory_steward_command_hash command.
Proof.
  unfold factory_steward_command_hash, hex_encode_prefixed. apply lower_hex_normal.
  pose proof (hex_encode_is_lower_hex (keccak256 (encode_command command))) as Hlower.
  unfold is_lower_hex in Hlower. by apply andb_true_iff in Hlower as [_ Hlower].
Qed.

(** C33 - only the session's steward is obeyed.  When [authorize_and_consume]
    accepts a command, the session exists, the proof is for this canister's
    chain, for the very command, carries the session's current nonce, has
    not expired and expires at most five minutes ahead, and its signature over
    exactly these values recovers to the session's steward address, which is
    the address the proof names.  Accepting raises the session's nonce by one,
    in every case but this: a refund command for a session whose refund is
    already in flight resumes that refund and leaves the nonce as it is.  A
    refund ends marked as in flight and leased under the generation that is
    returned; no other session's nonce or lease moves. *)
Theorem authorize_and_consume_authorizes command proof canister_id now_ns now_ms canister response
    generation canister'
    (Hrun : authorize_and_consume command proof canister_id now_ns now_ms canister
       = Done (response, generation) canister') :
  let session_id := FactoryStewardCommand.session_id command in
  let state := Canister.factory canister in
  let state' := Canister.factory canister' in
  (exists session chain_id address,
    FactoryState.sessions state !! session_id = Some session
    /\ canonical_deployment_chain_id (FactoryState.child_runtime state)
         (FactoryState.release_broadcast_config state) = Ok chain_id
    /\ normalize_address (FactoryStewardProof.address proof) = Ok address
    /\ normalize_address (SpawnSession.steward_address session) = Ok address
    /\ FactoryStewardProof.chain_id proof = chain_id
    /\ FactoryStewardProof.nonce proof = session_nonce session_id state
    /\ to_ascii_lowercase (FactoryStewardProof.command_hash proof)
       = factory_steward_command_hash command
    /\ (now_ns <= FactoryStewardProof.expires_at_ns proof
        <= now_ns + FACTORY_STEWARD_PROOF_TTL_NS)%N
    /\ recover_signer (signing_payload canister_id chain_id address
         (factory_steward_command_hash command) (FactoryStewardProof.nonce proof)
         (FactoryStewardProof.expires_at_ns proof)) (FactoryStewardProof.signature proof)
       = Ok address)
  /\ accepted command (refund_resumes command state) generation (session_nonce session_id state)
       now_ms state state'
  /\ (is_refund command = true -> exists g, generation = Some g
      /\ session_id ∈ FactoryState.steward_refunds_in_flight state'
      /\ refund_lease_held session_id g state' = true)
  /\ Canister.spawn_provider_secrets canister' = Canister.spawn_provider_secrets canister.
Proof.
  cbv zeta. apply authorize_Done in Hrun as (address & state' & Hverify & Hconsume & ->).
  apply verify_proof_Ok in Hverify as (session & chain_id & Hverify).
  apply consume_proof_Done in Hconsume as (generation' & Hgen & Hresponse & _ & Haccepted).
  cbn in Hresponse. subst generation'. split; [by exists session, chain_id, address|].
  split; [exact Haccepted|]. split; [|done]. intros Hrefund.
  destruct (next_refund_generation_Some _ _ _ _ _ Hrefund Hgen) as (g & -> & _).
  exists g. split; [done|]. destruct Haccepted as (_ & Hflight & Hleases).
  change (Canister.factory (canister <| Canister.factory := state' |>)) with state'. split.
  - rewrite Hflight. unfold refund_resumes. rewrite Hrefund. cbn [andb].
    case_bool_decide as Hin; cbn [negb]; [done|set_solver].
  - unfold refund_lease_held. rewrite Hleases, lookup_insert_eq. cbn. apply N.eqb_refl.
Qed.

(** a prepared command is accepted.  A template from
    [prepare_spawn_steward_command], whose payload the steward's key signed, is
    a proof that passes every check while the session's nonce has not moved
    and until the template expires. *)
Theorem prepared_command_verifies command canister_id now_ns canister template canister' signature
    later_ns
    (Hprepare : prepare_spawn_steward_command command canister_id now_ns canister
       = Done template canister')
    (Hsigned : recover_signer (FactoryStewardProofTemplate.signing_payload template) signature
       = Ok (FactoryStewardProofTemplate.address template))
    (Htime : (now_ns <= later_ns <= FactoryStewardProofTemplate.expires_at_ns template)%N) :
  verify_proof command
    (FactoryStewardProof.mk (FactoryStewardProofTemplate.chain_id template)
       (FactoryStewardProofTemplate.address template)
       (FactoryStewardProofTemplate.command_hash template)
       (FactoryStewardProofTemplate.nonce template)
       (FactoryStewardProofTemplate.expires_at_ns template) signature)
    canister_id later_ns (Canister.factory canister)
  = Ok (FactoryStewardProofTemplate.address template).
Proof.
  unfold prepare_spawn_steward_command in Hprepare.
  apply read_state_Done in Hprepare as [Hok _].
  apply result_bind_Ok in Hok as (session & Hs & Hok).
  apply err_if_seq_Ok in Hok as [Hbase Hok].
  apply result_bind_Ok in Hok as (chain_id & Hchain & Hok).
  apply result_bind_Ok in Hok as (address & Haddress & Hok).
  apply result_bind_Ok in Hok as (expires & Hexpires & [= <-]).
  apply ok_or_Ok, checked_add_Some in Hexpires as [-> _].
  cbn [FactoryStewardProofTemplate.signing_payload FactoryStewardProofTemplate.chain_id
    FactoryStewardProofTemplate.address FactoryStewardProofTemplate.command_hash
    FactoryStewardProofTemplate.nonce FactoryStewardProofTemplate.expires_at_ns] in *.
  unfold verify_proof. cbn [FactoryStewardProof.address FactoryStewardProof.chain_id
    FactoryStewardProof.nonce FactoryStewardProof.command_hash FactoryStewardProof.expires_at_ns
    FactoryStewardProof.signature].
  rewrite (normalize_address_idem _ _ Haddress). cbn [mbind result_bind].
  rewrite Hs. cbn [mbind result_bind]. rewrite Hbase. cbn [err_if mbind result_bind].
  rewrite Hchain. cbn [mbind result_bind]. rewrite Haddress. cbn [mbind result_bind].
  assert (Hsame : forall text : string, bool_decide (text <> text) = false)
    by (intros text; by apply bool_decide_eq_false_2; auto).
  rewrite !N.eqb_refl, Hsame. cbn [negb err_if mbind result_bind].
  rewrite command_hash_lower, Hsame. cbn [err_if mbind result_bind].
  replace (_ <? later_ns)%N with false by (symmetry; apply N.ltb_ge; lia).
  replace (_ <? saturating_sub _ _)%N with false
    by (symmetry; apply N.ltb_ge; unfold saturating_sub; lia).
  cbn [err_if mbind result_bind]. rewrite Hsigned. cbn [mbind result_bind].
  by rewrite Hsame.
Qed.

(** What can happen to the canister: a command is accepted and consumes the
    nonce of its session, a refund is resumed, a command is refused, or any
    other message runs, none of which writes the nonces.  The label is the
    session and nonce that were consumed. *)
Inductive steward_step (canister_id : string)
    : Canister.t -> option (string * N) -> Canister.t -> Prop :=
| steward_accepts command proof now_ns now_ms response canister canister' :
    authorize_and_consume command proof canister_id now_ns now_ms canister
      = Done response canister' ->
    steward_step canister_id canister
      (if refund_resumes command (Canister.factory canister) then None
       else Some (FactoryStewardCommand.session_id command, FactoryStewardProof.nonce proof))
      canister'
| steward_refuses command proof now_ns now_ms e canister canister' :
    authorize_and_consume command proof canister_id now_ns now_ms canister = Fail e canister' ->
    steward_step canister_id canister None canister'
| steward_other canister canister' :
    FactoryState.steward_command_nonces (Canister.factory canister')
      = FactoryState.steward_command_nonces (Canister.factory canister) ->
    steward_step canister_id canister None canister'.

Inductive steward_trace (canister_id : string)
    : Canister.t -> list (string * N) -> Canister.t -> Prop :=
| steward_trace_nil canister : steward_trace canister_id canister [] canister
| steward_trace_cons canister label canister1 consumed canister' :
    steward_step canister_id canister label canister1 ->
    steward_trace canister_id canister1 consumed canister' ->
    steward_trace canister_id canister (option_list label ++ consumed) canister'.

Lemma steward_step_nonces canister_id canister label canister' :
  steward_step canister_id canister label canister' ->
  let nonce := fun session_id canister => session_nonce session_id (Canister.factory canister) in
  match label with
  | None => forall session_id, nonce session_id canister' = nonce session_id canister
  | Some (session_id, n) => n = nonce session_id canister
      /\ nonce session_id canister' = (n + 1)%N
      /\ forall other, other <> session_id -> nonce other canister' = nonce other canister
  end.
Proof.
  cbv zeta. unfold session_nonce. destruct 1 as [command proof ns ms response c c' Hrun
    |command proof ns ms e c c' Hrun|c c' Hsame].
  - apply authorize_Done in Hrun as (address & state' & _ & Hconsume & ->).
    apply consume_proof_Done in Hconsume as (g & _ & _ & Hnonce & Hnonces & _).
    change (Canister.factory (c <| Canister.factory := state' |>)) with state'.
    destruct (refund_resumes command (Canister.factory c)); [by rewrite Hnonces|].
    split; [exact Hnonce|]. rewrite Hnonces, Hnonce.
    split; [by rewrite lookup_insert_eq|]. intros other Hother. by rewrite lookup_insert_ne.
  - apply authorize_Fail in Hrun as (Hnonces & _). by rewrite Hnonces.
  - by rewrite Hsame.
Qed.

Lemma steward_trace_nonces canister_id canister consumed canister' :
  steward_trace canister_id canister consumed canister' ->
  NoDup consumed /\ forall session_id n, (session_id, n) ∈ consumed ->
    (session_nonce session_id (Canister.factory canister) <= n)%N.
Proof.
  induction 1 as [c|c label c1 consumed c' Hstep Htrace [IHdup IHge]].
  - split; [constructor|]. intros ? ? []%not_elem_of_nil.
  - apply steward_step_nonces in Hstep. destruct label as [[session_id n]|]; cbn [option_list app].
    + destruct Hstep as (Hn & Hnext & Hother). split.
      * constructor; [|done]. intros Hin%IHge. lia.
      * intros sid m [[= -> ->]|Hin%IHge]%elem_of_cons; [lia|].
        destruct (decide (sid = session_id)) as [->|Hne]; [lia|]. by rewrite <-Hother.
    + split; [done|]. intros sid m Hin%IHge. by rewrite <-Hstep.
Qed.

(** no replay: along any history of the canister, no nonce of a session is
    consumed twice, so no signed command that consumed its nonce can be
    accepted again. *)
Theorem no_replay canister_id canister consumed canister'
    (Htrace : steward_trace canister_id canister consumed canister') :
  NoDup consumed.
Proof. by eapply steward_trace_nonces. Qed.

Lemma consume_proof_fenced command proof address now_ms state lease :
  let session_id := FactoryStewardCommand.session_id command in
  refund_resumes command state = true ->
  FactoryState.steward_refund_leases state !! session_id = Some lease ->
  (now_ms <= RefundCommandLease.expires_at_ms lease)%N ->
  stops (consume_proof command proof address now_ms) state.
Proof.
  intros session_id Hresume Hlease Htime. unfold consume_proof. fold session_id.
  apply (stops_lift (ok_or _ _)). intros session. apply stops_get_state.
  apply stops_lift. intros chain_id. apply stops_fail_if, stops_fail_if, stops_lift. intros steward.
  apply stops_fail_if, stops_fail_if, stops_bind.
  rewrite Hlease, Hresume. unfold next_refund_generation.
  unfold refund_resumes in Hresume. apply andb_true_iff in Hresume as [-> _].
  apply N.leb_le in Htime. rewrite Htime. eexists. done.
Qed.

(** Refunds are fenced.  While a refund of a session is in flight and its
    lease has not expired, every further refund command for the session fails
    and leaves the canister as it was.  One that is accepted later takes the
    next generation: the lease of the old generation is no longer held, so a
    continuation suspended under it finds its guard broken, and its clean-up
    does nothing. *)
Theorem refund_fenced session_id proof canister_id now_ns now_ms canister lease
    (Hlease : FactoryState.steward_refund_leases (Canister.factory canister) !! session_id
       = Some lease) :
  let command := FactoryStewardCommand.ClaimSpawnRefund session_id in
  let old := RefundCommandLease.generation lease in
  (session_id ∈ FactoryState.steward_refunds_in_flight (Canister.factory canister) ->
   (now_ms <= RefundCommandLease.expires_at_ms lease)%N ->
   exists e, authorize_and_consume command proof canister_id now_ns now_ms canister = Fail e canister)
  /\ forall response generation canister',
    authorize_and_consume command proof canister_id now_ns now_ms canister
      = Done (response, generation) canister' ->
    generation = Some (old + 1)%N
    /\ refund_lease_held session_id (old + 1) (Canister.factory canister') = true
    /\ guard_holds (ReleaseTransactionGuard.Refund session_id old) (Canister.factory canister')
       = Err stale_refund
    /\ clear_refund_in_flight session_id old canister' = Done tt canister'.
Proof.
  intros command old. split.
  - intros Hflight Htime. unfold authorize_and_consume, read_state, write_state, zoom, lift.
    unfold mbind at 1, M_bind at 1.
    destruct (verify_proof _ _ _ _ _) as [address|e]; [|by exists e].
    destruct (consume_proof_fenced command proof address now_ms (Canister.factory canister) lease)
      as [e He]; [by apply bool_decide_eq_true_2|done..|].
    exists e. by rewrite He, canister_same.
  - intros response generation canister' Hrun.
    apply authorize_Done in Hrun as (address & state' & _ & Hconsume & ->).
    apply consume_proof_Done in Hconsume as (g & Hgen & Hresponse & _ & _ & _ & Hleases).
    cbn in Hresponse, Hleases. subst g.
    apply next_refund_generation_Some in Hgen as (g & -> & Hg); [|done].
    change (FactoryStewardCommand.session_id command) with session_id in Hg, Hleases.
    rewrite Hlease in Hg. destruct Hg as [-> _].
    assert (Hheld : forall n, refund_lease_held session_id n state'
      = (RefundCommandLease.generation lease + 1 =? n)%N).
    { intros n. unfold refund_lease_held. rewrite Hleases, lookup_insert_eq. done. }
    change (Canister.factory (canister <| Canister.factory := state' |>)) with state'.
    assert (Hold : refund_lease_held session_id old state' = false)
      by (rewrite Hheld; apply N.eqb_neq; lia).
    split; [done|]. split; [by rewrite Hheld, N.eqb_refl|]. split.
    + unfold guard_holds. by rewrite Hold.
    + unfold clear_refund_in_flight, write_state, zoom, modify.
      change (Canister.factory (canister <| Canister.factory := state' |>)) with state'.
      by rewrite Hold.
Qed.

(** Generations restart.  Clearing a refund removes the lease, so the next
    refund command of the session takes generation 1 again: a continuation of
    the first generation, suspended since before the lease was cleared, finds
    its guard satisfied and runs beside the new one. *)
Theorem refund_generation_restarts session_id proof canister_id now_ns now_ms canister generation
    response generation' canister'
    (Hheld : refund_lease_held session_id generation (Canister.factory canister) = true)
    (Hrun : (clear_refund_in_flight session_id generation;;
       authorize_and_consume (FactoryStewardCommand.ClaimSpawnRefund session_id) proof
         canister_id now_ns now_ms) canister = Done (response, generation') canister') :
  generation' = Some 1%N
  /\ guard_holds (ReleaseTransactionGuard.Refund session_id 1) (Canister.factory canister') = Ok tt.
Proof.
  run_inv Hrun as u canister1 Hclear. unfold clear_refund_in_flight, write_state, zoom, modify in Hclear.
  rewrite Hheld in Hclear. injection Hclear as _ <-.
  apply authorize_Done in Hrun as (address & state' & _ & Hconsume & ->).
  apply consume_proof_Done in Hconsume as (g & Hgen & Hresponse & _ & _ & _ & Hleases).
  cbn in Hresponse, Hleases. subst g.
  apply next_refund_generation_Some in Hgen as (g & -> & Hg); [|done].
  cbn [FactoryStewardCommand.session_id] in Hg.
  lazymatch type of Hg with context [?leases !! session_id] =>
    change leases with (delete session_id
      (FactoryState.steward_refund_leases (Canister.factory canister))) in Hg end.
  rewrite lookup_delete_eq in Hg. subst g. split; [done|].
  unfold guard_holds, refund_lease_held. simpl_set. by rewrite Hleases, lookup_insert_eq.
Qed.
End StewardProof.

(** *** Witnesses *)

Module StewardSamples.
Definition address : string := hex_encode_prefixed (replicate 20 x11).
Definition signature : string := hex_encode_prefixed (replicate 64 x11 ++ [x00]).
Definition refund : FactoryStewardCommand.t := FactoryStewardCommand.ClaimSpawnRefund "s".

(** A failed, paid session of the steward, its refund not claimed yet. *)
Definition canister : Canister.t :=
  Canister.mk (Samples.state_with_claim
    (Samples.session SpawnSessionState.Failed PaymentStatus.Paid
       <| SpawnSession.refundable := true |>
       <| SpawnSession.steward_address := address |>)
    (Samples.claim "75" PaymentStatus.Paid <| EscrowClaim.refundable := true |>)) ∅.

Definition chain_id : N := ReleaseBroadcastConfig.chain_id
  (FactoryState.release_broadcast_config (Canister.factory canister)).

Definition proof (nonce : N) : FactoryStewardProof.t :=
  FactoryStewardProof.mk chain_id address
    (@factory_steward_command_hash toy_externals refund) nonce 1000 signature.

Definition retry : FactoryStewardCommand.t := FactoryStewardCommand.RetrySpawnSession "s".

Definition retry_proof (nonce : N) : FactoryStewardProof.t :=
  FactoryStewardProof.mk chain_id address
    (@factory_steward_command_hash toy_externals retry) nonce 1000 signature.

(** The session may also be retried, as after any failure that allows it. *)
Definition retryable : Canister.t :=
  canister <| Canister.factory ::= fun state => state <| FactoryState.sessions ::=
    alter (fun session => session <| SpawnSession.retryable := true |>) "s" |> |>.

(** The canister with the refund in flight. *)
Definition in_flight (generation : N) : Canister.t :=
  canister <| Canister.factory ::= fun state => state
    <| FactoryState.steward_refunds_in_flight := {["s"]} |>
    <| FactoryState.steward_refund_leases := {["s" := RefundCommandLease.mk generation 500]} |> |>.
End StewardSamples.

Lemma authorize_and_consume_authorizes_witness :
  match @authorize_and_consume toy_externals StewardSamples.refund (StewardSamples.proof 0) "f"
          10 20 StewardSamples.canister with
  | Done (_, generation) canister' => accepted StewardSamples.refund false generation 0 20
      (Canister.factory StewardSamples.canister) (Canister.factory canister')
  | _ => False
  end.
Proof.
  destruct (@authorize_and_consume toy_externals StewardSamples.refund (StewardSamples.proof 0) "f"
    10 20 StewardSamples.canister) as [[response generation] canister'| |] eqn:Hrun;
    [|vm_compute in Hrun; discriminate Hrun..].
  exact (proj1 (proj2 (@authorize_and_consume_authorizes toy_externals _ _ _ _ _ _ _ _ _ Hrun))).
Defined.

Lemma prepared_command_verifies_witness :
  match @prepare_spawn_steward_command toy_externals StewardSamples.refund "f" 10
          StewardSamples.canister with
  | Done template _ =>
      @verify_proof toy_externals StewardSamples.refund
        (FactoryStewardProof.mk (FactoryStewardProofTemplate.chain_id template)
          (FactoryStewardProofTemplate.address template)
          (FactoryStewardProofTemplate.command_hash template)
          (FactoryStewardProofTemplate.nonce template)
          (FactoryStewardProofTemplate.expires_at_ns template) StewardSamples.signature)
        "f" 11 (Canister.factory StewardSamples.canister)
      = Ok (FactoryStewardProofTemplate.address template)
  | _ => False
  end.
Proof.
  destruct (@prepare_spawn_steward_command toy_externals StewardSamples.refund "f" 10
    StewardSamples.canister) as [template canister'| |] eqn:Hrun;
    [|vm_compute in Hrun; discriminate Hrun..].
  eapply (@prepared_command_verifies toy_externals); [exact Hrun| |];
    vm_compute in Hrun; injection Hrun as <- _; [by vm_compute|by split; vm_compute].
Defined.

Lemma no_replay_witness : NoDup [("s", 0%N)].
Proof.
  destruct (@authorize_and_consume toy_externals StewardSamples.refund (StewardSamples.proof 0) "f"
    10 20 StewardSamples.canister) as [response canister'| |] eqn:Hrun;
    [|vm_compute in Hrun; discriminate Hrun..].
  refine (@no_replay toy_externals "f" StewardSamples.canister _ canister' _).
  exact (steward_trace_cons "f" _ (Some ("s", 0%N)) _ [] _
    (steward_accepts "f" _ _ _ _ _ _ _ Hrun) (steward_trace_nil "f" canister')).
Defined.

Lemma refund_fenced_witness :
  exists e, @authorize_and_consume toy_externals StewardSamples.refund (StewardSamples.proof 0) "f"
    10 500 (StewardSamples.in_flight 3) = Fail e (StewardSamples.in_flight 3).
Proof.
  apply (@refund_fenced toy_externals "s" (StewardSamples.proof 0) "f" 10 500
    (StewardSamples.in_flight 3) (RefundCommandLease.mk 3 500)).
  - reflexivity.
  - vm_compute. apply (bool_decide_unpack _). vm_compute. exact I.
  - vm_compute. discriminate.
Defined.

Lemma refund_generation_restarts_witness :
  match (clear_refund_in_flight "s" 1;;
     @authorize_and_consume toy_externals StewardSamples.refund (StewardSamples.proof 0) "f" 10 20)
     (StewardSamples.in_flight 1) with
  | Done (_, generation) _ => generation = Some 1%N
  | _ => False
  end.
Proof.
  destruct ((clear_refund_in_flight "s" 1;;
     @authorize_and_consume toy_externals StewardSamples.refund (StewardSamples.proof 0) "f" 10 20)
     (StewardSamples.in_flight 1)) as [[response generation] canister'| |] eqn:Hrun;
    [|vm_compute in Hrun; discriminate Hrun..].
  refine (proj1 (@refund_generation_restarts toy_externals "s" _ _ _ _ _ 1 _ _ _ _ Hrun)).
  reflexivity.
Defined.

(** A retry is not fenced by a refund in flight.  On a failed session that
    is both refundable and retryable, the steward's refund is accepted, and
    then, while it holds its lease, a retry is accepted too: the session is
    back at [PaymentDetected] with its execution job due, and the refund whose
    transaction was sent in the meantime can no longer be finalised. *)
Theorem retry_races_refund :
  match (@authorize_and_consume toy_externals StewardSamples.refund (StewardSamples.proof 0)
           "f" 10 20;;
         @authorize_and_consume toy_externals StewardSamples.retry (StewardSamples.retry_proof 1)
           "f" 10 30) StewardSamples.retryable with
  | Done _ canister' =>
      let state := Canister.factory canister' in
      refund_lease_held "s" 1 state = true
      /\ SpawnSession.state <$> FactoryState.sessions state !! "s"
         = Some SpawnSessionState.PaymentDetected
      /\ is_some_and (fun job => job_is_due job 30)
           (FactoryState.scheduler_jobs state !! spawn_job_id "s") = true
      /\ match finalize_escrow_refund_in_state "s" 40 "0xt" state with
         | Fail (FactoryError.SessionNotRefundable _ _ _) _ => True
         | _ => False
         end
  | _ => False
  end.
Proof. by vm_compute. Qed.
