(* ===== verification/Child.v ===== *)
(** * Child: installing, checking and handing over an automaton

    Models the parts of [backend/factory/src/spawn.rs], [init.rs],
    [controllers.rs] and [evm.rs] that talk to the child canister: the chunked
    install, the strategy recipes, the comparison of the child's own bootstrap
    report with the session, and the controller handoff. *)

From S2P Require Import Prelude Text SpawnProtocol Types Externals State Init Samples Transitions Scheduler Retry Evidence Escrow Evm Broadcast.
From Stdlib Require Import Ascii Strings.Byte.

(** ** Views of the child *)

Module ChildSpawnBootstrapView.
Record t := mk {
  contract_version : option N;
  name : option string;
  constitution : option string;
  session_id : option string;
  parent_id : option string;
  factory_principal : option Principal;
  risk : option N;
  strategies : list string;
  skills : list string;
  version_commit : option string;
}.
End ChildSpawnBootstrapView.

Module ChildStewardState.
Record t := mk { chain_id : N; address : string; enabled : bool }.
End ChildStewardState.

Module ChildStewardStatusView.
Record t := mk { active_steward : option ChildStewardState.t }.
End ChildStewardStatusView.

Module ChildStrategyTemplateKey.
Record t := mk {
  protocol : string;
  primitive : string;
  chain_id : N;
  template_id : string;
}.
#[global] Instance eq_dec : EqDecision t.
Proof. solve_decision. Defined.
End ChildStrategyTemplateKey.

Module ChildStrategyTemplateStatus.
Inductive t := Draft | Active | Deprecated | Revoked.
#[global] Instance eq_dec : EqDecision t.
Proof. solve_decision. Defined.
End ChildStrategyTemplateStatus.

Module ChildStrategyTemplate.
Record t := mk {
  key : ChildStrategyTemplateKey.t;
  status : ChildStrategyTemplateStatus.t;
}.
End ChildStrategyTemplate.

(** The calls to the management canister and to the child; an error is its
    [Display].  [canister_status] is reduced to the controllers it reports. *)
Class SpawnPlatform := {
  platform_rpc :: ReleaseRpc;
  canister_self : Principal;
  cost_create_canister : N;
  create_canister_with_extra_cycles : N -> M Canister.t string Principal;
  delete_canister : Principal -> M Canister.t string unit;
  clear_chunk_store : Principal -> M Canister.t string unit;
  upload_chunk : Principal -> list byte -> M Canister.t string (list byte);
  install_chunked_code :
    Principal -> list (list byte) -> list byte -> InitArgs.t -> M Canister.t string unit;
  update_settings : Principal -> list Principal -> M Canister.t string unit;
  canister_status : Principal -> M Canister.t string (list Principal);
  child_ecdsa_public_key : Principal -> string -> M Canister.t string (list byte);
  get_spawn_bootstrap_view : Principal -> M Canister.t string ChildSpawnBootstrapView.t;
  get_steward_status : Principal -> M Canister.t string ChildStewardStatusView.t;
  get_automaton_evm_address : Principal -> M Canister.t string (option string);
  call_derive_automaton_evm_address : Principal -> M Canister.t string (result string string);
  register_strategy_admin :
    Principal -> string -> M Canister.t string (result string ChildStrategyTemplate.t);
  list_strategy_templates : Principal -> ChildStrategyTemplateKey.t ->
    M Canister.t string (list ChildStrategyTemplate.t);
}.

(** [serde_json]: values, their accessors and their text. *)
Class Json := {
  Value : Type;
  from_str : string -> result string Value;
  as_object : Value -> option (gmap string Value);
  as_str : Value -> option string;
  as_u64 : Value -> option N;
  from_object : gmap string Value -> Value;
  from_u64 : N -> Value;
  to_json_string : Value -> result string string;
}.

(** ** Strategy recipes ([init.rs]) *)

Section Recipe.
Context `{json : Json}.

Definition recipe_error (snapshot : RepositoryStrategySessionSnapshot.t) (message : string)
    : FactoryError.t :=
  FactoryError.ManagementCallFailed "register_strategy_admin"
    ("strategy " +:+ RepositoryStrategySessionSnapshot.strategy_id snapshot +:+ ": " +:+ message).

Definition expect_strategy_recipe_object (snapshot : RepositoryStrategySessionSnapshot.t)
    (value : Value) : result FactoryError.t (gmap string Value) :=
  ok_or (as_object value)
    (recipe_error snapshot "session snapshot recipe must decode to a JSON object").

Definition expect_strategy_recipe_string (snapshot : RepositoryStrategySessionSnapshot.t)
    (recipe : gmap string Value) (field : string) : result FactoryError.t string :=
  ok_or (recipe !! field ≫= as_str)
    (recipe_error snapshot
      ("session snapshot recipe field " +:+ field +:+ " must be a string")).

Definition expect_strategy_recipe_u64 (snapshot : RepositoryStrategySessionSnapshot.t)
    (recipe : gmap string Value) (field : string) : result FactoryError.t N :=
  ok_or (recipe !! field ≫= as_u64)
    (recipe_error snapshot ("session snapshot recipe field " +:+ field +:+ " must be a u64")).

Definition build_strategy_install_recipe (snapshot : RepositoryStrategySessionSnapshot.t)
    : result FactoryError.t string :=
  recipe ← map_err (fun error =>
      recipe_error snapshot ("invalid session snapshot recipe JSON: " +:+ error))
    (from_str (trim (RepositoryStrategySessionSnapshot.recipe_json snapshot)));
  recipe_object ← expect_strategy_recipe_object snapshot recipe;
  template_id ← expect_strategy_recipe_string snapshot recipe_object "template_id";
  err_if (bool_decide (template_id <> RepositoryStrategySessionSnapshot.strategy_id snapshot))
    (recipe_error snapshot ("session snapshot recipe template_id mismatch: expected "
      +:+ RepositoryStrategySessionSnapshot.strategy_id snapshot +:+ ", got " +:+ template_id));;
  protocol ← expect_strategy_recipe_string snapshot recipe_object "protocol";
  err_if (bool_decide (protocol <> RepositoryStrategySessionSnapshot.protocol snapshot))
    (recipe_error snapshot ("session snapshot recipe protocol mismatch: expected "
      +:+ RepositoryStrategySessionSnapshot.protocol snapshot +:+ ", got " +:+ protocol));;
  primitive ← expect_strategy_recipe_string snapshot recipe_object "primitive";
  err_if (bool_decide (primitive <> RepositoryStrategySessionSnapshot.primitive snapshot))
    (recipe_error snapshot ("session snapshot recipe primitive mismatch: expected "
      +:+ RepositoryStrategySessionSnapshot.primitive snapshot +:+ ", got " +:+ primitive));;
  canonical_chain_id ← expect_strategy_recipe_u64 snapshot recipe_object "chain_id";
  err_if (negb (canonical_chain_id
                =? RepositoryStrategySessionSnapshot.canonical_chain_id snapshot)%N)
    (recipe_error snapshot ("session snapshot recipe chain_id mismatch: expected canonical "
      +:+ pretty (RepositoryStrategySessionSnapshot.canonical_chain_id snapshot)
      +:+ ", got " +:+ pretty canonical_chain_id));;
  let resolved_chain_id :=
    default (RepositoryStrategySessionSnapshot.canonical_chain_id snapshot)
      (RepositoryStrategySessionSnapshot.resolved_chain_id snapshot) in
  let recipe :=
    if negb (resolved_chain_id =? canonical_chain_id)%N
    then from_object (<["chain_id" := from_u64 resolved_chain_id]> recipe_object)
    else recipe in
  map_err (fun error =>
      recipe_error snapshot
        ("failed to encode adapted child strategy recipe JSON: " +:+ error))
    (to_json_string recipe).
End Recipe.

(** ** Strategy templates of the child *)

Definition child_strategy_key (snapshot : RepositoryStrategySessionSnapshot.t)
    : ChildStrategyTemplateKey.t :=
  ChildStrategyTemplateKey.mk
    (RepositoryStrategySessionSnapshot.protocol snapshot)
    (RepositoryStrategySessionSnapshot.primitive snapshot)
    (default (RepositoryStrategySessionSnapshot.canonical_chain_id snapshot)
      (RepositoryStrategySessionSnapshot.resolved_chain_id snapshot))
    (RepositoryStrategySessionSnapshot.strategy_id snapshot).

Definition strategy_install_error (method : string)
    (snapshot : RepositoryStrategySessionSnapshot.t) (message : string) : FactoryError.t :=
  FactoryError.ManagementCallFailed method
    ("strategy " +:+ RepositoryStrategySessionSnapshot.strategy_id snapshot +:+ ": " +:+ message).

Definition key_text (key : ChildStrategyTemplateKey.t) : string :=
  ChildStrategyTemplateKey.protocol key +:+ ":" +:+ ChildStrategyTemplateKey.primitive key
  +:+ ":" +:+ pretty (ChildStrategyTemplateKey.chain_id key)
  +:+ ":" +:+ ChildStrategyTemplateKey.template_id key.

Definition verify_child_strategy_template (method : string)
    (snapshot : RepositoryStrategySessionSnapshot.t) (template : option ChildStrategyTemplate.t)
    : result FactoryError.t unit :=
  template ← ok_or template
    (strategy_install_error method snapshot
      "template is missing from the child after registration");
  let expected_key := child_strategy_key snapshot in
  err_if (bool_decide (ChildStrategyTemplate.key template <> expected_key))
    (strategy_install_error method snapshot
      ("template key mismatch after registration: expected " +:+ key_text expected_key
       +:+ ", got " +:+ key_text (ChildStrategyTemplate.key template)));;
  err_if (bool_decide (ChildStrategyTemplate.status template
                       <> ChildStrategyTemplateStatus.Active))
    (strategy_install_error method snapshot "template is not active after registration");;
  Ok tt.

(** ** The child's report against the session *)

(** The [Debug] text of a list of strings: control characters, quotes and
    backslashes are escaped; other characters are kept. *)
Definition debug_char (a : ascii) : string :=
  let n := byte_of a in
  if (n =? 34)%N then "\" +:+ String a EmptyString
  else if (n =? 92)%N then "\\"
  else if (n =? 0)%N then "\0"
  else if (n =? 9)%N then "\t"
  else if (n =? 10)%N then "\n"
  else if (n =? 13)%N then "\r"
  else if (n <? 32)%N || (n =? 127)%N
  then "\u{" +:+ (if (n <? 16)%N then hex_fixed 1 n else hex_fixed 2 n) +:+ "}"
  else String a EmptyString.

Definition quote : string := String (ascii_of_N 34) EmptyString.

Definition debug_string (s : string) : string :=
  quote +:+ concat_str (debug_char <$> str_bytes s) +:+ quote.

Definition debug_list (l : list string) : string :=
  "[" +:+ join ", " (debug_string <$> l) +:+ "]".

Definition bool_text (b : bool) : string := if b then "true" else "false".

Definition normalize_bootstrap_list (values : list string) : list string :=
  omap (fun value => let trimmed := trim value in
    if is_empty trimmed then None else Some trimmed) values.

Definition same_evm_address (expected : string) (observed : option string) : bool :=
  is_some_and (eq_ignore_ascii_case expected) observed.

(** One comparison: its message, if it fails. *)
Definition mismatch (matches : bool) (message : string) : list string :=
  if matches then [] else [message].

Definition field_message (field expected observed : string) : string :=
  field +:+ " mismatch: expected=" +:+ expected +:+ ", observed=" +:+ observed.

Section Verification.
Context `{ext : Externals}.

Definition constitution_hash (constitution : string) : string :=
  hex_encode (sha256 (as_bytes constitution)).

Definition bootstrap_failures (session : SpawnSession.t) (expected_factory_principal : Principal)
    (expected_chain_id : N) (expected_version_commit expected_evm_address : string)
    (evidence : AutomatonBootstrapEvidence.t) : list string :=
  let expected_strategies :=
    normalize_bootstrap_list (SpawnConfig.strategies (SpawnSession.config session)) in
  let expected_skills :=
    normalize_bootstrap_list (SpawnConfig.skills (SpawnSession.config session)) in
  let '(expected_name, expected_constitution) := resolved_genesis session in
  let missing := default "<missing>" in
  mismatch (bool_decide (AutomatonBootstrapEvidence.bootstrap_contract_version evidence
      = Some SPAWN_CONTRACT_VERSION)) "spawn contract version mismatch"
  ++ mismatch (bool_decide (AutomatonBootstrapEvidence.bootstrap_name evidence
      = Some expected_name)) "genesis name mismatch"
  ++ mismatch (bool_decide (AutomatonBootstrapEvidence.bootstrap_constitution evidence
      = Some expected_constitution)) "genesis constitution mismatch"
  ++ mismatch (bool_decide (AutomatonBootstrapEvidence.bootstrap_session_id evidence
      = Some (SpawnSession.session_id session)))
      (field_message "session_id" (SpawnSession.session_id session)
        (missing (AutomatonBootstrapEvidence.bootstrap_session_id evidence)))
  ++ mismatch (bool_decide (AutomatonBootstrapEvidence.bootstrap_parent_id evidence
      = SpawnSession.parent_id session))
      (field_message "parent_id" (default "<none>" (SpawnSession.parent_id session))
        (default "<none>" (AutomatonBootstrapEvidence.bootstrap_parent_id evidence)))
  ++ mismatch (bool_decide (AutomatonBootstrapEvidence.bootstrap_factory_principal evidence
      = Some expected_factory_principal))
      (field_message "factory_principal" expected_factory_principal
        (missing (AutomatonBootstrapEvidence.bootstrap_factory_principal evidence)))
  ++ mismatch (bool_decide (AutomatonBootstrapEvidence.bootstrap_risk evidence
      = Some (SpawnConfig.risk (SpawnSession.config session))))
      (field_message "risk" (pretty (SpawnConfig.risk (SpawnSession.config session)))
        (missing (pretty <$> AutomatonBootstrapEvidence.bootstrap_risk evidence)))
  ++ mismatch (bool_decide (AutomatonBootstrapEvidence.bootstrap_strategies evidence
      = expected_strategies))
      (field_message "strategies" (debug_list expected_strategies)
        (debug_list (AutomatonBootstrapEvidence.bootstrap_strategies evidence)))
  ++ mismatch (bool_decide (AutomatonBootstrapEvidence.bootstrap_skills evidence
      = expected_skills))
      (field_message "skills" (debug_list expected_skills)
        (debug_list (AutomatonBootstrapEvidence.bootstrap_skills evidence)))
  ++ mismatch (bool_decide (AutomatonBootstrapEvidence.bootstrap_version_commit evidence
      = Some expected_version_commit))
      (field_message "version_commit" expected_version_commit
        (missing (AutomatonBootstrapEvidence.bootstrap_version_commit evidence)))
  ++ mismatch (same_evm_address (SpawnSession.steward_address session)
        (AutomatonBootstrapEvidence.steward_address evidence))
      (field_message "steward_address" (SpawnSession.steward_address session)
        (missing (AutomatonBootstrapEvidence.steward_address evidence)))
  ++ mismatch (bool_decide (AutomatonBootstrapEvidence.steward_chain_id evidence
      = Some expected_chain_id))
      (field_message "steward_chain_id" (pretty expected_chain_id)
        (missing (pretty <$> AutomatonBootstrapEvidence.steward_chain_id evidence)))
  ++ mismatch (bool_decide (AutomatonBootstrapEvidence.steward_enabled evidence = Some true))
      (field_message "steward_enabled" "true"
        (missing (bool_text <$> AutomatonBootstrapEvidence.steward_enabled evidence)))
  ++ mismatch (same_evm_address expected_evm_address
        (AutomatonBootstrapEvidence.evm_address evidence))
      (field_message "evm_address" expected_evm_address
        (missing (AutomatonBootstrapEvidence.evm_address evidence))).

Definition build_bootstrap_verification (session : SpawnSession.t)
    (expected_factory_principal : Principal) (expected_chain_id : N)
    (expected_version_commit expected_evm_address : string)
    (evidence : AutomatonBootstrapEvidence.t) (checked_at : N)
    : AutomatonBootstrapVerification.t :=
  let evidence := evidence <| AutomatonBootstrapEvidence.bootstrap_constitution_hash :=
    Some (constitution_hash (resolved_genesis session).2) |> in
  let failures := bootstrap_failures session expected_factory_principal expected_chain_id
    expected_version_commit expected_evm_address evidence in
  AutomatonBootstrapVerification.mk checked_at (bool_decide (failures = [])) evidence failures.
End Verification.

Definition bootstrap_verification_error (canister_id : string)
    (verification : AutomatonBootstrapVerification.t) : FactoryError.t :=
  FactoryError.AutomatonBootstrapVerificationFailed canister_id
    (AutomatonBootstrapVerification.failures verification).

(** ** The chunked install *)

Definition MANAGEMENT_WASM_CHUNK_BYTES : N := 1000000.

(** [slice::chunks]; the fuel is the length of the slice. *)
Fixpoint chunks {A} (fuel size : nat) (l : list A) : list (list A) :=
  match fuel, l with
  | _, [] => []
  | O, _ => []
  | S fuel', _ => take size l :: chunks fuel' size (drop size l)
  end.

Definition wasm_install_chunks (wasm_module : list byte) : list (list byte) :=
  chunks (length wasm_module) (N.to_nat MANAGEMENT_WASM_CHUNK_BYTES) wasm_module.

Definition management_error (method : string) {A} (m : M Canister.t string A) : C A :=
  map_fail (FactoryError.ManagementCallFailed method) m.

Section Calls.
Context `{ext : Externals, json : Json, platform : SpawnPlatform}.

(** [Principal::from_text] of a canister id. *)
Definition canister_principal (canister_id : string) : result FactoryError.t Principal :=
  map_err (FactoryError.ManagementCallFailed "parse_canister_id")
    (principal_from_text canister_id).

(** The loop of [install_wasm_chunked]. *)
Fixpoint upload_chunks (canister_id : Principal) (chunk_hashes_list : list (list byte))
    (chunks : list (list byte)) : C (list (list byte)) :=
  match chunks with
  | [] => mret chunk_hashes_list
  | chunk :: rest =>
      uploaded ← management_error "upload_chunk" (upload_chunk canister_id chunk);
      upload_chunks canister_id (chunk_hashes_list ++ [uploaded]) rest
  end.

Definition install_wasm_chunked (canister_id : Principal) (wasm_module : list byte)
    (install_args : InitArgs.t) : C unit :=
  management_error "clear_chunk_store" (clear_chunk_store canister_id);;
  chunk_hashes_list ← upload_chunks canister_id [] (wasm_install_chunks wasm_module);
  let wasm_module_hash := sha256 wasm_module in
  install_result ← catch (management_error "install_chunked_code"
    (install_chunked_code canister_id chunk_hashes_list wasm_module_hash install_args));
  (if is_ok install_result
   then (catch (clear_chunk_store canister_id) : C _);; mret tt else mret tt);;
  lift install_result.

Definition derive_child_evm_address (canister_id key_name : string) : C string :=
  principal ← lift (canister_principal canister_id);
  public_key ← management_error "ecdsa_public_key" (child_ecdsa_public_key principal key_name);
  lift (derive_evm_address_from_public_key public_key).

(** ** Registering strategies in the child *)

Definition install_snapped_strategy (principal : Principal)
    (snapshot : RepositoryStrategySessionSnapshot.t) : C unit :=
  adapted_recipe_json ← lift (build_strategy_install_recipe snapshot);
  registration_result ← management_error "register_strategy_admin"
    (register_strategy_admin principal adapted_recipe_json);
  registered_template ← lift (map_err
    (strategy_install_error "register_strategy_admin" snapshot) registration_result);
  lift (verify_child_strategy_template "register_strategy_admin" snapshot
    (Some registered_template));;
  listed_templates ← management_error "list_strategy_templates"
    (list_strategy_templates principal (child_strategy_key snapshot));
  lift (verify_child_strategy_template "list_strategy_templates" snapshot
    (head listed_templates)).

Definition install_snapped_strategies_into_child (canister_id : string)
    (strategies : list RepositoryStrategySessionSnapshot.t) : C unit :=
  principal ← lift (canister_principal canister_id);
  for_each strategies (install_snapped_strategy principal).

(** ** Reading the child's report *)

Definition load_spawned_automaton_bootstrap_evidence (canister_id : string)
    : C AutomatonBootstrapEvidence.t :=
  principal ← lift (canister_principal canister_id);
  bootstrap_view ← management_error "get_spawn_bootstrap_view"
    (get_spawn_bootstrap_view principal);
  steward_status ← management_error "get_steward_status" (get_steward_status principal);
  known ← management_error "get_automaton_evm_address" (get_automaton_evm_address principal);
  evm_address ←
    match known with
    | Some address => mret (Some address)
    | None =>
        derived ← management_error "derive_automaton_evm_address"
          (call_derive_automaton_evm_address principal);
        address ← lift (map_err
          (FactoryError.ManagementCallFailed "derive_automaton_evm_address") derived);
        mret (Some address)
    end;
  let steward := ChildStewardStatusView.active_steward steward_status in
  mret {|
    AutomatonBootstrapEvidence.bootstrap_contract_version :=
      ChildSpawnBootstrapView.contract_version bootstrap_view;
    AutomatonBootstrapEvidence.bootstrap_name := ChildSpawnBootstrapView.name bootstrap_view;
    AutomatonBootstrapEvidence.bootstrap_constitution_hash := None;
    AutomatonBootstrapEvidence.bootstrap_constitution :=
      ChildSpawnBootstrapView.constitution bootstrap_view;
    AutomatonBootstrapEvidence.bootstrap_session_id :=
      ChildSpawnBootstrapView.session_id bootstrap_view;
    AutomatonBootstrapEvidence.bootstrap_parent_id :=
      ChildSpawnBootstrapView.parent_id bootstrap_view;
    AutomatonBootstrapEvidence.bootstrap_factory_principal :=
      ChildSpawnBootstrapView.factory_principal bootstrap_view;
    AutomatonBootstrapEvidence.bootstrap_risk := ChildSpawnBootstrapView.risk bootstrap_view;
    AutomatonBootstrapEvidence.bootstrap_strategies :=
      normalize_bootstrap_list (ChildSpawnBootstrapView.strategies bootstrap_view);
    AutomatonBootstrapEvidence.bootstrap_skills :=
      normalize_bootstrap_list (ChildSpawnBootstrapView.skills bootstrap_view);
    AutomatonBootstrapEvidence.bootstrap_version_commit :=
      ChildSpawnBootstrapView.version_commit bootstrap_view;
    AutomatonBootstrapEvidence.steward_address := ChildStewardState.address <$> steward;
    AutomatonBootstrapEvidence.steward_chain_id := ChildStewardState.chain_id <$> steward;
    AutomatonBootstrapEvidence.steward_enabled := ChildStewardState.enabled <$> steward;
    AutomatonBootstrapEvidence.evm_address := evm_address;
  |}.

(** ** The controller handoff ([controllers.rs]) *)

(** [VerifiedFactoryControllers] is the list it wraps. *)
Definition verify_factory_only_controller_ids (canister_id factory_controller : string)
    (controllers : list string) : result FactoryError.t (list string) :=
  err_if (bool_decide (controllers <> [factory_controller]))
    (FactoryError.ControllerInvariantViolation canister_id);;
  Ok controllers.

Definition complete_controller_handoff_live (canister_id : string) : C (list string) :=
  canister ← lift (canister_principal canister_id);
  management_error "update_settings" (update_settings canister [canister_self; canister]);;
  controllers ← management_error "canister_status" (canister_status canister);
  fail_if (negb (length controllers =? 2)%nat
           || negb (existsb (fun controller => bool_decide (controller = canister_self)) controllers)
           || negb (existsb (fun controller => bool_decide (controller = canister)) controllers))
    (FactoryError.ControllerInvariantViolation canister_id);;
  management_error "update_settings" (update_settings canister [canister_self]);;
  controllers ← management_error "canister_status" (canister_status canister);
  lift (verify_factory_only_controller_ids canister_id canister_self controllers).
End Calls.

(** ** The chunked install uploads the module *)

Lemma chunks_spec {A} fuel size (l : list A) :
  0 < size -> length l <= fuel ->
  concat (chunks fuel size l) = l
  /\ Forall (fun chunk => chunk <> [] /\ length chunk <= size) (chunks fuel size l).
Proof.
  intros Hsize. revert l. induction fuel as [|fuel IH]; intros l Hl.
  - destruct l; [by split; [|constructor]|simpl in Hl; lia].
  - destruct l as [|a l]; [by split; [|constructor]|].
    destruct (IH (drop size (a :: l))) as [Hconcat Hall].
    { rewrite length_drop. simpl in Hl |- *. lia. }
    cbn [chunks]. split.
    + cbn [concat]. rewrite Hconcat. apply take_drop.
    + apply Forall_cons. split; [|done]. rewrite length_take. split; [|lia].
      destruct size; [lia|done].
Qed.

Section Install.
Context `{ext : Externals, platform : SpawnPlatform}.

Lemma upload_chunks_Done canister_id hashes parts s hashes' t :
  upload_chunks canister_id hashes parts s = Done hashes' t ->
  exists uploaded, hashes' = hashes ++ uploaded
    /\ Forall2 (fun chunk hash => exists s1 s2, upload_chunk canister_id chunk s1 = Done hash s2)
         parts uploaded.
Proof.
  revert hashes s. induction parts as [|chunk parts IH]; intros hashes s Hrun.
  - injection Hrun as <- _. exists []. by rewrite app_nil_r.
  - cbn [upload_chunks] in Hrun. run_inv Hrun as hash s1 H1. apply map_fail_Done in H1.
    apply IH in Hrun as (uploaded & -> & Hall). exists (hash :: uploaded).
    rewrite <-app_assoc. split; [done|]. constructor; [by exists s, s1|done].
Qed.

(** an install that returns installed the module: it was cut into
    consecutive non-empty chunks of at most a megabyte that concatenate to it,
    each was uploaded, and the install call that succeeded named their hashes
    in order, the hash of the whole module and the install arguments. *)
Theorem install_wasm_chunked_correct canister_id wasm_module install_args s u t
    (Hrun : install_wasm_chunked canister_id wasm_module install_args s = Done u t) :
  exists parts hashes s1 s2,
    concat parts = wasm_module
    /\ Forall (fun chunk => chunk <> [] /\ (N.of_nat (length chunk) <= 1000000)%N) parts
    /\ Forall2 (fun chunk hash => exists s1 s2, upload_chunk canister_id chunk s1 = Done hash s2)
         parts hashes
    /\ install_chunked_code canister_id hashes (sha256 wasm_module) install_args s1 = Done tt s2.
Proof.
  unfold install_wasm_chunked in Hrun. run_inv Hrun as u1 t1 H1.
  run_inv Hrun as hashes t2 H2. apply upload_chunks_Done in H2 as (uploaded & -> & Huploaded).
  run_inv Hrun as result t3 H3. run_inv Hrun as u4 t4 H4. apply lift_Done in Hrun as [-> ->].
  apply catch_Done, map_fail_Done in H3. destruct u.
  destruct (chunks_spec (length wasm_module) (N.to_nat MANAGEMENT_WASM_CHUNK_BYTES) wasm_module)
    as [Hconcat Hall]; [unfold MANAGEMENT_WASM_CHUNK_BYTES; lia|lia|].
  exists (wasm_install_chunks wasm_module), uploaded, t2, t3.
  split; [exact Hconcat|]. split; [|by split].
  eapply Forall_impl; [exact Hall|]. intros chunk [Hne Hlen]. split; [done|].
  unfold MANAGEMENT_WASM_CHUNK_BYTES in Hlen. lia.
Qed.
End Install.
