(* ===== verification/Spawn.v ===== *)
(** * Spawn: executing a paid session

    Models the canister build of [backend/factory/src/spawn.rs]: the guards that
    bind a continuation to the release draft it started from, failing a
    session, finalising a confirmed release, resuming a release that was
    broadcast, and [execute_spawn] itself. *)

From S2P Require Import Prelude Text SpawnProtocol Types Externals State Init Samples Transitions Scheduler Retry Evidence Escrow Evm Broadcast Child.
From Stdlib Require Import Strings.Byte.

(** ** The draft guard *)

Module SpawnReleaseDraftGuard.
Record t := mk {
  generation : N;
  draft_identity : option string;
}.
#[global] Instance eq_dec : EqDecision t.
Proof. solve_decision. Defined.
End SpawnReleaseDraftGuard.

Definition spawn_release_draft_guard_for_record (generation : N)
    (record : option ReleaseBroadcastRecord.t) : SpawnReleaseDraftGuard.t :=
  SpawnReleaseDraftGuard.mk generation (release_broadcast_draft_identity <$> record).

Definition spawn_release_draft_guard (session : SpawnSession.t) : SpawnReleaseDraftGuard.t :=
  SpawnReleaseDraftGuard.mk (default 0%N (SpawnSession.generation session))
    (release_broadcast_draft_identity <$> SpawnSession.release_broadcast session).

Definition ensure_spawn_release_draft_guard_in_state (session_id : string)
    (guard : SpawnReleaseDraftGuard.t) (state : FactoryState.t) : result FactoryError.t unit :=
  session ← ok_or (FactoryState.sessions state !! session_id)
    (FactoryError.SessionNotFound session_id);
  err_if (negb (default 0 (SpawnSession.generation session)
                =? SpawnReleaseDraftGuard.generation guard)%N) stale_spawn;;
  err_if (bool_decide ((release_broadcast_draft_identity <$>
            SpawnSession.release_broadcast session)
          <> SpawnReleaseDraftGuard.draft_identity guard)) stale_spawn;;
  Ok tt.

Definition ensure_spawn_release_draft_guard (session_id : string)
    (guard : SpawnReleaseDraftGuard.t) : C unit :=
  read_state (ensure_spawn_release_draft_guard_in_state session_id guard).

Definition write_spawn_release_broadcast_record_guarded {A} (session_id : string)
    (guard : SpawnReleaseDraftGuard.t) (mutation : F A) : C A :=
  write_state (
    state ← get_state;
    lift (ensure_spawn_release_draft_guard_in_state session_id guard state);;
    mutation).

(** [ReleaseTransactionGuard::spawn] of a draft guard. *)
Definition evm_guard (session_id : string) (guard : SpawnReleaseDraftGuard.t)
    : ReleaseTransactionGuard.t :=
  ReleaseTransactionGuard.Spawn session_id (SpawnReleaseDraftGuard.generation guard)
    (SpawnReleaseDraftGuard.draft_identity guard).

(** ** Writes *)

Definition persist_release_broadcast_record (session_id : string)
    (record : ReleaseBroadcastRecord.t) : F unit :=
  modify (fun state => state <| FactoryState.sessions ::=
    alter (set SpawnSession.release_broadcast (fun _ => Some record)) session_id |>).

Definition put_runtime (runtime : AutomatonRuntimeState.t) (state : FactoryState.t)
    : FactoryState.t :=
  state <| FactoryState.runtimes ::= <[AutomatonRuntimeState.canister_id runtime := runtime]> |>.

Definition link_runtime (canister_id evm_address : option string) (session : SpawnSession.t)
    : SpawnSession.t :=
  session <| SpawnSession.automaton_canister_id := canister_id |>
          <| SpawnSession.automaton_evm_address := evm_address |>.

Definition persist_failed_spawn_runtime (session_id : string) (runtime : AutomatonRuntimeState.t)
    : F unit :=
  modify (fun state => put_runtime runtime state <| FactoryState.sessions ::=
    alter (link_runtime (Some (AutomatonRuntimeState.canister_id runtime))
             (Some (AutomatonRuntimeState.evm_address runtime))) session_id |>).

Definition insert_registry_record_with_parent_link (record : SpawnedAutomatonRecord.t)
    (state : FactoryState.t) : FactoryState.t :=
  let id := SpawnedAutomatonRecord.canister_id record in
  let link parent :=
    if forallb (fun child_id => negb (bool_decide (child_id = id)))
         (SpawnedAutomatonRecord.child_ids parent)
    then parent <| SpawnedAutomatonRecord.child_ids ::= fun ids => ids ++ [id] |>
    else parent in
  let state :=
    match SpawnedAutomatonRecord.parent_id record with
    | Some parent_id => state <| FactoryState.registry ::= alter link parent_id |>
    | None => state
    end in
  state <| FactoryState.registry ::= <[id := record]> |>.

Definition reserve_release_nonce_value (cursor : option N) (pending : N) : N * option N :=
  let nonce := N.max (default pending cursor) pending in
  (nonce, Some (saturating_add 64 nonce 1)).

Definition failure_audit_reason (reason : string) (error : FactoryError.t) : string :=
  reason +:+ ": " +:+ FactoryErrorDisplay.to_string error.

(** ** Receipts of an earlier broadcast *)

Module ExistingReleaseReceiptOutcome.
Inductive t := Pending | Terminal | Retryable.
End ExistingReleaseReceiptOutcome.

Definition classify_spawn_release_receipt_confirmation (error : FactoryError.t)
    : ExistingReleaseReceiptOutcome.t :=
  match error with
  | FactoryError.ManagementCallFailed _ message =>
      if bool_decide (message = "receipt block is in the future")
      then ExistingReleaseReceiptOutcome.Pending
      else if bool_decide (message ∈ ["release transaction reverted";
                                      "receipt block hash is not canonical"])
      then ExistingReleaseReceiptOutcome.Terminal
      else ExistingReleaseReceiptOutcome.Retryable
  | _ => ExistingReleaseReceiptOutcome.Retryable
  end.

Definition reproduction_release (session : SpawnSession.t)
    : result FactoryError.t (option ReproductionRelease.t) :=
  match SpawnSession.origin session with
  | Some (SpawnSessionOrigin.ReproductionOf _) =>
      match default [] (SpawnSession.royalty_allocations session) with
      | [first; second] =>
          child_amount ← parse_amount (SpawnSession.net_forward_amount session);
          royalty_one_amount ← parse_amount (RoyaltyAllocation.amount first);
          royalty_two_amount ← parse_amount (RoyaltyAllocation.amount second);
          Ok (Some (ReproductionRelease.mk child_amount
            (RoyaltyAllocation.recipient first) royalty_one_amount
            (RoyaltyAllocation.recipient second) royalty_two_amount))
      | _ => Err (FactoryError.InvalidReproduction
          "reproduction release requires exactly two fee royalty allocations")
      end
  | _ => Ok None
  end.

Definition prepare_retryable_runtime_after_strategy_failure (runtime : AutomatonRuntimeState.t)
    : AutomatonRuntimeState.t :=
  runtime
    <| AutomatonRuntimeState.install_succeeded_at := None |>
    <| AutomatonRuntimeState.last_funded_at := None |>
    <| AutomatonRuntimeState.funded_amount := "0" |>
    <| AutomatonRuntimeState.controller_handoff_completed_at := None |>.

Section Spawn.
Context `{ext : Externals, json : Json, platform : SpawnPlatform}.

Definition current_time_ms (canister : Canister.t) : N := (api_time canister `div` 1000000)%N.

(** [reserve_release_nonce]. *)
Definition reserve_release_nonce (endpoints : list string) : C N :=
  pending ← pending_release_nonce endpoints;
  write_state (
    cursor ← gets FactoryState.next_release_nonce;
    let '(nonce, cursor) := reserve_release_nonce_value cursor pending in
    modify (fun state => state <| FactoryState.next_release_nonce := cursor |>);;
    mret nonce).

Definition ensure_spawn_creation_cycles (required_create_cycles : N) : C unit :=
  available ← gets current_canister_balance;
  min_pool_balance ← gets (fun canister =>
    FactoryState.min_pool_balance (Canister.factory canister));
  let required := saturating_add 128 required_create_cycles min_pool_balance in
  fail_if (available <? required)%N (FactoryError.InsufficientCyclesPool available required).

(** The runtime with the constitution in its verification replaced by a hash. *)
Definition redacted_runtime (hash : string) (runtime : AutomatonRuntimeState.t)
    : AutomatonRuntimeState.t :=
  runtime <| AutomatonRuntimeState.bootstrap_verification ::= fmap (fun verification =>
    verification <| AutomatonBootstrapVerification.evidence ::= fun evidence => evidence
      <| AutomatonBootstrapEvidence.bootstrap_constitution := None |>
      <| AutomatonBootstrapEvidence.bootstrap_constitution_hash := Some hash |> |>) |>.

Definition redact_released_constitution (session : SpawnSession.t)
    (runtime : AutomatonRuntimeState.t)
    : SpawnSession.t * AutomatonRuntimeState.t * (string * string) :=
  let '(name, constitution) := resolved_genesis session in
  let hash := constitution_hash constitution in
  (session <| SpawnSession.constitution := None |>,
   redacted_runtime hash runtime,
   (name, hash)).

(** ** Failing *)

Definition cleanup_orphaned_canister (canister_id : string) : C unit :=
  match principal_from_text canister_id with
  | Ok principal => (catch (delete_canister principal) : C _);; mret tt
  | Err _ => mret tt
  end.

Definition fail_spawn_session {A} (session_id : string) (now_ms : N) (reason : string)
    (cleanup_canister_id : option string) (runtime : option AutomatonRuntimeState.t)
    (error : FactoryError.t) : C A :=
  match cleanup_canister_id with
  | Some canister_id => cleanup_orphaned_canister canister_id
  | None => mret tt
  end;;
  (catch (write_state (
    match runtime with
    | Some runtime => persist_failed_spawn_runtime session_id runtime
    | None => mret tt
    end;;
    mark_session_failed_in_state session_id SessionAuditActor.System now_ms
      (failure_audit_reason reason error))) : C _);;
  mthrow error.

(** [fail_spawn_session(session_id, current_time_ms(), ..)]. *)
Definition fail_now {A} (session_id reason : string) (cleanup_canister_id : option string)
    (runtime : option AutomatonRuntimeState.t) (error : FactoryError.t) : C A :=
  now ← gets current_time_ms;
  fail_spawn_session session_id now reason cleanup_canister_id runtime error.

(** A step whose error fails the session. *)
Definition or_fail {A} (session_id reason : string) (cleanup_canister_id : option string)
    (runtime : option AutomatonRuntimeState.t) (m : C A) : C A :=
  result ← catch m;
  match result with
  | Ok a => mret a
  | Err error => fail_now session_id reason cleanup_canister_id runtime error
  end.

(** ** Finalising *)

(** The registry record of a spawned automaton. *)
Definition spawned_record (session : SpawnSession.t) (runtime : AutomatonRuntimeState.t)
    (canister_id name constitution_hash version_commit : string)
    (verified_factory_controllers : list string) (release_broadcast_at current_time : N)
    : SpawnedAutomatonRecord.t := {|
  SpawnedAutomatonRecord.name := Some name;
  SpawnedAutomatonRecord.constitution_hash := Some constitution_hash;
  SpawnedAutomatonRecord.canister_id := canister_id;
  SpawnedAutomatonRecord.steward_address := SpawnSession.steward_address session;
  SpawnedAutomatonRecord.evm_address := AutomatonRuntimeState.evm_address runtime;
  SpawnedAutomatonRecord.chain := SpawnSession.chain session;
  SpawnedAutomatonRecord.session_id := SpawnSession.session_id session;
  SpawnedAutomatonRecord.parent_id := SpawnSession.parent_id session;
  SpawnedAutomatonRecord.generation := SpawnSession.generation session;
  SpawnedAutomatonRecord.parent_constitution_hash :=
    SpawnSession.parent_constitution_hash session;
  SpawnedAutomatonRecord.royalty_allocations := SpawnSession.royalty_allocations session;
  SpawnedAutomatonRecord.child_ids := SpawnSession.child_ids session;
  SpawnedAutomatonRecord.created_at := release_broadcast_at;
  SpawnedAutomatonRecord.version_commit := version_commit;
  SpawnedAutomatonRecord.controllers := Some verified_factory_controllers;
  SpawnedAutomatonRecord.control_status := Some "upgradeable_by_factory";
  SpawnedAutomatonRecord.control_verified_at := Some current_time;
  SpawnedAutomatonRecord.death_cause := None;
  SpawnedAutomatonRecord.died_at := None;
  SpawnedAutomatonRecord.estate_disposition := None;
  SpawnedAutomatonRecord.death_recorded_by := None;
  SpawnedAutomatonRecord.death_incident_reference := None;
|}.

(** [finalize_confirmed_release]; it returns the runtime it changed. *)
Definition finalize_confirmed_release (session_id canister_id : string)
    (runtime : AutomatonRuntimeState.t) (release_tx_hash : string) (release_broadcast_at : N)
    (release_record : ReleaseBroadcastRecord.t) (version_commit : string)
    (verified_factory_controllers : list string) (current_time : N)
    (draft_guard : SpawnReleaseDraftGuard.t) : C AutomatonRuntimeState.t :=
  runtime ← write_spawn_release_broadcast_record_guarded session_id draft_guard (
    stored ← gets (fun state => FactoryState.sessions state !! session_id);
    session ← expect stored;
    let runtime := runtime <| AutomatonRuntimeState.provider_keys_cleared := true |> in
    let session := session
      <| SpawnSession.release_tx_hash := Some release_tx_hash |>
      <| SpawnSession.release_broadcast_at := Some release_broadcast_at |>
      <| SpawnSession.release_broadcast := Some release_record |> in
    let '(session, runtime, (name, constitution_hash)) :=
      redact_released_constitution session runtime in
    put_session session_id session;;
    modify (fun state => state <| FactoryState.runtimes ::= <[canister_id := runtime]> |>);;
    modify (insert_registry_record_with_parent_link
      (spawned_record session runtime canister_id name constitution_hash version_commit
        verified_factory_controllers release_broadcast_at current_time));;
    apply_session_event_in_state session_id SessionAuditActor.System current_time
      SpawnSessionEvent.ReleaseBroadcast
      "spawn completed after receipt-confirmed release and controller handoff";;
    mret runtime);
  delete_spawn_provider_secrets session_id;;
  mret runtime.

(** ** The release that an earlier attempt broadcast *)

Definition release_pending : FactoryError.t :=
  receipt_error "release transaction remains pending".

(** Wait for the transaction of a stored record: the record with its receipt
    is returned once it is confirmed; otherwise what was learned is stored, and
    the call fails, or fails the session if the release can never succeed.
    [now_of] is the clock and [runtime_of] the runtime to keep on failure. *)
Definition confirm_existing_release (session_id : string) (draft_guard : SpawnReleaseDraftGuard.t)
    (endpoints : list string) (confirmation_depth : N) (record : ReleaseBroadcastRecord.t)
    (tx_hash : string) (now_of : Canister.t -> N)
    (runtime_of : Canister.t -> option AutomatonRuntimeState.t) : C ReleaseBroadcastRecord.t :=
  let store record message :=
    now ← gets now_of;
    write_spawn_release_broadcast_record_guarded session_id draft_guard
      (persist_release_broadcast_record session_id
        (record <| ReleaseBroadcastRecord.last_error := Some (ReleaseBroadcastFailure.mk
           ReleaseBroadcastStage.ReceiptConfirmation message None None None now) |>)) in
  ensure_spawn_release_draft_guard session_id draft_guard;;
  outcome ← catch (confirm_release_receipt_depth endpoints confirmation_depth record tx_hash
    (Some (evm_guard session_id draft_guard)));
  match outcome with
  | Ok (record, true) => mret record
  | Ok (record, false) =>
      store record "release transaction is pending or dropped";;
      mthrow release_pending
  | Err (record, error) =>
      let message :=
        match error with
        | FactoryError.ManagementCallFailed _ message => message
        | _ => FactoryErrorDisplay.to_string error
        end in
      store record message;;
      match classify_spawn_release_receipt_confirmation error with
      | ExistingReleaseReceiptOutcome.Pending => mthrow release_pending
      | ExistingReleaseReceiptOutcome.Terminal =>
          runtime ← gets runtime_of;
          now ← gets now_of;
          fail_spawn_session session_id now "release receipt terminal failure" None runtime
            (receipt_error message)
      | ExistingReleaseReceiptOutcome.Retryable => mthrow error
      end
  end.

Definition endpoints_of (state : FactoryState.t) : list string :=
  configured_rpc_endpoints (FactoryState.base_rpc_endpoint state)
    (FactoryState.base_rpc_fallback_endpoint state).

Definition stored_runtime (canister_id : option string) (canister : Canister.t)
    : option AutomatonRuntimeState.t :=
  id ← canister_id; FactoryState.runtimes (Canister.factory canister) !! id.

Definition resume_broadcasting_release (session : SpawnSession.t) : C SpawnExecutionReceipt.t :=
  let session_id := SpawnSession.session_id session in
  record ← lift (ok_or (SpawnSession.release_broadcast session)
    (receipt_error "broadcasting release has no durable transaction record"));
  tx_hash ← lift (ok_or (ReleaseBroadcastRecord.rpc_tx_hash record)
    (receipt_error "broadcasting release has no transaction hash"));
  let draft_guard := spawn_release_draft_guard session in
  ensure_spawn_release_draft_guard session_id draft_guard;;
  state ← gets Canister.factory;
  now ← gets current_time_ms;
  record ← confirm_existing_release session_id draft_guard (endpoints_of state)
    (FactoryState.evm_confirmation_depth state) record tx_hash (fun _ => now)
    (stored_runtime (SpawnSession.automaton_canister_id session));
  let finalized_guard := spawn_release_draft_guard_for_record
    (SpawnReleaseDraftGuard.generation draft_guard) (Some record) in
  canister_id ← expect (SpawnSession.automaton_canister_id session);
  known ← gets (stored_runtime (Some canister_id));
  runtime ← lift (ok_or known (FactoryError.AutomatonRuntimeNotFound canister_id));
  ensure_spawn_release_draft_guard session_id draft_guard;;
  verified_controllers ← complete_controller_handoff_live canister_id;
  ensure_spawn_release_draft_guard session_id draft_guard;;
  version_commit ← gets (fun canister => FactoryState.version_commit (Canister.factory canister));
  runtime ← finalize_confirmed_release session_id canister_id runtime tx_hash
    (default now (ReleaseBroadcastRecord.broadcast_at record)) record version_commit
    verified_controllers now finalized_guard;
  mret {|
    SpawnExecutionReceipt.session_id := session_id;
    SpawnExecutionReceipt.automaton_canister_id := canister_id;
    SpawnExecutionReceipt.automaton_evm_address := AutomatonRuntimeState.evm_address runtime;
    SpawnExecutionReceipt.funded_amount := SpawnSession.net_forward_amount session;
    SpawnExecutionReceipt.controller :=
      "controller:" +:+ default "" (head verified_controllers);
    SpawnExecutionReceipt.release_tx_hash := Some tx_hash;
    SpawnExecutionReceipt.release_broadcast_at := ReleaseBroadcastRecord.broadcast_at record;
    SpawnExecutionReceipt.completed_at := now;
  |}.

(** ** Executing *)

Definition completed_receipt (session : SpawnSession.t) : C SpawnExecutionReceipt.t :=
  canister_id ← expect (SpawnSession.automaton_canister_id session);
  evm_address ← expect (SpawnSession.automaton_evm_address session);
  mret {|
    SpawnExecutionReceipt.session_id := SpawnSession.session_id session;
    SpawnExecutionReceipt.automaton_canister_id := canister_id;
    SpawnExecutionReceipt.automaton_evm_address := evm_address;
    SpawnExecutionReceipt.funded_amount := SpawnSession.net_forward_amount session;
    SpawnExecutionReceipt.controller := "controller:" +:+ canister_id;
    SpawnExecutionReceipt.release_tx_hash := SpawnSession.release_tx_hash session;
    SpawnExecutionReceipt.release_broadcast_at := SpawnSession.release_broadcast_at session;
    SpawnExecutionReceipt.completed_at := SpawnSession.updated_at session;
  |}.

Definition apply_event (session_id : string) (now_ms : N) (event : SpawnSessionEvent.t)
    (reason : string) : F unit :=
  apply_session_event_in_state session_id SessionAuditActor.System now_ms event reason;; mret tt.

(** The session's own fields for its canister. *)
Definition link_session (session_id : string) (canister_id evm_address : option string) : F unit :=
  stored ← gets (fun state => FactoryState.sessions state !! session_id);
  session ← expect stored;
  put_session session_id (link_runtime canister_id evm_address session).

Definition session_expired (session_id : string) (expires_at : N) : FactoryError.t :=
  FactoryError.SessionExpired session_id expires_at.

(** Creating and installing the child: its id and its runtime. *)
Definition install_child (session_id : string) (session_snapshot : SpawnSession.t)
    (started_at_ms create_cycles : N) (wasm_module : list byte) (version_commit : string)
    (child_runtime : ValidatedAutomatonChildRuntimeConfig.t)
    : C (string * AutomatonRuntimeState.t) :=
  let expires_at := SpawnSession.expires_at session_snapshot in
  let create_extra_cycles := saturating_sub create_cycles cost_create_canister in
  created_canister_id ← or_fail session_id "create_canister failed" None None
    (management_error "create_canister" (create_canister_with_extra_cycles create_extra_cycles));
  let orphaned {A} (m : C A) : C A := cleanup_orphaned_canister created_canister_id;; m in
  address ← catch (derive_child_evm_address created_canister_id
    (ValidatedAutomatonChildRuntimeConfig.ecdsa_key_name child_runtime));
  expected_evm_address ←
    match address with
    | Ok address => mret address
    | Err error => orphaned (fail_now session_id "derive_automaton_evm_address failed"
        (Some created_canister_id) None error)
    end;
  let runtime := initialize_automaton session_snapshot created_canister_id expected_evm_address
      started_at_ms
    <| AutomatonRuntimeState.evm_address_derived_at := Some started_at_ms |> in
  write_state (
    link_session session_id (Some created_canister_id)
      (Some (AutomatonRuntimeState.evm_address runtime));;
    modify (fun state => state
      <| FactoryState.runtimes ::= <[created_canister_id := runtime]> |>));;
  current_time ← gets current_time_ms;
  (if (expires_at <? current_time)%N
   then orphaned (fail_spawn_session session_id current_time "session expired during spawn"
          (Some created_canister_id) None (session_expired session_id expires_at))
   else mret tt);;
  secrets ← gets (load_spawn_provider_secrets session_id);
  let install_args := build_automaton_install_args session_snapshot secrets canister_self
    version_commit child_runtime in
  canister_principal ← lift (canister_principal created_canister_id);
  installed ← catch (install_wasm_chunked canister_principal wasm_module install_args);
  match installed with
  | Ok _ => mret tt
  | Err error => orphaned (fail_now session_id "chunked install failed"
      (Some created_canister_id) None error)
  end;;
  delete_spawn_provider_secrets session_id;;
  current_time ← gets current_time_ms;
  (if (expires_at <? current_time)%N
   then orphaned (fail_spawn_session session_id current_time "session expired during spawn"
          (Some created_canister_id) None (session_expired session_id expires_at))
   else mret tt);;
  let runtime := runtime
    <| AutomatonRuntimeState.install_succeeded_at := Some current_time |>
    <| AutomatonRuntimeState.funded_amount := SpawnSession.net_forward_amount session_snapshot |>
    <| AutomatonRuntimeState.last_funded_at := Some current_time |> in
  write_state (
    modify (fun state => state
      <| FactoryState.runtimes ::= <[created_canister_id := runtime]> |>);;
    link_session session_id (Some created_canister_id)
      (Some (AutomatonRuntimeState.evm_address runtime));;
    apply_event session_id current_time SpawnSessionEvent.InstallSucceeded "automaton installed");;
  mret (created_canister_id, runtime).

(** The child of the session: a stored one whose install succeeded, or a new
    one.  The id is not known when the stored runtime has none. *)
Definition child_of_session (session_id : string) (session_snapshot : SpawnSession.t)
    (started_at_ms create_cycles : N) (wasm_module : list byte) (version_commit : string)
    (child_runtime : ValidatedAutomatonChildRuntimeConfig.t)
    : C (option string * option AutomatonRuntimeState.t) :=
  let canister_id := SpawnSession.automaton_canister_id session_snapshot in
  runtime ← gets (stored_runtime canister_id);
  if is_none_or (fun existing =>
       negb (is_some (AutomatonRuntimeState.install_succeeded_at existing))) runtime
  then
    '(canister_id, runtime) ← install_child session_id session_snapshot started_at_ms
      create_cycles wasm_module version_commit child_runtime;
    mret (Some canister_id, Some runtime)
  else
    current_time ← gets current_time_ms;
    write_state (
      link_session session_id canister_id (AutomatonRuntimeState.evm_address <$> runtime);;
      apply_event session_id current_time SpawnSessionEvent.InstallSucceeded
        "automaton already installed; resuming handoff");;
    mret (canister_id, runtime).

(** Taking control of the child.  An error fails the session and deletes the
    canister; the stored runtime is left as it is. *)
Definition take_control (session_id canister_id : string) : C (list string) :=
  or_fail session_id "controller handoff failed" (Some canister_id) None
    (complete_controller_handoff_live canister_id).

(** Checking the child, registering its strategies and taking control: the
    runtime, the controllers and the time of the handoff. *)
Definition verify_and_hand_over (session_id canister_id : string) (session_snapshot : SpawnSession.t)
    (runtime : option AutomatonRuntimeState.t) (started_at_ms : N) (version_commit : string)
    (child_runtime : ValidatedAutomatonChildRuntimeConfig.t)
    : C (AutomatonRuntimeState.t * list string * N) :=
  expected_evm_address ← or_fail session_id "derive_automaton_evm_address failed"
    (Some canister_id) runtime
    (derive_child_evm_address canister_id
      (ValidatedAutomatonChildRuntimeConfig.ecdsa_key_name child_runtime));
  let runtime := default
    (initialize_automaton session_snapshot canister_id expected_evm_address started_at_ms) runtime in
  let runtime := runtime
    <| AutomatonRuntimeState.evm_address := expected_evm_address |>
    <| AutomatonRuntimeState.evm_address_derived_at ::= fun derived =>
         Some (default started_at_ms derived) |> in
  expected_child_chain_id ← read_state (fun state =>
    canonical_deployment_chain_id (FactoryState.child_runtime state)
      (FactoryState.release_broadcast_config state));
  verification_evidence ← or_fail session_id "spawned canister bootstrap verification failed"
    None (Some runtime) (load_spawned_automaton_bootstrap_evidence canister_id);
  checked_at ← gets current_time_ms;
  let verification := build_bootstrap_verification session_snapshot canister_self
    expected_child_chain_id version_commit expected_evm_address verification_evidence checked_at in
  let runtime := runtime
    <| AutomatonRuntimeState.bootstrap_verification := Some verification |> in
  write_state (persist_failed_spawn_runtime session_id runtime);;
  (if AutomatonBootstrapVerification.passed verification then mret tt
   else fail_spawn_session session_id (AutomatonBootstrapVerification.checked_at verification)
     "spawned canister bootstrap verification failed" None (Some runtime)
     (bootstrap_verification_error canister_id verification));;
  or_fail session_id "strategy registration failed" (Some canister_id)
    (Some (prepare_retryable_runtime_after_strategy_failure runtime))
    (install_snapped_strategies_into_child canister_id
      (SpawnSession.selected_strategies session_snapshot));;
  verified_factory_control ← take_control session_id canister_id;
  current_time ← gets current_time_ms;
  expect (head verified_factory_control);;
  let runtime := runtime
    <| AutomatonRuntimeState.controller_handoff_completed_at := Some current_time |>
    <| AutomatonRuntimeState.install_succeeded_at ::= fun installed =>
         Some (default current_time installed) |>
    <| AutomatonRuntimeState.funded_amount := SpawnSession.net_forward_amount session_snapshot |>
    <| AutomatonRuntimeState.last_funded_at := Some current_time |>
    <| AutomatonRuntimeState.evm_address := expected_evm_address |> in
  write_state (persist_failed_spawn_runtime session_id runtime);;
  mret (runtime, verified_factory_control, current_time).

(** A new release: reserve a nonce and broadcast. *)
Definition broadcast_release (session_id : string) (session_snapshot : SpawnSession.t)
    (runtime : AutomatonRuntimeState.t) (draft_guard : SpawnReleaseDraftGuard.t)
    (endpoints : list string) (escrow_contract_address : string) (current_time : N)
    (config : ReleaseBroadcastConfig.t) (reproduction : option ReproductionRelease.t)
    (confirmation_depth : N) : C ReleaseBroadcastReceipt.t :=
  release_nonce ← or_fail session_id "release nonce reservation failed" None (Some runtime)
    (reserve_release_nonce endpoints);
  ensure_spawn_release_draft_guard session_id draft_guard;;
  release ← catch (broadcast_release_transaction (SpawnSession.claim_id session_snapshot)
    (AutomatonRuntimeState.evm_address runtime) endpoints escrow_contract_address release_nonce
    current_time config reproduction false confirmation_depth
    (Some (evm_guard session_id draft_guard)));
  ensure_spawn_release_draft_guard session_id draft_guard;;
  match release with
  | Ok release => mret release
  | Err error =>
      let record := ReleaseBroadcastError.record error in
      write_spawn_release_broadcast_record_guarded session_id draft_guard
        (persist_release_broadcast_record session_id record);;
      if is_some_and (fun failure =>
             bool_decide (ReleaseBroadcastFailure.stage failure
                          = ReleaseBroadcastStage.ReceiptConfirmation)
             && negb (contains (ReleaseBroadcastFailure.message failure) "reverted"))
           (ReleaseBroadcastRecord.last_error record)
         && is_some (ReleaseBroadcastRecord.rpc_tx_hash record)
      then mthrow (ReleaseBroadcastError.source error)
      else fail_now session_id "release broadcast or confirmation failed" None (Some runtime)
             (ReleaseBroadcastError.source error)
  end.

(** Releasing the deposit to the child, and completing the session. *)
Definition release_and_complete (session_id canister_id : string) (session_snapshot : SpawnSession.t)
    (runtime : AutomatonRuntimeState.t) (verified_factory_controllers : list string)
    (current_time : N) (version_commit : string) : C SpawnExecutionReceipt.t :=
  state ← gets Canister.factory;
  let base_rpc_endpoints := endpoints_of state in
  (if bool_decide (base_rpc_endpoints = [])
   then fail_spawn_session session_id current_time "release broadcast prerequisites missing"
     None (Some runtime)
     (FactoryError.ManagementCallFailed "http_request" "base RPC endpoint is not configured")
   else mret tt);;
  reproduction ← lift (reproduction_release session_snapshot);
  let draft_guard := spawn_release_draft_guard session_snapshot in
  let confirmation_depth := FactoryState.evm_confirmation_depth state in
  let new_release := broadcast_release session_id session_snapshot runtime draft_guard
    base_rpc_endpoints (FactoryState.escrow_contract_address state) current_time
    (FactoryState.release_broadcast_config state) reproduction confirmation_depth in
  release ←
    match SpawnSession.release_broadcast session_snapshot with
    | Some record =>
        match ReleaseBroadcastRecord.rpc_tx_hash record with
        | Some tx_hash =>
            record ← confirm_existing_release session_id draft_guard base_rpc_endpoints
              confirmation_depth record tx_hash current_time_ms (fun _ => Some runtime);
            mret (ReleaseBroadcastReceipt.mk tx_hash
              (default current_time (ReleaseBroadcastRecord.broadcast_at record)) record true)
        | None => new_release
        end
    | None => new_release
    end;
  let release_record := ReleaseBroadcastReceipt.record release in
  let finalized_guard := spawn_release_draft_guard_for_record
    (SpawnReleaseDraftGuard.generation draft_guard) (Some release_record) in
  write_spawn_release_broadcast_record_guarded session_id draft_guard
    (persist_release_broadcast_record session_id release_record);;
  fail_if (negb (ReleaseBroadcastReceipt.confirmed release)) release_pending;;
  runtime ← finalize_confirmed_release session_id canister_id runtime
    (ReleaseBroadcastReceipt.release_tx_hash release)
    (ReleaseBroadcastReceipt.release_broadcast_at release) release_record version_commit
    verified_factory_controllers current_time finalized_guard;
  controller ← expect (head verified_factory_controllers);
  mret {|
    SpawnExecutionReceipt.session_id := session_id;
    SpawnExecutionReceipt.automaton_canister_id := canister_id;
    SpawnExecutionReceipt.automaton_evm_address := AutomatonRuntimeState.evm_address runtime;
    SpawnExecutionReceipt.funded_amount := SpawnSession.net_forward_amount session_snapshot;
    SpawnExecutionReceipt.controller := "controller:" +:+ controller;
    SpawnExecutionReceipt.release_tx_hash :=
      Some (ReleaseBroadcastReceipt.release_tx_hash release);
    SpawnExecutionReceipt.release_broadcast_at :=
      Some (ReleaseBroadcastReceipt.release_broadcast_at release);
    SpawnExecutionReceipt.completed_at := current_time;
  |}.

(** The arm of [execute_spawn] for a session whose payment was detected. *)
Definition start_spawn (session_id : string) (started_at_ms : N) (session_snapshot : SpawnSession.t)
    : C SpawnExecutionReceipt.t :=
  state ← gets Canister.factory;
  let version_commit := FactoryState.version_commit state in
  let create_cycles :=
    N.max (FactoryState.cycles_per_spawn state) (cost_create_canister `mod` 2 ^ 64) in
  wasm_module ←
    match FactoryState.wasm_bytes state with
    | Some wasm_module => mret wasm_module
    | None => fail_now session_id "spawn artifact unavailable" None None
        (FactoryError.ManagementCallFailed "install_code" "artifact not loaded")
    end;
  or_fail session_id "cycles pool below required minimum" None None
    (ensure_spawn_creation_cycles create_cycles);;
  child_runtime ← or_fail session_id "child runtime config missing or invalid" None None
    (read_state (fun state =>
      validate_automaton_child_runtime_config (FactoryState.child_runtime state)));
  write_state (apply_event session_id started_at_ms SpawnSessionEvent.SpawnStarted
    "spawn execution started");;
  '(canister_id, runtime) ← child_of_session session_id session_snapshot started_at_ms
    create_cycles wasm_module version_commit child_runtime;
  canister_id ← expect canister_id;
  '(runtime, verified_factory_controllers, current_time) ← verify_and_hand_over session_id
    canister_id session_snapshot runtime started_at_ms version_commit child_runtime;
  release_and_complete session_id canister_id session_snapshot runtime
    verified_factory_controllers current_time version_commit.

Definition execute_spawn (session_id : string) (started_at_ms : N) : C SpawnExecutionReceipt.t :=
  session_snapshot ← read_state (fun state =>
    ok_or (FactoryState.sessions state !! session_id) (FactoryError.SessionNotFound session_id));
  fail_if (bool_decide (SpawnSession.payment_status session_snapshot <> PaymentStatus.Paid))
    (FactoryError.PaymentNotSettled session_id (SpawnSession.payment_status session_snapshot));;
  match SpawnSession.state session_snapshot with
  | SpawnSessionState.PaymentDetected => start_spawn session_id started_at_ms session_snapshot
  | SpawnSessionState.BroadcastingRelease => resume_broadcasting_release session_snapshot
  | SpawnSessionState.Complete => completed_receipt session_snapshot
  | state => mthrow (FactoryError.SessionNotReadyForSpawn session_id state)
  end.
End Spawn.

(** ** Runs that returned *)

Lemma lift_in_state_Done {A} (r : result FactoryError.t A) (s : FactoryState.t) a t :
  (state ← get_state; lift r : F A) s = Done a t <-> r = Ok a /\ t = s.
Proof. unfold get_state, mbind, M_bind. apply lift_Done. Qed.

Lemma write_state_Done {A} (writer : F A) s a t :
  write_state writer s = Done a t <->
  exists state', writer (Canister.factory s) = Done a state'
    /\ t = s <| Canister.factory := state' |>.
Proof.
  unfold write_state, zoom. destruct (writer (Canister.factory s)) as [b state'| |]; [|naive_solver..].
  split; [intros [= -> <-]; eauto|]. intros (state'' & [= -> ->] & ->). done.
Qed.

Lemma write_guarded_Done {A} session_id guard (mutation : F A) s a t :
  write_spawn_release_broadcast_record_guarded session_id guard mutation s = Done a t ->
  ensure_spawn_release_draft_guard_in_state session_id guard (Canister.factory s) = Ok tt
  /\ exists state', mutation (Canister.factory s) = Done a state'
       /\ t = s <| Canister.factory := state' |>.
Proof.
  intros Hrun. apply write_state_Done in Hrun as (state' & Hrun & ->).
  run_inv Hrun as s0 t0 H0. injection H0 as <- <-.
  run_inv Hrun as u t1 H1. apply lift_Done in H1 as [Hguard ->].
  split; [by destruct u|]. by exists state'.
Qed.

Lemma apply_event_Done session_id actor now_ms event reason state session t :
  apply_session_event_in_state session_id actor now_ms event reason state = Done session t ->
  exists stored, FactoryState.sessions state !! session_id = Some stored
    /\ ((t = state /\ session = stored /\ event_outcome session_id stored
           (FactoryState.audit_log state !! session_id) now_ms event = Ok None)
        \/ exists from to_state reset, event_outcome session_id stored
             (FactoryState.audit_log state !! session_id) now_ms event
             = Ok (Some (from, to_state, reset))
           /\ session = moved_session to_state reset now_ms state stored
           /\ t = moved_state session_id actor now_ms reason from to_state session state).
Proof.
  intros Hrun. destruct (FactoryState.sessions state !! session_id) as [stored|] eqn:Hs.
  - exists stored. split; [done|]. rewrite (apply_session_event_run _ _ _ _ _ _ _ Hs) in Hrun.
    destruct (event_outcome _ _ _ _ _) as [[[[from to_state] reset]|]|e]; [|by injection Hrun as -> ->; left|done].
    injection Hrun as <- <-. right. by exists from, to_state, reset.
  - exfalso. unfold apply_session_event_in_state in Hrun. run_inv Hrun as s0 t0 H0.
    unfold get_session in H0. rewrite Hs in H0. done.
Qed.

Lemma registry_insert_record record state :
  FactoryState.registry (insert_registry_record_with_parent_link record state)
    !! SpawnedAutomatonRecord.canister_id record = Some record.
Proof. unfold insert_registry_record_with_parent_link. simpl_set. apply lookup_insert_eq. Qed.

Lemma insert_record_frame record state :
  FactoryState.sessions (insert_registry_record_with_parent_link record state)
    = FactoryState.sessions state
  /\ FactoryState.runtimes (insert_registry_record_with_parent_link record state)
    = FactoryState.runtimes state
  /\ FactoryState.audit_log (insert_registry_record_with_parent_link record state)
    = FactoryState.audit_log state.
Proof. unfold insert_registry_record_with_parent_link. by destruct (SpawnedAutomatonRecord.parent_id record). Qed.

Section SpawnProof.
Context `{ext : Externals, json : Json, platform : SpawnPlatform}.

(** A transaction that the session has on record already. *)
Definition stored_release (session : SpawnSession.t) : option (ReleaseBroadcastRecord.t * string) :=
  record ← SpawnSession.release_broadcast session;
  tx_hash ← ReleaseBroadcastRecord.rpc_tx_hash record;
  Some (record, tx_hash).

(** The release that completes a session: the transaction on record, or, without
    one, a transaction that was signed and sent under the configuration of the
    state [configured] and pays the deposit of the session's claim to
    [recipient]. *)
Definition release_of (configured : FactoryState.t) (session : SpawnSession.t)
    (recipient : string) (record : ReleaseBroadcastRecord.t) (tx_hash : string) : Prop :=
  match stored_release session with
  | Some (stored, stored_hash) => same_transaction record stored /\ tx_hash = stored_hash
  | None => exists reproduction, reproduction_release session = Ok reproduction
      /\ release_sent (SpawnSession.claim_id session) recipient
           (FactoryState.escrow_contract_address configured) (endpoints_of configured)
           (FactoryState.release_broadcast_config configured) reproduction record tx_hash
  end.

(** What a completed spawn leaves behind: the session is complete and keeps the
    record of its release, confirmed by the endpoints and at the depth that
    [configured] names, but no longer the constitution; the registry attests
    that the factory alone controls the canister; the secrets are gone. *)
Definition spawn_completed (configured : FactoryState.t) (session_id : string)
    (runtime : AutomatonRuntimeState.t) (release_record : ReleaseBroadcastRecord.t)
    (tx_hash : string) (receipt : SpawnExecutionReceipt.t) (canister : Canister.t) : Prop :=
  let state := Canister.factory canister in
  let canister_id := SpawnExecutionReceipt.automaton_canister_id receipt in
  exists session registered,
    FactoryState.sessions state !! session_id = Some session
    /\ SpawnSession.state session = SpawnSessionState.Complete
    /\ SpawnSession.constitution session = None
    /\ SpawnSession.release_tx_hash session = Some tx_hash
    /\ SpawnSession.release_broadcast session = Some release_record
    /\ confirmed_record (endpoints_of configured) (FactoryState.evm_confirmation_depth configured)
         release_record tx_hash
    /\ FactoryState.registry state !! canister_id = Some registered
    /\ SpawnedAutomatonRecord.controllers registered = Some [canister_self]
    /\ SpawnedAutomatonRecord.evm_address registered
       = SpawnExecutionReceipt.automaton_evm_address receipt
    /\ SpawnedAutomatonRecord.steward_address registered = SpawnSession.steward_address session
    /\ FactoryState.runtimes state !! canister_id = Some runtime
    /\ AutomatonRuntimeState.provider_keys_cleared runtime = true
    /\ Canister.spawn_provider_secrets canister !! session_id = None
    /\ SpawnExecutionReceipt.automaton_evm_address receipt
       = AutomatonRuntimeState.evm_address runtime
    /\ SpawnExecutionReceipt.release_tx_hash receipt = Some tx_hash.

Lemma release_event_outcome session_id session audit now_ms o :
  event_outcome session_id session audit now_ms SpawnSessionEvent.ReleaseBroadcast = Ok o ->
  exists from, o = Some (from, SpawnSessionState.Complete, false).
Proof.
  unfold event_outcome. intros Hok. apply result_bind_Ok in Hok as (u & _ & Hok).
  injection Hok as <-. by eexists.
Qed.

(** The part of it that finalising the release establishes. *)
Lemma finalize_Done session_id canister_id runtime tx_hash release_at record version controllers
    now guard s runtime' t :
  finalize_confirmed_release session_id canister_id runtime tx_hash release_at record version
    controllers now guard s = Done runtime' t ->
  let state := Canister.factory t in
  exists session registered,
    FactoryState.sessions state !! session_id = Some session
    /\ SpawnSession.state session = SpawnSessionState.Complete
    /\ SpawnSession.constitution session = None
    /\ SpawnSession.release_tx_hash session = Some tx_hash
    /\ SpawnSession.release_broadcast session = Some record
    /\ FactoryState.registry state !! canister_id = Some registered
    /\ SpawnedAutomatonRecord.controllers registered = Some controllers
    /\ SpawnedAutomatonRecord.evm_address registered = AutomatonRuntimeState.evm_address runtime'
    /\ SpawnedAutomatonRecord.steward_address registered = SpawnSession.steward_address session
    /\ FactoryState.runtimes state !! canister_id = Some runtime'
    /\ AutomatonRuntimeState.provider_keys_cleared runtime' = true
    /\ Canister.spawn_provider_secrets t !! session_id = None
    /\ exists hash, runtime' = redacted_runtime hash
         (runtime <| AutomatonRuntimeState.provider_keys_cleared := true |>).
Proof.
  intros Hrun. unfold finalize_confirmed_release in Hrun.
  run_inv Hrun as r t0 H0. apply write_guarded_Done in H0 as (_ & state' & H0 & ->).
  run_inv Hrun as u t1 H1. injection H1 as _ <-. injection Hrun as -> <-.
  run_inv H0 as stored t2 H2. injection H2 as <- <-.
  run_inv H0 as session t3 H3.
  unfold expect in H3. destruct (_ !! session_id) as [stored|]; [|done]. injection H3 as <- <-.
  unfold redact_released_constitution in H0. destruct (resolved_genesis _) as [name constitution].
  run_inv H0 as u4 t4 H4. injection H4 as _ <-.
  run_inv H0 as u5 t5 H5. injection H5 as _ <-.
  run_inv H0 as u6 t6 H6. injection H6 as _ <-.
  run_inv H0 as session' t7 H7. injection H0 as <- ->.
  apply apply_event_Done in H7 as (stored' & Hs' & [(_ & _ & Ho)|(from & to_state & reset & Ho & -> & ->)]);
    apply release_event_outcome in Ho as (from' & Ho); [done|]. injection Ho as <- -> ->.
  match goal with H : FactoryState.sessions (insert_registry_record_with_parent_link ?r ?x) !! _ = _ |- _ =>
    destruct (insert_record_frame r x) as (Hsessions & Hruntimes & _);
    pose proof (registry_insert_record r x) as Hregistry; rewrite Hsessions in H; set (rec := r) in *;
    set (state := x) in *
  end.
  change (FactoryState.sessions state) with
    (<[session_id := stored
       <| SpawnSession.release_tx_hash := Some tx_hash |>
       <| SpawnSession.release_broadcast_at := Some release_at |>
       <| SpawnSession.release_broadcast := Some record |>
       <| SpawnSession.constitution := None |>]> (FactoryState.sessions (Canister.factory s))) in Hs'.
  rewrite lookup_insert_eq in Hs'. apply (inj Some) in Hs'.
  intros final. subst final. unfold moved_state. simpl_set.
  eexists _, rec. split; [apply lookup_insert_eq|]. subst stored'.
  split; [done|]. split; [done|]. split; [done|]. split; [done|].
  split; [exact Hregistry|]. split; [done|]. split; [done|]. split; [done|].
  split; [rewrite Hruntimes; unfold state; simpl_set; apply lookup_insert_eq|].
  split; [done|]. split; [apply lookup_delete_eq|]. by exists (constitution_hash constitution).
Qed.

Lemma fail_spawn_session_not_Done {A} session_id now reason cleanup runtime error s (a : A) t :
  fail_spawn_session session_id now reason cleanup runtime error s = Done a t -> False.
Proof.
  intros Hrun. unfold fail_spawn_session in Hrun. run_inv Hrun as u1 t1 H1.
  run_inv Hrun as u2 t2 H2. done.
Qed.

Lemma fail_now_not_Done {A} session_id reason cleanup runtime error s (a : A) t :
  fail_now session_id reason cleanup runtime error s = Done a t -> False.
Proof.
  intros Hrun. unfold fail_now in Hrun. run_inv Hrun as now t1 H1.
  by eapply fail_spawn_session_not_Done.
Qed.

Lemma or_fail_Done {A} session_id reason cleanup runtime (m : C A) s a t :
  or_fail session_id reason cleanup runtime m s = Done a t -> m s = Done a t.
Proof.
  intros Hrun. unfold or_fail in Hrun. run_inv Hrun as result t1 H1. apply catch_Done in H1.
  destruct result; [by injection Hrun as -> ->|]. by apply fail_now_not_Done in Hrun.
Qed.

Lemma handoff_Done canister_id s controllers t :
  complete_controller_handoff_live canister_id s = Done controllers t ->
  controllers = [canister_self]
  /\ exists principal s1, canister_principal canister_id = Ok principal
     /\ canister_status principal s1 = Done [canister_self] t.
Proof.
  intros Hrun. unfold complete_controller_handoff_live in Hrun.
  run_inv Hrun as principal t1 H1. apply lift_Done in H1 as [Hprincipal ->].
  run_inv Hrun as u2 t2 H2. run_inv Hrun as first t3 H3.
  run_inv Hrun as u4 t4 H4. run_inv Hrun as u5 t5 H5. run_inv Hrun as second t6 H6.
  apply lift_Done in Hrun as [Hrun ->]. unfold verify_factory_only_controller_ids in Hrun.
  apply err_if_seq_Ok in Hrun as [Hsame%bool_decide_eq_false%dec_stable [= <-]].
  unfold management_error in H6. apply map_fail_Done in H6. subst second.
  split; [done|]. by exists principal, t5.
Qed.

Lemma confirm_existing_Done session_id guard endpoints depth record tx_hash now_of runtime_of s
    record' t :
  ReleaseBroadcastRecord.rpc_tx_hash record = Some tx_hash ->
  confirm_existing_release session_id guard endpoints depth record tx_hash now_of runtime_of s
    = Done record' t ->
  confirmed_record endpoints depth record' tx_hash /\ same_transaction record' record.
Proof.
  intros Hhash Hrun. unfold confirm_existing_release in Hrun. run_inv Hrun as u1 t1 H1.
  run_inv Hrun as outcome t2 H2. apply catch_Done in H2.
  destruct outcome as [[record1 [|]]|[record1 error]].
  - injection Hrun as <- <-.
    apply confirm_release_receipt_depth_true in H2 as (observed & -> & Hchain).
    split; [by apply confirmed_with_receipt|done].
  - run_inv Hrun as u3 t3 H3. done.
  - run_inv Hrun as u3 t3 H3.
    destruct (classify_spawn_release_receipt_confirmation error); [done| |done].
    run_inv Hrun as runtime t4 H4. run_inv Hrun as now t5 H5.
    by apply fail_spawn_session_not_Done in Hrun.
Qed.

Lemma broadcast_release_Done session_id snapshot runtime guard endpoints escrow now config
    reproduction depth s release t :
  broadcast_release session_id snapshot runtime guard endpoints escrow now config reproduction
    depth s = Done release t ->
  receipt_ok endpoints depth release
  /\ release_sent (SpawnSession.claim_id snapshot) (AutomatonRuntimeState.evm_address runtime)
       escrow endpoints config reproduction (ReleaseBroadcastReceipt.record release)
       (ReleaseBroadcastReceipt.release_tx_hash release).
Proof.
  intros Hrun. unfold broadcast_release in Hrun. run_inv Hrun as nonce t1 H1.
  run_inv Hrun as u2 t2 H2. run_inv Hrun as result t3 H3. run_inv Hrun as u4 t4 H4.
  apply catch_Done in H3. destruct result as [release'|error].
  - injection Hrun as -> ->. apply broadcast_release_transaction_ok in H3 as [Hok Hsent].
    split; [exact Hok|]. by apply Hsent.
  - run_inv Hrun as u5 t5 H5. destruct (_ && _); [done|]. by apply fail_now_not_Done in Hrun.
Qed.

(** Finalising with the controllers that were verified completes the spawn. *)
Lemma completed_of_finalize configured session_id canister_id runtime tx_hash release_at record version now
    guard s runtime' receipt t :
  finalize_confirmed_release session_id canister_id runtime tx_hash release_at record version
    [canister_self] now guard s = Done runtime' t ->
  confirmed_record (endpoints_of configured) (FactoryState.evm_confirmation_depth configured)
    record tx_hash ->
  SpawnExecutionReceipt.automaton_canister_id receipt = canister_id ->
  SpawnExecutionReceipt.automaton_evm_address receipt = AutomatonRuntimeState.evm_address runtime' ->
  SpawnExecutionReceipt.release_tx_hash receipt = Some tx_hash ->
  spawn_completed configured session_id runtime' record tx_hash receipt t
  /\ exists hash, runtime' = redacted_runtime hash
       (runtime <| AutomatonRuntimeState.provider_keys_cleared := true |>).
Proof.
  intros Hrun Hrecord <- Haddress Hhash.
  apply finalize_Done in Hrun as (session & registered & H1 & H2 & H3 & H4 & H5 & H6 & H7 & H8
    & H9 & H10 & H11 & H12 & Hruntime). split; [|exact Hruntime].
  exists session, registered. rewrite Haddress. done.
Qed.

(** What a release takes from the configuration. *)
Definition release_settings (state : FactoryState.t) :=
  (endpoints_of state, FactoryState.evm_confirmation_depth state,
   FactoryState.escrow_contract_address state, FactoryState.release_broadcast_config state).

Lemma persist_settings session_id runtime state u state' :
  persist_failed_spawn_runtime session_id runtime state = Done u state' ->
  release_settings state' = release_settings state.
Proof.
  unfold persist_failed_spawn_runtime, modify. intros Hrun.
  done_inv. unfold put_runtime. reflexivity.
Qed.

Lemma spawn_completed_settings c1 c2 session_id runtime record tx_hash receipt canister :
  release_settings c1 = release_settings c2 ->
  spawn_completed c1 session_id runtime record tx_hash receipt canister ->
  spawn_completed c2 session_id runtime record tx_hash receipt canister.
Proof. unfold release_settings, spawn_completed. intros [= -> -> _ _]. done. Qed.

Lemma release_of_settings c1 c2 session recipient record tx_hash :
  release_settings c1 = release_settings c2 ->
  release_of c1 session recipient record tx_hash ->
  release_of c2 session recipient record tx_hash.
Proof. unfold release_settings, release_of. intros [= -> _ -> ->]. done. Qed.

(** The release of a session is confirmed, and is the one it should be. *)
Definition release_ok (configured : FactoryState.t) (session : SpawnSession.t)
    (recipient : string) (release : ReleaseBroadcastReceipt.t) : Prop :=
  receipt_ok (endpoints_of configured) (FactoryState.evm_confirmation_depth configured) release
  /\ release_of configured session recipient (ReleaseBroadcastReceipt.record release)
       (ReleaseBroadcastReceipt.release_tx_hash release).

Lemma release_and_complete_Done session_id canister_id snapshot runtime now version s receipt t :
  release_and_complete session_id canister_id snapshot runtime [canister_self] now version s
    = Done receipt t ->
  SpawnExecutionReceipt.automaton_canister_id receipt = canister_id
  /\ exists hash record tx_hash,
    let runtime' := redacted_runtime hash
      (runtime <| AutomatonRuntimeState.provider_keys_cleared := true |>) in
    spawn_completed (Canister.factory s) session_id runtime' record tx_hash receipt t
    /\ release_of (Canister.factory s) snapshot (AutomatonRuntimeState.evm_address runtime')
         record tx_hash.
Proof.
  intros Hrun. unfold release_and_complete in Hrun. run_inv Hrun as state t1 H1.
  injection H1 as <- <-. run_inv Hrun as u2 t2 H2. run_inv Hrun as reproduction t3 H3.
  apply lift_Done in H3 as [Hreproduction ->].
  run_inv Hrun as release t4 H4.
  assert (Hok : release_ok (Canister.factory s) snapshot
    (AutomatonRuntimeState.evm_address runtime) release).
  { unfold release_ok, release_of, stored_release.
    destruct (SpawnSession.release_broadcast snapshot) as [record|];
      [cbn; destruct (ReleaseBroadcastRecord.rpc_tx_hash record) as [tx_hash|] eqn:Htx; cbn|cbn].
    2,3: apply broadcast_release_Done in H4 as [Hok Hsent]; split; [exact Hok|];
      by exists reproduction.
    run_inv H4 as record' t5 H5. injection H4 as <- <-.
    apply confirm_existing_Done in H5 as [Hrecord Hsame]; [|done]. by split; [intros _|]. }
  destruct Hok as [Hok Hof].
  run_inv Hrun as u5 t5 H5. run_inv Hrun as u6 t6 H6. apply fail_if_Done in H6 as [Hconfirmed ->].
  apply negb_false_iff in Hconfirmed.
  run_inv Hrun as runtime' t7 H7. run_inv Hrun as controller t8 H8.
  injection H8 as <- <-. injection Hrun as <- <-. split; [done|].
  lazymatch goal with |- exists hash record tx_hash, let _ := _ in
      spawn_completed _ _ _ _ _ ?receipt _ /\ _ =>
    destruct (completed_of_finalize _ _ _ _ _ _ _ _ _ _ _ _ receipt _ H7 (Hok Hconfirmed)
      eq_refl eq_refl eq_refl) as [Hdone [hash ->]] end.
  by exists hash, (ReleaseBroadcastReceipt.record release),
    (ReleaseBroadcastReceipt.release_tx_hash release).
Qed.

Lemma resume_broadcasting_Done session s receipt t :
  resume_broadcasting_release session s = Done receipt t ->
  exists runtime stored record tx_hash,
    spawn_completed (Canister.factory s) (SpawnSession.session_id session) runtime record tx_hash
      receipt t
    /\ stored_release session = Some (stored, tx_hash)
    /\ same_transaction record stored.
Proof.
  intros Hrun. unfold resume_broadcasting_release in Hrun.
  run_inv Hrun as record t1 H1. apply lift_Done in H1 as [Hstored%ok_or_Ok ->].
  run_inv Hrun as tx_hash t2 H2.
  apply lift_Done in H2 as [Htx%ok_or_Ok ->].
  run_inv Hrun as u3 t3 H3. apply read_state_Done in H3 as [_ ->].
  run_inv Hrun as state t4 H4. injection H4 as <- <-. run_inv Hrun as now t5 H5.
  injection H5 as _ <-.
  run_inv Hrun as record' t6 H6. apply confirm_existing_Done in H6 as [Hrecord Hsame]; [|done].
  run_inv Hrun as canister_id t7 H7. run_inv Hrun as known t8 H8. run_inv Hrun as runtime t9 H9.
  run_inv Hrun as u10 t10 H10. run_inv Hrun as controllers t11 H11.
  apply handoff_Done in H11 as [-> _]. run_inv Hrun as u12 t12 H12.
  run_inv Hrun as version t13 H13. run_inv Hrun as runtime' t14 H14. injection Hrun as <- <-.
  exists runtime', record, record', tx_hash.
  split; [by eapply (completed_of_finalize _ _ _ _ _ _ _ _ _ _ _ _ _ _ H14)|].
  split; [|done]. unfold stored_release. rewrite Hstored. cbn. by rewrite Htx.
Qed.

(** The child's report agrees with the session in every field. *)
Definition bootstrap_matches (session : SpawnSession.t) (chain_id : N)
    (version_commit evm_address : string) (evidence : AutomatonBootstrapEvidence.t) : Prop :=
  let config := SpawnSession.config session in
  AutomatonBootstrapEvidence.bootstrap_contract_version evidence = Some SPAWN_CONTRACT_VERSION
  /\ AutomatonBootstrapEvidence.bootstrap_name evidence = Some (resolved_genesis session).1
  /\ AutomatonBootstrapEvidence.bootstrap_constitution evidence
     = Some (resolved_genesis session).2
  /\ AutomatonBootstrapEvidence.bootstrap_session_id evidence
     = Some (SpawnSession.session_id session)
  /\ AutomatonBootstrapEvidence.bootstrap_parent_id evidence = SpawnSession.parent_id session
  /\ AutomatonBootstrapEvidence.bootstrap_factory_principal evidence = Some canister_self
  /\ AutomatonBootstrapEvidence.bootstrap_risk evidence = Some (SpawnConfig.risk config)
  /\ AutomatonBootstrapEvidence.bootstrap_strategies evidence
     = normalize_bootstrap_list (SpawnConfig.strategies config)
  /\ AutomatonBootstrapEvidence.bootstrap_skills evidence
     = normalize_bootstrap_list (SpawnConfig.skills config)
  /\ AutomatonBootstrapEvidence.bootstrap_version_commit evidence = Some version_commit
  /\ same_evm_address (SpawnSession.steward_address session)
       (AutomatonBootstrapEvidence.steward_address evidence) = true
  /\ AutomatonBootstrapEvidence.steward_chain_id evidence = Some chain_id
  /\ AutomatonBootstrapEvidence.steward_enabled evidence = Some true
  /\ same_evm_address evm_address (AutomatonBootstrapEvidence.evm_address evidence) = true.

Lemma mismatch_nil matches message : mismatch matches message = [] <-> matches = true.
Proof. by destruct matches. Qed.

Lemma bootstrap_failures_nil session chain_id version_commit evm_address evidence :
  bootstrap_failures session canister_self chain_id version_commit evm_address evidence = []
  <-> bootstrap_matches session chain_id version_commit evm_address evidence.
Proof.
  unfold bootstrap_failures, bootstrap_matches. destruct (resolved_genesis session) as [name text].
  cbv zeta. rewrite !app_nil, !mismatch_nil, !bool_decide_eq_true. done.
Qed.

Lemma verify_and_hand_over_Done session_id canister_id snapshot runtime started version child s
    runtime' controllers now t :
  verify_and_hand_over session_id canister_id snapshot runtime started version child s
    = Done (runtime', controllers, now) t ->
  controllers = [canister_self]
  /\ is_Some (AutomatonRuntimeState.install_succeeded_at runtime')
  /\ is_Some (AutomatonRuntimeState.controller_handoff_completed_at runtime')
  /\ (exists s1 s2, complete_controller_handoff_live canister_id s1 = Done [canister_self] s2
       /\ release_settings (Canister.factory t) = release_settings (Canister.factory s2))
  /\ exists chain_id evidence s1 s2,
    load_spawned_automaton_bootstrap_evidence canister_id s1 = Done evidence s2
    /\ bootstrap_matches snapshot chain_id version (AutomatonRuntimeState.evm_address runtime')
         evidence.
Proof.
  intros Hrun. unfold verify_and_hand_over in Hrun.
  run_inv Hrun as address t1 H1. run_inv Hrun as chain_id t2 H2.
  run_inv Hrun as evidence t3 H3. apply or_fail_Done in H3. run_inv Hrun as at_ t4 H4.
  run_inv Hrun as u5 t5 H5. run_inv Hrun as u6 t6 H6.
  assert (Hpassed : AutomatonBootstrapVerification.passed (build_bootstrap_verification snapshot
    canister_self chain_id version address evidence at_) = true).
  { destruct (AutomatonBootstrapVerification.passed _); [done|].
    by apply fail_spawn_session_not_Done in H6. }
  run_inv Hrun as u7 t7 H7. run_inv Hrun as verified t8 H8. apply or_fail_Done in H8.
  pose proof H8 as Hhandoff. apply handoff_Done in H8 as [-> _].
  run_inv Hrun as now' t9 H9. injection H9 as <- <-. run_inv Hrun as u10 t10 H10.
  injection H10 as _ <-. run_inv Hrun as u11 t11 H11. apply write_state_Done in H11
    as (state' & Hpersist%persist_settings & ->). injection Hrun as <- <- <- <-.
  split; [done|]. split; [by eexists|]. split; [by eexists|]. split; [by exists t7, t8|].
  exists chain_id, evidence, t2, t3. split; [done|]. apply bool_decide_eq_true in Hpassed.
  apply bootstrap_failures_nil in Hpassed. exact Hpassed.
Qed.

(** C1 - a spawn is only ever reported as complete when it is.  Whatever runs
    between its calls, when [execute_spawn] returns, the session was paid, and
    either it was complete before and nothing was written, or it is complete
    now: the registry holds the child with the factory as its only controller,
    the constitution and the provider secrets are gone, and the session keeps
    the record of a release that the chain confirmed, with a successful receipt
    in a canonical block at least as deep as configured.  A session found in
    [BroadcastingRelease] is completed by the very transaction it had on record.
    A session that started from [PaymentDetected] got to the release only after
    the child's own report agreed with the session in every field and after the
    handoff; its release is the transaction on record if there is one, and
    otherwise a transaction signed and sent under the configuration in force
    after the handoff, which pays the deposit of the session's claim to the EVM
    address of the child that is registered. *)
Theorem execute_spawn_completes session_id started_at_ms canister receipt canister'
    (Hrun : execute_spawn session_id started_at_ms canister = Done receipt canister') :
  let canister_id := SpawnExecutionReceipt.automaton_canister_id receipt in
  exists session, FactoryState.sessions (Canister.factory canister) !! session_id = Some session
    /\ SpawnSession.payment_status session = PaymentStatus.Paid
    /\ ((SpawnSession.state session = SpawnSessionState.Complete
         /\ canister' = canister
         /\ SpawnSession.automaton_canister_id session = Some canister_id)
        \/ (SpawnSession.state session = SpawnSessionState.BroadcastingRelease
            /\ exists runtime stored record tx_hash,
                 spawn_completed (Canister.factory canister) (SpawnSession.session_id session)
                   runtime record tx_hash receipt canister'
                 /\ stored_release session = Some (stored, tx_hash)
                 /\ same_transaction record stored)
        \/ (SpawnSession.state session = SpawnSessionState.PaymentDetected
            /\ exists handoff handed_over runtime record tx_hash,
                 complete_controller_handoff_live canister_id handoff
                   = Done [canister_self] handed_over
                 /\ spawn_completed (Canister.factory handed_over) session_id runtime record
                      tx_hash receipt canister'
                 /\ release_of (Canister.factory handed_over) session
                      (SpawnExecutionReceipt.automaton_evm_address receipt) record tx_hash
                 /\ is_Some (AutomatonRuntimeState.install_succeeded_at runtime)
                 /\ is_Some (AutomatonRuntimeState.controller_handoff_completed_at runtime)
                 /\ exists chain_id version_commit evidence s1 s2,
                      load_spawned_automaton_bootstrap_evidence canister_id s1 = Done evidence s2
                      /\ bootstrap_matches session chain_id version_commit
                           (AutomatonRuntimeState.evm_address runtime) evidence)).
Proof.
  cbv zeta. unfold execute_spawn in Hrun. run_inv Hrun as session t1 H1.
  apply read_state_Done in H1 as [Hs%ok_or_Ok ->]. exists session. split; [done|].
  run_inv Hrun as u2 t2 H2.
  apply fail_if_Done in H2 as [Hpaid%bool_decide_eq_false%dec_stable ->]. split; [done|].
  destruct (SpawnSession.state session); try done.
  - right. right. split; [done|]. unfold start_spawn in Hrun.
    run_inv Hrun as state t3 H3. run_inv Hrun as wasm t4 H4. run_inv Hrun as u5 t5 H5.
    run_inv Hrun as child t6 H6. run_inv Hrun as u7 t7 H7. run_inv Hrun as installed t8 H8.
    destruct installed as [installed_id runtime]. run_inv Hrun as canister_id t9 H9.
    run_inv Hrun as verified t10 H10. destruct verified as [[runtime' controllers] now].
    apply verify_and_hand_over_Done in H10
      as (-> & Hinstalled & Htaken & (h0 & h1 & Hhandoff & Hsettings) & chain_id & evidence
        & s1 & s2 & Hload & Hmatch).
    apply release_and_complete_Done in Hrun as (Hid & hash & record & tx_hash & Hdone & Hof).
    exists h0, h1. eexists _, record, tx_hash. rewrite Hid. split; [exact Hhandoff|].
    split; [by eapply spawn_completed_settings|]. split.
    { replace (SpawnExecutionReceipt.automaton_evm_address receipt) with
        (AutomatonRuntimeState.evm_address runtime'); [by eapply release_of_settings|].
      by destruct Hdone as (? & ? & _ & _ & _ & _ & _ & _ & _ & _ & _ & _ & _ & _ & _ & -> & _). }
    split; [done|]. split; [done|]. by eexists chain_id, _, evidence, s1, s2.
  - right. left. split; [done|]. by apply resume_broadcasting_Done in Hrun.
  - left. split; [done|]. unfold completed_receipt in Hrun.
    run_inv Hrun as canister_id t3 H3. run_inv Hrun as address t4 H4. injection Hrun as <- <-.
    unfold expect in H3, H4.
    destruct (SpawnSession.automaton_canister_id session); [|done].
    destruct (SpawnSession.automaton_evm_address session); [|done].
    injection H3 as <- <-. injection H4 as _ <-. done.
Qed.
End SpawnProof.

(** ** No release before the handoff *)

(** The platform without the call that sends a transaction. *)
Definition sealed_rpc (rpc : ReleaseRpc) : ReleaseRpc := {|
  release_rpc := @release_rpc rpc;
  eth_send_raw_transaction := fun _ _ => trap;
  eth_get_transaction_receipt_status := @eth_get_transaction_receipt_status rpc;
  eth_get_transaction_count := @eth_get_transaction_count rpc;
  ecdsa_public_key := @ecdsa_public_key rpc;
  sign_with_ecdsa := @sign_with_ecdsa rpc;
  cost_sign_with_ecdsa := @cost_sign_with_ecdsa rpc;
  current_canister_balance := @current_canister_balance rpc;
  api_time := @api_time rpc;
  verifying_key_from_sec1_bytes := @verifying_key_from_sec1_bytes rpc;
|}.

Definition sealed (platform : SpawnPlatform) : SpawnPlatform := {|
  platform_rpc := sealed_rpc (@platform_rpc platform);
  canister_self := @canister_self platform;
  cost_create_canister := @cost_create_canister platform;
  create_canister_with_extra_cycles := @create_canister_with_extra_cycles platform;
  delete_canister := @delete_canister platform;
  clear_chunk_store := @clear_chunk_store platform;
  upload_chunk := @upload_chunk platform;
  install_chunked_code := @install_chunked_code platform;
  update_settings := @update_settings platform;
  canister_status := @canister_status platform;
  child_ecdsa_public_key := @child_ecdsa_public_key platform;
  get_spawn_bootstrap_view := @get_spawn_bootstrap_view platform;
  get_steward_status := @get_steward_status platform;
  get_automaton_evm_address := @get_automaton_evm_address platform;
  call_derive_automaton_evm_address := @call_derive_automaton_evm_address platform;
  register_strategy_admin := @register_strategy_admin platform;
  list_strategy_templates := @list_strategy_templates platform;
|}.

Section Sealed.
Context `{ext : Externals, json : Json}.

Lemma verify_needs_handoff (platform : SpawnPlatform) session_id canister_id snapshot runtime
    started version child s a t :
  (forall canister_id s controllers t,
    complete_controller_handoff_live canister_id s <> Done controllers t) ->
  verify_and_hand_over session_id canister_id snapshot runtime started version child s = Done a t ->
  False.
Proof.
  intros Hnever Hrun. unfold verify_and_hand_over in Hrun.
  run_inv Hrun as address t1 H1. run_inv Hrun as chain_id t2 H2. run_inv Hrun as evidence t3 H3.
  run_inv Hrun as checked_at t4 H4. run_inv Hrun as u5 t5 H5. run_inv Hrun as u6 t6 H6.
  run_inv Hrun as u7 t7 H7. run_inv Hrun as verified t8 H8. apply or_fail_Done in H8.
  by apply Hnever in H8.
Qed.

(** C3 - no transaction is sent before the factory controls the child.  On a
    platform where the controller handoff never succeeds, [execute_spawn]
    behaves as on the same platform with the sending call removed: it never
    sends a release. *)
Theorem release_needs_handoff (platform : SpawnPlatform) session_id started_at_ms canister
    (Hnever : forall canister_id s controllers t,
      complete_controller_handoff_live canister_id s <> Done controllers t) :
  @execute_spawn ext json platform session_id started_at_ms canister
  = @execute_spawn ext json (sealed platform) session_id started_at_ms canister.
Proof.
  unfold execute_spawn. apply bind_ext. intros session s1 _. apply bind_ext. intros u s2 _.
  destruct (SpawnSession.state session); try reflexivity.
  unfold start_spawn.
  apply bind_ext. intros state s3 _. apply bind_ext. intros wasm s4 _.
  apply bind_ext. intros u5 s5 _. apply bind_ext. intros child s6 _.
  apply bind_ext. intros u7 s7 _. apply bind_ext. intros [id runtime] s8 _.
  apply bind_ext. intros canister_id s9 _. apply bind_ext. intros verified s10 Hverified.
  by apply verify_needs_handoff in Hverified.
Qed.

(** ** A handoff that fails *)


(** The canister does not exist: nobody can ask for its status. *)
Definition gone (platform : SpawnPlatform) (canister_id : string) : Prop :=
  forall principal s controllers t,
    canister_principal canister_id = Ok principal ->
    @canister_status platform principal s <> Done controllers t.







End Sealed.

(** *** Samples *)

Module SpawnSamples.
Definition toy_json : Json := {|
  Value := unit;
  from_str := fun _ => Err "no recipe";
  as_object := fun _ => None;
  as_str := fun _ => None;
  as_u64 := fun _ => None;
  from_object := fun _ => tt;
  from_u64 := fun _ => tt;
  to_json_string := fun _ => Err "no recipe";
|}.

(** A signer whose key is the one that [toy_externals] recovers. *)
Definition rpc : ReleaseRpc := {|
  release_rpc := @release_rpc sample_release_rpc;
  eth_send_raw_transaction := fun _ _ => mret "0xt";
  eth_get_transaction_receipt_status := @eth_get_transaction_receipt_status sample_release_rpc;
  eth_get_transaction_count := @eth_get_transaction_count sample_release_rpc;
  ecdsa_public_key := fun _ => mret (x04 :: replicate 64 x11);
  sign_with_ecdsa := @sign_with_ecdsa sample_release_rpc;
  cost_sign_with_ecdsa := @cost_sign_with_ecdsa sample_release_rpc;
  current_canister_balance := @current_canister_balance sample_release_rpc;
  api_time := @api_time sample_release_rpc;
  verifying_key_from_sec1_bytes := fun bytes => Ok bytes;
|}.

Definition chain_id : N := ReleaseBroadcastConfig.chain_id ReleaseBroadcastConfig.default.
Definition address : string := hex_encode_prefixed (replicate 20 x22).

Definition session : SpawnSession.t :=
  Samples.session SpawnSessionState.PaymentDetected PaymentStatus.Paid
    <| SpawnSession.claim_id := EvmSamples.claim_id |>.

(** The platform keeps its world in fields of the state that spawning does not
    use: the controllers of the child in [admin_principals], and in [pause]
    whether the child was deleted, in which case calls to it are rejected.
    [handoff] tells whether settings can be updated. *)
Definition deleted (canister : Canister.t) : bool :=
  FactoryState.pause (Canister.factory canister).

Definition set_deleted (gone : bool) : M Canister.t string unit :=
  modify (fun canister => canister <| Canister.factory ::= fun state =>
    state <| FactoryState.pause := gone |> |>).

Definition child_call {A} (m : M Canister.t string A) : M Canister.t string A :=
  fun canister => if deleted canister then Fail "canister not found" canister else m canister.

Definition platform (handoff : bool) : SpawnPlatform := {|
  platform_rpc := rpc;
  canister_self := "factory";
  cost_create_canister := 10%N;
  create_canister_with_extra_cycles := fun _ => set_deleted false;; mret "child";
  delete_canister := fun _ => set_deleted true;
  clear_chunk_store := fun _ => mret tt;
  upload_chunk := fun _ chunk => child_call (mret chunk);
  install_chunked_code := fun _ _ _ _ => child_call (mret tt);
  update_settings := fun _ controllers =>
    if handoff then child_call (modify (fun canister => canister <| Canister.factory ::=
      fun state => state <| FactoryState.admin_principals := list_to_set controllers |> |>))
    else mthrow "rejected";
  canister_status := fun _ => child_call (gets (fun canister =>
    elements (FactoryState.admin_principals (Canister.factory canister))));
  child_ecdsa_public_key := fun _ _ => mret (x04 :: replicate 64 x22);
  get_spawn_bootstrap_view := fun _ => child_call (mret {|
    ChildSpawnBootstrapView.contract_version := Some SPAWN_CONTRACT_VERSION;
    ChildSpawnBootstrapView.name := Some (resolved_genesis session).1;
    ChildSpawnBootstrapView.constitution := Some (resolved_genesis session).2;
    ChildSpawnBootstrapView.session_id := Some "s";
    ChildSpawnBootstrapView.parent_id := None;
    ChildSpawnBootstrapView.factory_principal := Some "factory";
    ChildSpawnBootstrapView.risk := Some 1%N;
    ChildSpawnBootstrapView.strategies := [];
    ChildSpawnBootstrapView.skills := [];
    ChildSpawnBootstrapView.version_commit := Some "dev-build" |});
  get_steward_status := fun _ => child_call (mret (ChildStewardStatusView.mk
    (Some (ChildStewardState.mk chain_id "0xS" true))));
  get_automaton_evm_address := fun _ => child_call (mret (Some address));
  call_derive_automaton_evm_address := fun _ => child_call (mret (Ok address));
  register_strategy_admin := fun _ _ => mthrow "none";
  list_strategy_templates := fun _ _ => mret [];
|}.

Definition canister : Canister.t :=
  Canister.mk (Samples.state_with_claim session (Samples.claim "75" PaymentStatus.Paid)
    <| FactoryState.wasm_bytes := Some [x00] |>
    <| FactoryState.base_rpc_endpoint := Some "https://rpc" |>
    <| FactoryState.child_runtime := AutomatonChildRuntimeConfig.default
         <| AutomatonChildRuntimeConfig.ecdsa_key_name := Some "key" |>
         <| AutomatonChildRuntimeConfig.evm_chain_id := Some chain_id |>
         <| AutomatonChildRuntimeConfig.evm_rpc_url := Some "https://rpc" |> |>)
    {["s" := SpawnProviderSecrets.mk None None]}.

Definition run (handoff : bool) : C SpawnExecutionReceipt.t :=
  @execute_spawn toy_externals toy_json (platform handoff) "s" 5.

(** An installed child before the handoff. *)
Definition installed_session : SpawnSession.t :=
  session <| SpawnSession.state := SpawnSessionState.BroadcastingRelease |>
          <| SpawnSession.automaton_canister_id := Some "child" |>.

Definition installed_runtime : AutomatonRuntimeState.t :=
  initialize_automaton session "child" address 1
    <| AutomatonRuntimeState.install_succeeded_at := Some 3%N |>.

Definition installed : Canister.t :=
  Canister.mk (Samples.state_with_claim installed_session (Samples.claim "75" PaymentStatus.Paid)
    <| FactoryState.runtimes := {["child" := installed_runtime]} |>) ∅.


(** A run whose handoff is rejected, a retry, and a run on a platform that
    rejects nothing. *)
Definition retried : C SpawnExecutionReceipt.t :=
  (catch (run false) : C (result FactoryError.t SpawnExecutionReceipt.t));;
  write_state (retry_spawn_session_in_state "s" SessionAuditActor.User 9 "again");;
  run true.
End SpawnSamples.

Lemma execute_spawn_completes_witness :
  match SpawnSamples.run true SpawnSamples.canister with
  | Done receipt canister' => exists session handed_over runtime record tx_hash,
      @spawn_completed (SpawnSamples.platform true) handed_over "s" runtime record tx_hash
        receipt canister'
      /\ @release_of toy_externals (SpawnSamples.platform true) handed_over session
           (SpawnExecutionReceipt.automaton_evm_address receipt) record tx_hash
  | _ => False
  end.
Proof.
  destruct (SpawnSamples.run true SpawnSamples.canister) as [receipt canister'| |] eqn:Hrun;
    [|vm_compute in Hrun; discriminate Hrun..].
  destruct (@execute_spawn_completes toy_externals SpawnSamples.toy_json
    (SpawnSamples.platform true) "s" 5 SpawnSamples.canister receipt canister' Hrun)
    as (session & Hs & _ & Hcases).
  assert (Hstart : SpawnSession.state <$>
      FactoryState.sessions (Canister.factory SpawnSamples.canister) !! "s"
    = Some SpawnSessionState.PaymentDetected) by (vm_compute; reflexivity).
  rewrite Hs in Hstart. apply (inj Some) in Hstart. rewrite Hstart in Hcases.
  destruct Hcases as [(Hstate & _)|[(Hstate & _)|(_ & handoff & handed_over & runtime & record
    & tx_hash & _ & Hdone & Hof & _)]]; [discriminate Hstate..|].
  exists session, (Canister.factory handed_over), runtime, record, tx_hash.
  exact (conj Hdone Hof).
Defined.

(** The whole course of events on the sample platform: a spawn whose handoff is
    rejected, a retry, and a run in which every call but those to the deleted
    canister succeeds. *)
Example handoff_failure_retried :
  match SpawnSamples.retried SpawnSamples.canister with
  | Fail _ canister' =>
      let state := Canister.factory canister' in
      SpawnSession.state <$> FactoryState.sessions state !! "s" = Some SpawnSessionState.Failed
      /\ SpawnSamples.deleted canister' = true
      /\ AutomatonRuntimeState.install_succeeded_at <$> FactoryState.runtimes state !! "child"
         = Some (Some 0%N)
  | _ => False
  end.
Proof. by vm_compute. Qed.


Lemma release_needs_handoff_witness :
  SpawnSamples.run false SpawnSamples.canister
  = @execute_spawn toy_externals SpawnSamples.toy_json (sealed (SpawnSamples.platform false)) "s" 5
      SpawnSamples.canister.
Proof.
  refine (@release_needs_handoff toy_externals SpawnSamples.toy_json
    (SpawnSamples.platform false) "s" 5 SpawnSamples.canister _).
  intros canister_id s controllers t Hrun. unfold complete_controller_handoff_live in Hrun.
  run_inv Hrun as principal t1 H1. run_inv Hrun as u t2 H2. discriminate H2.
Defined.

Lemma install_wasm_chunked_correct_witness :
  exists parts : list (list byte), concat parts = [x00; x01].
Proof.
  destruct (@install_wasm_chunked_correct toy_externals (SpawnSamples.platform true) "child"
    [x00; x01] (build_automaton_install_args SpawnSamples.session None "f" "v"
      (ValidatedAutomatonChildRuntimeConfig.mk "k" None 1 "u" None None None None None None None
        None None)) SpawnSamples.canister tt SpawnSamples.canister eq_refl)
    as (parts & _ & _ & _ & Hconcat & _).
  exists parts. exact Hconcat.
Defined.
