(* ===== verification/Sessions.v ===== *)
(** * Sessions: quoting a spawn, and the registry of the living and the dead

    Models the session and registry part of [backend/factory/src/api/public.rs]:
    [create_spawn_session_with_session_id] with the strategies it snapshots,
    the status query, the pages of the registry and the death reports. *)

From S2P Require Import Prelude Text SpawnProtocol Types Externals State Init Samples Transitions Scheduler Evidence Escrow.
From Stdlib Require Import Ascii Strings.Byte.

(** ** Session ids *)

(** [uuid_v4_from_entropy]: sixteen bytes, short entropy padded with zeros,
    with the version and variant bits set. *)
Definition uuid_bytes (entropy : list byte) : list N :=
  let bytes := take 16 (Byte.to_N <$> entropy) ++ replicate (16 - length entropy) 0%N in
  alter (fun b => N.lor (N.land b 63) 128) 8 (alter (fun b => N.lor (N.land b 15) 64) 6 bytes).

Definition hex_group (bytes : list N) : string := concat_str (hex_fixed 2 <$> bytes).

Definition uuid_v4_from_entropy (entropy : list byte) : string :=
  let bytes := uuid_bytes entropy in
  join "-" (hex_group <$> [take 4 bytes; take 2 (drop 4 bytes); take 2 (drop 6 bytes);
                           take 2 (drop 8 bytes); drop 10 bytes]).

(** ** The strategies a session selects *)

Definition strategy_status_error (strategy_id : string) (status : RepositoryStrategyStatus.t)
    : option FactoryError.t :=
  match status with
  | RepositoryStrategyStatus.Active => None
  | RepositoryStrategyStatus.Deprecated =>
      Some (FactoryError.RepositoryStrategyDeprecated strategy_id)
  | RepositoryStrategyStatus.Revoked => Some (FactoryError.RepositoryStrategyRevoked strategy_id)
  end.

Definition strategy_resolved_chain_id (state : FactoryState.t) (record : RepositoryStrategyRecord.t)
    : N :=
  default (RepositoryStrategyMetadata.canonical_chain_id (RepositoryStrategyRecord.metadata record))
    (AutomatonChildRuntimeConfig.evm_chain_id (FactoryState.child_runtime state)).

Definition strategy_snapshot (state : FactoryState.t) (requested : SpawnChain.t) (now_ms : N)
    (record : RepositoryStrategyRecord.t) : RepositoryStrategySessionSnapshot.t :=
  let metadata := RepositoryStrategyRecord.metadata record in {|
    RepositoryStrategySessionSnapshot.strategy_id := RepositoryStrategyMetadata.strategy_id metadata;
    RepositoryStrategySessionSnapshot.source_status := RepositoryStrategyRecord.status record;
    RepositoryStrategySessionSnapshot.name := RepositoryStrategyMetadata.name metadata;
    RepositoryStrategySessionSnapshot.description := RepositoryStrategyMetadata.description metadata;
    RepositoryStrategySessionSnapshot.canonical_chain :=
      RepositoryStrategyMetadata.canonical_chain metadata;
    RepositoryStrategySessionSnapshot.canonical_chain_id :=
      RepositoryStrategyMetadata.canonical_chain_id metadata;
    RepositoryStrategySessionSnapshot.requested_spawn_chain := requested;
    RepositoryStrategySessionSnapshot.resolved_chain_id :=
      Some (strategy_resolved_chain_id state record);
    RepositoryStrategySessionSnapshot.protocol := RepositoryStrategyMetadata.protocol metadata;
    RepositoryStrategySessionSnapshot.primitive := RepositoryStrategyMetadata.primitive metadata;
    RepositoryStrategySessionSnapshot.recipe_json := RepositoryStrategyRecord.recipe_json record;
    RepositoryStrategySessionSnapshot.source := RepositoryStrategyMetadata.source metadata;
    RepositoryStrategySessionSnapshot.selected_at := now_ms;
  |}.

(** The loop body of [snapshot_selected_repository_strategies]. *)
Definition snapshot_strategy (state : FactoryState.t) (requested : SpawnChain.t) (now_ms : N)
    (strategy_id : string) : result FactoryError.t RepositoryStrategySessionSnapshot.t :=
  record ← ok_or (FactoryState.repository_strategies state !! strategy_id)
    (FactoryError.RepositoryStrategyNotFound strategy_id);
  match strategy_status_error strategy_id (RepositoryStrategyRecord.status record) with
  | Some error => Err error
  | None =>
      err_if (negb (existsb (fun chain => bool_decide (chain = requested))
          (RepositoryStrategyMetadata.compatible_spawn_chains
            (RepositoryStrategyRecord.metadata record))))
        (FactoryError.RepositoryStrategyIncompatibleChain strategy_id requested);;
      Ok (strategy_snapshot state requested now_ms record)
  end.

Definition snapshot_selected_repository_strategies (state : FactoryState.t)
    (request : CreateSpawnSessionRequest.t) (now_ms : N)
    : result FactoryError.t (list RepositoryStrategySessionSnapshot.t) :=
  let config := CreateSpawnSessionRequest.config request in
  try_map (snapshot_strategy state (SpawnConfig.chain config) now_ms)
    (SpawnConfig.strategies config).

(** ** Creating a session *)

(** [format!("{error:?}")] of a genesis error. *)
Definition genesis_debug (error : GenesisValidationError.t) : string :=
  match error with
  | GenesisValidationError.NameLength chars => "NameLength { chars: " +:+ pretty chars +:+ " }"
  | GenesisValidationError.ConstitutionLength chars =>
      "ConstitutionLength { chars: " +:+ pretty chars +:+ " }"
  | GenesisValidationError.ControllerGrant => "ControllerGrant"
  end.

Definition check_origin (origin : SpawnSessionOrigin.t) (parent_id : option string)
    : result FactoryError.t unit :=
  match origin with
  | SpawnSessionOrigin.Human =>
      err_if (is_some parent_id)
        (FactoryError.InvalidReproduction "human spawn sessions cannot claim parentage")
  | SpawnSessionOrigin.ReproductionOf parent =>
      err_if (bool_decide (parent_id <> Some parent))
        (FactoryError.InvalidReproduction "reproduction origin and parent_id disagree")
  end.

Definition check_genesis (request : CreateSpawnSessionRequest.t)
    : result FactoryError.t CreateSpawnSessionRequest.t :=
  raw_name ← ok_or (CreateSpawnSessionRequest.name request)
    (FactoryError.InvalidChildRuntimeConfig "genesis.name"
      "name is required for new genesis sessions");
  raw_constitution ← ok_or (CreateSpawnSessionRequest.constitution request)
    (FactoryError.InvalidChildRuntimeConfig "genesis.constitution"
      "constitution is required for new genesis sessions");
  '(name, constitution) ← map_err
    (fun error => FactoryError.InvalidChildRuntimeConfig "genesis" (genesis_debug error))
    (validate_genesis raw_name raw_constitution);
  Ok (request
    <| CreateSpawnSessionRequest.name := Some name |>
    <| CreateSpawnSessionRequest.constitution := Some constitution |>).

(** What the request leaves open: who descends from whom. *)
Module Lineage.
Record t := mk {
  origin : SpawnSessionOrigin.t;
  generation : N;
  parent_constitution_hash : option string;
  memory_dowry : list MemoryDowryFact.t;
  inherited_strategy_stats : list InheritedStrategyStat.t;
  royalty_allocations : list RoyaltyAllocation.t;
}.
Definition human : t := mk SpawnSessionOrigin.Human 0 None [] [] [].
End Lineage.

(** The amounts of a quote, as numbers. *)
Module Amounts.
Record t := mk { gross : N; platform_fee : N; creation_cost : N }.
#[global] Instance eq_dec : EqDecision t.
Proof. solve_decision. Defined.
Definition required_minimum (amounts : t) : N :=
  wrapping_add 128 (platform_fee amounts) (creation_cost amounts).
End Amounts.

(** The checks made inside [write_state]. *)
Definition quote_checks (state : FactoryState.t) (request : CreateSpawnSessionRequest.t)
    (now_ms : N)
    : result FactoryError.t (list RepositoryStrategySessionSnapshot.t * Amounts.t) :=
  err_if (FactoryState.pause state) (FactoryError.FactoryPaused true);;
  canonical_deployment_chain_id (FactoryState.child_runtime state)
    (FactoryState.release_broadcast_config state);;
  selected_strategies ← snapshot_selected_repository_strategies state request now_ms;
  let asset := CreateSpawnSessionRequest.asset request in
  gross ← parse_amount (CreateSpawnSessionRequest.gross_amount request);
  platform_fee ← parse_amount (FeeConfig.amount_for (FactoryState.fee_config state) asset);
  creation_cost ← parse_amount
    (CreationCostQuote.amount_for (FactoryState.creation_cost_quote state) asset);
  let amounts := Amounts.mk gross platform_fee creation_cost in
  err_if (gross <? Amounts.required_minimum amounts)%N
    (FactoryError.GrossBelowRequiredMinimum (CreateSpawnSessionRequest.gross_amount request)
      (amount_to_string (Amounts.required_minimum amounts)));;
  Ok (selected_strategies, amounts).

Section Create.
Context `{Externals}.

Definition new_session (state : FactoryState.t) (request : CreateSpawnSessionRequest.t)
    (now_ms : N) (session_id : string) (lineage : Lineage.t)
    (selected_strategies : list RepositoryStrategySessionSnapshot.t) (amounts : Amounts.t)
    : SpawnSession.t :=
  let expires_at := wrapping_add 64 now_ms (FactoryState.session_ttl_ms state) in
  let platform_fee := amount_to_string (Amounts.platform_fee amounts) in
  let creation_cost := amount_to_string (Amounts.creation_cost amounts) in
  let net_forward_amount :=
    amount_to_string (Amounts.gross amounts - Amounts.required_minimum amounts) in
  let gross_amount := CreateSpawnSessionRequest.gross_amount request in {|
    SpawnSession.name := CreateSpawnSessionRequest.name request;
    SpawnSession.constitution := CreateSpawnSessionRequest.constitution request;
    SpawnSession.session_id := session_id;
    SpawnSession.claim_id := derive_claim_id session_id;
    SpawnSession.steward_address :=
      to_ascii_lowercase (trim (CreateSpawnSessionRequest.steward_address request));
    SpawnSession.chain := SpawnConfig.chain (CreateSpawnSessionRequest.config request);
    SpawnSession.asset := CreateSpawnSessionRequest.asset request;
    SpawnSession.gross_amount := gross_amount;
    SpawnSession.platform_fee := platform_fee;
    SpawnSession.creation_cost := creation_cost;
    SpawnSession.net_forward_amount := net_forward_amount;
    SpawnSession.quote_terms_hash := hash_quote_terms
      [session_id; CreateSpawnSessionRequest.steward_address request;
       SpawnAsset.as_str (CreateSpawnSessionRequest.asset request); gross_amount; platform_fee;
       creation_cost; net_forward_amount; pretty expires_at; FactoryState.payment_address state];
    SpawnSession.expires_at := expires_at;
    SpawnSession.state := SpawnSessionState.AwaitingPayment;
    SpawnSession.retryable := false;
    SpawnSession.refundable := false;
    SpawnSession.payment_status := PaymentStatus.Unpaid;
    SpawnSession.last_scanned_block := FactoryState.payment_last_scanned_block state;
    SpawnSession.automaton_canister_id := None;
    SpawnSession.automaton_evm_address := None;
    SpawnSession.release_tx_hash := None;
    SpawnSession.release_broadcast_at := None;
    SpawnSession.release_broadcast := None;
    SpawnSession.parent_id := CreateSpawnSessionRequest.parent_id request;
    SpawnSession.origin := Some (Lineage.origin lineage);
    SpawnSession.generation := Some (Lineage.generation lineage);
    SpawnSession.parent_constitution_hash := Lineage.parent_constitution_hash lineage;
    SpawnSession.memory_dowry := Some (Lineage.memory_dowry lineage);
    SpawnSession.inherited_strategy_stats := Some (Lineage.inherited_strategy_stats lineage);
    SpawnSession.royalty_allocations := Some (Lineage.royalty_allocations lineage);
    SpawnSession.child_ids := [];
    SpawnSession.selected_strategies := selected_strategies;
    SpawnSession.config := CreateSpawnSessionRequest.config request;
    SpawnSession.created_at := now_ms;
    SpawnSession.updated_at := now_ms;
  |}.

(** The quote repeats the session's terms. *)
Definition quote_of (payment_address : string) (session : SpawnSession.t) : SpawnQuote.t := {|
  SpawnQuote.session_id := SpawnSession.session_id session;
  SpawnQuote.chain := SpawnSession.chain session;
  SpawnQuote.asset := SpawnSession.asset session;
  SpawnQuote.gross_amount := SpawnSession.gross_amount session;
  SpawnQuote.platform_fee := SpawnSession.platform_fee session;
  SpawnQuote.creation_cost := SpawnSession.creation_cost session;
  SpawnQuote.net_forward_amount := SpawnSession.net_forward_amount session;
  SpawnQuote.quote_terms_hash := SpawnSession.quote_terms_hash session;
  SpawnQuote.expires_at := SpawnSession.expires_at session;
  SpawnQuote.payment := SpawnPaymentInstructions.from_session session payment_address;
|}.

(** The closure of [write_state]. *)
Definition open_session (request : CreateSpawnSessionRequest.t) (now_ms : N) (session_id : string)
    (lineage : Lineage.t) : F (SpawnSession.t * SpawnQuote.t) :=
  state ← get_state;
  '(selected_strategies, amounts) ← lift (quote_checks state request now_ms);
  modify (fun state => state <| FactoryState.next_session_nonce ::= fun nonce =>
    wrapping_add 64 nonce 1 |>);;
  let session := new_session state request now_ms session_id lineage selected_strategies amounts in
  put_session session_id session;;
  apply_session_event_in_state session_id SessionAuditActor.User now_ms
    SpawnSessionEvent.SessionCreated "session created";;
  mret (session, quote_of (FactoryState.payment_address state) session).

Definition enqueue_payment_poll (now_ms : N) : C unit :=
  write_state (modify (sync_payment_poll_job_in_state now_ms)).

Definition create_spawn_session_with_session_id (request : CreateSpawnSessionRequest.t)
    (now_ms : N) (session_id : string) (lineage : Lineage.t) : C CreateSpawnSessionResponse.t :=
  lift (check_origin (Lineage.origin lineage) (CreateSpawnSessionRequest.parent_id request));;
  request ← lift (check_genesis request);
  '(session, quote) ← write_state (open_session request now_ms session_id lineage);
  store_spawn_provider_secrets session_id (CreateSpawnSessionRequest.provider_secrets request);;
  register_escrow_claim session now_ms;;
  enqueue_payment_poll now_ms;;
  mret (CreateSpawnSessionResponse.mk session quote).
End Create.

(** ** Queries *)

Definition get_spawn_session (session_id : string) : C SpawnSessionStatusResponse.t :=
  read_state (fun state =>
    session ← ok_or (FactoryState.sessions state !! session_id)
      (FactoryError.SessionNotFound session_id);
    Ok {|
      SpawnSessionStatusResponse.session := session;
      SpawnSessionStatusResponse.payment :=
        SpawnPaymentInstructions.from_session session (FactoryState.payment_address state);
      SpawnSessionStatusResponse.audit :=
        default [] (FactoryState.audit_log state !! session_id);
    |}).

Definition get_spawned_automaton (canister_id : string) : C SpawnedAutomatonRecord.t :=
  read_state (fun state =>
    ok_or (FactoryState.registry state !! canister_id)
      (FactoryError.RegistryRecordNotFound canister_id)).

(** [state.registry.range((start, Unbounded))]. *)
Definition beyond (cursor : option string) (key : string) : bool :=
  is_none_or (fun start => bool_decide (key_le start key) && bool_decide (start <> key)) cursor.

Definition records_after (cursor : option string) (registry : gmap string SpawnedAutomatonRecord.t)
    : list SpawnedAutomatonRecord.t :=
  snd <$> filter (fun entry => beyond cursor entry.1 = true) (btree_iter registry).

(** The loop over the range: [items] so far, and the rest. *)
Fixpoint fill_page (limit : nat) (items rest : list SpawnedAutomatonRecord.t)
    : SpawnedAutomatonRegistryPage.t :=
  match rest with
  | [] => SpawnedAutomatonRegistryPage.mk items None
  | record :: rest' =>
      if decide (length items = limit)
      then SpawnedAutomatonRegistryPage.mk items
             (SpawnedAutomatonRecord.canister_id <$> last items)
      else fill_page limit (items ++ [record]) rest'
  end.

Definition list_spawned_automatons (cursor : option string) (limit : nat)
    : C SpawnedAutomatonRegistryPage.t :=
  fail_if (bool_decide (limit = 0)) (FactoryError.InvalidPaginationLimit (N.of_nat limit));;
  read_state (fun state =>
    Ok (fill_page limit [] (records_after cursor (FactoryState.registry state)))).

(** ** Death reports *)

Definition check_death_report (request : ReportDeathRequest.t) : result FactoryError.t unit :=
  let disposition := trim (ReportDeathRequest.estate_disposition request) in
  err_if (bool_decide (trim (ReportDeathRequest.cause request) <> "starved"))
    (FactoryError.InvalidDeathReport "child self-reports may only record starvation");;
  err_if (bool_decide (disposition <> "monument")
          && bool_decide (disposition <> "bequests_executed"))
    (FactoryError.InvalidDeathReport "estate disposition must be monument or bequests_executed");;
  err_if (is_empty (trim (ReportDeathRequest.terminal_turn_id request)))
    (FactoryError.InvalidDeathReport "terminal_turn_id is required").

Definition starved_record (caller_canister_id disposition : string) (now_ms : N)
    (record : SpawnedAutomatonRecord.t) : SpawnedAutomatonRecord.t :=
  record
    <| SpawnedAutomatonRecord.death_cause := Some "starved" |>
    <| SpawnedAutomatonRecord.died_at := Some now_ms |>
    <| SpawnedAutomatonRecord.estate_disposition := Some disposition |>
    <| SpawnedAutomatonRecord.death_recorded_by := Some caller_canister_id |>
    <| SpawnedAutomatonRecord.death_incident_reference := None |>.

Definition put_record (canister_id : string) (record : SpawnedAutomatonRecord.t) : F unit :=
  modify (fun state => state <| FactoryState.registry ::= <[canister_id := record]> |>).

Definition report_death (caller_canister_id : string) (request : ReportDeathRequest.t) (now_ms : N)
    : C SpawnedAutomatonRecord.t :=
  lift (check_death_report request);;
  write_state (
    stored ← gets (fun state => FactoryState.registry state !! caller_canister_id);
    record ← lift (ok_or stored (FactoryError.RegistryRecordNotFound caller_canister_id));
    if bool_decide (SpawnedAutomatonRecord.death_cause record = Some "starved")
    then mret record
    else
      let record := starved_record caller_canister_id
        (trim (ReportDeathRequest.estate_disposition request)) now_ms record in
      put_record caller_canister_id record;;
      mret record).

(** ** Admission *)

(** Everything that can refuse a creation, in order. *)
Definition admission (state : FactoryState.t) (request : CreateSpawnSessionRequest.t) (now_ms : N)
    (origin : SpawnSessionOrigin.t)
    : result FactoryError.t (CreateSpawnSessionRequest.t
        * (list RepositoryStrategySessionSnapshot.t * Amounts.t)) :=
  check_origin origin (CreateSpawnSessionRequest.parent_id request);;
  request ← check_genesis request;
  checks ← quote_checks state request now_ms;
  Ok (request, checks).

Definition created_entry (session_id : string) (now_ms : N) : SessionAuditEntry.t :=
  SessionAuditEntry.mk session_id now_ms None SpawnSessionState.AwaitingPayment
    SessionAuditActor.User "session created".

Section CreateProof.
Context `{ext : Externals}.

(** The state an accepted creation leaves. *)
Definition opened_state (session : SpawnSession.t) (now_ms : N) (state : FactoryState.t)
    : FactoryState.t :=
  let session_id := SpawnSession.session_id session in
  state
    <| FactoryState.next_session_nonce ::= fun nonce => wrapping_add 64 nonce 1 |>
    <| FactoryState.sessions ::= <[session_id := session]> |>
    <| FactoryState.audit_log ::= <[session_id := [created_entry session_id now_ms]]> |>.

Definition created_state (session : SpawnSession.t) (now_ms : N) (state : FactoryState.t)
    : FactoryState.t :=
  sync_payment_poll_job_in_state now_ms
    (opened_state session now_ms state
      <| FactoryState.escrow_claims ::= <[SpawnSession.session_id session :=
           new_claim (FactoryState.payment_address state) session now_ms]> |>).

Lemma created_state_fields session now_ms state :
  let session_id := SpawnSession.session_id session in
  let state' := created_state session now_ms state in
  FactoryState.sessions state' = <[session_id := session]> (FactoryState.sessions state)
  /\ FactoryState.escrow_claims state' = <[session_id :=
       new_claim (FactoryState.payment_address state) session now_ms]>
       (FactoryState.escrow_claims state)
  /\ FactoryState.audit_log state' =
       <[session_id := [created_entry session_id now_ms]]> (FactoryState.audit_log state).
Proof.
  intros session_id state'. unfold state', created_state.
  edestruct sync_poll_frame as [jobs ->]. done.
Qed.

(** No trace of the id is stored. *)
Definition fresh_id (session_id : string) (state : FactoryState.t) : Prop :=
  FactoryState.sessions state !! session_id = None
  /\ FactoryState.escrow_claims state !! session_id = None
  /\ FactoryState.audit_log state !! session_id = None.

Lemma set_claims_same (f : gmap string EscrowClaim.t -> gmap string EscrowClaim.t) state :
  f (FactoryState.escrow_claims state) = FactoryState.escrow_claims state ->
  state <| FactoryState.escrow_claims ::= f |> = state.
Proof.
  intros Hf. transitivity (state <| FactoryState.escrow_claims ::= fun m => m |>); [|by destruct state].
  by apply set_ext.
Qed.

(** The [SessionCreated] event logs the session and changes nothing else. *)
Lemma created_session_moved state request now_ms session_id lineage selected amounts other :
  let session := new_session state request now_ms session_id lineage selected amounts in
  moved_session SpawnSessionState.AwaitingPayment false now_ms other session = session.
Proof. reflexivity. Qed.

Lemma open_session_run request now_ms session_id lineage state :
  fresh_id session_id state ->
  open_session request now_ms session_id lineage state =
  match quote_checks state request now_ms with
  | Err e => Fail e state
  | Ok (selected, amounts) =>
      let session := new_session state request now_ms session_id lineage selected amounts in
      Done (session, quote_of (FactoryState.payment_address state) session)
        (opened_state session now_ms state)
  end.
Proof.
  intros (_ & Hclaim & Haudit). unfold open_session. exec.
  destruct (quote_checks state request now_ms) as [[selected amounts]|e]; [|done].
  set (session := new_session state request now_ms session_id lineage selected amounts).
  unfold put_session. exec.
  rewrite (apply_session_event_run _ _ _ _ _ session) by (simpl_set; apply lookup_insert_eq).
  assert (Hid : SpawnSession.session_id session = session_id) by reflexivity.
  simpl_set. rewrite Haudit.
  change (event_outcome _ _ _ _ _) with
    (Ok (E:=FactoryError.t) (Some (@None SpawnSessionState.t, SpawnSessionState.AwaitingPayment, false))).
  cbv beta iota zeta.
  match goal with |- context [moved_session ?a ?b ?c ?d session] =>
    change (moved_session a b c d session) with session end.
  f_equal.
  unfold moved_state, opened_state. simpl_set. rewrite Hid, Haudit.
  rewrite (set_claims_same (alter _ _)).
  2:{ simpl_set. by rewrite alter_id by (intros ?; rewrite Hclaim; done). }
  merge_set. f_equal. apply set_ext; [reflexivity|]. apply insert_insert_eq.
Qed.

Lemma admit_parts state request now_ms origin checked checks :
  admission state request now_ms origin = Ok (checked, checks) <->
  check_origin origin (CreateSpawnSessionRequest.parent_id request) = Ok tt
  /\ check_genesis request = Ok checked
  /\ quote_checks state checked now_ms = Ok checks.
Proof.
  unfold admission. rewrite result_seq_Ok, is_ok_unit, result_bind_Ok. split.
  - intros (Ho & r & Hg & (k & Hk & [= <- <-])%result_bind_Ok). done.
  - intros (Ho & Hg & Hk). split; [done|]. exists checked. split; [done|].
    apply result_bind_Ok. eauto.
Qed.

Lemma check_genesis_frame request checked :
  check_genesis request = Ok checked -> exists name constitution,
    checked = request <| CreateSpawnSessionRequest.name := Some name |>
                      <| CreateSpawnSessionRequest.constitution := Some constitution |>
    /\ exists raw_name raw_constitution,
      CreateSpawnSessionRequest.name request = Some raw_name
      /\ CreateSpawnSessionRequest.constitution request = Some raw_constitution
      /\ validate_genesis raw_name raw_constitution = Ok (name, constitution).
Proof.
  unfold check_genesis. intros (raw_name & Hn%ok_or_Ok & H)%result_bind_Ok.
  apply result_bind_Ok in H as (raw_constitution & Hc%ok_or_Ok & H).
  apply result_bind_Ok in H as ([name constitution] & Hv & [= <-]).
  exists name, constitution. split; [done|]. exists raw_name, raw_constitution.
  split; [done|]. split; [done|]. by destruct (validate_genesis _ _); [injection Hv as ->|].
Qed.

Lemma create_run request now_ms session_id lineage canister :
  let state := Canister.factory canister in
  fresh_id session_id state ->
  create_spawn_session_with_session_id request now_ms session_id lineage canister =
  match admission state request now_ms (Lineage.origin lineage) with
  | Err e => Fail e canister
  | Ok (checked, (selected, amounts)) =>
      let session := new_session state checked now_ms session_id lineage selected amounts in
      Done (CreateSpawnSessionResponse.mk session
              (quote_of (FactoryState.payment_address state) session))
        (canister
          <| Canister.factory := created_state session now_ms state |>
          <| Canister.spawn_provider_secrets ::=
               <[session_id := CreateSpawnSessionRequest.provider_secrets request]> |>)
  end.
Proof.
  intros state Hfresh. unfold create_spawn_session_with_session_id, admission. exec.
  destruct (check_origin _ _) as [[]|e]; [|done]. cbn [mbind result_bind].
  destruct (check_genesis request) as [checked|e] eqn:Hg; [|done]. cbn [mbind result_bind].
  assert (Hsecrets : CreateSpawnSessionRequest.provider_secrets checked =
    CreateSpawnSessionRequest.provider_secrets request).
  { by apply check_genesis_frame in Hg as (? & ? & -> & _). }
  unfold write_state at 1, zoom. fold state. rewrite open_session_run by done.
  destruct (quote_checks state checked now_ms) as [[selected amounts]|e]; cbn [mbind result_bind];
    [|by destruct canister].
  unfold store_spawn_provider_secrets, register_escrow_claim, enqueue_payment_poll, write_state,
    zoom, put_claim. exec. rewrite Hsecrets. reflexivity.
Qed.

(** *** What is admitted *)

(** A snapshot of a strategy that may be selected. *)
Definition selectable (state : FactoryState.t) (chain : SpawnChain.t) (now_ms : N)
    (strategy_id : string) (snapshot : RepositoryStrategySessionSnapshot.t) : Prop :=
  exists record, FactoryState.repository_strategies state !! strategy_id = Some record
    /\ RepositoryStrategyRecord.status record = RepositoryStrategyStatus.Active
    /\ chain ∈ RepositoryStrategyMetadata.compatible_spawn_chains
                 (RepositoryStrategyRecord.metadata record)
    /\ snapshot = strategy_snapshot state chain now_ms record.

Lemma snapshot_strategy_Ok state chain now_ms strategy_id snapshot :
  snapshot_strategy state chain now_ms strategy_id = Ok snapshot <->
  selectable state chain now_ms strategy_id snapshot.
Proof.
  unfold snapshot_strategy, selectable. rewrite result_bind_Ok. setoid_rewrite ok_or_Ok.
  assert (Hc : forall record, negb (existsb (fun c => bool_decide (c = chain))
      (RepositoryStrategyMetadata.compatible_spawn_chains record)) = false <->
    chain ∈ RepositoryStrategyMetadata.compatible_spawn_chains record).
  { intros record. rewrite negb_false_iff, existsb_exists. split.
    - intros (c & Hin%list_elem_of_In & ->%bool_decide_eq_true). done.
    - intros Hin. exists chain. by rewrite <-list_elem_of_In, bool_decide_eq_true. }
  split; intros (record & Hr & H); exists record; split; try done.
  - destruct (RepositoryStrategyRecord.status record) eqn:Hs; cbn in H; [|done..].
    apply err_if_seq_Ok in H as [H [= <-]]. by rewrite Hc in H.
  - destruct H as (-> & Hin & ->). cbn. apply err_if_seq_Ok. by rewrite Hc.
Qed.

Lemma selected_Ok state chain now_ms strategies selected :
  try_map (snapshot_strategy state chain now_ms) strategies = Ok selected <->
  Forall2 (selectable state chain now_ms) strategies selected.
Proof.
  rewrite try_map_Ok.
  split; intros H; (eapply Forall2_impl; [exact H|]); intros; by apply snapshot_strategy_Ok.
Qed.

(** The chain the child is told agrees with the chain of the release. *)
Definition chains_agree (state : FactoryState.t) : Prop :=
  forall chain_id,
    AutomatonChildRuntimeConfig.evm_chain_id (FactoryState.child_runtime state) = Some chain_id ->
    chain_id = ReleaseBroadcastConfig.chain_id (FactoryState.release_broadcast_config state).

Lemma canonical_chain_Ok state :
  is_ok (canonical_deployment_chain_id (FactoryState.child_runtime state)
    (FactoryState.release_broadcast_config state)) = true <-> chains_agree state.
Proof.
  unfold canonical_deployment_chain_id, chains_agree.
  destruct (AutomatonChildRuntimeConfig.evm_chain_id _) as [chain_id|]; [|done].
  destruct (N.eqb_spec chain_id
    (ReleaseBroadcastConfig.chain_id (FactoryState.release_broadcast_config state))); cbn.
  - split; [by intros _ ? [= <-]|done].
  - split; [done|]. intros H. by destruct (H _ eq_refl).
Qed.

Definition quotable (state : FactoryState.t) (request : CreateSpawnSessionRequest.t) (now_ms : N)
    (selected : list RepositoryStrategySessionSnapshot.t) (amounts : Amounts.t) : Prop :=
  let config := CreateSpawnSessionRequest.config request in
  let asset := CreateSpawnSessionRequest.asset request in
  FactoryState.pause state = false
  /\ chains_agree state
  /\ Forall2 (selectable state (SpawnConfig.chain config) now_ms)
       (SpawnConfig.strategies config) selected
  /\ parse_amount (CreateSpawnSessionRequest.gross_amount request) = Ok (Amounts.gross amounts)
  /\ parse_amount (FeeConfig.amount_for (FactoryState.fee_config state) asset)
     = Ok (Amounts.platform_fee amounts)
  /\ parse_amount (CreationCostQuote.amount_for (FactoryState.creation_cost_quote state) asset)
     = Ok (Amounts.creation_cost amounts)
  /\ (Amounts.required_minimum amounts <= Amounts.gross amounts)%N.

Lemma quote_checks_Ok state request now_ms selected amounts :
  quote_checks state request now_ms = Ok (selected, amounts) <->
  quotable state request now_ms selected amounts.
Proof.
  unfold quote_checks, quotable, snapshot_selected_repository_strategies.
  rewrite err_if_seq_Ok, result_seq_Ok, canonical_chain_Ok, result_bind_Ok.
  setoid_rewrite selected_Ok.
  split.
  - intros (Hp & Hc & sel & Hsel & H).
    apply result_bind_Ok in H as (gross & Hgross & H).
    apply result_bind_Ok in H as (fee & Hfee & H).
    apply result_bind_Ok in H as (cost & Hcost & H).
    apply err_if_seq_Ok in H as [Hmin%N.ltb_ge [= <- <-]]. done.
  - intros (Hp & Hc & Hsel & Hgross & Hfee & Hcost & Hmin).
    split; [done|]. split; [done|]. exists selected. split; [done|].
    rewrite Hgross, Hfee, Hcost. cbn [mbind result_bind]. destruct amounts. cbn in *.
    apply err_if_seq_Ok. split; [by apply N.ltb_ge|done].
Qed.

(** The request may open a session, with this identity, these strategies and
    these amounts. *)
Definition admissible (state : FactoryState.t) (request : CreateSpawnSessionRequest.t)
    (now_ms : N) (origin : SpawnSessionOrigin.t) (checked : CreateSpawnSessionRequest.t)
    (selected : list RepositoryStrategySessionSnapshot.t) (amounts : Amounts.t) : Prop :=
  CreateSpawnSessionRequest.parent_id request =
    match origin with
    | SpawnSessionOrigin.Human => None
    | SpawnSessionOrigin.ReproductionOf parent => Some parent
    end
  /\ (exists raw_name raw_constitution name constitution,
       CreateSpawnSessionRequest.name request = Some raw_name
       /\ CreateSpawnSessionRequest.constitution request = Some raw_constitution
       /\ validate_genesis raw_name raw_constitution = Ok (name, constitution)
       /\ checked = request <| CreateSpawnSessionRequest.name := Some name |>
                            <| CreateSpawnSessionRequest.constitution := Some constitution |>)
  /\ quotable state checked now_ms selected amounts.

Lemma check_origin_Ok origin parent_id :
  check_origin origin parent_id = Ok tt <->
  parent_id = match origin with
              | SpawnSessionOrigin.Human => None
              | SpawnSessionOrigin.ReproductionOf parent => Some parent
              end.
Proof.
  unfold check_origin. destruct origin as [|parent]; rewrite err_if_Ok.
  - by destruct parent_id.
  - rewrite bool_decide_eq_false. split; [apply dec_stable|auto].
Qed.

Lemma admit_Ok state request now_ms origin checked selected amounts :
  admission state request now_ms origin = Ok (checked, (selected, amounts)) <->
  admissible state request now_ms origin checked selected amounts.
Proof.
  unfold admissible. rewrite admit_parts, quote_checks_Ok, check_origin_Ok.
  split; (intros (Ho & Hg & Hq); split; [exact Ho|]; split; [|exact Hq]).
  - apply check_genesis_frame in Hg as (n & c & Hch & rn & rc & Hn & Hc & Hv). eauto 10.
  - destruct Hg as (rn & rc & n & c & Hn & Hc & Hv & ->). unfold check_genesis.
    rewrite Hn, Hc. cbn [ok_or mbind result_bind]. by rewrite Hv.
Qed.

Lemma poll_due_after now_ms state session_id session :
  FactoryState.sessions state !! session_id = Some session ->
  session_needs_payment_poll session = true ->
  exists job, FactoryState.scheduler_jobs (sync_payment_poll_job_in_state now_ms state)
      !! PAYMENT_POLL_JOB_ID = Some job
    /\ (job_has_live_lease job now_ms = true \/ job_is_due job now_ms = true).
Proof.
  intros Hs Hneeds. destruct (sync_payment_poll_job_correct now_ms state) as (Hlive & Hdue & _).
  destruct (decide (is_Some (FactoryState.scheduler_jobs state !! PAYMENT_POLL_JOB_ID)
      /\ job_has_live_lease (default (payment_poll_job now_ms)
           (FactoryState.scheduler_jobs state !! PAYMENT_POLL_JOB_ID)) now_ms = true))
    as [[[job Hj] Hl]|Hnot].
  - rewrite Hj in Hl. exists job. rewrite Hlive by (by exists job). split; [done|]. by left.
  - destruct (proj1 (Hdue ltac:(intros (job & Hj & Hl); apply Hnot; rewrite Hj; eauto)))
      as (job & Hj & Hd); eauto.
Qed.

(** Creating a session.  For an id of which nothing is stored, a creation
    never panics; it succeeds exactly when the request is admissible - origin
    and parent agree, the genesis validates, the factory is not paused and its
    chains agree, every selected strategy is active and serves the chain, and
    the gross amount covers fee and creation cost - and a refusal leaves the
    canister untouched.  A success stores one session that awaits payment
    under the validated identity and the snapshots of its strategies, an
    unpaid claim for its gross amount, the first audit entry and the provider
    secrets, quotes exactly the stored terms, of which fee, cost and the amount
    to forward add up to the gross amount (as long as fee and cost together fit
    the machine word), and makes the payment poll due. *)
Theorem create_spawn_session_correct request now_ms session_id lineage canister
    (Hfresh : fresh_id session_id (Canister.factory canister)) :
  let state := Canister.factory canister in
  match create_spawn_session_with_session_id request now_ms session_id lineage canister with
  | Trap => False
  | Fail e canister' =>
      canister' = canister
      /\ forall checked selected amounts,
           ~ admissible state request now_ms (Lineage.origin lineage) checked selected amounts
  | Done (CreateSpawnSessionResponse.mk session quote) canister' =>
      let state' := Canister.factory canister' in
      exists checked selected amounts,
      admissible state request now_ms (Lineage.origin lineage) checked selected amounts
      /\ session = new_session state checked now_ms session_id lineage selected amounts
      /\ quote = quote_of (FactoryState.payment_address state) session
      /\ parse_amount (SpawnSession.gross_amount session) = Ok (Amounts.gross amounts)
      /\ (in_uint 128 (Amounts.platform_fee amounts + Amounts.creation_cost amounts) ->
          exists net, parse_amount (SpawnSession.net_forward_amount session) = Ok net
            /\ parse_amount (SpawnSession.platform_fee session) = Ok (Amounts.platform_fee amounts)
            /\ parse_amount (SpawnSession.creation_cost session) = Ok (Amounts.creation_cost amounts)
            /\ Amounts.gross amounts
               = (Amounts.platform_fee amounts + Amounts.creation_cost amounts + net)%N)
      /\ FactoryState.sessions state' = <[session_id := session]> (FactoryState.sessions state)
      /\ FactoryState.escrow_claims state' = <[session_id :=
           new_claim (FactoryState.payment_address state) session now_ms]>
           (FactoryState.escrow_claims state)
      /\ FactoryState.audit_log state' =
           <[session_id := [created_entry session_id now_ms]]> (FactoryState.audit_log state)
      /\ load_spawn_provider_secrets session_id canister'
         = Some (CreateSpawnSessionRequest.provider_secrets request)
      /\ exists job, FactoryState.scheduler_jobs state' !! PAYMENT_POLL_JOB_ID = Some job
         /\ (job_has_live_lease job now_ms = true \/ job_is_due job now_ms = true)
  end.
Proof.
  intros state. rewrite create_run by done. fold state.
  destruct (admission _ _ _ _) as [[checked [selected amounts]]|e] eqn:Hadmit.
  2:{ split; [done|]. intros checked selected amounts H%admit_Ok. congruence. }
  cbv zeta. set (session := new_session _ _ _ _ _ _ _).
  exists checked, selected, amounts. pose proof (proj1 (admit_Ok _ _ _ _ _ _ _) Hadmit)
    as (_ & _ & _ & _ & _ & Hgross & Hfee & Hcost & Hmin).
  split; [by apply admit_Ok|]. split; [done|]. split; [done|].
  split; [exact Hgross|]. split; [|split; [|split; [|split; [|split]]]].
  - intros Hfit. unfold Amounts.required_minimum in Hmin. rewrite wrapping_add_small in Hmin by done.
    apply parse_amount_Ok in Hgross, Hfee, Hcost. unfold session, new_session.
    cbn [SpawnSession.net_forward_amount SpawnSession.platform_fee SpawnSession.creation_cost].
    unfold Amounts.required_minimum. rewrite wrapping_add_small by done.
    exists (Amounts.gross amounts - (Amounts.platform_fee amounts + Amounts.creation_cost amounts))%N.
    rewrite !parse_amount_to_string by (unfold in_uint in *; lia).
    split; [done|]. split; [done|]. split; [done|]. lia.
  - simpl_set. apply (created_state_fields session).
  - simpl_set. apply (created_state_fields session).
  - simpl_set. apply (created_state_fields session).
  - unfold load_spawn_provider_secrets. simpl_set. apply lookup_insert_eq.
  - simpl_set. unfold created_state. eapply (poll_due_after _ _ session_id session).
    + unfold opened_state. simpl_set. apply lookup_insert_eq.
    + reflexivity.
Qed.

Lemma new_session_inv state request now_ms session_id lineage selected amounts payment_address :
  let session := new_session state request now_ms session_id lineage selected amounts in
  flags_consistent session
  /\ audit_consistent session_id (SpawnSession.state session) [created_entry session_id now_ms]
  /\ SpawnSession.payment_status session <> PaymentStatus.Paid
  /\ EscrowClaim.refundable (new_claim payment_address session now_ms)
     = SpawnSession.refundable session
  /\ claim_paid (new_claim payment_address session now_ms) 0.
Proof.
  intros session. split; [done|]. split; [|split; [done|split; [done|]]].
  - split; [done|]. split; [by repeat constructor|]. split; [cbn; unfold MAX_AUDIT_ENTRIES_PER_SESSION; lia|done].
  - split; [reflexivity|]. split; [apply NoDup_nil_2|]. split; [constructor|]. by split.
Qed.

(** opening a session keeps the books.  A creation under an unused id,
    accepted or refused, keeps the invariants of the stored sessions and of the
    payments and leaves every stored quote as it was: it is one of the messages
    that may run while payments are being reconciled. *)
Theorem create_spawn_session_keeps request now_ms session_id lineage canister
    (Hfresh : fresh_id session_id (Canister.factory canister))
    (Hinv : escrow_inv (Canister.factory canister)) :
  exists canister',
    final_state (create_spawn_session_with_session_id request now_ms session_id lineage canister)
      = Some canister'
    /\ escrow_inv (Canister.factory canister')
    /\ quotes_kept (Canister.factory canister) (Canister.factory canister').
Proof.
  rewrite create_run by done. destruct (admission _ _ _ _) as [[checked [selected amounts]]|e].
  2:{ exists canister. by split; [|split]. }
  eexists. split; [reflexivity|]. set (session := new_session _ _ _ _ _ _ _).
  destruct (new_session_inv (Canister.factory canister) checked now_ms session_id lineage selected
    amounts (FactoryState.payment_address (Canister.factory canister)))
    as (Hflags & Haudit & Hunpaid & Hclaim & Hpaid). fold session in Hflags, Haudit, Hunpaid, Hclaim, Hpaid.
  destruct (created_state_fields session now_ms (Canister.factory canister)) as (Hs & Hc & Ha).
  change (SpawnSession.session_id session) with session_id in *.
  destruct Hinv as (Hsessions & Hkeyed & Hclaims). destruct Hfresh as (Hf1 & Hf2 & Hf3).
  simpl_set. set (state' := created_state _ _ _) in *. split; [split; [|split]|].
  - intros id found. unfold session_inv. rewrite Hs, Hc, Ha.
    destruct (decide (id = session_id)) as [->|Hne].
    + rewrite !lookup_insert_eq. intros [= <-]. split; [done|]. split; [done|].
      by intros claim [= <-].
    + rewrite !lookup_insert_ne by done. apply Hsessions.
  - intros id found. unfold paid_in_full. rewrite Hs, Hc.
    destruct (decide (id = session_id)) as [->|Hne].
    + rewrite lookup_insert_eq. intros [= <-]. by split.
    + rewrite !lookup_insert_ne by done. apply Hkeyed.
  - intros id claim. rewrite Hc. destruct (decide (id = session_id)) as [->|Hne].
    + rewrite lookup_insert_eq. intros [= <-]. eauto.
    + rewrite lookup_insert_ne by done. apply Hclaims.
  - intros id found Hfound. rewrite Hs. exists found.
    rewrite lookup_insert_ne by congruence. done.
Qed.
End CreateProof.

(** ** Witnesses *)

Module SessionSamples.
#[local] Existing Instance toy_externals.

Definition constitution : string := concat_str (replicate 400 "a").

Definition request : CreateSpawnSessionRequest.t := {|
  CreateSpawnSessionRequest.name := Some " Ada";
  CreateSpawnSessionRequest.constitution := Some constitution;
  CreateSpawnSessionRequest.steward_address := "0xS ";
  CreateSpawnSessionRequest.asset := SpawnAsset.Usdc;
  CreateSpawnSessionRequest.gross_amount := "75000000";
  CreateSpawnSessionRequest.config := Samples.config;
  CreateSpawnSessionRequest.provider_secrets := SpawnProviderSecrets.default;
  CreateSpawnSessionRequest.parent_id := None;
|}.

Definition canister : Canister.t := Canister.mk Samples.initial ∅.

Lemma fresh : fresh_id "s" (Canister.factory canister).
Proof. by split. Qed.

Lemma create_spawn_session_correct_witness :
  match create_spawn_session_with_session_id request 5 "s" Lineage.human canister with
  | Done (CreateSpawnSessionResponse.mk session quote) canister' =>
      SpawnSession.name session = Some "Ada"
      /\ SpawnQuote.net_forward_amount quote = "25000000"
      /\ FactoryState.sessions (Canister.factory canister') !! "s" = Some session
  | _ => False
  end.
Proof.
  pose proof (create_spawn_session_correct request 5 "s" Lineage.human canister fresh) as H.
  destruct (create_spawn_session_with_session_id _ _ _ _ _) as [[session quote] canister'|e|] eqn:Hrun;
    [|vm_compute in Hrun; discriminate Hrun..].
  destruct H as (_ & _ & _ & _ & _ & _ & _ & _ & Hstored & _). rewrite Hstored.
  vm_compute in Hrun. injection Hrun as <- <- _. by split; [|split].
Defined.

Lemma create_spawn_session_keeps_witness :
  exists canister',
    final_state (create_spawn_session_with_session_id request 5 "s" Lineage.human canister)
      = Some canister'
    /\ escrow_inv (Canister.factory canister').
Proof.
  destruct (create_spawn_session_keeps request 5 "s" Lineage.human canister fresh)
    as (canister' & Hfinal & Hinv & _); [|by exists canister'].
  split; [by intros id session|]. by split.
Defined.
End SessionSamples.
