(* ===== verification/Reproduction.v ===== *)
(** * Reproduction: automata that spawn children

    Models [backend/factory/src/reproduction.rs]: when a registered automaton
    may open a session for a child, what the child inherits and how the fee is
    shared.  [eth_call] of [base_rpc.rs] is a parameter. *)

From S2P Require Import Prelude Text EditDistance SpawnProtocol Types Externals State Init Samples Transitions Scheduler Escrow Sessions.
From Stdlib Require Import Ascii Strings.Byte.

(** [base_rpc::eth_call]. *)
Class CallRpc := { eth_call : list string -> string -> string -> C string }.

Definition royalty_amount (fee bps : N) : string :=
  amount_to_string (saturating_mul 128 fee bps `div` 10000).

Definition reproduction_policy : ReproductionPolicy.t := ReproductionPolicy.default.

(** [.max()] of an iterator. *)
Definition max_option (l : list N) : option N :=
  match l with [] => None | x :: l' => Some (foldr N.max x l') end.

(** The sessions that count against the cooldown of [caller]. *)
Definition counts_as_child (caller : string) (session : SpawnSession.t) : bool :=
  bool_decide (SpawnSession.origin session = Some (SpawnSessionOrigin.ReproductionOf caller))
  && bool_decide (SpawnSession.state session <> SpawnSessionState.Expired).

Definition last_reproduction_at (caller : string) (state : FactoryState.t) : option N :=
  max_option (SpawnSession.created_at <$>
    filter (fun session => counts_as_child caller session = true)
      (btree_values (FactoryState.sessions state))).

Definition living_parent (caller : string) (state : FactoryState.t)
    : result FactoryError.t SpawnedAutomatonRecord.t :=
  parent ← ok_or (FactoryState.registry state !! caller)
    (FactoryError.UnauthorizedReproduction caller);
  err_if (is_some (SpawnedAutomatonRecord.death_cause parent))
    (FactoryError.UnauthorizedReproduction caller);;
  Ok parent.

Definition reproduction_eligibility (caller : string) (now_ms : N)
    : C ReproductionEligibility.t :=
  '(parent, last_reproduction_at) ← read_state (fun state =>
    parent ← living_parent caller state; Ok (parent, last_reproduction_at caller state));
  let created_at := SpawnedAutomatonRecord.created_at parent in
  let minimum_age_at_ms := saturating_add 64 created_at REPRODUCTION_MIN_AGE_MS in
  let cooldown_ends_at_ms :=
    (fun created_at => saturating_add 64 created_at REPRODUCTION_COOLDOWN_MS)
      <$> last_reproduction_at in
  let reason :=
    if (now_ms <? minimum_age_at_ms)%N then Some "minimum_age"
    else if is_some_and (fun deadline => now_ms <? deadline)%N cooldown_ends_at_ms
    then Some "cooldown"
    else None in
  mret {|
    ReproductionEligibility.eligible := negb (is_some reason);
    ReproductionEligibility.observed_at_ms := now_ms;
    ReproductionEligibility.parent_created_at_ms := created_at;
    ReproductionEligibility.minimum_age_at_ms := minimum_age_at_ms;
    ReproductionEligibility.cooldown_ends_at_ms := cooldown_ends_at_ms;
    ReproductionEligibility.reason := reason;
  |}.

(** ** Creating the child's session *)

(** The waiting periods. *)
Definition check_timing (parent : SpawnedAutomatonRecord.t) (last_reproduction_at : option N)
    (now_ms : N) : result FactoryError.t unit :=
  let age := saturating_sub now_ms (SpawnedAutomatonRecord.created_at parent) in
  err_if (age <? REPRODUCTION_MIN_AGE_MS)%N
    (FactoryError.ReproductionIneligible
      ("minimum age is " +:+ pretty REPRODUCTION_MIN_AGE_MS +:+ "ms; observed "
       +:+ pretty age +:+ "ms"));;
  err_if (is_some_and (fun last => saturating_sub now_ms last <? REPRODUCTION_COOLDOWN_MS)%N
            last_reproduction_at)
    (FactoryError.ReproductionIneligible "reproduction cooldown has not elapsed").

(** The money: the gross amount must endow the child, and the parent must keep
    its reserves. *)
Definition minimum_gross (platform_fee creation_cost : N) : N :=
  saturating_add 128 (saturating_add 128 platform_fee creation_cost)
    REPRODUCTION_MIN_ENDOWMENT_USDC_RAW.

Definition required_surplus (gross : N) : N :=
  saturating_add 128
    (saturating_add 128 (saturating_add 128 gross REPRODUCTION_TERMINAL_RESERVE_USDC_RAW)
      REPRODUCTION_INFERENCE_RESERVE_USDC_RAW)
    REPRODUCTION_TOPUP_RESERVE_USDC_RAW.

Definition check_endowment (gross platform_fee creation_cost verified_parent_usdc_balance : N)
    : result FactoryError.t unit :=
  err_if (gross <? minimum_gross platform_fee creation_cost)%N
    (FactoryError.ReproductionIneligible
      ("gross payment must cover fee, creation, and child endowment: "
       +:+ amount_to_string (minimum_gross platform_fee creation_cost)));;
  err_if (verified_parent_usdc_balance <? required_surplus gross)%N
    (FactoryError.ReproductionIneligible
      ("factory-verified parent balance must retain terminal, inference, and top-up reserves after payment: required "
       +:+ amount_to_string (required_surplus gross) +:+ ", observed "
       +:+ amount_to_string verified_parent_usdc_balance)).

Definition royalties (state : FactoryState.t) (parent : SpawnedAutomatonRecord.t)
    (platform_fee : N) : list RoyaltyAllocation.t :=
  let progenitor :=
    id ← SpawnedAutomatonRecord.parent_id parent;
    SpawnedAutomatonRecord.evm_address <$> FactoryState.registry state !! id in
  [RoyaltyAllocation.mk (SpawnedAutomatonRecord.evm_address parent)
     (royalty_amount platform_fee REPRODUCTION_PARENT_ROYALTY_BPS) 1 "reproduction_fee";
   RoyaltyAllocation.mk (default (SpawnedAutomatonRecord.steward_address parent) progenitor)
     (royalty_amount platform_fee REPRODUCTION_PROGENITOR_ROYALTY_BPS) 2 "reproduction_fee"].

Section Reproduce.
Context `{Externals}.

Definition sha256_text (value : string) : string := hex_encode (sha256 (as_bytes value)).

Definition check_parent_constitution (parent : SpawnedAutomatonRecord.t)
    (request : CreateReproductionSessionRequest.t) : result FactoryError.t string :=
  expected_parent_hash ← ok_or (SpawnedAutomatonRecord.constitution_hash parent)
    (FactoryError.InvalidReproduction "parent has no verified constitution hash");
  err_if (bool_decide (sha256_text
      (trim (CreateReproductionSessionRequest.parent_constitution request))
        <> expected_parent_hash))
    (FactoryError.InvalidReproduction
      "parent constitution does not match the factory registry hash");;
  Ok expected_parent_hash.

Definition child_request (caller : string) (request : CreateReproductionSessionRequest.t)
    (child_constitution : string) (parent : SpawnedAutomatonRecord.t)
    (parent_session : SpawnSession.t) : CreateSpawnSessionRequest.t := {|
  CreateSpawnSessionRequest.name := Some (CreateReproductionSessionRequest.name request);
  CreateSpawnSessionRequest.constitution := Some child_constitution;
  CreateSpawnSessionRequest.steward_address := SpawnedAutomatonRecord.evm_address parent;
  CreateSpawnSessionRequest.asset := SpawnAsset.Usdc;
  CreateSpawnSessionRequest.gross_amount :=
    CreateReproductionSessionRequest.gross_amount request;
  CreateSpawnSessionRequest.config := SpawnSession.config parent_session;
  CreateSpawnSessionRequest.provider_secrets := SpawnProviderSecrets.default;
  CreateSpawnSessionRequest.parent_id := Some caller;
|}.

Definition child_lineage (caller expected_parent_hash : string)
    (request : CreateReproductionSessionRequest.t) (parent : SpawnedAutomatonRecord.t)
    (royalty_allocations : list RoyaltyAllocation.t) : Lineage.t := {|
  Lineage.origin := SpawnSessionOrigin.ReproductionOf caller;
  Lineage.generation :=
    saturating_add 32 (default 0%N (SpawnedAutomatonRecord.generation parent)) 1;
  Lineage.parent_constitution_hash := Some expected_parent_hash;
  Lineage.memory_dowry := CreateReproductionSessionRequest.memory_dowry request;
  Lineage.inherited_strategy_stats :=
    CreateReproductionSessionRequest.inherited_strategy_stats request;
  Lineage.royalty_allocations := royalty_allocations;
|}.

(** What is read of the parent in one go. *)
Definition parent_facts (caller : string) (state : FactoryState.t)
    : result FactoryError.t (SpawnedAutomatonRecord.t * SpawnSession.t * N * N * option N) :=
  parent ← living_parent caller state;
  parent_session ← ok_or (FactoryState.sessions state !! SpawnedAutomatonRecord.session_id parent)
    (FactoryError.SessionNotFound (SpawnedAutomatonRecord.session_id parent));
  platform_fee ← parse_amount (FeeConfig.usdc_fee (FactoryState.fee_config state));
  creation_cost ← parse_amount
    (CreationCostQuote.usdc_cost (FactoryState.creation_cost_quote state));
  Ok (parent, parent_session, platform_fee, creation_cost, last_reproduction_at caller state).

(** [parent.child_ids.retain(|id| !id.is_empty())]. *)
Definition retain_named_children (caller : string) : F unit :=
  modify (fun state => state <| FactoryState.registry ::=
    alter (fun parent => parent <| SpawnedAutomatonRecord.child_ids ::=
      filter (fun id => is_empty id = false) |>) caller |>).

Definition create_reproduction_session_with_verified_balance (caller : string)
    (request : CreateReproductionSessionRequest.t) (now_ms : N) (session_id : string)
    (verified_parent_usdc_balance : N) : C CreateSpawnSessionResponse.t :=
  lift (map_err FactoryError.InvalidReproduction
    (validate_inheritance (CreateReproductionSessionRequest.memory_dowry request)
      (CreateReproductionSessionRequest.inherited_strategy_stats request)));;
  '(_, child_constitution) ← lift (map_err
    (fun error => FactoryError.InvalidReproduction
      ("invalid child genesis: " +:+ genesis_debug error))
    (validate_genesis (CreateReproductionSessionRequest.name request)
      (CreateReproductionSessionRequest.child_constitution request)));
  '(parent, parent_session, platform_fee, creation_cost, last_reproduction_at) ←
    read_state (parent_facts caller);
  lift (check_timing parent last_reproduction_at now_ms);;
  expected_parent_hash ← lift (check_parent_constitution parent request);
  verdict ← expect (validate_constitution_mutation
    (trim (CreateReproductionSessionRequest.parent_constitution request)) child_constitution);
  lift (map_err FactoryError.InvalidReproduction verdict);;
  gross ← lift (parse_amount (CreateReproductionSessionRequest.gross_amount request));
  lift (check_endowment gross platform_fee creation_cost verified_parent_usdc_balance);;
  royalties ← gets (fun canister => royalties (Canister.factory canister) parent platform_fee);
  response ← create_spawn_session_with_session_id
    (child_request caller request child_constitution parent parent_session) now_ms session_id
    (child_lineage caller expected_parent_hash request parent royalties);
  write_state (retain_named_children caller);;
  mret response.
End Reproduce.

(** ** The balance, read from the chain *)

Definition all_hex (s : string) (len : N) : bool :=
  (str_len s =? len)%N && forallb is_ascii_hexdigit (str_bytes s).

Fixpoint drop_bytes (n : nat) (s : string) : string :=
  match n, s with S n', String _ s' => drop_bytes n' s' | _, _ => s end.

Definition token_of (token_result : string) : result FactoryError.t string :=
  let token_hex := trim_start_0x token_result in
  err_if (negb (all_hex token_hex 64))
    (FactoryError.InvalidReproduction "escrow usdc() returned malformed ABI data");;
  Ok ("0x" +:+ drop_bytes 24 token_hex).

Definition balance_calldata (parent_address : string) : result FactoryError.t string :=
  let parent_hex := default (trim parent_address) (strip_prefix (trim parent_address) "0x") in
  err_if (negb (all_hex parent_hex 40))
    (FactoryError.InvalidReproduction "registered parent EVM address is malformed");;
  Ok ("0x70a08231" +:+ pad_64 parent_hex).

Definition verified_balance (balance_result : string) : result FactoryError.t N :=
  ok_or (parse_hex_uint 128 (trim_start_0x balance_result))
    (FactoryError.InvalidReproduction
      "USDC balanceOf returned malformed or oversized ABI data").

Section Live.
Context `{Externals, CallRpc}.

Definition create_reproduction_session (caller : string)
    (request : CreateReproductionSessionRequest.t) (now_ms : N) (session_id : string)
    : C CreateSpawnSessionResponse.t :=
  '(endpoints, escrow, parent_address) ← read_state (fun state =>
    parent ← ok_or (FactoryState.registry state !! caller)
      (FactoryError.UnauthorizedReproduction caller);
    Ok (configured_rpc_endpoints (FactoryState.base_rpc_endpoint state)
          (FactoryState.base_rpc_fallback_endpoint state),
        FactoryState.escrow_contract_address state,
        SpawnedAutomatonRecord.evm_address parent));
  token_result ← eth_call endpoints escrow "0x3e413bee";
  token_address ← lift (token_of token_result);
  calldata ← lift (balance_calldata parent_address);
  balance_result ← eth_call endpoints token_address calldata;
  balance ← lift (verified_balance balance_result);
  create_reproduction_session_with_verified_balance caller request now_ms session_id balance.
End Live.

(** ** When an automaton may reproduce *)

Lemma max_option_None l : max_option l = None <-> l = [].
Proof. by destruct l. Qed.

Lemma max_option_le l bound :
  (forall m, max_option l = Some m -> (m <= bound)%N) <-> Forall (fun x => (x <= bound)%N) l.
Proof.
  destruct l as [|x l]; cbn [max_option]; [by split; [constructor|]|]. split.
  - intros H. specialize (H _ eq_refl). revert H. rewrite Forall_cons.
    induction l as [|y l IH]; cbn [foldr]; [by split|]. intros H.
    destruct IH as [Hx Hl]; [lia|]. split; [done|]. constructor; [lia|done].
  - intros [Hx Hl]%Forall_cons m [= <-].
    induction l as [|y l IH]; cbn [foldr]; [done|]. apply Forall_cons in Hl as [Hy Hl].
    specialize (IH Hl). lia.
Qed.

(** Every session of a living or finished child of [caller] is at least a
    cooldown old. *)
Definition cooled_down (caller : string) (now_ms : N) (state : FactoryState.t) : Prop :=
  forall session_id session, FactoryState.sessions state !! session_id = Some session ->
    SpawnSession.origin session = Some (SpawnSessionOrigin.ReproductionOf caller) ->
    SpawnSession.state session <> SpawnSessionState.Expired ->
    (SpawnSession.created_at session + REPRODUCTION_COOLDOWN_MS <= now_ms)%N.

Definition of_age (parent : SpawnedAutomatonRecord.t) (now_ms : N) : Prop :=
  (SpawnedAutomatonRecord.created_at parent + REPRODUCTION_MIN_AGE_MS <= now_ms)%N.

Lemma last_reproduction_cooled caller now_ms state :
  is_some_and (fun last => saturating_sub now_ms last <? REPRODUCTION_COOLDOWN_MS)%N
    (last_reproduction_at caller state) = false <->
  cooled_down caller now_ms state.
Proof.
  assert (Hcool : (0 < REPRODUCTION_COOLDOWN_MS)%N) by done.
  unfold last_reproduction_at, cooled_down, saturating_sub. set (l := _ <$> _).
  generalize REPRODUCTION_COOLDOWN_MS, Hcool. intros cooldown Hpos.
  transitivity (forall m, max_option l = Some m -> (m + cooldown <= now_ms)%N).
  { destruct (max_option l) as [m|]; cbn [is_some_and]; [|by split].
    rewrite N.ltb_ge. split; [intros ? ? [= <-]; lia|]. intros H. specialize (H _ eq_refl). lia. }
  destruct (decide (cooldown <= now_ms)%N) as [Hle|Hlt].
  - transitivity (forall m, max_option l = Some m -> (m <= now_ms - cooldown)%N).
    { split; intros H m Hm; specialize (H m Hm); lia. }
    rewrite max_option_le, Forall_forall. subst l. setoid_rewrite list_elem_of_fmap.
    setoid_rewrite list_elem_of_filter. setoid_rewrite elem_of_btree_values.
    unfold counts_as_child. setoid_rewrite andb_true_iff. setoid_rewrite bool_decide_eq_true.
    split.
    + intros H id session Hs Ho Hst. cut (SpawnSession.created_at session <= now_ms - cooldown)%N; [lia|].
      apply H. eauto 10.
    + intros H ? (session & -> & (Ho & Hst) & id & Hs). specialize (H _ _ Hs Ho Hst). lia.
  - split.
    + intros H id session Hs Ho Hst. exfalso.
      destruct (max_option l) as [m|] eqn:Hm; [specialize (H _ eq_refl); lia|].
      apply max_option_None in Hm. eapply (not_elem_of_nil (SpawnSession.created_at session)).
      rewrite <-Hm. subst l. apply list_elem_of_fmap_2, list_elem_of_filter.
      split; [|apply elem_of_btree_values; eauto]. unfold counts_as_child.
      by rewrite !bool_decide_eq_true_2.
    + intros H m Hm. exfalso. destruct l as [|x l'] eqn:Hl; [done|].
      assert (x ∈ l) as Hx by (rewrite Hl; by left). clear Hm. subst l.
      rewrite Hl in Hx. rewrite <-Hl in Hx.
      apply list_elem_of_fmap in Hx as (session & -> & Hin).
      apply list_elem_of_filter in Hin as [Hc [id Hs]%elem_of_btree_values].
      unfold counts_as_child in Hc. apply andb_true_iff in Hc as [Ho Hst].
      apply bool_decide_eq_true in Ho, Hst. specialize (H _ _ Hs Ho Hst). lia.
Qed.

Lemma check_timing_Ok caller parent now_ms state :
  check_timing parent (last_reproduction_at caller state) now_ms = Ok tt <->
  of_age parent now_ms /\ cooled_down caller now_ms state.
Proof.
  unfold check_timing. rewrite err_if_seq_Ok, err_if_Ok, last_reproduction_cooled, N.ltb_ge.
  unfold of_age, saturating_sub. assert (0 < REPRODUCTION_MIN_AGE_MS)%N by done.
  split; intros [? ?]; (split; [lia|done]).
Qed.

Lemma living_parent_Ok caller state parent :
  living_parent caller state = Ok parent <->
  FactoryState.registry state !! caller = Some parent
  /\ SpawnedAutomatonRecord.death_cause parent = None.
Proof.
  unfold living_parent. rewrite result_bind_Ok. setoid_rewrite ok_or_Ok.
  setoid_rewrite err_if_seq_Ok. split.
  - intros (p & Hp & Hd & [= <-]). by destruct (SpawnedAutomatonRecord.death_cause p).
  - intros (Hp & Hd). exists parent. by rewrite Hd.
Qed.

(** the eligibility query and the admission agree.  For a registered
    automaton that is alive, the query returns without changing anything, and
    it answers "eligible" exactly when the admission's own timing check passes
    - although the one compares deadlines and the other elapsed times - that
    is, when the automaton is seven days old and none of its sessions that did
    not expire is younger than three days.  (The clock is below the last
    64-bit instant, where a saturated deadline stops being reachable.)  For any
    other caller it is refused. *)
Theorem reproduction_eligibility_agrees caller now_ms canister
    (Hclock : (now_ms < max_uint 64)%N) :
  let state := Canister.factory canister in
  match reproduction_eligibility caller now_ms canister with
  | Trap => False
  | Fail e canister' =>
      canister' = canister /\ e = FactoryError.UnauthorizedReproduction caller
      /\ forall parent, FactoryState.registry state !! caller = Some parent ->
           SpawnedAutomatonRecord.death_cause parent <> None
  | Done eligibility canister' =>
      canister' = canister
      /\ exists parent, FactoryState.registry state !! caller = Some parent
      /\ SpawnedAutomatonRecord.death_cause parent = None
      /\ (ReproductionEligibility.eligible eligibility = true <->
          check_timing parent (last_reproduction_at caller state) now_ms = Ok tt)
      /\ (ReproductionEligibility.eligible eligibility = true <->
          of_age parent now_ms /\ cooled_down caller now_ms state)
  end.
Proof.
  intros state. unfold reproduction_eligibility, read_state. exec. fold state.
  destruct (living_parent caller state) as [parent|e] eqn:Hparent; cbn [mbind result_bind].
  2:{ unfold living_parent in Hparent. split; [done|].
      destruct (FactoryState.registry state !! caller) as [parent|]; cbn in Hparent;
        [|injection Hparent as <-; done].
      destruct (SpawnedAutomatonRecord.death_cause parent) eqn:Hd; cbn in Hparent; [|done].
      injection Hparent as <-. split; [done|]. intros ? [= <-]. congruence. }
  apply living_parent_Ok in Hparent as [Hparent Halive].
  split; [done|]. exists parent. split; [done|]. split; [done|].
  rewrite <-check_timing_Ok. cbn [ReproductionEligibility.eligible].
  match goal with |- ?P /\ _ => cut P; [done|] end.
  unfold check_timing. rewrite err_if_seq_Ok, err_if_Ok.
  unfold saturating_add, saturating_sub. revert Hclock. generalize (max_uint 64). intros bound Hclock.
  assert (0 < REPRODUCTION_MIN_AGE_MS)%N by done. assert (0 < REPRODUCTION_COOLDOWN_MS)%N by done.
  generalize dependent REPRODUCTION_MIN_AGE_MS. intros age Hage.
  generalize dependent REPRODUCTION_COOLDOWN_MS. intros cooldown Hcooldown.
  set (created := SpawnedAutomatonRecord.created_at parent).
  destruct (N.ltb_spec now_ms (N.min (created + age) bound)), (N.ltb_spec (now_ms - created) age);
    try lia; cbn [negb is_some]; [naive_solver|].
  destruct (last_reproduction_at caller state) as [last|]; [|done]. cbn [fmap option_fmap option_map is_some_and].
  destruct (N.ltb_spec now_ms (N.min (last + cooldown) bound)), (N.ltb_spec (now_ms - last) cooldown);
    try lia; cbn [negb is_some]; naive_solver.
Qed.

(** ** What a child's session is *)

Section ReproduceProof.
Context `{ext : Externals}.

(** The conditions, on the facts the registry and the request give. *)
Definition reproduction_allowed (state : FactoryState.t) (caller : string)
    (request : CreateReproductionSessionRequest.t) (now_ms balance : N)
    (parent : SpawnedAutomatonRecord.t) (parent_session : SpawnSession.t)
    (name child : string) (gross fee cost : N) : Prop :=
  let parent_constitution := trim (CreateReproductionSessionRequest.parent_constitution request) in
  FactoryState.registry state !! caller = Some parent
  /\ SpawnedAutomatonRecord.death_cause parent = None
  /\ FactoryState.sessions state !! SpawnedAutomatonRecord.session_id parent = Some parent_session
  /\ of_age parent now_ms
  /\ cooled_down caller now_ms state
  /\ SpawnedAutomatonRecord.constitution_hash parent = Some (sha256_text parent_constitution)
  /\ validate_inheritance (CreateReproductionSessionRequest.memory_dowry request)
       (CreateReproductionSessionRequest.inherited_strategy_stats request) = Ok tt
  /\ validate_genesis (CreateReproductionSessionRequest.name request)
       (CreateReproductionSessionRequest.child_constitution request) = Ok (name, child)
  /\ (exists distance, is_edit_distance (chars parent_constitution) (chars child) distance
       /\ (distance <= mutation_threshold (chars parent_constitution) (chars child))%N)
  /\ parse_amount (CreateReproductionSessionRequest.gross_amount request) = Ok gross
  /\ parse_amount (FeeConfig.usdc_fee (FactoryState.fee_config state)) = Ok fee
  /\ parse_amount (CreationCostQuote.usdc_cost (FactoryState.creation_cost_quote state)) = Ok cost
  /\ (N.min (fee + cost + REPRODUCTION_MIN_ENDOWMENT_USDC_RAW) (max_uint 128) <= gross)%N
  /\ (N.min (gross + (REPRODUCTION_TERMINAL_RESERVE_USDC_RAW
       + REPRODUCTION_INFERENCE_RESERVE_USDC_RAW + REPRODUCTION_TOPUP_RESERVE_USDC_RAW))
       (max_uint 128) <= balance)%N.

(** What the child's session records of its descent. *)
Definition descends (state : FactoryState.t) (caller : string)
    (request : CreateReproductionSessionRequest.t) (now_ms : N)
    (parent : SpawnedAutomatonRecord.t) (parent_session : SpawnSession.t) (child : string)
    (fee : N) (session : SpawnSession.t) : Prop :=
  SpawnSession.state session = SpawnSessionState.AwaitingPayment
  /\ SpawnSession.created_at session = now_ms
  /\ SpawnSession.origin session = Some (SpawnSessionOrigin.ReproductionOf caller)
  /\ SpawnSession.parent_id session = Some caller
  /\ SpawnSession.generation session =
       Some (saturating_add 32 (default 0%N (SpawnedAutomatonRecord.generation parent)) 1)
  /\ SpawnSession.parent_constitution_hash session
     = SpawnedAutomatonRecord.constitution_hash parent
  /\ SpawnSession.config session = SpawnSession.config parent_session
  /\ SpawnSession.gross_amount session = CreateReproductionSessionRequest.gross_amount request
  /\ SpawnSession.memory_dowry session
     = Some (CreateReproductionSessionRequest.memory_dowry request)
  /\ exists shares amount_parent amount_progenitor,
       SpawnSession.royalty_allocations session = Some shares
       /\ (RoyaltyAllocation.recipient <$> head shares)
          = Some (SpawnedAutomatonRecord.evm_address parent)
       /\ ((fun share => parse_amount (RoyaltyAllocation.amount share)) <$> shares)
          = [Ok amount_parent; Ok amount_progenitor]
       /\ (20 * (amount_parent + amount_progenitor) <= 3 * fee)%N.

Lemma royalty_amount_spec fee bps :
  (bps <= 10000)%N -> exists amount,
    parse_amount (royalty_amount fee bps) = Ok amount /\ (10000 * amount <= fee * bps)%N.
Proof.
  intros Hbps. unfold royalty_amount, saturating_mul. set (product := N.min _ _).
  exists (product `div` 10000)%N. split.
  - apply parse_amount_to_string. unfold in_uint.
    pose proof (N.Div0.div_le_upper_bound product 10000 (max_uint 128)).
    assert (product <= max_uint 128)%N by (subst product; lia).
    revert H H0. generalize (max_uint 128). intros. apply H. lia.
  - pose proof (N.Div0.mul_div_le product 10000). subst product. lia.
Qed.

Lemma genesis_fits name constitution name' constitution' :
  validate_genesis name constitution = Ok (name', constitution') ->
  (N.of_nat (length (chars constitution')) <= max_uint 32)%N.
Proof.
  unfold validate_genesis. cbv zeta. intros [_ H]%err_if_seq_Ok.
  apply err_if_seq_Ok in H as [Hc H]. apply err_if_seq_Ok in H as [_ [= _ <-]].
  apply negb_false_iff, andb_true_iff in Hc as [_ Hc%N.leb_le]. unfold char_count in Hc.
  etrans; [exact Hc|]. done.
Qed.

Lemma check_endowment_Ok gross fee cost balance :
  check_endowment gross fee cost balance = Ok tt <->
  (N.min (fee + cost + REPRODUCTION_MIN_ENDOWMENT_USDC_RAW) (max_uint 128) <= gross)%N
  /\ (N.min (gross + (REPRODUCTION_TERMINAL_RESERVE_USDC_RAW
       + REPRODUCTION_INFERENCE_RESERVE_USDC_RAW + REPRODUCTION_TOPUP_RESERVE_USDC_RAW))
       (max_uint 128) <= balance)%N.
Proof.
  unfold check_endowment, minimum_gross, required_surplus, saturating_add.
  rewrite err_if_seq_Ok, err_if_Ok, !N.ltb_ge. generalize (max_uint 128). intros bound. lia.
Qed.

(** A child's session.  Asked with a balance the factory read itself, and
    under an unused id, the creation never panics and a refusal changes
    nothing.  A success means that the caller is a registered automaton that is
    alive, old enough and cooled down, that it knows the constitution whose
    hash the registry holds, that the child's constitution is a valid genesis
    within the edit distance, that the payment covers fee, creation cost and
    the child's endowment and leaves the parent its reserves; and the session
    that is stored, and nothing but the parent's registry entry beside it,
    names its parent, the next generation and the parent's configuration, and
    grants the parent and its progenitor at most fifteen percent of the fee. *)
Theorem reproduction_session_correct caller request now_ms session_id balance canister
    (Hfresh : fresh_id session_id (Canister.factory canister)) :
  let state := Canister.factory canister in
  match create_reproduction_session_with_verified_balance caller request now_ms session_id
          balance canister with
  | Trap => False
  | Fail _ canister' => canister' = canister
  | Done (CreateSpawnSessionResponse.mk session _) canister' =>
      let state' := Canister.factory canister' in
      exists parent parent_session name child gross fee cost,
        reproduction_allowed state caller request now_ms balance parent parent_session name child
          gross fee cost
        /\ descends state caller request now_ms parent parent_session child fee session
        /\ FactoryState.sessions state' = <[session_id := session]> (FactoryState.sessions state)
        /\ forall other, other <> caller ->
             FactoryState.registry state' !! other = FactoryState.registry state !! other
  end.
Proof.
  intros state. unfold create_reproduction_session_with_verified_balance. exec.
  destruct (validate_inheritance _ _) as [[]|e] eqn:Hinherit; cbn [map_err]; [|done].
  destruct (validate_genesis _ _) as [[name child]|e] eqn:Hgenesis; cbn [map_err]; [|done].
  unfold read_state, lift. fold state.
  destruct (parent_facts caller state) as [[[[[parent parent_session] fee] cost] last]|e] eqn:Hfacts;
    [|done].
  unfold parent_facts in Hfacts.
  apply result_bind_Ok in Hfacts as (p & Hparent & Hfacts).
  apply result_bind_Ok in Hfacts as (ps & Hps%ok_or_Ok & Hfacts).
  apply result_bind_Ok in Hfacts as (f & Hfee & Hfacts).
  apply result_bind_Ok in Hfacts as (k & Hcost & [= -> -> -> -> <-]).
  apply living_parent_Ok in Hparent as [Hparent Halive].
  destruct (check_timing parent _ now_ms) as [[]|e] eqn:Htiming; [|done].
  apply check_timing_Ok in Htiming as [Hage Hcool].
  unfold check_parent_constitution.
  destruct (SpawnedAutomatonRecord.constitution_hash parent) as [hash|] eqn:Hhash; cbn [ok_or mbind result_bind];
    [|done].
  destruct (bool_decide (sha256_text (trim (CreateReproductionSessionRequest.parent_constitution request))
    <> hash)) eqn:Hmatch; cbn [err_if mbind result_bind]; [done|].
  apply bool_decide_eq_false, dec_stable in Hmatch.
  destruct (mutation_verdict (trim (CreateReproductionSessionRequest.parent_constitution request)) child)
    as (verdict & -> & Hdistance); [by eapply genesis_fits|].
  destruct verdict as [distance|e]; cbn [map_err]; [|done].
  destruct (parse_amount (CreateReproductionSessionRequest.gross_amount request)) as [gross|e] eqn:Hgross;
    [|done].
  destruct (check_endowment gross fee cost balance) as [[]|e] eqn:Hendow; [|done].
  apply check_endowment_Ok in Hendow as [Hmin Hreserve].
  rewrite create_run by done. fold state. destruct (admission _ _ _ _) as [[checked [selected amounts]]|e] eqn:Hadmit;
    [|done].
  cbv zeta. set (session := new_session _ _ _ _ _ _ _). unfold write_state, zoom, retain_named_children. exec.
  exists parent, parent_session, name, child, gross, fee, cost.
  split; [|split; [|split]].
  - unfold reproduction_allowed. rewrite Hhash, Hmatch. repeat (split; [done|]). split; [|done].
    exists distance. by apply Hdistance.
  - apply admit_parts in Hadmit as (_ & Hg & _).
    apply check_genesis_frame in Hg as (n & c & -> & _).
    destruct (royalty_amount_spec fee REPRODUCTION_PARENT_ROYALTY_BPS) as (r1 & Hr1 & Hb1); [done|].
    destruct (royalty_amount_spec fee REPRODUCTION_PROGENITOR_ROYALTY_BPS) as (r2 & Hr2 & Hb2); [done|].
    unfold descends. rewrite Hhash. repeat (split; [reflexivity|]).
    exists (royalties state parent fee), r1, r2. split; [reflexivity|]. split; [reflexivity|].
    split; [unfold royalties; cbn [fmap list_fmap RoyaltyAllocation.amount]; by rewrite Hr1, Hr2|].
    revert Hb1 Hb2. unfold REPRODUCTION_PARENT_ROYALTY_BPS, REPRODUCTION_PROGENITOR_ROYALTY_BPS. lia.
  - simpl_set. apply (created_state_fields session).
  - intros other Hother. simpl_set. rewrite lookup_alter_ne by done.
    unfold created_state. edestruct sync_poll_frame as [jobs ->]. done.
Qed.
End ReproduceProof.

(** ** Witnesses *)

Module ReproductionSamples.
#[local] Existing Instance toy_externals.

Definition constitution : string := SessionSamples.constitution.
Definition child_constitution : string := "b" +:+ constitution.

Definition parent : SpawnedAutomatonRecord.t := {|
  SpawnedAutomatonRecord.name := Some "Ada";
  SpawnedAutomatonRecord.constitution_hash := Some (sha256_text constitution);
  SpawnedAutomatonRecord.canister_id := "parent";
  SpawnedAutomatonRecord.steward_address := "0xs";
  SpawnedAutomatonRecord.evm_address := "0xe";
  SpawnedAutomatonRecord.chain := SpawnChain.Base;
  SpawnedAutomatonRecord.session_id := "s";
  SpawnedAutomatonRecord.parent_id := None;
  SpawnedAutomatonRecord.generation := None;
  SpawnedAutomatonRecord.parent_constitution_hash := None;
  SpawnedAutomatonRecord.royalty_allocations := None;
  SpawnedAutomatonRecord.child_ids := [];
  SpawnedAutomatonRecord.created_at := 7;
  SpawnedAutomatonRecord.version_commit := "v";
  SpawnedAutomatonRecord.controllers := None;
  SpawnedAutomatonRecord.control_status := None;
  SpawnedAutomatonRecord.control_verified_at := None;
  SpawnedAutomatonRecord.death_cause := None;
  SpawnedAutomatonRecord.died_at := None;
  SpawnedAutomatonRecord.estate_disposition := None;
  SpawnedAutomatonRecord.death_recorded_by := None;
  SpawnedAutomatonRecord.death_incident_reference := None;
|}.

Definition request : CreateReproductionSessionRequest.t := {|
  CreateReproductionSessionRequest.name := "Bea";
  CreateReproductionSessionRequest.parent_constitution := constitution;
  CreateReproductionSessionRequest.child_constitution := child_constitution;
  CreateReproductionSessionRequest.gross_amount := "75000000";
  CreateReproductionSessionRequest.observed_liquid_usdc_raw := "0";
  CreateReproductionSessionRequest.memory_dowry := [];
  CreateReproductionSessionRequest.inherited_strategy_stats := [];
|}.

Definition canister : Canister.t :=
  Canister.mk (Samples.state_with (Samples.session SpawnSessionState.Complete PaymentStatus.Paid)
    <| FactoryState.registry := {["parent" := parent]} |>) ∅.

Lemma reproduction_eligibility_agrees_witness :
  match reproduction_eligibility "parent" (7 + REPRODUCTION_MIN_AGE_MS) canister with
  | Done eligibility _ =>
      ReproductionEligibility.eligible eligibility = true
      /\ of_age parent (7 + REPRODUCTION_MIN_AGE_MS)
  | _ => False
  end.
Proof.
  pose proof (reproduction_eligibility_agrees "parent" (7 + REPRODUCTION_MIN_AGE_MS) canister
    ltac:(done)) as H.
  destruct (reproduction_eligibility _ _ _) as [eligibility canister'|e|] eqn:Hrun;
    [|vm_compute in Hrun; discriminate Hrun..].
  destruct H as (_ & p & Hp & _ & _ & Hiff).
  assert (p = parent) as -> by (vm_compute in Hp; by injection Hp as <-).
  assert (ReproductionEligibility.eligible eligibility = true) as Hyes
    by (vm_compute in Hrun; by injection Hrun as <- _).
  split; [done|]. by apply Hiff.
Defined.

(** A child of the sample parent; with one unit less on the parent's side it is
    refused. *)
Definition create (balance : N) : outcome Canister.t FactoryError.t CreateSpawnSessionResponse.t :=
  create_reproduction_session_with_verified_balance "parent" request
    (7 + REPRODUCTION_MIN_AGE_MS) "child" balance canister.

Definition returned {S E A} (o : outcome S E A) : bool :=
  match o with Done _ _ => true | _ => false end.

Lemma reproduction_session_correct_witness :
  (exists session quote canister',
     create 105000000 = Done (CreateSpawnSessionResponse.mk session quote) canister'
     /\ SpawnSession.generation session = Some 1%N
     /\ FactoryState.sessions (Canister.factory canister') !! "child" = Some session)
  /\ exists e, create 104999999 = Fail e canister.
Proof.
  assert (Hfresh : fresh_id "child" (Canister.factory canister)) by by split.
  pose proof (reproduction_session_correct "parent" request (7 + REPRODUCTION_MIN_AGE_MS) "child"
    105000000 canister Hfresh) as Hyes.
  pose proof (reproduction_session_correct "parent" request (7 + REPRODUCTION_MIN_AGE_MS) "child"
    104999999 canister Hfresh) as Hno.
  assert (Hran : returned (create 105000000) = true) by (vm_compute; reflexivity).
  assert (Hrefused : returned (create 104999999) = false) by (vm_compute; reflexivity).
  fold (create 105000000) in Hyes. fold (create 104999999) in Hno. revert Hyes Hno Hran Hrefused.
  generalize (create 105000000), (create 104999999). intros yes no Hyes Hno Hran Hrefused.
  destruct yes as [[session quote] canister'|e|]; [|done..].
  destruct no as [response canister''|e canister''|]; [done| |destruct Hno].
  split; [|exists e; by rewrite Hno]. exists session, quote, canister'. split; [done|].
  destruct Hyes as (p & ? & ? & ? & ? & ? & ? & Hallowed & Hdescends & Hstored & _).
  rewrite Hstored. split; [|apply lookup_insert_eq].
  destruct Hallowed as [Hp _]. destruct Hdescends as (_ & _ & _ & _ & Hgeneration & _).
  assert (p = parent) as -> by (vm_compute in Hp; by injection Hp as <-). exact Hgeneration.
Defined.
End ReproductionSamples.
