(* ===== verification/Repository.v ===== *)
(** * Repository: the strategies a spawn can select

    Models [backend/factory/src/strategy_repository.rs] and
    [backend/factory/src/api/repository.rs]: the normal form of a strategy's
    metadata, the check of its recipe against it, the records seeded at
    install, and the calls that add, deprecate and revoke strategies.  The
    embedded manifest and recipes are parameters, decoded as [serde_json]
    leaves them. *)

From S2P Require Import Prelude Text SpawnProtocol Types Externals State Samples Init Transitions Scheduler Escrow Sessions.

Definition invalid_repository_strategy (field message : string) : FactoryError.t :=
  FactoryError.InvalidRepositoryStrategy field message.

Definition require_trimmed (value field : string) : result FactoryError.t string :=
  let trimmed := trim value in
  err_if (is_empty trimmed) (invalid_repository_strategy field "must not be empty");;
  Ok trimmed.

Definition parse_spawn_chain (value field : string) : result FactoryError.t SpawnChain.t :=
  if bool_decide (trim value = "base") then Ok SpawnChain.Base
  else Err (invalid_repository_strategy field ("unsupported spawn chain: " +:+ trim value)).

Definition parse_strategy_status (value field : string)
    : result FactoryError.t RepositoryStrategyStatus.t :=
  if bool_decide (trim value = "active") then Ok RepositoryStrategyStatus.Active
  else if bool_decide (trim value = "deprecated") then Ok RepositoryStrategyStatus.Deprecated
  else if bool_decide (trim value = "revoked") then Ok RepositoryStrategyStatus.Revoked
  else Err (invalid_repository_strategy field
              ("unsupported repository strategy status: " +:+ trim value)).

(** The first occurrence of every chain name, in order. *)
Definition push_chain (normalized : list SpawnChain.t) (chain : SpawnChain.t)
    : list SpawnChain.t :=
  if decide (SpawnChain.as_str chain ∈ SpawnChain.as_str <$> normalized)
  then normalized else normalized ++ [chain].

Definition normalize_compatible_spawn_chains (chains : list SpawnChain.t)
    (canonical_chain : SpawnChain.t) : result FactoryError.t (list SpawnChain.t) :=
  let normalized := foldl push_chain [] chains in
  err_if (bool_decide (normalized = []))
    (invalid_repository_strategy "metadata.compatible_spawn_chains"
      "must contain at least one chain");;
  err_if (negb (existsb (fun chain => bool_decide (chain = canonical_chain)) normalized))
    (invalid_repository_strategy "metadata.compatible_spawn_chains"
      "must include the canonical chain");;
  Ok normalized.

Definition normalize_metadata (metadata : RepositoryStrategyMetadata.t)
    : result FactoryError.t RepositoryStrategyMetadata.t :=
  let source := RepositoryStrategyMetadata.source metadata in
  validate_version_commit (RepositoryStrategySource.source_commit source);;
  strategy_id ← require_trimmed (RepositoryStrategyMetadata.strategy_id metadata)
    "metadata.strategy_id";
  name ← require_trimmed (RepositoryStrategyMetadata.name metadata) "metadata.name";
  description ← require_trimmed (RepositoryStrategyMetadata.description metadata)
    "metadata.description";
  compatible_spawn_chains ← normalize_compatible_spawn_chains
    (RepositoryStrategyMetadata.compatible_spawn_chains metadata)
    (RepositoryStrategyMetadata.canonical_chain metadata);
  protocol ← require_trimmed (RepositoryStrategyMetadata.protocol metadata) "metadata.protocol";
  primitive ← require_trimmed (RepositoryStrategyMetadata.primitive metadata)
    "metadata.primitive";
  source_path ← require_trimmed (RepositoryStrategySource.source_path source)
    "metadata.source.source_path";
  Ok {|
    RepositoryStrategyMetadata.strategy_id := strategy_id;
    RepositoryStrategyMetadata.name := name;
    RepositoryStrategyMetadata.description := description;
    RepositoryStrategyMetadata.canonical_chain :=
      RepositoryStrategyMetadata.canonical_chain metadata;
    RepositoryStrategyMetadata.canonical_chain_id :=
      RepositoryStrategyMetadata.canonical_chain_id metadata;
    RepositoryStrategyMetadata.compatible_spawn_chains := compatible_spawn_chains;
    RepositoryStrategyMetadata.protocol := protocol;
    RepositoryStrategyMetadata.primitive := primitive;
    RepositoryStrategyMetadata.source := RepositoryStrategySource.mk source_path
      (trim (RepositoryStrategySource.source_commit source));
  |}.

Definition repository_updated_at (repository_strategies : gmap string RepositoryStrategyRecord.t)
    : N :=
  foldr N.max 0%N (RepositoryStrategyRecord.updated_at <$> btree_values repository_strategies).

Section Records.
Context `{Externals}.

Definition parse_recipe_summary (recipe_json : string)
    : result FactoryError.t StrategyRecipeSummary.t :=
  let trimmed := trim recipe_json in
  err_if (is_empty trimmed) (invalid_repository_strategy "recipe_json" "must not be empty");;
  map_err (fun error => invalid_repository_strategy "recipe_json"
      ("must decode as an ic-automaton strategy recipe: " +:+ error))
    (recipe_from_json trimmed).

(** "must match <field>: expected .., got ..". *)
Definition mismatch_message (field expected got : string) : string :=
  "must match " +:+ field +:+ ": expected " +:+ expected +:+ ", got " +:+ got.

Definition validate_recipe_matches_metadata (metadata : RepositoryStrategyMetadata.t)
    (recipe_json : string) : result FactoryError.t unit :=
  recipe ← parse_recipe_summary recipe_json;
  let strategy_id := RepositoryStrategyMetadata.strategy_id metadata in
  let chain_id := RepositoryStrategyMetadata.canonical_chain_id metadata in
  let protocol := RepositoryStrategyMetadata.protocol metadata in
  let primitive := RepositoryStrategyMetadata.primitive metadata in
  err_if (bool_decide (StrategyRecipeSummary.template_id recipe <> strategy_id))
    (invalid_repository_strategy "recipe_json.template_id"
      (mismatch_message "metadata.strategy_id" strategy_id
        (StrategyRecipeSummary.template_id recipe)));;
  err_if (bool_decide (StrategyRecipeSummary.chain_id recipe <> chain_id))
    (invalid_repository_strategy "recipe_json.chain_id"
      (mismatch_message "metadata.canonical_chain_id" (pretty chain_id)
        (pretty (StrategyRecipeSummary.chain_id recipe))));;
  err_if (bool_decide (StrategyRecipeSummary.protocol recipe <> protocol))
    (invalid_repository_strategy "recipe_json.protocol"
      (mismatch_message "metadata.protocol" protocol (StrategyRecipeSummary.protocol recipe)));;
  err_if (bool_decide (StrategyRecipeSummary.primitive recipe <> primitive))
    (invalid_repository_strategy "recipe_json.primitive"
      (mismatch_message "metadata.primitive" primitive (StrategyRecipeSummary.primitive recipe))).

Definition build_repository_strategy_record (request : AddRepositoryStrategyRequest.t)
    (now_ms : N) : result FactoryError.t RepositoryStrategyRecord.t :=
  metadata ← normalize_metadata (AddRepositoryStrategyRequest.metadata request);
  let recipe_json := trim (AddRepositoryStrategyRequest.recipe_json request) in
  validate_recipe_matches_metadata metadata recipe_json;;
  Ok {|
    RepositoryStrategyRecord.metadata := metadata;
    RepositoryStrategyRecord.recipe_json := recipe_json;
    RepositoryStrategyRecord.status := RepositoryStrategyStatus.Active;
    RepositoryStrategyRecord.created_at := now_ms;
    RepositoryStrategyRecord.updated_at := now_ms;
    RepositoryStrategyRecord.deprecated_at := None;
    RepositoryStrategyRecord.revoked_at := None;
  |}.
End Records.

(** ** The embedded seeds *)

Module StrategySeedEntry.
Record t := mk {
  strategy_id : string;
  display_name : string;
  description : string;
  canonical_chain : string;
  canonical_chain_id : N;
  compatible_spawn_chains : list string;
  protocol : string;
  primitive : string;
  status : string;
  recipe_file : string;
  source_path : string;
  source_commit : string;
}.
End StrategySeedEntry.

Section Seeds.
Context `{Externals}.
(** The three embedded recipes and the entries of the embedded manifest. *)
Context (BASE_AAVE_USDC_RESERVE_RECIPE_JSON BASE_MOONWELL_USDC_RESERVE_RECIPE_JSON
  BASE_USDC_CARRY_CBBTC_RECIPE_JSON : string).

Definition embedded_recipe_json (recipe_file : string) : result FactoryError.t string :=
  if bool_decide (recipe_file = "base-aave-usdc-reserve-01/recipe.json")
  then Ok BASE_AAVE_USDC_RESERVE_RECIPE_JSON
  else if bool_decide (recipe_file = "base-moonwell-usdc-reserve-01/recipe.json")
  then Ok BASE_MOONWELL_USDC_RESERVE_RECIPE_JSON
  else if bool_decide (recipe_file = "base-usdc-carry-cbbtc-01/recipe.json")
  then Ok BASE_USDC_CARRY_CBBTC_RECIPE_JSON
  else Err (invalid_repository_strategy "strategy_seeds.recipe_file"
              ("missing embedded recipe asset: " +:+ recipe_file)).

(** [Ok(..).expect(..)]. *)
Definition expect_ok {E A} (r : result E A) : option A :=
  match r with Ok a => Some a | Err _ => None end.

Definition seed_metadata (entry : StrategySeedEntry.t) (canonical_chain : SpawnChain.t)
    (compatible_spawn_chains : list SpawnChain.t) : RepositoryStrategyMetadata.t := {|
  RepositoryStrategyMetadata.strategy_id := StrategySeedEntry.strategy_id entry;
  RepositoryStrategyMetadata.name := StrategySeedEntry.display_name entry;
  RepositoryStrategyMetadata.description := StrategySeedEntry.description entry;
  RepositoryStrategyMetadata.canonical_chain := canonical_chain;
  RepositoryStrategyMetadata.canonical_chain_id := StrategySeedEntry.canonical_chain_id entry;
  RepositoryStrategyMetadata.compatible_spawn_chains := compatible_spawn_chains;
  RepositoryStrategyMetadata.protocol := StrategySeedEntry.protocol entry;
  RepositoryStrategyMetadata.primitive := StrategySeedEntry.primitive entry;
  RepositoryStrategyMetadata.source := RepositoryStrategySource.mk
    (StrategySeedEntry.source_path entry) (StrategySeedEntry.source_commit entry);
|}.

Definition with_status (status : RepositoryStrategyStatus.t) (now_ms : N)
    (record : RepositoryStrategyRecord.t) : RepositoryStrategyRecord.t :=
  let record := record <| RepositoryStrategyRecord.status := status |> in
  match status with
  | RepositoryStrategyStatus.Active => record
  | RepositoryStrategyStatus.Deprecated =>
      record <| RepositoryStrategyRecord.deprecated_at := Some now_ms |>
  | RepositoryStrategyStatus.Revoked =>
      record <| RepositoryStrategyRecord.revoked_at := Some now_ms |>
  end.

(** One round of the loop; [None] is a panic. *)
Definition seed_record (now_ms : N) (entry : StrategySeedEntry.t)
    : option RepositoryStrategyRecord.t :=
  canonical_chain ← expect_ok (parse_spawn_chain (StrategySeedEntry.canonical_chain entry)
    "strategies.canonical_chain");
  compatible_spawn_chains ← expect_ok (try_map
    (fun chain => parse_spawn_chain chain "strategies.compatible_spawn_chains")
    (StrategySeedEntry.compatible_spawn_chains entry));
  recipe_json ← expect_ok (embedded_recipe_json (StrategySeedEntry.recipe_file entry));
  record ← expect_ok (build_repository_strategy_record
    (AddRepositoryStrategyRequest.mk
      (seed_metadata entry canonical_chain compatible_spawn_chains) recipe_json) now_ms);
  status ← expect_ok (parse_strategy_status (StrategySeedEntry.status entry) "strategies.status");
  Some (with_status status now_ms record).

Fixpoint seed_records (now_ms : N) (entries : list StrategySeedEntry.t)
    (records : gmap string RepositoryStrategyRecord.t)
    : option (gmap string RepositoryStrategyRecord.t) :=
  match entries with
  | [] => Some records
  | entry :: entries =>
      record ← seed_record now_ms entry;
      let strategy_id := RepositoryStrategyMetadata.strategy_id
        (RepositoryStrategyRecord.metadata record) in
      if decide (is_Some (records !! strategy_id)) then None
      else seed_records now_ms entries (<[strategy_id := record]> records)
  end.

Definition seed_repository_records (manifest : list StrategySeedEntry.t) (now_ms : N)
    : option (gmap string RepositoryStrategyRecord.t) :=
  seed_records now_ms manifest ∅.
End Seeds.

(** ** The calls *)

Definition put_strategy (strategy_id : string) (record : RepositoryStrategyRecord.t) : F unit :=
  modify (fun state => state <| FactoryState.repository_strategies ::=
    <[strategy_id := record]> |>).

Definition ensure_admin (caller : string) : F unit := fun state =>
  lift (ensure_admin_in_state state caller) state.

Definition add_repository_strategy `{Externals} (caller : string)
    (request : AddRepositoryStrategyRequest.t) (now_ms : N)
    : C RepositoryStrategyMutationResponse.t :=
  record ← lift (build_repository_strategy_record request now_ms);
  let strategy_id := RepositoryStrategyMetadata.strategy_id
    (RepositoryStrategyRecord.metadata record) in
  write_state (
    ensure_admin caller;;
    existing ← gets (fun state => FactoryState.repository_strategies state !! strategy_id);
    fail_if (is_some existing) (FactoryError.RepositoryStrategyAlreadyExists strategy_id);;
    put_strategy strategy_id record;;
    mret (RepositoryStrategyMutationResponse.mk record)).

(** The calls that move the status of a stored strategy. *)
Definition change_status (caller raw_id : string)
    (change : RepositoryStrategyRecord.t -> RepositoryStrategyRecord.t)
    : C RepositoryStrategyMutationResponse.t :=
  let strategy_id := trim raw_id in
  fail_if (is_empty strategy_id)
    (FactoryError.InvalidRepositoryStrategy "strategy_id" "must not be empty");;
  write_state (
    ensure_admin caller;;
    stored ← gets (fun state => FactoryState.repository_strategies state !! strategy_id);
    strategy ← lift (ok_or stored (FactoryError.RepositoryStrategyNotFound strategy_id));
    let strategy := change strategy in
    put_strategy strategy_id strategy;;
    mret (RepositoryStrategyMutationResponse.mk strategy)).

Definition deprecated (now_ms : N) (strategy : RepositoryStrategyRecord.t)
    : RepositoryStrategyRecord.t :=
  match RepositoryStrategyRecord.status strategy with
  | RepositoryStrategyStatus.Active => strategy
      <| RepositoryStrategyRecord.status := RepositoryStrategyStatus.Deprecated |>
      <| RepositoryStrategyRecord.updated_at := now_ms |>
      <| RepositoryStrategyRecord.deprecated_at := Some now_ms |>
  | _ => strategy
  end.

Definition revoked (now_ms : N) (strategy : RepositoryStrategyRecord.t)
    : RepositoryStrategyRecord.t :=
  match RepositoryStrategyRecord.status strategy with
  | RepositoryStrategyStatus.Revoked => strategy
  | _ => strategy
      <| RepositoryStrategyRecord.status := RepositoryStrategyStatus.Revoked |>
      <| RepositoryStrategyRecord.updated_at := now_ms |>
      <| RepositoryStrategyRecord.revoked_at := Some now_ms |>
  end.

Definition deprecate_repository_strategy (caller : string)
    (request : DeprecateRepositoryStrategyRequest.t) (now_ms : N)
    : C RepositoryStrategyMutationResponse.t :=
  change_status caller (DeprecateRepositoryStrategyRequest.strategy_id request) (deprecated now_ms).

Definition revoke_repository_strategy (caller : string)
    (request : RevokeRepositoryStrategyRequest.t) (now_ms : N)
    : C RepositoryStrategyMutationResponse.t :=
  change_status caller (RevokeRepositoryStrategyRequest.strategy_id request) (revoked now_ms).

Definition list_repository_strategies (state : FactoryState.t)
    : ListRepositoryStrategiesResponse.t :=
  ListRepositoryStrategiesResponse.mk (btree_values (FactoryState.repository_strategies state))
    (repository_updated_at (FactoryState.repository_strategies state)).

Definition get_repository_strategy (strategy_id : string) (state : FactoryState.t)
    : GetRepositoryStrategyResponse.t :=
  GetRepositoryStrategyResponse.mk (FactoryState.repository_strategies state !! trim strategy_id)
    (repository_updated_at (FactoryState.repository_strategies state)).

(** ** Normal forms *)

Lemma require_trimmed_idem value field trimmed :
  require_trimmed value field = Ok trimmed -> require_trimmed trimmed field = Ok trimmed.
Proof.
  unfold require_trimmed. intros [Hne [= <-]]%err_if_seq_Ok. rewrite trim_idem.
  by apply err_if_seq_Ok.
Qed.

Lemma push_chain_fresh chains acc :
  NoDup (SpawnChain.as_str <$> acc ++ chains) -> foldl push_chain acc chains = acc ++ chains.
Proof.
  revert acc. induction chains as [|chain chains IH]; intros acc Hnd; cbn [foldl].
  - by rewrite app_nil_r.
  - unfold push_chain at 2. rewrite decide_False.
    + rewrite IH; by rewrite <-(assoc_L (++)).
    + rewrite fmap_app, fmap_cons in Hnd. apply NoDup_app in Hnd as (_ & Hd & _).
      intros Hin. apply (Hd _ Hin). by left.
Qed.

Lemma push_chain_NoDup chains acc :
  NoDup (SpawnChain.as_str <$> acc) -> NoDup (SpawnChain.as_str <$> foldl push_chain acc chains).
Proof.
  revert acc. induction chains as [|chain chains IH]; intros acc Hnd; cbn [foldl]; [done|].
  apply IH. unfold push_chain. case_decide as Hin; [done|]. rewrite fmap_app.
  apply NoDup_app. split; [done|]. split; [|apply NoDup_singleton].
  intros name Hn ->%list_elem_of_singleton. done.
Qed.

Lemma normalize_chains_idem chains canonical normalized :
  normalize_compatible_spawn_chains chains canonical = Ok normalized ->
  normalize_compatible_spawn_chains normalized canonical = Ok normalized
  /\ NoDup normalized /\ canonical ∈ normalized.
Proof.
  unfold normalize_compatible_spawn_chains. cbv zeta.
  intros [Hne H]%err_if_seq_Ok. apply err_if_seq_Ok in H as [Hin [= <-]].
  pose proof (push_chain_NoDup chains [] (NoDup_nil_2)) as Hnd.
  rewrite (push_chain_fresh (foldl push_chain [] chains) []) by exact Hnd.
  split; [|split].
  - apply err_if_seq_Ok. split; [done|]. by apply err_if_seq_Ok.
  - by eapply NoDup_fmap_1.
  - apply negb_false_iff, existsb_exists in Hin as (c & Hc & ->%bool_decide_eq_true).
    by apply list_elem_of_In.
Qed.

Lemma trim_version_commit commit :
  validate_version_commit commit = Ok tt -> trim commit = commit.
Proof.
  unfold validate_version_commit, is_lower_hex.
  destruct (str_len commit =? 40)%N; cbn [andb]; [|done].
  destruct (forallb is_lower_hex_digit (str_bytes commit)) eqn:Hhex; [|done]. intros _.
  apply trim_plain. rewrite forallb_forall in *. intros a Ha. specialize (Hhex a Ha).
  unfold is_lower_hex_digit, is_plain in *. revert Hhex. generalize (byte_of a). intros n.
  rewrite orb_true_iff, !andb_true_iff, !N.leb_le, N.ltb_lt. lia.
Qed.

Lemma normalize_metadata_idem metadata normalized :
  normalize_metadata metadata = Ok normalized -> normalize_metadata normalized = Ok normalized.
Proof.
  unfold normalize_metadata. intros [Hcommit H]%result_seq_Ok.
  apply is_ok_unit in Hcommit.
  do 3 (apply result_bind_Ok in H as (? & ?%require_trimmed_idem & H)).
  apply result_bind_Ok in H as (chains & [Hchains _]%normalize_chains_idem & H).
  do 3 (apply result_bind_Ok in H as (? & ?%require_trimmed_idem & H)).
  injection H as <-.
  cbn [RepositoryStrategyMetadata.source RepositoryStrategySource.source_commit
    RepositoryStrategySource.source_path RepositoryStrategyMetadata.strategy_id
    RepositoryStrategyMetadata.name RepositoryStrategyMetadata.description
    RepositoryStrategyMetadata.compatible_spawn_chains RepositoryStrategyMetadata.canonical_chain
    RepositoryStrategyMetadata.canonical_chain_id
    RepositoryStrategyMetadata.protocol RepositoryStrategyMetadata.primitive].
  rewrite (trim_version_commit _ Hcommit), Hcommit. cbn [mbind result_bind].
  repeat match goal with
  | H : ?r = Ok _ |- context [?r] => rewrite H; cbn [mbind result_bind]
  end.
  by rewrite (trim_version_commit _ Hcommit).
Qed.

(** ** What the stored strategies keep *)

Section Safety.
Context `{ext : Externals}.

Definition stamps_agree (record : RepositoryStrategyRecord.t) : Prop :=
  match RepositoryStrategyRecord.status record with
  | RepositoryStrategyStatus.Active =>
      RepositoryStrategyRecord.deprecated_at record = None
      /\ RepositoryStrategyRecord.revoked_at record = None
  | RepositoryStrategyStatus.Deprecated =>
      is_Some (RepositoryStrategyRecord.deprecated_at record)
      /\ RepositoryStrategyRecord.revoked_at record = None
  | RepositoryStrategyStatus.Revoked => is_Some (RepositoryStrategyRecord.revoked_at record)
  end.

(** A record is stored under its id, in normal form, with a recipe that agrees
    with its metadata and the time stamps its status calls for. *)
Definition record_wf (strategy_id : string) (record : RepositoryStrategyRecord.t) : Prop :=
  RepositoryStrategyMetadata.strategy_id (RepositoryStrategyRecord.metadata record) = strategy_id
  /\ normalize_metadata (RepositoryStrategyRecord.metadata record)
     = Ok (RepositoryStrategyRecord.metadata record)
  /\ trim (RepositoryStrategyRecord.recipe_json record) = RepositoryStrategyRecord.recipe_json record
  /\ validate_recipe_matches_metadata (RepositoryStrategyRecord.metadata record)
       (RepositoryStrategyRecord.recipe_json record) = Ok tt
  /\ stamps_agree record.

Definition repository_wf (state : FactoryState.t) : Prop :=
  map_Forall record_wf (FactoryState.repository_strategies state).

Definition rank (status : RepositoryStrategyStatus.t) : N :=
  match status with
  | RepositoryStrategyStatus.Active => 0
  | RepositoryStrategyStatus.Deprecated => 1
  | RepositoryStrategyStatus.Revoked => 2
  end.

(** No strategy disappears or is rewritten, and none regains a status. *)
Definition only_ages (before after : RepositoryStrategyRecord.t) : Prop :=
  RepositoryStrategyRecord.metadata after = RepositoryStrategyRecord.metadata before
  /\ RepositoryStrategyRecord.recipe_json after = RepositoryStrategyRecord.recipe_json before
  /\ (rank (RepositoryStrategyRecord.status before)
      <= rank (RepositoryStrategyRecord.status after))%N.

Definition repository_ages (before after : FactoryState.t) : Prop :=
  forall strategy_id record, FactoryState.repository_strategies before !! strategy_id = Some record ->
    exists record', FactoryState.repository_strategies after !! strategy_id = Some record'
      /\ only_ages record record'.

#[export] Instance repository_ages_preorder : PreOrder repository_ages.
Proof.
  split.
  - intros state id record Hr. exists record. by split.
  - intros s1 s2 s3 H12 H23 id record Hr.
    destruct (H12 _ _ Hr) as (r2 & Hr2 & Hm2 & Hj2 & Hk2).
    destruct (H23 _ _ Hr2) as (r3 & Hr3 & Hm3 & Hj3 & Hk3).
    exists r3. split; [done|]. split; [congruence|]. split; [congruence|lia].
Qed.

Abbreviation curates := (stable repository_wf repository_ages).

Lemma build_record_wf request now_ms record :
  build_repository_strategy_record request now_ms = Ok record ->
  record_wf (RepositoryStrategyMetadata.strategy_id (RepositoryStrategyRecord.metadata record)) record.
Proof.
  unfold build_repository_strategy_record.
  intros (metadata & Hm%normalize_metadata_idem & H)%result_bind_Ok.
  apply result_seq_Ok in H as [Hv%is_ok_unit [= <-]].
  split; [done|]. split; [exact Hm|]. split; [apply trim_idem|]. by split.
Qed.

Lemma deprecated_ok strategy_id now_ms record :
  record_wf strategy_id record ->
  record_wf strategy_id (deprecated now_ms record) /\ only_ages record (deprecated now_ms record).
Proof.
  unfold record_wf, only_ages, stamps_agree, deprecated. intros (Hid & Hn & Ht & Hv & Hs).
  destruct (RepositoryStrategyRecord.status record) eqn:Hstatus; simpl_set; rewrite ?Hstatus;
    naive_solver eauto with lia.
Qed.

Lemma revoked_ok strategy_id now_ms record :
  record_wf strategy_id record ->
  record_wf strategy_id (revoked now_ms record) /\ only_ages record (revoked now_ms record).
Proof.
  unfold record_wf, only_ages, stamps_agree, revoked. intros (Hid & Hn & Ht & Hv & Hs).
  destruct (RepositoryStrategyRecord.status record) eqn:Hstatus; simpl_set; rewrite ?Hstatus;
    naive_solver eauto with lia.
Qed.

Lemma put_strategy_curates strategy_id record state :
  record_wf strategy_id record ->
  (forall stored, FactoryState.repository_strategies state !! strategy_id = Some stored ->
     only_ages stored record) ->
  repository_wf state ->
  let state' := state <| FactoryState.repository_strategies ::= <[strategy_id := record]> |> in
  repository_wf state' /\ repository_ages state state'.
Proof.
  intros Hwf Hages Hinv state'. unfold repository_wf, repository_ages, state'. simpl_set. split.
  - by apply map_Forall_insert_2.
  - intros id stored Hstored. destruct (decide (id = strategy_id)) as [->|Hne].
    + exists record. rewrite lookup_insert_eq. auto.
    + exists stored. rewrite lookup_insert_ne by done. by split.
Qed.

Lemma curates_ensure_admin caller : curates (ensure_admin caller).
Proof.
  apply stable_same; [apply _|]. intros s s'. unfold ensure_admin, lift.
  by destruct (ensure_admin_in_state _ _); intros [= <-].
Qed.

(** A call on the repository. *)
Inductive repository_call :=
| Add (request : AddRepositoryStrategyRequest.t)
| Deprecate (request : DeprecateRepositoryStrategyRequest.t)
| Revoke (request : RevokeRepositoryStrategyRequest.t).

Definition run_repository_call (caller : string) (now_ms : N) (call : repository_call)
    : C RepositoryStrategyMutationResponse.t :=
  match call with
  | Add request => add_repository_strategy caller request now_ms
  | Deprecate request => deprecate_repository_strategy caller request now_ms
  | Revoke request => revoke_repository_strategy caller request now_ms
  end.

Lemma change_status_curates caller raw_id change :
  (forall record, record_wf (trim raw_id) record ->
     record_wf (trim raw_id) (change record) /\ only_ages record (change record)) ->
  stable (fun canister => repository_wf (Canister.factory canister))
    (fun before after => repository_ages (Canister.factory before) (Canister.factory after))
    (change_status caller raw_id change).
Proof.
  intros Hchange. unfold change_status. apply stable_bind; [apply _|apply stable_fail_if, _|].
  intros _. apply stable_write_state. apply stable_bind; [apply _|apply curates_ensure_admin|].
  intros _ s s' Hfinal Hinv. revert Hfinal. exec.
  destruct (FactoryState.repository_strategies s !! trim raw_id) as [stored|] eqn:Hstored;
    [|by intros [= <-]].
  unfold put_strategy. exec. intros [= <-].
  destruct (Hchange stored (Hinv _ _ Hstored)) as [Hwf Hages].
  apply put_strategy_curates; [done| |done]. intros ? ?. simplify_eq. done.
Qed.

Lemma add_curates caller request now_ms :
  stable (fun canister => repository_wf (Canister.factory canister))
    (fun before after => repository_ages (Canister.factory before) (Canister.factory after))
    (add_repository_strategy caller request now_ms).
Proof.
  unfold add_repository_strategy.
  destruct (build_repository_strategy_record request now_ms) as [record|e] eqn:Hbuild;
    [|apply stable_throw, _].
  change (stable (fun canister => repository_wf (Canister.factory canister))
    (fun before after => repository_ages (Canister.factory before) (Canister.factory after))
    (write_state (let strategy_id := RepositoryStrategyMetadata.strategy_id
        (RepositoryStrategyRecord.metadata record) in
      ensure_admin caller;;
      existing ← gets (fun state => FactoryState.repository_strategies state !! strategy_id);
      fail_if (is_some existing) (FactoryError.RepositoryStrategyAlreadyExists strategy_id);;
      put_strategy strategy_id record;;
      mret (RepositoryStrategyMutationResponse.mk record)))).
  apply stable_write_state, stable_bind; [apply _|apply curates_ensure_admin|].
  intros _ s s' Hfinal Hinv. revert Hfinal. exec.
  set (strategy_id := RepositoryStrategyMetadata.strategy_id _).
  destruct (FactoryState.repository_strategies s !! strategy_id) as [stored|] eqn:Hstored;
    cbn [is_some]; [by intros [= <-]|].
  unfold put_strategy. exec. intros [= <-].
  apply put_strategy_curates; [by eapply build_record_wf|congruence|done].
Qed.

Lemma seed_record_wf aave moonwell carry now_ms entry record :
  seed_record aave moonwell carry now_ms entry = Some record ->
  record_wf (RepositoryStrategyMetadata.strategy_id (RepositoryStrategyRecord.metadata record)) record.
Proof.
  unfold seed_record. intros H.
  repeat (apply bind_Some in H as (? & ? & H)). injection H as <-.
  destruct (build_repository_strategy_record _ now_ms) as [built|] eqn:Hbuild; [|done].
  assert (Hstamps : RepositoryStrategyRecord.deprecated_at built = None
    /\ RepositoryStrategyRecord.revoked_at built = None).
  { revert Hbuild. unfold build_repository_strategy_record.
    intros (? & _ & H')%result_bind_Ok. by apply result_seq_Ok in H' as [_ [= <-]]. }
  apply build_record_wf in Hbuild as (_ & Hn & Ht & Hv & _).
  match goal with H : expect_ok (Ok built) = Some ?r |- _ => injection H as <- end.
  unfold record_wf, stamps_agree, with_status.
  match goal with |- context [match ?status with _ => _ end] => destruct status end;
    simpl_set; naive_solver.
Qed.

Lemma seed_records_wf aave moonwell carry now_ms entries records seeded :
  seed_records aave moonwell carry now_ms entries records = Some seeded ->
  map_Forall record_wf records -> map_Forall record_wf seeded.
Proof.
  revert records. induction entries as [|entry entries IH]; intros records; cbn [seed_records].
  - by intros [= <-].
  - intros (record & Hrecord & H)%bind_Some Hwf. case_decide; [done|].
    apply (IH _ H). apply map_Forall_insert_2; [|done]. by eapply seed_record_wf.
Qed.

(** the repository stays well formed, and strategies only age.  The seeded
    records and whatever the calls leave behind - accepted or refused - are
    stored under their own ids, with metadata that is its own normal form
    (trimmed, with distinct chains that include the canonical one and a full
    commit hash), a recipe that agrees with the metadata, and the time stamps
    of their status; and no call removes a strategy, rewrites its metadata or
    recipe, or takes its status back from deprecated or revoked. *)
Theorem repository_calls_keep_wf :
  (forall aave moonwell carry manifest now_ms records,
     seed_repository_records aave moonwell carry manifest now_ms = Some records ->
     repository_wf (default_state records))
  /\ forall caller now_ms call,
     stable (fun canister => repository_wf (Canister.factory canister))
       (fun before after => repository_ages (Canister.factory before) (Canister.factory after))
       (run_repository_call caller now_ms call).
Proof.
  split.
  - intros aave moonwell carry manifest now_ms records Hseeds.
    apply (seed_records_wf _ _ _ _ _ _ _ Hseeds), map_Forall_empty.
  - intros caller now_ms [request|request|request]; cbn [run_repository_call].
    + apply add_curates.
    + apply change_status_curates. intros record. apply deprecated_ok.
    + apply change_status_curates. intros record. apply revoked_ok.
Qed.

(** *** Revoked strategies *)

Fixpoint run_repository_calls (calls : list (string * N * repository_call)) : C unit :=
  match calls with
  | [] => mret tt
  | (caller, now_ms, call) :: rest =>
      (catch (run_repository_call caller now_ms call) : C _);; run_repository_calls rest
  end.

Lemma repository_calls_stable calls :
  stable (fun canister => repository_wf (Canister.factory canister))
    (fun before after => repository_ages (Canister.factory before) (Canister.factory after))
    (run_repository_calls calls).
Proof.
  induction calls as [|[[caller now_ms] call] calls IH]; cbn [run_repository_calls];
    [apply stable_ret, _|].
  apply stable_bind; [apply _| |by intros _]. apply stable_catch.
  destruct call; cbn [run_repository_call].
  - apply add_curates.
  - apply change_status_curates. intros record. apply deprecated_ok.
  - apply change_status_curates. intros record. apply revoked_ok.
Qed.

Lemma unselectable_refused state request now_ms strategy_id record :
  FactoryState.repository_strategies state !! strategy_id = Some record ->
  RepositoryStrategyRecord.status record <> RepositoryStrategyStatus.Active ->
  strategy_id ∈ SpawnConfig.strategies (CreateSpawnSessionRequest.config request) ->
  exists e, quote_checks state request now_ms = Err e.
Proof.
  intros Hrecord Hstatus Hin.
  destruct (quote_checks state request now_ms) as [[selected amounts]|e] eqn:Hq; [|eauto].
  apply quote_checks_Ok in Hq as (_ & _ & Hselected & _). exfalso.
  apply list_elem_of_lookup_1 in Hin as [i Hi].
  destruct (Forall2_lookup_l _ _ _ _ _ Hselected Hi) as (snapshot & _ & r & Hr & Hactive & _).
  congruence.
Qed.

(** a revoked strategy is out of reach for good.  Whatever repository
    calls follow a revocation, by whomever and in whatever order, no session
    that names the strategy can be opened any more: every such creation is
    refused and writes nothing. *)
Theorem revoked_strategy_unselectable strategy_id record calls canister canister'
    (Hwf : repository_wf (Canister.factory canister))
    (Hrecord : FactoryState.repository_strategies (Canister.factory canister) !! strategy_id
               = Some record)
    (Hrevoked : RepositoryStrategyRecord.status record = RepositoryStrategyStatus.Revoked)
    (Hcalls : final_state (run_repository_calls calls canister) = Some canister') :
  forall request now_ms session_id lineage,
    strategy_id ∈ SpawnConfig.strategies (CreateSpawnSessionRequest.config request) ->
    exists e, create_spawn_session_with_session_id request now_ms session_id lineage canister'
              = Fail e canister'.
Proof.
  intros request now_ms session_id lineage Hin.
  destruct (repository_calls_stable calls canister canister' Hcalls Hwf) as [_ Hages].
  destruct (Hages _ _ Hrecord) as (record' & Hrecord' & _ & _ & Hrank).
  assert (Hnot : RepositoryStrategyRecord.status record' <> RepositoryStrategyStatus.Active).
  { intros Heq. rewrite Hrevoked, Heq in Hrank. by cbn in Hrank. }
  unfold create_spawn_session_with_session_id. exec.
  destruct (check_origin _ _) as [[]|e]; [|eauto].
  destruct (check_genesis request) as [checked|e] eqn:Hgenesis; [|eauto].
  apply check_genesis_frame in Hgenesis as (name & constitution & -> & _).
  destruct (unselectable_refused (Canister.factory canister')
    (request <| CreateSpawnSessionRequest.name := Some name |>
             <| CreateSpawnSessionRequest.constitution := Some constitution |>)
    now_ms strategy_id record') as [e He]; [done|done|exact Hin|].
  exists e. unfold write_state, zoom, open_session. exec. rewrite He.
  f_equal. by destruct canister'.
Qed.
End Safety.

(** ** Witness *)

Module RepositorySamples.
#[local] Existing Instance toy_externals.

Definition commit : string := concat_str (replicate 40 "a").

Definition metadata : RepositoryStrategyMetadata.t := {|
  RepositoryStrategyMetadata.strategy_id := "lend";
  RepositoryStrategyMetadata.name := "Lend";
  RepositoryStrategyMetadata.description := "d";
  RepositoryStrategyMetadata.canonical_chain := SpawnChain.Base;
  RepositoryStrategyMetadata.canonical_chain_id := 8453;
  RepositoryStrategyMetadata.compatible_spawn_chains := [SpawnChain.Base; SpawnChain.Base];
  RepositoryStrategyMetadata.protocol := "p";
  RepositoryStrategyMetadata.primitive := " q";
  RepositoryStrategyMetadata.source := RepositoryStrategySource.mk "x" commit;
|}.

(** The canister after an admin added and revoked the strategy. *)
Definition outcome : outcome Canister.t FactoryError.t unit :=
  run_repository_calls
    [("admin", 5%N, Add (AddRepositoryStrategyRequest.mk metadata "lend"));
     ("admin", 6%N, Revoke (RevokeRepositoryStrategyRequest.mk " lend" None))]
    SessionSamples.canister.

Definition request : CreateSpawnSessionRequest.t :=
  SessionSamples.request <| CreateSpawnSessionRequest.config ::= fun config =>
    SpawnConfig.mk (SpawnConfig.chain config) (SpawnConfig.risk config) ["lend"]
      (SpawnConfig.skills config) (SpawnConfig.provider config) |>.

Lemma revoked_strategy_unselectable_witness :
  match outcome with
  | Done _ canister =>
      match run_repository_calls
              [("admin", 7%N, Add (AddRepositoryStrategyRequest.mk metadata "lend"))] canister with
      | Done _ canister' =>
          exists e, create_spawn_session_with_session_id request 8 "s" Lineage.human canister'
                    = Fail e canister'
      | _ => False
      end
  | _ => False
  end.
Proof.
  assert (Hwf : repository_wf (Canister.factory SessionSamples.canister)) by by intros ? ?.
  pose proof (repository_calls_stable
    [("admin", 5%N, Add (AddRepositoryStrategyRequest.mk metadata "lend"));
     ("admin", 6%N, Revoke (RevokeRepositoryStrategyRequest.mk " lend" None))]
    SessionSamples.canister) as Hstable. fold outcome in Hstable.
  destruct outcome as [u canister|e canister|] eqn:Hrun; [|vm_compute in Hrun; discriminate Hrun..].
  destruct (Hstable canister eq_refl Hwf) as [Hwf' _].
  destruct (run_repository_calls [_] canister) as [u' canister'|e canister'|] eqn:Hrun';
    [|vm_compute in Hrun; injection Hrun as _ <-; vm_compute in Hrun'; discriminate Hrun'..].
  destruct (FactoryState.repository_strategies (Canister.factory canister) !! "lend")
    as [record|] eqn:Hrecord;
    [|vm_compute in Hrun; injection Hrun as _ <-; vm_compute in Hrecord; discriminate Hrecord].
  apply (revoked_strategy_unselectable "lend" record
    [("admin", 7%N, Add (AddRepositoryStrategyRequest.mk metadata "lend"))] canister);
    [exact Hwf'|exact Hrecord| |by rewrite Hrun'|by left].
  vm_compute in Hrun. injection Hrun as _ <-. vm_compute in Hrecord. by injection Hrecord as <-.
Defined.
End RepositorySamples.
