(* ===== verification/Admin.v ===== *)
(** * Admin: configuration, artifacts, deaths and health

    Models [backend/factory/src/api/admin.rs]: the setters of the
    configuration, the record of an infrastructure death, the upload of the
    automaton's Wasm module in chunks, and the views of health, jobs and
    sessions.  Every call that changes something is a constructor of
    [admin_call]. *)

From S2P Require Import Prelude Text SpawnProtocol Types Externals State Samples Init Transitions Scheduler Retry Evidence Escrow Broadcast Sessions Repository.
From Stdlib Require Import Strings.Byte.

(** ** Configuration *)

(** [write_state] of a closure that checks the caller and then assigns. *)
Definition assign (caller : string) (update : FactoryState.t -> FactoryState.t) : C unit :=
  write_state (ensure_admin caller;; modify update).

Definition set_fee_config (caller : string) (config : FeeConfig.t) (now_ms : N) : C FeeConfig.t :=
  lift (parse_amount (FeeConfig.usdc_fee config));;
  let config := FeeConfig.mk (FeeConfig.usdc_fee config) now_ms in
  assign caller (fun state => state <| FactoryState.fee_config := config |>);;
  mret config.

Definition set_creation_cost_quote (caller : string) (config : CreationCostQuote.t) (now_ms : N)
    : C CreationCostQuote.t :=
  lift (parse_amount (CreationCostQuote.usdc_cost config));;
  let config := CreationCostQuote.mk (CreationCostQuote.usdc_cost config) now_ms in
  assign caller (fun state => state <| FactoryState.creation_cost_quote := config |>);;
  mret config.

Definition with_release_broadcast_config (config : ReleaseBroadcastConfig.t)
    (state : FactoryState.t) : FactoryState.t :=
  state
    <| FactoryState.release_broadcast_config := config |>
    <| FactoryState.child_runtime ::= fun child_runtime =>
         if is_some (AutomatonChildRuntimeConfig.evm_chain_id child_runtime)
         then child_runtime <| AutomatonChildRuntimeConfig.evm_chain_id :=
                Some (ReleaseBroadcastConfig.chain_id config) |>
         else child_runtime |>.

Definition set_release_broadcast_config (caller : string) (config : ReleaseBroadcastConfig.t)
    : C ReleaseBroadcastConfig.t :=
  assign caller (with_release_broadcast_config config);;
  mret config.

Definition with_child_runtime (config : AutomatonChildRuntimeConfig.t) (state : FactoryState.t)
    : FactoryState.t :=
  set_if_some (AutomatonChildRuntimeConfig.evm_chain_id config)
    (fun chain_id state => state <| FactoryState.release_broadcast_config ::=
       set ReleaseBroadcastConfig.chain_id (fun _ => chain_id) |>)
    (state <| FactoryState.child_runtime := config |>).

Definition set_child_runtime_config (caller : string) (config : AutomatonChildRuntimeConfig.t)
    : C AutomatonChildRuntimeConfig.t :=
  assign caller (with_child_runtime config);;
  mret config.

Definition set_operational_config (caller : string) (config : FactoryOperationalConfig.t)
    : C FactoryOperationalConfig.t :=
  let depth := FactoryOperationalConfig.evm_confirmation_depth config in
  fail_if (depth =? 0)%N
    (FactoryError.InvalidOperationalConfig "evm_confirmation_depth" "must be greater than zero");;
  fail_if (MAX_EVM_CONFIRMATION_DEPTH <? depth)%N
    (FactoryError.InvalidOperationalConfig "evm_confirmation_depth"
      ("exceeds maximum supported confirmation depth " +:+ pretty MAX_EVM_CONFIRMATION_DEPTH));;
  assign caller (fun state => state
    <| FactoryState.cycles_per_spawn := FactoryOperationalConfig.cycles_per_spawn config |>
    <| FactoryState.min_pool_balance := FactoryOperationalConfig.min_pool_balance config |>
    <| FactoryState.estimated_outcall_cycles_per_interval :=
         FactoryOperationalConfig.estimated_outcall_cycles_per_interval config |>
    <| FactoryState.evm_confirmation_depth := depth |>);;
  mret config.

Definition set_pause (caller : string) (paused : bool) : C bool :=
  assign caller (fun state => state <| FactoryState.pause := paused |>);;
  mret paused.

(** ** Infrastructure deaths *)

Definition check_infrastructure_report (request : RecordInfrastructureDeathRequest.t)
    : result FactoryError.t unit :=
  let incident_reference := trim (RecordInfrastructureDeathRequest.incident_reference request) in
  let disposition := trim (RecordInfrastructureDeathRequest.estate_disposition request) in
  err_if (is_empty (trim (RecordInfrastructureDeathRequest.canister_id request)))
    (FactoryError.InvalidDeathReport "canister_id is required");;
  err_if (is_empty incident_reference
          || negb (starts_with incident_reference "https://"
                   || starts_with incident_reference "ipfs://"))
    (FactoryError.InvalidDeathReport
      "a public https:// or ipfs:// incident_reference is required");;
  err_if (bool_decide (disposition <> "monument")
          && bool_decide (disposition <> "bequests_executed"))
    (FactoryError.InvalidDeathReport "estate disposition must be monument or bequests_executed").

Definition infrastructure_record (caller disposition incident_reference : string) (now_ms : N)
    (record : SpawnedAutomatonRecord.t) : SpawnedAutomatonRecord.t :=
  record
    <| SpawnedAutomatonRecord.death_cause := Some "infrastructure" |>
    <| SpawnedAutomatonRecord.died_at := Some now_ms |>
    <| SpawnedAutomatonRecord.estate_disposition := Some disposition |>
    <| SpawnedAutomatonRecord.death_recorded_by := Some caller |>
    <| SpawnedAutomatonRecord.death_incident_reference := Some incident_reference |>.

Definition record_infrastructure_death (caller : string)
    (request : RecordInfrastructureDeathRequest.t) (now_ms : N) : C SpawnedAutomatonRecord.t :=
  let canister_id := trim (RecordInfrastructureDeathRequest.canister_id request) in
  let incident_reference := trim (RecordInfrastructureDeathRequest.incident_reference request) in
  lift (check_infrastructure_report request);;
  write_state (
    ensure_admin caller;;
    stored ← gets (fun state => FactoryState.registry state !! canister_id);
    record ← lift (ok_or stored (FactoryError.RegistryRecordNotFound canister_id));
    if bool_decide (SpawnedAutomatonRecord.death_cause record = Some "starved") then mret record
    else if bool_decide (SpawnedAutomatonRecord.death_cause record = Some "infrastructure") then
      fail_if (bool_decide (SpawnedAutomatonRecord.death_incident_reference record
                            <> Some incident_reference))
        (FactoryError.InvalidDeathReport
          "infrastructure death already recorded with a different incident reference");;
      mret record
    else
      let record := infrastructure_record caller
        (trim (RecordInfrastructureDeathRequest.estate_disposition request)) incident_reference
        now_ms record in
      put_record canister_id record;;
      mret record).

(** ** Views *)

Definition get_factory_config (caller : string) : C FactoryConfigSnapshot.t :=
  read_state (fun state =>
    ensure_admin_in_state state caller;;
    Ok {|
      FactoryConfigSnapshot.fee_config := FactoryState.fee_config state;
      FactoryConfigSnapshot.creation_cost_quote := FactoryState.creation_cost_quote state;
      FactoryConfigSnapshot.release_broadcast_config :=
        FactoryState.release_broadcast_config state;
      FactoryConfigSnapshot.child_runtime := FactoryState.child_runtime state;
      FactoryConfigSnapshot.pause := FactoryState.pause state;
      FactoryConfigSnapshot.payment_address := FactoryState.payment_address state;
      FactoryConfigSnapshot.escrow_contract_address := FactoryState.escrow_contract_address state;
      FactoryConfigSnapshot.factory_evm_address := FactoryState.factory_evm_address state;
      FactoryConfigSnapshot.base_rpc_endpoint := FactoryState.base_rpc_endpoint state;
      FactoryConfigSnapshot.base_rpc_fallback_endpoint :=
        FactoryState.base_rpc_fallback_endpoint state;
      FactoryConfigSnapshot.cycles_per_spawn := FactoryState.cycles_per_spawn state;
      FactoryConfigSnapshot.min_pool_balance := FactoryState.min_pool_balance state;
      FactoryConfigSnapshot.estimated_outcall_cycles_per_interval :=
        FactoryState.estimated_outcall_cycles_per_interval state;
      FactoryConfigSnapshot.evm_confirmation_depth := FactoryState.evm_confirmation_depth state;
      FactoryConfigSnapshot.session_ttl_ms := FactoryState.session_ttl_ms state;
      FactoryConfigSnapshot.version_commit := FactoryState.version_commit state;
      FactoryConfigSnapshot.wasm_sha256 := FactoryState.wasm_sha256 state;
    |}).

Definition size_of (bytes : list byte) : N := N.of_nat (length bytes).

Definition build_artifact_snapshot (state : FactoryState.t) : FactoryArtifactSnapshot.t := {|
  FactoryArtifactSnapshot.loaded := is_some (FactoryState.wasm_bytes state);
  FactoryArtifactSnapshot.wasm_sha256 := FactoryState.wasm_sha256 state;
  FactoryArtifactSnapshot.version_commit :=
    (fun _ => FactoryState.version_commit state) <$> FactoryState.wasm_bytes state;
  FactoryArtifactSnapshot.wasm_size_bytes := size_of <$> FactoryState.wasm_bytes state;
|}.

Definition build_artifact_upload_status (state : FactoryState.t) : ArtifactUploadStatus.t :=
  match FactoryState.pending_artifact_upload state with
  | Some upload => ArtifactUploadStatus.mk true
      (Some (PendingArtifactUpload.expected_sha256 upload))
      (Some (PendingArtifactUpload.version_commit upload))
      (Some (PendingArtifactUpload.total_size_bytes upload))
      (size_of (PendingArtifactUpload.wasm_bytes upload))
  | None => ArtifactUploadStatus.mk false None None None 0
  end.

Definition count_if {A} (p : A -> bool) (l : list A) : N :=
  N.of_nat (length (filter (fun x => p x = true) l)).

(** [build_scheduler_job_counts]: the counters of its loop over the jobs, and
    the length of the retry queue. *)
Definition waits_for_retry (job : SchedulerJob.t) : bool :=
  (0 <? SchedulerJob.consecutive_failure_count job)%N && is_some (SchedulerJob.next_run_at_ms job).

Definition count_job (counts : FactorySchedulerJobCounts.t * N) (job : SchedulerJob.t)
    : FactorySchedulerJobCounts.t * N :=
  let incr := fun n => wrapping_add 64 n 1 in
  let '(counts, retry_queue_count) := counts in
  let counts := counts <| FactorySchedulerJobCounts.total ::= incr |> in
  let counts :=
    match SchedulerJob.status job with
    | SchedulerJobStatus.Pending => counts <| FactorySchedulerJobCounts.pending ::= incr |>
    | SchedulerJobStatus.Running => counts <| FactorySchedulerJobCounts.running ::= incr |>
    | SchedulerJobStatus.Completed => counts <| FactorySchedulerJobCounts.completed ::= incr |>
    | SchedulerJobStatus.Backoff => counts <| FactorySchedulerJobCounts.backoff ::= incr |>
    | SchedulerJobStatus.Skipped => counts <| FactorySchedulerJobCounts.skipped ::= incr |>
    | SchedulerJobStatus.Terminal => counts <| FactorySchedulerJobCounts.terminal ::= incr |>
    end in
  (if is_some (SchedulerJob.last_error job)
   then counts <| FactorySchedulerJobCounts.with_last_error ::= incr |> else counts,
   if waits_for_retry job then incr retry_queue_count else retry_queue_count).

Definition build_scheduler_job_counts (state : FactoryState.t) : FactorySchedulerJobCounts.t * N :=
  foldl count_job (FactorySchedulerJobCounts.default, 0%N)
    (btree_values (FactoryState.scheduler_jobs state)).

Definition build_scheduler_health_snapshot (state : FactoryState.t)
    : FactorySchedulerHealthSnapshot.t :=
  let '(job_counts, retry_queue_count) := build_scheduler_job_counts state in
  let runtime := FactoryState.scheduler_runtime state in {|
    FactorySchedulerHealthSnapshot.last_tick_started_ms :=
      SchedulerRuntime.last_tick_started_ms runtime;
    FactorySchedulerHealthSnapshot.last_tick_finished_ms :=
      SchedulerRuntime.last_tick_finished_ms runtime;
    FactorySchedulerHealthSnapshot.last_tick_error := SchedulerRuntime.last_tick_error runtime;
    FactorySchedulerHealthSnapshot.active_job_ids := SchedulerRuntime.active_job_ids runtime;
    FactorySchedulerHealthSnapshot.job_counts := job_counts;
    FactorySchedulerHealthSnapshot.retry_queue_count := retry_queue_count;
  |}.

Definition count_session (counts : FactorySessionHealthCounts.t) (session : SpawnSession.t)
    : FactorySessionHealthCounts.t :=
  let incr := fun n => wrapping_add 64 n 1 in
  match SpawnSession.state session with
  | SpawnSessionState.AwaitingPayment =>
      counts <| FactorySessionHealthCounts.awaiting_payment ::= incr |>
  | SpawnSessionState.PaymentDetected =>
      counts <| FactorySessionHealthCounts.payment_detected ::= incr |>
  | SpawnSessionState.Spawning => counts <| FactorySessionHealthCounts.spawning ::= incr |>
  | SpawnSessionState.BroadcastingRelease =>
      counts <| FactorySessionHealthCounts.broadcasting_release ::= incr |>
  | SpawnSessionState.Failed =>
      if SpawnSession.retryable session
      then counts <| FactorySessionHealthCounts.retryable_failed ::= incr |> else counts
  | SpawnSessionState.Complete | SpawnSessionState.Expired => counts
  end.

(** [balance] is [current_canister_balance()]. *)
Definition get_factory_health (balance : N) (state : FactoryState.t) : FactoryHealthSnapshot.t := {|
  FactoryHealthSnapshot.current_canister_balance := balance;
  FactoryHealthSnapshot.pause := FactoryState.pause state;
  FactoryHealthSnapshot.cycles_per_spawn := FactoryState.cycles_per_spawn state;
  FactoryHealthSnapshot.min_pool_balance := FactoryState.min_pool_balance state;
  FactoryHealthSnapshot.estimated_outcall_cycles_per_interval :=
    FactoryState.estimated_outcall_cycles_per_interval state;
  FactoryHealthSnapshot.escrow_contract_address := FactoryState.escrow_contract_address state;
  FactoryHealthSnapshot.factory_evm_address := FactoryState.factory_evm_address state;
  FactoryHealthSnapshot.artifact := build_artifact_snapshot state;
  FactoryHealthSnapshot.active_sessions :=
    foldl count_session FactorySessionHealthCounts.default
      (btree_values (FactoryState.sessions state));
  FactoryHealthSnapshot.scheduler := build_scheduler_health_snapshot state;
|}.

(** *** Job lists *)

Definition job_recency_ms (job : SchedulerJob.t) : N :=
  foldr N.max 0%N (omap id [SchedulerJob.last_finished_at_ms job;
    SchedulerJob.last_started_at_ms job; SchedulerJob.leased_at_ms job]).

Definition job_failure_ms (job : SchedulerJob.t) : N :=
  match SchedulerJob.last_error job with
  | Some failure => SchedulerJobFailure.occurred_at failure
  | None => 0
  end.

(** Descending in [key], then in the id. *)
Definition later_first (key : SchedulerJob.t -> N) : relation SchedulerJob.t := fun x y =>
  (key y < key x)%N \/ key x = key y /\ key_le (SchedulerJob.job_id y) (SchedulerJob.job_id x).

(** Ascending in the next run (a job without one first), then in the id. *)
Definition sooner_first : relation SchedulerJob.t := fun x y =>
  match SchedulerJob.next_run_at_ms x, SchedulerJob.next_run_at_ms y with
  | None, Some _ => True
  | Some _, None => False
  | None, None => key_le (SchedulerJob.job_id x) (SchedulerJob.job_id y)
  | Some nx, Some ny =>
      (nx < ny)%N \/ nx = ny /\ key_le (SchedulerJob.job_id x) (SchedulerJob.job_id y)
  end.

#[export] Instance later_first_dec key : RelDecision (later_first key).
Proof. intros x y. unfold later_first. apply _. Defined.
#[export] Instance sooner_first_dec : RelDecision sooner_first.
Proof.
  intros x y. unfold sooner_first.
  destruct (SchedulerJob.next_run_at_ms x), (SchedulerJob.next_run_at_ms y); apply _.
Defined.

Definition sort_jobs_by_recency_desc (jobs : list SchedulerJob.t) : list SchedulerJob.t :=
  merge_sort (later_first job_recency_ms) jobs.

Definition get_factory_runtime (caller : string) (recent_job_limit : nat)
    : C FactoryRuntimeSnapshot.t :=
  fail_if (bool_decide (recent_job_limit = 0))
    (FactoryError.InvalidPaginationLimit (N.of_nat recent_job_limit));;
  read_state (fun state =>
    ensure_admin_in_state state caller;;
    let jobs := btree_values (FactoryState.scheduler_jobs state) in
    Ok {|
      FactoryRuntimeSnapshot.scheduler := build_scheduler_health_snapshot state;
      FactoryRuntimeSnapshot.active_jobs :=
        omap (fun job_id => FactoryState.scheduler_jobs state !! job_id)
          (SchedulerRuntime.active_job_ids (FactoryState.scheduler_runtime state));
      FactoryRuntimeSnapshot.retry_queue :=
        merge_sort sooner_first (filter (fun job => waits_for_retry job = true) jobs);
      FactoryRuntimeSnapshot.recent_jobs :=
        take recent_job_limit (sort_jobs_by_recency_desc jobs);
      FactoryRuntimeSnapshot.failed_jobs :=
        take recent_job_limit (merge_sort (later_first job_failure_ms)
          (filter (fun job => is_some (SchedulerJob.last_error job) = true) jobs));
    |}).

(** ** The artifact *)

Definition store_artifact (wasm_bytes : list byte) (wasm_sha256 version_commit : string)
    : F FactoryArtifactSnapshot.t :=
  modify (fun state => state
    <| FactoryState.wasm_bytes := Some wasm_bytes |>
    <| FactoryState.wasm_sha256 := Some wasm_sha256 |>
    <| FactoryState.pending_artifact_upload := None |>
    <| FactoryState.version_commit := version_commit |>);;
  gets build_artifact_snapshot.

Definition begin_artifact_upload (caller expected_sha256 version_commit : string)
    (total_size_bytes : N) : C ArtifactUploadStatus.t :=
  lift (validate_sha256_hex expected_sha256);;
  lift (validate_version_commit version_commit);;
  write_state (
    ensure_admin caller;;
    modify (fun state => state <| FactoryState.pending_artifact_upload :=
      Some (PendingArtifactUpload.mk expected_sha256 version_commit total_size_bytes []) |>);;
    gets build_artifact_upload_status).

Definition pending_upload : F PendingArtifactUpload.t := fun state =>
  lift (ok_or (FactoryState.pending_artifact_upload state) FactoryError.NoPendingArtifactUpload)
    state.

Definition append_artifact_chunk (caller : string) (chunk : list byte)
    : C ArtifactUploadStatus.t :=
  write_state (
    ensure_admin caller;;
    upload ← pending_upload;
    let attempted := wrapping_add 64 (size_of (PendingArtifactUpload.wasm_bytes upload))
      (size_of chunk) in
    fail_if (PendingArtifactUpload.total_size_bytes upload <? attempted)%N
      (FactoryError.ArtifactUploadTooLarge (PendingArtifactUpload.total_size_bytes upload)
        attempted);;
    modify (fun state => state <| FactoryState.pending_artifact_upload :=
      Some (upload <| PendingArtifactUpload.wasm_bytes ::= fun bytes => bytes ++ chunk |>) |>);;
    gets build_artifact_upload_status).

Definition get_artifact_upload_status (caller : string) : C ArtifactUploadStatus.t :=
  read_state (fun state =>
    ensure_admin_in_state state caller;; Ok (build_artifact_upload_status state)).

Section Artifact.
Context `{Externals}.

Definition artifact_hash (bytes : list byte) : string := hex_encode (sha256 bytes).

Definition update_artifact (caller : string) (wasm_bytes : list byte)
    (expected_sha256 version_commit : string) : C FactoryArtifactSnapshot.t :=
  lift (validate_sha256_hex expected_sha256);;
  lift (validate_version_commit version_commit);;
  let actual_sha256 := artifact_hash wasm_bytes in
  fail_if (bool_decide (actual_sha256 <> expected_sha256))
    (FactoryError.ArtifactHashMismatch expected_sha256 actual_sha256);;
  write_state (ensure_admin caller;; store_artifact wasm_bytes actual_sha256 version_commit).

Definition commit_artifact_upload (caller : string) : C FactoryArtifactSnapshot.t :=
  write_state (
    ensure_admin caller;;
    upload ← pending_upload;
    let received := size_of (PendingArtifactUpload.wasm_bytes upload) in
    fail_if (bool_decide (received <> PendingArtifactUpload.total_size_bytes upload))
      (FactoryError.ArtifactUploadIncomplete (PendingArtifactUpload.total_size_bytes upload)
        received);;
    let actual_sha256 := artifact_hash (PendingArtifactUpload.wasm_bytes upload) in
    fail_if (bool_decide (actual_sha256 <> PendingArtifactUpload.expected_sha256 upload))
      (FactoryError.ArtifactHashMismatch (PendingArtifactUpload.expected_sha256 upload)
        actual_sha256);;
    modify (fun state => state <| FactoryState.pending_artifact_upload := None |>);;
    store_artifact (PendingArtifactUpload.wasm_bytes upload)
      (PendingArtifactUpload.expected_sha256 upload)
      (PendingArtifactUpload.version_commit upload)).
End Artifact.

(** ** Sessions *)

Definition get_session_admin (caller session_id : string) : C SessionAdminView.t :=
  read_state (fun state =>
    ensure_admin_in_state state caller;;
    session ← ok_or (FactoryState.sessions state !! session_id)
      (FactoryError.SessionNotFound session_id);
    let asset := SpawnSession.asset session in
    platform_fee ← parse_amount (FeeConfig.amount_for (FactoryState.fee_config state) asset);
    creation_cost ← parse_amount
      (CreationCostQuote.amount_for (FactoryState.creation_cost_quote state) asset);
    escrow_claim ← ok_or (FactoryState.escrow_claims state !! session_id)
      (FactoryError.EscrowClaimNotFound session_id);
    let of_canister {A} (records : gmap string A) : option A :=
      canister_id ← SpawnSession.automaton_canister_id session; records !! canister_id in
    Ok {|
      SessionAdminView.session := session;
      SessionAdminView.audit := default [] (FactoryState.audit_log state !! session_id);
      SessionAdminView.quote := quote_of (FactoryState.payment_address state) session;
      SessionAdminView.escrow_claim := escrow_claim;
      SessionAdminView.runtime_record := of_canister (FactoryState.runtimes state);
      SessionAdminView.registry_record := of_canister (FactoryState.registry state);
      SessionAdminView.pause := FactoryState.pause state;
      SessionAdminView.quoted_total_amount :=
        amount_to_string (wrapping_add 128 platform_fee creation_cost);
    |}).

Definition retry_session_admin (caller session_id : string) (now_ms : N)
    : C SpawnSessionStatusResponse.t :=
  read_state (fun state => ensure_admin_in_state state caller);;
  retry_failed_session session_id SessionAuditActor.Admin now_ms "retry requested by admin";;
  get_spawn_session session_id.

(** ** All calls that change something *)

Inductive admin_call :=
| SetFeeConfig (config : FeeConfig.t)
| SetCreationCostQuote (config : CreationCostQuote.t)
| SetReleaseBroadcastConfig (config : ReleaseBroadcastConfig.t)
| SetChildRuntimeConfig (config : AutomatonChildRuntimeConfig.t)
| SetOperationalConfig (config : FactoryOperationalConfig.t)
| SetPause (paused : bool)
| RecordInfrastructureDeath (request : RecordInfrastructureDeathRequest.t)
| UpdateArtifact (wasm_bytes : list byte) (expected_sha256 version_commit : string)
| BeginArtifactUpload (expected_sha256 version_commit : string) (total_size_bytes : N)
| AppendArtifactChunk (chunk : list byte)
| CommitArtifactUpload
| RetrySessionAdmin (session_id : string)
| EditRepository (call : repository_call).

Definition discard {A} (m : C A) : C unit := m;; mret tt.

Definition run_admin_call `{Externals} (caller : string) (now_ms : N) (call : admin_call)
    : C unit :=
  match call with
  | SetFeeConfig config => discard (set_fee_config caller config now_ms)
  | SetCreationCostQuote config => discard (set_creation_cost_quote caller config now_ms)
  | SetReleaseBroadcastConfig config => discard (set_release_broadcast_config caller config)
  | SetChildRuntimeConfig config => discard (set_child_runtime_config caller config)
  | SetOperationalConfig config => discard (set_operational_config caller config)
  | SetPause paused => discard (set_pause caller paused)
  | RecordInfrastructureDeath request =>
      discard (record_infrastructure_death caller request now_ms)
  | UpdateArtifact wasm_bytes expected_sha256 version_commit =>
      discard (update_artifact caller wasm_bytes expected_sha256 version_commit)
  | BeginArtifactUpload expected_sha256 version_commit total_size_bytes =>
      discard (begin_artifact_upload caller expected_sha256 version_commit total_size_bytes)
  | AppendArtifactChunk chunk => discard (append_artifact_chunk caller chunk)
  | CommitArtifactUpload => discard (commit_artifact_upload caller)
  | RetrySessionAdmin session_id => discard (retry_session_admin caller session_id now_ms)
  | EditRepository call => discard (run_repository_call caller now_ms call)
  end.

(** ** Only administrators *)

Lemma not_admin_stops {A} caller (k : F A) canister :
  caller ∉ FactoryState.admin_principals (Canister.factory canister) ->
  stops (write_state (ensure_admin caller;; k)) canister.
Proof.
  intros Hcaller. exists (FactoryError.UnauthorizedAdmin caller).
  unfold write_state, zoom, ensure_admin, ensure_admin_in_state. exec.
  rewrite decide_False by done. by destruct canister.
Qed.

Lemma stops_read_admin {A} caller (k : unit -> C A) canister :
  caller ∉ FactoryState.admin_principals (Canister.factory canister) ->
  stops (read_state (fun state => ensure_admin_in_state state caller) ≫= k) canister.
Proof.
  intros Hcaller. exists (FactoryError.UnauthorizedAdmin caller).
  unfold read_state, ensure_admin_in_state. exec. by rewrite decide_False.
Qed.

Section AdminProof.
Context `{ext : Externals}.

Lemma repository_call_stops caller now_ms call canister :
  caller ∉ FactoryState.admin_principals (Canister.factory canister) ->
  stops (run_repository_call caller now_ms call) canister.
Proof.
  intros Hcaller. destruct call; cbn [run_repository_call].
  - apply stops_lift. intros record. by apply not_admin_stops.
  - apply stops_fail_if. by apply not_admin_stops.
  - apply stops_fail_if. by apply not_admin_stops.
Qed.

(** Only administrators administrate.  Called by anybody who is not among
    the admin principals, every call that could change the configuration, the
    artifact, the strategies, a death record or a failed session fails and
    writes nothing, whatever its arguments. *)
Theorem admin_calls_authorised caller now_ms call canister
    (Hcaller : caller ∉ FactoryState.admin_principals (Canister.factory canister)) :
  exists e, run_admin_call caller now_ms call canister = Fail e canister.
Proof.
  change (stops (run_admin_call caller now_ms call) canister).
  destruct call; cbn [run_admin_call]; unfold discard; apply stops_bind.
  - apply stops_lift. intros _. by apply stops_bind, not_admin_stops.
  - apply stops_lift. intros _. by apply stops_bind, not_admin_stops.
  - by apply stops_bind, not_admin_stops.
  - by apply stops_bind, not_admin_stops.
  - apply stops_fail_if, stops_fail_if. by apply stops_bind, not_admin_stops.
  - by apply stops_bind, not_admin_stops.
  - apply stops_lift. intros _. by apply not_admin_stops.
  - apply stops_lift. intros _. apply stops_lift. intros _. apply stops_fail_if.
    by apply not_admin_stops.
  - apply stops_lift. intros _. apply stops_lift. intros _. by apply not_admin_stops.
  - by apply not_admin_stops.
  - by apply not_admin_stops.
  - by apply stops_read_admin.
  - by apply repository_call_stops.
Qed.

(** ** What the configuration keeps *)

Definition artifact_hashed (state : FactoryState.t) : Prop :=
  forall bytes, FactoryState.wasm_bytes state = Some bytes ->
    FactoryState.wasm_sha256 state = Some (artifact_hash bytes).

Definition config_inv (state : FactoryState.t) : Prop :=
  chains_agree state
  /\ artifact_hashed state
  /\ is_ok (parse_amount (FeeConfig.usdc_fee (FactoryState.fee_config state))) = true
  /\ is_ok (parse_amount (CreationCostQuote.usdc_cost (FactoryState.creation_cost_quote state)))
     = true
  /\ (0 < FactoryState.evm_confirmation_depth state <= MAX_EVM_CONFIRMATION_DEPTH)%N.

Lemma config_inv_frame state state' :
  FactoryState.child_runtime state' = FactoryState.child_runtime state ->
  FactoryState.release_broadcast_config state' = FactoryState.release_broadcast_config state ->
  FactoryState.wasm_bytes state' = FactoryState.wasm_bytes state ->
  FactoryState.wasm_sha256 state' = FactoryState.wasm_sha256 state ->
  FactoryState.fee_config state' = FactoryState.fee_config state ->
  FactoryState.creation_cost_quote state' = FactoryState.creation_cost_quote state ->
  FactoryState.evm_confirmation_depth state' = FactoryState.evm_confirmation_depth state ->
  config_inv state -> config_inv state'.
Proof.
  unfold config_inv, chains_agree, artifact_hashed. by intros -> -> -> -> -> -> ->.
Qed.

Abbreviation keeps_config := (preserves config_inv).
Abbreviation canister_keeps_config :=
  (preserves (fun canister => config_inv (Canister.factory canister))).

Lemma keeps_config_modify (f : FactoryState.t -> FactoryState.t) :
  (forall state, config_inv state -> config_inv (f state)) ->
  keeps_config (modify f : F unit).
Proof. intros Hf. apply stable_modify. auto. Qed.

Lemma keeps_config_ensure caller : keeps_config (ensure_admin caller).
Proof.
  apply stable_same; [apply _|]. intros s s'. unfold ensure_admin, lift.
  by destruct (ensure_admin_in_state _ _); intros [= <-].
Qed.

Lemma keeps_config_guarded {A} caller (m : F A) :
  keeps_config m -> canister_keeps_config (write_state (ensure_admin caller;; m)).
Proof.
  intros Hm. apply (stable_write_state config_inv (fun _ _ => True)).
  apply stable_bind; [apply _|apply keeps_config_ensure|done].
Qed.

Lemma keeps_config_assign caller f :
  (forall state, config_inv state -> config_inv (f state)) ->
  canister_keeps_config (assign caller f).
Proof. intros Hf. by apply keeps_config_guarded, keeps_config_modify. Qed.

Lemma chains_release_config config state :
  config_inv state -> config_inv (with_release_broadcast_config config state).
Proof.
  unfold config_inv, chains_agree, artifact_hashed, with_release_broadcast_config.
  intros (_ & Hrest). simpl_set. split; [|exact Hrest].
  destruct (AutomatonChildRuntimeConfig.evm_chain_id (FactoryState.child_runtime state)) eqn:Hchain;
    cbn [is_some]; simpl_set.
  - by intros ? [= <-].
  - rewrite Hchain. done.
Qed.

Lemma chains_child_runtime config state :
  config_inv state -> config_inv (with_child_runtime config state).
Proof.
  unfold config_inv, chains_agree, artifact_hashed, with_child_runtime, set_if_some.
  intros (_ & Hrest).
  destruct (AutomatonChildRuntimeConfig.evm_chain_id config) eqn:Hchain; simpl_set;
    (split; [|exact Hrest]); rewrite Hchain; [by intros ? [= <-]|done].
Qed.

Lemma keeps_config_event session_id actor now_ms event reason :
  keeps_config (apply_session_event_in_state session_id actor now_ms event reason).
Proof.
  intros state state' Hfinal Hinv. split; [|done]. revert Hfinal.
  destruct (FactoryState.sessions state !! session_id) as [session|] eqn:Hs.
  - rewrite (apply_session_event_run _ _ _ _ _ _ _ Hs).
    destruct (event_outcome _ _ _ _ _) as [[[[from to_state] reset]|]|e]; intros [= <-]; done.
  - rewrite (apply_session_event_missing _ _ _ _ _ _ Hs). by intros [= <-].
Qed.

Lemma keeps_config_retry session_id actor now_ms reason :
  keeps_config (retry_spawn_session_in_state session_id actor now_ms reason).
Proof.
  apply stable_bind; [apply _|apply keeps_config_event|]. intros session.
  apply stable_bind; [apply _| |intros _; apply stable_ret, _].
  apply keeps_config_modify. intros state. by apply config_inv_frame.
Qed.

Lemma keeps_config_store wasm_bytes version_commit :
  keeps_config (store_artifact wasm_bytes (artifact_hash wasm_bytes) version_commit).
Proof.
  apply stable_bind; [apply _| |intros _; apply stable_gets, _].
  apply keeps_config_modify. intros state (Hchains & _ & Hrest).
  split; [exact Hchains|]. split; [by intros ? [= <-]|exact Hrest].
Qed.

Lemma keeps_config_commit caller : canister_keeps_config (commit_artifact_upload caller).
Proof.
  apply keeps_config_guarded. intros state state' Hfinal Hinv. split; [|done]. revert Hfinal.
  unfold pending_upload. exec.
  destruct (FactoryState.pending_artifact_upload state) as [upload|]; [|by intros [= <-]].
  cbv zeta. destruct (bool_decide (size_of _ <> _)); [by intros [= <-]|].
  destruct (bool_decide (artifact_hash _ <> _)) eqn:Hhash; [by intros [= <-]|].
  apply bool_decide_eq_false, dec_stable in Hhash. rewrite <-Hhash.
  intros [= <-]. destruct Hinv as (Hchains & _ & Hrest).
  split; [exact Hchains|]. split; [by intros ? [= <-]|exact Hrest].
Qed.

Lemma keeps_config_append caller chunk : canister_keeps_config (append_artifact_chunk caller chunk).
Proof.
  apply keeps_config_guarded. intros state state' Hfinal Hinv. split; [|done]. revert Hfinal.
  unfold pending_upload. exec.
  destruct (FactoryState.pending_artifact_upload state) as [upload|]; [|by intros [= <-]].
  cbv zeta. destruct (_ <? _)%N; intros [= <-]; [done|]. by eapply config_inv_frame.
Qed.

Lemma keeps_config_death caller request now_ms :
  canister_keeps_config (record_infrastructure_death caller request now_ms).
Proof.
  apply stable_bind; [apply _|apply stable_lift, _|]. intros _.
  apply keeps_config_guarded. intros state state' Hfinal Hinv. split; [|done]. revert Hfinal.
  unfold put_record. exec.
  destruct (FactoryState.registry state !! _) as [record|]; [|by intros [= <-]].
  destruct (bool_decide (_ = Some "starved")); [by intros [= <-]|].
  destruct (bool_decide (_ = Some "infrastructure"));
    [destruct (bool_decide (_ <> _)); by intros [= <-]|].
  intros [= <-]. by eapply config_inv_frame.
Qed.

Lemma keeps_config_status caller raw_id change :
  canister_keeps_config (change_status caller raw_id change).
Proof.
  apply stable_bind; [apply _|apply stable_fail_if, _|]. intros _.
  apply keeps_config_guarded. intros state state' Hfinal Hinv. split; [|done]. revert Hfinal.
  unfold put_strategy. exec.
  destruct (FactoryState.repository_strategies state !! _); intros [= <-]; [|done].
  by eapply config_inv_frame.
Qed.

Lemma keeps_config_add caller request now_ms :
  canister_keeps_config (add_repository_strategy caller request now_ms).
Proof.
  apply stable_bind; [apply _|apply stable_lift, _|]. intros record.
  apply keeps_config_guarded. intros state state' Hfinal Hinv. split; [|done]. revert Hfinal.
  unfold put_strategy. exec.
  destruct (is_some _); intros [= <-]; [done|]. by eapply config_inv_frame.
Qed.

Lemma keeps_config_fee caller config now_ms :
  canister_keeps_config (set_fee_config caller config now_ms).
Proof.
  unfold set_fee_config. destruct (parse_amount (FeeConfig.usdc_fee config)) as [fee|e] eqn:Hfee;
    [|apply stable_throw, _].
  apply stable_bind; [apply _|apply stable_ret, _|]. intros _.
  apply stable_bind; [apply _| |intros _; apply stable_ret, _].
  apply keeps_config_assign. intros state (Hchains & Hart & _ & Hrest).
  split; [exact Hchains|]. split; [exact Hart|]. split; [|exact Hrest]. simpl_set.
  cbn [FeeConfig.usdc_fee]. by rewrite Hfee.
Qed.

Lemma keeps_config_cost caller config now_ms :
  canister_keeps_config (set_creation_cost_quote caller config now_ms).
Proof.
  unfold set_creation_cost_quote.
  destruct (parse_amount (CreationCostQuote.usdc_cost config)) as [cost|e] eqn:Hcost;
    [|apply stable_throw, _].
  apply stable_bind; [apply _|apply stable_ret, _|]. intros _.
  apply stable_bind; [apply _| |intros _; apply stable_ret, _].
  apply keeps_config_assign. intros state (Hchains & Hart & Hfee & _ & Hrest).
  split; [exact Hchains|]. split; [exact Hart|]. split; [exact Hfee|]. split; [|exact Hrest].
  simpl_set. cbn [CreationCostQuote.usdc_cost]. by rewrite Hcost.
Qed.

Lemma keeps_config_operational caller config :
  canister_keeps_config (set_operational_config caller config).
Proof.
  unfold set_operational_config.
  destruct (N.eqb_spec (FactoryOperationalConfig.evm_confirmation_depth config) 0);
    [apply stable_throw, _|].
  destruct (N.ltb_spec MAX_EVM_CONFIRMATION_DEPTH
    (FactoryOperationalConfig.evm_confirmation_depth config));
    [apply stable_bind; [apply _|apply stable_ret, _|intros _; apply stable_throw, _]|].
  do 2 (apply stable_bind; [apply _|apply stable_ret, _|]; intros _).
  apply stable_bind; [apply _| |intros _; apply stable_ret, _].
  apply keeps_config_assign. intros state (Hchains & Hart & Hfee & Hcost & _).
  split; [exact Hchains|]. split; [exact Hart|]. split; [exact Hfee|]. split; [exact Hcost|].
  simpl_set. lia.
Qed.

Lemma keeps_config_update caller wasm_bytes expected_sha256 version_commit :
  canister_keeps_config (update_artifact caller wasm_bytes expected_sha256 version_commit).
Proof.
  do 2 (apply stable_bind; [apply _|apply stable_lift, _|]; intros _).
  apply stable_bind; [apply _|apply stable_fail_if, _|]. intros _.
  apply keeps_config_guarded, keeps_config_store.
Qed.

Lemma keeps_config_begin caller expected_sha256 version_commit total_size_bytes :
  canister_keeps_config
    (begin_artifact_upload caller expected_sha256 version_commit total_size_bytes).
Proof.
  do 2 (apply stable_bind; [apply _|apply stable_lift, _|]; intros _).
  apply keeps_config_guarded, stable_bind; [apply _| |intros _; apply stable_gets, _].
  apply keeps_config_modify. intros state. by apply config_inv_frame.
Qed.

Lemma keeps_config_retry_admin caller session_id now_ms :
  canister_keeps_config (retry_session_admin caller session_id now_ms).
Proof.
  assert (Hread : forall A (f : FactoryState.t -> result FactoryError.t A),
    canister_keeps_config (read_state f)).
  { intros A f. apply stable_same; [apply _|]. intros c c'. unfold read_state, lift.
    by destruct (f _); intros [= <-]. }
  apply stable_bind; [apply _|apply Hread|]. intros _.
  apply stable_bind; [apply _| |intros _; apply Hread].
  apply (stable_write_state config_inv (fun _ _ => True)), keeps_config_retry.
Qed.

Lemma init_configured_ok seeds args :
  let state := init_configured seeds args in
  chains_agree state /\ FactoryState.wasm_bytes state = None.
Proof.
  unfold init_configured, chains_agree.
  destruct (FactoryInitArgs.fee_config args), (FactoryInitArgs.creation_cost_quote args),
    (FactoryInitArgs.release_broadcast_config args), (FactoryInitArgs.child_runtime args) as [child|];
    cbn [set_if_some]; cbv zeta; try (deep_set; done);
    destruct (AutomatonChildRuntimeConfig.evm_chain_id child) eqn:Hchain; cbn [set_if_some];
    deep_set; rewrite Hchain; split; try done; by intros ? [= <-].
Qed.

Lemma init_rest_frame args init_caller state :
  let state' := init_admins (FactoryInitArgs.admin_principals args) init_caller
    (init_operations args state) in
  FactoryState.child_runtime state' = FactoryState.child_runtime state
  /\ FactoryState.release_broadcast_config state' = FactoryState.release_broadcast_config state
  /\ FactoryState.wasm_bytes state' = FactoryState.wasm_bytes state.
Proof.
  intros state'. subst state'. set (middle := init_operations args state).
  assert (Hmiddle : FactoryState.child_runtime middle = FactoryState.child_runtime state
    /\ FactoryState.release_broadcast_config middle = FactoryState.release_broadcast_config state
    /\ FactoryState.wasm_bytes middle = FactoryState.wasm_bytes state).
  { subst middle. unfold init_operations.
    destruct (FactoryInitArgs.payment_address args), (FactoryInitArgs.escrow_contract_address args);
      cbn [set_if_some]; cbv zeta; deep_set; done. }
  clearbody middle. unfold init_admins. destruct init_caller, (decide _); deep_set; exact Hmiddle.
Qed.

(** the configuration stays usable.  Every administrative call, accepted
    or refused, keeps: the child's chain and the release chain agree, so no
    session is refused for a mismatch; the stored module hashes to the stored
    hash; fee and creation cost are amounts; and the confirmation depth is
    between one and the supported maximum.  The default state starts that way,
    and so do the chains and the artifact of a factory that was installed with
    any arguments. *)
Theorem admin_calls_keep_config :
  (forall caller now_ms call, canister_keeps_config (run_admin_call caller now_ms call))
  /\ (forall seeds, config_inv (default_state seeds))
  /\ (forall seeds args init_caller,
       chains_agree (apply_factory_init_args seeds args init_caller)
       /\ artifact_hashed (apply_factory_init_args seeds args init_caller)).
Proof.
  split; [|split].
  - intros caller now_ms call.
    destruct call as [config|config|config|config|config|paused|request|wasm sha commit|sha commit size
      |chunk| |session_id|[request|request|request]]; cbn [run_admin_call run_repository_call];
      (apply stable_bind; [apply _| |intros _; apply stable_ret, _]).
    + apply keeps_config_fee.
    + apply keeps_config_cost.
    + apply stable_bind; [apply _| |intros _; apply stable_ret, _].
      apply keeps_config_assign, chains_release_config.
    + apply stable_bind; [apply _| |intros _; apply stable_ret, _].
      apply keeps_config_assign, chains_child_runtime.
    + apply keeps_config_operational.
    + apply stable_bind; [apply _| |intros _; apply stable_ret, _].
      apply keeps_config_assign. intros state. by apply config_inv_frame.
    + apply keeps_config_death.
    + apply keeps_config_update.
    + apply keeps_config_begin.
    + apply keeps_config_append.
    + apply keeps_config_commit.
    + apply keeps_config_retry_admin.
    + apply keeps_config_add.
    + apply keeps_config_status.
    + apply keeps_config_status.
  - intros seeds. split; [by intros ?|]. split; [by intros ?|]. by repeat split.
  - intros seeds args init_caller.
    destruct (init_configured_ok seeds args) as [Hchains Hbytes].
    destruct (init_rest_frame args init_caller (init_configured seeds args)) as (Hc & Hr & Hw).
    unfold chains_agree, artifact_hashed, apply_factory_init_args. cbv zeta. deep_set.
    rewrite Hc, Hr, Hw, Hbytes. by split.
Qed.
End AdminProof.

(** ** Deaths *)

Definition cause_rank (record : SpawnedAutomatonRecord.t) : N :=
  if bool_decide (SpawnedAutomatonRecord.death_cause record = Some "starved") then 2
  else if bool_decide (SpawnedAutomatonRecord.death_cause record = Some "infrastructure") then 1
  else 0.

(** The record but for what it says of the automaton's death. *)
Definition without_death (record : SpawnedAutomatonRecord.t) : SpawnedAutomatonRecord.t :=
  record
    <| SpawnedAutomatonRecord.death_cause := None |>
    <| SpawnedAutomatonRecord.died_at := None |>
    <| SpawnedAutomatonRecord.estate_disposition := None |>
    <| SpawnedAutomatonRecord.death_recorded_by := None |>
    <| SpawnedAutomatonRecord.death_incident_reference := None |>.

Definition death_advances (before after : SpawnedAutomatonRecord.t) : Prop :=
  without_death after = without_death before
  /\ (after = before \/ (cause_rank before < cause_rank after)%N).

Definition deaths_advance (before after : FactoryState.t) : Prop :=
  forall canister_id record, FactoryState.registry before !! canister_id = Some record ->
    exists record', FactoryState.registry after !! canister_id = Some record'
      /\ death_advances record record'.

Definition disposed (record : SpawnedAutomatonRecord.t) : Prop :=
  is_Some (SpawnedAutomatonRecord.died_at record)
  /\ (SpawnedAutomatonRecord.estate_disposition record = Some "monument"
      \/ SpawnedAutomatonRecord.estate_disposition record = Some "bequests_executed").

(** Starvation is reported by the automaton itself, without an incident; an
    infrastructure death carries a public reference. *)
Definition death_wf (canister_id : string) (record : SpawnedAutomatonRecord.t) : Prop :=
  (SpawnedAutomatonRecord.death_cause record = Some "starved" ->
     disposed record
     /\ SpawnedAutomatonRecord.death_recorded_by record = Some canister_id
     /\ SpawnedAutomatonRecord.death_incident_reference record = None)
  /\ (SpawnedAutomatonRecord.death_cause record = Some "infrastructure" ->
     disposed record
     /\ is_Some (SpawnedAutomatonRecord.death_recorded_by record)
     /\ exists reference, SpawnedAutomatonRecord.death_incident_reference record = Some reference
        /\ starts_with reference "https://" || starts_with reference "ipfs://" = true).

Definition deaths_wf (state : FactoryState.t) : Prop :=
  map_Forall death_wf (FactoryState.registry state).

#[export] Instance deaths_advance_preorder : PreOrder deaths_advance.
Proof.
  split.
  - intros state id record Hr. exists record. split; [done|]. split; [done|by left].
  - intros s1 s2 s3 H12 H23 id record Hr.
    destruct (H12 _ _ Hr) as (r2 & Hr2 & Hs2 & Ha2).
    destruct (H23 _ _ Hr2) as (r3 & Hr3 & Hs3 & Ha3).
    exists r3. split; [done|]. split; [congruence|].
    destruct Ha2 as [->|Ha2], Ha3 as [->|Ha3]; [by left|by right..|right; lia].
Qed.

(** A report on an automaton's death: its own, or an administrator's. *)
Inductive death_report :=
| SelfReport (caller_canister_id : string) (request : ReportDeathRequest.t)
| InfrastructureReport (caller : string) (request : RecordInfrastructureDeathRequest.t).

Definition run_death_report (now_ms : N) (report : death_report) : C SpawnedAutomatonRecord.t :=
  match report with
  | SelfReport caller_canister_id request => report_death caller_canister_id request now_ms
  | InfrastructureReport caller request => record_infrastructure_death caller request now_ms
  end.

Lemma put_record_deaths canister_id record stored state :
  FactoryState.registry state !! canister_id = Some stored ->
  death_advances stored record -> death_wf canister_id record -> deaths_wf state ->
  let state' := state <| FactoryState.registry ::= <[canister_id := record]> |> in
  deaths_wf state' /\ deaths_advance state state'.
Proof.
  intros Hstored Hadvances Hwf Hinv state'. unfold deaths_wf, deaths_advance, state'. simpl_set. split.
  - by apply map_Forall_insert_2.
  - intros id other Hother. destruct (decide (id = canister_id)) as [->|Hne].
    + exists record. rewrite lookup_insert_eq. split; [done|]. congruence.
    + exists other. rewrite lookup_insert_ne by done. split; [done|]. split; [done|by left].
Qed.

Lemma disposition_ok disposition :
  bool_decide (disposition <> "monument") && bool_decide (disposition <> "bequests_executed") = false ->
  disposition = "monument" \/ disposition = "bequests_executed".
Proof.
  rewrite andb_false_iff, !bool_decide_eq_false. intros [H|H]; apply dec_stable in H; auto.
Qed.

Lemma self_report_deaths caller_canister_id request now_ms :
  stable (fun canister => deaths_wf (Canister.factory canister))
    (fun before after => deaths_advance (Canister.factory before) (Canister.factory after))
    (report_death caller_canister_id request now_ms).
Proof.
  unfold report_death. destruct (check_death_report request) as [[]|e] eqn:Hcheck;
    [|apply stable_throw, _].
  unfold check_death_report in Hcheck. cbv zeta in Hcheck.
  apply err_if_seq_Ok in Hcheck as [_ Hcheck]. apply err_if_seq_Ok in Hcheck as [Hdisp%disposition_ok _].
  apply stable_bind; [apply _|apply stable_ret, _|]. intros _. apply stable_write_state.
  intros state state' Hfinal Hinv. revert Hfinal. unfold put_record. exec.
  destruct (FactoryState.registry state !! caller_canister_id) as [record|] eqn:Hrecord;
    [|by intros [= <-]].
  destruct (bool_decide (SpawnedAutomatonRecord.death_cause record = Some "starved")) eqn:Hstarved;
    [by intros [= <-]|].
  intros [= <-]. apply (put_record_deaths _ _ record); [done| | |done].
  - split; [reflexivity|]. right. unfold cause_rank. rewrite Hstarved.
    change (SpawnedAutomatonRecord.death_cause (starved_record _ _ _ record)) with (Some "starved").
    rewrite (bool_decide_eq_true_2 (Some "starved" = Some "starved")) by done.
    match goal with |- context [bool_decide ?P] => destruct (bool_decide P) end; cbv iota; lia.
  - split; [|done]. intros _. split; [|done]. split; [by eexists|].
    destruct Hdisp as [Hd|Hd]; unfold starved_record; simpl_set; rewrite Hd; auto.
Qed.

Lemma infrastructure_report_deaths caller request now_ms :
  stable (fun canister => deaths_wf (Canister.factory canister))
    (fun before after => deaths_advance (Canister.factory before) (Canister.factory after))
    (record_infrastructure_death caller request now_ms).
Proof.
  unfold record_infrastructure_death. cbv zeta.
  destruct (check_infrastructure_report request) as [[]|e] eqn:Hcheck; [|apply stable_throw, _].
  unfold check_infrastructure_report in Hcheck. cbv zeta in Hcheck.
  apply err_if_seq_Ok in Hcheck as [_ Hcheck]. apply err_if_seq_Ok in Hcheck as [Href Hcheck].
  apply err_if_Ok, disposition_ok in Hcheck. apply orb_false_iff in Href as [_ Href%negb_false_iff].
  apply stable_bind; [apply _|apply stable_ret, _|]. intros _. apply stable_write_state.
  apply stable_bind; [apply _| |intros _].
  { apply stable_same; [apply _|]. intros s s'. unfold ensure_admin, lift.
    by destruct (ensure_admin_in_state _ _); intros [= <-]. }
  intros state state' Hfinal Hinv. revert Hfinal. unfold put_record. exec.
  destruct (FactoryState.registry state !! trim _) as [record|] eqn:Hrecord; [|by intros [= <-]].
  destruct (bool_decide (SpawnedAutomatonRecord.death_cause record = Some "starved")) eqn:Hstarved;
    [by intros [= <-]|].
  destruct (bool_decide (SpawnedAutomatonRecord.death_cause record = Some "infrastructure")) eqn:Hinfra.
  { by destruct (bool_decide (_ <> _)); intros [= <-]. }
  intros [= <-]. apply (put_record_deaths _ _ record); [done| | |done].
  - split; [reflexivity|]. right. unfold cause_rank. rewrite Hstarved, Hinfra.
    change (SpawnedAutomatonRecord.death_cause (infrastructure_record _ _ _ _ record))
      with (Some "infrastructure").
    rewrite (bool_decide_eq_true_2 (Some "infrastructure" = Some "infrastructure")) by done.
    match goal with |- context [bool_decide ?P] => destruct (bool_decide P) end; cbv iota; lia.
  - split; [done|]. intros _. split; [|split; [by eexists|]].
    + split; [by eexists|]. destruct Hcheck as [Hd|Hd]; unfold infrastructure_record; simpl_set;
        rewrite Hd; auto.
    + eexists. split; [reflexivity|exact Href].
Qed.

(** deaths are recorded once and for good.  Along any reports, accepted or
    refused, the registry entries keep everything that is not about death; an
    entry changes only from living to dead, or from an infrastructure death to
    the starvation the automaton reports itself; a recorded starvation never
    changes again; and every recorded death names when, how the estate was
    disposed of and who reported it: the automaton itself for starvation, an
    administrator with a public incident reference for infrastructure. *)
Theorem death_reports_advance :
  (forall now_ms report,
     stable (fun canister => deaths_wf (Canister.factory canister))
       (fun before after => deaths_advance (Canister.factory before) (Canister.factory after))
       (run_death_report now_ms report))
  /\ (forall before after canister_id record,
       deaths_advance before after ->
       FactoryState.registry before !! canister_id = Some record ->
       SpawnedAutomatonRecord.death_cause record = Some "starved" ->
       FactoryState.registry after !! canister_id = Some record).
Proof.
  split.
  - intros now_ms [caller request|caller request].
    + apply self_report_deaths.
    + apply infrastructure_report_deaths.
  - intros before after id record Hadvance Hrecord Hstarved.
    destruct (Hadvance _ _ Hrecord) as (record' & Hrecord' & _ & [->|Hlt]); [done|].
    exfalso. unfold cause_rank in Hlt. rewrite Hstarved in Hlt.
    rewrite (bool_decide_eq_true_2 (Some "starved" = Some "starved")) in Hlt by done.
    repeat match type of Hlt with context [bool_decide ?P] => destruct (bool_decide P) end;
      cbv iota in Hlt; lia.
Qed.

(** ** Uploading in chunks *)

Section Upload.
Context `{ext : Externals}.

(** Begin, append every chunk, commit. *)
Definition upload_artifact (caller expected_sha256 version_commit : string)
    (total_size_bytes : N) (chunks : list (list byte)) : C FactoryArtifactSnapshot.t :=
  begin_artifact_upload caller expected_sha256 version_commit total_size_bytes;;
  for_each chunks (fun chunk => discard (append_artifact_chunk caller chunk));;
  commit_artifact_upload caller.

Definition with_pending (pending : option PendingArtifactUpload.t) (canister : Canister.t)
    : Canister.t :=
  canister <| Canister.factory ::= fun state =>
    state <| FactoryState.pending_artifact_upload := pending |> |>.

Definition received (upload : PendingArtifactUpload.t) (bytes : list byte)
    : PendingArtifactUpload.t :=
  upload <| PendingArtifactUpload.wasm_bytes ::= fun stored => stored ++ bytes |>.

Lemma received_nil upload : received upload [] = upload.
Proof.
  destruct upload as [sha commit total bytes].
  change (PendingArtifactUpload.mk sha commit total (bytes ++ [])
          = PendingArtifactUpload.mk sha commit total bytes). by rewrite app_nil_r.
Qed.

Lemma received_app upload l k : received (received upload l) k = received upload (l ++ k).
Proof.
  destruct upload as [sha commit total bytes].
  change (PendingArtifactUpload.mk sha commit total ((bytes ++ l) ++ k)
          = PendingArtifactUpload.mk sha commit total (bytes ++ l ++ k)).
  by rewrite (assoc_L (++)).
Qed.

Definition is_admin (caller : string) (canister : Canister.t) : Prop :=
  caller ∈ FactoryState.admin_principals (Canister.factory canister).

Lemma ensure_admin_run caller canister :
  is_admin caller canister ->
  ensure_admin caller (Canister.factory canister) = Done tt (Canister.factory canister).
Proof.
  intros Hadmin. unfold ensure_admin, ensure_admin_in_state, lift. by rewrite decide_True.
Qed.

Lemma size_of_app l k : size_of (l ++ k) = (size_of l + size_of k)%N.
Proof. unfold size_of. rewrite length_app. lia. Qed.

Lemma append_run caller upload chunk canister :
  is_admin caller canister ->
  in_uint 64 (size_of (PendingArtifactUpload.wasm_bytes upload) + size_of chunk) ->
  exists r, discard (append_artifact_chunk caller chunk) (with_pending (Some upload) canister) =
    if (PendingArtifactUpload.total_size_bytes upload
        <? size_of (PendingArtifactUpload.wasm_bytes upload ++ chunk))%N
    then Fail r (with_pending (Some upload) canister)
    else Done tt (with_pending (Some (received upload chunk)) canister).
Proof.
  intros Hadmin Hfits. unfold discard, append_artifact_chunk, write_state, zoom.
  unfold mbind at 1, M_bind at 1. rewrite (M_bind_run _ _ _ _ _
    (ensure_admin_run caller (with_pending (Some upload) canister) Hadmin)).
  unfold pending_upload. exec. unfold with_pending at 1 2 3 4 5 6. simpl_set. cbv iota zeta.
  rewrite wrapping_add_small, size_of_app by done.
  eexists. destruct (_ <? _)%N; reflexivity.
Qed.

Lemma appends_run caller chunks upload canister :
  is_admin caller canister ->
  in_uint 64 (size_of (PendingArtifactUpload.wasm_bytes upload ++ concat chunks)) ->
  (size_of (PendingArtifactUpload.wasm_bytes upload)
   <= PendingArtifactUpload.total_size_bytes upload)%N ->
  exists e pending,
    for_each chunks (fun chunk => discard (append_artifact_chunk caller chunk))
      (with_pending (Some upload) canister) =
    if (PendingArtifactUpload.total_size_bytes upload
        <? size_of (PendingArtifactUpload.wasm_bytes upload ++ concat chunks))%N
    then Fail e (with_pending pending canister)
    else Done tt (with_pending (Some (received upload (concat chunks))) canister).
Proof.
  intros Hadmin. revert upload. induction chunks as [|chunk chunks IH]; intros upload Hfits Hsize.
  - exists FactoryError.NoPendingArtifactUpload, None. cbn [concat for_each]. rewrite app_nil_r.
    destruct (N.ltb_spec (PendingArtifactUpload.total_size_bytes upload)
      (size_of (PendingArtifactUpload.wasm_bytes upload))); [lia|].
    by rewrite received_nil.
  - cbn [concat for_each]. rewrite size_of_app in Hfits. cbn [concat] in Hfits.
    rewrite size_of_app in Hfits. unfold in_uint in *.
    destruct (append_run caller upload chunk canister Hadmin) as [r Hr]; [unfold in_uint; lia|].
    destruct (N.ltb_spec (PendingArtifactUpload.total_size_bytes upload)
      (size_of (PendingArtifactUpload.wasm_bytes upload ++ chunk))) as [Hbig|Hok].
    + exists r, (Some upload). unfold mbind, M_bind. rewrite Hr.
      destruct (N.ltb_spec (PendingArtifactUpload.total_size_bytes upload)
        (size_of (PendingArtifactUpload.wasm_bytes upload ++ chunk ++ concat chunks))) as [|Hle]; [done|].
      rewrite !size_of_app in *. lia.
    + rewrite (M_bind_run _ _ _ _ _ Hr).
      destruct (IH (received upload chunk)) as (e & pending & He).
      * unfold received. simpl_set. rewrite !size_of_app. lia.
      * exact Hok.
      * exists e, pending. rewrite He, received_app. unfold received at 1 2. simpl_set.
        by rewrite <-(assoc_L (++)).
Qed.

(** The artifact part of the state. *)
Definition artifact_of (state : FactoryState.t) : option (list byte) * option string * string :=
  (FactoryState.wasm_bytes state, FactoryState.wasm_sha256 state, FactoryState.version_commit state).

(** a chunked upload installs the module it announced, or nothing.  For an
    administrator, and however the module is cut, begin, appends and commit
    succeed exactly when hash and commit are well formed, the chunks together
    have the announced size, and their concatenation has the announced hash;
    then the concatenation is the stored module, under that hash and commit,
    and no upload is pending.  Otherwise the stored module, its hash and its
    commit are what they were. *)
Theorem artifact_upload_correct caller expected_sha256 version_commit total_size_bytes chunks
    canister
    (Hadmin : is_admin caller canister)
    (Hfits : in_uint 64 (size_of (concat chunks))) :
  let accepted :=
    validate_sha256_hex expected_sha256 = Ok tt /\ validate_version_commit version_commit = Ok tt
    /\ size_of (concat chunks) = total_size_bytes
    /\ artifact_hash (concat chunks) = expected_sha256 in
  match upload_artifact caller expected_sha256 version_commit total_size_bytes chunks canister with
  | Trap => False
  | Fail _ canister' =>
      ~ accepted
      /\ artifact_of (Canister.factory canister') = artifact_of (Canister.factory canister)
  | Done _ canister' =>
      accepted
      /\ artifact_of (Canister.factory canister')
         = (Some (concat chunks), Some expected_sha256, version_commit)
      /\ FactoryState.pending_artifact_upload (Canister.factory canister') = None
  end.
Proof.
  intros accepted. subst accepted. unfold upload_artifact, begin_artifact_upload.
  destruct (validate_sha256_hex expected_sha256) as [[]|e];
    [|split; [by intros (? & _)|reflexivity]].
  destruct (validate_version_commit version_commit) as [[]|e];
    [|split; [by intros (_ & ? & _)|reflexivity]].
  set (upload := PendingArtifactUpload.mk expected_sha256 version_commit total_size_bytes []).
  assert (Hbegin : exists status,
    (lift (Ok tt);; lift (Ok tt);; write_state (ensure_admin caller;;
      modify (fun state => state <| FactoryState.pending_artifact_upload := Some upload |>);;
      gets build_artifact_upload_status) : C ArtifactUploadStatus.t) canister
    = Done status (with_pending (Some upload) canister)).
  { eexists. rewrite !(M_bind_run (lift (Ok tt)) _ canister tt canister eq_refl).
    unfold write_state, zoom.
    rewrite (M_bind_run _ _ _ _ _ (ensure_admin_run caller canister Hadmin)). reflexivity. }
  destruct Hbegin as [status Hbegin]. rewrite (M_bind_run _ _ _ _ _ Hbegin). clear Hbegin.
  destruct (appends_run caller chunks upload canister Hadmin) as (e & pending & Happends);
    [done|apply N.le_0_l|].
  cbn [upload PendingArtifactUpload.wasm_bytes PendingArtifactUpload.total_size_bytes app] in Happends.
  destruct (N.ltb_spec total_size_bytes (size_of (concat chunks))) as [Hbig|Hsmall].
  { unfold mbind, M_bind. rewrite Happends. split; [intros (_ & _ & <- & _); lia|reflexivity]. }
  rewrite (M_bind_run _ _ _ _ _ Happends). unfold commit_artifact_upload, write_state, zoom.
  rewrite (M_bind_run _ _ _ _ _ (ensure_admin_run caller (with_pending _ canister) Hadmin)).
  unfold pending_upload. exec. unfold with_pending at 1. simpl_set. cbv iota zeta.
  change (PendingArtifactUpload.wasm_bytes (received upload (concat chunks))) with (concat chunks).
  change (PendingArtifactUpload.total_size_bytes (received upload (concat chunks)))
    with total_size_bytes.
  change (PendingArtifactUpload.expected_sha256 (received upload (concat chunks)))
    with expected_sha256.
  destruct (bool_decide (size_of (concat chunks) <> total_size_bytes)) eqn:Htotal; cbv iota.
  { apply bool_decide_eq_true in Htotal. split; [by intros (_ & _ & ? & _)|reflexivity]. }
  destruct (bool_decide (artifact_hash (concat chunks) <> expected_sha256)) eqn:Hhash; cbv iota.
  { apply bool_decide_eq_true in Hhash. split; [by intros (_ & _ & _ & ?)|reflexivity]. }
  apply bool_decide_eq_false, dec_stable in Htotal, Hhash.
  split; [done|]. split; reflexivity.
Qed.
End Upload.

(** ** What the views show *)

#[export] Instance later_first_total key : Total (later_first key).
Proof.
  intros x y. unfold later_first. destruct (N.lt_trichotomy (key x) (key y)) as [H|[H|H]]; [by right; left| |by left; left].
  destruct (key_le_total (SchedulerJob.job_id x) (SchedulerJob.job_id y)); [right|left]; right; auto.
Qed.

#[export] Instance later_first_trans key : Transitive (later_first key).
Proof.
  intros x y z. unfold later_first. intros [H1|[H1 K1]] [H2|[H2 K2]]; [left; lia..|].
  right. split; [lia|]. by etrans.
Qed.

#[export] Instance sooner_first_total : Total sooner_first.
Proof.
  intros x y. unfold sooner_first.
  destruct (SchedulerJob.next_run_at_ms x) as [n|], (SchedulerJob.next_run_at_ms y) as [m|]; [|auto..|].
  - destruct (N.lt_trichotomy n m) as [H|[H|H]]; [by left; left| |by right; left].
    destruct (key_le_total (SchedulerJob.job_id x) (SchedulerJob.job_id y)); [left|right]; right; auto.
  - apply key_le_total.
Qed.

#[export] Instance sooner_first_trans : Transitive sooner_first.
Proof.
  intros x y z. unfold sooner_first.
  destruct (SchedulerJob.next_run_at_ms x), (SchedulerJob.next_run_at_ms y),
    (SchedulerJob.next_run_at_ms z); try done.
  - intros [H1|[H1 K1]] [H2|[H2 K2]]; [left; lia..|]. right. split; [lia|]. by etrans.
  - intros H1 H2. by etrans.
Qed.

Lemma merge_sort_spec {A} (R : relation A) `{!RelDecision R, !Total R, !Transitive R} (l : list A) :
  merge_sort R l ≡ₚ l /\ StronglySorted R (merge_sort R l).
Proof. split; [apply merge_sort_Permutation|by apply StronglySorted_merge_sort]. Qed.

(** The number of jobs with a property. *)
Definition jobs_with (p : SchedulerJob.t -> bool) (jobs : list SchedulerJob.t) : N := count_if p jobs.

Definition has_status (status : SchedulerJobStatus.t) (job : SchedulerJob.t) : bool :=
  bool_decide (SchedulerJob.status job = status).

(** The counters after the jobs [jobs]. *)
Definition counted (jobs : list SchedulerJob.t) : FactorySchedulerJobCounts.t * N :=
  (FactorySchedulerJobCounts.mk (N.of_nat (length jobs))
     (jobs_with (has_status SchedulerJobStatus.Pending) jobs)
     (jobs_with (has_status SchedulerJobStatus.Running) jobs)
     (jobs_with (has_status SchedulerJobStatus.Completed) jobs)
     (jobs_with (has_status SchedulerJobStatus.Backoff) jobs)
     (jobs_with (has_status SchedulerJobStatus.Skipped) jobs)
     (jobs_with (has_status SchedulerJobStatus.Terminal) jobs)
     (jobs_with (fun job => is_some (SchedulerJob.last_error job)) jobs),
   jobs_with waits_for_retry jobs).

Lemma count_if_snoc {A} (p : A -> bool) l x :
  count_if p (l ++ [x]) = (count_if p l + if p x then 1 else 0)%N.
Proof.
  unfold count_if. rewrite filter_app, length_app, filter_cons.
  destruct (p x); [rewrite decide_True by done|rewrite decide_False by done]; simpl; lia.
Qed.

Lemma count_if_le {A} (p : A -> bool) l : (count_if p l <= N.of_nat (length l))%N.
Proof. unfold count_if. pose proof (length_filter (fun x => p x = true) l). lia. Qed.

Lemma incr_count {A} (p : A -> bool) l :
  in_uint 64 (N.of_nat (length l) + 1) -> wrapping_add 64 (count_if p l) 1 = (count_if p l + 1)%N.
Proof.
  intros Hfits. apply wrapping_add_small. pose proof (count_if_le p l). unfold in_uint in *. lia.
Qed.

Lemma count_job_step jobs job :
  in_uint 64 (N.of_nat (length jobs) + 1) ->
  count_job (counted jobs) job = counted (jobs ++ [job]).
Proof.
  intros Hfits. unfold counted, count_job, jobs_with. rewrite length_app, !count_if_snoc.
  unfold has_status.
  destruct (SchedulerJob.status job) eqn:Hstatus, (is_some (SchedulerJob.last_error job)),
    (waits_for_retry job);
    repeat match goal with
    | |- context [@bool_decide (?x = ?y) ?d] =>
        first [rewrite (@bool_decide_eq_true_2 _ d (eq_refl : x = y))
              |rewrite (@bool_decide_eq_false_2 (x = y) d) by discriminate]
    end; unfold set; cbn -[N.add wrapping_add count_if N.of_nat];
    rewrite ?incr_count, ?N.add_0_r, ?(wrapping_add_small _ _ _ Hfits) by done;
    repeat f_equal; lia.
Qed.

Lemma build_counts_spec state :
  in_uint 64 (N.of_nat (size (FactoryState.scheduler_jobs state))) ->
  build_scheduler_job_counts state = counted (btree_values (FactoryState.scheduler_jobs state)).
Proof.
  intros Hfits. unfold build_scheduler_job_counts.
  assert (Hlen : length (btree_values (FactoryState.scheduler_jobs state))
    = size (FactoryState.scheduler_jobs state)).
  { unfold btree_values. rewrite length_fmap. apply length_btree_iter. }
  rewrite <-Hlen in Hfits. clear Hlen. revert Hfits. generalize (btree_values (FactoryState.scheduler_jobs state)).
  intros jobs Hfits. change (FactorySchedulerJobCounts.default, 0%N) with (counted []).
  change jobs with ([] ++ jobs) in Hfits |- * at 2. generalize (@nil SchedulerJob.t), Hfits.
  clear Hfits. induction jobs as [|job jobs IH]; intros seen Hfits; cbn [foldl]; [by rewrite app_nil_r|].
  rewrite length_app in Hfits. cbn [length] in Hfits.
  rewrite count_job_step by (unfold in_uint in *; lia).
  replace (seen ++ job :: jobs) with ((seen ++ [job]) ++ jobs) by by rewrite <-(assoc_L (++)).
  apply IH. rewrite !length_app. cbn [length]. unfold in_uint in *. lia.
Qed.

(** The jobs of a state partitioned by status. *)
Lemma statuses_partition jobs :
  let counts := (counted jobs).1 in
  (FactorySchedulerJobCounts.pending counts + FactorySchedulerJobCounts.running counts
   + FactorySchedulerJobCounts.completed counts + FactorySchedulerJobCounts.backoff counts
   + FactorySchedulerJobCounts.skipped counts + FactorySchedulerJobCounts.terminal counts
   = FactorySchedulerJobCounts.total counts)%N.
Proof.
  induction jobs as [|job jobs IH] using rev_ind; [done|]. cbv zeta in *. cbn [counted fst] in *.
  unfold jobs_with in *. rewrite !count_if_snoc, length_app.
  set (one := fun status => if has_status status job then 1%N else 0%N).
  assert (Hone : (one SchedulerJobStatus.Pending + one SchedulerJobStatus.Running
    + one SchedulerJobStatus.Completed + one SchedulerJobStatus.Backoff
    + one SchedulerJobStatus.Skipped + one SchedulerJobStatus.Terminal = 1)%N).
  { subst one. unfold has_status. by destruct (SchedulerJob.status job). }
  subst one. cbv beta in Hone. cbn -[N.add count_if N.of_nat has_status] in *. lia.
Qed.

(** The operator's view is exact.  For an administrator the runtime view
    changes nothing and shows: the retry queue as the waiting jobs, all of
    them, by next run; the recent and the failed jobs as the first of all the
    jobs, and of the failed ones, in descending order of recency and of
    failure; and counters that agree with the stored jobs, whose statuses add
    up to the total and whose retry count is the length of the queue shown. *)
Theorem runtime_view_exact caller limit canister
    (Hadmin : is_admin caller canister) (Hlimit : limit <> 0)
    (Hfits : in_uint 64 (N.of_nat (size (FactoryState.scheduler_jobs (Canister.factory canister))))) :
  let jobs := btree_values (FactoryState.scheduler_jobs (Canister.factory canister)) in
  exists snapshot recent failed,
    get_factory_runtime caller limit canister = Done snapshot canister
    /\ StronglySorted sooner_first (FactoryRuntimeSnapshot.retry_queue snapshot)
    /\ FactoryRuntimeSnapshot.retry_queue snapshot
       ≡ₚ filter (fun job => waits_for_retry job = true) jobs
    /\ FactoryRuntimeSnapshot.recent_jobs snapshot = take limit recent
    /\ recent ≡ₚ jobs /\ StronglySorted (later_first job_recency_ms) recent
    /\ FactoryRuntimeSnapshot.failed_jobs snapshot = take limit failed
    /\ failed ≡ₚ filter (fun job => is_some (SchedulerJob.last_error job) = true) jobs
    /\ StronglySorted (later_first job_failure_ms) failed
    /\ let health := FactoryRuntimeSnapshot.scheduler snapshot in
       let counts := FactorySchedulerHealthSnapshot.job_counts health in
       counts = (counted jobs).1
       /\ FactorySchedulerJobCounts.total counts
          = (FactorySchedulerJobCounts.pending counts + FactorySchedulerJobCounts.running counts
             + FactorySchedulerJobCounts.completed counts + FactorySchedulerJobCounts.backoff counts
             + FactorySchedulerJobCounts.skipped counts
             + FactorySchedulerJobCounts.terminal counts)%N
       /\ FactorySchedulerHealthSnapshot.retry_queue_count health
          = N.of_nat (length (FactoryRuntimeSnapshot.retry_queue snapshot)).
Proof.
  intros jobs. unfold get_factory_runtime, read_state. exec.
  rewrite bool_decide_eq_false_2 by done. unfold ensure_admin_in_state. rewrite decide_True by done.
  cbn [mbind result_bind]. fold jobs. unfold sort_jobs_by_recency_desc, build_scheduler_health_snapshot.
  rewrite build_counts_spec by done. fold jobs. unfold counted at 1.
  destruct (merge_sort_spec sooner_first (filter (fun job => waits_for_retry job = true) jobs)) as [Hp1 Hs1].
  destruct (merge_sort_spec (later_first job_recency_ms) jobs) as [Hp2 Hs2].
  destruct (merge_sort_spec (later_first job_failure_ms)
    (filter (fun job => is_some (SchedulerJob.last_error job) = true) jobs)) as [Hp3 Hs3].
  do 3 eexists. split; [reflexivity|].
  cbn [FactoryRuntimeSnapshot.retry_queue FactoryRuntimeSnapshot.recent_jobs
    FactoryRuntimeSnapshot.failed_jobs FactoryRuntimeSnapshot.scheduler
    FactorySchedulerHealthSnapshot.job_counts FactorySchedulerHealthSnapshot.retry_queue_count].
  split; [exact Hs1|]. split; [exact Hp1|]. split; [reflexivity|]. split; [exact Hp2|].
  split; [exact Hs2|]. split; [reflexivity|]. split; [exact Hp3|]. split; [exact Hs3|].
  cbv zeta. split; [reflexivity|]. split; [symmetry; apply (statuses_partition jobs)|].
  unfold jobs_with, count_if. by rewrite Hp1.
Qed.

(** ** Witnesses *)

Module AdminSamples.
#[local] Existing Instance toy_externals.

Definition canister : Canister.t := SessionSamples.canister.

Lemma admin : is_admin "admin" canister.
Proof. change ("admin" ∈ ({["admin"]} : gset string)). by apply elem_of_singleton. Qed.

Lemma admin_calls_authorised_witness :
  exists e, run_admin_call "mallory" 5 (SetPause true) canister = Fail e canister.
Proof.
  apply admin_calls_authorised. change ("mallory" ∉ ({["admin"]} : gset string)).
  intros H. apply elem_of_singleton in H. discriminate H.
Defined.

(** The toy digest of two bytes, as the announced hash. *)
Definition digest : string := artifact_hash [x61; x62].

Lemma artifact_upload_correct_witness :
  match upload_artifact "admin" digest RepositorySamples.commit 2 [[x61]; [x62]] canister with
  | Done _ canister' =>
      FactoryState.wasm_bytes (Canister.factory canister') = Some [x61; x62]
  | _ => False
  end.
Proof.
  pose proof (artifact_upload_correct "admin" digest RepositorySamples.commit 2 [[x61]; [x62]]
    canister admin ltac:(by vm_compute)) as H.
  destruct (upload_artifact _ _ _ _ _ _) as [snapshot canister'|e canister'|] eqn:Hrun;
    [|vm_compute in Hrun; discriminate Hrun..].
  destruct H as (_ & Hartifact & _). unfold artifact_of in Hartifact. by injection Hartifact.
Defined.

Definition record : SpawnedAutomatonRecord.t := {|
  SpawnedAutomatonRecord.name := Some "Ada";
  SpawnedAutomatonRecord.constitution_hash := None;
  SpawnedAutomatonRecord.canister_id := "child";
  SpawnedAutomatonRecord.steward_address := "0xs";
  SpawnedAutomatonRecord.evm_address := "0xe";
  SpawnedAutomatonRecord.chain := SpawnChain.Base;
  SpawnedAutomatonRecord.session_id := "s";
  SpawnedAutomatonRecord.parent_id := None;
  SpawnedAutomatonRecord.generation := None;
  SpawnedAutomatonRecord.parent_constitution_hash := None;
  SpawnedAutomatonRecord.royalty_allocations := None;
  SpawnedAutomatonRecord.child_ids := [];
  SpawnedAutomatonRecord.created_at := 7;
  SpawnedAutomatonRecord.version_commit := "v";
  SpawnedAutomatonRecord.controllers := None;
  SpawnedAutomatonRecord.control_status := None;
  SpawnedAutomatonRecord.control_verified_at := None;
  SpawnedAutomatonRecord.death_cause := None;
  SpawnedAutomatonRecord.died_at := None;
  SpawnedAutomatonRecord.estate_disposition := None;
  SpawnedAutomatonRecord.death_recorded_by := None;
  SpawnedAutomatonRecord.death_incident_reference := None;
|}.

Definition living : Canister.t := canister <| Canister.factory ::= fun state =>
  state <| FactoryState.registry := {["child" := record]} |> |>.

Definition starved : death_report :=
  SelfReport "child" (ReportDeathRequest.mk "starved" "monument" "t").
Definition outage : death_report :=
  InfrastructureReport "admin" (RecordInfrastructureDeathRequest.mk "child" "ipfs://x" "monument").

(** An outage is recorded, the automaton reports its starvation, and a second
    outage changes nothing. *)
Lemma death_reports_advance_witness :
  match (run_death_report 5 outage;; run_death_report 6 starved) living with
  | Done dead canister' =>
      match run_death_report 7 outage canister' with
      | Done _ canister'' =>
          FactoryState.registry (Canister.factory canister'') !! "child" = Some dead
      | _ => False
      end
  | _ => False
  end.
Proof.
  destruct death_reports_advance as [Hstable Hfinal].
  destruct ((run_death_report 5 outage;; run_death_report 6 starved) living) as [dead canister'|e ?|] eqn:Hrun;
    [|vm_compute in Hrun; discriminate Hrun..].
  assert (Hwf : deaths_wf (Canister.factory canister')).
  { apply M_bind_Done in Hrun as (first & middle & H5 & H6).
    apply (Hstable 6%N starved middle); [by rewrite H6|].
    apply (Hstable 5%N outage living); [by rewrite H5|].
    apply (map_Forall_lookup_2 death_wf). intros id r Hr.
    change (({["child" := record]} : gmap string SpawnedAutomatonRecord.t) !! id = Some r) in Hr.
    apply lookup_singleton_Some in Hr as [<- <-]. by split. }
  pose proof (Hstable 7%N outage canister') as Hseven.
  destruct (run_death_report 7 outage canister') as [r canister''|e ?|] eqn:Hrun7;
    [|vm_compute in Hrun; injection Hrun as _ <-; vm_compute in Hrun7; discriminate Hrun7..].
  destruct (Hseven canister'' eq_refl Hwf) as [_ Hadvance].
  apply (Hfinal _ _ _ _ Hadvance); vm_compute in Hrun; injection Hrun as <- <-; reflexivity.
Defined.

Lemma runtime_view_exact_witness :
  exists snapshot, get_factory_runtime "admin" 3 canister = Done snapshot canister
    /\ FactoryRuntimeSnapshot.retry_queue snapshot ≡ₚ [].
Proof.
  destruct (runtime_view_exact "admin" 3 canister admin ltac:(done) ltac:(by vm_compute))
    as (snapshot & _ & _ & Hrun & _ & Hqueue & _).
  exists snapshot. split; [exact Hrun|exact Hqueue].
Defined.
End AdminSamples.
