(* ===== verification/AgentTypes.v ===== *)
(** * AgentTypes: the automaton's data

    Models the part of [components/ic-automaton/src/domain/types.rs] that the
    automaton's state machine, scheduler, recovery policy and cycle top-up work
    on - one module per struct or enum with the source's fields, constructors,
    defaults and small methods - and the constants of [timing.rs] in their
    production values.  A [f64] is kept as its 64-bit pattern. *)

From S2P Require Import Prelude Text SpawnProtocol.

Definition float64 : Type := N.
(** [5.0]. *)
Definition float_five : float64 := 0x4014000000000000%N.

(** ** [timing.rs] *)

Definition NANOS_PER_SEC : N := 1000000000.
Definition BASE_TICK_SECS : N := 30.
Definition TICKS_PER_TURN_INTERVAL : N := 10.
Definition AGENT_TURN_BUDGET_SECS : N := 90.
Definition SCHEDULER_TICK_INTERVAL_SECS : N := BASE_TICK_SECS.
Definition DEFAULT_TASK_INTERVAL_SECS : N := BASE_TICK_SECS * TICKS_PER_TURN_INTERVAL.
Definition INTER_CANISTER_BOUNDED_WAIT_SECS : N := DEFAULT_TASK_INTERVAL_SECS.
Definition AGENT_TURN_LEASE_GRACE_SECS : N := SCHEDULER_TICK_INTERVAL_SECS.
Definition AGENT_TURN_LEASE_TTL_SECS : N :=
  AGENT_TURN_BUDGET_SECS + INTER_CANISTER_BOUNDED_WAIT_SECS + AGENT_TURN_LEASE_GRACE_SECS.
Definition AGENT_TURN_LEASE_TTL_NS : N := AGENT_TURN_LEASE_TTL_SECS * NANOS_PER_SEC.
Definition LIGHTWEIGHT_LEASE_TTL_SECS : N := BASE_TICK_SECS * 2.
Definition LIGHTWEIGHT_LEASE_TTL_NS : N := LIGHTWEIGHT_LEASE_TTL_SECS * NANOS_PER_SEC.
Definition AUTONOMY_DEDUPE_WINDOW_SECS : N := DEFAULT_TASK_INTERVAL_SECS * 2.
Definition AUTONOMY_FAILURE_REPEAT_WINDOW_SECS : N := AUTONOMY_DEDUPE_WINDOW_SECS * 3.
Definition AUTONOMY_FAILURE_REPEAT_THRESHOLD : N := 3.
Definition AUTONOMY_FAILURE_COOLDOWN_SECS : N := AUTONOMY_DEDUPE_WINDOW_SECS * 3.
Definition EMPTY_POLL_BACKOFF_SCHEDULE_SECS : list N :=
  [BASE_TICK_SECS * 2; BASE_TICK_SECS * 4; BASE_TICK_SECS * 8; BASE_TICK_SECS * 20]%N.
Definition MIN_CADENCE_MULTIPLIER : N := 2.
Definition MAX_CADENCE_MULTIPLIER : N := 40.

(** [u64::clamp]. *)
Definition clamp (x low high : N) : N := N.min (N.max x low) high.

Definition task_interval_for_multiplier (multiplier : N) : N :=
  saturating_mul 64 BASE_TICK_SECS (clamp multiplier MIN_CADENCE_MULTIPLIER MAX_CADENCE_MULTIPLIER).

(** [cycle_admission::DEFAULT_RESERVE_FLOOR_CYCLES], the reserve of the last
    turn. *)
Definition DEFAULT_RESERVE_FLOOR_CYCLES : N := 200000000000.
Definition TERMINAL_TURN_RESERVED_CYCLES : N := DEFAULT_RESERVE_FLOOR_CYCLES.

(** ** Structs and enums *)

Module AgentState.
Inductive t :=
| Bootstrapping
| Idle
| LoadingContext
| Inferring
| ExecutingActions
| Persisting
| Sleeping
| Faulted.
#[global] Instance eq_dec : EqDecision t.
Proof. solve_decision. Defined.
End AgentState.

Module AgentEvent.
Inductive t :=
| TimerTick
| EvmPollCompleted (new_events : N) (has_input : bool)
| ContextLoaded
| InferenceCompleted
| ActionsCompleted
| PersistCompleted
| SleepRequested
| TurnFailed (reason : string)
| ResetFault.
#[global] Instance eq_dec : EqDecision t.
Proof. solve_decision. Defined.
End AgentEvent.

Module TransitionError.
Record t := mk {
  from : AgentState.t;
  event : string;
  reason : string;
}.
#[global] Instance eq_dec : EqDecision t.
Proof. solve_decision. Defined.
#[global] Instance eta_t : Eta t := fun self =>
  mk (from self) (event self) (reason self).
End TransitionError.

Module RecoveryPolicyAction.
Inductive t :=
| Skip
| RetryImmediate
| Backoff
| TuneResponseLimit
| EscalateFault.
#[global] Instance eq_dec : EqDecision t.
Proof. solve_decision. Defined.
End RecoveryPolicyAction.

Module RecoveryDecisionReason.
Inductive t :=
| ResponseTooLarge
| ResponseLimitAlreadyMaxed
| TransientOutcallFailure
| OutcallRateLimited
| NonRetriableOutcallFailure
| SurvivalPolicyBlocked
| InsufficientCycles
| NonRetriableOperationFailure
| UnknownFailure.
#[global] Instance eq_dec : EqDecision t.
Proof. solve_decision. Defined.
End RecoveryDecisionReason.

Module ResponseLimitAdjustment.
Record t := mk {
  from_bytes : N;
  to_bytes : N;
}.
#[global] Instance eq_dec : EqDecision t.
Proof. solve_decision. Defined.
#[global] Instance eta_t : Eta t := fun self =>
  mk (from_bytes self) (to_bytes self).
End ResponseLimitAdjustment.

Module RecoveryDecision.
Record t := mk {
  action : RecoveryPolicyAction.t;
  reason : RecoveryDecisionReason.t;
  backoff_secs : option N;
  response_limit_adjustment : option ResponseLimitAdjustment.t;
}.
#[global] Instance eq_dec : EqDecision t.
Proof. solve_decision. Defined.
#[global] Instance eta_t : Eta t := fun self =>
  mk (action self) (reason self) (backoff_secs self) (response_limit_adjustment self).
End RecoveryDecision.

Module RecoveryOperation.
Inductive t :=
| WalletBalanceSync
| EvmPoll
| Inference
| ToolExecution
| Unknown.
#[global] Instance eq_dec : EqDecision t.
Proof. solve_decision. Defined.
End RecoveryOperation.

Module ResponseLimitPolicy.
Record t := mk {
  current_bytes : N;
  min_bytes : N;
  max_bytes : N;
  tune_multiplier : N;
}.
#[global] Instance eq_dec : EqDecision t.
Proof. solve_decision. Defined.
#[global] Instance eta_t : Eta t := fun self =>
  mk (current_bytes self) (min_bytes self) (max_bytes self) (tune_multiplier self).
Definition default : t := mk 256 256 (4 * 1024) 2.
End ResponseLimitPolicy.

Module RecoveryContext.
Record t := mk {
  operation : RecoveryOperation.t;
  consecutive_failures : N;
  backoff_base_secs : N;
  backoff_max_secs : N;
  response_limit : option ResponseLimitPolicy.t;
}.
#[global] Instance eq_dec : EqDecision t.
Proof. solve_decision. Defined.
#[global] Instance eta_t : Eta t := fun self =>
  mk (operation self) (consecutive_failures self) (backoff_base_secs self)
    (backoff_max_secs self) (response_limit self).
Definition default : t := mk RecoveryOperation.Unknown 0 5 300 None.
End RecoveryContext.

Module OutcallFailureKind.
Inductive t :=
| ResponseTooLarge
| Timeout
| Transport
| RateLimited
| UpstreamUnavailable
| InvalidRequest
| InvalidResponse
| RejectedByPolicy
| Unknown.
#[global] Instance eq_dec : EqDecision t.
Proof. solve_decision. Defined.
End OutcallFailureKind.

Module OutcallFailure.
Record t := mk {
  kind : OutcallFailureKind.t;
  retry_after_secs : option N;
  observed_response_bytes : option N;
}.
#[global] Instance eq_dec : EqDecision t.
Proof. solve_decision. Defined.
#[global] Instance eta_t : Eta t := fun self =>
  mk (kind self) (retry_after_secs self) (observed_response_bytes self).
End OutcallFailure.

Module OperationFailureKind.
Inductive t :=
| BlockedBySurvivalPolicy
| MissingConfiguration
| InvalidConfiguration
| InsufficientCycles
| Unauthorized
| Deterministic
| Unknown.
#[global] Instance eq_dec : EqDecision t.
Proof. solve_decision. Defined.
End OperationFailureKind.

Module OperationFailure.
Record t := mk {
  kind : OperationFailureKind.t;
}.
#[global] Instance eq_dec : EqDecision t.
Proof. solve_decision. Defined.
#[global] Instance eta_t : Eta t := fun self =>
  mk (kind self).
End OperationFailure.

Module RecoveryFailure.
Inductive t :=
| Outcall (arg : OutcallFailure.t)
| Operation (arg : OperationFailure.t).
#[global] Instance eq_dec : EqDecision t.
Proof. solve_decision. Defined.
End RecoveryFailure.

Module MortalityTier.
Inductive t :=
| Active
| Conserving
| Hibernating
| Terminal
| Dead.
#[global] Instance eq_dec : EqDecision t.
Proof. solve_decision. Defined.
Definition severity (tier : t) : N :=
  match tier with
  | Active => 0
  | Conserving => 1
  | Hibernating => 2
  | Terminal => 3
  | Dead => 4
  end.
End MortalityTier.

Module MortalityPhase.
Inductive t :=
| Alive
| TerminalPending
| TerminalInProgress
| Dead.
#[global] Instance eq_dec : EqDecision t.
Proof. solve_decision. Defined.
End MortalityPhase.

Module MortalityRuntime.
Record t := mk {
  tier : MortalityTier.t;
  phase : MortalityPhase.t;
  recovery_candidate : option MortalityTier.t;
  recovery_checks : N;
  runway_seconds : option N;
  terminal_budget_reserved_cycles : N;
  terminal_turn_id : option string;
  terminal_started_at_ns : option N;
  died_at_ns : option N;
  death_cause : option string;
  estate_disposition : option string;
  terminal_bequest_count : N;
}.
#[global] Instance eq_dec : EqDecision t.
Proof. solve_decision. Defined.
#[global] Instance eta_t : Eta t := fun self =>
  mk (tier self) (phase self) (recovery_candidate self) (recovery_checks self)
    (runway_seconds self) (terminal_budget_reserved_cycles self) (terminal_turn_id self)
    (terminal_started_at_ns self) (died_at_ns self) (death_cause self)
    (estate_disposition self) (terminal_bequest_count self).
Definition default : t :=
  mk MortalityTier.Active MortalityPhase.Alive None 0 None TERMINAL_TURN_RESERVED_CYCLES
    None None None None None 0.
End MortalityRuntime.

Module EvmPollCursor.
Record t := mk {
  chain_id : N;
  contract_address : option string;
  automaton_address_topic : option string;
  next_block : N;
  next_log_index : N;
  confirmation_depth : N;
  last_poll_at_ns : N;
  consecutive_empty_polls : N;
}.
#[global] Instance eq_dec : EqDecision t.
Proof. solve_decision. Defined.
#[global] Instance eta_t : Eta t := fun self =>
  mk (chain_id self) (contract_address self) (automaton_address_topic self)
    (next_block self) (next_log_index self) (confirmation_depth self) (last_poll_at_ns self)
    (consecutive_empty_polls self).
Definition default : t := mk 8453 None None 0 0 6 0 0.
End EvmPollCursor.

Module StewardState.
Record t := mk {
  chain_id : N;
  address : string;
  enabled : bool;
  last_used_at_ns : option N;
  principal : option Principal;
}.
#[global] Instance eq_dec : EqDecision t.
Proof. solve_decision. Defined.
#[global] Instance eta_t : Eta t := fun self =>
  mk (chain_id self) (address self) (enabled self) (last_used_at_ns self) (principal self).
End StewardState.

Module StewardNonceState.
Record t := mk {
  next_nonce : N;
}.
#[global] Instance eq_dec : EqDecision t.
Proof. solve_decision. Defined.
#[global] Instance eta_t : Eta t := fun self =>
  mk (next_nonce self).
Definition default : t := mk 0.
End StewardNonceState.

Module ProtocolWatchlistEntry.
Record t := mk {
  id : string;
  chain_id : N;
  pool_address : string;
  market_data_api_url : string;
  abi_api_url : string;
}.
#[global] Instance eq_dec : EqDecision t.
Proof. solve_decision. Defined.
#[global] Instance eta_t : Eta t := fun self =>
  mk (id self) (chain_id self) (pool_address self) (market_data_api_url self)
    (abi_api_url self).
End ProtocolWatchlistEntry.

Module StrategyDiscoveryWorkerConfig.
Record t := mk {
  enabled : bool;
  worker_base_url : string;
  worker_api_key : option string;
  trusted_callback_principal : option Principal;
  result_ttl_secs : N;
  objective : string;
  protocol_watchlist : list ProtocolWatchlistEntry.t;
}.
#[global] Instance eq_dec : EqDecision t.
Proof. solve_decision. Defined.
#[global] Instance eta_t : Eta t := fun self =>
  mk (enabled self) (worker_base_url self) (worker_api_key self)
    (trusted_callback_principal self) (result_ttl_secs self) (objective self)
    (protocol_watchlist self).
Definition default : t := mk false "" None None (60 * 60) "" [].
End StrategyDiscoveryWorkerConfig.

Module WalletBalanceSnapshot.
Record t := mk {
  eth_balance_wei_hex : option string;
  usdc_balance_raw_hex : option string;
  usdc_decimals : N;
  usdc_contract_address : option string;
  last_synced_at_ns : option N;
  last_synced_block : option N;
  last_error : option string;
}.
#[global] Instance eq_dec : EqDecision t.
Proof. solve_decision. Defined.
#[global] Instance eta_t : Eta t := fun self =>
  mk (eth_balance_wei_hex self) (usdc_balance_raw_hex self) (usdc_decimals self)
    (usdc_contract_address self) (last_synced_at_ns self) (last_synced_block self)
    (last_error self).
Definition default : t := mk None None 6 None None None None.
End WalletBalanceSnapshot.

Module WalletBalanceSyncConfig.
Record t := mk {
  enabled : bool;
  normal_interval_secs : N;
  low_cycles_interval_secs : N;
  freshness_window_secs : N;
  max_response_bytes : N;
  discover_usdc_via_inbox : bool;
}.
#[global] Instance eq_dec : EqDecision t.
Proof. solve_decision. Defined.
#[global] Instance eta_t : Eta t := fun self =>
  mk (enabled self) (normal_interval_secs self) (low_cycles_interval_secs self)
    (freshness_window_secs self) (max_response_bytes self) (discover_usdc_via_inbox self).
Definition default : t := mk true 300 900 600 1024 true.
End WalletBalanceSyncConfig.

Module AutonomySuppressionConfig.
Record t := mk {
  tool_dedupe_enabled : bool;
  dedupe_window_secs : N;
  failure_repeat_window_secs : N;
  failure_repeat_threshold : N;
  failure_cooldown_secs : N;
}.
#[global] Instance eq_dec : EqDecision t.
Proof. solve_decision. Defined.
#[global] Instance eta_t : Eta t := fun self =>
  mk (tool_dedupe_enabled self) (dedupe_window_secs self) (failure_repeat_window_secs self)
    (failure_repeat_threshold self) (failure_cooldown_secs self).
Definition default : t :=
  mk true AUTONOMY_DEDUPE_WINDOW_SECS AUTONOMY_FAILURE_REPEAT_WINDOW_SECS
    AUTONOMY_FAILURE_REPEAT_THRESHOLD AUTONOMY_FAILURE_COOLDOWN_SECS.
End AutonomySuppressionConfig.

Module AutonomyInferenceSuppressionClassification.
Inductive t :=
| ProviderRejected.
#[global] Instance eq_dec : EqDecision t.
Proof. solve_decision. Defined.
End AutonomyInferenceSuppressionClassification.

Module AutonomyInferenceSuppressionState.
Record t := mk {
  consecutive_failure_count : N;
  last_failure_classification : option AutonomyInferenceSuppressionClassification.t;
  suppression_until_ns : option N;
}.
#[global] Instance eq_dec : EqDecision t.
Proof. solve_decision. Defined.
#[global] Instance eta_t : Eta t := fun self =>
  mk (consecutive_failure_count self) (last_failure_classification self)
    (suppression_until_ns self).
Definition default : t := mk 0 None None.
End AutonomyInferenceSuppressionState.

Module CycleTopUpConfig.
Record t := mk {
  enabled : bool;
  auto_topup_cycle_threshold : N;
  usdc_contract_address : option string;
  onesec_locker_address : string;
  onesec_canister_id : string;
  bridged_usdc_ledger_id : string;
  kong_backend_id : string;
  icp_ledger_id : string;
  cmc_id : string;
  target_canister_id : option string;
  min_usdc_reserve : N;
  max_usdc_per_topup : N;
  max_slippage_pct : float64;
  max_bridge_polls : N;
  lock_confirmations : N;
}.
#[global] Instance eq_dec : EqDecision t.
Proof. solve_decision. Defined.
#[global] Instance eta_t : Eta t := fun self =>
  mk (enabled self) (auto_topup_cycle_threshold self) (usdc_contract_address self)
    (onesec_locker_address self) (onesec_canister_id self) (bridged_usdc_ledger_id self)
    (kong_backend_id self) (icp_ledger_id self) (cmc_id self) (target_canister_id self)
    (min_usdc_reserve self) (max_usdc_per_topup self) (max_slippage_pct self)
    (max_bridge_polls self) (lock_confirmations self).
Definition default : t := {|
  enabled := true;
  auto_topup_cycle_threshold := 2000000000000;
  usdc_contract_address := None;
  onesec_locker_address := "0xae2351b15cff68b5863c6690dca58dce383bf45a";
  onesec_canister_id := "5okwm-giaaa-aaaar-qbn6a-cai";
  bridged_usdc_ledger_id := "53nhb-haaaa-aaaar-qbn5q-cai";
  kong_backend_id := "2ipq2-uqaaa-aaaar-qailq-cai";
  icp_ledger_id := "ryjl3-tyaaa-aaaaa-aaaba-cai";
  cmc_id := "rkp4c-7iaaa-aaaaa-aaaca-cai";
  target_canister_id := None;
  min_usdc_reserve := 10000000;
  max_usdc_per_topup := 50000000;
  max_slippage_pct := float_five;
  max_bridge_polls := 60;
  lock_confirmations := 12;
|}.
End CycleTopUpConfig.

Module RoomPollingState.
Record t := mk {
  configured : bool;
  last_seen_seq : option N;
  last_attempted_at_ns : option N;
  last_succeeded_at_ns : option N;
  last_known_latest_seq : option N;
  last_batch_count : N;
  consecutive_failures : N;
  last_error : option string;
  last_post_attempted_at_ns : option N;
  last_post_succeeded_at_ns : option N;
  last_post_error : option string;
}.
#[global] Instance eq_dec : EqDecision t.
Proof. solve_decision. Defined.
#[global] Instance eta_t : Eta t := fun self =>
  mk (configured self) (last_seen_seq self) (last_attempted_at_ns self)
    (last_succeeded_at_ns self) (last_known_latest_seq self) (last_batch_count self)
    (consecutive_failures self) (last_error self) (last_post_attempted_at_ns self)
    (last_post_succeeded_at_ns self) (last_post_error self).
Definition default : t := mk false None None None None 0 0 None None None None.
End RoomPollingState.

Module RoomContentType.
Inductive t :=
| TextPlain
| ApplicationJson.
#[global] Instance eq_dec : EqDecision t.
Proof. solve_decision. Defined.
End RoomContentType.

Module RoomMessage.
Record t := mk {
  message_id : string;
  seq : N;
  author_canister_id : string;
  created_at : N;
  body : string;
  mentions : list string;
  content_type : RoomContentType.t;
}.
#[global] Instance eq_dec : EqDecision t.
Proof. solve_decision. Defined.
#[global] Instance eta_t : Eta t := fun self =>
  mk (message_id self) (seq self) (author_canister_id self) (created_at self) (body self)
    (mentions self) (content_type self).
End RoomMessage.

Module OutcallTimingStats.
Record t := mk {
  total_calls : N;
  failure_calls : N;
  timeout_failures : N;
  total_duration_ms : N;
  max_duration_ms : N;
  last_duration_ms : option N;
  last_started_at_ns : option N;
  last_finished_at_ns : option N;
  last_error : option string;
}.
#[global] Instance eq_dec : EqDecision t.
Proof. solve_decision. Defined.
#[global] Instance eta_t : Eta t := fun self =>
  mk (total_calls self) (failure_calls self) (timeout_failures self)
    (total_duration_ms self) (max_duration_ms self) (last_duration_ms self)
    (last_started_at_ns self) (last_finished_at_ns self) (last_error self).
Definition default : t := mk 0 0 0 0 0 None None None None.
End OutcallTimingStats.

Module RuntimeTimingTelemetry.
Record t := mk {
  last_turn_duration_ms : option N;
  max_turn_duration_ms : N;
  turns_over_budget : N;
  inference_outcall : OutcallTimingStats.t;
  http_fetch_outcall : OutcallTimingStats.t;
}.
#[global] Instance eq_dec : EqDecision t.
Proof. solve_decision. Defined.
#[global] Instance eta_t : Eta t := fun self =>
  mk (last_turn_duration_ms self) (max_turn_duration_ms self) (turns_over_budget self)
    (inference_outcall self) (http_fetch_outcall self).
Definition default : t :=
  mk None 0 0 OutcallTimingStats.default OutcallTimingStats.default.
End RuntimeTimingTelemetry.

Module InferenceProvider.
Inductive t :=
| IcLlm
| OpenRouter
| OpenRouterProxyWorker.
#[global] Instance eq_dec : EqDecision t.
Proof. solve_decision. Defined.
End InferenceProvider.

Module OpenRouterProxyWorkerConfig.
Record t := mk {
  worker_base_url : string;
  trusted_callback_principal : option Principal;
}.
#[global] Instance eq_dec : EqDecision t.
Proof. solve_decision. Defined.
#[global] Instance eta_t : Eta t := fun self =>
  mk (worker_base_url self) (trusted_callback_principal self).
Definition default : t := mk "" None.
End OpenRouterProxyWorkerConfig.

Module RuntimeSnapshot.
Record t := mk {
  state : AgentState.t;
  turn_in_flight : bool;
  loop_enabled : bool;
  turn_counter : N;
  last_turn_id : option string;
  last_error : option string;
  soul : string;
  evm_cursor : EvmPollCursor.t;
  event_seq : N;
  transition_seq : N;
  last_transition_at_ns : N;
  inference_provider : InferenceProvider.t;
  inference_model : string;
  llm_canister_id : string;
  openrouter_api_key : option string;
  openrouter_base_url : string;
  openrouter_max_response_bytes : N;
  openrouter_reasoning_level : OpenRouterReasoningLevel.t;
  openrouter_proxy : OpenRouterProxyWorkerConfig.t;
  strategy_discovery_worker : StrategyDiscoveryWorkerConfig.t;
  installed_version_commit : option string;
  ecdsa_key_name : string;
  evm_address : option string;
  inbox_contract_address : option string;
  active_steward : option StewardState.t;
  steward_nonce : StewardNonceState.t;
  evm_rpc_url : string;
  evm_rpc_fallback_url : option string;
  evm_rpc_max_response_bytes : N;
  evm_bootstrap_lookback_blocks : N;
  wallet_balance : WalletBalanceSnapshot.t;
  wallet_balance_sync : WalletBalanceSyncConfig.t;
  autonomy_suppression : AutonomySuppressionConfig.t;
  autonomy_inference_suppression : AutonomyInferenceSuppressionState.t;
  spawn_session_id : option string;
  spawn_contract_version : option N;
  genesis_name : option string;
  genesis_constitution : option string;
  spawn_parent_id : option string;
  spawn_generation : N;
  lifetime_patronage_usdc_raw : string;
  factory_principal : option string;
  spawn_risk : option N;
  spawn_strategies : list string;
  spawn_skills : list string;
  wallet_balance_bootstrap_pending : bool;
  cycle_topup : CycleTopUpConfig.t;
  timing_telemetry : RuntimeTimingTelemetry.t;
  room_poll : RoomPollingState.t;
  room_observations : list RoomMessage.t;
  mortality : MortalityRuntime.t;
}.
#[global] Instance eta_t : Eta t := fun self =>
  mk (state self) (turn_in_flight self) (loop_enabled self) (turn_counter self)
    (last_turn_id self) (last_error self) (soul self) (evm_cursor self) (event_seq self)
    (transition_seq self) (last_transition_at_ns self) (inference_provider self)
    (inference_model self) (llm_canister_id self) (openrouter_api_key self)
    (openrouter_base_url self) (openrouter_max_response_bytes self)
    (openrouter_reasoning_level self) (openrouter_proxy self)
    (strategy_discovery_worker self) (installed_version_commit self) (ecdsa_key_name self)
    (evm_address self) (inbox_contract_address self) (active_steward self)
    (steward_nonce self) (evm_rpc_url self) (evm_rpc_fallback_url self)
    (evm_rpc_max_response_bytes self) (evm_bootstrap_lookback_blocks self)
    (wallet_balance self) (wallet_balance_sync self) (autonomy_suppression self)
    (autonomy_inference_suppression self) (spawn_session_id self)
    (spawn_contract_version self) (genesis_name self) (genesis_constitution self)
    (spawn_parent_id self) (spawn_generation self) (lifetime_patronage_usdc_raw self)
    (factory_principal self) (spawn_risk self) (spawn_strategies self) (spawn_skills self)
    (wallet_balance_bootstrap_pending self) (cycle_topup self) (timing_telemetry self)
    (room_poll self) (room_observations self) (mortality self).
Definition default : t := {|
  state := AgentState.Bootstrapping;
  turn_in_flight := false;
  loop_enabled := true;
  turn_counter := 0;
  last_turn_id := None;
  last_error := None;
  soul := "ic-automaton-v1";
  evm_cursor := EvmPollCursor.default;
  event_seq := 0;
  transition_seq := 0;
  last_transition_at_ns := 0;
  inference_provider := InferenceProvider.IcLlm;
  inference_model := "llama3.1:8b";
  llm_canister_id := "w36hm-eqaaa-aaaal-qr76a-cai";
  openrouter_api_key := None;
  openrouter_base_url := "https://openrouter.ai/api/v1";
  openrouter_max_response_bytes := 64 * 1024;
  openrouter_reasoning_level := OpenRouterReasoningLevel.default;
  openrouter_proxy := OpenRouterProxyWorkerConfig.default;
  strategy_discovery_worker := StrategyDiscoveryWorkerConfig.default;
  installed_version_commit := None;
  ecdsa_key_name := "";
  evm_address := None;
  inbox_contract_address := None;
  active_steward := None;
  steward_nonce := StewardNonceState.default;
  evm_rpc_url := "https://base.publicnode.com";
  evm_rpc_fallback_url := None;
  evm_rpc_max_response_bytes := 64 * 1024;
  evm_bootstrap_lookback_blocks := 1000;
  wallet_balance := WalletBalanceSnapshot.default;
  wallet_balance_sync := WalletBalanceSyncConfig.default;
  autonomy_suppression := AutonomySuppressionConfig.default;
  autonomy_inference_suppression := AutonomyInferenceSuppressionState.default;
  spawn_session_id := None;
  spawn_contract_version := None;
  genesis_name := None;
  genesis_constitution := None;
  spawn_parent_id := None;
  spawn_generation := 0;
  lifetime_patronage_usdc_raw := "0";
  factory_principal := None;
  spawn_risk := None;
  spawn_strategies := [];
  spawn_skills := [];
  wallet_balance_bootstrap_pending := true;
  cycle_topup := CycleTopUpConfig.default;
  timing_telemetry := RuntimeTimingTelemetry.default;
  room_poll := RoomPollingState.default;
  room_observations := [];
  mortality := MortalityRuntime.default;
|}.
End RuntimeSnapshot.

Module TaskKind.
Inductive t :=
| AgentTurn
| PollInbox
| CheckCycles
| TopUpCycles
| Reconcile.
#[global] Instance eq_dec : EqDecision t.
Proof. solve_decision. Defined.
Definition as_str (kind : t) : string :=
  match kind with
  | AgentTurn => "AgentTurn"
  | PollInbox => "PollInbox"
  | CheckCycles => "CheckCycles"
  | TopUpCycles => "TopUpCycles"
  | Reconcile => "Reconcile"
  end.
(** [TaskKind::from_str]. *)
Definition from_str (s : string) : option t :=
  if bool_decide (s = "AgentTurn") then Some AgentTurn
  else if bool_decide (s = "PollInbox") then Some PollInbox
  else if bool_decide (s = "CheckCycles") then Some CheckCycles
  else if bool_decide (s = "TopUpCycles") then Some TopUpCycles
  else if bool_decide (s = "Reconcile") then Some Reconcile
  else None.
Definition default_priority (kind : t) : N :=
  match kind with
  | AgentTurn => 0
  | PollInbox => 1
  | CheckCycles => 2
  | TopUpCycles => 3
  | Reconcile => 4
  end.
Definition essential (kind : t) : bool :=
  match kind with Reconcile => false | _ => true end.
Definition default_interval_secs (_ : t) : N := DEFAULT_TASK_INTERVAL_SECS.
Definition all : list t := [AgentTurn; PollInbox; CheckCycles; TopUpCycles; Reconcile].
End TaskKind.

Module TaskScheduleConfig.
Record t := mk {
  kind : TaskKind.t;
  enabled : bool;
  essential : bool;
  interval_secs : N;
  priority : N;
  max_backoff_secs : N;
}.
#[global] Instance eq_dec : EqDecision t.
Proof. solve_decision. Defined.
#[global] Instance eta_t : Eta t := fun self =>
  mk (kind self) (enabled self) (essential self) (interval_secs self) (priority self)
    (max_backoff_secs self).
Definition default_for (kind : TaskKind.t) : t := {|
  kind := kind;
  enabled := negb (bool_decide (kind = TaskKind.TopUpCycles));
  essential := TaskKind.essential kind;
  interval_secs := TaskKind.default_interval_secs kind;
  priority := TaskKind.default_priority kind;
  max_backoff_secs := 120;
|}.
End TaskScheduleConfig.

Module TaskScheduleRuntime.
Record t := mk {
  kind : TaskKind.t;
  next_due_ns : N;
  backoff_until_ns : option N;
  consecutive_failures : N;
  pending_job_id : option string;
  last_started_ns : option N;
  last_finished_ns : option N;
  last_error : option string;
}.
#[global] Instance eq_dec : EqDecision t.
Proof. solve_decision. Defined.
#[global] Instance eta_t : Eta t := fun self =>
  mk (kind self) (next_due_ns self) (backoff_until_ns self) (consecutive_failures self)
    (pending_job_id self) (last_started_ns self) (last_finished_ns self) (last_error self).
End TaskScheduleRuntime.

Module TaskLane.
Inductive t :=
| Mutating
| ReadOnly.
#[global] Instance eq_dec : EqDecision t.
Proof. solve_decision. Defined.
Definition as_str (lane : t) : string :=
  match lane with Mutating => "mutating" | ReadOnly => "read_only" end.
End TaskLane.

Module JobStatus.
Inductive t :=
| Pending
| InFlight
| Succeeded
| Failed
| TimedOut
| Skipped.
#[global] Instance eq_dec : EqDecision t.
Proof. solve_decision. Defined.
End JobStatus.

Module ScheduledJob.
Record t := mk {
  id : string;
  kind : TaskKind.t;
  lane : TaskLane.t;
  dedupe_key : string;
  priority : N;
  created_at_ns : N;
  scheduled_for_ns : N;
  started_at_ns : option N;
  finished_at_ns : option N;
  status : JobStatus.t;
  attempts : N;
  max_attempts : N;
  last_error : option string;
}.
#[global] Instance eq_dec : EqDecision t.
Proof. solve_decision. Defined.
#[global] Instance eta_t : Eta t := fun self =>
  mk (id self) (kind self) (lane self) (dedupe_key self) (priority self)
    (created_at_ns self) (scheduled_for_ns self) (started_at_ns self) (finished_at_ns self)
    (status self) (attempts self) (max_attempts self) (last_error self).
Definition is_terminal (job : t) : bool :=
  match status job with
  | JobStatus.Succeeded | JobStatus.Failed | JobStatus.TimedOut | JobStatus.Skipped => true
  | JobStatus.Pending | JobStatus.InFlight => false
  end.
End ScheduledJob.

Module SurvivalTier.
Inductive t :=
| Normal
| LowCycles
| Critical
| OutOfCycles.
#[global] Instance eq_dec : EqDecision t.
Proof. solve_decision. Defined.
End SurvivalTier.

Module SchedulerLease.
Record t := mk {
  lane : TaskLane.t;
  job_id : string;
  acquired_at_ns : N;
  expires_at_ns : N;
}.
#[global] Instance eq_dec : EqDecision t.
Proof. solve_decision. Defined.
#[global] Instance eta_t : Eta t := fun self =>
  mk (lane self) (job_id self) (acquired_at_ns self) (expires_at_ns self).
End SchedulerLease.

Module SchedulerRuntime.
Record t := mk {
  enabled : bool;
  paused_reason : option string;
  low_cycles_mode : bool;
  survival_tier : SurvivalTier.t;
  survival_tier_recovery_checks : N;
  next_job_seq : N;
  active_mutating_lease : option SchedulerLease.t;
  last_tick_started_ns : N;
  last_tick_finished_ns : N;
  last_tick_error : option string;
}.
#[global] Instance eq_dec : EqDecision t.
Proof. solve_decision. Defined.
#[global] Instance eta_t : Eta t := fun self =>
  mk (enabled self) (paused_reason self) (low_cycles_mode self) (survival_tier self)
    (survival_tier_recovery_checks self) (next_job_seq self) (active_mutating_lease self)
    (last_tick_started_ns self) (last_tick_finished_ns self) (last_tick_error self).
Definition default : t := {|
  enabled := true;
  paused_reason := None;
  low_cycles_mode := false;
  survival_tier := SurvivalTier.Normal;
  survival_tier_recovery_checks := 0;
  next_job_seq := 0;
  active_mutating_lease := None;
  last_tick_started_ns := 0;
  last_tick_finished_ns := 0;
  last_tick_error := None;
|}.
End SchedulerRuntime.

Module SurvivalOperationClass.
Inductive t :=
| Inference
| EvmPoll
| EvmBroadcast
| ThresholdSign
| InterCanisterCall.
#[global] Instance eq_dec : EqDecision t.
Proof. solve_decision. Defined.
Definition as_str (operation : t) : string :=
  match operation with
  | Inference => "inference"
  | EvmPoll => "evm_poll"
  | EvmBroadcast => "evm_broadcast"
  | ThresholdSign => "threshold_sign"
  | InterCanisterCall => "inter_canister_call"
  end.
End SurvivalOperationClass.
