(* ===== verification/AgentDomain.v ===== *)
(** * AgentDomain: the automaton's pure policies

    Models [components/ic-automaton/src/domain]: the turn state machine
    ([state_machine.rs]), the recovery policy ([recovery_policy.rs]), cycle
    admission ([cycle_admission.rs]) and the mortality tiers ([mortality.rs],
    without the floating-point runway estimate). *)

From S2P Require Import Prelude Text SpawnProtocol AgentTypes.

(** ** The turn state machine *)

Section StateMachine.
(** The [Debug] form of a string. *)
Context (debug_str : string -> string).

Definition event_debug (event : AgentEvent.t) : string :=
  match event with
  | AgentEvent.TimerTick => "TimerTick"
  | AgentEvent.EvmPollCompleted new_events has_input =>
      "EvmPollCompleted { new_events: " +:+ pretty new_events +:+ ", has_input: "
      +:+ (if has_input then "true" else "false") +:+ " }"
  | AgentEvent.ContextLoaded => "ContextLoaded"
  | AgentEvent.InferenceCompleted => "InferenceCompleted"
  | AgentEvent.ActionsCompleted => "ActionsCompleted"
  | AgentEvent.PersistCompleted => "PersistCompleted"
  | AgentEvent.SleepRequested => "SleepRequested"
  | AgentEvent.TurnFailed reason => "TurnFailed { reason: " +:+ debug_str reason +:+ " }"
  | AgentEvent.ResetFault => "ResetFault"
  end.

Definition transition (current : AgentState.t) (event : AgentEvent.t)
    : result TransitionError.t AgentState.t :=
  match current, event with
  | AgentState.Bootstrapping, AgentEvent.TimerTick => Ok AgentState.LoadingContext
  | AgentState.Idle, AgentEvent.TimerTick => Ok AgentState.LoadingContext
  | AgentState.Sleeping, AgentEvent.TimerTick => Ok AgentState.LoadingContext
  | AgentState.Faulted, AgentEvent.TimerTick => Ok AgentState.LoadingContext
  | AgentState.LoadingContext, AgentEvent.EvmPollCompleted _ true => Ok AgentState.Inferring
  | AgentState.LoadingContext, AgentEvent.EvmPollCompleted _ false => Ok AgentState.Sleeping
  | AgentState.LoadingContext, AgentEvent.ContextLoaded => Ok AgentState.Inferring
  | AgentState.Inferring, AgentEvent.InferenceCompleted => Ok AgentState.ExecutingActions
  | AgentState.ExecutingActions, AgentEvent.ActionsCompleted => Ok AgentState.Persisting
  | AgentState.Persisting, AgentEvent.PersistCompleted => Ok AgentState.Sleeping
  | AgentState.Sleeping, AgentEvent.SleepRequested => Ok AgentState.Sleeping
  | AgentState.Faulted, AgentEvent.ResetFault => Ok AgentState.Bootstrapping
  | AgentState.Bootstrapping, AgentEvent.TurnFailed _ => Ok AgentState.Faulted
  | AgentState.Idle, AgentEvent.TurnFailed _ => Ok AgentState.Faulted
  | AgentState.LoadingContext, AgentEvent.TurnFailed _ => Ok AgentState.Faulted
  | AgentState.Inferring, AgentEvent.TurnFailed _ => Ok AgentState.Faulted
  | AgentState.ExecutingActions, AgentEvent.TurnFailed _ => Ok AgentState.Faulted
  | AgentState.Persisting, AgentEvent.TurnFailed _ => Ok AgentState.Faulted
  | AgentState.Sleeping, AgentEvent.TurnFailed _ => Ok AgentState.Faulted
  | AgentState.Faulted, AgentEvent.TurnFailed _ => Ok AgentState.Faulted
  | _, _ => Err (TransitionError.mk current (event_debug event) "invalid transition")
  end.
End StateMachine.

(** ** Recovery *)

(** [1u64.checked_shl(exponent).unwrap_or(u64::MAX)]: the shift drops what
    leaves the word, and only an exponent of 64 or more is refused. *)
Definition shl_or_max (exponent : N) : N :=
  if (exponent <? 64)%N then N.shiftl 1 exponent `mod` 2 ^ 64 else max_uint 64.

Definition exponential_backoff_secs (base_secs max_secs consecutive_failures : N) : N :=
  let bounded_max := N.max max_secs 1 in
  let bounded_base := clamp base_secs 1 bounded_max in
  let shift := N.min consecutive_failures 20 in
  N.min (saturating_mul 64 bounded_base (shl_or_max shift)) bounded_max.

Definition backoff_decision (context : RecoveryContext.t) (retry_after_secs : option N)
    (reason : RecoveryDecisionReason.t) : RecoveryDecision.t :=
  let bounded_max := N.max (RecoveryContext.backoff_max_secs context) 1 in
  let computed := exponential_backoff_secs (RecoveryContext.backoff_base_secs context) bounded_max
    (RecoveryContext.consecutive_failures context) in
  let backoff_secs := clamp (default computed retry_after_secs) 1 bounded_max in
  RecoveryDecision.mk RecoveryPolicyAction.Backoff reason (Some backoff_secs) None.

Definition next_response_limit_adjustment (response_limit : ResponseLimitPolicy.t)
    : option ResponseLimitAdjustment.t :=
  let min_bytes := N.max (ResponseLimitPolicy.min_bytes response_limit) 1 in
  let max_bytes := N.max (ResponseLimitPolicy.max_bytes response_limit) min_bytes in
  let from_bytes := clamp (ResponseLimitPolicy.current_bytes response_limit) min_bytes max_bytes in
  let multiplier := N.max (ResponseLimitPolicy.tune_multiplier response_limit) 2 in
  let to_bytes := clamp (saturating_mul 64 from_bytes multiplier) min_bytes max_bytes in
  if (from_bytes <? to_bytes)%N then Some (ResponseLimitAdjustment.mk from_bytes to_bytes)
  else None.

Definition plain_decision (action : RecoveryPolicyAction.t) (reason : RecoveryDecisionReason.t)
    : RecoveryDecision.t := RecoveryDecision.mk action reason None None.

Definition decide_recovery_action (failure : RecoveryFailure.t) (context : RecoveryContext.t)
    : RecoveryDecision.t :=
  match failure with
  | RecoveryFailure.Outcall outcall =>
      let hint := OutcallFailure.retry_after_secs outcall in
      match OutcallFailure.kind outcall with
      | OutcallFailureKind.ResponseTooLarge =>
          match RecoveryContext.response_limit context ≫= next_response_limit_adjustment with
          | Some adjustment =>
              RecoveryDecision.mk RecoveryPolicyAction.TuneResponseLimit
                RecoveryDecisionReason.ResponseTooLarge None (Some adjustment)
          | None => backoff_decision context hint RecoveryDecisionReason.ResponseLimitAlreadyMaxed
          end
      | OutcallFailureKind.Timeout
      | OutcallFailureKind.Transport
      | OutcallFailureKind.UpstreamUnavailable =>
          if (RecoveryContext.consecutive_failures context =? 0)%N
          then plain_decision RecoveryPolicyAction.RetryImmediate
                 RecoveryDecisionReason.TransientOutcallFailure
          else backoff_decision context hint RecoveryDecisionReason.TransientOutcallFailure
      | OutcallFailureKind.RateLimited =>
          backoff_decision context hint RecoveryDecisionReason.OutcallRateLimited
      | OutcallFailureKind.InvalidRequest
      | OutcallFailureKind.RejectedByPolicy =>
          plain_decision RecoveryPolicyAction.EscalateFault
            RecoveryDecisionReason.NonRetriableOutcallFailure
      | OutcallFailureKind.InvalidResponse
      | OutcallFailureKind.Unknown =>
          backoff_decision context hint RecoveryDecisionReason.UnknownFailure
      end
  | RecoveryFailure.Operation operation =>
      match OperationFailure.kind operation with
      | OperationFailureKind.BlockedBySurvivalPolicy =>
          plain_decision RecoveryPolicyAction.Skip RecoveryDecisionReason.SurvivalPolicyBlocked
      | OperationFailureKind.InsufficientCycles =>
          plain_decision RecoveryPolicyAction.Skip RecoveryDecisionReason.InsufficientCycles
      | OperationFailureKind.MissingConfiguration
      | OperationFailureKind.InvalidConfiguration
      | OperationFailureKind.Unauthorized
      | OperationFailureKind.Deterministic =>
          plain_decision RecoveryPolicyAction.EscalateFault
            RecoveryDecisionReason.NonRetriableOperationFailure
      | OperationFailureKind.Unknown =>
          backoff_decision context None RecoveryDecisionReason.UnknownFailure
      end
  end.

(** ** Cycle admission *)

Module OperationClass.
Inductive t :=
| HttpOutcall (request_size_bytes max_response_bytes : N)
| ThresholdSign (key_name : string) (ecdsa_curve : N)
| WorkflowEnvelope (envelope_cycles : N).
End OperationClass.

Module AffordabilityRequirements.
Record t := mk {
  estimated_cycles : N;
  safety_margin_bps : N;
  safety_margin : N;
  reserve_floor_cycles : N;
  required_cycles : N;
}.
End AffordabilityRequirements.

Definition DEFAULT_SAFETY_MARGIN_BPS : N := 2500.

(** The price functions of the system API. *)
Class CostApi := {
  cost_http_request : N -> N -> N;
  cost_sign_with_ecdsa : string -> N -> result string N;
}.

Section Admission.
Context `{CostApi}.

Definition estimate_http_outcall (request_size_bytes max_response_bytes : N) : N :=
  cost_http_request request_size_bytes max_response_bytes.

Definition estimate_threshold_sign_cost (key_name : string) (ecdsa_curve : N) : result string N :=
  map_err (fun error =>
    "failed to estimate threshold sign cost with key_name=" +:+ key_name +:+ ", ecdsa_curve="
    +:+ pretty ecdsa_curve +:+ ": " +:+ error) (cost_sign_with_ecdsa key_name ecdsa_curve).

Definition estimate_operation_cost (operation : OperationClass.t) : result string N :=
  match operation with
  | OperationClass.HttpOutcall request_size_bytes max_response_bytes =>
      Ok (estimate_http_outcall request_size_bytes max_response_bytes)
  | OperationClass.ThresholdSign key_name ecdsa_curve =>
      estimate_threshold_sign_cost key_name ecdsa_curve
  | OperationClass.WorkflowEnvelope envelope_cycles => Ok envelope_cycles
  end.

Definition affordability_requirements (estimated_cycles safety_margin_bps reserve_floor_cycles : N)
    : AffordabilityRequirements.t :=
  let clamped_margin_bps := N.min safety_margin_bps 10000 in
  let safety_margin := (saturating_mul 128 estimated_cycles clamped_margin_bps `div` 10000)%N in
  let required_cycles := saturating_add 128 (saturating_add 128 estimated_cycles safety_margin)
    reserve_floor_cycles in
  AffordabilityRequirements.mk estimated_cycles clamped_margin_bps safety_margin
    reserve_floor_cycles required_cycles.

Definition can_afford (liquid_cycles : N) (requirements : AffordabilityRequirements.t) : bool :=
  (AffordabilityRequirements.required_cycles requirements <=? liquid_cycles)%N.

Definition can_afford_operation (liquid_cycles : N) (operation : OperationClass.t)
    (safety_margin_bps reserve_floor_cycles : N) : result string bool :=
  estimated ← estimate_operation_cost operation;
  Ok (can_afford liquid_cycles
        (affordability_requirements estimated safety_margin_bps reserve_floor_cycles)).

Definition can_afford_with_reserve (total_cycles : N) (operation : OperationClass.t)
    (safety_margin_bps reserve_floor_cycles : N) : result string bool :=
  let liquid_cycles := saturating_sub total_cycles reserve_floor_cycles in
  estimated ← estimate_operation_cost operation;
  Ok (can_afford liquid_cycles (affordability_requirements estimated safety_margin_bps 0)).
End Admission.

(** ** Mortality *)

Definition ACTIVE_MIN_RUNWAY_SECS : N := 30 * 24 * 60 * 60.
Definition CONSERVING_MIN_RUNWAY_SECS : N := 7 * 24 * 60 * 60.
Definition HIBERNATING_MIN_RUNWAY_SECS : N := 24 * 60 * 60.
Definition MORTALITY_RECOVERY_CHECKS_REQUIRED : N := 3.

Module MortalityTierPolicy.
Record t := mk {
  tier : MortalityTier.t;
  cadence_multiplier : N;
  reasoning_level : OpenRouterReasoningLevel.t;
}.
End MortalityTierPolicy.

Definition policy_for_tier (tier : MortalityTier.t) : MortalityTierPolicy.t :=
  match tier with
  | MortalityTier.Active => MortalityTierPolicy.mk tier 10 OpenRouterReasoningLevel.Medium
  | MortalityTier.Conserving => MortalityTierPolicy.mk tier 20 OpenRouterReasoningLevel.Low
  | MortalityTier.Hibernating => MortalityTierPolicy.mk tier 40 OpenRouterReasoningLevel.Low
  | MortalityTier.Terminal
  | MortalityTier.Dead => MortalityTierPolicy.mk tier 40 OpenRouterReasoningLevel.Low
  end.

Definition tier_for_runway (runway_seconds : option N) : MortalityTier.t :=
  match runway_seconds with
  | None => MortalityTier.Active
  | Some seconds =>
      if (ACTIVE_MIN_RUNWAY_SECS <=? seconds)%N then MortalityTier.Active
      else if (CONSERVING_MIN_RUNWAY_SECS <=? seconds)%N then MortalityTier.Conserving
      else if (HIBERNATING_MIN_RUNWAY_SECS <=? seconds)%N then MortalityTier.Hibernating
      else MortalityTier.Terminal
  end.

Definition tier_for_resources (liquid_cycles : N) (runway_seconds : option N) : MortalityTier.t :=
  if (liquid_cycles <=? TERMINAL_TURN_RESERVED_CYCLES)%N then MortalityTier.Terminal
  else tier_for_runway runway_seconds.

(** [runtime.recovery_candidate = None; runtime.recovery_checks = 0]. *)
Definition without_candidate (runtime : MortalityRuntime.t) : MortalityRuntime.t :=
  runtime <| MortalityRuntime.recovery_candidate := None |>
          <| MortalityRuntime.recovery_checks := 0%N |>.

(** The end of [observe_tier], for an observation healthier than the tier. *)
Definition count_recovery (observed : MortalityTier.t) (runtime : MortalityRuntime.t)
    : MortalityRuntime.t :=
  let runtime :=
    if bool_decide (MortalityRuntime.recovery_candidate runtime = Some observed)
    then runtime <| MortalityRuntime.recovery_checks ::= fun checks => saturating_add 32 checks 1 |>
    else runtime <| MortalityRuntime.recovery_candidate := Some observed |>
                 <| MortalityRuntime.recovery_checks := 1%N |> in
  if (MORTALITY_RECOVERY_CHECKS_REQUIRED <=? MortalityRuntime.recovery_checks runtime)%N
  then without_candidate (runtime <| MortalityRuntime.tier := observed |>)
  else runtime.

Definition observe_tier (runtime : MortalityRuntime.t) (observed : MortalityTier.t)
    : MortalityRuntime.t :=
  if bool_decide (MortalityRuntime.phase runtime <> MortalityPhase.Alive)
     || bool_decide (MortalityRuntime.tier runtime = MortalityTier.Dead)
  then runtime
  else if (MortalityTier.severity (MortalityRuntime.tier runtime)
           <? MortalityTier.severity observed)%N
  then without_candidate (runtime <| MortalityRuntime.tier := observed |>)
  else if bool_decide (observed = MortalityRuntime.tier runtime) then without_candidate runtime
  else count_recovery observed runtime.

(** ** A turn always makes progress *)

Section Lifecycle.
Context (debug_str : string -> string).

(** A history of accepted events. *)
Fixpoint run_events (state : AgentState.t) (events : list AgentEvent.t)
    : result TransitionError.t AgentState.t :=
  match events with
  | [] => Ok state
  | event :: events => state ← transition debug_str state event; run_events state events
  end.

(** How many steps of a turn are still ahead. *)
Definition steps_left (state : AgentState.t) : nat :=
  match state with
  | AgentState.LoadingContext => 4
  | AgentState.Inferring => 3
  | AgentState.ExecutingActions => 2
  | AgentState.Persisting => 1
  | _ => 0
  end.

Definition is_progress (event : AgentEvent.t) : bool :=
  match event with
  | AgentEvent.EvmPollCompleted _ _ | AgentEvent.ContextLoaded | AgentEvent.InferenceCompleted
  | AgentEvent.ActionsCompleted | AgentEvent.PersistCompleted => true
  | _ => false
  end.

Definition is_tick (event : AgentEvent.t) : bool :=
  match event with AgentEvent.TimerTick => true | _ => false end.

Definition is_fault (event : AgentEvent.t) : bool :=
  match event with AgentEvent.TurnFailed _ => true | _ => false end.

Definition how_many (p : AgentEvent.t -> bool) (events : list AgentEvent.t) : nat :=
  length (filter (fun event => p event = true) events).

Lemma how_many_cons p event events :
  how_many p (event :: events) = (if p event then 1 else 0) + how_many p events.
Proof.
  unfold how_many. rewrite filter_cons. destruct (p event); [by rewrite decide_True|].
  by rewrite decide_False.
Qed.

Lemma transition_advances state event state' :
  transition debug_str state event = Ok state' ->
  steps_left state' + (if is_progress event then 1 else 0)
  <= steps_left state + (if is_tick event then 4 else 0).
Proof. destruct state, event as [|? []| | | | | | |]; intros [= <-]; simpl; lia. Qed.

Lemma run_events_advance state events state' :
  run_events state events = Ok state' ->
  steps_left state' + how_many is_progress events <= steps_left state + 4 * how_many is_tick events.
Proof.
  revert state. induction events as [|event events IH]; intros state; cbn [run_events].
  - intros [= <-]. unfold how_many. simpl. lia.
  - intros (next & Hnext%transition_advances & Hrun%IH)%result_bind_Ok. rewrite !how_many_cons.
    destruct (is_progress event), (is_tick event); lia.
Qed.

(** The rest of a turn without faults. *)
Definition finish_turn (state : AgentState.t) : list AgentEvent.t :=
  let loaded := [AgentEvent.InferenceCompleted; AgentEvent.ActionsCompleted;
                 AgentEvent.PersistCompleted] in
  match state with
  | AgentState.Sleeping => []
  | AgentState.Persisting => drop 2 loaded
  | AgentState.ExecutingActions => drop 1 loaded
  | AgentState.Inferring => loaded
  | AgentState.LoadingContext => AgentEvent.ContextLoaded :: loaded
  | AgentState.Bootstrapping | AgentState.Idle | AgentState.Faulted =>
      AgentEvent.TimerTick :: AgentEvent.ContextLoaded :: loaded
  end.

(** turns end.  In any history of accepted events every timer tick pays
    for at most four steps of work, so a turn cannot run on without a tick, and
    without a tick nothing starts.  No state is a dead end: from each a history
    of at most five events, none of them a failure, leads to [Sleeping], the
    state that the next tick starts from.  And a failure is accepted in every
    state, and always leads to [Faulted]. *)
Theorem turn_lifecycle :
  (forall state events state', run_events state events = Ok state' ->
     steps_left state' + how_many is_progress events
     <= steps_left state + 4 * how_many is_tick events)
  /\ (forall state, exists events,
        length events <= 5 /\ how_many is_fault events = 0
        /\ run_events state events = Ok AgentState.Sleeping)
  /\ (forall state reason, run_events state [AgentEvent.TurnFailed reason] = Ok AgentState.Faulted).
Proof.
  split; [exact run_events_advance|]. split.
  - intros state. exists (finish_turn state). destruct state; simpl; split_and!; try done; lia.
  - intros state reason. by destruct state.
Qed.
End Lifecycle.

(** ** The recovery policy *)

Lemma clamp_range x low high : (low <= high)%N -> (low <= clamp x low high <= high)%N.
Proof. unfold clamp. lia. Qed.

Lemma clamp_id x low high : (low <= x <= high)%N -> clamp x low high = x.
Proof. unfold clamp. lia. Qed.

Lemma shl_or_max_small exponent : (exponent <= 20)%N -> shl_or_max exponent = (2 ^ exponent)%N.
Proof.
  intros Hle. unfold shl_or_max. destruct (N.ltb_spec exponent 64); [|lia].
  rewrite N.shiftl_1_l. apply N.mod_small. apply N.pow_lt_mono_r; lia.
Qed.

(** The delay doubles with every failure, up to the maximum. *)
Lemma exponential_backoff_secs_eq base_secs max_secs failures :
  in_uint 64 max_secs ->
  exponential_backoff_secs base_secs max_secs failures
  = N.min (clamp base_secs 1 (N.max max_secs 1) * 2 ^ N.min failures 20) (N.max max_secs 1).
Proof.
  intros Hmax. unfold exponential_backoff_secs, saturating_mul.
  rewrite shl_or_max_small by lia. unfold in_uint, max_uint in *. simpl. lia.
Qed.

Lemma next_response_limit_adjustment_Some limit adjustment :
  in_uint 64 (ResponseLimitPolicy.max_bytes limit) ->
  in_uint 64 (ResponseLimitPolicy.min_bytes limit) ->
  next_response_limit_adjustment limit = Some adjustment ->
  let top := N.max (ResponseLimitPolicy.max_bytes limit)
               (N.max (ResponseLimitPolicy.min_bytes limit) 1) in
  let from_bytes := ResponseLimitAdjustment.from_bytes adjustment in
  let to_bytes := ResponseLimitAdjustment.to_bytes adjustment in
  (from_bytes < to_bytes <= top)%N /\ (to_bytes = top \/ (2 * from_bytes <= to_bytes)%N).
Proof.
  intros Hmax Hmin. unfold next_response_limit_adjustment. cbv zeta.
  match goal with |- context [(?a <? ?b)%N] => destruct (N.ltb_spec a b) as [Hlt|]; [|done] end. intros [= <-].
  cbn [ResponseLimitAdjustment.from_bytes ResponseLimitAdjustment.to_bytes].
  revert Hlt. unfold clamp, saturating_mul, in_uint in *. revert Hmax Hmin.
  generalize (max_uint 64). intros bound.
  set (current := ResponseLimitPolicy.current_bytes limit).
  set (multiplier := N.max (ResponseLimitPolicy.tune_multiplier limit) 2).
  assert (Hm : (2 <= multiplier)%N) by (unfold multiplier; lia). clearbody multiplier.
  intros Hmax Hmin Hlt. split; [lia|]. set (from := N.min (N.max current _) _) in *.
  assert (Hdouble : (2 * from <= from * multiplier)%N) by nia. lia.
Qed.

Definition limits_fit (context : RecoveryContext.t) : Prop :=
  in_uint 64 (RecoveryContext.backoff_max_secs context)
  /\ forall limit, RecoveryContext.response_limit context = Some limit ->
       in_uint 64 (ResponseLimitPolicy.max_bytes limit)
       /\ in_uint 64 (ResponseLimitPolicy.min_bytes limit).

(** The failures that no retry can help. *)
Definition hopeless (failure : RecoveryFailure.t) : bool :=
  match failure with
  | RecoveryFailure.Outcall outcall =>
      match OutcallFailure.kind outcall with
      | OutcallFailureKind.InvalidRequest | OutcallFailureKind.RejectedByPolicy => true
      | _ => false
      end
  | RecoveryFailure.Operation operation =>
      match OperationFailure.kind operation with
      | OperationFailureKind.MissingConfiguration | OperationFailureKind.InvalidConfiguration
      | OperationFailureKind.Unauthorized | OperationFailureKind.Deterministic => true
      | _ => false
      end
  end.

(** What a decision may look like. *)
Inductive well_decided (failure : RecoveryFailure.t) (context : RecoveryContext.t)
    : RecoveryDecision.t -> Prop :=
| decided_plain action reason :
    action <> RecoveryPolicyAction.Backoff -> action <> RecoveryPolicyAction.TuneResponseLimit ->
    (action = RecoveryPolicyAction.EscalateFault <-> hopeless failure = true) ->
    (action = RecoveryPolicyAction.RetryImmediate -> RecoveryContext.consecutive_failures context = 0%N) ->
    well_decided failure context (RecoveryDecision.mk action reason None None)
| decided_backoff reason secs :
    hopeless failure = false ->
    (1 <= secs <= N.max (RecoveryContext.backoff_max_secs context) 1)%N ->
    well_decided failure context
      (RecoveryDecision.mk RecoveryPolicyAction.Backoff reason (Some secs) None)
| decided_tune reason limit from_bytes to_bytes :
    let top := N.max (ResponseLimitPolicy.max_bytes limit)
                 (N.max (ResponseLimitPolicy.min_bytes limit) 1) in
    hopeless failure = false ->
    RecoveryContext.response_limit context = Some limit ->
    (from_bytes < to_bytes <= top)%N ->
    (to_bytes = top \/ (2 * from_bytes <= to_bytes)%N) ->
    well_decided failure context
      (RecoveryDecision.mk RecoveryPolicyAction.TuneResponseLimit reason None
        (Some (ResponseLimitAdjustment.mk from_bytes to_bytes))).

Lemma backoff_decided failure context hint reason :
  hopeless failure = false -> well_decided failure context (backoff_decision context hint reason).
Proof. intros Hh. constructor; [done|]. apply clamp_range. lia. Qed.

(** the recovery policy.  Whatever failed, the decision is one of: a plain
    action, which escalates exactly the failures no retry can help and retries
    at once only after no failure before; a wait between one second and the
    configured maximum; or a larger response limit, within the policy's bounds
    and at least twice the old one unless it is the largest, so that tuning
    ends.  Without a hint from upstream the wait doubles with every failure
    from the base up to the maximum. *)
Theorem recovery_decision_sound failure context
    (Hfit : limits_fit context) :
  well_decided failure context (decide_recovery_action failure context)
  /\ (forall reason,
        RecoveryDecision.backoff_secs (backoff_decision context None reason)
        = let top := N.max (RecoveryContext.backoff_max_secs context) 1 in
          Some (N.min (clamp (RecoveryContext.backoff_base_secs context) 1 top
                       * 2 ^ N.min (RecoveryContext.consecutive_failures context) 20) top)).
Proof.
  destruct Hfit as [Hmax Hlimit]. split.
  - destruct failure as [outcall|operation]; cbn [decide_recovery_action].
    + destruct (OutcallFailure.kind outcall) eqn:Hkind;
        try (apply backoff_decided; cbn; by rewrite Hkind);
        try (apply decided_plain; cbn; rewrite ?Hkind; naive_solver);
        try (destruct (N.eqb_spec (RecoveryContext.consecutive_failures context) 0);
          [apply decided_plain; cbn; rewrite ?Hkind; naive_solver
          |apply backoff_decided; cbn; by rewrite Hkind]).
      destruct (RecoveryContext.response_limit context) as [limit|] eqn:Hl; cbn [mbind option_bind].
      2:{ apply backoff_decided. cbn. by rewrite Hkind. }
      destruct (next_response_limit_adjustment limit) as [[from to]|] eqn:Hadj.
      2:{ apply backoff_decided. cbn. by rewrite Hkind. }
      destruct (Hlimit _ eq_refl) as [Ht Hb].
      destruct (next_response_limit_adjustment_Some _ _ Ht Hb Hadj) as [Hrange Hgrow].
      eapply decided_tune; [|exact Hl|exact Hrange|exact Hgrow]. cbn. by rewrite Hkind.
    + destruct (OperationFailure.kind operation) eqn:Hkind;
        try (apply backoff_decided; cbn; by rewrite Hkind);
        apply decided_plain; cbn; rewrite ?Hkind; naive_solver.
  - intros reason. unfold backoff_decision. cbn [RecoveryDecision.backoff_secs default].
    rewrite exponential_backoff_secs_eq.
    2:{ unfold in_uint in *. assert (1 <= max_uint 64)%N by done. lia. }
    cbv zeta. f_equal. rewrite (N.max_l (N.max _ 1) 1) by lia.
    set (top := N.max (RecoveryContext.backoff_max_secs context) 1).
    assert (1 <= top)%N by lia. apply clamp_id.
    pose proof (clamp_range (RecoveryContext.backoff_base_secs context) 1 top ltac:(lia)).
    pose proof (N.pow_nonzero 2 (N.min (RecoveryContext.consecutive_failures context) 20) ltac:(lia)).
    nia.
Qed.

(** ** Hysteresis of the mortality tiers *)

Definition observe_all (runtime : MortalityRuntime.t) (observations : list MortalityTier.t)
    : MortalityRuntime.t := foldl observe_tier runtime observations.

Definition ends_with (k : nat) (tier : MortalityTier.t) (observations : list MortalityTier.t)
    : Prop := exists earlier, observations = earlier ++ replicate k tier.

Lemma ends_with_snoc k tier observations :
  ends_with k tier observations -> ends_with (S k) tier (observations ++ [tier]).
Proof.
  intros [earlier ->]. exists earlier. rewrite <-(assoc_L (++)). f_equal.
  by rewrite <-replicate_cons_app.
Qed.

(** The candidate and the count of a runtime that made these observations. *)
Definition counted_recovery (observations : list MortalityTier.t) (runtime : MortalityRuntime.t)
    : Prop :=
  match MortalityRuntime.recovery_candidate runtime with
  | None => MortalityRuntime.recovery_checks runtime = 0%N
  | Some tier =>
      (MortalityRuntime.recovery_checks runtime < MORTALITY_RECOVERY_CHECKS_REQUIRED)%N
      /\ ends_with (N.to_nat (MortalityRuntime.recovery_checks runtime)) tier observations
  end.

Definition open_runtime (runtime : MortalityRuntime.t) : Prop :=
  MortalityRuntime.phase runtime = MortalityPhase.Alive
  /\ MortalityRuntime.tier runtime <> MortalityTier.Dead.

(** One observation, by its three outcomes: the tier is the observed one and
    nothing is counted, or the tier stays and one more is counted. *)
Lemma observe_tier_cases observations runtime observed :
  open_runtime runtime -> counted_recovery observations runtime ->
  let after := observe_tier runtime observed in
  counted_recovery (observations ++ [observed]) after
  /\ (MortalityRuntime.tier after = observed
      \/ MortalityRuntime.tier after = MortalityRuntime.tier runtime
         /\ MortalityRuntime.recovery_candidate after = Some observed
         /\ (1 <= MortalityRuntime.recovery_checks after)%N
         /\ (MortalityRuntime.recovery_candidate runtime = Some observed ->
             MortalityRuntime.recovery_checks after
             = (MortalityRuntime.recovery_checks runtime + 1)%N))
  /\ ((MortalityTier.severity (MortalityRuntime.tier runtime) <= MortalityTier.severity observed)%N ->
      MortalityRuntime.tier after = observed)
  /\ ((MortalityTier.severity (MortalityRuntime.tier after)
       < MortalityTier.severity (MortalityRuntime.tier runtime))%N ->
      ends_with 3 observed (observations ++ [observed])).
Proof.
  intros [Hphase Hdead] Hcount after. subst after. unfold observe_tier.
  rewrite bool_decide_eq_false_2 by (intros Hne; by apply Hne).
  rewrite bool_decide_eq_false_2 by done. cbn [orb].
  destruct (N.ltb_spec (MortalityTier.severity (MortalityRuntime.tier runtime))
    (MortalityTier.severity observed)) as [Hworse|Hle].
  - unfold without_candidate, counted_recovery. simpl_set. split; [done|]. split; [by left|]. split; [done|]. lia.
  - destruct (decide (observed = MortalityRuntime.tier runtime)) as [->|Hne].
    { rewrite bool_decide_eq_true_2 by done. unfold without_candidate, counted_recovery. simpl_set. split; [done|].
      split; [by left|]. split; [done|lia]. }
    rewrite bool_decide_eq_false_2 by done.
    assert (Hlt : (MortalityTier.severity observed < MortalityTier.severity (MortalityRuntime.tier runtime))%N).
    { destruct observed, (MortalityRuntime.tier runtime); cbn in *; first [lia|congruence]. }
    unfold count_recovery. cbv zeta. unfold counted_recovery in Hcount.
    destruct (decide (MortalityRuntime.recovery_candidate runtime = Some observed)) as [Hc|Hc].
    + rewrite (bool_decide_eq_true_2 (_ = Some observed)) by done. rewrite Hc in Hcount. destruct Hcount as [Hlow Hend].
      apply ends_with_snoc in Hend. simpl_set.
      set (checks := MortalityRuntime.recovery_checks runtime) in *.
      assert (Hsat : saturating_add 32 checks 1 = (checks + 1)%N).
      { unfold saturating_add. unfold MORTALITY_RECOVERY_CHECKS_REQUIRED in Hlow. change (max_uint 32) with 4294967295%N. lia. }
      rewrite Hsat. destruct (N.leb_spec MORTALITY_RECOVERY_CHECKS_REQUIRED (checks + 1)) as [Hdone|Hmore].
      * unfold without_candidate, counted_recovery. simpl_set. split; [done|]. split; [by left|].
        split; [done|]. intros _. unfold MORTALITY_RECOVERY_CHECKS_REQUIRED in *.
        by replace (S (N.to_nat checks)) with 3 in Hend by lia.
      * unfold counted_recovery. simpl_set. fold checks. rewrite Hc, Hsat. split; [|split; [right; split_and!; first [done|lia]|split; [lia|lia]]].
        split; [done|]. by replace (N.to_nat (checks + 1)) with (S (N.to_nat checks)) by lia.
    + rewrite (bool_decide_eq_false_2 (_ = Some observed)) by done. simpl_set.
      destruct (N.leb_spec MORTALITY_RECOVERY_CHECKS_REQUIRED 1) as [Hbad|_]; [done|].
      unfold counted_recovery. simpl_set. split; [|split; [right; split_and!; first [done|lia|congruence]|split; [lia|lia]]].
      split; [done|]. by exists observations.
Qed.

Lemma observe_tier_phase runtime observed :
  MortalityRuntime.phase (observe_tier runtime observed) = MortalityRuntime.phase runtime.
Proof.
  unfold observe_tier, count_recovery, without_candidate.
  repeat match goal with |- context [if ?b then _ else _] => destruct b end; by simpl_set.
Qed.

Lemma observe_all_counted runtime observations :
  open_runtime runtime -> MortalityRuntime.recovery_candidate runtime = None ->
  MortalityRuntime.recovery_checks runtime = 0%N ->
  Forall (fun observed => observed <> MortalityTier.Dead) observations ->
  open_runtime (observe_all runtime observations)
  /\ counted_recovery observations (observe_all runtime observations).
Proof.
  intros Hopen Hc Hk. induction observations as [|observed observations IH] using rev_ind.
  - intros _. split; [done|]. unfold counted_recovery. simpl. by rewrite Hc.
  - intros [Hall [Hd _]%Forall_cons]%Forall_app. destruct (IH Hall) as [[Hp Ht] Hcount].
    unfold observe_all in *. rewrite foldl_app. cbn [foldl].
    destruct (observe_tier_cases observations _ observed (conj Hp Ht) Hcount) as (Hcount' & Htier & _).
    split; [|done]. split; [by rewrite observe_tier_phase|].
    destruct Htier as [->|(-> & _)]; done.
Qed.

Lemma observe_all_not_alive runtime observations :
  MortalityRuntime.phase runtime <> MortalityPhase.Alive ->
  observe_all runtime observations = runtime.
Proof.
  intros Hphase. unfold observe_all. induction observations as [|o observations IH]; [done|].
  cbn [foldl]. assert (observe_tier runtime o = runtime) as ->; [|done].
  unfold observe_tier. by rewrite bool_decide_eq_true_2.
Qed.

Lemma tier_for_resources_not_dead liquid_cycles runway_seconds :
  tier_for_resources liquid_cycles runway_seconds <> MortalityTier.Dead.
Proof.
  unfold tier_for_resources, tier_for_runway.
  destruct (_ <=? _)%N; [done|]. destruct runway_seconds as [seconds|]; [|done].
  by repeat match goal with |- context [if ?b then _ else _] => destruct b end.
Qed.

(** tiers escalate at once and recover slowly.  From a fresh count, along
    any observations of the automaton's resources: an observation at least as
    severe as the tier becomes the tier; the tier becomes healthier only to a
    tier that the last three observations agree on; and three equal
    observations in a row always settle the tier.  Once the automaton is no
    longer alive observations change nothing. *)
Theorem tier_observations runtime observations observed
    (Hopen : open_runtime runtime)
    (Hfresh : MortalityRuntime.recovery_candidate runtime = None
              /\ MortalityRuntime.recovery_checks runtime = 0%N)
    (Hresources : Forall (fun tier => exists liquid_cycles runway_seconds,
        tier = tier_for_resources liquid_cycles runway_seconds) (observations ++ [observed])) :
  let before := observe_all runtime observations in
  let after := observe_all runtime (observations ++ [observed]) in
  ((MortalityTier.severity (MortalityRuntime.tier before) <= MortalityTier.severity observed)%N ->
   MortalityRuntime.tier after = observed)
  /\ ((MortalityTier.severity (MortalityRuntime.tier after)
       < MortalityTier.severity (MortalityRuntime.tier before))%N ->
      MortalityRuntime.tier after = observed /\ ends_with 3 observed (observations ++ [observed]))
  /\ MortalityRuntime.tier (observe_all after [observed; observed]) = observed
  /\ forall dying, MortalityRuntime.phase dying <> MortalityPhase.Alive ->
       observe_all dying observations = dying.
Proof.
  destruct Hfresh as [Hc Hk]. intros before after.
  assert (Hnd : Forall (fun tier => tier <> MortalityTier.Dead) (observations ++ [observed])).
  { eapply Forall_impl; [exact Hresources|]. intros tier (liquid & runway & ->).
    apply tier_for_resources_not_dead. }
  pose proof Hnd as [Hearlier [Hlast _]%Forall_cons]%Forall_app.
  destruct (observe_all_counted runtime observations Hopen Hc Hk Hearlier) as [Hob Hcb].
  destruct (observe_all_counted runtime _ Hopen Hc Hk Hnd) as [Hoa Hca].
  assert (Hafter : after = observe_tier before observed).
  { unfold after, before, observe_all. by rewrite foldl_app. }
  destruct (observe_tier_cases observations before observed Hob Hcb) as (_ & Htier & Hup & Hdown).
  rewrite <-Hafter in Htier, Hup, Hdown. split; [exact Hup|]. split; [|split].
  - intros Hlt. split; [|by apply Hdown]. destruct Htier as [->|(Heq & _)]; [done|]. rewrite Heq in Hlt. lia.
  - change (MortalityRuntime.tier (observe_tier (observe_tier after observed) observed) = observed).
    pose proof (observe_tier_cases _ after observed Hoa Hca) as (Hc1 & Ht1 & Hup1 & _).
    set (second := observe_tier after observed) in *.
    assert (Hos : open_runtime second).
    { split; [unfold second; rewrite observe_tier_phase; apply Hoa|].
      destruct Ht1 as [->|(-> & _)]; [done|apply Hoa]. }
    destruct (observe_tier_cases _ second observed Hos Hc1) as (Hc2 & Ht2 & Hup2 & _).
    destruct Ht2 as [->|(_ & Hcand2 & _ & Hcount2)]; [done|].
    unfold counted_recovery in Hc2. rewrite Hcand2 in Hc2. destruct Hc2 as [Hlow _].
    destruct Ht1 as [Heq|(_ & Hcand1 & _ & Hcount1)]; [apply Hup2; by rewrite Heq|].
    rewrite Hcount2 in Hlow by done.
    destruct Htier as [Heq|(_ & Hcand & Hpos & _)].
    + assert (Hs : MortalityRuntime.tier second = observed) by (apply Hup1; by rewrite Heq).
      apply Hup2. by rewrite Hs.
    + rewrite Hcount1 in Hlow by done. unfold MORTALITY_RECOVERY_CHECKS_REQUIRED in Hlow. lia.
  - intros dying. apply observe_all_not_alive.
Qed.

(** ** Examples *)

Module AgentDomainSamples.

Definition throttled : RecoveryFailure.t :=
  RecoveryFailure.Outcall (OutcallFailure.mk OutcallFailureKind.RateLimited None None).

Definition context : RecoveryContext.t :=
  RecoveryContext.mk RecoveryOperation.Inference 3 1 120 (Some ResponseLimitPolicy.default).

Example throttled_waits :
  RecoveryDecision.backoff_secs (decide_recovery_action throttled context) = Some 8%N.
Proof. reflexivity. Qed.

Lemma recovery_decision_sound_witness :
  well_decided throttled context (decide_recovery_action throttled context)
  /\ RecoveryDecision.backoff_secs
       (backoff_decision context None RecoveryDecisionReason.OutcallRateLimited) = Some 8%N.
Proof.
  destruct (recovery_decision_sound throttled context) as [Hdecided Hdelay].
  - split; [done|]. by intros limit [= <-].
  - split; [exact Hdecided|]. exact (Hdelay RecoveryDecisionReason.OutcallRateLimited).
Defined.

(** A short runway, then three observations of a long one. *)
Definition poor : MortalityTier.t := tier_for_resources (10 ^ 12) (Some 100000%N).
Definition rich : MortalityTier.t := tier_for_resources (10 ^ 12) (Some 5000000%N).

Example recovers_after_three :
  MortalityRuntime.tier <$> (observe_all MortalityRuntime.default <$>
    [[poor]; [poor; rich; rich]; [poor; rich; rich; rich]])
  = [MortalityTier.Hibernating; MortalityTier.Hibernating; MortalityTier.Active].
Proof. reflexivity. Qed.

Lemma tier_observations_witness :
  let after := observe_all MortalityRuntime.default ([poor; rich; rich] ++ [rich]) in
  MortalityRuntime.tier after = rich /\ ends_with 3 rich ([poor; rich; rich] ++ [rich]).
Proof.
  destruct (tier_observations MortalityRuntime.default [poor; rich; rich] rich)
    as (_ & Hdown & _).
  - by split.
  - by split.
  - repeat (apply Forall_cons; split; [by do 2 eexists|]). by apply Forall_nil.
  - apply Hdown. vm_compute. reflexivity.
Defined.

End AgentDomainSamples.
