(* ===== verification/TopUpTypes.v ===== *)
(** * TopUpTypes: the data of the cycle top-up

    The records and enums of
    [components/ic-automaton/src/features/cycle_topup/mod.rs], with their
    defaults and predicates.  [Nat] of candid is unbounded; 256-bit integers
    are numbers; an EVM address is its bytes. *)

From S2P Require Import Prelude Text SpawnProtocol Types AgentTypes.
From Stdlib Require Import Strings.Byte.

(** [Principal::anonymous()], as text. *)
Definition ANONYMOUS_PRINCIPAL : Principal := "2vxsx-fae".

Module TopUpConfig.
Record t := mk {
  evm_address : string;
  usdc_contract_address : string;
  onesec_locker_address : string;
  evm_chain_id : N;
  onesec_canister : Principal;
  bridged_usdc_ledger : Principal;
  kong_backend : Principal;
  icp_ledger : Principal;
  cmc : Principal;
  target_canister : option Principal;
  min_usdc_reserve : N;
  max_usdc_per_topup : N;
  max_slippage_pct : float64;
  max_bridge_polls : N;
  lock_confirmations : N;
}.
#[global] Instance eq_dec : EqDecision t.
Proof. solve_decision. Defined.
#[global] Instance eta_t : Eta t := fun self =>
  mk (evm_address self) (usdc_contract_address self) (onesec_locker_address self)
    (evm_chain_id self) (onesec_canister self) (bridged_usdc_ledger self)
    (kong_backend self) (icp_ledger self) (cmc self) (target_canister self)
    (min_usdc_reserve self) (max_usdc_per_topup self) (max_slippage_pct self)
    (max_bridge_polls self) (lock_confirmations self).
Definition default : t := {|
  evm_address := "";
  usdc_contract_address := "0x833589fCD6eDb6E08f4c7C32D4f71b54bdA02913";
  onesec_locker_address := "0xAe2351B15cFf68b5863c6690dCA58Dce383bf45A";
  evm_chain_id := 8453;
  onesec_canister := ANONYMOUS_PRINCIPAL;
  bridged_usdc_ledger := ANONYMOUS_PRINCIPAL;
  kong_backend := ANONYMOUS_PRINCIPAL;
  icp_ledger := ANONYMOUS_PRINCIPAL;
  cmc := ANONYMOUS_PRINCIPAL;
  target_canister := None;
  min_usdc_reserve := 10000000;
  max_usdc_per_topup := 50000000;
  max_slippage_pct := float_five;
  max_bridge_polls := 60;
  lock_confirmations := 12;
|}%N.
End TopUpConfig.

Module TopUpStage.
Inductive t :=
| Preflight
| ApprovingLocker (usdc_amount : N)
| WaitingApprovalConfirmation (usdc_amount : N) (tx_hash : string)
| LockingUSDC (usdc_amount : N)
| WaitingLockConfirmation (usdc_amount : N) (tx_hash : string) (confirmations : N)
| ValidatingOnOnesec (usdc_amount : N) (tx_hash : string)
| WaitingForBridgedUSDC (usdc_amount : N) (transfer_id : N) (polls : N)
| ApprovingKongSwap (bridged_usdc_amount : N) (usdc_spent : N)
| SwappingToICP (bridged_usdc_amount : N) (usdc_spent : N)
| TransferringToCMC (icp_amount : N) (usdc_spent : N)
| MintingCycles (block_index : N) (usdc_spent : N)
| Completed (cycles_minted : N) (usdc_spent : N) (completed_at_ns : N)
| Failed (stage : string) (error : string) (failed_at_ns : N) (attempts : N).
#[global] Instance eq_dec : EqDecision t.
Proof. solve_decision. Defined.
Definition stage_name (stage : t) : string :=
  match stage with
  | Preflight => "Preflight"
  | ApprovingLocker _ => "ApprovingLocker"
  | WaitingApprovalConfirmation _ _ => "WaitingApprovalConfirmation"
  | LockingUSDC _ => "LockingUSDC"
  | WaitingLockConfirmation _ _ _ => "WaitingLockConfirmation"
  | ValidatingOnOnesec _ _ => "ValidatingOnOnesec"
  | WaitingForBridgedUSDC _ _ _ => "WaitingForBridgedUSDC"
  | ApprovingKongSwap _ _ => "ApprovingKongSwap"
  | SwappingToICP _ _ => "SwappingToICP"
  | TransferringToCMC _ _ => "TransferringToCMC"
  | MintingCycles _ _ => "MintingCycles"
  | Completed _ _ _ => "Completed"
  | Failed _ _ _ _ => "Failed"
  end.
Definition is_waiting (stage : t) : bool :=
  match stage with
  | WaitingApprovalConfirmation _ _ | WaitingLockConfirmation _ _ _
  | WaitingForBridgedUSDC _ _ _ => true
  | _ => false
  end.
Definition is_terminal (stage : t) : bool :=
  match stage with Completed _ _ _ | Failed _ _ _ _ => true | _ => false end.
End TopUpStage.

Module TopUpStatus.
Inductive t :=
| Idle
| InProgress (stage : TopUpStage.t)
| Completed (cycles_minted : N) (usdc_spent : N) (completed_at_ns : N)
| Failed (stage : string) (error : string) (failed_at_ns : N) (attempts : N).
#[global] Instance eq_dec : EqDecision t.
Proof. solve_decision. Defined.
End TopUpStatus.

Module Account.
Record t := mk {
  owner : Principal;
  subaccount : option (list byte);
}.
#[global] Instance eq_dec : EqDecision t.
Proof. solve_decision. Defined.
#[global] Instance eta_t : Eta t := fun self =>
  mk (owner self) (subaccount self).
End Account.

Module Icrc2ApproveArg.
Record t := mk {
  spender : Account.t;
  amount : N;
  expected_allowance : option N;
  expires_at : option N;
  fee : option N;
  memo : option (list byte);
  from_subaccount : option (list byte);
  created_at_time : option N;
}.
#[global] Instance eq_dec : EqDecision t.
Proof. solve_decision. Defined.
#[global] Instance eta_t : Eta t := fun self =>
  mk (spender self) (amount self) (expected_allowance self) (expires_at self) (fee self)
    (memo self) (from_subaccount self) (created_at_time self).
End Icrc2ApproveArg.

Module ApproveError.
Inductive t :=
| BadFee (expected_fee : N)
| InsufficientFunds (balance : N)
| AllowanceChanged (current_allowance : N)
| TooOld
| CreatedInFuture (ledger_time : N)
| Duplicate (duplicate_of : N)
| Expired (ledger_time : N)
| TemporarilyUnavailable
| GenericError (error_code : N) (message : string).
#[global] Instance eq_dec : EqDecision t.
Proof. solve_decision. Defined.
End ApproveError.

Module Icrc1TransferArg.
Record t := mk {
  to : Account.t;
  amount : N;
  memo : option (list byte);
  fee : option N;
  from_subaccount : option (list byte);
  created_at_time : option N;
}.
#[global] Instance eq_dec : EqDecision t.
Proof. solve_decision. Defined.
#[global] Instance eta_t : Eta t := fun self =>
  mk (to self) (amount self) (memo self) (fee self) (from_subaccount self)
    (created_at_time self).
End Icrc1TransferArg.

Module TransferError.
Inductive t :=
| BadFee (expected_fee : N)
| BadBurn (min_burn_amount : N)
| InsufficientFunds (balance : N)
| TooOld
| CreatedInFuture (ledger_time : N)
| Duplicate (duplicate_of : N)
| TemporarilyUnavailable
| GenericError (error_code : N) (message : string).
#[global] Instance eq_dec : EqDecision t.
Proof. solve_decision. Defined.
End TransferError.

Module TxId.
Inductive t :=
| BlockIndex (arg : N)
| TransactionHash (arg : string).
#[global] Instance eq_dec : EqDecision t.
Proof. solve_decision. Defined.
End TxId.

Module SwapArgs.
Record t := mk {
  pay_token : string;
  pay_amount : N;
  pay_tx_id : option TxId.t;
  receive_token : string;
  receive_amount : option N;
  receive_address : option string;
  max_slippage : option float64;
  referred_by : option string;
}.
#[global] Instance eq_dec : EqDecision t.
Proof. solve_decision. Defined.
#[global] Instance eta_t : Eta t := fun self =>
  mk (pay_token self) (pay_amount self) (pay_tx_id self) (receive_token self)
    (receive_amount self) (receive_address self) (max_slippage self) (referred_by self).
End SwapArgs.

Module SwapReply.
Record t := mk {
  tx_id : N;
  request_id : N;
  status : string;
  pay_symbol : string;
  pay_amount : N;
  receive_symbol : string;
  receive_amount : N;
  mid_price : float64;
  price : float64;
  slippage : float64;
  claim_ids : list N;
  ts : N;
}.
#[global] Instance eq_dec : EqDecision t.
Proof. solve_decision. Defined.
#[global] Instance eta_t : Eta t := fun self =>
  mk (tx_id self) (request_id self) (status self) (pay_symbol self) (pay_amount self)
    (receive_symbol self) (receive_amount self) (mid_price self) (price self)
    (slippage self) (claim_ids self) (ts self).
End SwapReply.

Module NotifyTopUpArg.
Record t := mk {
  block_index : N;
  canister_id : Principal;
}.
#[global] Instance eq_dec : EqDecision t.
Proof. solve_decision. Defined.
#[global] Instance eta_t : Eta t := fun self =>
  mk (block_index self) (canister_id self).
End NotifyTopUpArg.

Module NotifyError.
Inductive t :=
| Refunded (block_index : option N) (reason : string)
| InvalidTransaction (arg : string)
| Other (error_code : N) (error_message : string)
| Processing
| TransactionTooOld (arg : N).
#[global] Instance eq_dec : EqDecision t.
Proof. solve_decision. Defined.
End NotifyError.

Module Token.
Inductive t :=
| ICP
| USDC
| USDT
| CkBtc
| CbBtc
| BOB
| GLDT.
#[global] Instance eq_dec : EqDecision t.
Proof. solve_decision. Defined.
End Token.

Module EvmChain.
Inductive t :=
| Base
| Ethereum
| Arbitrum.
#[global] Instance eq_dec : EqDecision t.
Proof. solve_decision. Defined.
End EvmChain.

Module TransferFee.
Record t := mk {
  token : Token.t;
  evm_chain : EvmChain.t;
  min_amount : N;
  max_amount : N;
}.
#[global] Instance eq_dec : EqDecision t.
Proof. solve_decision. Defined.
#[global] Instance eta_t : Eta t := fun self =>
  mk (token self) (evm_chain self) (min_amount self) (max_amount self).
End TransferFee.

Module EvmAccount.
Record t := mk {
  address : string;
}.
#[global] Instance eq_dec : EqDecision t.
Proof. solve_decision. Defined.
#[global] Instance eta_t : Eta t := fun self =>
  mk (address self).
End EvmAccount.

Module EvmTx.
Record t := mk {
  hash : string;
  log_index : option N;
}.
#[global] Instance eq_dec : EqDecision t.
Proof. solve_decision. Defined.
#[global] Instance eta_t : Eta t := fun self =>
  mk (hash self) (log_index self).
End EvmTx.

Module OnesecIcpAccount.
Inductive t :=
| ICRC (owner : Principal) (subaccount : option (list byte))
| AccountId (arg : string).
#[global] Instance eq_dec : EqDecision t.
Proof. solve_decision. Defined.
End OnesecIcpAccount.

Module TransferEvmToIcpArg.
Record t := mk {
  token : Token.t;
  evm_chain : EvmChain.t;
  evm_account : EvmAccount.t;
  evm_tx : EvmTx.t;
  icp_account : OnesecIcpAccount.t;
  evm_amount : N;
  icp_amount : option N;
}.
#[global] Instance eq_dec : EqDecision t.
Proof. solve_decision. Defined.
#[global] Instance eta_t : Eta t := fun self =>
  mk (token self) (evm_chain self) (evm_account self) (evm_tx self) (icp_account self)
    (evm_amount self) (icp_amount self).
End TransferEvmToIcpArg.

Module TransferId.
Record t := mk {
  id : N;
}.
#[global] Instance eq_dec : EqDecision t.
Proof. solve_decision. Defined.
#[global] Instance eta_t : Eta t := fun self =>
  mk (id self).
End TransferId.

Module TransferResponse.
Inductive t :=
| Accepted (arg : TransferId.t)
| Failed (error : string)
| Fetching (block_height : N).
#[global] Instance eq_dec : EqDecision t.
Proof. solve_decision. Defined.
End TransferResponse.

Module BridgeTransferStatus.
Inductive t :=
| Pending
| Fetching
| Succeeded (amount : N)
| Failed (error : string).
#[global] Instance eq_dec : EqDecision t.
Proof. solve_decision. Defined.
End BridgeTransferStatus.

Module Eip1559UnsignedTx.
Record t := mk {
  chain_id : N;
  nonce : N;
  max_priority_fee_per_gas : N;
  max_fee_per_gas : N;
  gas_limit : N;
  to : list byte;
  value : N;
  data : list byte;
}.
#[global] Instance eq_dec : EqDecision t.
Proof. solve_decision. Defined.
#[global] Instance eta_t : Eta t := fun self =>
  mk (chain_id self) (nonce self) (max_priority_fee_per_gas self) (max_fee_per_gas self)
    (gas_limit self) (to self) (value self) (data self).
End Eip1559UnsignedTx.
