(* ===== verification/TopUp.v ===== *)
(** * TopUp: funding the automaton with cycles

    Models [components/ic-automaton/src/features/cycle_topup/mod.rs] in the
    canister build: the pipeline that turns USDC on Base into cycles - approve
    and lock the USDC, let the bridge release it on the Internet Computer, swap
    it for ICP and mint cycles - with its Ethereum transactions and RPC
    decoding.  As in the source the machine is generic over the port that
    signs and calls the node and the port that stores the stage. *)

From S2P Require Import Prelude Text SpawnProtocol Types Externals Evm Child AgentTypes TopUpTypes.
From Stdlib Require Import Ascii Strings.Byte.

Definition TOPUP_MIN_OPERATIONAL_CYCLES : N := 250000000000.
Definition TOPUP_MIN_USDC_AVAILABLE_RAW : N := 10000000.
Definition DEFAULT_EVM_GAS_LIMIT : N := 250000.
Definition DEFAULT_PRIORITY_FEE_PER_GAS_WEI : N := 1000000000.
Definition EMPTY_ACCESS_LIST_RLP_LEN : N := 1.
Definition SELECTOR_ERC20_BALANCE_OF : string := "70a08231".
Definition SELECTOR_ERC20_APPROVE : string := "095ea7b3".
Definition SELECTOR_LOCK1 : string := "3455fccc".

(** ** Ports and platform *)

(** [trait EvmPort]. *)
Class EvmPort (S : Type) := {
  sign_message : string -> M S string string;
  evm_rpc_call : string -> string -> M S string string;
}.

(** [trait StoragePort]: what a store does, and that it keeps what it is
    given. *)
Class StoragePort (S : Type) := {
  load_state : S -> option TopUpStage.t;
  save_state : TopUpStage.t -> S -> S;
  clear_state : S -> S;
}.
Class StoragePortOk (S : Type) `{StoragePort S} : Prop := {
  load_save : forall stage s, load_state (save_state stage s) = Some stage;
  load_clear : forall s, load_state (clear_state s) = None;
}.

(** The system API and [ic_cdk::call] to each method the pipeline uses.  A
    rejected call is the [Debug] text of its code and its message. *)
Class TopUpPlatform (S : Type) := {
  current_canister_id : Principal;
  current_cycle_balance128 : S -> N;
  current_time_ns : S -> N;
  get_transfer_fees : Principal -> M S (string * string) (list TransferFee.t);
  transfer_evm_to_icp :
    Principal -> TransferEvmToIcpArg.t -> M S (string * string) TransferResponse.t;
  get_transfer : Principal -> TransferId.t -> M S (string * string) BridgeTransferStatus.t;
  icrc2_approve :
    Principal -> Icrc2ApproveArg.t -> M S (string * string) (result ApproveError.t N);
  kong_swap : Principal -> SwapArgs.t -> M S (string * string) (result string SwapReply.t);
  icrc1_transfer :
    Principal -> Icrc1TransferArg.t -> M S (string * string) (result TransferError.t N);
  notify_top_up : Principal -> NotifyTopUpArg.t -> M S (string * string) (result NotifyError.t N);
}.

(** Third-party code the module calls: [alloy_rlp] and [alloy_primitives],
    [serde_json], [candid] and [hex], and derived [Debug] texts. *)
Class TopUpLibs `{Json} := {
  rlp_header : bool -> N -> list byte;
  rlp_uint : N -> list byte;
  rlp_address : list byte -> list byte;
  rlp_data : list byte -> list byte;
  rlp_uint_length : N -> N;
  rlp_address_length : list byte -> N;
  rlp_data_length : list byte -> N;
  address_from_str : string -> result string (list byte);
  null : Value;
  is_null : Value -> bool;
  value_to_string : Value -> string;
  principal_as_slice : Principal -> list byte;
  hex_decode : string -> result string (list byte);
  parse_int_overflow : string;
  debug_approve_error : ApproveError.t -> string;
  debug_transfer_error : TransferError.t -> string;
  debug_notify_error : NotifyError.t -> string;
}.

(** ** Numbers, hexadecimal text and JSON *)

Definition nat_to_u64 (value : N) (field : string) : result string N :=
  if (value <=? max_uint 64)%N then Ok value else Err (field +:+ " exceeds u64").

Definition nat_to_u128 (value : N) (field : string) : result string N :=
  if (value <=? max_uint 128)%N then Ok value else Err (field +:+ " exceeds u128").

Definition normalize_hex_quantity (raw field : string) : result string string :=
  let trimmed := to_ascii_lowercase (trim raw) in
  without_prefix ← ok_or (strip_prefix trimmed "0x") (field +:+ " must be 0x-prefixed hex");
  err_if (negb (forallb is_ascii_hexdigit (str_bytes without_prefix)))
    (field +:+ " must be valid hex");;
  Ok trimmed.

(** [util.rs]. *)
Definition normalize_evm_address (raw : string) : result string string :=
  let trimmed := to_ascii_lowercase (trim raw) in
  let valid := (str_len trimmed =? 42)%N && starts_with trimmed "0x"
    && forallb is_ascii_hexdigit (drop 2 (str_bytes trimmed)) in
  err_if (negb valid) "address must be a 0x-prefixed 20-byte hex string";;
  Ok trimmed.

Definition normalize_hex_blob (raw field : string) : result string string :=
  let trimmed := to_ascii_lowercase (trim raw) in
  without_prefix ← ok_or (strip_prefix trimmed "0x") (field +:+ " must be 0x-prefixed hex");
  err_if (negb (str_len without_prefix `mod` 2 =? 0)%N) (field +:+ " hex length must be even");;
  err_if (negb (forallb is_ascii_hexdigit (str_bytes without_prefix)))
    (field +:+ " must be valid hex");;
  Ok trimmed.

Definition normalize_evm_hex_address (raw field : string) : result string string :=
  map_err (fun _ => field +:+ " must be a 0x-prefixed 20-byte hex string")
    (normalize_evm_address raw).

Definition normalize_address (raw : string) : result string string :=
  normalize_evm_hex_address raw "address".

Definition encode_u256_word (value : N) : string := hex_fixed 64 value.

Definition encode_address_word (address : string) : result string string :=
  normalized ← normalize_address address;
  Ok (pad_64 (trim_start_0x normalized)).

Definition encode_erc20_balance_of (address : string) : result string string :=
  word ← encode_address_word address;
  Ok ("0x" +:+ SELECTOR_ERC20_BALANCE_OF +:+ word).

Definition encode_approve (spender : string) (amount : N) : result string string :=
  word ← encode_address_word spender;
  Ok ("0x" +:+ SELECTOR_ERC20_APPROVE +:+ word +:+ encode_u256_word amount).

Definition encode_lock1 (amount : N) (data1 : list byte) : string :=
  "0x" +:+ SELECTOR_LOCK1 +:+ encode_u256_word amount +:+ hex_encode data1.

Definition find_usdc_base_fee (fees : list TransferFee.t) : result string TransferFee.t :=
  ok_or (snd <$> list_find (fun fee => TransferFee.token fee = Token.USDC
                                       /\ TransferFee.evm_chain fee = EvmChain.Base) fees)
    "missing Onesec USDC/Base fee".

Section TopUpEncoding.
Context `{ext : Externals, json : Json, libs : !TopUpLibs}.

(** [u64::from_str_radix] and [u128::from_str_radix] of checked digits. *)
Definition parse_hex_number (w : N) (type_name raw field : string) : result string N :=
  normalized ← normalize_hex_quantity raw field;
  let without_prefix := trim_start_0x normalized in
  if is_empty without_prefix then Ok 0%N
  else ok_or (parse_hex_uint w without_prefix)
         ("failed to parse " +:+ field +:+ " as hex " +:+ type_name +:+ ": " +:+ parse_int_overflow).

Definition parse_hex_u64 : string -> string -> result string N := parse_hex_number 64 "u64".
Definition parse_hex_u128 : string -> string -> result string N := parse_hex_number 128 "u128".

Definition parse_hex_u256 (raw field : string) : result string N :=
  normalized ← normalize_hex_quantity raw field;
  let without_prefix := trim_start_0x normalized in
  if is_empty without_prefix then Ok 0%N
  else
    err_if (64 <? str_len without_prefix)%N (field +:+ " exceeds 32 bytes");;
    let padded := if (str_len without_prefix `mod` 2 =? 0)%N then without_prefix
                  else "0" +:+ without_prefix in
    bytes ← map_err (fun error => "failed to decode " +:+ field +:+ " as hex: " +:+ error)
      (hex_decode padded);
    Ok (be_value bytes).

Definition parse_compact_signature (raw : string) : result string (list byte) :=
  normalized ← normalize_hex_blob raw "signature";
  let without_prefix := trim_start_0x normalized in
  err_if (negb (str_len without_prefix =? 128)%N) "signature must be 64 bytes (r||s)";;
  map_err (fun error => "failed to decode signature: " +:+ error) (hex_decode without_prefix).

Definition parse_evm_rpc_payload (raw : string) : result string Value :=
  let trimmed := trim raw in
  err_if (is_empty trimmed) "evm rpc response was empty";;
  map_err (fun error => "invalid evm rpc json: " +:+ error) (from_str trimmed).

(** [value.get(field)] with a string index. *)
Definition value_get (value : Value) (field : string) : option Value :=
  object ← as_object value; object !! field.

Definition extract_evm_result_string (raw field : string) : result string string :=
  let trimmed := trim raw in
  if starts_with trimmed "{" || starts_with trimmed "["
     || starts_with trimmed (String (ascii_of_N 34) EmptyString) then
    value ← parse_evm_rpc_payload trimmed;
    match value_get value "result" with
    | Some answer =>
        err_if (is_null answer) (field +:+ " result was null");;
        Ok (default (value_to_string answer) (as_str answer))
    | None => Ok (default (value_to_string value) (as_str value))
    end
  else Ok trimmed.

Definition extract_evm_result_value (raw : string) : result string Value :=
  let trimmed := trim raw in
  if eq_ignore_ascii_case trimmed "null" then Ok null
  else
    value ← parse_evm_rpc_payload trimmed;
    Ok (default value (value_get value "result")).

(** ** Transactions *)

Definition unsigned_payload_length (tx : Eip1559UnsignedTx.t) : N :=
  rlp_uint_length (Eip1559UnsignedTx.chain_id tx) + rlp_uint_length (Eip1559UnsignedTx.nonce tx)
  + rlp_uint_length (Eip1559UnsignedTx.max_priority_fee_per_gas tx)
  + rlp_uint_length (Eip1559UnsignedTx.max_fee_per_gas tx)
  + rlp_uint_length (Eip1559UnsignedTx.gas_limit tx)
  + rlp_address_length (Eip1559UnsignedTx.to tx) + rlp_uint_length (Eip1559UnsignedTx.value tx)
  + rlp_data_length (Eip1559UnsignedTx.data tx) + EMPTY_ACCESS_LIST_RLP_LEN.

(** The fields both encodings start with; the access list is empty. *)
Definition transaction_fields (tx : Eip1559UnsignedTx.t) : list byte :=
  rlp_uint (Eip1559UnsignedTx.chain_id tx) ++ rlp_uint (Eip1559UnsignedTx.nonce tx)
  ++ rlp_uint (Eip1559UnsignedTx.max_priority_fee_per_gas tx)
  ++ rlp_uint (Eip1559UnsignedTx.max_fee_per_gas tx)
  ++ rlp_uint (Eip1559UnsignedTx.gas_limit tx)
  ++ rlp_address (Eip1559UnsignedTx.to tx) ++ rlp_uint (Eip1559UnsignedTx.value tx)
  ++ rlp_data (Eip1559UnsignedTx.data tx) ++ rlp_header true 0.

Definition encode_eip1559_unsigned (tx : Eip1559UnsignedTx.t) : list byte :=
  x02 :: rlp_header true (unsigned_payload_length tx) ++ transaction_fields tx.

Definition signed_payload_length (tx : Eip1559UnsignedTx.t) (y_parity r s : N) : N :=
  unsigned_payload_length tx + rlp_uint_length y_parity + rlp_uint_length r + rlp_uint_length s.

Definition encode_eip1559_signed (tx : Eip1559UnsignedTx.t) (y_parity r s : N) : list byte :=
  x02 :: rlp_header true (signed_payload_length tx y_parity r s) ++ transaction_fields tx
    ++ rlp_uint y_parity ++ rlp_uint r ++ rlp_uint s.

Definition address_of_key (uncompressed : list byte) : option string :=
  if bool_decide (length uncompressed = 65) && bool_decide (head uncompressed = Some x04)
  then Some ("0x" +:+ hex_encode (take 20 (drop 12 (keccak256 (drop 1 uncompressed)))))
  else None.

Definition recover_y_parity (tx_hash signature_compact : list byte) (expected_address : string)
    : result string N :=
  signature ← map_err (fun error => "invalid compact signature bytes: " +:+ error)
    (signature_from_slice signature_compact);
  let expected := to_ascii_lowercase (trim expected_address) in
  let matches candidate :=
    match recover_from_prehash tx_hash signature candidate with
    | Ok uncompressed => bool_decide (address_of_key uncompressed = Some expected)
    | Err _ => false
    end in
  if matches 0%N then Ok 0%N
  else if matches 1%N then Ok 1%N
  else Err "failed to recover EIP-1559 y_parity".

Definition encode_principal_for_onesec (principal : Principal) : list byte :=
  let bytes := principal_as_slice principal in
  let copy_len := Nat.min (length bytes) 30 in
  x00 :: u8 (N.of_nat copy_len) :: take copy_len bytes ++ replicate (30 - copy_len) x00.

Definition cmc_subaccount_for_canister (canister_id : Principal) : list byte :=
  sha256 (x0a :: as_bytes "canister-id" ++ principal_as_slice canister_id).
End TopUpEncoding.

(** ** The stages *)

Section TopUpMachine.
Context {S : Type} `{ext : Externals, json : Json, libs : !TopUpLibs}.
Context `{evm : !EvmPort S, storage : !StoragePort S, platform : !TopUpPlatform S}.
Context (config : TopUpConfig.t).

Abbreviation T := (M S string).

(** An inter-canister call and its [map_err]. *)
Definition ic_call {A} (label : string) (call : M S (string * string) A) : T A :=
  map_fail (fun '(code, msg) => label +:+ " failed: " +:+ code +:+ " " +:+ msg) call.

Definition target_canister : Principal :=
  default current_canister_id (TopUpConfig.target_canister config).

Definition quoted (text : string) : string :=
  let quote := String (ascii_of_N 34) EmptyString in quote +:+ text +:+ quote.

(** ["name":"text"]. *)
Definition json_field (name text : string) : string := quoted name +:+ ":" +:+ quoted text.

Definition evm_nonce : T N :=
  evm_address ← lift (normalize_address (TopUpConfig.evm_address config));
  raw ← evm_rpc_call "eth_getTransactionCount"
    ("[" +:+ quoted evm_address +:+ ", " +:+ quoted "pending" +:+ "]");
  text ← lift (extract_evm_result_string raw "eth_getTransactionCount");
  lift (parse_hex_u256 text "eth_getTransactionCount").

Definition evm_gas_price : T N :=
  raw ← evm_rpc_call "eth_gasPrice" "[]";
  text ← lift (extract_evm_result_string raw "eth_gasPrice");
  lift (parse_hex_u256 text "eth_gasPrice").

Definition evm_estimate_gas (to data : string) : T N :=
  from ← lift (normalize_address (TopUpConfig.evm_address config));
  to ← lift (normalize_address to);
  data ← lift (normalize_hex_blob data "transaction calldata");
  raw ← evm_rpc_call "eth_estimateGas"
    ("[{" +:+ json_field "from" from +:+ "," +:+ json_field "to" to +:+ ","
     +:+ json_field "value" "0x0" +:+ "," +:+ json_field "data" data +:+ "}]");
  text ← lift (extract_evm_result_string raw "eth_estimateGas");
  lift (parse_hex_u256 text "eth_estimateGas").

Definition evm_send_raw_transaction (tx : list byte) : T string :=
  raw ← evm_rpc_call "eth_sendRawTransaction" ("[" +:+ quoted (hex_encode_prefixed tx) +:+ "]");
  text ← lift (extract_evm_result_string raw "eth_sendRawTransaction");
  lift (normalize_hex_blob text "eth_sendRawTransaction result").

Definition evm_send_transaction (to calldata : string) : T string :=
  to_hex ← lift (normalize_address to);
  to ← lift (map_err (fun error => "failed to parse destination address: " +:+ error)
    (address_from_str to_hex));
  data_hex ← lift (normalize_hex_blob calldata "transaction calldata");
  data ← lift (map_err (fun error => "calldata must be valid hex: " +:+ error)
    (hex_decode (trim_start_0x data_hex)));
  nonce ← evm_nonce;
  base_fee ← evm_gas_price;
  let max_fee_per_gas := saturating_add 256 base_fee DEFAULT_PRIORITY_FEE_PER_GAS_WEI in
  estimate ← (catch (evm_estimate_gas to_hex data_hex) : T (result string N));
  let gas_limit := match estimate with Ok limit => limit | Err _ => DEFAULT_EVM_GAS_LIMIT end in
  let tx := {|
    Eip1559UnsignedTx.chain_id := TopUpConfig.evm_chain_id config;
    Eip1559UnsignedTx.nonce := nonce;
    Eip1559UnsignedTx.max_priority_fee_per_gas := DEFAULT_PRIORITY_FEE_PER_GAS_WEI;
    Eip1559UnsignedTx.max_fee_per_gas := max_fee_per_gas;
    Eip1559UnsignedTx.gas_limit := gas_limit;
    Eip1559UnsignedTx.to := to;
    Eip1559UnsignedTx.value := 0%N;
    Eip1559UnsignedTx.data := data;
  |} in
  let tx_hash := keccak256 (encode_eip1559_unsigned tx) in
  signed_hash ← sign_message (hex_encode_prefixed tx_hash);
  signature ← lift (parse_compact_signature signed_hash);
  address ← lift (normalize_address (TopUpConfig.evm_address config));
  y_parity ← lift (recover_y_parity tx_hash signature address);
  evm_send_raw_transaction
    (encode_eip1559_signed tx y_parity (be_value (take 32 signature))
       (be_value (drop 32 signature))).

Definition call_get_transfer_fees : T (list TransferFee.t) :=
  ic_call "onesec.get_transfer_fees"
    (get_transfer_fees (TopUpConfig.onesec_canister config)).
Definition call_transfer_evm_to_icp (args : TransferEvmToIcpArg.t) : T TransferResponse.t :=
  ic_call "onesec.transfer_evm_to_icp"
    (transfer_evm_to_icp (TopUpConfig.onesec_canister config) args).
Definition call_get_transfer (transfer_id : N) : T BridgeTransferStatus.t :=
  ic_call "onesec.get_transfer"
    (get_transfer (TopUpConfig.onesec_canister config) (TransferId.mk transfer_id)).
Definition call_icrc2_approve (args : Icrc2ApproveArg.t) : T (result ApproveError.t N) :=
  ic_call "bridged_usdc.icrc2_approve call"
    (icrc2_approve (TopUpConfig.bridged_usdc_ledger config) args).
Definition call_kongswap_swap (args : SwapArgs.t) : T (result string SwapReply.t) :=
  ic_call "kong.swap call" (kong_swap (TopUpConfig.kong_backend config) args).
Definition call_icrc1_transfer (args : Icrc1TransferArg.t) : T (result TransferError.t N) :=
  ic_call "icp_ledger.icrc1_transfer" (icrc1_transfer (TopUpConfig.icp_ledger config) args).
Definition call_notify_top_up (args : NotifyTopUpArg.t) : T (result NotifyError.t N) :=
  ic_call "cmc.notify_top_up" (notify_top_up (TopUpConfig.cmc config) args).

(** What [preflight] does with the balance and the fee. *)
Definition spendable (usdc_balance : N) : result string N :=
  let available := saturating_sub usdc_balance (TopUpConfig.min_usdc_reserve config) in
  err_if (available <? TOPUP_MIN_USDC_AVAILABLE_RAW)%N
    ("USDC available (" +:+ pretty available +:+ ") below minimum "
     +:+ pretty TOPUP_MIN_USDC_AVAILABLE_RAW);;
  Ok (N.min available (TopUpConfig.max_usdc_per_topup config)).

Definition check_fee_bounds (usdc_amount : N) (fees : list TransferFee.t) : result string unit :=
  fee ← find_usdc_base_fee fees;
  min_amount ← nat_to_u64 (TransferFee.min_amount fee) "Onesec fee min_amount";
  max_amount ← nat_to_u64 (TransferFee.max_amount fee) "Onesec fee max_amount";
  err_if ((usdc_amount <? min_amount)%N || (max_amount <? usdc_amount)%N)
    ("amount " +:+ pretty usdc_amount +:+ " outside Onesec bounds [" +:+ pretty min_amount
     +:+ ", " +:+ pretty max_amount +:+ "]").

Definition usdc_balance_of : T N :=
  balance_calldata ← lift (encode_erc20_balance_of (TopUpConfig.evm_address config));
  usdc_contract ← lift (normalize_address (TopUpConfig.usdc_contract_address config));
  raw ← evm_rpc_call "eth_call"
    ("[{" +:+ json_field "to" usdc_contract +:+ "," +:+ json_field "data" balance_calldata
     +:+ "}, " +:+ quoted "latest" +:+ "]");
  text ← lift (extract_evm_result_string raw "eth_call");
  usdc_balance ← lift (parse_hex_u128 text "USDC balance");
  fail_if (max_uint 64 <? usdc_balance)%N "USDC balance exceeds u64";;
  mret usdc_balance.

Definition preflight : T TopUpStage.t :=
  cycles ← gets current_cycle_balance128;
  fail_if (cycles <? TOPUP_MIN_OPERATIONAL_CYCLES)%N
    ("insufficient cycles for top-up operation: need at least "
     +:+ pretty TOPUP_MIN_OPERATIONAL_CYCLES);;
  usdc_balance ← usdc_balance_of;
  usdc_amount ← lift (spendable usdc_balance);
  fees ← call_get_transfer_fees;
  lift (check_fee_bounds usdc_amount fees);;
  mret (TopUpStage.ApprovingLocker usdc_amount).

Definition approve_locker (stage : TopUpStage.t) : T TopUpStage.t :=
  match stage with
  | TopUpStage.ApprovingLocker usdc_amount =>
      calldata ← lift (encode_approve (TopUpConfig.onesec_locker_address config) usdc_amount);
      tx_hash ← evm_send_transaction (TopUpConfig.usdc_contract_address config) calldata;
      mret (TopUpStage.WaitingApprovalConfirmation usdc_amount tx_hash)
  | _ => mthrow "invalid state for ApprovingLocker transition"
  end.

(** The confirmations a receipt has; [1] where only inclusion is asked for. *)
Definition receipt_confirmations (receipt : gmap string Value) (required_confirmations : N)
    : T N :=
  if (1 <? required_confirmations)%N then
    raw ← lift (ok_or (receipt !! "blockNumber" ≫= as_str) "receipt missing blockNumber");
    receipt_block ← lift (parse_hex_u64 raw "receipt blockNumber");
    latest_raw ← evm_rpc_call "eth_blockNumber" "[]";
    latest_text ← lift (extract_evm_result_string latest_raw "eth_blockNumber");
    latest_block ← lift (parse_hex_u64 latest_text "eth_blockNumber");
    fail_if (latest_block <? receipt_block)%N "latest block is behind receipt block";;
    mret (saturating_add 64 (saturating_sub latest_block receipt_block) 1)
  else mret 1%N.

Definition check_receipt_status (receipt : gmap string Value) (tx_hash : string)
    : result string unit :=
  match receipt !! "status" ≫= as_str with
  | Some status =>
      status ← parse_hex_u64 status "receipt status";
      err_if (status =? 0)%N ("transaction reverted: " +:+ tx_hash)
  | None => Ok tt
  end.

Definition polled_transaction (stage : TopUpStage.t) : result string (N * string * bool) :=
  match stage with
  | TopUpStage.WaitingApprovalConfirmation usdc_amount tx_hash => Ok (usdc_amount, tx_hash, false)
  | TopUpStage.WaitingLockConfirmation usdc_amount tx_hash _ => Ok (usdc_amount, tx_hash, true)
  | _ => Err "invalid state for transaction polling"
  end.

(** Where polling leaves the stage once the receipt is there. *)
Definition polled_stage (stage : TopUpStage.t) (polled : N * string * bool)
    (confirmations required_confirmations : N) : TopUpStage.t :=
  let '(usdc_amount, tx_hash, is_lock_wait) := polled in
  if (confirmations <? required_confirmations)%N then
    if is_lock_wait
    then TopUpStage.WaitingLockConfirmation usdc_amount tx_hash (N.min confirmations (max_uint 8))
    else stage
  else if is_lock_wait then TopUpStage.ValidatingOnOnesec usdc_amount tx_hash
  else TopUpStage.LockingUSDC usdc_amount.

Definition poll_tx (stage : TopUpStage.t) (required_confirmations : N) : T TopUpStage.t :=
  polled ← lift (polled_transaction stage);
  let tx_hash := polled.1.2 in
  hash ← lift (normalize_hex_blob tx_hash "tx hash");
  receipt_raw ← evm_rpc_call "eth_getTransactionReceipt" ("[" +:+ quoted hash +:+ "]");
  receipt ← lift (extract_evm_result_value receipt_raw);
  if is_null receipt then mret stage
  else
    receipt_object ← lift (ok_or (as_object receipt)
      "eth_getTransactionReceipt result must be object or null");
    lift (check_receipt_status receipt_object tx_hash);;
    confirmations ← receipt_confirmations receipt_object required_confirmations;
    mret (polled_stage stage polled confirmations required_confirmations).

Definition lock_usdc (stage : TopUpStage.t) : T TopUpStage.t :=
  match stage with
  | TopUpStage.LockingUSDC usdc_amount =>
      let principal_data := encode_principal_for_onesec current_canister_id in
      tx_hash ← evm_send_transaction (TopUpConfig.onesec_locker_address config)
        (encode_lock1 usdc_amount principal_data);
      mret (TopUpStage.WaitingLockConfirmation usdc_amount tx_hash 0)
  | _ => mthrow "invalid state for LockingUSDC transition"
  end.

Definition validate_on_onesec (stage : TopUpStage.t) : T TopUpStage.t :=
  match stage with
  | TopUpStage.ValidatingOnOnesec usdc_amount tx_hash =>
      address ← lift (normalize_address (TopUpConfig.evm_address config));
      hash ← lift (normalize_hex_blob tx_hash "lock tx hash");
      response ← call_transfer_evm_to_icp {|
        TransferEvmToIcpArg.token := Token.USDC;
        TransferEvmToIcpArg.evm_chain := EvmChain.Base;
        TransferEvmToIcpArg.evm_account := EvmAccount.mk address;
        TransferEvmToIcpArg.evm_tx := EvmTx.mk hash None;
        TransferEvmToIcpArg.icp_account := OnesecIcpAccount.ICRC current_canister_id None;
        TransferEvmToIcpArg.evm_amount := usdc_amount;
        TransferEvmToIcpArg.icp_amount := None;
      |};
      match response with
      | TransferResponse.Accepted transfer_id =>
          mret (TopUpStage.WaitingForBridgedUSDC usdc_amount (TransferId.id transfer_id) 0)
      | TransferResponse.Fetching _ => mret stage
      | TransferResponse.Failed error => mthrow ("transfer_evm_to_icp failed: " +:+ error)
      end
  | _ => mthrow "invalid state for ValidatingOnOnesec transition"
  end.

Definition poll_bridge (stage : TopUpStage.t) : T TopUpStage.t :=
  match stage with
  | TopUpStage.WaitingForBridgedUSDC usdc_amount transfer_id polls =>
      fail_if (TopUpConfig.max_bridge_polls config <=? polls)%N
        ("bridge polling exceeded max attempts for transfer " +:+ pretty transfer_id);;
      status ← call_get_transfer transfer_id;
      match status with
      | BridgeTransferStatus.Pending | BridgeTransferStatus.Fetching =>
          mret (TopUpStage.WaitingForBridgedUSDC usdc_amount transfer_id (saturating_add 8 polls 1))
      | BridgeTransferStatus.Failed error => mthrow ("bridge transfer failed: " +:+ error)
      | BridgeTransferStatus.Succeeded amount =>
          bridged ← lift (nat_to_u64 amount "bridged USDC amount");
          mret (TopUpStage.ApprovingKongSwap bridged usdc_amount)
      end
  | _ => mthrow "invalid state for WaitingForBridgedUSDC transition"
  end.

Definition approve_kongswap (stage : TopUpStage.t) : T TopUpStage.t :=
  match stage with
  | TopUpStage.ApprovingKongSwap bridged_usdc_amount usdc_spent =>
      approve_result ← call_icrc2_approve {|
        Icrc2ApproveArg.spender := Account.mk (TopUpConfig.kong_backend config) None;
        Icrc2ApproveArg.amount := bridged_usdc_amount;
        Icrc2ApproveArg.expected_allowance := None;
        Icrc2ApproveArg.expires_at := None;
        Icrc2ApproveArg.fee := None;
        Icrc2ApproveArg.memo := None;
        Icrc2ApproveArg.from_subaccount := None;
        Icrc2ApproveArg.created_at_time := None;
      |};
      match approve_result with
      | Ok _ => mret (TopUpStage.SwappingToICP bridged_usdc_amount usdc_spent)
      | Err error => mthrow ("icrc2_approve failed: " +:+ debug_approve_error error)
      end
  | _ => mthrow "invalid state for ApprovingKongSwap transition"
  end.

Definition swap_to_icp (stage : TopUpStage.t) : T TopUpStage.t :=
  match stage with
  | TopUpStage.SwappingToICP bridged_usdc_amount usdc_spent =>
      swap_result ← call_kongswap_swap {|
        SwapArgs.pay_token := "IC." +:+ TopUpConfig.bridged_usdc_ledger config;
        SwapArgs.pay_amount := bridged_usdc_amount;
        SwapArgs.pay_tx_id := None;
        SwapArgs.receive_token := "ICP";
        SwapArgs.receive_amount := None;
        SwapArgs.receive_address := Some current_canister_id;
        SwapArgs.max_slippage := Some (TopUpConfig.max_slippage_pct config);
        SwapArgs.referred_by := None;
      |};
      reply ← lift (map_err (fun error => "swap failed: " +:+ error) swap_result);
      fail_if (negb (eq_ignore_ascii_case (SwapReply.status reply) "success"))
        ("swap status was " +:+ SwapReply.status reply);;
      icp_amount ← lift (nat_to_u64 (SwapReply.receive_amount reply) "swap receive_amount");
      mret (TopUpStage.TransferringToCMC icp_amount usdc_spent)
  | _ => mthrow "invalid state for SwappingToICP transition"
  end.

Definition transfer_to_cmc (stage : TopUpStage.t) : T TopUpStage.t :=
  match stage with
  | TopUpStage.TransferringToCMC icp_amount usdc_spent =>
      transfer_result ← call_icrc1_transfer {|
        Icrc1TransferArg.to := Account.mk (TopUpConfig.cmc config)
          (Some (cmc_subaccount_for_canister target_canister));
        Icrc1TransferArg.amount := icp_amount;
        Icrc1TransferArg.memo := None;
        Icrc1TransferArg.fee := None;
        Icrc1TransferArg.from_subaccount := None;
        Icrc1TransferArg.created_at_time := None;
      |};
      match transfer_result with
      | Ok block_index =>
          block_index ← lift (nat_to_u64 block_index "icrc1_transfer block index");
          mret (TopUpStage.MintingCycles block_index usdc_spent)
      | Err error => mthrow ("icrc1_transfer failed: " +:+ debug_transfer_error error)
      end
  | _ => mthrow "invalid state for TransferringToCMC transition"
  end.

Definition mint_cycles (stage : TopUpStage.t) : T TopUpStage.t :=
  match stage with
  | TopUpStage.MintingCycles block_index usdc_spent =>
      notify_result ← call_notify_top_up (NotifyTopUpArg.mk block_index target_canister);
      match notify_result with
      | Ok cycles =>
          cycles_minted ← lift (nat_to_u128 cycles "notify_top_up cycles minted");
          completed_at_ns ← gets current_time_ns;
          mret (TopUpStage.Completed cycles_minted usdc_spent completed_at_ns)
      | Err error => mthrow ("notify_top_up failed: " +:+ debug_notify_error error)
      end
  | _ => mthrow "invalid state for MintingCycles transition"
  end.

(** ** Driving the machine *)

(** One handler; [None] is a terminal stage, at which [advance] returns. *)
Definition handle_stage (stage : TopUpStage.t) : option (T TopUpStage.t) :=
  match stage with
  | TopUpStage.Preflight => Some preflight
  | TopUpStage.ApprovingLocker _ => Some (approve_locker stage)
  | TopUpStage.WaitingApprovalConfirmation _ _ => Some (poll_tx stage 1)
  | TopUpStage.LockingUSDC _ => Some (lock_usdc stage)
  | TopUpStage.WaitingLockConfirmation _ _ _ =>
      Some (poll_tx stage (TopUpConfig.lock_confirmations config))
  | TopUpStage.ValidatingOnOnesec _ _ => Some (validate_on_onesec stage)
  | TopUpStage.WaitingForBridgedUSDC _ _ _ => Some (poll_bridge stage)
  | TopUpStage.ApprovingKongSwap _ _ => Some (approve_kongswap stage)
  | TopUpStage.SwappingToICP _ _ => Some (swap_to_icp stage)
  | TopUpStage.TransferringToCMC _ _ => Some (transfer_to_cmc stage)
  | TopUpStage.MintingCycles _ _ => Some (mint_cycles stage)
  | TopUpStage.Completed _ _ _ | TopUpStage.Failed _ _ _ _ => None
  end.

(** The [loop] of [advance], at most [fuel] rounds of it: [None] when it has
    not returned by then. *)
Fixpoint advance_loop (fuel : nat) (stage : TopUpStage.t) : T (option bool) :=
  match fuel with
  | O => mret None
  | Datatypes.S fuel =>
      match handle_stage stage with
      | None => mret (Some true)
      | Some handler =>
          next ← (catch handler : T (result string TopUpStage.t));
          match next with
          | Ok next_stage =>
              modify (save_state next_stage);;
              if TopUpStage.is_terminal next_stage then mret (Some true)
              else if TopUpStage.is_waiting next_stage then mret (Some false)
              else advance_loop fuel next_stage
          | Err error =>
              modify (fun s => save_state
                (TopUpStage.Failed (TopUpStage.stage_name stage) error (current_time_ns s) 0) s);;
              mret (Some true)
          end
      end
  end.

Definition advance (fuel : nat) : T (option bool) :=
  stored ← gets load_state;
  match stored with
  | None => mret (Some true)
  | Some stage => advance_loop fuel stage
  end.
End TopUpMachine.

Section TopUpControl.
Context {S : Type} `{storage : !StoragePort S}.

Definition start : M S string unit :=
  stored ← gets load_state;
  match stored with
  | None | Some (TopUpStage.Completed _ _ _) => modify (save_state TopUpStage.Preflight)
  | Some (TopUpStage.Failed _ _ _ _) =>
      mthrow "top-up is in failed state; call reset() first"
  | Some _ => mthrow "top-up already in progress"
  end.

Definition reset : M S string unit :=
  stored ← gets load_state;
  match stored with
  | Some (TopUpStage.Failed _ _ _ _) => modify clear_state
  | Some _ => mthrow "top-up is not in failed state"
  | None => mthrow "top-up is idle"
  end.

Definition topup_status_from_stage (stage : option TopUpStage.t) : TopUpStatus.t :=
  match stage with
  | None => TopUpStatus.Idle
  | Some (TopUpStage.Completed cycles_minted usdc_spent completed_at_ns) =>
      TopUpStatus.Completed cycles_minted usdc_spent completed_at_ns
  | Some (TopUpStage.Failed stage error failed_at_ns attempts) =>
      TopUpStatus.Failed stage error failed_at_ns attempts
  | Some stage => TopUpStatus.InProgress stage
  end.

Definition status (s : S) : TopUpStatus.t := topup_status_from_stage (load_state s).
End TopUpControl.

(** ** The pipeline as a relation

    What a handler may turn a stage into, when it does not fail.  [reported]
    holds of the USDC balances that the node reported. *)

Section Pipeline.
Context (config : TopUpConfig.t) (reported : N -> Prop).

Inductive pipeline : relation TopUpStage.t :=
| pipeline_preflight balance amount :
    reported balance -> spendable config balance = Ok amount ->
    pipeline TopUpStage.Preflight (TopUpStage.ApprovingLocker amount)
| pipeline_approve amount hash :
    pipeline (TopUpStage.ApprovingLocker amount)
      (TopUpStage.WaitingApprovalConfirmation amount hash)
| pipeline_await_approval amount hash :
    pipeline (TopUpStage.WaitingApprovalConfirmation amount hash)
      (TopUpStage.WaitingApprovalConfirmation amount hash)
| pipeline_approved amount hash :
    pipeline (TopUpStage.WaitingApprovalConfirmation amount hash)
      (TopUpStage.LockingUSDC amount)
| pipeline_lock amount hash :
    pipeline (TopUpStage.LockingUSDC amount) (TopUpStage.WaitingLockConfirmation amount hash 0)
| pipeline_await_lock amount hash before now :
    now = before \/ (now < TopUpConfig.lock_confirmations config)%N ->
    pipeline (TopUpStage.WaitingLockConfirmation amount hash before)
      (TopUpStage.WaitingLockConfirmation amount hash now)
| pipeline_locked amount hash before :
    pipeline (TopUpStage.WaitingLockConfirmation amount hash before)
      (TopUpStage.ValidatingOnOnesec amount hash)
| pipeline_await_bridge amount hash :
    pipeline (TopUpStage.ValidatingOnOnesec amount hash)
      (TopUpStage.ValidatingOnOnesec amount hash)
| pipeline_accepted amount hash id :
    pipeline (TopUpStage.ValidatingOnOnesec amount hash)
      (TopUpStage.WaitingForBridgedUSDC amount id 0)
| pipeline_poll amount id polls :
    (polls < TopUpConfig.max_bridge_polls config)%N ->
    pipeline (TopUpStage.WaitingForBridgedUSDC amount id polls)
      (TopUpStage.WaitingForBridgedUSDC amount id (saturating_add 8 polls 1))
| pipeline_bridged amount id polls bridged :
    (polls < TopUpConfig.max_bridge_polls config)%N -> in_uint 64 bridged ->
    pipeline (TopUpStage.WaitingForBridgedUSDC amount id polls)
      (TopUpStage.ApprovingKongSwap bridged amount)
| pipeline_swap_approved bridged amount :
    pipeline (TopUpStage.ApprovingKongSwap bridged amount)
      (TopUpStage.SwappingToICP bridged amount)
| pipeline_swapped bridged amount icp :
    in_uint 64 icp ->
    pipeline (TopUpStage.SwappingToICP bridged amount) (TopUpStage.TransferringToCMC icp amount)
| pipeline_transferred icp amount block :
    in_uint 64 block ->
    pipeline (TopUpStage.TransferringToCMC icp amount) (TopUpStage.MintingCycles block amount)
| pipeline_minted block amount cycles at_ns :
    in_uint 128 cycles ->
    pipeline (TopUpStage.MintingCycles block amount) (TopUpStage.Completed cycles amount at_ns).

(** The USDC a stage accounts for. *)
Definition committed (stage : TopUpStage.t) : option N :=
  match stage with
  | TopUpStage.Preflight | TopUpStage.Failed _ _ _ _ => None
  | TopUpStage.ApprovingLocker amount | TopUpStage.WaitingApprovalConfirmation amount _
  | TopUpStage.LockingUSDC amount | TopUpStage.WaitingLockConfirmation amount _ _
  | TopUpStage.ValidatingOnOnesec amount _ | TopUpStage.WaitingForBridgedUSDC amount _ _
  | TopUpStage.ApprovingKongSwap _ amount | TopUpStage.SwappingToICP _ amount
  | TopUpStage.TransferringToCMC _ amount | TopUpStage.MintingCycles _ amount
  | TopUpStage.Completed _ amount _ => Some amount
  end.

(** How many handlers are still ahead. *)
Definition stages_left (stage : TopUpStage.t) : nat :=
  match stage with
  | TopUpStage.Preflight => 11
  | TopUpStage.ApprovingLocker _ => 10
  | TopUpStage.WaitingApprovalConfirmation _ _ => 9
  | TopUpStage.LockingUSDC _ => 8
  | TopUpStage.WaitingLockConfirmation _ _ _ => 7
  | TopUpStage.ValidatingOnOnesec _ _ => 6
  | TopUpStage.WaitingForBridgedUSDC _ _ _ => 5
  | TopUpStage.ApprovingKongSwap _ _ => 4
  | TopUpStage.SwappingToICP _ _ => 3
  | TopUpStage.TransferringToCMC _ _ => 2
  | TopUpStage.MintingCycles _ _ => 1
  | TopUpStage.Completed _ _ _ | TopUpStage.Failed _ _ _ _ => 0
  end.

Definition is_validating (stage : TopUpStage.t) : bool :=
  match stage with TopUpStage.ValidatingOnOnesec _ _ => true | _ => false end.

Lemma pipeline_progress stage next :
  pipeline stage next ->
  stages_left next < stages_left stage
  \/ next = stage /\ is_validating stage = true
  \/ TopUpStage.is_waiting next = true.
Proof. destruct 1; simpl; auto with lia. Qed.

Lemma pipeline_committed stage next :
  rtc pipeline stage next -> stage <> TopUpStage.Preflight -> committed next = committed stage.
Proof.
  induction 1 as [|stage mid next Hstep _ IH]; [done|]. intros Hpre.
  rewrite IH by (by destruct Hstep). destruct Hstep; done.
Qed.

Lemma spendable_Ok balance amount :
  spendable config balance = Ok amount ->
  (amount <= TopUpConfig.max_usdc_per_topup config)%N
  /\ (amount + TopUpConfig.min_usdc_reserve config <= balance)%N.
Proof.
  unfold spendable. intros [Hmin [= <-]]%err_if_seq_Ok. unfold saturating_sub in *.
  apply N.ltb_ge in Hmin. unfold TOPUP_MIN_USDC_AVAILABLE_RAW in Hmin. lia.
Qed.
End Pipeline.

(** ** The handlers follow the pipeline *)

Section TopUpCorrect.
Context {S : Type} `{ext : Externals, json : Json, libs : !TopUpLibs}.
Context `{evm : !EvmPort S, storage : !StoragePort S, platform : !TopUpPlatform S}.
Context (config : TopUpConfig.t).

Lemma nat_to_u64_Ok value field n : nat_to_u64 value field = Ok n -> in_uint 64 n.
Proof. unfold nat_to_u64. destruct (N.leb_spec value (max_uint 64)); [|done]. by intros [= <-]. Qed.

Lemma nat_to_u128_Ok value field n : nat_to_u128 value field = Ok n -> in_uint 128 n.
Proof.
  unfold nat_to_u128. destruct (N.leb_spec value (max_uint 128)); [|done]. by intros [= <-].
Qed.

(** The node answered the query for the USDC balance of the configured address
    with [balance], which fits in a [u64]. *)
Definition node_reports (balance : N) : Prop :=
  exists calldata contract raw text s s',
    encode_erc20_balance_of (TopUpConfig.evm_address config) = Ok calldata
    /\ normalize_address (TopUpConfig.usdc_contract_address config) = Ok contract
    /\ evm_rpc_call "eth_call"
         ("[{" +:+ json_field "to" contract +:+ "," +:+ json_field "data" calldata
          +:+ "}, " +:+ quoted "latest" +:+ "]") s = Done raw s'
    /\ extract_evm_result_string raw "eth_call" = Ok text
    /\ parse_hex_u128 text "USDC balance" = Ok balance
    /\ in_uint 64 balance.

Lemma usdc_balance_of_Done s balance s' :
  usdc_balance_of config s = Done balance s' -> node_reports balance.
Proof.
  unfold usdc_balance_of. intros H. run_inv H as calldata t1 H1. run_inv H as contract t2 H2.
  run_inv H as raw t3 H3. run_inv H as text t4 H4. run_inv H as amount t5 H5.
  run_inv H as u t6 H6. apply fail_if_Done in H6 as [Hmax ->]. injection H as -> _.
  apply lift_Done in H1 as [Hcalldata ->], H2 as [Hcontract ->], H4 as [Htext ->],
    H5 as [Hbalance ->].
  exists calldata, contract, raw, text, s, t3. split_and!; try done. by apply N.ltb_ge.
Qed.

Lemma preflight_Done s next s' :
  preflight config s = Done next s' -> pipeline config node_reports TopUpStage.Preflight next.
Proof.
  unfold preflight. intros H. done_inv.
  eapply pipeline_preflight; [|done]. by eapply usdc_balance_of_Done.
Qed.

Lemma receipt_confirmations_Done receipt required s confirmations s' :
  receipt_confirmations receipt required s = Done confirmations s' ->
  (required <= 1)%N -> confirmations = 1%N.
Proof.
  unfold receipt_confirmations. intros H Hrequired. destruct (N.ltb_spec 1 required); [lia|].
  by done_inv.
Qed.

Lemma poll_tx_Done stage required s next s' :
  poll_tx stage required s = Done next s' ->
  (exists amount hash, stage = TopUpStage.WaitingApprovalConfirmation amount hash
                       /\ required = 1%N)
  \/ (exists amount hash before, stage = TopUpStage.WaitingLockConfirmation amount hash before
                                 /\ required = TopUpConfig.lock_confirmations config) ->
  pipeline config node_reports stage next.
Proof.
  unfold poll_tx. intros H Hstage. done_inv.
  match type of H with context [if is_null ?v then _ else _] => destruct (is_null v) end.
  - done_inv. destruct Hstage as [(amount & hash & -> & _)|(amount & hash & before & -> & _)];
      constructor. by left.
  - done_inv. unfold polled_stage.
    destruct Hstage as [(amount & hash & -> & ->)|(amount & hash & before & -> & ->)];
      simplify_eq/=.
    + apply receipt_confirmations_Done in Hrun2 as ->; [|done]. constructor.
    + match goal with |- context [(?n <? ?m)%N] => destruct (N.ltb_spec n m) end; constructor.
      right. lia.
Qed.

(** A lock is validated only once it has the confirmations asked for. *)
Lemma validate_on_onesec_Done amount hash s next s' :
  validate_on_onesec config (TopUpStage.ValidatingOnOnesec amount hash) s = Done next s' ->
  (exists id, next = TopUpStage.WaitingForBridgedUSDC amount id 0)
  \/ next = TopUpStage.ValidatingOnOnesec amount hash
     /\ exists args height,
          transfer_evm_to_icp (TopUpConfig.onesec_canister config) args s
          = Done (TransferResponse.Fetching height) s'.
Proof.
  unfold validate_on_onesec, call_transfer_evm_to_icp, ic_call. intros H. done_inv.
  apply map_fail_Done in Hrun1. destruct a1; done_inv; eauto 6.
Qed.

(** A handler that does not fail takes the stage one step along the pipeline. *)
Lemma handle_stage_pipeline stage handler s next s' :
  handle_stage config stage = Some handler -> handler s = Done next s' ->
  pipeline config node_reports stage next.
Proof.
  destruct stage; intros [= <-] H.
  - by eapply preflight_Done.
  - unfold approve_locker in H. done_inv. constructor.
  - eapply poll_tx_Done; [done|]. eauto.
  - unfold lock_usdc in H. done_inv. constructor.
  - eapply poll_tx_Done; [done|]. eauto 6.
  - apply validate_on_onesec_Done in H as [[id ->]|[-> _]]; constructor.
  - unfold poll_bridge in H. done_inv. apply N.leb_gt in Heqb.
    destruct a0; done_inv; constructor; eauto using nat_to_u64_Ok.
  - unfold approve_kongswap in H. done_inv. destruct a; done_inv. constructor.
  - unfold swap_to_icp in H. done_inv. constructor. by eapply nat_to_u64_Ok.
  - unfold transfer_to_cmc in H. done_inv. destruct a; done_inv.
    constructor. by eapply nat_to_u64_Ok.
  - unfold mint_cycles in H. done_inv. destruct a; done_inv.
    constructor. by eapply nat_to_u128_Ok.
Qed.

(** ** [advance] *)

Definition failure_of (stage : TopUpStage.t) (error : string) (at_ns : N) : TopUpStage.t :=
  TopUpStage.Failed (TopUpStage.stage_name stage) error at_ns 0.

(** What [advance] stores: the stage it stops at, or the failure of the one
    whose handler failed. *)
Inductive advanced (stage : TopUpStage.t) : bool -> TopUpStage.t -> Prop :=
| advanced_waiting reached :
    rtc (pipeline config node_reports) stage reached -> TopUpStage.is_waiting reached = true ->
    advanced stage false reached
| advanced_done reached :
    rtc (pipeline config node_reports) stage reached -> TopUpStage.is_terminal reached = true ->
    advanced stage true reached
| advanced_failed reached error at_ns :
    rtc (pipeline config node_reports) stage reached -> advanced stage true (failure_of reached error at_ns).

Lemma advanced_step stage next answer final :
  pipeline config node_reports stage next -> advanced next answer final -> advanced stage answer final.
Proof.
  intros Hstep [reached Hsteps|reached Hsteps|reached error at_ns Hsteps].
  - apply advanced_waiting; [|done]. by eapply rtc_l.
  - apply advanced_done; [|done]. by eapply rtc_l.
  - apply advanced_failed. by eapply rtc_l.
Qed.

Lemma handle_stage_None stage :
  handle_stage config stage = None -> TopUpStage.is_terminal stage = true.
Proof. by destruct stage. Qed.

Context `{!StoragePortOk S}.

Lemma advance_loop_advanced fuel stage s answer s' :
  load_state s = Some stage -> advance_loop config fuel stage s = Done (Some answer) s' ->
  exists final, load_state s' = Some final /\ advanced stage answer final.
Proof.
  revert stage s. induction fuel as [|fuel IH]; intros stage s Hload H; [done|].
  simpl in H. destruct (handle_stage config stage) as [handler|] eqn:Hhandler.
  - run_inv H as next t Hrun. apply catch_Done in Hrun. destruct next as [next|error].
    + eapply handle_stage_pipeline in Hrun; [|exact Hhandler]. done_inv.
      destruct (TopUpStage.is_terminal next) eqn:Hterminal;
        [|destruct (TopUpStage.is_waiting next) eqn:Hwaiting].
      * done_inv. simplify_eq. exists next. split; [apply load_save|].
        eapply advanced_done; [|done]. by apply rtc_once.
      * done_inv. simplify_eq. exists next. split; [apply load_save|].
        eapply advanced_waiting; [|done]. by apply rtc_once.
      * apply IH in H as (final & Hfinal & Hadvanced); [|apply load_save].
        exists final. split; [done|]. by eapply advanced_step.
    + done_inv. simplify_eq. eexists. split; [apply load_save|].
      by apply advanced_failed.
  - done_inv. simplify_eq. exists stage. split; [done|].
    eapply advanced_done; [done|]. by apply handle_stage_None.
Qed.

(** C39 - the top-up follows its pipeline.  When [advance] returns from a stored
    stage, the stage it leaves stored was reached by steps of the pipeline
    relation: the answer is "not done" exactly at a waiting stage, and "done"
    at a completed one or at the recorded failure of the stage whose handler
    failed.  Along the way the USDC accounted for never changes after
    preflight, which chose it: it fits under the configured maximum and leaves
    the reserve of the balance that the node reported when it was asked for the
    USDC of the configured address.  With nothing stored, [advance]
    does nothing. *)
Theorem topup_follows_pipeline fuel s answer s'
    (Hadvance : advance config fuel s = Done (Some answer) s') :
  match load_state s with
  | None => answer = true /\ s' = s
  | Some stage => exists final,
      load_state s' = Some final /\ advanced stage answer final
      /\ (forall amount, committed final = Some amount ->
            match committed stage with
            | Some before => amount = before
            | None => TopUpStage.is_terminal stage = false ->
                (amount <= TopUpConfig.max_usdc_per_topup config)%N
                /\ exists balance, node_reports balance
                     /\ (amount + TopUpConfig.min_usdc_reserve config <= balance)%N
            end)
  end.
Proof.
  unfold advance in Hadvance. run_inv Hadvance as stored t Hrun. done_inv.
  destruct (load_state t) as [stage|] eqn:Hload; [|by done_inv; simplify_eq].
  destruct (advance_loop_advanced fuel stage t answer s') as (final & Hfinal & Hadvanced); [done..|].
  exists final. split_and!; [done..|]. intros amount Hamount.
  assert (Hreached : rtc (pipeline config node_reports) stage final) by (by inversion Hadvanced; subst).
  destruct (decide (stage = TopUpStage.Preflight)) as [->|Hpreflight].
  - intros _. apply rtc_inv in Hreached as [<-|(next & Hstep & Hreached)]; [done|].
    inversion Hstep as [balance chosen Hbalance Hspendable| | | | | | | | | | | | | |]; subst.
    apply pipeline_committed in Hreached; [|done].
    rewrite Hamount in Hreached. injection Hreached as ->.
    apply spendable_Ok in Hspendable as [? ?]. eauto.
  - apply pipeline_committed in Hreached; [|done]. rewrite <- Hreached, Hamount. done.
Qed.

(** ** Does [advance] return? *)

(** The loop returned, or the message trapped. *)
Definition settled (o : outcome S string (option bool)) : Prop := forall s', o <> Done None s'.

Lemma advance_loop_more fuel more stage s :
  settled (advance_loop config fuel stage s) ->
  advance_loop config (fuel + more) stage s = advance_loop config fuel stage s.
Proof.
  revert stage s. induction fuel as [|fuel IH]; intros stage s; [by intros []%(fun H => H s)|].
  simpl. destruct (handle_stage config stage) as [handler|]; [|done]. exec.
  destruct (handler s) as [next t|error t|]; [|done..].
  destruct (TopUpStage.is_terminal next); [done|].
  destruct (TopUpStage.is_waiting next); [done|]. apply IH.
Qed.

(** The bridge is patient with a measure of the state if each answer that it is
    still fetching uses the measure up. *)
Definition bridge_answers (measure : S -> nat) : Prop :=
  (forall args s height s',
     transfer_evm_to_icp (TopUpConfig.onesec_canister config) args s
     = Done (TransferResponse.Fetching height) s' -> measure s' < measure s)
  /\ (forall stage s, measure (save_state stage s) <= measure s).

Lemma advance_loop_settles measure stage s :
  bridge_answers measure -> exists fuel, settled (advance_loop config fuel stage s).
Proof.
  intros [Hfetching Hsave]. remember (stages_left stage) as left eqn:Hleft.
  revert stage Hleft s. induction left as [left IHleft] using lt_wf_ind. intros stage -> s.
  remember (measure s) as budget eqn:Hbudget. revert s Hbudget.
  induction budget as [budget IHbudget] using lt_wf_ind. intros s ->.
  destruct (handle_stage config stage) as [handler|] eqn:Hhandler;
    [|exists 1; simpl; by rewrite Hhandler].
  destruct (handler s) as [next t|error t|] eqn:Hrun;
    [|exists 1; simpl; rewrite Hhandler; exec; by rewrite Hrun..].
  destruct (TopUpStage.is_terminal next || TopUpStage.is_waiting next) eqn:Hstop.
  { exists 1. simpl. rewrite Hhandler. exec. rewrite Hrun.
    destruct (TopUpStage.is_terminal next); [done|]. simpl in Hstop. by rewrite Hstop. }
  apply orb_false_iff in Hstop as [Hterminal Hwaiting].
  assert (exists fuel, settled (advance_loop config fuel next (save_state next t))) as [fuel Hfuel].
  { pose proof (handle_stage_pipeline _ _ _ _ _ Hhandler Hrun) as Hstep.
    apply pipeline_progress in Hstep as [Hless|[[-> Hvalidating]|Hwait]]; [by eapply IHleft| |congruence].
    destruct stage; try discriminate Hvalidating. injection Hhandler as <-.
    apply validate_on_onesec_Done in Hrun as [[id ?]|[_ (args & height & Hcall)]]; [done|].
    eapply IHbudget; [|done]. apply Hfetching in Hcall. pose proof (Hsave (TopUpStage.ValidatingOnOnesec usdc_amount tx_hash) t). lia. }
  exists (Datatypes.S fuel). simpl. rewrite Hhandler. exec. by rewrite Hrun, Hterminal, Hwaiting.
Qed.

Lemma advance_loop_spins amount hash :
  (forall args s, exists height s',
     transfer_evm_to_icp (TopUpConfig.onesec_canister config) args s
     = Done (TransferResponse.Fetching height) s') ->
  is_ok (normalize_address (TopUpConfig.evm_address config)) = true ->
  is_ok (normalize_hex_blob hash "lock tx hash") = true ->
  forall fuel s, exists s',
    advance_loop config fuel (TopUpStage.ValidatingOnOnesec amount hash) s = Done None s'.
Proof.
  intros Hfetching Haddress Hhash fuel. induction fuel as [|fuel IH]; intros s; [by eexists|].
  destruct (normalize_address (TopUpConfig.evm_address config)) as [address|] eqn:Ha; [|done].
  destruct (normalize_hex_blob hash "lock tx hash") as [blob|] eqn:Hb; [|done].
  simpl. unfold validate_on_onesec. rewrite Ha, Hb. unfold call_transfer_evm_to_icp, ic_call. exec.
  unfold map_fail. match goal with |- context [transfer_evm_to_icp ?c ?args s] =>
    destruct (Hfetching args s) as (height & s' & Hcall) end.
  rewrite Hcall. simpl. apply IH.
Qed.

(** C40 - [advance] returns if the bridge does.  Whatever the node, the bridge
    and the ledgers answer or leave unanswered, [advance] is done after finitely
    many rounds, and more fuel changes nothing, provided the bridge does not
    answer "still fetching" without end: each such answer must use up a measure
    of the state.  The proviso is needed: validation is not a stage that waits
    for the next tick, so while the bridge keeps fetching, [advance] calls it
    again and again and never returns. *)
Theorem topup_advance_terminates :
  (forall measure s, bridge_answers measure ->
     exists fuel, settled (advance config fuel s)
       /\ forall more, advance config (fuel + more) s = advance config fuel s)
  /\ ((forall args s, exists height s',
         transfer_evm_to_icp (TopUpConfig.onesec_canister config) args s
         = Done (TransferResponse.Fetching height) s') ->
      is_ok (normalize_address (TopUpConfig.evm_address config)) = true ->
      forall s amount hash, load_state s = Some (TopUpStage.ValidatingOnOnesec amount hash) ->
        is_ok (normalize_hex_blob hash "lock tx hash") = true ->
        forall fuel, exists s', advance config fuel s = Done None s').
Proof.
  split.
  - intros measure s Hmeasure. unfold advance. exec.
    destruct (load_state s) as [stage|]; [|by exists 0].
    destruct (advance_loop_settles measure stage s Hmeasure) as [fuel Hfuel].
    exists fuel. split; [done|]. intros more. by apply advance_loop_more.
  - intros Hfetching Haddress s amount hash Hload Hhash fuel. unfold advance. exec.
    rewrite Hload. by apply advance_loop_spins.
Qed.
End TopUpCorrect.

(** ** Examples *)

(** ** What the machine leaves alone

    A pass of the machine keeps whatever its port, the canisters it calls and
    the store keep. *)

Section TopUpStable.
Context {S : Type} `{ext : Externals, json : Json, libs : !TopUpLibs}.
Context `{storage : !StoragePort S, platform : !TopUpPlatform S}.
Context (I : S -> Prop) (R : relation S) `{!PreOrder R}.

Class PlatformStable : Prop := {
  get_transfer_fees_stable : forall canister, stable I R (get_transfer_fees canister);
  transfer_evm_to_icp_stable : forall canister arg, stable I R (transfer_evm_to_icp canister arg);
  get_transfer_stable : forall canister id, stable I R (get_transfer canister id);
  icrc2_approve_stable : forall canister arg, stable I R (icrc2_approve canister arg);
  kong_swap_stable : forall canister args, stable I R (kong_swap canister args);
  icrc1_transfer_stable : forall canister arg, stable I R (icrc1_transfer canister arg);
  notify_top_up_stable : forall canister arg, stable I R (notify_top_up canister arg);
  save_state_stable : forall stage s, I s -> I (save_state stage s) /\ R s (save_state stage s);
  clear_state_stable : forall s, I s -> I (clear_state s) /\ R s (clear_state s);
}.

Class EvmPortStable (evm : EvmPort S) : Prop := {
  sign_message_stable : forall message, stable I R (sign_message message);
  evm_rpc_call_stable : forall method params, stable I R (evm_rpc_call method params);
}.

(** Through binds and branches to the calls. *)
Ltac stability :=
  repeat first
    [ solve [auto with stable]
    | apply stable_bind; [apply _| |intros ?]
    | apply stable_catch
    | match goal with |- stable _ _ (match ?x with _ => _ end) => destruct x end ].

Context `{!PlatformStable}.

Lemma stable_start : stable I R start.
Proof.
  unfold start. stability; apply stable_modify; apply save_state_stable.
Qed.

Lemma stable_reset : stable I R reset.
Proof.
  unfold reset. stability; apply stable_modify; apply clear_state_stable.
Qed.

Context `{evm : !EvmPort S, !EvmPortStable evm} (config : TopUpConfig.t).

#[local] Hint Resolve get_transfer_fees_stable transfer_evm_to_icp_stable get_transfer_stable
  icrc2_approve_stable kong_swap_stable icrc1_transfer_stable notify_top_up_stable
  sign_message_stable evm_rpc_call_stable : stable.

Lemma stable_evm_send_transaction to calldata :
  stable I R (evm_send_transaction config to calldata).
Proof.
  unfold evm_send_transaction, evm_nonce, evm_gas_price, evm_estimate_gas,
    evm_send_raw_transaction. stability.
Qed.

Lemma stable_ic_call {A} label (call : M S (string * string) A) :
  stable I R call -> stable I R (ic_call label call).
Proof. apply stable_map_fail. Qed.

#[local] Hint Resolve stable_evm_send_transaction stable_ic_call : stable.

Lemma stable_handle_stage stage handler :
  handle_stage config stage = Some handler -> stable I R handler.
Proof.
  intros Hhandler. destruct stage; try discriminate; apply (inj Some) in Hhandler as <-;
    unfold preflight, usdc_balance_of, approve_locker, poll_tx, receipt_confirmations, lock_usdc,
      validate_on_onesec, poll_bridge, approve_kongswap, swap_to_icp, transfer_to_cmc,
      mint_cycles, call_get_transfer_fees, call_transfer_evm_to_icp, call_get_transfer,
      call_icrc2_approve, call_kongswap_swap, call_icrc1_transfer, call_notify_top_up;
    stability.
Qed.

Lemma stable_advance fuel : stable I R (advance config fuel).
Proof.
  unfold advance. apply stable_bind; [apply _|auto with stable|]. intros [stage|];
    [|auto with stable].
  revert stage. induction fuel as [|fuel IH]; intros stage; simpl; [auto with stable|].
  destruct (handle_stage config stage) as [handler|] eqn:Hhandler; [|auto with stable].
  apply stable_bind; [apply _|by eapply stable_catch, stable_handle_stage|].
  intros [next|error]; (apply stable_bind; [apply _| |intros ?]).
  - apply stable_modify. apply save_state_stable.
  - destruct (TopUpStage.is_terminal next); [auto with stable|].
    destruct (TopUpStage.is_waiting next); [auto with stable|apply IH].
  - apply stable_modify. intros s Hs. by apply save_state_stable.
  - auto with stable.
Qed.

End TopUpStable.

Module TopUpSamples.
#[local] Existing Instance toy_externals.

#[local] Instance toy_json : Json := {
  Value := string;
  from_str := fun text => Ok text;
  as_object := fun _ => None;
  as_str := fun text => Some text;
  as_u64 := fun _ => None;
  from_object := fun _ => "{}";
  from_u64 := fun n => pretty n;
  to_json_string := fun text => Ok text;
}.

#[local] Instance toy_libs : TopUpLibs := {
  rlp_header := fun is_list len => rlp_encode_length_prefix len (if is_list then 192 else 128)%N;
  rlp_uint := fun n => rlp_encode_bytes (minimal n);
  rlp_address := rlp_encode_bytes;
  rlp_data := rlp_encode_bytes;
  rlp_uint_length := fun n => N.of_nat (length (rlp_encode_bytes (minimal n)));
  rlp_address_length := fun bytes => N.of_nat (length (rlp_encode_bytes bytes));
  rlp_data_length := fun bytes => N.of_nat (length (rlp_encode_bytes bytes));
  address_from_str := fun text => ok_or (decode_hex_pairs (trim_start_0x text)) "bad address";
  null := "null";
  is_null := fun value => bool_decide (value = "null");
  value_to_string := fun value => value;
  principal_as_slice := as_bytes;
  hex_decode := fun text => ok_or (decode_hex_pairs text) "bad hex";
  parse_int_overflow := "number too large to fit in target type";
  debug_approve_error := fun _ => "error";
  debug_transfer_error := fun _ => "error";
  debug_notify_error := fun _ => "error";
}.

(** The stored stage and how often the bridge still answers "fetching". *)
Module Store.
Record t := mk {
  stage : option TopUpStage.t;
  fetching : nat;
}.
End Store.

#[local] Instance sample_storage : StoragePort Store.t := {
  load_state := Store.stage;
  save_state := fun stage s => Store.mk (Some stage) (Store.fetching s);
  clear_state := fun s => Store.mk None (Store.fetching s);
}.

#[local] Instance sample_storage_ok : StoragePortOk Store.t.
Proof. split; done. Qed.

Definition signature : list byte := replicate 64 x11.
Definition address : string := "0x" +:+ hex_encode (replicate 20 x11).

(** A node that reports 100 USDC, nonce 7 and a gas price, and accepts every
    transaction. *)
#[local] Instance sample_evm : EvmPort Store.t := {
  sign_message := fun _ => mret (hex_encode_prefixed signature);
  evm_rpc_call := fun method _ => mret (
    if bool_decide (method = "eth_call") then "0x5f5e100"
    else if bool_decide (method = "eth_sendRawTransaction") then hex_encode_prefixed (replicate 32 x07)
    else "0x7");
}.

#[local] Instance sample_platform : TopUpPlatform Store.t := {
  current_canister_id := "aaaaa-aa";
  current_cycle_balance128 := fun _ => (10 ^ 12)%N;
  current_time_ns := fun _ => 1000%N;
  get_transfer_fees := fun _ =>
    mret [TransferFee.mk Token.USDC EvmChain.Base 1000000 1000000000];
  transfer_evm_to_icp := fun _ _ s =>
    match Store.fetching s with
    | O => Done (TransferResponse.Accepted (TransferId.mk 5)) s
    | Datatypes.S later =>
        Done (TransferResponse.Fetching 1) (Store.mk (Store.stage s) later)
    end;
  get_transfer := fun _ _ => mret (BridgeTransferStatus.Succeeded 49000000);
  icrc2_approve := fun _ _ => mret (Ok 1%N);
  kong_swap := fun _ _ =>
    mret (Ok (SwapReply.mk 1 1 "Success" "USDC" 49000000 "ICP" 700000000 0%N 0%N 0%N [] 0));
  icrc1_transfer := fun _ _ => mret (Ok 9%N);
  notify_top_up := fun _ _ => mret (Ok 5000000000000%N);
}.

(** The bridge never gets past fetching. *)
Definition stuck_platform : TopUpPlatform Store.t := {|
  current_canister_id := "aaaaa-aa";
  current_cycle_balance128 := fun _ => (10 ^ 12)%N;
  current_time_ns := fun _ => 1000%N;
  get_transfer_fees := fun _ => mret [];
  transfer_evm_to_icp := fun _ _ => mret (TransferResponse.Fetching 1);
  get_transfer := fun _ _ => mret BridgeTransferStatus.Fetching;
  icrc2_approve := fun _ _ => mret (Ok 1%N);
  kong_swap := fun _ _ => mret (Err "no");
  icrc1_transfer := fun _ _ => mret (Ok 9%N);
  notify_top_up := fun _ _ => mret (Ok 0%N);
|}.

Definition config : TopUpConfig.t := TopUpConfig.default <| TopUpConfig.evm_address := address |>.
Definition tx_hash : string := hex_encode_prefixed (replicate 32 x07).
Definition fresh : Store.t := Store.mk (Some TopUpStage.Preflight) 0.
Definition approving : Store.t :=
  Store.mk (Some (TopUpStage.WaitingApprovalConfirmation 50000000 tx_hash)) 0.
Definition validating (fetching : nat) : Store.t :=
  Store.mk (Some (TopUpStage.ValidatingOnOnesec 50000000 tx_hash)) fetching.
Definition bridging : Store.t :=
  Store.mk (Some (TopUpStage.WaitingForBridgedUSDC 50000000 5 0)) 0.
Definition minted : Store.t :=
  Store.mk (Some (TopUpStage.Completed 5000000000000 50000000 1000)) 0.

Example preflight_run : advance config 11 fresh = Done (Some false) approving.
Proof. vm_compute. reflexivity. Qed.

Example validating_run : advance config 11 (validating 3) = Done (Some false) bridging.
Proof. vm_compute. reflexivity. Qed.

Example bridging_run : advance config 11 bridging = Done (Some true) minted.
Proof. vm_compute. reflexivity. Qed.

Lemma topup_follows_pipeline_witness :
  exists final, Store.stage approving = Some final
    /\ advanced config TopUpStage.Preflight false final
    /\ exists balance, node_reports config balance
         /\ (50000000 + TopUpConfig.min_usdc_reserve config <= balance)%N.
Proof.
  pose proof (topup_follows_pipeline config 11 fresh false approving preflight_run) as H.
  destruct H as (final & Hfinal & Hadvanced & Hcommitted). exists final.
  split; [exact Hfinal|]. split; [exact Hadvanced|]. injection Hfinal as <-.
  destruct (Hcommitted 50000000%N eq_refl eq_refl) as [_ Hreserve]. exact Hreserve.
Defined.

Lemma topup_advance_terminates_witness :
  (exists fuel, settled (advance config fuel (validating 3)))
  /\ forall fuel, exists s',
       advance (platform := stuck_platform) config fuel (validating 0) = Done None s'.
Proof.
  split.
  - destruct (proj1 (topup_advance_terminates config) Store.fetching (validating 3)) as (fuel & Hfuel & _).
    + split; [|done]. intros args s height s'. simpl. destruct (Store.fetching s) eqn:Hs; [done|].
      intros [= _ <-]. simpl. lia.
    + by exists fuel.
  - apply (proj2 (topup_advance_terminates (platform := stuck_platform) config) ltac:(eauto) eq_refl
      (validating 0) 50000000%N tx_hash eq_refl). vm_compute. reflexivity.
Defined.
End TopUpSamples.
