(* ===== verification/AgentStore.v ===== *)
(** * AgentStore: the automaton's scheduler state

    Models the part of [components/ic-automaton/src/storage] that the scheduler
    works on: of [sqlite.rs] the hot-state cache, the job table and its
    queries, the scalars; of [stable.rs] the task schedules, the job queue with
    the mutating lease, the survival tier and back-offs, mortality and the turn
    lock.  Statements on the database are taken to succeed, so the cache and
    the tables agree.  What SQL leaves open - which row [LIMIT 1] yields, what
    [LIKE] matches inside a payload - is the class [SqlRows].  Functions that
    cannot fail are functions on the state; log output and returned status
    texts are left out. *)

From S2P Require Import Prelude Text SpawnProtocol Types AgentTypes AgentDomain TopUpTypes TopUp.

(** ** [sqlite.rs] *)

Module SurvivalOperationRuntimeRecord.
Record t := mk {
  consecutive_failures : N;
  backoff_until_ns : option N;
}.
#[global] Instance eq_dec : EqDecision t.
Proof. solve_decision. Defined.
#[global] Instance eta_t : Eta t := fun self => mk (consecutive_failures self) (backoff_until_ns self).
Definition default : t := mk 0 None.
End SurvivalOperationRuntimeRecord.

(** [HotStateCache], the [jobs] and [runtime_scalars] tables, and the time of
    the message being executed. *)
Module Agent.
Record t := mk {
  clock : N;
  runtime_snapshot : option RuntimeSnapshot.t;
  scheduler_runtime : option SchedulerRuntime.t;
  task_configs : gmap string TaskScheduleConfig.t;
  task_runtimes : gmap string TaskScheduleRuntime.t;
  topup_state : option TopUpStage.t;
  survival_runtime : gmap string SurvivalOperationRuntimeRecord.t;
  jobs : gmap string ScheduledJob.t;
  runtime_scalars : gmap string string;
}.
#[global] Instance eta_t : Eta t := fun self =>
  mk (clock self) (runtime_snapshot self) (scheduler_runtime self) (task_configs self)
    (task_runtimes self) (topup_state self) (survival_runtime self) (jobs self)
    (runtime_scalars self).
End Agent.

(** [u64 as i64]. *)
Definition as_i64 (n : N) : Z :=
  if (n <? 2 ^ 63)%N then Z.of_N n else (Z.of_N n - 2 ^ 64)%Z.

(** [format!("{status:?}")], the text of the [status] column. *)
Definition status_text (status : JobStatus.t) : string :=
  match status with
  | JobStatus.Pending => "Pending"
  | JobStatus.InFlight => "InFlight"
  | JobStatus.Succeeded => "Succeeded"
  | JobStatus.Failed => "Failed"
  | JobStatus.TimedOut => "TimedOut"
  | JobStatus.Skipped => "Skipped"
  end.

(** [payload_like job key]: the JSON of [job] matches
    [%"dedupe_key":"key"%] under [LIKE].  [select_one rows]: the row a query
    with these matching rows and [LIMIT 1] yields. *)
Class SqlRows := {
  payload_like : ScheduledJob.t -> string -> bool;
  select_one : list ScheduledJob.t -> option ScheduledJob.t;
}.

(** A key that JSON writes as it is. *)
Definition plain_key (key : string) : bool :=
  forallb (fun a => is_plain a && bool_decide (byte_of a <> 34%N)
                    && bool_decide (byte_of a <> 92%N)) (str_bytes key).

Class SqlRowsOk `(rows : SqlRows) : Prop := {
  select_one_Some : forall jobs job, select_one jobs = Some job -> job ∈ jobs;
  select_one_None : forall jobs, select_one jobs = None -> jobs = [];
  payload_like_key : forall job, plain_key (ScheduledJob.dedupe_key job) = true ->
    payload_like job (ScheduledJob.dedupe_key job) = true;
}.

Definition upsert_job (job : ScheduledJob.t) (s : Agent.t) : Agent.t :=
  s <| Agent.jobs ::= <[ScheduledJob.id job := job]> |>.

Definition get_job (id : string) (s : Agent.t) : option ScheduledJob.t := Agent.jobs s !! id.

Definition delete_job (id : string) (s : Agent.t) : Agent.t := s <| Agent.jobs ::= delete id |>.

(** The rows of the table that satisfy a condition. *)
Definition rows_where (condition : ScheduledJob.t -> bool) (s : Agent.t) : list ScheduledJob.t :=
  filter condition (map_to_list (Agent.jobs s)).*2.

Section SqlQueries.
Context `{sql : SqlRows}.

Definition find_job_by_dedupe_key (dedupe_key : string) (s : Agent.t) : option ScheduledJob.t :=
  let active job := bool_decide (status_text (ScheduledJob.status job) = "Pending")
    || bool_decide (status_text (ScheduledJob.status job) = "Running") in
  job ← select_one (rows_where (fun job => payload_like job dedupe_key && active job) s);
  if bool_decide (ScheduledJob.dedupe_key job = dedupe_key) then Some job else None.

(** [ORDER BY priority ASC, created_at_ns ASC]. *)
Definition runs_before (job job' : ScheduledJob.t) : bool :=
  (ScheduledJob.priority job <? ScheduledJob.priority job')%N
  || (ScheduledJob.priority job =? ScheduledJob.priority job')%N
     && (as_i64 (ScheduledJob.created_at_ns job) <=? as_i64 (ScheduledJob.created_at_ns job'))%Z.

Definition runnable (lane : string) (now_ns : N) (job : ScheduledJob.t) : bool :=
  bool_decide (status_text (ScheduledJob.status job) = "Pending")
  && bool_decide (TaskLane.as_str (ScheduledJob.lane job) = lane)
  && (as_i64 (ScheduledJob.scheduled_for_ns job) <=? as_i64 now_ns)%Z.

Definition select_next_pending_job (lane : string) (now_ns : N) (s : Agent.t)
    : option ScheduledJob.t :=
  let rows := rows_where (runnable lane now_ns) s in
  select_one (filter (fun job => forallb (runs_before job) rows) rows).
End SqlQueries.

Definition get_runtime_scalar (key : string) (s : Agent.t) : option string :=
  Agent.runtime_scalars s !! key.
Definition set_runtime_scalar (key value : string) (s : Agent.t) : Agent.t :=
  s <| Agent.runtime_scalars ::= <[key := value]> |>.

(** [read_task_config] and [read_task_runtime]. *)
Definition get_task_config (kind : TaskKind.t) (s : Agent.t) : option TaskScheduleConfig.t :=
  Agent.task_configs s !! TaskKind.as_str kind.
Definition upsert_task_config (config : TaskScheduleConfig.t) (s : Agent.t) : Agent.t :=
  s <| Agent.task_configs ::= <[TaskKind.as_str (TaskScheduleConfig.kind config) := config]> |>.
Definition get_task_runtime_if_any (kind : TaskKind.t) (s : Agent.t)
    : option TaskScheduleRuntime.t :=
  Agent.task_runtimes s !! TaskKind.as_str kind.
Definition save_task_runtime (kind : TaskKind.t) (runtime : TaskScheduleRuntime.t) (s : Agent.t)
    : Agent.t :=
  s <| Agent.task_runtimes ::= <[TaskKind.as_str kind := runtime]> |>.

(** [sort_by_key] on the priority and a name. *)
Definition schedule_le (name : TaskKind.t * TaskScheduleConfig.t -> string)
    : relation (TaskKind.t * TaskScheduleConfig.t) := fun p q =>
  (TaskScheduleConfig.priority p.2 < TaskScheduleConfig.priority q.2)%N
  \/ TaskScheduleConfig.priority p.2 = TaskScheduleConfig.priority q.2
     /\ key_le (name p) (name q).

#[export] Instance schedule_le_dec name : RelDecision (schedule_le name).
Proof. intros p q. unfold schedule_le, key_le, string_key_order. apply _. Defined.

Definition list_task_configs (s : Agent.t) : list (TaskKind.t * TaskScheduleConfig.t) :=
  let parsed := omap (fun '(kind_key, config) =>
    (fun kind => (kind, config)) <$> TaskKind.from_str kind_key) (btree_iter (Agent.task_configs s)) in
  merge_sort (schedule_le (fun p => TaskKind.as_str p.1)) parsed.

Definition get_survival_operation_runtime (operation : SurvivalOperationClass.t) (s : Agent.t)
    : SurvivalOperationRuntimeRecord.t :=
  default SurvivalOperationRuntimeRecord.default
    (Agent.survival_runtime s !! SurvivalOperationClass.as_str operation).
Definition set_survival_operation_runtime (operation : SurvivalOperationClass.t)
    (runtime : SurvivalOperationRuntimeRecord.t) (s : Agent.t) : Agent.t :=
  s <| Agent.survival_runtime ::= <[SurvivalOperationClass.as_str operation := runtime]> |>.

(** The top-up's store is the cell of the cache. *)
#[export] Instance agent_storage_port : StoragePort Agent.t := {
  load_state := Agent.topup_state;
  save_state := fun stage s => s <| Agent.topup_state := Some stage |>;
  clear_state := fun s => s <| Agent.topup_state := None |>;
}.
#[export] Instance agent_storage_port_ok : StoragePortOk Agent.t.
Proof. split; done. Qed.

(** ** [stable.rs]: snapshots and the scheduler's runtime *)

Definition runtime_snapshot (s : Agent.t) : RuntimeSnapshot.t :=
  default RuntimeSnapshot.default (Agent.runtime_snapshot s).
Definition save_runtime_snapshot (snapshot : RuntimeSnapshot.t) (s : Agent.t) : Agent.t :=
  s <| Agent.runtime_snapshot := Some snapshot |>.

Definition scheduler_runtime (s : Agent.t) : SchedulerRuntime.t :=
  default SchedulerRuntime.default (Agent.scheduler_runtime s).
Definition save_scheduler_runtime (runtime : SchedulerRuntime.t) (s : Agent.t) : Agent.t :=
  s <| Agent.scheduler_runtime := Some runtime |>.

(** [let mut x = ...(); <change>; save(&x)]. *)
Definition update_snapshot (change : RuntimeSnapshot.t -> RuntimeSnapshot.t) (s : Agent.t)
    : Agent.t := save_runtime_snapshot (change (runtime_snapshot s)) s.
Definition update_scheduler (change : SchedulerRuntime.t -> SchedulerRuntime.t) (s : Agent.t)
    : Agent.t := save_scheduler_runtime (change (scheduler_runtime s)) s.

(** ** Task schedules *)

Definition CADENCE_MULTIPLIER_KEY : string := "timing.cadence_multiplier".
Definition SCHEDULER_BASE_TICK_SECS_KEY : string := "timing.scheduler_base_tick_secs".
Definition MIN_SCHEDULER_BASE_TICK_SECS : N := 1.
Definition MAX_SCHEDULER_BASE_TICK_SECS : N := 3600.

(** [secs.saturating_mul(1_000_000_000)]. *)
Definition secs_to_ns (secs : N) : N := saturating_mul 64 secs 1000000000.

Definition idle_task_runtime (kind : TaskKind.t) (next_due_ns : N) : TaskScheduleRuntime.t := {|
  TaskScheduleRuntime.kind := kind;
  TaskScheduleRuntime.next_due_ns := next_due_ns;
  TaskScheduleRuntime.backoff_until_ns := None;
  TaskScheduleRuntime.consecutive_failures := 0;
  TaskScheduleRuntime.pending_job_id := None;
  TaskScheduleRuntime.last_started_ns := None;
  TaskScheduleRuntime.last_finished_ns := None;
  TaskScheduleRuntime.last_error := None;
|}.

Definition get_task_runtime (kind : TaskKind.t) (s : Agent.t) : TaskScheduleRuntime.t :=
  default (idle_task_runtime kind
             (saturating_add 64 (Agent.clock s) (secs_to_ns (TaskKind.default_interval_secs kind))))
    (get_task_runtime_if_any kind s).

Definition task_config (kind : TaskKind.t) (s : Agent.t) : TaskScheduleConfig.t :=
  default (TaskScheduleConfig.default_for kind) (get_task_config kind s).

Definition set_task_interval_secs (kind : TaskKind.t) (interval_secs : N) (s : Agent.t)
    : result string Agent.t :=
  err_if (interval_secs =? 0)%N "interval_secs must be greater than 0";;
  let s := upsert_task_config
    (task_config kind s <| TaskScheduleConfig.interval_secs := interval_secs |>) s in
  Ok (save_task_runtime kind
        (get_task_runtime kind s <| TaskScheduleRuntime.next_due_ns :=
           saturating_add 64 (Agent.clock s) (secs_to_ns interval_secs) |>) s).

Definition get_scheduler_base_tick_secs (s : Agent.t) : N :=
  default SCHEDULER_TICK_INTERVAL_SECS
    (get_runtime_scalar SCHEDULER_BASE_TICK_SECS_KEY s ≫= parse_uint 64).

Definition set_scheduler_base_tick_secs (interval_secs : N) (s : Agent.t)
    : result string (N * Agent.t) :=
  err_if (negb ((MIN_SCHEDULER_BASE_TICK_SECS <=? interval_secs)%N
                && (interval_secs <=? MAX_SCHEDULER_BASE_TICK_SECS)%N))
    ("scheduler_base_tick_secs must be in range " +:+ pretty MIN_SCHEDULER_BASE_TICK_SECS
     +:+ "..=" +:+ pretty MAX_SCHEDULER_BASE_TICK_SECS);;
  Ok (interval_secs, set_runtime_scalar SCHEDULER_BASE_TICK_SECS_KEY (pretty interval_secs) s).

Definition get_cadence_multiplier (s : Agent.t) : N :=
  default TICKS_PER_TURN_INTERVAL (get_runtime_scalar CADENCE_MULTIPLIER_KEY s ≫= parse_uint 64).

(** The errors of [set_task_interval_secs] are dropped. *)
Definition set_each_interval (interval_secs : N) (s : Agent.t) : Agent.t :=
  fold_left (fun s kind =>
    match set_task_interval_secs kind interval_secs s with Ok s' => s' | Err _ => s end)
    TaskKind.all s.

Definition set_cadence_multiplier (multiplier : N) (s : Agent.t) : N * Agent.t :=
  let clamped := clamp multiplier MIN_CADENCE_MULTIPLIER MAX_CADENCE_MULTIPLIER in
  let s := set_runtime_scalar CADENCE_MULTIPLIER_KEY (pretty clamped) s in
  (clamped, set_each_interval (task_interval_for_multiplier clamped) s).

Definition clear_pending_job_for_disabled_task (kind : TaskKind.t) (s : Agent.t) : Agent.t :=
  match get_task_runtime_if_any kind s with
  | None => s
  | Some runtime =>
      let cleared := runtime <| TaskScheduleRuntime.pending_job_id := None |> in
      match TaskScheduleRuntime.pending_job_id runtime with
      | None => s
      | Some job_id =>
          match get_job job_id s with
          | None => save_task_runtime kind cleared s
          | Some job =>
              if bool_decide (ScheduledJob.status job <> JobStatus.Pending) then s
              else save_task_runtime kind cleared (delete_job job_id s)
          end
      end
  end.

Definition set_task_enabled (kind : TaskKind.t) (enabled : bool) (s : Agent.t) : Agent.t :=
  let s := upsert_task_config (task_config kind s <| TaskScheduleConfig.enabled := enabled |>) s in
  if enabled then s else clear_pending_job_for_disabled_task kind s.

Definition init_task (now_ns : N) (s : Agent.t) (kind : TaskKind.t) : Agent.t :=
  let s := if is_some (get_task_config kind s) then s
           else upsert_task_config (TaskScheduleConfig.default_for kind) s in
  if is_some (get_task_runtime_if_any kind s) then s
  else
    let next_due_ns :=
      if bool_decide (kind = TaskKind.PollInbox) then now_ns
      else saturating_add 64 now_ns (secs_to_ns (TaskKind.default_interval_secs kind)) in
    save_task_runtime kind (idle_task_runtime kind next_due_ns) s.

Definition init_scheduler_defaults (now_ns : N) (s : Agent.t) : Agent.t :=
  let s := if is_some (Agent.scheduler_runtime s) then s
           else save_scheduler_runtime SchedulerRuntime.default s in
  let s := if is_some (get_runtime_scalar SCHEDULER_BASE_TICK_SECS_KEY s) then s
           else set_runtime_scalar SCHEDULER_BASE_TICK_SECS_KEY
                  (pretty SCHEDULER_TICK_INTERVAL_SECS) s in
  fold_left (init_task now_ns) TaskKind.all s.

(** ** The survival tier and back-offs *)

Definition SURVIVAL_TIER_RECOVERY_CHECKS_REQUIRED : N := 3.

Definition set_scheduler_enabled (enabled : bool) (s : Agent.t) : Agent.t :=
  update_scheduler (fun runtime =>
    runtime <| SchedulerRuntime.enabled := enabled |>
            <| SchedulerRuntime.paused_reason := if enabled then None else Some "disabled" |>) s.

Definition set_scheduler_low_cycles_mode (enabled : bool) (s : Agent.t) : Agent.t :=
  update_scheduler (fun runtime =>
    runtime <| SchedulerRuntime.low_cycles_mode := enabled |>
            <| SchedulerRuntime.survival_tier :=
                 if enabled then SurvivalTier.LowCycles else SurvivalTier.Normal |>
            <| SchedulerRuntime.survival_tier_recovery_checks := 0%N |>
            <| SchedulerRuntime.paused_reason := if enabled then Some "low_cycles" else None |>) s.

Definition next_survival_tier_with_recovery (current : SurvivalTier.t) (current_checks : N)
    (observed : SurvivalTier.t) : SurvivalTier.t * N :=
  match observed with
  | SurvivalTier.Normal =>
      if bool_decide (current = SurvivalTier.Normal)
         || (SURVIVAL_TIER_RECOVERY_CHECKS_REQUIRED <=? saturating_add 32 current_checks 1)%N
      then (SurvivalTier.Normal, 0%N)
      else (current, saturating_add 32 current_checks 1)
  | _ => (observed, 0%N)
  end.

Definition set_scheduler_survival_tier (observed_tier : SurvivalTier.t) (s : Agent.t) : Agent.t :=
  let runtime := scheduler_runtime s in
  let '(tier, checks) := next_survival_tier_with_recovery (SchedulerRuntime.survival_tier runtime)
    (SchedulerRuntime.survival_tier_recovery_checks runtime) observed_tier in
  let low_cycles := bool_decide (tier <> SurvivalTier.Normal) in
  let paused_reason := if low_cycles then Some "low_cycles" else None in
  if bool_decide (tier = SchedulerRuntime.survival_tier runtime)
     && (checks =? SchedulerRuntime.survival_tier_recovery_checks runtime)%N
     && Bool.eqb (SchedulerRuntime.low_cycles_mode runtime) low_cycles
     && bool_decide (SchedulerRuntime.paused_reason runtime = paused_reason)
  then s
  else save_scheduler_runtime
         (runtime <| SchedulerRuntime.survival_tier := tier |>
                  <| SchedulerRuntime.survival_tier_recovery_checks := checks |>
                  <| SchedulerRuntime.low_cycles_mode := low_cycles |>
                  <| SchedulerRuntime.paused_reason := paused_reason |>) s.

Definition scheduler_low_cycles_mode (s : Agent.t) : bool :=
  SchedulerRuntime.low_cycles_mode (scheduler_runtime s).
Definition scheduler_survival_tier (s : Agent.t) : SurvivalTier.t :=
  SchedulerRuntime.survival_tier (scheduler_runtime s).
Definition scheduler_enabled (s : Agent.t) : bool := SchedulerRuntime.enabled (scheduler_runtime s).

Definition survival_operation_backoff_secs (failures max_backoff_secs : N) : N :=
  N.min (shl_or_max (N.min failures 20)) (N.max max_backoff_secs 1).

Definition survival_operation_allows_in_tier (tier : SurvivalTier.t)
    (operation : SurvivalOperationClass.t) : bool :=
  match tier, operation with
  | SurvivalTier.Critical, _ | SurvivalTier.OutOfCycles, _
  | SurvivalTier.LowCycles, SurvivalOperationClass.ThresholdSign
  | SurvivalTier.LowCycles, SurvivalOperationClass.EvmBroadcast => false
  | _, _ => true
  end.

Definition can_run_survival_operation (operation : SurvivalOperationClass.t) (now_ns : N)
    (s : Agent.t) : bool :=
  if negb (survival_operation_allows_in_tier (scheduler_survival_tier s) operation) then false
  else is_none_or (fun until => (until <=? now_ns)%N)
         (SurvivalOperationRuntimeRecord.backoff_until_ns
            (get_survival_operation_runtime operation s)).

Definition record_survival_operation_failure (operation : SurvivalOperationClass.t)
    (now_ns max_backoff_secs : N) (s : Agent.t) : Agent.t :=
  let runtime := get_survival_operation_runtime operation s in
  let failures := saturating_add 32 (SurvivalOperationRuntimeRecord.consecutive_failures runtime) 1 in
  let backoff_ns := secs_to_ns (survival_operation_backoff_secs failures max_backoff_secs) in
  let until := default (max_uint 64) (checked_add 64 now_ns backoff_ns) in
  set_survival_operation_runtime operation
    (SurvivalOperationRuntimeRecord.mk failures (Some until)) s.

Definition record_survival_operation_success (operation : SurvivalOperationClass.t) (s : Agent.t)
    : Agent.t :=
  let runtime := get_survival_operation_runtime operation s in
  if (SurvivalOperationRuntimeRecord.consecutive_failures runtime =? 0)%N
     && negb (is_some (SurvivalOperationRuntimeRecord.backoff_until_ns runtime))
  then s
  else set_survival_operation_runtime operation SurvivalOperationRuntimeRecord.default s.

(** ** Ticks and turns *)

Definition record_scheduler_tick_start (now_ns : N) (s : Agent.t) : Agent.t :=
  update_scheduler (fun runtime =>
    runtime <| SchedulerRuntime.last_tick_started_ns := now_ns |>
            <| SchedulerRuntime.last_tick_error := None |>) s.

Definition record_scheduler_tick_end (now_ns : N) (error : option string) (s : Agent.t) : Agent.t :=
  update_scheduler (fun runtime =>
    runtime <| SchedulerRuntime.last_tick_finished_ns := now_ns |>
            <| SchedulerRuntime.last_tick_error := error |>) s.

Definition set_loop_enabled (enabled : bool) (s : Agent.t) : Agent.t :=
  update_snapshot (fun snapshot => snapshot <| RuntimeSnapshot.loop_enabled := enabled |>) s.

Definition increment_turn_counter (s : Agent.t) : RuntimeSnapshot.t * Agent.t :=
  let snapshot := runtime_snapshot s in
  let counter := saturating_add 64 (RuntimeSnapshot.turn_counter snapshot) 1 in
  let snapshot :=
    snapshot <| RuntimeSnapshot.turn_counter := counter |>
             <| RuntimeSnapshot.turn_in_flight := true |>
             <| RuntimeSnapshot.last_turn_id := Some ("turn-" +:+ pretty counter) |>
             <| RuntimeSnapshot.last_error := None |>
             <| RuntimeSnapshot.last_transition_at_ns := Agent.clock s |> in
  (snapshot, save_runtime_snapshot snapshot s).

Definition complete_turn (turn_id : string) (state : AgentState.t) (error : option string)
    (s : Agent.t) : Agent.t :=
  if bool_decide (RuntimeSnapshot.last_turn_id (runtime_snapshot s) <> Some turn_id) then s
  else update_snapshot (fun snapshot =>
    snapshot <| RuntimeSnapshot.turn_in_flight := false |>
             <| RuntimeSnapshot.state := state |>
             <| RuntimeSnapshot.last_error := error |>
             <| RuntimeSnapshot.last_transition_at_ns := Agent.clock s |>) s.

(** ** Mortality *)

Definition mortality_runtime (s : Agent.t) : MortalityRuntime.t :=
  RuntimeSnapshot.mortality (runtime_snapshot s).
Definition mortality_phase (s : Agent.t) : MortalityPhase.t :=
  MortalityRuntime.phase (mortality_runtime s).
Definition terminal_turn_in_progress (s : Agent.t) : bool :=
  bool_decide (mortality_phase s = MortalityPhase.TerminalInProgress).
Definition mortality_is_dead (s : Agent.t) : bool :=
  bool_decide (mortality_phase s = MortalityPhase.Dead).
Definition operation_reserve_floor_cycles (s : Agent.t) : N :=
  if terminal_turn_in_progress s then 0
  else MortalityRuntime.terminal_budget_reserved_cycles (mortality_runtime s).

(** [snapshot.mortality] after an observation. *)
Definition observed_mortality (liquid_cycles : N) (runway_seconds : option N) (now_ns : N)
    (mortality : MortalityRuntime.t) : MortalityRuntime.t :=
  let mortality := observe_tier (mortality <| MortalityRuntime.runway_seconds := runway_seconds |>)
    (tier_for_resources liquid_cycles runway_seconds) in
  if bool_decide (MortalityRuntime.tier mortality = MortalityTier.Terminal)
     && bool_decide (MortalityRuntime.phase mortality = MortalityPhase.Alive)
  then mortality <| MortalityRuntime.phase := MortalityPhase.TerminalPending |>
                 <| MortalityRuntime.terminal_started_at_ns := Some now_ns |>
  else mortality.

Definition observe_mortality_resources (liquid_cycles : N) (runway_seconds : option N) (now_ns : N)
    (s : Agent.t) : MortalityRuntime.t * Agent.t :=
  let snapshot := runtime_snapshot s in
  if mortality_is_dead s then (RuntimeSnapshot.mortality snapshot, s)
  else
    let mortality := observed_mortality liquid_cycles runway_seconds now_ns
      (RuntimeSnapshot.mortality snapshot) in
    let policy := policy_for_tier (MortalityRuntime.tier mortality) in
    let s := (set_cadence_multiplier (MortalityTierPolicy.cadence_multiplier policy) s).2 in
    (mortality, save_runtime_snapshot
       (snapshot <| RuntimeSnapshot.mortality := mortality |>
                 <| RuntimeSnapshot.openrouter_reasoning_level :=
                      MortalityTierPolicy.reasoning_level policy |>
                 <| RuntimeSnapshot.last_transition_at_ns := now_ns |>) s).

(** [format!("{phase:?}")]. *)
Definition phase_text (phase : MortalityPhase.t) : string :=
  match phase with
  | MortalityPhase.Alive => "Alive"
  | MortalityPhase.TerminalPending => "TerminalPending"
  | MortalityPhase.TerminalInProgress => "TerminalInProgress"
  | MortalityPhase.Dead => "Dead"
  end.

(** Both halves of the terminal turn close the scheduler. *)
Definition close_scheduler (reason : string) (s : Agent.t) : Agent.t :=
  update_scheduler (fun runtime =>
    runtime <| SchedulerRuntime.enabled := false |>
            <| SchedulerRuntime.paused_reason := Some reason |>) s.

Definition begin_terminal_turn (turn_id : string) (now_ns : N) (s : Agent.t)
    : result string Agent.t :=
  err_if (bool_decide (mortality_phase s <> MortalityPhase.TerminalPending))
    ("terminal turn cannot begin from " +:+ phase_text (mortality_phase s));;
  Ok (close_scheduler "terminal-turn-in-progress"
        (update_snapshot (fun snapshot =>
           snapshot <| RuntimeSnapshot.mortality ::= fun mortality =>
             mortality <| MortalityRuntime.phase := MortalityPhase.TerminalInProgress |>
                       <| MortalityRuntime.terminal_turn_id := Some turn_id |>
                       <| MortalityRuntime.terminal_started_at_ns := Some now_ns |> |>
                    <| RuntimeSnapshot.loop_enabled := false |>) s)).

Definition complete_terminal_turn (turn_id : string) (bequest_count now_ns : N) (s : Agent.t)
    : result string Agent.t :=
  err_if (bool_decide (mortality_phase s <> MortalityPhase.TerminalInProgress)
          || bool_decide (MortalityRuntime.terminal_turn_id (mortality_runtime s) <> Some turn_id))
    "terminal completion does not match the single in-progress terminal turn";;
  Ok (close_scheduler "dead:starved"
        (update_snapshot (fun snapshot =>
           snapshot <| RuntimeSnapshot.mortality ::= fun mortality =>
             mortality <| MortalityRuntime.phase := MortalityPhase.Dead |>
                       <| MortalityRuntime.tier := MortalityTier.Dead |>
                       <| MortalityRuntime.died_at_ns := Some now_ns |>
                       <| MortalityRuntime.death_cause := Some "starved" |>
                       <| MortalityRuntime.terminal_bequest_count :=
                            N.min bequest_count (max_uint 8) |>
                       <| MortalityRuntime.estate_disposition :=
                            Some (if (bequest_count =? 0)%N then "monument"
                                  else "bequests_executed") |> |>
                    <| RuntimeSnapshot.loop_enabled := false |>
                    <| RuntimeSnapshot.turn_in_flight := false |>
                    <| RuntimeSnapshot.last_transition_at_ns := now_ns |>) s)).

(** ** Response limits *)

Definition MAX_EVM_RPC_RESPONSE_BYTES : N := 2 * 1024 * 1024.
Definition MIN_WALLET_BALANCE_SYNC_INTERVAL_SECS : N := 60.
Definition MAX_WALLET_BALANCE_SYNC_INTERVAL_SECS : N := 24 * 60 * 60.
Definition MIN_WALLET_BALANCE_FRESHNESS_WINDOW_SECS : N := 60.
Definition MAX_WALLET_BALANCE_FRESHNESS_WINDOW_SECS : N := 24 * 60 * 60.
Definition MIN_WALLET_BALANCE_SYNC_RESPONSE_BYTES : N := 256.
Definition MAX_WALLET_BALANCE_SYNC_RESPONSE_BYTES : N := 4 * 1024.

Definition set_evm_rpc_max_response_bytes (max_response_bytes : N) (s : Agent.t)
    : result string (N * Agent.t) :=
  err_if (max_response_bytes =? 0)%N "evm rpc max_response_bytes must be greater than 0";;
  err_if (MAX_EVM_RPC_RESPONSE_BYTES <? max_response_bytes)%N
    ("evm rpc max_response_bytes must be <= " +:+ pretty MAX_EVM_RPC_RESPONSE_BYTES);;
  Ok (max_response_bytes, update_snapshot (fun snapshot =>
    snapshot <| RuntimeSnapshot.evm_rpc_max_response_bytes := max_response_bytes |>
             <| RuntimeSnapshot.last_transition_at_ns := Agent.clock s |>) s).

Definition range_error (field : string) (low high : N) : string :=
  "wallet balance sync " +:+ field +:+ " must be in " +:+ pretty low +:+ "..=" +:+ pretty high.

Definition check_range (field : string) (low high value : N) : result string unit :=
  err_if ((value <? low)%N || (high <? value)%N) (range_error field low high).

Definition validate_wallet_balance_sync_config (config : WalletBalanceSyncConfig.t)
    : result string unit :=
  check_range "normal_interval_secs" MIN_WALLET_BALANCE_SYNC_INTERVAL_SECS
    MAX_WALLET_BALANCE_SYNC_INTERVAL_SECS (WalletBalanceSyncConfig.normal_interval_secs config);;
  check_range "low_cycles_interval_secs" MIN_WALLET_BALANCE_SYNC_INTERVAL_SECS
    MAX_WALLET_BALANCE_SYNC_INTERVAL_SECS (WalletBalanceSyncConfig.low_cycles_interval_secs config);;
  err_if (WalletBalanceSyncConfig.low_cycles_interval_secs config
          <? WalletBalanceSyncConfig.normal_interval_secs config)%N
    "wallet balance sync low_cycles_interval_secs must be >= normal_interval_secs";;
  check_range "freshness_window_secs" MIN_WALLET_BALANCE_FRESHNESS_WINDOW_SECS
    MAX_WALLET_BALANCE_FRESHNESS_WINDOW_SECS (WalletBalanceSyncConfig.freshness_window_secs config);;
  check_range "max_response_bytes" MIN_WALLET_BALANCE_SYNC_RESPONSE_BYTES
    MAX_WALLET_BALANCE_SYNC_RESPONSE_BYTES (WalletBalanceSyncConfig.max_response_bytes config).

Definition wallet_balance_sync_config (s : Agent.t) : WalletBalanceSyncConfig.t :=
  RuntimeSnapshot.wallet_balance_sync (runtime_snapshot s).

Definition set_wallet_balance_sync_config (config : WalletBalanceSyncConfig.t) (s : Agent.t)
    : result string Agent.t :=
  validate_wallet_balance_sync_config config;;
  Ok (update_snapshot (fun snapshot =>
    snapshot <| RuntimeSnapshot.wallet_balance_sync := config |>
             <| RuntimeSnapshot.last_transition_at_ns := Agent.clock s |>) s).

(** ** The job queue and the mutating lease *)

(** [format!("{n:020}")]. *)
Definition pad_20 (n : N) : string :=
  concat_str (replicate (20 - String.length (pretty n)) "0") +:+ pretty n.

Definition job_id_of (job_seq scheduled_for_ns : N) : string :=
  "job:" +:+ pad_20 job_seq +:+ ":" +:+ pad_20 scheduled_for_ns.

Definition new_job (id : string) (kind : TaskKind.t) (lane : TaskLane.t) (dedupe_key : string)
    (scheduled_for_ns priority now_ns : N) : ScheduledJob.t := {|
  ScheduledJob.id := id;
  ScheduledJob.kind := kind;
  ScheduledJob.lane := lane;
  ScheduledJob.dedupe_key := dedupe_key;
  ScheduledJob.priority := priority;
  ScheduledJob.created_at_ns := now_ns;
  ScheduledJob.scheduled_for_ns := scheduled_for_ns;
  ScheduledJob.started_at_ns := None;
  ScheduledJob.finished_at_ns := None;
  ScheduledJob.status := JobStatus.Pending;
  ScheduledJob.attempts := 0;
  ScheduledJob.max_attempts := 3;
  ScheduledJob.last_error := None;
|}.

(** The task's runtime, if it has one, remembers the job. *)
Definition note_pending_job (kind : TaskKind.t) (job_id : string) (s : Agent.t) : Agent.t :=
  match get_task_runtime_if_any kind s with
  | Some task_runtime =>
      save_task_runtime kind
        (task_runtime <| TaskScheduleRuntime.pending_job_id := Some job_id |>) s
  | None => s
  end.

Definition next_job_seq (s : Agent.t) : N :=
  saturating_add 64 (SchedulerRuntime.next_job_seq (scheduler_runtime s)) 1.

Section JobQueue.
Context `{sql : SqlRows}.

Definition enqueue_job_if_absent (kind : TaskKind.t) (lane : TaskLane.t) (dedupe_key : string)
    (scheduled_for_ns priority : N) (s : Agent.t) : option string * Agent.t :=
  if is_some_and (fun existing => negb (ScheduledJob.is_terminal existing))
       (find_job_by_dedupe_key dedupe_key s)
  then (None, s)
  else
    let job_id := job_id_of (next_job_seq s) scheduled_for_ns in
    let s := update_scheduler (fun runtime =>
      runtime <| SchedulerRuntime.next_job_seq := next_job_seq s |>) s in
    let s := upsert_job (new_job job_id kind lane dedupe_key scheduled_for_ns priority
      (Agent.clock s)) s in
    (Some job_id, note_pending_job kind job_id s).

Definition pop_next_pending_job (lane : TaskLane.t) (now_ns : N) (s : Agent.t)
    : option (ScheduledJob.t * Agent.t) :=
  job ← select_next_pending_job (TaskLane.as_str lane) now_ns s;
  let job := job <| ScheduledJob.started_at_ns := Some (Agent.clock s) |>
                 <| ScheduledJob.status := JobStatus.InFlight |> in
  Some (job, upsert_job job s).
End JobQueue.

(** [lease.expires_at_ns > now_ns] of the active lease. *)
Definition lease_runs (now_ns : N) (s : Agent.t) : bool :=
  is_some_and (fun lease => (now_ns <? SchedulerLease.expires_at_ns lease)%N)
    (SchedulerRuntime.active_mutating_lease (scheduler_runtime s)).

Definition mutating_lease_active (now_ns : N) (s : Agent.t) : bool := lease_runs now_ns s.

Definition acquire_mutating_lease (job_id : string) (now_ns ttl_ns : N) (s : Agent.t)
    : result string Agent.t :=
  err_if (lease_runs now_ns s) "mutating lease already active";;
  err_if (negb (is_some (get_job job_id s))) "job not found";;
  Ok (update_scheduler (fun runtime =>
    runtime <| SchedulerRuntime.active_mutating_lease :=
      Some (SchedulerLease.mk TaskLane.Mutating job_id now_ns (saturating_add 64 now_ns ttl_ns)) |>) s).

Definition is_failure (status : JobStatus.t) : bool :=
  match status with JobStatus.Failed | JobStatus.TimedOut => true | _ => false end.

(** The job's row after an attempt: put back for a retry, or closed. *)
Definition attempted_job (status : JobStatus.t) (error : option string) (now_ns : N)
    (retry_after_secs : option N) (job : ScheduledJob.t) : ScheduledJob.t * option N :=
  let job := job <| ScheduledJob.last_error := error |>
                 <| ScheduledJob.attempts ::= fun attempts => saturating_add 32 attempts 1 |> in
  if is_failure status && is_some retry_after_secs
     && (ScheduledJob.attempts job <? ScheduledJob.max_attempts job)%N
  then
    let retry_at := saturating_add 64 now_ns (secs_to_ns (default 0%N retry_after_secs)) in
    (job <| ScheduledJob.status := JobStatus.Pending |>
         <| ScheduledJob.scheduled_for_ns := retry_at |>
         <| ScheduledJob.started_at_ns := None |>
         <| ScheduledJob.finished_at_ns := None |>, Some retry_at)
  else
    (job <| ScheduledJob.status := status |>
         <| ScheduledJob.finished_at_ns := Some now_ns |>, None).

(** The back-off after a failure that is not retried. *)
Definition failure_backoff_secs (retry_after_secs : option N) (max_backoff_secs failures : N) : N :=
  default (N.min (N.shiftl 1 (N.min failures 20)) (N.max max_backoff_secs 1)) retry_after_secs.

Definition settled_task_runtime (job_id row_id : string) (status : JobStatus.t) (error : option string)
    (now_ns : N) (retry_after_secs retry_at_ns started_at_ns : option N) (max_backoff_secs : N)
    (runtime : TaskScheduleRuntime.t) : TaskScheduleRuntime.t :=
  let runtime := runtime <| TaskScheduleRuntime.last_started_ns := started_at_ns |>
                         <| TaskScheduleRuntime.last_finished_ns := Some now_ns |>
                         <| TaskScheduleRuntime.last_error := error |> in
  let failures := saturating_add 32 (TaskScheduleRuntime.consecutive_failures runtime) 1 in
  let runtime :=
    if bool_decide (status = JobStatus.Succeeded) then
      runtime <| TaskScheduleRuntime.consecutive_failures := 0%N |>
              <| TaskScheduleRuntime.backoff_until_ns := None |>
    else if is_some retry_at_ns then
      runtime <| TaskScheduleRuntime.consecutive_failures := failures |>
              <| TaskScheduleRuntime.backoff_until_ns := retry_at_ns |>
              <| TaskScheduleRuntime.pending_job_id := Some row_id |>
    else if is_failure status then
      runtime <| TaskScheduleRuntime.consecutive_failures := failures |>
              <| TaskScheduleRuntime.backoff_until_ns :=
                   checked_add 64 now_ns
                     (secs_to_ns (failure_backoff_secs retry_after_secs max_backoff_secs failures)) |>
    else runtime in
  if negb (is_some retry_at_ns)
     && bool_decide (TaskScheduleRuntime.pending_job_id runtime = Some job_id)
  then runtime <| TaskScheduleRuntime.pending_job_id := None |>
  else runtime.

Definition release_lease (job_id : string) (s : Agent.t) : Agent.t :=
  if is_some_and (fun lease => bool_decide (SchedulerLease.job_id lease = job_id))
       (SchedulerRuntime.active_mutating_lease (scheduler_runtime s))
  then update_scheduler (fun runtime =>
         runtime <| SchedulerRuntime.active_mutating_lease := None |>) s
  else s.

Definition complete_job (job_id : string) (status : JobStatus.t) (error : option string)
    (now_ns : N) (retry_after_secs : option N) (s : Agent.t) : Agent.t :=
  match get_job job_id s with
  | None => s
  | Some job =>
      let started_at_ns := ScheduledJob.started_at_ns job in
      let '(job, retry_at_ns) := attempted_job status error now_ns retry_after_secs job in
      let s := upsert_job job s in
      let cfg := task_config (ScheduledJob.kind job) s in
      let task_runtime := settled_task_runtime job_id (ScheduledJob.id job) status error now_ns
        retry_after_secs retry_at_ns started_at_ns (TaskScheduleConfig.max_backoff_secs cfg)
        (get_task_runtime (ScheduledJob.kind job) s) in
      release_lease job_id (save_task_runtime (ScheduledJob.kind job) task_runtime s)
  end.

Definition recover_stale_lease (now_ns : N) (s : Agent.t) : Agent.t :=
  match SchedulerRuntime.active_mutating_lease (scheduler_runtime s) with
  | Some lease =>
      if (SchedulerLease.expires_at_ns lease <=? now_ns)%N
      then complete_job (SchedulerLease.job_id lease) JobStatus.TimedOut
             (Some "mutating lease expired") now_ns None s
      else s
  | None => s
  end.

Definition recover_orphaned_turn_lock (now_ns : N) (s : Agent.t) : bool * Agent.t :=
  if lease_runs now_ns s then (false, s)
  else if negb (RuntimeSnapshot.turn_in_flight (runtime_snapshot s)) then (false, s)
  else
    let turn_id := default "turn-unknown" (RuntimeSnapshot.last_turn_id (runtime_snapshot s)) in
    (true, update_snapshot (fun snapshot =>
       snapshot <| RuntimeSnapshot.turn_in_flight := false |>
                <| RuntimeSnapshot.last_error := Some ("recovered orphaned turn lock for "
                     +:+ turn_id +:+ ": no active mutating lease") |>
                <| RuntimeSnapshot.last_transition_at_ns := now_ns |>) s).

(** ** What the queue operations change *)

Definition active_lease (s : Agent.t) : option SchedulerLease.t :=
  SchedulerRuntime.active_mutating_lease (scheduler_runtime s).
Definition job_seq (s : Agent.t) : N := SchedulerRuntime.next_job_seq (scheduler_runtime s).

(** Reading a job id back: the digits at the head of a string. *)
Fixpoint read_number (acc : N) (s : string) : N :=
  match s with
  | EmptyString => acc
  | String a s' =>
      match digit_value a with Some d => read_number (acc * 10 + d) s' | None => acc end
  end.

Lemma read_pretty_go x s : read_number 0 (pretty_N_go x s) = read_number x s.
Proof.
  revert s. induction (N.lt_wf_0 x) as [x _ IH]; intros s.
  assert (x = 0 \/ 0 < x)%N as [->|Hpos] by lia; [by rewrite pretty_N_go_0|].
  rewrite pretty_N_go_step by done. rewrite IH by (by apply N.div_lt). simpl.
  rewrite digit_value_pretty by (by apply N.mod_lt). f_equal.
  pose proof (N.div_mod x 10). lia.
Qed.

Lemma pretty_go_app x s t : pretty_N_go x s +:+ t = pretty_N_go x (s +:+ t).
Proof.
  revert s. induction (N.lt_wf_0 x) as [x _ IH]; intros s.
  assert (x = 0 \/ 0 < x)%N as [->|Hpos] by lia; [by rewrite !pretty_N_go_0|].
  rewrite (pretty_N_go_step x s), (pretty_N_go_step x (s +:+ t)) by done.
  rewrite IH by (by apply N.div_lt). done.
Qed.

Lemma read_pretty (n : N) t : read_number 0 (pretty n +:+ ":" +:+ t) = n.
Proof.
  unfold pretty, pretty_N. case_decide as Hn; [by subst|].
  rewrite pretty_go_app, read_pretty_go. done.
Qed.

Lemma string_app_assoc (s t u : string) : (s +:+ t) +:+ u = s +:+ (t +:+ u).
Proof. induction s as [|a s IH]; [done|]. unfold String.app in *. simpl. by rewrite IH. Qed.

Lemma read_pad_20 n t : read_number 0 (pad_20 n +:+ ":" +:+ t) = n.
Proof.
  unfold pad_20. rewrite string_app_assoc. generalize (20 - String.length (pretty n)).
  intros zeros. induction zeros as [|zeros IH]; [apply read_pretty|exact IH].
Qed.

Lemma job_id_of_inj n scheduled m scheduled' :
  job_id_of n scheduled = job_id_of m scheduled' -> n = m.
Proof.
  unfold job_id_of. intros H. simplify_eq/=.
  rewrite <- (read_pad_20 n (pad_20 scheduled)), <- (read_pad_20 m (pad_20 scheduled')).
  by f_equal.
Qed.

(** What a message may do to the queue besides running its jobs: the lease
    stays, waiting or finished jobs may be deleted, and new jobs wait under
    fresh ids.  (The 64-bit sequence number is taken not to run out.) *)
Definition job_unchanged_or_gone (s s' : Agent.t) (id : string) : Prop :=
  get_job id s' = get_job id s
  \/ get_job id s' = None
     /\ is_some_and (fun job => bool_decide (ScheduledJob.status job <> JobStatus.InFlight))
          (get_job id s) = true.

Definition job_fresh (s s' : Agent.t) (id : string) : Prop :=
  exists n scheduled, id = job_id_of n scheduled /\ (job_seq s < n <= job_seq s')%N
    /\ forall job, get_job id s' = Some job ->
         ScheduledJob.id job = id /\ ScheduledJob.status job = JobStatus.Pending.

Record quiet (s s' : Agent.t) : Prop := {
  quiet_clock : (Agent.clock s <= Agent.clock s')%N;
  quiet_lease : active_lease s' = active_lease s;
  quiet_seq : in_uint 64 (job_seq s) -> (job_seq s <= job_seq s')%N /\ in_uint 64 (job_seq s');
  quiet_jobs : in_uint 64 (job_seq s) -> (job_seq s' < max_uint 64)%N ->
    forall id, job_unchanged_or_gone s s' id \/ job_fresh s s' id;
}.

(** A change that leaves the queue alone. *)
Lemma quiet_frame s s' :
  Agent.clock s' = Agent.clock s -> active_lease s' = active_lease s -> job_seq s' = job_seq s ->
  Agent.jobs s' = Agent.jobs s -> quiet s s'.
Proof.
  intros Hclock Hlease Hseq Hjobs. split; [by rewrite Hclock|done|by rewrite Hseq|].
  intros _ _ id. left. left. unfold get_job. by rewrite Hjobs.
Qed.

#[export] Instance quiet_preorder : PreOrder quiet.
Proof.
  split.
  - intros s. by apply quiet_frame.
  - intros s1 s2 s3 [Hc1 Hl1 Hs1 Hj1] [Hc2 Hl2 Hs2 Hj2]. split; [by etrans|congruence| |].
    { intros Hin. destruct (Hs1 Hin) as [? Hin2], (Hs2 Hin2). split; [lia|done]. }
    intros Hin Hmax id. destruct (Hs1 Hin) as [Hle Hin2], (Hs2 Hin2) as [Hle2 _].
    specialize (Hj2 Hin2 Hmax id). specialize (Hj1 Hin ltac:(lia) id).
    destruct Hj2 as [[Hj2|[Hj2 Hst2]]|(m & sch2 & -> & Hm & Hj2)].
    + destruct Hj1 as [[Hj1|[Hj1 Hst1]]|(n & sch & -> & Hn & Hj1)].
      * left. left. congruence.
      * left. right. split; [congruence|done].
      * right. exists n, sch. split_and!; [done|lia|lia|]. intros job. rewrite Hj2. apply Hj1.
    + destruct Hj1 as [[Hj1|[Hj1 Hst1]]|(n & sch & -> & Hn & Hj1)].
      * left. right. split; [done|]. by rewrite <-Hj1.
      * by rewrite Hj1 in Hst2.
      * right. exists n, sch. split_and!; [done|lia|lia|]. intros job. by rewrite Hj2.
    + right. exists m, sch2. split_and!; [done|lia|lia|done].
Qed.

Lemma quiet_save_runtime_snapshot snapshot s : quiet s (save_runtime_snapshot snapshot s).
Proof. by apply quiet_frame. Qed.

Lemma quiet_save_scheduler_runtime runtime s :
  SchedulerRuntime.active_mutating_lease runtime = active_lease s ->
  SchedulerRuntime.next_job_seq runtime = job_seq s ->
  quiet s (save_scheduler_runtime runtime s).
Proof. intros Hlease Hseq. by apply quiet_frame. Qed.

Lemma quiet_update_snapshot change s : quiet s (update_snapshot change s).
Proof. by apply quiet_frame. Qed.

Lemma quiet_save_task_runtime kind runtime s : quiet s (save_task_runtime kind runtime s).
Proof. by apply quiet_frame. Qed.

Lemma quiet_upsert_task_config config s : quiet s (upsert_task_config config s).
Proof. by apply quiet_frame. Qed.

Lemma quiet_set_runtime_scalar key value s : quiet s (set_runtime_scalar key value s).
Proof. by apply quiet_frame. Qed.

Lemma quiet_update_scheduler change s :
  SchedulerRuntime.active_mutating_lease (change (scheduler_runtime s)) = active_lease s ->
  SchedulerRuntime.next_job_seq (change (scheduler_runtime s)) = job_seq s ->
  quiet s (update_scheduler change s).
Proof. intros Hlease Hseq. by apply quiet_frame. Qed.

Create HintDb quiet discriminated.
#[export] Hint Resolve quiet_update_snapshot quiet_save_task_runtime quiet_upsert_task_config
  quiet_set_runtime_scalar : quiet.
#[export] Hint Extern 1 (quiet _ (update_scheduler _ _)) =>
  apply quiet_update_scheduler; reflexivity : quiet.
#[export] Hint Extern 0 (quiet ?s ?s) => reflexivity : quiet.

Lemma quiet_set_task_interval_secs kind secs s s' :
  set_task_interval_secs kind secs s = Ok s' -> quiet s s'.
Proof.
  unfold set_task_interval_secs. rewrite err_if_seq_Ok. intros [_ [= <-]].
  etrans; [|apply quiet_save_task_runtime]. apply quiet_upsert_task_config.
Qed.

Lemma quiet_set_each_interval interval_secs s : quiet s (set_each_interval interval_secs s).
Proof.
  unfold set_each_interval. revert s. induction TaskKind.all as [|kind kinds IH]; intros s; [done|].
  simpl. etrans; [|apply IH]. destruct (set_task_interval_secs _ _ _) eqn:Hset; [|done].
  by eapply quiet_set_task_interval_secs.
Qed.

Lemma quiet_set_cadence_multiplier multiplier s : quiet s (set_cadence_multiplier multiplier s).2.
Proof.
  unfold set_cadence_multiplier. etrans; [|apply quiet_set_each_interval].
  apply quiet_set_runtime_scalar.
Qed.

Lemma quiet_delete_job id s :
  is_some_and (fun job => bool_decide (ScheduledJob.status job <> JobStatus.InFlight))
    (get_job id s) = true ->
  quiet s (delete_job id s).
Proof.
  intros Hidle. split; [done..|]. intros _ _ other. left. unfold job_unchanged_or_gone, get_job, delete_job.
  simpl_set. destruct (decide (other = id)) as [->|Hne].
  - right. by rewrite lookup_delete_eq.
  - left. by rewrite lookup_delete_ne.
Qed.

Lemma quiet_set_task_enabled kind enabled s : quiet s (set_task_enabled kind enabled s).
Proof.
  unfold set_task_enabled. set (s1 := upsert_task_config _ s).
  assert (quiet s s1) by apply quiet_upsert_task_config.
  destruct enabled; [done|]. etrans; [done|]. unfold clear_pending_job_for_disabled_task.
  destruct (get_task_runtime_if_any kind s1) as [runtime|]; [|done].
  destruct (TaskScheduleRuntime.pending_job_id runtime) as [id|]; [|done].
  destruct (get_job id s1) as [job|] eqn:Hjob; [|apply quiet_save_task_runtime].
  case_bool_decide as Hstatus; [done|].
  etrans; [apply (quiet_delete_job id)|apply quiet_save_task_runtime].
  rewrite Hjob. simpl. by rewrite Hstatus.
Qed.

Lemma quiet_set_scheduler_survival_tier tier s : quiet s (set_scheduler_survival_tier tier s).
Proof.
  unfold set_scheduler_survival_tier. destruct (next_survival_tier_with_recovery _ _ _).
  destruct (_ && _); [done|]. by apply quiet_save_scheduler_runtime.
Qed.

Lemma quiet_observe_mortality liquid runway now_ns s :
  quiet s (observe_mortality_resources liquid runway now_ns s).2.
Proof.
  unfold observe_mortality_resources. destruct (mortality_is_dead s); [done|].
  etrans; [apply quiet_set_cadence_multiplier|]. apply quiet_save_runtime_snapshot.
Qed.

Lemma quiet_recover_orphaned_turn_lock now_ns s : quiet s (recover_orphaned_turn_lock now_ns s).2.
Proof.
  unfold recover_orphaned_turn_lock. destruct (lease_runs now_ns s); [done|].
  destruct (negb _); [done|]. apply quiet_update_snapshot.
Qed.

Lemma quiet_tick_start now_ns s : quiet s (record_scheduler_tick_start now_ns s).
Proof. by apply quiet_update_scheduler. Qed.

Lemma quiet_tick_end now_ns error s : quiet s (record_scheduler_tick_end now_ns error s).
Proof. by apply quiet_update_scheduler. Qed.

#[export] Hint Resolve quiet_tick_start quiet_tick_end quiet_set_task_enabled
  quiet_set_scheduler_survival_tier quiet_observe_mortality : quiet.

Section QueueLemmas.
Context `{sql : SqlRows}.

Lemma quiet_note_pending_job kind job_id s : quiet s (note_pending_job kind job_id s).
Proof.
  unfold note_pending_job. destruct (get_task_runtime_if_any kind s); [|done].
  apply quiet_save_task_runtime.
Qed.

Lemma get_job_upsert job s id :
  get_job id (upsert_job job s)
  = if decide (id = ScheduledJob.id job) then Some job else get_job id s.
Proof.
  unfold get_job, upsert_job. simpl_set. case_decide as Hid.
  - subst. by rewrite lookup_insert_eq.
  - by rewrite lookup_insert_ne.
Qed.

(** A job under the next sequence number. *)
Lemma quiet_new_job job scheduled s :
  ScheduledJob.id job = job_id_of (next_job_seq s) scheduled ->
  ScheduledJob.status job = JobStatus.Pending ->
  quiet s (upsert_job job (update_scheduler (fun runtime =>
    runtime <| SchedulerRuntime.next_job_seq := next_job_seq s |>) s)).
Proof.
  intros Hid Hstatus. set (s1 := update_scheduler _ s).
  assert (Hseq : job_seq (upsert_job job s1) = next_job_seq s) by done.
  assert (Hnext : next_job_seq s = N.min (job_seq s + 1) (max_uint 64)) by done.
  split; [done..| |]; rewrite Hseq, Hnext.
  - unfold in_uint. lia.
  - unfold in_uint. intros Hin Hmax other.
    assert (get_job other (upsert_job job s1)
            = if decide (other = ScheduledJob.id job) then Some job else get_job other s) as Hget
      by exact (get_job_upsert job s1 other).
    case_decide as Hother.
    + right. exists (next_job_seq s), scheduled. split_and!; [by rewrite <-Hid|lia|lia|].
      rewrite Hget. intros job' [= <-]. done.
    + left. by left.
Qed.

Lemma quiet_enqueue kind lane dedupe_key scheduled_for_ns priority s :
  quiet s (enqueue_job_if_absent kind lane dedupe_key scheduled_for_ns priority s).2.
Proof.
  unfold enqueue_job_if_absent. destruct (is_some_and _ _); [done|]. simpl snd.
  etrans; [|apply quiet_note_pending_job]. by eapply quiet_new_job.
Qed.
End QueueLemmas.

(** What completing a job changes: its own row and, if it holds the lease, the
    lease. *)
Record completes (id : string) (may_wait : bool) (s s' : Agent.t) : Prop := {
  completes_clock : Agent.clock s' = Agent.clock s;
  completes_seq : job_seq s' = job_seq s;
  completes_other : forall other, other <> id -> get_job other s' = get_job other s;
  completes_row : forall job', get_job id s' = Some job' ->
    exists job, get_job id s = Some job /\ ScheduledJob.id job' = ScheduledJob.id job
      /\ (may_wait = false -> ScheduledJob.status job' <> JobStatus.Pending);
  completes_lease : active_lease s' = active_lease s
    \/ exists lease, active_lease s = Some lease /\ SchedulerLease.job_id lease = id
         /\ active_lease s' = None;
}.

Definition rows_keyed (s : Agent.t) : Prop :=
  forall id job, get_job id s = Some job -> ScheduledJob.id job = id.

Lemma attempted_job_spec status error now_ns retry_after_secs job job' retry_at :
  attempted_job status error now_ns retry_after_secs job = (job', retry_at) ->
  status <> JobStatus.Pending ->
  ScheduledJob.id job' = ScheduledJob.id job
  /\ (retry_after_secs = None -> ScheduledJob.status job' = status).
Proof.
  unfold attempted_job. cbv zeta. intros H Hstatus.
  destruct (is_failure status && is_some retry_after_secs && _) eqn:Hretry;
    injection H as <- _; (split; [done|]); [|done].
  intros ->. by rewrite andb_false_r in Hretry.
Qed.

Lemma get_job_release_lease id s other : get_job other (release_lease id s) = get_job other s.
Proof. unfold release_lease. by destruct (is_some_and _ _). Qed.

Lemma release_lease_frame id s :
  Agent.clock (release_lease id s) = Agent.clock s /\ job_seq (release_lease id s) = job_seq s
  /\ (active_lease (release_lease id s) = active_lease s
      \/ exists lease, active_lease s = Some lease /\ SchedulerLease.job_id lease = id
           /\ active_lease (release_lease id s) = None).
Proof.
  unfold release_lease. fold (active_lease s).
  destruct (active_lease s) as [lease|] eqn:Hlease; simpl; [|by auto].
  case_bool_decide as Hid; [|by auto]. split_and!; [done..|]. right. by exists lease.
Qed.

Lemma complete_job_completes id status error now_ns retry_after_secs s :
  rows_keyed s -> status <> JobStatus.Pending ->
  completes id (is_some retry_after_secs) s
    (complete_job id status error now_ns retry_after_secs s).
Proof.
  intros Hkeyed Hstatus. unfold complete_job.
  destruct (get_job id s) as [job|] eqn:Hjob.
  2:{ split; [done..| |by left]. intros job'. by rewrite Hjob. }
  destruct (attempted_job _ _ _ _ _) as [job' retry_at] eqn:Hattempt.
  apply attempted_job_spec in Hattempt as [Hid Hst]; [|done].
  rewrite (Hkeyed _ _ Hjob) in Hid. cbv zeta.
  set (runtime := settled_task_runtime _ _ _ _ _ _ _ _ _ _). clearbody runtime.
  set (s1 := save_task_runtime _ _ _).
  destruct (release_lease_frame id s1) as (Hclock & Hseq & Hlease).
  assert (Hget : forall other, get_job other (release_lease id s1)
                  = if decide (other = id) then Some job' else get_job other s).
  { intros other. rewrite get_job_release_lease.
    change (get_job other s1) with (get_job other (upsert_job job' s)).
    by rewrite get_job_upsert, Hid. }
  split; [done..| | |done].
  - intros other Hne. by rewrite Hget, decide_False.
  - intros job2. rewrite Hget, decide_True by done. intros [= <-]. exists job.
    split_and!; [done|by rewrite Hid, (Hkeyed _ _ Hjob)|].
    destruct retry_after_secs; [done|]. intros _. by rewrite Hst.
Qed.
