(* ===== verification/AgentScheduler.v ===== *)
(** * AgentScheduler: the automaton's heartbeat

    Models [components/ic-automaton/src/scheduler.rs] in the canister build:
    due jobs, the survival gate, dispatch, the recovery policy, the cycle check
    with its top-up triggers ([features/cycle_topup_host.rs]) and the tick.
    The work of a turn, of polling and of reconciliation, the classification of
    error texts, and housekeeping outside the scheduler's state are the class
    [AgentHandlers]: arbitrary computations, so the theorems hold whatever they
    do.  Log output is left out. *)

From S2P Require Import Prelude Text SpawnProtocol Types Externals Child AgentTypes AgentDomain TopUpTypes TopUp AgentStore.
From Stdlib Require Import Ascii Strings.Byte.

Definition CHECKCYCLES_REFERENCE_ENVELOPE_CYCLES : N := 5000000000.
Definition CHECKCYCLES_LOW_TIER_MULTIPLIER : N := 15.
Definition MAX_MUTATING_JOBS_PER_TICK : nat := 4.
Definition EVM_RPC_MAX_RESPONSE_BYTES_POLICY_MAX : N := 2 * 1024 * 1024.
Definition RESPONSE_BYTES_POLICY_MIN : N := 256.
Definition RECOVERY_BACKOFF_BASE_SECS : N := 1.
Definition TOPUP_FAILED_RECOVERY_BACKOFF_SECS : N := 120.
Definition INFERENCE_PROXY_PENDING_JOB_TTL_SECS : N := 15 * 60.
Definition BASE_EVM_CHAIN_ID : N := 8453.

Module ScheduledTurnTrigger.
Inductive t :=
| Periodic
| InferenceProxyResume
| PlanContinuation.
End ScheduledTurnTrigger.

Module JobDispatchOutcome.
Inductive t :=
| Completed
| TopUpWaiting.
End JobDispatchOutcome.

Class AgentHandlers := {
  run_scheduled_turn_job_with_trigger : ScheduledTurnTrigger.t -> M Agent.t string unit;
  run_poll_inbox_job : N -> M Agent.t string unit;
  run_reconcile_job : N -> M Agent.t string unit;
  expire_inference_proxy_pending_jobs : N -> N -> Agent.t -> Agent.t;
  run_retention_maintenance_if_due : N -> Agent.t -> Agent.t;
  init_certification : Agent.t -> Agent.t;
  classify_inference_failure : string -> RecoveryFailure.t;
  classify_evm_failure : string -> RecoveryFailure.t;
  evm_port_from_snapshot : RuntimeSnapshot.t -> result string (EvmPort Agent.t);
  canister_cycle_balance : Agent.t -> N;
  canister_liquid_cycle_balance : Agent.t -> N;
  canonical_runway_seconds : N -> option N -> N -> Agent.t -> option N;
}.

(** ** Helpers *)

Definition parse_hex_quantity_u64 (raw : option string) : option N :=
  raw ← raw;
  let normalized := trim raw in
  let without_prefix :=
    match strip_prefix normalized "0x" with
    | Some rest => rest
    | None => default normalized (strip_prefix normalized "0X")
    end in
  if is_empty without_prefix then Some 0%N else parse_hex_uint 64 without_prefix.

Definition is_eth_get_logs_failure (error : string) : bool :=
  contains (to_ascii_lowercase error) "eth_getlogs".

Definition operation_class_for_task (kind : TaskKind.t) : option SurvivalOperationClass.t :=
  match kind with
  | TaskKind.AgentTurn => Some SurvivalOperationClass.Inference
  | TaskKind.PollInbox => Some SurvivalOperationClass.EvmPoll
  | _ => None
  end.

Definition lease_ttl_ns (kind : TaskKind.t) : N :=
  match kind with
  | TaskKind.AgentTurn => AGENT_TURN_LEASE_TTL_NS
  | _ => LIGHTWEIGHT_LEASE_TTL_NS
  end.

Definition empty_poll_backoff_delay_ns (consecutive_empty_polls : N) : N :=
  let schedule_idx := saturating_sub consecutive_empty_polls 1 in
  let secs := default (default 300%N (last EMPTY_POLL_BACKOFF_SCHEDULE_SECS))
    (EMPTY_POLL_BACKOFF_SCHEDULE_SECS !! N.to_nat schedule_idx) in
  secs_to_ns secs.

Definition poll_inbox_rpc_due (now_ns last_poll_at_ns consecutive_empty_polls : N) : bool :=
  if (last_poll_at_ns =? 0)%N then true
  else (saturating_add 64 last_poll_at_ns (empty_poll_backoff_delay_ns consecutive_empty_polls)
        <=? now_ns)%N.

Definition ROOM_POLL_INTERVAL_SECS : N := DEFAULT_TASK_INTERVAL_SECS * 5.

Definition room_poll_due (now_ns : N) (last_attempted_at_ns : option N) : bool :=
  match last_attempted_at_ns with
  | None => true
  | Some last => (saturating_add 64 last (secs_to_ns ROOM_POLL_INTERVAL_SECS) <=? now_ns)%N
  end.

Definition wallet_balance_sync_interval_secs (snapshot : RuntimeSnapshot.t) (tier : SurvivalTier.t)
    : option N :=
  let config := RuntimeSnapshot.wallet_balance_sync snapshot in
  if negb (WalletBalanceSyncConfig.enabled config) then None
  else
    match tier with
    | SurvivalTier.Normal => Some (WalletBalanceSyncConfig.normal_interval_secs config)
    | SurvivalTier.LowCycles => Some (WalletBalanceSyncConfig.low_cycles_interval_secs config)
    | SurvivalTier.Critical | SurvivalTier.OutOfCycles => None
    end.

Definition wallet_balance_sync_due (snapshot : RuntimeSnapshot.t) (now_ns interval_secs : N)
    : bool :=
  if RuntimeSnapshot.wallet_balance_bootstrap_pending snapshot then true
  else
    match WalletBalanceSnapshot.last_synced_at_ns (RuntimeSnapshot.wallet_balance snapshot) with
    | None => true
    | Some last => (saturating_add 64 last (secs_to_ns interval_secs) <=? now_ns)%N
    end.

(** ** The cycle check's classification *)

Section Classification.
Context `{cost : CostApi}.

Definition check_cycles_requirements : result string AffordabilityRequirements.t :=
  operation_cost ← estimate_operation_cost
    (OperationClass.WorkflowEnvelope CHECKCYCLES_REFERENCE_ENVELOPE_CYCLES);
  Ok (affordability_requirements operation_cost DEFAULT_SAFETY_MARGIN_BPS 0).

Definition classify_survival_tier (total_cycles liquid_cycles : N) : result string SurvivalTier.t :=
  can_cover_critical_floor ← can_afford_with_reserve total_cycles
    (OperationClass.WorkflowEnvelope CHECKCYCLES_REFERENCE_ENVELOPE_CYCLES)
    DEFAULT_SAFETY_MARGIN_BPS DEFAULT_RESERVE_FLOOR_CYCLES;
  if negb can_cover_critical_floor then Ok SurvivalTier.Critical
  else
    requirements ← check_cycles_requirements;
    let required_cycles := AffordabilityRequirements.required_cycles requirements in
    if (liquid_cycles <? required_cycles)%N then Ok SurvivalTier.Critical
    else if (liquid_cycles <? saturating_mul 128 required_cycles CHECKCYCLES_LOW_TIER_MULTIPLIER)%N
    then Ok SurvivalTier.LowCycles
    else Ok SurvivalTier.Normal.
End Classification.

(** ** Top-ups ([features/cycle_topup_host.rs]) *)

Definition topup_cycles_dedupe_key : string := TaskKind.as_str TaskKind.TopUpCycles +:+ ":singleton".

Section TopUpHost.
Context `{ext : Externals, json : Json, libs : !TopUpLibs}.
Context `{sql : SqlRows, handlers : AgentHandlers}.

Definition parse_principal (raw field : string) : result string Principal :=
  map_err (fun error => field +:+ " must be a valid principal: " +:+ error)
    (principal_from_text (trim raw)).

(** [option.map(f).transpose()]. *)
Definition transpose {A B} (f : A -> result string B) (o : option A) : result string (option B) :=
  match o with
  | Some a => b ← f a; Ok (Some b)
  | None => Ok None
  end.

Definition topup_config_from_snapshot (snapshot : RuntimeSnapshot.t) : result string TopUpConfig.t :=
  let cycle_topup := RuntimeSnapshot.cycle_topup snapshot in
  let evm_chain_id := EvmPollCursor.chain_id (RuntimeSnapshot.evm_cursor snapshot) in
  err_if (negb (evm_chain_id =? BASE_EVM_CHAIN_ID)%N)
    ("cycle top-up only supports Base chain id " +:+ pretty BASE_EVM_CHAIN_ID
     +:+ " (configured " +:+ pretty evm_chain_id +:+ ")");;
  raw_address ← ok_or (RuntimeSnapshot.evm_address snapshot) "evm address is not configured";
  evm_address ← normalize_evm_hex_address raw_address "evm address";
  let configured :=
    match CycleTopUpConfig.usdc_contract_address cycle_topup with
    | Some address => Some address
    | None => WalletBalanceSnapshot.usdc_contract_address (RuntimeSnapshot.wallet_balance snapshot)
    end in
  usdc ← transpose (fun raw => normalize_evm_hex_address raw "usdc contract address") configured;
  onesec_locker_address ← normalize_evm_hex_address
    (CycleTopUpConfig.onesec_locker_address cycle_topup) "onesec locker address";
  target_canister ← transpose (fun raw => parse_principal raw "target canister id")
    (CycleTopUpConfig.target_canister_id cycle_topup);
  onesec_canister ← parse_principal (CycleTopUpConfig.onesec_canister_id cycle_topup)
    "onesec canister id";
  bridged_usdc_ledger ← parse_principal (CycleTopUpConfig.bridged_usdc_ledger_id cycle_topup)
    "bridged usdc ledger id";
  kong_backend ← parse_principal (CycleTopUpConfig.kong_backend_id cycle_topup) "kong backend id";
  icp_ledger ← parse_principal (CycleTopUpConfig.icp_ledger_id cycle_topup) "icp ledger id";
  cmc ← parse_principal (CycleTopUpConfig.cmc_id cycle_topup) "cmc id";
  Ok {|
    TopUpConfig.evm_address := evm_address;
    TopUpConfig.usdc_contract_address :=
      default (TopUpConfig.usdc_contract_address TopUpConfig.default) usdc;
    TopUpConfig.onesec_locker_address := onesec_locker_address;
    TopUpConfig.evm_chain_id := evm_chain_id;
    TopUpConfig.onesec_canister := onesec_canister;
    TopUpConfig.bridged_usdc_ledger := bridged_usdc_ledger;
    TopUpConfig.kong_backend := kong_backend;
    TopUpConfig.icp_ledger := icp_ledger;
    TopUpConfig.cmc := cmc;
    TopUpConfig.target_canister := target_canister;
    TopUpConfig.min_usdc_reserve := CycleTopUpConfig.min_usdc_reserve cycle_topup;
    TopUpConfig.max_usdc_per_topup := CycleTopUpConfig.max_usdc_per_topup cycle_topup;
    TopUpConfig.max_slippage_pct := CycleTopUpConfig.max_slippage_pct cycle_topup;
    TopUpConfig.max_bridge_polls := CycleTopUpConfig.max_bridge_polls cycle_topup;
    TopUpConfig.lock_confirmations := CycleTopUpConfig.lock_confirmations cycle_topup;
  |}.

(** The configuration and the port of the machine. *)
Definition build_cycle_topup (snapshot : RuntimeSnapshot.t)
    : result string (TopUpConfig.t * EvmPort Agent.t) :=
  config ← topup_config_from_snapshot snapshot;
  port ← evm_port_from_snapshot snapshot;
  Ok (config, port).

Definition enqueue_topup_cycles_job (now_ns : N) (s : Agent.t) : option string * Agent.t :=
  let tick_ns := secs_to_ns SCHEDULER_TICK_INTERVAL_SECS in
  let slot_ns := (now_ns - now_ns `mod` tick_ns)%N in
  enqueue_job_if_absent TaskKind.TopUpCycles TaskLane.Mutating topup_cycles_dedupe_key slot_ns
    (TaskKind.default_priority TaskKind.TopUpCycles) s.

Definition trigger_top_up_tool : M Agent.t string string :=
  snapshot ← gets runtime_snapshot;
  fail_if (negb (CycleTopUpConfig.enabled (RuntimeSnapshot.cycle_topup snapshot)))
    "cycle top-up is disabled";;
  lift (build_cycle_topup snapshot);;
  TopUp.start;;
  modify (fun s => (enqueue_topup_cycles_job (Agent.clock s) s).2);;
  mret "Top-up enqueued.".

Definition topup_state_allows_auto_start (stage : option TopUpStage.t) : bool :=
  match stage with
  | None | Some (TopUpStage.Completed _ _ _) => true
  | _ => false
  end.

Definition topup_failed_recovery_due (stage : option TopUpStage.t) (now_ns : N) : bool :=
  match stage with
  | Some (TopUpStage.Failed _ _ failed_at_ns _) =>
      (saturating_add 64 failed_at_ns (secs_to_ns TOPUP_FAILED_RECOVERY_BACKOFF_SECS)
       <=? now_ns)%N
  | _ => false
  end.

Definition maybe_recover_failed_topup (snapshot : RuntimeSnapshot.t) (stage : option TopUpStage.t)
    (now_ns : N) : M Agent.t string bool :=
  if negb (topup_failed_recovery_due stage now_ns) then mret false
  else if negb (is_ok (build_cycle_topup snapshot)) then mret false
  else
    cleared ← (catch TopUp.reset : M Agent.t string (result string unit));
    if negb (is_ok cleared) then mret false
    else
      started ← (catch TopUp.start : M Agent.t string (result string unit));
      if negb (is_ok started) then mret false
      else
        modify (fun s => (enqueue_topup_cycles_job now_ns s).2);;
        mret true.

Definition should_trigger_cycle_topup (total_cycles : N) (snapshot : RuntimeSnapshot.t)
    (stage : option TopUpStage.t) (cached_usdc_balance_raw : option N) : bool :=
  let cycle_topup := RuntimeSnapshot.cycle_topup snapshot in
  if negb (CycleTopUpConfig.enabled cycle_topup) then false
  else if (total_cycles <=? TOPUP_MIN_OPERATIONAL_CYCLES)%N then false
  else if (CycleTopUpConfig.auto_topup_cycle_threshold cycle_topup <=? total_cycles)%N then false
  else if negb (topup_state_allows_auto_start stage) then false
  else (saturating_add 64 (CycleTopUpConfig.min_usdc_reserve cycle_topup)
          TOPUP_MIN_USDC_AVAILABLE_RAW <=? default 0 cached_usdc_balance_raw)%N.

Definition maybe_enqueue_topup_waiting_continuation (outcome : JobDispatchOutcome.t) (now_ns : N)
    (s : Agent.t) : Agent.t :=
  match outcome with
  | JobDispatchOutcome.Completed => s
  | JobDispatchOutcome.TopUpWaiting =>
      let interval_secs :=
        match get_task_config TaskKind.TopUpCycles s with
        | Some config => N.max (TaskScheduleConfig.interval_secs config) 1
        | None => N.max (TaskKind.default_interval_secs TaskKind.TopUpCycles) 1
        end in
      (enqueue_topup_cycles_job (saturating_add 64 now_ns (secs_to_ns interval_secs)) s).2
  end.
End TopUpHost.

(** ** Materialising due jobs *)

Section Scheduling.
Context `{ext : Externals, json : Json, libs : !TopUpLibs, cost : CostApi}.
Context `{platform : !TopUpPlatform Agent.t, sql : SqlRows, handlers : AgentHandlers}.

Definition slot_key (kind : TaskKind.t) (slot_start_ns : N) : string :=
  if bool_decide (kind = TaskKind.TopUpCycles) then topup_cycles_dedupe_key
  else TaskKind.as_str kind +:+ ":" +:+ pretty slot_start_ns.

(** The guards that skip a task. *)
Definition task_due (now_ns : N) (low_cycles : bool) (config : TaskScheduleConfig.t)
    (runtime : TaskScheduleRuntime.t) : bool :=
  TaskScheduleConfig.enabled config
  && negb (low_cycles && negb (TaskScheduleConfig.essential config))
  && negb (secs_to_ns (TaskScheduleConfig.interval_secs config) =? 0)%N
  && negb (is_some (TaskScheduleRuntime.pending_job_id runtime))
  && is_none_or (fun until => (until <=? now_ns)%N) (TaskScheduleRuntime.backoff_until_ns runtime)
  && (TaskScheduleRuntime.next_due_ns runtime <=? now_ns)%N.

Definition refresh_task (now_ns : N) (low_cycles : bool) (s : Agent.t)
    (schedule : TaskKind.t * TaskScheduleConfig.t) : Agent.t :=
  let '(kind, config) := schedule in
  let runtime := get_task_runtime kind s in
  if negb (task_due now_ns low_cycles config runtime) then s
  else
    let interval_ns := secs_to_ns (TaskScheduleConfig.interval_secs config) in
    let slot_start_ns := (now_ns - now_ns `mod` interval_ns)%N in
    let '(_, s) := enqueue_job_if_absent kind TaskLane.Mutating (slot_key kind slot_start_ns)
      slot_start_ns (TaskScheduleConfig.priority config) s in
    let advanced_due_ns := saturating_add 64 (TaskScheduleRuntime.next_due_ns runtime) interval_ns in
    let aligned_due_ns := saturating_add 64 slot_start_ns interval_ns in
    save_task_runtime kind
      (runtime <| TaskScheduleRuntime.next_due_ns := N.max advanced_due_ns aligned_due_ns |>) s.

Definition refresh_due_jobs (now_ns : N) (s : Agent.t) : Agent.t :=
  let schedules := merge_sort (schedule_le (fun p => TaskKind.as_str (TaskScheduleConfig.kind p.2)))
    (list_task_configs s) in
  fold_left (refresh_task now_ns (scheduler_low_cycles_mode s)) schedules s.

(** ** Recovery *)

Definition classify_failure_for_task (kind : TaskKind.t) (error : string) : RecoveryFailure.t :=
  match kind with
  | TaskKind.AgentTurn => classify_inference_failure error
  | TaskKind.PollInbox => classify_evm_failure error
  | TaskKind.CheckCycles | TaskKind.TopUpCycles | TaskKind.Reconcile =>
      RecoveryFailure.Operation (OperationFailure.mk OperationFailureKind.Unknown)
  end.

Definition recovery_operation_for_task (kind : TaskKind.t) : RecoveryOperation.t :=
  match kind with
  | TaskKind.AgentTurn => RecoveryOperation.Inference
  | TaskKind.PollInbox => RecoveryOperation.EvmPoll
  | TaskKind.CheckCycles | TaskKind.TopUpCycles | TaskKind.Reconcile => RecoveryOperation.Unknown
  end.

Definition recovery_context_for_task_job (job : ScheduledJob.t) (s : Agent.t) : RecoveryContext.t :=
  let kind := ScheduledJob.kind job in
  {|
    RecoveryContext.operation := recovery_operation_for_task kind;
    RecoveryContext.consecutive_failures :=
      TaskScheduleRuntime.consecutive_failures (get_task_runtime kind s);
    RecoveryContext.backoff_base_secs := RECOVERY_BACKOFF_BASE_SECS;
    RecoveryContext.backoff_max_secs := TaskScheduleConfig.max_backoff_secs (task_config kind s);
    RecoveryContext.response_limit :=
      if bool_decide (kind = TaskKind.PollInbox) then Some {|
        ResponseLimitPolicy.current_bytes :=
          RuntimeSnapshot.evm_rpc_max_response_bytes (runtime_snapshot s);
        ResponseLimitPolicy.min_bytes := RESPONSE_BYTES_POLICY_MIN;
        ResponseLimitPolicy.max_bytes := EVM_RPC_MAX_RESPONSE_BYTES_POLICY_MAX;
        ResponseLimitPolicy.tune_multiplier := 2;
      |} else None;
  |}.

Definition apply_response_limit_tuning (operation : RecoveryOperation.t)
    (adjustment : ResponseLimitAdjustment.t) (s : Agent.t) : result string Agent.t :=
  match operation with
  | RecoveryOperation.EvmPoll =>
      tuned ← set_evm_rpc_max_response_bytes (ResponseLimitAdjustment.to_bytes adjustment) s;
      Ok tuned.2
  | RecoveryOperation.WalletBalanceSync =>
      set_wallet_balance_sync_config
        (wallet_balance_sync_config s <| WalletBalanceSyncConfig.max_response_bytes :=
           ResponseLimitAdjustment.to_bytes adjustment |>) s
  | _ => Err "response limit tuning is not supported for this operation"
  end.

(** The arms of the match: the job's status, the retry and the error text. *)
Definition apply_decision (decision : RecoveryDecision.t) (operation : RecoveryOperation.t)
    (error : string) (s : Agent.t) : JobStatus.t * option N * string * Agent.t :=
  match RecoveryDecision.action decision with
  | RecoveryPolicyAction.Skip => (JobStatus.Skipped, None, error, s)
  | RecoveryPolicyAction.RetryImmediate => (JobStatus.Failed, Some 0%N, error, s)
  | RecoveryPolicyAction.Backoff =>
      (JobStatus.Failed, Some (default 1%N (RecoveryDecision.backoff_secs decision)), error, s)
  | RecoveryPolicyAction.TuneResponseLimit =>
      match RecoveryDecision.response_limit_adjustment decision with
      | Some adjustment =>
          match apply_response_limit_tuning operation adjustment s with
          | Ok s' => (JobStatus.Failed, Some 0%N, error, s')
          | Err tune_error =>
              (JobStatus.Failed, None,
               error +:+ "; response_limit_tune_failed "
                 +:+ pretty (ResponseLimitAdjustment.from_bytes adjustment) +:+ "->"
                 +:+ pretty (ResponseLimitAdjustment.to_bytes adjustment) +:+ ": " +:+ tune_error, s)
          end
      | None => (JobStatus.Failed, None, error +:+ "; response limit adjustment missing", s)
      end
  | RecoveryPolicyAction.EscalateFault => (JobStatus.Failed, None, error, s)
  end.

Definition apply_recovery_policy_for_failed_job (job : ScheduledJob.t) (error : string) (now_ns : N)
    (s : Agent.t) : Agent.t :=
  let defer := bool_decide (ScheduledJob.kind job = TaskKind.PollInbox)
    && is_eth_get_logs_failure error in
  let context := recovery_context_for_task_job job s in
  let decision := decide_recovery_action
    (classify_failure_for_task (ScheduledJob.kind job) error) context in
  let '(status, retry_after_secs, final_error, s) :=
    apply_decision decision (RecoveryContext.operation context) error s in
  let status := if defer then JobStatus.Skipped else status in
  let retry_after_secs := if defer then None else retry_after_secs in
  complete_job (ScheduledJob.id job) status (Some final_error) now_ns retry_after_secs s.

(** ** The cycle check *)

Definition agent_turn_priority (s : Agent.t) : N :=
  match get_task_config TaskKind.AgentTurn s with
  | Some config => TaskScheduleConfig.priority config
  | None => TaskKind.default_priority TaskKind.AgentTurn
  end.

Definition enqueue_immediate_agent_turn_job_if_absent (dedupe_key : string) (s : Agent.t)
    : option string * Agent.t :=
  enqueue_job_if_absent TaskKind.AgentTurn TaskLane.Mutating dedupe_key (Agent.clock s)
    (agent_turn_priority s) s.

(** A top-up is started unless one was just recovered. *)
Definition start_topup (total_cycles now_ns : N) (snapshot : RuntimeSnapshot.t)
    (stage : option TopUpStage.t) (cached_usdc_balance_raw : option N) : M Agent.t string unit :=
  if negb (should_trigger_cycle_topup total_cycles snapshot stage cached_usdc_balance_raw)
     || negb (is_ok (build_cycle_topup snapshot))
  then mret tt
  else
    started ← (catch TopUp.start : M Agent.t string (result string unit));
    if is_ok started then modify (fun s => (enqueue_topup_cycles_job now_ns s).2) else mret tt.

Definition run_check_cycles : M Agent.t string unit :=
  now_ns ← gets Agent.clock;
  total_cycles ← gets canister_cycle_balance;
  liquid_cycles ← gets canister_liquid_cycle_balance;
  expected ← lift (classify_survival_tier total_cycles liquid_cycles);
  lift check_cycles_requirements;;
  snapshot ← gets runtime_snapshot;
  let wallet := RuntimeSnapshot.wallet_balance snapshot in
  let cached_usdc_balance_raw :=
    parse_hex_quantity_u64 (WalletBalanceSnapshot.usdc_balance_raw_hex wallet) in
  stage ← gets Agent.topup_state;
  runway_seconds ← gets (canonical_runway_seconds liquid_cycles cached_usdc_balance_raw
    (WalletBalanceSnapshot.usdc_decimals wallet));
  modify (set_scheduler_survival_tier expected);;
  modify (fun s => (observe_mortality_resources liquid_cycles runway_seconds now_ns s).2);;
  modify (fun s =>
    if bool_decide (mortality_phase s = MortalityPhase.TerminalPending)
    then (enqueue_immediate_agent_turn_job_if_absent "AgentTurn:terminal" s).2 else s);;
  recovered ← (if CycleTopUpConfig.enabled (RuntimeSnapshot.cycle_topup snapshot)
               then maybe_recover_failed_topup snapshot stage now_ns else mret false);
  if (recovered : bool) then mret tt
  else start_topup total_cycles now_ns snapshot stage cached_usdc_balance_raw.

(** ** Dispatch *)

Definition turn_trigger (dedupe_key : string) : ScheduledTurnTrigger.t :=
  if starts_with dedupe_key "AgentTurn:inference-proxy-resume:"
  then ScheduledTurnTrigger.InferenceProxyResume
  else if starts_with dedupe_key "AgentTurn:plan-continuation:"
  then ScheduledTurnTrigger.PlanContinuation
  else ScheduledTurnTrigger.Periodic.

(** [fuel] bounds the rounds of the top-up's loop; a top-up that has not
    returned by then yields no outcome at all. *)
Definition dispatch_job (fuel : nat) (job : ScheduledJob.t)
    : M Agent.t string JobDispatchOutcome.t :=
  match ScheduledJob.kind job with
  | TaskKind.AgentTurn =>
      run_scheduled_turn_job_with_trigger (turn_trigger (ScheduledJob.dedupe_key job));;
      mret JobDispatchOutcome.Completed
  | TaskKind.PollInbox =>
      now_ns ← gets Agent.clock; run_poll_inbox_job now_ns;; mret JobDispatchOutcome.Completed
  | TaskKind.CheckCycles => run_check_cycles;; mret JobDispatchOutcome.Completed
  | TaskKind.TopUpCycles =>
      snapshot ← gets runtime_snapshot;
      topup ← lift (build_cycle_topup snapshot);
      answer ← advance (evm := topup.2) topup.1 fuel;
      finished ← expect answer;
      mret (if (finished : bool) then JobDispatchOutcome.Completed
            else JobDispatchOutcome.TopUpWaiting)
  | TaskKind.Reconcile =>
      now_ns ← gets Agent.clock; run_reconcile_job now_ns;; mret JobDispatchOutcome.Completed
  end.

(** What [run_one_pending_mutating_job] does before it awaits the handler. *)
Inductive pending_attempt :=
| NothingPending (s : Agent.t)
| LeaseRefused (error : string) (s : Agent.t)
| JobSkipped (s : Agent.t)
| Dispatching (job : ScheduledJob.t) (s : Agent.t).

Definition is_terminal_turn (job : ScheduledJob.t) (s : Agent.t) : bool :=
  bool_decide (ScheduledJob.kind job = TaskKind.AgentTurn)
  && (bool_decide (mortality_phase s = MortalityPhase.TerminalPending)
      || bool_decide (mortality_phase s = MortalityPhase.TerminalInProgress)).

(** [format!("{operation:?}")]. *)
Definition operation_text (operation : SurvivalOperationClass.t) : string :=
  match operation with
  | SurvivalOperationClass.Inference => "Inference"
  | SurvivalOperationClass.EvmPoll => "EvmPoll"
  | SurvivalOperationClass.EvmBroadcast => "EvmBroadcast"
  | SurvivalOperationClass.ThresholdSign => "ThresholdSign"
  | SurvivalOperationClass.InterCanisterCall => "InterCanisterCall"
  end.

Definition begin_pending_job (now_ns : N) (s : Agent.t) : pending_attempt :=
  if mutating_lease_active now_ns s then NothingPending s
  else
    match pop_next_pending_job TaskLane.Mutating now_ns s with
    | None => NothingPending s
    | Some (job, s) =>
        let id := ScheduledJob.id job in
        match acquire_mutating_lease id now_ns (lease_ttl_ns (ScheduledJob.kind job)) s with
        | Err error =>
            LeaseRefused error (complete_job id JobStatus.Failed
              (Some ("lease acquire failed: " +:+ error)) (Agent.clock s) None s)
        | Ok s =>
            match operation_class_for_task (ScheduledJob.kind job) with
            | Some operation_class =>
                if negb (is_terminal_turn job s)
                   && negb (can_run_survival_operation operation_class now_ns s)
                then JobSkipped (complete_job id JobStatus.Skipped
                       (Some ("operation blocked by survival policy (operation="
                              +:+ operation_text operation_class +:+ ")")) (Agent.clock s) None s)
                else Dispatching job s
            | None => Dispatching job s
            end
        end
    end.

(** What it does with the handler's result. *)
Definition settle_job (job : ScheduledJob.t) (handled : result string JobDispatchOutcome.t)
    (s : Agent.t) : Agent.t :=
  match handled with
  | Ok outcome =>
      maybe_enqueue_topup_waiting_continuation outcome (Agent.clock s)
        (complete_job (ScheduledJob.id job) JobStatus.Succeeded None (Agent.clock s) None s)
  | Err error => apply_recovery_policy_for_failed_job job error (Agent.clock s) s
  end.

Definition run_one_pending_mutating_job (fuel : nat) (now_ns : N) : M Agent.t string bool :=
  s ← get_state;
  match begin_pending_job now_ns s with
  | NothingPending s => put_state s;; mret false
  | LeaseRefused error s => put_state s;; mthrow error
  | JobSkipped s => put_state s;; mret true
  | Dispatching job s =>
      put_state s;;
      handled ← (catch (dispatch_job fuel job)
                 : M Agent.t string (result string JobDispatchOutcome.t));
      modify (settle_job job handled);;
      mret true
  end.

(** ** The tick *)

(** [while processed_jobs < MAX_MUTATING_JOBS_PER_TICK]; the answer is the
    error that ended the loop. *)
Fixpoint run_pending_jobs (fuel left_jobs : nat) : M Agent.t string (option string) :=
  match left_jobs with
  | O => mret None
  | S left_jobs =>
      now_ns ← gets Agent.clock;
      ran ← (catch (run_one_pending_mutating_job fuel now_ns) : M Agent.t string (result string bool));
      match ran with
      | Ok true => run_pending_jobs fuel left_jobs
      | Ok false => mret None
      | Err error => mret (Some error)
      end
  end.

(** The tick up to its loop, and whether it goes on to the loop. *)
Definition begin_tick (s : Agent.t) : bool * Agent.t :=
  let now_ns := Agent.clock s in
  let s := record_scheduler_tick_start now_ns s in
  if mortality_is_dead s
  then (false, init_certification (record_scheduler_tick_end now_ns None s))
  else
    let s := recover_stale_lease now_ns s in
    let s := (recover_orphaned_turn_lock now_ns s).2 in
    let s := expire_inference_proxy_pending_jobs now_ns INFERENCE_PROXY_PENDING_JOB_TTL_SECS s in
    if negb (scheduler_enabled s)
    then (false, init_certification (record_scheduler_tick_end now_ns None s))
    else (true, refresh_due_jobs now_ns s).

Definition end_tick (terminal_error : option string) (s : Agent.t) : Agent.t :=
  let s := run_retention_maintenance_if_due (Agent.clock s) s in
  init_certification (record_scheduler_tick_end (Agent.clock s) terminal_error s).

Definition scheduler_tick (fuel : nat) : M Agent.t string unit :=
  begun ← gets begin_tick;
  put_state begun.2;;
  if (begun.1 : bool) then
    terminal_error ← run_pending_jobs fuel MAX_MUTATING_JOBS_PER_TICK;
    modify (end_tick terminal_error)
  else mret tt.
End Scheduling.
