(* ===== verification/AgentLease.v ===== *)
(** * AgentLease: one mutating job at a time

    The heartbeat awaits a job's handler, and while it waits other messages
    run: further ticks, calls, the handlers of other jobs.  This file is that
    interleaving as a step relation on the scheduler's state and the jobs being
    executed, made of the pieces of [AgentScheduler] between two awaits, and
    what the lease of [AgentStore] buys: no job runs twice at once, of the jobs
    that are within their lease at most one is running, and a job whose handler
    has returned runs again only after a failure, with attempts left. *)

From S2P Require Import Prelude Text SpawnProtocol Types Externals Child AgentTypes AgentDomain TopUpTypes TopUp AgentStore AgentScheduler.

(** A dispatched job whose handler has not returned: when its lease ends, and
    how many jobs its tick may still run. *)
Module Execution.
Record t := mk {
  job : ScheduledJob.t;
  deadline : N;
  left_jobs : nat;
}.
Definition id (e : t) : string := ScheduledJob.id (job e).
End Execution.

Definition unexpired (s : Agent.t) (e : Execution.t) : bool :=
  (Agent.clock s <? Execution.deadline e)%N.
Definition within_lease (s : Agent.t) (running : list Execution.t) : list Execution.t :=
  filter (unexpired s) running.

(** What happens outside a handler's own work leaves the queue alone, and so
    does each piece of that work. *)
Class AgentHandlersOk `(handlers : AgentHandlers) : Prop := {
  expire_inference_proxy_quiet : forall now_ns ttl s,
    quiet s (expire_inference_proxy_pending_jobs now_ns ttl s);
  retention_quiet : forall now_ns s, quiet s (run_retention_maintenance_if_due now_ns s);
  certification_quiet : forall s, quiet s (init_certification s);
  turn_quiet : forall trigger,
    stable (fun _ => True) quiet (run_scheduled_turn_job_with_trigger trigger);
  poll_quiet : forall now_ns, stable (fun _ => True) quiet (run_poll_inbox_job now_ns);
  reconcile_quiet : forall now_ns, stable (fun _ => True) quiet (run_reconcile_job now_ns);
}.

(** In a list without repeated keys, a sublist whose keys all agree has at most
    one element. *)
Lemma one_by_key {A} (key : A -> string) (keep : A -> bool) (l : list A) :
  NoDup (key <$> l) ->
  (forall a b, a ∈ filter keep l -> b ∈ filter keep l -> key a = key b) ->
  length (filter keep l) <= 1.
Proof.
  intros Hnodup Hsame.
  assert (NoDup (key <$> filter keep l)) as Hfil.
  { clear Hsame. induction l as [|a l IH]; [by apply NoDup_nil|].
    apply NoDup_cons in Hnodup as [Ha Hnodup]. rewrite filter_cons. case_decide; [|by apply IH].
    apply NoDup_cons. split; [|by apply IH]. contradict Ha.
    apply list_elem_of_fmap in Ha as (b & -> & [_ Hb]%list_elem_of_filter).
    by apply list_elem_of_fmap_2. }
  destruct (filter keep l) as [|a [|b l']]; simpl; [lia..|].
  exfalso. simpl in Hfil. apply NoDup_cons in Hfil as [Ha _]. apply Ha.
  rewrite (Hsame a b) by set_solver. apply list_elem_of_here.
Qed.

(** ** The interleaving *)

Section Interleaving.
Context `{sql : SqlRows, handlers : AgentHandlers}.

(** A tick's loop up to its next await, if it comes to one. *)
Fixpoint drive (left_jobs : nat) (s : Agent.t) : Agent.t * option Execution.t :=
  match left_jobs with
  | O => (end_tick None s, None)
  | S left_jobs =>
      match begin_pending_job (Agent.clock s) s with
      | NothingPending s' => (end_tick None s', None)
      | LeaseRefused error s' => (end_tick (Some error) s', None)
      | JobSkipped s' => drive left_jobs s'
      | Dispatching job s' =>
          (s', Some (Execution.mk job
                 (saturating_add 64 (Agent.clock s) (lease_ttl_ns (ScheduledJob.kind job)))
                 left_jobs))
      end
  end.

Definition tick_to_await (s : Agent.t) : Agent.t * option Execution.t :=
  let '(goes_on, s) := begin_tick s in
  if goes_on then drive MAX_MUTATING_JOBS_PER_TICK s else (s, None).

Inductive agent_step : relation (Agent.t * list Execution.t) :=
| step_quiet s s' running :
    quiet s s' -> agent_step (s, running) (s', running)
| step_tick s s' started running :
    tick_to_await s = (s', started) ->
    agent_step (s, running) (s', option_list started ++ running)
| step_settle s s' before e after handled started :
    drive (Execution.left_jobs e) (settle_job (Execution.job e) handled s) = (s', started) ->
    agent_step (s, before ++ e :: after) (s', option_list started ++ before ++ after).

(** ** The invariant *)

Definition numbered (s : Agent.t) (id : string) : Prop :=
  exists n scheduled, id = job_id_of n scheduled /\ (n <= job_seq s)%N.

(** A queue as [init] leaves it and as every message keeps it. *)
Record queue_ok (s : Agent.t) : Prop := {
  queue_seq : in_uint 64 (job_seq s);
  queue_keyed : rows_keyed s;
  queue_numbered : forall id job, get_job id s = Some job -> numbered s id;
}.

Record executions_ok (s : Agent.t) (running : list Execution.t) : Prop := {
  executions_once : NoDup (Execution.id <$> running);
  executions_numbered : forall e, e ∈ running -> numbered s (Execution.id e);
  executions_taken : forall e job, e ∈ running -> get_job (Execution.id e) s = Some job ->
    ScheduledJob.status job <> JobStatus.Pending;
  executions_lease : forall e, e ∈ running -> unexpired s e = true ->
    exists lease, active_lease s = Some lease
      /\ SchedulerLease.job_id lease = Execution.id e
      /\ SchedulerLease.expires_at_ns lease = Execution.deadline e;
}.

Definition consistent (s : Agent.t) (running : list Execution.t) : Prop :=
  queue_ok s /\ executions_ok s running.

Lemma numbered_mono s s' id : (job_seq s <= job_seq s')%N -> numbered s id -> numbered s' id.
Proof. intros Hle (n & scheduled & -> & Hn). exists n, scheduled. split; [done|lia]. Qed.

Lemma unexpired_mono s s' e :
  (Agent.clock s <= Agent.clock s')%N -> unexpired s' e = true -> unexpired s e = true.
Proof. unfold unexpired. rewrite !N.ltb_lt. lia. Qed.

(** Two unexpired executions are one: both hold the lease. *)
Lemma unexpired_same s running e e' :
  executions_ok s running -> e ∈ running -> e' ∈ running ->
  unexpired s e = true -> unexpired s e' = true -> Execution.id e = Execution.id e'.
Proof.
  intros Hok He He' Hu Hu'.
  destruct (executions_lease _ _ Hok e He Hu) as (lease & Hl & Hid & _).
  destruct (executions_lease _ _ Hok e' He' Hu') as (lease' & Hl' & Hid' & _).
  congruence.
Qed.

Lemma consistent_quiet s s' running :
  consistent s running -> quiet s s' -> (job_seq s' < max_uint 64)%N -> consistent s' running.
Proof.
  intros [[Hin Hkeyed Hnum] [Honce Hrnum Htaken Hlease]] [Hclock Hl Hs Hjobs] Hmax.
  destruct (Hs Hin) as [Hle Hin']. specialize (Hjobs Hin Hmax). split; split.
  - done.
  - intros id job Hjob. destruct (Hjobs id) as [[Hsame|[Hgone _]]|(n & sch & -> & Hn & Hfresh)].
    + apply Hkeyed. congruence.
    + congruence.
    + by apply Hfresh.
  - intros id job Hjob. destruct (Hjobs id) as [[Hsame|[Hgone _]]|(n & sch & -> & Hn & Hfresh)].
    + apply (numbered_mono s); [done|]. apply (Hnum id job). congruence.
    + congruence.
    + exists n, sch. split; [done|lia].
  - done.
  - intros e He. by eapply numbered_mono, Hrnum.
  - intros e job He Hjob.
    destruct (Hjobs (Execution.id e)) as [[Hsame|[Hgone _]]|(n & sch & Hid & Hn & Hfresh)].
    + apply (Htaken e job He). congruence.
    + congruence.
    + destruct (Hrnum e He) as (m & sch' & Hid' & Hm). rewrite Hid in Hid'.
      apply job_id_of_inj in Hid'. lia.
  - intros e He Hu. rewrite Hl. apply Hlease; [done|]. by eapply unexpired_mono.
Qed.

(** A finished execution may be forgotten. *)
Lemma executions_drop s before e after :
  executions_ok s (before ++ e :: after) ->
  executions_ok s (before ++ after)
  /\ forall other, other ∈ before ++ after -> Execution.id other <> Execution.id e.
Proof.
  intros [Honce Hnum Htaken Hlease].
  assert (Hincl : forall other, other ∈ before ++ after -> other ∈ before ++ e :: after)
    by set_solver.
  rewrite fmap_app, fmap_cons in Honce. apply NoDup_app in Honce as (Hb & Hdis & Ha).
  apply NoDup_cons in Ha as [He Ha]. split; [split|].
  - rewrite fmap_app. apply NoDup_app. split_and!; [done| |done].
    intros id Hid Hid'. eapply Hdis; [done|]. by apply list_elem_of_further.
  - eauto.
  - eauto.
  - eauto.
  - intros other [Hin|Hin]%elem_of_app Heq.
    + eapply (Hdis (Execution.id e)); [|by apply list_elem_of_here].
      rewrite <-Heq. by apply list_elem_of_fmap_2.
    + apply He. rewrite <-Heq. by apply list_elem_of_fmap_2.
Qed.

(** Completing a job that no execution runs, or whose execution has expired. *)
Lemma consistent_completes id may_wait s s' running :
  consistent s running -> completes id may_wait s s' ->
  (may_wait = true -> forall e, e ∈ running -> Execution.id e <> id) ->
  (forall e, e ∈ running -> unexpired s e = true -> Execution.id e <> id) ->
  consistent s' running.
Proof.
  intros [[Hin Hkeyed Hnum] [Honce Hrnum Htaken Hlease]] [Hclock Hseq Hother Hrow Hl] Hidle Hlate.
  assert (Hback : forall other job, get_job other s' = Some job -> exists job0,
            get_job other s = Some job0 /\ ScheduledJob.id job = ScheduledJob.id job0).
  { intros other job Hjob. destruct (decide (other = id)) as [->|Hne].
    - destruct (Hrow _ Hjob) as (job0 & Hjob0 & Hid & _). by exists job0.
    - exists job. by rewrite <-(Hother other). }
  assert (Hle : (job_seq s <= job_seq s')%N) by lia.
  split; split.
  - by rewrite Hseq.
  - intros other job Hjob. destruct (Hback _ _ Hjob) as (job0 & Hjob0 & ->). by apply Hkeyed.
  - intros other job Hjob. destruct (Hback _ _ Hjob) as (job0 & Hjob0 & _).
    eapply numbered_mono; [done|]. by eapply Hnum.
  - done.
  - intros e He. eapply numbered_mono; [done|by apply Hrnum].
  - intros e job He Hjob. destruct (decide (Execution.id e = id)) as [Hid|Hne].
    + destruct may_wait; [by destruct (Hidle eq_refl e He)|].
      rewrite Hid in Hjob. destruct (Hrow _ Hjob) as (_ & _ & _ & Hst). by apply Hst.
    + apply (Htaken e job He). by rewrite <-Hother.
  - intros e He Hu.
    assert (Hu0 : unexpired s e = true) by (unfold unexpired in *; by rewrite <-Hclock).
    destruct (Hlease e He Hu0) as (lease & Hls & Hid & Hexp).
    destruct Hl as [Hl|(lease' & Hls' & Hid' & _)]; [by exists lease; rewrite Hl|].
    destruct (Hlate e He Hu0). congruence.
Qed.

(** ** Taking a job *)

Context `{!SqlRowsOk sql}.

Lemma pop_next_pending_job_spec lane now_ns s job s' :
  rows_keyed s -> pop_next_pending_job lane now_ns s = Some (job, s') ->
  s' = upsert_job job s /\ ScheduledJob.status job = JobStatus.InFlight
  /\ exists row, get_job (ScheduledJob.id job) s = Some row
       /\ ScheduledJob.status row = JobStatus.Pending.
Proof.
  intros Hkeyed Hpop. unfold pop_next_pending_job in Hpop.
  destruct (select_next_pending_job _ _ _) as [row|] eqn:Hselect; [|done].
  injection Hpop as <- <-. split_and!; [done..|]. exists row.
  unfold select_next_pending_job in Hselect. apply select_one_Some in Hselect.
  apply list_elem_of_filter in Hselect as [_ Hrow]. unfold rows_where in Hrow.
  apply list_elem_of_filter in Hrow as [Hrunnable Hrow].
  apply list_elem_of_fmap in Hrow as ([id row'] & -> & Hrow). apply elem_of_map_to_list in Hrow.
  simpl in *. split.
  - rewrite <-Hrow. unfold get_job. f_equal. by apply Hkeyed.
  - unfold runnable in Hrunnable. apply Is_true_true, andb_true_iff in Hrunnable as [Hst _].
    apply andb_true_iff in Hst as [Hst _]. apply bool_decide_eq_true in Hst.
    by destruct (ScheduledJob.status row').
Qed.

(** The row of a job that waits belongs to no execution; taking it keeps that. *)
Lemma consistent_pop lane now_ns s job s' running :
  consistent s running -> pop_next_pending_job lane now_ns s = Some (job, s') ->
  consistent s' running /\ numbered s' (ScheduledJob.id job)
  /\ get_job (ScheduledJob.id job) s' = Some job
  /\ ScheduledJob.status job <> JobStatus.Pending
  /\ forall e, e ∈ running -> Execution.id e <> ScheduledJob.id job.
Proof.
  intros [[Hin Hkeyed Hnum] Hok] Hpop.
  apply pop_next_pending_job_spec in Hpop as (-> & Hst & row & Hrow & Hpending); [|done].
  assert (Hfree : forall e, e ∈ running -> Execution.id e <> ScheduledJob.id job).
  { intros e He Hid. rewrite <-Hid in Hrow. by apply (executions_taken _ _ Hok _ _ He Hrow). }
  assert (Hmine : get_job (ScheduledJob.id job) (upsert_job job s) = Some job)
    by (by rewrite get_job_upsert, decide_True).
  split_and!; [|by apply (Hnum _ _ Hrow)|done|by rewrite Hst|done].
  eapply (consistent_completes (ScheduledJob.id job) false s); [done| |done|by auto].
  split; [done..| | |by left].
  - intros other Hne. by rewrite get_job_upsert, decide_False.
  - intros job'. rewrite Hmine. intros [= <-]. exists row.
    split_and!; [done|by apply Hkeyed in Hrow|by rewrite Hst].
Qed.

(** A new lease is given only when the old one has ended, so no other execution
    is within its lease. *)
Lemma consistent_acquire job ttl_ns left_jobs s s' running :
  consistent s running -> numbered s (ScheduledJob.id job) ->
  (forall row, get_job (ScheduledJob.id job) s = Some row ->
     ScheduledJob.status row <> JobStatus.Pending) ->
  (forall e, e ∈ running -> Execution.id e <> ScheduledJob.id job) ->
  acquire_mutating_lease (ScheduledJob.id job) (Agent.clock s) ttl_ns s = Ok s' ->
  consistent s'
    (Execution.mk job (saturating_add 64 (Agent.clock s) ttl_ns) left_jobs :: running).
Proof.
  intros [[Hin Hkeyed Hnum] [Honce Hrnum Htaken Hlease]] Hjnum Hjtaken Hfree Hacq.
  unfold acquire_mutating_lease in Hacq.
  apply err_if_seq_Ok in Hacq as [Hruns Hacq]. apply err_if_seq_Ok in Hacq as [_ [= <-]].
  assert (Hlate : forall e, e ∈ running -> unexpired s e = false).
  { intros e He. destruct (unexpired s e) eqn:Hu; [|done].
    destruct (Hlease e He Hu) as (lease & Hl & _ & Hexp).
    unfold lease_runs in Hruns. unfold active_lease in Hl. rewrite Hl in Hruns. simpl in Hruns.
    rewrite Hexp in Hruns. unfold unexpired in Hu. congruence. }
  split; [by split|]. split.
  - rewrite fmap_cons. apply NoDup_cons. split; [|done].
    intros (e & Hid & He)%list_elem_of_fmap. by apply (Hfree e He).
  - intros e [->|He]%elem_of_cons; [done|by apply Hrnum].
  - intros e row [->|He]%elem_of_cons; [by apply Hjtaken|by apply Htaken].
  - intros e [->|He]%elem_of_cons; [by eexists|]. intros Hu.
    assert (unexpired s e = true) by done. rewrite Hlate in *; done.
Qed.

(** The state and the executions after an attempt to begin a job. *)
Definition attempted (left_jobs : nat) (now_ns : N) (attempt : pending_attempt)
    (running : list Execution.t) : Prop :=
  match attempt with
  | NothingPending s | LeaseRefused _ s | JobSkipped s => consistent s running
  | Dispatching job s =>
      consistent s (Execution.mk job
        (saturating_add 64 now_ns (lease_ttl_ns (ScheduledJob.kind job))) left_jobs :: running)
  end.

Lemma consistent_begin_pending_job left_jobs s running :
  consistent s running ->
  attempted left_jobs (Agent.clock s) (begin_pending_job (Agent.clock s) s) running.
Proof.
  intros Hok. unfold begin_pending_job. destruct (mutating_lease_active _ _); [done|].
  destruct (pop_next_pending_job _ _ _) as [[job s1]|] eqn:Hpop; [|done].
  destruct (consistent_pop _ _ _ _ _ _ Hok Hpop) as (Hok1 & Hnum & Hrow & Htaken & Hfree).
  assert (Hclock : Agent.clock s1 = Agent.clock s).
  { apply pop_next_pending_job_spec in Hpop as [-> _]; [done|apply Hok]. }
  assert (Hkeyed : rows_keyed s1) by apply Hok1.
  assert (Hclose : forall s2 status error, consistent s2 running -> status <> JobStatus.Pending ->
    consistent (complete_job (ScheduledJob.id job) status error (Agent.clock s2) None s2) running).
  { intros s2 status error Hok2 Hstatus.
    eapply consistent_completes; [exact Hok2|by apply complete_job_completes, Hstatus; apply Hok2| |].
    - done.
    - intros e He _. by apply Hfree. }
  destruct (acquire_mutating_lease _ _ _ _) as [s2|error] eqn:Hacq; [|by apply Hclose].
  rewrite <-Hclock in Hacq.
  eapply (consistent_acquire _ _ left_jobs) in Hacq as Hok2; [|done|done| |done].
  2:{ intros row. rewrite Hrow. by intros [= <-]. }
  rewrite Hclock in Hok2.
  assert (Hok2' : consistent s2 running).
  { destruct Hok2 as [? Hexec]. split; [done|]. by apply (executions_drop _ []) in Hexec as [? _]. }
  destruct (operation_class_for_task _); [|done]. destruct (_ && _); [|done]. by apply Hclose.
Qed.
(** ** The steps *)

(** The sequence number only grows, so while it has not run out it never had. *)
Definition kept (s : Agent.t) (running : list Execution.t) : Prop :=
  in_uint 64 (job_seq s) /\ ((job_seq s < max_uint 64)%N -> consistent s running).

Lemma kept_quiet s s' running : kept s running -> quiet s s' -> kept s' running.
Proof.
  intros [Hin Hok] Hq. destruct (quiet_seq _ _ Hq Hin) as [Hle Hin']. split; [done|].
  intros Hmax. eapply consistent_quiet; [|done..]. apply Hok. lia.
Qed.

Lemma kept_same s s' running running' :
  kept s running -> job_seq s' = job_seq s ->
  (consistent s running -> consistent s' running') -> kept s' running'.
Proof. intros [Hin Hok] Hseq Hnext. split; rewrite Hseq; auto. Qed.

Lemma job_seq_complete_job id status error now_ns retry_after_secs s :
  job_seq (complete_job id status error now_ns retry_after_secs s) = job_seq s.
Proof.
  unfold complete_job. destruct (get_job id s); [|done].
  destruct (attempted_job _ _ _ _ _). cbv zeta. set (s1 := save_task_runtime _ _ _).
  by destruct (release_lease_frame id s1) as (_ & -> & _).
Qed.

Lemma job_seq_begin_pending_job now_ns s :
  match begin_pending_job now_ns s with
  | NothingPending s' | LeaseRefused _ s' | JobSkipped s' | Dispatching _ s' =>
      job_seq s' = job_seq s
  end.
Proof.
  unfold begin_pending_job. destruct (mutating_lease_active _ _); [done|].
  destruct (pop_next_pending_job _ _ _) as [[job s1]|] eqn:Hpop; [|done].
  assert (Hs1 : job_seq s1 = job_seq s).
  { unfold pop_next_pending_job in Hpop. destruct (select_next_pending_job _ _ _); [|done].
    by injection Hpop as _ <-. }
  destruct (acquire_mutating_lease _ _ _ _) as [s2|error] eqn:Hacq;
    [|by rewrite job_seq_complete_job].
  assert (Hs2 : job_seq s2 = job_seq s1).
  { unfold acquire_mutating_lease in Hacq.
    apply err_if_seq_Ok in Hacq as [_ Hacq]. by apply err_if_seq_Ok in Hacq as [_ [= <-]]. }
  destruct (operation_class_for_task _); [|congruence].
  destruct (_ && _); [|congruence]. rewrite job_seq_complete_job. congruence.
Qed.

Context `{!AgentHandlersOk handlers}.

Lemma quiet_end_tick error s : quiet s (end_tick error s).
Proof.
  unfold end_tick. set (s1 := run_retention_maintenance_if_due _ s).
  assert (Hs1 : quiet s s1) by apply retention_quiet.
  etrans; [exact Hs1|]. etrans; [|apply certification_quiet]. auto with quiet.
Qed.

Lemma kept_drive left_jobs s running s' started :
  kept s running -> drive left_jobs s = (s', started) -> kept s' (option_list started ++ running).
Proof.
  revert s. induction left_jobs as [|left_jobs IH]; intros s Hok; simpl.
  { intros [= <- <-]. eapply kept_quiet; [done|apply quiet_end_tick]. }
  pose proof (consistent_begin_pending_job left_jobs s) as Hnext.
  pose proof (job_seq_begin_pending_job (Agent.clock s) s) as Hseq.
  destruct (begin_pending_job _ s) as [s1|error s1|s1|job s1].
  - intros [= <- <-]. eapply kept_quiet; [|apply quiet_end_tick].
    by eapply kept_same; [done|done|apply Hnext].
  - intros [= <- <-]. eapply kept_quiet; [|apply quiet_end_tick].
    by eapply kept_same; [done|done|apply Hnext].
  - apply IH. by eapply kept_same; [done|done|apply Hnext].
  - intros [= <- <-]. by eapply kept_same; [done|done|apply Hnext].
Qed.

Lemma quiet_refresh_due_jobs now_ns s : quiet s (refresh_due_jobs now_ns s).
Proof.
  unfold refresh_due_jobs. generalize (merge_sort (schedule_le
    (fun p => TaskKind.as_str (TaskScheduleConfig.kind p.2))) (list_task_configs s)).
  intros schedules. generalize (scheduler_low_cycles_mode s). intros low. revert s.
  induction schedules as [|[kind config] schedules IH]; intros s; [done|].
  simpl. etrans; [|apply IH]. unfold refresh_task. destruct (negb _); [done|].
  match goal with |- quiet s (let '(_, _) := ?enqueue in _) =>
    assert (Hq : quiet s enqueue.2) by apply quiet_enqueue; destruct enqueue as [id s1] end.
  etrans; [exact Hq|]. auto with quiet.
Qed.

(** A lease is only taken from an execution that has expired. *)
Lemma kept_recover_stale_lease s running :
  kept s running -> kept (recover_stale_lease (Agent.clock s) s) running.
Proof.
  intros Hok. unfold recover_stale_lease. fold (active_lease s).
  destruct (active_lease s) as [lease|] eqn:Hlease; [|done].
  destruct (_ <=? _)%N eqn:Hlate; [|done].
  eapply kept_same; [done|apply job_seq_complete_job|]. intros Hcons.
  eapply consistent_completes; [done|by apply complete_job_completes; [apply Hcons|]|done|].
  intros e He Hu. destruct (executions_lease _ _ (proj2 Hcons) e He Hu) as (lease' & Hl & Hid & Hexp).
  rewrite Hlease in Hl. injection Hl as <-. unfold unexpired in Hu.
  apply N.ltb_lt in Hu. apply N.leb_le in Hlate. lia.
Qed.

Lemma kept_tick s running s' started :
  kept s running -> tick_to_await s = (s', started) -> kept s' (option_list started ++ running).
Proof.
  intros Hok. unfold tick_to_await, begin_tick.
  set (s1 := record_scheduler_tick_start (Agent.clock s) s).
  assert (Hok1 : kept s1 running) by (eapply kept_quiet; [done|unfold s1; auto with quiet]).
  assert (Hend : forall s2 now_ns error, kept s2 running ->
    kept (init_certification (record_scheduler_tick_end now_ns error s2)) running).
  { intros s2 now_ns error Hok2. eapply kept_quiet; [done|].
    etrans; [|apply certification_quiet]. auto with quiet. }
  destruct (mortality_is_dead s1); [intros [= <- <-]; by apply Hend|].
  set (s2 := recover_stale_lease _ s1).
  assert (Hok2 : kept s2 running) by exact (kept_recover_stale_lease _ _ Hok1).
  set (s3 := (recover_orphaned_turn_lock _ s2).2).
  assert (Hok3 : kept s3 running)
    by (eapply kept_quiet; [exact Hok2|apply quiet_recover_orphaned_turn_lock]).
  set (s4 := expire_inference_proxy_pending_jobs _ _ s3).
  assert (Hok4 : kept s4 running)
    by (eapply kept_quiet; [exact Hok3|apply expire_inference_proxy_quiet]).
  destruct (negb _); [intros [= <- <-]; by apply Hend|]. apply kept_drive.
  eapply kept_quiet; [exact Hok4|apply quiet_refresh_due_jobs].
Qed.
(** *** Settling a job *)

Lemma kept_complete_job before e after status error retry_after_secs s :
  kept s (before ++ e :: after) -> status <> JobStatus.Pending ->
  kept (complete_job (Execution.id e) status error (Agent.clock s) retry_after_secs s)
    (before ++ after).
Proof.
  intros Hok Hstatus. eapply kept_same; [done|apply job_seq_complete_job|].
  intros [Hqueue [Hexec Hfree]%executions_drop].
  eapply consistent_completes; [by split|by apply complete_job_completes; [apply Hqueue|]| |].
  - intros _. apply Hfree.
  - intros other Hother _. by apply Hfree.
Qed.

Lemma quiet_response_limit_tuning operation adjustment s s' :
  apply_response_limit_tuning operation adjustment s = Ok s' ->
  quiet s s' /\ Agent.clock s' = Agent.clock s.
Proof.
  unfold apply_response_limit_tuning. destruct operation; try done.
  - unfold set_wallet_balance_sync_config. intros ([] & _ & [= <-])%result_bind_Ok.
    split; [apply quiet_update_snapshot|done].
  - intros ([tuned s1] & Htune & [= <-])%result_bind_Ok.
    unfold set_evm_rpc_max_response_bytes in Htune.
    apply err_if_seq_Ok in Htune as [_ Htune]. apply err_if_seq_Ok in Htune as [_ [= _ <-]].
    split; [apply quiet_update_snapshot|done].
Qed.

Lemma apply_decision_spec decision operation error s status retry_after_secs text s' :
  apply_decision decision operation error s = (status, retry_after_secs, text, s') ->
  quiet s s' /\ Agent.clock s' = Agent.clock s /\ status <> JobStatus.Pending.
Proof.
  unfold apply_decision. intros H.
  destruct (RecoveryDecision.action decision);
    try (injection H as <- <- <- <-; split_and!; done).
  destruct (RecoveryDecision.response_limit_adjustment decision) as [adjustment|];
    [|injection H as <- <- <- <-; split_and!; done].
  destruct (apply_response_limit_tuning _ _ _) as [s1|] eqn:Htune;
    injection H as <- <- <- <-; [|split_and!; done].
  by apply quiet_response_limit_tuning in Htune as [? ?].
Qed.

Lemma quiet_topup_continuation outcome now_ns s :
  quiet s (maybe_enqueue_topup_waiting_continuation outcome now_ns s).
Proof. destruct outcome; [done|apply quiet_enqueue]. Qed.

Lemma kept_settle_job before e after handled s :
  kept s (before ++ e :: after) ->
  kept (settle_job (Execution.job e) handled s) (before ++ after).
Proof.
  intros Hok. unfold settle_job. destruct handled as [outcome|error].
  - eapply kept_quiet; [|apply quiet_topup_continuation]. by apply kept_complete_job.
  - unfold apply_recovery_policy_for_failed_job. cbv zeta.
    destruct (apply_decision _ _ _ _) as [[[status retry] text] s1] eqn:Hdecide.
    apply apply_decision_spec in Hdecide as (Hq & Hclock & Hstatus). rewrite <-Hclock.
    apply kept_complete_job; [by eapply kept_quiet|by destruct (_ && _)].
Qed.

Lemma kept_step st st' :
  agent_step st st' -> kept st.1 st.2 -> kept st'.1 st'.2.
Proof.
  intros [s s' running Hq|s s' started running Htick|s s' before e after handled started Hdrive];
    simpl; intros Hok.
  - by eapply kept_quiet.
  - by eapply kept_tick.
  - eapply kept_drive; [|done]. by apply kept_settle_job.
Qed.

(** *** After the last attempt *)

Lemma complete_job_row id status error now_ns retry_after_secs s row :
  rows_keyed s -> status <> JobStatus.Pending ->
  get_job id (complete_job id status error now_ns retry_after_secs s) = Some row ->
  ScheduledJob.status row = JobStatus.Pending ->
  is_failure status = true /\ (ScheduledJob.attempts row < ScheduledJob.max_attempts row)%N.
Proof.
  intros Hkeyed Hstatus. unfold complete_job.
  destruct (get_job id s) as [job|] eqn:Hjob; [|congruence].
  destruct (attempted_job _ _ _ _ _) as [job' retry_at] eqn:Hattempt. cbv zeta.
  rewrite get_job_release_lease.
  match goal with |- get_job id ?s1 = _ -> _ =>
    change (get_job id s1) with (get_job id (upsert_job job' s)) end.
  destruct (attempted_job_spec _ _ _ _ _ _ _ Hattempt Hstatus) as [Hid _].
  rewrite get_job_upsert, decide_True by (by rewrite Hid, (Hkeyed _ _ Hjob)).
  intros [= <-] Hpending. revert Hattempt. unfold attempted_job. cbv zeta.
  destruct (is_failure status && is_some retry_after_secs && _) eqn:Hretry;
    intros [= <- _]; [|done].
  apply andb_true_iff in Hretry as [[Hfailure _]%andb_true_iff Hattempts].
  split; [done|]. by apply N.ltb_lt.
Qed.

Lemma settle_job_seq job handled s :
  in_uint 64 (job_seq s) -> (job_seq s <= job_seq (settle_job job handled s))%N.
Proof.
  intros Hin. unfold settle_job. destruct handled as [outcome|error].
  - set (s1 := complete_job _ _ _ _ _ s).
    assert (Hs1 : job_seq s1 = job_seq s) by apply job_seq_complete_job.
    rewrite <-Hs1 in *. by apply (quiet_seq _ _ (quiet_topup_continuation outcome (Agent.clock s) s1)).
  - unfold apply_recovery_policy_for_failed_job. cbv zeta.
    destruct (apply_decision _ _ _ _) as [[[status retry] text] s1] eqn:Hdecide.
    apply apply_decision_spec in Hdecide as (Hq & _). rewrite job_seq_complete_job.
    by apply (quiet_seq _ _ Hq).
Qed.

(** A job goes back to wait only after a failure, with attempts left. *)
Lemma put_back_after_failure job handled s row :
  queue_ok s -> numbered s (ScheduledJob.id job) ->
  (job_seq (settle_job job handled s) < max_uint 64)%N ->
  get_job (ScheduledJob.id job) (settle_job job handled s) = Some row ->
  ScheduledJob.status row = JobStatus.Pending ->
  is_ok handled = false /\ (ScheduledJob.attempts row < ScheduledJob.max_attempts row)%N.
Proof.
  intros Hqueue (m & sch & Hid & Hm) Hmax. unfold settle_job in *. destruct handled as [outcome|error].
  - set (s1 := complete_job _ _ _ _ _ s) in *. intros Hrow Hpending. exfalso.
    assert (Hs1 : job_seq s1 = job_seq s) by apply job_seq_complete_job.
    destruct (quiet_jobs _ _ (quiet_topup_continuation outcome (Agent.clock s) s1))
      with (ScheduledJob.id job) as [[Hsame|[Hgone _]]|(n & sch' & Hid' & Hn & _)];
      [by rewrite Hs1; apply Hqueue|done|..].
    + rewrite Hsame in Hrow. apply complete_job_row in Hrow as [Hno _]; [done|apply Hqueue|done|done].
    + congruence.
    + rewrite Hid in Hid'. apply job_id_of_inj in Hid'. lia.
  - unfold apply_recovery_policy_for_failed_job in *. cbv zeta in *.
    destruct (apply_decision _ _ _ _) as [[[status retry] text] s1] eqn:Hdecide.
    apply apply_decision_spec in Hdecide as (Hq & _ & Hstatus). rewrite job_seq_complete_job in Hmax.
    intros Hrow Hpending. split; [done|].
    destruct (quiet_seq _ _ Hq (queue_seq _ Hqueue)) as [_ Hin1].
    assert (rows_keyed s1) as Hkeyed.
    { eapply (consistent_quiet s s1 []); [|done|done]. split; [done|].
      split; [by apply NoDup_nil|..]; simpl; set_solver. }
    eapply complete_job_row; [exact Hkeyed| |exact Hrow|exact Hpending].
    by destruct (_ && _).
Qed.

(** An execution that is over, kept as a mark that the job must not run again:
    it is never within its lease. *)
Definition retired (e : Execution.t) : Execution.t := Execution.mk (Execution.job e) 0 0.

Lemma kept_retired before e after handled s :
  kept s (before ++ e :: after) -> (job_seq s < max_uint 64)%N ->
  (forall row, get_job (Execution.id e) (settle_job (Execution.job e) handled s) = Some row ->
     ScheduledJob.status row <> JobStatus.Pending) ->
  kept (settle_job (Execution.job e) handled s) (retired e :: before ++ after).
Proof.
  intros Hok Hseq Hclosed. destruct (kept_settle_job before e after handled s Hok) as [Hin Hnext].
  destruct Hok as [Hin0 Hcons]. destruct (Hcons Hseq) as [_ Hexec].
  pose proof (settle_job_seq (Execution.job e) handled s Hin0) as Hle.
  assert (numbered s (Execution.id e)) as Hnum
    by (apply (executions_numbered _ _ Hexec); set_solver).
  apply executions_drop in Hexec as [_ Hother]. split; [done|]. intros Hmax.
  destruct (Hnext Hmax) as [Hqueue [Honce Hrnum Htaken Hlease]]. split; [done|]. split.
  - rewrite fmap_cons. apply NoDup_cons. split; [|done].
    intros (other & Hid & Hin')%list_elem_of_fmap. by apply (Hother other).
  - intros other [->|Hin']%elem_of_cons; [by eapply numbered_mono|by apply Hrnum].
  - intros other row [->|Hin']%elem_of_cons; [by apply Hclosed|by apply Htaken].
  - intros other [->|Hin']%elem_of_cons; [|by apply Hlease].
    intros Hu. unfold unexpired in Hu. apply N.ltb_lt in Hu. simpl in Hu. lia.
Qed.

Lemma kept_perm s running running' : running ≡ₚ running' -> kept s running -> kept s running'.
Proof.
  intros Hperm [Hin Hok]. split; [done|]. intros Hmax.
  destruct (Hok Hmax) as [Hqueue [Honce Hrnum Htaken Hlease]]. split; [done|].
  assert (forall e, e ∈ running' -> e ∈ running) as Hsub by (intros e; by rewrite Hperm).
  split; [by rewrite <-Hperm|intros e He; eauto..].
Qed.

Lemma kept_step_retired e st st' :
  agent_step st st' -> kept st.1 (e :: st.2) -> kept st'.1 (e :: st'.2).
Proof.
  intros [s s' running Hq|s s' started running Htick|s s' before x after handled started Hdrive];
    simpl; intros Hok.
  - by eapply kept_quiet.
  - apply (kept_perm _ (option_list started ++ e :: running)); [symmetry; apply Permutation_middle|].
    by eapply kept_tick.
  - apply (kept_perm _ (option_list started ++ e :: before ++ after));
      [symmetry; apply Permutation_middle|].
    eapply kept_drive; [|done]. by apply (kept_settle_job (e :: before)).
Qed.

Lemma retired_stays e st st' :
  rtc agent_step st st' -> kept st.1 (e :: st.2) -> (job_seq st'.1 < max_uint 64)%N ->
  Execution.id e ∉ Execution.id <$> st'.2.
Proof.
  intros Hsteps Hok Hmax.
  assert (kept st'.1 (e :: st'.2)) as [_ Hcons].
  { eapply (rtc_ind_r (fun st => kept st.1 (e :: st.2))); [exact Hok| |exact Hsteps].
    intros st1 st2 _ Hstep Hok1. by eapply kept_step_retired. }
  destruct (Hcons Hmax) as [_ Hexec]. pose proof (executions_once _ _ Hexec) as Honce.
  rewrite fmap_cons in Honce. by apply NoDup_cons in Honce as [? _].
Qed.

(** C37 - Exclusivity of the mutating lease.  However ticks, returning handlers
    and other messages interleave from a state in which no job is being
    executed - where what the handlers, retention and certification do in
    between adds jobs to the queue but leaves the rows and the lease that are
    there alone - no two simultaneous executions run the same job, a job that
    is being executed is not put back to wait, every execution whose lease has
    not expired holds the active lease with its own deadline, and at most one
    execution is within its lease, so that the automaton's mutating jobs run one
    at a time as far as handlers return before their lease ends.  When a handler
    returns, its job waits for another attempt only if the handler failed and
    the job has attempts left; otherwise it is never executed again. *)
Theorem agent_lease_exclusive (s s' : Agent.t) (running : list Execution.t)
    (Hqueue : queue_ok s) (Hreach : rtc agent_step (s, []) (s', running))
    (Hseq : (job_seq s' < max_uint 64)%N) :
  NoDup (Execution.id <$> running)
  /\ (forall e job, e ∈ running -> get_job (Execution.id e) s' = Some job ->
        ScheduledJob.status job <> JobStatus.Pending)
  /\ (forall e, e ∈ running -> unexpired s' e = true ->
        exists lease, active_lease s' = Some lease
          /\ SchedulerLease.job_id lease = Execution.id e
          /\ SchedulerLease.expires_at_ns lease = Execution.deadline e)
  /\ length (within_lease s' running) <= 1
  /\ forall before e after handled,
       running = before ++ e :: after ->
       let settled := settle_job (Execution.job e) handled s' in
       let waits row := get_job (Execution.id e) settled = Some row
                        /\ ScheduledJob.status row = JobStatus.Pending in
       (forall row, (job_seq settled < max_uint 64)%N -> waits row ->
          is_ok handled = false
          /\ (ScheduledJob.attempts row < ScheduledJob.max_attempts row)%N)
       /\ ((forall row, ~ waits row) -> forall s1 started s2 running2,
             drive (Execution.left_jobs e) settled = (s1, started) ->
             rtc agent_step (s1, option_list started ++ before ++ after) (s2, running2) ->
             (job_seq s2 < max_uint 64)%N ->
             Execution.id e ∉ Execution.id <$> running2).
Proof.
  assert (Hkept : kept s' running).
  { change (kept (s', running).1 (s', running).2).
    eapply (rtc_ind_r (fun st => kept st.1 st.2)); [| |exact Hreach].
    - split; [apply Hqueue|]. intros _. split; [done|].
      split; [by apply NoDup_nil|..]; simpl; set_solver.
    - intros st st' _ Hstep Hok. by eapply kept_step. }
  destruct (proj2 Hkept Hseq) as [Hqueue' Hok]. split_and!; [apply Hok..| |].
  - apply (one_by_key Execution.id); [apply Hok|].
    intros e e' [Hu He]%list_elem_of_filter [Hu' He']%list_elem_of_filter.
    by eapply unexpired_same; [|exact He|exact He'|apply Is_true_true|apply Is_true_true].
  - intros before e after handled -> settled waits. split.
    + intros row Hmax [Hrow Hpending].
      eapply put_back_after_failure; [exact Hqueue'| |exact Hmax|exact Hrow|exact Hpending].
      apply (executions_numbered _ _ Hok). set_solver.
    + intros Hclosed s1 started s2 running2 Hdrive Hsteps Hmax.
      apply (retired_stays (retired e) _ _ Hsteps); [|done]. simpl.
      apply (kept_perm _ (option_list started ++ retired e :: before ++ after));
        [symmetry; apply Permutation_middle|].
      eapply kept_drive; [|exact Hdrive]. apply kept_retired; [done|done|].
      intros row Hrow Hpending. by apply (Hclosed row).
Qed.
End Interleaving.

(** ** The heartbeat is such a sequence of steps *)

Section Tick.
Context `{ext : Externals, json : Json, libs : !TopUpLibs, cost : CostApi}.
Context `{platform : !TopUpPlatform Agent.t, sql : SqlRows, handlers : AgentHandlers}.
Context `{!AgentHandlersOk handlers}.

Abbreviation quietly := (stable (fun _ => True) quiet).
#[local] Set Default Proof Using "All".

(** The canisters a top-up calls, and the automaton's own port. *)
Context `{!PlatformStable (fun _ => True) quiet}.
Context (evm_port_quiet : forall snapshot port, evm_port_from_snapshot snapshot = Ok port ->
  EvmPortStable (fun _ => True) quiet port).

Lemma quiet_topup_job now_ns s : quiet s (enqueue_topup_cycles_job now_ns s).2.
Proof. apply quiet_enqueue. Qed.

Lemma quiet_modify {E} (f : Agent.t -> Agent.t) :
  (forall s, quiet s (f s)) -> quietly (modify (E:=E) f).
Proof. intros Hf. apply stable_modify. auto. Qed.

Lemma quiet_topup_start : quietly TopUp.start.
Proof. apply (stable_start _ _). Qed.

Lemma quiet_topup_reset : quietly TopUp.reset.
Proof. apply (stable_reset _ _). Qed.

#[local] Hint Resolve quiet_topup_job : quiet.
#[local] Hint Resolve turn_quiet poll_quiet reconcile_quiet quiet_topup_start quiet_topup_reset
  : stable.
#[local] Hint Extern 1 (stable _ quiet (modify _)) =>
  apply quiet_modify; intros ?; auto with quiet : stable.

Lemma quiet_maybe_recover_failed_topup snapshot stage now_ns :
  quietly (maybe_recover_failed_topup snapshot stage now_ns).
Proof.
  unfold maybe_recover_failed_topup. destruct (negb _); [auto with stable|].
  destruct (negb _); [auto with stable|].
  apply stable_bind; [apply _|auto with stable|]. intros cleared.
  destruct (negb _); [auto with stable|].
  apply stable_bind; [apply _|auto with stable|]. intros started.
  destruct (negb _); [auto with stable|].
  apply stable_bind; [apply _|auto with stable|]. auto with stable.
Qed.

Lemma quiet_start_topup total_cycles now_ns snapshot stage balance :
  quietly (start_topup total_cycles now_ns snapshot stage balance).
Proof.
  unfold start_topup. destruct (_ || _); [auto with stable|].
  apply stable_bind; [apply _|auto with stable|]. intros started.
  destruct (is_ok started); auto with stable.
Qed.

Lemma quiet_run_check_cycles : quietly run_check_cycles.
Proof.
  unfold run_check_cycles.
  repeat (apply stable_bind; [apply _|auto with stable|intros ?]).
  - apply quiet_modify. intros s. case_bool_decide; [apply quiet_enqueue|done].
  - destruct (CycleTopUpConfig.enabled _); [apply quiet_maybe_recover_failed_topup|auto with stable].
  - match goal with |- stable _ _ (if ?b then _ else _) => destruct b end;
      [auto with stable|apply quiet_start_topup].
Qed.

Lemma quiet_topup_advance fuel snapshot topup :
  build_cycle_topup snapshot = Ok topup -> quietly (advance (evm := topup.2) topup.1 fuel).
Proof.
  unfold build_cycle_topup. intros (config & _ & Hport)%result_bind_Ok.
  apply result_bind_Ok in Hport as (port & Hport & [= <-]).
  pose proof (evm_port_quiet _ _ Hport). by apply (stable_advance _ _).
Qed.

Lemma stable_bind_lift {S E A B} (I : S -> Prop) (R : relation S) `{!PreOrder R}
    (r : result E A) (f : A -> M S E B) :
  (forall a, r = Ok a -> stable I R (f a)) -> stable I R (lift r ≫= f).
Proof.
  intros Hf. destruct r as [a|error]; [by apply Hf|]. apply stable_same; [done|].
  by intros s s' [= <-].
Qed.

Lemma quiet_dispatch_job fuel job : quietly (dispatch_job fuel job).
Proof.
  unfold dispatch_job. destruct (ScheduledJob.kind job).
  4:{ apply stable_bind; [apply _|auto with stable|]. intros snapshot.
      apply stable_bind_lift; [apply _|]. intros topup Htopup.
      apply stable_bind; [apply _|by eapply quiet_topup_advance|]. intros answer.
      apply stable_bind; auto with stable. }
  all: repeat (apply stable_bind; [apply _|auto using quiet_run_check_cycles with stable|intros ?]);
    auto with stable.
Qed.

(** The loop, from where its first piece has brought the state. *)
Lemma run_pending_jobs_steps fuel left_jobs s error s' running st :
  run_pending_jobs fuel left_jobs s = Done error s' ->
  rtc agent_step st
    (let '(s1, started) := drive left_jobs s in (s1, option_list started ++ running)) ->
  rtc agent_step st (end_tick error s', running).
Proof.
  revert s st. induction left_jobs as [|left_jobs IH]; intros s st; simpl.
  { by intros [= <- <-]. }
  unfold mbind at 1, M_bind at 1, gets at 1. unfold mbind at 1, M_bind at 1, catch at 1.
  unfold run_one_pending_mutating_job.
  unfold mbind at 1, M_bind at 1, get_state at 1.
  destruct (begin_pending_job (Agent.clock s) s) as [s1|text s1|s1|job s1].
  - by intros [= <- <-].
  - by intros [= <- <-].
  - apply IH.
  - set (e := Execution.mk job _ left_jobs). exec. intros Hrun Hst.
    assert (Hhandled : exists handled s2, quiet s1 s2
      /\ run_pending_jobs fuel left_jobs (settle_job job handled s2) = Done error s').
    { pose proof (quiet_dispatch_job fuel job s1) as Hq.
      revert Hrun. destruct (dispatch_job fuel job s1) as [outcome s2|text s2|]; intros Hrun; [..|done].
      + exists (Ok outcome), s2. split; [by apply Hq|exact Hrun].
      + exists (Err text), s2. split; [by apply Hq|exact Hrun]. }
    destruct Hhandled as (handled & s2 & Hq & Hrun2). eapply IH; [exact Hrun2|].
    etrans; [exact Hst|]. eapply rtc_l; [by apply step_quiet|].
    destruct (drive left_jobs (settle_job job handled s2)) as [s3 started] eqn:Hdrive.
    apply rtc_once. by apply (step_settle s2 s3 [] e running handled started).
Qed.

(** A tick that no other message interrupts. *)
Lemma scheduler_tick_steps fuel s s' running :
  scheduler_tick fuel s = Done tt s' -> rtc agent_step (s, running) (s', running).
Proof.
  unfold scheduler_tick. intros Htick.
  assert (Hstep : tick_to_await s = (let '(goes_on, s1) := begin_tick s in
    if goes_on then drive MAX_MUTATING_JOBS_PER_TICK s1 else (s1, None))) by done.
  revert Htick Hstep. generalize MAX_MUTATING_JOBS_PER_TICK. intros left_jobs.
  exec. destruct (begin_tick s) as [goes_on s1]. destruct goes_on; simpl.
  - destruct (run_pending_jobs fuel left_jobs s1) as [error s2|text s2|] eqn:Hrun; [|done..].
    intros [= <-] Hstep. eapply run_pending_jobs_steps; [exact Hrun|].
    destruct (drive left_jobs s1) as [s3 started]. by apply rtc_once, step_tick.
  - intros [= <-] Hstep. by apply rtc_once, (step_tick s s1 None running).
Qed.
End Tick.

(** ** Which job is taken *)

(** Closing the job that holds the lease. *)
Lemma complete_job_closes id status error now_ns s job lease :
  get_job id s = Some job -> ScheduledJob.id job = id ->
  active_lease s = Some lease -> SchedulerLease.job_id lease = id ->
  let s' := complete_job id status error now_ns None s in
  ScheduledJob.status <$> get_job id s' = Some status
  /\ active_lease s' = None
  /\ forall other, other <> id -> get_job other s' = get_job other s.
Proof.
  intros Hjob Hid Hlease Hholder s'. unfold s', complete_job. rewrite Hjob.
  destruct (attempted_job status error now_ns None job) as [job' retry_at] eqn:Hattempt.
  unfold attempted_job in Hattempt. cbv zeta in Hattempt. rewrite andb_false_r in Hattempt.
  simpl in Hattempt. injection Hattempt as Hjob' _. cbv zeta.
  set (runtime := settled_task_runtime _ _ _ _ _ _ _ _ _ _). clearbody runtime.
  set (s1 := save_task_runtime _ _ _).
  assert (Hget : forall other, get_job other (release_lease id s1)
            = if decide (other = id) then Some job' else get_job other s).
  { intros other. rewrite get_job_release_lease.
    change (get_job other s1) with (get_job other (upsert_job job' s)).
    rewrite get_job_upsert. rewrite <-Hjob'. simpl. by rewrite Hid. }
  split_and!.
  - rewrite Hget, decide_True by done. simpl. by rewrite <-Hjob'.
  - unfold release_lease. fold (active_lease s1).
    change (active_lease s1) with (active_lease s). rewrite Hlease. simpl.
    by rewrite bool_decide_eq_true_2.
  - intros other Hother. by rewrite Hget, decide_False.
Qed.

Section Selection.
Abbreviation due := (runnable (TaskLane.as_str TaskLane.Mutating)).

(** A due row that no due row should precede. *)
Definition next_in_line (now_ns : N) (s : Agent.t) (row : ScheduledJob.t) : Prop :=
  get_job (ScheduledJob.id row) s = Some row /\ due now_ns row = true
  /\ forall id other, get_job id s = Some other -> due now_ns other = true ->
       runs_before row other = true.

(** The survival policy lets the job run; the terminal turn always may. *)
Definition may_run (now_ns : N) (s : Agent.t) (job : ScheduledJob.t) : bool :=
  match operation_class_for_task (ScheduledJob.kind job) with
  | Some operation_class => is_terminal_turn job s || can_run_survival_operation operation_class now_ns s
  | None => true
  end.

Lemma rows_where_spec condition s row :
  rows_keyed s ->
  row ∈ rows_where condition s
  <-> get_job (ScheduledJob.id row) s = Some row /\ condition row = true.
Proof.
  intros Hkeyed. unfold rows_where. rewrite list_elem_of_filter, list_elem_of_fmap. split.
  - intros (Hrow%Is_true_true & [id row'] & -> & Hin%elem_of_map_to_list). simpl in *.
    by rewrite (Hkeyed _ _ Hin).
  - intros [Hrow Hcond]. split; [by apply Is_true_true|].
    exists (ScheduledJob.id row, row). split; [done|]. by apply elem_of_map_to_list.
Qed.

(** [runs_before] is a total preorder, so some due row is first. *)
Lemma runs_before_total a b : runs_before a b = false -> runs_before b a = true.
Proof.
  unfold runs_before. rewrite !orb_false_iff, !orb_true_iff, !andb_false_iff, !andb_true_iff.
  rewrite !N.ltb_lt, !N.ltb_ge, !N.eqb_eq, !N.eqb_neq, !Z.leb_le, !Z.leb_gt. lia.
Qed.

Lemma runs_before_trans a b c :
  runs_before a b = true -> runs_before b c = true -> runs_before a c = true.
Proof.
  unfold runs_before. rewrite !orb_true_iff, !andb_true_iff.
  rewrite !N.ltb_lt, !N.eqb_eq, !Z.leb_le. lia.
Qed.

Lemma runs_before_refl a : runs_before a a = true.
Proof.
  unfold runs_before. by rewrite N.eqb_refl, Z.leb_refl, orb_true_r.
Qed.

Lemma some_row_first rows :
  rows <> [] -> exists row, row ∈ rows /\ forallb (runs_before row) rows = true.
Proof.
  induction rows as [|a rows IH]; [done|]. intros _. destruct (decide (rows = [])) as [->|Hne].
  { exists a. split; [set_solver|]. simpl. by rewrite runs_before_refl. }
  destruct (IH Hne) as (first & Hin & Hfirst).
  destruct (runs_before a first) eqn:Ha.
  - exists a. split; [set_solver|]. apply andb_true_iff. split; [apply runs_before_refl|].
    rewrite forallb_forall in Hfirst. apply forallb_forall. intros row Hrow.
    eapply runs_before_trans; [exact Ha|by apply Hfirst].
  - exists first. split; [set_solver|]. apply andb_true_iff.
    split; [by apply runs_before_total|done].
Qed.

Context `{sql : SqlRows, !SqlRowsOk sql}.

Lemma pop_next_pending_job_correct now_ns s :
  rows_keyed s ->
  match pop_next_pending_job TaskLane.Mutating now_ns s with
  | None => forall id row, get_job id s = Some row -> due now_ns row = false
  | Some (job, s') => exists row, next_in_line now_ns s row
      /\ job = row <| ScheduledJob.started_at_ns := Some (Agent.clock s) |>
                   <| ScheduledJob.status := JobStatus.InFlight |>
      /\ s' = upsert_job job s
  end.
Proof.
  intros Hkeyed. unfold pop_next_pending_job, select_next_pending_job.
  set (rows := rows_where _ s).
  destruct (select_one _) as [row|] eqn:Hselect; simpl.
  - exists row. split; [|done]. apply select_one_Some, list_elem_of_filter in Hselect as [Hfirst Hrow].
    apply Is_true_true in Hfirst. apply rows_where_spec in Hrow as [Hget Hdue]; [|done].
    split_and!; [done..|]. intros id other Hother Hodue. rewrite forallb_forall in Hfirst.
    apply Hfirst, list_elem_of_In, rows_where_spec; [done|].
    split; [|done]. by rewrite (Hkeyed _ _ Hother).
  - intros id row Hget. destruct (due now_ns row) eqn:Hdue; [|done]. exfalso.
    assert (Hin : row ∈ rows)
      by (apply rows_where_spec; [done|]; by rewrite (Hkeyed _ _ Hget)).
    destruct (some_row_first rows) as (first & Hfin & Hfirst); [by intros Hnil; rewrite Hnil in Hin; set_solver|].
    apply select_one_None in Hselect.
    assert (first ∈ @nil ScheduledJob.t) as Hbad; [|set_solver].
    rewrite <-Hselect. apply list_elem_of_filter. split; [by apply Is_true_true|done].
Qed.
(** What a round of the tick's loop does.  It finds nothing exactly when a
    lease is running or no mutating job is due; otherwise it takes a due job of
    the highest priority, the oldest of those, and never fails to get the lease
    for it.  An inference turn or an inbox poll that the survival policy
    forbids is closed as skipped and the lease returned - except the terminal
    turn, which always runs; any other job is dispatched with the lease in its
    name for its time to live.  No other row of the queue changes. *)
Theorem begin_pending_job_correct (now_ns : N) (s : Agent.t) (Hkeyed : rows_keyed s) :
  match begin_pending_job now_ns s with
  | NothingPending s' =>
      s' = s /\ (lease_runs now_ns s = true
                \/ forall id row, get_job id s = Some row -> due now_ns row = false)
  | LeaseRefused _ _ => False
  | JobSkipped s' => exists row, next_in_line now_ns s row /\ lease_runs now_ns s = false
      /\ may_run now_ns s row = false
      /\ ScheduledJob.status <$> get_job (ScheduledJob.id row) s' = Some JobStatus.Skipped
      /\ active_lease s' = None
      /\ forall other, other <> ScheduledJob.id row -> get_job other s' = get_job other s
  | Dispatching job s' => exists row, next_in_line now_ns s row /\ lease_runs now_ns s = false
      /\ may_run now_ns s row = true
      /\ job = row <| ScheduledJob.started_at_ns := Some (Agent.clock s) |>
                   <| ScheduledJob.status := JobStatus.InFlight |>
      /\ get_job (ScheduledJob.id row) s' = Some job
      /\ active_lease s' = Some (SchedulerLease.mk TaskLane.Mutating (ScheduledJob.id row) now_ns
                                  (saturating_add 64 now_ns (lease_ttl_ns (ScheduledJob.kind row))))
      /\ forall other, other <> ScheduledJob.id row -> get_job other s' = get_job other s
  end.
Proof.
  unfold begin_pending_job, mutating_lease_active.
  destruct (lease_runs now_ns s) eqn:Hruns; [by auto|].
  pose proof (pop_next_pending_job_correct now_ns s Hkeyed) as Hpop.
  destruct (pop_next_pending_job _ _ _) as [[job s1]|]; [|by auto].
  destruct Hpop as (row & Hnext & Hjob & ->).
  assert (Hget : get_job (ScheduledJob.id job) (upsert_job job s) = Some job)
    by (by rewrite get_job_upsert, decide_True).
  assert (Hid : ScheduledJob.id job = ScheduledJob.id row) by (by rewrite Hjob).
  assert (Hkind : ScheduledJob.kind job = ScheduledJob.kind row) by (by rewrite Hjob).
  assert (Hothers : forall other, other <> ScheduledJob.id row ->
            get_job other (upsert_job job s) = get_job other s).
  { intros other Hother. rewrite get_job_upsert, decide_False; [done|congruence]. }
  unfold acquire_mutating_lease.
  change (lease_runs now_ns (upsert_job job s)) with (lease_runs now_ns s).
  rewrite Hruns, Hget. simpl.
  set (lease := SchedulerLease.mk _ _ _ _). set (s2 := update_scheduler _ _).
  assert (Hmay : may_run now_ns s row = match operation_class_for_task (ScheduledJob.kind job) with
    | Some class => is_terminal_turn job s2 || can_run_survival_operation class now_ns s2
    | None => true end).
  { unfold may_run, is_terminal_turn. by rewrite Hkind. }
  assert (Hlease : active_lease s2 = Some lease) by done.
  assert (Hget2 : forall other, get_job other s2 = get_job other (upsert_job job s)) by done.
  clearbody s2. destruct (operation_class_for_task _) as [class|].
  2:{ exists row. rewrite <-Hid, Hget2, <-Hkind. split_and!; auto.
      intros other Hother. rewrite Hget2. apply Hothers. congruence. }
  rewrite <-negb_orb, <-Hmay. destruct (may_run now_ns s row) eqn:Hrun; simpl.
  { exists row. rewrite <-Hid, Hget2, <-Hkind. split_and!; auto.
    intros other Hother. rewrite Hget2. apply Hothers. congruence. }
  set (error := Some _). set (s3 := complete_job _ _ _ _ _ _).
  destruct (complete_job_closes (ScheduledJob.id job) JobStatus.Skipped error (Agent.clock s) s2 job
    lease) as (Hstatus & Hreleased & Hrest); [by rewrite Hget2|done..|].
  exists row. rewrite <-Hid. split_and!; auto.
  intros other Hother. unfold s3. rewrite Hrest, Hget2 by done. apply Hothers. congruence.
Qed.
End Selection.

(** ** Two overlapping executions *)

Module LeaseSamples.
#[local] Instance sample_sql : SqlRows := {
  payload_like := fun job key => bool_decide (ScheduledJob.dedupe_key job = key);
  select_one := head;
}.

#[local] Instance sample_sql_ok : SqlRowsOk sample_sql.
Proof.
  split.
  - intros [|job jobs] job' [= <-]. set_solver.
  - by intros [|job jobs].
  - intros job _. by apply bool_decide_eq_true.
Qed.

#[local] Instance sample_handlers : AgentHandlers := {
  run_scheduled_turn_job_with_trigger := fun _ => mret tt;
  run_poll_inbox_job := fun _ => mret tt;
  run_reconcile_job := fun _ => mret tt;
  expire_inference_proxy_pending_jobs := fun _ _ s => s;
  run_retention_maintenance_if_due := fun _ s => s;
  init_certification := fun s => s;
  classify_inference_failure := fun _ =>
    RecoveryFailure.Operation (OperationFailure.mk OperationFailureKind.Unknown);
  classify_evm_failure := fun _ =>
    RecoveryFailure.Operation (OperationFailure.mk OperationFailureKind.Unknown);
  evm_port_from_snapshot := fun _ => Err "no port";
  canister_cycle_balance := fun _ => 0%N;
  canister_liquid_cycle_balance := fun _ => 0%N;
  canonical_runway_seconds := fun _ _ _ _ => None;
}.

#[local] Instance sample_handlers_ok : AgentHandlersOk sample_handlers.
Proof. split; intros; simpl; auto with stable; done. Qed.

(** A freshly initialised automaton, a day later. *)
Definition day_ns : N := 86400 * 1000000000.
Definition fresh : Agent.t :=
  init_scheduler_defaults 0 (Agent.mk day_ns None None ∅ ∅ None ∅ ∅ ∅).

Definition first_tick := tick_to_await fresh.
(** Ten minutes later the first handler has not returned. *)
Definition later : Agent.t := first_tick.1 <| Agent.clock ::= N.add (600 * 1000000000) |>.
Definition second_tick := tick_to_await later.
Definition running : list Execution.t :=
  option_list second_tick.2 ++ option_list first_tick.2 ++ [].

(** Only evaluated as a whole. *)
#[local] Opaque fresh later first_tick second_tick.

Example overlap :
  (fun e => (ScheduledJob.kind (Execution.job e), unexpired second_tick.1 e)) <$> running
  = [(TaskKind.PollInbox, true); (TaskKind.AgentTurn, false)].
Proof. vm_compute. reflexivity. Qed.

Lemma fresh_queue_ok : queue_ok fresh.
Proof.
  assert (Hjobs : Agent.jobs fresh = ∅) by (vm_compute; reflexivity).
  assert (Hseq : job_seq fresh = 0%N) by (vm_compute; reflexivity).
  assert (Hempty : forall id, get_job id fresh = None)
    by (intros id; unfold get_job; by rewrite Hjobs, lookup_empty).
  split; [by rewrite Hseq|..]; intros id job; by rewrite Hempty.
Qed.

(** Time passes. *)
Lemma quiet_clock_advance ns s : quiet s (s <| Agent.clock ::= N.add ns |>).
Proof.
  split; [simpl; lia|done|done|]. intros _ _ id. left. by left.
Qed.

(** Two ticks, and time in between. *)
Lemma two_ticks s0 ns :
  let first := tick_to_await s0 in
  let second := tick_to_await (first.1 <| Agent.clock ::= N.add ns |>) in
  rtc agent_step (s0, []) (second.1, option_list second.2 ++ option_list first.2 ++ []).
Proof.
  intros first second.
  eapply rtc_l; [apply step_tick, surjective_pairing|].
  eapply rtc_l; [apply step_quiet, quiet_clock_advance|].
  apply rtc_once, step_tick, surjective_pairing.
Qed.

(** The inbox is polled while the turn whose lease has run out still runs: two
    executions, one within its lease. *)
Lemma agent_lease_exclusive_witness :
  length running = 2 /\ length (within_lease second_tick.1 running) <= 1.
Proof.
  split; [by vm_compute|].
  apply (agent_lease_exclusive fresh second_tick.1 running).
  - apply fresh_queue_ok.
  - exact (two_ticks fresh (600 * 1000000000)).
  - assert (job_seq second_tick.1 = 7%N) as -> by (vm_compute; reflexivity). by vm_compute.
Defined.
(** A due turn and a due inbox poll; the automaton is out of cycles. *)
Definition turn_job : ScheduledJob.t :=
  new_job (job_id_of 1 5) TaskKind.AgentTurn TaskLane.Mutating "AgentTurn:5" 5 0 5.
Definition poll_job : ScheduledJob.t :=
  new_job (job_id_of 2 5) TaskKind.PollInbox TaskLane.Mutating "PollInbox:5" 5 1 5.
Definition starving : Agent.t :=
  upsert_job poll_job (upsert_job turn_job
    (set_scheduler_survival_tier SurvivalTier.Critical fresh)).

Lemma starving_keyed : rows_keyed starving.
Proof.
  intros id row. unfold starving. rewrite !get_job_upsert.
  destruct (decide (id = ScheduledJob.id poll_job)) as [->|_]; [by intros [= <-]|].
  destruct (decide (id = ScheduledJob.id turn_job)) as [->|_]; [by intros [= <-]|].
  assert (Hempty : Agent.jobs (set_scheduler_survival_tier SurvivalTier.Critical fresh) = ∅)
    by (vm_compute; reflexivity).
  unfold get_job. by rewrite Hempty, lookup_empty.
Qed.

Lemma begin_pending_job_correct_witness :
  match begin_pending_job day_ns starving with
  | JobSkipped s' => exists row, next_in_line day_ns starving row /\ may_run day_ns starving row = false
      /\ ScheduledJob.status <$> get_job (ScheduledJob.id row) s' = Some JobStatus.Skipped
  | _ => False
  end.
Proof.
  assert (Hskips : match begin_pending_job day_ns starving with
                   | JobSkipped _ => true | _ => false end = true) by (vm_compute; reflexivity).
  pose proof (begin_pending_job_correct day_ns starving starving_keyed) as Hround.
  revert Hskips Hround.
  generalize (begin_pending_job day_ns starving). intros [s'|error s'|s'|job s'] Hskips Hround;
    try discriminate.
  destruct Hround as (row & Hnext & _ & Hmay & Hstatus & _). by exists row.
Defined.
End LeaseSamples.
