(* ===== verification/AgentMortality.v ===== *)
(** * AgentMortality: how an automaton dies

    The mortality operations of [AgentStore] as steps of a life: observing the
    resources, beginning and completing the terminal turn, and everything that
    leaves the mortality record alone.  A life goes one way, has one terminal
    turn, and ends in a record that never changes; a tick of a dead automaton
    only writes down that it happened.  The last section shows what the tick's
    loop does when a job of the same tick was the terminal turn. *)

From S2P Require Import Prelude Text SpawnProtocol Types Externals Child AgentTypes AgentDomain TopUpTypes TopUp AgentStore AgentScheduler AgentLease.

Definition phase_rank (phase : MortalityPhase.t) : nat :=
  match phase with
  | MortalityPhase.Alive => 0
  | MortalityPhase.TerminalPending => 1
  | MortalityPhase.TerminalInProgress => 2
  | MortalityPhase.Dead => 3
  end.

Inductive life_step : relation Agent.t :=
| life_observe liquid_cycles runway_seconds now_ns s :
    life_step s (observe_mortality_resources liquid_cycles runway_seconds now_ns s).2
| life_begin turn_id now_ns s s' :
    begin_terminal_turn turn_id now_ns s = Ok s' -> life_step s s'
| life_complete turn_id bequest_count now_ns s s' :
    complete_terminal_turn turn_id bequest_count now_ns s = Ok s' -> life_step s s'
| life_other s s' :
    mortality_runtime s' = mortality_runtime s -> life_step s s'.

(** What later states keep of an earlier mortality record. *)
Record outlived (before after : MortalityRuntime.t) : Prop := {
  outlived_rank : phase_rank (MortalityRuntime.phase before) <= phase_rank (MortalityRuntime.phase after);
  outlived_turn : 2 <= phase_rank (MortalityRuntime.phase before) ->
    MortalityRuntime.terminal_turn_id after = MortalityRuntime.terminal_turn_id before
    /\ MortalityRuntime.terminal_started_at_ns after = MortalityRuntime.terminal_started_at_ns before;
  outlived_dead : MortalityRuntime.phase before = MortalityPhase.Dead -> after = before;
}.

#[export] Instance outlived_preorder : PreOrder outlived.
Proof.
  split; [by split|]. intros a b c [Hr1 Ht1 Hd1] [Hr2 Ht2 Hd2]. split.
  - lia.
  - intros Ha. destruct (Ht1 Ha) as [<- <-]. apply Ht2. lia.
  - intros Ha. specialize (Hd1 Ha). subst b. by apply Hd2.
Qed.

(** [observe_tier] does nothing once the phase is not [Alive]. *)
Lemma observe_tier_late mortality observed :
  MortalityRuntime.phase mortality <> MortalityPhase.Alive -> observe_tier mortality observed = mortality.
Proof. intros Hphase. unfold observe_tier. by rewrite bool_decide_eq_true_2. Qed.

Lemma observed_mortality_outlived liquid_cycles runway_seconds now_ns mortality :
  MortalityRuntime.phase mortality <> MortalityPhase.Dead ->
  outlived mortality (observed_mortality liquid_cycles runway_seconds now_ns mortality).
Proof.
  intros Hdead. unfold observed_mortality. set (noted := mortality <| _ := _ |>).
  assert (Hnoted : MortalityRuntime.phase noted = MortalityRuntime.phase mortality) by done.
  set (observed := observe_tier noted _).
  assert (Hphase : MortalityRuntime.phase observed = MortalityRuntime.phase mortality)
    by (unfold observed; by rewrite observe_tier_phase).
  split.
  - destruct (bool_decide (MortalityRuntime.phase observed = MortalityPhase.Alive)) eqn:Halive.
    + apply bool_decide_eq_true in Halive. rewrite <-Hphase, Halive. simpl. lia.
    + rewrite andb_false_r. by rewrite Hphase.
  - intros Hlate. assert (Hne : MortalityRuntime.phase noted <> MortalityPhase.Alive).
    { rewrite Hnoted. intros Heq. rewrite Heq in Hlate. simpl in Hlate. lia. }
    unfold observed. rewrite observe_tier_late by done.
    rewrite (bool_decide_eq_false_2 _ Hne), andb_false_r. done.
  - done.
Qed.

(** The record each operation leaves. *)
Lemma mortality_of_snapshot snapshot s :
  mortality_runtime (save_runtime_snapshot snapshot s) = RuntimeSnapshot.mortality snapshot.
Proof. done. Qed.

Lemma observe_mortality_record liquid_cycles runway_seconds now_ns s :
  mortality_runtime (observe_mortality_resources liquid_cycles runway_seconds now_ns s).2
  = if mortality_is_dead s then mortality_runtime s
    else observed_mortality liquid_cycles runway_seconds now_ns (mortality_runtime s).
Proof.
  unfold observe_mortality_resources. destruct (mortality_is_dead s); [done|].
  simpl snd. rewrite mortality_of_snapshot. by simpl_set.
Qed.

Lemma begin_terminal_turn_record turn_id now_ns s s' :
  begin_terminal_turn turn_id now_ns s = Ok s' ->
  mortality_phase s = MortalityPhase.TerminalPending
  /\ mortality_runtime s' = mortality_runtime s
       <| MortalityRuntime.phase := MortalityPhase.TerminalInProgress |>
       <| MortalityRuntime.terminal_turn_id := Some turn_id |>
       <| MortalityRuntime.terminal_started_at_ns := Some now_ns |>.
Proof.
  unfold begin_terminal_turn. intros [Hphase [= <-]]%err_if_seq_Ok.
  apply bool_decide_eq_false, dec_stable in Hphase. split; [done|].
  unfold close_scheduler. set (changed := update_snapshot _ s).
  change (mortality_runtime changed = mortality_runtime s
       <| MortalityRuntime.phase := MortalityPhase.TerminalInProgress |>
       <| MortalityRuntime.terminal_turn_id := Some turn_id |>
       <| MortalityRuntime.terminal_started_at_ns := Some now_ns |>).
  unfold changed, update_snapshot. rewrite mortality_of_snapshot. by simpl_set.
Qed.

(** The death certificate [complete_terminal_turn] writes. *)
Record certified (mortality : MortalityRuntime.t) : Prop := {
  certified_tier : MortalityRuntime.tier mortality = MortalityTier.Dead;
  certified_turn : is_some (MortalityRuntime.terminal_turn_id mortality) = true;
  certified_time : is_some (MortalityRuntime.died_at_ns mortality) = true;
  certified_cause : MortalityRuntime.death_cause mortality = Some "starved";
  certified_estate : MortalityRuntime.estate_disposition mortality
    = Some (if (MortalityRuntime.terminal_bequest_count mortality =? 0)%N then "monument"
            else "bequests_executed");
}.

Lemma complete_terminal_turn_record turn_id bequest_count now_ns s s' :
  complete_terminal_turn turn_id bequest_count now_ns s = Ok s' ->
  mortality_phase s = MortalityPhase.TerminalInProgress
  /\ MortalityRuntime.terminal_turn_id (mortality_runtime s) = Some turn_id
  /\ mortality_runtime s' = mortality_runtime s
       <| MortalityRuntime.phase := MortalityPhase.Dead |>
       <| MortalityRuntime.tier := MortalityTier.Dead |>
       <| MortalityRuntime.died_at_ns := Some now_ns |>
       <| MortalityRuntime.death_cause := Some "starved" |>
       <| MortalityRuntime.terminal_bequest_count := N.min bequest_count (max_uint 8) |>
       <| MortalityRuntime.estate_disposition :=
            Some (if (bequest_count =? 0)%N then "monument" else "bequests_executed") |>.
Proof.
  unfold complete_terminal_turn. intros [Hguard [= <-]]%err_if_seq_Ok.
  apply orb_false_iff in Hguard as [Hphase Hturn].
  apply bool_decide_eq_false, dec_stable in Hphase, Hturn. split_and!; [done..|].
  unfold close_scheduler. set (changed := update_snapshot _ s).
  change (mortality_runtime (update_scheduler _ changed)) with (mortality_runtime changed).
  unfold changed, update_snapshot. rewrite mortality_of_snapshot. by simpl_set.
Qed.

(** One step of a life. *)
Lemma life_step_outlived s s' :
  life_step s s' -> outlived (mortality_runtime s) (mortality_runtime s').
Proof.
  intros [liquid runway now_ns s1|turn_id now_ns s1 s2 Hbegin|turn_id bequests now_ns s1 s2 Hcomplete
         |s1 s2 Hsame].
  - rewrite observe_mortality_record. unfold mortality_is_dead.
    case_bool_decide as Hdead; [done|]. by apply observed_mortality_outlived.
  - apply begin_terminal_turn_record in Hbegin as [Hphase ->].
    unfold mortality_phase in Hphase. split; rewrite Hphase; simpl; [lia..|done].
  - apply complete_terminal_turn_record in Hcomplete as (Hphase & Hturn & ->).
    unfold mortality_phase in Hphase. split; rewrite Hphase; simpl; [lia|done|done].
  - by rewrite Hsame.
Qed.

(** Death comes with its certificate. *)
Lemma life_step_certified s s' :
  life_step s s' -> mortality_phase s <> MortalityPhase.Dead ->
  mortality_phase s' = MortalityPhase.Dead -> certified (mortality_runtime s').
Proof.
  unfold mortality_phase.
  intros [liquid runway now_ns s1|turn_id now_ns s1 s2 Hbegin|turn_id bequests now_ns s1 s2 Hcomplete
         |s1 s2 Hsame] Halive Hdead.
  - rewrite observe_mortality_record in Hdead. unfold mortality_is_dead, mortality_phase in Hdead.
    rewrite bool_decide_eq_false_2 in Hdead by done. exfalso. revert Hdead.
    unfold observed_mortality. set (noted := mortality_runtime s1 <| _ := _ |>).
    destruct (_ && _); [done|]. by rewrite observe_tier_phase.
  - apply begin_terminal_turn_record in Hbegin as [_ Heq]. by rewrite Heq in Hdead.
  - apply complete_terminal_turn_record in Hcomplete as (_ & Hturn & ->).
    split; simpl_set; [done|by rewrite Hturn|done|done|].
    destruct (N.eqb_spec bequests 0) as [->|Hne]; [done|].
    assert (N.min bequests (max_uint 8) <> 0)%N as Hmin by (unfold max_uint; lia).
    by apply N.eqb_neq in Hmin as ->.
  - congruence.
Qed.

Section Life.
Context `{ext : Externals, json : Json, libs : !TopUpLibs, cost : CostApi}.
Context `{platform : !TopUpPlatform Agent.t, sql : SqlRows, handlers : AgentHandlers}.

(** C38 - A life goes one way.  Whatever sequence of resource observations,
    terminal turns and unrelated changes an automaton goes through, its phase
    never steps back; once the terminal turn has begun its id and start stand;
    if the automaton dies, its record is a complete death certificate (the dead
    tier, the terminal turn's id, the time, the cause, and a disposition that
    says whether anything was bequeathed); and after death the record never
    changes and a tick does nothing but note its start and end. *)
Theorem mortality_one_way (s s' : Agent.t) (Hlife : rtc life_step s s') :
  outlived (mortality_runtime s) (mortality_runtime s')
  /\ (mortality_phase s <> MortalityPhase.Dead -> mortality_phase s' = MortalityPhase.Dead ->
        certified (mortality_runtime s'))
  /\ (mortality_phase s = MortalityPhase.Dead -> forall fuel,
        let now_ns := Agent.clock s' in
        scheduler_tick fuel s'
        = Done tt (init_certification
                     (record_scheduler_tick_end now_ns None (record_scheduler_tick_start now_ns s')))).
Proof.
  assert (Hout : outlived (mortality_runtime s) (mortality_runtime s')).
  { induction Hlife as [|s1 s2 s3 Hstep _ IH]; [done|].
    etrans; [by apply life_step_outlived|done]. }
  split_and!; [done| |].
  - clear Hout. induction Hlife as [s1|s1 s2 s3 Hstep Hrest IH]; [done|]. intros Halive Hdead.
    destruct (decide (mortality_phase s2 = MortalityPhase.Dead)) as [Hdead2|Halive2]; [|by apply IH].
    assert (Hsame : outlived (mortality_runtime s2) (mortality_runtime s3)).
    { clear -Hrest. induction Hrest as [|? ? ? Hstep _ IH]; [done|].
      etrans; [by apply life_step_outlived|done]. }
    rewrite (outlived_dead _ _ Hsame Hdead2). by eapply life_step_certified.
  - intros Hdead fuel now_ns. pose proof (outlived_dead _ _ Hout Hdead) as Hsame.
    unfold scheduler_tick, begin_tick.
    assert (mortality_is_dead (record_scheduler_tick_start (Agent.clock s') s') = true) as Hdead'.
    { change (bool_decide (MortalityRuntime.phase (mortality_runtime s') = MortalityPhase.Dead) = true).
      rewrite Hsame. by apply bool_decide_eq_true. }
    exec. rewrite Hdead'. done.
Qed.
End Life.

(** ** A death, and the jobs of its tick *)

Module LifeSamples.
#[local] Existing Instance toy_externals.
#[local] Existing Instance TopUpSamples.toy_json.
#[local] Existing Instance TopUpSamples.toy_libs.
#[local] Existing Instance LeaseSamples.sample_sql.

#[local] Instance toy_cost : CostApi := {
  cost_http_request := fun _ _ => 1%N;
  cost_sign_with_ecdsa := fun _ _ => Ok 1%N;
}.

#[local] Instance toy_platform : TopUpPlatform Agent.t := {
  current_canister_id := "aaaaa-aa";
  current_cycle_balance128 := fun _ => (10 ^ 12)%N;
  current_time_ns := Agent.clock;
  get_transfer_fees := fun _ => mret [];
  transfer_evm_to_icp := fun _ _ => mret (TransferResponse.Accepted (TransferId.mk 5));
  get_transfer := fun _ _ => mret (BridgeTransferStatus.Succeeded 49000000);
  icrc2_approve := fun _ _ => mret (Ok 1%N);
  kong_swap := fun _ _ => mret (Err "closed");
  icrc1_transfer := fun _ _ => mret (Ok 9%N);
  notify_top_up := fun _ _ => mret (Ok 5000000000000%N);
}.

(** A terminal turn that settles at once, and a poll that leaves a mark. *)
Definition terminal_turn : M Agent.t string unit :=
  s ← get_state;
  s ← lift (begin_terminal_turn "turn-1" (Agent.clock s) s);
  s ← lift (complete_terminal_turn "turn-1" 0 (Agent.clock s) s);
  put_state s.

#[local] Instance mortal_handlers : AgentHandlers := {
  run_scheduled_turn_job_with_trigger := fun _ => terminal_turn;
  run_poll_inbox_job := fun _ => modify (set_runtime_scalar "polled" "yes");
  run_reconcile_job := fun _ => mret tt;
  expire_inference_proxy_pending_jobs := fun _ _ s => s;
  run_retention_maintenance_if_due := fun _ s => s;
  init_certification := fun s => s;
  classify_inference_failure := fun _ =>
    RecoveryFailure.Operation (OperationFailure.mk OperationFailureKind.Unknown);
  classify_evm_failure := fun _ =>
    RecoveryFailure.Operation (OperationFailure.mk OperationFailureKind.Unknown);
  evm_port_from_snapshot := fun _ => Err "no port";
  canister_cycle_balance := fun _ => 0%N;
  canister_liquid_cycle_balance := fun _ => 0%N;
  canonical_runway_seconds := fun _ _ _ _ => None;
}.

(** Out of resources, with a turn and a poll waiting. *)
Definition alive : Agent.t :=
  upsert_job LeaseSamples.poll_job (upsert_job LeaseSamples.turn_job LeaseSamples.fresh).
Definition doomed : Agent.t := (observe_mortality_resources 0 None 7 alive).2.
Definition begun : Agent.t :=
  match begin_terminal_turn "turn-1" 8 doomed with Ok s => s | Err _ => doomed end.
Definition dead : Agent.t :=
  match complete_terminal_turn "turn-1" 0 9 begun with Ok s => s | Err _ => begun end.

Lemma doomed_life : rtc life_step alive dead.
Proof.
  assert (Hbegin : is_ok (begin_terminal_turn "turn-1" 8 doomed) = true) by (vm_compute; reflexivity).
  assert (Hdie : is_ok (complete_terminal_turn "turn-1" 0 9 begun) = true) by (vm_compute; reflexivity).
  eapply rtc_l; [apply (life_observe 0 None 7 alive)|].
  apply (rtc_l _ _ begun).
  - apply (life_begin "turn-1" 8). fold doomed. revert Hbegin. unfold begun.
    by destruct (begin_terminal_turn "turn-1" 8 doomed).
  - apply rtc_once, (life_complete "turn-1" 0 9). revert Hdie. unfold dead.
    by destruct (complete_terminal_turn "turn-1" 0 9 begun).
Qed.

Lemma mortality_one_way_witness :
  rtc life_step alive dead /\ certified (mortality_runtime dead).
Proof.
  split; [exact doomed_life|].
  destruct (mortality_one_way alive dead doomed_life) as (_ & Hcertified & _).
  apply Hcertified.
  - assert (mortality_phase alive = MortalityPhase.Alive) as -> by (vm_compute; reflexivity). done.
  - vm_compute. reflexivity.
Defined.

(** The terminal turn is the tick's first job; the poll runs after it, on a
    dead automaton whose scheduler is switched off. *)
Example poll_after_death :
  match scheduler_tick 0 doomed with
  | Done _ s => (mortality_is_dead s, scheduler_enabled s, get_runtime_scalar "polled" s)
  | _ => (false, true, None)
  end = (true, false, Some "yes").
Proof. vm_compute. reflexivity. Qed.
End LifeSamples.
