(* ===== verification/StrategyTypes.v ===== *)
(** * StrategyTypes: the data of the automaton's strategies

    The records and enums of [components/ic-automaton/src/domain/types.rs] that
    the strategy subsystem works on, one module each with the source's fields,
    constructors and defaults.  [Value] is [serde_json::Value] with its public
    variants and accessors. *)

From S2P Require Import Prelude Text SpawnProtocol Types AgentTypes.
From Stdlib Require Import Strings.Byte.
#[local] Set Warnings "-register-all".

(** A [serde_json::Number]: a [u64], a negative [i64], or a finite [f64]. *)
Module JsonNumber.
Inductive t :=
| PosInt (value : N)
| NegInt (value : Z)
| Float (value : float64).
End JsonNumber.

(** [serde_json::Value]; an object is a [BTreeMap]. *)
Module Value.
Inductive t :=
| Null
| Bool (value : bool)
| Number (value : JsonNumber.t)
| String (value : string)
| Array (values : list t)
| Object (members : gmap string t).

Definition as_str (value : t) : option string :=
  match value with String text => Some text | _ => None end.
Definition as_bool (value : t) : option bool :=
  match value with Bool b => Some b | _ => None end.
Definition as_array (value : t) : option (list t) :=
  match value with Array values => Some values | _ => None end.
Definition as_object (value : t) : option (gmap string t) :=
  match value with Object members => Some members | _ => None end.
Definition as_u64 (value : t) : option N :=
  match value with Number (JsonNumber.PosInt n) => Some n | _ => None end.
Definition as_i64 (value : t) : option Z :=
  match value with
  | Number (JsonNumber.PosInt n) => if (n <? 2 ^ 63)%N then Some (Z.of_N n) else None
  | Number (JsonNumber.NegInt z) => Some z
  | _ => None
  end.
(** [value.get(key)] and [value.get(index)]. *)
Definition get (key : string) (value : t) : option t :=
  members ← as_object value; members !! key.
Definition get_index (index : nat) (value : t) : option t :=
  values ← as_array value; values !! index.
End Value.

(** A recursive ABI type. *)
Module AbiTypeSpec.
Inductive t := mk (name : string) (kind : string) (components : list t).
Definition name (self : t) : string := let '(mk name _ _) := self in name.
Definition kind (self : t) : string := let '(mk _ kind _) := self in kind.
Definition components (self : t) : list t := let '(mk _ _ components) := self in components.
End AbiTypeSpec.

Module StrategyTemplateKey.
Record t := mk {
  protocol : string;
  primitive : string;
  chain_id : N;
  template_id : string;
}.
#[global] Instance eq_dec : EqDecision t.
Proof. solve_decision. Defined.
#[global] Instance eta_t : Eta t := fun self =>
  mk (protocol self) (primitive self) (chain_id self) (template_id self).
End StrategyTemplateKey.

Module TemplateStatus.
Inductive t :=
| Draft
| Active
| Deprecated
| Revoked.
#[global] Instance eq_dec : EqDecision t.
Proof. solve_decision. Defined.
End TemplateStatus.

Module ContractRoleBinding.
Record t := mk {
  role : string;
  address : string;
  source_ref : string;
  codehash : option string;
}.
#[global] Instance eq_dec : EqDecision t.
Proof. solve_decision. Defined.
#[global] Instance eta_t : Eta t := fun self =>
  mk (role self) (address self) (source_ref self) (codehash self).
End ContractRoleBinding.

Module AbiFunctionSpec.
Record t := mk {
  role : string;
  name : string;
  selector_hex : string;
  inputs : list AbiTypeSpec.t;
  outputs : list AbiTypeSpec.t;
  state_mutability : string;
}.
#[global] Instance eta_t : Eta t := fun self =>
  mk (role self) (name self) (selector_hex self) (inputs self) (outputs self)
    (state_mutability self).
End AbiFunctionSpec.

Module ActionSpec.
Record t := mk {
  action_id : string;
  call_sequence : list AbiFunctionSpec.t;
  preconditions : list string;
  postconditions : list string;
  risk_checks : list string;
}.
#[global] Instance eta_t : Eta t := fun self =>
  mk (action_id self) (call_sequence self) (preconditions self) (postconditions self)
    (risk_checks self).
End ActionSpec.

Module StrategyAssetDirection.
Inductive t :=
| Debit
| Credit.
#[global] Instance eq_dec : EqDecision t.
Proof. solve_decision. Defined.
End StrategyAssetDirection.

Module StrategyAssetEffectDeclaration.
Record t := mk {
  asset_role : option string;
  asset_symbol : string;
  decimals : N;
  direction : StrategyAssetDirection.t;
  amount_path : string;
}.
#[global] Instance eq_dec : EqDecision t.
Proof. solve_decision. Defined.
#[global] Instance eta_t : Eta t := fun self =>
  mk (asset_role self) (asset_symbol self) (decimals self) (direction self)
    (amount_path self).
End StrategyAssetEffectDeclaration.

Module StrategyAssetEffect.
Record t := mk {
  chain_id : N;
  asset_address : option string;
  asset_symbol : string;
  decimals : N;
  amount_raw : string;
  direction : StrategyAssetDirection.t;
}.
#[global] Instance eq_dec : EqDecision t.
Proof. solve_decision. Defined.
#[global] Instance eta_t : Eta t := fun self =>
  mk (chain_id self) (asset_address self) (asset_symbol self) (decimals self)
    (amount_raw self) (direction self).
End StrategyAssetEffect.

Module StrategyTemplate.
Record t := mk {
  key : StrategyTemplateKey.t;
  status : TemplateStatus.t;
  contract_roles : list ContractRoleBinding.t;
  actions : list ActionSpec.t;
  constraints_json : string;
  created_at_ns : N;
  updated_at_ns : N;
}.
#[global] Instance eta_t : Eta t := fun self =>
  mk (key self) (status self) (contract_roles self) (actions self) (constraints_json self)
    (created_at_ns self) (updated_at_ns self).
End StrategyTemplate.

Module AbiArtifactKey.
Record t := mk {
  protocol : string;
  chain_id : N;
  role : string;
}.
#[global] Instance eq_dec : EqDecision t.
Proof. solve_decision. Defined.
#[global] Instance eta_t : Eta t := fun self =>
  mk (protocol self) (chain_id self) (role self).
End AbiArtifactKey.

Module AbiArtifact.
Record t := mk {
  key : AbiArtifactKey.t;
  source_ref : string;
  codehash : option string;
  abi_json : string;
  functions : list AbiFunctionSpec.t;
  created_at_ns : N;
  updated_at_ns : N;
}.
#[global] Instance eta_t : Eta t := fun self =>
  mk (key self) (source_ref self) (codehash self) (abi_json self) (functions self)
    (created_at_ns self) (updated_at_ns self).
End AbiArtifact.

Module AbiSelectorAssertion.
Record t := mk {
  signature : string;
  selector_hex : string;
}.
#[global] Instance eq_dec : EqDecision t.
Proof. solve_decision. Defined.
#[global] Instance eta_t : Eta t := fun self =>
  mk (signature self) (selector_hex self).
End AbiSelectorAssertion.

Module StrategyExecutionIntent.
Record t := mk {
  key : StrategyTemplateKey.t;
  action_id : string;
  typed_params_json : string;
}.
#[global] Instance eq_dec : EqDecision t.
Proof. solve_decision. Defined.
#[global] Instance eta_t : Eta t := fun self =>
  mk (key self) (action_id self) (typed_params_json self).
End StrategyExecutionIntent.

Module StrategyExecutionCall.
Record t := mk {
  role : string;
  to : string;
  value_wei : string;
  data : string;
}.
#[global] Instance eq_dec : EqDecision t.
Proof. solve_decision. Defined.
#[global] Instance eta_t : Eta t := fun self =>
  mk (role self) (to self) (value_wei self) (data self).
End StrategyExecutionCall.

Module ExecutionPlan.
Record t := mk {
  key : StrategyTemplateKey.t;
  action_id : string;
  calls : list StrategyExecutionCall.t;
  preconditions : list string;
  postconditions : list string;
  asset_effects : list StrategyAssetEffect.t;
  risk_checks : list string;
}.
#[global] Instance eq_dec : EqDecision t.
Proof. solve_decision. Defined.
#[global] Instance eta_t : Eta t := fun self =>
  mk (key self) (action_id self) (calls self) (preconditions self) (postconditions self)
    (asset_effects self) (risk_checks self).
End ExecutionPlan.

Module StrategyExecutionCallState.
Inductive t :=
| Unattempted
| Submitted
| Confirmed
| Reverted
| Dropped.
#[global] Instance eq_dec : EqDecision t.
Proof. solve_decision. Defined.
End StrategyExecutionCallState.

Module PendingStrategyExecutionCall.
Record t := mk {
  index : N;
  call : StrategyExecutionCall.t;
  tx_hash : option string;
  state : StrategyExecutionCallState.t;
  receipt_block_number : option N;
  receipt_block_hash : option string;
  submitted_at_ns : option N;
  last_checked_at_ns : option N;
  error : option string;
}.
#[global] Instance eq_dec : EqDecision t.
Proof. solve_decision. Defined.
#[global] Instance eta_t : Eta t := fun self =>
  mk (index self) (call self) (tx_hash self) (state self) (receipt_block_number self)
    (receipt_block_hash self) (submitted_at_ns self) (last_checked_at_ns self) (error self).
End PendingStrategyExecutionCall.

Module PendingStrategyExecutionState.
Inductive t :=
| Pending
| Confirmed
| PartialFailure
| Reverted
| Dropped.
#[global] Instance eq_dec : EqDecision t.
Proof. solve_decision. Defined.
End PendingStrategyExecutionState.

Module PendingStrategyExecution.
Record t := mk {
  execution_id : string;
  turn_id : string;
  key : StrategyTemplateKey.t;
  action_id : string;
  plan_digest : string;
  asset_effects : list StrategyAssetEffect.t;
  calls : list PendingStrategyExecutionCall.t;
  state : PendingStrategyExecutionState.t;
  created_at_ns : N;
  updated_at_ns : N;
  next_check_at_ns : N;
  consecutive_rpc_failures : N;
  bookkeeping_applied : bool;
  terminal_bookkeeping_applied : bool;
}.
#[global] Instance eq_dec : EqDecision t.
Proof. solve_decision. Defined.
#[global] Instance eta_t : Eta t := fun self =>
  mk (execution_id self) (turn_id self) (key self) (action_id self) (plan_digest self)
    (asset_effects self) (calls self) (state self) (created_at_ns self) (updated_at_ns self)
    (next_check_at_ns self) (consecutive_rpc_failures self) (bookkeeping_applied self)
    (terminal_bookkeeping_applied self).
End PendingStrategyExecution.

Module ValidationLayer.
Inductive t :=
| Schema
| Address
| Policy
| Preflight
| Postcondition.
#[global] Instance eq_dec : EqDecision t.
Proof. solve_decision. Defined.
End ValidationLayer.

Module ValidationFinding.
Record t := mk {
  layer : ValidationLayer.t;
  code : string;
  message : string;
  deterministic : bool;
}.
#[global] Instance eq_dec : EqDecision t.
Proof. solve_decision. Defined.
#[global] Instance eta_t : Eta t := fun self =>
  mk (layer self) (code self) (message self) (deterministic self).
End ValidationFinding.

Module ValidationReport.
Record t := mk {
  passed : bool;
  findings : list ValidationFinding.t;
  checked_at_ns : N;
}.
#[global] Instance eq_dec : EqDecision t.
Proof. solve_decision. Defined.
#[global] Instance eta_t : Eta t := fun self =>
  mk (passed self) (findings self) (checked_at_ns self).
End ValidationReport.

Module StrategyOutcomeKind.
Inductive t :=
| Success
| DeterministicFailure
| NondeterministicFailure.
#[global] Instance eq_dec : EqDecision t.
Proof. solve_decision. Defined.
End StrategyOutcomeKind.

Module StrategyOutcomeEvent.
Record t := mk {
  key : StrategyTemplateKey.t;
  action_id : string;
  outcome : StrategyOutcomeKind.t;
  tx_hash : option string;
  error : option string;
  observed_at_ns : N;
}.
#[global] Instance eq_dec : EqDecision t.
Proof. solve_decision. Defined.
#[global] Instance eta_t : Eta t := fun self =>
  mk (key self) (action_id self) (outcome self) (tx_hash self) (error self)
    (observed_at_ns self).
End StrategyOutcomeEvent.

Module StrategyOutcomeStats.
Record t := mk {
  key : StrategyTemplateKey.t;
  total_runs : N;
  success_runs : N;
  deterministic_failures : N;
  nondeterministic_failures : N;
  deterministic_failure_streak : N;
  last_error : option string;
  last_tx_hash : option string;
  last_observed_at_ns : option N;
}.
#[global] Instance eq_dec : EqDecision t.
Proof. solve_decision. Defined.
#[global] Instance eta_t : Eta t := fun self =>
  mk (key self) (total_runs self) (success_runs self) (deterministic_failures self)
    (nondeterministic_failures self) (deterministic_failure_streak self) (last_error self)
    (last_tx_hash self) (last_observed_at_ns self).
End StrategyOutcomeStats.

Module TemplateActivationState.
Record t := mk {
  key : StrategyTemplateKey.t;
  enabled : bool;
  updated_at_ns : N;
  reason : option string;
}.
#[global] Instance eq_dec : EqDecision t.
Proof. solve_decision. Defined.
#[global] Instance eta_t : Eta t := fun self =>
  mk (key self) (enabled self) (updated_at_ns self) (reason self).
End TemplateActivationState.

Module TemplateRevocationState.
Record t := mk {
  key : StrategyTemplateKey.t;
  revoked : bool;
  updated_at_ns : N;
  reason : option string;
}.
#[global] Instance eq_dec : EqDecision t.
Proof. solve_decision. Defined.
#[global] Instance eta_t : Eta t := fun self =>
  mk (key self) (revoked self) (updated_at_ns self) (reason self).
End TemplateRevocationState.

Module StrategyKillSwitchState.
Record t := mk {
  key : StrategyTemplateKey.t;
  enabled : bool;
  updated_at_ns : N;
  reason : option string;
}.
#[global] Instance eq_dec : EqDecision t.
Proof. solve_decision. Defined.
#[global] Instance eta_t : Eta t := fun self =>
  mk (key self) (enabled self) (updated_at_ns self) (reason self).
End StrategyKillSwitchState.

Module ActiveExposure.
Record t := mk {
  strategy_id : string;
  protocol : string;
  chain_id : N;
  asset_symbol : string;
  notional_wei : option N;
  asset_address : option string;
  decimals : option N;
  amount_raw : option string;
  updated_at_ns : N;
}.
#[global] Instance eq_dec : EqDecision t.
Proof. solve_decision. Defined.
#[global] Instance eta_t : Eta t := fun self =>
  mk (strategy_id self) (protocol self) (chain_id self) (asset_symbol self)
    (notional_wei self) (asset_address self) (decimals self) (amount_raw self)
    (updated_at_ns self).
End ActiveExposure.

Module StrategyQuarantine.
Record t := mk {
  strategy_id : string;
  reason : string;
  failure_count : N;
  quarantined_at_ns : N;
  release_after_ns : option N;
}.
#[global] Instance eq_dec : EqDecision t.
Proof. solve_decision. Defined.
#[global] Instance eta_t : Eta t := fun self =>
  mk (strategy_id self) (reason self) (failure_count self) (quarantined_at_ns self)
    (release_after_ns self).
End StrategyQuarantine.

Module ReservePolicy.
Record t := mk {
  min_cycles_runway_hours : N;
  min_inference_usdc_6dp : option N;
  min_gas_wei : option N;
}.
#[global] Instance eq_dec : EqDecision t.
Proof. solve_decision. Defined.
#[global] Instance eta_t : Eta t := fun self =>
  mk (min_cycles_runway_hours self) (min_inference_usdc_6dp self) (min_gas_wei self).
Definition default : t := mk 72 (Some 10000000%N) (Some 3000000000000000%N).
End ReservePolicy.

Module RiskLimits.
Record t := mk {
  max_total_exposure_bps : N;
  max_single_action_bps : N;
  max_protocol_concentration_bps : N;
}.
#[global] Instance eq_dec : EqDecision t.
Proof. solve_decision. Defined.
#[global] Instance eta_t : Eta t := fun self =>
  mk (max_total_exposure_bps self) (max_single_action_bps self)
    (max_protocol_concentration_bps self).
Definition default : t := mk 3000 1000 1500.
End RiskLimits.

Module ExecutionAuthority.
Record t := mk {
  autonomous_execution_enabled : bool;
  require_simulation_first : bool;
  per_action_value_limit_wei : option N;
}.
#[global] Instance eq_dec : EqDecision t.
Proof. solve_decision. Defined.
#[global] Instance eta_t : Eta t := fun self =>
  mk (autonomous_execution_enabled self) (require_simulation_first self)
    (per_action_value_limit_wei self).
Definition default : t := mk true true (Some 50000000000000000%N).
End ExecutionAuthority.

Module EscalationRules.
Record t := mk {
  escalate_on_missing_policy : bool;
  escalate_on_authority_exceeded : bool;
  escalate_on_repeated_failure : bool;
  failure_quarantine_threshold : N;
}.
#[global] Instance eq_dec : EqDecision t.
Proof. solve_decision. Defined.
#[global] Instance eta_t : Eta t := fun self =>
  mk (escalate_on_missing_policy self) (escalate_on_authority_exceeded self)
    (escalate_on_repeated_failure self) (failure_quarantine_threshold self).
Definition default : t := mk true true true 3.
End EscalationRules.

Module AutonomyPolicy.
Record t := mk {
  version : N;
  reserve_policy : ReservePolicy.t;
  risk_limits : RiskLimits.t;
  execution_authority : ExecutionAuthority.t;
  escalation_rules : EscalationRules.t;
  updated_at_ns : N;
}.
#[global] Instance eq_dec : EqDecision t.
Proof. solve_decision. Defined.
#[global] Instance eta_t : Eta t := fun self =>
  mk (version self) (reserve_policy self) (risk_limits self) (execution_authority self)
    (escalation_rules self) (updated_at_ns self).
Definition conservative_default (now_ns : N) : t :=
  mk 1 ReservePolicy.default RiskLimits.default ExecutionAuthority.default EscalationRules.default
    now_ns.
End AutonomyPolicy.

Module CycleTelemetry.
Record t := mk {
  total_cycles : N;
  liquid_cycles : N;
  freezing_threshold_cycles : N;
  moving_window_seconds : N;
  window_duration_seconds : N;
  window_sample_count : N;
  burn_rate_cycles_per_hour : option N;
  burn_rate_cycles_per_day : option N;
  burn_rate_usd_per_hour : option float64;
  burn_rate_usd_per_day : option float64;
  estimated_seconds_until_freezing_threshold : option N;
  estimated_freeze_time_ns : option N;
  usd_per_trillion_cycles : float64;
}.
#[global] Instance eq_dec : EqDecision t.
Proof. solve_decision. Defined.
#[global] Instance eta_t : Eta t := fun self =>
  mk (total_cycles self) (liquid_cycles self) (freezing_threshold_cycles self)
    (moving_window_seconds self) (window_duration_seconds self) (window_sample_count self)
    (burn_rate_cycles_per_hour self) (burn_rate_cycles_per_day self)
    (burn_rate_usd_per_hour self) (burn_rate_usd_per_day self)
    (estimated_seconds_until_freezing_threshold self) (estimated_freeze_time_ns self)
    (usd_per_trillion_cycles self).
End CycleTelemetry.

Module ExposureReconciliationStatus.
Record t := mk {
  last_attempted_at_ns : option N;
  last_succeeded_at_ns : option N;
  repaired_exposures : N;
  recreated_exposures : N;
  closed_exposures : N;
  drift_reason : option string;
  last_error : option string;
}.
#[global] Instance eq_dec : EqDecision t.
Proof. solve_decision. Defined.
#[global] Instance eta_t : Eta t := fun self =>
  mk (last_attempted_at_ns self) (last_succeeded_at_ns self) (repaired_exposures self)
    (recreated_exposures self) (closed_exposures self) (drift_reason self) (last_error self).
End ExposureReconciliationStatus.

Module ToolCallOutcome.
Inductive t :=
| Executed
| SuppressedDedupe
| SuppressedFailureCooldown
| BlockedSequence.
#[global] Instance eq_dec : EqDecision t.
Proof. solve_decision. Defined.
End ToolCallOutcome.

Module ToolFailureKind.
Inductive t :=
| MalformedInput
| OutcallFailure
| InternalFailure.
#[global] Instance eq_dec : EqDecision t.
Proof. solve_decision. Defined.
End ToolFailureKind.

Module ToolCallRecord.
Record t := mk {
  turn_id : string;
  tool : string;
  args_json : string;
  output : string;
  success : bool;
  outcome : ToolCallOutcome.t;
  error : option string;
  failure_kind : option ToolFailureKind.t;
}.
#[global] Instance eq_dec : EqDecision t.
Proof. solve_decision. Defined.
#[global] Instance eta_t : Eta t := fun self =>
  mk (turn_id self) (tool self) (args_json self) (output self) (success self) (outcome self)
    (error self) (failure_kind self).
End ToolCallRecord.

(** ** Structs decoded from JSON *)

(** [ConstraintPolicy] of [strategy/validator.rs]. *)
Module ConstraintPolicy.
Record t := mk {
  max_calls : option N;
  max_total_value_wei : option string;
  max_value_wei_per_call : option string;
  template_budget_wei : option string;
  required_postconditions : list string;
}.
Definition default : t := mk None None None None [].
End ConstraintPolicy.

(** [IntentTypedCall] and [IntentTypedParams] of [strategy/compiler.rs]. *)
Module IntentTypedCall.
Record t := mk {
  args : Value.t;
  value_wei : option string;
}.
End IntentTypedCall.

Module IntentTypedParams.
Record t := mk { calls : list IntentTypedCall.t }.
End IntentTypedParams.

(** [RawAbiParam] and [RawAbiEntry] of [strategy/abi.rs]. *)
Module RawAbiParam.
Inductive t := mk (name : option string) (kind : string) (components : list t).
Definition name (self : t) : option string := let '(mk name _ _) := self in name.
Definition kind (self : t) : string := let '(mk _ kind _) := self in kind.
Definition components (self : t) : list t := let '(mk _ _ components) := self in components.
End RawAbiParam.

Module RawAbiEntry.
Record t := mk {
  entry_type : string;
  name : option string;
  inputs : list RawAbiParam.t;
  outputs : list RawAbiParam.t;
  state_mutability : option string;
}.
End RawAbiEntry.

(** [StrategyIntentArgs] of [tools.rs]. *)
Module StrategyIntentArgs.
Record t := mk {
  key : StrategyTemplateKey.t;
  action_id : string;
  typed_params_json : option string;
  typed_params : option Value.t;
}.
End StrategyIntentArgs.

(** ** Third-party code

    [serde_json]: parsing to a [Value] and to the structs above, and the text
    of a value, [Value::pointer]; [hex::decode]; the Unicode tables behind
    [str::to_lowercase]; the [Display] of the parse errors of
    [U256] and of [i128]. *)
Class StrategyLibs := {
  value_from_str : string -> result string Value.t;
  value_text : Value.t -> string;
  constraint_policy_from_str : string -> result string ConstraintPolicy.t;
  typed_params_from_str : string -> result string IntentTypedParams.t;
  intent_args_from_str : string -> result string StrategyIntentArgs.t;
  abi_entries_from_value : Value.t -> result string (list RawAbiEntry.t);
  asset_effects_from_value :
    Value.t -> result string (list StrategyAssetEffectDeclaration.t);
  asset_effects_to_value :
    list StrategyAssetEffectDeclaration.t -> result string Value.t;
  value_pointer : string -> Value.t -> option Value.t;
  plan_to_value : ExecutionPlan.t -> result string Value.t;
  decode_hex_text : string -> result string (list byte);
  unicode_lowercase : string -> string;
  u256_overflow : string;
  parse_i128_error : string -> string;
}.

(** [hex::decode] reads pairs of digits. *)
Class StrategyLibsOk (libs : StrategyLibs) : Prop := {
  decode_hex_text_pairs : forall text bytes,
    decode_hex_pairs text = Some bytes -> decode_hex_text text = Ok bytes;
}.
