(* ===== verification/StrategyStore.v ===== *)
(** * StrategyStore: the automaton's strategy tables and outcome learning

    Models the strategy part of the automaton's storage: of
    [storage/sqlite.rs] the tables of templates, ABI artifacts, activations,
    revocations, kill switches, outcome statistics, budgets, exposures,
    quarantines and pending executions; of [storage/stable.rs] the facade that
    validates what is written and derives the record keys; and
    [strategy/learner.rs].  [strategy/registry.rs] forwards to this facade.
    Statements on the database are taken to succeed, and a row to read back as
    it was written; a transaction that returns early changes nothing. *)

From S2P Require Import Prelude Text SpawnProtocol Types Externals AgentTypes TopUp AgentStore StrategyTypes.

(** The rows of the strategy tables; [agent] holds the clock and the runtime
    snapshot. *)
Module Book.
Record t := mk {
  agent : Agent.t;
  strategy_templates : gmap string StrategyTemplate.t;
  abi_artifacts : gmap string AbiArtifact.t;
  strategy_activations : gmap string TemplateActivationState.t;
  strategy_revocations : gmap string TemplateRevocationState.t;
  strategy_kill_switches : gmap string StrategyKillSwitchState.t;
  strategy_outcome_stats : gmap string StrategyOutcomeStats.t;
  strategy_budgets : gmap string string;
  autonomy_policy : option AutonomyPolicy.t;
  active_exposures : gmap string ActiveExposure.t;
  strategy_quarantines : gmap string StrategyQuarantine.t;
  pending_strategy_executions : gmap string PendingStrategyExecution.t;
  exposure_reconciliation_status : option ExposureReconciliationStatus.t;
}.
#[global] Instance eta_t : Eta t := fun self =>
  mk (agent self) (strategy_templates self) (abi_artifacts self) (strategy_activations self)
    (strategy_revocations self) (strategy_kill_switches self) (strategy_outcome_stats self)
    (strategy_budgets self) (autonomy_policy self) (active_exposures self)
    (strategy_quarantines self) (pending_strategy_executions self)
    (exposure_reconciliation_status self).
End Book.

(** Storage operations fail with a text. *)
Definition B : Type -> Type := M Book.t string.

Definition book_time_ns (s : Book.t) : N := Agent.clock (Book.agent s).
Definition book_snapshot (s : Book.t) : RuntimeSnapshot.t := runtime_snapshot (Book.agent s).

(** ** Records by key *)

Definition strategy_template_pk (key : StrategyTemplateKey.t) : string :=
  StrategyTemplateKey.protocol key +:+ ":" +:+ StrategyTemplateKey.primitive key +:+ ":"
  +:+ pretty (StrategyTemplateKey.chain_id key) +:+ ":" +:+ StrategyTemplateKey.template_id key.

Definition abi_artifact_pk (key : AbiArtifactKey.t) : string :=
  AbiArtifactKey.protocol key +:+ ":" +:+ pretty (AbiArtifactKey.chain_id key) +:+ ":"
  +:+ AbiArtifactKey.role key.

(** [trim().is_empty()]. *)
Definition is_blank (s : string) : bool := is_empty (trim s).

Definition upsert_strategy_template (template : StrategyTemplate.t) : B StrategyTemplate.t :=
  let key := StrategyTemplate.key template in
  fail_if (is_blank (StrategyTemplateKey.protocol key))
    "strategy template protocol cannot be empty";;
  fail_if (is_blank (StrategyTemplateKey.template_id key))
    "strategy template template_id cannot be empty";;
  modify (fun s => s <| Book.strategy_templates ::= <[strategy_template_pk key := template]> |>);;
  mret template.

(** [registry::get_template]; both of its lookups read the same row. *)
Definition get_template (key : StrategyTemplateKey.t) (s : Book.t) : option StrategyTemplate.t :=
  Book.strategy_templates s !! strategy_template_pk key.

Definition upsert_abi_artifact (artifact : AbiArtifact.t) : B AbiArtifact.t :=
  let key := AbiArtifact.key artifact in
  fail_if (is_blank (AbiArtifactKey.protocol key)) "abi artifact protocol cannot be empty";;
  fail_if (is_blank (AbiArtifactKey.role key)) "abi artifact role cannot be empty";;
  modify (fun s => s <| Book.abi_artifacts ::= <[abi_artifact_pk key := artifact]> |>);;
  mret artifact.

Definition get_abi_artifact (key : AbiArtifactKey.t) (s : Book.t) : option AbiArtifact.t :=
  Book.abi_artifacts s !! abi_artifact_pk key.

(** [sqlite::bounded_limit]. *)
Definition bounded_limit (limit fallback hard_cap : N) : N :=
  if (limit =? 0)%N then N.min fallback hard_cap else N.min limit hard_cap.

(** [ORDER BY] with the given comparison; the order of ties is open. *)
Class RowOrder := order_rows : forall {A : Type}, (A -> A -> bool) -> list A -> list A.
Class RowOrderOk (rows : RowOrder) : Prop := {
  order_rows_perm : forall {A} (le : A -> A -> bool) (l : list A), order_rows le l ≡ₚ l;
  order_rows_sorted : forall {A} (le : A -> A -> bool) (l : list A),
    (forall x y, le x y || le y x = true) ->
    (forall x y z, le x y = true -> le y z = true -> le x z = true) ->
    StronglySorted (fun x y => le x y = true) (order_rows le l);
}.

Definition limit_rows {A} (limit : N) (l : list A) : list A := take (N.to_nat limit) l.

Section Lists.
Context `{rows : RowOrder}.

Definition newer_template (x y : StrategyTemplate.t) : bool :=
  (as_i64 (StrategyTemplate.updated_at_ns y) <=? as_i64 (StrategyTemplate.updated_at_ns x))%Z.

Definition list_all_strategy_templates (limit : N) (s : Book.t) : list StrategyTemplate.t :=
  if (limit =? 0)%N then []
  else limit_rows (bounded_limit limit 25 1000)
         (order_rows newer_template (map_to_list (Book.strategy_templates s)).*2).

Definition list_strategy_templates (key : StrategyTemplateKey.t) (limit : N) (s : Book.t)
    : list StrategyTemplate.t :=
  if (limit =? 0)%N then []
  else limit_rows (bounded_limit limit 25 1000)
         (match get_template key s with Some template => [template] | None => [] end).
End Lists.

(** ** Lifecycle records *)

Definition validate_strategy_template_key (key : StrategyTemplateKey.t) : result string unit :=
  err_if (is_blank (StrategyTemplateKey.protocol key)) "strategy protocol must be non-empty";;
  err_if (is_blank (StrategyTemplateKey.primitive key)) "strategy primitive must be non-empty";;
  err_if (StrategyTemplateKey.chain_id key =? 0)%N
    "strategy chain_id must be greater than zero";;
  err_if (is_blank (StrategyTemplateKey.template_id key)) "strategy template_id must be non-empty".

Definition normalize_decimal_string (raw field : string) : result string string :=
  let trimmed := trim raw in
  err_if (is_empty trimmed) (field +:+ " must be non-empty");;
  err_if (negb (forallb (fun a => is_some (digit_value a)) (str_bytes trimmed)))
    (field +:+ " must be a decimal string");;
  Ok trimmed.

Section Records.
Context `{ext : Externals}.

Definition lookup_digest (prefix payload : string) : string :=
  prefix +:+ ":" +:+ hex_encode (keccak256 (as_bytes payload)).

Definition strategy_template_lookup_key (key : StrategyTemplateKey.t) : string :=
  let normalized :=
    to_ascii_lowercase (trim (StrategyTemplateKey.protocol key)) +:+ "|"
    +:+ to_ascii_lowercase (trim (StrategyTemplateKey.primitive key)) +:+ "|"
    +:+ pretty (StrategyTemplateKey.chain_id key) +:+ "|"
    +:+ to_ascii_lowercase (trim (StrategyTemplateKey.template_id key)) in
  lookup_digest "strategy:template" normalized.

Definition template_state_record_key (kind : string) (key : StrategyTemplateKey.t) : string :=
  "strategy:" +:+ kind +:+ ":" +:+ strategy_template_lookup_key key.
Definition strategy_kill_switch_record_key (key : StrategyTemplateKey.t) : string :=
  "strategy:kill_switch:" +:+ strategy_template_lookup_key key.
Definition strategy_outcome_stats_record_key (key : StrategyTemplateKey.t) : string :=
  "strategy:outcome:" +:+ strategy_template_lookup_key key.
Definition strategy_budget_record_key (key : StrategyTemplateKey.t) : string :=
  "strategy:budget:" +:+ strategy_template_lookup_key key.

Definition set_strategy_template_activation (state : TemplateActivationState.t)
    : B TemplateActivationState.t :=
  lift (validate_strategy_template_key (TemplateActivationState.key state));;
  let record_key := template_state_record_key "activation" (TemplateActivationState.key state) in
  modify (fun s => s <| Book.strategy_activations ::= <[record_key := state]> |>);;
  mret state.

Definition strategy_template_activation (key : StrategyTemplateKey.t) (s : Book.t)
    : option TemplateActivationState.t :=
  Book.strategy_activations s !! template_state_record_key "activation" key.

Definition set_strategy_template_revocation (state : TemplateRevocationState.t)
    : B TemplateRevocationState.t :=
  lift (validate_strategy_template_key (TemplateRevocationState.key state));;
  let record_key := template_state_record_key "revocation" (TemplateRevocationState.key state) in
  modify (fun s => s <| Book.strategy_revocations ::= <[record_key := state]> |>);;
  mret state.

Definition strategy_template_revocation (key : StrategyTemplateKey.t) (s : Book.t)
    : option TemplateRevocationState.t :=
  Book.strategy_revocations s !! template_state_record_key "revocation" key.

Definition set_strategy_kill_switch (state : StrategyKillSwitchState.t)
    : B StrategyKillSwitchState.t :=
  lift (validate_strategy_template_key (StrategyKillSwitchState.key state));;
  let record_key := strategy_kill_switch_record_key (StrategyKillSwitchState.key state) in
  modify (fun s => s <| Book.strategy_kill_switches ::= <[record_key := state]> |>);;
  mret state.

Definition strategy_kill_switch (key : StrategyTemplateKey.t) (s : Book.t)
    : option StrategyKillSwitchState.t :=
  Book.strategy_kill_switches s !! strategy_kill_switch_record_key key.

Definition strategy_outcome_stats (key : StrategyTemplateKey.t) (s : Book.t)
    : option StrategyOutcomeStats.t :=
  Book.strategy_outcome_stats s !! strategy_outcome_stats_record_key key.

Definition upsert_strategy_outcome_stats (stats : StrategyOutcomeStats.t)
    : B StrategyOutcomeStats.t :=
  lift (validate_strategy_template_key (StrategyOutcomeStats.key stats));;
  let record_key := strategy_outcome_stats_record_key (StrategyOutcomeStats.key stats) in
  modify (fun s => s <| Book.strategy_outcome_stats ::= <[record_key := stats]> |>);;
  mret stats.

Definition strategy_template_budget_spent_wei (key : StrategyTemplateKey.t) (s : Book.t)
    : option string :=
  Book.strategy_budgets s !! strategy_budget_record_key key.

Definition set_strategy_template_budget_spent_wei (key : StrategyTemplateKey.t)
    (spent_wei : string) : B string :=
  lift (validate_strategy_template_key key);;
  normalized ← lift (normalize_decimal_string spent_wei "strategy budget spent_wei");
  modify (fun s =>
    s <| Book.strategy_budgets ::= <[strategy_budget_record_key key := normalized]> |>);;
  mret normalized.

(** ** Outcome statistics *)

Definition empty_outcome_stats (key : StrategyTemplateKey.t) : StrategyOutcomeStats.t :=
  StrategyOutcomeStats.mk key 0 0 0 0 0 None None None.

(** The [match] of [record_strategy_outcome] on the kind of the outcome. *)
Definition count_outcome (outcome : StrategyOutcomeKind.t) (error : option string)
    (stats : StrategyOutcomeStats.t) : StrategyOutcomeStats.t :=
  match outcome with
  | StrategyOutcomeKind.Success =>
      stats <| StrategyOutcomeStats.success_runs ::= fun n => saturating_add 64 n 1 |>
            <| StrategyOutcomeStats.deterministic_failure_streak := 0%N |>
            <| StrategyOutcomeStats.last_error := None |>
  | StrategyOutcomeKind.DeterministicFailure =>
      stats <| StrategyOutcomeStats.deterministic_failures ::= fun n => saturating_add 64 n 1 |>
            <| StrategyOutcomeStats.deterministic_failure_streak ::=
                 fun n => saturating_add 32 n 1 |>
            <| StrategyOutcomeStats.last_error := error |>
  | StrategyOutcomeKind.NondeterministicFailure =>
      stats <| StrategyOutcomeStats.nondeterministic_failures ::= fun n => saturating_add 64 n 1 |>
            <| StrategyOutcomeStats.deterministic_failure_streak := 0%N |>
            <| StrategyOutcomeStats.last_error := error |>
  end.

Definition record_strategy_outcome (outcome : StrategyOutcomeEvent.t) : B StrategyOutcomeStats.t :=
  let key := StrategyOutcomeEvent.key outcome in
  lift (validate_strategy_template_key key);;
  fail_if (is_blank (StrategyOutcomeEvent.action_id outcome))
    "outcome action_id must be non-empty";;
  stored ← gets (strategy_outcome_stats key);
  let stats := default (empty_outcome_stats key) stored in
  let stats := stats <| StrategyOutcomeStats.total_runs ::= fun n => saturating_add 64 n 1 |> in
  let stats := count_outcome (StrategyOutcomeEvent.outcome outcome)
                 (StrategyOutcomeEvent.error outcome) stats in
  let stats := stats
    <| StrategyOutcomeStats.last_tx_hash := StrategyOutcomeEvent.tx_hash outcome |>
    <| StrategyOutcomeStats.last_observed_at_ns :=
         Some (StrategyOutcomeEvent.observed_at_ns outcome) |> in
  upsert_strategy_outcome_stats stats.

(** ** [strategy/learner.rs] *)

Definition AUTO_DEACTIVATE_DETERMINISTIC_STREAK : N := 3.

(** [strategy_template_activation(key)] as [is_some_and(enabled)]. *)
Definition strategy_enabled (key : StrategyTemplateKey.t) (s : Book.t) : bool :=
  is_some_and TemplateActivationState.enabled (strategy_template_activation key s).

Definition auto_deactivation (stats : StrategyOutcomeStats.t) (observed_at_ns : N)
    : TemplateActivationState.t :=
  TemplateActivationState.mk (StrategyOutcomeStats.key stats) false observed_at_ns
    (Some ("auto_deactivated after "
           +:+ pretty (StrategyOutcomeStats.deterministic_failure_streak stats)
           +:+ " deterministic failures in a row")).

Definition maybe_auto_deactivate_on_deterministic_failures (stats : StrategyOutcomeStats.t)
    (observed_at_ns : N) : B unit :=
  if (StrategyOutcomeStats.deterministic_failure_streak stats
      <? AUTO_DEACTIVATE_DETERMINISTIC_STREAK)%N
  then mret tt
  else
    currently_enabled ← gets (strategy_enabled (StrategyOutcomeStats.key stats));
    if negb currently_enabled then mret tt
    else set_strategy_template_activation (auto_deactivation stats observed_at_ns);; mret tt.

Definition record_outcome (event : StrategyOutcomeEvent.t) : B StrategyOutcomeStats.t :=
  stats ← record_strategy_outcome event;
  maybe_auto_deactivate_on_deterministic_failures stats
    (StrategyOutcomeEvent.observed_at_ns event);;
  mret stats.

Definition auto_deactivation_for_stats (stats : StrategyOutcomeStats.t) (observed_at_ns : N)
    (s : Book.t) : option TemplateActivationState.t :=
  if (StrategyOutcomeStats.deterministic_failure_streak stats
      <? AUTO_DEACTIVATE_DETERMINISTIC_STREAK)%N
     || negb (strategy_enabled (StrategyOutcomeStats.key stats) s)
  then None
  else Some (auto_deactivation stats observed_at_ns).

Definition summary_for_llm (stats : StrategyOutcomeStats.t) : string :=
  let last_error_segment :=
    match trim <$> StrategyOutcomeStats.last_error stats with
    | Some value => if is_empty value then "" else " (last error: " +:+ value +:+ ")"
    | None => ""
    end in
  pretty (StrategyOutcomeStats.total_runs stats) +:+ " runs: "
  +:+ pretty (StrategyOutcomeStats.success_runs stats) +:+ " succeeded, "
  +:+ pretty (StrategyOutcomeStats.deterministic_failures stats) +:+ " deterministic failures"
  +:+ last_error_segment +:+ ", "
  +:+ pretty (StrategyOutcomeStats.nondeterministic_failures stats) +:+ " transient. Streak: "
  +:+ pretty (StrategyOutcomeStats.deterministic_failure_streak stats)
  +:+ " consecutive deterministic failures.".
End Records.

(** ** Autonomy policy, exposures and quarantines *)

Definition set_autonomy_policy (policy : AutonomyPolicy.t) : B AutonomyPolicy.t :=
  fail_if (AutonomyPolicy.version policy =? 0)%N
    "autonomy policy version must be greater than zero";;
  modify (fun s => s <| Book.autonomy_policy := Some policy |>);;
  mret policy.

Definition validate_active_exposure (exposure : ActiveExposure.t) : result string unit :=
  err_if (is_blank (ActiveExposure.strategy_id exposure))
    "active exposure strategy_id must be non-empty";;
  err_if (is_blank (ActiveExposure.protocol exposure))
    "active exposure protocol must be non-empty";;
  err_if (ActiveExposure.chain_id exposure =? 0)%N
    "active exposure chain_id must be greater than zero";;
  err_if (is_blank (ActiveExposure.asset_symbol exposure))
    "active exposure asset_symbol must be non-empty".

Definition validate_strategy_quarantine (quarantine : StrategyQuarantine.t)
    : result string unit :=
  err_if (is_blank (StrategyQuarantine.strategy_id quarantine))
    "strategy quarantine strategy_id must be non-empty";;
  err_if (is_blank (StrategyQuarantine.reason quarantine))
    "strategy quarantine reason must be non-empty".

Definition active_exposure (strategy_id : string) (s : Book.t) : option ActiveExposure.t :=
  Book.active_exposures s !! strategy_id.

Definition set_active_exposure (exposure : ActiveExposure.t) : B ActiveExposure.t :=
  lift (validate_active_exposure exposure);;
  modify (fun s =>
    s <| Book.active_exposures ::= <[ActiveExposure.strategy_id exposure := exposure]> |>);;
  mret exposure.

Definition remove_active_exposure (strategy_id : string) (s : Book.t) : Book.t :=
  s <| Book.active_exposures ::= delete strategy_id |>.

Definition strategy_quarantine (strategy_id : string) (s : Book.t)
    : option StrategyQuarantine.t :=
  Book.strategy_quarantines s !! strategy_id.

Definition set_strategy_quarantine (quarantine : StrategyQuarantine.t) : B StrategyQuarantine.t :=
  lift (validate_strategy_quarantine quarantine);;
  modify (fun s =>
    s <| Book.strategy_quarantines ::=
           <[StrategyQuarantine.strategy_id quarantine := quarantine]> |>);;
  mret quarantine.

Definition clear_strategy_quarantine (strategy_id : string) (s : Book.t) : Book.t :=
  s <| Book.strategy_quarantines ::= delete strategy_id |>.

Section Exposures.
Context `{rows : RowOrder}.

(** [ORDER BY updated_at_ns DESC, strategy_id ASC]. *)
Definition newer_exposure (x y : ActiveExposure.t) : bool :=
  let newer p q := (as_i64 (ActiveExposure.updated_at_ns q)
                    <? as_i64 (ActiveExposure.updated_at_ns p))%Z in
  newer x y || negb (newer y x)
    && bool_decide (key_le (ActiveExposure.strategy_id x) (ActiveExposure.strategy_id y)).

Definition list_active_exposures (s : Book.t) : list ActiveExposure.t :=
  limit_rows (bounded_limit 1000 100 1000)
    (order_rows newer_exposure (map_to_list (Book.active_exposures s)).*2).

(** ** Pending executions *)

Definition due_before (x y : PendingStrategyExecution.t) : bool :=
  (PendingStrategyExecution.next_check_at_ns x <? PendingStrategyExecution.next_check_at_ns y)%N
  || (PendingStrategyExecution.next_check_at_ns x =? PendingStrategyExecution.next_check_at_ns y)%N
     && (PendingStrategyExecution.created_at_ns x <=? PendingStrategyExecution.created_at_ns y)%N.

Definition execution_rows (s : Book.t) : list PendingStrategyExecution.t :=
  (map_to_list (Book.pending_strategy_executions s)).*2.

Definition list_due_pending_strategy_executions (now_ns limit : N) (s : Book.t)
    : list PendingStrategyExecution.t :=
  limit_rows limit (order_rows due_before (filter (fun execution =>
    PendingStrategyExecution.state execution = PendingStrategyExecutionState.Pending
    /\ (PendingStrategyExecution.next_check_at_ns execution <= now_ns)%N) (execution_rows s))).

(** [created_at_ns ASC, execution_id ASC]. *)
Definition created_before (x y : PendingStrategyExecution.t) : bool :=
  (PendingStrategyExecution.created_at_ns x <? PendingStrategyExecution.created_at_ns y)%N
  || (PendingStrategyExecution.created_at_ns x =? PendingStrategyExecution.created_at_ns y)%N
     && bool_decide (key_le (PendingStrategyExecution.execution_id x)
                            (PendingStrategyExecution.execution_id y)).

Definition created_after (cursor : option (N * string)) (execution : PendingStrategyExecution.t)
    : bool :=
  match cursor with
  | None => true
  | Some (created_at_ns, execution_id) =>
      (created_at_ns <? PendingStrategyExecution.created_at_ns execution)%N
      || (created_at_ns =? PendingStrategyExecution.created_at_ns execution)%N
         && negb (bool_decide (key_le (PendingStrategyExecution.execution_id execution)
                                      execution_id))
  end.

Definition list_confirmed_strategy_executions_page (after : option (N * string)) (limit : N)
    (s : Book.t) : list PendingStrategyExecution.t :=
  limit_rows limit (order_rows created_before (filter (fun execution =>
    PendingStrategyExecution.state execution = PendingStrategyExecutionState.Confirmed
    /\ created_after after execution) (execution_rows s))).
End Exposures.

Definition pending_strategy_execution (execution_id : string) (s : Book.t)
    : option PendingStrategyExecution.t :=
  Book.pending_strategy_executions s !! execution_id.

Definition write_execution (execution : PendingStrategyExecution.t) (s : Book.t) : Book.t :=
  s <| Book.pending_strategy_executions ::=
         <[PendingStrategyExecution.execution_id execution := execution]> |>.

(** [INSERT OR IGNORE]: an existing row wins, if it is of the same plan. *)
Definition insert_pending_strategy_execution (execution : PendingStrategyExecution.t)
    : B PendingStrategyExecution.t :=
  fail_if (is_blank (PendingStrategyExecution.execution_id execution)
           || is_blank (PendingStrategyExecution.plan_digest execution))
    "pending strategy execution identity cannot be empty";;
  lift (validate_strategy_template_key (PendingStrategyExecution.key execution));;
  stored ← gets (pending_strategy_execution (PendingStrategyExecution.execution_id execution));
  match stored with
  | Some existing =>
      fail_if (bool_decide (PendingStrategyExecution.plan_digest existing
                            <> PendingStrategyExecution.plan_digest execution))
        "pending strategy execution id collision";;
      mret existing
  | None => modify (write_execution execution);; mret execution
  end.

(** Neither confirmed nor failed for good. *)
Definition is_open (execution : PendingStrategyExecution.t) : bool :=
  bool_decide (PendingStrategyExecution.state execution = PendingStrategyExecutionState.Pending)
  && negb (PendingStrategyExecution.bookkeeping_applied execution)
  && negb (PendingStrategyExecution.terminal_bookkeeping_applied execution).

(** The row is replaced only while it still is [expected]. *)
Definition compare_and_update_pending_strategy_execution
    (expected desired : PendingStrategyExecution.t) : B bool :=
  if bool_decide (PendingStrategyExecution.execution_id expected
                  <> PendingStrategyExecution.execution_id desired)
     || negb (is_open expected) || negb (is_open desired)
  then mret false
  else
    stored ← gets (pending_strategy_execution (PendingStrategyExecution.execution_id desired));
    if bool_decide (stored = Some expected)
    then modify (write_execution desired);; mret true
    else mret false.

(** The text of [rusqlite]'s [QueryReturnedNoRows]. *)
Class SqlTexts := no_rows : string.

Section Transactions.
Context `{texts : SqlTexts}.

Definition confirm_strategy_execution_atomically (execution : PendingStrategyExecution.t)
    (exposure_change : option (option ActiveExposure.t)) (outcome_record_key : string)
    (outcome_stats : StrategyOutcomeStats.t) (budget_change : option (string * string))
    (strategy_id : string) : B bool :=
  stored ← gets (pending_strategy_execution (PendingStrategyExecution.execution_id execution));
  current ← lift (ok_or stored no_rows);
  if negb (is_open current) then mret false
  else
    match exposure_change with
    | Some (Some exposure) =>
        modify (fun s =>
          s <| Book.active_exposures ::= <[ActiveExposure.strategy_id exposure := exposure]> |>)
    | Some None => modify (remove_active_exposure strategy_id)
    | None => mret tt
    end;;
    modify (fun s =>
      s <| Book.strategy_outcome_stats ::= <[outcome_record_key := outcome_stats]> |>);;
    match budget_change with
    | Some (budget_key, budget) =>
        modify (fun s => s <| Book.strategy_budgets ::= <[budget_key := budget]> |>)
    | None => mret tt
    end;;
    modify (clear_strategy_quarantine strategy_id);;
    modify (write_execution execution);;
    mret true.

Definition fail_strategy_execution_atomically (execution : PendingStrategyExecution.t)
    (outcome_record_key : string) (outcome_stats : StrategyOutcomeStats.t)
    (quarantine : StrategyQuarantine.t)
    (activation_change : option (string * TemplateActivationState.t)) : B bool :=
  stored ← gets (pending_strategy_execution (PendingStrategyExecution.execution_id execution));
  current ← lift (ok_or stored no_rows);
  if negb (is_open current) then mret false
  else
    modify (fun s =>
      s <| Book.strategy_outcome_stats ::= <[outcome_record_key := outcome_stats]> |>);;
    modify (fun s =>
      s <| Book.strategy_quarantines ::=
             <[StrategyQuarantine.strategy_id quarantine := quarantine]> |>);;
    match activation_change with
    | Some (activation_key, activation) =>
        modify (fun s => s <| Book.strategy_activations ::= <[activation_key := activation]> |>)
    | None => mret tt
    end;;
    modify (write_execution execution);;
    mret true.
End Transactions.
