(* ===== verification/StrategyValidator.v ===== *)
(** * StrategyValidator: the gate before a strategy plan is submitted

    Models [strategy/validator.rs]: the four layers as functions from the plan
    and the stored state to the findings they append, in the source's order.
    [validate_execution_plan_passed] reads the report as one proposition: what
    a plan that passes satisfies, and that nothing else is asked. *)

From S2P Require Import Prelude Text SpawnProtocol Types Externals AgentTypes TopUp AgentStore StrategyTypes StrategyStore.

(** [U256::from_str] of digits. *)
Definition all_digits (s : string) : bool :=
  forallb (fun a => is_some (digit_value a)) (str_bytes s).

Section Validator.
Context `{ext : Externals, libs : StrategyLibs}.

Definition parse_u256_decimal (raw field : string) : result string N :=
  let trimmed := trim raw in
  err_if (is_empty trimmed) (field +:+ " cannot be empty");;
  err_if (negb (all_digits trimmed)) (field +:+ " must be a decimal string");;
  ok_or (parse_digits 256 0 trimmed)
    ("failed to parse " +:+ field +:+ ": " +:+ u256_overflow).

(** The value a decimal field stands for. *)
Definition u256_of (raw : string) : option N :=
  match parse_u256_decimal raw "" with Ok value => Some value | Err _ => None end.

Definition finding (layer : ValidationLayer.t) (code message : string) (deterministic : bool)
    : ValidationFinding.t :=
  ValidationFinding.mk layer code message deterministic.

(** [if b { findings.push(finding(layer, code, message, true)) }]. *)
Definition report_if (b : bool) (layer : ValidationLayer.t) (code message : string)
    : list ValidationFinding.t :=
  if b then [finding layer code message true] else [].

(** [for (index, x) in l.iter().enumerate() { ... }]. *)
Definition report_each {A} (body : nat -> A -> list ValidationFinding.t) (l : list A)
    : list ValidationFinding.t :=
  concat (imap body l).

Definition call_text (index : nat) : string := "call[" +:+ pretty (N.of_nat index) +:+ "]".

Definition schema_call (index : nat) (call : StrategyExecutionCall.t)
    : list ValidationFinding.t :=
  report_if (is_blank (StrategyExecutionCall.role call)) ValidationLayer.Schema
    "missing_call_role" (call_text index +:+ " role must be non-empty")
  ++ report_if (negb (is_ok (parse_u256_decimal (StrategyExecutionCall.value_wei call)
                               "value_wei"))) ValidationLayer.Schema
       "invalid_value_wei" (call_text index +:+ " value_wei must be a decimal string")
  ++ match normalize_hex_blob (StrategyExecutionCall.data call) "data" with
     | Err error =>
         [finding ValidationLayer.Schema "invalid_calldata"
            (call_text index +:+ " invalid calldata: " +:+ error) true]
     | Ok _ =>
         report_if (str_len (trim (StrategyExecutionCall.data call)) <? 10)%N
           ValidationLayer.Schema "missing_selector"
           (call_text index +:+ " calldata must include at least a 4-byte selector")
     end.

Definition validate_schema_layer (plan : ExecutionPlan.t) : list ValidationFinding.t :=
  let key := ExecutionPlan.key plan in
  report_if (is_blank (StrategyTemplateKey.protocol key)) ValidationLayer.Schema
    "missing_protocol" "strategy protocol must be non-empty"
  ++ report_if (is_blank (StrategyTemplateKey.primitive key)) ValidationLayer.Schema
       "missing_primitive" "strategy primitive must be non-empty"
  ++ report_if (is_blank (StrategyTemplateKey.template_id key)) ValidationLayer.Schema
       "missing_template_id" "strategy template_id must be non-empty"
  ++ report_if (StrategyTemplateKey.chain_id key =? 0)%N ValidationLayer.Schema
       "invalid_chain_id" "strategy chain_id must be greater than zero"
  ++ report_if (is_blank (ExecutionPlan.action_id plan)) ValidationLayer.Schema
       "missing_action_id" "strategy action_id must be non-empty"
  ++ report_if (bool_decide (ExecutionPlan.calls plan = [])) ValidationLayer.Schema
       "missing_calls" "execution plan must include at least one call"
  ++ report_each schema_call (ExecutionPlan.calls plan).

(** [contract_roles.iter().find(|binding| binding.role == role)]. *)
Definition find_binding (role : string) (bindings : list ContractRoleBinding.t)
    : option ContractRoleBinding.t :=
  snd <$> list_find (fun binding => ContractRoleBinding.role binding = role) bindings.

Definition address_call (template : StrategyTemplate.t) (index : nat)
    (call : StrategyExecutionCall.t) : list ValidationFinding.t :=
  let role := trim (StrategyExecutionCall.role call) in
  match find_binding role (StrategyTemplate.contract_roles template) with
  | None =>
      [finding ValidationLayer.Address "missing_role_binding"
         (call_text index +:+ " missing role binding for role=" +:+ role) true]
  | Some binding =>
      if is_blank (ContractRoleBinding.source_ref binding) then
        [finding ValidationLayer.Address "missing_source_ref"
           ("role binding " +:+ role +:+ " is missing source_ref") true]
      else
        match normalize_evm_address (ContractRoleBinding.address binding),
              normalize_evm_address (StrategyExecutionCall.to call) with
        | Ok expected, Ok actual =>
            report_if (negb (bool_decide (expected = actual))) ValidationLayer.Address
              "binding_address_mismatch"
              (call_text index +:+ " to address does not match role binding " +:+ role)
        | _, _ => []
        end
  end.

Definition invalid_to (index : nat) (call : StrategyExecutionCall.t)
    : list ValidationFinding.t :=
  match normalize_evm_address (StrategyExecutionCall.to call) with
  | Err error =>
      [finding ValidationLayer.Address "invalid_to_address"
         (call_text index +:+ " invalid to address: " +:+ error) true]
  | Ok _ => []
  end.

Definition runtime_chain_id (s : Book.t) : N :=
  EvmPollCursor.chain_id (RuntimeSnapshot.evm_cursor (book_snapshot s)).

Definition validate_address_layer (plan : ExecutionPlan.t)
    (template : option StrategyTemplate.t) (s : Book.t) : list ValidationFinding.t :=
  let plan_chain_id := StrategyTemplateKey.chain_id (ExecutionPlan.key plan) in
  report_if (negb (runtime_chain_id s =? plan_chain_id)%N) ValidationLayer.Address
    "chain_id_mismatch"
    ("runtime chain_id " +:+ pretty (runtime_chain_id s) +:+ " does not match plan chain_id "
     +:+ pretty plan_chain_id)
  ++ report_each invalid_to (ExecutionPlan.calls plan)
  ++ match template with
     | None =>
         [finding ValidationLayer.Address "template_not_found"
            "strategy template not found for execution plan key" true]
     | Some template => report_each (address_call template) (ExecutionPlan.calls plan)
     end.

Definition parse_constraints_policy (raw : string)
    : ConstraintPolicy.t * list ValidationFinding.t :=
  let trimmed := trim raw in
  if is_empty trimmed then (ConstraintPolicy.default, [])
  else
    match constraint_policy_from_str trimmed with
    | Ok policy => (policy, [])
    | Err error =>
        (ConstraintPolicy.default,
         [finding ValidationLayer.Policy "invalid_constraints_json"
            ("template constraints_json is invalid: " +:+ error) true])
    end.

(** One round of the loop over the calls: the total and the per-call cap. *)
Definition policy_call (constraints : ConstraintPolicy.t) (index : nat)
    (call : StrategyExecutionCall.t) : list ValidationFinding.t :=
  match parse_u256_decimal (StrategyExecutionCall.value_wei call) "value_wei" with
  | Err _ => []
  | Ok value_wei =>
      match ConstraintPolicy.max_value_wei_per_call constraints with
      | None => []
      | Some raw_limit =>
          match parse_u256_decimal raw_limit "max_value_wei_per_call" with
          | Err _ => []
          | Ok limit =>
              report_if (limit <? value_wei)%N ValidationLayer.Policy "value_per_call_exceeded"
                (call_text index +:+ " value_wei=" +:+ StrategyExecutionCall.value_wei call
                 +:+ " exceeds max_value_wei_per_call=" +:+ raw_limit)
          end
      end
  end.

Definition add_call_value (total : N) (call : StrategyExecutionCall.t) : N :=
  match parse_u256_decimal (StrategyExecutionCall.value_wei call) "value_wei" with
  | Ok value_wei => saturating_add 256 total value_wei
  | Err _ => total
  end.

Definition plan_total (plan : ExecutionPlan.t) : N :=
  fold_left add_call_value (ExecutionPlan.calls plan) 0%N.

Definition total_limit (constraints : ConstraintPolicy.t) (total_value : N)
    : list ValidationFinding.t :=
  match ConstraintPolicy.max_total_value_wei constraints with
  | None => []
  | Some raw_limit =>
      match parse_u256_decimal raw_limit "max_total_value_wei" with
      | Ok limit =>
          report_if (limit <? total_value)%N ValidationLayer.Policy "max_total_value_exceeded"
            ("plan total value " +:+ pretty total_value +:+ " exceeds max_total_value_wei="
             +:+ raw_limit)
      | Err _ =>
          [finding ValidationLayer.Policy "invalid_max_total_value_wei"
             ("constraints max_total_value_wei is invalid: " +:+ raw_limit) true]
      end
  end.

Definition budget_limit (constraints : ConstraintPolicy.t) (key : StrategyTemplateKey.t)
    (total_value : N) (s : Book.t) : list ValidationFinding.t :=
  match ConstraintPolicy.template_budget_wei constraints with
  | None => []
  | Some raw_limit =>
      match parse_u256_decimal raw_limit "template_budget_wei" with
      | Err _ =>
          [finding ValidationLayer.Policy "invalid_template_budget_wei"
             ("constraints template_budget_wei is invalid: " +:+ raw_limit) true]
      | Ok limit =>
          let spent_raw := default "0" (strategy_template_budget_spent_wei key s) in
          match parse_u256_decimal spent_raw "strategy budget spent_wei" with
          | Err _ =>
              [finding ValidationLayer.Policy "invalid_template_budget_state"
                 ("stored template budget spent_wei is invalid: " +:+ spent_raw) true]
          | Ok spent =>
              let projected := saturating_add 256 spent total_value in
              report_if (limit <? projected)%N ValidationLayer.Policy "template_budget_exceeded"
                ("projected template spend " +:+ pretty projected
                 +:+ " exceeds template_budget_wei=" +:+ raw_limit +:+ " (current_spent="
                 +:+ spent_raw +:+ ")")
          end
      end
  end.

Definition lifecycle_findings (key : StrategyTemplateKey.t) (template : StrategyTemplate.t)
    (s : Book.t) : list ValidationFinding.t :=
  report_if (negb (bool_decide (StrategyTemplate.status template = TemplateStatus.Active)))
    ValidationLayer.Policy "template_not_active" "strategy template status is not Active"
  ++ match strategy_template_activation key s with
     | Some state =>
         report_if (negb (TemplateActivationState.enabled state)) ValidationLayer.Policy
           "activation_disabled" "strategy template activation is disabled"
     | None =>
         [finding ValidationLayer.Policy "activation_missing"
            "strategy template activation record is missing" true]
     end
  ++ report_if (is_some_and TemplateRevocationState.revoked (strategy_template_revocation key s))
       ValidationLayer.Policy "template_revoked" "strategy template is revoked"
  ++ report_if (is_some_and StrategyKillSwitchState.enabled (strategy_kill_switch key s))
       ValidationLayer.Policy "kill_switch_enabled" "strategy kill switch is enabled".

Definition calls_limit (constraints : ConstraintPolicy.t) (plan : ExecutionPlan.t)
    : list ValidationFinding.t :=
  let count := N.of_nat (length (ExecutionPlan.calls plan)) in
  match ConstraintPolicy.max_calls constraints with
  | None => []
  | Some max_calls =>
      report_if (max_calls <? count)%N ValidationLayer.Policy "max_calls_exceeded"
        ("execution plan has " +:+ pretty count +:+ " calls but max_calls is "
         +:+ pretty max_calls)
  end.

Definition missing_required (plan : ExecutionPlan.t) (_ : nat) (required : string)
    : list ValidationFinding.t :=
  report_if (negb (bool_decide (required ∈ ExecutionPlan.postconditions plan)))
    ValidationLayer.Policy "required_postcondition_missing"
    ("missing required postcondition: " +:+ required).

Definition validate_policy_layer (plan : ExecutionPlan.t)
    (template : option StrategyTemplate.t) (s : Book.t) : list ValidationFinding.t :=
  match template with
  | None => []
  | Some template =>
      let key := ExecutionPlan.key plan in
      let '(constraints, json_findings) :=
        parse_constraints_policy (StrategyTemplate.constraints_json template) in
      lifecycle_findings key template s
      ++ json_findings
      ++ calls_limit constraints plan
      ++ report_each (policy_call constraints) (ExecutionPlan.calls plan)
      ++ total_limit constraints (plan_total plan)
      ++ budget_limit constraints key (plan_total plan) s
      ++ report_each (missing_required plan) (ConstraintPolicy.required_postconditions constraints)
  end.

Definition empty_postcondition (index : nat) (postcondition : string)
    : list ValidationFinding.t :=
  report_if (is_blank postcondition) ValidationLayer.Postcondition "empty_postcondition"
    ("postconditions[" +:+ pretty (N.of_nat index) +:+ "] must be non-empty").

Definition validate_postcondition_layer (plan : ExecutionPlan.t) : list ValidationFinding.t :=
  match ExecutionPlan.postconditions plan with
  | [] =>
      [finding ValidationLayer.Postcondition "missing_postconditions"
         "execution plan must include postconditions" true]
  | postconditions => report_each empty_postcondition postconditions
  end.

Definition validate_execution_plan (plan : ExecutionPlan.t) (s : Book.t) : ValidationReport.t :=
  let template := get_template (ExecutionPlan.key plan) s in
  let findings := validate_schema_layer plan ++ validate_address_layer plan template s
    ++ validate_policy_layer plan template s ++ validate_postcondition_layer plan in
  ValidationReport.mk (bool_decide (findings = [])) findings (book_time_ns s).
End Validator.

(** [any(|marker| text.contains(marker))]. *)
Definition contains_any (text : string) (markers : list string) : bool :=
  existsb (contains text) markers.

Definition nondeterministic_markers : list string :=
  ["timeout"; "temporarily unavailable"; "connection reset"; "connection refused"; "network";
   "dns"; "tls"; "503"; "502"; "429"; "gateway"; "rate limit"; "deadline exceeded"].
Definition deterministic_markers : list string :=
  ["invalid"; "missing"; "mismatch"; "must be"; "revert"; "rejected"; "unsupported"; "overflow";
   "underflow"; "insufficient balance"; "insufficient allowance"; "not configured";
   "kill switch"; "revoked"; "inactive"; "decode"].

Definition classify_failure_determinism (error : string) : bool :=
  let normalized := to_ascii_lowercase error in
  if contains_any normalized nondeterministic_markers then false
  else if contains_any normalized deterministic_markers then true
  else true.

(** [classify_strategy_failure_kind] of [features/evm.rs]. *)
Definition classify_strategy_failure_kind (error : string) : StrategyOutcomeKind.t :=
  if contains_any (to_ascii_lowercase error) nondeterministic_markers
  then StrategyOutcomeKind.NondeterministicFailure
  else StrategyOutcomeKind.DeterministicFailure.

(** ** What passes *)

(** No constraint, or one that is a number the value stays below. *)
Definition no_cap_or (p : N -> Prop) (raw_limit : option string) `{StrategyLibs} : Prop :=
  forall raw, raw_limit = Some raw -> exists limit, u256_of raw = Some limit /\ p limit.

Section Gate.
Context `{ext : Externals, libs : StrategyLibs}.

(** The policy in force: the template's JSON, or no constraints at all when it
    is blank. *)
Definition constraints_of (template : StrategyTemplate.t) : option ConstraintPolicy.t :=
  let raw := StrategyTemplate.constraints_json template in
  if is_blank raw then Some ConstraintPolicy.default
  else match constraint_policy_from_str (trim raw) with Ok policy => Some policy | Err _ => None end.

Definition call_shaped (call : StrategyExecutionCall.t) : Prop :=
  trim (StrategyExecutionCall.role call) <> ""
  /\ is_Some (u256_of (StrategyExecutionCall.value_wei call))
  /\ is_ok (normalize_hex_blob (StrategyExecutionCall.data call) "data") = true
  /\ (10 <= str_len (trim (StrategyExecutionCall.data call)))%N.

Definition call_targeted (call : StrategyExecutionCall.t) : Prop :=
  is_ok (normalize_evm_address (StrategyExecutionCall.to call)) = true.

(** The target is the address bound to the call's role, if that is one. *)
Definition call_bound (template : StrategyTemplate.t) (call : StrategyExecutionCall.t) : Prop :=
  exists binding,
    find_binding (trim (StrategyExecutionCall.role call))
      (StrategyTemplate.contract_roles template) = Some binding
    /\ trim (ContractRoleBinding.source_ref binding) <> ""
    /\ forall expected, normalize_evm_address (ContractRoleBinding.address binding) = Ok expected ->
         normalize_evm_address (StrategyExecutionCall.to call) = Ok expected.

(** The per-call cap, if it is a number. *)
Definition call_capped (constraints : ConstraintPolicy.t) (call : StrategyExecutionCall.t)
    : Prop :=
  forall raw limit value, ConstraintPolicy.max_value_wei_per_call constraints = Some raw ->
    u256_of raw = Some limit -> u256_of (StrategyExecutionCall.value_wei call) = Some value ->
    (value <= limit)%N.

Record plan_accepted (plan : ExecutionPlan.t) (s : Book.t) : Prop := {
  plan_key : validate_strategy_template_key (ExecutionPlan.key plan) = Ok tt;
  plan_action : trim (ExecutionPlan.action_id plan) <> "";
  plan_chain : runtime_chain_id s = StrategyTemplateKey.chain_id (ExecutionPlan.key plan);
  plan_calls : ExecutionPlan.calls plan <> []
    /\ Forall call_shaped (ExecutionPlan.calls plan)
    /\ Forall call_targeted (ExecutionPlan.calls plan);
  plan_enabled : strategy_enabled (ExecutionPlan.key plan) s = true;
  plan_not_revoked : is_some_and TemplateRevocationState.revoked
    (strategy_template_revocation (ExecutionPlan.key plan) s) = false;
  plan_not_killed : is_some_and StrategyKillSwitchState.enabled
    (strategy_kill_switch (ExecutionPlan.key plan) s) = false;
  plan_promises : ExecutionPlan.postconditions plan <> []
    /\ Forall (fun text => trim text <> "") (ExecutionPlan.postconditions plan);
  plan_template : exists template constraints,
    get_template (ExecutionPlan.key plan) s = Some template
    /\ StrategyTemplate.status template = TemplateStatus.Active
    /\ constraints_of template = Some constraints
    /\ Forall (call_bound template) (ExecutionPlan.calls plan)
    /\ Forall (call_capped constraints) (ExecutionPlan.calls plan)
    /\ (forall max_calls, ConstraintPolicy.max_calls constraints = Some max_calls ->
         (N.of_nat (length (ExecutionPlan.calls plan)) <= max_calls)%N)
    /\ no_cap_or (fun limit => plan_total plan <= limit)%N
         (ConstraintPolicy.max_total_value_wei constraints)
    /\ no_cap_or (fun limit => exists spent,
           u256_of (default "0" (strategy_template_budget_spent_wei (ExecutionPlan.key plan) s))
             = Some spent
           /\ (saturating_add 256 spent (plan_total plan) <= limit)%N)
         (ConstraintPolicy.template_budget_wei constraints)
    /\ ConstraintPolicy.required_postconditions constraints ⊆ ExecutionPlan.postconditions plan;
}.

Lemma report_if_nil b layer code message : report_if b layer code message = [] <-> b = false.
Proof. by destruct b. Qed.

Lemma report_each_nil {A} (body : nat -> A -> list ValidationFinding.t) (P : A -> Prop) l :
  (forall index x, x ∈ l -> body index x = [] <-> P x) ->
  report_each body l = [] <-> Forall P l.
Proof.
  unfold report_each. revert body. induction l as [|x l IH]; intros body Hbody; [by split|].
  rewrite imap_cons. simpl. rewrite app_nil, Forall_cons, (Hbody 0 x) by set_solver.
  rewrite (IH (body ∘ Datatypes.S)); [done|]. intros index y Hy. unfold compose. apply Hbody.
  set_solver.
Qed.

Lemma is_blank_false s : is_blank s = false <-> trim s <> "".
Proof. apply is_empty_false. Qed.

Lemma parse_u256_field raw field value :
  parse_u256_decimal raw field = Ok value <-> u256_of raw = Some value.
Proof.
  unfold u256_of, parse_u256_decimal.
  destruct (is_empty (trim raw)); [by split|]. destruct (all_digits (trim raw)); [|by split].
  simpl. destruct (parse_digits 256 0 (trim raw)); simpl; [|by split]. split; congruence.
Qed.

Lemma parse_u256_field_Err raw field :
  (exists error, parse_u256_decimal raw field = Err error) <-> u256_of raw = None.
Proof.
  destruct (u256_of raw) as [value|] eqn:Hraw.
  - apply (parse_u256_field raw field) in Hraw. rewrite Hraw. naive_solver.
  - destruct (parse_u256_decimal raw field) as [value|error] eqn:Hparse; [|naive_solver].
    apply parse_u256_field in Hparse. congruence.
Qed.

(** *** Layer by layer *)

Lemma schema_call_nil index call : schema_call index call = [] <-> call_shaped call.
Proof.
  unfold schema_call, call_shaped. rewrite !app_nil, !report_if_nil, is_blank_false, negb_false_iff.
  assert (is_ok (parse_u256_decimal (StrategyExecutionCall.value_wei call) "value_wei") = true
          <-> is_Some (u256_of (StrategyExecutionCall.value_wei call))) as ->.
  { split.
    - destruct (parse_u256_decimal _ _) as [value|] eqn:Hvalue; [|done]. intros _.
      apply parse_u256_field in Hvalue. by exists value.
    - intros [value Hvalue]. apply (parse_u256_field _ "value_wei") in Hvalue. by rewrite Hvalue. }
  destruct (normalize_hex_blob _ _); simpl; rewrite ?report_if_nil, ?N.ltb_ge; naive_solver.
Qed.

Lemma invalid_to_nil index call : invalid_to index call = [] <-> call_targeted call.
Proof. unfold invalid_to, call_targeted. by destruct (normalize_evm_address _). Qed.

Lemma validate_key_Ok key :
  validate_strategy_template_key key = Ok tt <->
  trim (StrategyTemplateKey.protocol key) <> "" /\ trim (StrategyTemplateKey.primitive key) <> ""
  /\ trim (StrategyTemplateKey.template_id key) <> "" /\ StrategyTemplateKey.chain_id key <> 0%N.
Proof.
  unfold validate_strategy_template_key.
  rewrite !err_if_seq_Ok, err_if_Ok, !is_blank_false, N.eqb_neq. naive_solver.
Qed.

Lemma schema_layer_nil plan :
  validate_schema_layer plan = [] <->
  validate_strategy_template_key (ExecutionPlan.key plan) = Ok tt
  /\ trim (ExecutionPlan.action_id plan) <> "" /\ ExecutionPlan.calls plan <> []
  /\ Forall call_shaped (ExecutionPlan.calls plan).
Proof.
  unfold validate_schema_layer.
  rewrite !app_nil, !report_if_nil, validate_key_Ok, !is_blank_false, N.eqb_neq,
    bool_decide_eq_false.
  rewrite (report_each_nil _ call_shaped) by (intros; apply schema_call_nil). naive_solver.
Qed.

Lemma address_call_nil template index call :
  call_targeted call -> address_call template index call = [] <-> call_bound template call.
Proof.
  unfold address_call, call_bound, call_targeted. intros Hto.
  destruct (find_binding _ _) as [binding|]; [|split; [done|]; by intros (? & ? & _)].
  destruct (is_blank (ContractRoleBinding.source_ref binding)) eqn:Hsource.
  { split; [done|]. intros (? & [= <-] & Hnot & _). apply is_blank_false in Hnot. congruence. }
  apply is_blank_false in Hsource.
  destruct (normalize_evm_address (StrategyExecutionCall.to call)) as [actual|]; [|done].
  transitivity (forall expected,
    normalize_evm_address (ContractRoleBinding.address binding) = Ok expected ->
    Ok (E := string) actual = Ok expected).
  - destruct (normalize_evm_address (ContractRoleBinding.address binding)) as [expected|]; [|done].
    rewrite report_if_nil, negb_false_iff, bool_decide_eq_true. naive_solver.
  - split; [by exists binding|]. by intros (? & [= <-] & _ & Hbound).
Qed.

Lemma address_layer_nil plan template s :
  validate_address_layer plan template s = [] <->
  runtime_chain_id s = StrategyTemplateKey.chain_id (ExecutionPlan.key plan)
  /\ Forall call_targeted (ExecutionPlan.calls plan)
  /\ exists found, template = Some found /\ Forall (call_bound found) (ExecutionPlan.calls plan).
Proof.
  unfold validate_address_layer.
  rewrite !app_nil, report_if_nil, negb_false_iff, N.eqb_eq.
  rewrite (report_each_nil _ call_targeted) by (intros; apply invalid_to_nil).
  destruct template as [found|]; [|naive_solver].
  split.
  - intros (Hchain & Hto & Hbound). repeat split; [done..|]. exists found. split; [done|].
    revert Hbound. apply report_each_nil. intros index call Hcall. apply address_call_nil.
    rewrite Forall_forall in Hto. by apply Hto.
  - intros (Hchain & Hto & ? & [= <-] & Hbound). repeat split; [done..|].
    revert Hbound. apply report_each_nil. intros index call Hcall. apply address_call_nil.
    rewrite Forall_forall in Hto. by apply Hto.
Qed.

Lemma lifecycle_nil key template s :
  lifecycle_findings key template s = [] <->
  StrategyTemplate.status template = TemplateStatus.Active /\ strategy_enabled key s = true
  /\ is_some_and TemplateRevocationState.revoked (strategy_template_revocation key s) = false
  /\ is_some_and StrategyKillSwitchState.enabled (strategy_kill_switch key s) = false.
Proof.
  unfold lifecycle_findings, strategy_enabled.
  rewrite !app_nil, !report_if_nil, negb_false_iff, bool_decide_eq_true.
  destruct (strategy_template_activation key s); simpl;
    rewrite ?report_if_nil, ?negb_false_iff; naive_solver.
Qed.

Lemma policy_call_nil constraints index call :
  policy_call constraints index call = [] <-> call_capped constraints call.
Proof.
  unfold policy_call, call_capped.
  destruct (parse_u256_decimal (StrategyExecutionCall.value_wei call) _) as [value|error] eqn:Hvalue.
  - apply parse_u256_field in Hvalue. rewrite Hvalue.
    destruct (ConstraintPolicy.max_value_wei_per_call constraints) as [raw|]; [|naive_solver].
    destruct (parse_u256_decimal raw _) as [limit|error] eqn:Hlimit.
    + apply parse_u256_field in Hlimit. rewrite report_if_nil, N.ltb_ge. naive_solver.
    + assert (u256_of raw = None) by (eapply parse_u256_field_Err; eauto). split; [|done]. intros _ ? ? ? [= <-] ?. congruence.
  - assert (u256_of (StrategyExecutionCall.value_wei call) = None) as -> by
      (eapply parse_u256_field_Err; eauto). naive_solver.
Qed.

Lemma total_limit_nil constraints total :
  total_limit constraints total = [] <->
  no_cap_or (fun limit => total <= limit)%N (ConstraintPolicy.max_total_value_wei constraints).
Proof.
  unfold total_limit, no_cap_or.
  destruct (ConstraintPolicy.max_total_value_wei constraints) as [raw|]; [|naive_solver].
  destruct (parse_u256_decimal raw _) as [limit|error] eqn:Hlimit.
  - apply parse_u256_field in Hlimit. rewrite report_if_nil, N.ltb_ge. naive_solver.
  - assert (u256_of raw = None) by (eapply parse_u256_field_Err; eauto).
    split; [done|]. intros Hcap. destruct (Hcap raw eq_refl) as (? & ? & ?). congruence.
Qed.

Lemma budget_limit_nil constraints key total s :
  budget_limit constraints key total s = [] <->
  no_cap_or (fun limit => exists spent,
      u256_of (default "0" (strategy_template_budget_spent_wei key s)) = Some spent
      /\ (saturating_add 256 spent total <= limit)%N)
    (ConstraintPolicy.template_budget_wei constraints).
Proof.
  unfold budget_limit, no_cap_or.
  destruct (ConstraintPolicy.template_budget_wei constraints) as [raw|]; [|naive_solver].
  destruct (parse_u256_decimal raw _) as [limit|error] eqn:Hlimit.
  - apply parse_u256_field in Hlimit.
    destruct (parse_u256_decimal (default _ _) _) as [spent|error] eqn:Hspent.
    + apply parse_u256_field in Hspent. rewrite report_if_nil, N.ltb_ge. naive_solver.
    + assert (u256_of (default "0" (strategy_template_budget_spent_wei key s)) = None) by
        (eapply parse_u256_field_Err; eauto).
    split; [done|]. intros Hcap. destruct (Hcap raw eq_refl) as (? & ? & ? & ? & ?). congruence.
  - assert (u256_of raw = None) by (eapply parse_u256_field_Err; eauto).
    split; [done|]. intros Hcap. destruct (Hcap raw eq_refl) as (? & ? & ? & ? & ?). congruence.
Qed.

Lemma calls_limit_nil constraints plan :
  calls_limit constraints plan = [] <->
  forall max_calls, ConstraintPolicy.max_calls constraints = Some max_calls ->
    (N.of_nat (length (ExecutionPlan.calls plan)) <= max_calls)%N.
Proof.
  unfold calls_limit. destruct (ConstraintPolicy.max_calls constraints); [|naive_solver].
  rewrite report_if_nil, N.ltb_ge. naive_solver.
Qed.

Lemma required_nil plan constraints :
  report_each (missing_required plan) (ConstraintPolicy.required_postconditions constraints) = []
  <-> ConstraintPolicy.required_postconditions constraints ⊆ ExecutionPlan.postconditions plan.
Proof.
  rewrite (report_each_nil _ (fun text => text ∈ ExecutionPlan.postconditions plan)).
  - rewrite Forall_forall. done.
  - intros index text _. unfold missing_required.
    by rewrite report_if_nil, negb_false_iff, bool_decide_eq_true.
Qed.

Lemma postcondition_layer_nil plan :
  validate_postcondition_layer plan = [] <->
  ExecutionPlan.postconditions plan <> []
  /\ Forall (fun text => trim text <> "") (ExecutionPlan.postconditions plan).
Proof.
  unfold validate_postcondition_layer.
  destruct (ExecutionPlan.postconditions plan) as [|text texts]; [naive_solver|].
  rewrite (report_each_nil _ (fun text => trim text <> "")); [naive_solver|].
  intros index x _. unfold empty_postcondition. by rewrite report_if_nil, is_blank_false.
Qed.

Lemma parse_constraints_nil template constraints findings :
  parse_constraints_policy (StrategyTemplate.constraints_json template) = (constraints, findings) ->
  findings = [] <-> constraints_of template = Some constraints.
Proof.
  unfold parse_constraints_policy, constraints_of, is_blank.
  destruct (is_empty _); [naive_solver|].
  destruct (constraint_policy_from_str _); naive_solver.
Qed.

Lemma validation_passed_iff (plan : ExecutionPlan.t) (s : Book.t) :
  ValidationReport.passed (validate_execution_plan plan s) = true <-> plan_accepted plan s.
Proof.
  unfold validate_execution_plan. simpl.
  rewrite bool_decide_eq_true, !app_nil, schema_layer_nil, address_layer_nil,
    postcondition_layer_nil. unfold validate_policy_layer.
  destruct (get_template _ s) as [template|] eqn:Htemplate; cycle 1.
  { split; [naive_solver|]. intros [? ? ? ? ? ? ? ? (? & ? & Hfound & _)]. congruence. }
  destruct (parse_constraints_policy _) as [constraints findings] eqn:Hparse.
  apply parse_constraints_nil in Hparse as Hconstraints.
  rewrite !app_nil, Hconstraints, lifecycle_nil, calls_limit_nil, total_limit_nil,
    budget_limit_nil, required_nil.
  rewrite (report_each_nil _ (call_capped constraints)) by (intros; apply policy_call_nil).
  split.
  - intros ((? & ? & ? & ?) & (? & ? & ? & [= <-] & ?) & ((? & ? & ? & ?) & ? & ? & ? & ? & ? & ?) & ?).
    split; [done..|]. by exists template, constraints.
  - intros [? ? ? (? & ? & ?) ? ? ? ? (? & policy & Hfound & ? & Hpolicy & ?)].
    rewrite Htemplate in Hfound. injection Hfound as <-.
    assert (policy = constraints) as ->.
    { unfold parse_constraints_policy, constraints_of, is_blank in *.
      destruct (is_empty _); [congruence|]. destruct (constraint_policy_from_str _); congruence. }
    naive_solver.
Qed.

(** C26 - The report of [validate_execution_plan] passes exactly when the plan
    is accepted: its key and action are named and its chain is the runtime's;
    every call has a role, a decimal value, calldata of at least a selector and
    the target its template binds to that role; the template is active,
    enabled, neither revoked nor killed; calls, values and the lifetime budget
    are within the template's constraints; and every required postcondition is
    promised.  The report carries the time of the check. *)
Theorem validate_execution_plan_passed (plan : ExecutionPlan.t) (s : Book.t) :
  (ValidationReport.passed (validate_execution_plan plan s) = true <-> plan_accepted plan s)
  /\ ValidationReport.checked_at_ns (validate_execution_plan plan s) = book_time_ns s.
Proof. split; [apply validation_passed_iff|done]. Qed.
End Gate.
