(* ===== verification/StrategyAbi.v ===== *)
(** * StrategyAbi: ABI artifacts and function selectors

    Models [strategy/abi.rs]: the canonical form of ABI types and signatures,
    the selector of a signature, the names of unnamed parameters, and the
    normalisation of an ABI JSON text into an artifact that is stored under its
    protocol, chain and role. *)

From S2P Require Import Prelude Text SpawnProtocol Types Externals AgentTypes Evm TopUp AgentStore StrategyTypes StrategyStore.
From Stdlib Require Import Ascii Strings.Byte.

(** ** Types and signatures *)

(** [chars().filter(|c| !c.is_whitespace()).collect()]. *)
Definition remove_whitespace (s : string) : string :=
  concat_str (filter (fun c => is_whitespace c = false) (chars s)).

Definition is_char (code : N) (a : ascii) : bool := (byte_of a =? code)%N.

(** The loop of [validate_array_suffix]: ["[" digits "]"] repeated; [inside]
    is between the brackets. *)
Fixpoint array_suffix (inside : bool) (s : string) : bool :=
  match s with
  | EmptyString => negb inside
  | String a s' =>
      if inside
      then if is_some (digit_value a) then array_suffix true s'
           else is_char 93 a && array_suffix false s'
      else is_char 91 a && array_suffix true s'
  end.

Definition validate_array_suffix (raw_suffix : string) : result string unit :=
  err_if (negb (array_suffix false raw_suffix))
    ("invalid array suffix in abi type: " +:+ raw_suffix).

(** Up to the first ["["], and from it on. *)
Fixpoint split_base_and_suffix (kind : string) : string * string :=
  match kind with
  | EmptyString => (EmptyString, EmptyString)
  | String a rest =>
      if is_char 91 a then (EmptyString, kind)
      else let '(base, suffix) := split_base_and_suffix rest in (String a base, suffix)
  end.

Definition canonical_base_type (base : string) : string :=
  if bool_decide (base = "uint") then "uint256"
  else if bool_decide (base = "int") then "int256" else base.

(** The names tried for an unnamed parameter: [arg0], [arg1], ... from
    [next] on; there is a free one among as many as are used and one more. *)
Fixpoint fallback_name (fuel : nat) (used : gset string) (next : N) : string * N :=
  let fallback := "arg" +:+ pretty next in
  let next := saturating_add 32 next 1 in
  if bool_decide (fallback ∈ used)
  then match fuel with O => (fallback, next) | S fuel => fallback_name fuel used next end
  else (fallback, next).

(** The state of the two loops that name parameters. *)
Module Names.
Record t := mk { used : gset string; next_fallback_index : N }.
Definition start : t := mk ∅ 0.
End Names.

(** [normalize_param_name]: the trimmed name if it is there and free. *)
Definition normalize_param_name (raw_name : option string) (names : Names.t)
    : string * Names.t :=
  let fallback :=
    let '(name, next) :=
      fallback_name (size (Names.used names)) (Names.used names)
        (Names.next_fallback_index names) in
    (name, Names.mk ({[name]} ∪ Names.used names) next) in
  match trim <$> raw_name with
  | Some candidate =>
      if is_empty candidate || bool_decide (candidate ∈ Names.used names) then fallback
      else (candidate,
            Names.mk ({[candidate]} ∪ Names.used names) (Names.next_fallback_index names))
  | None => fallback
  end.

Section ParamLoop.
Context {A T : Type} (raw_name : A -> option string) (normalize : A -> string -> T).

(** The loop of [normalize_raw_params] and of [normalize_named_specs]. *)
Definition name_params : Names.t -> list A -> list T :=
  fix loop (names : Names.t) (raw_params : list A) :=
    match raw_params with
    | [] => []
    | raw :: raw_params =>
        let '(name, names) := normalize_param_name (raw_name raw) names in
        normalize raw name :: loop names raw_params
    end.
End ParamLoop.

Section Abi.
Context `{ext : Externals, libs : StrategyLibs}.

Definition normalize_raw_kind (raw_kind : string) : result string string :=
  let compact := unicode_lowercase (remove_whitespace raw_kind) in
  err_if (is_empty compact) "abi type must be non-empty";;
  match strip_prefix compact "tuple" with
  | Some suffix => validate_array_suffix suffix;; Ok ("tuple" +:+ suffix)
  | None =>
      let '(base, suffix) := split_base_and_suffix compact in
      validate_array_suffix suffix;;
      let canonical_base := canonical_base_type base in
      err_if (is_empty canonical_base) "abi type base must be non-empty";;
      Ok (canonical_base +:+ suffix)
  end.

Fixpoint normalize_raw_param (raw : RawAbiParam.t) (name : string)
    : result string AbiTypeSpec.t :=
  let '(RawAbiParam.mk _ kind raw_components) := raw in
  normalized_kind ← normalize_raw_kind kind;
  if starts_with normalized_kind "tuple" then
    err_if (bool_decide (raw_components = [])) "tuple parameter must provide components";;
    components ← try_map (fun component => component)
      (name_params RawAbiParam.name normalize_raw_param Names.start raw_components);
    Ok (AbiTypeSpec.mk name normalized_kind components)
  else Ok (AbiTypeSpec.mk name normalized_kind []).

Definition normalize_raw_params (raw_params : list RawAbiParam.t)
    : result string (list AbiTypeSpec.t) :=
  try_map (fun param => param)
    (name_params RawAbiParam.name normalize_raw_param Names.start raw_params).

Fixpoint canonicalize_type_spec (spec : AbiTypeSpec.t) : result string string :=
  let '(AbiTypeSpec.mk _ kind spec_components) := spec in
  normalized_kind ← normalize_raw_kind kind;
  match strip_prefix normalized_kind "tuple" with
  | Some suffix =>
      err_if (bool_decide (spec_components = [])) "tuple type spec must include components";;
      components ← try_map canonicalize_type_spec spec_components;
      Ok ("(" +:+ join "," components +:+ ")" +:+ suffix)
  | None => Ok normalized_kind
  end.

Definition canonical_signature (function_name : string) (inputs : list AbiTypeSpec.t)
    : result string string :=
  let trimmed_name := trim function_name in
  err_if (is_empty trimmed_name) "function name must be non-empty";;
  normalized_args ← try_map canonicalize_type_spec inputs;
  Ok (trimmed_name +:+ "(" +:+ join "," normalized_args +:+ ")").

Definition recompute_selector_hex (signature : string) : string :=
  "0x" +:+ hex_encode (take 4 (keccak256 (as_bytes signature))).

(** [util::normalize_selector_hex]. *)
Definition normalize_selector_hex (raw : string) : result string string :=
  let compact := to_ascii_lowercase (trim raw) in
  let normalized := default compact (strip_prefix compact "0x") in
  err_if (negb (str_len normalized =? 8)%N) "selector must be exactly 4 bytes hex";;
  err_if (negb (forallb is_ascii_hexdigit (str_bytes normalized))) "selector must be valid hex";;
  Ok ("0x" +:+ normalized).

Definition verify_function_selector (spec : AbiFunctionSpec.t) : result string string :=
  signature ← canonical_signature (AbiFunctionSpec.name spec) (AbiFunctionSpec.inputs spec);
  let recomputed := recompute_selector_hex signature in
  normalized ← normalize_selector_hex (AbiFunctionSpec.selector_hex spec);
  err_if (bool_decide (recomputed <> normalized))
    ("selector mismatch for " +:+ signature +:+ ": declared=" +:+ normalized +:+ " recomputed="
     +:+ recomputed);;
  Ok signature.

(** ** Artifacts *)

Definition normalize_signature_string (raw_signature : string) : result string string :=
  let normalized := remove_whitespace raw_signature in
  err_if (is_empty normalized) "signature assertion must be non-empty";;
  Ok normalized.

Definition verify_selector_assertions (selector_by_signature : gmap string string)
    (selector_assertions : list AbiSelectorAssertion.t) : result string unit :=
  try_each selector_assertions (fun assertion =>
    signature ← normalize_signature_string (AbiSelectorAssertion.signature assertion);
    expected_selector ← normalize_selector_hex (AbiSelectorAssertion.selector_hex assertion);
    actual_selector ← ok_or (selector_by_signature !! signature)
      ("selector assertion references unknown signature: " +:+ signature);
    err_if (bool_decide (actual_selector <> expected_selector))
      ("selector mismatch for " +:+ signature +:+ ": expected=" +:+ expected_selector
       +:+ " actual=" +:+ actual_selector)).

Definition validate_abi_artifact_key (key : AbiArtifactKey.t) : result string unit :=
  err_if (is_blank (AbiArtifactKey.protocol key)) "abi artifact protocol must be non-empty";;
  err_if (AbiArtifactKey.chain_id key =? 0)%N "abi artifact chain_id must be greater than zero";;
  err_if (is_blank (AbiArtifactKey.role key)) "abi artifact role must be non-empty".

Definition decode_abi_entries (abi_json : string) : result string (list RawAbiEntry.t) :=
  value ← map_err (fun error => "invalid abi json: " +:+ error) (value_from_str abi_json);
  entries_value ←
    match Value.as_array value with
    | Some _ => Ok value
    | None =>
        ok_or (Value.get "abi" value)
          "abi json must be an array or object containing an `abi` array"
    end;
  map_err (fun error => "invalid abi format: " +:+ error) (abi_entries_from_value entries_value).

(** One entry of type "function" as its signature and specification. *)
Definition normalize_function (role : string) (entry : RawAbiEntry.t)
    : result string (string * AbiFunctionSpec.t) :=
  name ← ok_or
    match trim <$> RawAbiEntry.name entry with
    | Some name => if is_empty name then None else Some name
    | None => None
    end "function entry must include a non-empty name";
  inputs ← normalize_raw_params (RawAbiEntry.inputs entry);
  outputs ← normalize_raw_params (RawAbiEntry.outputs entry);
  signature ← canonical_signature name inputs;
  Ok (signature,
      AbiFunctionSpec.mk role name (recompute_selector_hex signature) inputs outputs
        (default "nonpayable" (RawAbiEntry.state_mutability entry))).

(** [selector_by_signature], unless a signature is there twice. *)
Fixpoint index_selectors (functions : list (string * AbiFunctionSpec.t))
    (selector_by_signature : gmap string string) : result string (gmap string string) :=
  match functions with
  | [] => Ok selector_by_signature
  | (signature, spec) :: functions =>
      err_if (is_some (selector_by_signature !! signature))
        ("duplicate function signature detected: " +:+ signature);;
      index_selectors functions
        (<[signature := AbiFunctionSpec.selector_hex spec]> selector_by_signature)
  end.

Definition normalize_abi_artifact (key : AbiArtifactKey.t) (abi_json source_ref : string)
    (codehash : option string) (selector_assertions : list AbiSelectorAssertion.t)
    (now_ns : N) : result string AbiArtifact.t :=
  validate_abi_artifact_key key;;
  err_if (is_blank source_ref) "source_ref must be provided";;
  entries ← decode_abi_entries abi_json;
  functions ← try_map (normalize_function (AbiArtifactKey.role key))
    (filter (fun entry => RawAbiEntry.entry_type entry = "function") entries);
  err_if (bool_decide (functions.*1 = [])) "abi artifact must include at least one function";;
  selector_by_signature ← index_selectors functions ∅;
  verify_selector_assertions selector_by_signature selector_assertions;;
  Ok (AbiArtifact.mk key (trim source_ref) codehash abi_json
        (merge_sort entry_le functions).*2 now_ns now_ns).

Definition normalize_and_store_abi_artifact (key : AbiArtifactKey.t)
    (abi_json source_ref : string) (codehash : option string)
    (selector_assertions : list AbiSelectorAssertion.t) (now_ns : N) : B AbiArtifact.t :=
  artifact ← lift (normalize_abi_artifact key abi_json source_ref codehash selector_assertions
                     now_ns);
  upsert_abi_artifact artifact.
End Abi.

(** ** Names are distinct *)

Definition arg_name (n : N) : string := "arg" +:+ pretty n.

Lemma fallback_name_tried fuel used next :
  (next + N.of_nat fuel < max_uint 32)%N ->
  (fallback_name fuel used next).1 ∉ used
  \/ forall k, k <= fuel -> arg_name (next + N.of_nat k) ∈ used.
Proof.
  revert next. induction fuel as [|fuel IH]; intros next Hnext; simpl;
    (case_bool_decide as Hused; [|by left]).
  - right. intros k Hk. replace (next + N.of_nat k)%N with next by lia. done.
  - assert (saturating_add 32 next 1 = next + 1)%N as -> by (unfold saturating_add; lia).
    destruct (IH (next + 1)%N) as [Hfresh|Htried]; [lia|by left|]. right. intros [|k] Hk.
    + by rewrite N.add_0_r.
    + replace (next + N.of_nat (S k))%N with (next + 1 + N.of_nat k)%N by lia. apply Htried. lia.
Qed.

Lemma arg_names_size (used : gset string) next fuel :
  (forall k, k <= fuel -> arg_name (next + N.of_nat k) ∈ used) -> fuel < size used.
Proof.
  intros Htried.
  assert (NoDup ((fun k => arg_name (next + N.of_nat k)) <$> seq 0 (S fuel))) as Hnames.
  { apply NoDup_fmap_2; [|apply NoDup_seq]. intros j k Hjk. apply (inj (String.app "arg")) in Hjk.
    apply (inj pretty) in Hjk. lia. }
  assert (list_to_set ((fun k => arg_name (next + N.of_nat k)) <$> seq 0 (S fuel)) ⊆ used) as Hsub.
  { intros name. rewrite elem_of_list_to_set, list_elem_of_fmap.
    intros (k & -> & Hk%elem_of_seq). apply Htried. lia. }
  apply subseteq_size in Hsub. rewrite size_list_to_set in Hsub by done.
  rewrite length_fmap, length_seq in Hsub. lia.
Qed.

(** The name tried last is free, as long as the counter does not saturate. *)
Lemma fallback_name_fresh used next :
  (next + N.of_nat (size used) < max_uint 32)%N ->
  (fallback_name (size used) used next).1 ∉ used.
Proof.
  intros Hnext. destruct (fallback_name_tried (size used) used next Hnext) as [|Htried]; [done|].
  apply arg_names_size in Htried. lia.
Qed.

Section ArtifactFacts.
#[local] Set Default Proof Using "All".
Context `{ext : Externals, ext_ok : !ExternalsOk ext, libs : StrategyLibs}.

Lemma recomputed_selector_normal signature :
  normalize_selector_hex (recompute_selector_hex signature) = Ok (recompute_selector_hex signature).
Proof.
  unfold recompute_selector_hex, normalize_selector_hex.
  set (bytes := take 4 (keccak256 (as_bytes signature))).
  assert (length bytes = 4) as Hlength by (unfold bytes; rewrite length_take, length_keccak256; lia).
  pose proof (hex_encode_is_lower_hex bytes) as Hhex. unfold is_lower_hex in Hhex.
  apply andb_true_iff in Hhex as [Hsize Hdigits]. rewrite Hlength in Hsize.
  destruct (lower_hex_normal (hex_encode bytes) Hdigits) as (Htrim & Hlower & Hascii).
  rewrite Htrim, Hlower, strip_0x. simpl default.
  change (2 * N.of_nat 4)%N with 8%N in Hsize. rewrite Hsize, Hascii. done.
Qed.

Lemma verify_selector_of_signature name inputs signature role outputs mutability :
  canonical_signature name inputs = Ok signature ->
  verify_function_selector
    (AbiFunctionSpec.mk role name (recompute_selector_hex signature) inputs outputs mutability)
  = Ok signature.
Proof.
  intros Hsignature. unfold verify_function_selector. simpl. rewrite Hsignature. simpl.
  rewrite recomputed_selector_normal. simpl. by rewrite bool_decide_eq_false_2 by congruence.
Qed.

(** A function of an artifact: its selector is that of its signature. *)
Definition selected (role : string) (entry : string * AbiFunctionSpec.t) : Prop :=
  verify_function_selector entry.2 = Ok entry.1 /\ AbiFunctionSpec.role entry.2 = role
  /\ AbiFunctionSpec.selector_hex entry.2 = recompute_selector_hex entry.1.

Lemma normalize_function_selected role entry result :
  normalize_function role entry = Ok result -> selected role result.
Proof.
  unfold normalize_function.
  intros (name & _ & (inputs & _ & (outputs & _ &
    (signature & Hsignature & [= <-])%result_bind_Ok)%result_bind_Ok)%result_bind_Ok)%result_bind_Ok.
  split; [|done]. by apply verify_selector_of_signature.
Qed.

Lemma index_selectors_Ok functions index result :
  index_selectors functions index = Ok result ->
  NoDup functions.*1 /\ (forall signature, signature ∈ functions.*1 -> index !! signature = None)
  /\ (forall signature selector, result !! signature = Some selector <->
        index !! signature = Some selector
        \/ exists spec, (signature, spec) ∈ functions /\ AbiFunctionSpec.selector_hex spec = selector).
Proof.
  revert index. induction functions as [|[signature spec] functions IH]; intros index; simpl.
  { intros [= <-]. split; [constructor|]. set_solver. }
  destruct (index !! signature) eqn:Hnew; [done|]. simpl.
  intros (Hdistinct & Hfresh & Hresult)%IH.
  assert (signature ∉ functions.*1) as Hsignature.
  { intros Hin. specialize (Hfresh _ Hin). by rewrite lookup_insert_eq in Hfresh. }
  split; [by constructor|]. split.
  - intros other [->|Hother]%list_elem_of_In%in_inv; [done|].
    apply list_elem_of_In in Hother. specialize (Hfresh other Hother).
    apply lookup_insert_None in Hfresh. tauto.
  - intros other selector. rewrite Hresult, lookup_insert_Some. setoid_rewrite list_elem_of_In.
    simpl. split; [|intros [Hold|(found & [[= <- <-]|Hfound] & <-)]].
    + naive_solver.
    + left. right. split; [|done]. congruence.
    + by left; left.
    + right. exists found. naive_solver.
Qed.

(** [normalize_abi_artifact] returns an artifact only for a named key and
    source, and what it returns is the ABI it was given, with at least one
    function; its functions are listed by strictly increasing canonical
    signature, each under the artifact's role with the selector
    [verify_function_selector] recomputes for it; and every selector assertion
    of the caller holds of one of them. *)
Theorem normalize_abi_artifact_correct (key : AbiArtifactKey.t) (abi_json source_ref : string)
    (codehash : option string) (assertions : list AbiSelectorAssertion.t) (now_ns : N)
    (artifact : AbiArtifact.t)
    (Hartifact : normalize_abi_artifact key abi_json source_ref codehash assertions now_ns
                 = Ok artifact) :
  validate_abi_artifact_key key = Ok tt /\ trim source_ref <> ""
  /\ AbiArtifact.key artifact = key /\ AbiArtifact.abi_json artifact = abi_json
  /\ AbiArtifact.source_ref artifact = trim source_ref
  /\ exists functions : list (string * AbiFunctionSpec.t),
       functions <> [] /\ AbiArtifact.functions artifact = functions.*2
       /\ StronglySorted (fun f g => entry_le f g /\ f.1 <> g.1) functions
       /\ Forall (selected (AbiArtifactKey.role key)) functions
       /\ Forall (fun assertion => exists function,
            function ∈ functions
            /\ normalize_signature_string (AbiSelectorAssertion.signature assertion)
               = Ok function.1
            /\ normalize_selector_hex (AbiSelectorAssertion.selector_hex assertion)
               = Ok (AbiFunctionSpec.selector_hex function.2)) assertions.
Proof.
  revert Hartifact. unfold normalize_abi_artifact.
  intros ([] & Hkey & Hartifact)%result_bind_Ok.
  apply err_if_seq_Ok in Hartifact as [Hsource Hartifact].
  apply result_bind_Ok in Hartifact as (entries & _ & Hartifact).
  apply result_bind_Ok in Hartifact as (functions & Hfunctions & Hartifact).
  apply err_if_seq_Ok in Hartifact as [Hsome%bool_decide_eq_false Hartifact].
  apply result_bind_Ok in Hartifact as (index & Hindex & Hartifact).
  apply result_bind_Ok in Hartifact as ([] & Hassertions & [= <-]).
  apply index_selectors_Ok in Hindex as (Hdistinct & _ & Hindex).
  assert (Forall (selected (AbiArtifactKey.role key)) functions) as Hselected.
  { apply Forall_forall. intros function Hin.
    destruct (try_map_elem _ _ _ _ Hfunctions Hin) as (entry & _ & Hentry).
    by eapply normalize_function_selected. }
  pose proof (merge_sort_Permutation entry_le functions) as Hperm.
  split; [done|]. split; [by apply is_empty_false in Hsource|]. do 3 (split; [done|]).
  exists (merge_sort entry_le functions). split; [|split; [done|split; [|split]]].
  - intros Hempty. rewrite Hempty in Hperm. apply Permutation_nil_l in Hperm. by subst.
  - apply StronglySorted_distinct; [apply StronglySorted_merge_sort_entries|by rewrite Hperm].
  - by rewrite Hperm.
  - apply Forall_forall. intros assertion Hin.
    unfold verify_selector_assertions in Hassertions. rewrite try_each_Ok in Hassertions.
    specialize (Hassertions assertion Hin).
    apply result_bind_Ok in Hassertions as (signature & Hsignature & Hassertion).
    apply result_bind_Ok in Hassertion as (expected & Hexpected & Hassertion).
    apply result_bind_Ok in Hassertion as (actual & Hactual%ok_or_Ok & Hassertion).
    apply err_if_Ok, bool_decide_eq_false, dec_stable in Hassertion as ->.
    apply Hindex in Hactual as [Hactual|(spec & Hspec & <-)]; [by rewrite lookup_empty in Hactual|].
    exists (signature, spec). rewrite Hperm. done.
Qed.
End ArtifactFacts.
