(* ===== verification/StrategyCompiler.v ===== *)
(** * StrategyCompiler: from an intent to calldata

    Models [strategy/compiler.rs]: the argument schema of an action, the
    lowering of JSON arguments to the schema's shape, the Solidity ABI encoder,
    [compile_intent] and the dry run.  Every function of the source on an ABI
    type starts by taking an array suffix off its kind, then asks for a tuple;
    [abi_type] does this once, and the functions recurse on the tree it
    yields. *)

From S2P Require Import Prelude Text SpawnProtocol Types Externals AgentTypes Evm TopUp AgentStore StrategyTypes StrategyStore StrategyValidator StrategyAbi.
From Stdlib Require Import Ascii Strings.Byte.
#[local] Set Warnings "-register-all".

(** ** ABI types *)

Fixpoint split_last (s : string) : option (string * ascii) :=
  match s with
  | EmptyString => None
  | String a s' =>
      match split_last s' with
      | Some (front, last) => Some (String a front, last)
      | None => Some (EmptyString, a)
      end
  end.

(** Before and after the last ["["]. *)
Fixpoint rsplit_bracket (s : string) : option (string * string) :=
  match s with
  | EmptyString => None
  | String a s' =>
      match rsplit_bracket s' with
      | Some (before, after) => Some (String a before, after)
      | None => if is_char 91 a then Some (EmptyString, s') else None
      end
  end.

Definition split_array_type (kind : string) : option (string * option N) :=
  '(front, last) ← split_last kind;
  if negb (is_char 93 last) then None
  else
    '(base, len_raw) ← rsplit_bracket front;
    if is_empty len_raw then Some (base, None)
    else len ← parse_uint 32 len_raw; Some (base, Some len).

(** The type of a specification: [Plain] keeps its kind as written and as the
    functions compare it. *)
Module AbiType.
Inductive t :=
| Array (element : t) (len : option N)
| Tuple (components : list (string * t))
| Plain (raw kind : string).
End AbiType.

Fixpoint type_of_kind (fuel : nat) (tuple : AbiType.t) (raw : string) : AbiType.t :=
  let kind := to_ascii_lowercase (trim raw) in
  let scalar := if bool_decide (kind = "tuple") then tuple else AbiType.Plain raw kind in
  match split_array_type (trim raw) with
  | Some (element_kind, maybe_len) =>
      match fuel with
      | O => scalar
      | S fuel => AbiType.Array (type_of_kind fuel tuple element_kind) maybe_len
      end
  | None => scalar
  end.

Fixpoint abi_type (spec : AbiTypeSpec.t) : AbiType.t :=
  let '(AbiTypeSpec.mk _ kind components) := spec in
  let tuple :=
    AbiType.Tuple (map (fun component => (AbiTypeSpec.name component, abi_type component))
                     components) in
  type_of_kind (String.length kind) tuple kind.

(** Words in the head of a static type; [None] for a dynamic one. *)
Definition tuple_words (words_of : AbiType.t -> option N) : N -> list (string * AbiType.t) -> option N :=
  fix loop (words : N) (components : list (string * AbiType.t)) :=
    match components with
    | [] => Some words
    | (_, component) :: components =>
        component_words ← words_of component;
        loop (saturating_add 32 words component_words) components
    end.

Fixpoint static_word_size (type : AbiType.t) : option N :=
  match type with
  | AbiType.Array element maybe_len =>
      array_len ← maybe_len;
      element_words ← static_word_size element;
      Some (saturating_mul 32 element_words array_len)
  | AbiType.Tuple components => tuple_words static_word_size 0 components
  | AbiType.Plain _ kind =>
      if bool_decide (kind = "string") || bool_decide (kind = "bytes") then None else Some 1%N
  end.

Definition is_dynamic_type (type : AbiType.t) : bool := negb (is_some (static_word_size type)).

(** ** Lowering of JSON arguments *)

Definition brackets (field : string) (index : nat) : string :=
  field +:+ "[" +:+ pretty (N.of_nat index) +:+ "]".

(** A loop with an index over fallible steps. *)
Definition try_imap {A B} (f : nat -> A -> result string B) (l : list A)
    : result string (list B) :=
  try_map (fun '(index, x) => f index x) (imap pair l).

(** The first member that no component names. *)
Definition reject_unknown_object_fields (object : gmap string Value.t) (names : list string)
    (field : string) : result string unit :=
  match filter (fun key => key ∉ names) (btree_keys object) with
  | first_unknown :: _ => Err ("unknown field: " +:+ field +:+ "." +:+ first_unknown)
  | [] => Ok tt
  end.

Definition length_mismatch (field : string) (expected got : N) : string :=
  field +:+ " length mismatch: expected " +:+ pretty expected +:+ " got " +:+ pretty got.
Definition arity_mismatch (field : string) (expected got : N) : string :=
  field +:+ " tuple arity mismatch: expected " +:+ pretty expected +:+ " got " +:+ pretty got.
Definition count {A} (l : list A) : N := N.of_nat (length l).

(** The array's elements, as many as its type says. *)
Definition array_values (value : Value.t) (maybe_len : option N) (not_array : string)
    (field : string) : result string (list Value.t) :=
  values ← ok_or (Value.as_array value) not_array;
  match maybe_len with
  | Some expected_len =>
      err_if (negb (count values =? expected_len)%N)
        (length_mismatch field expected_len (count values))
  | None => Ok tt
  end;;
  Ok values.

Section LowerComponents.
Context (lower : AbiType.t -> Value.t -> string -> result string Value.t) (field : string).

Definition lower_positional
    : list (string * AbiType.t) -> list Value.t -> result string (list Value.t) :=
  fix loop components values :=
    match components, values with
    | (name, component) :: components, value :: values =>
        lowered ← lower component value (field +:+ "." +:+ name);
        rest ← loop components values; Ok (lowered :: rest)
    | _, _ => Ok []
    end.

Definition lower_named (object : gmap string Value.t)
    : list (string * AbiType.t) -> result string (list Value.t) :=
  fix loop components :=
    match components with
    | [] => Ok []
    | (name, component) :: components =>
        let child_field := field +:+ "." +:+ name in
        value ← ok_or (object !! name) ("missing required field: " +:+ child_field);
        lowered ← lower component value child_field;
        rest ← loop components; Ok (lowered :: rest)
    end.
End LowerComponents.

Fixpoint lower_value_to_canonical_shape (type : AbiType.t) (value : Value.t) (field : string)
    : result string Value.t :=
  match type with
  | AbiType.Array element maybe_len =>
      values ← array_values value maybe_len (field +:+ " must be a JSON array") field;
      lowered ← try_imap (fun index item =>
        lower_value_to_canonical_shape element item (brackets field index)) values;
      Ok (Value.Array lowered)
  | AbiType.Tuple components =>
      match value with
      | Value.Array values =>
          err_if (negb (count values =? count components)%N)
            (arity_mismatch field (count components) (count values));;
          Value.Array <$>
            lower_positional lower_value_to_canonical_shape field components values
      | Value.Object object =>
          reject_unknown_object_fields object components.*1 field;;
          Value.Array <$> lower_named lower_value_to_canonical_shape field object components
      | _ => Err (field +:+ " must be a JSON object or array")
      end
  | AbiType.Plain _ _ => Ok value
  end.

Definition named_types (specs : list AbiTypeSpec.t) : list (string * AbiType.t) :=
  (fun spec => (AbiTypeSpec.name spec, abi_type spec)) <$> specs.

Definition lower_call_args (args : Value.t) (specs : list AbiTypeSpec.t) (field : string)
    : result string (list Value.t) :=
  match args with
  | Value.Array values =>
      err_if (negb (count values =? count specs)%N)
        ("argument count mismatch for " +:+ field +:+ ": expected " +:+ pretty (count specs)
         +:+ " got " +:+ pretty (count values));;
      lower_positional lower_value_to_canonical_shape field (named_types specs) values
  | Value.Object object =>
      reject_unknown_object_fields object (AbiTypeSpec.name <$> specs) field;;
      lower_named lower_value_to_canonical_shape field object (named_types specs)
  | _ => Err (field +:+ " must be a JSON object or array")
  end.

(** ** Numbers *)

(** [str::parse::<i128>]. *)
Definition parse_i128 (s : string) : option Z :=
  let negative := starts_with s "-" in
  let digits := if negative then default s (strip_prefix s "-")
                else default s (strip_prefix s "+") in
  if is_empty digits then None
  else
    magnitude ← parse_digits 128 0 digits;
    if negative
    then if (magnitude <=? 2 ^ 127)%N then Some (- Z.of_N magnitude)%Z else None
    else if (magnitude <? 2 ^ 127)%N then Some (Z.of_N magnitude) else None.

(** [s.trim_start_matches(prefix)] of a prefix that is not empty. *)
Fixpoint trim_start_matches (fuel : nat) (prefix s : string) : string :=
  match fuel, strip_prefix s prefix with
  | S fuel, Some rest => trim_start_matches fuel prefix rest
  | _, _ => s
  end.

(** What [encode_abi_params] needs of a parameter's type: its words in the
    head, if it is static, and its encoder. *)
Module Part.
Record t := mk {
  words : option N;
  encode : Value.t -> string -> result string (list byte);
}.
End Part.

Section Numbers.
Context `{libs : StrategyLibs}.

Definition parse_u256_from_decimal_or_hex (raw field : string) : result string N :=
  let trimmed := trim raw in
  err_if (is_empty trimmed) (field +:+ " cannot be empty");;
  let hex := match strip_prefix trimmed "0x" with
             | Some hex => Some hex
             | None => strip_prefix trimmed "0X"
             end in
  match hex with
  | Some hex =>
      if is_empty hex then Ok 0%N
      else
        err_if (negb (forallb is_ascii_hexdigit (str_bytes hex))) (field +:+ " must be valid hex");;
        ok_or (parse_hex_digits 256 0 hex)
          ("failed to parse " +:+ field +:+ " as hex quantity: " +:+ u256_overflow)
  | None =>
      err_if (negb (all_digits trimmed)) (field +:+ " must be a decimal string or hex quantity");;
      ok_or (parse_digits 256 0 trimmed)
        ("failed to parse " +:+ field +:+ ": " +:+ u256_overflow)
  end.

Definition parse_u256_from_json (value : Value.t) (field : string) : result string N :=
  match Value.as_str value, Value.as_u64 value with
  | Some raw, _ => parse_u256_from_decimal_or_hex raw field
  | None, Some raw => Ok raw
  | None, None => Err (field +:+ " must be a string or unsigned integer")
  end.

Definition parse_i128_from_json (value : Value.t) (field : string) : result string Z :=
  match Value.as_i64 value with
  | Some raw => Ok raw
  | None =>
      raw ← ok_or (Value.as_str value) (field +:+ " must be a string or integer");
      ok_or (parse_i128 raw)
        ("failed to parse " +:+ field +:+ " as signed integer: " +:+ parse_i128_error raw)
  end.

(** ** ABI encoding *)

Definition encode_u256_word (value : N) : list byte := to_be_bytes 32 value.

(** [hex::decode] of a normalised blob, after its prefix. *)
Definition decode_hex_field (raw field : string) : result string (list byte) :=
  normalized ← normalize_hex_blob raw field;
  map_err (fun error => "failed to decode " +:+ field +:+ ": " +:+ error)
    (decode_hex_text (trim_start_0x normalized)).

Definition encode_abi_primitive_word (kind : string) (value : Value.t) (field : string)
    : result string (list byte) :=
  if bool_decide (kind = "address") then
    raw ← ok_or (Value.as_str value) (field +:+ " address must be a string");
    normalized ← normalize_evm_address raw;
    bytes ← map_err (fun error => "failed to decode " +:+ field +:+ " address: " +:+ error)
      (decode_hex_text (trim_start_0x normalized));
    Ok (replicate 12 x00 ++ bytes)
  else if bool_decide (kind = "bool") then
    raw ← ok_or (Value.as_bool value) (field +:+ " bool must be true/false");
    Ok (encode_u256_word (if (raw : bool) then 1 else 0))
  else if starts_with kind "uint" then
    parsed ← parse_u256_from_json value field;
    Ok (encode_u256_word parsed)
  else if starts_with kind "int" then
    parsed ← parse_i128_from_json value field;
    err_if (parsed <? 0)%Z (field +:+ " negative signed integers are not supported yet");;
    Ok (encode_u256_word (Z.to_N parsed))
  else if starts_with kind "bytes" then
    width ← ok_or (parse_uint 32 (trim_start_matches (String.length kind) "bytes" kind))
      ("unsupported abi type: " +:+ kind);
    err_if (negb ((1 <=? width) && (width <=? 32))%N)
      ("fixed bytes width must be in 1..=32, got " +:+ pretty width);;
    raw ← ok_or (Value.as_str value) (field +:+ " fixed bytes must be a hex string");
    bytes ← decode_hex_field raw field;
    err_if (width <? count bytes)%N
      (field +:+ " length exceeds bytes" +:+ pretty width +:+ ": " +:+ pretty (count bytes)
       +:+ " bytes");;
    Ok (bytes ++ replicate (32 - length bytes) x00)
  else Err ("unsupported abi primitive type: " +:+ kind).

(** A length word and the bytes, padded with zeros to whole words. *)
Definition encode_dynamic_bytes (bytes : list byte) : list byte :=
  let padding := ((32 - length bytes mod 32) mod 32)%nat in
  encode_u256_word (count bytes) ++ bytes ++ replicate padding x00.

Definition parse_tuple_values (value : Value.t) (field : string) : result string (list Value.t) :=
  ok_or (Value.as_array value) (field +:+ " must be a JSON array").

Section StaticComponents.
Context (encode : AbiType.t -> Value.t -> string -> result string (list byte)) (field : string).

Definition encode_static_components
    : nat -> list (string * AbiType.t) -> list Value.t -> result string (list byte) :=
  fix loop idx components values :=
    match components, values with
    | (_, component) :: components, value :: values =>
        bytes ← encode component value (field +:+ "." +:+ pretty (N.of_nat idx));
        rest ← loop (S idx) components values; Ok (bytes ++ rest)
    | _, _ => Ok []
    end.
End StaticComponents.

Fixpoint encode_abi_static (type : AbiType.t) (value : Value.t) (field : string)
    : result string (list byte) :=
  err_if (is_dynamic_type type) (field +:+ " is dynamic and cannot be encoded as static");;
  match type with
  | AbiType.Array element maybe_len =>
      values ← array_values value maybe_len (field +:+ " must be an array for fixed-size ABI array")
        field;
      words ← try_imap (fun idx item => encode_abi_static element item (brackets field idx)) values;
      Ok (concat words)
  | AbiType.Tuple components =>
      values ← parse_tuple_values value field;
      err_if (negb (count values =? count components)%N)
        (arity_mismatch field (count components) (count values));;
      encode_static_components encode_abi_static field 0 components values
  | AbiType.Plain _ kind => encode_abi_primitive_word kind value field
  end.

Definition head_words (parts : list Part.t) : N :=
  fold_left (fun words part => saturating_add 32 words (default 1%N (Part.words part))) parts 0%N.

(** The second pass: the head and the tail section. *)
Fixpoint encode_parts (head_size_bytes : N) (index : nat) (tail_size_bytes : N)
    (parts : list Part.t) (values : list Value.t) : result string (list byte * list byte) :=
  match parts, values with
  | part :: parts, value :: values =>
      bytes ← Part.encode part value ("arg[" +:+ pretty (N.of_nat index) +:+ "]");
      match Part.words part with
      | None =>
          let offset := saturating_add 32 head_size_bytes tail_size_bytes in
          '(heads, tails) ← encode_parts head_size_bytes (S index)
            (saturating_add 32 tail_size_bytes (count bytes)) parts values;
          Ok (encode_u256_word offset ++ heads, bytes ++ tails)
      | Some _ =>
          '(heads, tails) ← encode_parts head_size_bytes (S index) tail_size_bytes parts values;
          Ok (bytes ++ heads, tails)
      end
  | _, _ => Ok ([], [])
  end.

Definition encode_abi_parts (parts : list Part.t) (values : list Value.t)
    : result string (list byte) :=
  err_if (negb (count parts =? count values)%N)
    ("abi encode arity mismatch: expected " +:+ pretty (count parts) +:+ " values, got "
     +:+ pretty (count values));;
  let head_size_bytes := saturating_mul 32 (head_words parts) 32 in
  '(heads, tails) ← encode_parts head_size_bytes 0 0 parts values;
  Ok (heads ++ tails).

Fixpoint encode_abi_dynamic (type : AbiType.t) (value : Value.t) (field : string)
    : result string (list byte) :=
  let part type := Part.mk (static_word_size type)
    (if is_dynamic_type type then encode_abi_dynamic type else encode_abi_static type) in
  err_if (negb (is_dynamic_type type)) (field +:+ " is static and cannot be encoded as dynamic");;
  match type with
  | AbiType.Array element maybe_len =>
      values ← array_values value maybe_len (field +:+ " must be an array for ABI array type") field;
      encoded_elements ← encode_abi_parts (replicate (length values) (part element)) values;
      Ok (match maybe_len with
          | None => encode_u256_word (count values) ++ encoded_elements
          | Some _ => encoded_elements
          end)
  | AbiType.Tuple components =>
      values ← parse_tuple_values value field;
      encode_abi_parts (map (fun component => part component.2) components) values
  | AbiType.Plain _ kind =>
      if bool_decide (kind = "bytes") then
        raw ← ok_or (Value.as_str value) (field +:+ " must be a 0x-prefixed hex string");
        encode_dynamic_bytes <$> decode_hex_field raw field
      else if bool_decide (kind = "string") then
        text ← ok_or (Value.as_str value) (field +:+ " must be a string");
        Ok (encode_dynamic_bytes (as_bytes text))
      else Err ("unsupported dynamic abi type: " +:+ kind)
  end.

Definition abi_part (type : AbiType.t) : Part.t :=
  Part.mk (static_word_size type)
    (if is_dynamic_type type then encode_abi_dynamic type else encode_abi_static type).

Definition encode_abi_params (types : list AbiType.t) (values : list Value.t)
    : result string (list byte) :=
  encode_abi_parts (abi_part <$> types) values.
End Numbers.

(** ** Argument schemas *)

Definition normalize_non_empty (raw field : string) : result string string :=
  let trimmed := trim raw in
  err_if (is_empty trimmed) (field +:+ " must be non-empty");; Ok trimmed.

Module StrategyActionCallSchema.
Record t := mk {
  role : string;
  function_name : string;
  signature : string;
  value_allowed : bool;
  args : list AbiTypeSpec.t;
}.
End StrategyActionCallSchema.

Module StrategyActionArgumentSchema.
Record t := mk {
  action_id : string;
  calls : list StrategyActionCallSchema.t;
}.
End StrategyActionArgumentSchema.

Definition spec_name (spec : AbiTypeSpec.t) : option string := Some (AbiTypeSpec.name spec).

Fixpoint normalize_named_spec (spec : AbiTypeSpec.t) (name : string) : AbiTypeSpec.t :=
  let '(AbiTypeSpec.mk _ kind components) := spec in
  AbiTypeSpec.mk name kind (name_params spec_name normalize_named_spec Names.start components).

Definition normalize_named_specs (specs : list AbiTypeSpec.t) : list AbiTypeSpec.t :=
  name_params spec_name normalize_named_spec Names.start specs.

(** ** Calldata *)

(** [data.get(start..end)]: within the text and between characters. *)
Definition is_char_boundary (s : string) (index : nat) : bool :=
  match String.get index s with
  | Some a => negb (is_cont a)
  | None => Nat.eqb index (String.length s)
  end.
Definition str_get (first last : nat) (s : string) : option string :=
  if Nat.leb first last && is_char_boundary s first && is_char_boundary s last
  then Some (String.substring first (last - first) s) else None.

Definition calldata_word (call : StrategyExecutionCall.t) (index : N) : option string :=
  data ← strip_prefix (StrategyExecutionCall.data call) "0x";
  let start := (8 + index * 64)%N in
  if (max_uint 32 <? start + 64)%N then None
  else str_get (N.to_nat start) (N.to_nat start + 64) data.

Definition calldata_address_word (call : StrategyExecutionCall.t) (index : N) : option string :=
  word ← calldata_word call index;
  address ← str_get 24 (String.length word) word;
  Some ("0x" +:+ to_ascii_lowercase address).

(** [text.split('/')]. *)
Fixpoint split_slash (s : string) : list string :=
  match s with
  | EmptyString => [EmptyString]
  | String a s' =>
      if is_char 47 a then EmptyString :: split_slash s'
      else match split_slash s' with
           | segment :: segments => String a segment :: segments
           | [] => [String a EmptyString]
           end
  end.

Section Compiler.
Context `{ext : Externals, libs : StrategyLibs}.

Definition load_template (key : StrategyTemplateKey.t) (s : Book.t)
    : result string StrategyTemplate.t :=
  ok_or (get_template key s)
    ("strategy template not found for " +:+ StrategyTemplateKey.protocol key +:+ ":"
     +:+ StrategyTemplateKey.primitive key +:+ ":" +:+ pretty (StrategyTemplateKey.chain_id key)
     +:+ ":" +:+ StrategyTemplateKey.template_id key).

Definition resolve_action (actions : list ActionSpec.t) (action_id : string)
    : result string ActionSpec.t :=
  ok_or (snd <$> list_find (fun candidate => ActionSpec.action_id candidate = action_id) actions)
    ("strategy action not found: " +:+ action_id).

Definition derive_call_schema (function : AbiFunctionSpec.t)
    : result string StrategyActionCallSchema.t :=
  role ← normalize_non_empty (AbiFunctionSpec.role function) "call role";
  function_name ← normalize_non_empty (AbiFunctionSpec.name function) "function name";
  signature ← verify_function_selector function;
  Ok (StrategyActionCallSchema.mk role function_name signature
        (eq_ignore_ascii_case (AbiFunctionSpec.state_mutability function) "payable")
        (normalize_named_specs (AbiFunctionSpec.inputs function))).

Definition derive_action_argument_schema_from_action (action : ActionSpec.t)
    : result string StrategyActionArgumentSchema.t :=
  calls ← try_map derive_call_schema (ActionSpec.call_sequence action);
  action_id ← normalize_non_empty (ActionSpec.action_id action) "action_id";
  Ok (StrategyActionArgumentSchema.mk action_id calls).

Definition derive_action_argument_schema (key : StrategyTemplateKey.t) (action_id : string)
    (s : Book.t) : result string StrategyActionArgumentSchema.t :=
  normalized_action_id ← normalize_non_empty action_id "action_id";
  template ← load_template key s;
  action ← resolve_action (StrategyTemplate.actions template) normalized_action_id;
  derive_action_argument_schema_from_action action.

(** ** [compile_intent] *)

(** The bindings by trimmed role; of two with the same role the last. *)
Definition role_bindings (template : StrategyTemplate.t)
    : result string (gmap string ContractRoleBinding.t) :=
  bindings ← try_map (fun binding =>
      role ← normalize_non_empty (ContractRoleBinding.role binding) "contract role";
      Ok (role, binding)) (StrategyTemplate.contract_roles template);
  Ok (list_to_map (reverse bindings)).

(** One round of the loop over the call sequence. *)
Definition compile_call (key : StrategyTemplateKey.t)
    (bindings : gmap string ContractRoleBinding.t) (action_id : string)
    (typed_calls : list IntentTypedCall.t) (s : Book.t) (index : nat)
    (call : AbiFunctionSpec.t * StrategyActionCallSchema.t) : result string StrategyExecutionCall.t :=
  let '(function, call_schema) := call in
  let signature := StrategyActionCallSchema.signature call_schema in
  normalized_selector ← normalize_selector_hex (AbiFunctionSpec.selector_hex function);
  role ← normalize_non_empty (AbiFunctionSpec.role function) "call role";
  binding ← ok_or (bindings !! role) ("contract role binding not found for role: " +:+ role);
  err_if (is_blank (ContractRoleBinding.source_ref binding))
    ("missing source_ref for role binding: " +:+ role);;
  to ← normalize_evm_address (ContractRoleBinding.address binding);
  let artifact_key :=
    AbiArtifactKey.mk (StrategyTemplateKey.protocol key) (StrategyTemplateKey.chain_id key) role in
  artifact ← ok_or (get_abi_artifact artifact_key s)
    ("abi artifact missing for protocol=" +:+ AbiArtifactKey.protocol artifact_key +:+ " role="
     +:+ AbiArtifactKey.role artifact_key +:+ " chain_id="
     +:+ pretty (AbiArtifactKey.chain_id artifact_key));
  err_if (is_blank (AbiArtifact.source_ref artifact))
    ("abi artifact source_ref missing for role=" +:+ AbiArtifactKey.role artifact_key);;
  let has_matching_fn := existsb (fun candidate =>
      bool_decide (AbiFunctionSpec.selector_hex candidate = normalized_selector))
    (AbiArtifact.functions artifact) in
  err_if (negb has_matching_fn)
    ("abi artifact for role=" +:+ role +:+ " missing function signature " +:+ signature);;
  typed_call ← ok_or (typed_calls !! index)
    ("typed params call index " +:+ pretty (N.of_nat index) +:+ " is missing for action "
     +:+ action_id);
  value_wei ← parse_u256_from_decimal_or_hex (default "0" (IntentTypedCall.value_wei typed_call))
    "value_wei";
  lowered_args ← lower_call_args (IntentTypedCall.args typed_call)
    (StrategyActionCallSchema.args call_schema)
    ("calls[" +:+ pretty (N.of_nat index) +:+ "].args");
  encoded_args ← encode_abi_params (abi_type <$> StrategyActionCallSchema.args call_schema)
    lowered_args;
  Ok (StrategyExecutionCall.mk role to (pretty value_wei)
        ("0x" +:+ trim_start_0x normalized_selector +:+ hex_encode encoded_args)).

Definition resolve_effect_amount (value : Value.t) (path : string)
    (schema : StrategyActionArgumentSchema.t) : option Value.t :=
  match value_pointer path value with
  | Some found => Some found
  | None =>
      rest ← strip_prefix path "/calls/";
      match split_slash rest with
      | [call_segment; args_segment; arg_segment] =>
          if negb (bool_decide (args_segment = "args")) then None
          else
            call_index ← parse_uint 32 call_segment;
            arg_index ← parse_uint 32 arg_segment;
            call ← StrategyActionArgumentSchema.calls schema !! N.to_nat call_index;
            arg ← StrategyActionCallSchema.args call !! N.to_nat arg_index;
            calls ← Value.get "calls" value;
            call_value ← Value.get_index (N.to_nat call_index) calls;
            args ← Value.get "args" call_value;
            Value.get (AbiTypeSpec.name arg) args
      | _ => None
      end
  end.

Definition effect_amount (action_id path : string) (amount : Value.t) : result string string :=
  let invalid := Err ("strategy action " +:+ action_id +:+ " asset effect amount path `" +:+ path
                      +:+ "` must be an unsigned integer") in
  match amount with
  | Value.String text => if negb (is_empty text) && all_digits text then Ok text else invalid
  | Value.Number (JsonNumber.PosInt n) => Ok (pretty n)
  | _ => invalid
  end.

(** The asset the declaration's role is bound to; the native one without. *)
Definition effect_asset (bindings : gmap string ContractRoleBinding.t) (action_id : string)
    (asset_role : option string) : result string (option string) :=
  match asset_role with
  | None => Ok None
  | Some role =>
      binding ← ok_or (bindings !! role)
        ("strategy action " +:+ action_id +:+ " asset effect references unknown role `" +:+ role
         +:+ "`");
      Some <$> normalize_evm_address (ContractRoleBinding.address binding)
  end.

Definition contradicts (prior effect : StrategyAssetEffect.t) : bool :=
  (StrategyAssetEffect.chain_id prior =? StrategyAssetEffect.chain_id effect)%N
  && bool_decide (StrategyAssetEffect.asset_address prior = StrategyAssetEffect.asset_address effect)
  && bool_decide (StrategyAssetEffect.amount_raw prior = StrategyAssetEffect.amount_raw effect)
  && negb (bool_decide (StrategyAssetEffect.direction prior = StrategyAssetEffect.direction effect)).

Definition compile_effect (chain_id : N) (bindings : gmap string ContractRoleBinding.t)
    (action_id : string) (typed_value : Value.t) (schema : StrategyActionArgumentSchema.t)
    (declaration : StrategyAssetEffectDeclaration.t) : result string StrategyAssetEffect.t :=
  let decimals := StrategyAssetEffectDeclaration.decimals declaration in
  let path := StrategyAssetEffectDeclaration.amount_path declaration in
  err_if (36 <? decimals)%N
    ("strategy action " +:+ action_id +:+ " has unsupported asset_effects.decimals "
     +:+ pretty decimals);;
  amount ← ok_or (resolve_effect_amount typed_value path schema)
    ("strategy action " +:+ action_id +:+ " asset effect amount path `" +:+ path
     +:+ "` is missing");
  amount_raw ← effect_amount action_id path amount;
  asset_address ← effect_asset bindings action_id
    (StrategyAssetEffectDeclaration.asset_role declaration);
  Ok (StrategyAssetEffect.mk chain_id asset_address
        (StrategyAssetEffectDeclaration.asset_symbol declaration) decimals amount_raw
        (StrategyAssetEffectDeclaration.direction declaration)).

(** The loop over the declarations; [effects] are those pushed so far. *)
Fixpoint compile_effects (compile : StrategyAssetEffectDeclaration.t ->
      result string StrategyAssetEffect.t) (action_id : string)
    (effects : list StrategyAssetEffect.t)
    (declarations : list StrategyAssetEffectDeclaration.t)
    : result string (list StrategyAssetEffect.t) :=
  match declarations with
  | [] => Ok effects
  | declaration :: declarations =>
      effect ← compile declaration;
      err_if (existsb (fun prior => contradicts prior effect) effects)
        ("strategy action " +:+ action_id +:+ " has contradictory asset effects");;
      compile_effects compile action_id (effects ++ [effect]) declarations
  end.

(** A call that sends value debits it. *)
Definition value_effect (chain_id : N) (call : StrategyExecutionCall.t)
    : option StrategyAssetEffect.t :=
  if bool_decide (StrategyExecutionCall.value_wei call = "0") then None
  else Some (StrategyAssetEffect.mk chain_id None "ETH" 18 (StrategyExecutionCall.value_wei call)
               StrategyAssetDirection.Debit).

Definition effect_bound (template : StrategyTemplate.t) (call : StrategyExecutionCall.t)
    (expected : string) : bool :=
  let protocol := StrategyTemplateKey.protocol (StrategyTemplate.key template) in
  if bool_decide (protocol = "aave-v3") || bool_decide (protocol = "morpho-v1") then
    is_some_and (fun value => eq_ignore_ascii_case value expected) (calldata_address_word call 0)
  else if bool_decide (protocol = "moonwell-v2") then
    bool_decide (StrategyExecutionCall.role call = "m_usdc")
    && existsb (fun binding =>
         bool_decide (ContractRoleBinding.role binding = "usdc")
         && eq_ignore_ascii_case (ContractRoleBinding.address binding) expected)
       (StrategyTemplate.contract_roles template)
  else false.

Definition validate_asset_effect_bindings (template : StrategyTemplate.t) (action_id : string)
    (calls : list StrategyExecutionCall.t) (effects : list StrategyAssetEffect.t)
    : result string unit :=
  match calls with
  | [] => Ok tt
  | call :: _ =>
      try_each (omap StrategyAssetEffect.asset_address effects) (fun expected =>
        err_if (negb (effect_bound template call expected))
          ("strategy action " +:+ action_id
           +:+ " asset effect is not bound to calldata/target asset " +:+ expected))
  end.

Definition is_enter_or_exit_action (action_id : string) : bool :=
  starts_with action_id "enter_" || starts_with action_id "exit_".

Definition effect_declarations (template : StrategyTemplate.t) (action_id : string)
    : result string (list StrategyAssetEffectDeclaration.t) :=
  constraints ← map_err (fun error => "invalid template constraints_json: " +:+ error)
    (value_from_str (StrategyTemplate.constraints_json template));
  match Value.get "asset_effects" constraints ≫= Value.get action_id with
  | None => Ok []
  | Some declarations =>
      map_err (fun error =>
          "strategy action " +:+ action_id +:+ " has invalid asset_effects: " +:+ error)
        (asset_effects_from_value declarations)
  end.

Definition compile_intent (intent : StrategyExecutionIntent.t) (s : Book.t)
    : result string ExecutionPlan.t :=
  let key := StrategyExecutionIntent.key intent in
  let chain_id := StrategyTemplateKey.chain_id key in
  action_id ← normalize_non_empty (StrategyExecutionIntent.action_id intent) "action_id";
  template ← load_template key s;
  action ← resolve_action (StrategyTemplate.actions template) action_id;
  action_schema ← derive_action_argument_schema_from_action action;
  err_if (bool_decide (length (ActionSpec.call_sequence action) = 0))
    ("strategy action " +:+ action_id +:+ " has an empty call_sequence");;
  let text := StrategyExecutionIntent.typed_params_json intent in
  typed ← map_err (fun error => "invalid typed_params_json: " +:+ error)
    (typed_params_from_str text);
  typed_value ← map_err (fun error => "invalid typed_params_json: " +:+ error)
    (value_from_str text);
  let typed_calls := IntentTypedParams.calls typed in
  let call_schemas := StrategyActionArgumentSchema.calls action_schema in
  err_if (negb (count typed_calls =? count call_schemas)%N)
    ("call count mismatch for action " +:+ action_id +:+ ": expected "
     +:+ pretty (count call_schemas) +:+ " got " +:+ pretty (count typed_calls));;
  bindings ← role_bindings template;
  calls ← try_imap (compile_call key bindings action_id typed_calls s)
    (zip (ActionSpec.call_sequence action) call_schemas);
  declarations ← effect_declarations template action_id;
  declared ← compile_effects
    (compile_effect chain_id bindings action_id typed_value action_schema) action_id []
    declarations;
  let asset_effects := declared ++ omap (value_effect chain_id) calls in
  err_if (is_enter_or_exit_action action_id && bool_decide (asset_effects = []))
    ("strategy action " +:+ action_id
     +:+ " is capital-moving but has no asset effect declaration");;
  validate_asset_effect_bindings template action_id calls asset_effects;;
  Ok (ExecutionPlan.mk key action_id calls (ActionSpec.preconditions action)
        (ActionSpec.postconditions action) asset_effects (ActionSpec.risk_checks action)).

(** ** The dry run *)

(** The zero of a type; a fixed array has as many as its length says. *)
Definition synthetic_components
    (zero : AbiType.t -> result string Value.t) : list (string * AbiType.t) ->
    result string (gmap string Value.t) :=
  fix loop components :=
    match components with
    | [] => Ok ∅
    | (name, component) :: components =>
        value ← zero component; rest ← loop components; Ok (rest ∪ {[name := value]})
    end.

Fixpoint synthetic_zero_value (type : AbiType.t) : result string Value.t :=
  match type with
  | AbiType.Array element maybe_len =>
      zeros ← try_map (fun _ => synthetic_zero_value element)
        (replicate (N.to_nat (default 0%N maybe_len)) tt);
      Ok (Value.Array zeros)
  | AbiType.Tuple components =>
      Value.Object <$> synthetic_components synthetic_zero_value components
  | AbiType.Plain raw kind =>
      if bool_decide (kind = "address") then
        Ok (Value.String "0x0000000000000000000000000000000000000000")
      else if bool_decide (kind = "bool") then Ok (Value.Bool false)
      else if bool_decide (kind = "string") then Ok (Value.String "")
      else if bool_decide (kind = "bytes") then Ok (Value.String "0x")
      else if starts_with kind "uint" || starts_with kind "int" then Ok (Value.String "0")
      else if starts_with kind "bytes" then Ok (Value.String "0x")
      else Err ("unsupported abi type for synthetic dry-run arg: " +:+ raw)
  end.

(** [json!({"args": args, "value_wei": "0"})]. *)
Definition synthetic_call (args : gmap string Value.t) : Value.t :=
  Value.Object (<["args" := Value.Object args]> {["value_wei" := Value.String "0"]}).

(** The arguments that the asset bindings of two protocols look at. *)
Definition patch_first_args (protocol : string) (usdc_address : string)
    (args : gmap string Value.t) : gmap string Value.t :=
  if bool_decide (protocol = "aave-v3") then <["asset" := Value.String usdc_address]> args
  else if bool_decide (protocol = "morpho-v1") then
    match args !! "marketParams" with
    | Some (Value.Object market) =>
        <["marketParams" := Value.Object (<["loanToken" := Value.String usdc_address]> market)]> args
    | _ => args
    end
  else args.

Definition synthetic_params (template : StrategyTemplate.t)
    (args : list (gmap string Value.t)) : Value.t :=
  let args :=
    match find_binding "usdc" (StrategyTemplate.contract_roles template), args with
    | Some usdc, first :: args =>
        patch_first_args (StrategyTemplateKey.protocol (StrategyTemplate.key template))
          (ContractRoleBinding.address usdc) first :: args
    | _, _ => args
    end in
  Value.Object {["calls" := Value.Array (synthetic_call <$> args)]}.

Definition dry_run_compile (key : StrategyTemplateKey.t) (s : Book.t) : result string unit :=
  template ← load_template key s;
  first_action ← ok_or (head (StrategyTemplate.actions template)) "template has no actions";
  action_schema ← derive_action_argument_schema_from_action first_action;
  let action_id := ActionSpec.action_id first_action in
  err_if (bool_decide (length (ActionSpec.call_sequence first_action) = 0))
    ("template action " +:+ action_id +:+ " has an empty call_sequence");;
  args ← try_map (fun call_schema =>
      synthetic_components synthetic_zero_value
        (named_types (StrategyActionCallSchema.args call_schema)))
    (StrategyActionArgumentSchema.calls action_schema);
  let intent :=
    StrategyExecutionIntent.mk key action_id (value_text (synthetic_params template args)) in
  match compile_intent intent s with
  | Ok _ => Ok tt
  | Err error =>
      Err ("dry-run compile failed for " +:+ StrategyTemplateKey.protocol key +:+ ":"
           +:+ StrategyTemplateKey.primitive key +:+ ":"
           +:+ pretty (StrategyTemplateKey.chain_id key) +:+ ":"
           +:+ StrategyTemplateKey.template_id key +:+ " action=" +:+ action_id +:+ ": " +:+ error)
  end.
End Compiler.
