(* ===== verification/StrategyCodec.v ===== *)
(** * StrategyCodec: the ABI encoder against a decoder

    The contract a strategy call is sent to reads its arguments by the Solidity
    ABI: static parts in place, dynamic ones behind an offset, every word by its
    type, and it rejects a word that is not one of the type.  This file writes
    that reading down as a decoder that shares no code with the encoder of
    [StrategyCompiler], gives the JSON arguments a meaning that shares no code
    with it either, and shows that the decoder reads back exactly the meaning of
    what was encoded ([encode_abi_params_decodes]), whatever follows the
    arguments. *)

From S2P Require Import Prelude Text SpawnProtocol Types Externals AgentTypes Evm TopUp AgentStore StrategyTypes StrategyStore StrategyValidator StrategyAbi StrategyCompiler.
From Stdlib Require Import Ascii Strings.Byte.
#[local] Set Warnings "-register-all".

(** ** What a value means *)

Module AbiData.
Inductive t :=
| Address (bytes : list byte)
| Bool (value : bool)
| Uint (value : N)
| Int (value : Z)
| FixedBytes (bytes : list byte)
| Bytes (bytes : list byte)
| Seq (items : list t).
End AbiData.

(** The types whose values take one word. *)
Module WordType.
Inductive t :=
| Address
| Bool
| Uint (bits : N)
| Int (bits : N)
| FixedBytes (width : N).
End WordType.

(** The number that a numeral stands for. *)
Fixpoint numeral (base : N) (digit : ascii -> option N) (text : string) : option N :=
  match text with
  | EmptyString => Some 0%N
  | String a rest =>
      d ← digit a; low ← numeral base digit rest;
      Some (d * base ^ N.of_nat (String.length rest) + low)%N
  end.

Definition decimal (text : string) : option N :=
  if is_empty text then None else numeral 10 digit_value text.

(** The bits of [uintN] and [intN]; [uint] and [int] are the 256-bit types. *)
Definition bit_width (suffix : string) : option N :=
  if is_empty suffix then Some 256%N
  else bits ← decimal suffix;
       if ((8 <=? bits) && (bits <=? 256) && (bits mod 8 =? 0))%N then Some bits else None.

Definition word_type (kind : string) : option WordType.t :=
  if bool_decide (kind = "address") then Some WordType.Address
  else if bool_decide (kind = "bool") then Some WordType.Bool
  else match strip_prefix kind "uint" with
  | Some suffix => WordType.Uint <$> bit_width suffix
  | None =>
  match strip_prefix kind "int" with
  | Some suffix => WordType.Int <$> bit_width suffix
  | None =>
  match strip_prefix kind "bytes" with
  | Some suffix =>
      width ← decimal suffix;
      if ((1 <=? width) && (width <=? 32))%N then Some (WordType.FixedBytes width) else None
  | None => None
  end end end.

(** The number of an argument: a JSON number, or a decimal or prefixed
    hexadecimal numeral. *)
Definition unsigned_of (value : Value.t) : option N :=
  match value with
  | Value.Number (JsonNumber.PosInt n) => Some n
  | Value.String text =>
      let text := trim text in
      match strip_prefix text "0x", strip_prefix text "0X" with
      | Some hex, _ | None, Some hex => numeral 16 hex_value hex
      | None, None => decimal text
      end
  | _ => None
  end.

(** A JSON number, or a decimal numeral with an optional sign. *)
Definition signed_of (value : Value.t) : option Z :=
  match value with
  | Value.Number (JsonNumber.PosInt n) => Some (Z.of_N n)
  | Value.Number (JsonNumber.NegInt z) => Some z
  | Value.String text =>
      match strip_prefix text "-" with
      | Some digits => (fun n => - Z.of_N n)%Z <$> decimal digits
      | None => Z.of_N <$> decimal (default text (strip_prefix text "+"))
      end
  | _ => None
  end.

(** The bytes of a prefixed text of pairs of digits. *)
Definition hex_bytes_of (value : Value.t) : option (list byte) :=
  text ← Value.as_str value;
  digits ← strip_prefix (to_ascii_lowercase (trim text)) "0x";
  decode_hex_pairs digits.

Definition fits_uint (bits n : N) : bool := (n <? 2 ^ bits)%N.
Definition fits_int (bits : N) (z : Z) : bool :=
  ((- 2 ^ (Z.of_N bits - 1) <=? z) && (z <? 2 ^ (Z.of_N bits - 1)))%Z.

(** What an argument means at a type, if it is a value of the type. *)
Definition word_meaning (type : WordType.t) (value : Value.t) : option AbiData.t :=
  match type with
  | WordType.Address =>
      bytes ← hex_bytes_of value;
      if (length bytes =? 20)%nat then Some (AbiData.Address bytes) else None
  | WordType.Bool => AbiData.Bool <$> Value.as_bool value
  | WordType.Uint bits =>
      n ← unsigned_of value; if fits_uint bits n then Some (AbiData.Uint n) else None
  | WordType.Int bits =>
      z ← signed_of value; if fits_int bits z then Some (AbiData.Int z) else None
  | WordType.FixedBytes width =>
      bytes ← hex_bytes_of value;
      let width := N.to_nat width in
      if (length bytes <=? width)%nat
      then Some (AbiData.FixedBytes (bytes ++ replicate (width - length bytes) x00)) else None
  end.

(** The meanings of a list of values, each at its own type. *)
Fixpoint meanings (at_types : list (Value.t -> option AbiData.t)) (values : list Value.t)
    : option (list AbiData.t) :=
  match at_types, values with
  | meaning :: at_types, value :: values =>
      item ← meaning value; items ← meanings at_types values; Some (item :: items)
  | [], [] => Some []
  | _, _ => None
  end.

Definition components_data (data : AbiType.t -> Value.t -> option AbiData.t)
    : list (string * AbiType.t) -> list Value.t -> option (list AbiData.t) :=
  fix loop components values :=
    match components, values with
    | (_, component) :: components, value :: values =>
        item ← data component value; items ← loop components values; Some (item :: items)
    | [], [] => Some []
    | _, _ => None
    end.

(** A canonical value at a type, free of any layout. *)
Fixpoint data_of (type : AbiType.t) (value : Value.t) : option AbiData.t :=
  match type with
  | AbiType.Array element maybe_len =>
      values ← Value.as_array value;
      if is_none_or (N.eqb (count values)) maybe_len
      then AbiData.Seq <$> mapM (data_of element) values else None
  | AbiType.Tuple components =>
      values ← Value.as_array value;
      AbiData.Seq <$> components_data data_of components values
  | AbiType.Plain _ kind =>
      if bool_decide (kind = "bytes") then AbiData.Bytes <$> hex_bytes_of value
      else if bool_decide (kind = "string") then
        text ← Value.as_str value; Some (AbiData.Bytes (as_bytes text))
      else type ← word_type kind; word_meaning type value
  end.

(** ** The decoder *)

Definition zeros (bytes : list byte) : bool :=
  bool_decide (bytes = replicate (length bytes) x00).

(** The value of a word; a word that is not one of the type is rejected. *)
Definition read_word (type : WordType.t) (word : list byte) : option AbiData.t :=
  let n := be_value word in
  match type with
  | WordType.Address =>
      if zeros (take 12 word) then Some (AbiData.Address (drop 12 word)) else None
  | WordType.Bool =>
      if (n =? 0)%N then Some (AbiData.Bool false)
      else if (n =? 1)%N then Some (AbiData.Bool true) else None
  | WordType.Uint bits => if fits_uint bits n then Some (AbiData.Uint n) else None
  | WordType.Int bits =>
      let z := if (n <? 2 ^ 255)%N then Z.of_N n else (Z.of_N n - 2 ^ 256)%Z in
      if fits_int bits z then Some (AbiData.Int z) else None
  | WordType.FixedBytes width =>
      let width := N.to_nat width in
      if zeros (drop width word) then Some (AbiData.FixedBytes (take width word)) else None
  end.

Definition word_at (bytes : list byte) : option N :=
  if decide (32 <= length bytes) then Some (be_value (take 32 bytes)) else None.

(** How one parameter is read: in place, with what is left after it, or from
    the start of its tail. *)
Inductive reader :=
| InPlace (read : list byte -> option (AbiData.t * list byte))
| Behind (read : list byte -> option AbiData.t).

Fixpoint read_many (read : list byte -> option (AbiData.t * list byte)) (n : nat)
    (bytes : list byte) : option (list AbiData.t * list byte) :=
  match n with
  | O => Some ([], bytes)
  | S n => '(item, bytes) ← read bytes; '(items, bytes) ← read_many read n bytes;
           Some (item :: items, bytes)
  end.

Definition read_components
    (read : AbiType.t -> list byte -> option (AbiData.t * list byte))
    : list (string * AbiType.t) -> list byte -> option (list AbiData.t * list byte) :=
  fix loop components bytes :=
    match components with
    | [] => Some ([], bytes)
    | (_, component) :: components =>
        '(item, bytes) ← read component bytes; '(items, bytes) ← loop components bytes;
        Some (item :: items, bytes)
    end.

Fixpoint read_static (type : AbiType.t) (bytes : list byte)
    : option (AbiData.t * list byte) :=
  match type with
  | AbiType.Array element maybe_len =>
      len ← maybe_len;
      '(items, bytes) ← read_many (read_static element) (N.to_nat len) bytes;
      Some (AbiData.Seq items, bytes)
  | AbiType.Tuple components =>
      '(items, bytes) ← read_components read_static components bytes;
      Some (AbiData.Seq items, bytes)
  | AbiType.Plain _ kind =>
      if decide (32 <= length bytes)
      then type ← word_type kind; item ← read_word type (take 32 bytes);
           Some (item, drop 32 bytes)
      else None
  end.

(** The parameters of a frame, the next of which starts at [cursor]. *)
Fixpoint read_frame (frame : list byte) (readers : list reader) (cursor : list byte)
    : option (list AbiData.t) :=
  match readers with
  | [] => Some []
  | InPlace read :: readers =>
      '(item, cursor) ← read cursor; items ← read_frame frame readers cursor;
      Some (item :: items)
  | Behind read :: readers =>
      offset ← word_at cursor;
      item ← read (drop (N.to_nat offset) frame);
      items ← read_frame frame readers (drop 32 cursor); Some (item :: items)
  end.

(** The types that are read behind an offset. *)
Fixpoint is_behind (type : AbiType.t) : bool :=
  match type with
  | AbiType.Array _ None => true
  | AbiType.Array element (Some _) => is_behind element
  | AbiType.Tuple components => existsb (fun component => is_behind component.2) components
  | AbiType.Plain _ kind => bool_decide (kind = "bytes" \/ kind = "string")
  end.

Fixpoint read_dynamic (type : AbiType.t) (bytes : list byte) : option AbiData.t :=
  let reader type :=
    if is_behind type then Behind (read_dynamic type) else InPlace (read_static type) in
  match type with
  | AbiType.Array element (Some len) =>
      AbiData.Seq <$> read_frame bytes (replicate (N.to_nat len) (reader element)) bytes
  | AbiType.Array element None =>
      len ← word_at bytes;
      let frame := drop 32 bytes in
      AbiData.Seq <$> read_frame frame (replicate (N.to_nat len) (reader element)) frame
  | AbiType.Tuple components =>
      AbiData.Seq <$>
        read_frame bytes (map (fun component => reader component.2) components) bytes
  | AbiType.Plain _ _ =>
      len ← word_at bytes;
      let payload := drop 32 bytes in
      if decide (N.to_nat len <= length payload)
      then Some (AbiData.Bytes (take (N.to_nat len) payload)) else None
  end.

Definition abi_reader (type : AbiType.t) : reader :=
  if is_behind type then Behind (read_dynamic type) else InPlace (read_static type).

Definition decode_abi_params (types : list AbiType.t) (bytes : list byte)
    : option (list AbiData.t) :=
  read_frame bytes (abi_reader <$> types) bytes.

(** Arrays are no longer than a [usize] counts, and integers fit a [u64]
    or are negative, as in [serde_json]. *)
Fixpoint representable (value : Value.t) : bool :=
  match value with
  | Value.Array values => (count values <=? max_uint 32)%N && forallb representable values
  | Value.Number (JsonNumber.PosInt n) => (n <=? max_uint 64)%N
  | Value.Number (JsonNumber.NegInt z) => (z <? 0)%Z
  | _ => true
  end.

(** ** Round trip *)

Fixpoint abi_type_induction (P : AbiType.t -> Prop)
    (Harray : forall element len, P element -> P (AbiType.Array element len))
    (Htuple : forall components, Forall (fun component => P component.2) components ->
      P (AbiType.Tuple components))
    (Hplain : forall raw kind, P (AbiType.Plain raw kind)) (type : AbiType.t) : P type :=
  let go := abi_type_induction P Harray Htuple Hplain in
  match type with
  | AbiType.Array element len => Harray element len (go element)
  | AbiType.Tuple components =>
      Htuple components
        ((fix all components : Forall (fun component => P component.2) components :=
            match components with
            | [] => Forall_nil_2 _
            | component :: components => Forall_cons_2 _ _ _ (go component.2) (all components)
            end) components)
  | AbiType.Plain raw kind => Hplain raw kind
  end.

Lemma Some_bind {A B} (a : A) (f : A -> option B) : Some a ≫= f = f a.
Proof. done. Qed.

Lemma zip_fmap_first {A B C} (f : A -> B) (l : list A) (k : list C) :
  zip (f <$> l) k = prod_map f id <$> zip l k.
Proof. revert k. induction l as [|x l IH]; intros [|y k]; simpl; f_equal; auto. Qed.

Lemma count_app {A} (l k : list A) : count (l ++ k) = (count l + count k)%N.
Proof. unfold count. rewrite length_app. lia. Qed.

Definition small {A} (l : list A) : Prop := (count l <= max_uint 32)%N.

Lemma small_app {A} (l k : list A) : small (l ++ k) -> small l /\ small k.
Proof. unfold small. rewrite count_app. lia. Qed.

Lemma length_word n : length (encode_u256_word n) = 32.
Proof. apply length_to_be_bytes. Qed.

Lemma be_value_word n : (n <= max_uint 256)%N -> be_value (encode_u256_word n) = n.
Proof.
  intros Hn. unfold encode_u256_word. rewrite be_value_to_be_bytes.
  change (256 ^ N.of_nat 32)%N with (2 ^ 256)%N. apply N.mod_small.
  eapply N.le_lt_trans; [exact Hn|]. done.
Qed.

Lemma word_at_word n rest : (n < 2 ^ 256)%N -> word_at (encode_u256_word n ++ rest) = Some n.
Proof.
  intros Hn. unfold word_at. rewrite length_app, length_word.
  rewrite decide_True by lia. rewrite take_app_length' by (by rewrite length_word).
  unfold encode_u256_word. rewrite be_value_to_be_bytes.
  change (256 ^ N.of_nat 32)%N with (2 ^ 256)%N. by rewrite N.mod_small.
Qed.

Lemma drop_word n rest : drop 32 (encode_u256_word n ++ rest) = rest.
Proof. rewrite drop_app_length'; [done|by rewrite length_word]. Qed.

Lemma small_word n : (n <= max_uint 32)%N -> (n < 2 ^ 256)%N.
Proof. intros Hn. eapply N.le_lt_trans; [exact Hn|]. done. Qed.

(** *** Sizes of heads *)

Lemma saturating_sum {A} (f : A -> N) (l : list A) acc :
  (acc <= max_uint 32)%N ->
  fold_left (fun total x => saturating_add 32 total (f x)) l acc
  = N.min (acc + sum_N (f <$> l)) (max_uint 32).
Proof.
  revert acc. induction l as [|x l IH]; intros acc Hacc; cbn [fold_left]; [simpl; lia|].
  rewrite IH by (unfold saturating_add; lia). rewrite fmap_cons.
  change (sum_N (f x :: (f <$> l))) with (f x + sum_N (f <$> l))%N. unfold saturating_add. lia.
Qed.

Lemma tuple_words_static words components total :
  (words <= max_uint 32)%N ->
  tuple_words static_word_size words components = Some total ->
  exists sizes, Forall2 (fun component size => static_word_size component.2 = Some size)
                  components sizes
    /\ total = N.min (words + sum_N sizes) (max_uint 32).
Proof.
  revert words. induction components as [|[name component] components IH]; intros words Hwords; simpl.
  { intros [= <-]. exists []. split; [constructor|]. simpl. lia. }
  destruct (static_word_size component) as [size|] eqn:Hsize; simpl; [|done].
  intros (sizes & Hsizes & ->)%IH; [|unfold saturating_add; lia].
  exists (size :: sizes). split; [by constructor|].
  change (sum_N (size :: sizes)) with (size + sum_N sizes)%N. unfold saturating_add. lia.
Qed.

(** *** Hexadecimal text *)

Lemma hex_value_small a d : hex_value a = Some d -> (d < 16)%N.
Proof.
  unfold hex_value. repeat case_match; intros [= <-];
    repeat match goal with
    | H : (_ && _) = true |- _ => apply andb_true_iff in H as [?%N.leb_le ?%N.leb_le]
    end; lia.
Qed.

Lemma byte_of_small n : (n < 256)%N -> exists b, Byte.of_N n = Some b.
Proof.
  intros Hn. destruct (Byte.of_N n) as [b|] eqn:Hb; [by exists b|].
  apply Byte.of_N_None_iff in Hb. lia.
Qed.

Lemma decode_hexdigits n s :
  String.length s = 2 * n -> forallb is_ascii_hexdigit (str_bytes s) = true ->
  exists bytes, decode_hex_pairs s = Some bytes /\ length bytes = n.
Proof.
  revert s. induction n as [|n IH]; intros s Hlength Hdigits.
  { destruct s; [by exists []|done]. }
  destruct s as [|a [|b s]]; simpl in Hlength; [lia..|]. simpl in Hdigits.
  apply andb_true_iff in Hdigits as [Ha [Hb Hs]%andb_true_iff].
  unfold is_ascii_hexdigit in Ha, Hb.
  destruct (hex_value a) as [h|] eqn:Hh; [|done]. destruct (hex_value b) as [l|] eqn:Hl; [|done].
  apply hex_value_small in Hh as Hh'. apply hex_value_small in Hl as Hl'.
  destruct (byte_of_small (h * 16 + l)) as [v Hv]; [lia|].
  destruct (IH s) as (bytes & Hbytes & <-); [lia|exact Hs|].
  exists (v :: bytes). simpl. rewrite Hh, Hl. simpl. rewrite Hv. simpl. by rewrite Hbytes.
Qed.

Lemma trim_start_0x_digits s :
  forallb is_ascii_hexdigit (str_bytes s) = true -> trim_start_0x s = s.
Proof.
  destruct s as [|a [|b s]]; [done..|]. simpl. intros [_ [Hb _]%andb_true_iff]%andb_true_iff.
  assert (byte_of b <> 120%N) as Hx.
  { intros Hx. unfold is_ascii_hexdigit, hex_value in Hb. by rewrite Hx in Hb. }
  by rewrite (bool_decide_eq_false_2 _ Hx), andb_false_r.
Qed.

Lemma prefixed_0x s : starts_with s "0x" = true -> exists body, s = "0x" +:+ body.
Proof.
  destruct s as [|a [|b s]]; simpl; rewrite ?andb_false_r; [done..|].
  intros [<-%bool_decide_eq_true [<-%bool_decide_eq_true _]%andb_true_iff]%andb_true_iff.
  by exists s.
Qed.

(** A normalised address: the prefix and forty lower-case digits. *)
Lemma evm_address_shape raw normalized :
  normalize_evm_address raw = Ok normalized ->
  exists body, normalized = "0x" +:+ body /\ String.length body = 40
    /\ forallb is_lower_hex_digit (str_bytes body) = true.
Proof.
  unfold normalize_evm_address. intros [Hvalid [= <-]]%err_if_seq_Ok.
  apply negb_false_iff, andb_true_iff in Hvalid as [[Hlen%N.eqb_eq Hprefix]%andb_true_iff Hdigits].
  destruct (prefixed_0x _ Hprefix) as [body Hbody]. exists body. split; [done|].
  assert (str_bytes ("0x" +:+ body) = ascii_lower <$> str_bytes (trim raw)) as Hlower.
  { rewrite <-Hbody. apply str_bytes_map_str. }
  rewrite Hbody in *. change (drop 2 (str_bytes ("0x" +:+ body))) with (str_bytes body) in Hdigits.
  split.
  - unfold str_len in Hlen. change (String.length ("0x" +:+ body)) with (2 + String.length body) in Hlen.
    lia.
  - rewrite forallb_forall in *. intros a Ha. apply lower_hex_of_hexdigit; [by apply Hdigits|].
    assert (a ∈ ascii_lower <$> str_bytes (trim raw)) as (c & -> & _)%list_elem_of_fmap.
    { rewrite <-Hlower, str_bytes_app. apply elem_of_app. right. by apply list_elem_of_In. }
    apply ascii_lower_idem.
Qed.

Lemma evm_address_bytes raw normalized :
  normalize_evm_address raw = Ok normalized ->
  exists bytes, decode_hex_pairs (trim_start_0x normalized) = Some bytes /\ length bytes = 20.
Proof.
  intros (body & -> & Hlength & Hdigits)%evm_address_shape.
  destruct (lower_hex_normal body Hdigits) as (_ & _ & Hascii).
  change (trim_start_0x ("0x" +:+ body)) with (trim_start_0x body).
  rewrite trim_start_0x_digits by done. by apply decode_hexdigits.
Qed.

Lemma evm_address_normal raw normalized :
  normalize_evm_address raw = Ok normalized -> normalize_evm_address normalized = Ok normalized.
Proof.
  intros (body & -> & Hlength & Hdigits)%evm_address_shape.
  destruct (lower_hex_normal body Hdigits) as (Htrim & Hlower & Hascii).
  unfold normalize_evm_address. rewrite Htrim, Hlower.
  change (drop 2 (str_bytes ("0x" +:+ body))) with (str_bytes body). rewrite Hascii.
  change (str_len ("0x" +:+ body)) with (N.of_nat (2 + String.length body)). rewrite Hlength.
  by destruct body.
Qed.

(** *** Numerals *)

Lemma parse_digits_numeral w acc text n :
  parse_digits w acc text = Some n -> (acc <= max_uint w)%N ->
  exists v, numeral 10 digit_value text = Some v
    /\ n = (acc * 10 ^ N.of_nat (String.length text) + v)%N /\ (n <= max_uint w)%N.
Proof.
  revert acc. induction text as [|a text IH]; intros acc; cbn [parse_digits numeral].
  { intros [= <-] Hacc. exists 0%N. split; [done|]. cbn. split; [lia|done]. }
  destruct (digit_value a) as [d|]; [|done].
  destruct (N.leb_spec (acc * 10 + d) (max_uint w)) as [Hfits|]; [|done].
  intros Hparse _. destruct (IH _ Hparse Hfits) as (v & -> & -> & Hmax). cbn [mbind option_bind].
  eexists. split; [done|]. split; [|exact Hmax]. cbn [String.length].
  rewrite Nat2N.inj_succ, N.pow_succ_r'. nia.
Qed.

Lemma parse_hex_digits_numeral w acc text n :
  parse_hex_digits w acc text = Some n -> (acc <= max_uint w)%N ->
  exists v, numeral 16 hex_value text = Some v
    /\ n = (acc * 16 ^ N.of_nat (String.length text) + v)%N /\ (n <= max_uint w)%N.
Proof.
  revert acc. induction text as [|a text IH]; intros acc; cbn [parse_hex_digits numeral].
  { intros [= <-] Hacc. exists 0%N. split; [done|]. cbn. split; [lia|done]. }
  destruct (hex_value a) as [d|]; [|done].
  destruct (N.leb_spec (acc * 16 + d) (max_uint w)) as [Hfits|]; [|done].
  intros Hparse _. destruct (IH _ Hparse Hfits) as (v & -> & -> & Hmax). cbn [mbind option_bind].
  eexists. split; [done|]. split; [|exact Hmax]. cbn [String.length].
  rewrite Nat2N.inj_succ, N.pow_succ_r'. nia.
Qed.

Lemma parse_digits_decimal w text n :
  is_empty text = false -> parse_digits w 0 text = Some n ->
  decimal text = Some n /\ (n <= max_uint w)%N.
Proof.
  intros Hempty Hparse. destruct (parse_digits_numeral w 0 text n Hparse) as (v & Hv & -> & Hmax);
    [lia|]. rewrite N.mul_0_l, N.add_0_l in *. unfold decimal. by rewrite Hempty.
Qed.

Lemma parse_hex_digits_value w text n :
  parse_hex_digits w 0 text = Some n ->
  numeral 16 hex_value text = Some n /\ (n <= max_uint w)%N.
Proof.
  intros Hparse. destruct (parse_hex_digits_numeral w 0 text n Hparse) as (v & Hv & -> & Hmax);
    [lia|]. by rewrite N.mul_0_l, N.add_0_l in *.
Qed.

(** A numeral has no sign and repeats no prefix. *)
Lemma decimal_head text n prefix c :
  decimal text = Some n -> digit_value c = None -> strip_prefix text (String c prefix) = None.
Proof.
  unfold decimal. destruct text as [|a text]; [done|]. cbn [is_empty numeral strip_prefix].
  intros Hn Hc. destruct (bool_decide (c = a)) eqn:Ha; [|done].
  apply bool_decide_eq_true in Ha as <-. by rewrite Hc in Hn.
Qed.

Lemma parse_uint_decimal w text n m :
  parse_uint w text = Some n -> decimal text = Some m -> n = m.
Proof.
  intros Hparse Hm. unfold parse_uint in Hparse.
  rewrite (decimal_head _ _ _ _ Hm) in Hparse by done. cbn [default] in Hparse.
  destruct text as [|a text]; [done|].
  apply parse_digits_decimal in Hparse as [Hn _]; [|done]. congruence.
Qed.

Section RoundTrip.
#[local] Set Default Proof Using "All".
Context `{libs : StrategyLibs, libs_ok : !StrategyLibsOk libs}.
#[local] Opaque encode_u256_word.

(** *** Words of primitive types *)

Lemma starts_with_strip text prefix :
  starts_with text prefix = is_some (strip_prefix text prefix).
Proof.
  revert text. induction prefix as [|a prefix IH]; intros [|b text]; try done.
  cbn [starts_with strip_prefix]. destruct (bool_decide (a = b)); [apply IH|done].
Qed.

Lemma unsigned_of_parsed value field n :
  parse_u256_from_json value field = Ok n -> representable value = true ->
  unsigned_of value = Some n /\ (n <= max_uint 256)%N.
Proof.
  unfold parse_u256_from_json. destruct value as [|b|[m| |]|text|values|members]; try done.
  { cbn [Value.as_str Value.as_u64 representable unsigned_of].
    intros [= <-] Hm%N.leb_le. split; [done|]. etrans; [exact Hm|]. done. }
  cbn [Value.as_str Value.as_u64 unsigned_of]. intros Hparse _. cbv zeta.
  unfold parse_u256_from_decimal_or_hex in Hparse. apply err_if_seq_Ok in Hparse as [Hempty Hparse].
  destruct (strip_prefix (trim text) "0x") as [hex|];
    [|destruct (strip_prefix (trim text) "0X") as [hex|]].
  1,2: destruct (is_empty hex) eqn:Hhex;
    [destruct hex; [injection Hparse as <-; done|done]
    |apply err_if_seq_Ok in Hparse as [_ Hparse%ok_or_Ok]; by apply parse_hex_digits_value].
  apply err_if_seq_Ok in Hparse as [_ Hparse%ok_or_Ok]. by apply parse_digits_decimal.
Qed.

Lemma signed_of_parsed value field z :
  parse_i128_from_json value field = Ok z -> representable value = true -> (0 <= z)%Z ->
  signed_of value = Some z /\ (z < 2 ^ 127)%Z.
Proof.
  unfold parse_i128_from_json. destruct value as [|b|[m|m|]|text|values|members]; try done.
  - cbn [Value.as_i64 signed_of]. destruct (N.ltb_spec m (2 ^ 63)) as [Hm|]; [|done].
    intros [= <-] _ _. split; [done|]. change (2 ^ 127)%Z with (Z.of_N (2 ^ 127)).
    apply N2Z.inj_lt. etrans; [exact Hm|]. done.
  - cbn [Value.as_i64 signed_of]. intros [= <-] Hneg%Z.ltb_lt Hz. lia.
  - cbn [Value.as_i64 Value.as_str signed_of]. intros Hparse%ok_or_Ok _ Hz.
    unfold parse_i128 in Hparse. rewrite starts_with_strip in Hparse.
    destruct (strip_prefix text "-") as [digits|] eqn:Hminus;
      cbn [is_some default from_option id] in Hparse.
    + destruct (is_empty digits) eqn:Hempty; [done|].
      destruct (parse_digits 128 0 digits) as [n|] eqn:Hdigits; [|done].
      cbn [mbind option_bind] in Hparse. destruct (n <=? 2 ^ 127)%N; [|done].
      injection Hparse as <-. apply parse_digits_decimal in Hdigits as [-> _]; [|done].
      split; [done|]. lia.
    + destruct (is_empty _) eqn:Hempty; [done|].
      destruct (parse_digits 128 0 _) as [n|] eqn:Hdigits; [|done].
      cbn [mbind option_bind] in Hparse. destruct (N.ltb_spec n (2 ^ 127)) as [Hn|]; [|done].
      injection Hparse as <-. apply parse_digits_decimal in Hdigits as [Hdigits _]; [|done].
      rewrite Hdigits. split; [done|]. change (2 ^ 127)%Z with (Z.of_N (2 ^ 127)). lia.
Qed.

(** What [decode_hex_field] returns are the bytes of the text. *)
Lemma hex_field_bytes text field bytes :
  decode_hex_field text field = Ok bytes -> hex_bytes_of (Value.String text) = Some bytes.
Proof.
  unfold decode_hex_field, normalize_hex_blob. intros Hrun.
  apply result_bind_Ok in Hrun as (normalized & Hnormal & Hdecode).
  apply result_bind_Ok in Hnormal as (digits & Hdigits%ok_or_Ok & Hnormal).
  apply err_if_seq_Ok in Hnormal as [Heven Hnormal].
  apply err_if_seq_Ok in Hnormal as [Hhex [= <-]].
  apply negb_false_iff in Hhex. apply negb_false_iff, N.eqb_eq in Heven.
  unfold hex_bytes_of. cbn [Value.as_str mbind option_bind]. rewrite Hdigits. cbn [mbind option_bind].
  pose proof (strip_prefix_Some _ _ _ Hdigits) as Htext. rewrite Htext in Hdecode.
  change (trim_start_0x ("0x" +:+ digits)) with (trim_start_0x digits) in Hdecode.
  rewrite trim_start_0x_digits in Hdecode by done.
  destruct (decode_hexdigits (String.length digits / 2) digits) as (bytes' & Hpairs & _); [|done|].
  { unfold str_len in Heven. apply (f_equal N.to_nat) in Heven.
    rewrite N2Nat.inj_mod, Nat2N.id in Heven. apply Nat.Div0.mod_divides in Heven as [k Hk].
    rewrite Hk. change (N.to_nat 2) with 2. by rewrite (Nat.mul_comm 2 k), Nat.div_mul, Nat.mul_comm. }
  rewrite (decode_hex_text_pairs _ _ Hpairs) in Hdecode. injection Hdecode as <-. exact Hpairs.
Qed.

Lemma address_bytes text normalized bytes :
  normalize_evm_address text = Ok normalized ->
  decode_hex_text (trim_start_0x normalized) = Ok bytes ->
  hex_bytes_of (Value.String text) = Some bytes /\ length bytes = 20.
Proof.
  intros Haddress Hdecode. destruct (evm_address_bytes _ _ Haddress) as (body & Hbody & Hlength).
  rewrite (decode_hex_text_pairs _ _ Hbody) in Hdecode. injection Hdecode as <-. split; [|done].
  destruct (evm_address_shape _ _ Haddress) as (digits & Hshape & _ & Hdigits).
  unfold normalize_evm_address in Haddress. apply err_if_seq_Ok in Haddress as [_ [= Htext]].
  unfold hex_bytes_of. cbn [Value.as_str mbind option_bind]. rewrite Htext, Hshape, strip_0x.
  cbn [mbind option_bind]. rewrite Hshape in Hbody.
  change (trim_start_0x ("0x" +:+ digits)) with (trim_start_0x digits) in Hbody.
  rewrite trim_start_0x_digits in Hbody; [done|].
  by destruct (lower_hex_normal digits Hdigits) as (_ & _ & Hascii).
Qed.

Lemma zeros_replicate n : zeros (replicate n x00) = true.
Proof. unfold zeros. by rewrite length_replicate, bool_decide_eq_true_2. Qed.

Lemma word_type_uint kind type :
  starts_with kind "uint" = true -> kind <> "address" -> kind <> "bool" ->
  word_type kind = Some type -> exists bits, type = WordType.Uint bits.
Proof.
  rewrite starts_with_strip. unfold word_type. intros Hkind Ha Hb.
  rewrite !bool_decide_eq_false_2 by done. destruct (strip_prefix kind "uint"); [|done].
  intros (bits & _ & ->)%fmap_Some_1. by exists bits.
Qed.

Lemma word_type_int kind type :
  starts_with kind "uint" = false -> starts_with kind "int" = true ->
  kind <> "address" -> kind <> "bool" ->
  word_type kind = Some type -> exists bits, type = WordType.Int bits.
Proof.
  rewrite !starts_with_strip. unfold word_type. intros Hu Hi Ha Hb.
  rewrite !bool_decide_eq_false_2 by done. destruct (strip_prefix kind "uint"); [done|].
  destruct (strip_prefix kind "int"); [|done]. intros (bits & _ & ->)%fmap_Some_1. by exists bits.
Qed.

Lemma word_type_bytes kind type width :
  starts_with kind "uint" = false -> starts_with kind "int" = false ->
  kind <> "address" -> kind <> "bool" ->
  parse_uint 32 (trim_start_matches (String.length kind) "bytes" kind) = Some width ->
  word_type kind = Some type -> type = WordType.FixedBytes width.
Proof.
  rewrite !starts_with_strip. unfold word_type. intros Hu Hi Ha Hb Hwidth.
  rewrite !bool_decide_eq_false_2 by done. destruct (strip_prefix kind "uint"); [done|].
  destruct (strip_prefix kind "int"); [done|].
  destruct (strip_prefix kind "bytes") as [suffix|] eqn:Hsuffix; [|done].
  destruct (decimal suffix) as [n|] eqn:Hn; [|done]. cbn [mbind option_bind].
  destruct (_ && _); [|done]. intros [= <-]. f_equal.
  pose proof (strip_prefix_Some _ _ _ Hsuffix) as Hkind.
  assert (exists fuel, String.length kind = S fuel) as [fuel Hfuel] by (rewrite Hkind; by eexists).
  rewrite Hfuel in Hwidth. cbn [trim_start_matches] in Hwidth. rewrite Hsuffix in Hwidth.
  assert (trim_start_matches fuel "bytes" suffix = suffix) as Hstop.
  { destruct fuel; [done|]. cbn [trim_start_matches].
    by rewrite (decimal_head _ _ _ _ Hn). }
  rewrite Hstop in Hwidth. symmetry. by eapply parse_uint_decimal.
Qed.

(** The word of a value is read back as its meaning, or rejected if the value is
    not one of the type. *)
Lemma primitive_word_reads kind value field word type :
  encode_abi_primitive_word kind value field = Ok word -> representable value = true ->
  word_type kind = Some type -> read_word type word = word_meaning type value.
Proof.
  unfold encode_abi_primitive_word. intros Hencode Hvalue Htype.
  case_bool_decide as Ha.
  { subst kind. injection Htype as <-. apply result_bind_Ok in Hencode as (raw & Hraw%ok_or_Ok & Hencode).
    apply result_bind_Ok in Hencode as (normalized & Haddress & Hencode).
    apply result_bind_Ok in Hencode as (bytes & Hbytes & [= <-]).
    destruct value as [| | |text| |]; try done. injection Hraw as <-.
    apply map_err_Ok in Hbytes.
    destruct (address_bytes text normalized bytes Haddress Hbytes) as [Hmeaning Hlength].
    cbn [word_meaning]. rewrite Hmeaning. cbn [mbind option_bind]. by rewrite Hlength. }
  case_bool_decide as Hb.
  { subst kind. injection Htype as <-. apply result_bind_Ok in Hencode as (b & Hb%ok_or_Ok & [= <-]).
    cbn [word_meaning read_word]. rewrite Hb, be_value_word by (by destruct b). by destruct b. }
  destruct (starts_with kind "uint") eqn:Hu.
  { apply result_bind_Ok in Hencode as (n & Hn & [= <-]).
    destruct (word_type_uint kind type) as [bits ->]; [done..|].
    apply unsigned_of_parsed in Hn as [Hn Hmax]; [|done]. cbn [word_meaning read_word].
    rewrite Hn, be_value_word by done. done. }
  destruct (starts_with kind "int") eqn:Hi.
  { apply result_bind_Ok in Hencode as (z & Hz & [Hsign%Z.ltb_ge [= <-]]%err_if_seq_Ok).
    destruct (word_type_int kind type) as [bits ->]; [done..|].
    apply signed_of_parsed in Hz as [Hz Hmax]; [|done..]. cbn [word_meaning read_word].
    assert (Z.to_N z < 2 ^ 127)%N as Hsmall by lia.
    rewrite Hz, be_value_word.
    2:{ apply N.lt_le_incl. eapply N.lt_trans; [exact Hsmall|]. done. }
    destruct (N.ltb_spec (Z.to_N z) (2 ^ 255)) as [_|Hlarge].
    - by rewrite Z2N.id.
    - exfalso. assert (2 ^ 127 < 2 ^ 255)%N by done. lia. }
  destruct (starts_with kind "bytes"); [|done].
  apply result_bind_Ok in Hencode as (width & Hwidth%ok_or_Ok & [Hrange Hencode]%err_if_seq_Ok).
  apply result_bind_Ok in Hencode as (raw & Hraw%ok_or_Ok & Hencode).
  apply result_bind_Ok in Hencode as (bytes & Hbytes%hex_field_bytes & [Hfits%N.ltb_ge [= <-]]%err_if_seq_Ok).
  rewrite (word_type_bytes kind type width) by done. cbn [word_meaning read_word].
  destruct value as [| | |text| |]; try done. injection Hraw as <-. rewrite Hbytes.
  cbn [mbind option_bind]. apply negb_false_iff, andb_true_iff in Hrange as [_ Hwidth32%N.leb_le].
  unfold count in Hfits. rewrite (proj2 (Nat.leb_le _ _)) by lia.
  replace (32 - length bytes) with ((N.to_nat width - length bytes) + (32 - N.to_nat width)) by lia.
  rewrite replicate_add, app_assoc.
  assert (length (bytes ++ replicate (N.to_nat width - length bytes) x00) = N.to_nat width) as Hlength
    by (rewrite length_app, length_replicate; lia).
  rewrite drop_app_length', take_app_length', zeros_replicate by done. done.
Qed.

Lemma primitive_word_length kind value field word :
  encode_abi_primitive_word kind value field = Ok word -> length word = 32.
Proof.
  unfold encode_abi_primitive_word. repeat case_match; intros Hrun.
  - apply result_bind_Ok in Hrun as (raw & _ & Hrun).
    apply result_bind_Ok in Hrun as (normalized & Haddress & Hrun).
    apply result_bind_Ok in Hrun as (decoded & Hdecoded & [= <-]).
    apply map_err_Ok in Hdecoded.
    destruct (address_bytes _ _ _ Haddress Hdecoded) as [_ Hlength].
    simpl. by rewrite Hlength.
  - apply result_bind_Ok in Hrun as (raw & _ & [= <-]). apply length_word.
  - apply result_bind_Ok in Hrun as (raw & _ & [= <-]). apply length_word.
  - apply result_bind_Ok in Hrun as (raw & _ & [_ [= <-]]%err_if_seq_Ok). apply length_word.
  - apply result_bind_Ok in Hrun as (width & _ & [Hwidth Hrun]%err_if_seq_Ok).
    apply result_bind_Ok in Hrun as (raw & _ & Hrun).
    apply result_bind_Ok in Hrun as (decoded & _ & [Hfits [= <-]]%err_if_seq_Ok).
    apply negb_false_iff, andb_true_iff in Hwidth as [_ Hwidth%N.leb_le].
    apply N.ltb_ge in Hfits. unfold count in Hfits. rewrite length_app, length_replicate. lia.
  - done.
Qed.

(** *** One parameter *)

(** What an encoder writes, its reader reads back as the meaning. *)
Definition part_reads (part : Part.t) (r : reader) (meaning : Value.t -> option AbiData.t)
    : Prop :=
  forall value field bytes, representable value = true -> Part.encode part value field = Ok bytes ->
    small bytes ->
    match Part.words part, r with
    | Some words, InPlace read =>
        count bytes = (32 * words)%N
        /\ forall rest, read (bytes ++ rest) = (fun item => (item, rest)) <$> meaning value
    | None, Behind read => forall rest, read (bytes ++ rest) = meaning value
    | _, _ => False
    end.

(** *** A frame of parameters *)

Definition part_row : Type := Part.t * reader * (Value.t -> option AbiData.t).
Definition row_reads (row : part_row) : Prop := part_reads row.1.1 row.1.2 row.2.

Definition row_words (row : part_row) : N := default 1%N (Part.words row.1.1).

Lemma encode_parts_reads (rows : list part_row) (values : list Value.t)
    (hsb tsb : N) (index : nat) (heads tails before after frame cursor : list byte) :
  Forall row_reads rows -> length rows = length values -> Forall (fun v => representable v = true) values ->
  encode_parts hsb index tsb (fst <$> rows.*1) values = Ok (heads, tails) ->
  frame = before ++ tails ++ after -> count before = (hsb + tsb)%N ->
  (hsb + tsb + count tails <= max_uint 32)%N -> small heads ->
  read_frame frame (snd <$> rows.*1) (heads ++ cursor) = meanings (rows.*2) values.
Proof.
  intros Hrows. revert values hsb tsb index heads tails before.
  induction Hrows as [|[[part r] meaning] rows Hrow Hrows IH];
    intros [|value values] hsb tsb index heads tails before Hlength Hvalues Hencode Hframe Hbefore
      Hsmall Hheads; try done.
  apply Forall_cons in Hvalues as [Hvalue Hvalues]. injection Hlength as Hlength.
  cbn [fmap list_fmap fst snd] in Hencode. simpl in Hencode.
  apply result_bind_Ok in Hencode as (bytes & Hbytes & Hencode).
  unfold row_reads, part_reads in Hrow. simpl in Hrow.
  destruct (Part.words part) as [words|] eqn:Hwords.
  - apply result_bind_Ok in Hencode as ([heads' tails'] & Hrest & [= <- <-]).
    apply small_app in Hheads as [Hhere Hheads].
    specialize (Hrow value _ bytes Hvalue Hbytes Hhere).
    destruct r as [read|read]; [|done]. destruct Hrow as [_ Hread].
    pose proof (IH values hsb tsb (S index) heads' tails' before Hlength Hvalues Hrest Hframe Hbefore
                Hsmall Hheads) as Hframes.
    cbn [fmap list_fmap fst snd]. simpl. rewrite <-(assoc_L (++)), Hread.
    destruct (meaning value); [|done]. simpl. by rewrite Hframes.
  - destruct (encode_parts hsb (S index) _ _ values) as [[heads' tails']|] eqn:Hrest; [|done].
    injection Hencode as <- <-. apply small_app in Hheads as [_ Hheads].
    rewrite count_app in Hsmall.
    assert (small bytes) as Hhere by (unfold small; lia).
    specialize (Hrow value _ bytes Hvalue Hbytes Hhere).
    destruct r as [read|read]; [done|].
    assert (saturating_add 32 tsb (count bytes) = tsb + count bytes)%N as Htail
      by (unfold saturating_add; lia).
    rewrite Htail in Hrest.
    assert (read_frame frame (snd <$> rows.*1) (heads' ++ cursor) = meanings (rows.*2) values)
      as Hframes.
    { apply (IH values hsb (tsb + count bytes)%N (S index) heads' tails' (before ++ bytes)); try done.
      - by rewrite Hframe, <-!(assoc_L (++)).
      - rewrite count_app. lia.
      - lia. }
    cbn [fmap list_fmap fst snd]. simpl. rewrite <-(assoc_L (++)).
    assert (saturating_add 32 hsb tsb = hsb + tsb)%N as -> by (unfold saturating_add; lia).
    rewrite word_at_word by (apply small_word; lia). simpl. rewrite drop_word.
    replace (drop (N.to_nat (hsb + tsb)) frame) with (bytes ++ tails' ++ after).
    { rewrite Hrow. destruct (meaning value); [|done]. simpl. by rewrite Hframes. }
    rewrite Hframe, <-(assoc_L (++)), drop_app_length'; [done|]. unfold count in Hbefore. lia.
Qed.

(** *** A whole frame *)

Lemma encode_parts_heads (rows : list part_row) (values : list Value.t)
    (hsb tsb : N) (index : nat) (heads tails : list byte) :
  Forall row_reads rows -> length rows = length values ->
  Forall (fun v => representable v = true) values ->
  encode_parts hsb index tsb (fst <$> rows.*1) values = Ok (heads, tails) ->
  small heads -> small tails ->
  count heads = (32 * sum_N (row_words <$> rows))%N.
Proof.
  intros Hrows. revert values tsb index heads tails.
  induction Hrows as [|[[part r] meaning] rows Hrow Hrows IH];
    intros [|value values] tsb index heads tails Hlength Hvalues Hencode Hheads Htails; try done.
  { by injection Hencode as <- <-. }
  apply Forall_cons in Hvalues as [Hvalue Hvalues]. injection Hlength as Hlength.
  simpl in Hencode. apply result_bind_Ok in Hencode as (bytes & Hbytes & Hencode).
  unfold row_reads, part_reads in Hrow. simpl in Hrow.
  rewrite fmap_cons. change (sum_N (?a :: ?l)) with (a + sum_N l)%N. unfold row_words at 1. simpl.
  destruct (Part.words part) as [words|] eqn:Hwords;
    apply result_bind_Ok in Hencode as ([heads' tails'] & Hrest & [= <- <-]);
    rewrite count_app.
  - apply small_app in Hheads as [Hhere Hheads].
    specialize (Hrow value _ bytes Hvalue Hbytes Hhere).
    destruct r as [read|read]; [|done]. destruct Hrow as [-> _].
    rewrite (IH values tsb (S index) heads' tails' Hlength Hvalues Hrest Hheads Htails). simpl. lia.
  - apply small_app in Hheads as [_ Hheads]. apply small_app in Htails as [_ Htails].
    rewrite (IH values _ (S index) heads' tails' Hlength Hvalues Hrest Hheads Htails).
    unfold count at 1. rewrite length_word. simpl. lia.
Qed.

Lemma encode_abi_parts_reads (rows : list part_row) (values : list Value.t) (bytes rest : list byte) :
  Forall row_reads rows -> Forall (fun v => representable v = true) values ->
  encode_abi_parts (fst <$> rows.*1) values = Ok bytes -> small bytes ->
  read_frame (bytes ++ rest) (snd <$> rows.*1) (bytes ++ rest) = meanings (rows.*2) values.
Proof.
  unfold encode_abi_parts. intros Hrows Hvalues [Harity Hrun]%err_if_seq_Ok Hsmall.
  apply negb_false_iff, N.eqb_eq in Harity. unfold count in Harity.
  rewrite !length_fmap in Harity. apply Nat2N.inj in Harity.
  apply result_bind_Ok in Hrun as ([heads tails] & Hparts & [= <-]).
  destruct (small_app _ _ Hsmall) as [Hheads Htails].
  pose proof (encode_parts_heads _ _ _ _ _ _ _ Hrows Harity Hvalues Hparts Hheads Htails) as Hwords.
  assert (saturating_mul 32 (head_words (fst <$> rows.*1)) 32 = count heads) as Hhead.
  { unfold head_words. rewrite saturating_sum by done.
    assert ((fun part => default 1%N (Part.words part)) <$> (fst <$> rows.*1) = row_words <$> rows)
      as -> by (rewrite <-!list_fmap_compose; done).
    unfold saturating_mul. unfold small in Hheads. change (max_uint 32) with 4294967295%N in *. lia. }
  rewrite Hhead in Hparts. unfold small in Hsmall. rewrite count_app in Hsmall.
  rewrite <-(assoc_L (++)) at 2.
  apply (encode_parts_reads rows values (count heads) 0 0 heads tails heads rest
    ((heads ++ tails) ++ rest) (tails ++ rest)); try done; [by rewrite <-(assoc_L (++))|lia|lia].
Qed.

(** *** Static types *)

Lemma try_imap_Forall2 {A B} (f : nat -> A -> result string B) (l : list A) k :
  try_imap f l = Ok k -> Forall2 (fun x y => exists i, f i x = Ok y) l k.
Proof.
  unfold try_imap. intros Hl%try_map_Ok. remember (imap pair l) as pairs eqn:Hpairs.
  assert (pairs.*2 = l) as <-.
  { subst. rewrite fmap_imap. clear. induction l as [|x l IH] using rev_ind; [done|].
    rewrite imap_app. simpl. by rewrite IH. }
  clear Hpairs. induction Hl as [|[i x] y]; simpl; constructor; eauto.
Qed.

Lemma array_values_Ok value maybe_len e field values :
  array_values value maybe_len e field = Ok values ->
  value = Value.Array values /\ is_none_or (N.eqb (count values)) maybe_len = true.
Proof.
  unfold array_values. intros (items & Hitems%ok_or_Ok & Hrun)%result_bind_Ok.
  destruct value; try done. injection Hitems as ->.
  destruct maybe_len as [len|]; simpl in *.
  - apply err_if_seq_Ok in Hrun as [Hlen%negb_false_iff [= <-]]. done.
  - by injection Hrun as <-.
Qed.

Lemma parse_tuple_values_Ok value field values :
  parse_tuple_values value field = Ok values -> value = Value.Array values.
Proof. unfold parse_tuple_values. intros Hvalues%ok_or_Ok. destruct value; try done. by injection Hvalues as ->. Qed.

(** What the static encoder writes for a type, the static reader reads back. *)
Definition static_reads (type : AbiType.t) : Prop :=
  forall words value field bytes, static_word_size type = Some words ->
    representable value = true -> encode_abi_static type value field = Ok bytes -> small bytes ->
    count bytes = (32 * words)%N
    /\ forall rest,
         read_static type (bytes ++ rest) = (fun item => (item, rest)) <$> data_of type value.

Lemma many_read (element : AbiType.t) (words : N) (values : list Value.t) (parts : list (list byte)) :
  static_reads element -> static_word_size element = Some words ->
  Forall (fun v => representable v = true) values ->
  Forall2 (fun value part => exists field, encode_abi_static element value field = Ok part)
    values parts -> small (concat parts) ->
  count (concat parts) = (32 * words * count values)%N
  /\ forall rest, read_many (read_static element) (length values) (concat parts ++ rest)
       = (fun items => (items, rest)) <$> mapM (data_of element) values.
Proof.
  intros Helement Hwords Hvalues Hparts. revert Hvalues.
  induction Hparts as [|value part values parts [field Hpart] Hparts IH]; simpl;
    intros Hvalues Hsmall; [by rewrite N.mul_0_r|].
  apply Forall_cons in Hvalues as [Hvalue Hvalues].
  destruct (small_app _ _ Hsmall) as [Hhere Hthere].
  destruct (Helement _ _ _ _ Hwords Hvalue Hpart Hhere) as (Hcount & Hread).
  destruct (IH Hvalues Hthere) as (Hcounts & Hreads).
  split; [rewrite count_app, Hcount, Hcounts; unfold count; simpl length; lia|].
  intros rest. rewrite <-(assoc_L (++)), Hread. destruct (data_of element value); [|done].
  simpl. rewrite Hreads. by destruct (mapM _ values).
Qed.

Lemma components_read (components : list (string * AbiType.t)) (sizes : list N)
    (values : list Value.t) (field : string) (index : nat) (bytes : list byte) :
  Forall (fun component => static_reads component.2) components ->
  Forall2 (fun component size => static_word_size component.2 = Some size) components sizes ->
  length values = length components -> Forall (fun v => representable v = true) values ->
  encode_static_components encode_abi_static field index components values = Ok bytes ->
  small bytes ->
  count bytes = (32 * sum_N sizes)%N
  /\ forall rest, read_components read_static components (bytes ++ rest)
       = (fun items => (items, rest)) <$> components_data data_of components values.
Proof.
  intros Hcomponents Hsizes. revert values index bytes Hcomponents.
  induction Hsizes as [|[name component] size components sizes Hsize Hsizes IH];
    intros [|value values] index bytes Hall Hlength Hvalues Hencode Hsmall; try done.
  { by injection Hencode as <-. }
  apply Forall_cons in Hall as [Hcomponent Hall]. injection Hlength as Hlength.
  apply Forall_cons in Hvalues as [Hvalue Hvalues].
  simpl in Hencode. apply result_bind_Ok in Hencode as (part & Hpart & Hencode).
  apply result_bind_Ok in Hencode as (others & Hothers & [= <-]).
  destruct (small_app _ _ Hsmall) as [Hhere Hthere].
  destruct (Hcomponent _ _ _ _ Hsize Hvalue Hpart Hhere) as (Hcount & Hread).
  destruct (IH _ _ _ Hall Hlength Hvalues Hothers Hthere) as (Hcounts & Hreads).
  split.
  { rewrite count_app, Hcount, Hcounts. change (sum_N (size :: sizes)) with (size + sum_N sizes)%N.
    lia. }
  simpl in *. intros rest. rewrite <-(assoc_L (++)), Hread.
  destruct (data_of component value); [|done].
  simpl. rewrite Hreads. by destruct (components_data _ components values).
Qed.

Lemma representable_items values :
  representable (Value.Array values) = true ->
  (count values <= max_uint 32)%N /\ Forall (fun v => representable v = true) values.
Proof.
  simpl. intros [Hcount%N.leb_le Hall]%andb_true_iff. split; [done|].
  apply Forall_forall. intros v Hv. rewrite forallb_forall in Hall. apply Hall.
  by apply list_elem_of_In.
Qed.

Lemma static_types_read (type : AbiType.t) : static_reads type.
Proof.
  induction type as [element maybe_len Helement|components Hcomponents|raw kind]
    using abi_type_induction; intros words value field bytes Hwords Hvalue Hencode Hsmall;
    apply err_if_seq_Ok in Hencode as [_ Hencode].
  - destruct maybe_len as [len|]; [|done]. simpl in Hwords.
    destruct (static_word_size element) as [size|] eqn:Hsize; [|done].
    injection Hwords as <-.
    apply result_bind_Ok in Hencode as (values & [-> Hlen]%array_values_Ok & Hencode).
    apply result_bind_Ok in Hencode as (parts & Hparts%try_imap_Forall2 & [= <-]).
    apply representable_items in Hvalue as [_ Hvalues].
    destruct (many_read element size values parts Helement Hsize Hvalues) as (Hcount & Hreads);
      [|done|].
    { eapply Forall2_impl; [exact Hparts|]. naive_solver. }
    simpl in Hlen. apply N.eqb_eq in Hlen as Hlen'. split.
    { rewrite Hcount, <-Hlen'. unfold small in Hsmall. unfold saturating_mul. lia. }
    simpl. rewrite Hlen. intros rest.
    rewrite <-Hlen'. unfold count. rewrite Nat2N.id, Hreads. by destruct (mapM _ values).
  - apply result_bind_Ok in Hencode as (values & ->%parse_tuple_values_Ok & Hencode).
    apply err_if_seq_Ok in Hencode as [Harity%negb_false_iff%N.eqb_eq Hencode].
    apply Nat2N.inj in Harity. apply representable_items in Hvalue as [_ Hvalues].
    destruct (tuple_words_static 0 components words) as (sizes & Hsizes & ->); [done|exact Hwords|].
    destruct (components_read components sizes values field 0 bytes Hcomponents Hsizes Harity Hvalues
      Hencode Hsmall) as (Hcount & Hreads).
    split; [rewrite Hcount; unfold small in Hsmall; lia|].
    simpl. intros rest. rewrite Hreads. by destruct (components_data _ components values).
  - simpl in Hwords. case_match eqn:Hkind; [done|]. injection Hwords as <-.
    apply orb_false_iff in Hkind as [Hstring Hbytes].
    pose proof (primitive_word_length _ _ _ _ Hencode) as Hlength.
    split; [by unfold count; rewrite Hlength|]. simpl. rewrite Hstring, Hbytes. intros rest.
    rewrite decide_True by (rewrite length_app; lia).
    rewrite take_app_length', drop_app_length' by done.
    destruct (word_type kind) as [type|] eqn:Htype; [|done]. cbn [mbind option_bind].
    rewrite (primitive_word_reads _ _ _ _ _ Hencode Hvalue Htype). by destruct (word_meaning _ _).
Qed.
(** *** Dynamic types *)

Definition abi_row (type : AbiType.t) : part_row := (abi_part type, abi_reader type, data_of type).

Lemma encode_dynamic_array element maybe_len value field :
  encode_abi_dynamic (AbiType.Array element maybe_len) value field =
  (err_if (negb (is_dynamic_type (AbiType.Array element maybe_len)))
     (field +:+ " is static and cannot be encoded as dynamic");;
   values ← array_values value maybe_len (field +:+ " must be an array for ABI array type") field;
   encoded_elements ← encode_abi_parts (replicate (length values) (abi_part element)) values;
   Ok (match maybe_len with
       | None => encode_u256_word (count values) ++ encoded_elements
       | Some _ => encoded_elements
       end)).
Proof. reflexivity. Qed.

Lemma encode_dynamic_tuple components value field :
  encode_abi_dynamic (AbiType.Tuple components) value field =
  (err_if (negb (is_dynamic_type (AbiType.Tuple components)))
     (field +:+ " is static and cannot be encoded as dynamic");;
   values ← parse_tuple_values value field;
   encode_abi_parts (map (fun component => abi_part component.2) components) values).
Proof. reflexivity. Qed.

Lemma read_dynamic_array element maybe_len bytes :
  read_dynamic (AbiType.Array element maybe_len) bytes =
  match maybe_len with
  | Some len =>
      AbiData.Seq <$> read_frame bytes (replicate (N.to_nat len) (abi_reader element)) bytes
  | None =>
      len ← word_at bytes;
      AbiData.Seq <$> read_frame (drop 32 bytes) (replicate (N.to_nat len) (abi_reader element))
                        (drop 32 bytes)
  end.
Proof. by destruct maybe_len. Qed.

Lemma read_dynamic_tuple components bytes :
  read_dynamic (AbiType.Tuple components) bytes =
  AbiData.Seq <$> read_frame bytes (map (fun component => abi_reader component.2) components) bytes.
Proof. reflexivity. Qed.

Lemma meanings_many (meaning : Value.t -> option AbiData.t) (values : list Value.t) :
  meanings (replicate (length values) meaning) values = mapM meaning values.
Proof.
  induction values as [|value values IH]; [done|]. simpl. destruct (meaning value); [|done].
  simpl. rewrite IH. by destruct (mapM meaning values).
Qed.

Lemma meanings_components (components : list (string * AbiType.t)) (values : list Value.t) :
  meanings (data_of ∘ snd <$> components) values = components_data data_of components values.
Proof.
  revert values. induction components as [|[name component] components IH];
    intros [|value values]; try done. cbn [fmap list_fmap meanings components_data compose snd].
  destruct (data_of component value); [|done]. cbn [mbind option_bind]. by rewrite <-IH.
Qed.

(** The decoder and the encoder agree on the types that go behind an offset. *)
Lemma tuple_words_none words components :
  is_some (tuple_words static_word_size words components)
  = negb (existsb (fun component : string * AbiType.t => is_dynamic_type component.2) components).
Proof.
  revert words. induction components as [|[name component] components IH]; intros words; [done|].
  simpl. unfold is_dynamic_type at 1. cbn [snd].
  destruct (static_word_size component) as [size|]; [|done]. apply IH.
Qed.

Lemma is_behind_dynamic type : is_behind type = is_dynamic_type type.
Proof.
  induction type as [element maybe_len Helement|components Hcomponents|raw kind]
    using abi_type_induction.
  - destruct maybe_len as [len|]; [|done]. cbn [is_behind]. rewrite Helement.
    unfold is_dynamic_type. simpl. by destruct (static_word_size element).
  - unfold is_dynamic_type. cbn [is_behind static_word_size]. rewrite tuple_words_none, negb_involutive.
    induction Hcomponents as [|component components Hcomponent _ IH]; [done|]. cbn [existsb].
    by rewrite Hcomponent, IH.
  - unfold is_dynamic_type. simpl.
    destruct (decide (kind = "string")) as [->|Hs]; [done|].
    destruct (decide (kind = "bytes")) as [->|Hb]; [done|].
    rewrite !bool_decide_eq_false_2 by tauto. done.
Qed.

(** A length, the bytes and their padding. *)
Lemma dynamic_bytes_read bytes rest raw kind :
  small (encode_dynamic_bytes bytes) ->
  read_dynamic (AbiType.Plain raw kind) (encode_dynamic_bytes bytes ++ rest)
  = Some (AbiData.Bytes bytes).
Proof.
  intros Hsmall. unfold encode_dynamic_bytes in *. apply small_app in Hsmall as [_ Hsmall].
  apply small_app in Hsmall as [Hsmall _]. simpl. rewrite <-(assoc_L (++)).
  rewrite word_at_word by (by apply small_word). simpl. rewrite drop_word. unfold count.
  rewrite Nat2N.id, <-(assoc_L (++)), decide_True by (rewrite length_app; lia).
  by rewrite take_app_length'.
Qed.

(** What the dynamic encoder writes for a type, the dynamic reader reads back. *)
Definition dynamic_reads (type : AbiType.t) : Prop :=
  forall value field bytes, representable value = true ->
    encode_abi_dynamic type value field = Ok bytes -> small bytes ->
    forall rest, read_dynamic type (bytes ++ rest) = data_of type value.

Lemma abi_row_reads type : dynamic_reads type -> row_reads (abi_row type).
Proof.
  intros Hdynamic value field bytes Hvalue Hencode Hsmall.
  unfold abi_row, abi_part, abi_reader in *. rewrite is_behind_dynamic. unfold is_dynamic_type in *.
  cbn [fst snd Part.words Part.encode] in *.
  destruct (static_word_size type) as [words|] eqn:Hwords; simpl in *.
  - by apply (static_types_read type words value field).
  - by eapply Hdynamic.
Qed.

Lemma dynamic_array_reads element maybe_len :
  dynamic_reads element -> dynamic_reads (AbiType.Array element maybe_len).
Proof.
  intros Helement%abi_row_reads value field bytes Hvalue Hencode Hsmall rest.
  rewrite encode_dynamic_array in Hencode. apply err_if_seq_Ok in Hencode as [_ Hencode].
  apply result_bind_Ok in Hencode as (values & [-> Hlen]%array_values_Ok & Hencode).
  apply result_bind_Ok in Hencode as (encoded & Hparts & [= <-]).
  apply representable_items in Hvalue as [Hcount Hvalues].
  assert (small encoded) as Hencoded.
  { destruct maybe_len; [done|]. by apply small_app in Hsmall as [_ ?]. }
  pose proof (encode_abi_parts_reads (replicate (length values) (abi_row element)) values encoded rest)
    as Hread. rewrite !fmap_replicate in Hread. cbn [fst snd abi_row] in Hread.
  rewrite meanings_many in Hread.
  specialize (Hread ltac:(by apply Forall_replicate) Hvalues Hparts Hencoded).
  rewrite read_dynamic_array. cbn [data_of Value.as_array]. rewrite Some_bind, Hlen.
  destruct maybe_len as [len|].
  - simpl in Hlen. apply N.eqb_eq in Hlen as <-. unfold count. by rewrite Nat2N.id, Hread.
  - rewrite <-(assoc_L (++)), word_at_word by (by apply small_word). rewrite Some_bind, drop_word.
    unfold count. by rewrite Nat2N.id, Hread.
Qed.

Lemma dynamic_tuple_reads components :
  Forall (fun component => dynamic_reads component.2) components ->
  dynamic_reads (AbiType.Tuple components).
Proof.
  intros Hcomponents value field bytes Hvalue Hencode Hsmall rest.
  rewrite encode_dynamic_tuple in Hencode. apply err_if_seq_Ok in Hencode as [_ Hencode].
  apply result_bind_Ok in Hencode as (values & ->%parse_tuple_values_Ok & Hparts).
  apply representable_items in Hvalue as [_ Hvalues].
  pose proof (encode_abi_parts_reads (abi_row ∘ snd <$> components) values bytes rest) as Hread.
  rewrite <-!list_fmap_compose in Hread.
  change ((snd ∘ (abi_row ∘ snd)) <$> components) with (data_of ∘ snd <$> components) in Hread.
  rewrite meanings_components in Hread. rewrite read_dynamic_tuple.
  cbn [data_of Value.as_array]. rewrite Some_bind. rewrite <-Hread; [done| |done..].
  apply Forall_fmap. eapply Forall_impl; [exact Hcomponents|]. intros component.
  apply abi_row_reads.
Qed.

Lemma dynamic_types_read (type : AbiType.t) : dynamic_reads type.
Proof.
  induction type as [element maybe_len Helement|components Hcomponents|raw kind]
    using abi_type_induction;
    [by apply dynamic_array_reads|by apply dynamic_tuple_reads|].
  intros value field bytes Hvalue Hencode Hsmall rest.
  cbn [encode_abi_dynamic] in Hencode. apply err_if_seq_Ok in Hencode as [_ Hencode]. cbn [data_of].
  destruct (bool_decide (kind = "bytes")); [|destruct (bool_decide (kind = "string")); [|done]].
  - apply result_bind_Ok in Hencode as (text & Htext%ok_or_Ok & Hencode).
    apply result_bind_Ok in Hencode as (decoded & Hdecoded%hex_field_bytes & [= <-]).
    destruct value; try done. injection Htext as ->. rewrite Hdecoded.
    by apply dynamic_bytes_read.
  - apply result_bind_Ok in Hencode as (text & Htext%ok_or_Ok & [= <-]). rewrite Htext.
    by apply dynamic_bytes_read.
Qed.

(** C19 - arguments encoded for a contract are read back by an independent
    decoder of the Solidity ABI as exactly what they mean, at every nesting of
    arrays and tuples and whatever bytes follow.  The meaning of an argument is
    given from its JSON text: an address is twenty bytes, a number its numeral,
    bytes their digits, padded on the right in [bytesN].  Heads are as wide as
    the offsets assume, and every offset points at its part's tail.  An argument
    that is not a value of its declared type has no meaning: the encoder does
    not check the width of [uintN] and [intN], and there the decoder rejects
    the word.  The encoding has to fit the 32-bit [usize] that counts it. *)
Theorem encode_abi_params_decodes (types : list AbiType.t) (values : list Value.t)
    (bytes : list byte) :
  encode_abi_params types values = Ok bytes -> Forall (fun v => representable v = true) values ->
  (N.of_nat (length bytes) <= max_uint 32)%N ->
  forall rest, decode_abi_params types (bytes ++ rest) = meanings (data_of <$> types) values.
Proof.
  intros Hencode Hvalues Hsmall rest.
  pose proof (encode_abi_parts_reads (abi_row <$> types) values bytes rest) as Hread.
  rewrite <-!list_fmap_compose in Hread. apply Hread; [|done| |done].
  - apply Forall_fmap, Forall_forall. intros type _. apply abi_row_reads, dynamic_types_read.
  - exact Hencode.
Qed.
End RoundTrip.
