(* ===== verification/StrategyPlan.v ===== *)
(** * StrategyPlan: what a compiled plan is

    [compile_intent] of [strategy/compiler.rs] stated against the book it reads:
    where every call goes, what it carries, which effects are recorded, and
    which of the validator's conditions ([StrategyValidator.plan_accepted]) a
    compiled plan meets already. *)

From S2P Require Import Prelude Text SpawnProtocol Types Externals AgentTypes Evm TopUp AgentStore StrategyTypes StrategyStore StrategyValidator StrategyAbi StrategyCompiler StrategyCodec.
From Stdlib Require Import Ascii Strings.Byte.

(** ** Text of numbers and calldata *)

Lemma parse_digits_all w s acc x : parse_digits w acc s = Some x -> all_digits s = true.
Proof.
  unfold all_digits. revert acc. induction s as [|a s IH]; intros acc; simpl; [done|].
  destruct (digit_value a); [|done]. case_match; [|done]. simpl. apply IH.
Qed.

Lemma digit_plain a : is_some (digit_value a) = true -> is_plain a = true.
Proof. by destruct a as [[] [] [] [] [] [] [] []]. Qed.

Lemma all_digits_plain s : all_digits s = true -> forallb is_plain (str_bytes s) = true.
Proof. unfold all_digits. rewrite !forallb_forall. intros Hs a Ha. by apply digit_plain, Hs. Qed.

Lemma parse_digits_pretty w x : in_uint w x -> parse_digits w 0 (pretty x) = Some x.
Proof.
  intros Hx. apply parse_uint_pretty in Hx. unfold parse_uint in Hx.
  rewrite strip_plus_digit in Hx by (apply pretty_N_digit_head). simpl in Hx. by case_match.
Qed.

Lemma all_digits_pretty (x : N) : all_digits (pretty x) = true.
Proof.
  apply (parse_digits_all x _ 0 x), parse_digits_pretty. unfold in_uint, max_uint.
  pose proof (N.pow_gt_lin_r 2 x ltac:(lia)). lia.
Qed.

Lemma u256_of_pretty `{libs : StrategyLibs} x : in_uint 256 x -> u256_of (pretty x) = Some x.
Proof.
  intros Hx%parse_digits_pretty. pose proof (parse_digits_all _ _ _ _ Hx) as Hdigits.
  unfold u256_of, parse_u256_decimal. rewrite (trim_plain _ (all_digits_plain _ Hdigits)).
  rewrite Hdigits, Hx. destruct (is_empty (pretty x)) eqn:Hempty; [|done].
  destruct (pretty_N_nonempty x). by destruct (pretty x).
Qed.

Lemma parse_hex_digits_in_uint w s acc x :
  in_uint w acc -> parse_hex_digits w acc s = Some x -> in_uint w x.
Proof.
  revert acc. induction s as [|a s IH]; intros acc Hacc; simpl; [by intros [= <-]|].
  destruct (hex_value a); [|done]. case_match eqn:Hle; [|done]. apply IH. by apply N.leb_le.
Qed.

Lemma parse_u256_in_uint `{libs : StrategyLibs} raw field x :
  parse_u256_from_decimal_or_hex raw field = Ok x -> in_uint 256 x.
Proof.
  assert (in_uint 256 0) as Hzero by (by apply N.leb_le).
  unfold parse_u256_from_decimal_or_hex. intros [_ Hrun]%err_if_seq_Ok.
  destruct (match strip_prefix _ "0x" with Some hex => Some hex | None => _ end) as [hex|].
  - destruct (is_empty hex); [by injection Hrun as <-|].
    apply err_if_seq_Ok in Hrun as [_ Hrun%ok_or_Ok]. by eapply parse_hex_digits_in_uint.
  - apply err_if_seq_Ok in Hrun as [_ Hrun%ok_or_Ok]. by eapply parse_digits_in_uint.
Qed.

(** A selector and the arguments behind it are a blob of whole bytes. *)
Lemma selector_blob (selector arguments : list byte) (field : string) :
  let data := "0x" +:+ hex_encode (selector ++ arguments) in
  normalize_hex_blob data field = Ok data
  /\ str_len (trim data) = (2 + 2 * N.of_nat (length (selector ++ arguments)))%N.
Proof.
  intros data.
  pose proof (hex_encode_is_lower_hex (selector ++ arguments)) as Hhex.
  unfold is_lower_hex in Hhex. apply andb_true_iff in Hhex as [Hsize%N.eqb_eq Hdigits].
  destruct (lower_hex_normal _ Hdigits) as (Htrim & Hlower & Hascii).
  unfold normalize_hex_blob, data. rewrite Htrim, Hlower, strip_0x. simpl ok_or.
  split; [|by rewrite str_len_app, Hsize].
  change (Ok ?x ≫= ?f) with (f x). cbv beta. rewrite Hsize, Hascii.
  by rewrite (N.mul_comm 2), N.Div0.mod_mul.
Qed.

Lemma hex_encode_app (l k : list byte) : hex_encode (l ++ k) = hex_encode l +:+ hex_encode k.
Proof.
  induction l as [|b l IH]; [done|]. simpl. rewrite IH. by rewrite string_app_assoc.
Qed.

(** ** Loops over results *)

Lemma try_imap_lookup {A B} (f : nat -> A -> result string B) (l : list A) k :
  try_imap f l = Ok k ->
  length k = length l
  /\ forall i x, l !! i = Some x -> exists y, k !! i = Some y /\ f i x = Ok y.
Proof.
  unfold try_imap. intros Hk%try_map_Ok. split.
  { apply Forall2_length in Hk. by rewrite length_imap in Hk. }
  intros i x Hx. assert (imap pair l !! i = Some (i, x)) as Hpair by (by rewrite list_lookup_imap, Hx).
  destruct (Forall2_lookup_l _ _ _ _ _ Hk Hpair) as (y & Hy & Hf). by exists y.
Qed.

(** ** Compiled calls *)

(** The arguments of a function as the call encodes them. *)
Definition call_specs (function : AbiFunctionSpec.t) : list AbiTypeSpec.t :=
  normalize_named_specs (AbiFunctionSpec.inputs function).

Section Plan.
#[local] Set Default Proof Using "All".
Context `{ext : Externals, ext_ok : !ExternalsOk ext, libs : StrategyLibs}.

(** What [compile_call] yields for the call at an index: the target is bound to
    the function's role in the template, the function is one of the artifact
    of that role, and the calldata is its selector with the encoded arguments. *)
Record call_compiled (key : StrategyTemplateKey.t) (template : StrategyTemplate.t) (s : Book.t) (index : nat)
    (function : AbiFunctionSpec.t) (typed : IntentTypedCall.t) (call : StrategyExecutionCall.t)
    : Prop := {
  compiled_role : StrategyExecutionCall.role call = trim (AbiFunctionSpec.role function)
    /\ StrategyExecutionCall.role call <> "";
  compiled_target : exists binding, binding ∈ StrategyTemplate.contract_roles template
    /\ trim (ContractRoleBinding.role binding) = StrategyExecutionCall.role call
    /\ trim (ContractRoleBinding.source_ref binding) <> ""
    /\ normalize_evm_address (ContractRoleBinding.address binding)
       = Ok (StrategyExecutionCall.to call);
  compiled_data : exists signature artifact candidate values arguments,
    canonical_signature (AbiFunctionSpec.name function) (AbiFunctionSpec.inputs function)
      = Ok signature
    /\ get_abi_artifact
         (AbiArtifactKey.mk (StrategyTemplateKey.protocol key) (StrategyTemplateKey.chain_id key)
           
            (StrategyExecutionCall.role call)) s = Some artifact
    /\ candidate ∈ AbiArtifact.functions artifact
    /\ AbiFunctionSpec.selector_hex candidate = recompute_selector_hex signature
    /\ lower_call_args (IntentTypedCall.args typed) (call_specs function)
         ("calls[" +:+ pretty (N.of_nat index) +:+ "].args") = Ok values
    /\ encode_abi_params (abi_type <$> call_specs function) values = Ok arguments
    /\ StrategyExecutionCall.data call
       = recompute_selector_hex signature +:+ hex_encode arguments;
  compiled_value : exists value,
    parse_u256_from_decimal_or_hex (default "0" (IntentTypedCall.value_wei typed)) "value_wei"
      = Ok value
    /\ StrategyExecutionCall.value_wei call = pretty value;
}.

Lemma role_bindings_elem template bindings role binding :
  role_bindings template = Ok bindings -> bindings !! role = Some binding ->
  binding ∈ StrategyTemplate.contract_roles template
  /\ trim (ContractRoleBinding.role binding) = role.
Proof.
  unfold role_bindings. intros (pairs & Hpairs & [= <-])%result_bind_Ok Hbinding.
  apply elem_of_list_to_map_2 in Hbinding. rewrite elem_of_reverse in Hbinding.
  destruct (try_map_elem _ _ _ _ Hpairs Hbinding) as (found & Hfound & Hrole).
  apply result_bind_Ok in Hrole as (trimmed & Htrimmed & [= <- <-]).
  unfold normalize_non_empty in Htrimmed. by apply err_if_seq_Ok in Htrimmed as [_ [= <-]].
Qed.

Lemma normalize_non_empty_Ok raw field trimmed :
  normalize_non_empty raw field = Ok trimmed <-> trimmed = trim raw /\ trimmed <> "".
Proof.
  unfold normalize_non_empty. rewrite err_if_seq_Ok, is_empty_false. naive_solver.
Qed.

Lemma compile_call_compiled key template bindings action_id typed_calls s index function schema call :
  role_bindings template = Ok bindings -> derive_call_schema function = Ok schema ->
  compile_call key bindings action_id typed_calls s index
    (function, schema) = Ok call ->
  exists typed, typed_calls !! index = Some typed
    /\ call_compiled key template s index function typed call.
Proof.
  intros Hbindings Hschema Hcall.
  apply result_bind_Ok in Hschema as (schema_role & _ & Hschema).
  apply result_bind_Ok in Hschema as (schema_name & _ & Hschema).
  apply result_bind_Ok in Hschema as (signature & Hverify & [= <-]).
  apply result_bind_Ok in Hverify as (declared & Hsignature & Hverify).
  apply result_bind_Ok in Hverify as (normalized & Hnormalized & Hverify).
  apply err_if_seq_Ok in Hverify as [Hselector%bool_decide_eq_false%dec_stable [= ->]].
  unfold compile_call in Hcall. rewrite Hnormalized in Hcall. subst normalized.
  apply result_bind_Ok in Hcall as (? & [= <-] & Hcall).
  apply result_bind_Ok in Hcall as (role & [Hrole Hnamed]%normalize_non_empty_Ok & Hcall).
  apply result_bind_Ok in Hcall as (binding & Hbinding%ok_or_Ok & Hcall).
  apply err_if_seq_Ok in Hcall as [Hsource%is_blank_false Hcall].
  apply result_bind_Ok in Hcall as (to & Hto & Hcall).
  apply result_bind_Ok in Hcall as (artifact & Hartifact%ok_or_Ok & Hcall).
  apply err_if_seq_Ok in Hcall as [_ Hcall].
  apply err_if_seq_Ok in Hcall as [Hmatching%negb_false_iff%existsb_exists Hcall].
  destruct Hmatching as (candidate & Hcandidate%list_elem_of_In & Hsame%bool_decide_eq_true).
  apply result_bind_Ok in Hcall as (typed & Htyped%ok_or_Ok & Hcall).
  apply result_bind_Ok in Hcall as (value & Hvalue & Hcall).
  apply result_bind_Ok in Hcall as (values & Hvalues & Hcall).
  apply result_bind_Ok in Hcall as (arguments & Harguments & [= <-]).
  destruct (role_bindings_elem _ _ _ _ Hbindings Hbinding) as [Helem Hbound].
  exists typed. split; [done|]. split; simpl; [done| | |by exists value].
  - by exists binding.
  - exists signature, artifact, candidate, values, arguments. do 6 (split; [done|]).
    unfold recompute_selector_hex. rewrite string_app_assoc. f_equal.
    change (trim_start_0x ("0x" +:+ ?s)) with (trim_start_0x s).
    pose proof (hex_encode_is_lower_hex (take 4 (keccak256 (as_bytes signature)))) as Hhex.
    unfold is_lower_hex in Hhex. apply andb_true_iff in Hhex as [_ Hdigits].
    by rewrite trim_start_0x_digits by (by apply lower_hex_normal).
Qed.

(** Such a call has the shape and the target the validator asks for. *)
Lemma compiled_call_shaped key template s index function typed call :
  call_compiled key template s index function typed call -> call_shaped call /\ call_targeted call.
Proof.
  intros [[Hrole Hnamed] (binding & _ & _ & _ & Hto) Hdata (value & Hvalue & Hwei)].
  destruct Hdata as (signature & ? & ? & ? & arguments & _ & _ & _ & _ & _ & _ & Hdata).
  unfold recompute_selector_hex in Hdata.
  rewrite string_app_assoc, <-hex_encode_app in Hdata.
  destruct (selector_blob (take 4 (keccak256 (as_bytes signature))) arguments "data") as [Hblob Hlen].
  rewrite <-Hdata in *. split.
  - split; [by rewrite Hrole, trim_idem, <-Hrole|]. split; [|split].
    + rewrite Hwei. exists value. by eapply u256_of_pretty, parse_u256_in_uint.
    + by rewrite Hblob.
    + rewrite Hlen, length_app, length_take, length_keccak256. lia.
  - unfold call_targeted. by rewrite (evm_address_normal _ _ Hto).
Qed.

(** *** Effects *)

Lemma compile_effects_Ok compile action_id effects declarations result :
  compile_effects compile action_id effects declarations = Ok result ->
  exists compiled, result = effects ++ compiled
    /\ Forall2 (fun declaration effect => compile declaration = Ok effect) declarations compiled
    /\ forall i j prior effect, i < j -> length effects <= j -> result !! i = Some prior ->
         result !! j = Some effect -> contradicts prior effect = false.
Proof.
  revert effects. induction declarations as [|declaration declarations IH]; intros effects; simpl.
  { intros [= <-]. exists []. rewrite app_nil_r. split; [done|]. split; [constructor|].
    intros i j prior effect _ Hj _ Hlookup%lookup_lt_Some. lia. }
  intros (effect & Heffect & Hrest)%result_bind_Ok.
  apply err_if_seq_Ok in Hrest as [Hnone Hrest].
  destruct (IH _ Hrest) as (compiled & -> & Hcompiled & Hdistinct).
  exists (effect :: compiled). split; [by rewrite <-(assoc_L (++))|]. split; [by constructor|].
  intros i j prior later Hij Hj Hi Hlater.
  destruct (decide (j = length effects)) as [->|Hnot].
  - rewrite <-(assoc_L (++)) in Hi, Hlater. rewrite lookup_app_l in Hi by done.
    cbn [app] in Hlater. rewrite (list_lookup_middle _ _ _ _ eq_refl) in Hlater.
    injection Hlater as <-.
    apply list_elem_of_lookup_2, list_elem_of_In in Hi.
    destruct (contradicts prior effect) eqn:Hcontra; [|done].
    assert (existsb (fun prior => contradicts prior effect) effects = true); [|congruence].
    apply existsb_exists. by exists prior.
  - apply (Hdistinct i j); [done| |done|done]. rewrite length_app. simpl. lia.
Qed.

(** The effect of an effect-free entry: what a declaration says of an amount. *)
Lemma compile_effect_Ok chain_id bindings action_id value schema declaration effect :
  compile_effect chain_id bindings action_id value schema declaration = Ok effect ->
  StrategyAssetEffect.chain_id effect = chain_id
  /\ StrategyAssetEffect.direction effect = StrategyAssetEffectDeclaration.direction declaration
  /\ StrategyAssetEffect.decimals effect = StrategyAssetEffectDeclaration.decimals declaration
  /\ (StrategyAssetEffect.decimals effect <= 36)%N
  /\ all_digits (StrategyAssetEffect.amount_raw effect) = true
  /\ StrategyAssetEffect.amount_raw effect <> "".
Proof.
  unfold compile_effect. intros [Hdecimals%N.ltb_ge Hrun]%err_if_seq_Ok.
  apply result_bind_Ok in Hrun as (amount & _ & Hrun).
  apply result_bind_Ok in Hrun as (raw & Hraw & Hrun).
  apply result_bind_Ok in Hrun as (address & _ & [= <-]). simpl. do 4 (split; [done|]).
  unfold effect_amount in Hraw. destruct amount as [| |[n| |]|text| |]; try done.
  - injection Hraw as <-. split; [apply all_digits_pretty|apply pretty_N_nonempty].
  - destruct (is_empty text) eqn:Hempty; [done|]. destruct (all_digits text) eqn:Hdigits; [|done].
    injection Hraw as <-. split; [done|]. by apply is_empty_false.
Qed.

(** *** Plans *)

(** The roles of a template as the validator and the compiler both read them. *)
Definition roles_distinct (template : StrategyTemplate.t) : Prop :=
  NoDup (ContractRoleBinding.role <$> StrategyTemplate.contract_roles template)
  /\ Forall (fun binding => trim (ContractRoleBinding.role binding) = ContractRoleBinding.role binding)
       (StrategyTemplate.contract_roles template).

Lemma find_binding_distinct template binding :
  roles_distinct template -> binding ∈ StrategyTemplate.contract_roles template ->
  find_binding (ContractRoleBinding.role binding) (StrategyTemplate.contract_roles template)
  = Some binding.
Proof.
  intros [Hdistinct _] [i Hi]%list_elem_of_lookup_1. unfold find_binding.
  assert (list_find (fun found => ContractRoleBinding.role found = ContractRoleBinding.role binding)
    (StrategyTemplate.contract_roles template) = Some (i, binding)) as ->; [|done].
  apply list_find_Some. do 2 (split; [done|]). intros j found Hj Hij Hrole.
  assert (j = i); [|lia].
  eapply (NoDup_lookup _ _ _ (ContractRoleBinding.role binding) Hdistinct);
    rewrite list_lookup_fmap, ?Hj, ?Hi; simpl; congruence.
Qed.

Lemma compiled_call_bound key template s index function typed call :
  roles_distinct template -> call_compiled key template s index function typed call ->
  call_bound template call.
Proof.
  intros Hroles [[Hrole Hnamed] (binding & Hbinding & Hbound & Hsource & Hto) _ _].
  pose proof (proj1 (Forall_forall _ _) (proj2 Hroles) _ Hbinding) as Hsame. simpl in Hsame.
  exists binding.
  rewrite Hrole, trim_idem, <-Hrole, <-Hbound, Hsame.
  split; [by apply find_binding_distinct|]. split; [done|]. intros expected Hexpected.
  rewrite Hto in Hexpected. injection Hexpected as <-. by eapply evm_address_normal.
Qed.

(** The stages of [compile_intent] behind a plan. *)
Lemma compile_intent_stages intent s plan :
  compile_intent intent s = Ok plan ->
  let key := StrategyExecutionIntent.key intent in
  exists template action schemas typed value bindings declarations declared,
    get_template key s = Some template /\ action ∈ StrategyTemplate.actions template
    /\ ActionSpec.action_id action = trim (StrategyExecutionIntent.action_id intent)
    /\ trim (StrategyExecutionIntent.action_id intent) <> ""
    /\ ActionSpec.call_sequence action <> []
    /\ Forall2 (fun function schema => derive_call_schema function = Ok schema)
         (ActionSpec.call_sequence action) schemas
    /\ typed_params_from_str (StrategyExecutionIntent.typed_params_json intent) = Ok typed
    /\ length (IntentTypedParams.calls typed) = length schemas
    /\ role_bindings template = Ok bindings
    /\ try_imap (compile_call key bindings (trim (StrategyExecutionIntent.action_id intent))
         (IntentTypedParams.calls typed) s) (zip (ActionSpec.call_sequence action) schemas)
       = Ok (ExecutionPlan.calls plan)
    /\ compile_effects (compile_effect (StrategyTemplateKey.chain_id key) bindings
         (trim (StrategyExecutionIntent.action_id intent)) value
         (StrategyActionArgumentSchema.mk (ActionSpec.action_id action) schemas))
         (trim (StrategyExecutionIntent.action_id intent)) [] declarations = Ok declared
    /\ plan = ExecutionPlan.mk key (trim (StrategyExecutionIntent.action_id intent))
         (ExecutionPlan.calls plan) (ActionSpec.preconditions action)
         (ActionSpec.postconditions action)
         (declared ++ omap (value_effect (StrategyTemplateKey.chain_id key))
            (ExecutionPlan.calls plan)) (ActionSpec.risk_checks action)
    /\ (is_enter_or_exit_action (ExecutionPlan.action_id plan) = true ->
        ExecutionPlan.asset_effects plan <> []).
Proof.
  unfold compile_intent.
  intros (action_id & [-> Hnamed]%normalize_non_empty_Ok & Hplan)%result_bind_Ok.
  apply result_bind_Ok in Hplan as (template & Htemplate%ok_or_Ok & Hplan).
  apply result_bind_Ok in Hplan as (action & Haction%ok_or_Ok & Hplan).
  apply fmap_Some in Haction as ([i found] & Hfind & ->). simpl in Hplan.
  apply list_find_Some in Hfind as (Hfound%list_elem_of_lookup_2 & Hfound_id & _).
  apply result_bind_Ok in Hplan as (schema & Hschema & Hplan).
  apply result_bind_Ok in Hschema as (schemas & Hschemas%try_map_Ok & Hschema).
  apply result_bind_Ok in Hschema as (schema_id & [Hid _]%normalize_non_empty_Ok & [= <-]).
  apply err_if_seq_Ok in Hplan as [Hsequence%bool_decide_eq_false Hplan].
  apply result_bind_Ok in Hplan as (typed & Htyped & Hplan).
  apply result_bind_Ok in Hplan as (value & _ & Hplan).
  apply err_if_seq_Ok in Hplan as [Hcount%negb_false_iff%N.eqb_eq%Nat2N.inj Hplan].
  apply result_bind_Ok in Hplan as (bindings & Hbindings & Hplan).
  apply result_bind_Ok in Hplan as (calls & Hcalls & Hplan).
  apply result_bind_Ok in Hplan as (declarations & _ & Hplan).
  apply result_bind_Ok in Hplan as (declared & Hdeclared & Hplan).
  apply err_if_seq_Ok in Hplan as [Hmoving%andb_false_iff Hplan].
  apply result_bind_Ok in Hplan as ([] & _ & [= <-]).
  assert (schema_id = ActionSpec.action_id found) as -> by (by rewrite Hid, Hfound_id, trim_idem).
  exists template, found, schemas, typed, value, bindings, declarations, declared.
  do 3 (split; [done|]). split; [done|]. split; [by destruct (ActionSpec.call_sequence found)|].
  apply map_err_Ok in Htyped. do 7 (split; [done|]). simpl. intros Hmoves.
  destruct Hmoving as [Hnot|Hsome%bool_decide_eq_false]; [congruence|done].
Qed.

(** C17 - A plan that [compile_intent] returns is for the intent's template and
    action, with one call per function of the action's sequence.  Each call
    goes to the address the template binds to the function's role, the
    function is one of the artifact registered for that role, and the calldata
    is the selector recomputed from its signature with the lowered arguments
    encoded behind it; every call that sends value is recorded as a debit, an
    enter or exit has effects, and no two declared effects contradict.  So the
    validator can only object to the plan's calls where the template's roles
    are ambiguous, and never to their shape. *)
Theorem compile_intent_correct (intent : StrategyExecutionIntent.t) (s : Book.t)
    (plan : ExecutionPlan.t) (Hplan : compile_intent intent s = Ok plan) :
  let key := StrategyExecutionIntent.key intent in
  let calls := ExecutionPlan.calls plan in
  ExecutionPlan.key plan = key
  /\ ExecutionPlan.action_id plan = trim (StrategyExecutionIntent.action_id intent)
  /\ ExecutionPlan.action_id plan <> "" /\ calls <> []
  /\ Forall call_shaped calls /\ Forall call_targeted calls
  /\ (exists template action typed,
       get_template key s = Some template
       /\ action ∈ StrategyTemplate.actions template
       /\ ActionSpec.action_id action = ExecutionPlan.action_id plan
       /\ ExecutionPlan.postconditions plan = ActionSpec.postconditions action
       /\ typed_params_from_str (StrategyExecutionIntent.typed_params_json intent) = Ok typed
       /\ length calls = length (ActionSpec.call_sequence action)
       /\ length (IntentTypedParams.calls typed) = length calls
       /\ (forall i function, ActionSpec.call_sequence action !! i = Some function ->
            exists call_params call, IntentTypedParams.calls typed !! i = Some call_params
              /\ calls !! i = Some call /\ call_compiled key template s i function call_params call)
       /\ (roles_distinct template -> Forall (call_bound template) calls))
  /\ (exists declared, ExecutionPlan.asset_effects plan
        = declared ++ omap (value_effect (StrategyTemplateKey.chain_id key)) calls
      /\ forall i j prior effect, i < j -> declared !! i = Some prior -> declared !! j = Some effect ->
           contradicts prior effect = false)
  /\ (is_enter_or_exit_action (ExecutionPlan.action_id plan) = true ->
      ExecutionPlan.asset_effects plan <> []).
Proof.
  intros key calls.
  destruct (compile_intent_stages _ _ _ Hplan) as (template & action & schemas & typed & value &
    bindings & declarations & declared & Htemplate & Haction & Hid & Hnamed & Hsequence & Hschemas &
    Htyped & Hcount & Hbindings & Hcalls & Hdeclared & Hfields & Hmoves).
  apply try_imap_lookup in Hcalls as [Hlength Hcalls].
  pose proof (Forall2_length _ _ _ Hschemas) as Hschemas_length.
  rewrite length_zip, Hschemas_length, Nat.min_id in Hlength. fold calls in Hlength.
  assert (forall i function, ActionSpec.call_sequence action !! i = Some function ->
    exists call_params call, IntentTypedParams.calls typed !! i = Some call_params
      /\ calls !! i = Some call /\ call_compiled key template s i function call_params call)
    as Hcompiled.
  { intros i function Hfunction.
    destruct (Forall2_lookup_l _ _ _ _ _ Hschemas Hfunction) as (schema & Hschema & Hderive).
    destruct (Hcalls i (function, schema)) as (call & Hcall & Hcompile).
    { apply lookup_zip_Some. done. }
    destruct (compile_call_compiled _ _ _ _ _ _ _ _ _ _ Hbindings Hderive Hcompile)
      as (call_params & Hparams & Hcompiled).
    by exists call_params, call. }
  assert (forall call, call ∈ calls -> exists i function call_params,
    call_compiled key template s i function call_params call) as Hall.
  { intros call [i Hi]%list_elem_of_lookup_1.
    destruct (lookup_lt_is_Some_2 (ActionSpec.call_sequence action) i) as [function Hfunction].
    { apply lookup_lt_Some in Hi. lia. }
    destruct (Hcompiled _ _ Hfunction) as (call_params & found & _ & Hfound & Hcall).
    exists i, function, call_params. congruence. }
  apply compile_effects_Ok in Hdeclared as (compiled & Heffects & _ & Hdistinct).
  assert (ExecutionPlan.action_id plan = trim (StrategyExecutionIntent.action_id intent)) as Hplan_id
    by (by rewrite Hfields).
  split; [by rewrite Hfields|]. split; [done|]. split; [by rewrite Hplan_id|].
  split.
  { intros Hempty. apply Hsequence, nil_length_inv. by rewrite Hschemas_length, <-Hlength, Hempty. }
  split; [|split; [|split; [|split; [|exact Hmoves]]]].
  - apply Forall_forall. intros call (i & function & params & Hcall)%Hall.
    by apply compiled_call_shaped in Hcall as [? _].
  - apply Forall_forall. intros call (i & function & params & Hcall)%Hall.
    by apply compiled_call_shaped in Hcall as [_ ?].
  - exists template, action, typed. do 2 (split; [done|]). split; [by rewrite Hplan_id|].
    split; [by rewrite Hfields|]. split; [done|]. do 2 (split; [lia|]).
    split; [exact Hcompiled|]. intros Hroles. apply Forall_forall.
    intros call (i & function & params & Hcall)%Hall. by eapply compiled_call_bound.
  - exists declared. split; [by rewrite Hfields|]. intros i j prior effect Hij.
    apply Hdistinct; [done|simpl; lia].
Qed.
End Plan.
