(* ===== verification/StrategyPolicy.v ===== *)
(** * StrategyPolicy: the autonomy policy at execution

    Models the gates [tools.rs] puts before a strategy is executed: the static
    risk checks of a simulation, the digests that tie an execution to its
    simulation, quarantines, and [enforce_strategy_execution_policy] with its
    value limit, reserve floors, per-asset limits and concentration gate.  The
    cycle telemetry is an argument: [stable::cycle_telemetry] reads the host. *)

From S2P Require Import Prelude Text SpawnProtocol Types Externals AgentTypes Evm TopUp AgentStore StrategyTypes StrategyStore StrategyValidator StrategyAbi StrategyCompiler StrategyCodec StrategyPlan.
From Stdlib Require Import Ascii.

(** ** Ordered keys *)

(** [#[derive(Ord)]]: field by field, and [None] before [Some]. *)
#[export] Instance prod_key_order {A B} `{KeyOrder A, KeyOrder B} : KeyOrder (A * B) :=
  fun x y => (key_le x.1 y.1 /\ x.1 <> y.1) \/ (x.1 = y.1 /\ key_le x.2 y.2).
#[export] Instance option_key_order {A} `{KeyOrder A} : KeyOrder (option A) := fun x y =>
  match x, y with
  | None, _ => True
  | Some _, None => False
  | Some a, Some b => key_le a b
  end.

#[export] Instance prod_key_order_ok {A B} `{KeyOrderOk A, EqDecision A, KeyOrderOk B} :
  KeyOrderOk (A * B).
Proof.
  split.
  - intros x y. unfold key_le, prod_key_order. apply _.
  - split; [split|].
    + intros [a b]. by right.
    + intros [a b] [c d] [e f] [[Hac Hne]|[Hac Hbd]] [[Hce Hne']|[Hce Hdf]]; simpl in *; subst.
      * left. simpl. split; [by etrans|]. intros ->. by apply Hne, (anti_symm key_le).
      * by left.
      * by left.
      * right. simpl. split; [done|]. by etrans.
    + intros [a b] [c d] [[Hac Hne]|[Hac Hbd]] [[Hca Hne']|[Hca Hdb]]; simpl in *; subst; try done.
      * by destruct Hne; apply (anti_symm key_le).
      * f_equal. by apply (anti_symm key_le).
  - intros [a b] [c d]. unfold key_le, prod_key_order. simpl.
    destruct (decide (a = c)) as [->|Hne].
    + destruct (key_le_total b d); [left|right]; by right.
    + destruct (key_le_total a c); [left|right]; left; naive_solver.
Defined.

#[export] Instance option_key_order_ok {A} `{KeyOrderOk A} : KeyOrderOk (option A).
Proof.
  split.
  - intros [a|] [b|]; unfold key_le, option_key_order; apply _.
  - split; [split|].
    + intros [a|]; [|done]. change (key_le a a). done.
    + intros [a|] [b|] [c|]; try done. change (key_le a b -> key_le b c -> key_le a c).
      by intros; etrans.
    + intros [a|] [b|]; try done. change (key_le a b -> key_le b a -> Some a = Some b).
      intros. f_equal. by apply (anti_symm key_le).
  - intros [a|] [b|]; unfold key_le, option_key_order; [apply key_le_total|by right|by left|by left].
Defined.

(** ** Numbers *)

(** [U256::from_str] and [from_str_radix(_, 16)] of [alloy_primitives]. *)
Class U256Text := {
  u256_from_str : string -> result string N;
  u256_from_hex : string -> option N;
}.
Class U256TextOk (texts : U256Text) : Prop := {
  u256_from_str_decimal : forall text value, text <> "" -> all_digits text = true ->
    u256_from_str text = Ok value <-> parse_digits 256 0 text = Some value;
}.

Definition checked_sub (a b : N) : option N := if (b <=? a)%N then Some (a - b)%N else None.

Section Numbers.
Context `{libs : StrategyLibs}.

Definition parse_u256_decimal (raw : string) : result string N :=
  let trimmed := trim raw in
  err_if (is_empty trimmed) "value cannot be empty";;
  err_if (negb (all_digits trimmed)) "value must be a decimal string";;
  ok_or (parse_digits 256 0 trimmed) ("failed to parse decimal quantity: " +:+ u256_overflow).
End Numbers.

Definition parse_optional_hex_u128 (raw : option string) : option N :=
  raw ← raw;
  let raw := trim raw in
  if is_empty raw then None
  else match strip_prefix raw "0x" with
       | Some hex => parse_hex_uint 128 hex
       | None => parse_uint 128 raw
       end.

(** Basis points of the deployable balance, as far as [u128] holds them. *)
Definition exposure_bps (exposure deployable : N) : N :=
  if (deployable =? 0)%N then max_uint 128
  else N.min (saturating_mul 256 exposure 10000 `div` deployable) (max_uint 128).

(** ** Assets of a plan *)

Module AssetGroupKey.
Record t := mk {
  chain_id : N;
  asset_address : option string;
  decimals : N;
}.
#[global] Instance eq_dec : EqDecision t.
Proof. solve_decision. Defined.
Definition fields (self : t) : N * (option string * N) :=
  (chain_id self, (asset_address self, decimals self)).
Definition of_fields (fields : N * (option string * N)) : t :=
  mk fields.1 fields.2.1 fields.2.2.
Lemma of_fields_fields self : of_fields (fields self) = self.
Proof. by destruct self. Qed.
#[global] Instance countable_t : Countable t := inj_countable' fields of_fields of_fields_fields.
#[global] Instance order_t : KeyOrder t := fun x y => key_le (fields x) (fields y).
#[global] Instance order_t_ok : KeyOrderOk t.
Proof.
  split.
  - intros x y. unfold key_le, order_t. apply _.
  - split; [split|].
    + intros x. unfold key_le, order_t. done.
    + intros x y z. unfold key_le, order_t. intros. by etrans.
    + intros x y Hxy Hyx. rewrite <-(of_fields_fields x), <-(of_fields_fields y). f_equal.
      by apply (anti_symm key_le).
  - intros x y. apply (key_le_total (fields x) (fields y)).
Defined.
End AssetGroupKey.

Definition asset_group_key (effect : StrategyAssetEffect.t) : AssetGroupKey.t :=
  AssetGroupKey.mk (StrategyAssetEffect.chain_id effect)
    (to_ascii_lowercase <$> StrategyAssetEffect.asset_address effect)
    (StrategyAssetEffect.decimals effect).

(** What an effect adds to the debits and credits of its group. *)
Definition add_effect (direction : StrategyAssetDirection.t) (amount : N) (entry : N * N)
    : result string (N * N) :=
  match direction with
  | StrategyAssetDirection.Debit =>
      debit ← ok_or (checked_add 256 entry.1 amount) "asset debit aggregate overflow";
      Ok (debit, entry.2)
  | StrategyAssetDirection.Credit =>
      credit ← ok_or (checked_add 256 entry.2 amount) "asset credit aggregate overflow";
      Ok (entry.1, credit)
  end.

Section Assets.
Context `{libs : StrategyLibs}.

Fixpoint group_effects (effects : list StrategyAssetEffect.t)
    (grouped : gmap AssetGroupKey.t (N * N)) : result string (gmap AssetGroupKey.t (N * N)) :=
  match effects with
  | [] => Ok grouped
  | effect :: effects =>
      amount ← parse_u256_decimal (StrategyAssetEffect.amount_raw effect);
      let key := asset_group_key effect in
      entry ← add_effect (StrategyAssetEffect.direction effect) amount
                (default (0, 0)%N (grouped !! key));
      group_effects effects (<[key := entry]> grouped)
  end.

Definition grouped_asset_effects (plan : ExecutionPlan.t)
    : result string (gmap AssetGroupKey.t (N * N)) :=
  group_effects (ExecutionPlan.asset_effects plan) ∅.

Definition effect_for_key (plan : ExecutionPlan.t) (key : AssetGroupKey.t)
    : option StrategyAssetEffect.t :=
  snd <$> list_find (fun effect => asset_group_key effect = key) (ExecutionPlan.asset_effects plan).

Fixpoint total_value_wei (acc : N) (calls : list StrategyExecutionCall.t) : result string N :=
  match calls with
  | [] => Ok acc
  | call :: calls =>
      value ← map_err (fun error => "invalid plan value_wei: " +:+ error)
        (parse_u256_decimal (StrategyExecutionCall.value_wei call));
      total_value_wei (saturating_add 256 acc value) calls
  end.

Definition plan_total_value_wei (plan : ExecutionPlan.t) : result string N :=
  total_value_wei 0 (ExecutionPlan.calls plan).
End Assets.

(** ** Static risk checks *)

Section Checks.
Context `{libs : StrategyLibs, u256 : U256Text}.

Definition calldata_u256_word (call : StrategyExecutionCall.t) (index : N) : option N :=
  word ← calldata_word call index; u256_from_hex word.

Definition role_address (plan : ExecutionPlan.t) (s : Book.t) (role : string) : option string :=
  template ← get_template (ExecutionPlan.key plan) s;
  binding ← find_binding role (StrategyTemplate.contract_roles template);
  Some (to_ascii_lowercase (ContractRoleBinding.address binding)).

Definition first_address_word (plan : ExecutionPlan.t) (index : N) : option string :=
  call ← head (ExecutionPlan.calls plan); calldata_address_word call index.
Definition first_u256_word (plan : ExecutionPlan.t) (index : N) : option N :=
  call ← head (ExecutionPlan.calls plan); calldata_u256_word call index.

Definition touches_usdc (plan : ExecutionPlan.t) (snapshot : WalletBalanceSnapshot.t) : bool :=
  match WalletBalanceSnapshot.usdc_contract_address snapshot with
  | None => false
  | Some configured =>
      existsb (fun call => bool_decide (StrategyExecutionCall.role call = "usdc")
        && eq_ignore_ascii_case (StrategyExecutionCall.to call) configured)
        (ExecutionPlan.calls plan)
      || existsb (fun effect =>
           (StrategyAssetEffect.decimals effect =? WalletBalanceSnapshot.usdc_decimals snapshot)%N
           && is_some_and (fun address => eq_ignore_ascii_case address configured)
                (StrategyAssetEffect.asset_address effect))
           (ExecutionPlan.asset_effects plan)
  end.

Definition wallet_balance_snapshot (s : Book.t) : WalletBalanceSnapshot.t :=
  RuntimeSnapshot.wallet_balance (book_snapshot s).

(** Both sides of the comparisons are [Option]s: a word the calldata does not
    have equals an address that is not known. *)
Definition risk_check_evaluated (plan : ExecutionPlan.t) (s : Book.t) (check : string) : bool :=
  let automaton := to_ascii_lowercase <$> RuntimeSnapshot.evm_address (book_snapshot s) in
  let named name := bool_decide (check = name) in
  if named "asset_equals_base_usdc" then touches_usdc plan (wallet_balance_snapshot s)
  else if named "spender_equals_aave_pool" then
    bool_decide (first_address_word plan 0 = role_address plan s "aave_pool")
  else if named "spender_equals_moonwell_usdc_market" then
    bool_decide (first_address_word plan 0 = role_address plan s "m_usdc")
  else if named "on_behalf_of_equals_automaton_wallet" then
    bool_decide (first_address_word plan 2 = automaton)
  else if named "referral_code_zero" then
    is_some_and (fun value => value =? 0)%N (first_u256_word plan 3)
  else if named "withdraw_receiver_equals_automaton_wallet" then
    bool_decide (first_address_word plan 2 = automaton)
  else if named "market_equals_moonwell_usdc" then
    is_some_and (fun call => bool_decide (StrategyExecutionCall.role call = "m_usdc"))
      (head (ExecutionPlan.calls plan))
  else if named "lltv_equals_0.86e18" then
    is_some_and (fun value => value =? 860000000000000000)%N (first_u256_word plan 4)
  else if named "oracle_address_matches_template" then
    bool_decide (first_address_word plan 2 = role_address plan s "oracle")
  else false.

(** Those that hold and the others, in order. *)
Definition evaluate_static_risk_checks (plan : ExecutionPlan.t) (s : Book.t)
    : list string * list string :=
  let checks := ExecutionPlan.risk_checks plan in
  (filter (fun check => risk_check_evaluated plan s check = true) checks,
   filter (fun check => risk_check_evaluated plan s check = false) checks).
End Checks.

(** ** Intents and simulations *)

Section Simulation.
Context `{ext : Externals, libs : StrategyLibs, u256 : U256Text}.

Definition parse_strategy_intent_args (args_json : string)
    : result string StrategyExecutionIntent.t :=
  args ← map_err (fun error => "invalid strategy action args json: " +:+ error)
    (intent_args_from_str args_json);
  typed_params_json ←
    match StrategyIntentArgs.typed_params_json args, StrategyIntentArgs.typed_params args with
    | Some json, _ => Ok json
    | None, Some value => Ok (value_text value)
    | None, None => Err "missing required field: typed_params or typed_params_json"
    end;
  Ok (StrategyExecutionIntent.mk (StrategyIntentArgs.key args) (StrategyIntentArgs.action_id args)
        typed_params_json).

(** [simulate_strategy_action_tool] up to its RPC call: what it reports besides
    the results of the call. *)
Definition simulate_strategy_action (args_json : string) (s : Book.t)
    : result string (ExecutionPlan.t * ValidationReport.t * list string) :=
  intent ← parse_strategy_intent_args args_json;
  plan ← compile_intent intent s;
  let validation := validate_execution_plan plan s in
  let '(evaluated_checks, unevaluated_checks) := evaluate_static_risk_checks plan s in
  err_if (negb (bool_decide (unevaluated_checks = [])))
    ("strategy simulation blocked: unevaluated_risk_checks:" +:+ join "," unevaluated_checks);;
  Ok (plan, validation, evaluated_checks).

(** An object's members are written by key, everything else as [serde_json]
    writes it. *)
Fixpoint canonical_json_string (value : Value.t) : string :=
  match value with
  | Value.Array items => "[" +:+ join "," (map canonical_json_string items) +:+ "]"
  | Value.Object object =>
      "{" +:+ join "," ((fun '(key, text) => value_text (Value.String key) +:+ ":" +:+ text)
                          <$> btree_iter (canonical_json_string <$> object)) +:+ "}"
  | _ => value_text value
  end.

Definition canonical_json_digest (value : Value.t) : string :=
  hex_encode (sha256 (as_bytes (canonical_json_string value))).

Definition canonical_typed_params_digest (typed_params_json : string) : result string string :=
  value ← map_err (fun error => "invalid typed_params_json for digest: " +:+ error)
    (value_from_str typed_params_json);
  Ok (canonical_json_digest value).

Definition execution_plan_digest (plan : ExecutionPlan.t) : result string string :=
  value ← map_err (fun error => "failed to serialize execution plan for digest: " +:+ error)
    (plan_to_value plan);
  Ok (canonical_json_digest value).

Definition simulated_execution_plan_digest_from_output (output : string) : result string string :=
  value ← map_err (fun error => "invalid simulation output json: " +:+ error)
    (value_from_str output);
  plan ← ok_or (Value.get "plan" value) "simulation output missing plan";
  Ok (canonical_json_digest plan).

(** [a.zip(b).is_some_and(|(a, b)| a == b)] of two [.ok()]s. *)
Definition same_digest (a b : result string string) : bool :=
  match a, b with Ok a, Ok b => bool_decide (a = b) | _, _ => false end.

Definition simulates (intent : StrategyExecutionIntent.t) (plan : ExecutionPlan.t)
    (record : ToolCallRecord.t) : bool :=
  if negb (ToolCallRecord.success record)
     || bool_decide (ToolCallRecord.tool record <> "simulate_strategy_action")
  then false
  else
    match parse_strategy_intent_args (ToolCallRecord.args_json record) with
    | Err _ => false
    | Ok simulated =>
        if bool_decide (StrategyExecutionIntent.key simulated <> ExecutionPlan.key plan)
           || bool_decide (trim (StrategyExecutionIntent.action_id simulated)
                           <> ExecutionPlan.action_id plan)
        then false
        else
          same_digest
            (canonical_typed_params_digest (StrategyExecutionIntent.typed_params_json intent))
            (canonical_typed_params_digest (StrategyExecutionIntent.typed_params_json simulated))
          && same_digest (execution_plan_digest plan)
               (simulated_execution_plan_digest_from_output (ToolCallRecord.output record))
    end.

Definition strategy_simulation_succeeded
    (prior_same_turn_history current_batch_history : list ToolCallRecord.t)
    (intent : StrategyExecutionIntent.t) (plan : ExecutionPlan.t) : bool :=
  existsb (simulates intent plan) (prior_same_turn_history ++ current_batch_history).
End Simulation.

(** ** Strategies and quarantines *)

Definition strategy_id_from_key (key : StrategyTemplateKey.t) : string :=
  StrategyTemplateKey.protocol key +:+ ":" +:+ StrategyTemplateKey.primitive key +:+ ":"
  +:+ pretty (StrategyTemplateKey.chain_id key) +:+ ":" +:+ StrategyTemplateKey.template_id key.

Definition current_autonomy_policy (now_ns : N) (s : Book.t) : AutonomyPolicy.t :=
  default (AutonomyPolicy.conservative_default now_ns) (Book.autonomy_policy s).

Definition failure_quarantine_threshold (now_ns : N) (s : Book.t) : N :=
  EscalationRules.failure_quarantine_threshold
    (AutonomyPolicy.escalation_rules (current_autonomy_policy now_ns s)).

Definition active_strategy_quarantine (strategy_id : string) (now_ns : N) (s : Book.t)
    : option StrategyQuarantine.t :=
  quarantine ← strategy_quarantine strategy_id s;
  if (StrategyQuarantine.failure_count quarantine <? failure_quarantine_threshold now_ns s)%N
     && is_none_or (fun release_after_ns => release_after_ns <=? now_ns)%N
          (StrategyQuarantine.release_after_ns quarantine)
  then None
  else Some quarantine.

Definition failure_cooldown_secs (s : Book.t) : N :=
  AutonomySuppressionConfig.failure_cooldown_secs
    (RuntimeSnapshot.autonomy_suppression (book_snapshot s)).

(** One more failure; at the threshold the cooldown starts. *)
Definition count_failure (strategy_id reason : string) (now_ns : N) (s : Book.t)
    : StrategyQuarantine.t :=
  let quarantine :=
    default (StrategyQuarantine.mk strategy_id reason 0 now_ns None)
      (strategy_quarantine strategy_id s) in
  let quarantine := quarantine
    <| StrategyQuarantine.failure_count ::= fun n => saturating_add 32 n 1 |>
    <| StrategyQuarantine.reason := reason |> in
  if (failure_quarantine_threshold now_ns s <=? StrategyQuarantine.failure_count quarantine)%N
  then quarantine <| StrategyQuarantine.release_after_ns :=
         Some (saturating_add 64 now_ns
                 (saturating_mul 64 (failure_cooldown_secs s) 1000000000)) |>
  else quarantine.

Definition record_strategy_failure (plan : ExecutionPlan.t) (reason : string) (now_ns : N)
    : B unit :=
  let strategy_id := strategy_id_from_key (ExecutionPlan.key plan) in
  quarantine ← gets (count_failure strategy_id reason now_ns);
  let quarantine :=
    if (StrategyQuarantine.quarantined_at_ns quarantine =? 0)%N
    then quarantine <| StrategyQuarantine.quarantined_at_ns := now_ns |> else quarantine in
  catch (E := string) (E' := string) (set_strategy_quarantine quarantine);;
  mret tt.

(** ** Limits *)

Definition refused (reason : string) : string := "execute_strategy_action blocked: " +:+ reason.

Definition format_cycles_runway_below_floor (cycles : CycleTelemetry.t)
    (min_cycles_runway_secs estimated_seconds : N) : string :=
  refused ("reserve_cycles_runway_below_floor:min_required_seconds="
    +:+ pretty min_cycles_runway_secs
    +:+ ",estimated_seconds=" +:+ pretty estimated_seconds
    +:+ ",liquid_cycles=" +:+ pretty (CycleTelemetry.liquid_cycles cycles)
    +:+ ",burn_rate_cycles_per_hour="
    +:+ pretty (default 0%N (CycleTelemetry.burn_rate_cycles_per_hour cycles))
    +:+ ",window_duration_seconds=" +:+ pretty (CycleTelemetry.window_duration_seconds cycles)
    +:+ ",window_sample_count=" +:+ pretty (CycleTelemetry.window_sample_count cycles)
    +:+ ",moving_window_seconds=" +:+ pretty (CycleTelemetry.moving_window_seconds cycles)).

(** The runway the telemetry estimates, or the one its burn rate implies. *)
Definition runway_secs (cycles : CycleTelemetry.t) : option N :=
  if (CycleTelemetry.total_cycles cycles =? 0)%N || (CycleTelemetry.liquid_cycles cycles =? 0)%N
  then None
  else
    match CycleTelemetry.estimated_seconds_until_freezing_threshold cycles,
          CycleTelemetry.burn_rate_cycles_per_hour cycles with
    | Some estimated_seconds, _ => Some estimated_seconds
    | None, Some burn_rate =>
        if (burn_rate =? 0)%N then None
        else Some (saturating_mul 128 (CycleTelemetry.liquid_cycles cycles) 3600 `div` burn_rate)%N
    | None, None => None
    end.

Definition enforce_reserve_floors (policy : AutonomyPolicy.t) (cycles : CycleTelemetry.t)
    (s : Book.t) : result string unit :=
  let reserve := AutonomyPolicy.reserve_policy policy in
  let min_cycles_runway_secs :=
    saturating_mul 128 (ReservePolicy.min_cycles_runway_hours reserve) 3600 in
  match runway_secs cycles with
  | Some estimated_seconds =>
      err_if (estimated_seconds <? min_cycles_runway_secs)%N
        (format_cycles_runway_below_floor cycles min_cycles_runway_secs estimated_seconds)
  | None => Ok tt
  end;;
  let snapshot := wallet_balance_snapshot s in
  match ReservePolicy.min_gas_wei reserve,
        parse_optional_hex_u128 (WalletBalanceSnapshot.eth_balance_wei_hex snapshot) with
  | Some min_gas_wei, Some eth_balance_wei =>
      err_if (eth_balance_wei <? min_gas_wei)%N
        (refused ("reserve_gas_floor_below_min:" +:+ pretty min_gas_wei))
  | _, _ => Ok tt
  end;;
  match ReservePolicy.min_inference_usdc_6dp reserve,
        parse_optional_hex_u128 (WalletBalanceSnapshot.usdc_balance_raw_hex snapshot) with
  | Some min_inference_usdc_6dp, Some usdc_balance_raw =>
      err_if (usdc_balance_raw <? min_inference_usdc_6dp)%N
        (refused ("reserve_usdc_floor_below_min:" +:+ pretty min_inference_usdc_6dp))
  | _, _ => Ok tt
  end.

Definition is_configured_usdc (snapshot : WalletBalanceSnapshot.t) (address : option string)
    : bool :=
  match address, WalletBalanceSnapshot.usdc_contract_address snapshot with
  | Some address, Some configured => eq_ignore_ascii_case configured address
  | _, _ => false
  end.

Definition known_asset_balance (effect : StrategyAssetEffect.t) (s : Book.t) : result string N :=
  let snapshot := wallet_balance_snapshot s in
  match StrategyAssetEffect.asset_address effect with
  | None =>
      if (StrategyAssetEffect.decimals effect =? 18)%N then
        ok_or (parse_optional_hex_u128 (WalletBalanceSnapshot.eth_balance_wei_hex snapshot))
          (refused "missing_native_balance_source")
      else Err (refused "unsupported_native_asset_decimals")
  | Some _ =>
      if (StrategyAssetEffect.decimals effect =? WalletBalanceSnapshot.usdc_decimals snapshot)%N
         && is_configured_usdc snapshot (StrategyAssetEffect.asset_address effect)
      then ok_or (parse_optional_hex_u128 (WalletBalanceSnapshot.usdc_balance_raw_hex snapshot))
             (refused "missing_usdc_balance_source")
      else Err (refused "unsupported_asset_balance_source")
  end.

Definition asset_reserve (policy : AutonomyPolicy.t) (effect : StrategyAssetEffect.t) : N :=
  let reserve := AutonomyPolicy.reserve_policy policy in
  match StrategyAssetEffect.asset_address effect with
  | None => default 0%N (ReservePolicy.min_gas_wei reserve)
  | Some _ => default 0%N (ReservePolicy.min_inference_usdc_6dp reserve)
  end.

(** The balance of the effect's asset above its reserve. *)
Definition deployable_balance (policy : AutonomyPolicy.t) (effect : StrategyAssetEffect.t)
    (s : Book.t) : result string N :=
  balance ← known_asset_balance effect s;
  ok_or (checked_sub balance (asset_reserve policy effect)) (refused "asset_balance_below_reserve").

Section Limits.
Context `{libs : StrategyLibs}.

(** The debits and credits of the plan in the configured USDC, from the groups
    in their order. *)
Fixpoint usdc_flows (plan : ExecutionPlan.t) (snapshot : WalletBalanceSnapshot.t)
    (flows : N * N) (groups : list (AssetGroupKey.t * (N * N))) : result string (N * N) :=
  match groups with
  | [] => Ok flows
  | (key, amounts) :: groups =>
      if negb (is_configured_usdc snapshot (AssetGroupKey.asset_address key))
      then usdc_flows plan snapshot flows groups
      else
        let chain_id := StrategyTemplateKey.chain_id (ExecutionPlan.key plan) in
        err_if (negb (chain_id =? 8453)%N
                || negb (AssetGroupKey.chain_id key =? chain_id)%N
                || negb (AssetGroupKey.decimals key
                         =? WalletBalanceSnapshot.usdc_decimals snapshot)%N)
          (refused "invalid_base_usdc_asset_identity");;
        debits ← ok_or (checked_add 256 flows.1 amounts.1) "asset debit aggregate overflow";
        credits ← ok_or (checked_add 256 flows.2 amounts.2) "asset credit aggregate overflow";
        usdc_flows plan snapshot (debits, credits) groups
  end.

Definition projected_usdc_balance (plan : ExecutionPlan.t) (current : N) (s : Book.t)
    : result string N :=
  let snapshot := wallet_balance_snapshot s in
  ok_or (WalletBalanceSnapshot.usdc_contract_address snapshot)
    (refused "missing_usdc_balance_source");;
  groups ← grouped_asset_effects plan;
  '(debits, credits) ← usdc_flows plan snapshot (0, 0)%N (btree_iter groups);
  rest ← ok_or (checked_sub current debits) (refused "asset_debit_exceeds_balance");
  ok_or (checked_add 256 rest credits) (refused "asset_balance_overflow").

Definition enforce_projected_usdc_floor (policy : AutonomyPolicy.t) (plan : ExecutionPlan.t)
    (s : Book.t) : result string unit :=
  match ReservePolicy.min_inference_usdc_6dp (AutonomyPolicy.reserve_policy policy) with
  | None => Ok tt
  | Some floor =>
      let snapshot := wallet_balance_snapshot s in
      if negb (existsb (fun effect =>
           is_configured_usdc snapshot (StrategyAssetEffect.asset_address effect))
           (ExecutionPlan.asset_effects plan))
      then Ok tt
      else
        current ← ok_or (parse_optional_hex_u128 (WalletBalanceSnapshot.usdc_balance_raw_hex snapshot))
          (refused "missing_usdc_balance_source");
        projected ← projected_usdc_balance plan current s;
        err_if (projected <? floor)%N
          (refused ("reserve_usdc_floor_below_min:" +:+ pretty floor))
  end.

Definition enforce_group_effect (policy : AutonomyPolicy.t) (plan : ExecutionPlan.t) (s : Book.t)
    (group : AssetGroupKey.t * (N * N)) : result string unit :=
  let '(key, (amount, _)) := group in
  if (amount =? 0)%N then Ok tt
  else
    effect ← ok_or (effect_for_key plan key) "missing grouped effect";
    deployable ← deployable_balance policy effect s;
    err_if (deployable <? amount)%N (refused "asset_debit_exceeds_deployable_balance");;
    err_if (RiskLimits.max_single_action_bps (AutonomyPolicy.risk_limits policy)
            <? exposure_bps amount deployable)%N
      (refused "max_single_action_bps_exceeded").

Definition enforce_asset_effect_policy (policy : AutonomyPolicy.t) (plan : ExecutionPlan.t)
    (s : Book.t) : result string unit :=
  groups ← grouped_asset_effects plan;
  try_each (btree_iter groups) (enforce_group_effect policy plan s).

(** ** Concentration *)

Definition same_asset (exposure : ActiveExposure.t) (key : AssetGroupKey.t) (decimals : N) : bool :=
  (ActiveExposure.chain_id exposure =? AssetGroupKey.chain_id key)%N
  && bool_decide (to_ascii_lowercase <$> ActiveExposure.asset_address exposure
                  = AssetGroupKey.asset_address key)
  && (decimals =? AssetGroupKey.decimals key)%N.

(** The exposures in the asset, all of them and those of the protocol. *)
Fixpoint sum_exposures (key : AssetGroupKey.t) (protocol : string) (totals : N * N)
    (exposures : list ActiveExposure.t) : result string (N * N) :=
  match exposures with
  | [] => Ok totals
  | exposure :: exposures =>
      match ActiveExposure.decimals exposure, ActiveExposure.amount_raw exposure with
      | Some decimals, Some amount =>
          if negb (same_asset exposure key decimals) then sum_exposures key protocol totals exposures
          else
            exposure_value ← parse_u256_decimal amount;
            total ← ok_or (checked_add 256 totals.1 exposure_value) "exposure arithmetic overflow";
            of_protocol ←
              if bool_decide (ActiveExposure.protocol exposure = protocol)
              then ok_or (checked_add 256 totals.2 exposure_value) "exposure arithmetic overflow"
              else Ok totals.2;
            sum_exposures key protocol (total, of_protocol) exposures
      | _, _ => Err (refused "legacy_exposure_asset_ambiguous")
      end
  end.

(** [groups.iter().filter(|(_, amounts)| amounts.0 > U256::ZERO)]. *)
Definition debit_groups (groups : gmap AssetGroupKey.t (N * N)) : list (AssetGroupKey.t * (N * N)) :=
  filter (fun group => (0 < group.2.1)%N) (btree_iter groups).
Definition credit_groups (groups : gmap AssetGroupKey.t (N * N))
    : list (AssetGroupKey.t * (N * N)) :=
  filter (fun group => (0 < group.2.2)%N) (btree_iter groups).

Context `{rows : RowOrder}.

Definition enforce_concentration_gate (policy : AutonomyPolicy.t) (plan : ExecutionPlan.t)
    (s : Book.t) : result string unit :=
  let existing_exposures := list_active_exposures s in
  let protocol := trim (StrategyTemplateKey.protocol (ExecutionPlan.key plan)) in
  if negb (starts_with (ExecutionPlan.action_id plan) "enter_") then Ok tt
  else
    groups ← grouped_asset_effects plan;
    match debit_groups groups with
    | [(debit_key, (current_notional, _))] =>
        debit ← ok_or (effect_for_key plan debit_key) "missing grouped effect";
        deployable ← deployable_balance policy debit s;
        err_if (deployable =? 0)%N (refused "deployable_capital_zero");;
        '(total, of_protocol) ← sum_exposures debit_key protocol (0, 0)%N existing_exposures;
        total_exposure ← ok_or (checked_add 256 total current_notional)
          "exposure arithmetic overflow";
        protocol_exposure ← ok_or (checked_add 256 of_protocol current_notional)
          "exposure arithmetic overflow";
        let limits := AutonomyPolicy.risk_limits policy in
        let total_bps := exposure_bps total_exposure deployable in
        err_if (RiskLimits.max_total_exposure_bps limits <? total_bps)%N
          (refused ("total_exposure_bps_exceeded:" +:+ pretty total_bps));;
        let protocol_bps := exposure_bps protocol_exposure deployable in
        err_if (RiskLimits.max_protocol_concentration_bps limits <? protocol_bps)%N
          (refused ("protocol_concentration_bps_exceeded:" +:+ pretty protocol_bps))
    | _ => Err (refused "multiple_debit_asset_groups_not_representable")
    end.

Context `{ext : Externals, u256 : U256Text}.

(** Without [require_simulation_first] no limit below is looked at. *)
Definition enforce_strategy_execution_policy (policy : AutonomyPolicy.t)
    (intent : StrategyExecutionIntent.t) (plan : ExecutionPlan.t)
    (prior_same_turn_history current_batch_history : list ToolCallRecord.t)
    (cycles : CycleTelemetry.t) (s : Book.t) : result string unit :=
  let authority := AutonomyPolicy.execution_authority policy in
  if negb (ExecutionAuthority.require_simulation_first authority) then Ok tt
  else
    err_if (negb (strategy_simulation_succeeded prior_same_turn_history current_batch_history
                    intent plan))
      (refused "simulation_first_required");;
    current_value_wei ← plan_total_value_wei plan;
    match ExecutionAuthority.per_action_value_limit_wei authority with
    | Some limit =>
        err_if (limit <? current_value_wei)%N
          (refused ("per_action_value_limit_exceeded:" +:+ pretty current_value_wei))
    | None => Ok tt
    end;;
    let moves := is_enter_or_exit_action (ExecutionPlan.action_id plan) in
    (if moves then enforce_asset_effect_policy policy plan s else Ok tt);;
    enforce_reserve_floors policy cycles s;;
    enforce_projected_usdc_floor policy plan s;;
    if moves then enforce_concentration_gate policy plan s else Ok tt.
End Limits.

(** ** What the policy bounds *)

Section Bounds.
Context `{libs : StrategyLibs}.

(** The amount of an effect, and the sum over a group and a direction. *)
Definition effect_value (effect : StrategyAssetEffect.t) : N :=
  match parse_u256_decimal (StrategyAssetEffect.amount_raw effect) with
  | Ok amount => amount
  | Err _ => 0%N
  end.

Definition group_total (direction : StrategyAssetDirection.t) (key : AssetGroupKey.t)
    (effects : list StrategyAssetEffect.t) : N :=
  sum_N (effect_value <$> filter (fun effect => asset_group_key effect = key
                                   /\ StrategyAssetEffect.direction effect = direction) effects).

Lemma group_total_cons direction key effect effects :
  group_total direction key (effect :: effects)
  = ((if decide (asset_group_key effect = key
                 /\ StrategyAssetEffect.direction effect = direction)
      then effect_value effect else 0) + group_total direction key effects)%N.
Proof. unfold group_total. rewrite filter_cons. by case_decide. Qed.

Lemma group_effects_Ok effects grouped groups :
  group_effects effects grouped = Ok groups ->
  (forall key, default (0, 0)%N (groups !! key)
     = (((default (0, 0) (grouped !! key)).1
         + group_total StrategyAssetDirection.Debit key effects)%N,
        ((default (0, 0) (grouped !! key)).2
         + group_total StrategyAssetDirection.Credit key effects)%N))
  /\ (forall key, is_Some (groups !! key) <->
        is_Some (grouped !! key) \/ exists effect, effect ∈ effects /\ asset_group_key effect = key).
Proof.
  revert grouped. induction effects as [|effect effects IH]; intros grouped; simpl.
  { intros [= <-]. split; [|set_solver]. intros key. unfold group_total. simpl.
    rewrite !N.add_0_r. by destruct (default _ _). }
  intros (amount & Hamount & Hrun)%result_bind_Ok.
  apply result_bind_Ok in Hrun as (entry & Hentry & Hrun).
  destruct (IH _ Hrun) as [Htotals Hkeys]. split.
  - intros key. rewrite Htotals, !group_total_cons. unfold effect_value at 1 2. rewrite Hamount.
    destruct (decide (asset_group_key effect = key)) as [<-|Hkey].
    + rewrite lookup_insert_eq. simpl.
      destruct (default (0, 0)%N (grouped !! asset_group_key effect)) as [debit credit].
      unfold add_effect in Hentry.
      destruct (StrategyAssetEffect.direction effect); simpl in Hentry;
        apply result_bind_Ok in Hentry as (sum & [Hsum _]%ok_or_Ok%checked_add_Some & [= <-]);
        subst sum; 
        repeat first [rewrite decide_False by (by intros [_ [=]]) | rewrite decide_True by done];
        simpl; f_equal; lia.
    + rewrite lookup_insert_ne by done. by rewrite !decide_False by (by intros [? _]).
  - intros key. rewrite Hkeys, lookup_insert_is_Some'. set_solver.
Qed.

Lemma grouped_asset_effects_Ok plan groups :
  grouped_asset_effects plan = Ok groups ->
  forall key debit credit, groups !! key = Some (debit, credit) <->
    (exists effect, effect ∈ ExecutionPlan.asset_effects plan /\ asset_group_key effect = key)
    /\ debit = group_total StrategyAssetDirection.Debit key (ExecutionPlan.asset_effects plan)
    /\ credit = group_total StrategyAssetDirection.Credit key (ExecutionPlan.asset_effects plan).
Proof.
  intros [Htotals Hkeys]%group_effects_Ok key debit credit.
  specialize (Htotals key). specialize (Hkeys key). rewrite lookup_empty in *. simpl in *.
  destruct (groups !! key) as [[debit' credit']|]; simpl in *.
  - injection Htotals as -> ->. split; [|by intros (_ & -> & ->)].
    intros [= <- <-]. split; [|done]. by destruct (proj1 Hkeys) as [[? [=]]|?].
  - split; [done|]. intros [Hsome _]. destruct Hkeys as [_ Hkeys].
    destruct Hkeys as [? [=]]. by right.
Qed.

(** *** Balances and basis points *)

Lemma deployable_balance_group policy effect effect' s :
  asset_group_key effect = asset_group_key effect' ->
  known_asset_balance effect s = known_asset_balance effect' s
  /\ asset_reserve policy effect = asset_reserve policy effect'.
Proof.
  destruct effect as [chain address symbol decimals amount direction].
  destruct effect' as [chain' address' symbol' decimals' amount' direction'].
  unfold asset_group_key, known_asset_balance, asset_reserve. simpl. intros [= -> Haddress ->].
  destruct address as [address|], address' as [address'|]; try done.
  injection Haddress as Haddress. split; [|done]. unfold is_configured_usdc, eq_ignore_ascii_case.
  by rewrite Haddress.
Qed.

Lemma deployable_balance_Ok policy effect s deployable :
  deployable_balance policy effect s = Ok deployable ->
  exists balance, known_asset_balance effect s = Ok balance
    /\ balance = (deployable + asset_reserve policy effect)%N.
Proof.
  unfold deployable_balance. intros (balance & Hbalance & Hrun)%result_bind_Ok.
  exists balance. split; [done|]. unfold checked_sub in Hrun.
  destruct (N.leb_spec (asset_reserve policy effect) balance); [|done]. injection Hrun as <-. lia.
Qed.

Lemma parse_optional_hex_u128_in_uint raw value :
  parse_optional_hex_u128 raw = Some value -> in_uint 128 value.
Proof.
  assert (in_uint 128 0) as Hzero by (by apply N.leb_le).
  unfold parse_optional_hex_u128. destruct raw as [raw|]; [|done]. simpl.
  destruct (is_empty (trim raw)); [done|].
  destruct (strip_prefix (trim raw) "0x") as [hex|]; [|apply parse_uint_in_uint].
  unfold parse_hex_uint. destruct (default hex _); [done|]. by apply parse_hex_digits_in_uint.
Qed.

Lemma known_asset_balance_in_uint effect s balance :
  known_asset_balance effect s = Ok balance -> in_uint 128 balance.
Proof.
  unfold known_asset_balance. repeat case_match; try done;
    intros Hbalance%ok_or_Ok; by eapply parse_optional_hex_u128_in_uint.
Qed.

(** Basis points within a [u16] limit bound the exposure itself. *)
Lemma exposure_bps_bounds exposure deployable limit :
  (0 < deployable)%N -> in_uint 128 deployable -> in_uint 16 limit ->
  (exposure_bps exposure deployable <= limit)%N ->
  (exposure * 10000 < (limit + 1) * deployable)%N.
Proof.
  unfold in_uint, exposure_bps. intros Hpos Hdeployable Hlimit.
  destruct (N.eqb_spec deployable 0) as [->|_]; [lia|].
  intros Hbps.
  set (scaled := saturating_mul 256 exposure 10000) in *.
  assert (scaled `div` deployable <= limit)%N as Hdiv.
  { change (max_uint 128) with (2 ^ 128 - 1)%N in *. change (max_uint 16) with 65535%N in *. lia. }
  assert (scaled < (limit + 1) * deployable)%N as Hscaled.
  { rewrite (N.div_mod scaled deployable) by lia.
    pose proof (N.mod_lt scaled deployable ltac:(lia)). nia. }
  unfold scaled, saturating_mul in Hscaled.
  destruct (N.le_gt_cases (exposure * 10000) (max_uint 256)); [lia|].
  rewrite N.min_r in Hscaled by lia.
  change (max_uint 16) with 65535%N in *.
  assert ((limit + 1) * deployable <= 65536 * max_uint 128)%N by nia.
  assert (65536 * max_uint 128 < max_uint 256)%N by done. lia.
Qed.

(** *** One group of assets *)

(** The debit of a group stays within what its asset can deploy. *)
Lemma enforce_group_effect_Ok policy plan s groups effect :
  in_uint 16 (RiskLimits.max_single_action_bps (AutonomyPolicy.risk_limits policy)) ->
  grouped_asset_effects plan = Ok groups ->
  try_each (btree_iter groups) (enforce_group_effect policy plan s) = Ok tt ->
  effect ∈ ExecutionPlan.asset_effects plan ->
  let debit := group_total StrategyAssetDirection.Debit (asset_group_key effect)
                 (ExecutionPlan.asset_effects plan) in
  (0 < debit)%N ->
  exists balance, known_asset_balance effect s = Ok balance
    /\ (debit + asset_reserve policy effect <= balance)%N
    /\ (debit * 10000
         < (RiskLimits.max_single_action_bps (AutonomyPolicy.risk_limits policy) + 1)
           * (balance - asset_reserve policy effect))%N.
Proof.
  intros Hlimit Hgroups Heach Heffect debit Hdebit. rewrite try_each_Ok in Heach.
  pose proof (grouped_asset_effects_Ok plan groups Hgroups (asset_group_key effect) debit) as Hgroup.
  specialize (Heach (asset_group_key effect, (debit, group_total StrategyAssetDirection.Credit
    (asset_group_key effect) (ExecutionPlan.asset_effects plan)))).
  simpl in Heach. destruct (N.eqb_spec debit 0); [lia|].
  destruct (proj1 (result_bind_Ok _ _ _) (Heach ltac:(apply elem_of_btree_iter, Hgroup; eauto)))
    as (found & Hfound%ok_or_Ok & Hrun).
  apply fmap_Some in Hfound as ([i first] & [_ [Hkey _]]%list_find_Some & ->). simpl in Hrun.
  apply result_bind_Ok in Hrun as (deployable & Hdeployable & Hrun).
  apply err_if_seq_Ok in Hrun as [Hfits%N.ltb_ge Hbps%err_if_Ok%N.ltb_ge].
  destruct (deployable_balance_Ok _ _ _ _ Hdeployable) as (balance & Hbalance & Hsum).
  destruct (deployable_balance_group policy first effect s Hkey) as [Hsame Hreserve].
  rewrite Hsame in Hbalance. rewrite Hreserve in Hsum. exists balance. split; [done|].
  split; [lia|]. replace (balance - asset_reserve policy effect)%N with deployable by lia.
  apply exposure_bps_bounds; [lia| |done|done].
  apply known_asset_balance_in_uint in Hbalance. unfold in_uint in *. lia.
Qed.

(** *** The projected USDC balance *)

(** The group of the configured USDC on Base. *)
Definition usdc_key (snapshot : WalletBalanceSnapshot.t) : AssetGroupKey.t :=
  AssetGroupKey.mk 8453
    (to_ascii_lowercase <$> WalletBalanceSnapshot.usdc_contract_address snapshot)
    (WalletBalanceSnapshot.usdc_decimals snapshot).

Definition is_usdc (snapshot : WalletBalanceSnapshot.t) (key : AssetGroupKey.t) : bool :=
  is_configured_usdc snapshot (AssetGroupKey.asset_address key).

Lemma usdc_flows_Ok plan snapshot flows groups result :
  (forall key amounts, (key, amounts) ∈ groups ->
    to_ascii_lowercase <$> AssetGroupKey.asset_address key = AssetGroupKey.asset_address key) ->
  usdc_flows plan snapshot flows groups = Ok result ->
  let usdc := filter (fun group => is_usdc snapshot group.1 = true) groups in
  Forall (fun group => group.1 = usdc_key snapshot) usdc
  /\ result.1 = (flows.1 + sum_N ((fun group => group.2.1) <$> usdc))%N
  /\ result.2 = (flows.2 + sum_N ((fun group => group.2.2) <$> usdc))%N.
Proof.
  revert flows. induction groups as [|[key amounts] groups IH]; intros flows Hlower; simpl.
  { intros [= <-]. rewrite !N.add_0_r. by repeat constructor. }
  assert (forall key amounts, (key, amounts) ∈ groups ->
    to_ascii_lowercase <$> AssetGroupKey.asset_address key = AssetGroupKey.asset_address key) as Hlower'
    by (intros; eapply Hlower; by constructor).
  destruct (is_configured_usdc snapshot (AssetGroupKey.asset_address key)) eqn:Husdc;
    [rewrite filter_cons_True by done|rewrite filter_cons_False by (unfold is_usdc; simpl; congruence)];
    simpl.
  - intros [Hidentity Hrun]%err_if_seq_Ok.
    apply result_bind_Ok in Hrun as (debits & [Hdebits _]%ok_or_Ok%checked_add_Some & Hrun).
    apply result_bind_Ok in Hrun as (credits & [Hcredits _]%ok_or_Ok%checked_add_Some & Hrun).
    destruct (IH _ Hlower' Hrun) as (Hkeys & -> & ->). simpl. subst.
    split; [|split; simpl; by rewrite N.add_assoc].
    constructor; [|done]. simpl. specialize (Hlower key amounts ltac:(by constructor)).
    destruct key as [chain address decimals]. unfold usdc_key. simpl in *.
    unfold is_configured_usdc in Husdc. destruct address as [address|]; [|done].
    destruct (WalletBalanceSnapshot.usdc_contract_address snapshot) as [configured|]; [|done].
    unfold eq_ignore_ascii_case in Husdc. apply bool_decide_eq_true in Husdc. simpl.
    rewrite Husdc. simpl in Hlower. injection Hlower as ->.
    apply orb_false_iff in Hidentity as [[Hplan Hchain]%orb_false_iff Hdecimals].
    apply negb_false_iff, N.eqb_eq in Hplan, Hchain, Hdecimals. congruence.
  - by apply IH.
Qed.

Lemma to_ascii_lowercase_idem text :
  to_ascii_lowercase (to_ascii_lowercase text) = to_ascii_lowercase text.
Proof.
  apply str_bytes_inj. unfold to_ascii_lowercase. rewrite !str_bytes_map_str, <-list_fmap_compose.
  apply list_fmap_ext. intros i a _. apply ascii_lower_idem.
Qed.

Lemma filter_single {A B} (P : A * B -> Prop) `{forall x, Decision (P x)} (l : list (A * B)) key b :
  NoDup l.*1 -> Forall (fun x => x.1 = key) (filter P l) -> (key, b) ∈ l -> P (key, b) ->
  filter P l = [(key, b)].
Proof.
  intros Hnodup Hkeys Hin HP.
  assert (NoDup (filter P l).*1) as Hnodup'.
  { eapply sublist_NoDup; [exact Hnodup|]. apply fmap_sublist, sublist_filter. }
  assert ((key, b) ∈ filter P l) as Hfiltered by (by apply list_elem_of_filter).
  destruct (filter P l) as [|[k1 b1] [|[k2 b2] rest]]; [set_solver| |].
  - apply list_elem_of_singleton in Hfiltered. by rewrite Hfiltered.
  - apply Forall_cons in Hkeys as [Hk1 [Hk2 _]%Forall_cons]. simpl in *. subst.
    apply NoDup_cons in Hnodup' as [Hnew _]. set_solver.
Qed.

(** With the plan's USDC flows settled, the balance is above the floor. *)
Lemma enforce_projected_usdc_floor_Ok policy plan s floor effect :
  enforce_projected_usdc_floor policy plan s = Ok tt ->
  ReservePolicy.min_inference_usdc_6dp (AutonomyPolicy.reserve_policy policy) = Some floor ->
  effect ∈ ExecutionPlan.asset_effects plan ->
  let snapshot := wallet_balance_snapshot s in
  is_configured_usdc snapshot (StrategyAssetEffect.asset_address effect) = true ->
  asset_group_key effect = usdc_key snapshot
  /\ exists balance,
    parse_optional_hex_u128 (WalletBalanceSnapshot.usdc_balance_raw_hex snapshot) = Some balance
    /\ let flow direction :=
         group_total direction (usdc_key snapshot) (ExecutionPlan.asset_effects plan) in
       (flow StrategyAssetDirection.Debit <= balance)%N
       /\ (floor <= balance - flow StrategyAssetDirection.Debit
                    + flow StrategyAssetDirection.Credit)%N.
Proof.
  intros Hrun Hfloor Heffect snapshot Husdc. unfold enforce_projected_usdc_floor in Hrun.
  rewrite Hfloor in Hrun.
  assert (existsb (fun effect => is_configured_usdc snapshot (StrategyAssetEffect.asset_address effect))
    (ExecutionPlan.asset_effects plan) = true) as Hsome.
  { apply existsb_exists. exists effect. by rewrite <-list_elem_of_In. }
  fold snapshot in Hrun. rewrite Hsome in Hrun. simpl in Hrun.
  apply result_bind_Ok in Hrun as (balance & Hbalance%ok_or_Ok & Hrun).
  apply result_bind_Ok in Hrun as (projected & Hprojected & Habove%err_if_Ok%N.ltb_ge).
  unfold projected_usdc_balance in Hprojected.
  apply result_bind_Ok in Hprojected as (? & _ & Hprojected).
  apply result_bind_Ok in Hprojected as (groups & Hgroups & Hprojected).
  apply result_bind_Ok in Hprojected as ([debits credits] & Hflows & Hprojected).
  apply result_bind_Ok in Hprojected as (rest & Hrest%ok_or_Ok & Hprojected%ok_or_Ok).
  apply checked_add_Some in Hprojected as [-> _].
  pose proof (grouped_asset_effects_Ok plan groups Hgroups) as Hgroup.
  apply usdc_flows_Ok in Hflows as (Hkeys & Hdebits & Hcredits); cycle 1.
  { intros key amounts Hin%elem_of_btree_iter. destruct amounts as [debit credit].
    apply Hgroup in Hin as [(found & _ & <-) _]. simpl.
    destruct (StrategyAssetEffect.asset_address found); [|done]. simpl.
    by rewrite to_ascii_lowercase_idem. }
  fold snapshot in Hkeys, Hdebits, Hcredits. simpl in Hdebits, Hcredits.
  assert (exists amounts, (asset_group_key effect, amounts) ∈ btree_iter groups
    /\ amounts = (group_total StrategyAssetDirection.Debit (asset_group_key effect)
                    (ExecutionPlan.asset_effects plan),
                  group_total StrategyAssetDirection.Credit (asset_group_key effect)
                    (ExecutionPlan.asset_effects plan))) as (amounts & Hin & Hamounts).
  { eexists. split; [|done]. apply elem_of_btree_iter, Hgroup. eauto. }
  assert (is_usdc snapshot (asset_group_key effect) = true) as His.
  { unfold is_usdc, asset_group_key, is_configured_usdc, eq_ignore_ascii_case in *. simpl.
    destruct (StrategyAssetEffect.asset_address effect); [|done]. simpl.
    destruct (WalletBalanceSnapshot.usdc_contract_address snapshot); [|done].
    by rewrite to_ascii_lowercase_idem. }
  assert (asset_group_key effect = usdc_key snapshot) as Hkey.
  { rewrite Forall_forall in Hkeys. apply (Hkeys (asset_group_key effect, amounts)).
    by apply list_elem_of_filter. }
  rewrite Hkey in *. split; [done|]. exists balance. split; [done|].
  rewrite (filter_single (fun group => is_usdc snapshot group.1 = true) (btree_iter groups)
    (usdc_key snapshot) amounts) in Hdebits, Hcredits;
    [|apply NoDup_btree_keys|done|done|done|apply NoDup_btree_keys|done|done|done].
  rewrite Hamounts in Hdebits, Hcredits. simpl in Hdebits, Hcredits.
  unfold checked_sub in Hrest. destruct (N.leb_spec debits balance); [|done].
  injection Hrest as <-. simpl. lia.
Qed.

(** *** Value and exposure totals *)

Definition call_value (call : StrategyExecutionCall.t) : N :=
  match parse_u256_decimal (StrategyExecutionCall.value_wei call) with
  | Ok value => value
  | Err _ => 0%N
  end.

Lemma total_value_wei_Ok acc calls total :
  total_value_wei acc calls = Ok total -> in_uint 256 acc ->
  total = N.min (acc + sum_N (call_value <$> calls)) (max_uint 256).
Proof.
  revert acc. induction calls as [|call calls IH]; intros acc; cbn [total_value_wei].
  { intros [= <-]. unfold in_uint. change (sum_N (call_value <$> [])) with 0%N. lia. }
  intros (value & Hvalue%map_err_Ok & Hrun)%result_bind_Ok Hacc.
  rewrite (IH _ Hrun) by apply saturating_add_in_uint. rewrite fmap_cons.
  change (sum_N (call_value call :: ?l)) with (call_value call + sum_N l)%N.
  assert (call_value call = value) as -> by (unfold call_value; by rewrite Hvalue).
  unfold saturating_add. lia.
Qed.

Definition in_asset (key : AssetGroupKey.t) (exposure : ActiveExposure.t) : bool :=
  is_some_and (same_asset exposure key) (ActiveExposure.decimals exposure).

Definition exposure_value (exposure : ActiveExposure.t) : N :=
  match parse_u256_decimal (default "" (ActiveExposure.amount_raw exposure)) with
  | Ok amount => amount
  | Err _ => 0%N
  end.

(** What is exposed in the asset by the exposures that satisfy [p]. *)
Definition exposure_total (key : AssetGroupKey.t) (p : ActiveExposure.t -> bool)
    (exposures : list ActiveExposure.t) : N :=
  sum_N (exposure_value <$> filter (fun exposure => in_asset key exposure && p exposure = true)
                              exposures).

Lemma exposure_total_cons key p exposure exposures :
  exposure_total key p (exposure :: exposures)
  = ((if in_asset key exposure && p exposure then exposure_value exposure else 0)
     + exposure_total key p exposures)%N.
Proof.
  unfold exposure_total. destruct (in_asset key exposure && p exposure) eqn:Hp.
  - by rewrite filter_cons_True.
  - by rewrite filter_cons_False by congruence.
Qed.

Lemma sum_exposures_Ok key protocol totals exposures result :
  sum_exposures key protocol totals exposures = Ok result ->
  result.1 = (totals.1 + exposure_total key (fun _ => true) exposures)%N
  /\ result.2 = (totals.2 + exposure_total key
       (fun exposure => bool_decide (ActiveExposure.protocol exposure = protocol)) exposures)%N.
Proof.
  revert totals. induction exposures as [|exposure exposures IH]; intros totals; simpl.
  { intros [= <-]. by rewrite !N.add_0_r. }
  rewrite !exposure_total_cons. unfold in_asset at 1 2, exposure_value at 1 2.
  destruct (ActiveExposure.decimals exposure) as [decimals|]; [|done].
  destruct (ActiveExposure.amount_raw exposure) as [amount|]; [|done]. simpl.
  destruct (same_asset exposure key decimals); simpl; [|apply IH].
  intros (value & Hvalue & Hrun)%result_bind_Ok. rewrite Hvalue.
  apply result_bind_Ok in Hrun as (total & [-> _]%ok_or_Ok%checked_add_Some & Hrun).
  apply result_bind_Ok in Hrun as (of_protocol & Hprotocol & Hrun).
  apply IH in Hrun as [-> ->]. simpl.
  destruct (bool_decide (ActiveExposure.protocol exposure = protocol)).
  - apply ok_or_Ok, checked_add_Some in Hprotocol as [-> _]. split; lia.
  - injection Hprotocol as <-. split; lia.
Qed.
End Bounds.

(** ** The gate as a whole *)

(** The limits of a policy at their widths. *)
Record policy_typed (policy : AutonomyPolicy.t) : Prop := {
  single_action_u16 : in_uint 16 (RiskLimits.max_single_action_bps (AutonomyPolicy.risk_limits policy));
  total_exposure_u16 :
    in_uint 16 (RiskLimits.max_total_exposure_bps (AutonomyPolicy.risk_limits policy));
  concentration_u16 :
    in_uint 16 (RiskLimits.max_protocol_concentration_bps (AutonomyPolicy.risk_limits policy));
  value_limit_u128 : forall limit,
    ExecutionAuthority.per_action_value_limit_wei (AutonomyPolicy.execution_authority policy)
      = Some limit -> in_uint 128 limit;
}.

Section Gate.
Context `{libs : StrategyLibs, rows : RowOrder}.

(** What an enter adds to the exposure in its one debited asset stays within
    the basis points of that asset's deployable balance. *)
Record entry_bounded (policy : AutonomyPolicy.t) (plan : ExecutionPlan.t) (s : Book.t)
    (key : AssetGroupKey.t) (deployable : N) : Prop := {
  entry_debit_only : forall effect, effect ∈ ExecutionPlan.asset_effects plan ->
    (0 < group_total StrategyAssetDirection.Debit (asset_group_key effect)
           (ExecutionPlan.asset_effects plan))%N -> asset_group_key effect = key;
  entry_deployable : exists effect balance, effect ∈ ExecutionPlan.asset_effects plan
    /\ asset_group_key effect = key /\ known_asset_balance effect s = Ok balance
    /\ balance = (deployable + asset_reserve policy effect)%N;
  entry_total : ((exposure_total key (fun _ => true) (list_active_exposures s)
                  + group_total StrategyAssetDirection.Debit key (ExecutionPlan.asset_effects plan))
                 * 10000
                 < (RiskLimits.max_total_exposure_bps (AutonomyPolicy.risk_limits policy) + 1)
                   * deployable)%N;
  entry_protocol : ((exposure_total key (fun exposure => bool_decide
                       (ActiveExposure.protocol exposure
                        = trim (StrategyTemplateKey.protocol (ExecutionPlan.key plan))))
                       (list_active_exposures s)
                     + group_total StrategyAssetDirection.Debit key
                         (ExecutionPlan.asset_effects plan)) * 10000
                    < (RiskLimits.max_protocol_concentration_bps
                         (AutonomyPolicy.risk_limits policy) + 1) * deployable)%N;
}.

Lemma enforce_concentration_gate_Ok policy plan s :
  policy_typed policy -> enforce_concentration_gate policy plan s = Ok tt ->
  starts_with (ExecutionPlan.action_id plan) "enter_" = true ->
  exists key deployable, entry_bounded policy plan s key deployable.
Proof.
  intros Htyped Hrun Henter. unfold enforce_concentration_gate in Hrun. rewrite Henter in Hrun.
  apply result_bind_Ok in Hrun as (groups & Hgroups & Hrun).
  pose proof (grouped_asset_effects_Ok plan groups Hgroups) as Hgroup.
  destruct (debit_groups groups) as [|[key [debit credit]] [|? ?]] eqn:Hdebits; try done.
  assert ((key, (debit, credit)) ∈ debit_groups groups) as Hdebit by (rewrite Hdebits; set_solver).
  apply list_elem_of_filter in Hdebit as [Hpos Hin%elem_of_btree_iter]. simpl in Hpos.
  apply Hgroup in Hin as (_ & Htotal & _).
  apply result_bind_Ok in Hrun as (effect & Heffect%ok_or_Ok & Hrun).
  apply fmap_Some in Heffect as ([i found] & [Hfound%list_elem_of_lookup_2 [Hkey _]]%list_find_Some & ->).
  apply result_bind_Ok in Hrun as (deployable & Hdeployable & Hrun).
  apply err_if_seq_Ok in Hrun as [Hnonzero%N.eqb_neq Hrun].
  apply result_bind_Ok in Hrun as ([total of_protocol] & Hsums & Hrun).
  apply sum_exposures_Ok in Hsums as [Hall Hprotocol]. simpl in Hall, Hprotocol.
  apply result_bind_Ok in Hrun as (total_exposure & [-> _]%ok_or_Ok%checked_add_Some & Hrun).
  apply result_bind_Ok in Hrun as (protocol_exposure & [-> _]%ok_or_Ok%checked_add_Some & Hrun).
  apply err_if_seq_Ok in Hrun as [Htotal_bps%N.ltb_ge Hprotocol_bps%err_if_Ok%N.ltb_ge].
  destruct (deployable_balance_Ok _ _ _ _ Hdeployable) as (balance & Hbalance & Hsum). simpl in *.
  assert (in_uint 128 deployable) as Huint.
  { apply known_asset_balance_in_uint in Hbalance. unfold in_uint in *. lia. }
  destruct Htyped as [_ Htotal_u16 Hprotocol_u16 _].
  apply exposure_bps_bounds in Htotal_bps, Hprotocol_bps; try done; try lia.
  exists key, deployable. subst. split; try done.
  - intros other Hother Hsome.
    assert ((asset_group_key other, (group_total StrategyAssetDirection.Debit (asset_group_key other)
      (ExecutionPlan.asset_effects plan), group_total StrategyAssetDirection.Credit
      (asset_group_key other) (ExecutionPlan.asset_effects plan))) ∈ debit_groups groups) as Hin.
    { apply list_elem_of_filter. split; [done|]. apply elem_of_btree_iter, Hgroup. eauto. }
    rewrite Hdebits in Hin. apply list_elem_of_singleton in Hin. congruence.
  - by exists found, (deployable + asset_reserve policy found)%N.
Qed.

Context `{ext : Externals, u256 : U256Text}.

(** What holds of a plan that the policy lets through. *)
Record execution_bounded (policy : AutonomyPolicy.t) (intent : StrategyExecutionIntent.t)
    (plan : ExecutionPlan.t) (history : list ToolCallRecord.t) (cycles : CycleTelemetry.t)
    (s : Book.t) : Prop := {
  bounded_simulated : exists record, record ∈ history /\ simulates intent plan record = true;
  bounded_value : forall limit,
    ExecutionAuthority.per_action_value_limit_wei (AutonomyPolicy.execution_authority policy)
      = Some limit -> (sum_N (call_value <$> ExecutionPlan.calls plan) <= limit)%N;
  bounded_debits : is_enter_or_exit_action (ExecutionPlan.action_id plan) = true ->
    forall effect, effect ∈ ExecutionPlan.asset_effects plan ->
    let debit := group_total StrategyAssetDirection.Debit (asset_group_key effect)
                   (ExecutionPlan.asset_effects plan) in
    (0 < debit)%N -> exists balance, known_asset_balance effect s = Ok balance
      /\ (debit + asset_reserve policy effect <= balance)%N
      /\ (debit * 10000
           < (RiskLimits.max_single_action_bps (AutonomyPolicy.risk_limits policy) + 1)
             * (balance - asset_reserve policy effect))%N;
  bounded_runway : forall seconds, runway_secs cycles = Some seconds ->
    (saturating_mul 128
       (ReservePolicy.min_cycles_runway_hours (AutonomyPolicy.reserve_policy policy)) 3600
     <= seconds)%N;
  bounded_gas : forall floor balance,
    ReservePolicy.min_gas_wei (AutonomyPolicy.reserve_policy policy) = Some floor ->
    parse_optional_hex_u128 (WalletBalanceSnapshot.eth_balance_wei_hex (wallet_balance_snapshot s))
      = Some balance -> (floor <= balance)%N;
  bounded_usdc : forall floor effect,
    ReservePolicy.min_inference_usdc_6dp (AutonomyPolicy.reserve_policy policy) = Some floor ->
    effect ∈ ExecutionPlan.asset_effects plan ->
    let snapshot := wallet_balance_snapshot s in
    is_configured_usdc snapshot (StrategyAssetEffect.asset_address effect) = true ->
    asset_group_key effect = usdc_key snapshot /\ exists balance,
      parse_optional_hex_u128 (WalletBalanceSnapshot.usdc_balance_raw_hex snapshot) = Some balance
      /\ let flow direction :=
           group_total direction (usdc_key snapshot) (ExecutionPlan.asset_effects plan) in
         (flow StrategyAssetDirection.Debit <= balance)%N
         /\ (floor <= balance - flow StrategyAssetDirection.Debit
                      + flow StrategyAssetDirection.Credit)%N;
  bounded_entry : starts_with (ExecutionPlan.action_id plan) "enter_" = true ->
    exists key deployable, entry_bounded policy plan s key deployable;
}.

Lemma enforce_reserve_floors_Ok policy cycles s :
  enforce_reserve_floors policy cycles s = Ok tt ->
  (forall seconds, runway_secs cycles = Some seconds ->
    (saturating_mul 128
       (ReservePolicy.min_cycles_runway_hours (AutonomyPolicy.reserve_policy policy)) 3600
     <= seconds)%N)
  /\ (forall floor balance,
    ReservePolicy.min_gas_wei (AutonomyPolicy.reserve_policy policy) = Some floor ->
    parse_optional_hex_u128 (WalletBalanceSnapshot.eth_balance_wei_hex (wallet_balance_snapshot s))
      = Some balance -> (floor <= balance)%N).
Proof.
  unfold enforce_reserve_floors. intros ([] & Hrunway & Hrun)%result_bind_Ok.
  apply result_bind_Ok in Hrun as ([] & Hgas & _). split.
  - intros seconds Hseconds. rewrite Hseconds in Hrunway. by apply err_if_Ok, N.ltb_ge in Hrunway.
  - intros floor balance Hfloor Hbalance. rewrite Hfloor, Hbalance in Hgas.
    by apply err_if_Ok, N.ltb_ge in Hgas.
Qed.

(** C15 - A policy that does not ask for simulation first lets every plan
    through, whatever its limits.  Under one that asks for it, a plan is let
    through only if a successful simulation of this very plan with these very
    parameters is in the turn's history, and then the limits of the policy hold
    as arithmetic on the plan: for every action the value it sends, the runway
    and gas floors, where cycles and balance are known, and the USDC left after
    its flows; for an enter or an exit
    what each asset loses against its balance above the reserve; and for an
    enter alone the exposure it adds, in total and per protocol. *)
Theorem enforce_strategy_execution_policy_bounds (policy : AutonomyPolicy.t)
    (intent : StrategyExecutionIntent.t) (plan : ExecutionPlan.t)
    (prior_same_turn_history current_batch_history : list ToolCallRecord.t)
    (cycles : CycleTelemetry.t) (s : Book.t) :
  policy_typed policy ->
  (ExecutionAuthority.require_simulation_first (AutonomyPolicy.execution_authority policy) = false ->
   enforce_strategy_execution_policy policy intent plan prior_same_turn_history
     current_batch_history cycles s = Ok tt)
  /\ (ExecutionAuthority.require_simulation_first (AutonomyPolicy.execution_authority policy) = true ->
      enforce_strategy_execution_policy policy intent plan prior_same_turn_history
        current_batch_history cycles s = Ok tt ->
      execution_bounded policy intent plan (prior_same_turn_history ++ current_batch_history)
        cycles s).
Proof.
  intros Htyped. unfold enforce_strategy_execution_policy. split; [by intros ->|].
  intros Hfirst Hrun. rewrite Hfirst in Hrun.
  apply err_if_seq_Ok in Hrun as [Hsimulated%negb_false_iff Hrun].
  apply result_bind_Ok in Hrun as (value & Hvalue & Hrun).
  apply result_bind_Ok in Hrun as ([] & Hlimit & Hrun).
  apply result_bind_Ok in Hrun as ([] & Heffects & Hrun).
  apply result_bind_Ok in Hrun as ([] & [Hrunway Hgas]%enforce_reserve_floors_Ok & Hrun).
  apply result_bind_Ok in Hrun as ([] & Husdc & Hentry).
  split; try done.
  - apply existsb_exists in Hsimulated as (record & Hrecord%list_elem_of_In & Hsame).
    by exists record.
  - intros limit Hsome. rewrite Hsome in Hlimit. apply err_if_Ok, N.ltb_ge in Hlimit.
    apply total_value_wei_Ok in Hvalue; [|by apply N.leb_le].
    destruct Htyped as [_ _ _ Hu128]. specialize (Hu128 limit Hsome).
    unfold in_uint in Hu128. assert (max_uint 128 < max_uint 256)%N by done. lia.
  - intros Hmoves effect Heffect debit Hdebit. rewrite Hmoves in Heffects.
    apply result_bind_Ok in Heffects as (groups & Hgroups & Heach).
    eapply enforce_group_effect_Ok; [apply Htyped|done..].
  - intros floor effect Hfloor Heffect. by apply (enforce_projected_usdc_floor_Ok policy plan s).
  - intros Henter. assert (is_enter_or_exit_action (ExecutionPlan.action_id plan) = true) as Hmoves.
    { unfold is_enter_or_exit_action. by rewrite Henter. }
    rewrite Hmoves in Hentry. by eapply enforce_concentration_gate_Ok.
Qed.
End Gate.
