(* ===== verification/StrategyExecution.v ===== *)
(** * StrategyExecution: sending, observing and settling executions

    Models the life of an execution: [execute_strategy_action_tool] of
    [tools.rs] and [execute_strategy_plan] of [features/evm.rs], which sends the
    calls one by one; [reconcile_pending_strategy_executions] of
    [scheduler.rs], which looks for their receipts; and the bookkeeping of
    [tools.rs] at the end of an execution.  An [await] ends a message: what
    follows it is a function of its own, which resumes from the local variables
    ([SendTask], [CheckTask]) on a book that other messages may have changed. *)

From S2P Require Import Prelude Text SpawnProtocol Types Externals AgentTypes Evm TopUp AgentStore StrategyTypes StrategyStore StrategyValidator StrategyAbi StrategyCompiler StrategyPolicy.
From Stdlib Require Import Ascii.

(** ** Bookkeeping *)

Section Bookkeeping.
Context `{ext : Externals, libs : StrategyLibs, texts : SqlTexts}.

(** [stable::confirm_strategy_execution_atomically]. *)
Definition confirm_strategy_execution (execution : PendingStrategyExecution.t)
    (exposure_change : option (option ActiveExposure.t)) (outcome_stats : StrategyOutcomeStats.t)
    (budget : option string) (strategy_id : string) : B bool :=
  let key := PendingStrategyExecution.key execution in
  confirm_strategy_execution_atomically execution exposure_change
    (strategy_outcome_stats_record_key key) outcome_stats
    ((fun value => (strategy_budget_record_key key, value)) <$> budget) strategy_id.

(** [stable::fail_strategy_execution_atomically]. *)
Definition fail_strategy_execution (execution : PendingStrategyExecution.t)
    (outcome_stats : StrategyOutcomeStats.t) (quarantine : StrategyQuarantine.t)
    (activation : option TemplateActivationState.t) : B bool :=
  let key := PendingStrategyExecution.key execution in
  fail_strategy_execution_atomically execution (strategy_outcome_stats_record_key key)
    outcome_stats quarantine
    ((fun state => (template_state_record_key "activation" key, state)) <$> activation).

Definition stats_or_empty (key : StrategyTemplateKey.t) (s : Book.t) : StrategyOutcomeStats.t :=
  default (empty_outcome_stats key) (strategy_outcome_stats key s).

(** The statistics after one more run. *)
Definition count_run (outcome : StrategyOutcomeKind.t) (error tx_hash : option string) (now_ns : N)
    (stats : StrategyOutcomeStats.t) : StrategyOutcomeStats.t :=
  count_outcome outcome error
    (stats <| StrategyOutcomeStats.total_runs ::= fun n => saturating_add 64 n 1 |>)
    <| StrategyOutcomeStats.last_tx_hash := tx_hash |>
    <| StrategyOutcomeStats.last_observed_at_ns := Some now_ns |>.

Definition last_hash (calls : list PendingStrategyExecutionCall.t) : option string :=
  head (omap PendingStrategyExecutionCall.tx_hash (reverse calls)).

Definition close_failed (now_ns : N) (execution : PendingStrategyExecution.t)
    : PendingStrategyExecution.t :=
  execution <| PendingStrategyExecution.terminal_bookkeeping_applied := true |>
            <| PendingStrategyExecution.updated_at_ns := now_ns |>
            <| PendingStrategyExecution.next_check_at_ns := now_ns |>.

Definition apply_terminal_strategy_failure (execution : PendingStrategyExecution.t)
    (kind : StrategyOutcomeKind.t) (reason : string) (now_ns : N) : B bool :=
  if PendingStrategyExecution.bookkeeping_applied execution
     || PendingStrategyExecution.terminal_bookkeeping_applied execution
  then mret false
  else
    fail_if (bool_decide (PendingStrategyExecution.state execution
                          = PendingStrategyExecutionState.Pending))
      "terminal strategy failure requires a terminal state";;
    let key := PendingStrategyExecution.key execution in
    quarantine ← gets (count_failure (strategy_id_from_key key) reason now_ns);
    stored ← gets (stats_or_empty key);
    fail_if (bool_decide (kind = StrategyOutcomeKind.Success))
      "terminal failure cannot use success outcome kind";;
    let stats := count_run kind (Some reason)
                   (last_hash (PendingStrategyExecution.calls execution)) now_ns stored in
    activation ← gets (auto_deactivation_for_stats stats now_ns);
    fail_strategy_execution (close_failed now_ns execution) stats quarantine activation.

(** *** Exposures *)

(** [value.try_into().ok()] for the native asset. *)
Definition notional_wei (effect : StrategyAssetEffect.t) (value : N) : option N :=
  match StrategyAssetEffect.asset_address effect with
  | None => if (StrategyAssetEffect.decimals effect =? 18)%N && (value <=? max_uint 128)%N
            then Some value else None
  | Some _ => None
  end.

Definition same_identity (exposure : ActiveExposure.t) (key : AssetGroupKey.t) : bool :=
  (ActiveExposure.chain_id exposure =? AssetGroupKey.chain_id key)%N
  && bool_decide (to_ascii_lowercase <$> ActiveExposure.asset_address exposure
                  = AssetGroupKey.asset_address key)
  && bool_decide (ActiveExposure.decimals exposure = Some (AssetGroupKey.decimals key)).

(** [option.map(parse).transpose()?]. *)
Definition parse_optional_amount (raw : option string) : result string (option N) :=
  match raw with Some raw => Some <$> parse_u256_decimal raw | None => Ok None end.

Definition update_exposure_after_enter (strategy_id : string) (plan : ExecutionPlan.t)
    (now_ns : N) (s : Book.t) : result string (option ActiveExposure.t) :=
  groups ← grouped_asset_effects plan;
  match debit_groups groups with
  | [(key, (amount, _))] =>
      effect ← ok_or (effect_for_key plan key) "missing grouped effect";
      let existing := active_exposure strategy_id s in
      err_if (is_some_and (fun prior => negb (same_identity prior key)) existing)
        "strategy exposure asset identity mismatch";;
      prior ← parse_optional_amount (existing ≫= ActiveExposure.amount_raw);
      next ← ok_or (checked_add 256 (default 0%N prior) amount) "strategy exposure amount overflow";
      Ok (Some (ActiveExposure.mk strategy_id
        (StrategyTemplateKey.protocol (ExecutionPlan.key plan))
        (StrategyAssetEffect.chain_id effect) (StrategyAssetEffect.asset_symbol effect)
        (notional_wei effect next) (StrategyAssetEffect.asset_address effect)
        (Some (StrategyAssetEffect.decimals effect)) (Some (pretty next)) now_ns))
  | _ => Err "strategy exposure cannot represent multiple debit asset groups"
  end.

Definition update_exposure_after_exit (strategy_id : string) (plan : ExecutionPlan.t)
    (now_ns : N) (s : Book.t) : result string (option ActiveExposure.t) :=
  existing ← ok_or (active_exposure strategy_id s) "strategy exposure missing for exit";
  groups ← grouped_asset_effects plan;
  match credit_groups groups with
  | [(key, (_, amount))] =>
      effect ← ok_or (effect_for_key plan key) "missing grouped effect";
      err_if (negb (same_identity existing key)) "strategy exposure asset identity mismatch";;
      raw ← ok_or (ActiveExposure.amount_raw existing) "legacy exposure amount is ambiguous";
      prior ← parse_u256_decimal raw;
      value ← ok_or (checked_sub prior amount) "strategy exit exceeds exposure";
      if (value =? 0)%N then Ok None
      else Ok (Some (ActiveExposure.mk strategy_id
        (StrategyTemplateKey.protocol (ExecutionPlan.key plan))
        (StrategyTemplateKey.chain_id (ExecutionPlan.key plan))
        (StrategyAssetEffect.asset_symbol effect)
        (notional_wei effect value) (ActiveExposure.asset_address existing)
        (Some (StrategyAssetEffect.decimals effect)) (Some (pretty value)) now_ns))
  | _ => Err "strategy exposure cannot represent multiple credit asset groups"
  end.

(** *** Confirmation *)

(** The plan as the row holds it. *)
Definition recorded_plan (execution : PendingStrategyExecution.t) : ExecutionPlan.t :=
  ExecutionPlan.mk (PendingStrategyExecution.key execution)
    (PendingStrategyExecution.action_id execution)
    (PendingStrategyExecutionCall.call <$> PendingStrategyExecution.calls execution) [] []
    (PendingStrategyExecution.asset_effects execution) [].

Definition exposure_change (plan : ExecutionPlan.t) (now_ns : N) (s : Book.t)
    : result string (option (option ActiveExposure.t)) :=
  let strategy_id := strategy_id_from_key (ExecutionPlan.key plan) in
  if negb (is_enter_or_exit_action (ExecutionPlan.action_id plan)) then Ok None
  else Some <$>
    (if starts_with (ExecutionPlan.action_id plan) "exit_"
     then update_exposure_after_exit strategy_id plan now_ns s
     else update_exposure_after_enter strategy_id plan now_ns s).

Fixpoint spent_wei (acc : N) (calls : list StrategyExecutionCall.t) : result string N :=
  match calls with
  | [] => Ok acc
  | call :: calls =>
      value ← parse_u256_decimal (StrategyExecutionCall.value_wei call);
      acc ← ok_or (checked_add 256 acc value) "strategy budget overflow";
      spent_wei acc calls
  end.

Definition updated_budget (key : StrategyTemplateKey.t) (spent : N) (s : Book.t)
    : result string (option string) :=
  if (spent =? 0)%N then Ok None
  else
    current ← parse_u256_decimal (default "0" (strategy_template_budget_spent_wei key s));
    updated ← ok_or (checked_add 256 current spent) "strategy budget overflow";
    Ok (Some (pretty updated)).

Definition close_confirmed (now_ns : N) (execution : PendingStrategyExecution.t)
    : PendingStrategyExecution.t :=
  execution <| PendingStrategyExecution.bookkeeping_applied := true |>
            <| PendingStrategyExecution.state := PendingStrategyExecutionState.Confirmed |>
            <| PendingStrategyExecution.updated_at_ns := now_ns |>
            <| PendingStrategyExecution.next_check_at_ns := now_ns |>.

Definition apply_confirmed_strategy_execution (execution : PendingStrategyExecution.t)
    (now_ns : N) : B bool :=
  if PendingStrategyExecution.bookkeeping_applied execution then mret false
  else
    let plan := recorded_plan execution in
    let key := ExecutionPlan.key plan in
    s ← get_state;
    change ← lift (exposure_change plan now_ns s);
    let last_tx_hash :=
      last (PendingStrategyExecution.calls execution) ≫= PendingStrategyExecutionCall.tx_hash in
    let stats := count_run StrategyOutcomeKind.Success None last_tx_hash now_ns
                   (stats_or_empty key s) in
    spent ← lift (spent_wei 0 (ExecutionPlan.calls plan));
    budget ← lift (updated_budget key spent s);
    confirm_strategy_execution (close_confirmed now_ns execution) change stats budget
      (strategy_id_from_key key).

(** ** Sending *)

Definition parse_decimal_u256 (raw field : string) : result string N :=
  let trimmed := trim raw in
  err_if (is_empty trimmed) (field +:+ " cannot be empty");;
  err_if (negb (all_digits trimmed)) (field +:+ " must be a decimal string");;
  ok_or (parse_digits 256 0 trimmed)
    ("failed to parse " +:+ field +:+ " as decimal: " +:+ u256_overflow).

(** A double quote. *)
Definition quote : string := String (ascii_of_N 34) EmptyString.
Definition json_field (name value : string) : string :=
  quote +:+ name +:+ quote +:+ ":" +:+ quote +:+ value +:+ quote.

Definition strategy_call_to_send_eth_args_json (call : StrategyExecutionCall.t)
    : result string string :=
  to ← normalize_evm_address (StrategyExecutionCall.to call);
  value_wei ← parse_decimal_u256 (StrategyExecutionCall.value_wei call) "value_wei";
  data ← normalize_hex_blob (StrategyExecutionCall.data call) "data";
  Ok ("{" +:+ json_field "to" to +:+ "," +:+ json_field "value_wei" (pretty value_wei) +:+ ","
      +:+ json_field "data" data +:+ "}").

Definition persist_strategy_outcome (plan : ExecutionPlan.t) (outcome : StrategyOutcomeKind.t)
    (tx_hash error : option string) : B unit :=
  now_ns ← gets book_time_ns;
  record_outcome (StrategyOutcomeEvent.mk (ExecutionPlan.key plan) (ExecutionPlan.action_id plan)
                    outcome tx_hash error now_ns);;
  mret tt.
End Bookkeeping.

(** The local variables of [execute_strategy_plan] at its [await]; [execution]
    is what the compare-and-update expects to find. *)
Module SendTask.
Record t := mk {
  plan : ExecutionPlan.t;
  execution_id : string;
  execution : PendingStrategyExecution.t;
  tx_hashes : list string;
  index : nat;
}.
End SendTask.

Inductive send_progress :=
| Sent (tx_hashes : list string)
| AwaitSend (task : SendTask.t) (args_json : string).

Definition alter_call (index : nat)
    (f : PendingStrategyExecutionCall.t -> PendingStrategyExecutionCall.t)
    (execution : PendingStrategyExecution.t) : PendingStrategyExecution.t :=
  execution <| PendingStrategyExecution.calls ::= alter f index |>.

Section Sending.
Context `{ext : Externals, libs : StrategyLibs, texts : SqlTexts}.

(** A call that could not be sent ends the execution. *)
Definition drop_call (execution : PendingStrategyExecution.t) (tx_hashes : list string)
    (index : nat) (kind : StrategyOutcomeKind.t) (error : string) : B send_progress :=
  now_ns ← gets book_time_ns;
  let execution :=
    alter_call index (fun call =>
      call <| PendingStrategyExecutionCall.error := Some error |>
           <| PendingStrategyExecutionCall.state := StrategyExecutionCallState.Dropped |>)
      execution
    <| PendingStrategyExecution.updated_at_ns := now_ns |>
    <| PendingStrategyExecution.state :=
         if bool_decide (tx_hashes = []) then PendingStrategyExecutionState.Dropped
         else PendingStrategyExecutionState.PartialFailure |> in
  apply_terminal_strategy_failure execution kind error now_ns;;
  mthrow error.

(** All calls are sent. *)
Definition complete_sending (execution_id : string) (execution : PendingStrategyExecution.t)
    (tx_hashes : list string) : B send_progress :=
  now_ns ← gets book_time_ns;
  let execution := execution
    <| PendingStrategyExecution.state := PendingStrategyExecutionState.Pending |>
    <| PendingStrategyExecution.updated_at_ns := now_ns |> in
  stored ← gets (pending_strategy_execution execution_id);
  expected ← lift (ok_or stored "strategy execution disappeared before completion");
  updated ← compare_and_update_pending_strategy_execution expected execution;
  fail_if (negb updated) "strategy execution completion lost a durable progress race";;
  mret (Sent tx_hashes).

(** The loop over the calls, from the one at [index] on. *)
Fixpoint send_calls (plan : ExecutionPlan.t) (execution_id : string)
    (execution : PendingStrategyExecution.t) (tx_hashes : list string) (index : nat)
    (calls : list StrategyExecutionCall.t) : B send_progress :=
  match calls with
  | [] => complete_sending execution_id execution tx_hashes
  | call :: calls =>
      stored ← expect (PendingStrategyExecution.calls execution !! index);
      if is_some (PendingStrategyExecutionCall.tx_hash stored)
      then send_calls plan execution_id execution tx_hashes (S index) calls
      else
        match strategy_call_to_send_eth_args_json call with
        | Err error =>
            drop_call execution tx_hashes index StrategyOutcomeKind.DeterministicFailure error
        | Ok args_json =>
            mret (AwaitSend (SendTask.mk plan execution_id execution tx_hashes index) args_json)
        end
  end.

Definition execute_strategy_plan (plan : ExecutionPlan.t) (execution_id : string)
    : B send_progress :=
  if bool_decide (ExecutionPlan.calls plan = []) then
    let error := "execution plan has no calls" in
    persist_strategy_outcome plan (classify_strategy_failure_kind error) None (Some error);;
    mthrow error
  else
    stored ← gets (pending_strategy_execution execution_id);
    execution ← lift (ok_or stored
      "pending strategy execution was not persisted before broadcast");
    fail_if (bool_decide (PendingStrategyExecutionCall.call
                            <$> PendingStrategyExecution.calls execution
                          <> ExecutionPlan.calls plan))
      "pending strategy execution does not match execution plan";;
    fail_if (PendingStrategyExecution.terminal_bookkeeping_applied execution)
      "strategy execution already reached a terminal failure";;
    let tx_hashes :=
      omap PendingStrategyExecutionCall.tx_hash (PendingStrategyExecution.calls execution) in
    send_calls plan execution_id execution tx_hashes 0 (ExecutionPlan.calls plan).

(** What [send_eth_tool] answered. *)
Definition resume_sending (task : SendTask.t) (answer : result string string)
    : B send_progress :=
  let '(SendTask.mk plan execution_id expected tx_hashes index) := task in
  match answer with
  | Err error => drop_call expected tx_hashes index (classify_strategy_failure_kind error) error
  | Ok tx_hash =>
      now_ns ← gets book_time_ns;
      let execution :=
        alter_call index (fun call =>
          call <| PendingStrategyExecutionCall.tx_hash := Some tx_hash |>
               <| PendingStrategyExecutionCall.state := StrategyExecutionCallState.Submitted |>
               <| PendingStrategyExecutionCall.submitted_at_ns := Some now_ns |>) expected
        <| PendingStrategyExecution.updated_at_ns := now_ns |>
        <| PendingStrategyExecution.next_check_at_ns := now_ns |> in
      updated ← compare_and_update_pending_strategy_execution expected execution;
      if (updated : bool)
      then send_calls plan execution_id execution (tx_hashes ++ [tx_hash]) (S index)
             (drop (S index) (ExecutionPlan.calls plan))
      else
        stored ← gets (pending_strategy_execution execution_id);
        current ← lift (ok_or stored "strategy execution disappeared after submission");
        fail_if (bool_decide (PendingStrategyExecution.state current
                              <> PendingStrategyExecutionState.Pending))
          "strategy execution reached a terminal state during submission";;
        mthrow "strategy execution submission lost a durable progress race"
  end.
End Sending.

(** ** The tool *)

Definition new_call (index : nat) (call : StrategyExecutionCall.t)
    : PendingStrategyExecutionCall.t :=
  PendingStrategyExecutionCall.mk (N.min (N.of_nat index) (max_uint 32)) call None
    StrategyExecutionCallState.Unattempted None None None None None.

Definition new_execution (execution_id turn_id plan_digest : string) (plan : ExecutionPlan.t)
    (now_ns : N) : PendingStrategyExecution.t :=
  PendingStrategyExecution.mk execution_id turn_id (ExecutionPlan.key plan)
    (ExecutionPlan.action_id plan) plan_digest (ExecutionPlan.asset_effects plan)
    (imap new_call (ExecutionPlan.calls plan)) PendingStrategyExecutionState.Pending
    now_ns now_ns now_ns 0 false false.

Definition failed_intent (intent : StrategyExecutionIntent.t) : ExecutionPlan.t :=
  ExecutionPlan.mk (StrategyExecutionIntent.key intent) (StrategyExecutionIntent.action_id intent)
    [] [] [] [] [].

Definition finding_text (finding : ValidationFinding.t) : string :=
  ValidationFinding.code finding +:+ ":" +:+ ValidationFinding.message finding.

Section Tool.
Context `{ext : Externals, libs : StrategyLibs, texts : SqlTexts, u256 : U256Text,
          rows : RowOrder}.

(** [execute_strategy_action_tool] up to the row it records: the plan and the
    row. *)
Definition prepare_strategy_action (args_json turn_id : string)
    (prior_same_turn_history current_batch_history : list ToolCallRecord.t)
    (cycles : CycleTelemetry.t) : B (ExecutionPlan.t * PendingStrategyExecution.t) :=
  intent ← lift (parse_strategy_intent_args args_json);
  now_ns ← gets book_time_ns;
  policy ← gets (current_autonomy_policy now_ns);
  let strategy_id := strategy_id_from_key (StrategyExecutionIntent.key intent) in
  fail_if (negb (ExecutionAuthority.autonomous_execution_enabled
                   (AutonomyPolicy.execution_authority policy)))
    (refused "autonomous_execution_disabled");;
  quarantined ← gets (active_strategy_quarantine strategy_id now_ns);
  match quarantined with
  | Some quarantine =>
      mthrow (refused ("strategy_quarantined:" +:+ StrategyQuarantine.reason quarantine))
  | None => mret tt
  end;;
  compiled ← gets (compile_intent intent);
  plan ← match compiled with
         | Ok plan => mret plan
         | Err error =>
             record_strategy_failure (failed_intent intent) error now_ns;; mthrow error
         end;
  validation ← gets (validate_execution_plan plan);
  if negb (ValidationReport.passed validation) then
    let error := join "; " (finding_text <$> ValidationReport.findings validation) in
    record_strategy_failure plan error now_ns;;
    mthrow ("strategy validation failed: " +:+ error)
  else
    allowed ← gets (enforce_strategy_execution_policy policy intent plan prior_same_turn_history
                      current_batch_history cycles);
    lift allowed;;
    plan_digest ← lift (execution_plan_digest plan);
    let execution_id := "strategy:" +:+ turn_id +:+ ":" +:+ plan_digest in
    mret (plan, new_execution execution_id turn_id plan_digest plan now_ns).

(** The rest of it up to its first [await]; a replay of an execution that has
    ended stops here.  The report of the hashes as JSON is left out. *)
Definition launch_execution (plan : ExecutionPlan.t) (execution : PendingStrategyExecution.t)
    : B send_progress :=
  pending ← insert_pending_strategy_execution execution;
  fail_if (PendingStrategyExecution.bookkeeping_applied pending)
    "strategy execution replay already confirmed";;
  fail_if (PendingStrategyExecution.terminal_bookkeeping_applied pending)
    "strategy execution replay already reached a terminal failure";;
  execute_strategy_plan plan (PendingStrategyExecution.execution_id execution).

Definition execute_strategy_action (args_json turn_id : string)
    (prior_same_turn_history current_batch_history : list ToolCallRecord.t)
    (cycles : CycleTelemetry.t) : B send_progress :=
  '(plan, execution) ← prepare_strategy_action args_json turn_id prior_same_turn_history
                         current_batch_history cycles;
  launch_execution plan execution.
End Tool.

(** ** Receipts *)

Definition STRATEGY_EXECUTION_RECEIPT_TIMEOUT_NS : N := 60 * 60 * 1000000000.
Definition STRATEGY_EXECUTION_RECHECK_NS : N := 15 * 1000000000.
Definition STRATEGY_EXECUTION_MAX_BACKOFF_NS : N := 5 * 60 * 1000000000.
Definition PENDING_STRATEGY_EXECUTION_SCAN_LIMIT : N := 20.

Module TransactionReceiptStatus.
Inductive t :=
| Pending
| Confirmed
| Reverted.
End TransactionReceiptStatus.

Module StrategyReceiptObservation.
Record t := mk {
  status : TransactionReceiptStatus.t;
  block_number : option N;
  block_hash : option string;
  latest_block : N;
}.
End StrategyReceiptObservation.

(** After the timeout nothing waits for an attempt any more. *)
Definition is_unattempted (call : PendingStrategyExecutionCall.t) : bool :=
  match PendingStrategyExecutionCall.state call with
  | StrategyExecutionCallState.Unattempted => true
  | StrategyExecutionCallState.Submitted =>
      negb (is_some (PendingStrategyExecutionCall.tx_hash call))
  | _ => false
  end.

Definition drop_unattempted (now_ns : N) (call : PendingStrategyExecutionCall.t)
    : PendingStrategyExecutionCall.t :=
  if is_unattempted call then
    call <| PendingStrategyExecutionCall.state := StrategyExecutionCallState.Dropped |>
         <| PendingStrategyExecutionCall.last_checked_at_ns := Some now_ns |>
         <| PendingStrategyExecutionCall.error :=
              Some "unattempted call recovery timeout exceeded" |>
  else call.

Definition expire_unattempted_strategy_calls (now_ns : N) (execution : PendingStrategyExecution.t)
    : PendingStrategyExecution.t :=
  if (saturating_sub now_ns (PendingStrategyExecution.created_at_ns execution)
      <? STRATEGY_EXECUTION_RECEIPT_TIMEOUT_NS)%N
  then execution
  else execution <| PendingStrategyExecution.calls ::= map (drop_unattempted now_ns) |>.

(** [consecutive_failures.min(8)] doublings. *)
Definition strategy_execution_rpc_backoff_ns (consecutive_failures : N) : N :=
  N.min (saturating_mul 64 STRATEGY_EXECUTION_RECHECK_NS
           (N.shiftl 1 (N.min consecutive_failures 8)))
    STRATEGY_EXECUTION_MAX_BACKOFF_NS.

Definition apply_strategy_receipt_observation (call : PendingStrategyExecutionCall.t)
    (observation : StrategyReceiptObservation.t) (now_ns execution_created_at_ns required_depth : N)
    : result string PendingStrategyExecutionCall.t :=
  let call := call
    <| PendingStrategyExecutionCall.last_checked_at_ns := Some now_ns |>
    <| PendingStrategyExecutionCall.receipt_block_number :=
         StrategyReceiptObservation.block_number observation |>
    <| PendingStrategyExecutionCall.receipt_block_hash :=
         StrategyReceiptObservation.block_hash observation |>
    <| PendingStrategyExecutionCall.error := None |> in
  match StrategyReceiptObservation.status observation with
  | TransactionReceiptStatus.Pending =>
      let submitted :=
        default execution_created_at_ns (PendingStrategyExecutionCall.submitted_at_ns call) in
      if (STRATEGY_EXECUTION_RECEIPT_TIMEOUT_NS <=? saturating_sub now_ns submitted)%N
      then Ok (call
        <| PendingStrategyExecutionCall.state := StrategyExecutionCallState.Dropped |>
        <| PendingStrategyExecutionCall.error := Some "receipt timeout exceeded" |>)
      else Ok call
  | TransactionReceiptStatus.Reverted =>
      Ok (call
        <| PendingStrategyExecutionCall.state := StrategyExecutionCallState.Reverted |>
        <| PendingStrategyExecutionCall.error := Some "transaction receipt status was 0x0" |>)
  | TransactionReceiptStatus.Confirmed =>
      let latest_block := StrategyReceiptObservation.latest_block observation in
      receipt_block ← ok_or (StrategyReceiptObservation.block_number observation)
        "confirmed strategy receipt missing block number";
      err_if (latest_block <? receipt_block)%N
        ("receipt block " +:+ pretty receipt_block +:+ " is greater than latest head "
         +:+ pretty latest_block);;
      confirmations ← ok_or (checked_add 64 (latest_block - receipt_block) 1)
        "strategy receipt confirmation arithmetic overflow";
      if (N.max required_depth 1 <=? confirmations)%N
      then Ok (call <| PendingStrategyExecutionCall.state := StrategyExecutionCallState.Confirmed |>)
      else Ok call
  end.

(** ** Reconciliation *)

Definition in_state (state : StrategyExecutionCallState.t) (call : PendingStrategyExecutionCall.t)
    : bool :=
  bool_decide (PendingStrategyExecutionCall.state call = state).

(** The next submitted call with a hash, from [index] on. *)
Fixpoint next_observed (index : nat) (calls : list PendingStrategyExecutionCall.t)
    : option (nat * string) :=
  match calls with
  | [] => None
  | call :: calls =>
      match in_state StrategyExecutionCallState.Submitted call,
            PendingStrategyExecutionCall.tx_hash call with
      | true, Some tx_hash => Some (index, tx_hash)
      | _, _ => next_observed (S index) calls
      end
  end.

(** The local variables of the loop at its [await]. *)
Module CheckTask.
Record t := mk {
  now_ns : N;
  required_depth : N;
  rpc_error : option string;
  expected : PendingStrategyExecution.t;
  execution : PendingStrategyExecution.t;
  index : nat;
  rest : list PendingStrategyExecution.t;
}.
End CheckTask.

Inductive check_progress :=
| Checked
| AwaitReceipt (task : CheckTask.t) (tx_hash : string).

Section Reconcile.
Context `{ext : Externals, libs : StrategyLibs, texts : SqlTexts, rows : RowOrder}.

Definition count_calls (state : StrategyExecutionCallState.t)
    (execution : PendingStrategyExecution.t) : nat :=
  length (filter (fun call => in_state state call = true)
            (PendingStrategyExecution.calls execution)).

(** The end of the round of an execution whose receipts were all looked up. *)
Definition settle_execution (now_ns : N) (expected execution : PendingStrategyExecution.t)
    : B unit :=
  let execution := execution
    <| PendingStrategyExecution.updated_at_ns := now_ns |>
    <| PendingStrategyExecution.consecutive_rpc_failures := 0%N |> in
  let confirmed := count_calls StrategyExecutionCallState.Confirmed execution in
  let reverted := negb (Nat.eqb (count_calls StrategyExecutionCallState.Reverted execution) 0) in
  let dropped := negb (Nat.eqb (count_calls StrategyExecutionCallState.Dropped execution) 0) in
  let calls := PendingStrategyExecution.calls execution in
  if reverted || dropped then
    let execution := execution
      <| PendingStrategyExecution.state :=
           if negb (Nat.eqb confirmed 0) then PendingStrategyExecutionState.PartialFailure
           else if reverted then PendingStrategyExecutionState.Reverted
           else PendingStrategyExecutionState.Dropped |>
      <| PendingStrategyExecution.next_check_at_ns := now_ns |> in
    let '(kind, reason) :=
      if reverted then (StrategyOutcomeKind.DeterministicFailure, "strategy transaction reverted")
      else (StrategyOutcomeKind.NondeterministicFailure, "strategy transaction dropped") in
    apply_terminal_strategy_failure execution kind reason now_ns;; mret tt
  else if Nat.eqb confirmed (length calls) && negb (bool_decide (calls = [])) then
    apply_confirmed_strategy_execution execution now_ns;; mret tt
  else
    compare_and_update_pending_strategy_execution expected (execution
      <| PendingStrategyExecution.state := PendingStrategyExecutionState.Pending |>
      <| PendingStrategyExecution.next_check_at_ns :=
           saturating_add 64 now_ns STRATEGY_EXECUTION_RECHECK_NS |>);;
    mret tt.

(** The end of a round that the transport broke off. *)
Definition back_off (now_ns : N) (expected execution : PendingStrategyExecution.t) (index : nat)
    (error : string) : B unit :=
  let execution :=
    alter_call index (fun call =>
      call <| PendingStrategyExecutionCall.last_checked_at_ns := Some now_ns |>
           <| PendingStrategyExecutionCall.error := Some error |>) execution
    <| PendingStrategyExecution.updated_at_ns := now_ns |>
    <| PendingStrategyExecution.consecutive_rpc_failures ::= fun n => saturating_add 32 n 1 |> in
  let backoff := strategy_execution_rpc_backoff_ns
                   (PendingStrategyExecution.consecutive_rpc_failures execution) in
  compare_and_update_pending_strategy_execution expected (execution
    <| PendingStrategyExecution.next_check_at_ns := saturating_add 64 now_ns backoff |>);;
  mret tt.

(** The loop over the due executions. *)
Fixpoint check_executions (now_ns required_depth : N) (rpc_error : option string)
    (pending : list PendingStrategyExecution.t) : B check_progress :=
  match pending with
  | [] => mret Checked
  | expected :: rest =>
      let execution := expire_unattempted_strategy_calls now_ns expected in
      match next_observed 0 (PendingStrategyExecution.calls execution), rpc_error with
      | None, _ =>
          settle_execution now_ns expected execution;;
          check_executions now_ns required_depth rpc_error rest
      | Some (index, _), Some error =>
          back_off now_ns expected execution index error;;
          check_executions now_ns required_depth rpc_error rest
      | Some (index, tx_hash), None =>
          mret (AwaitReceipt (CheckTask.mk now_ns required_depth rpc_error expected execution index
                                rest) tx_hash)
      end
  end.

(** What [strategy_receipt_observation] answered. *)
Definition resume_check (task : CheckTask.t)
    (observation : result string StrategyReceiptObservation.t) : B check_progress :=
  let '(CheckTask.mk now_ns required_depth rpc_error expected execution index rest) := task in
  match observation with
  | Err error =>
      back_off now_ns expected execution index error;;
      check_executions now_ns required_depth rpc_error rest
  | Ok observation =>
      call ← expect (PendingStrategyExecution.calls execution !! index);
      observed ← lift (apply_strategy_receipt_observation call observation now_ns
                         (PendingStrategyExecution.created_at_ns execution) required_depth);
      let execution := alter_call index (fun _ => observed) execution in
      match next_observed (S index) (drop (S index) (PendingStrategyExecution.calls execution)) with
      | Some (index, tx_hash) =>
          mret (AwaitReceipt (CheckTask.mk now_ns required_depth rpc_error expected execution index
                                rest) tx_hash)
      | None =>
          settle_execution now_ns expected execution;;
          check_executions now_ns required_depth rpc_error rest
      end
  end.

(** [rpc_error] is the error of [HttpEvmRpcClient::from_snapshot], if it has
    one. *)
Definition reconcile_pending_strategy_executions (now_ns : N) (rpc_error : option string)
    : B check_progress :=
  pending ← gets (list_due_pending_strategy_executions now_ns PENDING_STRATEGY_EXECUTION_SCAN_LIMIT);
  required_depth ← gets (fun s =>
    N.max (EvmPollCursor.confirmation_depth (RuntimeSnapshot.evm_cursor (book_snapshot s))) 1);
  check_executions now_ns required_depth rpc_error pending.
End Reconcile.
