(* ===== verification/StrategyLedger.v ===== *)
(** * StrategyLedger: executions keep one ledger

    Sending and reconciling interleave: at every [await] of one, messages of
    the others run.  This file states what they may do to the rows of the
    executions, the outcome statistics and the budgets together, as a relation
    with five kinds of moves ([move]); shows that every message of
    [StrategyExecution] only makes such moves; and derives that a closed
    execution is never touched again and that statistics and budgets are the
    totals of the closed executions. *)

From S2P Require Import Prelude Text SpawnProtocol Types Externals AgentTypes Evm TopUp AgentStore StrategyTypes StrategyStore StrategyValidator StrategyAbi StrategyCompiler StrategyPlan StrategyPolicy StrategyExecution.

(** ** Rows *)

Definition is_confirmed (execution : PendingStrategyExecution.t) : bool :=
  bool_decide (PendingStrategyExecution.state execution = PendingStrategyExecutionState.Confirmed)
  && PendingStrategyExecution.bookkeeping_applied execution
  && negb (PendingStrategyExecution.terminal_bookkeeping_applied execution).

Definition is_failed (execution : PendingStrategyExecution.t) : bool :=
  negb (bool_decide (PendingStrategyExecution.state execution
                     = PendingStrategyExecutionState.Pending))
  && negb (bool_decide (PendingStrategyExecution.state execution
                        = PendingStrategyExecutionState.Confirmed))
  && negb (PendingStrategyExecution.bookkeeping_applied execution)
  && PendingStrategyExecution.terminal_bookkeeping_applied execution.

(** What bookkeeping works on. *)
Record same_ledger (s s' : Book.t) : Prop := {
  same_rows : Book.pending_strategy_executions s' = Book.pending_strategy_executions s;
  same_stats : Book.strategy_outcome_stats s' = Book.strategy_outcome_stats s;
  same_budgets : Book.strategy_budgets s' = Book.strategy_budgets s;
}.

#[export] Instance same_ledger_preorder : PreOrder same_ledger.
Proof.
  split; [by intros s|]. intros s t u [Hr1 Hs1 Hb1] [Hr2 Hs2 Hb2]. split; congruence.
Qed.

(** ** Moves *)

Section Moves.
Context `{ext : Externals, libs : StrategyLibs}.

Definition stats_key (execution : PendingStrategyExecution.t) : string :=
  strategy_outcome_stats_record_key (PendingStrategyExecution.key execution).
Definition budget_key (execution : PendingStrategyExecution.t) : string :=
  strategy_budget_record_key (PendingStrategyExecution.key execution).
Definition execution_calls (execution : PendingStrategyExecution.t) : list StrategyExecutionCall.t :=
  PendingStrategyExecutionCall.call <$> PendingStrategyExecution.calls execution.

(** The row of [execution] replaces an open one. *)
Record replaces_open (s s' : Book.t) (execution : PendingStrategyExecution.t) : Prop := {
  replaced : exists current,
    pending_strategy_execution (PendingStrategyExecution.execution_id execution) s = Some current
    /\ is_open current = true;
  replaced_rows : Book.pending_strategy_executions s'
    = <[PendingStrategyExecution.execution_id execution := execution]>
        (Book.pending_strategy_executions s);
}.

(** One more run in the statistics of the execution's template. *)
Definition counts_run (s s' : Book.t) (execution : PendingStrategyExecution.t)
    (kind : StrategyOutcomeKind.t) : Prop :=
  exists error tx_hash now_ns,
    Book.strategy_outcome_stats s'
    = <[stats_key execution :=
          count_run kind error tx_hash now_ns
            (stats_or_empty (PendingStrategyExecution.key execution) s)]>
        (Book.strategy_outcome_stats s).

(** The value the execution sent is added to the budget spent. *)
Definition spends (s s' : Book.t) (execution : PendingStrategyExecution.t) : Prop :=
  exists spent, spent_wei 0 (execution_calls execution) = Ok spent
    /\ if (spent =? 0)%N then Book.strategy_budgets s' = Book.strategy_budgets s
       else exists current,
         parse_u256_decimal (default "0" (Book.strategy_budgets s !! budget_key execution))
           = Ok current
         /\ in_uint 256 (current + spent)
         /\ Book.strategy_budgets s'
            = <[budget_key execution := pretty (current + spent)%N]> (Book.strategy_budgets s).

Inductive move (s s' : Book.t) : Prop :=
| move_none : same_ledger s s' -> move s s'
| move_insert execution :
    pending_strategy_execution (PendingStrategyExecution.execution_id execution) s = None ->
    is_open execution = true ->
    Book.pending_strategy_executions s'
      = <[PendingStrategyExecution.execution_id execution := execution]>
          (Book.pending_strategy_executions s) ->
    Book.strategy_outcome_stats s' = Book.strategy_outcome_stats s ->
    Book.strategy_budgets s' = Book.strategy_budgets s -> move s s'
| move_progress execution :
    replaces_open s s' execution -> is_open execution = true ->
    Book.strategy_outcome_stats s' = Book.strategy_outcome_stats s ->
    Book.strategy_budgets s' = Book.strategy_budgets s -> move s s'
| move_confirm execution :
    replaces_open s s' execution -> is_confirmed execution = true ->
    counts_run s s' execution StrategyOutcomeKind.Success -> spends s s' execution -> move s s'
| move_fail execution kind :
    replaces_open s s' execution -> is_failed execution = true ->
    kind <> StrategyOutcomeKind.Success -> counts_run s s' execution kind ->
    Book.strategy_budgets s' = Book.strategy_budgets s -> move s s'.

(** A computation that only makes moves, whether it returns or fails. *)
Definition moves {A} (m : B A) : Prop := stable (fun _ => True) (rtc move) m.

Lemma moves_bind {A C} (m : B A) (k : A -> B C) (Q : A -> Prop) :
  moves m -> (forall s a s', m s = Done a s' -> Q a) -> (forall a, Q a -> moves (k a)) ->
  moves (m ≫= k).
Proof.
  intros Hm HQ Hk s s' Hfinal _. unfold mbind, M_bind in Hfinal. specialize (Hm s).
  destruct (m s) as [a t|e t|] eqn:Hrun; [| |discriminate].
  - destruct (Hm t eq_refl I) as [_ Hst].
    destruct (Hk a (HQ _ _ _ Hrun) t s' Hfinal I) as [_ Hts']. split; [done|]. by etrans.
  - injection Hfinal as ->. by apply Hm.
Qed.

Lemma moves_seq {A C} (m : B A) (k : A -> B C) :
  moves m -> (forall a, moves (k a)) -> moves (m ≫= k).
Proof. intros Hm Hk. apply (moves_bind m k (fun _ => True)); auto. Qed.

Lemma moves_idle {A} (m : B A) :
  (forall s s', final_state (m s) = Some s' -> same_ledger s s') -> moves m.
Proof.
  intros Hm s s' Hfinal _. split; [done|]. apply rtc_once, move_none. by apply Hm.
Qed.

Lemma moves_modify (f : Book.t -> Book.t) : (forall s, same_ledger s (f s)) -> moves (modify f).
Proof. intros Hf. apply moves_idle. by intros s s' [= <-]. Qed.

Lemma moves_ret {A} (a : A) : moves (mret a).
Proof. by apply moves_idle; intros s s' [= <-]. Qed.
Lemma moves_throw {A} (e : string) : moves (A := A) (mthrow e).
Proof. by apply moves_idle; intros s s' [= <-]. Qed.
Lemma moves_gets {A} (f : Book.t -> A) : moves (gets f).
Proof. by apply moves_idle; intros s s' [= <-]. Qed.
Lemma moves_lift {A} (r : result string A) : moves (lift r).
Proof. apply moves_idle. intros s s'. by destruct r; intros [= <-]. Qed.
Lemma moves_expect {A} (o : option A) : moves (expect o).
Proof. apply moves_idle. intros s s'. by destruct o; intros [= <-]. Qed.
Lemma moves_fail_if (b : bool) (e : string) : moves (fail_if b e).
Proof. destruct b; [apply moves_throw|apply moves_ret]. Qed.
Lemma moves_catch {A} (m : B A) : moves m -> moves (catch m).
Proof. intros Hm s s' Hf. apply Hm. unfold catch in Hf. by destruct (m s). Qed.
End Moves.

Create HintDb moves discriminated.
#[export] Hint Resolve moves_ret moves_throw moves_gets moves_lift moves_expect moves_fail_if
  moves_catch : moves.

(** Walk through a computation bind by bind. *)
Ltac moves_walk :=
  repeat first
    [ solve [eauto with moves]
    | apply moves_seq; [solve [eauto with moves]|intros ?]
    | match goal with
      | |- moves (if ?b then _ else _) => destruct b
      | |- moves (match ?x with _ => _ end) => destruct x
      end
    | apply moves_seq; [|intros ?] ].

(** ** Storage operations make moves *)

Section Operations.
#[local] Set Default Proof Using "All".
Context `{ext : Externals, libs : StrategyLibs, texts : SqlTexts}.

Lemma moves_quarantine quarantine : moves (set_strategy_quarantine quarantine).
Proof.
  unfold set_strategy_quarantine. moves_walk. apply moves_modify. intros s. by split.
Qed.
#[local] Hint Resolve moves_quarantine : moves.

Lemma moves_insert execution :
  is_open execution = true -> moves (insert_pending_strategy_execution execution).
Proof.
  intros Hopen. unfold insert_pending_strategy_execution.
  apply moves_seq; [apply moves_fail_if|intros _]. apply moves_seq; [apply moves_lift|intros _].
  intros s s' Hfinal _. split; [done|]. unfold mbind, M_bind, gets in Hfinal.
  destruct (pending_strategy_execution _ s) as [existing|] eqn:Hstored.
  - apply rtc_once, move_none. revert Hfinal. unfold fail_if. by destruct (bool_decide _); intros [= <-].
  - injection Hfinal as <-. by apply rtc_once, (move_insert _ _ execution).
Qed.

Lemma moves_compare_and_update expected desired :
  moves (compare_and_update_pending_strategy_execution expected desired).
Proof.
  unfold compare_and_update_pending_strategy_execution.
  destruct (_ || _) eqn:Hclosed; [apply moves_ret|].
  apply orb_false_iff in Hclosed as [[Hid Hexpected]%orb_false_iff Hdesired].
  apply negb_false_iff in Hexpected, Hdesired.
  intros s s' Hfinal _. split; [done|]. unfold mbind, M_bind, gets in Hfinal.
  case_bool_decide as Hstored; injection Hfinal as <-.
  - apply rtc_once, (move_progress _ _ desired); [|done..]. split; [by exists expected|done].
  - apply rtc_once, move_none. done.
Qed.

(** The book after a confirmation. *)
Definition confirmed_book (execution : PendingStrategyExecution.t)
    (change : option (option ActiveExposure.t)) (stats : StrategyOutcomeStats.t)
    (budget : option string) (strategy_id : string) (s : Book.t) : Book.t :=
  let s := match change with
           | Some (Some exposure) =>
               s <| Book.active_exposures ::= <[ActiveExposure.strategy_id exposure := exposure]> |>
           | Some None => remove_active_exposure strategy_id s
           | None => s
           end in
  let s := s <| Book.strategy_outcome_stats ::= <[stats_key execution := stats]> |> in
  let s := match budget with
           | Some value => s <| Book.strategy_budgets ::= <[budget_key execution := value]> |>
           | None => s
           end in
  write_execution execution (clear_strategy_quarantine strategy_id s).

Lemma confirm_strategy_execution_run execution change stats budget strategy_id s :
  confirm_strategy_execution execution change stats budget strategy_id s
  = match pending_strategy_execution (PendingStrategyExecution.execution_id execution) s with
    | None => Fail no_rows s
    | Some current =>
        if is_open current
        then Done true (confirmed_book execution change stats budget strategy_id s)
        else Done false s
    end.
Proof.
  unfold confirm_strategy_execution, confirm_strategy_execution_atomically. exec.
  destruct (pending_strategy_execution _ s) as [current|]; [|done].
  destruct (is_open current); simpl; [|done].
  by destruct change as [[exposure|]|], budget.
Qed.

(** The book after a failure. *)
Definition failed_book (execution : PendingStrategyExecution.t) (stats : StrategyOutcomeStats.t)
    (quarantine : StrategyQuarantine.t) (activation : option TemplateActivationState.t)
    (s : Book.t) : Book.t :=
  let s := s <| Book.strategy_outcome_stats ::= <[stats_key execution := stats]> |>
             <| Book.strategy_quarantines ::=
                  <[StrategyQuarantine.strategy_id quarantine := quarantine]> |> in
  let s := match activation with
           | Some state =>
               s <| Book.strategy_activations ::=
                      <[template_state_record_key "activation"
                          (PendingStrategyExecution.key execution) := state]> |>
           | None => s
           end in
  write_execution execution s.

Lemma fail_strategy_execution_run execution stats quarantine activation s :
  fail_strategy_execution execution stats quarantine activation s
  = match pending_strategy_execution (PendingStrategyExecution.execution_id execution) s with
    | None => Fail no_rows s
    | Some current =>
        if is_open current then Done true (failed_book execution stats quarantine activation s)
        else Done false s
    end.
Proof.
  unfold fail_strategy_execution, fail_strategy_execution_atomically. exec.
  destruct (pending_strategy_execution _ s) as [current|]; [|done].
  destruct (is_open current); simpl; [|done]. by destruct activation.
Qed.

Lemma failed_book_ledger execution stats quarantine activation s :
  Book.pending_strategy_executions (failed_book execution stats quarantine activation s)
    = <[PendingStrategyExecution.execution_id execution := execution]>
        (Book.pending_strategy_executions s)
  /\ Book.strategy_outcome_stats (failed_book execution stats quarantine activation s)
    = <[stats_key execution := stats]> (Book.strategy_outcome_stats s)
  /\ Book.strategy_budgets (failed_book execution stats quarantine activation s)
    = Book.strategy_budgets s.
Proof. by destruct activation. Qed.

Lemma confirmed_book_ledger execution change stats budget strategy_id s :
  Book.pending_strategy_executions (confirmed_book execution change stats budget strategy_id s)
    = <[PendingStrategyExecution.execution_id execution := execution]>
        (Book.pending_strategy_executions s)
  /\ Book.strategy_outcome_stats (confirmed_book execution change stats budget strategy_id s)
    = <[stats_key execution := stats]> (Book.strategy_outcome_stats s)
  /\ Book.strategy_budgets (confirmed_book execution change stats budget strategy_id s)
    = match budget with
      | Some value => <[budget_key execution := value]> (Book.strategy_budgets s)
      | None => Book.strategy_budgets s
      end.
Proof. by destruct change as [[exposure|]|], budget. Qed.

(** What [apply_terminal_strategy_failure] does to an open row. *)
Lemma apply_terminal_strategy_failure_run execution kind reason now_ns s :
  PendingStrategyExecution.bookkeeping_applied execution = false ->
  PendingStrategyExecution.terminal_bookkeeping_applied execution = false ->
  PendingStrategyExecution.state execution <> PendingStrategyExecutionState.Pending ->
  kind <> StrategyOutcomeKind.Success ->
  let key := PendingStrategyExecution.key execution in
  let stats := count_run kind (Some reason)
                 (last_hash (PendingStrategyExecution.calls execution)) now_ns
                 (stats_or_empty key s) in
  apply_terminal_strategy_failure execution kind reason now_ns s
  = fail_strategy_execution (close_failed now_ns execution) stats
      (count_failure (strategy_id_from_key key) reason now_ns s)
      (auto_deactivation_for_stats stats now_ns s) s.
Proof.
  intros Hbook Hterminal Hstate Hkind key stats. unfold apply_terminal_strategy_failure.
  rewrite Hbook, Hterminal, (bool_decide_eq_false_2 _ Hstate), (bool_decide_eq_false_2 _ Hkind).
  done.
Qed.

Lemma moves_terminal execution kind reason now_ns :
  PendingStrategyExecution.state execution <> PendingStrategyExecutionState.Confirmed ->
  moves (apply_terminal_strategy_failure execution kind reason now_ns).
Proof.
  intros Hconfirmed.
  destruct (decide (PendingStrategyExecution.bookkeeping_applied execution = false
    /\ PendingStrategyExecution.terminal_bookkeeping_applied execution = false
    /\ PendingStrategyExecution.state execution <> PendingStrategyExecutionState.Pending
    /\ kind <> StrategyOutcomeKind.Success)) as [(Hbook & Hterminal & Hstate & Hkind)|Hnot].
  - intros s s'. rewrite apply_terminal_strategy_failure_run by done.
    rewrite fail_strategy_execution_run.
    destruct (pending_strategy_execution _ s) as [current|] eqn:Hcurrent;
      [|by intros [= <-]; split; [|reflexivity]].
    destruct (is_open current) eqn:Hopen; [|by intros [= <-]; split; [|reflexivity]].
    intros [= <-] _. split; [done|]. apply rtc_once.
    match goal with |- move s (failed_book ?e ?st ?q ?a s) =>
      destruct (failed_book_ledger e st q a s) as (Hrows & Hstats & Hbudgets) end.
    apply (move_fail _ _ (close_failed now_ns execution) kind); [|..|done].
    + split; [by exists current|done].
    + unfold is_failed, close_failed. simpl_set. rewrite Hbook.
      by rewrite (bool_decide_eq_false_2 _ Hstate), (bool_decide_eq_false_2 _ Hconfirmed).
    + done.
    + eexists _, _, _. exact Hstats.
  - apply moves_idle. intros s s'. unfold apply_terminal_strategy_failure.
    destruct (_ || _) eqn:Hclosed; [by intros [= <-]|].
    apply orb_false_iff in Hclosed as [Hbook Hterminal].
    unfold mbind, M_bind, fail_if, gets.
    case_bool_decide as Hstate; [by intros [= <-]|].
    case_bool_decide as Hkind; [by intros [= <-]|]. destruct Hnot. done.
Qed.

Lemma moves_confirmed execution now_ns :
  PendingStrategyExecution.terminal_bookkeeping_applied execution = false ->
  moves (apply_confirmed_strategy_execution execution now_ns).
Proof.
  intros Hterminal. unfold apply_confirmed_strategy_execution.
  destruct (PendingStrategyExecution.bookkeeping_applied execution); [apply moves_ret|].
  intros s s'. unfold mbind, M_bind, get_state, lift.
  destruct (exposure_change _ now_ns s) as [change|]; [|by intros [= <-]; split; [|reflexivity]].
  destruct (spent_wei 0 _) as [spent|] eqn:Hspent; [|by intros [= <-]; split; [|reflexivity]].
  destruct (updated_budget _ spent s) as [budget|] eqn:Hbudget;
    [|by intros [= <-]; split; [|reflexivity]].
  rewrite confirm_strategy_execution_run.
  destruct (pending_strategy_execution _ s) as [current|] eqn:Hcurrent;
    [|by intros [= <-]; split; [|reflexivity]].
  destruct (is_open current) eqn:Hopen; [|by intros [= <-]; split; [|reflexivity]].
  intros [= <-] _. split; [done|]. apply rtc_once.
  match goal with |- move s (confirmed_book ?e ?c ?st ?b ?i s) =>
    destruct (confirmed_book_ledger e c st b i s) as (Hrows & Hstats & Hbudgets) end.
  apply (move_confirm _ _ (close_confirmed now_ns execution)).
  - split; [by exists current|done].
  - unfold is_confirmed, close_confirmed. simpl_set. by rewrite Hterminal.
  - eexists _, _, _. exact Hstats.
  - exists spent. split; [exact Hspent|]. rewrite Hbudgets. unfold updated_budget in Hbudget.
    destruct (spent =? 0)%N; [by injection Hbudget as <-|].
    apply result_bind_Ok in Hbudget as (value & Hvalue & Hbudget).
    apply result_bind_Ok in Hbudget as (updated & [-> Huint]%ok_or_Ok%checked_add_Some & [= <-]).
    exists value. done.
Qed.
End Operations.

(** ** Messages make moves *)

(** A computation whose result satisfies [Q]. *)
Definition ensures {A} (m : B A) (Q : A -> Prop) : Prop := forall s a s', m s = Done a s' -> Q a.

Lemma ensures_ret {A} (a : A) (Q : A -> Prop) : Q a -> ensures (mret a) Q.
Proof. by intros HQ s a' s' [= <- <-]. Qed.
Lemma ensures_throw {A} (e : string) (Q : A -> Prop) : ensures (mthrow e) Q.
Proof. by intros s a s' [=]. Qed.
Lemma ensures_bind {A C} (m : B A) (k : A -> B C) (P : A -> Prop) (Q : C -> Prop) :
  ensures m P -> (forall a, P a -> ensures (k a) Q) -> ensures (m ≫= k) Q.
Proof.
  intros Hm Hk s c s' (a & t & Hrun & Hdone)%M_bind_Done. eapply Hk; [|exact Hdone].
  by eapply Hm.
Qed.
Lemma ensures_seq {A C} (m : B A) (k : A -> B C) (Q : C -> Prop) :
  (forall a, ensures (k a) Q) -> ensures (m ≫= k) Q.
Proof. intros Hk. by apply (ensures_bind m k (fun _ => True)). Qed.

(** The local copies that tasks carry are open. *)
Definition send_ok (progress : send_progress) : Prop :=
  match progress with
  | Sent _ => True
  | AwaitSend task _ => is_open (SendTask.execution task) = true
  end.

Definition check_ok (progress : check_progress) : Prop :=
  match progress with
  | Checked => True
  | AwaitReceipt task _ =>
      is_open (CheckTask.expected task) = true /\ is_open (CheckTask.execution task) = true
      /\ Forall (fun execution => is_open execution = true) (CheckTask.rest task)
  end.

Lemma is_open_spec execution :
  is_open execution = true <->
  PendingStrategyExecution.state execution = PendingStrategyExecutionState.Pending
  /\ PendingStrategyExecution.bookkeeping_applied execution = false
  /\ PendingStrategyExecution.terminal_bookkeeping_applied execution = false.
Proof. unfold is_open. rewrite !andb_true_iff, !negb_true_iff, bool_decide_eq_true. naive_solver. Qed.

Section Messages.
#[local] Set Default Proof Using "All".
Context `{ext : Externals, libs : StrategyLibs, texts : SqlTexts}.
#[local] Hint Resolve moves_quarantine moves_compare_and_update : moves.

(** *** Sending *)

Lemma moves_drop_call execution tx_hashes index kind error :
  moves (drop_call execution tx_hashes index kind error).
Proof.
  unfold drop_call. apply moves_seq; [apply moves_gets|intros now_ns].
  apply moves_seq; [|intros _; apply moves_throw]. apply moves_terminal. simpl_set.
  by case_bool_decide.
Qed.

Lemma moves_complete_sending execution_id execution tx_hashes :
  moves (complete_sending execution_id execution tx_hashes).
Proof. unfold complete_sending. moves_walk. Qed.
#[local] Hint Resolve moves_drop_call moves_complete_sending : moves.

Lemma moves_send_calls plan execution_id execution tx_hashes index calls :
  moves (send_calls plan execution_id execution tx_hashes index calls).
Proof.
  revert index. induction calls as [|call calls IH]; intros index; simpl; [apply moves_complete_sending|].
  moves_walk.
Qed.
#[local] Hint Resolve moves_send_calls : moves.

Lemma send_calls_ok plan execution_id execution tx_hashes index calls :
  is_open execution = true ->
  ensures (send_calls plan execution_id execution tx_hashes index calls) send_ok.
Proof.
  intros Hopen. revert index. induction calls as [|call calls IH]; intros index; simpl.
  - unfold complete_sending. do 4 (apply ensures_seq; intros ?). apply ensures_seq. intros _.
    by apply ensures_ret.
  - apply ensures_seq. intros stored. destruct (is_some _); [apply IH|].
    destruct (strategy_call_to_send_eth_args_json call); [by apply ensures_ret|].
    unfold drop_call. do 2 (apply ensures_seq; intros ?). apply ensures_throw.
Qed.

Lemma moves_execute_strategy_plan plan execution_id :
  ExecutionPlan.calls plan <> [] -> moves (execute_strategy_plan plan execution_id).
Proof.
  intros Hcalls. unfold execute_strategy_plan. rewrite (bool_decide_eq_false_2 _ Hcalls). moves_walk.
Qed.

(** Rows are open, confirmed or failed. *)
Definition rows_proper (s : Book.t) : Prop :=
  forall execution_id execution, pending_strategy_execution execution_id s = Some execution ->
    PendingStrategyExecution.execution_id execution = execution_id
    /\ (is_open execution || is_confirmed execution || is_failed execution = true).

Lemma moves_resume_sending task answer : moves (resume_sending task answer).
Proof. destruct task as [plan execution_id execution tx_hashes index]. unfold resume_sending. moves_walk. Qed.

Lemma resume_sending_ok task answer :
  is_open (SendTask.execution task) = true -> ensures (resume_sending task answer) send_ok.
Proof.
  destruct task as [plan execution_id execution tx_hashes index]. simpl. intros Hopen.
  unfold resume_sending. destruct answer as [tx_hash|error].
  - apply ensures_seq. intros now_ns. apply ensures_seq. intros [|].
    + apply send_calls_ok. apply is_open_spec. simpl_set. by apply is_open_spec.
    + apply ensures_seq. intros stored. apply ensures_seq. intros current.
      apply ensures_seq. intros _. apply ensures_throw.
  - unfold drop_call. do 2 (apply ensures_seq; intros ?). apply ensures_throw.
Qed.

(** *** Reconciling *)

Lemma is_open_expire now_ns execution :
  is_open (expire_unattempted_strategy_calls now_ns execution) = is_open execution.
Proof. unfold expire_unattempted_strategy_calls. by destruct (_ <? _)%N. Qed.

Lemma moves_settle now_ns expected execution :
  is_open execution = true -> moves (settle_execution now_ns expected execution).
Proof.
  intros (Hstate & Hbook & Hterminal)%is_open_spec. unfold settle_execution.
  destruct (_ || _).
  - destruct (negb (Nat.eqb (count_calls StrategyExecutionCallState.Reverted _) 0));
      (apply moves_seq; [apply moves_terminal|intros _; apply moves_ret]);
      simpl_set; by case_match.
  - destruct (_ && _); [|moves_walk].
    apply moves_seq; [by apply moves_confirmed|intros _; apply moves_ret].
Qed.

Lemma moves_back_off now_ns expected execution index error :
  moves (back_off now_ns expected execution index error).
Proof. unfold back_off. moves_walk. Qed.

Lemma moves_check_executions now_ns depth rpc_error pending :
  Forall (fun execution => is_open execution = true) pending ->
  moves (check_executions now_ns depth rpc_error pending).
Proof.
  induction 1 as [|expected rest Hopen Hrest IH]; simpl; [apply moves_ret|].
  rewrite <-(is_open_expire now_ns) in Hopen.
  destruct (next_observed 0 _) as [[index tx_hash]|].
  - destruct rpc_error; [|apply moves_ret].
    apply moves_seq; [apply moves_back_off|by intros _].
  - apply moves_seq; [by apply moves_settle|by intros _].
Qed.

Lemma check_executions_ok now_ns depth rpc_error pending :
  Forall (fun execution => is_open execution = true) pending ->
  ensures (check_executions now_ns depth rpc_error pending) check_ok.
Proof.
  induction 1 as [|expected rest Hopen Hrest IH]; simpl; [by apply ensures_ret|].
  destruct (next_observed 0 _) as [[index tx_hash]|].
  - destruct rpc_error; [by apply ensures_seq|]. apply ensures_ret.
    split; [done|]. split; [|done]. simpl. by rewrite is_open_expire.
  - by apply ensures_seq.
Qed.

Lemma moves_resume_check task observation :
  check_ok (AwaitReceipt task "") -> moves (resume_check task observation).
Proof.
  destruct task as [now_ns depth rpc_error expected execution index rest]. simpl.
  intros (Hexpected & Hexecution & Hrest). unfold resume_check.
  destruct observation as [observation|error].
  - apply moves_seq; [apply moves_expect|intros call].
    apply moves_seq; [apply moves_lift|intros observed].
    destruct (next_observed _ _) as [[next tx_hash]|]; [apply moves_ret|].
    apply moves_seq; [|intros _; by apply moves_check_executions].
    apply moves_settle. apply is_open_spec. unfold alter_call. simpl_set. by apply is_open_spec.
  - apply moves_seq; [apply moves_back_off|intros _; by apply moves_check_executions].
Qed.

Lemma resume_check_ok task observation :
  check_ok (AwaitReceipt task "") -> ensures (resume_check task observation) check_ok.
Proof.
  destruct task as [now_ns depth rpc_error expected execution index rest]. simpl.
  intros (Hexpected & Hexecution & Hrest). unfold resume_check.
  destruct observation as [observation|error].
  - do 2 (apply ensures_seq; intros ?).
    destruct (next_observed _ _) as [[next tx_hash]|].
    + apply ensures_ret. done.
    + apply ensures_seq. intros _. by apply check_executions_ok.
  - apply ensures_seq. intros _. by apply check_executions_ok.
Qed.

Context `{rows : RowOrder, rows_ok : !RowOrderOk rows}.

Lemma due_executions_open now_ns limit s :
  rows_proper s ->
  Forall (fun execution => is_open execution = true)
    (list_due_pending_strategy_executions now_ns limit s).
Proof.
  intros Hproper. apply Forall_forall. intros execution Hin.
  unfold list_due_pending_strategy_executions, limit_rows in Hin.
  apply subseteq_take in Hin. rewrite order_rows_perm in Hin.
  apply list_elem_of_filter in Hin as [[Hstate _] Hin]. unfold execution_rows in Hin.
  apply list_elem_of_fmap in Hin as ([id row] & -> & Hrow%elem_of_map_to_list). simpl in *.
  destruct (Hproper id row Hrow) as [_ Hkind]. unfold is_confirmed, is_failed in Hkind.
  rewrite Hstate in Hkind. by destruct (is_open row).
Qed.

Lemma reconcile_run now_ns rpc_error s :
  exists pending depth,
    reconcile_pending_strategy_executions now_ns rpc_error s
      = check_executions now_ns depth rpc_error pending s
    /\ (rows_proper s -> Forall (fun execution => is_open execution = true) pending).
Proof. eexists _, _. split; [reflexivity|]. apply due_executions_open. Qed.
End Messages.

(** *** The tool *)

Section Tool.
#[local] Set Default Proof Using "All".
Context `{ext : Externals, libs : StrategyLibs, texts : SqlTexts, u256 : U256Text,
          rows : RowOrder}.
#[local] Hint Resolve moves_quarantine : moves.

Lemma validated_plan_has_calls plan s :
  ValidationReport.passed (validate_execution_plan plan s) = true -> ExecutionPlan.calls plan <> [].
Proof.
  unfold validate_execution_plan. simpl. rewrite bool_decide_eq_true, !app_nil, schema_layer_nil.
  naive_solver.
Qed.

Lemma moves_record_strategy_failure plan reason now_ns :
  moves (record_strategy_failure plan reason now_ns).
Proof. unfold record_strategy_failure. moves_walk. Qed.
#[local] Hint Resolve moves_record_strategy_failure : moves.

Lemma moves_prepare args_json turn_id prior current cycles :
  moves (prepare_strategy_action args_json turn_id prior current cycles).
Proof. unfold prepare_strategy_action. moves_walk. Qed.

(** A prepared row is open and its plan has calls. *)
Lemma prepare_ok args_json turn_id prior current cycles :
  ensures (prepare_strategy_action args_json turn_id prior current cycles)
    (fun prepared => ExecutionPlan.calls prepared.1 <> [] /\ is_open prepared.2 = true).
Proof.
  unfold prepare_strategy_action. do 8 (apply ensures_seq; intros ?).
  intros s prepared s' (validation & t & [= <- <-] & Hrun)%M_bind_Done.
  destruct (ValidationReport.passed _) eqn:Hpassed; simpl in Hrun.
  - apply validated_plan_has_calls in Hpassed. done_inv. done.
  - done_inv.
Qed.

Lemma moves_launch plan execution :
  ExecutionPlan.calls plan <> [] -> is_open execution = true ->
  moves (launch_execution plan execution).
Proof.
  intros Hcalls Hopen. unfold launch_execution.
  apply moves_seq; [by apply moves_insert|intros pending].
  do 2 (apply moves_seq; [apply moves_fail_if|intros _]). by apply moves_execute_strategy_plan.
Qed.

(** The row that [launch_execution] goes on with is open. *)
Lemma launch_ok plan execution s progress s' :
  rows_proper s -> ExecutionPlan.calls plan <> [] -> is_open execution = true ->
  launch_execution plan execution s = Done progress s' -> send_ok progress.
Proof.
  intros Hproper Hcalls Hopen. unfold launch_execution.
  intros (pending & t & Hinsert & Hrun)%M_bind_Done.
  apply M_bind_Done in Hrun as ([] & ? & [Hbook ->]%fail_if_Done & Hrun).
  apply M_bind_Done in Hrun as ([] & ? & [Hterminal ->]%fail_if_Done & Hrun).
  assert (pending_strategy_execution (PendingStrategyExecution.execution_id execution) t = Some pending
    /\ is_open pending = true) as [Hstored Hpending].
  { unfold insert_pending_strategy_execution in Hinsert.
    apply M_bind_Done in Hinsert as ([] & ? & [_ ->]%fail_if_Done & Hinsert).
    apply M_bind_Done in Hinsert as ([] & ? & [_ ->]%lift_Done & Hinsert).
    apply M_bind_Done in Hinsert as (stored & ? & [= <- <-] & Hinsert).
    destruct (pending_strategy_execution _ s) as [existing|] eqn:Hexisting.
    - apply M_bind_Done in Hinsert as ([] & ? & [_ ->]%fail_if_Done & [= <- <-]).
      split; [done|]. destruct (Hproper _ _ Hexisting) as [_ Hkind].
      unfold is_confirmed, is_failed in Hkind. rewrite Hbook, Hterminal in Hkind.
      by rewrite !andb_false_r, !orb_false_r in Hkind.
    - apply M_bind_Done in Hinsert as ([] & ? & [= <-] & [= <- <-]). split; [|done].
      apply lookup_insert_eq. }
  unfold execute_strategy_plan in Hrun. rewrite (bool_decide_eq_false_2 _ Hcalls) in Hrun.
  apply M_bind_Done in Hrun as (stored & ? & [= <- <-] & Hrun). rewrite Hstored in Hrun.
  apply M_bind_Done in Hrun as (row & ? & [[= <-] ->]%lift_Done & Hrun).
  do 2 (apply M_bind_Done in Hrun as ([] & ? & [_ ->]%fail_if_Done & Hrun)).
  by eapply send_calls_ok.
Qed.

Lemma moves_execute args_json turn_id prior current cycles :
  moves (execute_strategy_action args_json turn_id prior current cycles).
Proof.
  unfold execute_strategy_action. eapply moves_bind; [apply moves_prepare|apply prepare_ok|].
  intros [plan execution] [Hcalls Hopen]. by apply moves_launch.
Qed.
End Tool.

(** ** Totals over the rows *)

Lemma sum_N_perm l k : l ≡ₚ k -> sum_N l = sum_N k.
Proof. unfold sum_N. induction 1; simpl; lia. Qed.

Definition row_total (f : PendingStrategyExecution.t -> N) (s : Book.t) : N :=
  sum_N (f <$> execution_rows s).

Lemma row_total_insert f s s' execution_id execution :
  pending_strategy_execution execution_id s = None ->
  Book.pending_strategy_executions s'
    = <[execution_id := execution]> (Book.pending_strategy_executions s) ->
  row_total f s' = (f execution + row_total f s)%N.
Proof.
  unfold row_total, execution_rows. intros Hnone ->.
  rewrite (sum_N_perm _ (f <$> ((execution_id, execution)
    :: map_to_list (Book.pending_strategy_executions s)).*2)); [done|].
  by rewrite map_to_list_insert.
Qed.

Lemma row_total_replace f s s' execution_id old execution :
  pending_strategy_execution execution_id s = Some old ->
  Book.pending_strategy_executions s'
    = <[execution_id := execution]> (Book.pending_strategy_executions s) ->
  (row_total f s' + f old = row_total f s + f execution)%N.
Proof.
  intros Hold Hrows. pose (rest := s <| Book.pending_strategy_executions ::= delete execution_id |>).
  assert (pending_strategy_execution execution_id rest = None) as Hnone by apply lookup_delete_eq.
  rewrite (row_total_insert f rest s' execution_id execution) by
    (done || (rewrite Hrows; symmetry; apply insert_delete_eq)).
  rewrite (row_total_insert f rest s execution_id old) by
    (done || (symmetry; by apply insert_delete_id)). lia.
Qed.

Lemma row_total_same f s s' :
  Book.pending_strategy_executions s' = Book.pending_strategy_executions s ->
  row_total f s' = row_total f s.
Proof. unfold row_total, execution_rows. by intros ->. Qed.

(** ** Moves keep the books *)

Definition one_if (b : bool) : N := if b then 1 else 0.

Section Books.
#[local] Set Default Proof Using "All".
Context `{ext : Externals, libs : StrategyLibs}.

Lemma parse_u256_pretty x : in_uint 256 x -> parse_u256_decimal (pretty x) = Ok x.
Proof.
  intros Hx%parse_digits_pretty. pose proof (parse_digits_all _ _ _ _ Hx) as Hdigits.
  unfold parse_u256_decimal. rewrite (trim_plain _ (all_digits_plain _ Hdigits)), Hdigits, Hx.
  destruct (is_empty (pretty x)) eqn:Hempty; [|done].
  destruct (pretty_N_nonempty x). by destruct (pretty x).
Qed.

Lemma spent_wei_Ok acc calls spent :
  spent_wei acc calls = Ok spent -> spent = (acc + sum_N (call_value <$> calls))%N.
Proof.
  revert acc. induction calls as [|call calls IH]; intros acc; cbn [spent_wei].
  { intros [= <-]. change (sum_N (call_value <$> [])) with 0%N. lia. }
  intros (value & Hvalue & Hrun)%result_bind_Ok.
  apply result_bind_Ok in Hrun as (sum & [-> _]%ok_or_Ok%checked_add_Some & Hrun).
  rewrite (IH _ Hrun), fmap_cons.
  change (sum_N (call_value call :: ?l)) with (call_value call + sum_N l)%N.
  assert (call_value call = value) as -> by (unfold call_value; by rewrite Hvalue). lia.
Qed.

(** A counter of the statistics under a record key. *)
Definition stat (counter : StrategyOutcomeStats.t -> N) (record_key : string) (s : Book.t) : N :=
  default 0%N (counter <$> Book.strategy_outcome_stats s !! record_key).

Definition under (record_key : string) (execution : PendingStrategyExecution.t) : bool :=
  bool_decide (stats_key execution = record_key).

(** Closed rows, and confirmed rows, of a record key; what the confirmed rows
    of a budget sent. *)
Definition closed_runs (record_key : string) : Book.t -> N :=
  row_total (fun execution => one_if (negb (is_open execution) && under record_key execution)).
Definition confirmed_runs (record_key : string) : Book.t -> N :=
  row_total (fun execution => one_if (is_confirmed execution && under record_key execution)).
Definition execution_value (execution : PendingStrategyExecution.t) : N :=
  sum_N (call_value <$> execution_calls execution).
Definition confirmed_value (record_key : string) : Book.t -> N :=
  row_total (fun execution =>
    if is_confirmed execution && bool_decide (budget_key execution = record_key)
    then execution_value execution else 0%N).

(** The budget spent under a record key. *)
Definition budget_spent (record_key : string) (s : Book.t) : result string N :=
  parse_u256_decimal (default "0" (Book.strategy_budgets s !! record_key)).

(** The counters and budgets of [s] are those of [base] plus the closed rows. *)
Record balanced (base s : Book.t) : Prop := {
  balanced_runs : forall record_key,
    stat StrategyOutcomeStats.total_runs record_key s
    = N.min (stat StrategyOutcomeStats.total_runs record_key base + closed_runs record_key s)
        (max_uint 64);
  balanced_successes : forall record_key,
    stat StrategyOutcomeStats.success_runs record_key s
    = N.min (stat StrategyOutcomeStats.success_runs record_key base + confirmed_runs record_key s)
        (max_uint 64);
  balanced_budgets : forall record_key spent, budget_spent record_key base = Ok spent ->
    budget_spent record_key s = Ok (spent + confirmed_value record_key s)%N;
}.

Lemma move_proper s s' : rows_proper s -> move s s' -> rows_proper s'.
Proof.
  intros Hproper Hmove execution_id execution. unfold pending_strategy_execution.
  assert (forall new, Book.pending_strategy_executions s'
      = <[PendingStrategyExecution.execution_id new := new]> (Book.pending_strategy_executions s) ->
    is_open new || is_confirmed new || is_failed new = true ->
    Book.pending_strategy_executions s' !! execution_id = Some execution ->
    PendingStrategyExecution.execution_id execution = execution_id
    /\ is_open execution || is_confirmed execution || is_failed execution = true) as Hinsert.
  { intros new -> Hkind [[<- <-]|[_ Hold]]%lookup_insert_Some; [done|]. by apply Hproper. }
  destruct Hmove as [[-> _ _]|new _ Hopen Hrows _ _|new [_ Hrows] Hopen _ _
    |new [_ Hrows] Hconfirmed _ _|new kind [_ Hrows] Hfailed _ _ _].
  - apply Hproper.
  - apply (Hinsert new Hrows). by rewrite Hopen.
  - apply (Hinsert new Hrows). by rewrite Hopen.
  - apply (Hinsert new Hrows). by rewrite Hconfirmed, orb_true_r.
  - apply (Hinsert new Hrows). by rewrite Hfailed, orb_true_r.
Qed.

(** A closed row is never replaced. *)
Lemma move_closed s s' execution_id execution :
  move s s' -> pending_strategy_execution execution_id s = Some execution ->
  is_open execution = false -> pending_strategy_execution execution_id s' = Some execution.
Proof.
  unfold pending_strategy_execution. intros Hmove Hrow Hclosed.
  assert (forall new, replaces_open s s' new ->
    Book.pending_strategy_executions s' !! execution_id = Some execution) as Hreplace.
  { intros new [(current & Hcurrent & Hopen) ->]. rewrite lookup_insert_ne; [done|].
    intros <-. unfold pending_strategy_execution in Hcurrent. congruence. }
  destruct Hmove as [[-> _ _]|new Hnone _ -> _ _|new Hnew _ _ _|new Hnew _ _ _|new kind Hnew _ _ _ _];
    [done| |by eapply Hreplace..].
  rewrite lookup_insert_ne; [done|]. intros <-. unfold pending_strategy_execution in Hnone. congruence.
Qed.

(** *** One move *)

Lemma stat_counts counter record_key s s' execution kind (increment : bool) :
  counts_run s s' execution kind ->
  counter (empty_outcome_stats (PendingStrategyExecution.key execution)) = 0%N ->
  (forall error tx_hash now_ns stats,
    counter (count_run kind error tx_hash now_ns stats)
    = if increment then saturating_add 64 (counter stats) 1 else counter stats) ->
  stat counter record_key s'
  = if under record_key execution && increment then saturating_add 64 (stat counter record_key s) 1
    else stat counter record_key s.
Proof.
  intros (error & tx_hash & now_ns & Hstats) Hempty Hcount. unfold stat, under. rewrite Hstats.
  case_bool_decide as Hkey; simpl.
  - rewrite <-Hkey, lookup_insert_eq. simpl. rewrite Hcount. unfold stats_or_empty.
    change (strategy_outcome_stats (PendingStrategyExecution.key execution) s)
      with (Book.strategy_outcome_stats s !! stats_key execution).
    destruct (Book.strategy_outcome_stats s !! stats_key execution); simpl; [done|].
    by rewrite Hempty.
  - by rewrite lookup_insert_ne.
Qed.

Lemma total_runs_count_run kind error tx_hash now_ns stats :
  StrategyOutcomeStats.total_runs (count_run kind error tx_hash now_ns stats)
  = saturating_add 64 (StrategyOutcomeStats.total_runs stats) 1.
Proof. by destruct kind. Qed.

Lemma success_runs_count_run kind error tx_hash now_ns stats :
  StrategyOutcomeStats.success_runs (count_run kind error tx_hash now_ns stats)
  = if bool_decide (kind = StrategyOutcomeKind.Success)
    then saturating_add 64 (StrategyOutcomeStats.success_runs stats) 1
    else StrategyOutcomeStats.success_runs stats.
Proof. by destruct kind. Qed.

Lemma open_not_confirmed execution : is_open execution = true -> is_confirmed execution = false.
Proof. intros (_ & Hbook & _)%is_open_spec. unfold is_confirmed. by rewrite Hbook, andb_false_r. Qed.

Lemma confirmed_not_open execution : is_confirmed execution = true -> is_open execution = false.
Proof.
  intros Hconfirmed. destruct (is_open execution) eqn:Hopen; [|done].
  apply open_not_confirmed in Hopen. congruence.
Qed.

Lemma failed_closed execution :
  is_failed execution = true -> is_open execution = false /\ is_confirmed execution = false.
Proof.
  unfold is_failed, is_open, is_confirmed. intros [[[Hpending _]%andb_true_iff _]%andb_true_iff ->]%andb_true_iff.
  by rewrite !andb_false_r.
Qed.

(** The totals before and after the row of [execution] replaces an open one. *)
Lemma replaces_total (f : PendingStrategyExecution.t -> N) s s' execution :
  replaces_open s s' execution -> (forall old, is_open old = true -> f old = 0%N) ->
  row_total f s' = (row_total f s + f execution)%N.
Proof.
  intros [(current & Hcurrent & Hopen) Hrows] Hzero.
  pose proof (row_total_replace f s s' _ _ _ Hcurrent Hrows) as Htotal.
  rewrite (Hzero current Hopen) in Htotal. lia.
Qed.

Lemma insert_total (f : PendingStrategyExecution.t -> N) s s' execution :
  pending_strategy_execution (PendingStrategyExecution.execution_id execution) s = None ->
  Book.pending_strategy_executions s'
    = <[PendingStrategyExecution.execution_id execution := execution]>
        (Book.pending_strategy_executions s) ->
  f execution = 0%N -> row_total f s' = row_total f s.
Proof. intros Hnone Hrows Hzero. rewrite (row_total_insert f s s' _ _ Hnone Hrows). lia. Qed.

(** What a move adds to the totals. *)
Record added (s s' : Book.t) (runs successes values : string -> N) : Prop := {
  added_runs : forall k, closed_runs k s' = (closed_runs k s + runs k)%N;
  added_successes : forall k, confirmed_runs k s' = (confirmed_runs k s + successes k)%N;
  added_values : forall k, confirmed_value k s' = (confirmed_value k s + values k)%N;
}.

Lemma added_nothing s s' :
  (forall f, (forall old, is_open old = true -> f old = 0%N) -> row_total f s' = row_total f s) ->
  added s s' (fun _ => 0%N) (fun _ => 0%N) (fun _ => 0%N).
Proof.
  intros Hsame. split; intros k; rewrite N.add_0_r; apply Hsame; intros old Hold;
    rewrite ?(open_not_confirmed old Hold), ?Hold; done.
Qed.

Lemma added_row s s' execution :
  replaces_open s s' execution -> is_open execution = false ->
  added s s' (fun k => one_if (under k execution))
    (fun k => one_if (is_confirmed execution && under k execution))
    (fun k => if is_confirmed execution && bool_decide (budget_key execution = k)
              then execution_value execution else 0%N).
Proof.
  intros Hreplace Hclosed. split; intros k.
  1: replace (one_if (under k execution))
       with (one_if (negb (is_open execution) && under k execution)) by (by rewrite Hclosed).
  all: unfold closed_runs, confirmed_runs, confirmed_value;
    match goal with
    | |- row_total ?f _ = _ => apply (replaces_total f s s' execution Hreplace)
    end; intros old Hold; rewrite ?(open_not_confirmed old Hold), ?Hold; done.
Qed.

(** The totals stay, and so must the counters. *)
Lemma balanced_idle base s s' :
  balanced base s ->
  (forall f, (forall old, is_open old = true -> f old = 0%N) -> row_total f s' = row_total f s) ->
  Book.strategy_outcome_stats s' = Book.strategy_outcome_stats s ->
  Book.strategy_budgets s' = Book.strategy_budgets s -> balanced base s'.
Proof.
  intros [Hruns Hsuccesses Hvalues] Hsame%added_nothing Hstats Hbudgets.
  destruct Hsame as [Hclosed Hconfirmed Hspent].
  split; [intros k; unfold stat; rewrite Hstats..|intros k spent Hbase; unfold budget_spent; rewrite Hbudgets].
  - rewrite Hclosed, N.add_0_r. apply Hruns.
  - rewrite Hconfirmed, N.add_0_r. apply Hsuccesses.
  - rewrite Hspent, N.add_0_r. by apply Hvalues.
Qed.

(** A closed row counts once in every total. *)
Lemma balanced_close base s s' execution kind :
  balanced base s -> replaces_open s s' execution -> is_open execution = false ->
  counts_run s s' execution kind ->
  is_confirmed execution = bool_decide (kind = StrategyOutcomeKind.Success) ->
  (forall k spent, budget_spent k s = Ok spent ->
    budget_spent k s' = Ok (spent + (if is_confirmed execution
                                        && bool_decide (budget_key execution = k)
                                     then execution_value execution else 0))%N) ->
  balanced base s'.
Proof.
  intros [Hruns Hsuccesses Hvalues] Hreplace Hclosed Hcounts Hkind Hbudgets.
  destruct (added_row _ _ _ Hreplace Hclosed) as [Hadded Hconfirmed Hspent].
  split; intros k.
  - rewrite (stat_counts _ k _ _ _ _ true Hcounts), Hadded, (Hruns k); [|done|].
    + destruct (under k execution); simpl; unfold saturating_add; lia.
    + intros. apply total_runs_count_run.
  - rewrite (stat_counts _ k _ _ _ _ (is_confirmed execution) Hcounts), Hconfirmed, (Hsuccesses k);
      [|done|].
    + rewrite andb_comm.
      destruct (is_confirmed execution && under k execution); simpl; unfold saturating_add; lia.
    + intros. rewrite Hkind. apply success_runs_count_run.
  - intros spent Hbase. rewrite Hspent, N.add_assoc. apply Hbudgets. by apply Hvalues.
Qed.

Lemma spends_budget s s' execution k spent :
  spends s s' execution -> budget_spent k s = Ok spent ->
  budget_spent k s' = Ok (spent + (if bool_decide (budget_key execution = k)
                                   then execution_value execution else 0))%N.
Proof.
  intros (sent & Hsent%spent_wei_Ok & Hbudgets) Hspent. rewrite N.add_0_l in Hsent.
  change (sum_N (call_value <$> execution_calls execution)) with (execution_value execution) in Hsent.
  rewrite <-Hsent. unfold budget_spent in *. destruct (N.eqb_spec sent 0) as [->|Hnonzero].
  { rewrite Hbudgets. case_bool_decide; by rewrite N.add_0_r. }
  destruct Hbudgets as (current & Hcurrent & Huint & ->). case_bool_decide as Hkey.
  - rewrite <-Hkey in *. rewrite Hcurrent in Hspent. injection Hspent as <-.
    rewrite lookup_insert_eq. by apply parse_u256_pretty.
  - by rewrite lookup_insert_ne, N.add_0_r.
Qed.

Lemma move_balanced base s s' : balanced base s -> move s s' -> balanced base s'.
Proof.
  intros Hbalanced [[Hrows Hstats Hbudgets]|execution Hnone Hopen Hrows Hstats Hbudgets
    |execution Hreplace Hopen Hstats Hbudgets|execution Hreplace Hconfirmed Hcounts Hspends
    |execution kind Hreplace Hfailed Hkind Hcounts Hbudgets].
  - apply (balanced_idle base s s' Hbalanced); [|done..]. intros f _. by apply row_total_same.
  - apply (balanced_idle base s s' Hbalanced); [|done..]. intros f Hf.
    apply (insert_total f s s' execution); auto.
  - apply (balanced_idle base s s' Hbalanced); [|done..]. intros f Hf.
    rewrite (replaces_total f s s' execution) by done. rewrite Hf by done. lia.
  - apply (balanced_close base s s' execution StrategyOutcomeKind.Success); try done.
    + by apply confirmed_not_open.
    + intros k spent Hspent. rewrite Hconfirmed. by apply (spends_budget s).
  - destruct (failed_closed _ Hfailed) as [Hclosed Hnot].
    apply (balanced_close base s s' execution kind); try done.
    + by rewrite Hnot, bool_decide_eq_false_2.
    + intros k spent Hspent. rewrite Hnot, N.add_0_r. unfold budget_spent. by rewrite Hbudgets.
Qed.
End Books.

(** ** The interleaved system *)

(** The messages in flight. *)
Inductive task :=
| Sending (task : SendTask.t)
| Checking (task : CheckTask.t).

Definition task_ok (task : task) : Prop :=
  match task with
  | Sending task => is_open (SendTask.execution task) = true
  | Checking task => check_ok (AwaitReceipt task "")
  end.

Module World.
Record t := mk {
  book : Book.t;
  tasks : list task;
}.
End World.

(** The end of a message: a trap undoes it. *)
Definition after {A} (resume : A -> list task) (world : World.t) (o : outcome Book.t string A)
    : World.t :=
  match o with
  | Done progress s => World.mk s (resume progress ++ World.tasks world)
  | Fail _ s => World.mk s (World.tasks world)
  | Trap => world
  end.

Definition send_tasks (progress : send_progress) : list task :=
  match progress with Sent _ => [] | AwaitSend task _ => [Sending task] end.
Definition check_tasks (progress : check_progress) : list task :=
  match progress with Checked => [] | AwaitReceipt task _ => [Checking task] end.

Section System.
#[local] Set Default Proof Using "All".
Context `{ext : Externals, libs : StrategyLibs, texts : SqlTexts, u256 : U256Text,
          rows : RowOrder}.

(** A message arrives, or the callback of one that awaits; the book may change
    where bookkeeping does not look. *)
Inductive step (w w' : World.t) : Prop :=
| step_execute args_json turn_id prior current cycles :
    w' = after send_tasks w
           (execute_strategy_action args_json turn_id prior current cycles (World.book w)) ->
    step w w'
| step_sent before task later answer :
    World.tasks w = before ++ Sending task :: later ->
    w' = after send_tasks (World.mk (World.book w) (before ++ later))
           (resume_sending task answer (World.book w)) ->
    step w w'
| step_reconcile now_ns rpc_error :
    w' = after check_tasks w
           (reconcile_pending_strategy_executions now_ns rpc_error (World.book w)) ->
    step w w'
| step_observed before task later observation :
    World.tasks w = before ++ Checking task :: later ->
    w' = after check_tasks (World.mk (World.book w) (before ++ later))
           (resume_check task observation (World.book w)) ->
    step w w'
| step_other s' : same_ledger (World.book w) s' -> w' = World.mk s' (World.tasks w) -> step w w'.

(** Before any execution. *)
Definition initial (w : World.t) : Prop :=
  Book.pending_strategy_executions (World.book w) = ∅ /\ World.tasks w = []
  /\ forall record_key,
       in_uint 64 (stat StrategyOutcomeStats.total_runs record_key (World.book w))
       /\ in_uint 64 (stat StrategyOutcomeStats.success_runs record_key (World.book w)).

Definition world_ok (w : World.t) : Prop :=
  rows_proper (World.book w) /\ Forall task_ok (World.tasks w).

Lemma initial_ok w : initial w -> world_ok w /\ balanced (World.book w) (World.book w).
Proof.
  intros (Hrows & Htasks & Htyped). split; [split|].
  - intros id execution. unfold pending_strategy_execution. by rewrite Hrows, lookup_empty.
  - rewrite Htasks. constructor.
  - assert (forall f, row_total f (World.book w) = 0%N) as Hzero.
    { intros f. unfold row_total, execution_rows. by rewrite Hrows, map_to_list_empty. }
    split; unfold closed_runs, confirmed_runs, confirmed_value; intros;
      rewrite Hzero, N.add_0_r; [| |done]; destruct (Htyped record_key); unfold in_uint in *; lia.
Qed.

Lemma moves_proper s s' : rows_proper s -> rtc move s s' -> rows_proper s'.
Proof. intros Hproper Hmoves. revert Hproper. induction Hmoves; eauto using move_proper. Qed.

Lemma moves_balanced base s s' : balanced base s -> rtc move s s' -> balanced base s'.
Proof. intros Hbalanced Hmoves. revert Hbalanced. induction Hmoves; eauto using move_balanced. Qed.

(** A message that makes moves and leaves proper tasks keeps the world in
    order. *)
Lemma after_ok {A} (resume : A -> list task) (Q : A -> Prop) w (m : B A) :
  world_ok w -> moves m -> (forall progress s', m (World.book w) = Done progress s' -> Q progress) ->
  (forall progress, Q progress -> Forall task_ok (resume progress)) ->
  let w' := after resume w (m (World.book w)) in
  world_ok w' /\ rtc move (World.book w) (World.book w').
Proof.
  intros [Hproper Htasks] Hm HQ Hresume w'. specialize (Hm (World.book w)). unfold w', world_ok, after.
  destruct (m (World.book w)) as [progress s|e s|] eqn:Hrun; simpl; [| |done].
  - destruct (Hm s eq_refl I) as [_ Hmoves]. split; [split|done].
    + by eapply moves_proper.
    + apply Forall_app. split; [|done]. eapply Hresume, HQ. done.
  - destruct (Hm s eq_refl I) as [_ Hmoves]. split; [split; [by eapply moves_proper|done]|done].
Qed.

Context `{rows_ok : !RowOrderOk rows}.

Lemma send_tasks_ok progress : send_ok progress -> Forall task_ok (send_tasks progress).
Proof. destruct progress; simpl; [constructor|]. intros. by constructor. Qed.
Lemma check_tasks_ok progress : check_ok progress -> Forall task_ok (check_tasks progress).
Proof. destruct progress; simpl; [constructor|]. intros. by constructor. Qed.

Lemma world_ok_without s before task later :
  world_ok (World.mk s (before ++ task :: later)) ->
  task_ok task /\ world_ok (World.mk s (before ++ later)).
Proof.
  intros [Hproper Htasks]. simpl in *. apply Forall_app in Htasks as [Hbefore [Htask Hlater]%Forall_cons].
  split; [done|]. split; [done|]. by apply Forall_app.
Qed.

Lemma step_moves w w' :
  step w w' -> world_ok w -> world_ok w' /\ rtc move (World.book w) (World.book w').
Proof.
  intros [args_json turn_id prior current cycles ->|before task later answer Htasks ->
    |now_ns rpc_error ->|before task later observation Htasks ->|s' Hsame ->] Hok.
  - apply (after_ok send_tasks send_ok w); [done|apply moves_execute| |apply send_tasks_ok].
    intros progress s' ([plan execution] & t & Hprepare & Hlaunch)%M_bind_Done.
    destruct (prepare_ok _ _ _ _ _ _ _ _ Hprepare) as [Hcalls Hopen].
    eapply launch_ok; [|exact Hcalls|exact Hopen|exact Hlaunch].
    eapply moves_proper; [apply Hok|]. eapply moves_prepare; [|exact I]. by rewrite Hprepare.
  - destruct w as [s tasks]. simpl in Htasks. subst tasks.
    apply world_ok_without in Hok as [Htask Hok].
    apply (after_ok send_tasks send_ok (World.mk s (before ++ later))); [done| | |apply send_tasks_ok].
    + apply moves_resume_sending.
    + intros progress s'. by apply resume_sending_ok.
  - destruct (reconcile_run now_ns rpc_error (World.book w)) as (pending & depth & Hrun & Hopen).
    rewrite Hrun. specialize (Hopen (proj1 Hok)).
    apply (after_ok check_tasks check_ok w); [done| | |apply check_tasks_ok].
    + by apply moves_check_executions.
    + intros progress s'. by apply check_executions_ok.
  - destruct w as [s tasks]. simpl in Htasks. subst tasks.
    apply world_ok_without in Hok as [Htask Hok].
    apply (after_ok check_tasks check_ok (World.mk s (before ++ later)));
      [done| | |apply check_tasks_ok].
    + by apply moves_resume_check.
    + intros progress s'. by apply resume_check_ok.
  - split; [|by apply rtc_once, move_none]. destruct Hok as [Hproper Htasks]. split; [|done].
    eapply move_proper; [exact Hproper|]. by apply move_none.
Qed.

Lemma steps_moves w w' :
  rtc step w w' -> world_ok w -> world_ok w' /\ rtc move (World.book w) (World.book w').
Proof.
  induction 1 as [w|w1 w2 w3 Hstep _ IH]; intros Hok; [by split|].
  destruct (step_moves _ _ Hstep Hok) as [Hok' Hmoves]. destruct (IH Hok') as [Hok'' Hmoves'].
  split; [done|]. by etrans.
Qed.

(** However sending and reconciling interleave, an execution that has been
    confirmed or has failed stays in the book exactly as it was closed. *)
Theorem closed_executions_final (w0 w w' : World.t) (execution_id : string)
    (execution : PendingStrategyExecution.t) :
  initial w0 -> rtc step w0 w -> rtc step w w' ->
  pending_strategy_execution execution_id (World.book w) = Some execution ->
  is_open execution = false ->
  pending_strategy_execution execution_id (World.book w') = Some execution.
Proof.
  intros [Hok _]%initial_ok Hreach Hsteps Hrow Hclosed.
  destruct (steps_moves _ _ Hreach Hok) as [Hok' _].
  destruct (steps_moves _ _ Hsteps Hok') as [_ Hmoves].
  induction Hmoves as [|s s' s'' Hmove _ IH]; [done|]. apply IH. by eapply move_closed.
Qed.

(** C7 - However sending and reconciling interleave, every execution is booked
    exactly once: the run and success counters of a template are those it
    started with plus one per closed and per confirmed execution, and the
    budget spent is what it was plus the values that the confirmed executions
    sent. *)
Theorem ledger_balances (w0 w : World.t) :
  initial w0 -> rtc step w0 w ->
  rows_proper (World.book w) /\ balanced (World.book w0) (World.book w).
Proof.
  intros [Hok Hbalanced]%initial_ok Hreach.
  destruct (steps_moves _ _ Hreach Hok) as [[Hproper _] Hmoves]. split; [done|].
  by eapply moves_balanced.
Qed.
End System.
