(* ===== verification/StrategyRegistry.v ===== *)
(** * StrategyRegistry: registering, steering and reconciling templates

    Models [register_from_recipe] of [strategy/registry.rs], the strategy
    commands of the steward in [lib.rs], [promote_discovery_protocol_artifact]
    of [strategy/abi.rs], and the loop of [run_reconcile_job] over the
    templates ([scheduler.rs]).  [Err] does not undo what was written before
    it: a registration that fails leaves its artifacts and its draft. *)

From S2P Require Import Prelude Text SpawnProtocol Types Externals AgentTypes Evm TopUp AgentStore StrategyTypes StrategyStore StrategyValidator StrategyAbi StrategyCompiler StrategyCodec StrategyPlan.

(** ** Recipes *)

Module StrategyRecipeContract.
Record t := mk {
  role : string;
  address : string;
  abi_json : string;
  source_ref : string;
  codehash : option string;
}.
End StrategyRecipeContract.

Module StrategyRecipeActionCall.
Record t := mk {
  role : string;
  function_name : string;
}.
End StrategyRecipeActionCall.

Module StrategyRecipeAction.
Record t := mk {
  action_id : string;
  calls : list StrategyRecipeActionCall.t;
  preconditions : list string;
  postconditions : list string;
  risk_checks : list string;
  asset_effects : list StrategyAssetEffectDeclaration.t;
}.
End StrategyRecipeAction.

Module StrategyRecipe.
Record t := mk {
  protocol : string;
  primitive : string;
  chain_id : N;
  template_id : string;
  contracts : list StrategyRecipeContract.t;
  actions : list StrategyRecipeAction.t;
  max_value_wei_per_call : option string;
  template_budget_wei : option string;
}.
End StrategyRecipe.

Module RegisteredStrategy.
Record t := mk {
  template : StrategyTemplate.t;
  activation : TemplateActivationState.t;
}.
End RegisteredStrategy.

Module ResolvedRecipeContract.
Record t := mk {
  binding : ContractRoleBinding.t;
  functions_by_name : gmap string (list AbiFunctionSpec.t);
}.
End ResolvedRecipeContract.

(** [ProtocolArtifactBundle] of [domain/types.rs]. *)
Module ProtocolArtifactBundle.
Record t := mk {
  bundle_id : string;
  protocol_id : string;
  chain_id : N;
  role : string;
  contract_address : string;
  abi_json : string;
  source_ref : string;
  codehash : option string;
  selector_assertions : list AbiSelectorAssertion.t;
  spec_summary : string;
  risk_notes : list string;
}.
End ProtocolArtifactBundle.

Definition RECIPE_DEFAULT_MAX_CALLS : N := 5.
Definition RECIPE_DEFAULT_MAX_VALUE_WEI_PER_CALL : string := "100000000000000000".
Definition RECIPE_DEFAULT_TEMPLATE_BUDGET_WEI : string := "1000000000000000000".

Definition normalize_required_field (raw field : string) : result string string :=
  let trimmed := trim raw in
  err_if (is_empty trimmed) (field +:+ " must be non-empty");; Ok trimmed.

Definition normalize_optional_check_list (values : list string) : list string :=
  filter (fun value => is_empty value = false) (trim <$> values).

Definition normalize_required_check_list (values : list string) (field : string)
    : result string (list string) :=
  let normalized := normalize_optional_check_list values in
  err_if (bool_decide (normalized = []))
    (field +:+ " must contain at least one non-empty entry");;
  Ok normalized.

(** The functions of an artifact under their names, in order. *)
Definition index_functions (functions : list AbiFunctionSpec.t)
    : gmap string (list AbiFunctionSpec.t) :=
  fold_left (fun index function =>
    <[AbiFunctionSpec.name function :=
        default [] (index !! AbiFunctionSpec.name function) ++ [function]]> index) functions ∅.

(** [sort_by(|left, right| left.role.cmp(&right.role))] on distinct roles. *)
Definition binding_le (x y : ContractRoleBinding.t) : Prop :=
  key_le (ContractRoleBinding.role x) (ContractRoleBinding.role y).
#[export] Instance binding_le_dec : RelDecision binding_le.
Proof. intros x y. unfold binding_le. apply _. Defined.

Section Registry.
Context `{ext : Externals, libs : StrategyLibs}.

Definition normalize_recipe_decimal (raw field : string) : result string string :=
  let trimmed := trim raw in
  err_if (is_empty trimmed) (field +:+ " value cannot be empty");;
  err_if (negb (all_digits trimmed)) (field +:+ " must be a decimal string");;
  ok_or (parse_digits 256 0 trimmed)
    (field +:+ " failed to parse decimal quantity: " +:+ u256_overflow);;
  Ok trimmed.

(** One round of the loop over the contracts. *)
Definition resolve_contract (key : StrategyTemplateKey.t) (now_ns : N)
    (resolved : gmap string ResolvedRecipeContract.t) (contract : StrategyRecipeContract.t)
    : B (gmap string ResolvedRecipeContract.t) :=
  role ← lift (normalize_required_field (StrategyRecipeContract.role contract) "contracts.role");
  fail_if (is_some (resolved !! role)) ("duplicate contract role in recipe: " +:+ role);;
  address ← lift (normalize_evm_address (StrategyRecipeContract.address contract));
  source_ref ← lift (normalize_required_field (StrategyRecipeContract.source_ref contract)
                       "contracts.source_ref");
  let artifact_key :=
    AbiArtifactKey.mk (StrategyTemplateKey.protocol key) (StrategyTemplateKey.chain_id key) role in
  artifact ← lift (normalize_abi_artifact artifact_key (StrategyRecipeContract.abi_json contract)
                     source_ref (StrategyRecipeContract.codehash contract) [] now_ns);
  artifact ← upsert_abi_artifact artifact;
  mret (<[role := ResolvedRecipeContract.mk
                    (ContractRoleBinding.mk role address source_ref
                       (StrategyRecipeContract.codehash contract))
                    (index_functions (AbiArtifact.functions artifact))]> resolved).

Fixpoint resolve_contracts (key : StrategyTemplateKey.t) (now_ns : N)
    (resolved : gmap string ResolvedRecipeContract.t) (contracts : list StrategyRecipeContract.t)
    : B (gmap string ResolvedRecipeContract.t) :=
  match contracts with
  | [] => mret resolved
  | contract :: contracts =>
      resolved ← resolve_contract key now_ns resolved contract;
      resolve_contracts key now_ns resolved contracts
  end.

Definition resolve_call (resolved : gmap string ResolvedRecipeContract.t) (action_id : string)
    (call : StrategyRecipeActionCall.t) : result string AbiFunctionSpec.t :=
  role ← normalize_required_field (StrategyRecipeActionCall.role call) "actions.calls.role";
  function_name ← normalize_required_field (StrategyRecipeActionCall.function_name call)
    "actions.calls.function";
  contract ← ok_or (resolved !! role)
    ("action `" +:+ action_id +:+ "` references unknown role `" +:+ role +:+ "`");
  candidates ← ok_or (ResolvedRecipeContract.functions_by_name contract !! function_name)
    ("action `" +:+ action_id +:+ "` function `" +:+ function_name
     +:+ "` not found in ABI for role `" +:+ role +:+ "`");
  err_if (1 <? count candidates)%N
    ("action `" +:+ action_id +:+ "` function `" +:+ function_name
     +:+ "` is overloaded in role `" +:+ role +:+ "` ABI; provide a non-overloaded function");;
  function ← ok_or (head candidates) "recipe function lookup failed unexpectedly";
  map_err (fun error => "invalid selector for action `" +:+ action_id +:+ "` role `" +:+ role
                        +:+ "` function `" +:+ function_name +:+ "`: " +:+ error)
    (verify_function_selector function);;
  Ok function.

(** The action and its asset effects as JSON. *)
Definition resolve_recipe_action (resolved : gmap string ResolvedRecipeContract.t)
    (action : StrategyRecipeAction.t) : result string (ActionSpec.t * Value.t) :=
  action_id ← normalize_required_field (StrategyRecipeAction.action_id action) "actions.action_id";
  err_if (bool_decide (length (StrategyRecipeAction.calls action) = 0))
    ("action `" +:+ action_id +:+ "` must contain at least one call");;
  call_sequence ← try_map (resolve_call resolved action_id) (StrategyRecipeAction.calls action);
  effects ← map_err (fun error => "failed to serialize action `" +:+ action_id
                                  +:+ "` asset effects: " +:+ error)
    (asset_effects_to_value (StrategyRecipeAction.asset_effects action));
  postconditions ← normalize_required_check_list (StrategyRecipeAction.postconditions action)
    "actions.postconditions";
  Ok (ActionSpec.mk action_id call_sequence
        (normalize_optional_check_list (StrategyRecipeAction.preconditions action))
        postconditions
        (normalize_optional_check_list (StrategyRecipeAction.risk_checks action)), effects).

(** Of two actions with the same name the later effects stay. *)
Definition effects_by_action (actions : list (ActionSpec.t * Value.t)) : gmap string Value.t :=
  list_to_map (reverse ((fun '(action, effects) => (ActionSpec.action_id action, effects))
                          <$> actions)).

(** [serde_json::json!({ .. }).to_string()]. *)
Definition recipe_constraints (max_value_wei_per_call template_budget_wei : string)
    (effects : gmap string Value.t) : string :=
  value_text (Value.Object (list_to_map
    [("max_calls", Value.Number (JsonNumber.PosInt RECIPE_DEFAULT_MAX_CALLS));
     ("max_value_wei_per_call", Value.String max_value_wei_per_call);
     ("max_total_value_wei", Value.String max_value_wei_per_call);
     ("template_budget_wei", Value.String template_budget_wei);
     ("asset_effects", Value.Object effects)])).

Definition role_bindings_of (resolved : gmap string ResolvedRecipeContract.t)
    : list ContractRoleBinding.t :=
  merge_sort binding_le (ResolvedRecipeContract.binding <$> (map_to_list resolved).*2).

Definition register_from_recipe (recipe : StrategyRecipe.t) : B RegisteredStrategy.t :=
  protocol ← lift (normalize_required_field (StrategyRecipe.protocol recipe) "protocol");
  primitive ← lift (normalize_required_field (StrategyRecipe.primitive recipe) "primitive");
  template_id ← lift (normalize_required_field (StrategyRecipe.template_id recipe) "template_id");
  fail_if (StrategyRecipe.chain_id recipe =? 0)%N "chain_id must be greater than zero";;
  fail_if (bool_decide (length (StrategyRecipe.contracts recipe) = 0))
    "contracts must contain at least one entry";;
  fail_if (bool_decide (length (StrategyRecipe.actions recipe) = 0))
    "actions must contain at least one entry";;
  let key := StrategyTemplateKey.mk protocol primitive (StrategyRecipe.chain_id recipe) template_id in
  now_ns ← gets book_time_ns;
  resolved ← resolve_contracts key now_ns ∅ (StrategyRecipe.contracts recipe);
  actions ← lift (try_map (resolve_recipe_action resolved) (StrategyRecipe.actions recipe));
  max_value_wei_per_call ← lift (normalize_recipe_decimal
    (default RECIPE_DEFAULT_MAX_VALUE_WEI_PER_CALL (StrategyRecipe.max_value_wei_per_call recipe))
    "max_value_wei_per_call");
  template_budget_wei ← lift (normalize_recipe_decimal
    (default RECIPE_DEFAULT_TEMPLATE_BUDGET_WEI (StrategyRecipe.template_budget_wei recipe))
    "template_budget_wei");
  stored_draft ← upsert_strategy_template
    (StrategyTemplate.mk key TemplateStatus.Draft (role_bindings_of resolved) actions.*1
       (recipe_constraints max_value_wei_per_call template_budget_wei (effects_by_action actions))
       now_ns now_ns);
  checked ← gets (dry_run_compile key);
  lift checked;;
  activated_template ← upsert_strategy_template
    (stored_draft <| StrategyTemplate.status := TemplateStatus.Active |>
                  <| StrategyTemplate.updated_at_ns := now_ns |>);
  activation ← set_strategy_template_activation
    (TemplateActivationState.mk key true now_ns (Some "auto-activated after dry-run compile"));
  mret (RegisteredStrategy.mk activated_template activation).

(** [promote_discovery_protocol_artifact]. *)
Definition promote_discovery_protocol_artifact (bundle : ProtocolArtifactBundle.t) (now_ns : N)
    : B AbiArtifact.t :=
  let protocol := trim (ProtocolArtifactBundle.protocol_id bundle) in
  fail_if (is_empty protocol) "discovery protocol artifact protocol_id must be non-empty";;
  fail_if (ProtocolArtifactBundle.chain_id bundle =? 0)%N
    "discovery protocol artifact chain_id must be greater than zero";;
  let role := trim (ProtocolArtifactBundle.role bundle) in
  fail_if (is_empty role) "discovery protocol artifact role must be non-empty";;
  lift (normalize_evm_address (ProtocolArtifactBundle.contract_address bundle));;
  normalize_and_store_abi_artifact
    (AbiArtifactKey.mk protocol (ProtocolArtifactBundle.chain_id bundle) role)
    (ProtocolArtifactBundle.abi_json bundle) (ProtocolArtifactBundle.source_ref bundle)
    (ProtocolArtifactBundle.codehash bundle)
    (ProtocolArtifactBundle.selector_assertions bundle) now_ns.

(** ** The steward's strategy commands *)

Definition require_strategy_template (key : StrategyTemplateKey.t) (s : Book.t)
    : result string StrategyTemplate.t :=
  ok_or (get_template key s)
    ("strategy template not found for " +:+ StrategyTemplateKey.protocol key +:+ ":"
     +:+ StrategyTemplateKey.primitive key +:+ ":" +:+ pretty (StrategyTemplateKey.chain_id key)
     +:+ ":" +:+ StrategyTemplateKey.template_id key).

Definition upsert_template_status (key : StrategyTemplateKey.t) (status : TemplateStatus.t)
    : B StrategyTemplate.t :=
  found ← gets (require_strategy_template key);
  template ← lift found;
  now_ns ← gets book_time_ns;
  upsert_strategy_template
    (template <| StrategyTemplate.status := status |>
              <| StrategyTemplate.updated_at_ns := now_ns |>).

Definition ingest_strategy_template (template : StrategyTemplate.t) : B StrategyTemplate.t :=
  now_ns ← gets book_time_ns;
  let template :=
    if (StrategyTemplate.created_at_ns template =? 0)%N
    then template <| StrategyTemplate.created_at_ns := now_ns |> else template in
  upsert_strategy_template (template <| StrategyTemplate.updated_at_ns := now_ns |>).

Definition ingest_strategy_abi_artifact (key : AbiArtifactKey.t) (abi_json source_ref : string)
    (codehash : option string) (selector_assertions : list AbiSelectorAssertion.t)
    : B AbiArtifact.t :=
  now_ns ← gets book_time_ns;
  normalize_and_store_abi_artifact key abi_json source_ref codehash selector_assertions now_ns.

(** [reason.or_else(|| Some(text))]. *)
Definition reason_or (text : string) (reason : option string) : option string :=
  Some (default text reason).

Definition activate_strategy_template (key : StrategyTemplateKey.t) (reason : option string)
    : B TemplateActivationState.t :=
  upsert_template_status key TemplateStatus.Active;;
  checked ← gets (dry_run_compile key);
  lift checked;;
  now_ns ← gets book_time_ns;
  set_strategy_template_activation (TemplateActivationState.mk key true now_ns
    (reason_or "controller activation after dry-run compile" reason)).

Definition deprecate_strategy_template (key : StrategyTemplateKey.t) (reason : option string)
    : B StrategyTemplate.t :=
  template ← upsert_template_status key TemplateStatus.Deprecated;
  now_ns ← gets book_time_ns;
  catch (E := string) (E' := string)
    (set_strategy_template_activation (TemplateActivationState.mk key false now_ns reason));;
  mret template.

Definition revoke_strategy_template (key : StrategyTemplateKey.t) (reason : option string)
    : B TemplateRevocationState.t :=
  upsert_template_status key TemplateStatus.Revoked;;
  now_ns ← gets book_time_ns;
  revocation ← set_strategy_template_revocation
    (TemplateRevocationState.mk key true now_ns reason);
  catch (E := string) (E' := string) (set_strategy_template_activation
    (TemplateActivationState.mk key false now_ns (reason_or "revoked" reason)));;
  mret revocation.

Definition switch_strategy (key : StrategyTemplateKey.t) (enabled : bool) (reason : option string)
    : B StrategyKillSwitchState.t :=
  now_ns ← gets book_time_ns;
  set_strategy_kill_switch (StrategyKillSwitchState.mk key enabled now_ns reason).

(** ** Reconciling templates *)

Definition STRATEGY_RECONCILE_MAX_TEMPLATES : N := 200.
Definition STRATEGY_TEMPLATE_FRESHNESS_WINDOW_SECS : N := 14 * 24 * 60 * 60.

Definition template_age_secs (now_ns : N) (template : StrategyTemplate.t) : N :=
  if (StrategyTemplate.updated_at_ns template <=? now_ns)%N
  then ((now_ns - StrategyTemplate.updated_at_ns template) `div` 1000000000)%N
  else 0%N.

Definition disable_template (key : StrategyTemplateKey.t) (now_ns : N) (reason : string) : B unit :=
  catch (E := string) (E' := string) (set_strategy_template_activation
    (TemplateActivationState.mk key false now_ns (Some reason)));;
  mret tt.

(** One round of the loop over the templates. *)
Definition reconcile_template (now_ns : N) (template : StrategyTemplate.t) : B unit :=
  let key := StrategyTemplate.key template in
  let age_secs := template_age_secs now_ns template in
  if (STRATEGY_TEMPLATE_FRESHNESS_WINDOW_SECS <? age_secs)%N then
    disable_template key now_ns
      ("stale_template age_secs=" +:+ pretty age_secs +:+ " freshness_window_secs="
       +:+ pretty STRATEGY_TEMPLATE_FRESHNESS_WINDOW_SECS)
  else
    checked ← gets (dry_run_compile key);
    match checked with
    | Err error => disable_template key now_ns ("provenance_or_dry_run_failed: " +:+ error)
    | Ok _ =>
        if negb (bool_decide (StrategyTemplate.status template = TemplateStatus.Active))
        then mret tt
        else
          currently_enabled ← gets (strategy_enabled key);
          if (currently_enabled : bool) then mret tt
          else
            set_strategy_template_activation (TemplateActivationState.mk key true now_ns
              (Some "scheduler dry-run compile passed"));;
            mret tt
    end.

Context `{rows : RowOrder}.

Definition reconcile_templates (now_ns : N) : B unit :=
  templates ← gets (list_all_strategy_templates STRATEGY_RECONCILE_MAX_TEMPLATES);
  for_each templates (reconcile_template now_ns).
End Registry.

(** ** Registered templates are ready *)

Lemma normalize_required_field_Ok raw field trimmed :
  normalize_required_field raw field = Ok trimmed -> trimmed = trim raw /\ trimmed <> "".
Proof.
  unfold normalize_required_field.
  intros (Hnamed%is_empty_false & [= <-])%err_if_seq_Ok. done.
Qed.

(** The functions under a name are functions of the artifact with that name. *)
Lemma index_functions_elem functions name candidates function :
  index_functions functions !! name = Some candidates -> function ∈ candidates ->
  function ∈ functions /\ AbiFunctionSpec.name function = name.
Proof.
  revert candidates. unfold index_functions.
  induction functions as [|last functions IH] using rev_ind; intros candidates.
  { simpl. by rewrite lookup_empty. }
  rewrite fold_left_app. cbn [fold_left].
  set (index := fold_left _ functions ∅) in *.
  rewrite lookup_insert_Some. intros [[Hname <-]|[Hname Hlookup]] Hin.
  - rewrite elem_of_app in Hin. destruct Hin as [Hin|Hlast%list_elem_of_singleton]; [|subst; set_solver].
    rewrite Hname in Hin. destruct (index !! name) as [earlier|] eqn:Hindex; [|set_solver].
    destruct (IH earlier eq_refl Hin). set_solver.
  - destruct (IH candidates Hlookup Hin). set_solver.
Qed.

Section RegistryFacts.
#[local] Set Default Proof Using "All".
Context `{ext : Externals, ext_ok : !ExternalsOk ext, libs : StrategyLibs}.

(** The functions of an artifact are those of its role, with the selectors
    that belong to their signatures. *)
Lemma normalize_abi_artifact_selected key abi_json source_ref codehash assertions now_ns artifact :
  normalize_abi_artifact key abi_json source_ref codehash assertions now_ns = Ok artifact ->
  AbiArtifact.key artifact = key /\ AbiArtifact.source_ref artifact = trim source_ref
  /\ Forall (fun function => exists signature,
       selected (AbiArtifactKey.role key) (signature, function)) (AbiArtifact.functions artifact).
Proof.
  unfold normalize_abi_artifact.
  intros ([] & _ & (_ & (entries & _ & (functions & Hfunctions &
    (_ & (index & _ & ([] & _ & [= <-])%result_bind_Ok)%result_bind_Ok)%err_if_seq_Ok)
    %result_bind_Ok)%result_bind_Ok)%err_if_seq_Ok)%result_bind_Ok.
  split; [done|]. split; [done|]. simpl. apply Forall_fmap, Forall_forall.
  intros [signature function] Hin. rewrite merge_sort_Permutation in Hin. exists signature. simpl.
  destruct (try_map_elem _ _ _ _ Hfunctions Hin) as (entry & _ & Hentry).
  by eapply normalize_function_selected.
Qed.

(** What a round of the loop over the contracts leaves for its role. *)
Record contract_stored (key : StrategyTemplateKey.t) (s : Book.t) (role : string)
    (contract : ResolvedRecipeContract.t) : Prop := {
  stored_role : ContractRoleBinding.role (ResolvedRecipeContract.binding contract) = role
    /\ trim role = role /\ role <> "";
  stored_address :
    let address := ContractRoleBinding.address (ResolvedRecipeContract.binding contract) in
    normalize_evm_address address = Ok address;
  stored_source : trim (ContractRoleBinding.source_ref (ResolvedRecipeContract.binding contract)) <> "";
  stored_artifact : exists artifact,
    get_abi_artifact (AbiArtifactKey.mk (StrategyTemplateKey.protocol key)
                        (StrategyTemplateKey.chain_id key) role) s = Some artifact
    /\ trim (AbiArtifact.source_ref artifact) <> ""
    /\ ResolvedRecipeContract.functions_by_name contract
       = index_functions (AbiArtifact.functions artifact)
    /\ Forall (fun function => exists signature, selected role (signature, function))
         (AbiArtifact.functions artifact);
}.

Lemma abi_artifact_pk_role protocol chain_id role role' :
  abi_artifact_pk (AbiArtifactKey.mk protocol chain_id role)
    = abi_artifact_pk (AbiArtifactKey.mk protocol chain_id role') -> role = role'.
Proof. unfold abi_artifact_pk. simpl. intros H. by simplify_eq. Qed.

Lemma contract_stored_other key s role contract other artifact :
  other <> role -> contract_stored key s role contract ->
  contract_stored key
    (s <| Book.abi_artifacts ::= <[abi_artifact_pk (AbiArtifactKey.mk
        (StrategyTemplateKey.protocol key) (StrategyTemplateKey.chain_id key) other) := artifact]> |>)
    role contract.
Proof.
  intros Hne [Hrole Haddress Hsource (stored & Hstored & Hrest)]. split; try done.
  exists stored. split; [|done]. unfold get_abi_artifact in *. simpl_set.
  rewrite lookup_insert_ne; [done|]. by intros ?%abi_artifact_pk_role.
Qed.

Lemma resolve_contract_run key now_ns resolved contract s resolved' s' :
  resolve_contract key now_ns resolved contract s = Done resolved' s' ->
  map_Forall (contract_stored key s) resolved ->
  map_Forall (contract_stored key s') resolved' /\ size resolved' = S (size resolved).
Proof.
  unfold resolve_contract. intros Hrun Hstored.
  run_inv Hrun as role t Hrole. apply lift_Done in Hrole as [Hrole ->].
  apply normalize_required_field_Ok in Hrole as [Htrim Hnamed].
  run_inv Hrun as u t Hfresh. apply fail_if_Done in Hfresh as [Hfresh ->].
  run_inv Hrun as address t Haddress. apply lift_Done in Haddress as [Haddress ->].
  run_inv Hrun as source_ref t Hsource. apply lift_Done in Hsource as [Hsource ->].
  apply normalize_required_field_Ok in Hsource as [Htrim_source Hsourced].
  run_inv Hrun as artifact t Hartifact. apply lift_Done in Hartifact as [Hartifact ->].
  apply normalize_abi_artifact_selected in Hartifact as (Hkey & Hsource_ref & Hselected).
  run_inv Hrun as stored t Hupsert. unfold upsert_abi_artifact in Hupsert. done_inv.
  destruct (resolved !! trim _) eqn:Hnew; [done|].
  rewrite Hkey. split; [|by rewrite map_size_insert_None].
  apply map_Forall_insert_2.
  - split; simpl; [by rewrite trim_idem|by eapply evm_address_normal|by rewrite trim_idem|].
    exists stored. unfold get_abi_artifact. simpl_set. rewrite lookup_insert_eq.
    rewrite Hsource_ref, !trim_idem. done.
  - intros role contract' Hcontract. apply contract_stored_other; [congruence|].
    by apply Hstored.
Qed.

Lemma resolve_contracts_run key now_ns contracts resolved s resolved' s' :
  resolve_contracts key now_ns resolved contracts s = Done resolved' s' ->
  map_Forall (contract_stored key s) resolved ->
  map_Forall (contract_stored key s') resolved'
  /\ size resolved' = size resolved + length contracts.
Proof.
  revert resolved s. induction contracts as [|contract contracts IH]; intros resolved s Hrun Hstored.
  - cbn [resolve_contracts] in Hrun. done_inv. split; [done|]. simpl. lia.
  - cbn [resolve_contracts] in Hrun. run_inv Hrun as resolved1 s1 Hstep.
    destruct (resolve_contract_run _ _ _ _ _ _ _ Hstep Hstored) as [Hstored1 Hsize].
    destruct (IH _ _ Hrun Hstored1) as [Hstored' Hsize']. split; [done|]. simpl. lia.
Qed.

(** A function the compiler can call for [template]. *)
Definition function_ready (template : StrategyTemplate.t) (s : Book.t)
    (function : AbiFunctionSpec.t) : Prop :=
  exists signature binding artifact,
    canonical_signature (AbiFunctionSpec.name function) (AbiFunctionSpec.inputs function)
      = Ok signature
    /\ AbiFunctionSpec.selector_hex function = recompute_selector_hex signature
    /\ binding ∈ StrategyTemplate.contract_roles template
    /\ ContractRoleBinding.role binding = AbiFunctionSpec.role function
    /\ normalize_evm_address (ContractRoleBinding.address binding)
       = Ok (ContractRoleBinding.address binding)
    /\ trim (ContractRoleBinding.source_ref binding) <> ""
    /\ get_abi_artifact (AbiArtifactKey.mk (StrategyTemplateKey.protocol (StrategyTemplate.key template))
         (StrategyTemplateKey.chain_id (StrategyTemplate.key template))
         (AbiFunctionSpec.role function)) s = Some artifact
    /\ function ∈ AbiArtifact.functions artifact
    /\ trim (AbiArtifact.source_ref artifact) <> "".

Definition action_ready (template : StrategyTemplate.t) (s : Book.t) (action : ActionSpec.t) : Prop :=
  trim (ActionSpec.action_id action) = ActionSpec.action_id action
  /\ ActionSpec.action_id action <> ""
  /\ ActionSpec.call_sequence action <> []
  /\ Forall (function_ready template s) (ActionSpec.call_sequence action)
  /\ ActionSpec.postconditions action <> []
  /\ Forall (fun text => text <> "") (ActionSpec.postconditions action).

Lemma normalize_required_check_list_Ok values field normalized :
  normalize_required_check_list values field = Ok normalized ->
  normalized <> [] /\ Forall (fun text => text <> "") normalized.
Proof.
  unfold normalize_required_check_list. intros [Hsome [= <-]]%err_if_seq_Ok.
  split; [by apply bool_decide_eq_false in Hsome|].
  apply Forall_forall. intros text [Htext _]%list_elem_of_filter. by apply is_empty_false.
Qed.

Section Roles.
Context (key : StrategyTemplateKey.t) (s : Book.t) (resolved : gmap string ResolvedRecipeContract.t)
  (stored : map_Forall (contract_stored key s) resolved).

Lemma role_bindings_perm :
  role_bindings_of resolved ≡ₚ ResolvedRecipeContract.binding <$> (map_to_list resolved).*2.
Proof using Type. apply merge_sort_Permutation. Qed.

Lemma resolved_binding role contract :
  resolved !! role = Some contract ->
  ResolvedRecipeContract.binding contract ∈ role_bindings_of resolved.
Proof using Type.
  intros Hcontract. rewrite role_bindings_perm.
  apply list_elem_of_fmap_2, (list_elem_of_fmap_2 snd _ (role, contract)).
  by apply elem_of_map_to_list.
Qed.

Lemma role_binding_resolved binding :
  binding ∈ role_bindings_of resolved ->
  exists role contract, resolved !! role = Some contract
    /\ binding = ResolvedRecipeContract.binding contract.
Proof using Type.
  rewrite role_bindings_perm.
  intros (contract & -> & ((role & contract') & -> & Hin)%list_elem_of_fmap)%list_elem_of_fmap.
  exists role, contract'. split; [by apply elem_of_map_to_list|done].
Qed.

Lemma role_bindings_roles :
  ContractRoleBinding.role <$> role_bindings_of resolved ≡ₚ (map_to_list resolved).*1.
Proof.
  rewrite role_bindings_perm, <- !list_fmap_compose.
  assert ((ContractRoleBinding.role ∘ ResolvedRecipeContract.binding) ∘ snd
            <$> map_to_list resolved = (map_to_list resolved).*1) as ->; [|done].
  apply list_fmap_ext. intros i [role contract] Hin%list_elem_of_lookup_2. simpl.
  apply elem_of_map_to_list in Hin. apply (stored_role _ _ _ _ (stored _ _ Hin)).
Qed.

Lemma role_bindings_distinct : 
  NoDup (ContractRoleBinding.role <$> role_bindings_of resolved)
  /\ Forall (fun binding => trim (ContractRoleBinding.role binding) = ContractRoleBinding.role binding)
       (role_bindings_of resolved).
Proof.
  split; [rewrite role_bindings_roles; apply NoDup_fst_map_to_list|].
  apply Forall_forall.
  intros binding (role & contract & Hcontract & ->)%role_binding_resolved.
  by destruct (stored_role _ _ _ _ (stored _ _ Hcontract)) as (-> & Htrim & _).
Qed.

(** The template that [resolved] and [key] make, whatever its other fields. *)
Definition made_of (template : StrategyTemplate.t) : Prop :=
  StrategyTemplate.key template = key
  /\ StrategyTemplate.contract_roles template = role_bindings_of resolved.

Lemma resolve_call_ready template action_id call function :
  made_of template -> resolve_call resolved action_id call = Ok function ->
  function_ready template s function.
Proof.
  intros [Hkey Hroles]. unfold resolve_call.
  intros (role & _ & (name & _ & (contract & Hcontract%ok_or_Ok &
    (candidates & Hcandidates%ok_or_Ok & (_ & (found & Hfound%ok_or_Ok &
    (signature & _ & [= <-])%result_bind_Ok)%result_bind_Ok)%err_if_seq_Ok)
    %result_bind_Ok)%result_bind_Ok)%result_bind_Ok)%result_bind_Ok.
  destruct (stored _ _ Hcontract) as [(Hrole & _) Haddress Hsource
    (artifact & Hartifact & Hartifact_source & Hindex & Hselected)].
  rewrite Hindex in Hcandidates. apply head_Some_elem_of in Hfound.
  destruct (index_functions_elem _ _ _ _ Hcandidates Hfound) as [Hin _].
  rewrite Forall_forall in Hselected.
  destruct (Hselected _ Hin) as (text & Hverified & Hfunction_role & Hselector). simpl in *.
  exists text, (ResolvedRecipeContract.binding contract), artifact.
  unfold verify_function_selector in Hverified.
  apply result_bind_Ok in Hverified as (canonical & Hcanonical & Hverified).
  apply result_bind_Ok in Hverified as (normalized & _ & Hverified).
  apply err_if_seq_Ok in Hverified as [_ [= <-]].
  rewrite Hkey, Hroles, Hfunction_role.
  do 2 (split; [done|]). split; [by eapply resolved_binding|]. done.
Qed.

Lemma resolve_recipe_action_ready template recipe action effects :
  made_of template -> resolve_recipe_action resolved recipe = Ok (action, effects) ->
  action_ready template s action.
Proof.
  intros Hmade. unfold resolve_recipe_action.
  intros (action_id & [Hid Hnamed]%normalize_required_field_Ok & Haction)%result_bind_Ok.
  apply err_if_seq_Ok in Haction as [Hcalls%bool_decide_eq_false Haction].
  apply result_bind_Ok in Haction as (functions & Hfunctions & Haction).
  apply result_bind_Ok in Haction as (value & _ & Haction).
  apply result_bind_Ok in Haction as (postconditions & Hpost%normalize_required_check_list_Ok & Haction).
  injection Haction as <- <-. subst action_id. unfold action_ready. simpl.
  split; [apply trim_idem|]. split; [done|]. split; [|split; [|exact Hpost]].
  - apply try_map_Ok, Forall2_length in Hfunctions. intros ->. simpl in Hfunctions. lia.
  - apply Forall_forall. intros function Hin.
    destruct (try_map_elem _ _ _ _ Hfunctions Hin) as (call & _ & Hcall).
    by eapply resolve_call_ready.
Qed.
End Roles.

(** The compiler reads of a template neither its status nor when it changed. *)
Definition same_code (s s' : Book.t) (key : StrategyTemplateKey.t) : Prop :=
  Book.abi_artifacts s' = Book.abi_artifacts s
  /\ exists template status updated_at_ns,
       get_template key s = Some template
       /\ get_template key s' = Some (template <| StrategyTemplate.status := status |>
                                               <| StrategyTemplate.updated_at_ns := updated_at_ns |>).

Lemma result_bind_ext {E A C} (r : result E A) (f g : A -> result E C) :
  (forall a, r = Ok a -> f a = g a) -> (r ≫= f) = (r ≫= g).
Proof. intros H. destruct r; [by apply H|done]. Qed.

Lemma compile_intent_same_code intent s s' :
  same_code s s' (StrategyExecutionIntent.key intent) -> compile_intent intent s' = compile_intent intent s.
Proof.
  intros (Hartifacts & template & status & updated & Hbefore & Hafter).
  unfold compile_intent, load_template. rewrite Hbefore, Hafter.
  unfold compile_call, get_abi_artifact. rewrite Hartifacts. reflexivity.
Qed.

Lemma dry_run_compile_same_code key s s' :
  same_code s s' key -> dry_run_compile key s' = dry_run_compile key s.
Proof.
  intros Hcode. pose proof Hcode as (_ & template & status & updated & Hbefore & Hafter).
  unfold dry_run_compile, load_template. rewrite Hbefore, Hafter. cbn [ok_or mbind result_bind].
  change (StrategyTemplate.actions (template <| StrategyTemplate.status := status |>
    <| StrategyTemplate.updated_at_ns := updated |>)) with (StrategyTemplate.actions template).
  apply result_bind_ext. intros action _. apply result_bind_ext. intros schema _.
  apply result_bind_ext. intros [] _. apply result_bind_ext. intros args _.
  rewrite (compile_intent_same_code _ s s') by exact Hcode. reflexivity.
Qed.

Lemma normalize_recipe_decimal_Ok raw field text :
  normalize_recipe_decimal raw field = Ok text -> text = trim raw /\ is_some (u256_of text) = true.
Proof.
  unfold normalize_recipe_decimal.
  intros (Hnamed & (Hdigits & (value & Hvalue & [= <-])%result_bind_Ok)
    %err_if_seq_Ok)%err_if_seq_Ok.
  split; [done|]. unfold u256_of, parse_u256_decimal. rewrite trim_idem, Hnamed, Hdigits.
  apply ok_or_Ok in Hvalue. by rewrite Hvalue.
Qed.

Lemma upsert_strategy_template_Done template s stored s' :
  upsert_strategy_template template s = Done stored s' ->
  stored = template
  /\ s' = s <| Book.strategy_templates ::=
                 <[strategy_template_pk (StrategyTemplate.key template) := template]> |>.
Proof. unfold upsert_strategy_template. intros Hrun. done_inv. done. Qed.

Lemma set_strategy_template_activation_Done state s stored s' :
  set_strategy_template_activation state s = Done stored s' ->
  validate_strategy_template_key (TemplateActivationState.key state) = Ok tt /\ stored = state
  /\ s' = s <| Book.strategy_activations ::=
                 <[template_state_record_key "activation" (TemplateActivationState.key state) := state]> |>.
Proof.
  unfold set_strategy_template_activation. intros Hrun.
  run_inv Hrun as u t Hvalid. apply lift_Done in Hvalid as [Hvalid ->]. destruct u.
  done_inv. done.
Qed.

(** The storage writes of a registration that succeeds. *)
Lemma register_from_recipe_stages recipe registered s s' :
  register_from_recipe recipe s = Done registered s' ->
  exists resolved t actions cap budget,
    let key := StrategyTemplateKey.mk (trim (StrategyRecipe.protocol recipe))
      (trim (StrategyRecipe.primitive recipe)) (StrategyRecipe.chain_id recipe)
      (trim (StrategyRecipe.template_id recipe)) in
    let draft := StrategyTemplate.mk key TemplateStatus.Draft (role_bindings_of resolved) actions.*1
      (recipe_constraints cap budget (effects_by_action actions)) (book_time_ns s) (book_time_ns s) in
    let active := draft <| StrategyTemplate.status := TemplateStatus.Active |>
                        <| StrategyTemplate.updated_at_ns := book_time_ns s |> in
    let drafted := t <| Book.strategy_templates ::= <[strategy_template_pk key := draft]> |> in
    validate_strategy_template_key key = Ok tt
    /\ resolve_contracts key (book_time_ns s) ∅ (StrategyRecipe.contracts recipe) s = Done resolved t
    /\ try_map (resolve_recipe_action resolved) (StrategyRecipe.actions recipe) = Ok actions
    /\ StrategyRecipe.actions recipe <> []
    /\ is_some (u256_of cap) = true /\ is_some (u256_of budget) = true
    /\ dry_run_compile key drafted = Ok tt
    /\ RegisteredStrategy.template registered = active
    /\ s' = drafted <| Book.strategy_templates ::= <[strategy_template_pk key := active]> |>
        <| Book.strategy_activations ::= <[template_state_record_key "activation" key :=
             RegisteredStrategy.activation registered]> |>
    /\ TemplateActivationState.enabled (RegisteredStrategy.activation registered) = true.
Proof.
  unfold register_from_recipe. intros Hrun.
  run_inv Hrun as protocol t0 Hprotocol.
  apply lift_Done in Hprotocol as [[-> Hp]%normalize_required_field_Ok ->].
  run_inv Hrun as primitive t0 Hprimitive.
  apply lift_Done in Hprimitive as [[-> Hq]%normalize_required_field_Ok ->].
  run_inv Hrun as template_id t0 Htemplate_id.
  apply lift_Done in Htemplate_id as [[-> Hi]%normalize_required_field_Ok ->].
  run_inv Hrun as u0 t0 Hchain. apply fail_if_Done in Hchain as [Hchain%N.eqb_neq ->].
  run_inv Hrun as u1 t0 Hcontracts. apply fail_if_Done in Hcontracts as [_ ->].
  run_inv Hrun as u2 t0 Hactions.
  apply fail_if_Done in Hactions as [Hactions%bool_decide_eq_false ->].
  set (key := StrategyTemplateKey.mk _ _ _ _) in *.
  run_inv Hrun as now t0 Hnow. unfold gets in Hnow. injection Hnow as <- <-.
  run_inv Hrun as resolved t Hresolved.
  run_inv Hrun as actions t0 Hmapped. apply lift_Done in Hmapped as [Hmapped ->].
  run_inv Hrun as cap t0 Hcap. apply lift_Done in Hcap as [[_ Hcap]%normalize_recipe_decimal_Ok ->].
  run_inv Hrun as budget t0 Hbudget.
  apply lift_Done in Hbudget as [[_ Hbudget]%normalize_recipe_decimal_Ok ->].
  run_inv Hrun as draft t1 Hdraft. apply upsert_strategy_template_Done in Hdraft as [-> ->].
  run_inv Hrun as checked t0 Hchecked. unfold gets in Hchecked. injection Hchecked as <- <-.
  run_inv Hrun as u3 t0 Hdry. apply lift_Done in Hdry as [Hdry ->]. destruct u3.
  run_inv Hrun as active t0 Hactive. apply upsert_strategy_template_Done in Hactive as [-> ->].
  run_inv Hrun as activation t0 Hactivation.
  apply set_strategy_template_activation_Done in Hactivation as (Hvalid & -> & ->).
  unfold mret, M_ret in Hrun. injection Hrun as <- <-.
  exists resolved, t, actions, cap, budget. do 3 (split; [done|]).
  split; [intros Hempty; by rewrite Hempty in Hactions|]. do 5 (split; [done|]). done.
Qed.

(** C22 - A recipe that [register_from_recipe] accepts leaves a strategy that
    can run: the template is stored as active and enabled under the trimmed
    key and still passes the dry-run compilation; its contracts have distinct
    roles, as many as the recipe lists, with normal addresses and sources;
    and every action has a name, postconditions and a non-empty sequence of
    functions, each of which has the selector of its signature, a contract
    bound to its role, and a stored artifact of that role that lists it. *)
Theorem register_from_recipe_ready (recipe : StrategyRecipe.t) (registered : RegisteredStrategy.t)
    (s s' : Book.t) (Hrun : register_from_recipe recipe s = Done registered s') :
  let template := RegisteredStrategy.template registered in
  let key := StrategyTemplate.key template in
  key = StrategyTemplateKey.mk (trim (StrategyRecipe.protocol recipe))
          (trim (StrategyRecipe.primitive recipe)) (StrategyRecipe.chain_id recipe)
          (trim (StrategyRecipe.template_id recipe))
  /\ validate_strategy_template_key key = Ok tt
  /\ get_template key s' = Some template
  /\ StrategyTemplate.status template = TemplateStatus.Active
  /\ strategy_enabled key s' = true
  /\ dry_run_compile key s' = Ok tt
  /\ roles_distinct template
  /\ length (StrategyTemplate.contract_roles template) = length (StrategyRecipe.contracts recipe)
  /\ StrategyTemplate.actions template <> []
  /\ length (StrategyTemplate.actions template) = length (StrategyRecipe.actions recipe)
  /\ Forall (action_ready template s') (StrategyTemplate.actions template)
  /\ exists cap budget effects,
       is_some (u256_of cap) = true /\ is_some (u256_of budget) = true
       /\ StrategyTemplate.constraints_json template = recipe_constraints cap budget effects.
Proof.
  apply register_from_recipe_stages in Hrun as (resolved & t & actions & cap & budget & Hvalid
    & Hresolved & Hmapped & Hsome & Hcap & Hbudget & Hdry & Htemplate & Hs' & Henabled).
  set (key := StrategyTemplateKey.mk _ _ _ _) in *.
  set (draft := StrategyTemplate.mk key _ _ _ _ _ _) in *. cbv zeta in Hs', Htemplate.
  set (drafted := t <| Book.strategy_templates ::= _ |>) in *.
  destruct (resolve_contracts_run _ _ _ _ _ _ _ Hresolved (map_Forall_empty _)) as [Hstored Hsize].
  assert (get_template key s' = Some (RegisteredStrategy.template registered)) as Hget.
  { unfold get_template. rewrite Hs', Htemplate. simpl_set. by rewrite lookup_insert_eq. }
  assert (same_code drafted s' key) as Hcode.
  { split; [by rewrite Hs'|].
    exists draft, TemplateStatus.Active, (book_time_ns s). split.
    - unfold get_template, drafted. simpl_set. by rewrite lookup_insert_eq.
    - by rewrite Hget, Htemplate. }
  assert (map_Forall (contract_stored key s') resolved) as Hstored'.
  { intros role contract Hcontract. destruct (Hstored _ _ Hcontract) as [Hr Ha Hsrc Hart].
    split; [done..|]. unfold get_abi_artifact in *. rewrite Hs'. simpl_set. exact Hart. }
  rewrite Htemplate in *. cbv zeta.
  split; [done|]. split; [done|]. split; [done|]. split; [done|].
  split. { unfold strategy_enabled, strategy_template_activation. rewrite Hs'. simpl_set.
    simpl StrategyTemplate.key. rewrite lookup_insert_eq. exact Henabled. }
  split. { etrans; [exact (dry_run_compile_same_code _ _ _ Hcode)|exact Hdry]. }
  split; [apply (role_bindings_distinct key s' resolved Hstored')|].
  split. { simpl. rewrite role_bindings_perm, !length_fmap, length_map_to_list. exact Hsize. }
  pose proof (Forall2_length _ _ _ (proj1 (try_map_Ok _ _ _) Hmapped)) as Hlength.
  split. { simpl. intros Hempty%(f_equal length). rewrite length_fmap in Hempty.
    by destruct (StrategyRecipe.actions recipe), actions. }
  split; [simpl; by rewrite length_fmap|]. split.
  - simpl. apply Forall_forall. intros action ([found effects] & -> & Hin)%list_elem_of_fmap.
    destruct (try_map_elem _ _ _ _ Hmapped Hin) as (recipe_action & _ & Haction).
    by eapply (resolve_recipe_action_ready key s' resolved Hstored').
  - by exists cap, budget, (effects_by_action actions).
Qed.
End RegistryFacts.
