(* ===== verification/StrategyLifecycle.v ===== *)
(** * StrategyLifecycle: which strategies may run

    Properties of [StrategyRegistry] across components: what reconciliation
    decides about every template, that a revocation is final, how long
    the quarantine of a strategy that failed lasts while executions are sent,
    observed and booked ([execution_step]), and that a strategy that fails three
    times in a row is disabled. *)

From S2P Require Import Prelude Text SpawnProtocol Types Externals AgentTypes Evm TopUp AgentStore StrategyTypes StrategyStore StrategyValidator StrategyAbi StrategyCompiler StrategyCodec StrategyPlan StrategyPolicy StrategyExecution StrategyLedger StrategyRegistry.

(** ** Reconciling templates *)

Section Reconciling.
#[local] Set Default Proof Using "All".
Context `{ext : Externals, libs : StrategyLibs}.

Definition activation_key (template : StrategyTemplate.t) : string :=
  template_state_record_key "activation" (StrategyTemplate.key template).

(** Whether a template is enabled after reconciliation in the state [s]. *)
Definition reconciled_enabled (now_ns : N) (template : StrategyTemplate.t) (s : Book.t) : bool :=
  if (STRATEGY_TEMPLATE_FRESHNESS_WINDOW_SECS <? template_age_secs now_ns template)%N then false
  else
    match dry_run_compile (StrategyTemplate.key template) s with
    | Err _ => false
    | Ok _ => bool_decide (StrategyTemplate.status template = TemplateStatus.Active)
              || strategy_enabled (StrategyTemplate.key template) s
    end.

(** Only the activation of [template] changed, and to what it has to be. *)
Record template_reconciled (now_ns : N) (template : StrategyTemplate.t) (s s' : Book.t) : Prop := {
  reconciled_activations : exists activations,
    s' = s <| Book.strategy_activations := activations |>
    /\ forall record_key, record_key <> activation_key template ->
         activations !! record_key = Book.strategy_activations s !! record_key;
  reconciled_verdict :
    strategy_enabled (StrategyTemplate.key template) s' = reconciled_enabled now_ns template s;
}.

Lemma write_activation_reconciled now_ns template state s :
  TemplateActivationState.key state = StrategyTemplate.key template ->
  validate_strategy_template_key (StrategyTemplate.key template) = Ok tt ->
  TemplateActivationState.enabled state = reconciled_enabled now_ns template s ->
  exists s', set_strategy_template_activation state s = Done state s'
    /\ template_reconciled now_ns template s s'.
Proof.
  intros Hkey Hvalid Hverdict. unfold set_strategy_template_activation. rewrite Hkey, Hvalid.
  eexists. split; [reflexivity|]. split.
  - eexists (<[activation_key template := state]> (Book.strategy_activations s)). split; [done|].
    intros record_key Hne. by rewrite lookup_insert_ne.
  - unfold strategy_enabled, strategy_template_activation. simpl_set.
    by rewrite lookup_insert_eq.
Qed.

Lemma unchanged_reconciled now_ns template s :
  strategy_enabled (StrategyTemplate.key template) s = reconciled_enabled now_ns template s ->
  template_reconciled now_ns template s s.
Proof. intros H. split; [|done]. exists (Book.strategy_activations s). split; [|done]. by destruct s. Qed.

Lemma disable_template_run now_ns template s reason :
  validate_strategy_template_key (StrategyTemplate.key template) = Ok tt ->
  reconciled_enabled now_ns template s = false ->
  exists s', disable_template (StrategyTemplate.key template) now_ns reason s = Done tt s'
    /\ template_reconciled now_ns template s s'.
Proof.
  intros Hvalid Hverdict.
  destruct (write_activation_reconciled now_ns template
    (TemplateActivationState.mk (StrategyTemplate.key template) false now_ns (Some reason)) s)
    as (s' & Hset & Hdone); [done..|].
  exists s'. split; [|done]. unfold disable_template, catch. exec. by rewrite Hset.
Qed.

Lemma reconcile_template_run now_ns template s :
  validate_strategy_template_key (StrategyTemplate.key template) = Ok tt ->
  exists s', reconcile_template now_ns template s = Done tt s'
    /\ template_reconciled now_ns template s s'.
Proof.
  intros Hvalid. unfold reconcile_template.
  pose proof (disable_template_run now_ns template s) as Hdisable.
  pose proof (unchanged_reconciled now_ns template s) as Hsame.
  pose proof (fun state => write_activation_reconciled now_ns template state s) as Hwrite.
  unfold reconciled_enabled in Hdisable, Hsame, Hwrite.
  destruct (STRATEGY_TEMPLATE_FRESHNESS_WINDOW_SECS <? template_age_secs now_ns template)%N;
    [by apply Hdisable|].
  unfold gets, mbind, M_bind.
  destruct (dry_run_compile (StrategyTemplate.key template) s) as [[]|error]; [|by apply Hdisable].
  destruct (bool_decide (StrategyTemplate.status template = TemplateStatus.Active));
    [|exists s; split; [done|]; by apply Hsame].
  cbn [negb orb] in *.
  destruct (strategy_enabled (StrategyTemplate.key template) s);
    [exists s; split; [done|]; by apply Hsame|].
  destruct (Hwrite (TemplateActivationState.mk (StrategyTemplate.key template) true now_ns
      (Some "scheduler dry-run compile passed"))) as (s' & Hset & Hdone); [done..|].
  exists s'. split; [|done]. by rewrite Hset.
Qed.

(** The verdict on a template depends on no other activation. *)
Lemma reconciled_enabled_other now_ns template s activations :
  activations !! activation_key template = Book.strategy_activations s !! activation_key template ->
  reconciled_enabled now_ns template (s <| Book.strategy_activations := activations |>)
  = reconciled_enabled now_ns template s.
Proof.
  intros Hsame. unfold reconciled_enabled, strategy_enabled, strategy_template_activation.
  change (dry_run_compile (StrategyTemplate.key template)
            (s <| Book.strategy_activations := activations |>))
    with (dry_run_compile (StrategyTemplate.key template) s).
  simpl_set. unfold activation_key in Hsame. by rewrite Hsame.
Qed.

Lemma reconcile_each_run now_ns templates s :
  Forall (fun template =>
    validate_strategy_template_key (StrategyTemplate.key template) = Ok tt) templates ->
  NoDup (activation_key <$> templates) ->
  exists activations,
    let s' := s <| Book.strategy_activations := activations |> in
    for_each templates (reconcile_template now_ns) s = Done tt s'
    /\ Forall (fun template =>
         strategy_enabled (StrategyTemplate.key template) s' = reconciled_enabled now_ns template s)
         templates
    /\ forall record_key, record_key ∉ activation_key <$> templates ->
         activations !! record_key = Book.strategy_activations s !! record_key.
Proof.
  revert s. induction templates as [|template templates IH]; intros s Hvalid Hdistinct.
  { exists (Book.strategy_activations s). split; [by destruct s|]. split; [constructor|done]. }
  apply Forall_cons in Hvalid as [Hvalid Hrest]. apply NoDup_cons in Hdistinct as [Hnew Hdistinct].
  destruct (reconcile_template_run now_ns template s Hvalid)
    as (s1 & Hrun & [(first & -> & Hothers) Hverdict]).
  destruct (IH (s <| Book.strategy_activations := first |>) Hrest Hdistinct)
    as (activations & Hruns & Hverdicts & Hkept).
  exists activations. cbn [for_each]. rewrite (M_bind_run _ _ _ _ _ Hrun), Hruns.
  split; [done|]. split.
  - constructor.
    + rewrite <- Hverdict. unfold strategy_enabled, strategy_template_activation. simpl_set.
      fold (activation_key template). by rewrite (Hkept _ Hnew).
    + apply Forall_forall. intros other Hother.
      rewrite Forall_forall in Hverdicts. specialize (Hverdicts other Hother).
      rewrite reconciled_enabled_other in Hverdicts; [exact Hverdicts|].
      apply Hothers. intros Hsame. apply Hnew. rewrite <- Hsame.
      by apply (list_elem_of_fmap_2 activation_key).
  - intros record_key Hout. rewrite fmap_cons, not_elem_of_cons in Hout. destruct Hout as [Hne Hout].
    rewrite (Hkept _ Hout). by apply Hothers.
Qed.

Context `{rows : RowOrder}.

(** Reconciliation goes through every listed template and decides it
    alone: a template older than the freshness window, or one that no longer
    passes the dry-run compilation, ends disabled; one that passes ends
    enabled if its status is active, whoever disabled it, and otherwise stays
    as it was.  Nothing but activations changes, and none of a template that
    is not listed. *)
Theorem reconcile_templates_verdict (now_ns : N) (s : Book.t)
    (Hvalid : Forall (fun template =>
       validate_strategy_template_key (StrategyTemplate.key template) = Ok tt)
       (list_all_strategy_templates STRATEGY_RECONCILE_MAX_TEMPLATES s))
    (Hdistinct : NoDup (activation_key <$>
       list_all_strategy_templates STRATEGY_RECONCILE_MAX_TEMPLATES s)) :
  let templates := list_all_strategy_templates STRATEGY_RECONCILE_MAX_TEMPLATES s in
  exists activations,
    let s' := s <| Book.strategy_activations := activations |> in
    reconcile_templates now_ns s = Done tt s'
    /\ (forall template, template ∈ templates ->
         strategy_enabled (StrategyTemplate.key template) s' = reconciled_enabled now_ns template s)
    /\ forall record_key, record_key ∉ activation_key <$> templates ->
         activations !! record_key = Book.strategy_activations s !! record_key.
Proof.
  destruct (reconcile_each_run now_ns _ s Hvalid Hdistinct) as (activations & Hrun & Hverdict & Hkept).
  exists activations. split; [exact Hrun|]. split; [by apply Forall_forall|exact Hkept].
Qed.
End Reconciling.

(** ** Revocation *)

Section Revocation.
#[local] Set Default Proof Using "All".
Context `{ext : Externals, libs : StrategyLibs, rows : RowOrder}.

(** The messages that write strategies: the commands of the steward, the
    promotion of discovered artifacts and the reconciliation. *)
Inductive lifecycle_command :=
| Register (recipe : StrategyRecipe.t)
| IngestTemplate (template : StrategyTemplate.t)
| IngestArtifact (key : AbiArtifactKey.t) (abi_json source_ref : string)
    (codehash : option string) (assertions : list AbiSelectorAssertion.t)
| PromoteArtifact (bundle : ProtocolArtifactBundle.t) (now_ns : N)
| Activate (key : StrategyTemplateKey.t) (reason : option string)
| Deprecate (key : StrategyTemplateKey.t) (reason : option string)
| Revoke (key : StrategyTemplateKey.t) (reason : option string)
| Switch (key : StrategyTemplateKey.t) (enabled : bool) (reason : option string)
| ReconcileTemplates (now_ns : N).

Definition run_lifecycle (command : lifecycle_command) : B unit :=
  match command with
  | Register recipe => register_from_recipe recipe;; mret tt
  | IngestTemplate template => ingest_strategy_template template;; mret tt
  | IngestArtifact key abi_json source_ref codehash assertions =>
      ingest_strategy_abi_artifact key abi_json source_ref codehash assertions;; mret tt
  | PromoteArtifact bundle now_ns => promote_discovery_protocol_artifact bundle now_ns;; mret tt
  | Activate key reason => activate_strategy_template key reason;; mret tt
  | Deprecate key reason => deprecate_strategy_template key reason;; mret tt
  | Revoke key reason => revoke_strategy_template key reason;; mret tt
  | Switch key enabled reason => switch_strategy key enabled reason;; mret tt
  | ReconcileTemplates now_ns => reconcile_templates now_ns
  end.

(** A command, whether it returns or fails, or anything that leaves the
    revocations alone. *)
Inductive lifecycle_step (s s' : Book.t) : Prop :=
| lifecycle_ran command : final_state (run_lifecycle command s) = Some s' -> lifecycle_step s s'
| lifecycle_elsewhere :
    Book.strategy_revocations s' = Book.strategy_revocations s -> lifecycle_step s s'.

Definition revoked_under (record_key : string) (s : Book.t) : Prop :=
  is_some_and TemplateRevocationState.revoked (Book.strategy_revocations s !! record_key) = true.

Definition revokes_only (s s' : Book.t) : Prop :=
  forall record_key, revoked_under record_key s -> revoked_under record_key s'.

#[local] Instance revokes_only_preorder : PreOrder revokes_only.
Proof. split; [by intros s key|]. intros s t u Hst Htu key H. by apply Htu, Hst. Qed.

Definition keeps_revoked {A} (m : B A) : Prop := stable (fun _ => True) revokes_only m.

Lemma keeps_revoked_modify (f : Book.t -> Book.t) :
  (forall s, Book.strategy_revocations (f s) = Book.strategy_revocations s) ->
  keeps_revoked (modify f).
Proof.
  intros Hf. apply stable_modify. intros s _. split; [done|]. intros key.
  unfold revoked_under. by rewrite Hf.
Qed.

Lemma keeps_revoked_bind {A C} (m : B A) (k : A -> B C) :
  keeps_revoked m -> (forall a, keeps_revoked (k a)) -> keeps_revoked (m ≫= k).
Proof. apply stable_bind, _. Qed.

Lemma keeps_revoked_idle {A} (m : B A) :
  (forall s s', final_state (m s) = Some s' -> s' = s) -> keeps_revoked m.
Proof. apply stable_same, _. Qed.

Lemma keeps_revoked_catch {A} (m : B A) :
  keeps_revoked m -> keeps_revoked (catch (E' := string) m).
Proof. apply stable_catch. Qed.

(** Walk through a computation; what is left are its storage writes. *)
Ltac keeps_walk :=
  repeat first
    [ apply keeps_revoked_idle; by (intros s s'; first [done|by intros [= <-]])
    | apply keeps_revoked_modify; done
    | apply keeps_revoked_catch
    | match goal with
      | |- keeps_revoked (lift ?r) =>
          apply keeps_revoked_idle; intros s s'; destruct r; by intros [= <-]
      | |- keeps_revoked (fail_if ?b _) =>
          apply keeps_revoked_idle; intros s s'; destruct b; by intros [= <-]
      | |- keeps_revoked (_ ≫= _) => apply keeps_revoked_bind; [|intros ?]
      | |- keeps_revoked (if ?b then _ else _) => destruct b
      | |- keeps_revoked (match ?x with _ => _ end) => destruct x
      end ].

Lemma keeps_revoked_template template : keeps_revoked (upsert_strategy_template template).
Proof. unfold upsert_strategy_template. keeps_walk. Qed.
Lemma keeps_revoked_artifact artifact : keeps_revoked (upsert_abi_artifact artifact).
Proof. unfold upsert_abi_artifact. keeps_walk. Qed.
Lemma keeps_revoked_activation state : keeps_revoked (set_strategy_template_activation state).
Proof. unfold set_strategy_template_activation. keeps_walk. Qed.
Lemma keeps_revoked_switch state : keeps_revoked (set_strategy_kill_switch state).
Proof. unfold set_strategy_kill_switch. keeps_walk. Qed.

Lemma keeps_revoked_revocation key now_ns reason :
  keeps_revoked (set_strategy_template_revocation (TemplateRevocationState.mk key true now_ns reason)).
Proof.
  unfold set_strategy_template_revocation. keeps_walk. apply stable_modify. intros s _.
  split; [done|]. intros record_key. unfold revoked_under. simpl_set. simpl.
  destruct (decide (record_key = template_state_record_key "revocation" key)) as [->|Hne].
  - by rewrite lookup_insert_eq.
  - by rewrite lookup_insert_ne.
Qed.

Create HintDb revoked discriminated.
#[local] Hint Resolve keeps_revoked_template keeps_revoked_artifact keeps_revoked_activation
  keeps_revoked_switch keeps_revoked_revocation : revoked.

Lemma keeps_revoked_contracts key now_ns contracts resolved :
  keeps_revoked (resolve_contracts key now_ns resolved contracts).
Proof.
  revert resolved. induction contracts as [|contract contracts IH]; intros resolved;
    cbn [resolve_contracts]; unfold resolve_contract; keeps_walk; auto with revoked.
Qed.
#[local] Hint Resolve keeps_revoked_contracts : revoked.

Lemma keeps_revoked_reconcile now_ns : keeps_revoked (reconcile_templates now_ns).
Proof.
  unfold reconcile_templates. keeps_walk. apply stable_for_each; [apply _|]. intros template _.
  fold (keeps_revoked (reconcile_template now_ns template)).
  unfold reconcile_template, disable_template. keeps_walk; auto with revoked.
Qed.
#[local] Hint Resolve keeps_revoked_reconcile : revoked.

Lemma keeps_revoked_lifecycle command : keeps_revoked (run_lifecycle command).
Proof.
  destruct command; cbn [run_lifecycle];
    unfold register_from_recipe, ingest_strategy_template, ingest_strategy_abi_artifact,
      promote_discovery_protocol_artifact, activate_strategy_template, deprecate_strategy_template,
      revoke_strategy_template, switch_strategy, upsert_template_status,
      normalize_and_store_abi_artifact;
    keeps_walk; auto with revoked.
Qed.

Lemma lifecycle_steps_revoke s s' : rtc lifecycle_step s s' -> revokes_only s s'.
Proof.
  induction 1 as [s|s t u [command Hrun|Hsame] _ IH]; [done|..]; etrans; try exact IH.
  - by apply (keeps_revoked_lifecycle command s t Hrun).
  - intros record_key. unfold revoked_under. by rewrite Hsame.
Qed.

(** C27 - Once [revoke_strategy_template] has returned, no sequence of the
    messages that write strategies (registering, ingesting, activating and
    reconciling it again included) makes any plan for the revoked key pass
    validation. *)
Theorem revocation_is_final (key : StrategyTemplateKey.t) (reason : option string)
    (revocation : TemplateRevocationState.t) (s s1 s2 : Book.t)
    (Hrevoked : revoke_strategy_template key reason s = Done revocation s1)
    (Hsteps : rtc lifecycle_step s1 s2) (plan : ExecutionPlan.t)
    (Hkey : ExecutionPlan.key plan = key) :
  ValidationReport.passed (validate_execution_plan plan s2) = false.
Proof.
  apply not_true_iff_false. rewrite validation_passed_iff. intros Haccepted.
  assert (revoked_under (template_state_record_key "revocation" key) s1) as Hs1.
  { unfold revoke_strategy_template in Hrevoked.
    run_inv Hrevoked as template t0 Hstatus. run_inv Hrevoked as now t1 Hnow.
    run_inv Hrevoked as stored t2 Hset. run_inv Hrevoked as disabled t3 Hdisable.
    destruct (keeps_revoked_catch _ (keeps_revoked_activation _) t2 t3
      ltac:(by rewrite Hdisable) I) as [_ Hkept].
    unfold mret, M_ret in Hrevoked. injection Hrevoked as _ <-. apply Hkept.
    unfold set_strategy_template_revocation in Hset.
    run_inv Hset as valid t4 Hvalid. apply lift_Done in Hvalid as [_ ->]. done_inv.
    unfold revoked_under. simpl_set. by rewrite lookup_insert_eq. }
  apply (lifecycle_steps_revoke _ _ Hsteps) in Hs1.
  pose proof (plan_not_revoked _ _ Haccepted) as Hnot. rewrite Hkey in Hnot.
  unfold revoked_under in Hs1. unfold strategy_template_revocation in Hnot. congruence.
Qed.
End Revocation.

(** ** Failing for good *)

Section Failing.
#[local] Set Default Proof Using "All".
Context `{ext : Externals, libs : StrategyLibs, texts : SqlTexts, u256 : U256Text,
  rows : RowOrder}.

Lemma quarantine_threshold_time now_ns later s :
  failure_quarantine_threshold now_ns s = failure_quarantine_threshold later s.
Proof.
  unfold failure_quarantine_threshold, current_autonomy_policy.
  by destruct (Book.autonomy_policy s).
Qed.

(** Whatever the clock: the time of release is never looked at. *)
Lemma quarantine_active strategy_id quarantine now_ns s :
  strategy_quarantine strategy_id s = Some quarantine ->
  (failure_quarantine_threshold now_ns s <= StrategyQuarantine.failure_count quarantine)%N ->
  active_strategy_quarantine strategy_id now_ns s = Some quarantine.
Proof.
  intros Hstored Hcount. unfold active_strategy_quarantine. rewrite Hstored. simpl.
  apply N.ltb_ge in Hcount. by rewrite Hcount.
Qed.

Lemma quarantined_execution_refused args_json turn_id prior current cycles intent s quarantine :
  parse_strategy_intent_args args_json = Ok intent ->
  active_strategy_quarantine (strategy_id_from_key (StrategyExecutionIntent.key intent))
    (book_time_ns s) s = Some quarantine ->
  stops (execute_strategy_action args_json turn_id prior current cycles) s.
Proof.
  intros Hargs Hactive. unfold execute_strategy_action. apply stops_bind.
  unfold prepare_strategy_action. rewrite Hargs.
  unfold gets, lift, mbind, M_bind, fail_if, stops.
  destruct (negb _); [by eexists|]. simpl. rewrite Hactive. by eexists.
Qed.

Lemma count_failure_id strategy_id reason now_ns s :
  (forall quarantine, strategy_quarantine strategy_id s = Some quarantine ->
     StrategyQuarantine.strategy_id quarantine = strategy_id) ->
  StrategyQuarantine.strategy_id (count_failure strategy_id reason now_ns s) = strategy_id.
Proof.
  intros Hid. unfold count_failure.
  destruct (strategy_quarantine strategy_id s) as [quarantine|]; cbn [default];
    destruct (failure_quarantine_threshold _ _ <=? _)%N; simpl; auto.
Qed.

Definition quarantines_proper (s : Book.t) : Prop :=
  map_Forall (fun strategy_id quarantine => StrategyQuarantine.strategy_id quarantine = strategy_id)
    (Book.strategy_quarantines s).

(** What a terminal failure that was booked wrote. *)
Lemma terminal_failure_booked execution kind reason now_ns s s' :
  apply_terminal_strategy_failure execution kind reason now_ns s = Done true s' ->
  let key := PendingStrategyExecution.key execution in
  let stats := count_run kind (Some reason)
                 (last_hash (PendingStrategyExecution.calls execution)) now_ns
                 (stats_or_empty key s) in
  s' = failed_book (close_failed now_ns execution) stats
         (count_failure (strategy_id_from_key key) reason now_ns s)
         (auto_deactivation_for_stats stats now_ns s) s.
Proof.
  intros Hrun key stats. revert Hrun. unfold apply_terminal_strategy_failure.
  destruct (_ || _); [discriminate|].
  unfold fail_if, gets, mbind, M_bind. destruct (bool_decide (_ = PendingStrategyExecutionState.Pending));
    [discriminate|]. simpl.
  destruct (bool_decide (kind = _)); [discriminate|]. simpl. fold key. fold stats.
  rewrite fail_strategy_execution_run.
  destruct (pending_strategy_execution _ s) as [current|]; [|discriminate].
  destruct (is_open current); [|discriminate]. by intros [= <-].
Qed.

Lemma third_failure_streak error tx_hash now_ns stats :
  (2 <= StrategyOutcomeStats.deterministic_failure_streak stats)%N ->
  (StrategyOutcomeStats.deterministic_failure_streak
     (count_run StrategyOutcomeKind.DeterministicFailure error tx_hash now_ns stats)
   <? AUTO_DEACTIVATE_DETERMINISTIC_STREAK)%N = false.
Proof.
  intros Hstreak. apply N.ltb_ge. unfold count_run, count_outcome. simpl_set. simpl.
  unfold saturating_add. apply N.min_glb; [unfold AUTO_DEACTIVATE_DETERMINISTIC_STREAK; lia|by vm_compute].
Qed.

(** *** How long a quarantine lasts *)

Definition strategy_of (execution : PendingStrategyExecution.t) : string :=
  strategy_id_from_key (PendingStrategyExecution.key execution).

(** The stored quarantine of the strategy has as many failures as the stored
    policy asks for. *)
Definition quarantine_stands (strategy_id : string) (s : Book.t) : Prop :=
  quarantines_proper s
  /\ in_uint 32 (failure_quarantine_threshold 0 s)
  /\ exists quarantine, strategy_quarantine strategy_id s = Some quarantine
      /\ (failure_quarantine_threshold 0 s <= StrategyQuarantine.failure_count quarantine)%N.

(** An execution of the strategy was booked as confirmed in between. *)
Definition confirms (strategy_id : string) (s s' : Book.t) : Prop :=
  exists execution_id execution,
    pending_strategy_execution execution_id s' = Some execution
    /\ PendingStrategyExecution.bookkeeping_applied execution = true
    /\ strategy_of execution = strategy_id
    /\ pending_strategy_execution execution_id s <> Some execution.

(** Booked rows stay, and only a confirmation lifts the quarantine. *)
Definition holds_quarantine (strategy_id : string) (s s' : Book.t) : Prop :=
  (forall execution_id execution, pending_strategy_execution execution_id s = Some execution ->
     PendingStrategyExecution.bookkeeping_applied execution = true ->
     pending_strategy_execution execution_id s' = Some execution)
  /\ (confirms strategy_id s s' \/ (quarantine_stands strategy_id s -> quarantine_stands strategy_id s')).

#[local] Instance holds_quarantine_preorder strategy_id : PreOrder (holds_quarantine strategy_id).
Proof.
  split; [by intros s; split; [|right]|]. intros s t u [Hst Hs] [Htu Ht]. split; [eauto|].
  destruct Ht as [(id & execution & Hrow & Hbooked & Hid & Hnew)|Ht].
  - left. exists id, execution. repeat (split; [done|]). intros Hrow'. apply Hnew. by apply Hst.
  - destruct Hs as [(id & execution & Hrow & Hbooked & Hid & Hnew)|Hs]; [|right; auto].
    left. exists id, execution. split; [by apply Htu|done].
Qed.

Definition steady (strategy_id : string) {A} (m : B A) : Prop :=
  stable (fun _ => True) (holds_quarantine strategy_id) m.

Lemma quarantine_stands_frame strategy_id s s' :
  Book.strategy_quarantines s' = Book.strategy_quarantines s ->
  Book.autonomy_policy s' = Book.autonomy_policy s ->
  quarantine_stands strategy_id s -> quarantine_stands strategy_id s'.
Proof.
  unfold quarantine_stands, quarantines_proper, strategy_quarantine, failure_quarantine_threshold,
    current_autonomy_policy. by intros -> ->.
Qed.

(** A change of other parts of the book. *)
Lemma holds_frame strategy_id s s' :
  Book.pending_strategy_executions s' = Book.pending_strategy_executions s ->
  Book.strategy_quarantines s' = Book.strategy_quarantines s ->
  Book.autonomy_policy s' = Book.autonomy_policy s -> holds_quarantine strategy_id s s'.
Proof.
  intros Hrows Hquarantines Hpolicy. split; [|right; by apply quarantine_stands_frame].
  unfold pending_strategy_execution. by rewrite Hrows.
Qed.

(** A row that is not booked is written. *)
Lemma holds_write strategy_id s s' execution :
  (forall current,
     pending_strategy_execution (PendingStrategyExecution.execution_id execution) s = Some current ->
     PendingStrategyExecution.bookkeeping_applied current = false) ->
  Book.pending_strategy_executions s'
    = <[PendingStrategyExecution.execution_id execution := execution]>
        (Book.pending_strategy_executions s) ->
  (PendingStrategyExecution.bookkeeping_applied execution = true /\ strategy_of execution = strategy_id
   \/ (quarantine_stands strategy_id s -> quarantine_stands strategy_id s')) ->
  holds_quarantine strategy_id s s'.
Proof.
  intros Hcurrent Hrows Hstands. split.
  - intros id stored Hstored Hbooked. unfold pending_strategy_execution. rewrite Hrows.
    destruct (decide (id = PendingStrategyExecution.execution_id execution)) as [->|Hne].
    + rewrite (Hcurrent _ Hstored) in Hbooked. done.
    + by rewrite lookup_insert_ne.
  - destruct Hstands as [[Hbooked Hid]|Hstands]; [left|by right].
    exists (PendingStrategyExecution.execution_id execution), execution.
    unfold pending_strategy_execution at 1. rewrite Hrows, lookup_insert_eq.
    repeat (split; [done|]). intros Hrow. rewrite (Hcurrent _ Hrow) in Hbooked. done.
Qed.

Lemma count_failure_count strategy_id reason now_ns s n :
  in_uint 32 n ->
  (n <= default 0 (StrategyQuarantine.failure_count <$> strategy_quarantine strategy_id s))%N ->
  (n <= StrategyQuarantine.failure_count (count_failure strategy_id reason now_ns s))%N.
Proof.
  unfold in_uint, count_failure, saturating_add. intros Hmax Hcount.
  destruct (strategy_quarantine strategy_id s) as [quarantine|];
    cbn [default from_option id fmap option_fmap option_map] in *;
    destruct (failure_quarantine_threshold _ _ <=? _)%N; simpl_set; simpl; lia.
Qed.

(** One more failure of any strategy leaves every quarantine standing. *)
Lemma quarantine_stands_counted strategy_id failing reason now_ns s s' quarantine :
  StrategyQuarantine.failure_count quarantine
    = StrategyQuarantine.failure_count (count_failure failing reason now_ns s) ->
  StrategyQuarantine.strategy_id quarantine
    = StrategyQuarantine.strategy_id (count_failure failing reason now_ns s) ->
  Book.strategy_quarantines s'
    = <[StrategyQuarantine.strategy_id quarantine := quarantine]> (Book.strategy_quarantines s) ->
  Book.autonomy_policy s' = Book.autonomy_policy s ->
  quarantine_stands strategy_id s -> quarantine_stands strategy_id s'.
Proof.
  intros Hcount Hid Hquarantines Hpolicy (Hproper & Hmax & stored & Hstored & Hstands).
  rewrite count_failure_id in Hid by (intros q Hq; by apply (Hproper _ _ Hq)).
  assert (failure_quarantine_threshold 0 s' = failure_quarantine_threshold 0 s) as Hsame.
  { unfold failure_quarantine_threshold, current_autonomy_policy. by rewrite Hpolicy. }
  split; [|split; [by rewrite Hsame|]].
  - unfold quarantines_proper. rewrite Hquarantines, Hid. by apply map_Forall_insert_2.
  - rewrite Hsame. unfold strategy_quarantine. rewrite Hquarantines, Hid.
    destruct (decide (failing = strategy_id)) as [->|Hne].
    + exists quarantine. rewrite lookup_insert_eq. split; [done|]. rewrite Hcount.
      apply count_failure_count; [done|]. unfold strategy_quarantine in *. by rewrite Hstored.
    + exists stored. by rewrite lookup_insert_ne.
Qed.

Lemma steady_record strategy_id plan reason now_ns :
  steady strategy_id (record_strategy_failure plan reason now_ns).
Proof.
  intros s s' Hfinal _. split; [done|]. revert Hfinal.
  unfold record_strategy_failure, set_strategy_quarantine.
  unfold mbind, M_bind, gets, catch, lift, modify.
  set (failing := strategy_id_from_key (ExecutionPlan.key plan)).
  set (quarantine := if (_ =? 0)%N then _ else _).
  destruct (validate_strategy_quarantine quarantine) as [[]|e]; [|by intros [= <-]].
  intros [= <-]. split; [done|]. right.
  apply (quarantine_stands_counted strategy_id failing reason now_ns s _ quarantine); [..|done|done];
    unfold quarantine; by destruct (_ =? 0)%N.
Qed.

Lemma steady_terminal strategy_id execution kind reason now_ns :
  steady strategy_id (apply_terminal_strategy_failure execution kind reason now_ns).
Proof.
  intros s s' Hfinal _. split; [done|]. revert Hfinal. unfold apply_terminal_strategy_failure.
  destruct (_ || _); [by intros [= <-]|]. unfold fail_if, gets, mbind, M_bind.
  destruct (bool_decide (_ = PendingStrategyExecutionState.Pending)); [by intros [= <-]|].
  cbn [mret M_ret]. destruct (bool_decide (kind = _)); [by intros [= <-]|]. cbn [mret M_ret].
  rewrite fail_strategy_execution_run.
  destruct (pending_strategy_execution _ s) as [current|] eqn:Hcurrent; [|by intros [= <-]].
  destruct (is_open current) eqn:Hopen; [|by intros [= <-]]. intros [= <-].
  apply is_open_spec in Hopen as (_ & Hbook & _).
  match goal with |- holds_quarantine _ s (failed_book ?e ?st ?q ?a s) =>
    destruct (failed_book_ledger e st q a s) as (Hrows & _);
    apply (holds_write strategy_id s _ e); [|exact Hrows|right;
      apply (quarantine_stands_counted strategy_id (strategy_of execution) reason now_ns s _ q);
      [done|done|by destruct a|by destruct a]] end.
  intros current' Hcurrent'. rewrite Hcurrent in Hcurrent'. by injection Hcurrent' as <-.
Qed.

Lemma steady_confirmed strategy_id execution now_ns :
  steady strategy_id (apply_confirmed_strategy_execution execution now_ns).
Proof.
  unfold apply_confirmed_strategy_execution.
  destruct (PendingStrategyExecution.bookkeeping_applied execution); [by apply stable_ret, _|].
  intros s s' Hfinal _. split; [done|]. revert Hfinal. unfold mbind, M_bind, get_state, lift.
  destruct (exposure_change _ now_ns s) as [change|]; [|by intros [= <-]].
  destruct (spent_wei 0 _) as [spent|]; [|by intros [= <-]].
  destruct (updated_budget _ spent s) as [budget|]; [|by intros [= <-]].
  rewrite confirm_strategy_execution_run.
  destruct (pending_strategy_execution _ s) as [current|] eqn:Hcurrent; [|by intros [= <-]].
  destruct (is_open current) eqn:Hopen; [|by intros [= <-]]. intros [= <-].
  apply is_open_spec in Hopen as (_ & Hbook & _).
  match goal with |- holds_quarantine _ s (confirmed_book ?e ?c ?st ?b ?i s) =>
    destruct (confirmed_book_ledger e c st b i s) as (Hrows & _);
    apply (holds_write strategy_id s _ e); [|exact Hrows|] end.
  { intros current' Hcurrent'. rewrite Hcurrent in Hcurrent'. by injection Hcurrent' as <-. }
  destruct (decide (strategy_of execution = strategy_id)) as [Hid|Hid]; [by left|right].
  intros (Hproper & Hmax & quarantine & Hstored & Hstands).
  match goal with |- quarantine_stands _ (confirmed_book ?e ?c ?st ?b ?i s) =>
    assert (Book.strategy_quarantines (confirmed_book e c st b i s)
            = delete (strategy_of execution) (Book.strategy_quarantines s)) as Hquarantines
      by (by destruct c as [[exposure|]|], b);
    assert (Book.autonomy_policy (confirmed_book e c st b i s) = Book.autonomy_policy s) as Hpolicy
      by (by destruct c as [[exposure|]|], b);
    generalize dependent (confirmed_book e c st b i s) end.
  intros s' _ Hquarantines Hpolicy.
  assert (failure_quarantine_threshold 0 s' = failure_quarantine_threshold 0 s) as Hsame.
  { unfold failure_quarantine_threshold, current_autonomy_policy. by rewrite Hpolicy. }
  split; [|split; [by rewrite Hsame|]].
  - unfold quarantines_proper. rewrite Hquarantines. by apply map_Forall_delete.
  - exists quarantine. rewrite Hsame. unfold strategy_quarantine. rewrite Hquarantines.
    by rewrite lookup_delete_ne.
Qed.

Ltac steady_walk :=
  repeat first
    [ solve [eauto with steady]
    | match goal with
      | |- stable _ (holds_quarantine ?strategy_id) ?m => fold (steady strategy_id m)
      | |- steady _ (_ ≫= _) => apply stable_bind; [apply _| |intros ?]
      | |- steady _ (lift _) => apply stable_lift; apply _
      | |- steady _ (mret _) => apply stable_ret; apply _
      | |- steady _ (gets _) => apply stable_gets; apply _
      | |- steady _ (mthrow _) => apply stable_throw; apply _
      | |- steady _ (expect _) => apply stable_expect; apply _
      | |- steady _ (fail_if _ _) => apply stable_fail_if; apply _
      | |- steady _ (modify _) => apply stable_modify; intros ? _; split; [done|by apply holds_frame]
      | |- steady _ (if ?b then _ else _) => destruct b
      | |- steady _ (match ?x with _ => _ end) => destruct x
      end ].

Create HintDb steady discriminated.
#[local] Hint Resolve steady_record steady_terminal steady_confirmed : steady.

Lemma steady_insert strategy_id execution :
  steady strategy_id (insert_pending_strategy_execution execution).
Proof.
  unfold insert_pending_strategy_execution.
  apply stable_bind; [apply _|apply stable_fail_if, _|intros _].
  apply stable_bind; [apply _|apply stable_lift, _|intros _].
  intros s s' Hfinal _. split; [done|]. revert Hfinal. unfold mbind, M_bind, gets.
  destruct (pending_strategy_execution _ s) as [existing|] eqn:Hstored.
  - unfold fail_if. by destruct (bool_decide _); intros [= <-].
  - intros [= <-]. apply (holds_write strategy_id s _ execution); [|done|].
    { intros current Hcurrent. by rewrite Hstored in Hcurrent. }
    right. by apply quarantine_stands_frame.
Qed.

Lemma steady_compare strategy_id expected desired :
  steady strategy_id (compare_and_update_pending_strategy_execution expected desired).
Proof.
  unfold compare_and_update_pending_strategy_execution.
  destruct (_ || _) eqn:Hclosed; [by apply stable_ret, _|].
  apply orb_false_iff in Hclosed as [[Hid Hexpected]%orb_false_iff _].
  apply negb_false_iff in Hexpected. apply is_open_spec in Hexpected as (_ & Hbook & _).
  intros s s' Hfinal _. split; [done|]. revert Hfinal. unfold mbind, M_bind, gets.
  destruct (bool_decide (pending_strategy_execution _ s = Some expected)) eqn:Hstored;
    intros Hfinal; apply (inj Some) in Hfinal as <-; [|done].
  apply bool_decide_eq_true in Hstored.
  apply (holds_write strategy_id s _ desired); [|done|right; by apply quarantine_stands_frame].
  intros current Hcurrent. rewrite Hstored in Hcurrent. by injection Hcurrent as <-.
Qed.
#[local] Hint Resolve steady_insert steady_compare : steady.

Lemma steady_drop_call strategy_id execution tx_hashes index kind error :
  steady strategy_id (drop_call execution tx_hashes index kind error).
Proof. unfold drop_call. steady_walk. Qed.
Lemma steady_complete strategy_id execution_id execution tx_hashes :
  steady strategy_id (complete_sending execution_id execution tx_hashes).
Proof. unfold complete_sending. steady_walk. Qed.
#[local] Hint Resolve steady_drop_call steady_complete : steady.

Lemma steady_send_calls strategy_id plan execution_id execution tx_hashes index calls :
  steady strategy_id (send_calls plan execution_id execution tx_hashes index calls).
Proof.
  revert index. induction calls as [|call calls IH]; intros index; cbn [send_calls]; steady_walk.
Qed.
#[local] Hint Resolve steady_send_calls : steady.

Lemma steady_activation strategy_id activation :
  steady strategy_id (set_strategy_template_activation activation).
Proof. unfold set_strategy_template_activation. steady_walk. Qed.
Lemma steady_stats strategy_id stats : steady strategy_id (upsert_strategy_outcome_stats stats).
Proof. unfold upsert_strategy_outcome_stats. steady_walk. Qed.
#[local] Hint Resolve steady_activation steady_stats : steady.

Lemma steady_outcome strategy_id plan outcome tx_hash error :
  steady strategy_id (persist_strategy_outcome plan outcome tx_hash error).
Proof.
  unfold persist_strategy_outcome, record_outcome, record_strategy_outcome,
    maybe_auto_deactivate_on_deterministic_failures. steady_walk.
Qed.
#[local] Hint Resolve steady_outcome : steady.

Lemma steady_execute strategy_id args_json turn_id prior current cycles :
  steady strategy_id (execute_strategy_action args_json turn_id prior current cycles).
Proof.
  unfold execute_strategy_action, prepare_strategy_action, launch_execution, execute_strategy_plan.
  steady_walk.
Qed.

Lemma steady_resume_sending strategy_id task answer :
  steady strategy_id (resume_sending task answer).
Proof. unfold resume_sending. steady_walk. Qed.

Lemma steady_settle strategy_id now_ns expected execution :
  steady strategy_id (settle_execution now_ns expected execution).
Proof. unfold settle_execution. steady_walk. Qed.
Lemma steady_back_off strategy_id now_ns expected execution index error :
  steady strategy_id (back_off now_ns expected execution index error).
Proof. unfold back_off. steady_walk. Qed.
#[local] Hint Resolve steady_settle steady_back_off : steady.

Lemma steady_check strategy_id now_ns depth rpc_error pending :
  steady strategy_id (check_executions now_ns depth rpc_error pending).
Proof. induction pending as [|expected rest IH]; cbn [check_executions]; steady_walk. Qed.
#[local] Hint Resolve steady_check : steady.

Lemma steady_reconcile strategy_id now_ns rpc_error :
  steady strategy_id (reconcile_pending_strategy_executions now_ns rpc_error).
Proof. unfold reconcile_pending_strategy_executions. steady_walk. Qed.
Lemma steady_resume_check strategy_id task observation :
  steady strategy_id (resume_check task observation).
Proof. unfold resume_check. steady_walk. Qed.

(** The messages of strategy executions, whether they return, fail or await, and
    whatever else leaves executions, quarantines and policy as they are. *)
Inductive execution_step (w w' : World.t) : Prop :=
| execution_started args_json turn_id prior current cycles :
    w' = after send_tasks w
           (execute_strategy_action args_json turn_id prior current cycles (World.book w)) ->
    execution_step w w'
| execution_sent before task later answer :
    World.tasks w = before ++ Sending task :: later ->
    w' = after send_tasks (World.mk (World.book w) (before ++ later))
           (resume_sending task answer (World.book w)) ->
    execution_step w w'
| execution_reconciled now_ns rpc_error :
    w' = after check_tasks w
           (reconcile_pending_strategy_executions now_ns rpc_error (World.book w)) ->
    execution_step w w'
| execution_observed before task later observation :
    World.tasks w = before ++ Checking task :: later ->
    w' = after check_tasks (World.mk (World.book w) (before ++ later))
           (resume_check task observation (World.book w)) ->
    execution_step w w'
| execution_elsewhere :
    Book.pending_strategy_executions (World.book w')
      = Book.pending_strategy_executions (World.book w) ->
    Book.strategy_quarantines (World.book w') = Book.strategy_quarantines (World.book w) ->
    Book.autonomy_policy (World.book w') = Book.autonomy_policy (World.book w) ->
    execution_step w w'.

Lemma after_holds {A} strategy_id (resume : A -> list task) w (m : B A) :
  steady strategy_id m ->
  holds_quarantine strategy_id (World.book w) (World.book (after resume w (m (World.book w)))).
Proof.
  intros Hm. specialize (Hm (World.book w)). unfold after.
  destruct (m (World.book w)) as [a t|e t|]; [by apply (Hm t)|by apply (Hm t)|done].
Qed.

Lemma execution_steps_hold strategy_id w w' :
  rtc execution_step w w' -> holds_quarantine strategy_id (World.book w) (World.book w').
Proof.
  induction 1 as [w|w t w' Hstep _ IH]; [done|]. etrans; [|exact IH].
  destruct Hstep as [args_json turn_id prior current cycles ->|before task later answer _ ->
    |now_ns rpc_error ->|before task later observation _ ->|Hrows Hquarantines Hpolicy].
  - apply after_holds, steady_execute.
  - apply (after_holds _ _ (World.mk (World.book w) (before ++ later))), steady_resume_sending.
  - apply after_holds, steady_reconcile.
  - apply (after_holds _ _ (World.mk (World.book w) (before ++ later))), steady_resume_check.
  - by apply holds_frame.
Qed.

(** C25 - a failure that is booked as final stops its strategy.  When it brings
    the count to the policy's threshold, the strategy is quarantined, and from
    then on every attempt to execute it is refused without a change, at whatever
    time: through any sequence of execution attempts, answers to sends, receipt
    checks and failures of this and every other strategy, as long as the policy
    stays and no execution of this strategy that was still in flight is booked
    as confirmed, which lifts the quarantine.  And at the third deterministic
    failure in a row the template is disabled: no plan for it passes validation
    until it is enabled again. *)
Theorem terminal_failure_stops_strategy (execution : PendingStrategyExecution.t)
    (kind : StrategyOutcomeKind.t) (reason : string) (now_ns : N) (s s' : Book.t)
    (Hrun : apply_terminal_strategy_failure execution kind reason now_ns s = Done true s')
    (Hproper : quarantines_proper s)
    (Hpolicy_typed : in_uint 32 (failure_quarantine_threshold now_ns s)) :
  let key := PendingStrategyExecution.key execution in
  let stats := stats_or_empty key s in
  ((failure_quarantine_threshold now_ns s
    <= StrategyQuarantine.failure_count (count_failure (strategy_id_from_key key) reason now_ns s))%N ->
   forall w w2 args_json turn_id prior current cycles intent,
     World.book w = s' -> rtc execution_step w w2 ->
     ~ confirms (strategy_id_from_key key) s' (World.book w2) ->
     parse_strategy_intent_args args_json = Ok intent ->
     StrategyExecutionIntent.key intent = key ->
     stops (execute_strategy_action args_json turn_id prior current cycles) (World.book w2))
  /\ (kind = StrategyOutcomeKind.DeterministicFailure ->
      (2 <= StrategyOutcomeStats.deterministic_failure_streak stats)%N ->
      StrategyOutcomeStats.key stats = key ->
      strategy_enabled key s' = false
      /\ forall later plan, strategy_enabled key later = false -> ExecutionPlan.key plan = key ->
           ValidationReport.passed (validate_execution_plan plan later) = false).
Proof.
  intros key stats. pose proof (terminal_failure_booked _ _ _ _ _ _ Hrun) as Hs'.
  cbv zeta in Hs'. fold key stats in Hs'.
  set (failed := count_failure (strategy_id_from_key key) reason now_ns s) in *.
  set (counted := count_run _ _ _ _ stats) in Hs'.
  set (activation := auto_deactivation_for_stats counted now_ns s) in Hs'.
  assert (StrategyQuarantine.strategy_id failed = strategy_id_from_key key) as Hid
    by (apply count_failure_id; intros q Hq; by apply (Hproper _ _ Hq)).
  assert (Book.strategy_quarantines s'
          = <[strategy_id_from_key key := failed]> (Book.strategy_quarantines s)) as Hquarantines.
  { rewrite Hs', <- Hid. unfold failed_book, write_execution. destruct activation; by simpl_set. }
  assert (Book.autonomy_policy s' = Book.autonomy_policy s) as Hpolicy.
  { rewrite Hs'. unfold failed_book, write_execution. destruct activation; by simpl_set. }
  assert (failure_quarantine_threshold 0 s' = failure_quarantine_threshold now_ns s) as Hsame.
  { rewrite (quarantine_threshold_time now_ns 0). unfold failure_quarantine_threshold,
      current_autonomy_policy. by rewrite Hpolicy. }
  split.
  - intros Hthreshold w w2 args_json turn_id prior current cycles intent <- Hsteps Hunconfirmed
      Hargs Hkey.
    assert (quarantine_stands (strategy_id_from_key key) (World.book w)) as Hstands.
    { split; [|split; [by rewrite Hsame|]].
      - unfold quarantines_proper. rewrite Hquarantines. by apply map_Forall_insert_2.
      - exists failed. unfold strategy_quarantine. by rewrite Hquarantines, lookup_insert_eq, Hsame. }
    destruct (execution_steps_hold (strategy_id_from_key key) w w2 Hsteps) as [_ [Hconfirmed|Hkept]];
      [done|].
    destruct (Hkept Hstands) as (_ & _ & quarantine & Hstored & Hcount).
    eapply (quarantined_execution_refused _ _ _ _ _ _ _ quarantine Hargs). rewrite Hkey.
    apply quarantine_active; [exact Hstored|]. by rewrite (quarantine_threshold_time _ 0).
  - intros -> Hstreak Hstats. split.
    + rewrite Hs'. unfold activation, auto_deactivation_for_stats.
      assert ((StrategyOutcomeStats.deterministic_failure_streak counted
               <? AUTO_DEACTIVATE_DETERMINISTIC_STREAK)%N = false) as ->
        by (by apply third_failure_streak). cbn [orb].
      change (StrategyOutcomeStats.key counted) with (StrategyOutcomeStats.key stats). rewrite Hstats.
      destruct (strategy_enabled key s) eqn:Henabled; cbn [negb]; [|exact Henabled].
      unfold strategy_enabled, strategy_template_activation, failed_book, write_execution. simpl_set.
      change (PendingStrategyExecution.key (close_failed now_ns execution)) with key.
      by rewrite lookup_insert_eq.
    + intros later plan Hdisabled Hplan. apply not_true_iff_false. rewrite validation_passed_iff.
      intros Haccepted. pose proof (plan_enabled _ _ Haccepted) as Henabled. congruence.
Qed.
End Failing.
