(* ===== verification/StrategyExposure.v ===== *)
(** * StrategyExposure: exposures rebuilt from confirmed executions

    Models [strategy/exposure_reconciliation.rs]: the confirmed executions are
    read page by page, folded into what each strategy holds, and the stored
    exposures are repaired, recreated or closed to agree.  The superseded scan
    of tool calls, which nothing calls, is left out. *)

From S2P Require Import Prelude Text SpawnProtocol Types Externals AgentTypes TopUp AgentStore StrategyTypes StrategyStore StrategyCompiler StrategyPolicy.

Module ObservedExposure.
Record t := mk {
  strategy_id : string;
  protocol : string;
  chain_id : N;
  asset_symbol : string;
  notional_wei : option N;
  asset_address : option string;
  decimals : option N;
  amount_raw : option string;
  updated_at_ns : N;
  is_open : bool;
}.
#[global] Instance eta_t : Eta t := fun self =>
  mk (strategy_id self) (protocol self) (chain_id self) (asset_symbol self) (notional_wei self)
    (asset_address self) (decimals self) (amount_raw self) (updated_at_ns self) (is_open self).
End ObservedExposure.

(** The counters and reasons of one reconciliation. *)
Module Repairs.
Record t := mk {
  repaired : N;
  recreated : N;
  closed : N;
  drift_reasons : list string;
}.
#[global] Instance eta_t : Eta t := fun self =>
  mk (repaired self) (recreated self) (closed self) (drift_reasons self).
Definition none : t := mk 0 0 0 [].
End Repairs.

Definition PAGE_SIZE : N := 250.
Definition MAX_DRIFT_REASON_LEN : N := 512.

(** The amount in wei where the asset is the chain's own. *)
Definition native_notional (asset_address : option string) (decimals : option N) (value : N)
    : option N :=
  match asset_address with
  | None => if bool_decide (decimals = Some 18%N) && (value <=? max_uint 128)%N
            then Some value else None
  | Some _ => None
  end.

Definition effect_identity (effect : StrategyAssetEffect.t) : N * option string * N :=
  (StrategyAssetEffect.chain_id effect,
   to_ascii_lowercase <$> StrategyAssetEffect.asset_address effect,
   StrategyAssetEffect.decimals effect).

Definition observed_identity (observed : ObservedExposure.t) : N * option string * option N :=
  (ObservedExposure.chain_id observed,
   to_ascii_lowercase <$> ObservedExposure.asset_address observed,
   ObservedExposure.decimals observed).

Definition exposure_of (observed : ObservedExposure.t) : ActiveExposure.t :=
  ActiveExposure.mk (ObservedExposure.strategy_id observed) (ObservedExposure.protocol observed)
    (ObservedExposure.chain_id observed) (ObservedExposure.asset_symbol observed)
    (ObservedExposure.notional_wei observed) (ObservedExposure.asset_address observed)
    (ObservedExposure.decimals observed) (ObservedExposure.amount_raw observed)
    (ObservedExposure.updated_at_ns observed).

Definition exposure_drifted (existing : ActiveExposure.t) (observed : ObservedExposure.t) : bool :=
  bool_decide (ActiveExposure.protocol existing <> ObservedExposure.protocol observed)
  || negb (ActiveExposure.chain_id existing =? ObservedExposure.chain_id observed)%N
  || bool_decide (ActiveExposure.asset_symbol existing <> ObservedExposure.asset_symbol observed)
  || bool_decide (ActiveExposure.notional_wei existing <> ObservedExposure.notional_wei observed)
  || bool_decide (ActiveExposure.asset_address existing <> ObservedExposure.asset_address observed)
  || bool_decide (ActiveExposure.decimals existing <> ObservedExposure.decimals observed)
  || bool_decide (ActiveExposure.amount_raw existing <> ObservedExposure.amount_raw observed)
  || (ActiveExposure.updated_at_ns existing <? ObservedExposure.updated_at_ns observed)%N.

Section Observing.
Context `{u256 : U256Text}.

Fixpoint sum_effects (sum : N) (effects : list StrategyAssetEffect.t) : result string N :=
  match effects with
  | [] => Ok sum
  | effect :: effects =>
      value ← map_err (fun error => "invalid confirmed effect amount: " +:+ error)
        (u256_from_str (StrategyAssetEffect.amount_raw effect));
      sum ← ok_or (checked_add 256 sum value) "confirmed effect amount overflow";
      sum_effects sum effects
  end.

(** What a confirmed execution did, if it entered or left a position. *)
Definition observe_execution (execution : PendingStrategyExecution.t)
    : result string (option ObservedExposure.t) :=
  let action_id := PendingStrategyExecution.action_id execution in
  let is_open := starts_with action_id "enter_" in
  let is_close := starts_with action_id "exit_" in
  if negb (PendingStrategyExecution.bookkeeping_applied execution) || negb is_open && negb is_close
  then Ok None
  else
    let direction :=
      if is_open then StrategyAssetDirection.Debit else StrategyAssetDirection.Credit in
    let relevant := filter (fun effect => StrategyAssetEffect.direction effect = direction)
                      (PendingStrategyExecution.asset_effects execution) in
    match relevant with
    | [] => Ok None
    | first :: _ =>
        err_if (existsb (fun effect =>
                  bool_decide (effect_identity effect <> effect_identity first)) relevant)
          "confirmed strategy effects contain multiple asset groups";;
        amount ← sum_effects 0 relevant;
        let key := PendingStrategyExecution.key execution in
        Ok (Some (ObservedExposure.mk (strategy_id_from_key key) (StrategyTemplateKey.protocol key)
              (StrategyTemplateKey.chain_id key) (StrategyAssetEffect.asset_symbol first)
              (native_notional (StrategyAssetEffect.asset_address first)
                 (Some (StrategyAssetEffect.decimals first)) amount)
              (StrategyAssetEffect.asset_address first) (Some (StrategyAssetEffect.decimals first))
              (Some (pretty amount)) (PendingStrategyExecution.updated_at_ns execution) is_open))
    end.

(** An amount of an observation, with the two error texts of its reading. *)
Definition observed_amount (observed : ObservedExposure.t) (ambiguous invalid : string)
    : result string N :=
  raw ← ok_or (ObservedExposure.amount_raw observed) ambiguous;
  map_err (fun error => invalid +:+ error) (u256_from_str raw).

(** Of a strategy that is known already, the next position. *)
Definition next_observed_exposure (current delta : ObservedExposure.t)
    : result string ObservedExposure.t :=
  err_if (bool_decide (observed_identity current <> observed_identity delta))
    ("historical strategy effects changed asset identity:"
     +:+ ObservedExposure.strategy_id delta);;
  current_amount ← observed_amount current "historical exposure amount is ambiguous"
    "invalid historical exposure amount: ";
  delta_amount ← observed_amount delta "historical exposure delta is ambiguous"
    "invalid historical exposure delta: ";
  next ←
    (if ObservedExposure.is_open delta
     then ok_or (checked_add 256 current_amount delta_amount) "historical exposure amount overflow"
     else ok_or (checked_sub current_amount delta_amount)
            "historical exposure exit exceeds open amount");
  Ok (current
    <| ObservedExposure.amount_raw := Some (pretty next) |>
    <| ObservedExposure.notional_wei :=
         native_notional (ObservedExposure.asset_address current)
           (ObservedExposure.decimals current) next |>
    <| ObservedExposure.updated_at_ns := ObservedExposure.updated_at_ns delta |>
    <| ObservedExposure.is_open := negb (next =? 0)%N |>).

Definition fold_observed_exposure (observed : gmap string ObservedExposure.t)
    (delta : ObservedExposure.t) : result string (gmap string ObservedExposure.t) :=
  let strategy_id := ObservedExposure.strategy_id delta in
  match observed !! strategy_id with
  | None => Ok (if ObservedExposure.is_open delta then <[strategy_id := delta]> observed
                else observed)
  | Some current =>
      next ← next_observed_exposure current delta;
      Ok (<[strategy_id := next]> observed)
  end.

Fixpoint fold_executions (observed : gmap string ObservedExposure.t)
    (executions : list PendingStrategyExecution.t)
    : result string (gmap string ObservedExposure.t) :=
  match executions with
  | [] => Ok observed
  | execution :: executions =>
      delta ← observe_execution execution;
      observed ← match delta with
                 | Some delta => fold_observed_exposure observed delta
                 | None => Ok observed
                 end;
      fold_executions observed executions
  end.

Context `{rows : RowOrder}.

Definition page_cursor (execution : PendingStrategyExecution.t) : N * string :=
  (PendingStrategyExecution.created_at_ns execution, PendingStrategyExecution.execution_id execution).

(** The loop over the pages; [None] where [fuel] runs out. *)
Fixpoint collect_pages (fuel : nat) (s : Book.t) (cursor : option (N * string))
    (observed : gmap string ObservedExposure.t)
    : option (result string (gmap string ObservedExposure.t)) :=
  match fuel with
  | 0 => None
  | S fuel =>
      let page := list_confirmed_strategy_executions_page cursor PAGE_SIZE s in
      match last page with
      | None => Some (Ok observed)
      | Some newest =>
          match fold_executions observed page with
          | Err error => Some (Err error)
          | Ok observed =>
              if (N.of_nat (length page) <? PAGE_SIZE)%N then Some (Ok observed)
              else collect_pages fuel s (Some (page_cursor newest)) observed
          end
      end
  end.

(** One page more than there are rows. *)
Definition collect_observed_exposures (s : Book.t)
    : option (result string (list ObservedExposure.t)) :=
  match collect_pages (S (length (execution_rows s))) s None ∅ with
  | Some (Ok observed) => Some (Ok (btree_values observed))
  | Some (Err error) => Some (Err error)
  | None => None
  end.

(** One round of the loop over the observations. *)
Definition reconcile_observation (observation : ObservedExposure.t) (repairs : Repairs.t)
    : B Repairs.t :=
  let strategy_id := ObservedExposure.strategy_id observation in
  let drifted reason := repairs
    <| Repairs.drift_reasons ::= fun reasons => reasons ++ [reason +:+ ":" +:+ strategy_id] |> in
  stored ← gets (active_exposure strategy_id);
  match ObservedExposure.is_open observation, stored with
  | true, None =>
      set_active_exposure (exposure_of observation);;
      mret (drifted "recreated_missing_exposure"
              <| Repairs.recreated ::= fun n => saturating_add 32 n 1 |>)
  | true, Some existing =>
      if exposure_drifted existing observation then
        set_active_exposure (exposure_of observation);;
        mret (drifted "repaired_mismatched_exposure"
                <| Repairs.repaired ::= fun n => saturating_add 32 n 1 |>)
      else mret repairs
  | false, Some _ =>
      modify (remove_active_exposure strategy_id);;
      mret (drifted "closed_after_exit" <| Repairs.closed ::= fun n => saturating_add 32 n 1 |>)
  | false, None => mret repairs
  end.

Fixpoint reconcile_observations (observations : list ObservedExposure.t) (repairs : Repairs.t)
    : B Repairs.t :=
  match observations with
  | [] => mret repairs
  | observation :: observations =>
      repairs ← reconcile_observation observation repairs;
      reconcile_observations observations repairs
  end.

(** [&joined[..512]] traps inside a character. *)
Definition drift_text (drift_reasons : list string) : B (option string) :=
  match drift_reasons with
  | [] => mret None
  | _ =>
      let joined := join ";" drift_reasons in
      if (MAX_DRIFT_REASON_LEN <? N.of_nat (String.length joined))%N
      then kept ← expect (str_get 0 (N.to_nat MAX_DRIFT_REASON_LEN) joined);
           mret (Some (kept +:+ "…"))
      else mret (Some joined)
  end.

Definition reconcile_active_exposures_from_recent_executions (now_ns : N)
    : B ExposureReconciliationStatus.t :=
  collected ← gets collect_observed_exposures;
  observed ← expect collected;
  observations ← lift observed;
  repairs ← reconcile_observations observations Repairs.none;
  drift_reason ← drift_text (Repairs.drift_reasons repairs);
  let status :=
    ExposureReconciliationStatus.mk (Some now_ns) (Some now_ns) (Repairs.repaired repairs)
      (Repairs.recreated repairs) (Repairs.closed repairs) drift_reason None in
  modify (fun s => s <| Book.exposure_reconciliation_status := Some status |>);;
  mret status.
End Observing.

(** ** Paging reads every confirmed execution once *)

Lemma created_after_cursor x z :
  created_after (Some (page_cursor x)) z = negb (created_before z x).
Proof.
  unfold created_after, created_before, page_cursor.
  destruct (N.lt_trichotomy (PendingStrategyExecution.created_at_ns x)
              (PendingStrategyExecution.created_at_ns z)) as [Hlt|[->|Hlt]].
  - rewrite (proj2 (N.ltb_lt _ _) Hlt), (proj2 (N.ltb_ge _ _) (N.lt_le_incl _ _ Hlt)).
    rewrite (proj2 (N.eqb_neq _ _) (not_eq_sym (N.lt_neq _ _ Hlt))). done.
  - rewrite N.ltb_irrefl, N.eqb_refl. done.
  - rewrite (proj2 (N.ltb_lt _ _) Hlt), (proj2 (N.ltb_ge _ _) (N.lt_le_incl _ _ Hlt)).
    rewrite (proj2 (N.eqb_neq _ _) (not_eq_sym (N.lt_neq _ _ Hlt))). done.
Qed.

Lemma filter_everything {A} (P : A -> Prop) `{!forall x, Decision (P x)} (l : list A) :
  (forall x, x ∈ l -> P x) -> filter P l = l.
Proof.
  induction l as [|x l IH]; intros Hl; [done|].
  rewrite filter_cons_True by (apply Hl; set_solver). rewrite IH; set_solver.
Qed.

Lemma filter_nothing {A} (P : A -> Prop) `{!forall x, Decision (P x)} (l : list A) :
  (forall x, x ∈ l -> ~ P x) -> filter P l = [].
Proof.
  induction l as [|x l IH]; intros Hl; [done|].
  rewrite filter_cons_False by (apply Hl; set_solver). apply IH. set_solver.
Qed.

Lemma created_before_spec x y :
  created_before x y = true <->
  (PendingStrategyExecution.created_at_ns x < PendingStrategyExecution.created_at_ns y)%N
  \/ PendingStrategyExecution.created_at_ns x = PendingStrategyExecution.created_at_ns y
     /\ key_le (PendingStrategyExecution.execution_id x) (PendingStrategyExecution.execution_id y).
Proof.
  unfold created_before. by rewrite orb_true_iff, andb_true_iff, N.ltb_lt, N.eqb_eq, bool_decide_eq_true.
Qed.

Lemma created_before_total x y : created_before x y || created_before y x = true.
Proof.
  rewrite orb_true_iff, !created_before_spec.
  destruct (N.lt_trichotomy (PendingStrategyExecution.created_at_ns x)
              (PendingStrategyExecution.created_at_ns y)) as [?|[->|?]]; [tauto| |tauto].
  destruct (key_le_total (PendingStrategyExecution.execution_id x)
              (PendingStrategyExecution.execution_id y)); tauto.
Qed.

Lemma created_before_trans x y z :
  created_before x y = true -> created_before y z = true -> created_before x z = true.
Proof.
  rewrite !created_before_spec. intros [Hxy|[Hxy Hle]] [Hyz|[Hyz Hle']]; [left; lia..|].
  right. split; [congruence|by etrans].
Qed.

Lemma created_before_antisym x y :
  created_before x y = true -> created_before y x = true ->
  PendingStrategyExecution.execution_id x = PendingStrategyExecution.execution_id y.
Proof.
  rewrite !created_before_spec. intros [Hxy|[Hxy Hle]] [Hyx|[Hyx Hle']]; try lia.
  by apply (anti_symm key_le).
Qed.

Section Paging.
#[local] Set Default Proof Using "All".
Context `{u256 : U256Text, rows : RowOrder, rows_ok : !RowOrderOk rows} (s : Book.t)
  (distinct : forall execution_id execution,
     pending_strategy_execution execution_id s = Some execution ->
     PendingStrategyExecution.execution_id execution = execution_id).

Lemma fold_executions_app observed l k :
  fold_executions observed (l ++ k)
  = (observed ← fold_executions observed l; fold_executions observed k).
Proof using Type.
  revert observed. induction l as [|execution l IH]; intros observed; [done|].
  cbn [app fold_executions]. destruct (observe_execution execution) as [delta|]; [|done].
  cbn [mbind result_bind]. destruct (match delta with Some _ => _ | None => _ end); [|done].
  apply IH.
Qed.

(** All confirmed executions, oldest first. *)
Definition confirmed_executions : list PendingStrategyExecution.t :=
  order_rows created_before (filter (fun execution =>
    PendingStrategyExecution.state execution = PendingStrategyExecutionState.Confirmed)
    (execution_rows s)).

Lemma execution_rows_elem execution :
  execution ∈ execution_rows s ->
  pending_strategy_execution (PendingStrategyExecution.execution_id execution) s = Some execution.
Proof.
  unfold execution_rows. intros ([id row] & -> & Hrow%elem_of_map_to_list)%list_elem_of_fmap.
  simpl. pose proof (distinct id row Hrow) as <-. exact Hrow.
Qed.

Lemma execution_rows_NoDup : NoDup (execution_rows s).
Proof.
  unfold execution_rows. apply (NoDup_fmap_1 PendingStrategyExecution.execution_id).
  rewrite <- list_fmap_compose.
  assert ((PendingStrategyExecution.execution_id ∘ snd
            <$> map_to_list (Book.pending_strategy_executions s))
          = (map_to_list (Book.pending_strategy_executions s)).*1) as ->;
    [|apply NoDup_fst_map_to_list].
  apply list_fmap_ext. intros i [id row] Hin%list_elem_of_lookup_2. simpl.
  apply distinct. by apply elem_of_map_to_list in Hin.
Qed.

Lemma created_rows_sorted l :
  StronglySorted (fun x y => created_before x y = true) (order_rows created_before l).
Proof. apply order_rows_sorted; [apply created_before_total|apply created_before_trans]. Qed.

Lemma row_unique x y :
  x ∈ execution_rows s -> y ∈ execution_rows s ->
  created_before x y = true -> created_before y x = true -> x = y.
Proof.
  intros Hx%execution_rows_elem Hy%execution_rows_elem Hxy Hyx.
  pose proof (created_before_antisym _ _ Hxy Hyx) as Hid. rewrite Hid in Hx. congruence.
Qed.

Definition cursor_of (read : list PendingStrategyExecution.t) : option (N * string) :=
  page_cursor <$> last read.

(** What the query finds behind the rows read so far. *)
Lemma rows_after read rest :
  confirmed_executions = read ++ rest ->
  order_rows created_before (filter (fun execution =>
    PendingStrategyExecution.state execution = PendingStrategyExecutionState.Confirmed
    /\ created_after (cursor_of read) execution) (execution_rows s)) = rest.
Proof.
  intros Hsplit.
  assert (read ++ rest ≡ₚ filter (fun execution =>
    PendingStrategyExecution.state execution = PendingStrategyExecutionState.Confirmed)
    (execution_rows s)) as Hperm.
  { rewrite <- Hsplit. apply order_rows_perm. }
  pose proof (created_rows_sorted (filter (fun execution =>
    PendingStrategyExecution.state execution = PendingStrategyExecutionState.Confirmed)
    (execution_rows s))) as Hsorted.
  fold confirmed_executions in Hsorted. rewrite Hsplit in Hsorted.
  assert (forall x, x ∈ read ++ rest -> x ∈ execution_rows s) as Hrows.
  { intros x. rewrite Hperm. by intros [_ ?]%list_elem_of_filter. }
  assert (NoDup (read ++ rest)) as Hnodup.
  { rewrite Hperm. apply NoDup_filter, execution_rows_NoDup. }
  assert (filter (fun execution => created_after (cursor_of read) execution) (read ++ rest) = rest)
    as Hafter.
  { destruct (decide (read = [])) as [->|(earlier & newest & ->)%exists_last].
    { by apply filter_everything. }
    unfold cursor_of. rewrite last_snoc. cbn [fmap option_fmap option_map].
    rewrite filter_app, filter_nothing, filter_everything; [done|..].
    - intros z Hz. rewrite created_after_cursor. apply Is_true_true, negb_true_iff, not_true_iff_false.
      intros Hback. apply (NoDup_app (earlier ++ [newest]) rest) in Hnodup as (_ & Hapart & _).
      apply (Hapart newest); [set_solver|].
      rewrite (row_unique newest z); [done|apply Hrows; set_solver..| |done].
      eapply (StronglySorted_app_inv _ _ _ Hsorted); set_solver.
    - intros y Hy. rewrite created_after_cursor, Is_true_true, negb_true_iff, not_false_iff_true.
      apply elem_of_app in Hy as [Hy|Hy%list_elem_of_singleton].
      + rewrite <- app_assoc in Hsorted. eapply (StronglySorted_app_inv _ _ _ Hsorted); set_solver.
      + subst. pose proof (created_before_total newest newest) as Htotal.
        by rewrite orb_diag in Htotal. }
  apply (StronglySorted_unique_strong (fun x y => created_before x y = true)).
  - intros x y Hx Hy. apply row_unique.
    + rewrite order_rows_perm in Hx. by apply list_elem_of_filter in Hx as [_ ?].
    + apply Hrows. set_solver.
  - apply created_rows_sorted.
  - by apply (StronglySorted_app _ read rest) in Hsorted as (_ & _ & ?).
  - rewrite order_rows_perm, <- Hafter at 1. rewrite Hperm, list_filter_filter.
    erewrite list_filter_iff; [done|]. intros x. simpl. tauto.
Qed.

Lemma collect_pages_fold fuel read rest observed :
  confirmed_executions = read ++ rest -> length rest < fuel ->
  collect_pages fuel s (cursor_of read) observed = Some (fold_executions observed rest).
Proof.
  revert read rest observed. induction fuel as [|fuel IH]; intros read rest observed Hsplit Hfuel; [lia|].
  cbn [collect_pages]. unfold list_confirmed_strategy_executions_page.
  rewrite (rows_after read rest Hsplit). unfold limit_rows.
  set (page := take (N.to_nat PAGE_SIZE) rest).
  assert (rest = page ++ drop (N.to_nat PAGE_SIZE) rest) as Hrest by (symmetry; apply take_drop).
  destruct (last page) as [newest|] eqn:Hlast.
  2:{ apply last_None in Hlast. assert (rest = []) as ->; [|done].
      destruct rest; [done|]. unfold page in Hlast.
      by rewrite (eq_refl : N.to_nat PAGE_SIZE = S (N.to_nat 249)) in Hlast. }
  rewrite Hrest at 1. rewrite fold_executions_app.
  destruct (fold_executions observed page) as [observed'|error] eqn:Hfold; [|done].
  cbn [mbind result_bind].
  destruct (N.of_nat (length page) <? PAGE_SIZE)%N eqn:Hfull.
  - apply N.ltb_lt in Hfull. unfold page in Hfull. rewrite length_take in Hfull.
    rewrite drop_ge by lia. done.
  - apply N.ltb_ge in Hfull.
    replace (Some (page_cursor newest)) with (cursor_of (read ++ page)).
    + apply IH; [by rewrite <- app_assoc, <- Hrest|].
      rewrite length_drop. assert (0 < length page); [|unfold page in *; rewrite length_take in *; lia].
      destruct page; [done|simpl; lia].
    + unfold cursor_of. rewrite last_app, Hlast. done.
Qed.

(** C28 - Reading the confirmed executions in pages of 250 behind a cursor
    always ends, and comes to what one pass over all of them in the order of
    their creation comes to: no page is skipped or read twice, whatever the
    number of rows, and an error is that of the first execution that has
    one. *)
Theorem collect_observed_exposures_complete :
  collect_observed_exposures s
  = Some (match fold_executions ∅ confirmed_executions with
          | Ok observed => Ok (btree_values observed)
          | Err error => Err error
          end).
Proof.
  unfold collect_observed_exposures.
  rewrite (collect_pages_fold _ [] confirmed_executions ∅); [|done|].
  - by destruct (fold_executions ∅ confirmed_executions).
  - apply Nat.lt_succ_r. unfold confirmed_executions. rewrite order_rows_perm. apply length_filter.
Qed.
End Paging.

(** ** Reconciliation settles *)

(** The stored exposure is the observed one, at least as new. *)
Record agrees (existing : ActiveExposure.t) (observed : ObservedExposure.t) : Prop := {
  agrees_protocol : ActiveExposure.protocol existing = ObservedExposure.protocol observed;
  agrees_chain : ActiveExposure.chain_id existing = ObservedExposure.chain_id observed;
  agrees_symbol : ActiveExposure.asset_symbol existing = ObservedExposure.asset_symbol observed;
  agrees_notional : ActiveExposure.notional_wei existing = ObservedExposure.notional_wei observed;
  agrees_address : ActiveExposure.asset_address existing = ObservedExposure.asset_address observed;
  agrees_decimals : ActiveExposure.decimals existing = ObservedExposure.decimals observed;
  agrees_amount : ActiveExposure.amount_raw existing = ObservedExposure.amount_raw observed;
  agrees_time :
    (ObservedExposure.updated_at_ns observed <= ActiveExposure.updated_at_ns existing)%N;
}.

Lemma exposure_drifted_agrees existing observed :
  exposure_drifted existing observed = false <-> agrees existing observed.
Proof.
  unfold exposure_drifted.
  rewrite !orb_false_iff, !bool_decide_eq_false, N.ltb_ge, negb_false_iff, N.eqb_eq.
  split.
  - intros (((((((Hp & Hc) & Hs) & Hn) & Ha) & Hd) & Hw) & Ht). split; try done; by apply dec_stable.
  - intros []. tauto.
Qed.

Definition settled (observed : ObservedExposure.t) (s : Book.t) : Prop :=
  match ObservedExposure.is_open observed, active_exposure (ObservedExposure.strategy_id observed) s with
  | true, Some existing => agrees existing observed
  | false, None => True
  | _, _ => False
  end.

Lemma reconcile_settled observed repairs s :
  settled observed s -> reconcile_observation observed repairs s = Done repairs s.
Proof.
  unfold settled, reconcile_observation, gets, mbind, M_bind.
  destruct (ObservedExposure.is_open observed), (active_exposure _ s) as [existing|]; try done.
  by intros ->%exposure_drifted_agrees.
Qed.

(** Only the exposure of the observed strategy changes. *)
Record observation_reconciled (observed : ObservedExposure.t) (s s' : Book.t) : Prop := {
  reconciled_settled : settled observed s';
  reconciled_exposures : exists exposures,
    s' = s <| Book.active_exposures := exposures |>
    /\ forall strategy_id, strategy_id <> ObservedExposure.strategy_id observed ->
         exposures !! strategy_id = Book.active_exposures s !! strategy_id;
}.

Lemma write_exposure_reconciled observed stored s s' :
  ObservedExposure.is_open observed = true ->
  set_active_exposure (exposure_of observed) s = Done stored s' -> observation_reconciled observed s s'.
Proof.
  intros Hopen. unfold set_active_exposure. intros Hset. run_inv Hset as u t Hvalid.
  apply lift_Done in Hvalid as [_ ->]. done_inv. split.
  - unfold settled, active_exposure. simpl_set. rewrite Hopen. simpl ActiveExposure.strategy_id.
    rewrite lookup_insert_eq. by split.
  - eexists. split; [done|]. intros strategy_id Hne. simpl. by rewrite lookup_insert_ne.
Qed.

Lemma reconcile_observation_run observed repairs s repairs' s' :
  reconcile_observation observed repairs s = Done repairs' s' -> observation_reconciled observed s s'.
Proof.
  intros Hrun. destruct (ObservedExposure.is_open observed) eqn:Hopen;
    destruct (active_exposure (ObservedExposure.strategy_id observed) s) as [existing|] eqn:Hstored.
  - destruct (exposure_drifted existing observed) eqn:Hdrift.
    + unfold reconcile_observation in Hrun. run_inv Hrun as found t Hfound.
      injection Hfound as <- <-. rewrite Hopen, Hstored, Hdrift in Hrun.
      run_inv Hrun as written t Hset. injection Hrun as _ <-. by eapply write_exposure_reconciled.
    + assert (settled observed s) as Hsettled.
      { unfold settled. rewrite Hopen, Hstored. by apply exposure_drifted_agrees. }
      rewrite (reconcile_settled _ _ _ Hsettled) in Hrun. injection Hrun as _ <-.
      split; [done|]. exists (Book.active_exposures s). split; [by destruct s|done].
  - unfold reconcile_observation in Hrun. run_inv Hrun as found t Hfound.
    injection Hfound as <- <-. rewrite Hopen, Hstored in Hrun.
    run_inv Hrun as written t Hset. injection Hrun as _ <-. by eapply write_exposure_reconciled.
  - unfold reconcile_observation in Hrun. run_inv Hrun as found t Hfound.
    injection Hfound as <- <-. rewrite Hopen, Hstored in Hrun. done_inv. split.
    + unfold settled, active_exposure, remove_active_exposure. simpl_set.
      by rewrite Hopen, lookup_delete_eq.
    + eexists. split; [done|]. intros strategy_id Hne. simpl. by rewrite lookup_delete_ne.
  - assert (settled observed s) as Hsettled by (unfold settled; by rewrite Hopen, Hstored).
    rewrite (reconcile_settled _ _ _ Hsettled) in Hrun. injection Hrun as _ <-.
    split; [done|]. exists (Book.active_exposures s). split; [by destruct s|done].
Qed.

Lemma reconcile_observations_run observations repairs s repairs' s' :
  NoDup (ObservedExposure.strategy_id <$> observations) ->
  reconcile_observations observations repairs s = Done repairs' s' ->
  exists exposures,
    s' = s <| Book.active_exposures := exposures |>
    /\ Forall (fun observed => settled observed s') observations
    /\ forall strategy_id, strategy_id ∉ ObservedExposure.strategy_id <$> observations ->
         exposures !! strategy_id = Book.active_exposures s !! strategy_id.
Proof.
  revert repairs s. induction observations as [|observed observations IH];
    intros repairs s Hdistinct Hrun; cbn [reconcile_observations] in Hrun.
  { injection Hrun as _ <-. exists (Book.active_exposures s). split; [by destruct s|].
    split; [constructor|done]. }
  apply NoDup_cons in Hdistinct as [Hnew Hdistinct].
  run_inv Hrun as repairs1 s1 Hstep.
  apply reconcile_observation_run in Hstep as [Hsettled (first & -> & Hothers)].
  destruct (IH _ _ Hdistinct Hrun) as (exposures & -> & Hall & Hkept).
  exists exposures. split; [done|]. split.
  - constructor; [|done]. unfold settled, active_exposure in *. simpl_set.
    by rewrite (Hkept _ Hnew).
  - intros strategy_id Hout. rewrite fmap_cons, not_elem_of_cons in Hout. destruct Hout as [Hne Hout].
    rewrite (Hkept _ Hout). by apply Hothers.
Qed.

Lemma reconcile_settled_all observations repairs s :
  Forall (fun observed => settled observed s) observations ->
  reconcile_observations observations repairs s = Done repairs s.
Proof.
  induction 1 as [|observed observations Hsettled _ IH]; [done|]. cbn [reconcile_observations].
  by rewrite (M_bind_run _ _ _ _ _ (reconcile_settled _ repairs _ Hsettled)).
Qed.

Section Settling.
#[local] Set Default Proof Using "All".
Context `{u256 : U256Text, rows : RowOrder}.

(** Positions are kept under their strategy. *)
Definition positions_proper (observed : gmap string ObservedExposure.t) : Prop :=
  map_Forall (fun strategy_id position => ObservedExposure.strategy_id position = strategy_id) observed.

Lemma next_observed_exposure_id current delta next :
  next_observed_exposure current delta = Ok next ->
  ObservedExposure.strategy_id next = ObservedExposure.strategy_id current.
Proof using Type.
  unfold next_observed_exposure. intros [_ Hnext]%err_if_seq_Ok.
  apply result_bind_Ok in Hnext as (current_amount & _ & Hnext).
  apply result_bind_Ok in Hnext as (delta_amount & _ & Hnext).
  by apply result_bind_Ok in Hnext as (amount & _ & [= <-]).
Qed.

Lemma fold_observed_exposure_proper observed delta observed' :
  fold_observed_exposure observed delta = Ok observed' ->
  positions_proper observed -> positions_proper observed'.
Proof using Type.
  unfold fold_observed_exposure. intros Hfold Hproper.
  destruct (observed !! ObservedExposure.strategy_id delta) as [current|] eqn:Hcurrent.
  - apply result_bind_Ok in Hfold as (next & Hnext%next_observed_exposure_id & [= <-]).
    apply map_Forall_insert_2; [|done]. by rewrite Hnext, (Hproper _ _ Hcurrent).
  - injection Hfold as <-. destruct (ObservedExposure.is_open delta); [|done].
    by apply map_Forall_insert_2.
Qed.

Lemma fold_executions_proper observed executions observed' :
  fold_executions observed executions = Ok observed' ->
  positions_proper observed -> positions_proper observed'.
Proof using Type.
  revert observed. induction executions as [|execution executions IH]; intros observed.
  { cbn [fold_executions]. by intros [= <-]. }
  cbn [fold_executions].
  intros (delta & _ & (observed1 & Hfold & Hrest)%result_bind_Ok)%result_bind_Ok Hproper.
  apply (IH _ Hrest). destruct delta as [delta|]; [|by injection Hfold as <-].
  by eapply fold_observed_exposure_proper.
Qed.

Lemma collect_pages_proper fuel s cursor observed observed' :
  collect_pages fuel s cursor observed = Some (Ok observed') ->
  positions_proper observed -> positions_proper observed'.
Proof using Type.
  revert cursor observed. induction fuel as [|fuel IH]; intros cursor observed; [done|].
  cbn [collect_pages]. destruct (last _) as [newest|]; [|by intros [= <-]].
  destruct (fold_executions observed _) as [observed1|error] eqn:Hfold; [|done].
  intros Hpages Hproper. pose proof (fold_executions_proper _ _ _ Hfold Hproper) as Hproper1.
  destruct (_ <? PAGE_SIZE)%N; [by injection Hpages as <-|]. by apply (IH _ _ Hpages).
Qed.

Lemma collected_distinct s observations :
  collect_observed_exposures s = Some (Ok observations) ->
  NoDup (ObservedExposure.strategy_id <$> observations).
Proof using Type.
  unfold collect_observed_exposures.
  destruct (collect_pages _ s None ∅) as [[observed|error]|] eqn:Hpages; [|done..].
  intros [= <-]. pose proof (collect_pages_proper _ _ _ _ _ Hpages (map_Forall_empty _)) as Hproper.
  unfold btree_values. rewrite btree_iter_perm, <- list_fmap_compose.
  assert ((ObservedExposure.strategy_id ∘ snd <$> map_to_list observed)
          = (map_to_list observed).*1) as ->; [|apply NoDup_fst_map_to_list].
  apply list_fmap_ext. intros i [id position] Hin%list_elem_of_lookup_2. simpl.
  apply Hproper. by apply elem_of_map_to_list in Hin.
Qed.

Lemma collect_pages_rows fuel s s' cursor observed :
  Book.pending_strategy_executions s' = Book.pending_strategy_executions s ->
  collect_pages fuel s' cursor observed = collect_pages fuel s cursor observed.
Proof using Type.
  intros Hsame. revert cursor observed. induction fuel as [|fuel IH]; intros cursor observed; [done|].
  cbn [collect_pages]. unfold list_confirmed_strategy_executions_page, execution_rows. rewrite Hsame.
  destruct (last _); [|done]. destruct (fold_executions observed _); [|done]. by rewrite IH.
Qed.

Lemma collect_rows s s' :
  Book.pending_strategy_executions s' = Book.pending_strategy_executions s ->
  collect_observed_exposures s' = collect_observed_exposures s.
Proof using Type.
  intros Hsame. unfold collect_observed_exposures. rewrite (collect_pages_rows _ s s' _ _ Hsame).
  unfold execution_rows. by rewrite Hsame.
Qed.

(** A reconciliation that returns leaves an open position stored as the
    confirmed executions add up to (protocol, asset, amount and at least their
    time) and a closed one not stored, changes the exposure of no other
    strategy and nothing else but its status; so that another one, at any
    time, repairs, recreates and closes nothing. *)
Theorem reconcile_active_exposures_settles (now_ns : N) (s s' : Book.t)
    (status : ExposureReconciliationStatus.t)
    (Hrun : reconcile_active_exposures_from_recent_executions now_ns s = Done status s') :
  exists observations exposures,
    collect_observed_exposures s = Some (Ok observations)
    /\ s' = s <| Book.active_exposures := exposures |>
              <| Book.exposure_reconciliation_status := Some status |>
    /\ Forall (fun observed => settled observed s') observations
    /\ (forall strategy_id, strategy_id ∉ ObservedExposure.strategy_id <$> observations ->
         active_exposure strategy_id s' = active_exposure strategy_id s)
    /\ forall later, exists again,
         reconcile_active_exposures_from_recent_executions later s'
           = Done again (s' <| Book.exposure_reconciliation_status := Some again |>)
         /\ again = ExposureReconciliationStatus.mk (Some later) (Some later) 0 0 0 None None.
Proof.
  unfold reconcile_active_exposures_from_recent_executions in Hrun.
  run_inv Hrun as collected t Hcollected. injection Hcollected as <- <-.
  run_inv Hrun as observed t Hexpect. unfold expect in Hexpect.
  destruct (collect_observed_exposures s) as [collected|] eqn:Hcollect; [|done].
  injection Hexpect as <- <-.
  run_inv Hrun as observations t Hlift. apply lift_Done in Hlift as [-> ->].
  run_inv Hrun as repairs t Hrepairs.
  pose proof (collected_distinct _ _ Hcollect) as Hdistinct.
  apply reconcile_observations_run in Hrepairs as (exposures & -> & Hsettled & Hkept); [|done].
  run_inv Hrun as drift t Hdrift.
  assert (t = s <| Book.active_exposures := exposures |>) as ->.
  { revert Hdrift. unfold drift_text. destruct (Repairs.drift_reasons repairs); [by intros [= _ <-]|].
    destruct (_ <? _)%N; [|by intros [= _ <-]].
    unfold expect, mbind, M_bind. destruct (str_get _ _ _); [by intros [= _ <-]|done]. }
  done_inv. exists observations, exposures. split; [done|]. split; [done|].
  split; [|split].
  - apply Forall_forall. intros observed Hin. rewrite Forall_forall in Hsettled.
    exact (Hsettled observed Hin).
  - intros strategy_id Hout. unfold active_exposure. simpl_set. by apply Hkept.
  - intros later. eexists. split; [|reflexivity].
    unfold reconcile_active_exposures_from_recent_executions, gets, mbind, M_bind.
    rewrite (collect_rows s) by done. rewrite Hcollect. unfold expect, lift. rewrite reconcile_settled_all; [done|].
    apply Forall_forall. intros observed Hin. rewrite Forall_forall in Hsettled.
    exact (Hsettled observed Hin).
Qed.
End Settling.
