(* ===== verification/StrategySamples.v ===== *)
(** * StrategySamples: a strategy on which the strategy theorems compute

    A recipe with two actions is registered, executed and confirmed under
    concrete stand-ins for the libraries, and the theorems of the strategy
    files are applied to that run; nothing here models code. *)

From S2P Require Import Prelude Text SpawnProtocol Types Externals AgentTypes Evm TopUp AgentStore StrategyTypes StrategyStore StrategyValidator StrategyAbi StrategyCompiler StrategyCodec StrategyPlan StrategyPolicy StrategyExecution StrategyLedger StrategyRegistry StrategyLifecycle StrategyExposure.
From Stdlib Require Import Strings.Byte.

Module StrategySamples.

#[local] Existing Instance toy_externals.

Definition zero_address : string := "0x0000000000000000000000000000000000000000".
Definition token_address : string := "0x2222222222222222222222222222222222222222".

(** The only parameters the samples pass: no text differs but in the value. *)
Definition sample_params (text : string) : IntentTypedParams.t :=
  IntentTypedParams.mk
    [IntentTypedCall.mk
       (Value.Object (list_to_map [("to", Value.String zero_address); ("amount", Value.String "7")]))
       (Some (if bool_decide (text = "deposit") then "1000" else "0"))].

Definition key : StrategyTemplateKey.t := StrategyTemplateKey.mk "erc20" "transfer" 8453 "t".

#[local] Instance toy_libs : StrategyLibs := {
  value_from_str text :=
    if bool_decide (text = "abi") then Ok (Value.Array [])
    else if bool_decide (text = "simulated") then Ok (Value.Object {["plan" := Value.Null]})
    else Ok (Value.Object ∅);
  value_text _ := "{}";
  constraint_policy_from_str _ := Ok ConstraintPolicy.default;
  typed_params_from_str text := Ok (sample_params text);
  intent_args_from_str _ := Ok (StrategyIntentArgs.mk key "enter_pool" (Some "deposit") None);
  abi_entries_from_value _ := Ok
    [RawAbiEntry.mk "function" (Some "transfer")
       [RawAbiParam.mk (Some "to") "address" []; RawAbiParam.mk (Some "amount") "uint" []]
       [] (Some "payable")];
  asset_effects_from_value _ := Ok [];
  asset_effects_to_value _ := Ok (Value.Array []);
  value_pointer _ _ := None;
  plan_to_value _ := Ok Value.Null;
  decode_hex_text text :=
    match decode_hex_pairs text with Some bytes => Ok bytes | None => Err "invalid" end;
  unicode_lowercase := to_ascii_lowercase;
  u256_overflow := "overflow";
  parse_i128_error _ := "invalid";
}.

#[local] Instance toy_libs_ok : StrategyLibsOk toy_libs.
Proof. split. intros text bytes Hpairs. simpl. by rewrite Hpairs. Qed.

#[local] Instance toy_u256 : U256Text := {
  u256_from_str text :=
    match parse_digits 256 0 text with Some value => Ok value | None => Err "invalid" end;
  u256_from_hex text := parse_hex_digits 256 0 text;
}.

#[local] Instance toy_texts : SqlTexts := "Query returned no rows".

(** Rows in the order of the comparison, by merge sort. *)
#[local] Instance toy_rows : RowOrder := fun A le =>
  @merge_sort A (fun x y => le x y = true) (fun x y => decide (le x y = true)).

#[local] Instance toy_rows_ok : RowOrderOk toy_rows.
Proof.
  split; intros A le l.
  - apply merge_sort_Permutation.
  - intros Htotal Htrans. apply StronglySorted_merge_sort.
    + intros x y z. apply Htrans.
    + intros x y. apply orb_true_iff, Htotal.
Qed.

(** *** The strategy *)

Definition action (action_id : string) : StrategyRecipeAction.t :=
  StrategyRecipeAction.mk action_id [StrategyRecipeActionCall.mk "token" "transfer"] []
    ["balance_delta"] [] [].

Definition recipe : StrategyRecipe.t :=
  StrategyRecipe.mk "erc20" "transfer" 8453 "t"
    [StrategyRecipeContract.mk "token" token_address "abi" "https://example.com" None]
    [action "transfer"; action "enter_pool"] None None.

(** A wallet with one ether. *)
Definition snapshot : RuntimeSnapshot.t :=
  RuntimeSnapshot.default <| RuntimeSnapshot.wallet_balance :=
    WalletBalanceSnapshot.default <| WalletBalanceSnapshot.eth_balance_wei_hex :=
      Some "0xde0b6b3a7640000" |> |>.
Definition agent : Agent.t := Agent.mk 1000 (Some snapshot) None ∅ ∅ None ∅ ∅ ∅.
Definition empty_book : Book.t := Book.mk agent ∅ ∅ ∅ ∅ ∅ ∅ ∅ None ∅ ∅ ∅ None.

Definition state_of {A} (o : outcome Book.t string A) : Book.t := default empty_book (final_state o).

Definition registered_book : Book.t := state_of (register_from_recipe recipe empty_book).

Definition simulation : ToolCallRecord.t :=
  ToolCallRecord.mk "turn" "simulate_strategy_action" "{}" "simulated" true
    ToolCallOutcome.Executed None None.
Definition cycles : CycleTelemetry.t :=
  CycleTelemetry.mk 0 0 0 0 0 0 None None None None None None 0%N.

(** *** One execution, from the tool call to its confirmation *)

Definition world0 : World.t := World.mk registered_book [].
Definition world1 : World.t :=
  after send_tasks world0
    (execute_strategy_action "{}" "turn" [simulation] [] cycles (World.book world0)).

Definition dummy_send : SendTask.t :=
  SendTask.mk (failed_intent (StrategyExecutionIntent.mk key "" "")) ""
    (new_execution "" "" "" (failed_intent (StrategyExecutionIntent.mk key "" "")) 0) [] 0.
Definition sending (w : World.t) : SendTask.t :=
  match World.tasks w with Sending task :: _ => task | _ => dummy_send end.
Definition world2 : World.t :=
  after send_tasks (World.mk (World.book world1) [])
    (resume_sending (sending world1) (Ok "0xhash") (World.book world1)).

Definition world3 : World.t :=
  after check_tasks world2
    (reconcile_pending_strategy_executions 2000 None (World.book world2)).
Definition observation : StrategyReceiptObservation.t :=
  StrategyReceiptObservation.mk TransactionReceiptStatus.Confirmed (Some 90%N) (Some "0xb") 100.
Definition checking (w : World.t) : option CheckTask.t :=
  match World.tasks w with Checking task :: _ => Some task | _ => None end.
Definition world4 : World.t :=
  match checking world3 with
  | Some task => after check_tasks (World.mk (World.book world3) [])
                   (resume_check task (Ok observation) (World.book world3))
  | None => world3
  end.

Lemma final_state_of {A} (o : outcome Book.t string A) :
  is_some (final_state o) = true -> final_state o = Some (state_of o).
Proof. unfold state_of. by destruct (final_state o). Qed.

(** What a computation returned. *)
Definition returned {A} (o : outcome Book.t string A) : option A :=
  match o with Done a _ => Some a | _ => None end.

Lemma returned_Done {A} (o : outcome Book.t string A) :
  is_some (returned o) = true -> exists a, o = Done a (state_of o).
Proof. destruct o; [|done..]. by eexists. Qed.

Lemma is_ok_Ok {A} (r : result string A) : is_ok r = true -> exists a, r = Ok a.
Proof. destruct r; [|done]. by eexists. Qed.

Lemma execution_run : rtc step world0 world4.
Proof.
  assert (World.tasks world1 = [] ++ Sending (sending world1) :: []) as H1 by (vm_compute; reflexivity).
  assert (is_some (checking world3) = true) as H3 by (vm_compute; reflexivity).
  assert (World.tasks world3 = [] ++ (match checking world3 with
    Some task => Checking task | None => Sending dummy_send end) :: []) as H4 by (vm_compute; reflexivity).
  apply (rtc_l _ _ world1); [by unfold world1; eapply step_execute|].
  apply (rtc_l _ _ world2); [by unfold world2; apply (step_sent _ _ [] _ [] (Ok "0xhash") H1)|].
  apply (rtc_l _ _ world3); [by unfold world3; eapply step_reconcile|].
  apply rtc_once. unfold world4. destruct (checking world3) as [task|]; [|discriminate H3].
  by apply (step_observed _ _ [] task [] (Ok observation) H4).
Qed.

(** Only evaluated as a whole. *)
#[local] Opaque world1 world2 world3 world4 registered_book.

Lemma world0_initial : initial world0.
Proof.
  split; [vm_compute; reflexivity|]. split; [done|]. intros record_key.
  unfold stat. replace (Book.strategy_outcome_stats (World.book world0))
    with (∅ : gmap string StrategyOutcomeStats.t) by (vm_compute; reflexivity).
  rewrite lookup_empty. done.
Qed.

Definition execution_id : string :=
  "strategy:turn:7b7d000000000000000000000000000000000000000000000000000000000000".

(** A sweep later nothing is left to do. *)
Definition world5 : World.t :=
  after check_tasks world4 (reconcile_pending_strategy_executions 9000 None (World.book world4)).

Lemma closed_executions_final_witness :
  exists execution, is_confirmed execution = true
    /\ pending_strategy_execution execution_id (World.book world4) = Some execution
    /\ pending_strategy_execution execution_id (World.book world5) = Some execution.
Proof.
  destruct (pending_strategy_execution execution_id (World.book world4)) as [execution|] eqn:Hrow.
  2:{ exfalso. revert Hrow. vm_compute. discriminate. }
  assert (is_confirmed execution = true) as Hconfirmed.
  { assert (is_confirmed <$> pending_strategy_execution execution_id (World.book world4) = Some true)
      as H by (vm_compute; reflexivity). rewrite Hrow in H. by injection H. }
  exists execution. split; [done|]. split; [done|].
  apply (closed_executions_final world0 world4 world5 execution_id execution world0_initial
    execution_run); [apply rtc_once; unfold world5; by eapply step_reconcile|exact Hrow|].
  destruct (is_open execution) eqn:Hopen; [|done].
  by rewrite (open_not_confirmed _ Hopen) in Hconfirmed.
Defined.

Lemma ledger_balances_witness :
  balanced (World.book world0) (World.book world4)
  /\ strategy_template_budget_spent_wei key (World.book world4) = Some "1000".
Proof.
  split; [|vm_compute; reflexivity]. apply (ledger_balances world0 world4 world0_initial execution_run).
Defined.

(** *** Compiling and checking *)

Lemma normalize_abi_artifact_correct_witness :
  exists artifact,
    normalize_abi_artifact (AbiArtifactKey.mk "erc20" 8453 "token") "abi" " source " None [] 5
      = Ok artifact
    /\ AbiArtifact.source_ref artifact = "source".
Proof.
  destruct (is_ok_Ok (normalize_abi_artifact (AbiArtifactKey.mk "erc20" 8453 "token") "abi"
    " source " None [] 5)) as [artifact Hartifact]; [vm_compute; reflexivity|].
  exists artifact. split; [exact Hartifact|].
  destruct (normalize_abi_artifact_correct (ext_ok := toy_externals_ok) _ _ _ _ _ _ _ Hartifact)
    as (_ & _ & _ & _ & Hsource & _).
  rewrite Hsource. vm_compute. reflexivity.
Defined.

(** [(uint256, bytes)]: a static and a dynamic parameter. *)
Definition sample_types : list AbiType.t :=
  [AbiType.Plain "uint256" "uint256"; AbiType.Plain "bytes" "bytes";
   AbiType.Plain "address" "address"; AbiType.Plain "bytes4" "bytes4";
   AbiType.Array (AbiType.Plain "uint8" "uint8") None].
Definition sample_values : list Value.t :=
  [Value.String "7"; Value.String "0x0102";
   Value.String "0x1111111111111111111111111111111111111111"; Value.String "0xabcd";
   Value.Array [Value.String "0xFF"; Value.Number (JsonNumber.PosInt 3)]].
Definition sample_bytes : list byte :=
  match encode_abi_params sample_types sample_values with Ok bytes => bytes | Err _ => [] end.

Lemma encode_abi_params_decodes_witness :
  encode_abi_params sample_types sample_values = Ok sample_bytes
  /\ decode_abi_params sample_types (sample_bytes ++ [x00])
     = Some [AbiData.Uint 7; AbiData.Bytes [x01; x02]; AbiData.Address (replicate 20 x11);
             AbiData.FixedBytes [xab; xcd; x00; x00];
             AbiData.Seq [AbiData.Uint 255; AbiData.Uint 3]].
Proof.
  assert (encode_abi_params sample_types sample_values = Ok sample_bytes) as Hencode
    by (vm_compute; reflexivity).
  split; [exact Hencode|].
  rewrite (encode_abi_params_decodes (libs_ok := toy_libs_ok) sample_types sample_values sample_bytes
    Hencode); [vm_compute; reflexivity|by repeat constructor|vm_compute; discriminate].
Defined.

(** 256 is encoded as a [uint8], and the contract rejects the word. *)
Example wide_uint_rejected :
  match encode_abi_params [AbiType.Plain "uint8" "uint8"] [Value.String "256"] with
  | Ok bytes => decode_abi_params [AbiType.Plain "uint8" "uint8"] bytes = None
  | Err _ => False
  end.
Proof. vm_compute. reflexivity. Qed.

Definition intent : StrategyExecutionIntent.t :=
  StrategyExecutionIntent.mk key " enter_pool " "deposit".

Lemma compile_intent_correct_witness :
  exists plan, compile_intent intent registered_book = Ok plan
    /\ ExecutionPlan.action_id plan = "enter_pool"
    /\ Forall call_shaped (ExecutionPlan.calls plan).
Proof.
  destruct (is_ok_Ok (compile_intent intent registered_book)) as [plan Hplan];
    [vm_compute; reflexivity|].
  exists plan. split; [exact Hplan|].
  destruct (compile_intent_correct (ext_ok := toy_externals_ok) intent registered_book plan Hplan)
    as (_ & Haction & _ & _ & Hshaped & _).
  split; [|exact Hshaped]. rewrite Haction. vm_compute. reflexivity.
Defined.

Definition policy : AutonomyPolicy.t := AutonomyPolicy.conservative_default 1000.

Lemma policy_is_typed : policy_typed policy.
Proof. split; [vm_compute; discriminate..|]. intros limit [= <-]. vm_compute. discriminate. Qed.

Definition plan : ExecutionPlan.t :=
  match compile_intent intent registered_book with
  | Ok plan => plan
  | Err _ => failed_intent intent
  end.
#[local] Opaque plan.

Lemma enforce_strategy_execution_policy_bounds_witness :
  execution_bounded policy intent plan [simulation] cycles registered_book.
Proof.
  apply (enforce_strategy_execution_policy_bounds policy intent plan [simulation] [] cycles
           registered_book policy_is_typed); vm_compute; reflexivity.
Defined.

(** *** Registering and steering *)

Lemma register_from_recipe_ready_witness :
  exists registered, register_from_recipe recipe empty_book = Done registered registered_book
    /\ dry_run_compile (StrategyTemplate.key (RegisteredStrategy.template registered))
         registered_book = Ok tt.
Proof.
  destruct (returned_Done (register_from_recipe recipe empty_book)) as [registered Hrun];
    [vm_compute; reflexivity|].
  exists registered. split; [exact Hrun|].
  destruct (register_from_recipe_ready (ext_ok := toy_externals_ok) recipe registered empty_book
    _ Hrun) as (_ & _ & _ & _ & _ & Hdry & _).
  exact Hdry.
Defined.

(** Two weeks and a second later the template is stale. *)
Lemma reconcile_templates_verdict_witness :
  exists s', reconcile_templates (1000 + 1209602 * 1000000000) registered_book = Done tt s'
    /\ strategy_enabled key registered_book = true /\ strategy_enabled key s' = false.
Proof.
  set (templates := list_all_strategy_templates STRATEGY_RECONCILE_MAX_TEMPLATES registered_book).
  assert (bool_decide (Forall (fun template =>
    validate_strategy_template_key (StrategyTemplate.key template) = Ok tt) templates) = true)
    as Hvalid%bool_decide_eq_true by (vm_compute; reflexivity).
  assert (bool_decide (NoDup (activation_key <$> templates)) = true)
    as Hdistinct%bool_decide_eq_true by (vm_compute; reflexivity).
  destruct (reconcile_templates_verdict (1000 + 1209602 * 1000000000) registered_book Hvalid
    Hdistinct) as (activations & Hrun & Hverdict & _).
  eexists. split; [exact Hrun|]. split; [vm_compute; reflexivity|].
  destruct (get_template key registered_book) as [template|] eqn:Hget;
    [|exfalso; revert Hget; vm_compute; discriminate].
  assert (head templates = get_template key registered_book) as Hhead by (vm_compute; reflexivity).
  rewrite Hget in Hhead. apply head_Some_elem_of in Hhead as Hin.
  assert (StrategyTemplate.key template = key) as Htemplate.
  { assert (StrategyTemplate.key <$> get_template key registered_book = Some key) as H
      by (vm_compute; reflexivity). rewrite Hget in H. by injection H. }
  rewrite <- Htemplate. rewrite (Hverdict template Hin). unfold reconciled_enabled.
  replace (template_age_secs (1000 + 1209602 * 1000000000) template) with 1209602%N; [reflexivity|].
  assert (template_age_secs (1000 + 1209602 * 1000000000) <$> get_template key registered_book
    = Some 1209602%N) as H by (vm_compute; reflexivity). rewrite Hget in H. by injection H.
Defined.

(** Registering the recipe again does not help. *)
Definition revoked_book : Book.t := state_of (revoke_strategy_template key None registered_book).
Definition again_book : Book.t := state_of (run_lifecycle (Register recipe) revoked_book).

Lemma revocation_is_final_witness :
  strategy_enabled key again_book = true
  /\ ValidationReport.passed (validate_execution_plan plan registered_book) = true
  /\ ValidationReport.passed (validate_execution_plan plan again_book) = false.
Proof.
  split; [vm_compute; reflexivity|]. split; [vm_compute; reflexivity|].
  destruct (returned_Done (revoke_strategy_template key None registered_book))
    as [revocation Hrevoked]; [vm_compute; reflexivity|].
  apply (revocation_is_final key None revocation registered_book revoked_book again_book Hrevoked).
  - apply rtc_once, (lifecycle_ran _ _ (Register recipe)). unfold again_book.
    apply (final_state_of (run_lifecycle (Register recipe) revoked_book)). vm_compute. reflexivity.
  - vm_compute. reflexivity.
Defined.

(** *** Failing *)

Definition failures : StrategyOutcomeStats.t :=
  StrategyOutcomeStats.mk key 2 0 2 0 2 None None None.
Definition quarantined : StrategyQuarantine.t :=
  StrategyQuarantine.mk (strategy_id_from_key key) "reverted" 2 500 None.
Definition failing_book : Book.t :=
  World.book world2
    <| Book.strategy_outcome_stats := {[strategy_outcome_stats_record_key key := failures]} |>
    <| Book.strategy_quarantines := {[strategy_id_from_key key := quarantined]} |>.
Definition reverted : PendingStrategyExecution.t :=
  default (SendTask.execution dummy_send)
    (pending_strategy_execution execution_id (World.book world2))
  <| PendingStrategyExecution.state := PendingStrategyExecutionState.Reverted |>.
Definition failed_outcome :=
  apply_terminal_strategy_failure reverted StrategyOutcomeKind.DeterministicFailure "reverted" 3000
    failing_book.
#[local] Opaque failing_book reverted revoked_book again_book.

Lemma failure_booked :
  apply_terminal_strategy_failure reverted StrategyOutcomeKind.DeterministicFailure "reverted" 3000
    failing_book = Done true (state_of failed_outcome).
Proof.
  fold failed_outcome.
  assert (returned failed_outcome = Some true) as H by (vm_compute; reflexivity).
  destruct (returned_Done failed_outcome) as [b Hb]; [by rewrite H|].
  rewrite Hb in H. cbn [returned] in H. injection H as ->. exact Hb.
Qed.

#[local] Opaque failed_outcome.

Lemma unconfirmed strategy_id s a : ~ confirms strategy_id s (s <| Book.agent := a |>).
Proof. by intros (id & execution & Hrow & _ & _ & Hnew). Qed.

(** The third failure, and the year after. *)
Lemma terminal_failure_stops_strategy_witness :
  let year_later := state_of failed_outcome <| Book.agent := agent <| Agent.clock := 31536000000000000%N |> |> in
  strategy_enabled key (state_of failed_outcome) = false
  /\ stops (execute_strategy_action "{}" "turn" [simulation] [] cycles) year_later.
Proof.
  intros year_later.
  pose proof failure_booked as Hrun.
  assert (quarantines_proper failing_book) as Hproper.
  { unfold quarantines_proper.
    replace (Book.strategy_quarantines failing_book) with ({[strategy_id_from_key key := quarantined]} : gmap string StrategyQuarantine.t)
      by (vm_compute; reflexivity).
    by apply map_Forall_singleton. }
  assert (PendingStrategyExecution.key reverted = key) as Hkey by (vm_compute; reflexivity).
  destruct (terminal_failure_stops_strategy reverted StrategyOutcomeKind.DeterministicFailure "reverted"
    3000 failing_book (state_of failed_outcome) Hrun Hproper) as [Hrefused Hdisabled];
    [vm_compute; discriminate|].
  rewrite Hkey in Hrefused, Hdisabled. split.
  - destruct (Hdisabled eq_refl) as [Hoff _]; [vm_compute; discriminate|vm_compute; reflexivity|].
    exact Hoff.
  - assert ((failure_quarantine_threshold 3000 failing_book
             <= StrategyQuarantine.failure_count
                  (count_failure (strategy_id_from_key key) "reverted" 3000 failing_book))%N)
      as Hthreshold by (vm_compute; discriminate).
    specialize (Hrefused Hthreshold). unfold year_later. clear -Hrefused.
    generalize dependent (state_of failed_outcome). intros failed Hrefused.
    set (later := failed <| Book.agent := _ |>).
    apply (Hrefused (World.mk failed []) (World.mk later []) "{}" "turn" [simulation] [] cycles
             (StrategyExecutionIntent.mk key "enter_pool" "deposit")); [done| |apply unconfirmed|done|done].
    by apply rtc_once, execution_elsewhere.
Defined.

(** *** Exposures *)

(** The exposure of the confirmed execution was lost. *)
Definition lost_book : Book.t := World.book world4 <| Book.active_exposures := ∅ |>.
Definition found_book : Book.t :=
  state_of (reconcile_active_exposures_from_recent_executions 9000 lost_book).
#[local] Opaque lost_book found_book.

Lemma lost_rows : forall id execution,
  pending_strategy_execution id lost_book = Some execution ->
  PendingStrategyExecution.execution_id execution = id.
Proof.
  assert (map_Forall (fun id execution => PendingStrategyExecution.execution_id execution = id)
    (Book.pending_strategy_executions lost_book)) as H; [|exact H].
  apply (bool_decide_eq_true_1 (map_Forall (fun id execution =>
    PendingStrategyExecution.execution_id execution = id)
    (Book.pending_strategy_executions lost_book))). vm_compute. reflexivity.
Qed.

Lemma collect_observed_exposures_complete_witness :
  length (confirmed_executions lost_book) = 1
  /\ collect_observed_exposures lost_book
     = Some (match fold_executions ∅ (confirmed_executions lost_book) with
             | Ok observed => Ok (btree_values observed)
             | Err error => Err error
             end).
Proof.
  split; [vm_compute; reflexivity|].
  exact (collect_observed_exposures_complete (rows_ok := toy_rows_ok) lost_book lost_rows).
Defined.

Lemma reconcile_active_exposures_settles_witness :
  active_exposure (strategy_id_from_key key) lost_book = None
  /\ ActiveExposure.amount_raw <$> active_exposure (strategy_id_from_key key) found_book
     = Some (Some "1000")
  /\ exists again,
       reconcile_active_exposures_from_recent_executions 10000 found_book
         = Done again (found_book <| Book.exposure_reconciliation_status := Some again |>).
Proof.
  split; [vm_compute; reflexivity|]. split; [vm_compute; reflexivity|].
  destruct (returned_Done (reconcile_active_exposures_from_recent_executions 9000 lost_book))
    as [status Hrun]; [vm_compute; reflexivity|].
  destruct (reconcile_active_exposures_settles 9000 lost_book found_book status Hrun)
    as (_ & _ & _ & _ & _ & _ & Hagain).
  destruct (Hagain 10000%N) as (again & Hdone & _). by exists again.
Defined.
End StrategySamples.
