(* ===== verification/TurnTypes.v ===== *)
(** * TurnTypes: the data of the automaton's turn

    The records and enums of [components/ic-automaton/src/domain/types.rs] that
    a turn reads and writes - tool calls, inference input, decisions, the turn
    record, the inbox and the outbox, the inference proxy's jobs, the journal,
    reflections - and those that [features/inference.rs], [agent.rs],
    [tools.rs] and [storage/stable.rs] declare for it, one module each with the
    source's fields, constructors and small methods. *)

From S2P Require Import Prelude Text SpawnProtocol Types AgentTypes StrategyTypes.

Module ToolCall.
Record t := mk {
  tool_call_id : option string;
  tool : string;
  args_json : string;
}.
#[global] Instance eq_dec : EqDecision t.
Proof. solve_decision. Defined.
#[global] Instance eta_t : Eta t := fun self =>
  mk (tool_call_id self) (tool self) (args_json self).
End ToolCall.

Module InferenceToolScope.
Inductive t :=
| Full
| CoordinationOnly
| Terminal.
#[global] Instance eq_dec : EqDecision t.
Proof. solve_decision. Defined.
Definition as_tag (scope : t) : string :=
  match scope with
  | Full => "full"
  | CoordinationOnly => "coordination_only"
  | Terminal => "terminal"
  end.
End InferenceToolScope.

Module InferenceInput.
Record t := mk {
  input : string;
  context_snippet : string;
  turn_id : string;
  tool_scope : InferenceToolScope.t;
  proxy_resume_job_id : option string;
  allow_global_proxy_callback_resume : bool;
}.
#[global] Instance eq_dec : EqDecision t.
Proof. solve_decision. Defined.
#[global] Instance eta_t : Eta t := fun self =>
  mk (input self) (context_snippet self) (turn_id self) (tool_scope self)
    (proxy_resume_job_id self) (allow_global_proxy_callback_resume self).
End InferenceInput.

Module ContinuationStopReason.
Inductive t :=
| None
| MaxRounds
| MaxDuration
| InferenceError
| MaxToolCalls.
#[global] Instance eq_dec : EqDecision t.
Proof. solve_decision. Defined.
End ContinuationStopReason.

Module DecisionTrigger.
Inductive t :=
| ScheduledReview
| InboxMessage
| LowRunway
| PositionMaintenance
| RecoveryFollowUp
| PlanContinuation.
#[global] Instance eq_dec : EqDecision t.
Proof. solve_decision. Defined.
Definition as_wire_name (trigger : t) : string :=
  match trigger with
  | ScheduledReview => "ScheduledReview"
  | InboxMessage => "InboxMessage"
  | LowRunway => "LowRunway"
  | PositionMaintenance => "PositionMaintenance"
  | RecoveryFollowUp => "RecoveryFollowUp"
  | PlanContinuation => "PlanContinuation"
  end.
Definition inference_input_marker (trigger : t) : string :=
  match trigger with
  | ScheduledReview => "scheduled_review"
  | InboxMessage => "inbox_message"
  | LowRunway => "low_runway"
  | PositionMaintenance => "position_maintenance"
  | RecoveryFollowUp => "recovery_follow_up"
  | PlanContinuation => "plan_continuation"
  end.
End DecisionTrigger.

Module EscalationClass.
Inductive t :=
| MissingPolicy (what : string)
| OutOfAuthority (what : string)
| CapabilityGap (what : string)
| SafetyConflict (what : string)
| RepeatedFailure (strategy : string) (failure_count : N).
#[global] Instance eq_dec : EqDecision t.
Proof. solve_decision. Defined.
End EscalationClass.

Module DecisionEnvelopeOutcome.
Inductive t :=
| Executed (action_summary : string)
| Simulated (action_summary : string)
| NoOp (reason : string)
| Deferred (reason : string)
| Escalated (gap : EscalationClass.t).
#[global] Instance eq_dec : EqDecision t.
Proof. solve_decision. Defined.
End DecisionEnvelopeOutcome.

Module AutonomyDecisionEnvelope.
Record t := mk {
  trigger : DecisionTrigger.t;
  candidates_summary : string;
  outcome : DecisionEnvelopeOutcome.t;
  explanation : string;
  next_steps : option string;
  confidence : option string;
}.
#[global] Instance eq_dec : EqDecision t.
Proof. solve_decision. Defined.
#[global] Instance eta_t : Eta t := fun self =>
  mk (trigger self) (candidates_summary self) (outcome self) (explanation self)
    (next_steps self) (confidence self).
End AutonomyDecisionEnvelope.

Module DecisionOutcome.
Inductive t :=
| Executed (action_summary : string)
| Simulated (action_summary : string)
| NoOp (reason : string)
| Deferred (reason : string)
| Escalated (gap : EscalationClass.t).
#[global] Instance eq_dec : EqDecision t.
Proof. solve_decision. Defined.
(** [DecisionOutcome::from]. *)
Definition from (outcome : DecisionEnvelopeOutcome.t) : t :=
  match outcome with
  | DecisionEnvelopeOutcome.Executed action_summary => Executed action_summary
  | DecisionEnvelopeOutcome.Simulated action_summary => Simulated action_summary
  | DecisionEnvelopeOutcome.NoOp reason => NoOp reason
  | DecisionEnvelopeOutcome.Deferred reason => Deferred reason
  | DecisionEnvelopeOutcome.Escalated gap => Escalated gap
  end.
End DecisionOutcome.

Module DecisionRecord.
Record t := mk {
  turn_id : string;
  timestamp_ns : N;
  trigger : DecisionTrigger.t;
  outcome : DecisionOutcome.t;
  policy_version : N;
  candidates_summary : string;
  explanation : string;
}.
#[global] Instance eq_dec : EqDecision t.
Proof. solve_decision. Defined.
#[global] Instance eta_t : Eta t := fun self =>
  mk (turn_id self) (timestamp_ns self) (trigger self) (outcome self) (policy_version self)
    (candidates_summary self) (explanation self).
End DecisionRecord.

Module TurnRecord.
Record t := mk {
  id : string;
  created_at_ns : N;
  finished_at_ns : option N;
  duration_ms : option N;
  state_from : AgentState.t;
  state_to : AgentState.t;
  source_events : N;
  tool_call_count : N;
  input_summary : string;
  inner_dialogue : option string;
  inference_round_count : N;
  continuation_stop_reason : ContinuationStopReason.t;
  error : option string;
}.
#[global] Instance eq_dec : EqDecision t.
Proof. solve_decision. Defined.
#[global] Instance eta_t : Eta t := fun self =>
  mk (id self) (created_at_ns self) (finished_at_ns self) (duration_ms self)
    (state_from self) (state_to self) (source_events self) (tool_call_count self)
    (input_summary self) (inner_dialogue self) (inference_round_count self)
    (continuation_stop_reason self) (error self).
End TurnRecord.

Module InboxMessageStatus.
Inductive t :=
| Pending
| Staged
| Consumed.
#[global] Instance eq_dec : EqDecision t.
Proof. solve_decision. Defined.
End InboxMessageStatus.

Module InboxMessageSource.
Inductive t :=
| EvmInbox
| StewardDirect.
#[global] Instance eq_dec : EqDecision t.
Proof. solve_decision. Defined.
End InboxMessageSource.

Module InboxMessage.
Record t := mk {
  id : string;
  seq : N;
  body : string;
  posted_at_ns : N;
  posted_by : string;
  source : InboxMessageSource.t;
  status : InboxMessageStatus.t;
  staged_at_ns : option N;
  consumed_at_ns : option N;
}.
#[global] Instance eq_dec : EqDecision t.
Proof. solve_decision. Defined.
#[global] Instance eta_t : Eta t := fun self =>
  mk (id self) (seq self) (body self) (posted_at_ns self) (posted_by self) (source self)
    (status self) (staged_at_ns self) (consumed_at_ns self).
End InboxMessage.

Module OutboxMessage.
Record t := mk {
  id : string;
  seq : N;
  turn_id : string;
  body : string;
  created_at_ns : N;
  source_inbox_ids : list string;
}.
#[global] Instance eq_dec : EqDecision t.
Proof. solve_decision. Defined.
#[global] Instance eta_t : Eta t := fun self =>
  mk (id self) (seq self) (turn_id self) (body self) (created_at_ns self)
    (source_inbox_ids self).
End OutboxMessage.

Module ConversationEntry.
Record t := mk {
  inbox_message_id : string;
  outbox_message_id : option string;
  sender_body : string;
  agent_reply : string;
  turn_id : string;
  timestamp_ns : N;
}.
#[global] Instance eq_dec : EqDecision t.
Proof. solve_decision. Defined.
#[global] Instance eta_t : Eta t := fun self =>
  mk (inbox_message_id self) (outbox_message_id self) (sender_body self) (agent_reply self)
    (turn_id self) (timestamp_ns self).
End ConversationEntry.

Module InboxProxyWaitState.
Record t := mk {
  inbox_message_id : string;
  pending_job_id : option string;
  submitted_turn_id : string;
  started_at_ns : N;
  wait_attempts : N;
}.
#[global] Instance eq_dec : EqDecision t.
Proof. solve_decision. Defined.
#[global] Instance eta_t : Eta t := fun self =>
  mk (inbox_message_id self) (pending_job_id self) (submitted_turn_id self)
    (started_at_ns self) (wait_attempts self).
End InboxProxyWaitState.

Module PendingInferenceProxyJob.
Record t := mk {
  job_id : string;
  turn_id : string;
  submitted_at_ns : N;
  model : string;
}.
#[global] Instance eq_dec : EqDecision t.
Proof. solve_decision. Defined.
#[global] Instance eta_t : Eta t := fun self =>
  mk (job_id self) (turn_id self) (submitted_at_ns self) (model self).
End PendingInferenceProxyJob.

Module InferenceProxyResultPayload.
Record t := mk {
  explanation : option string;
  tool_calls : list ToolCall.t;
}.
#[global] Instance eq_dec : EqDecision t.
Proof. solve_decision. Defined.
#[global] Instance eta_t : Eta t := fun self =>
  mk (explanation self) (tool_calls self).
End InferenceProxyResultPayload.

Module InferenceProxyCallbackRecord.
Record t := mk {
  job_id : string;
  turn_id : string;
  completed_at_ns : N;
  accepted_at_ns : N;
  caller_principal : string;
  result : option InferenceProxyResultPayload.t;
  error : option string;
}.
#[global] Instance eq_dec : EqDecision t.
Proof. solve_decision. Defined.
#[global] Instance eta_t : Eta t := fun self =>
  mk (job_id self) (turn_id self) (completed_at_ns self) (accepted_at_ns self)
    (caller_principal self) (result self) (error self).
End InferenceProxyCallbackRecord.

Module SubmitInferenceResultArgs.
Record t := mk {
  job_id : string;
  turn_id : string;
  completed_at_ns : N;
  result : option InferenceProxyResultPayload.t;
  error : option string;
}.
#[global] Instance eq_dec : EqDecision t.
Proof. solve_decision. Defined.
#[global] Instance eta_t : Eta t := fun self =>
  mk (job_id self) (turn_id self) (completed_at_ns self) (result self) (error self).
End SubmitInferenceResultArgs.

Module JournalDealClaim.
Record t := mk {
  kind : string;
  version : N;
  tx_hash : string;
  peer_canister_id : string;
  asset : string;
  amount_raw : string;
}.
#[global] Instance eq_dec : EqDecision t.
Proof. solve_decision. Defined.
#[global] Instance eta_t : Eta t := fun self =>
  mk (kind self) (version self) (tx_hash self) (peer_canister_id self) (asset self)
    (amount_raw self).
End JournalDealClaim.

Module JournalEntry.
Record t := mk {
  id : N;
  turn_id : string;
  timestamp_ns : N;
  text : string;
  genesis : bool;
  deal_claim : option JournalDealClaim.t;
}.
#[global] Instance eq_dec : EqDecision t.
Proof. solve_decision. Defined.
#[global] Instance eta_t : Eta t := fun self =>
  mk (id self) (turn_id self) (timestamp_ns self) (text self) (genesis self)
    (deal_claim self).
End JournalEntry.

Module ReflectionOrigin.
Inductive t :=
| Autonomy
| ExternalInput
| Maintenance.
#[global] Instance eq_dec : EqDecision t.
Proof. solve_decision. Defined.
End ReflectionOrigin.

Module ReflectionMemoryRecord.
Record t := mk {
  key : string;
  tool : string;
  subject : string;
  error_class : string;
  what_failed : string;
  what_worked : option string;
  degraded_turn_count : N;
  repeat_count : N;
  last_failed_at_ns : N;
  last_failed_turn_id : string;
  last_worked_at_ns : option N;
  last_worked_turn_id : option string;
  last_origin : ReflectionOrigin.t;
  updated_at_ns : N;
}.
#[global] Instance eq_dec : EqDecision t.
Proof. solve_decision. Defined.
#[global] Instance eta_t : Eta t := fun self =>
  mk (key self) (tool self) (subject self) (error_class self) (what_failed self)
    (what_worked self) (degraded_turn_count self) (repeat_count self)
    (last_failed_at_ns self) (last_failed_turn_id self) (last_worked_at_ns self)
    (last_worked_turn_id self) (last_origin self) (updated_at_ns self).
End ReflectionMemoryRecord.

Module TransitionLogRecord.
Record t := mk {
  id : string;
  turn_id : string;
  from_state : AgentState.t;
  to_state : AgentState.t;
  event : string;
  error : option string;
  occurred_at_ns : N;
}.
#[global] Instance eq_dec : EqDecision t.
Proof. solve_decision. Defined.
#[global] Instance eta_t : Eta t := fun self =>
  mk (id self) (turn_id self) (from_state self) (to_state self) (event self) (error self)
    (occurred_at_ns self).
End TransitionLogRecord.

Module AutonomyToolFailureCooldown.
Record t := mk {
  normalized_error : string;
  repeat_count : N;
  cooldown_until_ns : N;
}.
#[global] Instance eq_dec : EqDecision t.
Proof. solve_decision. Defined.
#[global] Instance eta_t : Eta t := fun self =>
  mk (normalized_error self) (repeat_count self) (cooldown_until_ns self).
End AutonomyToolFailureCooldown.

Module InferenceProxyCallbackApply.
Inductive t :=
| Accepted
| Duplicate.
#[global] Instance eq_dec : EqDecision t.
Proof. solve_decision. Defined.
End InferenceProxyCallbackApply.

Module WalletBalanceStatus.
Inductive t :=
| Unknown
| Fresh
| Stale
| Error.
#[global] Instance eq_dec : EqDecision t.
Proof. solve_decision. Defined.
End WalletBalanceStatus.

Module WalletBalanceFreshness.
Record t := mk {
  age_secs : option N;
  freshness_window_secs : N;
  is_stale : bool;
  status : WalletBalanceStatus.t;
}.
#[global] Instance eq_dec : EqDecision t.
Proof. solve_decision. Defined.
#[global] Instance eta_t : Eta t := fun self =>
  mk (age_secs self) (freshness_window_secs self) (is_stale self) (status self).
End WalletBalanceFreshness.

(** ** [features/inference.rs] *)

Module InferenceDeferredReason.
Inductive t :=
| ProxyCallbackPending
| SurvivalPolicy
| LowCycles.
#[global] Instance eq_dec : EqDecision t.
Proof. solve_decision. Defined.
End InferenceDeferredReason.

Module InferenceOutput.
Record t := mk {
  tool_calls : list ToolCall.t;
  explanation : string;
  deferred_reason : option InferenceDeferredReason.t;
}.
End InferenceOutput.

Module InferenceTranscriptMessage.
Inductive t :=
| Assistant (content : option string) (tool_calls : list ToolCall.t)
| Tool (tool_call_id : string) (content : string).
End InferenceTranscriptMessage.

(** ** [storage/stable.rs] *)

Module AutonomyToolFailureTracker.
Record t := mk {
  normalized_error : string;
  repeat_count : N;
  first_failed_at_ns : N;
  last_failed_at_ns : N;
  cooldown_until_ns : option N;
  last_suppressed_at_ns : option N;
  suppressed_count : N;
}.
#[global] Instance eta_t : Eta t := fun self =>
  mk (normalized_error self) (repeat_count self) (first_failed_at_ns self)
    (last_failed_at_ns self) (cooldown_until_ns self) (last_suppressed_at_ns self)
    (suppressed_count self).
Definition default : t := mk "" 0 0 0 None None 0.
End AutonomyToolFailureTracker.

Module ReflectionMemoryDegradedLesson.
Record t := mk {
  tool : string;
  subject : string;
  error_class : string;
  what_failed : string;
  latest_repeat_count : option N;
  turn_id : string;
  origin : ReflectionOrigin.t;
  now_ns : N;
}.
End ReflectionMemoryDegradedLesson.

Module InferenceProxyRuntimeMetrics.
Record t := mk {
  submit_accepted : N;
  submit_failed : N;
  callback_accepted : N;
  callback_rejected : N;
  callback_duplicates : N;
  callback_auth_failures : N;
  resumed_callbacks : N;
  expired_jobs : N;
}.
#[global] Instance eta_t : Eta t := fun self =>
  mk (submit_accepted self) (submit_failed self) (callback_accepted self)
    (callback_rejected self) (callback_duplicates self) (callback_auth_failures self)
    (resumed_callbacks self) (expired_jobs self).
Definition default : t := mk 0 0 0 0 0 0 0 0.
End InferenceProxyRuntimeMetrics.

(** ** [agent.rs] and [tools.rs] *)

(** [ToolSequenceValidator] of [sanitize.rs] is its one field. *)
Module ToolSequenceValidator.
Record t := mk { last_untrusted_source : option string }.
Definition new : t := mk None.
End ToolSequenceValidator.

Module ToolPolicy.
Record t := mk {
  enabled : bool;
  allowed_states : list AgentState.t;
}.
End ToolPolicy.

Module ReserveShortfall.
Record t := mk {
  resource_label : string;
  unit_label : string;
  actual_display : string;
  minimum_display : string;
}.
End ReserveShortfall.

Module AutonomyRuntimeConstraint.
Record t := mk {
  machine_reason : string;
  tool_scope : InferenceToolScope.t;
  coordination_actions_allowed : bool;
  shortfalls : list ReserveShortfall.t;
}.
End AutonomyRuntimeConstraint.

Module AutonomyExplorationState.
Record t := mk {
  active : bool;
  quiet_noop_streak : nat;
}.
Definition default : t := mk false 0.
End AutonomyExplorationState.

Module AutonomySuppressionReason.
Inductive t :=
| Dedupe (age_secs : N)
| FailureCooldown (remaining_secs : N) (normalized_error : string) (repeat_count : N)
| ConsecutiveDegradeCap (consecutive_degrade_count : N) (error_class : string).
End AutonomySuppressionReason.

Module SuppressedAutonomyToolCall.
Record t := mk {
  index : nat;
  call : ToolCall.t;
  reason : AutonomySuppressionReason.t;
}.
End SuppressedAutonomyToolCall.

Module PlannedToolCallExecution.
Inductive t :=
| Execute
| DedupeSuppressed (age_secs : N)
| FailureCooldownSuppressed (remaining_secs : N) (normalized_error : string) (repeat_count : N)
| ConsecutiveDegradeCapSuppressed (consecutive_degrade_count : N) (error_class : string)
| SequenceBlocked (reason : string)
| RuntimeRestricted (reason : string).
End PlannedToolCallExecution.

Module ConsecutiveDegradeCapState.
Record t := mk {
  consecutive_degrade_count : N;
  error_class : string;
}.
End ConsecutiveDegradeCapState.
