(* ===== verification/TurnStore.v ===== *)
(** * TurnStore: the automaton's inbox, journal, decisions and tool history

    Models the part of [components/ic-automaton/src/storage] that a turn reads
    and writes: of [sqlite.rs] the tables of transitions, turns, tool calls,
    inbox and outbox, conversations, journal, decisions, reflections and tool
    failures; of [stable.rs] the facade over them, the suppression of
    inference, and the inference proxy's jobs, callbacks and wait states, which
    are scalars of the database holding JSON, as are the counts of web searches.
    Statements are taken to succeed and a row or scalar to read back as it was
    written.  Log output is left out, and so are counts that no caller reads. *)

From S2P Require Import Prelude Text SpawnProtocol Types Externals AgentTypes AgentDomain TopUp AgentStore StrategyTypes StrategyStore TurnTypes.

(** The tables of a turn; [book] holds those of the strategies and the hot
    state. *)
Module Desk.
Record t := mk {
  book : Book.t;
  transitions : gmap string TransitionLogRecord.t;
  turns : gmap string TurnRecord.t;
  tool_calls : gmap string (list ToolCallRecord.t);
  inbox : gmap string InboxMessage.t;
  outbox : gmap string OutboxMessage.t;
  conversations : gmap string (list ConversationEntry.t);
  journal : gmap N JournalEntry.t;
  decision_records : gmap string DecisionRecord.t;
  reflection_memory : gmap string ReflectionMemoryRecord.t;
  autonomy_tool_failures : gmap string AutonomyToolFailureTracker.t;
  pending_inference_proxy_jobs : gmap string PendingInferenceProxyJob.t;
  inbox_proxy_wait_states : gmap string InboxProxyWaitState.t;
  inference_proxy_callback_results : gmap string InferenceProxyCallbackRecord.t;
  completed_inference_proxy_callback_jobs : gmap string N;
  inference_proxy_metrics : InferenceProxyRuntimeMetrics.t;
  search_turn_usage : list (string * N);
}.
#[global] Instance eta_t : Eta t := fun self =>
  mk (book self) (transitions self) (turns self) (tool_calls self) (inbox self) (outbox self)
    (conversations self) (journal self) (decision_records self) (reflection_memory self)
    (autonomy_tool_failures self) (pending_inference_proxy_jobs self)
    (inbox_proxy_wait_states self) (inference_proxy_callback_results self)
    (completed_inference_proxy_callback_jobs self) (inference_proxy_metrics self)
    (search_turn_usage self).
End Desk.

Definition T : Type -> Type := M Desk.t string.

(** What the hot state says, and a change of it alone. *)
Definition agent (s : Desk.t) : Agent.t := Book.agent (Desk.book s).
Definition on_agent (f : Agent.t -> Agent.t) (s : Desk.t) : Desk.t :=
  s <| Desk.book ::= fun book => book <| Book.agent ::= f |> |>.
Definition now (s : Desk.t) : N := Agent.clock (agent s).
Definition snapshot_of (s : Desk.t) : RuntimeSnapshot.t := runtime_snapshot (agent s).

(** [format!("{n:020}")]. *)
Definition zero_padded (width : nat) (n : N) : string :=
  let digits := pretty n in
  concat_str (replicate (width - String.length digits) "0") +:+ digits.

(** [chars().take(n).collect()]. *)
Definition take_chars (n : N) (value : string) : string :=
  concat_str (take (N.to_nat n) (chars value)).

Definition truncate_to_chars (value : string) (max_chars : N) : string :=
  if (char_count value <=? max_chars)%N then value else take_chars max_chars value.

(** ** Scalars of the database *)

Definition runtime_u64 (key : string) (s : Desk.t) : option N :=
  raw ← get_runtime_scalar key (agent s); parse_uint 64 raw.
Definition save_runtime_u64 (key : string) (value : N) (s : Desk.t) : Desk.t :=
  on_agent (set_runtime_scalar key (pretty value)) s.

Definition runtime_bool (key : string) (s : Desk.t) : option bool :=
  raw ← get_runtime_scalar key (agent s);
  Some (bool_decide (raw = "true") || bool_decide (raw = "1")).
Definition save_runtime_bool (key : string) (value : bool) (s : Desk.t) : Desk.t :=
  on_agent (set_runtime_scalar key (if value then "true" else "false")) s.

Definition INBOX_SEQ_KEY : string := "inbox.seq".
Definition OUTBOX_SEQ_KEY : string := "outbox.seq".

Definition next_inbox_seq (s : Desk.t) : N * Desk.t :=
  let next := saturating_add 64 (default 0%N (runtime_u64 INBOX_SEQ_KEY s)) 1 in
  (next, save_runtime_u64 INBOX_SEQ_KEY next s).
Definition next_outbox_seq (s : Desk.t) : N * Desk.t :=
  let next := saturating_add 64 (default 0%N (runtime_u64 OUTBOX_SEQ_KEY s)) 1 in
  (next, save_runtime_u64 OUTBOX_SEQ_KEY next s).

Definition evm_ingest_dedupe_key (tx_hash : string) (log_index : N) : string :=
  "evm.ingest:" +:+ tx_hash +:+ ":" +:+ pretty log_index.

Definition try_mark_evm_event_ingested (tx_hash : string) (log_index : N) (s : Desk.t)
    : bool * Desk.t :=
  let key := evm_ingest_dedupe_key tx_hash log_index in
  if is_some (runtime_bool key s) then (false, s) else (true, save_runtime_bool key true s).

(** ** The budget of web searches

    A turn's count is kept with those of the last turns. *)

Definition SEARCH_API_KEY_KEY : string := "search.api_key".
Definition SEARCH_MAX_PER_TURN_KEY : string := "search.max_per_turn".
Definition DEFAULT_SEARCH_MAX_PER_TURN : N := 3.
Definition MAX_SEARCH_TURN_USAGE_ENTRIES : nat := 128.

Definition get_search_api_key (s : Desk.t) : option string :=
  get_runtime_scalar SEARCH_API_KEY_KEY (agent s).
Definition web_search_runtime_enabled (s : Desk.t) : bool := is_some (get_search_api_key s).

Definition get_search_max_per_turn (s : Desk.t) : N :=
  match get_runtime_scalar SEARCH_MAX_PER_TURN_KEY (agent s) ≫= parse_uint 8 with
  | Some value => if (0 <? value)%N then value else DEFAULT_SEARCH_MAX_PER_TURN
  | None => DEFAULT_SEARCH_MAX_PER_TURN
  end.

Definition search_count (turn_id : string) (turn_usage : list (string * N)) : option N :=
  snd <$> find (fun entry => bool_decide (entry.1 = turn_id)) turn_usage.

(** [iter_mut().find(..)]: the first entry of the turn grows. *)
Fixpoint count_search (turn_id : string) (turn_usage : list (string * N)) : list (string * N) :=
  match turn_usage with
  | [] => []
  | entry :: turn_usage =>
      if bool_decide (entry.1 = turn_id)
      then (entry.1, saturating_add 8 entry.2 1) :: turn_usage
      else entry :: count_search turn_id turn_usage
  end.

Definition reserve_web_search_budget (turn_id : string) : T unit :=
  let turn_id := trim turn_id in
  fail_if (is_empty turn_id) "web_search budget requires a non-empty turn id";;
  s ← get_state;
  let turn_usage := Desk.search_turn_usage s in
  fail_if (get_search_max_per_turn s <=? default 0 (search_count turn_id turn_usage))%N
    "web_search budget exceeded for this turn";;
  put_state (s <| Desk.search_turn_usage :=
    if is_some (search_count turn_id turn_usage) then count_search turn_id turn_usage
    else
      let turn_usage := turn_usage ++ [(turn_id, 1%N)] in
      drop (length turn_usage - MAX_SEARCH_TURN_USAGE_ENTRIES) turn_usage |>).

(** ** Truncated fields *)

Section TextFields.
Context `{ext : Externals}.

Definition truncate_text_field (value : string) (max_chars : N) : string :=
  let total_chars := char_count value in
  if (total_chars <=? max_chars)%N then value
  else if (max_chars =? 0)%N then ""
  else
    let truncated := saturating_sub total_chars max_chars in
    let digest_hex := hex_encode (keccak256 (as_bytes value)) in
    let marker := "...[truncated " +:+ pretty truncated +:+ " chars keccak:"
      +:+ take_chars 16 digest_hex +:+ "]" in
    let marker_len := char_count marker in
    if (max_chars <=? marker_len)%N then take_chars max_chars marker
    else
      let keep_chars := saturating_sub max_chars marker_len in
      let prefix_chars := (keep_chars / 2)%N in
      let suffix_chars := saturating_sub keep_chars prefix_chars in
      take_chars prefix_chars value +:+ marker
      +:+ concat_str (rev (take (N.to_nat suffix_chars) (rev (chars value)))).
End TextFields.

(** ** Inbox and outbox *)

Definition MAX_INBOX_BODY_CHARS : N := 4096.

Definition upsert_inbox (message : InboxMessage.t) (s : Desk.t) : Desk.t :=
  s <| Desk.inbox ::= <[InboxMessage.id message := message]> |>.

(** [ORDER BY seq ASC]. *)
Definition posted_before (message message' : InboxMessage.t) : bool :=
  (as_i64 (InboxMessage.seq message) <=? as_i64 (InboxMessage.seq message'))%Z.

Definition inbox_rows (status : InboxMessageStatus.t) (s : Desk.t) : list InboxMessage.t :=
  filter (fun message => InboxMessage.status message = status) (map_to_list (Desk.inbox s)).*2.

Section Inbox.
Context `{ext : Externals, rows : RowOrder}.

Definition normalize_inbox_body (raw_body : string) : result string string :=
  let trimmed := trim raw_body in
  err_if (is_empty trimmed) "message cannot be empty";;
  Ok (truncate_text_field trimmed MAX_INBOX_BODY_CHARS).

Definition post_inbox_message_with_source (body caller : string) (source : InboxMessageSource.t)
    : T string :=
  bounded_body ← lift (normalize_inbox_body body);
  s ← get_state;
  let '(seq, s) := next_inbox_seq s in
  let id := "inbox:" +:+ zero_padded 20 seq in
  put_state (upsert_inbox (InboxMessage.mk id seq bounded_body (now s) caller source
                             InboxMessageStatus.Pending None None) s);;
  mret id.

Definition post_inbox_message (body caller : string) : T string :=
  post_inbox_message_with_source body caller InboxMessageSource.EvmInbox.

Definition list_pending_inbox (limit : N) (s : Desk.t) : list InboxMessage.t :=
  limit_rows (bounded_limit limit 25 200)
    (order_rows posted_before (inbox_rows InboxMessageStatus.Pending s)).
Definition list_staged_inbox (limit : N) (s : Desk.t) : list InboxMessage.t :=
  limit_rows (bounded_limit limit 25 200)
    (order_rows posted_before (inbox_rows InboxMessageStatus.Staged s)).

Definition stage (now_ns : N) (message : InboxMessage.t) : InboxMessage.t :=
  message <| InboxMessage.status := InboxMessageStatus.Staged |>
          <| InboxMessage.staged_at_ns := Some now_ns |>.

Definition stage_pending_inbox_messages (batch_size now_ns : N) (s : Desk.t) : N * Desk.t :=
  if (batch_size =? 0)%N then (0%N, s)
  else
    let pending := filter (fun message =>
        InboxMessage.status message = InboxMessageStatus.Pending) (list_pending_inbox batch_size s) in
    (N.of_nat (length pending),
     foldl (fun s message => upsert_inbox (stage now_ns message) s) s pending).

Definition list_staged_inbox_messages (batch_size : N) (s : Desk.t) : list InboxMessage.t :=
  if (batch_size =? 0)%N then [] else list_staged_inbox batch_size s.
End Inbox.

Definition consume (now_ns : N) (message : InboxMessage.t) : InboxMessage.t :=
  message <| InboxMessage.status := InboxMessageStatus.Consumed |>
          <| InboxMessage.consumed_at_ns := Some now_ns |>.

Definition consume_one (now_ns : N) (s : Desk.t) (id : string) : Desk.t :=
  match Desk.inbox s !! id with
  | None => s
  | Some message =>
      if bool_decide (InboxMessage.status message = InboxMessageStatus.Staged)
      then upsert_inbox (consume now_ns message) s
      else s
  end.

Definition consume_staged_inbox_messages (ids : list string) (now_ns : N) (s : Desk.t) : Desk.t :=
  foldl (consume_one now_ns) s ids.

Definition post_outbox_message (turn_id body : string) (source_inbox_ids : list string)
    : T string :=
  let trimmed := trim body in
  fail_if (is_empty trimmed) "outbox message cannot be empty";;
  s ← get_state;
  let '(seq, s) := next_outbox_seq s in
  let id := "outbox:" +:+ zero_padded 20 seq in
  let message := OutboxMessage.mk id seq turn_id trimmed (now s) source_inbox_ids in
  put_state (s <| Desk.outbox ::= <[OutboxMessage.id message := message]> |>);;
  mret id.

(** ** Conversations *)

Definition MAX_CONVERSATION_BODY_CHARS : N := 500.
Definition MAX_CONVERSATION_REPLY_CHARS : N := 500.

Definition normalize_conversation_sender (raw : string) : string := to_ascii_lowercase (trim raw).

(** The rows of a sender in the order of [entry_seq]. *)
Definition append_conversation (sender : string) (entry : ConversationEntry.t) (s : Desk.t)
    : Desk.t :=
  let normalized := trim sender in
  if is_empty normalized then s
  else s <| Desk.conversations ::= fun conversations =>
         <[normalized := default [] (conversations !! normalized) ++ [entry]]> conversations |>.

Definition append_conversation_entry (sender : string) (entry : ConversationEntry.t) (s : Desk.t)
    : Desk.t :=
  let sender_key := normalize_conversation_sender sender in
  if is_empty sender_key then s
  else
    append_conversation sender_key
      (entry <| ConversationEntry.sender_body ::=
                  fun body => truncate_to_chars body MAX_CONVERSATION_BODY_CHARS |>
             <| ConversationEntry.agent_reply ::=
                  fun reply => truncate_to_chars reply MAX_CONVERSATION_REPLY_CHARS |>) s.

(** ** Journal *)

Definition MAX_JOURNAL_ENTRIES : N := 200.
Definition MAX_JOURNAL_ENTRY_CHARS : N := 2000.

(** The rows by descending id, which no two share. *)
Definition journal_rows (s : Desk.t) : list JournalEntry.t := rev (btree_values (Desk.journal s)).

Definition list_recent_journal_entries (limit : N) (s : Desk.t) : list JournalEntry.t :=
  if (limit =? 0)%N then []
  else limit_rows (bounded_limit (N.min limit MAX_JOURNAL_ENTRIES) 25 200) (journal_rows s).

Definition next_journal_id (s : Desk.t) : N :=
  (match journal_rows s with [] => 0 | entry :: _ => JournalEntry.id entry end + 1)%N.

Section Journal.
Context `{libs : StrategyLibs}.

Definition is_decision_text (text : string) : bool :=
  match value_from_str text with
  | Ok value =>
      match Value.as_object value with
      | Some object => is_some (object !! "trigger") && is_some (object !! "outcome")
      | None => false
      end
  | Err _ => false
  end.

(** [sqlite::append_journal_entry]: the entry is added and all but the newest
    are deleted. *)
Definition store_journal_entry (turn_id text : string) (timestamp_ns : N) (genesis : bool)
    (deal_claim : option JournalDealClaim.t) (keep_max : N) : T JournalEntry.t :=
  s ← get_state;
  let entry := JournalEntry.mk (next_journal_id s) turn_id timestamp_ns text genesis deal_claim in
  let s := s <| Desk.journal ::= <[JournalEntry.id entry := entry]> |> in
  let kept := limit_rows keep_max (journal_rows s) in
  put_state (s <| Desk.journal := list_to_map ((fun entry => (JournalEntry.id entry, entry)) <$> kept) |>);;
  mret entry.

Definition append_journal_entry_with_claim (turn_id text : string) (genesis : bool)
    (deal_claim : option JournalDealClaim.t) : T JournalEntry.t :=
  let text := trim text in
  fail_if (is_empty text) "journal text cannot be empty";;
  fail_if (MAX_JOURNAL_ENTRY_CHARS <? char_count text)%N
    ("journal text exceeds " +:+ pretty MAX_JOURNAL_ENTRY_CHARS +:+ " characters");;
  fail_if (is_decision_text text) "journal text cannot contain a decision envelope";;
  let turn_id := trim turn_id in
  fail_if (is_empty turn_id) "journal turn_id cannot be empty";;
  now_ns ← gets now;
  store_journal_entry turn_id text now_ns genesis deal_claim MAX_JOURNAL_ENTRIES.

Definition append_journal_entry (turn_id text : string) (genesis : bool) : T JournalEntry.t :=
  append_journal_entry_with_claim turn_id text genesis None.

Definition append_journal_deal_claim (turn_id text : string) (claim : JournalDealClaim.t)
    : T JournalEntry.t :=
  append_journal_entry_with_claim turn_id text false (Some claim).
End Journal.

(** ** Decisions *)

Definition MAX_DECISION_RECORDS : N := 200.

Definition validate_decision_record (record : DecisionRecord.t) : result string unit :=
  err_if (is_blank (DecisionRecord.turn_id record)) "decision record turn_id must be non-empty".

(** [timestamp_ns ASC, turn_id ASC]. *)
Definition decided_before (record record' : DecisionRecord.t) : bool :=
  let time := as_i64 (DecisionRecord.timestamp_ns record) in
  let time' := as_i64 (DecisionRecord.timestamp_ns record') in
  (time <? time')%Z
  || (time =? time')%Z
     && bool_decide (String.le (DecisionRecord.turn_id record) (DecisionRecord.turn_id record')).

Section Decisions.
Context `{rows : RowOrder}.

Definition store_decision_record (record : DecisionRecord.t) (keep_max : N) (s : Desk.t) : Desk.t :=
  let s := s <| Desk.decision_records ::= <[DecisionRecord.turn_id record := record]> |> in
  let total := N.of_nat (size (Desk.decision_records s)) in
  if (keep_max <? total)%N then
    let oldest := limit_rows (total - keep_max)
      (order_rows decided_before (map_to_list (Desk.decision_records s)).*2) in
    s <| Desk.decision_records ::= fun records =>
         foldl (fun records record => delete (DecisionRecord.turn_id record) records) records oldest |>
  else s.

Definition append_decision_record (record : DecisionRecord.t) : T DecisionRecord.t :=
  lift (validate_decision_record record);;
  modify (store_decision_record record MAX_DECISION_RECORDS);;
  mret record.

Definition list_recent_decisions (limit : N) (s : Desk.t) : list DecisionRecord.t :=
  if (limit =? 0)%N then []
  else limit_rows (bounded_limit (N.min limit MAX_DECISION_RECORDS) 25 200)
         (order_rows (fun record record' => decided_before record' record)
            (map_to_list (Desk.decision_records s)).*2).
End Decisions.

(** ** Reflections *)

Definition MAX_REFLECTION_MEMORY_RECORDS : N := 64.
Definition REFLECTION_MEMORY_MAX_AGE_SECS : N := 7 * 24 * 60 * 60.
Definition MAX_REFLECTION_MEMORY_LINE_CHARS : N := 160.

Definition reflection_memory_key (tool subject error_class : string) : string :=
  tool +:+ ":" +:+ subject +:+ ":" +:+ error_class.

Definition normalize_reflection_memory_value (value : string) : string :=
  truncate_to_chars (trim value) MAX_REFLECTION_MEMORY_LINE_CHARS.

Definition upsert_reflection_memory (record : ReflectionMemoryRecord.t) (s : Desk.t) : Desk.t :=
  s <| Desk.reflection_memory ::= <[ReflectionMemoryRecord.key record := record]> |>.

Definition reflection_rows (s : Desk.t) : list ReflectionMemoryRecord.t :=
  (map_to_list (Desk.reflection_memory s)).*2.

Definition forget_reflections (records : list ReflectionMemoryRecord.t) (s : Desk.t) : Desk.t :=
  s <| Desk.reflection_memory ::= fun stored =>
    foldl (fun stored record => delete (ReflectionMemoryRecord.key record) stored) stored records |>.

(** [updated_at_ns DESC, key ASC] and [updated_at_ns ASC, key ASC]. *)
Definition reflected_after (record record' : ReflectionMemoryRecord.t) : bool :=
  let time := as_i64 (ReflectionMemoryRecord.updated_at_ns record) in
  let time' := as_i64 (ReflectionMemoryRecord.updated_at_ns record') in
  (time' <? time)%Z
  || (time =? time')%Z
     && bool_decide (String.le (ReflectionMemoryRecord.key record) (ReflectionMemoryRecord.key record')).
Definition reflected_before (record record' : ReflectionMemoryRecord.t) : bool :=
  let time := as_i64 (ReflectionMemoryRecord.updated_at_ns record) in
  let time' := as_i64 (ReflectionMemoryRecord.updated_at_ns record') in
  (time <? time')%Z
  || (time =? time')%Z
     && bool_decide (String.le (ReflectionMemoryRecord.key record) (ReflectionMemoryRecord.key record')).

Section Reflections.
Context `{rows : RowOrder}.

(** [sqlite::list_reflection_memory]. *)
Definition stored_reflections (limit : N) (s : Desk.t) : list ReflectionMemoryRecord.t :=
  limit_rows (bounded_limit limit 64 512) (order_rows reflected_after (reflection_rows s)).

(** [sqlite::prune_reflection_memory] and [delete_oldest_reflection_memory]. *)
Definition delete_stale_reflections (updated_before_ns limit : N) (s : Desk.t) : Desk.t :=
  if (limit =? 0)%N then s
  else
    let stale := filter (fun record =>
        (as_i64 (ReflectionMemoryRecord.updated_at_ns record) < as_i64 updated_before_ns)%Z)
      (reflection_rows s) in
    forget_reflections (limit_rows limit (order_rows reflected_before stale)) s.
Definition delete_oldest_reflection_memory (keep_max : N) (s : Desk.t) : Desk.t :=
  if (keep_max =? 0)%N then s <| Desk.reflection_memory := ∅ |>
  else forget_reflections
         (drop (N.to_nat keep_max) (order_rows reflected_after (reflection_rows s))) s.

Definition prune_reflection_memory (now_ns : N) (s : Desk.t) : Desk.t :=
  let cutoff_ns := saturating_sub now_ns (secs_to_ns REFLECTION_MEMORY_MAX_AGE_SECS) in
  delete_oldest_reflection_memory MAX_REFLECTION_MEMORY_RECORDS
    (delete_stale_reflections cutoff_ns MAX_REFLECTION_MEMORY_RECORDS s).

Definition upsert_reflection_memory_degraded_lesson (lesson : ReflectionMemoryDegradedLesson.t)
    : T ReflectionMemoryRecord.t :=
  let tool := trim (ReflectionMemoryDegradedLesson.tool lesson) in
  let subject := trim (ReflectionMemoryDegradedLesson.subject lesson) in
  let error_class := trim (ReflectionMemoryDegradedLesson.error_class lesson) in
  let turn_id := trim (ReflectionMemoryDegradedLesson.turn_id lesson) in
  let what_failed :=
    normalize_reflection_memory_value (ReflectionMemoryDegradedLesson.what_failed lesson) in
  fail_if (is_empty tool || is_empty subject || is_empty error_class || is_empty turn_id)
    "reflection memory fields cannot be empty";;
  fail_if (is_empty what_failed) "reflection memory what_failed cannot be empty";;
  let key := reflection_memory_key tool subject error_class in
  existing ← gets (fun s => Desk.reflection_memory s !! key);
  let degraded_turn_count :=
    match existing with
    | Some record => saturating_add 32 (ReflectionMemoryRecord.degraded_turn_count record) 1
    | None => 1%N
    end in
  let repeat_count :=
    match ReflectionMemoryDegradedLesson.latest_repeat_count lesson with
    | Some count => N.max count 1
    | None =>
        match existing with
        | Some record => N.max (saturating_add 32 (ReflectionMemoryRecord.repeat_count record) 1) 1
        | None => 1%N
        end
    end in
  let now_ns := ReflectionMemoryDegradedLesson.now_ns lesson in
  let record := {|
    ReflectionMemoryRecord.key := key;
    ReflectionMemoryRecord.tool := tool;
    ReflectionMemoryRecord.subject := subject;
    ReflectionMemoryRecord.error_class := error_class;
    ReflectionMemoryRecord.what_failed := what_failed;
    ReflectionMemoryRecord.what_worked := existing ≫= ReflectionMemoryRecord.what_worked;
    ReflectionMemoryRecord.degraded_turn_count := degraded_turn_count;
    ReflectionMemoryRecord.repeat_count := repeat_count;
    ReflectionMemoryRecord.last_failed_at_ns := now_ns;
    ReflectionMemoryRecord.last_failed_turn_id := turn_id;
    ReflectionMemoryRecord.last_worked_at_ns := existing ≫= ReflectionMemoryRecord.last_worked_at_ns;
    ReflectionMemoryRecord.last_worked_turn_id :=
      existing ≫= ReflectionMemoryRecord.last_worked_turn_id;
    ReflectionMemoryRecord.last_origin := ReflectionMemoryDegradedLesson.origin lesson;
    ReflectionMemoryRecord.updated_at_ns := now_ns |} in
  modify (upsert_reflection_memory record);;
  modify (prune_reflection_memory now_ns);;
  mret record.

Definition worked (what_worked turn_id : string) (now_ns : N) (record : ReflectionMemoryRecord.t)
    : ReflectionMemoryRecord.t :=
  record <| ReflectionMemoryRecord.what_worked := Some what_worked |>
         <| ReflectionMemoryRecord.last_worked_at_ns := Some now_ns |>
         <| ReflectionMemoryRecord.last_worked_turn_id := Some turn_id |>
         <| ReflectionMemoryRecord.updated_at_ns := now_ns |>.

Definition update_reflection_memory_what_worked (tool subject what_worked turn_id : string)
    (now_ns : N) (s : Desk.t) : Desk.t :=
  let tool := trim tool in
  let subject := trim subject in
  let turn_id := trim turn_id in
  let what_worked := normalize_reflection_memory_value what_worked in
  if is_empty tool || is_empty subject || is_empty turn_id || is_empty what_worked then s
  else
    let matching := filter (fun record => ReflectionMemoryRecord.tool record = tool
                                          /\ ReflectionMemoryRecord.subject record = subject)
      (stored_reflections MAX_REFLECTION_MEMORY_RECORDS s) in
    let s' := foldl (fun s record =>
        upsert_reflection_memory (worked what_worked turn_id now_ns record) s) s matching in
    if bool_decide (matching = []) then s' else prune_reflection_memory now_ns s'.
End Reflections.

(** ** Transitions and turns *)

Definition MAX_TURN_INNER_DIALOGUE_CHARS : N := 12000.
Definition MAX_TOOL_ARGS_JSON_CHARS : N := 4000.
Definition MAX_TOOL_OUTPUT_CHARS : N := 8000.

Definition record_transition (debug_str : string -> string) (turn_id : string)
    (from to : AgentState.t) (event : AgentEvent.t) (error : option string) (s : Desk.t) : Desk.t :=
  let snapshot := snapshot_of s in
  let transition_seq := saturating_add 64 (RuntimeSnapshot.transition_seq snapshot) 1 in
  let event_seq := saturating_add 64 (RuntimeSnapshot.event_seq snapshot) 1 in
  let record := TransitionLogRecord.mk
    (zero_padded 20 transition_seq +:+ "-" +:+ zero_padded 20 event_seq) turn_id from to
    (event_debug debug_str event) error (now s) in
  let s := s <| Desk.transitions ::= <[TransitionLogRecord.id record := record]> |> in
  on_agent (save_runtime_snapshot
    (snapshot <| RuntimeSnapshot.transition_seq := transition_seq |>
              <| RuntimeSnapshot.event_seq := event_seq |>
              <| RuntimeSnapshot.last_transition_at_ns := now s |>)) s.

Section TurnRecords.
Context `{ext : Externals}.

Definition bounded_tool_record (record : ToolCallRecord.t) : ToolCallRecord.t :=
  record <| ToolCallRecord.args_json ::=
              fun args => truncate_text_field args MAX_TOOL_ARGS_JSON_CHARS |>
         <| ToolCallRecord.output ::=
              fun output => truncate_text_field output MAX_TOOL_OUTPUT_CHARS |>.

Definition set_tool_records (turn_id : string) (tool_calls : list ToolCallRecord.t) (s : Desk.t)
    : Desk.t :=
  let turn := trim turn_id in
  if is_empty turn then s
  else s <| Desk.tool_calls ::= <[turn := bounded_tool_record <$> tool_calls]> |>.

Definition append_turn_record (record : TurnRecord.t) (tool_calls : list ToolCallRecord.t)
    (s : Desk.t) : Desk.t :=
  let bounded_record := record <| TurnRecord.inner_dialogue ::=
    fmap (fun dialogue => truncate_text_field dialogue MAX_TURN_INNER_DIALOGUE_CHARS) |> in
  set_tool_records (TurnRecord.id bounded_record) tool_calls
    (s <| Desk.turns ::= <[TurnRecord.id bounded_record := bounded_record]> |>).
End TurnRecords.

Definition record_turn_duration (started_at_ns finished_at_ns max_turn_duration_ns : N)
    (s : Desk.t) : Desk.t :=
  let duration_ns := saturating_sub finished_at_ns started_at_ns in
  let duration_ms := (duration_ns / 1000000)%N in
  on_agent (update_snapshot (fun snapshot =>
    snapshot <| RuntimeSnapshot.timing_telemetry ::= fun telemetry =>
      telemetry <| RuntimeTimingTelemetry.last_turn_duration_ms := Some duration_ms |>
                <| RuntimeTimingTelemetry.max_turn_duration_ms ::= fun longest =>
                     N.max longest duration_ms |>
                <| RuntimeTimingTelemetry.turns_over_budget ::= fun count =>
                     if (max_turn_duration_ns <=? duration_ns)%N then saturating_add 64 count 1
                     else count |> |>)) s.

Definition set_last_error (error : option string) (s : Desk.t) : Desk.t :=
  on_agent (update_snapshot (fun snapshot =>
    snapshot <| RuntimeSnapshot.last_error := error |>)) s.

Definition MAX_TIMING_ERROR_CHARS : N := 512.

Definition record_room_post_success (now_ns : N) (s : Desk.t) : Desk.t :=
  on_agent (update_snapshot (fun snapshot =>
    snapshot <| RuntimeSnapshot.room_poll ::= fun room_poll =>
      room_poll <| RoomPollingState.last_post_attempted_at_ns := Some now_ns |>
                <| RoomPollingState.last_post_succeeded_at_ns := Some now_ns |>
                <| RoomPollingState.last_post_error := None |> |>)) s.
Definition record_room_post_error `{ext : Externals} (now_ns : N) (error : string) (s : Desk.t)
    : Desk.t :=
  on_agent (update_snapshot (fun snapshot =>
    snapshot <| RuntimeSnapshot.room_poll ::= fun room_poll =>
      room_poll <| RoomPollingState.last_post_attempted_at_ns := Some now_ns |>
                <| RoomPollingState.last_post_error :=
                     Some (truncate_text_field error MAX_TIMING_ERROR_CHARS) |> |>)) s.

(** ** Suppressed inference *)

Definition AUTONOMY_INFERENCE_PROVIDER_REJECTION_THRESHOLD : N := 3.
Definition AUTONOMY_INFERENCE_PROVIDER_REJECTION_COOLDOWN_SECS : N := 60 * 60.

Definition set_inference_suppression (state : AutonomyInferenceSuppressionState.t) (at_ns : N)
    (s : Desk.t) : Desk.t :=
  on_agent (update_snapshot (fun snapshot =>
    snapshot <| RuntimeSnapshot.autonomy_inference_suppression := state |>
             <| RuntimeSnapshot.last_transition_at_ns := at_ns |>)) s.

Definition autonomy_inference_suppression_active (now_ns : N) (s : Desk.t)
    : option AutonomyInferenceSuppressionState.t * Desk.t :=
  let state := RuntimeSnapshot.autonomy_inference_suppression (snapshot_of s) in
  match AutonomyInferenceSuppressionState.suppression_until_ns state with
  | None => (None, s)
  | Some until_ns =>
      if (now_ns <? until_ns)%N then (Some state, s)
      else (None, set_inference_suppression AutonomyInferenceSuppressionState.default now_ns s)
  end.

Definition clear_autonomy_inference_suppression_state (s : Desk.t) : Desk.t :=
  if bool_decide (RuntimeSnapshot.autonomy_inference_suppression (snapshot_of s)
                  = AutonomyInferenceSuppressionState.default)
  then s
  else set_inference_suppression AutonomyInferenceSuppressionState.default (now s) s.

Definition next_inference_suppression (failed_at_ns : N)
    (classification : AutonomyInferenceSuppressionClassification.t)
    (state : AutonomyInferenceSuppressionState.t) : AutonomyInferenceSuppressionState.t :=
  let consecutive_failure_count :=
    if bool_decide (AutonomyInferenceSuppressionState.last_failure_classification state
                    = Some classification)
    then saturating_add 32 (AutonomyInferenceSuppressionState.consecutive_failure_count state) 1
    else 1%N in
  AutonomyInferenceSuppressionState.mk consecutive_failure_count (Some classification)
    (if (AUTONOMY_INFERENCE_PROVIDER_REJECTION_THRESHOLD <=? consecutive_failure_count)%N
     then Some (saturating_add 64 failed_at_ns
                  (secs_to_ns AUTONOMY_INFERENCE_PROVIDER_REJECTION_COOLDOWN_SECS))
     else None).

Definition record_autonomy_inference_suppression_failure (failed_at_ns : N)
    (classification : AutonomyInferenceSuppressionClassification.t) (s : Desk.t)
    : AutonomyInferenceSuppressionState.t * Desk.t :=
  let updated := next_inference_suppression failed_at_ns classification
    (RuntimeSnapshot.autonomy_inference_suppression (snapshot_of s)) in
  (updated, set_inference_suppression updated failed_at_ns s).

(** ** Failing tools *)

Definition AUTONOMY_TOOL_SUCCESS_KEY_PREFIX : string := "autonomy.tool_success.".
Definition AUTONOMY_TOOL_FAILURE_KEY_PREFIX : string := "autonomy.tool_failure.".
Definition AUTONOMY_TOOL_FAILURE_CLASS_KEY_PREFIX : string := "autonomy.tool_failure_class.".

Definition autonomy_tool_last_success_ns (fingerprint : string) (s : Desk.t) : option N :=
  runtime_u64 (AUTONOMY_TOOL_SUCCESS_KEY_PREFIX +:+ fingerprint) s.
Definition record_autonomy_tool_success (fingerprint : string) (succeeded_at_ns : N) (s : Desk.t)
    : Desk.t :=
  save_runtime_u64 (AUTONOMY_TOOL_SUCCESS_KEY_PREFIX +:+ fingerprint) succeeded_at_ns s.

(** [char::is_ascii_alphanumeric]; a character of more than one byte is not. *)
Definition ascii_alphanumeric (c : string) : bool :=
  match c with
  | String a "" =>
      let n := byte_of a in
      ((48 <=? n) && (n <=? 57) || (65 <=? n) && (n <=? 90) || (97 <=? n) && (n <=? 122))%N
  | _ => false
  end.

(** [trim_matches('_')]. *)
Definition trim_underscores (value : list string) : string :=
  concat_str (trim_list (fun c => bool_decide (c = "_")) value).

Definition normalize_autonomy_failure_key_segment (raw : string) : string :=
  let trimmed := trim_underscores ((fun c =>
      if ascii_alphanumeric c then to_ascii_lowercase c else "_") <$> take 96 (chars raw)) in
  if is_empty trimmed then "unknown" else trimmed.

Definition autonomy_tool_failure_key (fingerprint : string) : string :=
  AUTONOMY_TOOL_FAILURE_KEY_PREFIX +:+ fingerprint.
Definition autonomy_tool_failure_class_scope_prefix (tool args_scope_fingerprint : string)
    : string :=
  AUTONOMY_TOOL_FAILURE_CLASS_KEY_PREFIX +:+ normalize_autonomy_failure_key_segment tool +:+ "."
  +:+ normalize_autonomy_failure_key_segment args_scope_fingerprint +:+ ".".
Definition autonomy_tool_failure_class_scope_key
    (tool args_scope_fingerprint normalized_error_class : string) : string :=
  autonomy_tool_failure_class_scope_prefix tool args_scope_fingerprint
  +:+ normalize_autonomy_failure_key_segment normalized_error_class.

(** [ORDER BY tool_name ASC LIMIT 500]. *)
Definition list_autonomy_tool_failures (s : Desk.t)
    : list (string * AutonomyToolFailureTracker.t) :=
  limit_rows 500 (btree_iter (Desk.autonomy_tool_failures s)).

Definition cooldown_of (now_ns : N) (tracker : AutonomyToolFailureTracker.t)
    : option AutonomyToolFailureCooldown.t :=
  cooldown_until_ns ← AutonomyToolFailureTracker.cooldown_until_ns tracker;
  if (cooldown_until_ns <=? now_ns)%N then None
  else Some (AutonomyToolFailureCooldown.mk (AutonomyToolFailureTracker.normalized_error tracker)
               (AutonomyToolFailureTracker.repeat_count tracker) cooldown_until_ns).

Definition active_autonomy_tool_failure_cooldown_for_key (key : string) (now_ns : N) (s : Desk.t)
    : option AutonomyToolFailureCooldown.t :=
  Desk.autonomy_tool_failures s !! key ≫= cooldown_of now_ns.
Definition autonomy_tool_failure_cooldown (fingerprint : string) (now_ns : N) (s : Desk.t)
    : option AutonomyToolFailureCooldown.t :=
  active_autonomy_tool_failure_cooldown_for_key (autonomy_tool_failure_key fingerprint) now_ns s.

Definition should_replace (candidate : AutonomyToolFailureCooldown.t)
    (best : option AutonomyToolFailureCooldown.t) : bool :=
  is_none_or (fun existing =>
    let count := AutonomyToolFailureCooldown.repeat_count candidate in
    let count' := AutonomyToolFailureCooldown.repeat_count existing in
    (count' <? count)%N
    || (count =? count')%N
       && (AutonomyToolFailureCooldown.cooldown_until_ns existing
           <? AutonomyToolFailureCooldown.cooldown_until_ns candidate)%N) best.

(** The rows of a tool and scope among those listed. *)
Definition scope_rows (tool args_scope_fingerprint : string) (s : Desk.t)
    : list (string * AutonomyToolFailureTracker.t) :=
  let prefix := autonomy_tool_failure_class_scope_prefix tool args_scope_fingerprint in
  filter (fun row => starts_with row.1 prefix = true) (list_autonomy_tool_failures s).

Definition autonomy_tool_failure_class_scope_cooldown (tool args_scope_fingerprint : string)
    (now_ns : N) (s : Desk.t) : option AutonomyToolFailureCooldown.t :=
  foldl (fun best '(_, tracker) =>
      match cooldown_of now_ns tracker with
      | None => best
      | Some candidate => if should_replace candidate best then Some candidate else best
      end) None (scope_rows tool args_scope_fingerprint s).

Definition next_tracker (normalized_error : string)
    (failed_at_ns repeat_window_secs repeat_threshold cooldown_secs : N)
    (tracker : AutonomyToolFailureTracker.t) : AutonomyToolFailureTracker.t :=
  let within_window :=
    (saturating_sub failed_at_ns (AutonomyToolFailureTracker.last_failed_at_ns tracker)
     <=? secs_to_ns repeat_window_secs)%N in
  let tracker :=
    if bool_decide (AutonomyToolFailureTracker.normalized_error tracker = normalized_error)
       && within_window
    then tracker <| AutonomyToolFailureTracker.repeat_count ::= fun n => saturating_add 32 n 1 |>
    else tracker <| AutonomyToolFailureTracker.repeat_count := 1%N |>
                 <| AutonomyToolFailureTracker.first_failed_at_ns := failed_at_ns |> in
  tracker <| AutonomyToolFailureTracker.normalized_error := normalized_error |>
          <| AutonomyToolFailureTracker.last_failed_at_ns := failed_at_ns |>
          <| AutonomyToolFailureTracker.cooldown_until_ns :=
               if (repeat_threshold <=? AutonomyToolFailureTracker.repeat_count tracker)%N
               then Some (saturating_add 64 failed_at_ns (secs_to_ns cooldown_secs))
               else None |>.

Definition upsert_autonomy_tool_failure (key : string) (tracker : AutonomyToolFailureTracker.t)
    (s : Desk.t) : Desk.t :=
  s <| Desk.autonomy_tool_failures ::= <[key := tracker]> |>.
Definition delete_autonomy_tool_failure (key : string) (s : Desk.t) : Desk.t :=
  s <| Desk.autonomy_tool_failures ::= delete key |>.

(** No caller reads the cooldown that a record returns. *)
Definition record_autonomy_tool_failure_by_key (key normalized_error : string)
    (failed_at_ns repeat_window_secs repeat_threshold cooldown_secs : N) (s : Desk.t) : Desk.t :=
  let trimmed_error := trim normalized_error in
  if is_empty trimmed_error then s
  else
    upsert_autonomy_tool_failure key
      (next_tracker trimmed_error failed_at_ns repeat_window_secs repeat_threshold cooldown_secs
         (default AutonomyToolFailureTracker.default (Desk.autonomy_tool_failures s !! key))) s.

Definition record_autonomy_tool_failure (fingerprint normalized_error : string)
    (failed_at_ns repeat_window_secs repeat_threshold cooldown_secs : N) (s : Desk.t) : Desk.t :=
  record_autonomy_tool_failure_by_key (autonomy_tool_failure_key fingerprint) normalized_error
    failed_at_ns repeat_window_secs repeat_threshold cooldown_secs s.
Definition record_autonomy_tool_failure_class_scope
    (tool args_scope_fingerprint normalized_error_class normalized_error : string)
    (failed_at_ns repeat_window_secs repeat_threshold cooldown_secs : N) (s : Desk.t) : Desk.t :=
  record_autonomy_tool_failure_by_key
    (autonomy_tool_failure_class_scope_key tool args_scope_fingerprint normalized_error_class)
    normalized_error failed_at_ns repeat_window_secs repeat_threshold cooldown_secs s.

Definition clear_autonomy_tool_failure (fingerprint : string) (s : Desk.t) : Desk.t :=
  delete_autonomy_tool_failure (autonomy_tool_failure_key fingerprint) s.
Definition clear_autonomy_tool_failure_class_scope (tool args_scope_fingerprint : string)
    (s : Desk.t) : Desk.t :=
  foldl (fun s row => delete_autonomy_tool_failure row.1 s) s
    (scope_rows tool args_scope_fingerprint s).

Definition note_autonomy_tool_failure_suppressed_by_key (key : string) (now_ns : N) (s : Desk.t)
    : Desk.t :=
  match Desk.autonomy_tool_failures s !! key with
  | None => s
  | Some tracker =>
      upsert_autonomy_tool_failure key
        (tracker <| AutonomyToolFailureTracker.last_suppressed_at_ns := Some now_ns |>
                 <| AutonomyToolFailureTracker.suppressed_count ::=
                      fun n => saturating_add 32 n 1 |>) s
  end.
Definition note_autonomy_tool_failure_suppressed (fingerprint : string) (now_ns : N) (s : Desk.t)
    : Desk.t :=
  note_autonomy_tool_failure_suppressed_by_key (autonomy_tool_failure_key fingerprint) now_ns s.
Definition note_autonomy_tool_failure_class_scope_suppressed (tool args_scope_fingerprint : string)
    (now_ns : N) (s : Desk.t) : Desk.t :=
  foldl (fun s '(key, tracker) =>
      if is_none_or (fun until => (until <=? now_ns)%N)
           (AutonomyToolFailureTracker.cooldown_until_ns tracker)
      then s
      else note_autonomy_tool_failure_suppressed_by_key key now_ns s) s
    (scope_rows tool args_scope_fingerprint s).

(** ** The inference proxy *)

Definition INFERENCE_PROXY_PENDING_JOB_TTL_SECS : N := 15 * 60.
Definition MAX_COMPLETED_INFERENCE_PROXY_CALLBACK_JOBS : N := 2048.

Definition update_inference_proxy_metrics
    (mutate : InferenceProxyRuntimeMetrics.t -> InferenceProxyRuntimeMetrics.t) (s : Desk.t)
    : Desk.t := s <| Desk.inference_proxy_metrics ::= mutate |>.

Definition upsert_pending_inference_proxy_job (job : PendingInferenceProxyJob.t) : T unit :=
  fail_if (is_blank (PendingInferenceProxyJob.job_id job))
    "pending inference proxy job_id cannot be empty";;
  fail_if (is_blank (PendingInferenceProxyJob.turn_id job))
    "pending inference proxy turn_id cannot be empty";;
  modify (fun s => s <| Desk.pending_inference_proxy_jobs ::=
    <[PendingInferenceProxyJob.job_id job := job]> |>).

(** [max_by_key]: the last of the greatest. *)
Definition latest_submitted (best : option PendingInferenceProxyJob.t)
    (job : PendingInferenceProxyJob.t) : option PendingInferenceProxyJob.t :=
  match best with
  | Some found =>
      if (PendingInferenceProxyJob.submitted_at_ns found
          <=? PendingInferenceProxyJob.submitted_at_ns job)%N
      then Some job else Some found
  | None => Some job
  end.

Definition find_pending_inference_proxy_job_for_turn (turn_id : string) (s : Desk.t)
    : option PendingInferenceProxyJob.t :=
  if is_blank turn_id then None
  else foldl latest_submitted None
         (filter (fun job => PendingInferenceProxyJob.turn_id job = turn_id)
            (btree_values (Desk.pending_inference_proxy_jobs s))).

Definition pending_inference_proxy_jobs_count (s : Desk.t) : N :=
  N.of_nat (size (Desk.pending_inference_proxy_jobs s)).
Definition has_pending_inference_proxy_jobs (s : Desk.t) : bool :=
  (0 <? pending_inference_proxy_jobs_count s)%N.
Definition inference_proxy_callback_results_count (s : Desk.t) : N :=
  N.of_nat (size (Desk.inference_proxy_callback_results s)).
Definition has_buffered_inference_proxy_callback_results (s : Desk.t) : bool :=
  (0 <? inference_proxy_callback_results_count s)%N.

Definition upsert_inbox_proxy_wait_state (state : InboxProxyWaitState.t) : T unit :=
  fail_if (is_blank (InboxProxyWaitState.inbox_message_id state))
    "inbox proxy wait state inbox_message_id cannot be empty";;
  fail_if (is_blank (InboxProxyWaitState.submitted_turn_id state))
    "inbox proxy wait state submitted_turn_id cannot be empty";;
  fail_if (is_some_and is_blank (InboxProxyWaitState.pending_job_id state))
    "inbox proxy wait state pending_job_id cannot be empty";;
  modify (fun s => s <| Desk.inbox_proxy_wait_states ::=
    <[InboxProxyWaitState.inbox_message_id state := state]> |>).

Definition get_inbox_proxy_wait_state (inbox_message_id : string) (s : Desk.t)
    : option InboxProxyWaitState.t := Desk.inbox_proxy_wait_states s !! inbox_message_id.

Definition remove_inbox_proxy_wait_states (inbox_message_ids : list string) (s : Desk.t) : Desk.t :=
  s <| Desk.inbox_proxy_wait_states ::= fun states =>
    foldl (fun states id => delete id states) states inbox_message_ids |>.

(** [min_by_key] over a pair: the first of the least. *)
Definition earliest_callback (best : option (string * InferenceProxyCallbackRecord.t))
    (row : string * InferenceProxyCallbackRecord.t)
    : option (string * InferenceProxyCallbackRecord.t) :=
  match best with
  | Some found =>
      let accepted := InferenceProxyCallbackRecord.accepted_at_ns row.2 in
      let accepted' := InferenceProxyCallbackRecord.accepted_at_ns found.2 in
      if (accepted <? accepted')%N
         || (accepted =? accepted')%N
            && (InferenceProxyCallbackRecord.completed_at_ns row.2
                <? InferenceProxyCallbackRecord.completed_at_ns found.2)%N
      then Some row else Some found
  | None => Some row
  end.

Definition pop_next_inference_proxy_callback_result (s : Desk.t)
    : option (InferenceProxyCallbackRecord.t * Desk.t) :=
  '(next_job_id, record) ← foldl earliest_callback None
    (btree_iter (Desk.inference_proxy_callback_results s));
  Some (record, s <| Desk.inference_proxy_callback_results ::= delete next_job_id |>).

Definition take_inference_proxy_callback_result (job_id : string) (s : Desk.t)
    : option (InferenceProxyCallbackRecord.t * Desk.t) :=
  if is_blank job_id then None
  else
    record ← Desk.inference_proxy_callback_results s !! job_id;
    Some (record, s <| Desk.inference_proxy_callback_results ::= delete job_id |>).

Definition record_inference_proxy_jobs_expired (expired_count : N) (s : Desk.t) : Desk.t :=
  if (expired_count =? 0)%N then s
  else update_inference_proxy_metrics (fun metrics =>
         metrics <| InferenceProxyRuntimeMetrics.expired_jobs ::=
                      fun n => saturating_add 64 n expired_count |>) s.

Definition expire_inference_proxy_pending_jobs (now_ns pending_job_ttl_secs : N) (s : Desk.t)
    : list PendingInferenceProxyJob.t * Desk.t :=
  if (pending_job_ttl_secs =? 0)%N then ([], s)
  else
    let cutoff_ns := saturating_sub now_ns (secs_to_ns pending_job_ttl_secs) in
    let expired := filter (fun job =>
        (PendingInferenceProxyJob.submitted_at_ns job <= cutoff_ns)%N)
      (btree_values (Desk.pending_inference_proxy_jobs s)) in
    if bool_decide (expired = []) then ([], s)
    else
      let expired := sort_by_key PendingInferenceProxyJob.submitted_at_ns expired in
      (expired, record_inference_proxy_jobs_expired (N.of_nat (length expired))
         (s <| Desk.pending_inference_proxy_jobs ::= fun jobs =>
              foldl (fun jobs job => delete (PendingInferenceProxyJob.job_id job) jobs) jobs expired |>)).

(** The oldest of the completed jobs are forgotten, one per round, so as many
    rounds as there are jobs do. *)
Definition earliest_completed (best : option (string * N)) (row : string * N)
    : option (string * N) :=
  match best with
  | Some found => if (row.2 <? found.2)%N then Some row else Some found
  | None => Some row
  end.
Fixpoint forget_oldest_completed (rounds : nat) (completed_jobs : gmap string N)
    : gmap string N :=
  match rounds with
  | 0 => completed_jobs
  | S rounds =>
      if (MAX_COMPLETED_INFERENCE_PROXY_CALLBACK_JOBS <? N.of_nat (size completed_jobs))%N then
        match foldl earliest_completed None (btree_iter completed_jobs) with
        | None => completed_jobs
        | Some (oldest_job_id, _) => forget_oldest_completed rounds (delete oldest_job_id completed_jobs)
        end
      else completed_jobs
  end.

Definition remember_completed_inference_proxy_callback_job (job_id : string) (accepted_at_ns : N)
    (s : Desk.t) : Desk.t :=
  s <| Desk.completed_inference_proxy_callback_jobs ::= fun completed_jobs =>
    let completed_jobs := <[job_id := accepted_at_ns]> completed_jobs in
    forget_oldest_completed (size completed_jobs) completed_jobs |>.

Definition count_duplicate (s : Desk.t) : Desk.t :=
  update_inference_proxy_metrics (fun metrics =>
    metrics <| InferenceProxyRuntimeMetrics.callback_duplicates ::=
                 fun n => saturating_add 64 n 1 |>) s.

Definition apply_inference_proxy_callback (args : SubmitInferenceResultArgs.t)
    (caller_principal : string) (accepted_at_ns : N) : T InferenceProxyCallbackApply.t :=
  let job_id := SubmitInferenceResultArgs.job_id args in
  let turn_id := SubmitInferenceResultArgs.turn_id args in
  fail_if (is_blank job_id) "inference proxy callback job_id cannot be empty";;
  fail_if (is_blank turn_id) "inference proxy callback turn_id cannot be empty";;
  fail_if (negb (is_some (SubmitInferenceResultArgs.result args))
           && is_blank (default "" (SubmitInferenceResultArgs.error args)))
    "inference proxy callback must include result or error";;
  s ← get_state;
  if is_some (Desk.inference_proxy_callback_results s !! job_id)
     || is_some (Desk.completed_inference_proxy_callback_jobs s !! job_id)
  then modify count_duplicate;; mret InferenceProxyCallbackApply.Duplicate
  else
    match Desk.pending_inference_proxy_jobs s !! job_id with
    | None => modify count_duplicate;; mret InferenceProxyCallbackApply.Duplicate
    | Some pending =>
        fail_if (bool_decide (PendingInferenceProxyJob.turn_id pending <> turn_id))
          ("inference proxy callback turn_id mismatch job_id=" +:+ job_id +:+ " expected_turn_id="
           +:+ PendingInferenceProxyJob.turn_id pending +:+ " received_turn_id=" +:+ turn_id);;
        let record := InferenceProxyCallbackRecord.mk job_id turn_id
          (SubmitInferenceResultArgs.completed_at_ns args) accepted_at_ns caller_principal
          (SubmitInferenceResultArgs.result args) (SubmitInferenceResultArgs.error args) in
        modify (fun s => s <| Desk.pending_inference_proxy_jobs ::= delete job_id |>
                           <| Desk.inference_proxy_callback_results ::= <[job_id := record]> |>);;
        modify (remember_completed_inference_proxy_callback_job
                  (PendingInferenceProxyJob.job_id pending) accepted_at_ns);;
        modify (update_inference_proxy_metrics (fun metrics =>
          metrics <| InferenceProxyRuntimeMetrics.callback_accepted ::=
                       fun n => saturating_add 64 n 1 |>));;
        mret InferenceProxyCallbackApply.Accepted
    end.
