(* ===== verification/TurnText.v ===== *)
(** * TurnText: names, previews and memory keys of a turn

    Models the texts a turn computes with: from
    [components/ic-automaton/src/agent.rs] the previews of tool output and the
    classes of tool errors, from [tools.rs] the normal form of a memory key,
    and from [features/inference.rs] the normal form of a tool's name.

    [normalize_memory_key_idem]: a memory key in its normal form is its own
    normal form. *)

From S2P Require Import Prelude Text SpawnProtocol Types AgentTypes AgentStore StrategyTypes StrategyPolicy TurnTypes TurnStore Sanitize.
From Stdlib Require Import Ascii.

(** ** Pieces of a text *)

(** [str::split(separator)] by characters: never empty. *)
Fixpoint split_list (separator : string) (l : list string) : list (list string) :=
  match l with
  | [] => [[]]
  | c :: l =>
      if bool_decide (c = separator) then [] :: split_list separator l
      else match split_list separator l with
           | [] => [[c]]
           | segment :: segments => (c :: segment) :: segments
           end
  end.

Definition split_on (separator text : string) : list string :=
  concat_str <$> split_list separator (chars text).
Definition first_segment (separator text : string) : string :=
  default "" (head (split_on separator text)).

(** [split([a, b, ..]).next()], or the text up to [find([a, b, ..])]. *)
Fixpoint take_while {A} (p : A -> bool) (l : list A) : list A :=
  match l with [] => [] | x :: l => if p x then x :: take_while p l else [] end.
Definition take_until (separators : list string) (text : string) : string :=
  concat_str (take_while (fun c => bool_decide (c ∉ separators)) (chars text)).

Definition strip_suffix (text suffix : string) : option string :=
  if ends_with text suffix
  then Some (String.substring 0 (String.length text - String.length suffix) text) else None.

(** [char::is_control]: U+0000..U+001F and U+007F..U+009F. *)
Definition is_control (c : string) : bool :=
  match byte_of <$> str_bytes c with
  | [b] => ((b <? 32) || (b =? 127))%N
  | [b1; b2] => ((b1 =? 194) && (128 <=? b2) && (b2 <=? 159))%N
  | _ => false
  end.

Definition is_digit_char (c : string) : bool :=
  match c with
  | String a "" => let n := byte_of a in ((48 <=? n) && (n <=? 57))%N
  | _ => false
  end.

(** [features/inference.rs]. *)
Definition canonicalize_tool_name (raw_tool : string) : string := to_ascii_lowercase (trim raw_tool).

Definition sanitize_preview (text : string) (max_chars : N) : string :=
  let compact := join " " (split_whitespace text) in
  if (char_count compact <=? max_chars)%N then compact
  else take_chars max_chars compact +:+ "...".

(** ** Memory keys *)

Definition MAX_MEMORY_KEY_BYTES : nat := 128.

Definition looks_like_epoch_timestamp (segment : string) : bool :=
  if negb (forallb is_digit_char (chars segment)) then false
  else
    match parse_uint 64 segment with
    | None => false
    | Some value =>
        match String.length segment with
        | 10 => (1500000000 <=? value)%N && (value <=? 4200000000)%N
        | 13 => (1500000000000 <=? value)%N && (value <=? 4200000000000)%N
        | len => 16 <=? len
        end
    end.

Definition is_timestamp_marker_segment (segment : string) : bool :=
  bool_decide (segment ∈ ["ts"; "time"; "timestamp"; "at"; "updated_at"; "observed_at"]).

Definition TIMESTAMP_PREFIXES : list string :=
  ["ts_"; "ts-"; "timestamp_"; "timestamp-"; "time_"; "time-"].

Definition is_timestamp_like_key_segment (segment : string) : bool :=
  if is_empty segment then false
  else if looks_like_epoch_timestamp segment then true
  else if existsb (fun prefix => is_some_and looks_like_epoch_timestamp (strip_prefix segment prefix))
            TIMESTAMP_PREFIXES then true
  else if is_some_and looks_like_epoch_timestamp
            (match strip_suffix segment "ns" with
             | Some candidate => Some candidate
             | None =>
                 match strip_suffix segment "ms" with
                 | Some candidate => Some candidate
                 | None => strip_suffix segment "s"
                 end
             end) then true
  else contains segment "t" && contains segment "-" && contains segment ":"
       && existsb is_digit_char (chars segment).

(** The segments from the last to the first, for [pop] and [push]. *)
Definition canonical_segments (segments : list string) : list string :=
  match rev segments with
  | [] => segments
  | last :: others =>
      if bool_decide (last = "latest") then segments
      else if is_timestamp_like_key_segment last then
        let others :=
          match others with
          | marker :: rest => if is_timestamp_marker_segment marker then rest else others
          | [] => []
          end in
        rev others ++ ["latest"]
      else segments
  end.

Definition key_segments (normalized : string) : list string :=
  filter (fun segment => is_empty segment = false) (trim <$> split_on "." normalized).

Definition canonicalize_memory_key (normalized : string) : string :=
  let segments := key_segments normalized in
  if bool_decide (segments = []) then normalized
  else join "." (canonical_segments segments).

Definition key_length_error : string := "key must be 1-" +:+ pretty (N.of_nat MAX_MEMORY_KEY_BYTES) +:+ " bytes".

Definition normalize_memory_key (raw : string) : result string string :=
  let normalized := to_ascii_lowercase (trim raw) in
  err_if (is_empty normalized || (MAX_MEMORY_KEY_BYTES <? String.length normalized)) key_length_error;;
  err_if (existsb is_control (chars normalized)) "key must not contain control characters";;
  let canonical := canonicalize_memory_key normalized in
  err_if (is_empty canonical || (MAX_MEMORY_KEY_BYTES <? String.length canonical)) key_length_error;;
  Ok canonical.

Definition canonicalize_memory_key_for_dedupe (raw : string) : result string string :=
  normalize_memory_key raw.

(** ** Classes of tool errors *)

Definition normalize_tool_failure_reason (error : string) : string :=
  to_ascii_lowercase (trim (join " " (split_whitespace error))).

(** [out] and whether the last character pushed was a separator. *)
Definition push_class_char (state : list string * bool) (c : string) : list string * bool :=
  let '(out, previous_was_separator) := state in
  if ascii_alphanumeric c then (out ++ [to_ascii_lowercase c], false)
  else if previous_was_separator then (out, true)
  else (out ++ ["_"], true).

Definition sanitize_error_class_segment (raw : string) : string :=
  let trimmed := trim_underscores (foldl push_class_char ([], false) (take 64 (chars raw))).1 in
  if is_empty trimmed then "unknown" else trimmed.

Definition fallback_error_class (normalized_error : string) : string :=
  sanitize_error_class_segment (first_segment ":" normalized_error).

(** The guards of one tool, in their order. *)
Inductive error_guard :=
| StartsWith (prefix : string)
| Contains (part : string)
| ContainsEither (part part' : string)
| Equals (text : string).

Definition guard_holds (normalized_error : string) (guard : error_guard) : bool :=
  match guard with
  | StartsWith prefix => starts_with normalized_error prefix
  | Contains part => contains normalized_error part
  | ContainsEither part part' => contains normalized_error part || contains normalized_error part'
  | Equals text => bool_decide (normalized_error = text)
  end.

Definition extraction_guards : list (error_guard * string) :=
  [(StartsWith "json_path extraction failed: path `", "json_path_missing_path");
   (StartsWith "json_path extraction failed: response is not valid json", "json_path_invalid_json");
   (StartsWith "regex extraction failed: no matching lines", "regex_no_match");
   (StartsWith "http 4", "http_4xx");
   (ContainsEither "response exceeded max_response_bytes" "http body exceeds size limit",
     "response_too_large");
   (Contains "domain not in allowlist", "domain_not_allowlisted")].

Definition failure_class_guards (normalized_tool : string) : list (error_guard * string) :=
  if bool_decide (normalized_tool = "http_fetch") then
    extraction_guards ++ [(StartsWith "invalid market-data url", "invalid_market_url")]
  else if bool_decide (normalized_tool = "market_fetch") then
    [(StartsWith "invalid market_fetch args json:", "invalid_args_json");
     (StartsWith "unsupported market endpoint", "unsupported_endpoint");
     (StartsWith "missing required field:", "missing_required_field");
     (StartsWith "missing required param:", "missing_required_param");
     (StartsWith "unsupported param", "unsupported_param");
     (StartsWith "invalid param", "invalid_param");
     (StartsWith "invalid market-data url", "invalid_market_url")] ++ extraction_guards
  else if bool_decide (normalized_tool = "remember") then
    [(StartsWith "invalid remember args json:", "invalid_args_json");
     (StartsWith "missing required field: key", "missing_key");
     (StartsWith "missing required field: value", "missing_value");
     (Equals "remember value must be a json scalar", "value_not_scalar");
     (StartsWith "memory full:", "memory_full")]
  else if bool_decide (normalized_tool = "evm_read") then
    [(StartsWith "invalid evm_read args json:", "invalid_args_json");
     (StartsWith "invalid evm_read address:", "invalid_address")]
  else if bool_decide (normalized_tool = "list_strategy_templates") then
    [(StartsWith "invalid list_strategy_templates args json:", "invalid_args_json")]
  else [].

Definition normalize_tool_failure_class (tool normalized_error : string) : string :=
  match find (fun guard => guard_holds normalized_error guard.1)
          (failure_class_guards (to_ascii_lowercase (trim tool))) with
  | Some (_, class) => class
  | None => fallback_error_class normalized_error
  end.

Definition consecutive_degrade_fingerprint_key (tool error_class : string) : string :=
  canonicalize_tool_name tool +:+ ":" +:+ to_ascii_lowercase (trim error_class).

(** ** The characters of a text *)

(** What every [&str] is: each of its characters begins with a leading byte. *)
Definition is_str (text : string) : Prop := Forall is_lead_group (chars text).

Lemma chars_concat_lead l : Forall is_lead_group l -> chars (concat_str l) = l.
Proof.
  intros Hl. apply chars_concat. destruct l as [|g l]; [done|].
  apply Forall_cons in Hl as [Hg Hl]. split; [|done]. by destruct g as [|a t]; [|destruct Hg].
Qed.

Lemma map_str_app f s t : map_str f (s +:+ t) = map_str f s +:+ map_str f t.
Proof. apply str_bytes_inj. by rewrite str_bytes_map_str, !str_bytes_app, fmap_app, !str_bytes_map_str. Qed.

Lemma chars_map_str f s :
  (forall a, is_cont (f a) = is_cont a) -> chars (map_str f s) = map_str f <$> chars s.
Proof.
  intros Hf. induction s as [|a s IH]; [done|]. simpl map_str. rewrite !chars_String, IH.
  destruct s as [|b s]; [done|]. cbn [map_str]. rewrite Hf. destruct (is_cont b); [|done].
  by destruct (chars (String b s)).
Qed.

Lemma is_cont_lower a : is_cont (ascii_lower a) = is_cont a.
Proof. by destruct a as [[] [] [] [] [] [] [] []]. Qed.

Lemma chars_lower s : chars (to_ascii_lowercase s) = to_ascii_lowercase <$> chars s.
Proof. apply chars_map_str, is_cont_lower. Qed.

Lemma is_lead_group_lower c : is_lead_group (to_ascii_lowercase c) <-> is_lead_group c.
Proof.
  assert (forall t, all_cont (map_str ascii_lower t) = all_cont t) as Hall.
  { induction t as [|a t IH]; [done|]. simpl. by rewrite is_cont_lower, IH. }
  destruct c as [|a t]; [done|]. unfold to_ascii_lowercase. simpl. by rewrite is_cont_lower, Hall.
Qed.

Lemma concat_map_str f l : map_str f (concat_str l) = concat_str (map_str f <$> l).
Proof. induction l as [|g l IH]; [done|]. cbn [concat_str fmap list_fmap]. by rewrite map_str_app, IH. Qed.

Lemma is_whitespace_lower c : is_whitespace (to_ascii_lowercase c) = is_whitespace c.
Proof.
  unfold is_whitespace, to_ascii_lowercase. rewrite str_bytes_map_str.
  destruct (str_bytes c) as [|a [|b [|d [|]]]]; [done| | | |done]; cbn [fmap list_fmap].
  - by destruct a as [[] [] [] [] [] [] [] []].
  - by destruct a as [[] [] [] [] [] [] [] []], b as [[] [] [] [] [] [] [] []].
  - destruct a as [[] [] [] [] [] [] [] []]; try done;
      destruct b as [[] [] [] [] [] [] [] []]; try done; by destruct d as [[] [] [] [] [] [] [] []].
Qed.

Lemma drop_while_fmap {A B} (p : B -> bool) (q : A -> bool) (f : A -> B) l :
  (forall x, p (f x) = q x) -> drop_while p (f <$> l) = f <$> drop_while q l.
Proof. intros Hf. induction l as [|x l IH]; [done|]. simpl. rewrite Hf. by destruct (q x). Qed.

Lemma trim_list_fmap {A B} (p : B -> bool) (q : A -> bool) (f : A -> B) l :
  (forall x, p (f x) = q x) -> trim_list p (f <$> l) = f <$> trim_list q l.
Proof.
  intros Hf. unfold trim_list.
  by rewrite (drop_while_fmap p q), <-fmap_reverse, (drop_while_fmap p q), fmap_reverse.
Qed.

Lemma trim_lower s : trim (to_ascii_lowercase s) = to_ascii_lowercase (trim s).
Proof.
  unfold trim. rewrite chars_lower, (trim_list_fmap _ is_whitespace) by apply is_whitespace_lower.
  symmetry. apply concat_map_str.
Qed.

(** ** The segments of a key *)

Fixpoint join_lists (separator : string) (l : list (list string)) : list string :=
  match l with
  | [] => []
  | [x] => x
  | x :: l => x ++ separator :: join_lists separator l
  end.

Lemma join_concat separator (l : list (list string)) :
  join separator (concat_str <$> l) = concat_str (join_lists separator l).
Proof.
  assert (forall l l', concat_str (l ++ l') = concat_str l +:+ concat_str l') as Happ.
  { intros k k'. induction k as [|g k IH]; [done|]. cbn [concat_str app].
    by rewrite IH, string_app_assoc. }
  induction l as [|x [|y l] IH]; [done|done|].
  change (join separator (concat_str <$> x :: y :: l))
    with (concat_str x +:+ separator +:+ join separator (concat_str <$> y :: l)).
  rewrite IH. change (join_lists separator (x :: y :: l))
    with (x ++ separator :: join_lists separator (y :: l)).
  by rewrite Happ.
Qed.

Lemma split_list_join separator (l : list (list string)) :
  l <> [] -> Forall (fun x => separator ∉ x) l -> split_list separator (join_lists separator l) = l.
Proof.
  assert (forall x tail, separator ∉ x ->
    split_list separator (x ++ separator :: tail) = x :: split_list separator tail) as Hhead.
  { intros x tail. induction x as [|c x IH]; intros Hx; simpl.
    - by rewrite bool_decide_eq_true_2.
    - rewrite bool_decide_eq_false_2 by set_solver. rewrite IH by set_solver. done. }
  assert (forall x, separator ∉ x -> split_list separator x = [x]) as Hone.
  { intros x. induction x as [|c x IH]; intros Hx; [done|]. simpl.
    rewrite bool_decide_eq_false_2 by set_solver. by rewrite IH by set_solver. }
  induction l as [|x [|y l] IH]; [done| |]; intros _ [Hx Hl]%Forall_cons; [by apply Hone|].
  change (join_lists separator (x :: y :: l)) with (x ++ separator :: join_lists separator (y :: l)).
  rewrite Hhead by done. f_equal. by apply IH.
Qed.

Lemma elem_of_split_list separator l segment :
  segment ∈ split_list separator l -> (separator ∉ segment) /\ (forall c, c ∈ segment -> c ∈ l).
Proof.
  revert segment. induction l as [|c l IH]; intros segment; simpl.
  - intros ->%list_elem_of_singleton. set_solver.
  - destruct (bool_decide (c = separator)) eqn:Hc.
    + intros [->|Hin]%elem_of_cons; [set_solver|]. destruct (IH _ Hin). set_solver.
    + apply bool_decide_eq_false in Hc. destruct (split_list separator l) as [|x xs].
      * intros ->%list_elem_of_singleton. set_solver.
      * intros [->|Hin]%elem_of_cons.
        -- destruct (IH x ltac:(left)) as [Hsep Hsub]. split; [set_solver|].
           intros d [->|Hd]%elem_of_cons; [left|right; auto].
        -- destruct (IH segment ltac:(by right)). set_solver.
Qed.

(** A segment as [key_segments] leaves it. *)
Record key_segment (segment : string) : Prop := {
  segment_nonempty : segment <> "";
  segment_trimmed : trim segment = segment;
  segment_is_str : is_str segment;
  segment_undotted : "." ∉ chars segment;
  segment_lower : to_ascii_lowercase segment = segment;
  segment_plain : Forall (fun c => is_control c = false) (chars segment);
}.

Lemma elem_of_trim c s : c ∈ chars (trim s) -> c ∈ chars s.
Proof.
  rewrite chars_trim. destruct (trim_list_infix is_whitespace (chars s)) as (l1 & l2 & H).
  intros Hc. rewrite H. set_solver.
Qed.

Lemma lower_fixed_chars s :
  to_ascii_lowercase s = s <-> Forall (fun c => to_ascii_lowercase c = c) (chars s).
Proof.
  split.
  - intros Hs. rewrite <-Hs at 1. rewrite chars_lower, Forall_fmap. apply Forall_forall.
    intros c _. apply to_ascii_lowercase_idem.
  - intros Hs. rewrite <-(concat_chars s) at 1. unfold to_ascii_lowercase at 1.
    rewrite concat_map_str. rewrite <-(concat_chars s) at 2. f_equal.
    rewrite <-(list_fmap_id (chars s)) at 2. apply list_fmap_ext. intros i c Hc.
    by apply (Forall_lookup_1 _ _ _ _ Hs Hc).
Qed.

Lemma key_segments_ok normalized :
  is_str normalized -> to_ascii_lowercase normalized = normalized ->
  Forall (fun c => is_control c = false) (chars normalized) ->
  Forall key_segment (key_segments normalized).
Proof.
  intros Hstr Hlower Hplain. apply Forall_forall. intros segment Hin.
  unfold key_segments in Hin. apply list_elem_of_filter in Hin as [Hne Hin].
  apply list_elem_of_fmap in Hin as (piece & -> & Hin).
  apply list_elem_of_fmap in Hin as (l & -> & Hin).
  apply elem_of_split_list in Hin as [Hdot Hsub].
  assert (chars (concat_str l) = l) as Hl.
  { apply chars_concat_lead, Forall_forall. intros c Hc. unfold is_str in Hstr.
    rewrite Forall_forall in Hstr. auto. }
  assert (forall c, c ∈ chars (trim (concat_str l)) -> c ∈ l) as Htrim.
  { intros c Hc%elem_of_trim. by rewrite Hl in Hc. }
  unfold is_str in Hstr. rewrite lower_fixed_chars in Hlower. rewrite !Forall_forall in *.
  split; [by apply is_empty_false|by rewrite trim_idem| |auto| |].
  - unfold is_str. apply Forall_forall. auto.
  - apply lower_fixed_chars, Forall_forall. auto.
  - apply Forall_forall. auto.
Qed.

Lemma elem_of_join_lists separator (l : list (list string)) c :
  c ∈ join_lists separator l -> c = separator \/ exists x, x ∈ l /\ c ∈ x.
Proof.
  induction l as [|x [|y l] IH]; [set_solver| |].
  - intros Hc. right. exists x. set_solver.
  - change (join_lists separator (x :: y :: l)) with (x ++ separator :: join_lists separator (y :: l)).
    intros [Hc|[->|Hc]%elem_of_cons]%elem_of_app; [right; exists x; set_solver|by left|].
    destruct (IH Hc) as [->|(z & Hz & Hin)]; [by left|right; exists z]. split; [by right|done].
Qed.

Lemma chars_join segments :
  Forall key_segment segments -> chars (join "." segments) = join_lists "." (chars <$> segments).
Proof.
  intros Hsegments.
  assert (segments = concat_str <$> (chars <$> segments)) as Heq.
  { rewrite <-list_fmap_compose. rewrite <-(list_fmap_id segments) at 1.
    apply list_fmap_ext. intros i x _. symmetry. apply concat_chars. }
  rewrite Heq at 1. rewrite join_concat. apply chars_concat_lead, Forall_forall.
  intros c [->|(x & Hx & Hc)]%elem_of_join_lists; [done|].
  apply list_elem_of_fmap in Hx as (segment & -> & Hin). rewrite Forall_forall in Hsegments.
  destruct (Hsegments _ Hin) as [_ _ Hstr _ _ _]. unfold is_str in Hstr. rewrite Forall_forall in Hstr.
  auto.
Qed.

Lemma Forall_chars_join (P : string -> Prop) segments :
  P "." -> Forall key_segment segments -> (forall x, x ∈ segments -> Forall P (chars x)) ->
  Forall P (chars (join "." segments)).
Proof.
  intros Hdot Hsegments Hall. rewrite chars_join by done. apply Forall_forall.
  intros c [->|(x & Hx & Hc)]%elem_of_join_lists; [done|].
  apply list_elem_of_fmap in Hx as (segment & -> & Hin). specialize (Hall _ Hin).
  rewrite Forall_forall in Hall. auto.
Qed.

(** Neither end of the list is dropped. *)
Definition kept_ends {A} (p : A -> bool) (l : list A) : Prop :=
  is_some_and p (head l) = false /\ is_some_and p (last l) = false.

Lemma trim_list_kept {A} (p : A -> bool) l : trim_list p l = l <-> kept_ends p l.
Proof.
  split.
  - intros Hl. split.
    + destruct l as [|x l]; [done|]. simpl. destruct (p x) eqn:Hx; [|done].
      assert (length (trim_list p (x :: l)) <= length l); [|rewrite Hl in H; simpl in H; lia].
      unfold trim_list. simpl. rewrite Hx, length_reverse.
      destruct (drop_while_suffix p (reverse (drop_while p l))) as [k Hk].
      destruct (drop_while_suffix p l) as [k' Hk']. apply (f_equal length) in Hk, Hk'.
      rewrite length_app in Hk, Hk'. rewrite length_reverse in Hk. lia.
    + rewrite <-Hl. unfold trim_list. rewrite last_reverse.
      destruct (drop_while p (reverse (drop_while p l))) as [|x k] eqn:Hk; [done|]. simpl.
      by apply drop_while_head in Hk.
  - intros [Hhead Hlast]. unfold trim_list. rewrite (drop_while_id p l);
      [|intros x k ->; exact Hhead].
    rewrite drop_while_id; [apply reverse_involutive|]. intros x k Hk.
    rewrite <-(reverse_involutive l), last_reverse, Hk in Hlast. exact Hlast.
Qed.

Lemma trim_kept s : trim s = s <-> kept_ends is_whitespace (chars s).
Proof.
  rewrite <-trim_list_kept. split; intros H.
  - by rewrite <-chars_trim, H.
  - unfold trim. by rewrite H, concat_chars.
Qed.

Lemma last_join_lists separator (l : list (list string)) x :
  x <> [] -> last (join_lists separator (l ++ [x])) = last x.
Proof.
  intros Hx. induction l as [|y l IH]; [done|].
  destruct (l ++ [x]) as [|z k] eqn:Hk; [by destruct l|].
  change ((y :: l) ++ [x]) with (y :: (l ++ [x])). rewrite Hk.
  change (join_lists separator (y :: z :: k)) with (y ++ separator :: join_lists separator (z :: k)).
  rewrite last_app, last_cons. rewrite IH. destruct (last x) eqn:Hlast; [done|].
  by apply last_None in Hlast.
Qed.

Lemma chars_nonempty s : s <> "" -> chars s <> [].
Proof. intros Hs H. apply Hs. by rewrite <-(concat_chars s), H. Qed.

Lemma trim_join segments : Forall key_segment segments -> trim (join "." segments) = join "." segments.
Proof.
  intros Hsegments. apply trim_kept. rewrite chars_join by done. split.
  - destruct Hsegments as [|x l [Hne Htrim _ _ _ _] _]; [done|].
    apply trim_kept in Htrim as [Hhead _]. apply chars_nonempty in Hne.
    destruct l; simpl; by destruct (chars x).
  - destruct segments as [|x l _] using rev_ind; [done|].
    apply Forall_app in Hsegments as [_ [[Hne Htrim _ _ _ _] _]%Forall_cons].
    apply trim_kept in Htrim as [_ Hlast]. rewrite fmap_app. cbn [fmap list_fmap].
    rewrite last_join_lists by by apply chars_nonempty. done.
Qed.

Lemma key_segments_join segments :
  segments <> [] -> Forall key_segment segments -> key_segments (join "." segments) = segments.
Proof.
  intros Hne Hsegments. unfold key_segments, split_on. rewrite chars_join by done.
  rewrite split_list_join; [|by destruct segments|].
  - rewrite <-!list_fmap_compose. clear Hne.
    induction Hsegments as [|x l [Hne Htrim _ _ _ _] _ IH]; [done|]. cbn [fmap list_fmap].
    change ((trim ∘ concat_str ∘ chars) x) with (trim (concat_str (chars x))).
    rewrite concat_chars, Htrim. rewrite filter_cons_True; [by f_equal|].
    by apply is_empty_false.
  - rewrite Forall_fmap. eapply Forall_impl; [exact Hsegments|]. by intros x [].
Qed.

Lemma canonical_segments_idem segments :
  canonical_segments (canonical_segments segments) = canonical_segments segments.
Proof.
  unfold canonical_segments at 2 3.
  destruct (rev segments) as [|last others] eqn:Hrev.
  { unfold canonical_segments. by rewrite Hrev. }
  destruct (bool_decide (last = "latest")) eqn:Hlatest.
  { unfold canonical_segments. by rewrite Hrev, Hlatest. }
  destruct (is_timestamp_like_key_segment last) eqn:Hstamp.
  - unfold canonical_segments. rewrite rev_app_distr. done.
  - unfold canonical_segments. by rewrite Hrev, Hlatest, Hstamp.
Qed.

Lemma Forall_canonical_segments (P : string -> Prop) segments :
  P "latest" -> Forall P segments -> Forall P (canonical_segments segments).
Proof.
  intros Hlatest Hsegments. unfold canonical_segments.
  pose proof (Forall_rev Hsegments) as Hrev. destruct (rev segments) as [|last others]; [done|].
  apply Forall_cons in Hrev as [_ Hothers].
  destruct (bool_decide _); [done|]. destruct (is_timestamp_like_key_segment last); [|done].
  apply Forall_app. split; [|by constructor]. apply Forall_rev.
  destruct others as [|marker rest]; [done|]. by destruct (is_timestamp_marker_segment marker); [apply Forall_cons in Hothers as []|].
Qed.

Lemma canonical_segments_nonempty segments : segments <> [] -> canonical_segments segments <> [].
Proof.
  intros Hne. unfold canonical_segments. destruct (rev segments) as [|last others]; [done|].
  destruct (bool_decide _); [done|]. destruct (is_timestamp_like_key_segment last); [|done].
  by destruct (rev _).
Qed.

Lemma latest_segment : key_segment "latest".
Proof.
  split; try done; [by repeat constructor|by vm_compute; set_solver|by repeat constructor].
Qed.

Definition bad_length (key : string) : bool :=
  is_empty key || (MAX_MEMORY_KEY_BYTES <? String.length key).

Lemma normalize_memory_key_Ok raw key :
  normalize_memory_key raw = Ok key <->
  exists normalized, normalized = to_ascii_lowercase (trim raw)
    /\ bad_length normalized = false /\ existsb is_control (chars normalized) = false
    /\ bad_length key = false /\ key = canonicalize_memory_key normalized.
Proof.
  unfold normalize_memory_key. set (normalized := to_ascii_lowercase (trim raw)).
  fold (bad_length normalized) (bad_length (canonicalize_memory_key normalized)).
  split.
  - intros H. exists normalized. split; [done|].
    destruct (bad_length normalized); [done|].
    destruct (existsb is_control (chars normalized)); [done|].
    destruct (bad_length (canonicalize_memory_key normalized)) eqn:Hlength; [done|].
    by injection H as <-.
  - intros (? & -> & Hlength & Hcontrol & Hlength' & ->). by rewrite Hlength, Hcontrol, Hlength'.
Qed.

(** A memory key in its normal form is its own normal form, so that keys of
    [remember] and [forget] are compared by what they normalise to. *)
Theorem normalize_memory_key_idem (raw canonical : string) :
  is_str raw -> normalize_memory_key raw = Ok canonical ->
  normalize_memory_key canonical = Ok canonical.
Proof.
  intros Hstr (normalized & Hnormalized & Hlength & Hcontrol & Hlength' & Hcanonical)%normalize_memory_key_Ok.
  assert (to_ascii_lowercase normalized = normalized) as Hlower
    by (rewrite Hnormalized; apply to_ascii_lowercase_idem).
  assert (trim normalized = normalized) as Htrim by by rewrite Hnormalized, trim_lower, trim_idem.
  assert (is_str normalized) as Hnormal.
  { rewrite Hnormalized. unfold is_str. rewrite chars_lower, Forall_fmap. apply Forall_forall.
    intros c Hc%elem_of_trim. unfold is_str in Hstr. rewrite Forall_forall in Hstr.
    by apply is_lead_group_lower, Hstr. }
  assert (Forall (fun c => is_control c = false) (chars normalized)) as Hplain
    by (apply Forall_forall; by apply existsb_false).
  apply normalize_memory_key_Ok. unfold canonicalize_memory_key in Hcanonical.
  destruct (bool_decide (key_segments normalized = [])) eqn:Hempty.
  { subst canonical. exists normalized. unfold canonicalize_memory_key.
    by rewrite Htrim, Hlower, Hempty. }
  apply bool_decide_eq_false in Hempty.
  pose proof (key_segments_ok _ Hnormal Hlower Hplain) as Hsegments.
  set (segments := canonical_segments (key_segments normalized)) in *.
  assert (Forall key_segment segments) as Hkey
    by (apply Forall_canonical_segments; [apply latest_segment|done]).
  assert (segments <> []) as Hne by by apply canonical_segments_nonempty.
  assert (canonical_segments segments = segments) as Hidem by apply canonical_segments_idem.
  assert (to_ascii_lowercase canonical = canonical) as Hlower'.
  { rewrite Hcanonical. apply lower_fixed_chars, Forall_chars_join; [done..|].
    intros x Hx. rewrite Forall_forall in Hkey. apply lower_fixed_chars. by destruct (Hkey _ Hx). }
  exists canonical. split; [|split; [done|split; [|split; [done|]]]].
  - rewrite Hcanonical at 2. rewrite trim_join by done. by rewrite <-Hcanonical, Hlower'.
  - apply existsb_false, Forall_forall. rewrite Hcanonical. apply Forall_chars_join; [done..|].
    intros x Hx. rewrite Forall_forall in Hkey. by destruct (Hkey _ Hx).
  - unfold canonicalize_memory_key. rewrite Hcanonical, key_segments_join by done.
    by rewrite bool_decide_eq_false_2, Hidem.
Qed.

Lemma normalize_memory_key_idem_witness :
  normalize_memory_key " Price..ETH .at.1700000000" = Ok "price.eth.latest"
  /\ normalize_memory_key "price.eth.latest" = Ok "price.eth.latest".
Proof.
  split; [vm_compute; reflexivity|].
  apply (normalize_memory_key_idem " Price..ETH .at.1700000000"); [|vm_compute; reflexivity].
  unfold is_str. vm_compute. repeat (constructor; [done|]). constructor.
Defined.
