(* ===== verification/TurnPolicy.v ===== *)
(** * TurnPolicy: which tool calls of a turn run, and what their failures leave

    Models the part of [components/ic-automaton/src/agent.rs] that decides
    about tool calls: fingerprints and scopes of a call, the suppression of
    repeated and of failing calls, synthetic records, the count of rounds that
    degrade in a row with its cap, and what a round records about its tools.

    [json_shape_signature] recurses over a parsed JSON value, whose depth
    [serde_json] bounds.  Objects are sorted maps, so their keys come sorted. *)

From S2P Require Import Prelude Text SpawnProtocol Types Externals AgentTypes AgentStore AgentScheduler StrategyTypes StrategyStore StrategyPolicy TurnTypes TurnStore Sanitize TurnText.

Definition MAX_INFERENCE_ROUNDS_PER_TURN : nat := 10.
Definition MAX_TOOL_CALLS_PER_TURN : nat := 12.
Definition MAX_STAGED_INBOX_MESSAGES_PER_TURN : N := 1.
Definition AUTONOMY_DEDUPE_SKIP_REASON : string := "skipped due to freshness dedupe".
Definition AUTONOMY_FAILURE_COOLDOWN_SKIP_REASON : string := "suppressed due to repeated failure cooldown".
Definition AUTONOMY_CONSECUTIVE_DEGRADE_CAP : N := 3.
Definition TOOL_SEQUENCE_VALIDATOR_BLOCK_PREFIX : string := "tool sequence validator blocked".
Definition AUTONOMY_TOOL_SCOPE_BLOCK_PREFIX : string := "autonomy tool scope blocked".
Definition PROXY_WAIT_MAX_ATTEMPTS_FOR_STAGED_INBOX : N := 8.
Definition PROXY_WAIT_FAIL_CLOSE_GRACE_SECS : N := 60.

(** ** Records of tool calls *)

Definition is_suppressed_outcome (outcome : ToolCallOutcome.t) : bool :=
  match outcome with
  | ToolCallOutcome.SuppressedDedupe | ToolCallOutcome.SuppressedFailureCooldown => true
  | _ => false
  end.
Definition is_executed_success (record : ToolCallRecord.t) : bool :=
  bool_decide (ToolCallRecord.outcome record = ToolCallOutcome.Executed) && ToolCallRecord.success record.
Definition is_executed_failure (record : ToolCallRecord.t) : bool :=
  bool_decide (ToolCallRecord.outcome record = ToolCallOutcome.Executed)
  && negb (ToolCallRecord.success record).
Definition is_blocked (record : ToolCallRecord.t) : bool :=
  bool_decide (ToolCallRecord.outcome record = ToolCallOutcome.BlockedSequence).

(** The reason that a failed record gives. *)
Definition failure_reason (record : ToolCallRecord.t) : string :=
  match ToolCallRecord.error record with
  | Some error => if is_blank error then ToolCallRecord.output record else error
  | None => ToolCallRecord.output record
  end.

Definition summarize_tool_call (call : ToolCallRecord.t) : string :=
  let tool := ToolCallRecord.tool call in
  match ToolCallRecord.outcome call with
  | ToolCallOutcome.SuppressedDedupe | ToolCallOutcome.SuppressedFailureCooldown =>
      "`" +:+ tool +:+ "` skipped: " +:+ sanitize_preview (ToolCallRecord.output call) 220
  | ToolCallOutcome.BlockedSequence =>
      "`" +:+ tool +:+ "` blocked: " +:+ sanitize_preview (ToolCallRecord.output call) 220
  | ToolCallOutcome.Executed =>
      if ToolCallRecord.success call then
        let output :=
          if bool_decide (tool ∈ ["http_fetch"; "market_fetch"; "canister_call"])
          then default (ToolCallRecord.output call)
                 (extract_framed_untrusted_payload (ToolCallRecord.output call))
          else ToolCallRecord.output call in
        let output := sanitize_preview (trim output) 220 in
        if is_empty output then "`" +:+ tool +:+ "`: ok"
        else "`" +:+ tool +:+ "`: " +:+ output
      else "`" +:+ tool +:+ "` failed: " +:+ sanitize_preview (failure_reason call) 220
  end.

Definition tool_record_counts_as_bounded_exploration_action (record : ToolCallRecord.t) : bool :=
  ToolCallRecord.success record
  && bool_decide (ToolCallRecord.outcome record = ToolCallOutcome.Executed)
  && bool_decide (ToolCallRecord.tool record <> "journal").
Definition exploration_action_summary_from_tool_records (records : list ToolCallRecord.t)
    : option string :=
  ToolCallRecord.tool <$> find tool_record_counts_as_bounded_exploration_action (rev records).

Definition count {A} (p : A -> bool) (l : list A) : N := N.of_nat (length (List.filter p l)).

Definition render_tool_results_reply (tool_calls : list ToolCallRecord.t) : option string :=
  if bool_decide (tool_calls = []) then None
  else
    let head := "result: tools succeeded=" +:+ pretty (count is_executed_success tool_calls)
      +:+ " failed=" +:+ pretty (count is_executed_failure tool_calls)
      +:+ " suppressed="
      +:+ pretty (count (fun call => is_suppressed_outcome (ToolCallRecord.outcome call)) tool_calls)
      +:+ " blocked=" +:+ pretty (count is_blocked tool_calls) +:+ "." in
    Some (join newline (head :: ((fun call => "- " +:+ summarize_tool_call call) <$> tool_calls))).

Section Json.
Context `{libs : StrategyLibs}.

Definition json_object (members : list (string * Value.t)) : Value.t :=
  Value.Object (list_to_map members).
Definition json_nat (n : nat) : Value.t := Value.Number (JsonNumber.PosInt (N.of_nat n)).

Definition format_terminal_tool_execution_error (tool_failures : list ToolCallRecord.t) : string :=
  if bool_decide (tool_failures = []) then "tool execution reported failures"
  else
    let failures := (fun record =>
        let tool := trim (ToolCallRecord.tool record) in
        json_object
          [("tool", Value.String (if is_empty tool then "unknown_tool" else tool));
           ("reason", Value.String (sanitize_preview (failure_reason record) 180))])
      <$> take 3 tool_failures in
    let shown := length failures in
    let payload := json_object
      [("count", json_nat (length tool_failures)); ("shown", json_nat shown);
       ("omitted", json_nat (length tool_failures - shown)); ("failures", Value.Array failures)] in
    "tool execution reported failures: " +:+ value_text payload.

Definition outcome_debug (outcome : ToolCallOutcome.t) : string :=
  match outcome with
  | ToolCallOutcome.Executed => "Executed"
  | ToolCallOutcome.SuppressedDedupe => "SuppressedDedupe"
  | ToolCallOutcome.SuppressedFailureCooldown => "SuppressedFailureCooldown"
  | ToolCallOutcome.BlockedSequence => "BlockedSequence"
  end.

(** Serde writes a unit variant as its name. *)
Definition failure_kind_value (kind : ToolFailureKind.t) : Value.t :=
  Value.String
    match kind with
    | ToolFailureKind.MalformedInput => "MalformedInput"
    | ToolFailureKind.OutcallFailure => "OutcallFailure"
    | ToolFailureKind.InternalFailure => "InternalFailure"
    end.

Definition continuation_tool_content (record : ToolCallRecord.t) : string :=
  value_text (json_object
    [("success", Value.Bool (ToolCallRecord.success record));
     ("outcome", Value.String (outcome_debug (ToolCallRecord.outcome record)));
     ("output", Value.String (ToolCallRecord.output record));
     ("error", from_option Value.String Value.Null (ToolCallRecord.error record));
     ("failure_kind", from_option failure_kind_value Value.Null (ToolCallRecord.failure_kind record))]).
End Json.

(** ** Fingerprints *)

(** A member of an object that is a string. *)
Definition str_member (key : string) (object : gmap string Value.t) : option string :=
  object !! key ≫= Value.as_str.

Definition nonempty (text : string) : option string := if is_empty text then None else Some text.

Fixpoint json_shape_signature (value : Value.t) : string :=
  match value with
  | Value.Null => "null"
  | Value.Bool _ => "bool"
  | Value.Number _ => "number"
  | Value.String _ => "string"
  | Value.Array items => "[" +:+ join "," (json_shape_signature <$> items) +:+ "]"
  | Value.Object members =>
      "{" +:+ join "," ((fun '(key, signature) => key +:+ ":" +:+ signature)
                        <$> btree_iter (json_shape_signature <$> members)) +:+ "}"
  end.

Definition extract_https_host_for_scope (raw_url : string) : option string :=
  remainder ← strip_prefix (trim raw_url) "https://";
  let authority := take_until ["/"; "?"; "#"] remainder in
  if is_empty authority || contains authority "@" || starts_with authority "[" then None
  else nonempty (to_ascii_lowercase (trim (first_segment ":" authority))).

Definition member_or (fallback key : string) (object : gmap string Value.t) : string :=
  default fallback
    (text ← str_member key object; nonempty (to_ascii_lowercase (trim text))).

Definition extract_mode (object : gmap string Value.t) : string :=
  default "none"
    (extract ← object !! "extract"; mode ← Value.get "mode" extract; text ← Value.as_str mode;
     Some (to_ascii_lowercase (trim text))).

Section Fingerprints.
Context `{ext : Externals, libs : StrategyLibs}.

Definition canonical_tool_args_json_for_fingerprint (tool args_json : string) : string :=
  let trimmed := trim args_json in
  if is_empty trimmed then "{}"
  else
    match value_from_str trimmed with
    | Ok value =>
        let tool_name := trim tool in
        value_text
          match (if bool_decide (tool_name = "remember") || bool_decide (tool_name = "forget")
                 then members ← Value.as_object value;
                      raw_key ← str_member "key" members;
                      Some (members, canonicalize_memory_key_for_dedupe raw_key)
                 else None) with
          | Some (members, Ok canonical_key) =>
              Value.Object (<["key" := Value.String canonical_key]> members)
          | _ => value
          end
    | Err _ => trimmed
    end.

Definition tool_call_fingerprint (tool args_json : string) : string :=
  hex_encode (keccak256
    (as_bytes (trim tool +:+ ":" +:+ canonical_tool_args_json_for_fingerprint tool args_json))).

Definition is_config_endpoint_recall (call : ToolCall.t) : bool :=
  if bool_decide (trim (ToolCall.tool call) <> "recall") then false
  else
    match value_from_str (ToolCall.args_json call) with
    | Err _ => false
    | Ok args =>
        match (members ← Value.as_object args; str_member "prefix" members) with
        | Some prefix => starts_with (to_ascii_lowercase (trim prefix)) "config.endpoint."
        | None => false
        end
    end.

Definition tool_failure_scope_shape_signature (args_json : string) : string :=
  let trimmed := trim args_json in
  if is_empty trimmed then "empty"
  else
    match value_from_str trimmed with
    | Err _ => "raw"
    | Ok value => json_shape_signature value
    end.

Definition tool_failure_scope_discriminator (tool args_json : string) : string :=
  match value_from_str args_json with
  | Err _ => "raw"
  | Ok value =>
      match Value.as_object value with
      | None => "non_object"
      | Some object =>
          let tool := trim tool in
          if bool_decide (tool = "http_fetch") then
            "host=" +:+ default "unknown"
              (url ← str_member "url" object; extract_https_host_for_scope url)
            +:+ ";mode=" +:+ extract_mode object
          else if bool_decide (tool = "market_fetch") then
            "provider=" +:+ member_or "unknown" "provider" object
            +:+ ";endpoint=" +:+ member_or "unknown" "endpoint" object
            +:+ ";mode=" +:+ extract_mode object
          else if bool_decide (tool = "evm_read") then
            "method=" +:+ default "missing"
              (method ← str_member "method" object; Some (to_ascii_lowercase (trim method)))
          else if bool_decide (tool = "remember") then
            "namespace=" +:+ default "unknown"
              (raw ← str_member "key" object;
               match canonicalize_memory_key_for_dedupe raw with
               | Ok key => nonempty (join "." (take 2 (split_on "." key)))
               | Err _ => None
               end)
          else "none"
      end
  end.

Definition tool_failure_scope_fingerprint (tool args_json : string) : string :=
  hex_encode (keccak256
    (as_bytes (trim tool +:+ ":" +:+ tool_failure_scope_shape_signature args_json
               +:+ ":" +:+ tool_failure_scope_discriminator tool args_json))).

(** ** Suppression *)

Definition autonomy_dedupe_window_ns (config : AutonomySuppressionConfig.t) : N :=
  secs_to_ns (AutonomySuppressionConfig.dedupe_window_secs config).

(** The cooldown of a call, of its own or of its scope. *)
Definition call_cooldown (call : ToolCall.t) (now_ns : N) (s : Desk.t)
    : option AutonomyToolFailureCooldown.t :=
  match autonomy_tool_failure_cooldown
          (tool_call_fingerprint (ToolCall.tool call) (ToolCall.args_json call)) now_ns s with
  | Some cooldown => Some cooldown
  | None =>
      autonomy_tool_failure_class_scope_cooldown (ToolCall.tool call)
        (tool_failure_scope_fingerprint (ToolCall.tool call) (ToolCall.args_json call)) now_ns s
  end.

Definition suppression_reason (call : ToolCall.t) (now_ns : N)
    (config : AutonomySuppressionConfig.t) (s : Desk.t) : option AutonomySuppressionReason.t :=
  if is_config_endpoint_recall call then None
  else
    let fingerprint := tool_call_fingerprint (ToolCall.tool call) (ToolCall.args_json call) in
    match (if AutonomySuppressionConfig.tool_dedupe_enabled config
           then last_success_ns ← autonomy_tool_last_success_ns fingerprint s;
                let elapsed_ns := saturating_sub now_ns last_success_ns in
                if (elapsed_ns <? autonomy_dedupe_window_ns config)%N then Some elapsed_ns else None
           else None) with
    | Some elapsed_ns => Some (AutonomySuppressionReason.Dedupe (elapsed_ns / 1000000000))
    | None =>
        cooldown ← call_cooldown call now_ns s;
        Some (AutonomySuppressionReason.FailureCooldown
                (saturating_sub (AutonomyToolFailureCooldown.cooldown_until_ns cooldown) now_ns
                 / 1000000000)
                (AutonomyToolFailureCooldown.normalized_error cooldown)
                (AutonomyToolFailureCooldown.repeat_count cooldown))
    end.

Fixpoint suppress_from (index : nat) (calls : list ToolCall.t) (now_ns : N)
    (config : AutonomySuppressionConfig.t) (s : Desk.t) : list SuppressedAutonomyToolCall.t :=
  match calls with
  | [] => []
  | call :: calls =>
      match suppression_reason call now_ns config s with
      | Some reason => SuppressedAutonomyToolCall.mk index call reason
                       :: suppress_from (S index) calls now_ns config s
      | None => suppress_from (S index) calls now_ns config s
      end
  end.

Definition suppress_autonomy_tool_calls (calls : list ToolCall.t) (now_ns : N)
    (config : AutonomySuppressionConfig.t) (s : Desk.t) : list SuppressedAutonomyToolCall.t :=
  suppress_from 0 calls now_ns config s.
End Fingerprints.

(** ** Synthetic records *)

Definition synthetic_record (turn_id : string) (call : ToolCall.t) (output : string)
    (outcome : ToolCallOutcome.t) (error : option string) : ToolCallRecord.t :=
  ToolCallRecord.mk turn_id (ToolCall.tool call) (ToolCall.args_json call) output false outcome
    error None.

Definition synthetic_dedupe_suppressed_tool_record (turn_id : string) (call : ToolCall.t)
    (age_secs dedupe_window_secs : N) : ToolCallRecord.t :=
  synthetic_record turn_id call
    (AUTONOMY_DEDUPE_SKIP_REASON +:+ ": last success " +:+ pretty age_secs
     +:+ " seconds ago within " +:+ pretty dedupe_window_secs +:+ " second window")
    ToolCallOutcome.SuppressedDedupe None.

Definition synthetic_sequence_blocked_tool_record (turn_id : string) (call : ToolCall.t)
    (reason : string) : ToolCallRecord.t :=
  let message := TOOL_SEQUENCE_VALIDATOR_BLOCK_PREFIX +:+ ": " +:+ reason in
  synthetic_record turn_id call message ToolCallOutcome.BlockedSequence (Some message).

Definition synthetic_runtime_restricted_tool_record (turn_id : string) (call : ToolCall.t)
    (reason : string) : ToolCallRecord.t :=
  let message := AUTONOMY_TOOL_SCOPE_BLOCK_PREFIX +:+ ": " +:+ reason in
  synthetic_record turn_id call message ToolCallOutcome.BlockedSequence (Some message).

Definition is_sequence_validator_block (record : ToolCallRecord.t) : bool :=
  is_blocked record
  || is_some_and (fun error => starts_with error TOOL_SEQUENCE_VALIDATOR_BLOCK_PREFIX)
       (ToolCallRecord.error record).

Definition synthetic_failure_suppressed_tool_record (turn_id : string) (call : ToolCall.t)
    (remaining_secs : N) (normalized_error : string) (repeat_count : N) : ToolCallRecord.t :=
  synthetic_record turn_id call
    (AUTONOMY_FAILURE_COOLDOWN_SKIP_REASON +:+ ": repeat_count=" +:+ pretty repeat_count
     +:+ " remaining_secs=" +:+ pretty remaining_secs
     +:+ " last_error=" +:+ sanitize_preview normalized_error 180)
    ToolCallOutcome.SuppressedFailureCooldown None.

Definition synthetic_consecutive_degrade_cap_tool_record (turn_id : string) (call : ToolCall.t)
    (consecutive_degrade_count : N) (error_class : string) : ToolCallRecord.t :=
  synthetic_record turn_id call
    (AUTONOMY_FAILURE_COOLDOWN_SKIP_REASON +:+ ": consecutive_degrade_count="
     +:+ pretty consecutive_degrade_count
     +:+ " error_class=" +:+ sanitize_preview error_class 120)
    ToolCallOutcome.SuppressedFailureCooldown None.

(** ** Failures that degrade a turn *)

Definition normalized_record_error (record : ToolCallRecord.t) : option string :=
  error ← ToolCallRecord.error record; Some (to_ascii_lowercase (trim error)).

Definition is_http_fetch_recoverable_failure (record : ToolCallRecord.t) : bool :=
  if bool_decide (ToolCallRecord.tool record ∉ ["http_fetch"; "market_fetch"]) then false
  else is_some_and (fun normalized =>
         starts_with normalized "json_path extraction failed:"
         || starts_with normalized "regex extraction failed:"
         || starts_with normalized "http 4"
         || contains normalized "http body exceeds size limit"
         || contains normalized "response exceeded max_response_bytes")
       (normalized_record_error record).

Definition is_remember_capacity_failure (record : ToolCallRecord.t) : bool :=
  bool_decide (ToolCallRecord.tool record = "remember")
  && is_some_and (fun normalized => starts_with normalized "memory full:")
       (normalized_record_error record).

Definition is_malformed_autonomy_tool_arg_failure (record : ToolCallRecord.t) : bool :=
  bool_decide (ToolCallRecord.failure_kind record = Some ToolFailureKind.MalformedInput).

Definition should_degrade_tool_failures_for_autonomy (tool_failures : list ToolCallRecord.t)
    (has_external_input : bool) : bool :=
  if has_external_input || bool_decide (tool_failures = []) then false
  else forallb (fun record => is_http_fetch_recoverable_failure record
                              || is_remember_capacity_failure record
                              || is_malformed_autonomy_tool_arg_failure record) tool_failures.

Definition classify_tool_failure_for_degrade_counter (record : ToolCallRecord.t)
    : option (string * string * string) :=
  let normalized := normalize_tool_failure_reason (failure_reason record) in
  if is_empty normalized then None
  else
    let tool := canonicalize_tool_name (ToolCallRecord.tool record) in
    let error_class := normalize_tool_failure_class tool normalized in
    Some (consecutive_degrade_fingerprint_key tool error_class, tool, error_class).

(** ** Rounds that degrade in a row

    The two maps of a turn: how often each failure has come in a row, and the
    tools that reached the cap. *)
Module DegradeTracking.
Record t := mk {
  consecutive_degrade_count : gmap string N;
  consecutive_degrade_cap_by_tool : gmap string ConsecutiveDegradeCapState.t;
}.
#[global] Instance eta_t : Eta t := fun self =>
  mk (consecutive_degrade_count self) (consecutive_degrade_cap_by_tool self).
Definition new : t := mk ∅ ∅.
End DegradeTracking.

Definition clear_consecutive_degrade_tracking_for_tool (tool : string) (tracking : DegradeTracking.t)
    : DegradeTracking.t :=
  let normalized_tool := canonicalize_tool_name tool in
  tracking <| DegradeTracking.consecutive_degrade_count ::=
                filter (fun entry => starts_with entry.1 (normalized_tool +:+ ":") = false) |>
           <| DegradeTracking.consecutive_degrade_cap_by_tool ::= delete normalized_tool |>.

(** [entry(fingerprint).or_insert(..)] for each record that has a class. *)
Definition observe_fingerprint (observed : gmap string (string * string)) (record : ToolCallRecord.t)
    : gmap string (string * string) :=
  match classify_tool_failure_for_degrade_counter record with
  | None => observed
  | Some (fingerprint, tool, error_class) =>
      if is_some (observed !! fingerprint) then observed
      else <[fingerprint := (tool, error_class)]> observed
  end.
Definition observed_fingerprints (failed_tool_records : list ToolCallRecord.t)
    : gmap string (string * string) := foldl observe_fingerprint ∅ failed_tool_records.

Definition bump_one (state : DegradeTracking.t * list string)
    (observed : string * (string * string)) : DegradeTracking.t * list string :=
  let '(tracking, newly_capped_details) := state in
  let '(fingerprint, (tool, error_class)) := observed in
  let next := saturating_add 32
    (default 0%N (DegradeTracking.consecutive_degrade_count tracking !! fingerprint)) 1 in
  let tracking :=
    tracking <| DegradeTracking.consecutive_degrade_count ::= <[fingerprint := next]> |> in
  if (AUTONOMY_CONSECUTIVE_DEGRADE_CAP <=? next)%N
     && negb (is_some (DegradeTracking.consecutive_degrade_cap_by_tool tracking !! tool))
  then (tracking <| DegradeTracking.consecutive_degrade_cap_by_tool ::=
          <[tool := ConsecutiveDegradeCapState.mk next error_class]> |>,
        newly_capped_details ++ [tool +:+ " consecutive_degrade_count=" +:+ pretty next
                                 +:+ " error_class=" +:+ error_class])
  else (tracking, newly_capped_details).

Definition bump_consecutive_degrade_counts (failed_tool_records : list ToolCallRecord.t)
    (tracking : DegradeTracking.t) : DegradeTracking.t * list string :=
  let observed := observed_fingerprints failed_tool_records in
  if bool_decide (observed = ∅)
  then (tracking <| DegradeTracking.consecutive_degrade_count := ∅ |>, [])
  else
    foldl bump_one
      (tracking <| DegradeTracking.consecutive_degrade_count ::=
         filter (fun entry => is_some (observed !! entry.1) = true) |>, [])
      (btree_iter observed).

(** ** Reflections on a tool call *)

Definition lower_member (key : string) (object : gmap string Value.t) : option string :=
  text ← str_member key object; nonempty (to_ascii_lowercase (trim text)).

Definition reflection_market_fetch_subject (args : option Value.t) : string :=
  match args ≫= Value.as_object with
  | None => "market_fetch"
  | Some object =>
      match lower_member "provider" object, lower_member "endpoint" object with
      | Some provider, Some endpoint => provider +:+ ":" +:+ endpoint
      | _, _ => "market_fetch"
      end
  end.

(** [trim_matches(|ch| ch == '[' || ch == ']')]. *)
Definition trim_brackets (text : string) : string :=
  concat_str (trim_list (fun c => bool_decide (c ∈ ["["; "]"])) (chars text)).

Definition extract_reflection_http_host (raw_url : string) : option string :=
  let trimmed := trim raw_url in
  let without_scheme :=
    match strip_prefix trimmed "https://" with
    | Some rest => rest
    | None => default trimmed (strip_prefix trimmed "http://")
    end in
  let authority := default "" (last (split_on "@" (take_until ["/"; "?"; "#"] without_scheme))) in
  nonempty (to_ascii_lowercase (trim (first_segment ":" (trim_brackets (trim authority))))).

Definition reflection_http_fetch_subject (args : option Value.t) : string :=
  let host :=
    object ← args ≫= Value.as_object; url ← str_member "url" object;
    extract_reflection_http_host url in
  match host with
  | Some host =>
      if bool_decide (host ∈ ["api.dexscreener.com"; "dexscreener.com"; "www.dexscreener.com"])
      then "config.endpoint.dexscreener.raw_http.latest"
      else if bool_decide (host ∈ ["api.coingecko.com"; "coingecko.com"; "www.coingecko.com"])
      then "config.endpoint.coingecko.raw_http.latest"
      else host
  | None => "http_fetch"
  end.

Definition reflection_evm_read_subject (args : option Value.t) : string :=
  default "evm_read"
    (object ← args ≫= Value.as_object; method ← str_member "method" object; nonempty (trim method)).

Definition reflection_memory_key_prefix (key : string) : string :=
  match filter (fun segment => is_empty segment = false) (split_on "." key) with
  | [] => ""
  | [first] => first
  | first :: second :: _ => first +:+ "." +:+ second
  end.

Definition reflection_remember_subject (args : option Value.t) (record : ToolCallRecord.t) : string :=
  if is_remember_capacity_failure record then "memory_capacity"
  else
    match (object ← args ≫= Value.as_object; str_member "key" object) with
    | None => "remember"
    | Some key =>
        default "remember"
          match canonicalize_memory_key_for_dedupe key with
          | Ok normalized => nonempty (reflection_memory_key_prefix normalized)
          | Err _ => None
          end
    end.

Definition reflection_failure_summary (error_class : string) : string :=
  concat_str ((fun c => if bool_decide (c = "_") then " " else c) <$> chars error_class).

Definition reflection_failure_hint (tool subject : string) : string :=
  if bool_decide (tool = "market_fetch")
  then "use canonical provider:endpoint params + extract until endpoint is verified"
  else if bool_decide (tool = "http_fetch") then "verify allowlisted host and extract"
  else if bool_decide (tool = "evm_read") then
    if bool_decide (subject = "eth_call") then "use address + calldata"
    else if bool_decide (subject ∈ ["eth_getBalance"; "eth_getTransactionCount"]) then "use address"
    else "use method-specific required fields"
  else if bool_decide (tool = "remember") then
    if bool_decide (subject = "memory_capacity") then "avoid remember when memory is at cap"
    else "use normalized key + scalar value"
  else "do not retry unchanged args".

Definition reflection_what_failed (tool subject error_class : string) : string :=
  tool +:+ "[" +:+ subject +:+ "] failed: " +:+ reflection_failure_summary error_class +:+ "; "
  +:+ reflection_failure_hint tool subject.

Definition normalize_market_fetch_param_key (provider endpoint key : string) : string :=
  if bool_decide (provider = "dexscreener" /\ endpoint = "search_pairs" /\ key = "query") then "q"
  else if bool_decide (provider = "dexscreener" /\ key = "chainId") then "chain_id"
  else to_ascii_lowercase (trim key).

(** [sort_unstable] then [dedup]: the distinct keys in order. *)
Definition sorted_keys (keys : list string) : list string :=
  btree_keys (list_to_map ((fun key => (key, tt)) <$> keys) : gmap string unit).

Definition reflection_market_fetch_success_hint (args : option Value.t) : string :=
  match args ≫= Value.as_object with
  | None => "worked recently with provider + endpoint"
  | Some object =>
      let provider := default "" (lower_member "provider" object) in
      let endpoint := default "" (lower_member "endpoint" object) in
      let param_keys :=
        match object !! "params" ≫= Value.as_object with
        | Some params =>
            sorted_keys (normalize_market_fetch_param_key provider endpoint <$> btree_keys params)
        | None => []
        end in
      if bool_decide (param_keys = []) then "worked recently with provider + endpoint"
      else "worked recently with "
           +:+ join " + " ((fun key => "params." +:+ key) <$> take 3 param_keys)
  end.

Definition reflection_http_fetch_success_hint (args : option Value.t) (subject : string) : string :=
  let has_extract := is_some (object ← args ≫= Value.as_object; object !! "extract") in
  match starts_with subject "config.endpoint.", has_extract with
  | true, true => "worked recently with " +:+ subject +:+ " + extract"
  | true, false => "worked recently with " +:+ subject
  | false, true => "worked recently with host + extract"
  | false, false => "worked recently with allowlisted host"
  end.

Definition reflection_evm_read_success_hint (args : option Value.t) (subject : string) : string :=
  if bool_decide (subject = "eth_call") then "worked recently with address + calldata"
  else if bool_decide (subject ∈ ["eth_getBalance"; "eth_getTransactionCount"])
  then "worked recently with address"
  else if bool_decide (subject = "eth_blockNumber") then "worked recently with method only"
  else if is_some (object ← args ≫= Value.as_object; object !! "params_json")
  then "worked recently with params_json"
  else "worked recently with method-specific args".

Definition reflection_remember_success_hint (subject : string) : option string :=
  if bool_decide (subject = "memory_capacity") then None
  else Some "worked recently with key + scalar value".

Section Reflection.
Context `{ext : Externals, libs : StrategyLibs, rows : RowOrder}.

Definition parse_tool_args_json (args_json : string) : option Value.t :=
  match value_from_str args_json with Ok value => Some value | Err _ => None end.

Definition reflection_memory_subject (record : ToolCallRecord.t) : string :=
  let tool := canonicalize_tool_name (ToolCallRecord.tool record) in
  let args := parse_tool_args_json (ToolCallRecord.args_json record) in
  if bool_decide (tool = "market_fetch") then reflection_market_fetch_subject args
  else if bool_decide (tool = "http_fetch") then reflection_http_fetch_subject args
  else if bool_decide (tool = "evm_read") then reflection_evm_read_subject args
  else if bool_decide (tool = "remember") then reflection_remember_subject args record
  else tool.

Definition reflection_what_worked (record : ToolCallRecord.t) (subject : string) : option string :=
  let tool := canonicalize_tool_name (ToolCallRecord.tool record) in
  let args := parse_tool_args_json (ToolCallRecord.args_json record) in
  if bool_decide (tool = "market_fetch") then Some (reflection_market_fetch_success_hint args)
  else if bool_decide (tool = "http_fetch") then Some (reflection_http_fetch_success_hint args subject)
  else if bool_decide (tool = "evm_read") then Some (reflection_evm_read_success_hint args subject)
  else if bool_decide (tool = "remember") then reflection_remember_success_hint subject
  else Some "worked recently with validated args".

Definition persist_reflection_memory_success_for_record (turn_id : string)
    (record : ToolCallRecord.t) (now_ns : N) (s : Desk.t) : Desk.t :=
  if negb (is_executed_success record) then s
  else
    let subject := reflection_memory_subject record in
    match reflection_what_worked record subject with
    | None => s
    | Some what_worked =>
        update_reflection_memory_what_worked (canonicalize_tool_name (ToolCallRecord.tool record))
          subject what_worked turn_id now_ns s
    end.

Definition learn_lesson (lessons : gmap (string * string * string) string)
    (record : ToolCallRecord.t) : gmap (string * string * string) string :=
  match classify_tool_failure_for_degrade_counter record with
  | None => lessons
  | Some (_, tool, error_class) =>
      let subject := reflection_memory_subject record in
      if is_some (lessons !! (tool, subject, error_class)) then lessons
      else <[(tool, subject, error_class) := reflection_what_failed tool subject error_class]> lessons
  end.

(** A lesson that is refused is logged. *)
Definition persist_reflection_memory_degraded_lessons (turn_id : string)
    (failed_tool_records : list ToolCallRecord.t) (now_ns : N) : T unit :=
  for_each (btree_iter (foldl learn_lesson ∅ failed_tool_records))
    (fun '((tool, subject, error_class), what_failed) =>
      (catch (upsert_reflection_memory_degraded_lesson
        (ReflectionMemoryDegradedLesson.mk tool subject error_class what_failed None turn_id
           ReflectionOrigin.Autonomy now_ns)) : T _);; mret tt).
End Reflection.

(** ** What a round records *)

Section RecordOutcomes.
Context `{ext : Externals, libs : StrategyLibs}.

Definition record_failed_call (call : ToolCall.t) (record : ToolCallRecord.t) (recorded_at_ns : N)
    (config : AutonomySuppressionConfig.t) (s : Desk.t) : Desk.t :=
  let tool := ToolCall.tool call in
  let args := ToolCall.args_json call in
  let normalized := normalize_tool_failure_reason (failure_reason record) in
  if is_empty normalized then s
  else
    record_autonomy_tool_failure_class_scope tool (tool_failure_scope_fingerprint tool args)
      (normalize_tool_failure_class tool normalized) normalized recorded_at_ns
      (AutonomySuppressionConfig.failure_repeat_window_secs config)
      (AutonomySuppressionConfig.failure_repeat_threshold config)
      (AutonomySuppressionConfig.failure_cooldown_secs config)
      (record_autonomy_tool_failure (tool_call_fingerprint tool args) normalized recorded_at_ns
         (AutonomySuppressionConfig.failure_repeat_window_secs config)
         (AutonomySuppressionConfig.failure_repeat_threshold config)
         (AutonomySuppressionConfig.failure_cooldown_secs config) s).

Definition record_one_outcome (recorded_at_ns : N) (config : AutonomySuppressionConfig.t)
    (s : Desk.t) (entry : ToolCall.t * PlannedToolCallExecution.t * ToolCallRecord.t) : Desk.t :=
  let '(call, execution, record) := entry in
  match execution with
  | PlannedToolCallExecution.Execute =>
      let tool := ToolCall.tool call in
      let args := ToolCall.args_json call in
      let fingerprint := tool_call_fingerprint tool args in
      if ToolCallRecord.success record then
        clear_autonomy_tool_failure_class_scope tool (tool_failure_scope_fingerprint tool args)
          (clear_autonomy_tool_failure fingerprint
             (record_autonomy_tool_success fingerprint recorded_at_ns s))
      else if is_sequence_validator_block record then s
      else record_failed_call call record recorded_at_ns config s
  | _ => s
  end.

Definition record_autonomy_tool_outcomes (planned_tool_calls : list ToolCall.t)
    (planned_execution : list PlannedToolCallExecution.t)
    (round_tool_records : list ToolCallRecord.t) (recorded_at_ns : N)
    (config : AutonomySuppressionConfig.t) (s : Desk.t) : Desk.t :=
  foldl (record_one_outcome recorded_at_ns config) s
    (zip (zip planned_tool_calls planned_execution) round_tool_records).
End RecordOutcomes.

(** ** Calls, segments and waits of a turn *)

Definition normalize_tool_call_id (round_index tool_index : nat) (call : ToolCall.t) : ToolCall.t :=
  let fallback := "round-" +:+ pretty (N.of_nat round_index) +:+ "-tool-"
                  +:+ pretty (N.of_nat tool_index) in
  call <| ToolCall.tool_call_id := Some (default fallback
            (id ← ToolCall.tool_call_id call; nonempty (trim id))) |>
       <| ToolCall.tool := canonicalize_tool_name (ToolCall.tool call) |>.
Definition normalize_tool_call_ids (calls : list ToolCall.t) (round_index : nat)
    : list ToolCall.t := imap (normalize_tool_call_id round_index) calls.

Definition append_inner_dialogue (segment : string) (inner_dialogue : option string)
    : option string :=
  let trimmed := trim segment in
  if is_empty trimmed then inner_dialogue
  else
    match inner_dialogue with
    | Some current => Some (current +:+ newline +:+ newline +:+ trimmed)
    | None => Some trimmed
    end.

Definition should_skip_periodic_turn_for_proxy_wait (trigger : ScheduledTurnTrigger.t)
    (staged_message_count : nat) (s : Desk.t) : bool :=
  match trigger with
  | ScheduledTurnTrigger.Periodic =>
      if bool_decide (staged_message_count <> 0) then false
      else if bool_decide (RuntimeSnapshot.inference_provider (snapshot_of s)
                           <> InferenceProvider.OpenRouterProxyWorker) then false
      else has_pending_inference_proxy_jobs s
           && negb (has_buffered_inference_proxy_callback_results s)
  | _ => false
  end.

Definition should_apply_autonomy_suppression (trigger : ScheduledTurnTrigger.t)
    (has_external_input : bool) (inference_round_count : nat) : bool :=
  match trigger with
  | ScheduledTurnTrigger.Periodic => negb has_external_input && bool_decide (inference_round_count = 1)
  | _ => false
  end.

Definition load_staged_inbox_proxy_wait_state (staged_message_ids : list string) (s : Desk.t)
    : option InboxProxyWaitState.t :=
  head (omap (fun id => get_inbox_proxy_wait_state id s) staged_message_ids).

Definition persist_inbox_proxy_wait_state_for_staged_messages (staged_message_ids : list string)
    (state : InboxProxyWaitState.t) : T unit :=
  for_each staged_message_ids (fun inbox_message_id =>
    (catch (upsert_inbox_proxy_wait_state
      (state <| InboxProxyWaitState.inbox_message_id := inbox_message_id |>)) : T _);; mret tt).

Definition should_fail_close_proxy_wait (state : InboxProxyWaitState.t) (now_ns : N) : bool :=
  let max_wait_age_ns := secs_to_ns
    (saturating_add 64 INFERENCE_PROXY_PENDING_JOB_TTL_SECS PROXY_WAIT_FAIL_CLOSE_GRACE_SECS) in
  let wait_age_ns := saturating_sub now_ns (InboxProxyWaitState.started_at_ns state) in
  (PROXY_WAIT_MAX_ATTEMPTS_FOR_STAGED_INBOX <=? InboxProxyWaitState.wait_attempts state)%N
  || (max_wait_age_ns <=? wait_age_ns)%N.

Definition proxy_wait_fail_close_reply (state : InboxProxyWaitState.t) : string :=
  let job := default "unknown" (InboxProxyWaitState.pending_job_id state) in
  "My inference window closed before completion (job_id=" +:+ job
  +:+ "). A later paid message can reopen the correspondence.".

Definition missing_final_reply_fallback : string :=
  "I produced no final reply in this turn. A later paid message can reopen the correspondence.".
