(* ===== verification/TurnPolicyFacts.v ===== *)
(** * TurnPolicyFacts: what suppression and degradation amount to

    [degrade_tracking_refines]: the two maps of a turn hold, for each failure,
    the length of its run of degraded rounds, and the tools of which a run
    reached the cap.  [success_suppresses] and [failures_suppress]: a call that
    succeeded is skipped within the window, and one that failed the same way
    often enough until its cooldown is over.  [class_scope_blind]: where five
    hundred calls failed, the cooldown of a scope is not seen. *)

From S2P Require Import Prelude Text SpawnProtocol Types Externals AgentTypes AgentStore AgentScheduler StrategyTypes StrategyStore StrategyPolicy TurnTypes TurnStore Sanitize TurnText TurnPolicy.
From Stdlib Require Import Ascii.

(** ** Runs of degraded rounds *)

(** What a turn does to its tracking: a round whose failures degrade it, and a
    tool that succeeded. *)
Inductive degrade_event :=
| Degraded (failed_tool_records : list ToolCallRecord.t)
| Succeeded (tool : string).

Definition track (tracking : DegradeTracking.t) (event : degrade_event) : DegradeTracking.t :=
  match event with
  | Degraded records => (bump_consecutive_degrade_counts records tracking).1
  | Succeeded tool => clear_consecutive_degrade_tracking_for_tool tool tracking
  end.

(** The abstract counters: a run grows with each round that has the failure,
    and ends with one that has not, or when the tool succeeds. *)
Definition run_step (fingerprint : string) (run : N) (event : degrade_event) : N :=
  match event with
  | Degraded records =>
      if is_some (observed_fingerprints records !! fingerprint)
      then saturating_add 32 run 1 else 0%N
  | Succeeded tool =>
      if starts_with fingerprint (canonicalize_tool_name tool +:+ ":") then 0%N else run
  end.
Definition run (fingerprint : string) (events : list degrade_event) : N :=
  foldl (run_step fingerprint) 0%N events.

(** A tool is capped from the round in which one of its failures reaches the
    cap until it succeeds. *)
Definition capped_step (tool : string) (before : list degrade_event) (capped : Prop)
    (event : degrade_event) : Prop :=
  match event with
  | Degraded records =>
      capped \/ exists fingerprint error_class,
        observed_fingerprints records !! fingerprint = Some (tool, error_class)
        /\ (AUTONOMY_CONSECUTIVE_DEGRADE_CAP <= run fingerprint (before ++ [event]))%N
  | Succeeded tool' => canonicalize_tool_name tool' <> tool /\ capped
  end.
Fixpoint capped_from (tool : string) (before : list degrade_event) (capped : Prop)
    (events : list degrade_event) : Prop :=
  match events with
  | [] => capped
  | event :: events =>
      capped_from tool (before ++ [event]) (capped_step tool before capped event) events
  end.
Definition capped (tool : string) (events : list degrade_event) : Prop :=
  capped_from tool [] False events.

(** The count of a failure after a round that observed [observed]. *)
Definition bumped (count : option N) : N := saturating_add 32 (default 0%N count) 1.

Lemma bump_one_count tracking details fingerprint observed key :
  DegradeTracking.consecutive_degrade_count
    (bump_one (tracking, details) (fingerprint, observed)).1 !! key
  = if decide (fingerprint = key)
    then Some (bumped (DegradeTracking.consecutive_degrade_count tracking !! fingerprint))
    else DegradeTracking.consecutive_degrade_count tracking !! key.
Proof.
  destruct observed as [tool error_class]. unfold bump_one.
  destruct (_ && _); cbn [fst]; simpl_set; simpl; destruct (decide (fingerprint = key)) as [->|Hne];
    by rewrite ?lookup_insert_eq, ?lookup_insert_ne by done.
Qed.

Lemma bump_all_count (l : list (string * (string * string))) : forall tracking details key,
  NoDup l.*1 ->
  DegradeTracking.consecutive_degrade_count (foldl bump_one (tracking, details) l).1 !! key
  = if decide (key ∈ l.*1)
    then Some (bumped (DegradeTracking.consecutive_degrade_count tracking !! key))
    else DegradeTracking.consecutive_degrade_count tracking !! key.
Proof.
  induction l as [|[fingerprint observed] l IH]; intros tracking details key Hnodup; [done|].
  apply NoDup_cons in Hnodup as [Hfresh Hnodup]. cbn [foldl].
  destruct (bump_one (tracking, details) (fingerprint, observed)) as [tracking' details'] eqn:Hbump.
  rewrite IH by done. pose proof (bump_one_count tracking details fingerprint observed) as Hcount.
  rewrite Hbump in Hcount. cbn [fst] in Hcount. rewrite Hcount.
  destruct (decide (fingerprint = key)) as [->|Hne].
  - rewrite decide_False by done. rewrite decide_True by left. done.
  - destruct (decide (key ∈ l.*1)) as [Hin|Hout].
    + rewrite decide_True by (right; exact Hin). done.
    + rewrite decide_False; [done|]. simpl. set_solver.
Qed.

Lemma bump_count records tracking key :
  DegradeTracking.consecutive_degrade_count (bump_consecutive_degrade_counts records tracking).1 !! key
  = if is_some (observed_fingerprints records !! key)
    then Some (bumped (DegradeTracking.consecutive_degrade_count tracking !! key)) else None.
Proof.
  unfold bump_consecutive_degrade_counts. set (observed := observed_fingerprints records).
  case_bool_decide as Hempty.
  - rewrite Hempty. cbn [fst]. simpl_set. by rewrite !lookup_empty.
  - rewrite bump_all_count by apply NoDup_btree_keys. simpl_set.
    change (btree_iter observed).*1 with (btree_keys observed).
    assert (forall count, filter (fun entry => is_some (observed !! entry.1) = true)
        (DegradeTracking.consecutive_degrade_count tracking) !! key = Some count <->
      is_some (observed !! key) = true
      /\ DegradeTracking.consecutive_degrade_count tracking !! key = Some count) as Hfilter.
    { intros count. rewrite map_lookup_filter_Some. simpl. tauto. }
    destruct (filter _ _ !! key) as [count|] eqn:Hcount.
    + destruct (proj1 (Hfilter count) eq_refl) as [Hsome ->]. rewrite Hsome.
      rewrite decide_True; [done|]. apply elem_of_btree_keys. by destruct (observed !! key).
    + destruct (is_some (observed !! key)) eqn:Hsome.
      * rewrite decide_True by (apply elem_of_btree_keys; by destruct (observed !! key)).
        destruct (DegradeTracking.consecutive_degrade_count tracking !! key) as [count|]; [|done].
        by pose proof (proj2 (Hfilter count) (conj eq_refl eq_refl)).
      * rewrite decide_False; [done|]. rewrite elem_of_btree_keys. by destruct (observed !! key).
Qed.

Lemma run_snoc fingerprint events event :
  run fingerprint (events ++ [event]) = run_step fingerprint (run fingerprint events) event.
Proof. unfold run. by rewrite foldl_app. Qed.

Definition tracked (events : list degrade_event) : DegradeTracking.t :=
  foldl track DegradeTracking.new events.

Lemma tracked_snoc events event : tracked (events ++ [event]) = track (tracked events) event.
Proof. unfold tracked. by rewrite foldl_app. Qed.

Definition nonzero (n : N) : option N := if (n =? 0)%N then None else Some n.

Lemma nonzero_bumped n : nonzero (saturating_add 32 n 1) = Some (bumped (nonzero n)).
Proof.
  unfold bumped, nonzero. destruct (N.eqb_spec n 0) as [->|Hn]; [done|]. cbn [default].
  destruct (N.eqb_spec (saturating_add 32 n 1) 0) as [H|]; [|done].
  unfold saturating_add, max_uint in H. lia.
Qed.

Lemma tracked_count events fingerprint :
  DegradeTracking.consecutive_degrade_count (tracked events) !! fingerprint
  = nonzero (run fingerprint events).
Proof.
  induction events as [|event events IH] using rev_ind; [done|].
  rewrite tracked_snoc, run_snoc. destruct event as [records|tool]; cbn [track run_step].
  - rewrite bump_count, IH. destruct (is_some _); [|done]. symmetry. apply nonzero_bumped.
  - unfold clear_consecutive_degrade_tracking_for_tool. simpl_set.
    set (prefix := canonicalize_tool_name tool +:+ ":").
    set (counts := DegradeTracking.consecutive_degrade_count (tracked events)) in *.
    apply option_eq. intros count. rewrite map_lookup_filter_Some. simpl.
    destruct (starts_with fingerprint prefix); [by split; [intros []|]|].
    rewrite <-IH. tauto.
Qed.

(** ** The cap *)

Lemma bump_one_cap tracking details fingerprint tool' error_class tool :
  is_Some (DegradeTracking.consecutive_degrade_cap_by_tool
    (bump_one (tracking, details) (fingerprint, (tool', error_class))).1 !! tool)
  <-> is_Some (DegradeTracking.consecutive_degrade_cap_by_tool tracking !! tool)
      \/ tool' = tool
         /\ (AUTONOMY_CONSECUTIVE_DEGRADE_CAP
             <= bumped (DegradeTracking.consecutive_degrade_count tracking !! fingerprint))%N.
Proof.
  unfold bump_one. fold (bumped (DegradeTracking.consecutive_degrade_count tracking !! fingerprint)).
  set (next := bumped _). simpl_set.
  destruct (N.leb_spec AUTONOMY_CONSECUTIVE_DEGRADE_CAP next) as [Hcap|Hcap]; cbn [andb].
  - destruct (is_some (_ !! tool')) eqn:Hfound; cbn [negb fst]; simpl_set.
    + split; [by left|]. intros [H|[-> _]]; [done|]. by destruct (_ !! tool).
    + destruct (decide (tool' = tool)) as [->|Hne].
      * rewrite lookup_insert_eq. split; [by right|by eauto].
      * rewrite lookup_insert_ne by done. split; [by left|]. by intros [H|[]].
  - cbn [fst]. simpl_set. split; [by left|]. intros [H|[_ H]]; [done|lia].
Qed.

Lemma bump_all_cap (l : list (string * (string * string))) tool : forall tracking details,
  NoDup l.*1 ->
  is_Some (DegradeTracking.consecutive_degrade_cap_by_tool
    (foldl bump_one (tracking, details) l).1 !! tool)
  <-> is_Some (DegradeTracking.consecutive_degrade_cap_by_tool tracking !! tool)
      \/ exists fingerprint error_class, (fingerprint, (tool, error_class)) ∈ l
         /\ (AUTONOMY_CONSECUTIVE_DEGRADE_CAP
             <= bumped (DegradeTracking.consecutive_degrade_count tracking !! fingerprint))%N.
Proof.
  induction l as [|[fingerprint [tool' error_class]] l IH]; intros tracking details Hnodup.
  { split; [by left|]. intros [H|(? & ? & H & _)]; [done|set_solver]. }
  apply NoDup_cons in Hnodup as [Hfresh Hnodup]. cbn [foldl].
  pose proof (bump_one_cap tracking details fingerprint tool' error_class tool) as Hcap.
  pose proof (bump_one_count tracking details fingerprint (tool', error_class)) as Hcount.
  destruct (bump_one _ _) as [tracking' details']. cbn [fst] in Hcap, Hcount.
  rewrite IH by done. rewrite Hcap. clear IH Hcap.
  assert (forall key, key ∈ l.*1 -> DegradeTracking.consecutive_degrade_count tracking' !! key
            = DegradeTracking.consecutive_degrade_count tracking !! key) as Hsame.
  { intros key Hkey. rewrite Hcount. by rewrite decide_False by (intros ->; done). }
  split.
  - intros [[H|[-> H]]|(key & class & Hin & H)]; [by left|right|right].
    + exists fingerprint, error_class. split; [left|done].
    + exists key, class. split; [by right|]. rewrite <-Hsame; [done|].
      by apply list_elem_of_fmap_2 with (f := fst) in Hin.
  - intros [H|(key & class & Hin & H)]; [by left; left|].
    apply elem_of_cons in Hin as [[= -> <- ->]|Hin]; [left; by right|right].
    exists key, class. split; [done|]. rewrite Hsame; [done|].
    by apply list_elem_of_fmap_2 with (f := fst) in Hin.
Qed.

Lemma bump_cap records tracking tool :
  is_Some (DegradeTracking.consecutive_degrade_cap_by_tool
    (bump_consecutive_degrade_counts records tracking).1 !! tool)
  <-> is_Some (DegradeTracking.consecutive_degrade_cap_by_tool tracking !! tool)
      \/ exists fingerprint error_class,
           observed_fingerprints records !! fingerprint = Some (tool, error_class)
           /\ (AUTONOMY_CONSECUTIVE_DEGRADE_CAP
               <= bumped (DegradeTracking.consecutive_degrade_count tracking !! fingerprint))%N.
Proof.
  unfold bump_consecutive_degrade_counts. set (observed := observed_fingerprints records).
  case_bool_decide as Hempty.
  - cbn [fst]. simpl_set. split; [by left|]. intros [H|(key & class & H & _)]; [done|].
    by rewrite Hempty, lookup_empty in H.
  - rewrite bump_all_cap by apply NoDup_btree_keys. simpl_set. apply or_iff_compat_l.
    assert (forall key entry, observed !! key = Some entry ->
      filter (fun entry => is_some (observed !! entry.1) = true)
        (DegradeTracking.consecutive_degrade_count tracking) !! key
      = DegradeTracking.consecutive_degrade_count tracking !! key) as Hfilter.
    { intros key entry Hkey. apply option_eq. intros count. rewrite map_lookup_filter_Some. simpl.
      rewrite Hkey. tauto. }
    setoid_rewrite elem_of_btree_iter. split; intros (key & class & Hin & H); exists key, class;
      (split; [done|]); by rewrite (Hfilter _ _ Hin) in *.
Qed.

Lemma capped_from_snoc tool events event : forall before capped,
  capped_from tool before capped (events ++ [event])
  = capped_step tool (before ++ events) (capped_from tool before capped events) event.
Proof.
  induction events as [|first events IH]; intros before capped; cbn [capped_from app].
  - by rewrite app_nil_r.
  - rewrite IH. by rewrite <-(assoc_L (++)).
Qed.

(** The maps of a turn refine the abstract runs: a failure is counted as often
    as it came in a row (in 32 bits), and a tool is capped exactly if one of
    its failures came three times in a row and it has not succeeded since. *)
Theorem degrade_tracking_refines (events : list degrade_event) (fingerprint tool : string) :
  DegradeTracking.consecutive_degrade_count (tracked events) !! fingerprint
    = nonzero (run fingerprint events)
  /\ (is_Some (DegradeTracking.consecutive_degrade_cap_by_tool (tracked events) !! tool)
      <-> capped tool events).
Proof.
  split; [apply tracked_count|].
  induction events as [|event events IH] using rev_ind; [by split; [intros []|]|].
  unfold capped. rewrite tracked_snoc, capped_from_snoc. fold (capped tool events).
  destruct event as [records|tool']; cbn [track capped_step app].
  - rewrite bump_cap, IH. apply or_iff_compat_l.
    split; intros (key & class & Hkey & H); exists key, class; (split; [done|]);
      rewrite run_snoc, tracked_count in *; cbn [run_step] in *; rewrite Hkey in *; cbn [is_some] in *.
    + pose proof (nonzero_bumped (run key events)) as Hnext. unfold nonzero in Hnext at 1.
      destruct (_ =? 0)%N; [done|]. by injection Hnext as ->.
    + pose proof (nonzero_bumped (run key events)) as Hnext. unfold nonzero in Hnext at 1.
      destruct (_ =? 0)%N; [done|]. by injection Hnext as <-.
  - unfold clear_consecutive_degrade_tracking_for_tool. simpl_set.
    destruct (decide (canonicalize_tool_name tool' = tool)) as [Heq|Hne].
    + rewrite Heq, lookup_delete_eq. split; [by intros []|by intros []].
    + rewrite lookup_delete_ne by done. rewrite IH. by split; [|intros []].
Qed.

(** ** A call that succeeded *)

Lemma runtime_u64_save key value s :
  in_uint 64 value -> runtime_u64 key (save_runtime_u64 key value s) = Some value.
Proof.
  intros Hvalue. unfold runtime_u64, save_runtime_u64, get_runtime_scalar, set_runtime_scalar, agent, on_agent.
  simpl_set. rewrite lookup_insert_eq. cbn [mbind option_bind]. by apply parse_uint_pretty.
Qed.

Lemma runtime_u64_save_ne key key' value s :
  key <> key' -> runtime_u64 key (save_runtime_u64 key' value s) = runtime_u64 key s.
Proof.
  intros Hne. unfold runtime_u64, save_runtime_u64, get_runtime_scalar, set_runtime_scalar, agent, on_agent.
  simpl_set. by rewrite lookup_insert_ne.
Qed.

(** The trackers are a table of their own. *)
Lemma book_record_failure key error at_ns window threshold cooldown s :
  Desk.book (record_autonomy_tool_failure_by_key key error at_ns window threshold cooldown s)
  = Desk.book s.
Proof.
  unfold record_autonomy_tool_failure_by_key, upsert_autonomy_tool_failure.
  destruct (is_empty _); [done|]. by simpl_set.
Qed.

Lemma book_clear_scope tool scope s :
  Desk.book (clear_autonomy_tool_failure_class_scope tool scope s) = Desk.book s.
Proof.
  unfold clear_autonomy_tool_failure_class_scope. generalize (scope_rows tool scope s). intros l.
  revert s. induction l as [|row l IH]; intros s; [done|]. cbn [foldl]. rewrite IH.
  unfold delete_autonomy_tool_failure. by simpl_set.
Qed.

Lemma last_success_book fingerprint s s' :
  Desk.book s = Desk.book s' ->
  autonomy_tool_last_success_ns fingerprint s = autonomy_tool_last_success_ns fingerprint s'.
Proof. unfold autonomy_tool_last_success_ns, runtime_u64, agent. by intros ->. Qed.

Lemma string_app_inv_l (p s t : string) : p +:+ s = p +:+ t -> s = t.
Proof. induction p as [|a p IH]; [done|]. intros [= H]. by apply IH. Qed.

Section Suppression.
Context `{ext : Externals, libs : StrategyLibs, rows : RowOrder}.

Lemma record_one_last_success at_ns config s call execution record fingerprint :
  in_uint 64 at_ns ->
  autonomy_tool_last_success_ns fingerprint (record_one_outcome at_ns config s (call, execution, record))
  = if match execution with PlannedToolCallExecution.Execute => true | _ => false end
       && ToolCallRecord.success record
       && bool_decide (tool_call_fingerprint (ToolCall.tool call) (ToolCall.args_json call) = fingerprint)
    then Some at_ns else autonomy_tool_last_success_ns fingerprint s.
Proof.
  intros Hat. unfold record_one_outcome. destruct execution; try done. cbn [andb].
  destruct (ToolCallRecord.success record); cbn [andb].
  - rewrite (last_success_book _ _ (record_autonomy_tool_success
      (tool_call_fingerprint (ToolCall.tool call) (ToolCall.args_json call)) at_ns s)).
    2: { rewrite book_clear_scope. unfold clear_autonomy_tool_failure, delete_autonomy_tool_failure.
         by simpl_set. }
    unfold autonomy_tool_last_success_ns, record_autonomy_tool_success. case_bool_decide as Heq.
    + rewrite Heq. by apply runtime_u64_save.
    + apply runtime_u64_save_ne. intros Hclash%string_app_inv_l. congruence.
  - destruct (is_sequence_validator_block record); [done|]. unfold record_failed_call.
    destruct (is_empty _); [done|]. apply last_success_book.
    unfold record_autonomy_tool_failure_class_scope, record_autonomy_tool_failure.
    by rewrite !book_record_failure.
Qed.

Lemma record_all_last_success at_ns config fingerprint entries : forall s,
  in_uint 64 at_ns ->
  (autonomy_tool_last_success_ns fingerprint s = Some at_ns \/
   exists call record, (call, PlannedToolCallExecution.Execute, record) ∈ entries
     /\ ToolCallRecord.success record = true
     /\ tool_call_fingerprint (ToolCall.tool call) (ToolCall.args_json call) = fingerprint) ->
  autonomy_tool_last_success_ns fingerprint (foldl (record_one_outcome at_ns config) s entries)
  = Some at_ns.
Proof.
  induction entries as [|[[call execution] record] entries IH]; intros s Hat Hin.
  { destruct Hin as [H|(? & ? & H & _)]; [done|set_solver]. }
  cbn [foldl]. apply IH; [done|]. rewrite record_one_last_success by done.
  destruct Hin as [->|(call' & record' & Hin & Hsuccess & Hprint)]; [left; by destruct (_ && _)|].
  apply elem_of_cons in Hin as [[= <- <- <-]|Hin]; [left|right; by exists call', record'].
  by rewrite Hsuccess, bool_decide_eq_true_2.
Qed.

(** A call that a round executed with success is skipped in a later round
    until the window has passed, and so is every call of the same fingerprint;
    only recalls of endpoint configuration are let through. *)
Theorem success_suppresses (planned_tool_calls : list ToolCall.t)
    (planned_execution : list PlannedToolCallExecution.t) (records : list ToolCallRecord.t)
    (at_ns now_ns : N) (config : AutonomySuppressionConfig.t) (s : Desk.t)
    (i : nat) (call call' : ToolCall.t) (record : ToolCallRecord.t) :
  in_uint 64 at_ns ->
  planned_tool_calls !! i = Some call ->
  planned_execution !! i = Some PlannedToolCallExecution.Execute ->
  records !! i = Some record -> ToolCallRecord.success record = true ->
  AutonomySuppressionConfig.tool_dedupe_enabled config = true ->
  (now_ns - at_ns < autonomy_dedupe_window_ns config)%N ->
  tool_call_fingerprint (ToolCall.tool call') (ToolCall.args_json call')
    = tool_call_fingerprint (ToolCall.tool call) (ToolCall.args_json call) ->
  suppression_reason call' now_ns config
    (record_autonomy_tool_outcomes planned_tool_calls planned_execution records at_ns config s)
  = if is_config_endpoint_recall call' then None
    else Some (AutonomySuppressionReason.Dedupe ((now_ns - at_ns) / 1000000000)).
Proof.
  intros Hat Hcall Hexecution Hrecord Hsuccess Henabled Hwindow Hprint.
  unfold suppression_reason. destruct (is_config_endpoint_recall call'); [done|].
  rewrite Henabled, Hprint. unfold record_autonomy_tool_outcomes.
  rewrite (record_all_last_success at_ns); [|done|right].
  - cbn [mbind option_bind]. unfold saturating_sub. rewrite (proj2 (N.ltb_lt _ _) Hwindow). done.
  - exists call, record. split; [|done]. apply list_elem_of_lookup. exists i.
    apply lookup_zip_Some. split; [|done]. by apply lookup_zip_Some.
Qed.
End Suppression.

(** ** A call that failed *)

Lemma class_key_ne fingerprint tool scope class :
  autonomy_tool_failure_key fingerprint <> autonomy_tool_failure_class_scope_key tool scope class.
Proof.
  unfold autonomy_tool_failure_key, autonomy_tool_failure_class_scope_key,
    autonomy_tool_failure_class_scope_prefix, AUTONOMY_TOOL_FAILURE_KEY_PREFIX,
    AUTONOMY_TOOL_FAILURE_CLASS_KEY_PREFIX. intros H.
  apply (string_app_inv_l "autonomy.tool_failure" (String "."%char fingerprint)
    (String "_"%char (("class." +:+ normalize_autonomy_failure_key_segment tool +:+ "." +:+
      normalize_autonomy_failure_key_segment scope +:+ ".") +:+
      normalize_autonomy_failure_key_segment class))) in H. discriminate H.
Qed.

Lemma normalize_tool_failure_reason_trim error :
  trim (normalize_tool_failure_reason error) = normalize_tool_failure_reason error.
Proof. unfold normalize_tool_failure_reason. by rewrite trim_lower, trim_idem. Qed.

(** The tracker of a call that failed [n] times in a row, for the last time at
    [at_ns]. *)
Definition failing (error : string) (config : AutonomySuppressionConfig.t) (n at_ns : N)
    (tracker : AutonomyToolFailureTracker.t) : Prop :=
  AutonomyToolFailureTracker.normalized_error tracker = error
  /\ AutonomyToolFailureTracker.repeat_count tracker = n
  /\ AutonomyToolFailureTracker.last_failed_at_ns tracker = at_ns
  /\ AutonomyToolFailureTracker.cooldown_until_ns tracker
     = if (AutonomySuppressionConfig.failure_repeat_threshold config <=? n)%N
       then Some (saturating_add 64 at_ns
                    (secs_to_ns (AutonomySuppressionConfig.failure_cooldown_secs config)))
       else None.

Section Failures.
Context `{ext : Externals, libs : StrategyLibs, rows : RowOrder}.
Context (call : ToolCall.t) (record : ToolCallRecord.t) (config : AutonomySuppressionConfig.t).

#[local] Abbreviation fingerprint :=
  (tool_call_fingerprint (ToolCall.tool call) (ToolCall.args_json call)).
#[local] Abbreviation error := (normalize_tool_failure_reason (failure_reason record)).
#[local] Abbreviation window :=
  (secs_to_ns (AutonomySuppressionConfig.failure_repeat_window_secs config)).

(** A round that executed the call and only it. *)
Definition fail_round (s : Desk.t) (at_ns : N) : Desk.t :=
  record_autonomy_tool_outcomes [call] [PlannedToolCallExecution.Execute] [record] at_ns config s.

Definition tracker_of (s : Desk.t) : option AutonomyToolFailureTracker.t :=
  Desk.autonomy_tool_failures s !! autonomy_tool_failure_key fingerprint.

Lemma fail_round_tracker s at_ns :
  ToolCallRecord.success record = false -> is_sequence_validator_block record = false ->
  is_empty error = false ->
  tracker_of (fail_round s at_ns)
  = Some (next_tracker error at_ns (AutonomySuppressionConfig.failure_repeat_window_secs config)
            (AutonomySuppressionConfig.failure_repeat_threshold config)
            (AutonomySuppressionConfig.failure_cooldown_secs config)
            (default AutonomyToolFailureTracker.default (tracker_of s))).
Proof using Type.
  intros Hfail Hblock Herror. unfold fail_round, record_autonomy_tool_outcomes, tracker_of.
  cbn [zip zip_with foldl]. unfold record_one_outcome. rewrite Hfail, Hblock.
  unfold record_failed_call. rewrite Herror.
  unfold record_autonomy_tool_failure_class_scope, record_autonomy_tool_failure,
    record_autonomy_tool_failure_by_key.
  rewrite normalize_tool_failure_reason_trim, Herror. unfold upsert_autonomy_tool_failure. simpl_set.
  rewrite lookup_insert_ne by (apply not_eq_sym, class_key_ne). by rewrite lookup_insert_eq.
Qed.

Lemma next_tracker_first at_ns tracker :
  AutonomyToolFailureTracker.normalized_error tracker <> error ->
  failing error config 1 at_ns
    (next_tracker error at_ns (AutonomySuppressionConfig.failure_repeat_window_secs config)
       (AutonomySuppressionConfig.failure_repeat_threshold config)
       (AutonomySuppressionConfig.failure_cooldown_secs config) tracker).
Proof using Type.
  intros Hnew. unfold failing, next_tracker. rewrite bool_decide_eq_false_2 by done.
  cbn [andb]. by simpl_set.
Qed.

Lemma next_tracker_again n before_ns at_ns tracker :
  failing error config n before_ns tracker -> (at_ns - before_ns <= window)%N ->
  failing error config (saturating_add 32 n 1) at_ns
    (next_tracker error at_ns (AutonomySuppressionConfig.failure_repeat_window_secs config)
       (AutonomySuppressionConfig.failure_repeat_threshold config)
       (AutonomySuppressionConfig.failure_cooldown_secs config) tracker).
Proof using Type.
  intros (Herror & Hcount & Hlast & _) Hwindow. unfold failing, next_tracker.
  rewrite bool_decide_eq_true_2 by done. rewrite Hlast. unfold saturating_sub.
  rewrite (proj2 (N.leb_le _ _) Hwindow). cbn [andb]. simpl_set. by rewrite Hcount.
Qed.

(** Each failure is no later after the one before than the window. *)
Fixpoint close_together (before_ns : N) (times : list N) : Prop :=
  match times with
  | [] => True
  | at_ns :: times => (at_ns - before_ns <= window)%N /\ close_together at_ns times
  end.

Lemma fail_rounds_tracker n before_ns times : forall s tracker,
  ToolCallRecord.success record = false -> is_sequence_validator_block record = false ->
  is_empty error = false ->
  tracker_of s = Some tracker -> failing error config n before_ns tracker ->
  close_together before_ns times -> (n + N.of_nat (length times) < 2 ^ 32)%N ->
  exists tracker', tracker_of (foldl fail_round s times) = Some tracker'
    /\ failing error config (n + N.of_nat (length times)) (default before_ns (last times)) tracker'.
Proof using Type.
  revert n before_ns. induction times as [|at_ns times IH]; intros n before_ns s tracker
    Hfail Hblock Herror Htracker Hfailing Hclose Hbound.
  - exists tracker. split; [done|]. by rewrite N.add_0_r.
  - destruct Hclose as [Hwindow Hclose]. cbn [foldl length] in *.
    pose proof (next_tracker_again n before_ns at_ns tracker Hfailing Hwindow) as Hnext.
    destruct (IH (n + 1)%N at_ns (fail_round s at_ns) _ Hfail Hblock Herror
      (fail_round_tracker s at_ns Hfail Hblock Herror)) as (tracker' & Htracker' & Hfailing').
    + rewrite Htracker. cbn [default]. replace (n + 1)%N with (saturating_add 32 n 1); [done|].
      unfold saturating_add, max_uint. lia.
    + done.
    + lia.
    + exists tracker'. split; [done|].
      replace (n + N.of_nat (S (length times)))%N with (n + 1 + N.of_nat (length times))%N by lia.
      rewrite last_cons. by destruct (last times).
Qed.

(** C16 - A call that failed [n] times in a row with the same error, each time within
    the window of the time before, is in its cooldown exactly if [n] has
    reached the threshold, and the cooldown runs from the last failure. *)
Theorem failures_suppress (first_ns : N) (times : list N) (now_ns : N) (s : Desk.t) :
  ToolCallRecord.success record = false -> is_sequence_validator_block record = false ->
  is_empty error = false -> tracker_of s = None ->
  close_together first_ns times -> (N.of_nat (length times) < 2 ^ 32 - 1)%N ->
  let n := (1 + N.of_nat (length times))%N in
  let until_ns := saturating_add 64 (default first_ns (last times))
    (secs_to_ns (AutonomySuppressionConfig.failure_cooldown_secs config)) in
  autonomy_tool_failure_cooldown fingerprint now_ns (foldl fail_round s (first_ns :: times))
  = if (AutonomySuppressionConfig.failure_repeat_threshold config <=? n)%N && (now_ns <? until_ns)%N
    then Some (AutonomyToolFailureCooldown.mk error n until_ns) else None.
Proof using Type.
  intros Hfail Hblock Herror Hfresh Hclose Hbound n until_ns. cbn [foldl].
  pose proof (next_tracker_first first_ns AutonomyToolFailureTracker.default) as Hfirst.
  destruct (fail_rounds_tracker 1 first_ns times (fail_round s first_ns) _ Hfail Hblock Herror
    (fail_round_tracker s first_ns Hfail Hblock Herror)) as (tracker & Htracker & Hfailing).
  - rewrite Hfresh. cbn [default]. apply Hfirst. intros Heq. change ("" = error) in Heq.
    by rewrite <-Heq in Herror.
  - done.
  - lia.
  - unfold autonomy_tool_failure_cooldown, active_autonomy_tool_failure_cooldown_for_key.
    unfold tracker_of in Htracker. rewrite Htracker. cbn [mbind option_bind]. unfold cooldown_of.
    destruct Hfailing as (-> & -> & _ & ->). fold n until_ns.
    destruct (_ <=? n)%N; [|done]. cbn [mbind option_bind andb]. rewrite N.leb_antisym.
    by destruct (now_ns <? until_ns)%N.
Qed.
End Failures.

(** ** The listed trackers *)

Lemma leb_common (p : string) a s b t :
  (N_of_ascii a < N_of_ascii b)%N -> ~ String.le (p +:+ String b t) (p +:+ String a s).
Proof.
  intros Hlt. unfold String.le, String.leb. induction p as [|c p IH].
  - change ("" +:+ String b t) with (String b t). change ("" +:+ String a s) with (String a s).
    cbn [String.compare]. unfold Ascii.compare. rewrite (proj2 (N.compare_gt_iff _ _) Hlt). by intros [].
  - change (String c p +:+ ?x) with (String c (p +:+ x)). cbn [String.compare].
    unfold Ascii.compare. by rewrite N.compare_refl.
Qed.

Lemma starts_with_app s p : starts_with s p = true -> exists t, s = p +:+ t.
Proof.
  revert p. induction s as [|a s IH]; intros [|b p] H; simpl in H; [by exists ""|done|by eexists|].
  apply andb_true_iff in H as [->%bool_decide_eq_true H]. destruct (IH p H) as [t ->]. by exists t.
Qed.

Definition call_tracker_keys (s : Desk.t) : list string :=
  List.filter (fun key => starts_with key AUTONOMY_TOOL_FAILURE_KEY_PREFIX)
    (btree_keys (Desk.autonomy_tool_failures s)).

(** Among keys in order, those that come before one of another kind are all
    that are below it. *)
Lemma filter_before {A} (R : relation A) (p : A -> bool) (l : list A) i x :
  StronglySorted R l -> (forall y, p y = true -> ~ R x y) -> p x = false -> l !! i = Some x ->
  length (List.filter p l) <= i.
Proof.
  intros Hsorted Hbelow Hx. revert i. induction Hsorted as [|y l Hsorted IH Hy]; intros i Hi; [done|].
  destruct i as [|i].
  - injection Hi as ->. simpl. rewrite Hx.
    replace (List.filter p l) with (@nil A); [done|]. symmetry.
    clear IH Hsorted. induction Hy as [|z l Hz _ IH]; [done|]. simpl.
    destruct (p z) eqn:Hp; [by destruct (Hbelow z)|exact IH].
  - simpl. specialize (IH i Hi). destruct (p y); simpl; lia.
Qed.

Lemma tracker_keys_sorted {V} (m : gmap string V) : StronglySorted key_le (btree_keys m).
Proof.
  unfold btree_keys. induction (btree_iter_sorted m) as [|p l _ IH Hp]; [constructor|].
  cbn [fmap list_fmap]. constructor; [done|]. by rewrite Forall_fmap.
Qed.

(** The trackers of calls come before those of scopes, and no more than five
    hundred are listed: with five hundred of the former - they are only removed
    when the call succeeds - the cooldown of a scope is not seen. *)
Theorem class_scope_blind (s : Desk.t) (tool args_scope_fingerprint : string) (now_ns : N) :
  500 <= length (call_tracker_keys s) ->
  autonomy_tool_failure_class_scope_cooldown tool args_scope_fingerprint now_ns s = None.
Proof.
  intros Hmany. unfold autonomy_tool_failure_class_scope_cooldown.
  replace (scope_rows tool args_scope_fingerprint s) with (@nil (string * AutonomyToolFailureTracker.t));
    [done|].
  symmetry. apply elem_of_nil_inv. intros [key tracker] Hin. unfold scope_rows in Hin.
  apply list_elem_of_filter in Hin as [Hprefix Hin]. cbn [fst] in Hprefix.
  unfold list_autonomy_tool_failures, limit_rows in Hin.
  apply list_elem_of_lookup in Hin as [i Hi]. apply lookup_take_Some in Hi as [Hi Hlt].
  apply starts_with_app in Hprefix as [rest Hkey].
  assert (exists t, key = "autonomy.tool_failure" +:+ String "_"%char t) as [t Ht].
  { eexists. rewrite Hkey. unfold autonomy_tool_failure_class_scope_prefix,
      AUTONOMY_TOOL_FAILURE_CLASS_KEY_PREFIX.
    rewrite (string_app_assoc "autonomy.tool_failure_class."). reflexivity. }
  assert (length (call_tracker_keys s) <= i); [|change (N.to_nat 500) with 500 in Hlt; lia].
  eapply (filter_before key_le _ _ i key).
  - apply tracker_keys_sorted.
  - intros key' Hkey'. apply starts_with_app in Hkey' as [t' ->]. rewrite Ht.
    by apply (leb_common "autonomy.tool_failure" "."%char t' "_"%char t).
  - rewrite Ht. done.
  - unfold btree_keys. by rewrite list_lookup_fmap, Hi.
Qed.
