(* ===== verification/TurnTools.v ===== *)
(** * TurnTools: the dispatch of the automaton's tools

    Models the tool manager of [components/ic-automaton/src/tools.rs]: the
    policies, the scopes of tools, the classes of their failures, the batches
    of reads that run together, and the dispatch with its survival gates.

    The signer, the broadcaster and the tools themselves are operations of the
    classes [Signer] and [Tools], which may change the state in any way; so may
    the two halves of a [futures::join], which is [JoinFutures].

    [execute_actions_records]: executing calls yields one record per call, of
    its tool and arguments, whatever the tools do.  [parallel_batch_reads]:
    only reads run together, and no two that share a counter. *)

From S2P Require Import Prelude Text SpawnProtocol Types Externals AgentTypes AgentDomain AgentStore StrategyTypes StrategyStore TurnTypes TurnStore Sanitize TurnText TurnPolicy.

(** ** Failures of tools *)

Definition any_guard (normalized_error : string) (guards : list error_guard) : bool :=
  existsb (guard_holds normalized_error) guards.

(** Malformed input is asked for first, then a failed outcall. *)
Definition failure_kind_by (normalized_error : string) (malformed outcall : list error_guard)
    : ToolFailureKind.t :=
  if any_guard normalized_error malformed then ToolFailureKind.MalformedInput
  else if any_guard normalized_error outcall then ToolFailureKind.OutcallFailure
  else ToolFailureKind.InternalFailure.

Definition classify_evm_read_failure_kind (normalized_error : string) : ToolFailureKind.t :=
  failure_kind_by normalized_error
    [StartsWith "invalid evm_read args json:"; StartsWith "invalid evm_read address:";
     StartsWith "address is required for eth_"; Equals "calldata is required for eth_call";
     StartsWith "evm_read method must be one of"; StartsWith "invalid params_json for eth_";
     StartsWith "params_json for eth_"; StartsWith "params_json[0] for eth_";
     StartsWith "conflicting address values for eth_";
     StartsWith "conflicting calldata values for eth_"; StartsWith "calldata "]
    [Contains "rpc"; Contains "http "; Contains "outcall"; Contains "timed out";
     Contains "transport"; Contains "status "].

Definition classify_remember_failure_kind (normalized_error : string) : ToolFailureKind.t :=
  failure_kind_by normalized_error
    [StartsWith "invalid remember args json:"; StartsWith "missing required field: key";
     StartsWith "missing required field: value"; Equals "remember value must be a json scalar";
     StartsWith "key must be 1-"; StartsWith "key cannot be empty";
     StartsWith "key must be at most "; StartsWith "key must not contain control characters";
     StartsWith "value must be at most "]
    [].

Definition classify_market_fetch_failure_kind (normalized_error : string) : ToolFailureKind.t :=
  failure_kind_by normalized_error
    [StartsWith "invalid market_fetch args json:"; StartsWith "missing required field:";
     StartsWith "missing required param:"; StartsWith "unsupported market endpoint";
     StartsWith "unsupported param"; StartsWith "invalid param";
     StartsWith "missing required path param:"; StartsWith "invalid market endpoint template:";
     StartsWith "market endpoint discovery required for provider";
     StartsWith "invalid market-data url"; Contains "domain not in allowlist"]
    [StartsWith "http fetch failed:"; StartsWith "http ";
     StartsWith "json_path extraction failed:"; StartsWith "regex extraction failed:"].

Definition classify_http_fetch_failure_kind (normalized_error : string) : ToolFailureKind.t :=
  failure_kind_by normalized_error
    [StartsWith "invalid http_fetch args json:"; Equals "missing required field: url";
     Equals "only https urls are allowed"; Equals "could not parse host";
     Equals "user info is not allowed in url"; Equals "ipv6 hosts are not supported";
     Equals "host is invalid"; Contains "domain not in allowlist";
     StartsWith "invalid market-data url"]
    [StartsWith "http fetch failed:"; StartsWith "http ";
     StartsWith "json_path extraction failed:"; StartsWith "regex extraction failed:"].

Definition classify_web_search_failure_kind (normalized_error : string) : ToolFailureKind.t :=
  failure_kind_by normalized_error
    [StartsWith "invalid web_search args json:"; StartsWith "missing required field: query";
     Contains "must not overlap"; Contains "may contain at most";
     StartsWith "freshness must be one of"; Contains "domain filters must not contain empty";
     StartsWith "invalid domain filter:"]
    [StartsWith "web_search failed"; StartsWith "web_search provider returned http";
     StartsWith "web_search failed to parse provider response"].

Definition classify_post_room_message_failure_kind (normalized_error : string) : ToolFailureKind.t :=
  failure_kind_by normalized_error
    [StartsWith "invalid post_room_message args json:";
     StartsWith "missing required field: body"; Equals "room message body cannot be empty";
     Equals "room mentions must be an array of strings";
     Equals "room mention entries cannot be empty"; StartsWith "invalid content_type:"]
    [StartsWith "factory room"; StartsWith "failed to encode post_room_message args:";
     Contains "call rejected"; Contains "insufficient cycles"].

Definition classify_list_strategy_templates_failure_kind (normalized_error : string) : ToolFailureKind.t :=
  failure_kind_by normalized_error
    [StartsWith "invalid list_strategy_templates args json:"]
    [].

Definition classify_describe_strategy_action_failure_kind (normalized_error : string) : ToolFailureKind.t :=
  failure_kind_by normalized_error
    [StartsWith "invalid describe_strategy_action args json:"]
    [].

Definition strategy_action_error_is_outcall_failure (normalized_error : string) : bool :=
  any_guard normalized_error
    [Contains "rpc"; Contains "http "; Contains "outcall"; Contains "timed out";
     Contains "timeout"; Contains "transport"; Contains "eth_sendrawtransaction";
     Contains "send raw transaction"; Contains "broadcast"].

Definition strategy_action_error_is_malformed_input (normalized_error : string) : bool :=
  any_guard normalized_error
    [StartsWith "invalid strategy action args json:"; StartsWith "invalid typed_params_json:";
     Equals "missing required field: typed_params or typed_params_json";
     StartsWith "call count mismatch for action "; StartsWith "typed params call index ";
     StartsWith "argument count mismatch for calls[";
     StartsWith "missing required field: calls["; StartsWith "unknown field: calls[";
     StartsWith "value_wei cannot be empty"; StartsWith "value_wei must be ";
     StartsWith "failed to parse value_wei"]
  || contains normalized_error "calls["
     && any_guard normalized_error
    [Contains " must be a json array"; Contains " must be a json object or array";
     Contains " must be an array for abi array type";
     Contains " must be an array for fixed-size abi array";
     Contains " must be a decimal string or hex quantity";
     Contains " must be a 0x-prefixed hex string";
     Contains " must be a string or unsigned integer"; Contains " must be a string or integer";
     Contains " address must be a string"; Contains " bool must be true/false";
     Contains " tuple arity mismatch"; Contains " length mismatch";
     Contains " fixed bytes must be a hex string";
     Contains " fixed bytes width must be in 1..=32"; Contains " failed to parse";
     Contains " must be valid hex"].

Definition classify_strategy_action_failure_kind (normalized_error : string) : ToolFailureKind.t :=
  if strategy_action_error_is_outcall_failure normalized_error then ToolFailureKind.OutcallFailure
  else if strategy_action_error_is_malformed_input normalized_error
  then ToolFailureKind.MalformedInput
  else ToolFailureKind.InternalFailure.

(** A [match] over names: the first arm that lists the name. *)
Fixpoint match_name {A} (name : string) (arms : list (list string * A)) (fallback : A) : A :=
  match arms with
  | [] => fallback
  | (names, value) :: arms =>
      if bool_decide (name ∈ names) then value else match_name name arms fallback
  end.

Definition classify_tool_failure_kind (tool error : string) : ToolFailureKind.t :=
  let normalized := to_ascii_lowercase (trim error) in
  match_name tool
    [(["evm_read"], classify_evm_read_failure_kind normalized);
     (["remember"], classify_remember_failure_kind normalized);
     (["market_fetch"], classify_market_fetch_failure_kind normalized);
     (["http_fetch"], classify_http_fetch_failure_kind normalized);
     (["web_search"], classify_web_search_failure_kind normalized);
     (["post_room_message"], classify_post_room_message_failure_kind normalized);
     (["list_strategy_templates"], classify_list_strategy_templates_failure_kind normalized);
     (["describe_strategy_action"], classify_describe_strategy_action_failure_kind normalized);
     (["simulate_strategy_action"; "execute_strategy_action"],
       classify_strategy_action_failure_kind normalized)]
    ToolFailureKind.InternalFailure.

Definition classify_execute_strategy_action_failure (error : string) : SurvivalOperationClass.t :=
  let normalized := to_ascii_lowercase error in
  if existsb (contains normalized)
       ["threshold sign"; "sign_with_ecdsa"; "signing"; "signature"; "y_parity"; "ecdsa"]
  then SurvivalOperationClass.ThresholdSign
  else if existsb (contains normalized)
       ["eth_sendrawtransaction"; "send raw transaction"; "broadcast"]
  then SurvivalOperationClass.EvmBroadcast
  else SurvivalOperationClass.EvmPoll.

(** ** Survival of the operations behind a tool *)

Definition survival_operation_max_backoff_secs (operation : SurvivalOperationClass.t) : N :=
  match operation with
  | SurvivalOperationClass.Inference => 120
  | SurvivalOperationClass.EvmPoll => 120
  | SurvivalOperationClass.EvmBroadcast => 300
  | SurvivalOperationClass.ThresholdSign => 120
  | SurvivalOperationClass.InterCanisterCall => 120
  end.

Definition record_survival_operation_successes (classes : list SurvivalOperationClass.t) (s : Desk.t)
    : Desk.t :=
  foldl (fun s class => on_agent (record_survival_operation_success class) s) s classes.
Definition record_survival_operation_failure_for_class (class : SurvivalOperationClass.t)
    (now_ns : N) (s : Desk.t) : Desk.t :=
  on_agent (record_survival_operation_failure class now_ns
              (survival_operation_max_backoff_secs class)) s.
Definition record_survival_operation_failures (classes : list SurvivalOperationClass.t) (now_ns : N)
    (s : Desk.t) : Desk.t :=
  foldl (fun s class => record_survival_operation_failure_for_class class now_ns s) s classes.

(** ** Scopes and policies *)

Definition tool_allowed_in_scope (tool : string) (scope : InferenceToolScope.t) : bool :=
  let normalized := canonicalize_tool_name tool in
  match scope with
  | InferenceToolScope.Full => true
  | InferenceToolScope.CoordinationOnly =>
      bool_decide (normalized ∈
        ["think"; "journal"; "remember"; "recall"; "memory_stats"; "forget"; "post_room_message";
         "list_peers"; "set_goal"; "list_goals"; "update_goal"; "create_plan"; "get_plan";
         "advance_plan_step"; "list_plans"; "schedule_follow_up"])
  | InferenceToolScope.Terminal =>
      bool_decide (normalized ∈ ["think"; "journal"; "recall"; "send_eth"])
  end.

Definition acting : list AgentState.t := [AgentState.ExecutingActions].
Definition acting_or_inferring : list AgentState.t :=
  [AgentState.ExecutingActions; AgentState.Inferring].

(** The policies of [ToolManager::new], by the name of the tool. *)
Definition new_policies (web_search_enabled : bool) : gmap string ToolPolicy.t :=
  list_to_map
  [("think", ToolPolicy.mk true acting_or_inferring);
   ("sign_message", ToolPolicy.mk true acting);
   ("broadcast_transaction", ToolPolicy.mk true acting);
   ("journal", ToolPolicy.mk true acting_or_inferring);
   ("evm_read", ToolPolicy.mk true acting_or_inferring);
   ("send_eth", ToolPolicy.mk true acting);
   ("pay_peer", ToolPolicy.mk true acting);
   ("reproduce", ToolPolicy.mk true acting);
   ("list_peers", ToolPolicy.mk true acting_or_inferring);
   ("set_min_prices", ToolPolicy.mk true acting);
   ("remember", ToolPolicy.mk true acting_or_inferring);
   ("recall", ToolPolicy.mk true acting_or_inferring);
   ("memory_stats", ToolPolicy.mk true acting_or_inferring);
   ("sql_query", ToolPolicy.mk true acting_or_inferring);
   ("forget", ToolPolicy.mk true acting_or_inferring);
   ("http_fetch", ToolPolicy.mk true acting);
   ("web_search", ToolPolicy.mk web_search_enabled acting);
   ("market_fetch", ToolPolicy.mk true acting);
   ("update_prompt_layer", ToolPolicy.mk true acting);
   ("top_up_status", ToolPolicy.mk false acting_or_inferring);
   ("trigger_top_up", ToolPolicy.mk false acting);
   ("list_strategy_templates", ToolPolicy.mk true acting_or_inferring);
   ("register_strategy", ToolPolicy.mk true acting);
   ("describe_strategy_action", ToolPolicy.mk true acting_or_inferring);
   ("simulate_strategy_action", ToolPolicy.mk true acting_or_inferring);
   ("execute_strategy_action", ToolPolicy.mk true acting);
   ("get_strategy_outcomes", ToolPolicy.mk true acting_or_inferring);
   ("canister_call", ToolPolicy.mk true acting);
   ("set_welcome_message", ToolPolicy.mk true acting);
   ("post_room_message", ToolPolicy.mk true acting);
   ("set_goal", ToolPolicy.mk true acting);
   ("list_goals", ToolPolicy.mk true acting_or_inferring);
   ("update_goal", ToolPolicy.mk true acting);
   ("create_plan", ToolPolicy.mk true acting);
   ("get_plan", ToolPolicy.mk true acting_or_inferring);
   ("advance_plan_step", ToolPolicy.mk true acting);
   ("list_plans", ToolPolicy.mk true acting_or_inferring);
   ("schedule_follow_up", ToolPolicy.mk true acting)].

Definition policy_allows (policy : ToolPolicy.t) (state : AgentState.t) : bool :=
  ToolPolicy.enabled policy && bool_decide (state ∈ ToolPolicy.allowed_states policy).

(** ** Batches of reads *)

Definition is_parallel_read_only_tool (tool : string) : bool :=
  bool_decide (tool ∈
    ["think"; "recall"; "memory_stats"; "sql_query"; "list_goals"; "list_plans"; "get_plan";
     "list_strategy_templates"; "describe_strategy_action"; "get_strategy_outcomes"; "evm_read";
     "http_fetch"; "web_search"; "market_fetch"]).

Module ParallelBatchState.
Record t := mk {
  has_evm_read : bool;
  has_http_like_fetch : bool;
}.
#[global] Instance eta_t : Eta t := fun self => mk (has_evm_read self) (has_http_like_fetch self).
Definition default : t := mk false false.
End ParallelBatchState.

Definition http_like : list string := ["http_fetch"; "web_search"; "market_fetch"].

Definition can_add_to_parallel_batch (state : ParallelBatchState.t) (tool : string) : bool :=
  if negb (is_parallel_read_only_tool tool) then false
  else match_name tool
         [(["evm_read"], negb (ParallelBatchState.has_evm_read state));
          (http_like, negb (ParallelBatchState.has_http_like_fetch state))] true.

Definition mark_tool_in_parallel_batch (tool : string) (state : ParallelBatchState.t)
    : ParallelBatchState.t :=
  match_name tool
    [(["evm_read"], state <| ParallelBatchState.has_evm_read := true |>);
     (http_like, state <| ParallelBatchState.has_http_like_fetch := true |>)] state.

(** How many calls the batch that begins here takes. *)
Fixpoint parallel_batch_length (state : ParallelBatchState.t) (calls : list ToolCall.t) : nat :=
  match calls with
  | [] => 0
  | call :: calls =>
      if can_add_to_parallel_batch state (ToolCall.tool call)
      then S (parallel_batch_length (mark_tool_in_parallel_batch (ToolCall.tool call) state) calls)
      else 0
  end.
Definition find_parallel_batch_end (calls : list ToolCall.t) (start : nat) : nat :=
  start + parallel_batch_length ParallelBatchState.default (drop start calls).

(** ** What the manager calls *)

(** [SignerPort] and [futures::join]. *)
Class Signer := { sign_message : string -> T string }.
Class JoinFutures := { join_futures : forall {A B : Type}, T A -> T B -> T (A * B) }.

(** The tools, each by the name of its function; [journal_args_from_str]
    decodes JSON and [refresh_certification] rebuilds the tree of certified
    pages. *)
Class Tools := {
  MarketFetchHandshake : Type;
  set_goal_tool : string -> string -> T string;
  list_goals_tool : string -> T string;
  update_goal_tool : string -> string -> T string;
  journal_args_from_str : string -> result string string;
  refresh_certification : Desk.t -> Desk.t;
  remember_fact_tool : string -> string -> T string;
  recall_facts_tool : string -> T string;
  memory_stats_tool : T string;
  sql_query_tool : string -> T string;
  forget_fact_tool : string -> T string;
  prepare_market_http_fetch_args : string -> T (string * option MarketFetchHandshake);
  prepare_market_fetch_http_fetch_args : string -> T (string * option MarketFetchHandshake);
  persist_market_fetch_handshake_success : MarketFetchHandshake -> string -> T unit;
  record_market_fetch_handshake_failure : MarketFetchHandshake -> string -> T unit;
  http_fetch_tool : string -> T string;
  web_search_tool : string -> T string;
  top_up_status_tool : T string;
  trigger_top_up_tool : T string;
  list_strategy_templates_tool : string -> T string;
  register_strategy_tool : string -> T string;
  describe_strategy_action_tool : string -> T string;
  simulate_strategy_action_tool : string -> T string;
  execute_strategy_action_tool :
    string -> string -> list ToolCallRecord.t -> list ToolCallRecord.t -> T string;
  get_strategy_outcomes_tool : string -> T string;
  update_prompt_layer_tool : string -> string -> T string;
  set_welcome_message_tool : string -> T string;
  post_room_message_tool : string -> T string;
  list_peers_tool : string -> T string;
  pay_peer_tool : string -> string -> T string;
  reproduce_tool : string -> string -> T string;
  evm_read_tool : string -> T string;
  validate_terminal_estate_transfer_args : string -> result string unit;
  send_eth_tool : string -> T string;
  set_min_prices_tool : string -> T string;
  canister_call_tool : string -> T string;
  create_plan_tool : string -> string -> T string;
  get_plan_tool : string -> T string;
  advance_plan_step_tool : string -> string -> T string;
  list_plans_tool : string -> T string;
  schedule_follow_up_tool : string -> string -> T string;
}.

(** The records that a tool can see: of the turn's earlier rounds, and of the
    batch so far. *)
Module ToolExecutionHistory.
Record t := mk {
  prior_same_turn : list ToolCallRecord.t;
  current_batch : list ToolCallRecord.t;
}.
End ToolExecutionHistory.

Definition MAX_TERMINAL_BEQUESTS : nat := 3.

Section Dispatch.
Context `{ext : Externals, libs : StrategyLibs, rows : RowOrder}.
Context `{signer : Signer, futures : JoinFutures, tools : Tools}.

(** The call is refused with [message] while one of [classes] may not run. *)
Definition gate (classes : list SurvivalOperationClass.t) (now_ns : N) (message : string) : T unit :=
  s ← get_state;
  fail_if (negb (forallb (fun class => can_run_survival_operation class now_ns (agent s)) classes))
    message.

(** Run a tool and record how it went. *)
Definition recorded (run : T string) (on_success : Desk.t -> Desk.t)
    (on_failure : string -> Desk.t -> Desk.t) : T string :=
  result ← (catch run : T (result string string));
  modify match result with Ok _ => on_success | Err error => on_failure error end;;
  lift result.

(** The common case: the classes succeed or fail together. *)
Definition recorded_classes (classes : list SurvivalOperationClass.t) (now_ns : N) (run : T string)
    : T string :=
  recorded run (record_survival_operation_successes classes)
    (fun _ => record_survival_operation_failures classes now_ns).

Definition sign_message_call (call : ToolCall.t) : T string :=
  now_ns ← gets now;
  gate [SurvivalOperationClass.ThresholdSign] now_ns "signing skipped due to survival policy";;
  message_hash ← lift (
    value ← map_err (fun error => "invalid sign_message args json: " +:+ error)
              (value_from_str (ToolCall.args_json call));
    match (hash ← Value.get "message_hash" value; Value.as_str hash) with
    | Some hash => Ok hash
    | None => Err "missing required field: message_hash"
    end);
  recorded_classes [SurvivalOperationClass.ThresholdSign] now_ns (sign_message message_hash).

Definition broadcast_transaction_call (broadcaster : option (string -> T string)) (call : ToolCall.t)
    : T string :=
  now_ns ← gets now;
  gate [SurvivalOperationClass.EvmBroadcast] now_ns "broadcast skipped due to survival policy";;
  match broadcaster with
  | Some broadcast =>
      recorded_classes [SurvivalOperationClass.EvmBroadcast] now_ns
        (broadcast (ToolCall.args_json call))
  | None => mthrow "broadcast adapter unavailable"
  end.

Definition think_call (call : ToolCall.t) : T string :=
  mret (default ""
    match value_from_str (ToolCall.args_json call) with
    | Ok value => thought ← Value.get "thought" value; Value.as_str thought
    | Err _ => None
    end).

Definition journal_tool (args_json turn_id : string) : T string :=
  text ← lift (map_err (fun error => "invalid journal args json: " +:+ error)
                 (journal_args_from_str args_json));
  entry ← append_journal_entry turn_id text false;
  modify refresh_certification;;
  mret ("journal entry " +:+ pretty (JournalEntry.id entry) +:+ " recorded").

(** The arms of [http_fetch] and [market_fetch], which prepare their arguments
    differently. *)
Definition fetch_call (prepare : string -> T (string * option MarketFetchHandshake))
    (call : ToolCall.t) (turn_id : string) : T string :=
  '(effective_args_json, handshake) ← prepare (ToolCall.args_json call);
  fetched ← (catch (http_fetch_tool effective_args_json) : T (result string string));
  match handshake with
  | Some handshake =>
      (catch (if is_ok fetched then persist_market_fetch_handshake_success handshake turn_id
              else record_market_fetch_handshake_failure handshake turn_id) : T (result string unit));;
      mret tt
  | None => mret tt
  end;;
  lift fetched.

Definition web_search_call (call : ToolCall.t) (turn_id : string) : T string :=
  reserve_web_search_budget turn_id;;
  web_search_tool (ToolCall.args_json call).

Definition simulate_strategy_action_call (call : ToolCall.t) : T string :=
  now_ns ← gets now;
  gate [SurvivalOperationClass.EvmPoll] now_ns
    "simulate_strategy_action skipped due to survival policy";;
  recorded_classes [SurvivalOperationClass.EvmPoll] now_ns
    (simulate_strategy_action_tool (ToolCall.args_json call)).

Definition execute_strategy_action_call (call : ToolCall.t) (turn_id : string)
    (history : ToolExecutionHistory.t) : T string :=
  now_ns ← gets now;
  gate [SurvivalOperationClass.ThresholdSign] now_ns
    "execute_strategy_action skipped due to threshold sign survival policy";;
  gate [SurvivalOperationClass.EvmBroadcast] now_ns
    "execute_strategy_action skipped due to evm broadcast survival policy";;
  gate [SurvivalOperationClass.EvmPoll] now_ns
    "execute_strategy_action skipped due to preflight survival policy";;
  recorded
    (execute_strategy_action_tool (ToolCall.args_json call) turn_id
       (ToolExecutionHistory.prior_same_turn history) (ToolExecutionHistory.current_batch history))
    (record_survival_operation_successes
       [SurvivalOperationClass.ThresholdSign; SurvivalOperationClass.EvmBroadcast;
        SurvivalOperationClass.EvmPoll])
    (fun error => record_survival_operation_failure_for_class
       (classify_execute_strategy_action_failure error) now_ns).

Definition post_room_message_call (call : ToolCall.t) : T string :=
  now_ns ← gets now;
  gate [SurvivalOperationClass.InterCanisterCall] now_ns
    "post_room_message skipped due to survival policy";;
  recorded (post_room_message_tool (ToolCall.args_json call))
    (fun s => record_room_post_success now_ns
       (record_survival_operation_successes [SurvivalOperationClass.InterCanisterCall] s))
    (fun error s => record_room_post_error now_ns error
       (record_survival_operation_failures [SurvivalOperationClass.InterCanisterCall] now_ns s)).

Definition capital_classes : list SurvivalOperationClass.t :=
  [SurvivalOperationClass.ThresholdSign; SurvivalOperationClass.EvmBroadcast;
   SurvivalOperationClass.InterCanisterCall].

Definition pay_peer_call (call : ToolCall.t) (turn_id : string) : T string :=
  now_ns ← gets now;
  gate capital_classes now_ns
    "pay_peer skipped due to capital or inter-canister survival policy";;
  recorded_classes capital_classes now_ns (pay_peer_tool (ToolCall.args_json call) turn_id).

Definition reproduce_call (call : ToolCall.t) (turn_id : string) : T string :=
  now_ns ← gets now;
  gate capital_classes now_ns
    "reproduce skipped due to capital or inter-canister survival policy";;
  reproduce_tool (ToolCall.args_json call) turn_id.

(** Only a failed outcall counts against the class. *)
Definition evm_read_call (call : ToolCall.t) : T string :=
  now_ns ← gets now;
  gate [SurvivalOperationClass.EvmPoll] now_ns "evm_read skipped due to survival policy";;
  recorded (evm_read_tool (ToolCall.args_json call))
    (record_survival_operation_successes [SurvivalOperationClass.EvmPoll])
    (fun error s =>
       if bool_decide (classify_tool_failure_kind "evm_read" error = ToolFailureKind.OutcallFailure)
       then record_survival_operation_failures [SurvivalOperationClass.EvmPoll] now_ns s else s).

Definition is_bequest (record : ToolCallRecord.t) : bool :=
  bool_decide (ToolCallRecord.tool record = "send_eth").

Definition send_classes : list SurvivalOperationClass.t :=
  [SurvivalOperationClass.ThresholdSign; SurvivalOperationClass.EvmBroadcast].

Definition send_eth_call (call : ToolCall.t) (history : ToolExecutionHistory.t) : T string :=
  now_ns ← gets now;
  terminal ← gets (fun s => terminal_turn_in_progress (agent s));
  let prior_bequest_attempts := length (List.filter is_bequest
    (ToolExecutionHistory.prior_same_turn history ++ ToolExecutionHistory.current_batch history)) in
  let run := recorded_classes send_classes now_ns (send_eth_tool (ToolCall.args_json call)) in
  if terminal : bool then
    fail_if (MAX_TERMINAL_BEQUESTS <=? prior_bequest_attempts)
      ("terminal estate transfer cap reached (" +:+ pretty (N.of_nat MAX_TERMINAL_BEQUESTS) +:+ ")");;
    lift (validate_terminal_estate_transfer_args (ToolCall.args_json call));;
    run
  else
    gate [SurvivalOperationClass.ThresholdSign] now_ns
      "send_eth skipped due to threshold sign survival policy";;
    gate [SurvivalOperationClass.EvmBroadcast] now_ns
      "send_eth skipped due to evm broadcast survival policy";;
    run.

(** A failure is not recorded. *)
Definition set_min_prices_call (call : ToolCall.t) : T string :=
  now_ns ← gets now;
  gate send_classes now_ns "set_min_prices skipped due to EVM survival policy";;
  recorded (set_min_prices_tool (ToolCall.args_json call))
    (record_survival_operation_successes send_classes) (fun _ s => s).

Definition canister_call_call (call : ToolCall.t) : T string :=
  now_ns ← gets now;
  gate [SurvivalOperationClass.InterCanisterCall] now_ns
    "canister_call skipped due to survival policy";;
  recorded_classes [SurvivalOperationClass.InterCanisterCall] now_ns
    (canister_call_tool (ToolCall.args_json call)).

Definition dispatch_tool_call (broadcaster : option (string -> T string)) (turn_id : string)
    (history : ToolExecutionHistory.t) (call : ToolCall.t) : T string :=
  let args := ToolCall.args_json call in
  match_name (ToolCall.tool call)
    [(["sign_message"], sign_message_call call);
     (["broadcast_transaction"], broadcast_transaction_call broadcaster call);
     (["think"], think_call call);
     (["set_goal"], set_goal_tool args turn_id);
     (["list_goals"], list_goals_tool args);
     (["update_goal"], update_goal_tool args turn_id);
     (["journal"], journal_tool args turn_id);
     (["remember"], remember_fact_tool args turn_id);
     (["recall"], recall_facts_tool args);
     (["memory_stats"], memory_stats_tool);
     (["sql_query"], sql_query_tool args);
     (["forget"], forget_fact_tool args);
     (["http_fetch"], fetch_call prepare_market_http_fetch_args call turn_id);
     (["web_search"], web_search_call call turn_id);
     (["market_fetch"], fetch_call prepare_market_fetch_http_fetch_args call turn_id);
     (["top_up_status"], top_up_status_tool);
     (["trigger_top_up"], trigger_top_up_tool);
     (["list_strategy_templates"], list_strategy_templates_tool args);
     (["register_strategy"], register_strategy_tool args);
     (["describe_strategy_action"], describe_strategy_action_tool args);
     (["simulate_strategy_action"], simulate_strategy_action_call call);
     (["execute_strategy_action"], execute_strategy_action_call call turn_id history);
     (["get_strategy_outcomes"], get_strategy_outcomes_tool args);
     (["update_prompt_layer"], update_prompt_layer_tool args turn_id);
     (["set_welcome_message"], set_welcome_message_tool args);
     (["post_room_message"], post_room_message_call call);
     (["list_peers"], list_peers_tool args);
     (["pay_peer"], pay_peer_call call turn_id);
     (["reproduce"], reproduce_call call turn_id);
     (["evm_read"], evm_read_call call);
     (["send_eth"], send_eth_call call history);
     (["set_min_prices"], set_min_prices_call call);
     (["canister_call"], canister_call_call call);
     (["create_plan"], create_plan_tool args turn_id);
     (["get_plan"], get_plan_tool args);
     (["advance_plan_step"], advance_plan_step_tool args turn_id);
     (["list_plans"], list_plans_tool args);
     (["schedule_follow_up"], schedule_follow_up_tool args turn_id)]
    (mthrow "unknown tool").

(** ** Execution *)

Definition unknown_tool_record (call : ToolCall.t) (turn_id : string) : ToolCallRecord.t :=
  ToolCallRecord.mk turn_id (ToolCall.tool call) (ToolCall.args_json call) "unknown tool" false
    ToolCallOutcome.Executed (Some "unknown tool") (Some ToolFailureKind.InternalFailure).
Definition blocked_tool_record (call : ToolCall.t) (turn_id : string) : ToolCallRecord.t :=
  ToolCallRecord.mk turn_id (ToolCall.tool call) (ToolCall.args_json call) "tool blocked by policy"
    false ToolCallOutcome.Executed (Some "tool blocked") (Some ToolFailureKind.InternalFailure).

Definition record_for_result (call : ToolCall.t) (turn_id : string) (result : result string string)
    : ToolCallRecord.t :=
  match result with
  | Ok output =>
      ToolCallRecord.mk turn_id (ToolCall.tool call) (ToolCall.args_json call) output true
        ToolCallOutcome.Executed None None
  | Err error =>
      ToolCallRecord.mk turn_id (ToolCall.tool call) (ToolCall.args_json call)
        "tool execution failed" false ToolCallOutcome.Executed (Some error)
        (Some (classify_tool_failure_kind (ToolCall.tool call) error))
  end.

Definition execute_single_call_record (policies : gmap string ToolPolicy.t) (state : AgentState.t)
    (broadcaster : option (string -> T string)) (turn_id : string)
    (history : ToolExecutionHistory.t) (call : ToolCall.t) : T ToolCallRecord.t :=
  let normalized_call := call <| ToolCall.tool := canonicalize_tool_name (ToolCall.tool call) |> in
  match policies !! ToolCall.tool normalized_call with
  | None => mret (unknown_tool_record normalized_call turn_id)
  | Some policy =>
      if negb (policy_allows policy state) then mret (blocked_tool_record normalized_call turn_id)
      else
        dispatched ← (catch (dispatch_tool_call broadcaster turn_id history normalized_call)
                      : T (result string string));
        mret (record_for_result normalized_call turn_id dispatched)
  end.

(** The calls of a batch run in pairs, each pair after the one before; both of
    a pair see the records before it. *)
Fixpoint execute_batch (execute : list ToolCallRecord.t -> ToolCall.t -> T ToolCallRecord.t)
    (records : list ToolCallRecord.t) (calls : list ToolCall.t) : T (list ToolCallRecord.t) :=
  match calls with
  | [] => mret records
  | [call] =>
      record ← execute records call;
      mret (records ++ [record])
  | call :: call' :: calls =>
      '(first, second) ← join_futures (execute records call) (execute records call');
      execute_batch execute (records ++ [first; second]) calls
  end.

(** The [while] loop: every round executes a call or a batch of at least two,
    so there are at most as many rounds as calls. *)
Fixpoint execute_rounds (execute : list ToolCallRecord.t -> ToolCall.t -> T ToolCallRecord.t)
    (rounds : nat) (records : list ToolCallRecord.t) (calls : list ToolCall.t)
    : T (list ToolCallRecord.t) :=
  match rounds, calls with
  | S rounds, call :: rest =>
      let batch := find_parallel_batch_end calls 0 in
      if 2 <=? batch then
        records ← execute_batch execute records (take batch calls);
        execute_rounds execute rounds records (drop batch calls)
      else
        record ← execute records call;
        execute_rounds execute rounds (records ++ [record]) rest
  | _, _ => mret records
  end.

Definition execute_actions_with_broadcaster_and_history (policies : gmap string ToolPolicy.t)
    (state : AgentState.t) (calls : list ToolCall.t) (broadcaster : option (string -> T string))
    (turn_id : string) (prior_same_turn_history : list ToolCallRecord.t)
    : T (list ToolCallRecord.t) :=
  execute_rounds
    (fun records => execute_single_call_record policies state broadcaster turn_id
       (ToolExecutionHistory.mk prior_same_turn_history records))
    (length calls) [] calls.

Definition execute_actions_with_history (policies : gmap string ToolPolicy.t) (state : AgentState.t)
    (calls : list ToolCall.t) (turn_id : string) (prior_same_turn_history : list ToolCallRecord.t)
    : T (list ToolCallRecord.t) :=
  execute_actions_with_broadcaster_and_history policies state calls None turn_id
    prior_same_turn_history.
End Dispatch.

(** ** Facts *)

(** [futures::join] returns what its two futures return, each from the states
    it was polled in, and fails in no other way. *)
Class JoinFuturesOk (futures : JoinFutures) : Prop := {
  join_futures_results : forall {A B} (m : T A) (m' : T B) s a b s',
    join_futures m m' s = Done (a, b) s' ->
    (exists s1 s1', m s1 = Done a s1') /\ (exists s2 s2', m' s2 = Done b s2');
  join_futures_fails : forall {A B} (m : T A) (m' : T B) s e s',
    join_futures m m' s = Fail e s' ->
    (exists s1 s1', m s1 = Fail e s1') \/ (exists s2 s2', m' s2 = Fail e s2');
}.

(** The record that a call leaves. *)
Definition record_of (turn_id : string) (call : ToolCall.t) (record : ToolCallRecord.t) : Prop :=
  ToolCallRecord.turn_id record = turn_id
  /\ ToolCallRecord.tool record = canonicalize_tool_name (ToolCall.tool call)
  /\ ToolCallRecord.args_json record = ToolCall.args_json call
  /\ ToolCallRecord.outcome record = ToolCallOutcome.Executed.

(** A computation that never fails, and returns only what satisfies [P]. *)
Definition yields {A} (m : T A) (P : A -> Prop) : Prop :=
  forall s, match m s with Done a _ => P a | Fail _ _ => False | Trap => True end.

Lemma yields_ret {A} (a : A) (P : A -> Prop) : P a -> yields (mret a) P.
Proof. intros H s. exact H. Qed.

Lemma yields_bind {A B} (m : T A) (f : A -> T B) (P : A -> Prop) (Q : B -> Prop) :
  yields m P -> (forall a, P a -> yields (f a) Q) -> yields (m ≫= f) Q.
Proof.
  intros Hm Hf s. unfold mbind, M_bind. specialize (Hm s). destruct (m s) as [a s'|e s'|]; try done.
  by apply Hf.
Qed.

Lemma yields_catch {A} (m : T A) : yields (catch m : T (result string A)) (fun _ => True).
Proof. intros s. unfold catch. by destruct (m s). Qed.

Lemma yields_weaken {A} (m : T A) (P Q : A -> Prop) :
  (forall a, P a -> Q a) -> yields m P -> yields m Q.
Proof. intros H Hm s. specialize (Hm s). destruct (m s); auto. Qed.

Lemma yields_join `{futures : JoinFutures} `{!JoinFuturesOk futures} {A B} (m : T A) (m' : T B) P Q :
  yields m P -> yields m' Q -> yields (join_futures m m') (fun ab => P ab.1 /\ Q ab.2).
Proof.
  intros Hm Hm' s. destruct (join_futures m m' s) as [[a b] s'|e s'|] eqn:Hjoin; [| |done].
  - apply join_futures_results in Hjoin as [(s1 & s1' & H1) (s2 & s2' & H2)]. specialize (Hm s1).
    specialize (Hm' s2). rewrite H1 in Hm. by rewrite H2 in Hm'.
  - apply join_futures_fails in Hjoin as [(s1 & s1' & H1)|(s2 & s2' & H2)].
    + specialize (Hm s1). by rewrite H1 in Hm.
    + specialize (Hm' s2). by rewrite H2 in Hm'.
Qed.

Lemma parallel_batch_bound state calls : parallel_batch_length state calls <= length calls.
Proof.
  revert state. induction calls as [|call calls IH]; intros state; simpl; [lia|].
  destruct (can_add_to_parallel_batch state _); [|lia]. specialize (IH (mark_tool_in_parallel_batch
    (ToolCall.tool call) state)). lia.
Qed.

Section Records.
Context `{futures : JoinFutures} `{!JoinFuturesOk futures}.
Context (turn_id : string) (execute : list ToolCallRecord.t -> ToolCall.t -> T ToolCallRecord.t).
Context (Hexecute : forall records call, yields (execute records call) (record_of turn_id call)).

#[local] Set Default Proof Using "All".

Lemma execute_batch_records calls : forall records,
  yields (execute_batch execute records calls)
    (fun all => exists new, all = records ++ new /\ Forall2 (record_of turn_id) calls new).
Proof.
  induction calls as [calls IH] using (induction_ltof1 _ (@length _)); unfold ltof in IH.
  intros records. destruct calls as [|call [|call' calls]]; cbn [execute_batch].
  - apply yields_ret. exists []. by rewrite app_nil_r.
  - eapply yields_bind; [apply Hexecute|]. intros record Hrecord. apply yields_ret.
    exists [record]. split; [done|]. constructor; [done|constructor].
  - eapply yields_bind; [apply yields_join; apply Hexecute|]. intros [first second] [Hfirst Hsecond].
    eapply yields_weaken; [|apply IH; simpl; lia]. intros all (new & -> & Hnew).
    exists (first :: second :: new). rewrite <-(assoc_L (++)). split; [done|].
    constructor; [done|]. by constructor.
Qed.

Lemma execute_rounds_records rounds : forall records calls,
  length calls <= rounds ->
  yields (execute_rounds execute rounds records calls)
    (fun all => exists new, all = records ++ new /\ Forall2 (record_of turn_id) calls new).
Proof.
  induction rounds as [|rounds IH]; intros records calls Hrounds.
  { destruct calls; [|simpl in Hrounds; lia]. apply yields_ret. exists []. by rewrite app_nil_r. }
  destruct calls as [|call rest]; cbn [execute_rounds].
  { apply yields_ret. exists []. by rewrite app_nil_r. }
  destruct (Nat.leb_spec 2 (find_parallel_batch_end (call :: rest) 0)) as [Hbatch|_].
  - set (batch := find_parallel_batch_end (call :: rest) 0) in *.
    eapply yields_bind; [apply execute_batch_records|]. intros all (new & -> & Hnew).
    eapply yields_weaken; [|apply IH; rewrite length_drop; lia]. intros all (new' & -> & Hnew').
    exists (new ++ new'). rewrite <-(assoc_L (++)). split; [done|].
    rewrite <-(take_drop batch (call :: rest)). by apply Forall2_app.
  - eapply yields_bind; [apply Hexecute|]. intros record Hrecord.
    eapply yields_weaken; [|apply IH; simpl in Hrounds; lia]. intros all (new & -> & Hnew).
    exists (record :: new). rewrite <-(assoc_L (++)). split; [done|]. by constructor.
Qed.
End Records.

Lemma match_name_elim {A} (P : A -> Prop) name (arms : list (list string * A)) fallback :
  P fallback -> Forall (fun arm => P arm.2) arms -> P (match_name name arms fallback).
Proof.
  intros Hfallback. induction 1 as [|[names value] arms Hvalue _ IH]; [done|].
  cbn [match_name]. by destruct (bool_decide (name ∈ names)).
Qed.

Section Execution.
Context `{ext : Externals, libs : StrategyLibs, rows : RowOrder}.
Context `{signer : Signer, futures : JoinFutures, tools : Tools} `{!JoinFuturesOk futures}.

Lemma execute_single_call_record_of policies state broadcaster turn_id history call :
  yields (execute_single_call_record policies state broadcaster turn_id history call)
    (record_of turn_id call).
Proof.
  unfold execute_single_call_record. set (normalized := _ <| _ := _ |>).
  assert (ToolCall.tool normalized = canonicalize_tool_name (ToolCall.tool call)
          /\ ToolCall.args_json normalized = ToolCall.args_json call) as [Htool Hargs] by done.
  clearbody normalized. destruct (policies !! _) as [policy|].
  - destruct (policy_allows policy state); cbn [negb].
    + eapply yields_bind; [apply yields_catch|]. intros dispatched _. apply yields_ret.
      unfold record_of. by destruct dispatched.
    + by apply yields_ret.
  - by apply yields_ret.
Qed.

Lemma execute_actions_yield policies state calls turn_id prior :
  yields (execute_actions_with_history policies state calls turn_id prior)
    (Forall2 (record_of turn_id) calls).
Proof.
  unfold execute_actions_with_history, execute_actions_with_broadcaster_and_history.
  eapply yields_weaken; [|apply execute_rounds_records; [|done]].
  - intros all (new & -> & Hnew). exact Hnew.
  - intros records call. apply execute_single_call_record_of.
Qed.

(** Whatever the tools do - return, fail, change the state - executing calls
    does not fail, and it yields one record per call, in order, with the
    call's tool and arguments and marked as executed. *)
Theorem execute_actions_records (policies : gmap string ToolPolicy.t) (state : AgentState.t)
    (calls : list ToolCall.t) (turn_id : string) (prior : list ToolCallRecord.t) (s : Desk.t) :
  match execute_actions_with_history policies state calls turn_id prior s with
  | Done records _ => Forall2 (record_of turn_id) calls records
  | Fail _ _ => False
  | Trap => True
  end.
Proof. exact (execute_actions_yield policies state calls turn_id prior s). Qed.
End Execution.

(** *** Batches *)

Lemma evm_read_not_http_like : "evm_read" ∉ http_like.
Proof. apply (bool_decide_unpack (~ _)). by vm_compute. Qed.

Lemma can_add_reads state tool :
  can_add_to_parallel_batch state tool = true ->
  is_parallel_read_only_tool tool = true
  /\ (tool = "evm_read" -> ParallelBatchState.has_evm_read state = false)
  /\ (tool ∈ http_like -> ParallelBatchState.has_http_like_fetch state = false).
Proof.
  unfold can_add_to_parallel_batch. destruct (is_parallel_read_only_tool tool); [|done].
  cbn [negb match_name]. intros H. split; [done|].
  destruct (bool_decide (tool ∈ ["evm_read"])) eqn:Hread.
  - apply bool_decide_eq_true, list_elem_of_singleton in Hread as ->.
    split; [intros _; by apply negb_true_iff|]. intros Hin. by apply evm_read_not_http_like in Hin.
  - apply bool_decide_eq_false in Hread. split; [intros ->; set_solver|]. intros Hin.
    rewrite bool_decide_eq_true_2 in H by done. by apply negb_true_iff.
Qed.

Definition count_tools (names : list string) (calls : list ToolCall.t) : nat :=
  length (filter (fun call => ToolCall.tool call ∈ names) calls).

Lemma count_tools_cons names call calls :
  count_tools names (call :: calls)
  = (if decide (ToolCall.tool call ∈ names) then 1 else 0) + count_tools names calls.
Proof. unfold count_tools. rewrite filter_cons. by destruct (decide _). Qed.

(** Of [evm_read] and of the three that fetch over HTTP a batch takes one more
    at most, and none if it has one. *)
Lemma parallel_batch_counts calls : forall state,
  let batch := take (parallel_batch_length state calls) calls in
  Forall (fun call => is_parallel_read_only_tool (ToolCall.tool call) = true) batch
  /\ count_tools ["evm_read"] batch <= (if ParallelBatchState.has_evm_read state then 0 else 1)
  /\ count_tools http_like batch <= (if ParallelBatchState.has_http_like_fetch state then 0 else 1).
Proof.
  induction calls as [|call calls IH]; intros state batch; subst batch; [split_and!; [constructor|apply Nat.le_0_l..]|].
  cbn [parallel_batch_length]. set (tool := ToolCall.tool call) in *.
  destruct (can_add_to_parallel_batch state tool) eqn:Hadd;
    [|split_and!; [constructor|apply Nat.le_0_l..]].
  apply can_add_reads in Hadd as (Hread & Hevm & Hhttp). cbn [take].
  destruct (IH (mark_tool_in_parallel_batch tool state)) as (Hall & Hevms & Hhttps). clear IH.
  set (batch := take _ calls) in *. clearbody batch.
  rewrite !count_tools_cons. fold tool.
  split; [by constructor|]. unfold mark_tool_in_parallel_batch in Hevms, Hhttps.
  cbn [match_name] in Hevms, Hhttps.
  destruct (decide (tool ∈ ["evm_read"])) as [Hin|Hout].
  - rewrite (bool_decide_eq_true_2 _ Hin) in Hevms, Hhttps. simpl in Hevms, Hhttps.
    apply list_elem_of_singleton in Hin. rewrite Hevm by done. rewrite Hin.
    rewrite decide_False by apply evm_read_not_http_like. lia.
  - rewrite (bool_decide_eq_false_2 _ Hout) in Hevms, Hhttps.
    destruct (decide (tool ∈ http_like)) as [Hin|Hnot].
    + rewrite (bool_decide_eq_true_2 _ Hin) in Hevms, Hhttps. simpl in Hevms, Hhttps.
      rewrite Hhttp by done. lia.
    + rewrite (bool_decide_eq_false_2 _ Hnot) in Hevms, Hhttps. lia.
Qed.

(** Calls run together only if all of them are reads, and no two of them share
    a survival counter. *)
Theorem parallel_batch_reads (calls : list ToolCall.t) :
  let batch := take (find_parallel_batch_end calls 0) calls in
  Forall (fun call => is_parallel_read_only_tool (ToolCall.tool call) = true) batch
  /\ count_tools ["evm_read"] batch <= 1 /\ count_tools http_like batch <= 1.
Proof. exact (parallel_batch_counts calls ParallelBatchState.default). Qed.
