(* ===== verification/TurnDecision.v ===== *)
(** * TurnDecision: what a turn may do and what it decided

    Models, from [components/ic-automaton/src/agent.rs], the reserves that
    restrict a turn, the pressure to explore, and the decision envelope of an
    autonomous turn: parsed, validated, normalised and recorded; and from
    [features/inference.rs] the gate before inference and the classes of its
    failures.

    [InferenceAdapters] is what the providers answer, [TurnLibs] decodes JSON
    into the envelope's types. *)

From S2P Require Import Prelude Text SpawnProtocol Types Externals AgentTypes AgentDomain AgentStore AgentScheduler StrategyTypes StrategyStore StrategyValidator StrategyPolicy TurnTypes TurnStore Sanitize TurnText TurnPolicy TurnTools.

(** ** Reserves *)

Section Reserves.
Context `{u256 : U256Text}.

Definition parse_hex_quantity (hex_quantity : option string) : option N :=
  quantity ← hex_quantity;
  raw ← nonempty (trim quantity);
  let without_prefix :=
    match strip_prefix raw "0x" with
    | Some rest => rest
    | None => default raw (strip_prefix raw "0X")
    end in
  if is_empty without_prefix then None else u256_from_hex without_prefix.

(** [trim_end_matches('0')]. *)
Definition trim_end_zeros (digits : string) : string :=
  concat_str (rev (drop_while (fun c => bool_decide (c = "0")) (rev (chars digits)))).

Definition format_decimal_units (value : N) (decimals : nat) : string :=
  let digits := pretty value in
  match decimals with
  | 0 => digits
  | _ =>
      if bool_decide (digits = "0") then "0"
      else if String.length digits <=? decimals then
        let trimmed := trim_end_zeros
          (concat_str (replicate (decimals - String.length digits) "0") +:+ digits) in
        if is_empty trimmed then "0" else "0." +:+ trimmed
      else
        let whole_len := String.length digits - decimals in
        let whole := String.substring 0 whole_len digits in
        let trimmed := trim_end_zeros (String.substring whole_len decimals digits) in
        if is_empty trimmed then whole else whole +:+ "." +:+ trimmed
  end.

Definition reserve_shortfall_from_wallet (actual_hex : option string) (minimum_raw : N)
    (decimals : nat) (resource_label unit_label : string)
    : result unit (option ReserveShortfall.t) :=
  match parse_hex_quantity actual_hex with
  | None => Err tt
  | Some actual_raw =>
      if (minimum_raw <=? actual_raw)%N then Ok None
      else Ok (Some (ReserveShortfall.mk resource_label unit_label
                       (format_decimal_units actual_raw decimals)
                       (format_decimal_units minimum_raw decimals)))
  end.
End Reserves.

Definition render_shortfall (shortfall : ReserveShortfall.t) : string :=
  let unit_label := ReserveShortfall.unit_label shortfall in
  ReserveShortfall.resource_label shortfall +:+ ": " +:+ ReserveShortfall.actual_display shortfall
  +:+ " " +:+ unit_label +:+ " < " +:+ ReserveShortfall.minimum_display shortfall +:+ " "
  +:+ unit_label +:+ " minimum".

Definition checked_reserves_summary : string := "checked reserves against policy minimums".

Definition constraint_explanation (constraint : AutonomyRuntimeConstraint.t) : string :=
  (if AutonomyRuntimeConstraint.coordination_actions_allowed constraint
   then "capital-touching actions blocked by reserve shortfall; coordination-only mode active."
   else "capital-touching actions blocked by reserve shortfall; no safe peer coordination lane is available.")
  +:+ " " +:+ join " " (render_shortfall <$> AutonomyRuntimeConstraint.shortfalls constraint).

Definition should_attempt_restricted_inference (constraint : AutonomyRuntimeConstraint.t) : bool :=
  AutonomyRuntimeConstraint.coordination_actions_allowed constraint.

Definition noop_envelope (trigger : DecisionTrigger.t) (candidates_summary reason explanation : string)
    : AutonomyDecisionEnvelope.t :=
  AutonomyDecisionEnvelope.mk trigger candidates_summary (DecisionEnvelopeOutcome.NoOp reason)
    explanation None None.

Definition no_op_envelope (trigger : DecisionTrigger.t) (constraint : AutonomyRuntimeConstraint.t)
    : AutonomyDecisionEnvelope.t :=
  noop_envelope trigger checked_reserves_summary
    (AutonomyRuntimeConstraint.machine_reason constraint) (constraint_explanation constraint).

Definition derive_freshness (wallet : WalletBalanceSnapshot.t) (now_ns freshness_window_secs : N)
    : WalletBalanceFreshness.t :=
  let age_secs :=
    synced_at ← WalletBalanceSnapshot.last_synced_at_ns wallet;
    Some (saturating_sub now_ns synced_at / 1000000000)%N in
  let is_stale := is_none_or (fun age => (freshness_window_secs <? age)%N) age_secs in
  let status :=
    if is_some (WalletBalanceSnapshot.last_error wallet) then WalletBalanceStatus.Error
    else if negb (is_some (WalletBalanceSnapshot.last_synced_at_ns wallet))
    then WalletBalanceStatus.Unknown
    else if is_stale then WalletBalanceStatus.Stale
    else WalletBalanceStatus.Fresh in
  WalletBalanceFreshness.mk age_secs freshness_window_secs is_stale status.

Section Constraint.
Context `{u256 : U256Text}.

(** The shortfalls of the reserves the policy names; a balance that cannot be
    read lifts the restriction. *)
Definition reserve_shortfalls (wallet : WalletBalanceSnapshot.t) (reserve : ReservePolicy.t)
    : result unit (list ReserveShortfall.t) :=
  gas ← match ReservePolicy.min_gas_wei reserve with
        | Some min_gas_wei =>
            reserve_shortfall_from_wallet (WalletBalanceSnapshot.eth_balance_wei_hex wallet)
              min_gas_wei 18 "ETH gas reserve" "ETH"
        | None => Ok None
        end;
  usdc ← match ReservePolicy.min_inference_usdc_6dp reserve with
         | Some min_inference_usdc_6dp =>
             reserve_shortfall_from_wallet (WalletBalanceSnapshot.usdc_balance_raw_hex wallet)
               min_inference_usdc_6dp (N.to_nat (WalletBalanceSnapshot.usdc_decimals wallet))
               "Inference USDC reserve" "USDC"
         | None => Ok None
         end;
  Ok (option_list gas ++ option_list usdc).

Definition is_periodic (trigger : ScheduledTurnTrigger.t) : bool :=
  match trigger with ScheduledTurnTrigger.Periodic => true | _ => false end.

Definition autonomy_runtime_constraint_for_turn (snapshot : RuntimeSnapshot.t)
    (policy : AutonomyPolicy.t) (trigger : ScheduledTurnTrigger.t) (has_external_input : bool)
    (now_ns : N) (s : Desk.t) : option AutonomyRuntimeConstraint.t :=
  if negb (is_periodic trigger) || has_external_input then None
  else
    let wallet := RuntimeSnapshot.wallet_balance snapshot in
    let freshness := derive_freshness wallet now_ns
      (WalletBalanceSyncConfig.freshness_window_secs (RuntimeSnapshot.wallet_balance_sync snapshot)) in
    if bool_decide (WalletBalanceFreshness.status freshness <> WalletBalanceStatus.Fresh) then None
    else
      match reserve_shortfalls wallet (AutonomyPolicy.reserve_policy policy) with
      | Err _ | Ok [] => None
      | Ok shortfalls =>
          Some (AutonomyRuntimeConstraint.mk "reserve_insufficient"
            InferenceToolScope.CoordinationOnly
            (RoomPollingState.configured (RuntimeSnapshot.room_poll snapshot)
             && can_run_survival_operation SurvivalOperationClass.InterCanisterCall now_ns (agent s))
            shortfalls)
      end.
End Constraint.

(** ** Exploration *)

Definition HEALTHY_AUTONOMY_NOOP_STREAK_CONTEXT_LIMIT : N := 10.

Definition no_op_reason_counts_as_passive (reason : string) : bool :=
  bool_decide (trim reason ∉
    ["reserve_insufficient"; "inference_deferred_survival_policy"; "inference_deferred_low_cycles";
     "inference_provider_rejected"; "inference_configuration_error"; "invalid_decision_shape"]).

Definition quiet_scheduled_noop_streak (decisions : list DecisionRecord.t) : nat :=
  length (take_while (fun decision =>
      match DecisionRecord.outcome decision with
      | DecisionOutcome.NoOp reason => no_op_reason_counts_as_passive reason
      | _ => false
      end)
    (take_while (fun decision =>
      bool_decide (DecisionRecord.trigger decision = DecisionTrigger.ScheduledReview)) decisions)).

Definition autonomy_exploration_state_for_turn `{rows : RowOrder} (trigger : ScheduledTurnTrigger.t)
    (has_external_input : bool) (runtime_constraint : option AutonomyRuntimeConstraint.t) (s : Desk.t)
    : AutonomyExplorationState.t :=
  if negb (is_periodic trigger) || has_external_input || is_some runtime_constraint
  then AutonomyExplorationState.default
  else AutonomyExplorationState.mk true
         (quiet_scheduled_noop_streak
            (list_recent_decisions HEALTHY_AUTONOMY_NOOP_STREAK_CONTEXT_LIMIT s)).

Definition should_request_bounded_action (exploration : AutonomyExplorationState.t) : bool :=
  AutonomyExplorationState.active exploration.

Definition current_turn_context_line (staged_message_count evm_events : nat)
    (exploration_state : AutonomyExplorationState.t) : string :=
  if bool_decide (staged_message_count <> 0)
  then "context: processing " +:+ pretty (N.of_nat staged_message_count) +:+ " staged inbox message(s)"
  else if bool_decide (evm_events <> 0)
  then "context: processing " +:+ pretty (N.of_nat evm_events) +:+ " newly observed EVM event(s)"
  else if AutonomyExplorationState.active exploration_state
  then "context: scheduled exploration review (scheduler, no external input)"
  else "context: scheduled review (scheduler, no external input)".

(** ** Failures of inference *)

Definition is_insufficient_cycles_error (error : string) : bool :=
  contains_any (to_lowercase error)
    ["insufficient cycles"; "not enough cycles"; "out of cycles"; "cycles depleted"].

Definition is_openrouter_privacy_configuration_error (error : string) : bool :=
  let normalized := to_ascii_lowercase error in
  contains normalized "no endpoints available matching your guardrail restrictions and data policy"
  || contains normalized "guardrail restrictions" && contains normalized "data policy"
     && contains normalized "settings/privacy".

Definition classify_inference_outcall_failure_kind (normalized_error : string)
    : OutcallFailureKind.t :=
  if contains_any normalized_error
       ["http body exceeds size limit"; "response exceeded max_response_bytes"]
     || contains normalized_error "max_response_bytes" && contains normalized_error "exceed"
  then OutcallFailureKind.ResponseTooLarge
  else if contains_any normalized_error
       ["status 429"; "http 429"; "rate limit"; "too many requests"]
  then OutcallFailureKind.RateLimited
  else if contains_any normalized_error ["timeout"; "timed out"; "deadline exceeded"]
  then OutcallFailureKind.Timeout
  else if contains_any normalized_error
       ["status 503"; "status 502"; "status 504"; "http 503"; "http 502"; "http 504";
        "service unavailable"]
  then OutcallFailureKind.UpstreamUnavailable
  else if contains_any normalized_error
       ["status 401"; "status 403"; "http 401"; "http 403"; "rejected by policy"]
  then OutcallFailureKind.RejectedByPolicy
  else if contains_any normalized_error
       ["status 400"; "status 404"; "status 422"; "http 400"; "http 404"; "http 422"]
  then OutcallFailureKind.InvalidRequest
  else if contains_any normalized_error
       ["failed to parse"; "response decode failed"; "response was not valid utf-8";
        "contained no choices"; "must be a json object"]
  then OutcallFailureKind.InvalidResponse
  else if contains_any normalized_error
       ["outcall failed"; "transport"; "connection refused"; "connection reset";
        "network is unreachable"]
  then OutcallFailureKind.Transport
  else OutcallFailureKind.Unknown.

Definition classify_inference_failure (error : string) : RecoveryFailure.t :=
  let normalized := to_ascii_lowercase error in
  let operation kind := RecoveryFailure.Operation (OperationFailure.mk kind) in
  if is_insufficient_cycles_error normalized then operation OperationFailureKind.InsufficientCycles
  else if contains normalized "is not configured"
  then operation OperationFailureKind.MissingConfiguration
  else if contains_any normalized
       ["cannot be empty"; "must be > 0"; "unsupported ic_llm model";
        "invalid ic_llm canister principal"]
     || is_openrouter_privacy_configuration_error normalized
  then operation OperationFailureKind.InvalidConfiguration
  else if contains_any normalized ["unauthorized"; "forbidden"]
  then operation OperationFailureKind.Unauthorized
  else RecoveryFailure.Outcall
         (OutcallFailure.mk (classify_inference_outcall_failure_kind normalized) None None).

Definition classify_autonomy_inference_suppression_failure (error : string)
    : option AutonomyInferenceSuppressionClassification.t :=
  if contains_any (to_ascii_lowercase error) ["status 401"; "status 403"; "http 401"; "http 403"]
  then Some AutonomyInferenceSuppressionClassification.ProviderRejected
  else
    match classify_inference_failure error with
    | RecoveryFailure.Outcall failure =>
        if bool_decide (OutcallFailure.kind failure = OutcallFailureKind.RejectedByPolicy)
        then Some AutonomyInferenceSuppressionClassification.ProviderRejected else None
    | RecoveryFailure.Operation failure =>
        if bool_decide (OperationFailure.kind failure = OperationFailureKind.Unauthorized)
        then Some AutonomyInferenceSuppressionClassification.ProviderRejected else None
    end.

(** ** The gate before inference *)

(** What the provider of the snapshot answers to an input and a transcript
    ([InferenceAdapter::infer_with_transcript]), and the balance of the system
    API. *)
Class InferenceAdapters := {
  infer_with_transcript : InferenceProvider.t -> RuntimeSnapshot.t -> InferenceInput.t ->
    list InferenceTranscriptMessage.t -> T InferenceOutput.t;
  total_cycle_balance : Desk.t -> N;
}.

Definition deferred (reason : InferenceDeferredReason.t) (explanation : string) : InferenceOutput.t :=
  InferenceOutput.mk [] explanation (Some reason).
Definition is_deferred (output : InferenceOutput.t) : bool :=
  is_some (InferenceOutput.deferred_reason output).
Definition is_inference_proxy_deferred_output (output : InferenceOutput.t) : bool :=
  bool_decide (InferenceOutput.deferred_reason output
               = Some InferenceDeferredReason.ProxyCallbackPending).

Section Inference.
Context `{cost : CostApi, adapters : InferenceAdapters}.

Definition infer_with_provider_transcript (snapshot : RuntimeSnapshot.t) (input : InferenceInput.t)
    (transcript : list InferenceTranscriptMessage.t) : T InferenceOutput.t :=
  s ← get_state;
  if negb (terminal_turn_in_progress (agent s))
     && negb (can_run_survival_operation SurvivalOperationClass.Inference (now s) (agent s))
  then mret (deferred InferenceDeferredReason.SurvivalPolicy "inference skipped due to survival policy")
  else
    affordable ← lift (can_afford_with_reserve (total_cycle_balance s)
      (OperationClass.WorkflowEnvelope 5000000000) DEFAULT_SAFETY_MARGIN_BPS
      (operation_reserve_floor_cycles (agent s)));
    if negb affordable
    then mret (deferred InferenceDeferredReason.LowCycles
                 "inference skipped to preserve the reserved terminal budget")
    else
      output ← infer_with_transcript (RuntimeSnapshot.inference_provider snapshot) snapshot input
        transcript;
      (if is_deferred output then mret tt
       else modify (fun s => clear_autonomy_inference_suppression_state
              (on_agent (record_survival_operation_success SurvivalOperationClass.Inference) s)));;
      mret output.

Definition infer_with_provider (snapshot : RuntimeSnapshot.t) (input : InferenceInput.t)
    : T InferenceOutput.t := infer_with_provider_transcript snapshot input [].
End Inference.

(** ** Envelopes without a decision *)

Definition decision_trigger_for_turn (trigger : ScheduledTurnTrigger.t) (has_external_input : bool)
    : DecisionTrigger.t :=
  if has_external_input then DecisionTrigger.InboxMessage
  else
    match trigger with
    | ScheduledTurnTrigger.Periodic => DecisionTrigger.ScheduledReview
    | ScheduledTurnTrigger.InferenceProxyResume => DecisionTrigger.RecoveryFollowUp
    | ScheduledTurnTrigger.PlanContinuation => DecisionTrigger.PlanContinuation
    end.

Definition scheduled_turn_marker (trigger : ScheduledTurnTrigger.t) : string :=
  DecisionTrigger.inference_input_marker (decision_trigger_for_turn trigger false).

Definition render_decision_envelope_error_context (error : string) : string :=
  "decision envelope invalid: " +:+ sanitize_preview error 200.

Definition autonomy_inner_dialogue_marker_for_inference_defer (reason : InferenceDeferredReason.t)
    : string :=
  match reason with
  | InferenceDeferredReason.LowCycles => "autonomy inference deferred: low cycles"
  | InferenceDeferredReason.SurvivalPolicy => "autonomy inference deferred: survival policy"
  | InferenceDeferredReason.ProxyCallbackPending =>
      "autonomy inference deferred: awaiting proxy callback"
  end.

Definition autonomy_noop_envelope_for_inference_defer (reason : InferenceDeferredReason.t)
    (trigger : DecisionTrigger.t) : option AutonomyDecisionEnvelope.t :=
  let summary := "autonomy turn deferred before decision generation" in
  match reason with
  | InferenceDeferredReason.SurvivalPolicy =>
      Some (noop_envelope trigger summary "inference_deferred_survival_policy"
              "autonomy inference deferred by survival policy before decision generation")
  | InferenceDeferredReason.LowCycles =>
      Some (noop_envelope trigger summary "inference_deferred_low_cycles"
              "autonomy inference deferred because liquid cycles were insufficient")
  | InferenceDeferredReason.ProxyCallbackPending => None
  end.

Definition inference_error_reason (error : string) : string :=
  match classify_inference_failure error with
  | RecoveryFailure.Operation failure =>
      if bool_decide (OperationFailure.kind failure ∈
           [OperationFailureKind.MissingConfiguration; OperationFailureKind.InvalidConfiguration;
            OperationFailureKind.Unauthorized])
      then "inference_configuration_error" else "inference_error"
  | RecoveryFailure.Outcall failure =>
      if bool_decide (OutcallFailure.kind failure ∈
           [OutcallFailureKind.InvalidRequest; OutcallFailureKind.RejectedByPolicy])
      then "inference_provider_rejected" else "inference_error"
  end.

Definition autonomy_noop_envelope_for_inference_error (error : string) (trigger : DecisionTrigger.t)
    : AutonomyDecisionEnvelope.t :=
  noop_envelope trigger "autonomy turn could not obtain model output" (inference_error_reason error)
    ("autonomy inference failed before decision generation: " +:+ sanitize_preview error 180).

Definition autonomy_noop_envelope_for_provider_rejection_suppression (trigger : DecisionTrigger.t)
    (remaining_secs repeat_count : N) : AutonomyDecisionEnvelope.t :=
  noop_envelope trigger "autonomy inference suppressed during provider rejection cooldown"
    "inference_provider_rejected"
    ("autonomy inference suppressed after repeated provider rejection failures: repeat_count="
     +:+ pretty repeat_count +:+ " cooldown_remaining_secs=" +:+ pretty remaining_secs).

(** ** Normalisation *)

Definition normalize_decision_envelope_for_runtime_constraint
    (runtime_constraint : option AutonomyRuntimeConstraint.t) (envelope : AutonomyDecisionEnvelope.t)
    : AutonomyDecisionEnvelope.t :=
  match runtime_constraint, AutonomyDecisionEnvelope.outcome envelope with
  | Some constraint, DecisionEnvelopeOutcome.NoOp _ =>
      envelope <| AutonomyDecisionEnvelope.outcome :=
                    DecisionEnvelopeOutcome.NoOp (AutonomyRuntimeConstraint.machine_reason constraint) |>
               <| AutonomyDecisionEnvelope.candidates_summary := checked_reserves_summary |>
               <| AutonomyDecisionEnvelope.explanation := constraint_explanation constraint |>
  | _, _ => envelope
  end.

Definition normalize_decision_envelope_for_exploration_action
    (exploration_state : AutonomyExplorationState.t) (tool_records : list ToolCallRecord.t)
    (envelope : AutonomyDecisionEnvelope.t) : AutonomyDecisionEnvelope.t :=
  if negb (AutonomyExplorationState.active exploration_state) then envelope
  else
    match AutonomyDecisionEnvelope.outcome envelope,
          exploration_action_summary_from_tool_records tool_records with
    | DecisionEnvelopeOutcome.NoOp _, Some action_summary =>
        envelope <| AutonomyDecisionEnvelope.outcome :=
                      DecisionEnvelopeOutcome.Executed action_summary |>
                 <| AutonomyDecisionEnvelope.explanation ::= fun prior_explanation =>
                      prior_explanation +:+ " Healthy-runway exploration completed `"
                      +:+ action_summary
                      +:+ "` successfully, so the terminal outcome was normalized from NoOp to Executed." |>
    | _, _ => envelope
    end.

(** ** Validation and parsing *)

(** [format!("{trigger:?}")]: the variant's name. *)
Definition trigger_debug (trigger : DecisionTrigger.t) : string := DecisionTrigger.as_wire_name trigger.

Definition validate_decision_envelope (expected_trigger : DecisionTrigger.t)
    (envelope : AutonomyDecisionEnvelope.t) : result string unit :=
  err_if (bool_decide (AutonomyDecisionEnvelope.trigger envelope <> expected_trigger))
    ("decision envelope trigger mismatch: expected " +:+ trigger_debug expected_trigger
     +:+ " got " +:+ trigger_debug (AutonomyDecisionEnvelope.trigger envelope));;
  err_if (is_blank (AutonomyDecisionEnvelope.candidates_summary envelope))
    "decision envelope candidates_summary must be non-empty";;
  err_if (is_blank (AutonomyDecisionEnvelope.explanation envelope))
    "decision envelope explanation must be non-empty";;
  match AutonomyDecisionEnvelope.outcome envelope with
  | DecisionEnvelopeOutcome.Executed action_summary
  | DecisionEnvelopeOutcome.Simulated action_summary =>
      err_if (is_blank action_summary) "decision envelope action_summary must be non-empty"
  | DecisionEnvelopeOutcome.NoOp reason | DecisionEnvelopeOutcome.Deferred reason =>
      err_if (is_blank reason) "decision envelope reason must be non-empty"
  | DecisionEnvelopeOutcome.Escalated gap =>
      match gap with
      | EscalationClass.MissingPolicy what | EscalationClass.OutOfAuthority what
      | EscalationClass.CapabilityGap what | EscalationClass.SafetyConflict what =>
          err_if (is_blank what) "decision envelope escalation detail must be non-empty"
      | EscalationClass.RepeatedFailure strategy _ =>
          err_if (is_blank strategy) "decision envelope escalation strategy must be non-empty"
      end
  end.

(** [trim_end]. *)
Definition trim_end (text : string) : string :=
  concat_str (reverse (drop_while is_whitespace (reverse (chars text)))).

Definition unwrap_markdown_code_fence (raw : string) : string :=
  let trimmed := trim raw in
  match strip_prefix trimmed "```" with
  | None => trimmed
  | Some without_opening =>
      match strip_suffix (trim_end without_opening) "```" with
      | None => trimmed
      | Some without_closing =>
          let fenced_body := trim without_closing in
          match split_once newline fenced_body with
          | Some (first_line, rest) =>
              if negb (contains first_line "{") && negb (contains first_line "[") then trim rest
              else fenced_body
          | None => fenced_body
          end
      end
  end.

(** The serde decoders of the envelope's types, and [Number::to_string]. *)
Class TurnLibs := {
  envelope_from_str : string -> result string AutonomyDecisionEnvelope.t;
  envelope_outcome_from_value : Value.t -> result string DecisionEnvelopeOutcome.t;
  decision_trigger_from_value : Value.t -> result string DecisionTrigger.t;
  number_text : JsonNumber.t -> string;
}.

Section Envelopes.
Context `{libs : StrategyLibs, turn_libs : TurnLibs}.

Definition legacy_json_string_field (key : string) (object : gmap string Value.t) : option string :=
  value ← object !! key;
  match value with
  | Value.String text => nonempty (trim text)
  | Value.Number number => Some (number_text number)
  | _ => None
  end.

Definition synthesize_legacy_action_summary (payload : Value.t) : option string :=
  object ← Value.as_object payload;
  match str_member "action_summary" object ≫= fun summary => nonempty (trim summary) with
  | Some trimmed => Some trimmed
  | None =>
      action ← legacy_json_string_field "action" object;
      let place :=
        match legacy_json_string_field "protocol" object,
              legacy_json_string_field "template" object with
        | Some protocol, Some template => ["on " +:+ protocol +:+ "/" +:+ template]
        | Some protocol, None => ["on " +:+ protocol]
        | None, Some template => ["template " +:+ template]
        | None, None => []
        end in
      let amount := (fun amount_usdc => "amount_usdc=" +:+ amount_usdc)
        <$> option_list (legacy_json_string_field "amount_usdc" object) in
      let hash := (fun tx_hash => "tx=" +:+ tx_hash)
        <$> option_list (legacy_json_string_field "tx_hash" object) in
      let summary := join " " ([action] ++ place ++ amount ++ hash) in
      if is_blank summary then None else Some summary
  end.

Definition parse_legacy_decision_envelope_outcome (value : Value.t)
    : result string DecisionEnvelopeOutcome.t :=
  match envelope_outcome_from_value value with
  | Ok outcome => Ok outcome
  | Err error =>
      object ← ok_or (Value.as_object value) "field `outcome` must be a json object";
      match btree_iter object with
      | [(variant, payload)] =>
          if bool_decide (variant = "Executed") then
            action_summary ← ok_or (synthesize_legacy_action_summary payload) "missing field `action_summary`";
            Ok (DecisionEnvelopeOutcome.Executed action_summary)
          else if bool_decide (variant = "Simulated") then
            action_summary ← ok_or (synthesize_legacy_action_summary payload) "missing field `action_summary`";
            Ok (DecisionEnvelopeOutcome.Simulated action_summary)
          else Err error
      | _ => Err "field `outcome` must contain exactly one variant"
      end
  end.

Definition parse_legacy_autonomy_decision_envelope (value : Value.t)
    : result string AutonomyDecisionEnvelope.t :=
  object ← ok_or (Value.as_object value) "decision envelope must be a json object";
  trigger_value ← ok_or (object !! "trigger") "missing field `trigger`";
  trigger ← map_err (fun error => "invalid field `trigger`: " +:+ error)
              (decision_trigger_from_value trigger_value);
  candidates_summary ← ok_or (str_member "candidates_summary" object) "missing field `candidates_summary`";
  outcome_value ← ok_or (object !! "outcome") "missing field `outcome`";
  outcome ← parse_legacy_decision_envelope_outcome outcome_value;
  explanation ← ok_or (str_member "explanation" object) "missing field `explanation`";
  Ok (AutonomyDecisionEnvelope.mk trigger candidates_summary outcome explanation
        (str_member "next_steps" object) (str_member "confidence" object)).

Definition parse_autonomy_decision_envelope (raw : string) (expected_trigger : DecisionTrigger.t)
    : result string AutonomyDecisionEnvelope.t :=
  let trimmed := trim (unwrap_markdown_code_fence raw) in
  err_if (is_empty trimmed) "decision envelope output was empty";;
  envelope ←
    match envelope_from_str trimmed with
    | Ok envelope => Ok envelope
    | Err parse_error =>
        value ← map_err (fun error => "decision envelope parse failed: " +:+ error)
                  (value_from_str trimmed);
        map_err (fun _ => "decision envelope parse failed: " +:+ parse_error)
          (parse_legacy_autonomy_decision_envelope value)
    end;
  validate_decision_envelope expected_trigger envelope;;
  Ok envelope.
End Envelopes.

Definition decision_record_from_envelope (turn_id : string) (timestamp_ns policy_version : N)
    (envelope : AutonomyDecisionEnvelope.t) : DecisionRecord.t :=
  DecisionRecord.mk turn_id timestamp_ns (AutonomyDecisionEnvelope.trigger envelope)
    (DecisionOutcome.from (AutonomyDecisionEnvelope.outcome envelope)) policy_version
    (sanitize_preview (AutonomyDecisionEnvelope.candidates_summary envelope) 280)
    (sanitize_preview (AutonomyDecisionEnvelope.explanation envelope) 280).
