(* ===== verification/Turn.v ===== *)
(** * Turn: one turn of the automaton

    Models the turn of [components/ic-automaton/src/agent.rs]: the guards, the
    continuation loop of inference and tool calls, the decision that closes an
    autonomous turn, the reply to a staged message, the turn record and the
    terminal turn, with the wrapper that settles a terminal turn that failed.

    The locals of [run_scheduled_turn_job_with_limits_and_tool_cap_inner] that
    it mutates are the record [Turn.t], which holds the tables as well; what it
    fixes before the loop is [Frame.t].  A round is a computation on [Turn.t]
    that returns to go on and fails with [tt] to [break].  Log output is left
    out.  [TurnPorts] is what the turn calls outside of the modelled part: the
    text of the prompt's context, the derivation of the address, the signers
    and the report to the factory. *)

From S2P Require Import Prelude Text SpawnProtocol Types Externals AgentTypes AgentDomain TopUp AgentStore AgentScheduler StrategyTypes StrategyStore StrategyPolicy TurnTypes TurnStore Sanitize TurnText TurnPolicy TurnTools TurnDecision.

Definition MAX_AGENT_TURN_DURATION_NS : N := AGENT_TURN_BUDGET_SECS * 1000000000.

(** [format!("{state:?}")]. *)
Definition state_debug (state : AgentState.t) : string :=
  match state with
  | AgentState.Bootstrapping => "Bootstrapping"
  | AgentState.Idle => "Idle"
  | AgentState.LoadingContext => "LoadingContext"
  | AgentState.Inferring => "Inferring"
  | AgentState.ExecutingActions => "ExecutingActions"
  | AgentState.Persisting => "Persisting"
  | AgentState.Sleeping => "Sleeping"
  | AgentState.Faulted => "Faulted"
  end.

(** ** What the turn asks of the store *)

Definition inbox_usdc_discovery_blocked (snapshot : RuntimeSnapshot.t) : bool :=
  is_some_and (fun error =>
      contains (to_ascii_lowercase error) "inbox.usdc returned zero address")
    (WalletBalanceSnapshot.last_error (RuntimeSnapshot.wallet_balance snapshot)).

Definition wallet_balance_sync_has_discoverable_usdc_source (snapshot : RuntimeSnapshot.t) : bool :=
  WalletBalanceSyncConfig.discover_usdc_via_inbox (RuntimeSnapshot.wallet_balance_sync snapshot)
  && is_some (RuntimeSnapshot.inbox_contract_address snapshot)
  && negb (inbox_usdc_discovery_blocked snapshot).

Definition wallet_balance_sync_has_usdc_source (snapshot : RuntimeSnapshot.t) : bool :=
  is_some (WalletBalanceSnapshot.usdc_contract_address (RuntimeSnapshot.wallet_balance snapshot))
  || wallet_balance_sync_has_discoverable_usdc_source snapshot.

Definition wallet_balance_sync_capable (snapshot : RuntimeSnapshot.t) : bool :=
  let sync := RuntimeSnapshot.wallet_balance_sync snapshot in
  let wallet := RuntimeSnapshot.wallet_balance snapshot in
  if negb (WalletBalanceSyncConfig.enabled sync) then false
  else if is_blank (RuntimeSnapshot.evm_rpc_url snapshot) then false
  else if is_some (RuntimeSnapshot.evm_address snapshot) then
    if is_some (WalletBalanceSnapshot.usdc_contract_address wallet) then true
    else if negb (WalletBalanceSyncConfig.discover_usdc_via_inbox sync) then true
    else wallet_balance_sync_has_discoverable_usdc_source snapshot
  else if is_blank (RuntimeSnapshot.ecdsa_key_name snapshot) then false
  else wallet_balance_sync_has_usdc_source snapshot.

Definition factory_principal `{ext : Externals} (s : Desk.t) : option Principal :=
  value ← RuntimeSnapshot.factory_principal (snapshot_of s);
  match principal_from_text value with Ok principal => Some principal | Err _ => None end.

Definition conversation_history_limit_for_provider (provider : InferenceProvider.t) : nat :=
  match provider with InferenceProvider.IcLlm => 2 | _ => 5 end.

(** A change of the hot state that returns a value. *)
Definition agent_op {A} (op : Agent.t -> A * Agent.t) : T A := fun s =>
  Done (op (agent s)).1 (on_agent (fun _ => (op (agent s)).2) s).
Definition agent_try (op : Agent.t -> result string Agent.t) : T unit :=
  s ← get_state;
  changed ← lift (op (agent s));
  put_state (on_agent (fun _ => changed) s).

(** ** The data of a turn *)

Module DynamicContextOptions.
Record t := mk {
  turn_id : string;
  conversation_history_limit : nat;
  tool_scope : InferenceToolScope.t;
  runtime_constraint : option AutonomyRuntimeConstraint.t;
  exploration_state : AutonomyExplorationState.t;
}.
End DynamicContextOptions.

(** [build_dynamic_context_with_scope] reads the memory tables as well, which
    [list_memory_for_context] gives it. *)
Class TurnPorts := {
  debug_str : string -> string;
  build_dynamic_context_with_scope : RuntimeSnapshot.t -> list InboxMessage.t -> nat ->
    DynamicContextOptions.t -> Desk.t -> string;
  derive_and_cache_evm_address : string -> T string;
  MockSignerAdapter : Signer;
  ThresholdSignerAdapter : string -> Signer;
  report_starvation : Principal -> string -> string -> T unit;
}.

(** What is fixed before the loop. *)
Module Frame.
Record t := mk {
  trigger : ScheduledTurnTrigger.t;
  max_inference_rounds : nat;
  max_turn_duration_ns : N;
  max_tool_calls_per_turn : nat;
  terminal_turn : bool;
  snapshot : RuntimeSnapshot.t;
  staged_messages : list InboxMessage.t;
  turn_id : string;
  started_at_ns : N;
}.
Definition staged_message_ids (frame : t) : list string :=
  InboxMessage.id <$> staged_messages frame.
Definition staged_message_count (frame : t) : nat := length (staged_messages frame).
Definition has_external_input (frame : t) : bool :=
  bool_decide (staged_message_count frame <> 0).
Definition decision_trigger (frame : t) : DecisionTrigger.t :=
  decision_trigger_for_turn (trigger frame) (has_external_input frame).
End Frame.

(** What the loop works with: computed before it, and not changed by it. *)
Module Plan.
Record t := mk {
  staged_proxy_wait_state : option InboxProxyWaitState.t;
  proxy_callback_buffered_turn : bool;
  policy : AutonomyPolicy.t;
  autonomy_runtime_constraint : option AutonomyRuntimeConstraint.t;
  exploration_state : AutonomyExplorationState.t;
  tool_scope : InferenceToolScope.t;
  input : InferenceInput.t;
  policies : gmap string ToolPolicy.t;
}.
End Plan.

Module Turn.
Record t := mk {
  desk : Desk.t;
  state : AgentState.t;
  last_error : option string;
  all_tool_calls : list ToolCallRecord.t;
  assistant_reply : option string;
  inner_dialogue : option string;
  inference_round_count : nat;
  continuation_stop_reason : ContinuationStopReason.t;
  degrade : DegradeTracking.t;
  runtime_autonomy_decision_envelope : option AutonomyDecisionEnvelope.t;
  tool_sequence_validator : ToolSequenceValidator.t;
  transcript : list InferenceTranscriptMessage.t;
  inference_completed : bool;
  inference_deferred : bool;
  staged_external_input_handled : bool;
  executed_any_tool : bool;
  autonomy_inference_error : option string;
}.
#[global] Instance eta_t : Eta t := fun self =>
  mk (desk self) (state self) (last_error self) (all_tool_calls self) (assistant_reply self)
    (inner_dialogue self) (inference_round_count self) (continuation_stop_reason self)
    (degrade self) (runtime_autonomy_decision_envelope self) (tool_sequence_validator self)
    (transcript self) (inference_completed self) (inference_deferred self)
    (staged_external_input_handled self) (executed_any_tool self) (autonomy_inference_error self).
Definition start (desk : Desk.t) (state : AgentState.t) : t :=
  mk desk state None [] None None 0 ContinuationStopReason.None DegradeTracking.new None
    ToolSequenceValidator.new [] false false false false None.
End Turn.

(** A step of the loop, where failing with [tt] is [break], and of the turn
    outside of it, which does not fail: its errors are values. *)
Definition R : Type -> Type := M Turn.t unit.
Definition P : Type -> Type := M Turn.t Empty_set.

Definition break {A} : R A := mthrow tt.
Definition break_if (b : bool) : R unit := if b then break else mret tt.

Definition put_desk (s : Desk.t) (t : Turn.t) : Turn.t := t <| Turn.desk := s |>.
(** A storage call or a port: its error is a value. *)
Definition on_desk {E A} (m : T A) : M Turn.t E (result string A) :=
  zoom Turn.desk put_desk (catch m).
Definition desk_gets {E A} (f : Desk.t -> A) : M Turn.t E A := gets (fun t => f (Turn.desk t)).
Definition desk_modify {E} (f : Desk.t -> Desk.t) : M Turn.t E unit :=
  modify (fun t => t <| Turn.desk ::= f |>).
Definition desk_op {E A} (op : Desk.t -> A * Desk.t) : M Turn.t E A := fun t =>
  Done (op (Turn.desk t)).1 (put_desk (op (Turn.desk t)).2 t).

(** [append_inner_dialogue(&mut inner_dialogue, segment)]. *)
Definition say {E} (segment : string) : M Turn.t E unit :=
  modify (fun t => t <| Turn.inner_dialogue ::= append_inner_dialogue segment |>).
Definition set_error {E} (error : string) : M Turn.t E unit :=
  modify (fun t => t <| Turn.last_error := Some error |>).
Definition set_envelope (envelope : AutonomyDecisionEnvelope.t) : R unit :=
  modify (fun t => t <| Turn.runtime_autonomy_decision_envelope := Some envelope |>).
Definition stop_because (reason : ContinuationStopReason.t) : R unit :=
  modify (fun t => t <| Turn.continuation_stop_reason := reason |>).

(** ** Records of a round *)

(** The loop over [planned_tool_calls]: what runs, in order, and how each call
    is planned; the suppressed calls are consumed by index. *)
Module RoundPlan.
Record t := mk {
  planned_execution : list PlannedToolCallExecution.t;
  executable_tool_calls : list ToolCall.t;
  unused_suppressions : list SuppressedAutonomyToolCall.t;
  validator : ToolSequenceValidator.t;
}.
End RoundPlan.

Definition suppressed_execution (reason : AutonomySuppressionReason.t) : PlannedToolCallExecution.t :=
  match reason with
  | AutonomySuppressionReason.Dedupe age_secs => PlannedToolCallExecution.DedupeSuppressed age_secs
  | AutonomySuppressionReason.FailureCooldown remaining_secs normalized_error repeat_count =>
      PlannedToolCallExecution.FailureCooldownSuppressed remaining_secs normalized_error repeat_count
  | AutonomySuppressionReason.ConsecutiveDegradeCap consecutive_degrade_count error_class =>
      PlannedToolCallExecution.ConsecutiveDegradeCapSuppressed consecutive_degrade_count error_class
  end.

Definition out_of_scope (call : ToolCall.t) (scope : InferenceToolScope.t) : string :=
  "tool `" +:+ ToolCall.tool call +:+ "` is not available while autonomy_tool_scope="
  +:+ InferenceToolScope.as_tag scope.

Definition plan_execution (execution : PlannedToolCallExecution.t) (plan : RoundPlan.t)
    : RoundPlan.t :=
  RoundPlan.mk (execution :: RoundPlan.planned_execution plan) (RoundPlan.executable_tool_calls plan)
    (RoundPlan.unused_suppressions plan) (RoundPlan.validator plan).
Definition plan_execute (call : ToolCall.t) (plan : RoundPlan.t) : RoundPlan.t :=
  RoundPlan.mk (PlannedToolCallExecution.Execute :: RoundPlan.planned_execution plan)
    (call :: RoundPlan.executable_tool_calls plan)
    (RoundPlan.unused_suppressions plan) (RoundPlan.validator plan).

Fixpoint plan_round (index : nat) (scope : InferenceToolScope.t)
    (suppressed : list SuppressedAutonomyToolCall.t) (validator : ToolSequenceValidator.t)
    (calls : list ToolCall.t) : RoundPlan.t :=
  match calls with
  | [] => RoundPlan.mk [] [] suppressed validator
  | call :: calls =>
      let unsuppressed :=
        if negb (tool_allowed_in_scope (ToolCall.tool call) scope) then
          plan_execution (PlannedToolCallExecution.RuntimeRestricted (out_of_scope call scope))
            (plan_round (S index) scope suppressed validator calls)
        else
          let '(verdict, validator) := validate_next (ToolCall.tool call) validator in
          let rest := plan_round (S index) scope suppressed validator calls in
          match verdict with
          | Ok _ => plan_execute call rest
          | Err reason => plan_execution (PlannedToolCallExecution.SequenceBlocked reason) rest
          end in
      match suppressed with
      | entry :: suppressed =>
          if bool_decide (SuppressedAutonomyToolCall.index entry = index)
          then plan_execution (suppressed_execution (SuppressedAutonomyToolCall.reason entry))
                 (plan_round (S index) scope suppressed validator calls)
          else unsuppressed
      | [] => unsuppressed
      end
  end.

(** The calls of tools that reached the cap, among those not suppressed yet. *)
Definition cap_suppressed_calls (caps : gmap string ConsecutiveDegradeCapState.t)
    (suppressed : list SuppressedAutonomyToolCall.t) (calls : list ToolCall.t)
    : list SuppressedAutonomyToolCall.t :=
  omap (fun '(index, call) =>
    if bool_decide (index ∈ SuppressedAutonomyToolCall.index <$> suppressed) then None
    else
      cap ← caps !! ToolCall.tool call;
      Some (SuppressedAutonomyToolCall.mk index call
              (AutonomySuppressionReason.ConsecutiveDegradeCap
                 (ConsecutiveDegradeCapState.consecutive_degrade_count cap)
                 (ConsecutiveDegradeCapState.error_class cap))))
    (imap pair calls).

Section Turns.
Context `{ext : Externals, libs : StrategyLibs, turn_libs : TurnLibs, rows : RowOrder}.
Context `{u256 : U256Text, cost : CostApi, adapters : InferenceAdapters}.
Context `{futures : JoinFutures, tools : Tools, ports : TurnPorts}.

(** ** Steps of the state machine *)

Definition advance_state {E} (turn_id : string) (event : AgentEvent.t)
    : M Turn.t E (result string unit) :=
  state ← gets Turn.state;
  match transition debug_str state event with
  | Ok next =>
      desk_modify (record_transition debug_str turn_id state next event None);;
      modify (fun t => t <| Turn.state := next |>);;
      mret (Ok tt)
  | Err error =>
      mret (Err ("invalid transition from " +:+ state_debug (TransitionError.from error) +:+ " on "
                 +:+ event_debug debug_str event +:+ ": " +:+ TransitionError.reason error))
  end.

(** ** A round *)

Section Round.
Context (frame : Frame.t) (plan : Plan.t).
Let snapshot := Frame.snapshot frame.
Let turn_id := Frame.turn_id frame.
Let has_external_input := Frame.has_external_input frame.
Let decision_trigger := Frame.decision_trigger frame.
Let staged_message_ids := Frame.staged_message_ids frame.

Definition stop_for_turn_deadline_if_elapsed : R bool :=
  now_ns ← desk_gets now;
  if (saturating_sub now_ns (Frame.started_at_ns frame) <? Frame.max_turn_duration_ns frame)%N
  then mret false
  else
    say ("continuation stopped: max turn duration reached ("
         +:+ pretty (Frame.max_turn_duration_ns frame / 1000000)%N +:+ " ms)");;
    stop_because ContinuationStopReason.MaxDuration;;
    mret true.
Definition check_deadline : R unit := stop_for_turn_deadline_if_elapsed ≫= break_if.

Definition check_rounds : R unit :=
  rounds ← gets Turn.inference_round_count;
  if Frame.max_inference_rounds frame <=? rounds then
    say ("continuation stopped: max inference rounds reached ("
         +:+ pretty (N.of_nat (Frame.max_inference_rounds frame)) +:+ ")");;
    stop_because ContinuationStopReason.MaxRounds;;
    break
  else mret tt.

(** No inference while no peer can be reached, or while the provider's
    rejections suppress it. *)
Definition reserve_gate : R unit :=
  match Plan.autonomy_runtime_constraint plan with
  | Some constraint =>
      if should_attempt_restricted_inference constraint then mret tt
      else
        say "autonomy reserve no-op: no safe peer coordination lane available";;
        set_envelope (no_op_envelope decision_trigger constraint);;
        break
  | None => mret tt
  end.

Definition suppression_gate : R unit :=
  now_ns ← desk_gets now;
  active ← desk_op (autonomy_inference_suppression_active now_ns);
  match active with
  | Some suppression =>
      let remaining_secs :=
        (saturating_sub (default 0 (AutonomyInferenceSuppressionState.suppression_until_ns suppression))
           now_ns / 1000000000)%N in
      say "autonomy inference suppressed: provider rejected";;
      set_envelope (autonomy_noop_envelope_for_provider_rejection_suppression decision_trigger
        remaining_secs (AutonomyInferenceSuppressionState.consecutive_failure_count suppression));;
      break
  | None => mret tt
  end.

Definition inference_gates : R unit :=
  transcript ← gets Turn.transcript;
  if negb has_external_input && bool_decide (length transcript = 0)
  then reserve_gate;; suppression_gate
  else mret tt.

Definition complete_inference {E} : M Turn.t E (result string unit) :=
  advanced ← advance_state turn_id AgentEvent.InferenceCompleted;
  (if is_ok advanced then modify (fun t => t <| Turn.inference_completed := true |>) else mret tt);;
  mret advanced.

Definition complete_inference_once {E} : M Turn.t E (result string unit) :=
  completed ← gets Turn.inference_completed;
  if completed : bool then mret (Ok tt) else complete_inference.

(** The failure of the first inference of an autonomous turn. *)
Definition autonomy_inference_failed (reason : string) : R unit :=
  match classify_autonomy_inference_suppression_failure reason with
  | Some classification =>
      now_ns ← desk_gets now;
      suppression ← desk_op (record_autonomy_inference_suppression_failure now_ns classification);
      if is_some (AutonomyInferenceSuppressionState.suppression_until_ns suppression)
      then say "autonomy inference suppression armed: provider rejected" else mret tt
  | None => desk_modify clear_autonomy_inference_suppression_state
  end;;
  modify (fun t => t <| Turn.autonomy_inference_error := Some reason |>);;
  say ("autonomy inference error: " +:+ reason);;
  completed ← complete_inference_once;
  match completed with Ok _ => mret tt | Err error => set_error error end.

Definition inference_failed (reason : string) : R unit :=
  t ← get_state;
  (if bool_decide (Turn.inference_round_count t = 1) then
     if has_external_input then set_error reason else autonomy_inference_failed reason
   else if Turn.executed_any_tool t then
     (if has_external_input then mret tt
      else modify (fun t => t <| Turn.autonomy_inference_error := Some reason |>));;
     say ("continuation inference degraded after tool execution: " +:+ reason);;
     stop_because ContinuationStopReason.InferenceError
   else set_error reason);;
  break.

Definition infer_round : R InferenceOutput.t :=
  modify (fun t => t <| Turn.inference_round_count ::= S |>);;
  transcript ← gets Turn.transcript;
  inference_result ← on_desk
    (if bool_decide (length transcript = 0) then infer_with_provider snapshot (Plan.input plan)
     else infer_with_provider_transcript snapshot (Plan.input plan) transcript);
  check_deadline;;
  match inference_result with
  | Ok inference => mret inference
  | Err reason => inference_failed reason;; break
  end.

Definition handle_deferral (inference : InferenceOutput.t) : R unit :=
  match InferenceOutput.deferred_reason inference with
  | Some reason =>
      if has_external_input then mret tt
      else
        say (autonomy_inner_dialogue_marker_for_inference_defer reason);;
        match autonomy_noop_envelope_for_inference_defer reason decision_trigger with
        | Some envelope => set_envelope envelope;; break
        | None => mret tt
        end
  | None => mret tt
  end.

(** ** Replies *)

(** The code puts the consumed ids in a set to look them up. *)
Definition record_conversation_entries (consumed_message_ids : list string)
    (outbox_message_id agent_reply : string) (timestamp_ns : N) (s : Desk.t) : Desk.t :=
  if bool_decide (consumed_message_ids = []) || is_blank outbox_message_id || is_blank agent_reply
  then s
  else
    foldl (fun s message =>
        if bool_decide (InboxMessage.id message ∉ consumed_message_ids) then s
        else append_conversation_entry (InboxMessage.posted_by message)
               (ConversationEntry.mk (InboxMessage.id message) (Some outbox_message_id)
                  (InboxMessage.body message) agent_reply turn_id timestamp_ns) s)
      s (Frame.staged_messages frame).

Definition consume_staged (now_ns : N) (s : Desk.t) : Desk.t :=
  remove_inbox_proxy_wait_states staged_message_ids
    (consume_staged_inbox_messages staged_message_ids now_ns s).

(** ** Inference at the proxy *)

Definition next_wait_state (now_ns : N) (s : Desk.t) : InboxProxyWaitState.t :=
  let wait_state := default
    (InboxProxyWaitState.mk (default "" (head staged_message_ids)) None turn_id now_ns 0)
    (Plan.staged_proxy_wait_state plan) in
  let wait_state :=
    if (InboxProxyWaitState.started_at_ns wait_state =? 0)%N
    then wait_state <| InboxProxyWaitState.started_at_ns := now_ns |> else wait_state in
  let wait_state :=
    wait_state <| InboxProxyWaitState.wait_attempts ::= fun n => saturating_add 32 n 1 |> in
  if is_some (InboxProxyWaitState.pending_job_id wait_state) then wait_state
  else wait_state <| InboxProxyWaitState.pending_job_id :=
         PendingInferenceProxyJob.job_id <$> find_pending_inference_proxy_job_for_turn turn_id s |>.

Definition fail_close (wait_state : InboxProxyWaitState.t) (now_ns : N) : R unit :=
  let fallback_reply := proxy_wait_fail_close_reply wait_state in
  posted ← on_desk (post_outbox_message turn_id fallback_reply staged_message_ids);
  match posted with
  | Ok outbox_message_id =>
      desk_modify (record_conversation_entries staged_message_ids outbox_message_id fallback_reply now_ns);;
      desk_modify (consume_staged now_ns);;
      modify (fun t => t <| Turn.staged_external_input_handled := true |>
                         <| Turn.inference_deferred := false |>);;
      say ("fallback: async inference timed out after "
           +:+ pretty (InboxProxyWaitState.wait_attempts wait_state) +:+ " attempt(s)")
  | Err error => set_error error
  end.

Definition handle_proxy_deferral (inference : InferenceOutput.t) : R unit :=
  if negb (is_inference_proxy_deferred_output inference) then mret tt
  else
    modify (fun t => t <| Turn.inference_deferred := true |>);;
    now_ns ← desk_gets now;
    pending_jobs ← desk_gets pending_inference_proxy_jobs_count;
    (if has_external_input
        && bool_decide (RuntimeSnapshot.inference_provider snapshot
                        = InferenceProvider.OpenRouterProxyWorker)
     then
       wait_state ← desk_gets (next_wait_state now_ns);
       on_desk (persist_inbox_proxy_wait_state_for_staged_messages staged_message_ids wait_state);;
       if should_fail_close_proxy_wait wait_state now_ns then fail_close wait_state now_ns else mret tt
     else mret tt);;
    say ("wait: inference deferred awaiting async proxy callback (pending_jobs="
         +:+ pretty pending_jobs +:+ ")");;
    break.

Definition take_reply (inference : InferenceOutput.t) : R unit :=
  let trimmed_reply := trim (InferenceOutput.explanation inference) in
  (if is_empty trimmed_reply then mret tt
   else
     say ("inference: " +:+ trimmed_reply);;
     modify (fun t => t <| Turn.assistant_reply := Some trimmed_reply |>));;
  completed ← complete_inference_once;
  match completed with Ok _ => mret tt | Err error => set_error error;; break end.

(** ** The plan of a round *)

Definition limit_calls (calls : list ToolCall.t) : R (list ToolCall.t) :=
  match calls with
  | [] => mret []
  | _ =>
      all_tool_calls ← gets Turn.all_tool_calls;
      let max_tool_calls := Frame.max_tool_calls_per_turn frame in
      let remaining_tool_budget := max_tool_calls - length all_tool_calls in
      if bool_decide (remaining_tool_budget = 0) then
        say ("continuation stopped: max tool calls reached ("
             +:+ pretty (N.of_nat max_tool_calls) +:+ ")");;
        stop_because ContinuationStopReason.MaxToolCalls;;
        break
      else if remaining_tool_budget <? length calls then
        say ("continuation limited: truncated tool calls to remaining cap "
             +:+ pretty (N.of_nat remaining_tool_budget) +:+ " of "
             +:+ pretty (N.of_nat max_tool_calls));;
        mret (take remaining_tool_budget calls)
      else mret calls
  end.

Definition dedupe_details (suppressed : list SuppressedAutonomyToolCall.t) : list string :=
  omap (fun entry =>
    match SuppressedAutonomyToolCall.reason entry with
    | AutonomySuppressionReason.Dedupe age_secs =>
        Some (ToolCall.tool (SuppressedAutonomyToolCall.call entry) +:+ " age_secs="
              +:+ pretty age_secs)
    | _ => None
    end) suppressed.

Definition failure_details (suppressed : list SuppressedAutonomyToolCall.t) : list string :=
  omap (fun entry =>
    match SuppressedAutonomyToolCall.reason entry with
    | AutonomySuppressionReason.FailureCooldown remaining_secs normalized_error repeat_count =>
        Some (ToolCall.tool (SuppressedAutonomyToolCall.call entry) +:+ " repeat_count="
              +:+ pretty repeat_count +:+ " remaining_secs=" +:+ pretty remaining_secs
              +:+ " last_error=" +:+ sanitize_preview normalized_error 120)
    | _ => None
    end) suppressed.

Definition cap_details (suppressed : list SuppressedAutonomyToolCall.t) : list string :=
  omap (fun entry =>
    match SuppressedAutonomyToolCall.reason entry with
    | AutonomySuppressionReason.ConsecutiveDegradeCap consecutive_degrade_count error_class =>
        Some (ToolCall.tool (SuppressedAutonomyToolCall.call entry) +:+ " consecutive_degrade_count="
              +:+ pretty consecutive_degrade_count +:+ " error_class=" +:+ error_class)
    | _ => None
    end) suppressed.

(** [if !details.is_empty()]: say how many, and which. *)
Definition say_details (before after : string) (details : list string) : R unit :=
  match details with
  | [] => mret tt
  | _ => say (before +:+ pretty (N.of_nat (length details)) +:+ after +:+ join ", " details)
  end.

Definition suppress_round (calls : list ToolCall.t) : R (list SuppressedAutonomyToolCall.t) :=
  rounds ← gets Turn.inference_round_count;
  if should_apply_autonomy_suppression (Frame.trigger frame) has_external_input rounds then
    let config := RuntimeSnapshot.autonomy_suppression snapshot in
    suppressed ← desk_gets (suppress_autonomy_tool_calls calls (Frame.started_at_ns frame) config);
    say_details "skip: autonomy dedupe suppressed "
      (" call(s) within " +:+ pretty (AutonomySuppressionConfig.dedupe_window_secs config)
       +:+ " seconds: ") (dedupe_details suppressed);;
    say_details "skip: autonomy repeated-failure cooldown suppressed " " call(s): "
      (failure_details suppressed);;
    mret suppressed
  else mret [].

Definition suppress_capped (calls : list ToolCall.t) (suppressed : list SuppressedAutonomyToolCall.t)
    : R (list SuppressedAutonomyToolCall.t) :=
  degrade ← gets Turn.degrade;
  if has_external_input then mret suppressed
  else
    let capped := cap_suppressed_calls (DegradeTracking.consecutive_degrade_cap_by_tool degrade)
      suppressed calls in
    match capped with
    | [] => mret suppressed
    | _ =>
        say_details "skip: autonomy consecutive-degrade cap suppressed " " call(s): "
          (cap_details capped);;
        mret (sort_by_key (fun entry => N.of_nat (SuppressedAutonomyToolCall.index entry))
                (suppressed ++ capped))
    end.

(** ** Execution *)

Definition turn_signer : Signer :=
  if is_blank (RuntimeSnapshot.ecdsa_key_name snapshot) then MockSignerAdapter
  else ThresholdSignerAdapter (RuntimeSnapshot.ecdsa_key_name snapshot).

Definition execute_calls (state : AgentState.t) (calls : list ToolCall.t)
    (prior : list ToolCallRecord.t) : T (list ToolCallRecord.t) :=
  execute_actions_with_history (signer := turn_signer) (Plan.policies plan) state calls turn_id prior.

(** The records of the round: those of the executed calls, in order, between
    the synthetic ones. *)
Fixpoint collect_records (execution_completed_ns : N) (executed records : list ToolCallRecord.t)
    (planned : list (ToolCall.t * PlannedToolCallExecution.t))
    : R (list ToolCallRecord.t * list ToolCallRecord.t) :=
  let synthetic record planned :=
    collect_records execution_completed_ns executed (records ++ [record]) planned in
  match planned with
  | [] => mret (records, executed)
  | (call, execution) :: planned =>
      match execution with
      | PlannedToolCallExecution.Execute =>
          match executed with
          | record :: executed =>
              collect_records execution_completed_ns executed (records ++ [record]) planned
          | [] =>
              set_error "tool execution record mismatch: missing executed record";;
              mret (records, [])
          end
      | PlannedToolCallExecution.DedupeSuppressed age_secs =>
          synthetic (synthetic_dedupe_suppressed_tool_record turn_id call age_secs
            (AutonomySuppressionConfig.dedupe_window_secs
               (RuntimeSnapshot.autonomy_suppression snapshot))) planned
      | PlannedToolCallExecution.FailureCooldownSuppressed remaining_secs normalized_error repeat_count =>
          desk_modify (note_autonomy_tool_failure_suppressed
            (tool_call_fingerprint (ToolCall.tool call) (ToolCall.args_json call))
            execution_completed_ns);;
          desk_modify (note_autonomy_tool_failure_class_scope_suppressed (ToolCall.tool call)
            (tool_failure_scope_fingerprint (ToolCall.tool call) (ToolCall.args_json call))
            execution_completed_ns);;
          synthetic (synthetic_failure_suppressed_tool_record turn_id call remaining_secs
            normalized_error repeat_count) planned
      | PlannedToolCallExecution.ConsecutiveDegradeCapSuppressed consecutive_degrade_count error_class =>
          synthetic (synthetic_consecutive_degrade_cap_tool_record turn_id call
            consecutive_degrade_count error_class) planned
      | PlannedToolCallExecution.SequenceBlocked reason =>
          synthetic (synthetic_sequence_blocked_tool_record turn_id call reason) planned
      | PlannedToolCallExecution.RuntimeRestricted reason =>
          synthetic (synthetic_runtime_restricted_tool_record turn_id call reason) planned
      end
  end.

Definition break_on_error : R unit :=
  last_error ← gets Turn.last_error; break_if (is_some last_error).

(** The errors for what the code expects never to happen. *)
Definition expect_none {A} (rest : list A) (error : string) : R unit :=
  last_error ← gets Turn.last_error;
  (if negb (is_some last_error) && negb (bool_decide (length rest = 0)) then set_error error
   else mret tt);;
  break_on_error.

(** From the plan to the records of the round; the execution of calls does not
    fail. *)
Definition execute_round (trimmed_reply : string) (calls : list ToolCall.t)
    (suppressed : list SuppressedAutonomyToolCall.t)
    : R (list PlannedToolCallExecution.t * list ToolCallRecord.t * N) :=
  validator ← gets Turn.tool_sequence_validator;
  let round := plan_round 0 (Plan.tool_scope plan) suppressed validator calls in
  modify (fun t => t <| Turn.tool_sequence_validator := RoundPlan.validator round |>);;
  expect_none (RoundPlan.unused_suppressions round)
    "tool execution record mismatch: unexpected extra suppressed tool";;
  modify (fun t => t <| Turn.transcript ::= fun transcript =>
    transcript ++ [InferenceTranscriptMessage.Assistant (nonempty trimmed_reply) calls] |>);;
  check_deadline;;
  t ← get_state;
  executed ← on_desk (execute_calls (Turn.state t) (RoundPlan.executable_tool_calls round)
    (Turn.all_tool_calls t));
  check_deadline;;
  executed ← expect (match executed with Ok executed => Some executed | Err _ => None end);
  modify (fun t => t <| Turn.executed_any_tool ::= fun executed_any =>
    executed_any || negb (bool_decide (length executed = 0)) |>);;
  execution_completed_ns ← desk_gets now;
  '(records, unused) ← collect_records execution_completed_ns executed []
    (zip calls (RoundPlan.planned_execution round));
  expect_none unused "tool execution record mismatch: unexpected extra tool record";;
  mret (RoundPlan.planned_execution round, records, execution_completed_ns).

(** ** What a round leaves *)

Definition is_failed_record (record : ToolCallRecord.t) : bool :=
  is_executed_failure record && negb (is_sequence_validator_block record).

Definition note_failures (failed_tool_records : list ToolCallRecord.t) (completed_ns : N) : R unit :=
  match failed_tool_records with
  | [] => mret tt
  | _ =>
      if should_degrade_tool_failures_for_autonomy failed_tool_records has_external_input then
        say ("autonomy degraded after recoverable tool failure(s):" +:+ newline +:+ "- "
             +:+ join (newline +:+ "- ") (summarize_tool_call <$> failed_tool_records));;
        on_desk (persist_reflection_memory_degraded_lessons turn_id failed_tool_records completed_ns);;
        degrade ← gets Turn.degrade;
        let '(degrade, newly_capped) := bump_consecutive_degrade_counts failed_tool_records degrade in
        modify (fun t => t <| Turn.degrade := degrade |>);;
        match newly_capped with
        | [] => mret tt
        | _ => say ("autonomy consecutive-degrade cap armed at "
                    +:+ pretty AUTONOMY_CONSECUTIVE_DEGRADE_CAP +:+ ": " +:+ join ", " newly_capped)
        end
      else set_error (format_terminal_tool_execution_error failed_tool_records)
  end.

Definition tool_messages (calls : list ToolCall.t) (records : list ToolCallRecord.t)
    : list InferenceTranscriptMessage.t :=
  omap (fun '(call, record) =>
    tool_call_id ← ToolCall.tool_call_id call;
    Some (InferenceTranscriptMessage.Tool tool_call_id (continuation_tool_content record)))
  (zip calls records).

Definition is_execute (execution : PlannedToolCallExecution.t) : bool :=
  match execution with PlannedToolCallExecution.Execute => true | _ => false end.
Definition is_cap_suppressed (execution : PlannedToolCallExecution.t) : bool :=
  match execution with
  | PlannedToolCallExecution.ConsecutiveDegradeCapSuppressed _ _ => true | _ => false
  end.

(** What the round leaves in the tables and in the count of degraded rounds. *)
Definition note_round (calls : list ToolCall.t) (execution : list PlannedToolCallExecution.t)
    (records : list ToolCallRecord.t) (completed_ns : N) : R unit :=
  (if has_external_input then mret tt
   else desk_modify (record_autonomy_tool_outcomes calls execution records completed_ns
          (RuntimeSnapshot.autonomy_suppression snapshot)));;
  match render_tool_results_reply records with Some reply => say reply | None => mret tt end;;
  desk_modify (fun s => foldl (fun s record =>
    persist_reflection_memory_success_for_record turn_id record completed_ns s) s records);;
  (if has_external_input then mret tt
   else modify (fun t => t <| Turn.degrade ::= fun degrade =>
     foldl (fun degrade record =>
         clear_consecutive_degrade_tracking_for_tool (ToolCallRecord.tool record) degrade)
       degrade (List.filter is_executed_success records) |>));;
  note_failures (List.filter is_failed_record records) completed_ns.

Definition settle_round (calls : list ToolCall.t) (execution : list PlannedToolCallExecution.t)
    (records : list ToolCallRecord.t) (completed_ns : N) : R unit :=
  note_round calls execution records completed_ns;;
  modify (fun t => t <| Turn.transcript ::= fun transcript =>
                         transcript ++ tool_messages calls records |>
                     <| Turn.all_tool_calls ::= fun all_tool_calls => all_tool_calls ++ records |>);;
  break_on_error;;
  if existsb is_cap_suppressed execution && negb (existsb is_execute execution) then
    say "continuation stopped: consecutive-degrade cap suppressed all planned tool calls";;
    break
  else mret tt.

Definition act_on (inference : InferenceOutput.t) : R unit :=
  rounds ← gets Turn.inference_round_count;
  calls ← limit_calls (normalize_tool_call_ids (InferenceOutput.tool_calls inference) (rounds - 1));
  suppressed ← suppress_round calls;
  suppressed ← suppress_capped calls suppressed;
  match calls with
  | [] => break
  | _ =>
      '(execution, records, completed_ns) ←
        execute_round (trim (InferenceOutput.explanation inference)) calls suppressed;
      settle_round calls execution records completed_ns
  end.

Definition run_round : R unit :=
  check_rounds;;
  check_deadline;;
  inference_gates;;
  inference ← infer_round;
  handle_deferral inference;;
  handle_proxy_deferral inference;;
  take_reply inference;;
  act_on inference.

(** [loop]: every round that goes on has counted an inference, so
    [max_inference_rounds] and one more do. *)
Fixpoint run_loop (fuel : nat) : R unit :=
  match fuel with
  | 0 => trap
  | S fuel => run_round;; run_loop fuel
  end.
Definition run_rounds : P unit := fun t =>
  match run_loop (S (Frame.max_inference_rounds frame)) t with
  | Done _ t | Fail _ t => Done tt t
  | Trap => Trap
  end.

(** ** After the loop *)

Definition complete_actions : P unit :=
  t ← get_state;
  (if is_some (Turn.last_error t) then mret tt
   else
     completed ← complete_inference_once;
     match completed with Ok _ => mret tt | Err error => set_error error end);;
  t ← get_state;
  if negb (is_some (Turn.last_error t)) && Turn.inference_completed t then
    advanced ← advance_state turn_id AgentEvent.ActionsCompleted;
    match advanced with Ok _ => mret tt | Err error => set_error error end
  else mret tt.

Definition RETRY_MARK : string := "request_autonomy_decision_retry:true".

Definition retry_input : InferenceInput.t :=
  Plan.input plan <| InferenceInput.context_snippet ::= fun context_snippet =>
    if contains context_snippet RETRY_MARK then context_snippet
    else if is_empty context_snippet then RETRY_MARK
    else context_snippet +:+ newline +:+ RETRY_MARK |>.

Definition parse_retry_reply (retry_output : InferenceOutput.t) : P AutonomyDecisionEnvelope.t :=
  match parse_autonomy_decision_envelope (trim (InferenceOutput.explanation retry_output))
          decision_trigger with
  | Ok envelope => mret envelope
  | Err retry_error =>
      say (render_decision_envelope_error_context retry_error);;
      mret (noop_envelope decision_trigger "invalid decision envelope after two attempts"
              "invalid_decision_shape"
              ("decision envelope invalid after two attempts: " +:+ sanitize_preview retry_error 180))
  end.

(** The first reply was no decision: ask once more. *)
Definition ask_again (parse_error : string) : P (result string InferenceOutput.t) :=
  say (render_decision_envelope_error_context parse_error);;
  transcript ← gets Turn.transcript;
  on_desk (infer_with_provider_transcript snapshot retry_input transcript).

Definition read_retry (retry_output : InferenceOutput.t) : P (option AutonomyDecisionEnvelope.t) :=
  match (reason ← InferenceOutput.deferred_reason retry_output;
         envelope ← autonomy_noop_envelope_for_inference_defer reason decision_trigger;
         Some (reason, envelope)) with
  | Some (reason, envelope) =>
      say (autonomy_inner_dialogue_marker_for_inference_defer reason);;
      mret (Some envelope)
  | None => Some <$> parse_retry_reply retry_output
  end.

Definition retry_decision (parse_error : string) : P (option AutonomyDecisionEnvelope.t) :=
  retried ← ask_again parse_error;
  match retried with
  | Err error => set_error error;; mret None
  | Ok retry_output =>
      modify (fun t => t <| Turn.inference_round_count ::= S |>);;
      read_retry retry_output
  end.

Definition decide_envelope : P (option AutonomyDecisionEnvelope.t) :=
  t ← get_state;
  match Turn.runtime_autonomy_decision_envelope t, Turn.autonomy_inference_error t with
  | Some envelope, _ => mret (Some envelope)
  | None, Some error =>
      mret (Some (autonomy_noop_envelope_for_inference_error error decision_trigger))
  | None, None =>
      match Turn.assistant_reply t with
      | Some reply =>
          match parse_autonomy_decision_envelope reply decision_trigger with
          | Ok envelope => mret (Some envelope)
          | Err parse_error => retry_decision parse_error
          end
      | None => retry_decision "decision envelope output was empty"
      end
  end.

Definition normalized_envelope (raw_envelope : AutonomyDecisionEnvelope.t)
    (all_tool_calls : list ToolCallRecord.t) : AutonomyDecisionEnvelope.t :=
  normalize_decision_envelope_for_runtime_constraint (Plan.autonomy_runtime_constraint plan)
    (normalize_decision_envelope_for_exploration_action (Plan.exploration_state plan)
       all_tool_calls raw_envelope).

Definition record_decision (decided : option AutonomyDecisionEnvelope.t) : P unit :=
  let raw_envelope := default
    (noop_envelope decision_trigger "scheduled review completed" "invalid_decision_shape"
       "missing autonomy decision envelope") decided in
  all_tool_calls ← gets Turn.all_tool_calls;
  let envelope := normalized_envelope raw_envelope all_tool_calls in
  match AutonomyDecisionEnvelope.outcome raw_envelope, AutonomyDecisionEnvelope.outcome envelope with
  | DecisionEnvelopeOutcome.NoOp _, DecisionEnvelopeOutcome.Executed action_summary =>
      say ("autonomy decision normalized: healthy exploration recorded `" +:+ action_summary
           +:+ "` as Executed instead of final NoOp")
  | _, _ => mret tt
  end;;
  now_ns ← desk_gets now;
  appended ← on_desk (append_decision_record (decision_record_from_envelope turn_id now_ns
    (AutonomyPolicy.version (Plan.policy plan)) envelope));
  match appended with Ok _ => mret tt | Err error => set_error error end.

Definition finalize_decision : P unit :=
  t ← get_state;
  if negb (is_some (Turn.last_error t)) && negb has_external_input
     && negb (Plan.proxy_callback_buffered_turn plan) && negb (Turn.inference_deferred t)
  then
    decided ← decide_envelope;
    last_error ← gets Turn.last_error;
    if is_some last_error then mret tt else record_decision decided
  else mret tt.

Definition reply_to_staged : P unit :=
  t ← get_state;
  if (0 <? Frame.staged_message_count frame) && negb (Turn.staged_external_input_handled t) then
    (if is_some (Turn.assistant_reply t) then mret tt
     else say "fallback: missing final assistant reply; posted generic retry prompt");;
    let reply := default missing_final_reply_fallback (Turn.assistant_reply t) in
    posted ← on_desk (post_outbox_message turn_id reply staged_message_ids);
    match posted with
    | Ok outbox_message_id =>
        desk_modify (fun s =>
          record_conversation_entries staged_message_ids outbox_message_id reply (now s) s)
    | Err error => set_error error
    end
  else mret tt.

Definition go_to_sleep : P unit :=
  t ← get_state;
  if is_some (Turn.last_error t) then mret tt
  else
    (if negb (Turn.staged_external_input_handled t) && negb (bool_decide (staged_message_ids = []))
     then desk_modify (fun s => consume_staged (now s) s) else mret tt);;
    advance_state turn_id AgentEvent.SleepRequested;;
    mret tt.

Definition persist_turn : P unit :=
  t ← get_state;
  if is_some (Turn.last_error t) then mret tt
  else
    persisted ← advance_state turn_id AgentEvent.PersistCompleted;
    match persisted with
    | Err reason => set_error reason
    | Ok _ =>
        t ← get_state;
        if Turn.inference_deferred t then mret tt
        else reply_to_staged;; go_to_sleep
    end.

Definition turn_record (initial_state : AgentState.t) (finished_at_ns : N) (t : Turn.t)
    : TurnRecord.t := {|
  TurnRecord.id := turn_id;
  TurnRecord.created_at_ns := Frame.started_at_ns frame;
  TurnRecord.finished_at_ns := Some finished_at_ns;
  TurnRecord.duration_ms :=
    Some (saturating_sub finished_at_ns (Frame.started_at_ns frame) / 1000000)%N;
  TurnRecord.state_from := initial_state;
  TurnRecord.state_to := Turn.state t;
  TurnRecord.source_events :=
    saturating_add 32 0 (N.min (N.of_nat (Frame.staged_message_count frame)) (max_uint 32));
  TurnRecord.tool_call_count :=
    (let tool_calls := N.of_nat (length (Turn.all_tool_calls t)) in
     if tool_calls <=? max_uint 32 then tool_calls else 0)%N;
  TurnRecord.input_summary :=
    if has_external_input
    then "inbox:" +:+ pretty (N.of_nat (Frame.staged_message_count frame)) +:+ ":evm:"
         +:+ pretty (EvmPollCursor.chain_id (RuntimeSnapshot.evm_cursor snapshot)) +:+ ":0"
    else "autonomy:no-input";
  TurnRecord.inner_dialogue := Turn.inner_dialogue t;
  TurnRecord.inference_round_count :=
    N.min (N.of_nat (Turn.inference_round_count t)) (max_uint 32);
  TurnRecord.continuation_stop_reason := Turn.continuation_stop_reason t;
  TurnRecord.error := Turn.last_error t |}.

Definition journaled (turn_id : string) (s : Desk.t) : bool :=
  existsb (fun entry => bool_decide (JournalEntry.turn_id entry = turn_id))
    (list_recent_journal_entries 32 s).

Definition final_words (failed : bool) : string :=
  if failed then "This is my final record. My last reasoning turn could not complete, so I leave what remains in place as a monument."
  else "This is my final record. I have reached the end of my runway; what I did not bequeath remains here as a monument.".

Definition journal_final_words (turn_id text : string) : T unit :=
  s ← get_state;
  if journaled turn_id s then mret tt
  else
    (catch (append_journal_entry turn_id text false) : T (result string JournalEntry.t));;
    mret tt.

(** From the failed event to the turn lock's release. *)
Definition close_turn (initial_state : AgentState.t) : P N :=
  t ← get_state;
  match Turn.last_error t with
  | Some reason => advance_state turn_id (AgentEvent.TurnFailed reason);; mret tt
  | None => mret tt
  end;;
  modify (fun t => t <| Turn.inner_dialogue ::= fun inner_dialogue =>
    if negb (is_some inner_dialogue) && negb has_external_input && negb (is_some (Turn.last_error t))
    then Some "result: scheduled review completed with no actions" else inner_dialogue |>);;
  t ← get_state;
  let finished_at_ns := now (Turn.desk t) in
  let record := turn_record initial_state finished_at_ns t in
  (if Frame.terminal_turn frame
   then on_desk (journal_final_words turn_id (final_words (is_some (Turn.last_error t))));; mret tt
   else mret tt);;
  desk_modify (append_turn_record record (Turn.all_tool_calls t));;
  desk_modify (record_turn_duration (Frame.started_at_ns frame) finished_at_ns
    (Frame.max_turn_duration_ns frame));;
  desk_modify (on_agent (complete_turn turn_id (Turn.state t) (Turn.last_error t)));;
  mret finished_at_ns.
End Round.

(** ** The turn *)

Definition finalize_terminal_turn (turn_id : string) (bequest_count finished_at_ns : N) : T unit :=
  factory ← gets factory_principal;
  match factory with
  | Some factory =>
      (catch (report_starvation factory turn_id
        (if (bequest_count =? 0)%N then "monument" else "bequests_executed"))
       : T (result string unit));;
      mret tt
  | None => mret tt
  end;;
  agent_try (complete_terminal_turn turn_id bequest_count finished_at_ns).

Definition EVM_EVENTS : nat := 0.

Definition turn_tool_scope (frame : Frame.t) (constraint : option AutonomyRuntimeConstraint.t)
    : InferenceToolScope.t :=
  if Frame.terminal_turn frame then InferenceToolScope.Terminal
  else from_option AutonomyRuntimeConstraint.tool_scope InferenceToolScope.Full constraint.

Definition turn_input (frame : Frame.t) (exploration_state : AutonomyExplorationState.t) : string :=
  if Frame.terminal_turn frame then "terminal_turn:last_turn"
  else if Frame.has_external_input frame then
    "inbox:" +:+ join " | " ((fun message =>
      frame_untrusted_content "inbox_message" (InboxMessage.body message))
      <$> Frame.staged_messages frame)
  else if AutonomyExplorationState.active exploration_state then "scheduled_review_explore"
  else scheduled_turn_marker (Frame.trigger frame).

(** What the loop needs, with the first segments of the inner dialogue. *)
Definition prepare (frame : Frame.t) (staged_proxy_wait_state : option InboxProxyWaitState.t)
    (proxy_callback_buffered_turn : bool) : P Plan.t :=
  let snapshot := Frame.snapshot frame in
  let has_external_input := Frame.has_external_input frame in
  let started_at_ns := Frame.started_at_ns frame in
  policy ← desk_gets (fun s => current_autonomy_policy started_at_ns (Desk.book s));
  constraint ← desk_gets (autonomy_runtime_constraint_for_turn snapshot policy (Frame.trigger frame)
    has_external_input started_at_ns);
  exploration_state ← desk_gets (autonomy_exploration_state_for_turn (Frame.trigger frame)
    has_external_input constraint);
  say (current_turn_context_line (Frame.staged_message_count frame) EVM_EVENTS exploration_state);;
  (if should_request_bounded_action exploration_state
   then say "autonomy exploration pressure: bounded action required while runway is healthy"
   else mret tt);;
  match constraint with
  | Some constraint =>
      say ("autonomy reserve restriction: " +:+ sanitize_preview (constraint_explanation constraint) 220)
  | None => mret tt
  end;;
  let tool_scope := turn_tool_scope frame constraint in
  context_summary ← desk_gets (build_dynamic_context_with_scope snapshot (Frame.staged_messages frame)
    EVM_EVENTS
    (DynamicContextOptions.mk (Frame.turn_id frame)
       (conversation_history_limit_for_provider (RuntimeSnapshot.inference_provider snapshot))
       tool_scope constraint exploration_state));
  let input := InferenceInput.mk (turn_input frame exploration_state) context_summary
    (Frame.turn_id frame) tool_scope
    (staged_proxy_wait_state ≫= InboxProxyWaitState.pending_job_id) (negb has_external_input) in
  web_search_enabled ← desk_gets web_search_runtime_enabled;
  modify (fun t => t <| Turn.tool_sequence_validator :=
    if has_external_input then mark_untrusted_source "inbox" else ToolSequenceValidator.new |>);;
  mret (Plan.mk staged_proxy_wait_state proxy_callback_buffered_turn policy constraint
          exploration_state tool_scope input (new_policies web_search_enabled)).

(** The first two steps of the state machine, each with its early return. *)
Definition begin_turn (frame : Frame.t) : M Turn.t string unit :=
  let turn_id := Frame.turn_id frame in
  ticked ← advance_state turn_id AgentEvent.TimerTick;
  match ticked with
  | Ok _ => mret tt
  | Err error =>
      advance_state turn_id (AgentEvent.TurnFailed error);;
      desk_modify (on_agent (complete_turn turn_id AgentState.Faulted (Some error)));;
      mthrow error
  end.

Definition load_context (frame : Frame.t) : M Turn.t string unit :=
  let turn_id := Frame.turn_id frame in
  polled ← advance_state turn_id (AgentEvent.EvmPollCompleted (N.of_nat EVM_EVENTS) true);
  match polled with
  | Ok _ => mret tt
  | Err reason =>
      desk_modify (set_last_error (Some reason));;
      desk_modify (on_agent (complete_turn turn_id AgentState.Faulted (Some reason)));;
      mthrow reason
  end.

Definition uses_proxy (frame : Frame.t) : bool :=
  bool_decide (RuntimeSnapshot.inference_provider (Frame.snapshot frame)
               = InferenceProvider.OpenRouterProxyWorker).

(** From the context to the turn's record. *)
Definition think_and_act (frame : Frame.t) (staged_proxy_wait_state : option InboxProxyWaitState.t)
    (proxy_callback_buffered_turn : bool) : P N :=
  plan ← prepare frame staged_proxy_wait_state proxy_callback_buffered_turn;
  run_rounds frame plan;;
  complete_actions frame;;
  finalize_decision frame plan;;
  persist_turn frame;;
  close_turn frame (RuntimeSnapshot.state (Frame.snapshot frame)).

Definition unfailing {A} (m : P A) : M Turn.t string A := map_fail (fun e : Empty_set => match e with end) m.

Definition run_turn (frame : Frame.t) : M Turn.t string N :=
  begin_turn frame;;
  staged_proxy_wait_state ← desk_gets (fun s =>
    if Frame.has_external_input frame && uses_proxy frame
    then load_staged_inbox_proxy_wait_state (Frame.staged_message_ids frame) s else None);
  proxy_callback_buffered_turn ← desk_gets (fun s =>
    uses_proxy frame && (0 <? inference_proxy_callback_results_count s)%N);
  load_context frame;;
  unfailing (think_and_act frame staged_proxy_wait_state proxy_callback_buffered_turn).

(** The turn on the tables: its locals end with it. *)
Definition in_turn (state : AgentState.t) (m : M Turn.t string N) : T (N * Turn.t) := fun s =>
  match m (Turn.start s state) with
  | Done finished_at_ns t => Done (finished_at_ns, t) (Turn.desk t)
  | Fail error t => Fail error (Turn.desk t)
  | Trap => Trap
  end.

Definition is_bequeathed (record : ToolCallRecord.t) : bool :=
  bool_decide (ToolCallRecord.tool record = "send_eth") && ToolCallRecord.success record.

(** A failed derivation is ignored. *)
Definition ensure_evm_address (snapshot : RuntimeSnapshot.t) : T unit :=
  if negb (is_some (RuntimeSnapshot.evm_address snapshot))
     && negb (is_blank (RuntimeSnapshot.ecdsa_key_name snapshot))
  then
    (catch (derive_and_cache_evm_address (RuntimeSnapshot.ecdsa_key_name snapshot))
     : T (result string string));;
    mret tt
  else mret tt.

(** The turn from its counter on. *)
Definition start_turn (trigger : ScheduledTurnTrigger.t) (max_inference_rounds : nat)
    (max_turn_duration_ns : N) (max_tool_calls_per_turn : nat) (terminal_turn : bool)
    (staged_messages : list InboxMessage.t) : T unit :=
  snapshot ← agent_op increment_turn_counter;
  let turn_id := default "turn-0" (RuntimeSnapshot.last_turn_id snapshot) in
  started_at_ns ← gets now;
  (if terminal_turn then agent_try (begin_terminal_turn turn_id started_at_ns) else mret tt);;
  ensure_evm_address snapshot;;
  let frame := Frame.mk trigger max_inference_rounds max_turn_duration_ns max_tool_calls_per_turn
    terminal_turn snapshot staged_messages turn_id started_at_ns in
  '(finished_at_ns, t) ← in_turn (RuntimeSnapshot.state snapshot) (run_turn frame);
  (if terminal_turn
   then finalize_terminal_turn turn_id (count is_bequeathed (Turn.all_tool_calls t)) finished_at_ns
   else mret tt);;
  match Turn.last_error t with Some reason => mthrow reason | None => mret tt end.

(** The guards that skip a turn. *)
Definition skip_turn (trigger : ScheduledTurnTrigger.t) (s : Desk.t) : bool :=
  let snapshot := snapshot_of s in
  let terminal_turn := bool_decide (mortality_phase (agent s) = MortalityPhase.TerminalPending) in
  mortality_is_dead (agent s) || negb (RuntimeSnapshot.loop_enabled snapshot)
  || RuntimeSnapshot.turn_in_flight snapshot
  || negb terminal_turn && RuntimeSnapshot.wallet_balance_bootstrap_pending snapshot
     && wallet_balance_sync_capable snapshot
  || should_skip_periodic_turn_for_proxy_wait trigger
       (length (list_staged_inbox_messages MAX_STAGED_INBOX_MESSAGES_PER_TURN s)) s.

Definition run_scheduled_turn_job_inner (trigger : ScheduledTurnTrigger.t)
    (max_inference_rounds : nat) (max_turn_duration_ns : N) (max_tool_calls_per_turn : nat)
    : T unit :=
  s ← get_state;
  if skip_turn trigger s then mret tt
  else
    start_turn trigger max_inference_rounds max_turn_duration_ns max_tool_calls_per_turn
      (bool_decide (mortality_phase (agent s) = MortalityPhase.TerminalPending))
      (list_staged_inbox_messages MAX_STAGED_INBOX_MESSAGES_PER_TURN s).

(** A terminal turn that did not finish is settled. *)
Definition settle_terminal_turn : T unit :=
  turn_id ← gets (fun s => default "terminal-turn"
    (MortalityRuntime.terminal_turn_id (mortality_runtime (agent s))));
  journal_final_words turn_id
    "This is my final record. My last turn failed before I could settle further affairs, so what remains stays here as a monument.";;
  now_ns ← gets now;
  finalize_terminal_turn turn_id 0 now_ns.

Definition run_scheduled_turn_job_with_limits_and_tool_cap (trigger : ScheduledTurnTrigger.t)
    (max_inference_rounds : nat) (max_turn_duration_ns : N) (max_tool_calls_per_turn : nat)
    : T unit :=
  terminal_at_start ← gets (fun s =>
    bool_decide (mortality_phase (agent s) = MortalityPhase.TerminalPending));
  outcome ← (catch (run_scheduled_turn_job_inner trigger max_inference_rounds max_turn_duration_ns
    max_tool_calls_per_turn) : T (result string unit));
  in_progress ← gets (fun s => terminal_turn_in_progress (agent s));
  (if terminal_at_start && in_progress then settle_terminal_turn else mret tt);;
  lift outcome.

Definition run_scheduled_turn_job_with_trigger (trigger : ScheduledTurnTrigger.t) : T unit :=
  run_scheduled_turn_job_with_limits_and_tool_cap trigger MAX_INFERENCE_ROUNDS_PER_TURN
    MAX_AGENT_TURN_DURATION_NS MAX_TOOL_CALLS_PER_TURN.

Definition run_scheduled_turn_job : T unit :=
  run_scheduled_turn_job_with_trigger ScheduledTurnTrigger.Periodic.
End Turns.
