(* ===== verification/TurnSteps.v ===== *)
(** * TurnSteps: what the steps of a turn keep

    Lemmas about [Turn]: every step outside of the ones that count rounds, add
    records or consume messages keeps those, and leaves the tables in a
    relation that its storage calls and ports keep ([TurnKeeps]).

    [run_rounds_fuel]: the loop ends within its rounds, so more fuel changes
    nothing.  [turn_record_bounds]: a turn that returns has written its record,
    which counts at most the allowed rounds and one retry, and at most the
    allowed tool calls. *)

From S2P Require Import Prelude Text SpawnProtocol Types Externals AgentTypes AgentDomain TopUp AgentStore AgentScheduler StrategyTypes StrategyStore StrategyPolicy TurnTypes TurnStore Sanitize TurnText TurnPolicy TurnTools TurnDecision Turn.

(** ** Steps that keep the counters *)

(** The agent's state and whether inference is completed: unchanged, or it was
    completed just now. *)
Inductive phase_step (t t' : Turn.t) : Prop :=
| phase_same :
    Turn.state t' = Turn.state t -> Turn.inference_completed t' = Turn.inference_completed t ->
    phase_step t t'
| phase_completed :
    Turn.state t = AgentState.Inferring -> Turn.inference_completed t = false ->
    Turn.state t' = AgentState.ExecutingActions -> Turn.inference_completed t' = true ->
    phase_step t t'.

#[export] Instance phase_step_preorder : PreOrder phase_step.
Proof.
  split.
  - intros t. by apply phase_same.
  - intros t1 t2 t3 [] []; try congruence;
      [apply phase_same|apply phase_completed|apply phase_completed]; congruence.
Qed.

(** The tables are related by [D]; rounds, records and the mark that a staged
    message was answered are the same. *)
Record same_counts (D : relation Desk.t) (t t' : Turn.t) : Prop := {
  counts_desk : D (Turn.desk t) (Turn.desk t');
  counts_rounds : Turn.inference_round_count t' = Turn.inference_round_count t;
  counts_calls : Turn.all_tool_calls t' = Turn.all_tool_calls t;
  counts_handled : Turn.staged_external_input_handled t' = Turn.staged_external_input_handled t;
  counts_phase : phase_step t t';
}.

#[export] Instance same_counts_preorder (D : relation Desk.t) `{!PreOrder D} :
  PreOrder (same_counts D).
Proof.
  split.
  - intros t. by split.
  - intros t1 t2 t3 [] []. split; [by etrans|congruence..|by etrans].
Qed.

Abbreviation keeps_counts D m := (stable (fun _ => True) (same_counts D) m).
Abbreviation keeps_desk D m := (stable (fun _ => True) D m).

Section Steps.
#[local] Set Default Proof Using "All".
Context (D : relation Desk.t) `{!PreOrder D}.

Lemma keeps_on_desk {E A} (m : T A) : keeps_desk D m -> keeps_counts D (on_desk (E := E) m).
Proof.
  intros Hm t t' Hf _. split; [done|]. unfold on_desk, zoom, catch in Hf.
  specialize (Hm (Turn.desk t)).
  destruct (m (Turn.desk t)) as [a s|e s|]; [| |discriminate]; injection Hf as <-;
    (split; [by apply Hm|done|done|done|by apply phase_same]).
Qed.

Lemma keeps_desk_modify {E} (f : Desk.t -> Desk.t) :
  (forall s, D s (f s)) -> keeps_counts D (desk_modify (E := E) f).
Proof. intros Hf t t' [= <-] _. split; [done|]. split; [apply Hf| | | |by apply phase_same]; done. Qed.

Lemma keeps_desk_op {E A} (op : Desk.t -> A * Desk.t) :
  (forall s, D s (op s).2) -> keeps_counts D (desk_op (E := E) op).
Proof. intros Hop t t' [= <-] _. split; [done|]. split; [apply Hop| | | |by apply phase_same]; done. Qed.

Lemma keeps_modify {E} (f : Turn.t -> Turn.t) :
  (forall t, Turn.desk (f t) = Turn.desk t
     /\ Turn.inference_round_count (f t) = Turn.inference_round_count t
     /\ Turn.all_tool_calls (f t) = Turn.all_tool_calls t
     /\ Turn.staged_external_input_handled (f t) = Turn.staged_external_input_handled t
     /\ Turn.state (f t) = Turn.state t
     /\ Turn.inference_completed (f t) = Turn.inference_completed t) ->
  keeps_counts D (modify (E := E) f).
Proof.
  intros Hf t t' [= <-] _. destruct (Hf t) as (Hdesk & Hrounds & Hcalls & Hhandled & ? & ?).
  split; [done|]. split; [by rewrite Hdesk| | | |by apply phase_same]; done.
Qed.

Lemma keeps_say {E} segment : keeps_counts D (say (E := E) segment).
Proof. by apply keeps_modify. Qed.
Lemma keeps_set_error {E} error : keeps_counts D (set_error (E := E) error).
Proof. by apply keeps_modify. Qed.
Lemma keeps_set_envelope envelope : keeps_counts D (set_envelope envelope).
Proof. by apply keeps_modify. Qed.
Lemma keeps_stop_because reason : keeps_counts D (stop_because reason).
Proof. by apply keeps_modify. Qed.
Lemma keeps_desk_gets {E A} (f : Desk.t -> A) : keeps_counts D (desk_gets (E := E) f).
Proof. apply stable_gets, _. Qed.
Lemma keeps_break {A} : keeps_counts D (break (A := A)).
Proof. apply stable_throw, _. Qed.
Lemma keeps_break_if b : keeps_counts D (break_if b).
Proof. destruct b; [apply stable_throw, _|apply stable_ret, _]. Qed.
Lemma keeps_break_on_error : keeps_counts D break_on_error.
Proof. apply stable_bind; [apply _|apply stable_gets, _|]. intros e. apply keeps_break_if. Qed.
Lemma keeps_expect_none {A} (rest : list A) error : keeps_counts D (expect_none rest error).
Proof.
  apply stable_bind; [apply _|apply stable_gets, _|]. intros e.
  apply stable_bind; [apply _| |intros _; apply keeps_break_on_error].
  destruct (_ && _); [apply keeps_set_error|apply stable_ret, _].
Qed.
Lemma keeps_say_details before after details : keeps_counts D (say_details before after details).
Proof. destruct details; [apply stable_ret, _|apply keeps_say]. Qed.
End Steps.

Create HintDb turn discriminated.
#[export] Hint Resolve keeps_on_desk keeps_desk_modify keeps_desk_op keeps_say keeps_set_error keeps_set_envelope
  keeps_stop_because keeps_desk_gets keeps_break keeps_break_if keeps_break_on_error
  keeps_expect_none keeps_say_details stable_ret stable_throw stable_gets stable_get_state stable_lift
  stable_expect stable_catch : turn.
#[export] Hint Extern 0 (PreOrder _) => apply _ : turn.
#[export] Hint Extern 1 (stable _ (same_counts _) (modify _)) =>
  apply keeps_modify; [apply _|done] : turn.

(** How a sequence of two steps ends. *)
Lemma final_bind {S E A B} (m : M S E A) (f : A -> M S E B) s s' :
  final_state ((m ≫= f) s) = Some s' ->
  (exists e, m s = Fail e s') \/ exists a t, m s = Done a t /\ final_state (f a t) = Some s'.
Proof.
  unfold mbind, M_bind. destruct (m s) as [a t|e t|]; [eauto|intros [= ->]; eauto|done].
Qed.

(** The first step of a run that returned, with fresh names. *)
Ltac skip_run H :=
  let a := fresh "a" in let t := fresh "t" in let Hrun := fresh "Hrun" in
  apply M_bind_Done in H; destruct H as (a & t & Hrun & H).

(** Walk through a computation; what is left are the parts that no hint
    covers. *)
Ltac turn_walk :=
  repeat first
    [ solve [auto 4 with turn]
    | apply stable_bind; [apply _| |intros ?]
    | match goal with
      | |- stable _ _ (if ?b then _ else _) => destruct b
      | |- stable _ _ (match ?x with _ => _ end) => destruct x
      | |- stable _ _ (let _ := _ in _) => cbv zeta
      end ].

(** ** What the turn asks of the store and of its ports *)

Section Keeps.
Context `{ext : Externals, libs : StrategyLibs, turn_libs : TurnLibs, rows : RowOrder}.
Context `{u256 : U256Text, cost : CostApi, adapters : InferenceAdapters}.
Context `{futures : JoinFutures, tools : Tools, ports : TurnPorts}.

Class TurnKeeps (D : relation Desk.t) : Prop := {
  keeps_preorder : PreOrder D;
  keeps_transition : forall turn_id from to event s,
    D s (record_transition debug_str turn_id from to event None s);
  keeps_suppression_active : forall now_ns s,
    D s (autonomy_inference_suppression_active now_ns s).2;
  keeps_suppression_failure : forall now_ns class s,
    D s (record_autonomy_inference_suppression_failure now_ns class s).2;
  keeps_clear_suppression : forall s, D s (clear_autonomy_inference_suppression_state s);
  keeps_wait_states : forall ids state,
    keeps_desk D (persist_inbox_proxy_wait_state_for_staged_messages ids state);
  keeps_note_suppressed : forall fingerprint now_ns s,
    D s (note_autonomy_tool_failure_suppressed fingerprint now_ns s);
  keeps_note_class_suppressed : forall tool scope now_ns s,
    D s (note_autonomy_tool_failure_class_scope_suppressed tool scope now_ns s);
  keeps_tool_outcomes : forall calls execution records now_ns config s,
    D s (record_autonomy_tool_outcomes calls execution records now_ns config s);
  keeps_reflection_success : forall turn_id record now_ns s,
    D s (persist_reflection_memory_success_for_record turn_id record now_ns s);
  keeps_reflection_lessons : forall turn_id records now_ns,
    keeps_desk D (persist_reflection_memory_degraded_lessons turn_id records now_ns);
  keeps_decision : forall record, keeps_desk D (append_decision_record record);
  keeps_conversations : forall frame ids id reply now_ns s,
    D s (record_conversation_entries frame ids id reply now_ns s);
  keeps_inference : forall snapshot input transcript,
    keeps_desk D (infer_with_provider_transcript snapshot input transcript);
  keeps_execution : forall frame plan state calls prior,
    keeps_desk D (execute_calls frame plan state calls prior);
}.

#[export] Existing Instance keeps_preorder.

#[export] Instance turn_keeps_anything : TurnKeeps (fun _ _ => True).
Proof. by split. Qed.

Section Rounds.
Context (D : relation Desk.t) `{!TurnKeeps D} (frame : Frame.t) (plan : Plan.t).
#[local] Hint Resolve keeps_wait_states keeps_reflection_lessons keeps_decision keeps_inference
  keeps_execution : turn.
#[local] Hint Extern 0 (D _ _) =>
  first [ apply keeps_transition | apply keeps_suppression_active | apply keeps_suppression_failure
        | apply keeps_clear_suppression | apply keeps_note_suppressed
        | apply keeps_note_class_suppressed | apply keeps_tool_outcomes
        | apply keeps_reflection_success | apply keeps_conversations ] : turn.
#[local] Set Default Proof Using "All".

Lemma keeps_deadline : keeps_counts D (stop_for_turn_deadline_if_elapsed frame).
Proof. unfold stop_for_turn_deadline_if_elapsed. turn_walk. Qed.
#[local] Hint Resolve keeps_deadline : turn.
Lemma keeps_check_deadline : keeps_counts D (check_deadline frame).
Proof. unfold check_deadline. turn_walk. Qed.
#[local] Hint Resolve keeps_check_deadline : turn.
Lemma keeps_check_rounds : keeps_counts D (check_rounds frame).
Proof. unfold check_rounds. turn_walk. Qed.

Lemma keeps_gates : keeps_counts D (inference_gates frame plan).
Proof. unfold inference_gates, reserve_gate, suppression_gate. turn_walk. Qed.

Lemma keeps_complete_inference_once {E} : keeps_counts D (complete_inference_once (E := E) frame).
Proof.
  intros t t' Hf _. split; [done|]. unfold complete_inference_once, gets, mbind, M_bind in Hf.
  destruct (Turn.inference_completed t) eqn:Hcompleted; [by injection Hf as <-|].
  unfold complete_inference, advance_state in Hf. revert Hf. exec.
  destruct (transition debug_str (Turn.state t) AgentEvent.InferenceCompleted) as [next|] eqn:Hnext.
  - intros [= <-]. split; [apply keeps_transition|done|done|done|].
    assert (Turn.state t = AgentState.Inferring /\ next = AgentState.ExecutingActions) as [Hfrom ->].
    { destruct (Turn.state t); simpl in Hnext; by simplify_eq. }
    by apply phase_completed.
  - by intros [= <-].
Qed.
#[local] Hint Resolve keeps_complete_inference_once : turn.

Lemma keeps_inference_failed reason : keeps_counts D (inference_failed frame reason).
Proof. unfold inference_failed, autonomy_inference_failed. turn_walk. Qed.
#[local] Hint Resolve keeps_inference_failed : turn.

Lemma keeps_handle_deferral inference : keeps_counts D (handle_deferral frame inference).
Proof. unfold handle_deferral. turn_walk. Qed.

Lemma keeps_take_reply inference : keeps_counts D (take_reply frame inference).
Proof. unfold take_reply. turn_walk. Qed.

Lemma keeps_limit_calls calls : keeps_counts D (limit_calls frame calls).
Proof. unfold limit_calls. turn_walk. Qed.
Lemma keeps_suppress_round calls : keeps_counts D (suppress_round frame calls).
Proof. unfold suppress_round. turn_walk. Qed.
Lemma keeps_suppress_capped calls suppressed :
  keeps_counts D (suppress_capped frame calls suppressed).
Proof. unfold suppress_capped. turn_walk. Qed.

Lemma keeps_collect_records completed_ns planned : forall executed records,
  keeps_counts D (collect_records frame completed_ns executed records planned).
Proof.
  induction planned as [|[call execution] planned IH]; intros executed records; simpl; [turn_walk|].
  destruct execution; turn_walk; apply IH.
Qed.

Lemma keeps_execute_round trimmed_reply calls suppressed :
  keeps_counts D (execute_round frame plan trimmed_reply calls suppressed).
Proof. unfold execute_round. turn_walk. apply keeps_collect_records. Qed.

Lemma keeps_note_failures records completed_ns :
  keeps_counts D (note_failures frame records completed_ns).
Proof. unfold note_failures. turn_walk. Qed.

Lemma keeps_note_round calls execution records completed_ns :
  keeps_counts D (note_round frame calls execution records completed_ns).
Proof.
  unfold note_round. turn_walk; try apply keeps_note_failures.
  apply keeps_desk_modify; [apply _|]. intros s. revert s. induction records as [|record records IH];
    intros s; simpl; [done|]. etrans; [apply keeps_reflection_success|apply IH].
Qed.

Lemma keeps_parse_retry_reply output : keeps_counts D (parse_retry_reply frame output).
Proof. unfold parse_retry_reply. turn_walk. Qed.
Lemma keeps_ask_again parse_error : keeps_counts D (ask_again frame plan parse_error).
Proof. unfold ask_again. turn_walk. Qed.
Lemma keeps_read_retry output : keeps_counts D (read_retry frame output).
Proof.
  unfold read_retry. destruct (InferenceOutput.deferred_reason output ≫= _) as [[reason envelope]|];
    [turn_walk|].
  intros t t' Hf _. split; [done|]. apply (keeps_parse_retry_reply output t t'); [|done].
  unfold fmap, M_fmap in Hf. by destruct (parse_retry_reply frame output t).
Qed.
Lemma keeps_record_decision decided : keeps_counts D (record_decision frame plan decided).
Proof. unfold record_decision. turn_walk. Qed.

Lemma infer_round_final t t' :
  final_state (infer_round frame plan t) = Some t' ->
  same_counts D (t <| Turn.inference_round_count ::= S |>) t'.
Proof.
  unfold infer_round. intros [[e [=]]|(u & t1 & [= <- <-] & Hf)]%final_bind.
  revert Hf. set (counted := t <| _ ::= _ |>). clearbody counted. intros Hf.
  refine (proj2 (_ counted t' Hf I)). turn_walk.
  apply keeps_on_desk; [apply _|]. case_bool_decide; apply keeps_inference.
Qed.
End Rounds.

(** ** Counting *)

(** Rounds are kept, the records stay within the turn's budget. *)
Record acts (frame : Frame.t) (t t' : Turn.t) : Prop := {
  acts_rounds : Turn.inference_round_count t' = Turn.inference_round_count t;
  acts_calls : length (Turn.all_tool_calls t) <= Frame.max_tool_calls_per_turn frame ->
    length (Turn.all_tool_calls t') <= Frame.max_tool_calls_per_turn frame;
  acts_phase : phase_step t t';
}.

#[export] Instance acts_preorder frame : PreOrder (acts frame).
Proof.
  split.
  - intros t. by split.
  - intros t1 t2 t3 [] []. split; [congruence|auto|by etrans].
Qed.

Abbreviation anything := (fun _ _ : Desk.t => True).

Lemma keeps_anything {A} (m : T A) : keeps_desk anything m.
Proof. by split. Qed.
#[local] Hint Resolve keeps_anything : turn.
#[local] Hint Extern 0 (forall _, True) => done : turn.

Lemma acts_of_counts frame t t' : same_counts anything t t' -> acts frame t t'.
Proof. intros [_ Hrounds Hcalls _ Hphase]. split; [done|by rewrite Hcalls|done]. Qed.

Lemma stable_acts {E A} frame (m : M Turn.t E A) :
  keeps_counts anything m -> stable (fun _ => True) (acts frame) m.
Proof. intros Hm t t' Hf _. split; [done|]. by apply acts_of_counts, Hm. Qed.

Section Counting.
#[local] Set Default Proof Using "All".
Context (frame : Frame.t) (plan : Plan.t).
Let max_calls := Frame.max_tool_calls_per_turn frame.

Lemma check_rounds_Done t u t' :
  check_rounds frame t = Done u t' ->
  t' = t /\ Turn.inference_round_count t < Frame.max_inference_rounds frame.
Proof.
  unfold check_rounds. exec. destruct (_ <=? _) eqn:Hle; [done|]. intros [= _ <-].
  apply Nat.leb_gt in Hle. done.
Qed.

Lemma handle_proxy_deferral_Done inference t u t' :
  handle_proxy_deferral frame plan inference t = Done u t' -> t' = t.
Proof.
  unfold handle_proxy_deferral. destruct (is_inference_proxy_deferred_output inference); simpl.
  - intros H. do 5 skip_run H. done.
  - by intros [= _ <-].
Qed.

Lemma acts_fail_close wait_state now_ns :
  stable (fun _ => True) (acts frame) (fail_close frame wait_state now_ns).
Proof.
  unfold fail_close. apply stable_bind; [apply _|by apply stable_acts; auto with turn|].
  intros [id|error]; [|apply stable_acts; auto with turn].
  do 2 (apply stable_bind; [apply _|by apply stable_acts; auto with turn|intros _]).
  apply stable_bind; [apply _| |intros _; apply stable_acts; auto with turn].
  apply stable_modify. intros t _. split; [done|]. by split; [done..|apply phase_same].
Qed.

Lemma acts_handle_proxy_deferral inference :
  stable (fun _ => True) (acts frame) (handle_proxy_deferral frame plan inference).
Proof.
  unfold handle_proxy_deferral. destruct (negb _); [apply stable_ret, _|].
  do 3 (apply stable_bind; [apply _|by apply stable_acts; auto with turn|intros ?]).
  apply stable_bind; [apply _| |intros ?; apply stable_acts; turn_walk].
  destruct (_ && _); [|apply stable_ret, _].
  apply stable_bind; [apply _|apply stable_acts; auto with turn|intros wait_state].
  apply stable_bind; [apply _|by apply stable_acts; auto with turn|intros ?].
  destruct (should_fail_close_proxy_wait _ _); [apply acts_fail_close|apply stable_ret, _].
Qed.

(** Planned calls fit into the budget that is left. *)
Lemma limit_calls_Done calls t calls' t' :
  limit_calls frame calls t = Done calls' t' ->
  length (Turn.all_tool_calls t') <= max_calls ->
  length (Turn.all_tool_calls t') + length calls' <= max_calls.
Proof.
  intros H. assert (same_counts anything t t') as Hkeeps.
  { refine (proj2 (keeps_limit_calls anything frame plan calls t t' _ I)). by rewrite H. }
  rewrite (counts_calls _ _ _ Hkeeps). revert H. unfold limit_calls.
  destruct calls as [|call calls]; [intros [= <- _]; simpl; lia|].
  exec. case_bool_decide; [by intros|]. fold max_calls.
  destruct (_ <? _) eqn:Hlt; intros [= <- _] Hmax.
  - rewrite length_take. lia.
  - apply Nat.ltb_ge in Hlt. lia.
Qed.

Lemma collect_records_length completed_ns planned : forall executed records t all rest t',
  collect_records frame completed_ns executed records planned t = Done (all, rest) t' ->
  length all <= length records + length planned.
Proof.
  induction planned as [|[call execution] planned IH]; intros executed records t all rest t'; simpl.
  { intros [= <- _ _]. lia. }
  destruct execution; [destruct executed as [|record executed]|..].
  1: by intros H; skip_run H; injection H as <- _ _; lia.
  3: intros H; do 2 skip_run H; revert H.
  all: intros H%IH; rewrite length_app in H; simpl in H; lia.
Qed.

Lemma execute_round_length trimmed_reply calls suppressed t execution records completed_ns t' :
  execute_round frame plan trimmed_reply calls suppressed t
    = Done (execution, records, completed_ns) t' ->
  length records <= length calls.
Proof.
  unfold execute_round. intros H. do 11 skip_run H. run_inv H as collected tc Hcollect.
  destruct collected as [all rest]. skip_run H. injection H as _ <- _ _.
  apply collect_records_length in Hcollect. rewrite length_zip in Hcollect. simpl in Hcollect. lia.
Qed.

Lemma acts_final {E A} (m : M Turn.t E A) t t' :
  keeps_counts anything m -> final_state (m t) = Some t' -> acts frame t t'.
Proof. intros Hm Hf. by apply acts_of_counts, (Hm t t' Hf). Qed.

Lemma acts_settle calls execution records completed_ns t t' :
  length (Turn.all_tool_calls t) + length records <= max_calls ->
  final_state (settle_round frame calls execution records completed_ns t) = Some t' ->
  acts frame t t'.
Proof.
  intros Hmax [[e Hf]|(u & t1 & Hnote & Hf)]%final_bind.
  { eapply acts_final; [apply (keeps_note_round anything frame plan)|by rewrite Hf]. }
  assert (same_counts anything t t1) as Hcounts.
  { eapply (keeps_note_round anything frame plan calls execution records completed_ns t); [|done].
    by rewrite Hnote. }
  apply final_bind in Hf as [[e [=]]|(u' & t2 & [= <- <-] & Hf)].
  etrans; [by apply acts_of_counts|]. etrans; [|eapply acts_final; [|exact Hf]; turn_walk].
  split; [done| |by apply phase_same]. simpl. intros _. rewrite length_app.
  rewrite (counts_calls _ _ _ Hcounts). done.
Qed.

Lemma acts_act_on inference t t' :
  length (Turn.all_tool_calls t) <= max_calls ->
  final_state (act_on frame plan inference t) = Some t' -> acts frame t t'.
Proof.
  intros Hmax [[e [=]]|(rounds & t0 & [= <- <-] & Hf)]%final_bind.
  apply final_bind in Hf as [[e Hf]|(calls & t1 & Hlimit & Hf)].
  { eapply acts_final; [apply (keeps_limit_calls anything frame plan)|by rewrite Hf]. }
  assert (acts frame t t1) as Hacts.
  { eapply acts_final; [apply (keeps_limit_calls anything frame plan)|by rewrite Hlimit]. }
  apply limit_calls_Done in Hlimit; [|by apply (acts_calls _ _ _ Hacts)]. etrans; [exact Hacts|].
  assert (forall suppressed t2 t3, same_counts anything t1 t2 ->
    final_state (match calls with
                 | [] => break
                 | _ => '(execution, records, completed_ns) ←
                          execute_round frame plan (trim (InferenceOutput.explanation inference))
                            calls suppressed;
                        settle_round frame calls execution records completed_ns
                 end t2) = Some t3 -> acts frame t2 t3) as Hrun.
  { clear Hf. intros suppressed t2 t3 Hcounts. destruct calls as [|call calls].
    { by intros [= <-]. }
    intros [[e Hf]|([[execution records] completed_ns] & t4 & Hexecute & Hf)]%final_bind.
    { eapply acts_final; [apply (keeps_execute_round anything frame plan)|by rewrite Hf]. }
    assert (same_counts anything t2 t4) as Hcounts'.
    { eapply (keeps_execute_round anything frame plan _ _ _ t2); [|done]. by rewrite Hexecute. }
    etrans; [by apply acts_of_counts|]. eapply acts_settle; [|exact Hf].
    apply execute_round_length in Hexecute. rewrite (counts_calls _ _ _ Hcounts').
    rewrite (counts_calls _ _ _ Hcounts). lia. }
  apply final_bind in Hf as [[e Hf]|(suppressed & t2 & Hsuppress & Hf)].
  { eapply acts_final; [apply (keeps_suppress_round anything frame plan)|by rewrite Hf]. }
  assert (same_counts anything t1 t2) as Hcounts.
  { eapply (keeps_suppress_round anything frame plan _ t1); [|done]. by rewrite Hsuppress. }
  apply final_bind in Hf as [[e Hf]|(suppressed' & t3 & Hcap & Hf)].
  { etrans; [by apply acts_of_counts|].
    eapply acts_final; [apply (keeps_suppress_capped anything frame plan)|by rewrite Hf]. }
  assert (same_counts anything t2 t3) as Hcounts'.
  { eapply (keeps_suppress_capped anything frame plan _ _ t2); [|done]. by rewrite Hcap. }
  assert (same_counts anything t1 t3) as Hall by (by etrans).
  etrans; [by apply acts_of_counts|]. by eapply Hrun.
Qed.

(** The rest of a round once inference returned. *)
Lemma acts_round_rest inference t t' :
  length (Turn.all_tool_calls t) <= max_calls ->
  final_state ((handle_deferral frame inference;; handle_proxy_deferral frame plan inference;;
                take_reply frame inference;; act_on frame plan inference) t) = Some t' ->
  acts frame t t'.
Proof.
  intros Hmax [[e Hf]|(u & t1 & Hrun & Hf)]%final_bind.
  { eapply acts_final; [apply (keeps_handle_deferral anything frame plan)|by rewrite Hf]. }
  assert (acts frame t t1) as H1.
  { eapply acts_final; [apply (keeps_handle_deferral anything frame plan)|by rewrite Hrun]. }
  etrans; [exact H1|]. apply (acts_calls _ _ _ H1) in Hmax. clear t Hrun H1.
  apply final_bind in Hf as [[e Hf]|(u' & t2 & ->%handle_proxy_deferral_Done & Hf)].
  { eapply (acts_handle_proxy_deferral inference t1); [|done]. by rewrite Hf. }
  apply final_bind in Hf as [[e Hf]|(u'' & t2 & Hrun & Hf)].
  { eapply acts_final; [apply (keeps_take_reply anything frame plan)|by rewrite Hf]. }
  assert (acts frame t1 t2) as H2.
  { eapply acts_final; [apply (keeps_take_reply anything frame plan)|by rewrite Hrun]. }
  etrans; [exact H2|]. apply (acts_calls _ _ _ H2) in Hmax. by eapply acts_act_on.
Qed.

(** What a round does to the counts: it counts itself once inference began. *)
Record round_counts (t t' : Turn.t) : Prop := {
  round_rounds : Turn.inference_round_count t <= Frame.max_inference_rounds frame ->
    Turn.inference_round_count t' <= Frame.max_inference_rounds frame;
  round_calls : length (Turn.all_tool_calls t') <= max_calls;
  round_phase : phase_step t t';
}.

Lemma keeps_round_gates :
  keeps_counts anything (check_rounds frame;; check_deadline frame;; inference_gates frame plan).
Proof.
  apply stable_bind; [apply _|apply (keeps_check_rounds anything frame plan)|intros _].
  apply stable_bind; [apply _|apply (keeps_check_deadline anything frame plan)|intros _].
  apply (keeps_gates anything frame plan).
Qed.

Lemma run_round_gates t u t1 :
  (check_rounds frame;; check_deadline frame;; inference_gates frame plan) t = Done u t1 ->
  same_counts anything t t1 /\ Turn.inference_round_count t < Frame.max_inference_rounds frame.
Proof.
  intros H. run_inv H as u1 t2 Hrounds. apply check_rounds_Done in Hrounds as [-> Hlt].
  split; [|done]. run_inv H as u2 t3 Hdeadline. trans t3.
  - refine (proj2 (keeps_check_deadline anything frame plan t t3 _ I)). by rewrite Hdeadline.
  - refine (proj2 (keeps_gates anything frame plan t3 t1 _ I)). by rewrite H.
Qed.

Lemma run_round_split t :
  run_round frame plan t =
  ((check_rounds frame;; check_deadline frame;; inference_gates frame plan);;
   inference ← infer_round frame plan;
   handle_deferral frame inference;; handle_proxy_deferral frame plan inference;;
   take_reply frame inference;; act_on frame plan inference) t.
Proof.
  unfold run_round, mbind, M_bind. destruct (check_rounds frame t); [|done..].
  by destruct (check_deadline frame s).
Qed.

Lemma run_round_final t t' :
  length (Turn.all_tool_calls t) <= max_calls ->
  final_state (run_round frame plan t) = Some t' -> round_counts t t'.
Proof.
  intros Hmax. rewrite run_round_split. intros [[e Hf]|(u & t1 & Hgates & Hf)]%final_bind.
  { destruct (keeps_round_gates t t') as [_ [_ Hrounds Hcalls _ Hphase]]; [by rewrite Hf|done|].
    split; [by rewrite Hrounds|by rewrite Hcalls|done]. }
  apply run_round_gates in Hgates as [[_ Hrounds Hcalls _ Hphase] Hlt].
  set (counted := t1 <| Turn.inference_round_count ::= S |>) in *.
  assert (forall t2, acts frame counted t2 -> round_counts t t2) as Hcounted.
  { intros t2 [Hrounds2 Hcalls2 Hphase2]. split; [intros _|apply Hcalls2|].
    - rewrite Hrounds2. simpl. lia.
    - simpl. by rewrite Hcalls.
    - trans t1; [done|]. trans counted; [by apply phase_same|done]. }
  apply Hcounted. apply final_bind in Hf as [[e Hf]|(inference & t2 & Hrun & Hf)].
  { apply acts_of_counts, (infer_round_final anything frame plan t1). by rewrite Hf. }
  assert (acts frame counted t2) as Hacts.
  { apply acts_of_counts, (infer_round_final anything frame plan t1). by rewrite Hrun. }
  etrans; [exact Hacts|]. eapply acts_round_rest; [|exact Hf]. apply (acts_calls _ _ _ Hacts).
  simpl. by rewrite Hcalls.
Qed.

Lemma run_round_Done t u t' :
  length (Turn.all_tool_calls t) <= max_calls ->
  run_round frame plan t = Done u t' ->
  Turn.inference_round_count t < Frame.max_inference_rounds frame
  /\ Turn.inference_round_count t' = S (Turn.inference_round_count t).
Proof.
  intros Hmax. rewrite run_round_split. intros H. run_inv H as u1 t1 Hgates.
  apply run_round_gates in Hgates as [[_ Hrounds Hcalls _ _] Hlt]. split; [done|].
  run_inv H as inference t2 Hinfer.
  assert (same_counts anything (t1 <| Turn.inference_round_count ::= S |>) t2)
    as [_ Hrounds2 Hcalls2 _ _].
  { apply (infer_round_final anything frame plan). by rewrite Hinfer. }
  assert (acts frame t2 t') as Hacts.
  { apply (acts_round_rest inference); [by rewrite Hcalls2; simpl; rewrite Hcalls|by rewrite H]. }
  rewrite (acts_rounds _ _ _ Hacts), Hrounds2. simpl. by rewrite Hrounds.
Qed.

(** One round after another. *)
Definition goes_on (t t' : Turn.t) : Prop := run_round frame plan t = Done tt t'.

Lemma run_loop_ends : forall fuel t,
  length (Turn.all_tool_calls t) <= max_calls ->
  Turn.inference_round_count t <= Frame.max_inference_rounds frame ->
  Frame.max_inference_rounds frame < fuel + Turn.inference_round_count t ->
  exists n t1, n < fuel /\ nsteps goes_on n t t1 /\
    match run_round frame plan t1 with
    | Done _ _ => False
    | Fail _ t2 => run_loop frame plan fuel t = Fail tt t2
    | Trap => run_loop frame plan fuel t = Trap
    end.
Proof.
  induction fuel as [|fuel IH]; intros t Hcalls Hmax Hfuel; [simpl in Hfuel; lia|].
  simpl. destruct (run_round frame plan t) as [[] t1|[] t1|] eqn:Hrun.
  - destruct (run_round_Done t tt t1 Hcalls Hrun) as [Hlt Hrounds].
    destruct (IH t1) as (n & t2 & Hn & Hsteps & Hend); [|lia..|].
    { eapply round_calls, run_round_final; [done|by rewrite Hrun]. }
    exists (S n), t2. split_and!; [lia|by eapply nsteps_l|].
    unfold mbind, M_bind. by rewrite Hrun.
  - exists 0, t. split_and!; [lia|constructor|]. unfold mbind, M_bind. by rewrite Hrun.
  - exists 0, t. split_and!; [lia|constructor|]. unfold mbind, M_bind. by rewrite Hrun.
Qed.

Lemma run_loop_final : forall fuel t t',
  length (Turn.all_tool_calls t) <= max_calls ->
  final_state (run_loop frame plan fuel t) = Some t' -> round_counts t t'.
Proof.
  induction fuel as [|fuel IH]; intros t t' Hcalls; simpl; [done|].
  intros [[e Hf]|(u & t1 & Hrun & Hf)]%final_bind.
  { apply run_round_final; [done|by rewrite Hf]. }
  assert (round_counts t t1) as [Hr Hc Hp] by (apply run_round_final; [done|by rewrite Hrun]).
  destruct (IH t1 t' Hc Hf) as [Hr' Hc' Hp']. split; [auto|done|by etrans].
Qed.

Lemma run_rounds_Done t u t' :
  length (Turn.all_tool_calls t) <= max_calls ->
  run_rounds frame plan t = Done u t' -> round_counts t t'.
Proof.
  intros Hcalls. unfold run_rounds.
  destruct (run_loop _ _ _ t) as [u' t1|e t1|] eqn:Hrun; intros [= _ <-];
    (eapply run_loop_final; [done|by rewrite Hrun]).
Qed.

(** C8 - The loop is the source's unbounded one: rounds follow each other until one
    breaks, and that happens within the allowed rounds, so the fuel never runs
    out. *)
Theorem run_rounds_ends (t : Turn.t)
    (Hcalls : length (Turn.all_tool_calls t) <= Frame.max_tool_calls_per_turn frame)
    (Hrounds : Turn.inference_round_count t <= Frame.max_inference_rounds frame) :
  exists n t1, n <= Frame.max_inference_rounds frame /\ nsteps goes_on n t t1 /\
    match run_round frame plan t1 with
    | Done _ _ => False
    | Fail _ t2 => run_rounds frame plan t = Done tt t2
    | Trap => run_rounds frame plan t = Trap
    end.
Proof.
  destruct (run_loop_ends (S (Frame.max_inference_rounds frame)) t) as (n & t1 & Hn & Hsteps & Hend);
    [done|done|lia|].
  exists n, t1. split_and!; [lia|done|]. unfold run_rounds.
  destruct (run_round frame plan t1); [done|by rewrite Hend..].
Qed.

(** ** After the loop *)

Lemma advance_state_run {E} turn_id event t next :
  transition debug_str (Turn.state t) event = Ok next ->
  advance_state (E := E) turn_id event t
  = Done (Ok tt) (t <| Turn.desk ::= record_transition debug_str turn_id (Turn.state t) next event None |>
                    <| Turn.state := next |>).
Proof using Type. intros Hnext. unfold advance_state. exec. by rewrite Hnext. Qed.

Lemma transition_failed state reason :
  transition debug_str state (AgentEvent.TurnFailed reason) = Ok AgentState.Faulted.
Proof using Type. by destruct state. Qed.

(** The turn is in its loop. *)
Definition in_loop (t : Turn.t) : Prop :=
  Turn.state t = AgentState.Inferring /\ Turn.inference_completed t = false
  \/ Turn.state t = AgentState.ExecutingActions /\ Turn.inference_completed t = true.

Lemma in_loop_step t t' : in_loop t -> phase_step t t' -> in_loop t'.
Proof using Type. intros [[]|[]] []; [left; split|right; split|right; split|exfalso]; congruence. Qed.

(** Rounds and records are the same, and a turn without an error is in
    [state]. *)
Record settles (state : AgentState.t) (t t' : Turn.t) : Prop := {
  settles_rounds : Turn.inference_round_count t' = Turn.inference_round_count t;
  settles_calls : Turn.all_tool_calls t' = Turn.all_tool_calls t;
  settles_state : Turn.last_error t' = None -> Turn.state t' = state;
}.

Lemma complete_inference_once_Done {E} t r t' :
  complete_inference_once (E := E) frame t = Done r t' -> in_loop t ->
  r = Ok tt /\ Turn.state t' = AgentState.ExecutingActions /\ Turn.inference_completed t' = true
  /\ Turn.inference_round_count t' = Turn.inference_round_count t
  /\ Turn.all_tool_calls t' = Turn.all_tool_calls t /\ Turn.last_error t' = Turn.last_error t.
Proof.
  unfold complete_inference_once. intros H Hloop. run_inv H as completed t1 Hget.
  injection Hget as <- <-. destruct Hloop as [[Hstate Hcompleted]|[Hstate Hcompleted]];
    rewrite Hcompleted in H.
  - unfold complete_inference in H. run_inv H as advanced t1 Hadvance.
    rewrite (advance_state_run _ _ _ AgentState.ExecutingActions) in Hadvance by (by rewrite Hstate).
    injection Hadvance as <- <-. simpl in H. by injection H as <- <-.
  - by injection H as <- <-.
Qed.

Lemma settle_actions t u t' :
  in_loop t -> complete_actions frame t = Done u t' -> settles AgentState.Persisting t t'.
Proof.
  intros Hloop H. unfold complete_actions in H. run_inv H as t1 t2 Hget. injection Hget as <- <-.
  destruct (Turn.last_error t) as [error|] eqn:Hlast.
  { run_inv H as u1 t1 Hret. injection Hret as _ <-. run_inv H as t2 t3 Hget. injection Hget as <- <-.
    rewrite Hlast in H. injection H as _ <-. split; [done..|congruence]. }
  run_inv H as u1 t1 Honce. run_inv Honce as completed t2 Hrun.
  apply complete_inference_once_Done in Hrun as (-> & Hstate & Hcompleted & Hrounds & Hcalls & Herror);
    [|done]. injection Honce as _ <-. run_inv H as t3 t4 Hget. injection Hget as <- <-.
  rewrite Hcompleted, Herror, Hlast in H. simpl in H. run_inv H as advanced t3 Hadvance.
  rewrite (advance_state_run _ _ _ AgentState.Persisting) in Hadvance by (by rewrite Hstate).
  injection Hadvance as <- <-. injection H as _ <-. by split.
Qed.

(** The parts of the decision that only speak and write. *)
Lemma counts_settle t t' :
  same_counts anything t t' -> Turn.state t = AgentState.Persisting ->
  settles AgentState.Persisting t t'.
Proof. intros [_ Hrounds Hcalls _ [Hstate|]] Hpersisting; split; congruence. Qed.

(** A retry counts one more round. *)
Record decides (t t' : Turn.t) : Prop := {
  decides_rounds : Turn.inference_round_count t' <= S (Turn.inference_round_count t);
  decides_calls : Turn.all_tool_calls t' = Turn.all_tool_calls t;
  decides_phase : phase_step t t';
}.

Lemma decides_same t t' : same_counts anything t t' -> decides t t'.
Proof. intros [_ Hrounds Hcalls _ Hphase]. split; [lia|done..]. Qed.

Lemma decides_after t t' t'' : decides t t' -> same_counts anything t' t'' -> decides t t''.
Proof. intros [] []. split; [lia|congruence|by etrans]. Qed.

Lemma keeps_Done {E A} (m : M Turn.t E A) t a t' :
  keeps_counts anything m -> m t = Done a t' -> same_counts anything t t'.
Proof using Type. intros Hm Hrun. apply (Hm t t'); [by rewrite Hrun|done]. Qed.

Lemma decides_envelope t envelope t' :
  decide_envelope frame plan t = Done envelope t' -> decides t t'.
Proof.
  assert (forall parse_error t1 envelope1 t2,
    retry_decision frame plan parse_error t1 = Done envelope1 t2 -> decides t1 t2) as Hretry.
  { intros parse_error t1 envelope1 t2 H. run_inv H as retried t3 Hask.
    apply keeps_Done in Hask; [|apply (keeps_ask_again anything frame plan)].
    destruct retried as [output|error].
    - run_inv H as u t4 Hcount. injection Hcount as _ <-.
      apply keeps_Done in H; [|apply (keeps_read_retry anything frame plan)].
      destruct Hask, H. split; simpl in *; [lia|congruence|].
      etrans; [done|]. eapply transitivity; [|done]. by apply phase_same.
    - apply decides_same. etrans; [exact Hask|]. eapply keeps_Done; [|exact H]. turn_walk. }
  unfold decide_envelope. intros H. run_inv H as t0 t1 Hget. injection Hget as <- <-.
  destruct (Turn.runtime_autonomy_decision_envelope t).
  { injection H as _ <-. by apply decides_same. }
  destruct (Turn.autonomy_inference_error t). { injection H as _ <-. by apply decides_same. }
  destruct (Turn.assistant_reply t) as [reply|]; [|by eapply Hretry].
  destruct (parse_autonomy_decision_envelope _ _); [|by eapply Hretry].
  injection H as _ <-. by apply decides_same.
Qed.

Lemma settle_decision t u t' :
  (Turn.last_error t = None -> Turn.state t = AgentState.Persisting) ->
  finalize_decision frame plan t = Done u t' ->
  Turn.inference_round_count t' <= S (Turn.inference_round_count t)
  /\ Turn.all_tool_calls t' = Turn.all_tool_calls t
  /\ (Turn.last_error t' = None -> Turn.state t' = AgentState.Persisting).
Proof.
  intros Hstate H. run_inv H as t0 t1 Hget. injection Hget as <- <-.
  destruct (Turn.last_error t) as [error|] eqn:Hlast.
  { injection H as _ <-. split_and!; [lia|done|congruence]. }
  assert (decides t t') as [Hrounds Hcalls Hphase].
  { destruct (_ && _) in H; [|injection H as _ <-; by apply decides_same].
    run_inv H as decided t1 Hdecide. apply decides_envelope in Hdecide.
    run_inv H as last_error t2 Hget. injection Hget as <- <-. eapply decides_after; [exact Hdecide|].
    eapply keeps_Done; [|exact H]. destruct (is_some _); [apply stable_ret, _|].
    apply (keeps_record_decision anything frame plan). }
  split_and!; [done|done|]. intros _. specialize (Hstate eq_refl). destruct Hphase; congruence.
Qed.

Lemma settle_reply t u t' : reply_to_staged frame t = Done u t' -> same_counts anything t t'.
Proof. apply keeps_Done. unfold reply_to_staged. turn_walk. Qed.

Lemma settle_sleep t u t' :
  (Turn.last_error t = None -> Turn.state t = AgentState.Sleeping) ->
  go_to_sleep frame t = Done u t' -> settles AgentState.Sleeping t t'.
Proof.
  intros Hstate H. run_inv H as t0 t1 Hget. injection Hget as <- <-.
  destruct (Turn.last_error t) as [error|] eqn:Hlast.
  { injection H as _ <-. split; [done..|congruence]. }
  specialize (Hstate eq_refl). simpl in H. run_inv H as u1 t1 Hconsume.
  assert (same_counts anything t t1) as [_ Hrounds Hcalls _ Hphase].
  { eapply keeps_Done; [|exact Hconsume]. turn_walk. }
  assert (Turn.state t1 = AgentState.Sleeping) as Hsleeping by (destruct Hphase; congruence).
  run_inv H as advanced t2 Hadvance.
  rewrite (advance_state_run _ _ _ AgentState.Sleeping) in Hadvance by (by rewrite Hsleeping).
  injection Hadvance as _ <-. injection H as _ <-. by split.
Qed.

Lemma settle_persist t u t' :
  (Turn.last_error t = None -> Turn.state t = AgentState.Persisting) ->
  persist_turn frame t = Done u t' -> settles AgentState.Sleeping t t'.
Proof.
  intros Hstate H. run_inv H as t0 t1 Hget. injection Hget as <- <-.
  destruct (Turn.last_error t) as [error|] eqn:Hlast.
  { injection H as _ <-. split; [done..|congruence]. }
  specialize (Hstate eq_refl). simpl in H. run_inv H as persisted t1 Hadvance.
  rewrite (advance_state_run _ _ _ AgentState.Sleeping) in Hadvance by (by rewrite Hstate).
  injection Hadvance as <- <-. run_inv H as t1 t2 Hget. injection Hget as <- <-.
  set (slept := _ <| Turn.state := _ |>) in H.
  assert (settles AgentState.Sleeping t slept) as [Hrounds Hcalls _] by (by split).
  assert (Turn.state slept = AgentState.Sleeping) as Hslept by done. clearbody slept.
  destruct (Turn.inference_deferred slept). { injection H as _ <-. by split. }
  run_inv H as u1 t1 Hreply. apply settle_reply in Hreply as [_ Hrounds1 Hcalls1 _ Hphase].
  apply settle_sleep in H as [Hrounds2 Hcalls2 Hstate2]; [split; [congruence|congruence|done]|].
  intros _. destruct Hphase; congruence.
Qed.

(** ** The turn's record *)

(** The state that the turn ends in. *)
Definition final_turn_state (t : Turn.t) : AgentState.t :=
  if is_some (Turn.last_error t) then AgentState.Faulted else Turn.state t.

Lemma fail_turn_Done {E} t u t' :
  (match Turn.last_error t with
   | Some reason => advance_state (E := E) (Frame.turn_id frame) (AgentEvent.TurnFailed reason);; mret tt
   | None => mret tt
   end) t = Done u t' ->
  Turn.inference_round_count t' = Turn.inference_round_count t
  /\ Turn.all_tool_calls t' = Turn.all_tool_calls t /\ Turn.last_error t' = Turn.last_error t
  /\ Turn.state t' = final_turn_state t.
Proof using Type.
  unfold final_turn_state. destruct (Turn.last_error t) as [reason|] eqn:Hlast.
  - intros H. run_inv H as advanced t1 Hadvance.
    rewrite (advance_state_run _ _ _ AgentState.Faulted) in Hadvance by apply transition_failed.
    injection Hadvance as _ <-. by injection H as _ <-.
  - by intros [= _ <-].
Qed.

Lemma appended_turn record calls s :
  Desk.turns (append_turn_record record calls s) !! TurnRecord.id record
  = Some (record <| TurnRecord.inner_dialogue ::=
            fmap (fun dialogue => truncate_text_field dialogue MAX_TURN_INNER_DIALOGUE_CHARS) |>).
Proof using Type.
  unfold append_turn_record, set_tool_records. destruct (is_empty _); apply lookup_insert_eq.
Qed.

Lemma close_turn_record initial_state t finished_at_ns t' :
  close_turn frame initial_state t = Done finished_at_ns t' ->
  exists record, Desk.turns (Turn.desk t') !! Frame.turn_id frame = Some record
    /\ TurnRecord.inference_round_count record = N.min (N.of_nat (Turn.inference_round_count t)) (max_uint 32)
    /\ (TurnRecord.tool_call_count record <= N.of_nat (length (Turn.all_tool_calls t)))%N
    /\ TurnRecord.error record = Turn.last_error t
    /\ TurnRecord.state_to record = final_turn_state t
    /\ Turn.all_tool_calls t' = Turn.all_tool_calls t /\ Turn.last_error t' = Turn.last_error t.
Proof using Type.
  intros H. run_inv H as t0 t1 Hget. injection Hget as <- <-. run_inv H as u t1 Hfail.
  apply fail_turn_Done in Hfail as (Hrounds & Hcalls & Hlast & Hstate).
  run_inv H as u1 t2 Hspeak. injection Hspeak as _ Hspeak. run_inv H as t3 t4 Hget. injection Hget as <- <-.
  assert (Turn.inference_round_count t2 = Turn.inference_round_count t
    /\ Turn.all_tool_calls t2 = Turn.all_tool_calls t /\ Turn.last_error t2 = Turn.last_error t
    /\ Turn.state t2 = final_turn_state t) as (Hrounds2 & Hcalls2 & Hlast2 & Hstate2) by (by subst t2).
  clear Hspeak Hrounds Hcalls Hlast Hstate. run_inv H as u2 t3 Hjournal.
  assert (exists s, t3 = put_desk s t2) as [s ->].
  { destruct (Frame.terminal_turn frame).
    - run_inv Hjournal as written t5 Hrun. injection Hjournal as _ <-. unfold on_desk, zoom in Hrun.
      destruct (catch _ _); [|discriminate..]. injection Hrun as _ <-. eauto.
    - injection Hjournal as _ <-. exists (Turn.desk t2). by destruct t2. }
  run_inv H as u3 t4 Happend. injection Happend as _ <-. run_inv H as u4 t5 Hduration.
  injection Hduration as _ <-. run_inv H as u5 t6 Hcomplete. injection Hcomplete as _ <-.
  injection H as <- <-. eexists. split; [exact (appended_turn _ _ s)|].
  unfold turn_record. simpl. split_and!; [by rewrite Hrounds2| |done|done|done|done].
  rewrite Hcalls2. destruct (_ <=? _)%N; lia.
Qed.

End Counting.

Section Bounds.
#[local] Set Default Proof Using "All".
Context (frame : Frame.t).

(** A turn that has not inferred yet. *)
Record fresh (state : AgentState.t) (t : Turn.t) : Prop := {
  fresh_state : Turn.state t = state;
  fresh_rounds : Turn.inference_round_count t = 0;
  fresh_calls : Turn.all_tool_calls t = [];
  fresh_completed : Turn.inference_completed t = false;
}.

Lemma begin_turn_Done state t u t' :
  fresh state t -> begin_turn frame t = Done u t' -> fresh AgentState.LoadingContext t'.
Proof.
  intros [Hstate Hrounds Hcalls Hcompleted] H. run_inv H as ticked t1 Hadvance.
  unfold advance_state in Hadvance. revert Hadvance. exec.
  destruct (transition debug_str (Turn.state t) AgentEvent.TimerTick) as [next|] eqn:Hnext.
  - intros [= <- <-]. injection H as _ <-.
    assert (next = AgentState.LoadingContext) as -> by (destruct (Turn.state t); simpl in Hnext; congruence).
    by split.
  - intros [= <- <-]. by do 2 skip_run H.
Qed.

Lemma load_context_Done t u t' :
  fresh AgentState.LoadingContext t -> load_context frame t = Done u t' ->
  fresh AgentState.Inferring t'.
Proof.
  intros [Hstate Hrounds Hcalls Hcompleted] H. run_inv H as polled t1 Hadvance.
  rewrite (advance_state_run _ _ _ AgentState.Inferring) in Hadvance by (by rewrite Hstate).
  injection Hadvance as <- <-. injection H as _ <-. by split.
Qed.

Lemma prepare_Done wait_state buffered t plan t' :
  prepare frame wait_state buffered t = Done plan t' -> same_counts anything t t'.
Proof. apply keeps_Done. unfold prepare. turn_walk. Qed.

(** From the loop's start to the turn's end. *)
Lemma run_turn_Done s state finished_at_ns t' :
  run_turn frame (Turn.start s state) = Done finished_at_ns t' ->
  exists t, close_turn frame (RuntimeSnapshot.state (Frame.snapshot frame)) t = Done finished_at_ns t'
    /\ Turn.inference_round_count t <= S (Frame.max_inference_rounds frame)
    /\ length (Turn.all_tool_calls t) <= Frame.max_tool_calls_per_turn frame
    /\ final_turn_state t
       = (if is_some (Turn.last_error t) then AgentState.Faulted else AgentState.Sleeping).
Proof.
  intros H. run_inv H as u t1 Hbegin. apply (begin_turn_Done state) in Hbegin; [|by split].
  run_inv H as wait_state t2 Hget. injection Hget as _ <-.
  run_inv H as buffered t2 Hget. injection Hget as _ <-.
  run_inv H as u1 t2 Hload. apply load_context_Done in Hload as [Hstate Hrounds Hcalls Hcompleted]; [|done].
  apply map_fail_Done in H. run_inv H as plan t3 Hprepare. apply prepare_Done in Hprepare as [_ Hrounds3 Hcalls3 _ Hphase3].
  assert (in_loop t3) as Hloop by (eapply in_loop_step; [by left|done]).
  run_inv H as u2 t4 Hrun. apply (run_rounds_Done frame plan) in Hrun as [Hrounds4 Hcalls4 Hphase4];
    [|rewrite Hcalls3, Hcalls; simpl; lia].
  assert (in_loop t4) as Hloop4 by (by eapply in_loop_step).
  run_inv H as u3 t5 Hactions. apply (settle_actions frame plan) in Hactions as [Hrounds5 Hcalls5 Hstate5];
    [|done].
  run_inv H as u4 t6 Hdecide. apply (settle_decision frame plan) in Hdecide
    as (Hrounds6 & Hcalls6 & Hstate6); [|done].
  run_inv H as u5 t7 Hpersist. apply (settle_persist frame plan) in Hpersist as [Hrounds7 Hcalls7 Hstate7];
    [|done].
  exists t7. split_and!; [done|lia|congruence|]. unfold final_turn_state.
  destruct (Turn.last_error t7); [done|]. by apply Hstate7.
Qed.

(** C9 - A turn that returns has written its record, which counts at most the
    allowed rounds and one retry, and at most the allowed calls; without an
    error the agent sleeps, and with one it is faulted. *)
Theorem turn_record_bounds (s : Desk.t) (state : AgentState.t) (finished_at_ns : N) (t' : Turn.t)
    (Hrun : run_turn frame (Turn.start s state) = Done finished_at_ns t') :
  exists record, Desk.turns (Turn.desk t') !! Frame.turn_id frame = Some record
    /\ (TurnRecord.inference_round_count record
        <= N.of_nat (Frame.max_inference_rounds frame) + 1)%N
    /\ (TurnRecord.tool_call_count record <= N.of_nat (Frame.max_tool_calls_per_turn frame))%N
    /\ TurnRecord.state_to record
       = (if is_some (TurnRecord.error record) then AgentState.Faulted else AgentState.Sleeping).
Proof.
  apply run_turn_Done in Hrun as (t & Hclose & Hrounds & Hcalls & Hstate).
  apply (close_turn_record frame) in Hclose
    as (record & Hrecord & Hr & Hc & He & Hs & _).
  exists record. split_and!; [done|rewrite Hr; lia|lia|]. by rewrite Hs, He.
Qed.
End Bounds.
End Keeps.
