(* ===== verification/TurnOutcome.v ===== *)
(** * TurnOutcome: what a turn leaves behind

    Every storage call of [TurnStore] that a turn makes, and every dispatched
    tool, leaves the turn lock's owner, mortality and the messages that are
    staged or consumed alone ([undisturbed]), provided that what the model
    leaves open does ([PortsUndisturbed]).  From it:

    [turn_releases_lock]: a turn that started has released the turn lock when
    it ends, also when it fails.  [turn_answers_messages]: a message that a
    turn consumed has a reply in the outbox.  [terminal_turn_dies]: a turn that
    starts with mortality pending ends in death, whatever fails in it. *)

From S2P Require Import Prelude Text SpawnProtocol Types Externals AgentTypes AgentDomain TopUp AgentStore AgentScheduler StrategyTypes StrategyStore StrategyPolicy TurnTypes TurnStore Sanitize TurnText TurnPolicy TurnTools TurnDecision Turn TurnSteps.

(** ** Undisturbed tables *)

Record undisturbed (s s' : Desk.t) : Prop := {
  undisturbed_turn :
    RuntimeSnapshot.last_turn_id (snapshot_of s') = RuntimeSnapshot.last_turn_id (snapshot_of s);
  undisturbed_phase : mortality_phase (agent s') = mortality_phase (agent s);
  undisturbed_terminal : MortalityRuntime.terminal_turn_id (mortality_runtime (agent s'))
                         = MortalityRuntime.terminal_turn_id (mortality_runtime (agent s));
  undisturbed_inbox : forall id message, Desk.inbox s !! id = Some message ->
    InboxMessage.status message <> InboxMessageStatus.Pending ->
    Desk.inbox s' !! id = Some message;
  undisturbed_outbox : Desk.outbox s ⊆ Desk.outbox s';
  undisturbed_lock : RuntimeSnapshot.turn_in_flight (snapshot_of s') = true ->
    RuntimeSnapshot.turn_in_flight (snapshot_of s) = true;
}.

#[export] Instance undisturbed_preorder : PreOrder undisturbed.
Proof.
  split.
  - intros s. by split.
  - intros s1 s2 s3 [] []. split; [congruence..|by eauto|by etrans|by auto].
Qed.

(** A change of the hot state that leaves the owner of the lock and mortality
    alone, and does not lock. *)
Lemma undisturbed_on_agent f s :
  RuntimeSnapshot.last_turn_id (runtime_snapshot (f (agent s)))
    = RuntimeSnapshot.last_turn_id (runtime_snapshot (agent s)) ->
  mortality_runtime (f (agent s)) = mortality_runtime (agent s) ->
  (RuntimeSnapshot.turn_in_flight (runtime_snapshot (f (agent s))) = true ->
   RuntimeSnapshot.turn_in_flight (runtime_snapshot (agent s)) = true) ->
  undisturbed s (on_agent f s).
Proof.
  intros Hturn Hmortality Hlock. split; [exact Hturn| | |by intros|done|exact Hlock].
  - change (MortalityRuntime.phase (mortality_runtime (f (agent s))) = mortality_phase (agent s)).
    by rewrite Hmortality.
  - change (MortalityRuntime.terminal_turn_id (mortality_runtime (f (agent s)))
            = MortalityRuntime.terminal_turn_id (mortality_runtime (agent s))).
    by rewrite Hmortality.
Qed.

(** A change of the other tables. *)
Lemma undisturbed_tables s s' :
  Desk.book s' = Desk.book s -> Desk.inbox s' = Desk.inbox s -> Desk.outbox s' = Desk.outbox s ->
  undisturbed s s'.
Proof.
  intros Hbook Hinbox Houtbox.
  assert (agent s' = agent s) as Hagent by (unfold agent; by rewrite Hbook).
  assert (snapshot_of s' = snapshot_of s) as Hsnapshot by (unfold snapshot_of; by rewrite Hagent).
  split; [by rewrite Hsnapshot|by rewrite Hagent|by rewrite Hagent|by rewrite Hinbox
    |by rewrite Houtbox|by rewrite Hsnapshot].
Qed.

Lemma undisturbed_foldl {A} (step : Desk.t -> A -> Desk.t) (l : list A) :
  (forall s a, undisturbed s (step s a)) -> forall s, undisturbed s (foldl step s l).
Proof.
  intros Hstep. induction l as [|a l IH]; intros s; simpl; [done|]. etrans; [apply Hstep|apply IH].
Qed.

Lemma undisturbed_scalar key value s : undisturbed s (on_agent (set_runtime_scalar key value) s).
Proof. by apply undisturbed_on_agent. Qed.

Create HintDb undisturbed discriminated.
#[export] Hint Resolve undisturbed_scalar undisturbed_foldl : undisturbed.
#[export] Hint Extern 0 (undisturbed ?s ?s) => reflexivity : undisturbed.

Abbreviation calm m := (keeps_desk undisturbed m).

Lemma calm_modify (f : Desk.t -> Desk.t) :
  (forall s, undisturbed s (f s)) -> calm (modify (E := string) f).
Proof. intros Hf. apply stable_modify. intros s _. split; [done|apply Hf]. Qed.

Lemma calm_catch {A} (m : T A) : calm m -> calm (catch m : T (result string A)).
Proof. apply stable_catch. Qed.

Lemma calm_for_each {A} (l : list A) (body : A -> T unit) :
  (forall a, calm (body a)) -> calm (for_each l body).
Proof. intros Hbody. apply stable_for_each; [apply _|by intros a _]. Qed.

(** Walk through a computation on the tables. *)
Ltac calm_walk :=
  repeat first
    [ solve [eauto 3 with stable undisturbed]
    | apply calm_modify; intros ?; solve [eauto 3 with undisturbed]
    | apply calm_catch
    | apply calm_for_each; intros ?
    | match goal with
      | |- stable _ _ (_ ≫= _) => apply stable_bind; [apply _| |intros ?]
      | |- stable _ _ (if ?b then _ else _) => destruct b
      | |- stable _ _ (match ?x with _ => _ end) => destruct x
      end ].

(** ** Storage calls *)

Lemma undisturbed_record_transition debug turn_id from to event error s :
  undisturbed s (record_transition debug turn_id from to event error s).
Proof.
  unfold record_transition. etrans; [|by apply undisturbed_on_agent]. by apply undisturbed_tables.
Qed.

Lemma undisturbed_set_suppression state at_ns s :
  undisturbed s (set_inference_suppression state at_ns s).
Proof. by apply undisturbed_on_agent. Qed.
#[export] Hint Resolve undisturbed_set_suppression : undisturbed.

Lemma undisturbed_suppression_active now_ns s :
  undisturbed s (autonomy_inference_suppression_active now_ns s).2.
Proof.
  unfold autonomy_inference_suppression_active.
  destruct (AutonomyInferenceSuppressionState.suppression_until_ns _) as [until_ns|]; [|done].
  destruct (_ <? _)%N; [done|]. apply undisturbed_set_suppression.
Qed.

Lemma undisturbed_clear_suppression s :
  undisturbed s (clear_autonomy_inference_suppression_state s).
Proof.
  unfold clear_autonomy_inference_suppression_state. destruct (bool_decide _); [done|].
  apply undisturbed_set_suppression.
Qed.

Lemma undisturbed_upsert_failure key tracker s :
  undisturbed s (upsert_autonomy_tool_failure key tracker s).
Proof. by apply undisturbed_tables. Qed.
Lemma undisturbed_delete_failure key s : undisturbed s (delete_autonomy_tool_failure key s).
Proof. by apply undisturbed_tables. Qed.
#[export] Hint Resolve undisturbed_upsert_failure undisturbed_delete_failure : undisturbed.

Lemma undisturbed_note_suppressed_by_key key now_ns s :
  undisturbed s (note_autonomy_tool_failure_suppressed_by_key key now_ns s).
Proof.
  unfold note_autonomy_tool_failure_suppressed_by_key.
  destruct (Desk.autonomy_tool_failures s !! key); auto with undisturbed.
Qed.

Lemma undisturbed_note_class_suppressed tool scope now_ns s :
  undisturbed s (note_autonomy_tool_failure_class_scope_suppressed tool scope now_ns s).
Proof.
  unfold note_autonomy_tool_failure_class_scope_suppressed. apply undisturbed_foldl.
  intros s' [key tracker]. destruct (is_none_or _ _); [done|]. apply undisturbed_note_suppressed_by_key.
Qed.

Lemma undisturbed_record_failure_by_key key error failed_at window threshold cooldown s :
  undisturbed s (record_autonomy_tool_failure_by_key key error failed_at window threshold cooldown s).
Proof.
  unfold record_autonomy_tool_failure_by_key. destruct (is_empty _); auto with undisturbed.
Qed.

Section Storage.
Context `{ext : Externals, libs : StrategyLibs, rows : RowOrder}.

Lemma undisturbed_tool_outcomes calls execution records now_ns config s :
  undisturbed s (record_autonomy_tool_outcomes calls execution records now_ns config s).
Proof.
  apply undisturbed_foldl. intros s1 [[call planned] record]. unfold record_one_outcome.
  destruct planned; try done. destruct (ToolCallRecord.success record).
  - etrans; [|apply undisturbed_foldl; intros ? ?; apply undisturbed_delete_failure].
    etrans; [|apply undisturbed_delete_failure]. apply undisturbed_scalar.
  - destruct (is_sequence_validator_block record); [done|]. unfold record_failed_call.
    destruct (is_empty _); [done|].
    etrans; apply undisturbed_record_failure_by_key.
Qed.

Lemma undisturbed_prune_reflections now_ns s : undisturbed s (prune_reflection_memory now_ns s).
Proof.
  unfold prune_reflection_memory. trans (delete_stale_reflections
    (saturating_sub now_ns (secs_to_ns REFLECTION_MEMORY_MAX_AGE_SECS)) MAX_REFLECTION_MEMORY_RECORDS s).
  - unfold delete_stale_reflections. destruct (_ =? 0)%N; [done|]. by apply undisturbed_tables.
  - unfold delete_oldest_reflection_memory. destruct (_ =? 0)%N; by apply undisturbed_tables.
Qed.

Lemma undisturbed_upsert_reflection record s : undisturbed s (upsert_reflection_memory record s).
Proof. by apply undisturbed_tables. Qed.

Lemma undisturbed_reflection_success turn_id record now_ns s :
  undisturbed s (persist_reflection_memory_success_for_record turn_id record now_ns s).
Proof.
  unfold persist_reflection_memory_success_for_record. destruct (negb _); [done|].
  destruct (reflection_what_worked _ _) as [what_worked|]; [|done].
  unfold update_reflection_memory_what_worked. destruct (_ || _); [done|].
  set (matching := filter _ _). trans (foldl (fun s record =>
    upsert_reflection_memory (worked (normalize_reflection_memory_value what_worked) (trim turn_id)
      now_ns record) s) s matching).
  - apply undisturbed_foldl. intros ? ?. apply undisturbed_upsert_reflection.
  - destruct (bool_decide _); [done|]. apply undisturbed_prune_reflections.
Qed.

#[local] Hint Resolve undisturbed_prune_reflections undisturbed_upsert_reflection : undisturbed.

Lemma calm_reflection_lessons turn_id records now_ns :
  calm (persist_reflection_memory_degraded_lessons turn_id records now_ns).
Proof.
  unfold persist_reflection_memory_degraded_lessons. calm_walk.
  unfold upsert_reflection_memory_degraded_lesson. cbv zeta. calm_walk.
Qed.

Lemma undisturbed_store_decision record keep_max s :
  undisturbed s (store_decision_record record keep_max s).
Proof.
  unfold store_decision_record. destruct (_ <? _)%N; by apply undisturbed_tables.
Qed.
#[local] Hint Resolve undisturbed_store_decision : undisturbed.

Lemma calm_decision record : calm (append_decision_record record).
Proof. unfold append_decision_record. calm_walk. Qed.

Lemma undisturbed_append_conversation sender entry s :
  undisturbed s (append_conversation_entry sender entry s).
Proof.
  unfold append_conversation_entry, append_conversation.
  destruct (is_empty _); [done|]. destruct (is_empty _); [done|]. by apply undisturbed_tables.
Qed.

Lemma undisturbed_conversations frame ids id reply now_ns s :
  undisturbed s (record_conversation_entries frame ids id reply now_ns s).
Proof.
  unfold record_conversation_entries. destruct (_ || _); [done|]. apply undisturbed_foldl.
  intros s1 message. destruct (bool_decide _); [done|]. apply undisturbed_append_conversation.
Qed.

Lemma undisturbed_upsert_wait_state (state : InboxProxyWaitState.t) s :
  undisturbed s (s <| Desk.inbox_proxy_wait_states ::= <[InboxProxyWaitState.inbox_message_id state := state]> |>).
Proof. by apply undisturbed_tables. Qed.
#[local] Hint Resolve undisturbed_upsert_wait_state : undisturbed.

Lemma calm_wait_states ids state :
  calm (persist_inbox_proxy_wait_state_for_staged_messages ids state).
Proof.
  unfold persist_inbox_proxy_wait_state_for_staged_messages. calm_walk.
  unfold upsert_inbox_proxy_wait_state. calm_walk.
Qed.

Lemma calm_store_journal_entry turn_id text now_ns genesis claim keep_max :
  calm (store_journal_entry turn_id text now_ns genesis claim keep_max).
Proof. intros s s' [= <-] _. split; [done|]. by apply undisturbed_tables. Qed.
#[local] Hint Resolve calm_store_journal_entry : stable.

Lemma calm_journal_entry turn_id text genesis : calm (append_journal_entry turn_id text genesis).
Proof. unfold append_journal_entry, append_journal_entry_with_claim. calm_walk. Qed.

Lemma calm_search_budget turn_id : calm (reserve_web_search_budget turn_id).
Proof.
  intros s s'. unfold reserve_web_search_budget. exec. destruct (is_empty _); [by intros [= <-]|].
  destruct (_ <=? _)%N; intros [= <-] _; (split; [done|]); [done|]. by apply undisturbed_tables.
Qed.

(** ** Tools *)

Lemma undisturbed_survival_success class s :
  undisturbed s (on_agent (record_survival_operation_success class) s).
Proof.
  apply undisturbed_on_agent; unfold record_survival_operation_success; by destruct (_ && _).
Qed.
Lemma undisturbed_survival_failure class now_ns s :
  undisturbed s (record_survival_operation_failure_for_class class now_ns s).
Proof. by apply undisturbed_on_agent. Qed.

Lemma undisturbed_survival_successes classes s :
  undisturbed s (record_survival_operation_successes classes s).
Proof. apply undisturbed_foldl. intros ? ?. apply undisturbed_survival_success. Qed.
Lemma undisturbed_survival_failures classes now_ns s :
  undisturbed s (record_survival_operation_failures classes now_ns s).
Proof. apply undisturbed_foldl. intros ? ?. apply undisturbed_survival_failure. Qed.
#[local] Hint Resolve undisturbed_survival_successes undisturbed_survival_failures
  undisturbed_survival_failure : undisturbed.

Lemma undisturbed_room_success now_ns s : undisturbed s (record_room_post_success now_ns s).
Proof. by apply undisturbed_on_agent. Qed.
Lemma undisturbed_room_error now_ns error s : undisturbed s (record_room_post_error now_ns error s).
Proof. by apply undisturbed_on_agent. Qed.

Lemma calm_gate classes now_ns message : calm (gate classes now_ns message).
Proof. unfold gate. calm_walk. Qed.

Lemma calm_recorded (run : T string) on_success on_failure :
  calm run -> (forall s, undisturbed s (on_success s)) ->
  (forall error s, undisturbed s (on_failure error s)) -> calm (recorded run on_success on_failure).
Proof.
  intros Hrun Hsuccess Hfailure. unfold recorded.
  apply stable_bind; [apply _|by apply calm_catch|intros answered].
  apply stable_bind; [apply _| |intros _; apply stable_lift, _].
  apply calm_modify. intros s. destruct answered; auto.
Qed.

Lemma calm_recorded_classes classes now_ns (run : T string) :
  calm run -> calm (recorded_classes classes now_ns run).
Proof. intros Hrun. apply calm_recorded; auto with undisturbed. Qed.
End Storage.

(** ** What the model leaves open *)

Section Ports.
Context `{ext : Externals, libs : StrategyLibs, turn_libs : TurnLibs, rows : RowOrder}.
Context `{u256 : U256Text, cost : CostApi, adapters : InferenceAdapters}.
Context `{futures : JoinFutures, tools : Tools, ports : TurnPorts}.

(** The tools, the providers, the signers and the other canisters, with what
    else runs while the turn waits for them, leave the turn alone: they neither
    start nor end a turn, kill the agent, touch a staged message, nor drop a
    reply. *)
Class PortsUndisturbed : Prop := {
  tools_undisturbed : forall args turn_id prior batch, Forall (fun run : T string => calm run)
    [set_goal_tool args turn_id; list_goals_tool args; update_goal_tool args turn_id;
     remember_fact_tool args turn_id; recall_facts_tool args; memory_stats_tool;
     sql_query_tool args; forget_fact_tool args; http_fetch_tool args; web_search_tool args;
     top_up_status_tool; trigger_top_up_tool; list_strategy_templates_tool args;
     register_strategy_tool args; describe_strategy_action_tool args;
     simulate_strategy_action_tool args; execute_strategy_action_tool args turn_id prior batch;
     get_strategy_outcomes_tool args; update_prompt_layer_tool args turn_id;
     set_welcome_message_tool args; post_room_message_tool args; list_peers_tool args;
     pay_peer_tool args turn_id; reproduce_tool args turn_id; evm_read_tool args;
     send_eth_tool args; set_min_prices_tool args; canister_call_tool args;
     create_plan_tool args turn_id; get_plan_tool args; advance_plan_step_tool args turn_id;
     list_plans_tool args; schedule_follow_up_tool args turn_id;
     sign_message (Signer := MockSignerAdapter) args;
     sign_message (Signer := ThresholdSignerAdapter turn_id) args;
     derive_and_cache_evm_address args];
  certification_undisturbed : forall s, undisturbed s (refresh_certification s);
  preparation_undisturbed : forall args,
    calm (prepare_market_http_fetch_args args) /\ calm (prepare_market_fetch_http_fetch_args args);
  handshake_undisturbed : forall handshake turn_id,
    calm (persist_market_fetch_handshake_success handshake turn_id)
    /\ calm (record_market_fetch_handshake_failure handshake turn_id);
  join_undisturbed : forall {A B} (m : T A) (m' : T B), calm m -> calm m' -> calm (join_futures m m');
  inference_undisturbed : forall provider snapshot input transcript,
    calm (infer_with_transcript provider snapshot input transcript);
  report_undisturbed : forall factory turn_id disposition,
    calm (report_starvation factory turn_id disposition);
}.

Context {Hports : PortsUndisturbed}.
#[local] Set Default Proof Using "All".

(** A tool of the list. *)
Ltac calm_tool args turn_id prior batch :=
  let Htools := fresh "Htools" in
  pose proof (tools_undisturbed args turn_id prior batch) as Htools;
  repeat (apply Forall_cons in Htools as [? Htools]); assumption.

Lemma calm_fetch prepare call turn_id :
  (forall args, calm (prepare args)) -> calm (fetch_call prepare call turn_id).
Proof.
  intros Hprepare. unfold fetch_call. apply stable_bind; [apply _|apply Hprepare|].
  intros [args handshake]. apply stable_bind; [apply _| |intros fetched].
  - apply calm_catch. calm_tool args turn_id (@nil ToolCallRecord.t) (@nil ToolCallRecord.t).
  - apply stable_bind; [apply _| |intros _; apply stable_lift, _].
    destruct handshake as [handshake|]; [|apply stable_ret, _].
    apply stable_bind; [apply _| |intros _; apply stable_ret, _].
    apply calm_catch. destruct (is_ok fetched); apply handshake_undisturbed.
Qed.

Lemma calm_gated classes now_ns message (run : T string) :
  calm run -> calm (gate classes now_ns message;; run).
Proof. intros Hrun. apply stable_bind; [apply _|apply calm_gate|by intros _]. Qed.

(** The arms that ask for the time first. *)
Lemma calm_timed (run : N -> T string) : (forall now_ns, calm (run now_ns)) -> calm (gets now ≫= run).
Proof. intros Hrun. apply stable_bind; [apply _|apply stable_gets, _|done]. Qed.

#[local] Hint Resolve undisturbed_survival_successes undisturbed_survival_failures
  undisturbed_survival_failure undisturbed_room_success undisturbed_room_error : undisturbed.

Lemma calm_dispatch (signer : Signer) turn_id history call :
  (forall message_hash, calm (sign_message message_hash)) ->
  calm (dispatch_tool_call None turn_id history call).
Proof.
  intros Hsign. unfold dispatch_tool_call. cbv zeta. apply match_name_elim; [apply stable_throw, _|].
  set (args := ToolCall.args_json call).
  pose proof (tools_undisturbed args turn_id (ToolExecutionHistory.prior_same_turn history)
    (ToolExecutionHistory.current_batch history)) as Htools.
  repeat (apply Forall_cons in Htools as [? Htools]). clear Htools.
  repeat (apply Forall_cons; split; [cbn [snd]; try assumption|]); [..|by apply Forall_nil].
  - apply calm_timed. intros now_ns. apply calm_gated. apply stable_bind; [apply _|apply stable_lift, _|].
    intros message_hash. apply calm_recorded_classes, Hsign.
  - apply calm_timed. intros now_ns. apply calm_gated, stable_throw, _.
  - apply stable_ret, _.
  - unfold journal_tool. apply stable_bind; [apply _|apply stable_lift, _|intros text].
    apply stable_bind; [apply _|apply calm_journal_entry|intros entry].
    apply stable_bind; [apply _|apply calm_modify, certification_undisturbed|intros _].
    apply stable_ret, _.
  - apply calm_fetch. intros ?. apply preparation_undisturbed.
  - unfold web_search_call. apply stable_bind; [apply _|apply calm_search_budget|by intros _].
  - apply calm_fetch. intros ?. apply preparation_undisturbed.
  - apply calm_timed. intros now_ns. by apply calm_gated, calm_recorded_classes.
  - apply calm_timed. intros now_ns. do 3 apply calm_gated. apply calm_recorded; auto with undisturbed.
  - apply calm_timed. intros now_ns. apply calm_gated, calm_recorded; [done|..].
    + intros s. etrans; [apply undisturbed_survival_successes|apply undisturbed_room_success].
    + intros error s. etrans; [apply undisturbed_survival_failures|apply undisturbed_room_error].
  - apply calm_timed. intros now_ns. by apply calm_gated, calm_recorded_classes.
  - apply calm_timed. intros now_ns. by apply calm_gated.
  - apply calm_timed. intros now_ns. apply calm_gated, calm_recorded; [done|auto with undisturbed|].
    intros error s. destruct (bool_decide _); auto with undisturbed.
  - unfold send_eth_call. apply calm_timed. intros now_ns.
    apply stable_bind; [apply _|apply stable_gets, _|]. intros [|].
    + apply stable_bind; [apply _|apply stable_fail_if, _|intros _].
      apply stable_bind; [apply _|apply stable_lift, _|intros _]. by apply calm_recorded_classes.
    + do 2 apply calm_gated. by apply calm_recorded_classes.
  - apply calm_timed. intros now_ns. apply calm_gated, calm_recorded; auto with undisturbed.
  - apply calm_timed. intros now_ns. by apply calm_gated, calm_recorded_classes.
Qed.

Lemma calm_execute_batch execute calls :
  (forall records call, calm (execute records call)) ->
  forall records, calm (execute_batch execute records calls).
Proof.
  intros Hexecute.
  induction calls as [calls IH] using (well_founded_induction (well_founded_ltof _ length)).
  intros records. destruct calls as [|call [|call' calls]]; simpl; [apply stable_ret, _|..].
  - apply stable_bind; [apply _|apply Hexecute|intros record; apply stable_ret, _].
  - apply stable_bind; [apply _|by apply join_undisturbed|]. intros [first second].
    apply IH. unfold ltof. simpl. lia.
Qed.

Lemma calm_execute_rounds execute rounds :
  (forall records call, calm (execute records call)) ->
  forall records calls, calm (execute_rounds execute rounds records calls).
Proof.
  intros Hexecute. induction rounds as [|rounds IH]; intros records calls; [apply stable_ret, _|].
  destruct calls as [|call calls]; [apply stable_ret, _|]. cbn [execute_rounds]. cbv zeta.
  destruct (2 <=? _).
  - apply stable_bind; [apply _|by apply calm_execute_batch|done].
  - apply stable_bind; [apply _|apply Hexecute|done].
Qed.

Lemma calm_execution frame plan state calls prior :
  calm (execute_calls frame plan state calls prior).
Proof.
  apply calm_execute_rounds. intros records call. unfold execute_single_call_record. cbv zeta.
  destruct (Plan.policies plan !! _) as [policy|]; [|apply stable_ret, _].
  destruct (negb _); [apply stable_ret, _|].
  apply stable_bind; [apply _| |intros ?; apply stable_ret, _]. apply calm_catch, calm_dispatch.
  intros message_hash. unfold turn_signer.
  pose proof (tools_undisturbed message_hash
    (RuntimeSnapshot.ecdsa_key_name (Frame.snapshot frame)) [] []) as Htools.
  repeat (apply Forall_cons in Htools as [? Htools]). by destruct (is_blank _).
Qed.

Lemma calm_inference snapshot input transcript :
  calm (infer_with_provider_transcript snapshot input transcript).
Proof.
  unfold infer_with_provider_transcript.
  apply stable_bind; [apply _|apply stable_get_state, _|intros s].
  destruct (_ && _); [apply stable_ret, _|].
  apply stable_bind; [apply _|apply stable_lift, _|intros affordable].
  destruct (negb _); [apply stable_ret, _|].
  apply stable_bind; [apply _|apply inference_undisturbed|intros output].
  apply stable_bind; [apply _| |intros _; apply stable_ret, _].
  destruct (is_deferred output); [apply stable_ret, _|]. apply calm_modify. intros s'.
  etrans; [apply undisturbed_survival_success|apply undisturbed_clear_suppression].
Qed.

#[export] Instance turn_keeps_undisturbed : TurnKeeps undisturbed.
Proof.
  split; [apply _|..].
  - intros. apply undisturbed_record_transition.
  - intros. apply undisturbed_suppression_active.
  - intros. apply undisturbed_set_suppression.
  - intros. apply undisturbed_clear_suppression.
  - intros. apply calm_wait_states.
  - intros. apply undisturbed_note_suppressed_by_key.
  - intros. apply undisturbed_note_class_suppressed.
  - intros. apply undisturbed_tool_outcomes.
  - intros. apply undisturbed_reflection_success.
  - intros. apply calm_reflection_lessons.
  - intros. apply calm_decision.
  - intros. apply undisturbed_conversations.
  - intros. apply calm_inference.
  - intros. apply calm_execution.
Qed.

(** ** Messages and their replies *)

Definition replied (turn_id : string) (ids : list string) (s : Desk.t) : Prop :=
  exists key reply, Desk.outbox s !! key = Some reply /\ OutboxMessage.turn_id reply = turn_id
    /\ OutboxMessage.source_inbox_ids reply = ids /\ is_blank (OutboxMessage.body reply) = false.

(** A message of [s0] that was staged or consumed is as it was; or it is one of
    [ids], was consumed, and there is a reply to them. *)
Definition answered (s0 : Desk.t) (turn_id : string) (ids : list string) (s : Desk.t) : Prop :=
  forall id message, Desk.inbox s0 !! id = Some message ->
    InboxMessage.status message <> InboxMessageStatus.Pending ->
    Desk.inbox s !! id = Some message
    \/ id ∈ ids /\ (exists at_ns, Desk.inbox s !! id = Some (consume at_ns message))
       /\ replied turn_id ids s.

Definition staged_in (s0 : Desk.t) (ids : list string) : Prop :=
  forall id, id ∈ ids -> exists message, Desk.inbox s0 !! id = Some message
    /\ InboxMessage.id message = id /\ InboxMessage.status message = InboxMessageStatus.Staged.

(** What is left of [undisturbed] when a terminal turn begins or ends. *)
Record kept (s s' : Desk.t) : Prop := {
  kept_inbox : forall id message, Desk.inbox s !! id = Some message ->
    InboxMessage.status message <> InboxMessageStatus.Pending -> Desk.inbox s' !! id = Some message;
  kept_outbox : Desk.outbox s ⊆ Desk.outbox s';
  kept_lock : RuntimeSnapshot.turn_in_flight (snapshot_of s') = true ->
    RuntimeSnapshot.turn_in_flight (snapshot_of s) = true;
}.

Lemma undisturbed_kept s s' : undisturbed s s' -> kept s s'.
Proof. by intros []. Qed.

Lemma kept_trans s1 s2 s3 : kept s1 s2 -> kept s2 s3 -> kept s1 s3.
Proof. intros [] []. split; [by eauto|by etrans|by auto]. Qed.

Lemma replied_kept turn_id ids s s' : replied turn_id ids s -> kept s s' -> replied turn_id ids s'.
Proof.
  intros (key & reply & Hkey & Hreply) Hkept. exists key, reply. split; [|done].
  eapply lookup_weaken; [exact Hkey|apply Hkept].
Qed.

Lemma answered_kept s0 turn_id ids s s' :
  answered s0 turn_id ids s -> kept s s' -> answered s0 turn_id ids s'.
Proof.
  intros Hanswered Hkept id message Hid Hstatus.
  destruct (Hanswered id message Hid Hstatus) as [Hsame|(Hin & [at_ns Hconsumed] & Hreply)].
  - left. by apply Hkept.
  - right. split_and!; [done| |by eapply replied_kept]. exists at_ns. by apply Hkept.
Qed.

Lemma replied_undisturbed turn_id ids s s' :
  replied turn_id ids s -> undisturbed s s' -> replied turn_id ids s'.
Proof. intros Hreply Hcalm. by eapply replied_kept, undisturbed_kept. Qed.

Lemma answered_undisturbed s0 turn_id ids s s' :
  answered s0 turn_id ids s -> undisturbed s s' -> answered s0 turn_id ids s'.
Proof. intros Hanswered Hcalm. by eapply answered_kept, undisturbed_kept. Qed.

Lemma post_outbox_Done turn_id body ids s id s' :
  post_outbox_message turn_id body ids s = Done id s' ->
  replied turn_id ids s' /\ Desk.inbox s' = Desk.inbox s
  /\ exists value, agent s' = set_runtime_scalar OUTBOX_SEQ_KEY value (agent s).
Proof.
  unfold post_outbox_message. exec. destruct (is_empty (trim body)) eqn:Hbody; [done|].
  unfold next_outbox_seq. set (next := saturating_add _ _ _). intros [= _ <-]. split_and!.
  - eexists _, _. split; [apply lookup_insert_eq|]. split_and!; [done|done|].
    cbn [OutboxMessage.body]. unfold is_blank. rewrite trim_idem. exact Hbody.
  - done.
  - by eexists.
Qed.

Lemma consume_one_answered now_ns s0 turn_id ids s id :
  staged_in s0 ids -> id ∈ ids -> answered s0 turn_id ids s -> replied turn_id ids s ->
  answered s0 turn_id ids (consume_one now_ns s id) /\ replied turn_id ids (consume_one now_ns s id)
  /\ agent (consume_one now_ns s id) = agent s.
Proof.
  intros Hstaged Hin Hanswered Hreply. destruct (Hstaged id Hin) as (message & Hid & Hkey & Hstatus).
  assert (InboxMessage.status message <> InboxMessageStatus.Pending) as Hposted by (by rewrite Hstatus).
  unfold consume_one. destruct (Hanswered id message Hid Hposted) as [Hsame|(_ & [at_ns Hconsumed] & _)].
  - rewrite Hsame. rewrite bool_decide_eq_true_2 by done. split_and!; [|exact Hreply|done].
    intros id' message' Hid' Hstatus'. unfold upsert_inbox. cbn.
    change (InboxMessage.id (consume now_ns message)) with (InboxMessage.id message). rewrite Hkey.
    destruct (decide (id' = id)) as [->|Hne].
    + right. rewrite Hid in Hid'. injection Hid' as <-. split_and!; [done| |exact Hreply].
      exists now_ns. apply lookup_insert_eq.
    + destruct (Hanswered id' message' Hid' Hstatus') as [Hsame'|(Hin' & [at' Hconsumed'] & _)].
      * left. change (<[id := consume now_ns message]> (Desk.inbox s) !! id' = Some message').
        by rewrite lookup_insert_ne.
      * right. split_and!; [done| |exact Hreply]. exists at'.
        change (<[id := consume now_ns message]> (Desk.inbox s) !! id' = Some (consume at' message')).
        by rewrite lookup_insert_ne.
  - rewrite Hconsumed. by rewrite bool_decide_eq_false_2.
Qed.

Lemma consume_answered now_ns s0 turn_id ids l : forall s,
  staged_in s0 ids -> (forall id, id ∈ l -> id ∈ ids) ->
  answered s0 turn_id ids s -> replied turn_id ids s ->
  answered s0 turn_id ids (consume_staged_inbox_messages l now_ns s)
  /\ agent (consume_staged_inbox_messages l now_ns s) = agent s.
Proof.
  unfold consume_staged_inbox_messages. induction l as [|id l IH]; intros s Hstaged Hl Hanswered Hreply;
    simpl; [done|].
  destruct (consume_one_answered now_ns s0 turn_id ids s id) as (Hanswered' & Hreply' & Hagent);
    [done|apply Hl; set_solver|done|done|].
  destruct (IH (consume_one now_ns s id)) as [Hdone Hagent']; [done|set_solver|done|done|].
  split; [done|]. by rewrite Hagent'.
Qed.

(** ** The turn's invariant *)

Record desk_inv (frame : Frame.t) (s0 s : Desk.t) : Prop := {
  inv_owner : RuntimeSnapshot.last_turn_id (snapshot_of s) = Some (Frame.turn_id frame);
  inv_phase : mortality_phase (agent s) = mortality_phase (agent s0);
  inv_terminal : MortalityRuntime.terminal_turn_id (mortality_runtime (agent s))
                 = MortalityRuntime.terminal_turn_id (mortality_runtime (agent s0));
  inv_answered : answered s0 (Frame.turn_id frame) (Frame.staged_message_ids frame) s;
}.
Definition turn_inv (frame : Frame.t) (s0 : Desk.t) (t : Turn.t) : Prop :=
  desk_inv frame s0 (Turn.desk t).

Lemma inv_undisturbed frame s0 s s' : undisturbed s s' -> desk_inv frame s0 s -> desk_inv frame s0 s'.
Proof.
  intros Hcalm [Howner Hphase Hterminal Hanswered]. split.
  - by rewrite (undisturbed_turn _ _ Hcalm).
  - by rewrite (undisturbed_phase _ _ Hcalm).
  - by rewrite (undisturbed_terminal _ _ Hcalm).
  - by eapply answered_undisturbed.
Qed.

(** Equal hot states, and answers. *)
Lemma inv_agent frame s0 s s' :
  agent s' = agent s -> answered s0 (Frame.turn_id frame) (Frame.staged_message_ids frame) s' ->
  desk_inv frame s0 s -> desk_inv frame s0 s'.
Proof.
  intros Hagent Hanswered [Howner Hphase Hterminal _].
  assert (snapshot_of s' = snapshot_of s) as Hsnapshot by (unfold snapshot_of; by rewrite Hagent).
  split; [by rewrite Hsnapshot|by rewrite Hagent|by rewrite Hagent|done].
Qed.

Lemma calm_journal_final_words turn_id text : calm (journal_final_words turn_id text).
Proof.
  unfold journal_final_words. apply stable_bind; [apply _|apply stable_get_state, _|intros s].
  destruct (journaled turn_id s); [apply stable_ret, _|].
  apply stable_bind; [apply _|apply calm_catch, calm_journal_entry|intros ?; apply stable_ret, _].
Qed.

Section Invariant.
Context (frame : Frame.t) (s0 : Desk.t).
Context (Hstaged : staged_in s0 (Frame.staged_message_ids frame)).
Let inv := turn_inv frame s0.

Lemma inv_counts {E A} (m : M Turn.t E A) : keeps_counts undisturbed m -> preserves inv m.
Proof.
  intros Hm t t' Hf Hinv. destruct (Hm t t' Hf I) as [_ [Hdesk _ _ _ _]]. split; [|done].
  by eapply inv_undisturbed.
Qed.

Lemma inv_modify {E} (f : Turn.t -> Turn.t) :
  (forall t, Turn.desk (f t) = Turn.desk t) -> preserves inv (modify (E := E) f).
Proof.
  intros Hf. apply stable_modify. intros t Hinv. split; [|done]. unfold inv, turn_inv. by rewrite Hf.
Qed.

Lemma inv_desk_modify {E} (f : Desk.t -> Desk.t) :
  (forall s, undisturbed s (f s)) -> preserves inv (desk_modify (E := E) f).
Proof. intros Hf. by apply inv_counts, keeps_desk_modify; [apply _|]. Qed.

(** A reply keeps the invariant, and what it replies to may be consumed. *)
Lemma inv_post_outbox {E} body t r t' :
  on_desk (E := E) (post_outbox_message (Frame.turn_id frame) body (Frame.staged_message_ids frame)) t
    = Done r t' ->
  inv t -> inv t' /\ (is_ok r = true ->
    replied (Frame.turn_id frame) (Frame.staged_message_ids frame) (Turn.desk t')).
Proof.
  unfold on_desk, zoom, catch. intros Hrun Hinv. destruct (post_outbox_message _ _ _ _) as [id s|e s|] eqn:Hpost;
    [..|done]; injection Hrun as <- <-.
  - apply post_outbox_Done in Hpost as (Hreply & Hinbox & value & Hagent). split; [|done].
    destruct Hinv as [Howner Hphase Hterminal Hanswered]. split.
    + unfold snapshot_of. cbn. by rewrite Hagent.
    + unfold mortality_phase. cbn. by rewrite Hagent.
    + cbn. by rewrite Hagent.
    + intros id' message Hid Hstatus. cbn. rewrite Hinbox.
      destruct (Hanswered id' message Hid Hstatus) as [?|(Hin & Hconsumed & _)]; [by left|right].
      by split_and!.
  - assert (s = Turn.desk t) as ->.
    { revert Hpost. unfold post_outbox_message. exec. destruct (is_empty _); [by intros [= _ <-]|].
      by destruct (next_outbox_seq _). }
    done.
Qed.

Lemma inv_consume now_ns s :
  replied (Frame.turn_id frame) (Frame.staged_message_ids frame) s -> desk_inv frame s0 s ->
  desk_inv frame s0 (consume_staged frame now_ns s).
Proof.
  intros Hreply Hinv. unfold consume_staged. eapply inv_undisturbed; [by apply undisturbed_tables|].
  destruct (consume_answered now_ns s0 (Frame.turn_id frame) (Frame.staged_message_ids frame)
    (Frame.staged_message_ids frame) s) as [Hanswered Hagent]; [done|done|apply Hinv|done|].
  by eapply inv_agent.
Qed.

Lemma on_desk_Fail {E A} (m : T A) t e t' : on_desk (E := E) m t <> Fail e t'.
Proof. unfold on_desk, zoom, catch. by destruct (m (Turn.desk t)). Qed.

Lemma inv_fail_close wait_state now_ns : preserves inv (fail_close frame wait_state now_ns).
Proof.
  intros t t' Hf Hinv. split; [|done]. unfold fail_close in Hf.
  apply final_bind in Hf as [[e []%on_desk_Fail]|(posted & t1 & Hpost & Hf)].
  apply inv_post_outbox in Hpost as [Hinv1 Hreply]; [|done].
  destruct posted as [id|error]; [|by injection Hf as <-].
  specialize (Hreply eq_refl). injection Hf as <-. unfold inv, turn_inv. cbn.
  apply inv_consume.
  - eapply replied_undisturbed; [exact Hreply|apply undisturbed_conversations].
  - eapply inv_undisturbed; [apply undisturbed_conversations|exact Hinv1].
Qed.

Lemma inv_advance_state {E} event :
  preserves inv (advance_state (E := E) (Frame.turn_id frame) event).
Proof.
  unfold advance_state. apply stable_bind; [apply _|apply stable_gets, _|intros state].
  destruct (transition debug_str state event); [|apply stable_ret, _].
  apply stable_bind; [apply _|apply inv_desk_modify, undisturbed_record_transition|intros _].
  apply stable_bind; [apply _|by apply inv_modify|intros _; apply stable_ret, _].
Qed.

Lemma inv_set_error_or {E} (answer : result string unit) :
  preserves inv (match answer with Ok _ => mret tt | Err error => set_error (E := E) error end).
Proof. apply inv_counts. turn_walk. Qed.

Section Loop.
Context (plan : Plan.t).

Lemma inv_handle_proxy_deferral inference :
  preserves inv (handle_proxy_deferral frame plan inference).
Proof.
  unfold handle_proxy_deferral. destruct (negb _); [apply stable_ret, _|].
  apply stable_bind; [apply _|by apply inv_modify|intros _].
  do 2 (apply stable_bind; [apply _|apply stable_gets, _|intros ?]).
  apply stable_bind; [apply _| |intros _; apply inv_counts; turn_walk].
  destruct (_ && _); [|apply stable_ret, _].
  apply stable_bind; [apply _|apply stable_gets, _|intros wait_state].
  apply stable_bind; [apply _|apply inv_counts, keeps_on_desk; [apply _|apply calm_wait_states]|intros _].
  destruct (should_fail_close_proxy_wait _ _); [apply inv_fail_close|apply stable_ret, _].
Qed.

Lemma inv_settle_round calls execution records completed_ns :
  preserves inv (settle_round frame calls execution records completed_ns).
Proof.
  unfold settle_round.
  apply stable_bind; [apply _|apply inv_counts, (keeps_note_round undisturbed frame plan)|intros _].
  apply stable_bind; [apply _|by apply inv_modify|intros _]. apply inv_counts. turn_walk.
Qed.

Lemma inv_act_on inference : preserves inv (act_on frame plan inference).
Proof.
  unfold act_on. apply stable_bind; [apply _|apply stable_gets, _|intros rounds].
  apply stable_bind; [apply _|apply inv_counts, (keeps_limit_calls undisturbed frame plan)|intros calls].
  apply stable_bind; [apply _|apply inv_counts, (keeps_suppress_round undisturbed frame plan)|intros ?].
  apply stable_bind; [apply _|apply inv_counts, (keeps_suppress_capped undisturbed frame plan)|intros ?].
  destruct calls; [apply stable_throw, _|].
  apply stable_bind; [apply _|apply inv_counts, (keeps_execute_round undisturbed frame plan)|].
  intros [[execution records] completed_ns]. apply inv_settle_round.
Qed.

Lemma inv_run_round : preserves inv (run_round frame plan).
Proof.
  unfold run_round.
  apply stable_bind; [apply _|apply inv_counts, (keeps_check_rounds undisturbed frame plan)|intros _].
  apply stable_bind; [apply _|apply inv_counts, (keeps_check_deadline undisturbed frame plan)|intros _].
  apply stable_bind; [apply _|apply inv_counts, (keeps_gates undisturbed frame plan)|intros _].
  apply stable_bind; [apply _| |intros inference].
  { intros t t' Hf Hinv. split; [|done]. apply (infer_round_final undisturbed) in Hf as [Hdesk _ _ _ _].
    by eapply inv_undisturbed. }
  apply stable_bind; [apply _|apply inv_counts, (keeps_handle_deferral undisturbed frame plan)|intros _].
  apply stable_bind; [apply _|apply inv_handle_proxy_deferral|intros _].
  apply stable_bind; [apply _|apply inv_counts, (keeps_take_reply undisturbed frame plan)|intros _].
  apply inv_act_on.
Qed.

Lemma inv_run_rounds : preserves inv (run_rounds frame plan).
Proof.
  assert (forall fuel, preserves inv (run_loop frame plan fuel)) as Hloop.
  { induction fuel as [|fuel IH]; [by intros t t' [=]|]. simpl.
    apply stable_bind; [apply _|apply inv_run_round|by intros _]. }
  intros t t' Hf Hinv. apply (Hloop (S (Frame.max_inference_rounds frame)) t t'); [|done].
  unfold run_rounds in Hf. by destruct (run_loop _ _ _ t).
Qed.

Lemma inv_complete_actions : preserves inv (complete_actions frame).
Proof.
  unfold complete_actions. apply stable_bind; [apply _|apply stable_get_state, _|intros t].
  apply stable_bind; [apply _| |intros _].
  - destruct (is_some _); [apply stable_ret, _|].
    apply stable_bind; [apply _| |intros ?; apply inv_set_error_or].
    apply inv_counts, (keeps_complete_inference_once undisturbed frame plan).
  - apply stable_bind; [apply _|apply stable_get_state, _|intros t'].
    destruct (_ && _); [|apply stable_ret, _].
    apply stable_bind; [apply _|apply inv_advance_state|intros ?; apply inv_set_error_or].
Qed.

Lemma inv_finalize_decision : preserves inv (finalize_decision frame plan).
Proof.
  assert (forall parse_error, preserves inv (retry_decision frame plan parse_error)) as Hretry.
  { intros parse_error. unfold retry_decision.
    apply stable_bind; [apply _|apply inv_counts, (keeps_ask_again undisturbed frame plan)|].
    intros [output|error]; [|apply inv_counts; turn_walk].
    apply stable_bind; [apply _|by apply inv_modify|intros _].
    apply inv_counts, (keeps_read_retry undisturbed frame plan). }
  unfold finalize_decision. apply stable_bind; [apply _|apply stable_get_state, _|intros t].
  destruct (_ && _); [|apply stable_ret, _]. apply stable_bind; [apply _| |intros decided].
  - unfold decide_envelope. apply stable_bind; [apply _|apply stable_get_state, _|intros t'].
    destruct (Turn.runtime_autonomy_decision_envelope t'); [apply stable_ret, _|].
    destruct (Turn.autonomy_inference_error t'); [apply stable_ret, _|].
    destruct (Turn.assistant_reply t'); [|apply Hretry].
    destruct (parse_autonomy_decision_envelope _ _); [apply stable_ret, _|apply Hretry].
  - apply stable_bind; [apply _|apply stable_gets, _|intros error]. destruct (is_some error);
      [apply stable_ret, _|]. apply inv_counts, (keeps_record_decision undisturbed frame plan).
Qed.
End Loop.

(** What a turn without an error needs to consume its messages. *)
Definition consumable (t : Turn.t) : Prop :=
  Turn.last_error t = None -> Turn.staged_external_input_handled t = false ->
  Frame.staged_message_ids frame <> [] ->
  replied (Frame.turn_id frame) (Frame.staged_message_ids frame) (Turn.desk t).

Lemma reply_to_staged_final t t' :
  final_state (reply_to_staged frame t) = Some t' -> inv t -> inv t' /\ consumable t'.
Proof.
  intros [[e [=]]|(t0 & t1 & [= <- <-] & Hf)]%final_bind Hinv.
  destruct (_ && _) eqn:Hreplies in Hf.
  - apply final_bind in Hf as [[e Hf]|(u & t2 & Hsay & Hf)].
    { by destruct (is_some _). }
    assert (inv t2) as Hinv2 by (destruct (is_some _); by injection Hsay as _ <-).
    apply final_bind in Hf as [[e []%on_desk_Fail]|(posted & t3 & Hpost & Hf)].
    apply inv_post_outbox in Hpost as [Hinv3 Hreply]; [|done].
    destruct posted as [id|error]; injection Hf as <-; [|by split].
    assert (forall s, undisturbed s (record_conversation_entries frame (Frame.staged_message_ids frame) id
      (default missing_final_reply_fallback (Turn.assistant_reply t)) (now s) s)) as Hcalm
      by (intros s; apply undisturbed_conversations).
    split; [by eapply inv_undisturbed; [apply Hcalm|]|]. intros _ _ _.
    eapply replied_undisturbed; [by apply Hreply|apply Hcalm].
  - injection Hf as <-. split; [done|]. intros _ Hhandled Hids. exfalso.
    rewrite Hhandled, andb_true_r in Hreplies. apply Nat.ltb_ge in Hreplies.
    unfold Frame.staged_message_count in Hreplies. apply Hids. unfold Frame.staged_message_ids.
    by destruct (Frame.staged_messages frame); [|simpl in Hreplies; lia].
Qed.

Lemma go_to_sleep_final t t' :
  final_state (go_to_sleep frame t) = Some t' -> inv t -> consumable t -> inv t'.
Proof.
  intros [[e [=]]|(t0 & t1 & [= <- <-] & Hf)]%final_bind Hinv Hconsumable.
  destruct (Turn.last_error t) as [error|] eqn:Hlast; simpl in Hf; [by injection Hf as <-|].
  assert (preserves inv (advance_state (E := Empty_set) (Frame.turn_id frame) AgentEvent.SleepRequested;;
    mret tt)) as Hadvance.
  { apply stable_bind; [apply _|apply inv_advance_state|intros _; apply stable_ret, _]. }
  apply final_bind in Hf as [[e Hf]|(u & t1 & Hconsume & Hf)]; [by destruct (_ && _)|].
  refine (proj1 (Hadvance t1 t' Hf _)).
  destruct (_ && _) eqn:Hcase in Hconsume; injection Hconsume as _ <-; [|done].
  apply andb_true_iff in Hcase as [Hhandled Hids]. apply negb_true_iff in Hhandled, Hids.
  apply bool_decide_eq_false in Hids. unfold inv, turn_inv. cbn. apply inv_consume; [|done].
  by apply Hconsumable.
Qed.

Lemma inv_persist_turn : preserves inv (persist_turn frame).
Proof.
  unfold persist_turn. apply stable_bind; [apply _|apply stable_get_state, _|intros t].
  destruct (is_some _); [apply stable_ret, _|].
  apply stable_bind; [apply _|apply inv_advance_state|]. intros [[]|reason].
  - apply stable_bind; [apply _|apply stable_get_state, _|intros t'].
    destruct (Turn.inference_deferred t'); [apply stable_ret, _|].
    intros t1 t2 [[e Hf]|(u & t3 & Hreply & Hf)]%final_bind Hinv; (split; [|done]).
    + by apply (reply_to_staged_final t1 t2); [rewrite Hf|].
    + destruct (reply_to_staged_final t1 t3) as [Hinv3 Hconsumable]; [by rewrite Hreply|done|].
      by eapply go_to_sleep_final.
  - apply inv_counts. turn_walk.
Qed.

(** ** The end of the turn *)

Lemma undisturbed_append_turn record calls s : undisturbed s (append_turn_record record calls s).
Proof. unfold append_turn_record, set_tool_records. by destruct (is_empty _); apply undisturbed_tables. Qed.

Lemma undisturbed_duration started finished longest s :
  undisturbed s (record_turn_duration started finished longest s).
Proof. by apply undisturbed_on_agent. Qed.

Lemma complete_turn_agent turn_id state error (a : Agent.t) :
  RuntimeSnapshot.last_turn_id (runtime_snapshot (complete_turn turn_id state error a))
    = RuntimeSnapshot.last_turn_id (runtime_snapshot a)
  /\ mortality_runtime (complete_turn turn_id state error a) = mortality_runtime a
  /\ (RuntimeSnapshot.last_turn_id (runtime_snapshot a) = Some turn_id ->
      RuntimeSnapshot.turn_in_flight (runtime_snapshot (complete_turn turn_id state error a)) = false)
  /\ (RuntimeSnapshot.turn_in_flight (runtime_snapshot (complete_turn turn_id state error a)) = true ->
      RuntimeSnapshot.turn_in_flight (runtime_snapshot a) = true).
Proof.
  unfold complete_turn. case_bool_decide as Hid; split_and!; try done. Qed.

Lemma undisturbed_complete_turn turn_id state error s :
  undisturbed s (on_agent (complete_turn turn_id state error) s).
Proof.
  destruct (complete_turn_agent turn_id state error (agent s)) as (Hturn & Hmortality & _ & Hlock).
  by apply undisturbed_on_agent.
Qed.

Definition unlocked (s : Desk.t) : Prop := RuntimeSnapshot.turn_in_flight (snapshot_of s) = false.

Lemma complete_turn_unlocks state error s :
  RuntimeSnapshot.last_turn_id (snapshot_of s) = Some (Frame.turn_id frame) ->
  unlocked (on_agent (complete_turn (Frame.turn_id frame) state error) s).
Proof. apply complete_turn_agent. Qed.

Lemma close_turn_Done initial_state t finished_at_ns t' :
  close_turn frame initial_state t = Done finished_at_ns t' -> inv t ->
  inv t' /\ unlocked (Turn.desk t').
Proof.
  intros H Hinv. run_inv H as t0 t1 Hget. injection Hget as <- <-. run_inv H as u t1 Hfail.
  assert (inv t1) as Hinv1.
  { destruct (Turn.last_error t) as [reason|]; [|by injection Hfail as _ <-].
    run_inv Hfail as advanced t2 Hadvance. injection Hfail as _ <-.
    apply (inv_advance_state (E := Empty_set) (AgentEvent.TurnFailed reason) t); [by rewrite Hadvance|done]. }
  clear Hfail Hinv. run_inv H as u1 t2 Hspeak. injection Hspeak as _ Hspeak.
  assert (inv t2) as Hinv2 by (by subst t2). clear Hspeak Hinv1.
  run_inv H as t3 t4 Hget. injection Hget as <- <-. run_inv H as u2 t3 Hjournal.
  assert (inv t3) as Hinv3.
  { destruct (Frame.terminal_turn frame); [|by injection Hjournal as _ <-].
    run_inv Hjournal as written t4 Hrun. injection Hjournal as _ <-.
    refine (proj1 (inv_counts (on_desk _) _ t2 t4 _ Hinv2)); [|by rewrite Hrun].
    apply keeps_on_desk; [apply _|apply calm_journal_final_words]. }
  run_inv H as u3 t4 Happend.
  destruct (inv_desk_modify (E := Empty_set) _ (undisturbed_append_turn
    (turn_record frame initial_state (now (Turn.desk t2)) t2) (Turn.all_tool_calls t2)) t3 t4)
    as [Hinv4 _]; [by rewrite Happend|done|].
  run_inv H as u4 t5 Hduration.
  destruct (inv_desk_modify (E := Empty_set) _ (undisturbed_duration (Frame.started_at_ns frame) (now (Turn.desk t2))
    (Frame.max_turn_duration_ns frame)) t4 t5) as [Hinv5 _]; [by rewrite Hduration|done|].
  run_inv H as u5 t6 Hcomplete. injection Hcomplete as _ <-. injection H as _ <-. split.
  - eapply inv_undisturbed; [apply undisturbed_complete_turn|exact Hinv5].
  - apply complete_turn_unlocks, Hinv5.
Qed.

(** A computation keeps the invariant, and when it fails the lock is
    released. *)
Definition or_unlocks {E A} (m : M Turn.t E A) : Prop :=
  forall t, inv t ->
    match m t with
    | Done _ t' => inv t'
    | Fail _ t' => inv t' /\ unlocked (Turn.desk t')
    | Trap => True
    end.

Lemma inv_Done {E A} (m : M Turn.t E A) t a t' : preserves inv m -> m t = Done a t' -> inv t -> inv t'.
Proof. intros Hm Hrun Hinv. apply (Hm t t'); [by rewrite Hrun|done]. Qed.

(** What both early returns do before they return. *)
Lemma early_return_unlocks {A} (event : M Turn.t string A) state error (reason : string) t :
  preserves inv event -> (forall t, exists a t', event t = Done a t') -> inv t ->
  match (event;; desk_modify (on_agent (complete_turn (Frame.turn_id frame) state error));;
         mthrow reason : M Turn.t string unit) t with
  | Done _ t' => inv t'
  | Fail _ t' => inv t' /\ unlocked (Turn.desk t')
  | Trap => True
  end.
Proof.
  intros Hevent Hreturns Hinv. destruct (Hreturns t) as (a & t1 & Hrun).
  assert (inv t1) as Hinv1 by (by eapply inv_Done).
  unfold mbind, M_bind. rewrite Hrun. cbn. split.
  - eapply inv_undisturbed; [apply undisturbed_complete_turn|exact Hinv1].
  - apply complete_turn_unlocks, Hinv1.
Qed.

Lemma begin_turn_unlocks : or_unlocks (begin_turn frame).
Proof.
  intros t Hinv. unfold begin_turn. unfold mbind, M_bind at 1.
  destruct (advance_state _ AgentEvent.TimerTick t) as [ticked t1| |] eqn:Hadvance; [| |done].
  - assert (inv t1) as Hinv1 by (eapply inv_Done; [apply inv_advance_state|exact Hadvance|exact Hinv]).
    destruct ticked as [[]|error]; [exact Hinv1|].
    apply (early_return_unlocks (advance_state (Frame.turn_id frame) (AgentEvent.TurnFailed error)));
      [apply inv_advance_state| |exact Hinv1].
    intros t2. rewrite (advance_state_run _ _ _ AgentState.Faulted) by apply transition_failed.
    by eexists _, _.
  - revert Hadvance. unfold advance_state. exec. by destruct (transition _ _ _).
Qed.

Lemma load_context_unlocks : or_unlocks (load_context frame).
Proof.
  intros t Hinv. unfold load_context. unfold mbind, M_bind at 1.
  destruct (advance_state _ _ t) as [polled t1| |] eqn:Hadvance; [| |done].
  - assert (inv t1) as Hinv1 by (eapply inv_Done; [apply inv_advance_state|exact Hadvance|exact Hinv]).
    destruct polled as [[]|error]; [exact Hinv1|].
    apply (early_return_unlocks (desk_modify (set_last_error (Some error)))); [|by eexists _, _|done].
    apply inv_desk_modify. intros s. by apply undisturbed_on_agent.
  - revert Hadvance. unfold advance_state. exec. by destruct (transition _ _ _).
Qed.

Lemma keeps_prepare wait_state buffered : keeps_counts undisturbed (prepare frame wait_state buffered).
Proof. unfold prepare. turn_walk. Qed.

Lemma think_and_act_unlocks wait_state buffered t finished_at_ns t' :
  think_and_act frame wait_state buffered t = Done finished_at_ns t' -> inv t ->
  inv t' /\ unlocked (Turn.desk t').
Proof.
  intros H Hinv. run_inv H as plan t1 Hprepare. run_inv H as u t2 Hrounds. run_inv H as u1 t3 Hactions.
  run_inv H as u2 t4 Hdecide. run_inv H as u3 t5 Hpersist. eapply close_turn_Done; [exact H|].
  eapply inv_Done; [apply inv_persist_turn|exact Hpersist|].
  eapply inv_Done; [apply inv_finalize_decision|exact Hdecide|].
  eapply inv_Done; [apply (inv_complete_actions plan)|exact Hactions|].
  eapply inv_Done; [apply inv_run_rounds|exact Hrounds|].
  eapply inv_Done; [apply inv_counts, keeps_prepare|exact Hprepare|exact Hinv].
Qed.

Lemma run_turn_unlocks t :
  inv t ->
  match run_turn frame t with
  | Done _ t' | Fail _ t' => inv t' /\ unlocked (Turn.desk t')
  | Trap => True
  end.
Proof.
  intros Hinv. unfold run_turn. unfold mbind, M_bind at 1.
  pose proof (begin_turn_unlocks t Hinv) as Hbegin.
  destruct (begin_turn frame t) as [u t1|e t1|]; [|exact Hbegin|done].
  unfold desk_gets, gets. unfold M_bind at 1. unfold M_bind at 1. unfold M_bind.
  pose proof (load_context_unlocks t1 Hbegin) as Hload.
  destruct (load_context frame t1) as [u' t2|e t2|]; [|exact Hload|done].
  unfold unfailing, map_fail.
  destruct (think_and_act _ _ _ t2) as [finished_at_ns t3|[]|] eqn:Hrun; [|done].
  by eapply think_and_act_unlocks.
Qed.
End Invariant.

(** ** The turn and its wrapper *)

Lemma complete_terminal_turn_ok turn_id bequest_count now_ns (a : Agent.t) :
  mortality_phase a = MortalityPhase.TerminalInProgress ->
  MortalityRuntime.terminal_turn_id (mortality_runtime a) = Some turn_id ->
  exists a', complete_terminal_turn turn_id bequest_count now_ns a = Ok a'
    /\ mortality_is_dead a' = true
    /\ RuntimeSnapshot.turn_in_flight (runtime_snapshot a') = false.
Proof.
  intros Hphase Hturn. unfold complete_terminal_turn. rewrite Hphase, Hturn.
  rewrite !bool_decide_eq_false_2 by naive_solver. by eexists.
Qed.

Lemma begin_terminal_turn_ok turn_id now_ns (a : Agent.t) :
  mortality_phase a = MortalityPhase.TerminalPending ->
  exists a', begin_terminal_turn turn_id now_ns a = Ok a'
    /\ mortality_phase a' = MortalityPhase.TerminalInProgress
    /\ MortalityRuntime.terminal_turn_id (mortality_runtime a') = Some turn_id
    /\ RuntimeSnapshot.last_turn_id (runtime_snapshot a') = RuntimeSnapshot.last_turn_id (runtime_snapshot a).
Proof.
  intros Hphase. unfold begin_terminal_turn. rewrite Hphase.
  rewrite bool_decide_eq_false_2 by naive_solver. by eexists.
Qed.

Lemma finalize_terminal_turn_dies turn_id bequest_count now_ns s :
  mortality_phase (agent s) = MortalityPhase.TerminalInProgress ->
  MortalityRuntime.terminal_turn_id (mortality_runtime (agent s)) = Some turn_id ->
  match finalize_terminal_turn turn_id bequest_count now_ns s with
  | Done _ s' => mortality_is_dead (agent s') = true /\ unlocked s' /\ kept s s'
  | Fail _ _ => False
  | Trap => True
  end.
Proof.
  intros Hphase Hturn.
  assert (forall s1, undisturbed s s1 ->
    match agent_try (complete_terminal_turn turn_id bequest_count now_ns) s1 with
    | Done _ s' => mortality_is_dead (agent s') = true /\ unlocked s' /\ kept s s'
    | Fail _ _ => False
    | Trap => True
    end) as Hcomplete.
  { intros s1 Hcalm. destruct (complete_terminal_turn_ok turn_id bequest_count now_ns (agent s1))
      as (a' & Hok & Hdead & Hlock).
    - by rewrite (undisturbed_phase _ _ Hcalm).
    - by rewrite (undisturbed_terminal _ _ Hcalm).
    - unfold agent_try. exec. rewrite Hok. split_and!; [exact Hdead|exact Hlock|].
      eapply kept_trans; [by apply undisturbed_kept|]. split; [by intros|done|].
      intros Hlocked. change (RuntimeSnapshot.turn_in_flight (runtime_snapshot a') = true) in Hlocked.
      congruence. }
  unfold finalize_terminal_turn. unfold mbind, M_bind at 1. cbn [gets].
  destruct (factory_principal s) as [factory|]; [|by apply Hcomplete].
  unfold mbind, M_bind, catch.
  destruct (report_starvation _ _ _ s) as [u s1|e s1|] eqn:Hreport; [| |done];
    apply Hcomplete; apply (report_undisturbed factory turn_id
      (if (bequest_count =? 0)%N then "monument" else "bequests_executed") s s1);
    by rewrite ?Hreport.
Qed.

(** How a turn that started ends; [terminal] when it started with mortality
    pending. *)
Record turn_ended (terminal : bool) (s s' : Desk.t) : Prop := {
  ended_unlocked : unlocked s';
  ended_answered : exists turn_id ids, answered s turn_id ids s';
  ended_terminal : terminal = true ->
    mortality_is_dead (agent s') = true
    \/ mortality_phase (agent s') = MortalityPhase.TerminalInProgress
       /\ exists turn_id, MortalityRuntime.terminal_turn_id (mortality_runtime (agent s')) = Some turn_id;
}.

Definition ends_turn {A} (terminal : bool) (s : Desk.t) (outcome : outcome Desk.t string A) : Prop :=
  match outcome with Done _ s' | Fail _ s' => turn_ended terminal s s' | Trap => True end.

(** The counter names the turn that the lock belongs to. *)
Lemma increment_turn_counter_owner (a : Agent.t) :
  RuntimeSnapshot.last_turn_id (runtime_snapshot (increment_turn_counter a).2)
    = Some (default "turn-0" (RuntimeSnapshot.last_turn_id (increment_turn_counter a).1))
  /\ mortality_runtime (increment_turn_counter a).2 = mortality_runtime a.
Proof. by split. Qed.

(** From the derived address on: [s] is the desk at the start, [s0] the desk
    that the turn's loop starts with. *)
Lemma run_frame_ends (frame : Frame.t) s s0 state :
  staged_in s0 (Frame.staged_message_ids frame) ->
  (forall id message, Desk.inbox s !! id = Some message ->
     InboxMessage.status message <> InboxMessageStatus.Pending -> Desk.inbox s0 !! id = Some message) ->
  RuntimeSnapshot.last_turn_id (snapshot_of s0) = Some (Frame.turn_id frame) ->
  (Frame.terminal_turn frame = true ->
     mortality_phase (agent s0) = MortalityPhase.TerminalInProgress
     /\ MortalityRuntime.terminal_turn_id (mortality_runtime (agent s0)) = Some (Frame.turn_id frame)) ->
  ends_turn (Frame.terminal_turn frame) s
    (('(finished_at_ns, t) ← in_turn state (run_turn frame);
      (if Frame.terminal_turn frame
       then finalize_terminal_turn (Frame.turn_id frame)
              (count is_bequeathed (Turn.all_tool_calls t)) finished_at_ns
       else mret tt);;
      match Turn.last_error t with Some reason => mthrow reason | None => mret tt end) s0).
Proof.
  intros Hstaged Hkept Howner Hterminal.
  assert (forall s1, desk_inv frame s0 s1 ->
    exists turn_id ids, answered s turn_id ids s1) as Hanswered.
  { intros s1 Hinv. exists (Frame.turn_id frame), (Frame.staged_message_ids frame).
    intros id message Hid Hstatus. apply (inv_answered _ _ _ Hinv); [|done]. by apply Hkept. }
  unfold mbind, M_bind at 1. unfold in_turn.
  pose proof (run_turn_unlocks frame s0 Hstaged (Turn.start s0 state)) as Hrun.
  assert (turn_inv frame s0 (Turn.start s0 state)) as Hinv.
  { split; [exact Howner|done|done|]. intros id message Hid _. by left. }
  specialize (Hrun Hinv).
  destruct (run_turn frame (Turn.start s0 state)) as [finished_at_ns t|e t|]; [|..|done];
    destruct Hrun as [Hinv1 Hlock].
  - destruct (Frame.terminal_turn frame) eqn:Hflag.
    + destruct (Hterminal eq_refl) as [Hphase Hturn]. unfold mbind, M_bind.
      pose proof (finalize_terminal_turn_dies (Frame.turn_id frame)
        (count is_bequeathed (Turn.all_tool_calls t)) finished_at_ns (Turn.desk t)) as Hdies.
      destruct (finalize_terminal_turn _ _ _ (Turn.desk t)) as [u s1|e s1|]; [| |done].
      * destruct Hdies as (Hdead & Hunlocked & Hkept1).
        { by rewrite (inv_phase _ _ _ Hinv1). } { by rewrite (inv_terminal _ _ _ Hinv1). }
        assert (turn_ended true s s1) as Hended.
        { split; [done| |by left]. destruct (Hanswered _ Hinv1) as (turn_id & ids & Ha).
          exists turn_id, ids. by eapply answered_kept. }
        by destruct (Turn.last_error t).
      * exfalso. apply Hdies; [by rewrite (inv_phase _ _ _ Hinv1)|by rewrite (inv_terminal _ _ _ Hinv1)].
    + assert (turn_ended false s (Turn.desk t)) as Hended by (split; [done|by apply Hanswered|done]).
      unfold mbind, M_bind. cbn. by destruct (Turn.last_error t).
  - split; [done|by apply Hanswered|]. intros Hflag. right. destruct (Hterminal Hflag) as [Hphase Hturn].
    rewrite (inv_phase _ _ _ Hinv1), (inv_terminal _ _ _ Hinv1). eauto.
Qed.

Lemma ensure_evm_address_calm snapshot s :
  match ensure_evm_address snapshot s with
  | Done _ s' => undisturbed s s'
  | Fail _ _ => False
  | Trap => True
  end.
Proof.
  unfold ensure_evm_address. destruct (_ && _); [|done].
  pose proof (tools_undisturbed (RuntimeSnapshot.ecdsa_key_name snapshot) "" [] []) as Htools.
  repeat (apply Forall_cons in Htools as [? Htools]).
  assert (calm (derive_and_cache_evm_address (RuntimeSnapshot.ecdsa_key_name snapshot))) as Hcalm
    by assumption.
  unfold mbind, M_bind, catch. specialize (Hcalm s).
  destruct (derive_and_cache_evm_address _ s) as [address s'|e s'|]; [| |done]; by apply Hcalm.
Qed.

Lemma staged_in_kept s s0 ids :
  (forall id message, Desk.inbox s !! id = Some message ->
     InboxMessage.status message <> InboxMessageStatus.Pending -> Desk.inbox s0 !! id = Some message) ->
  staged_in s ids -> staged_in s0 ids.
Proof.
  intros Hkept Hstaged id Hid. destruct (Hstaged id Hid) as (message & Hmessage & Hkey & Hstatus).
  exists message. split; [|done]. apply Hkept; [done|by rewrite Hstatus].
Qed.

(** The first steps: the counter, and the terminal turn's beginning. *)
Lemma turn_begins terminal turn_id now_ns s :
  RuntimeSnapshot.last_turn_id (snapshot_of s) = Some turn_id ->
  (terminal = true -> mortality_phase (agent s) = MortalityPhase.TerminalPending) ->
  exists s1, (if terminal then agent_try (begin_terminal_turn turn_id now_ns) else mret tt) s = Done tt s1
    /\ Desk.inbox s1 = Desk.inbox s
    /\ RuntimeSnapshot.last_turn_id (snapshot_of s1) = Some turn_id
    /\ (terminal = true ->
        mortality_phase (agent s1) = MortalityPhase.TerminalInProgress
        /\ MortalityRuntime.terminal_turn_id (mortality_runtime (agent s1)) = Some turn_id).
Proof.
  intros Howner Hterminal. destruct terminal; [|by exists s].
  destruct (begin_terminal_turn_ok turn_id now_ns (agent s)) as (a' & Hok & Hphase & Hturn & Hlast);
    [by apply Hterminal|].
  exists (on_agent (fun _ => a') s). unfold agent_try. exec. rewrite Hok. split_and!; [done|done| |done].
  change (RuntimeSnapshot.last_turn_id (runtime_snapshot a') = Some turn_id). rewrite Hlast. exact Howner.
Qed.

Lemma start_turn_ends trigger max_rounds max_duration max_calls terminal messages s :
  staged_in s (InboxMessage.id <$> messages) ->
  (terminal = true -> mortality_phase (agent s) = MortalityPhase.TerminalPending) ->
  ends_turn terminal s (start_turn trigger max_rounds max_duration max_calls terminal messages s).
Proof.
  intros Hstaged Hterminal. unfold start_turn.
  destruct (increment_turn_counter_owner (agent s)) as [Howner Hmortality].
  assert (exists snapshot s1, agent_op increment_turn_counter s = Done snapshot s1
    /\ Desk.inbox s1 = Desk.inbox s
    /\ RuntimeSnapshot.last_turn_id (snapshot_of s1) = Some (default "turn-0" (RuntimeSnapshot.last_turn_id snapshot))
    /\ mortality_runtime (agent s1) = mortality_runtime (agent s))
    as (snapshot & s1 & Hcount & Hinbox & Howner1 & Hmortality1)
    by (eexists _, _; split_and!; [reflexivity|done|exact Howner|exact Hmortality]).
  rewrite (M_bind_run _ _ _ _ _ Hcount). cbv beta zeta. clear Howner Hmortality Hcount.
  set (turn_id := default "turn-0" (RuntimeSnapshot.last_turn_id snapshot)) in *.
  rewrite (M_bind_run (gets now : T N) _ s1 (now s1) s1 eq_refl).
  destruct (turn_begins terminal turn_id (now s1) s1) as (s2 & Hbegin & Hinbox2 & Howner2 & Hterminal2).
  { exact Howner1. }
  { intros Hflag. unfold mortality_phase. rewrite Hmortality1. by apply Hterminal. }
  rewrite (M_bind_run _ _ _ _ _ Hbegin). pose proof (ensure_evm_address_calm snapshot s2) as Hensure.
  destruct (ensure_evm_address snapshot s2) as [[] s3|e s3|] eqn:Hderive; [|done|].
  2: by unfold mbind, M_bind; rewrite Hderive.
  rewrite (M_bind_run _ _ _ _ _ Hderive).
  assert (forall id message, Desk.inbox s !! id = Some message ->
    InboxMessage.status message <> InboxMessageStatus.Pending -> Desk.inbox s3 !! id = Some message) as Hkept.
  { intros id message Hid Hstatus. apply Hensure; [|done]. by rewrite Hinbox2, Hinbox. }
  apply (run_frame_ends (Frame.mk trigger max_rounds max_duration max_calls terminal snapshot messages
    turn_id (now s1)) s s3 (RuntimeSnapshot.state snapshot)); [|done|..].
  - eapply staged_in_kept; [exact Hkept|exact Hstaged].
  - by rewrite (undisturbed_turn _ _ Hensure).
  - intros Hflag. rewrite (undisturbed_phase _ _ Hensure), (undisturbed_terminal _ _ Hensure).
    by apply Hterminal2.
Qed.

(** The inbox is keyed by the messages' ids. *)
Definition keyed_inbox (s : Desk.t) : Prop :=
  forall id message, Desk.inbox s !! id = Some message -> InboxMessage.id message = id.

Lemma settle_terminal_turn_dies s :
  mortality_phase (agent s) = MortalityPhase.TerminalInProgress ->
  (exists turn_id, MortalityRuntime.terminal_turn_id (mortality_runtime (agent s)) = Some turn_id) ->
  match settle_terminal_turn s with
  | Done _ s' => mortality_is_dead (agent s') = true /\ unlocked s' /\ kept s s'
  | Fail _ _ => False
  | Trap => True
  end.
Proof.
  intros Hphase [turn_id Hturn]. unfold settle_terminal_turn.
  rewrite (M_bind_run (gets _ : T string) _ s turn_id s); [|unfold gets; by rewrite Hturn].
  cbv beta. match goal with |- context [journal_final_words turn_id ?words] =>
    pose proof (calm_journal_final_words turn_id words s) as Hcalm;
    destruct (journal_final_words turn_id words s) as [[] s1|e s1|] eqn:Hjournal end.
  - rewrite (M_bind_run _ _ _ _ _ Hjournal). destruct (Hcalm s1 eq_refl I) as [_ Hs1].
    rewrite (M_bind_run (gets now : T N) _ s1 (now s1) s1 eq_refl).
    pose proof (finalize_terminal_turn_dies turn_id 0 (now s1) s1) as Hdies.
    destruct (finalize_terminal_turn turn_id 0 (now s1) s1) as [u s2|e s2|]; [| |done].
    + destruct Hdies as (Hdead & Hlock & Hkept).
      * by rewrite (undisturbed_phase _ _ Hs1).
      * by rewrite (undisturbed_terminal _ _ Hs1).
      * split_and!; [done|done|]. eapply kept_trans; [by apply undisturbed_kept|done].
    + apply Hdies; [by rewrite (undisturbed_phase _ _ Hs1)|by rewrite (undisturbed_terminal _ _ Hs1)].
  - exfalso. revert Hjournal. unfold journal_final_words. exec. destruct (journaled turn_id s); [done|].
    by destruct (append_journal_entry _ _ _ s).
  - unfold mbind, M_bind. by rewrite Hjournal.
Qed.

Lemma staged_inbox_in `{!RowOrderOk rows} s :
  keyed_inbox s ->
  staged_in s (InboxMessage.id <$> list_staged_inbox_messages MAX_STAGED_INBOX_MESSAGES_PER_TURN s).
Proof.
  intros Hkeyed id (message & -> & Hmessage)%list_elem_of_fmap.
  unfold list_staged_inbox_messages in Hmessage. cbn [N.eqb] in Hmessage.
  change (message ∈ list_staged_inbox MAX_STAGED_INBOX_MESSAGES_PER_TURN s) in Hmessage.
  unfold list_staged_inbox, limit_rows in Hmessage.
  assert (message ∈ inbox_rows InboxMessageStatus.Staged s) as Hrow.
  { apply subseteq_take in Hmessage. by rewrite order_rows_perm in Hmessage. }
  apply list_elem_of_filter in Hrow as [Hstatus Hrow].
  apply list_elem_of_fmap in Hrow as ([id message'] & -> & Hid%elem_of_map_to_list). simpl.
  exists message'. split_and!; [|done|done]. by rewrite (Hkeyed id message' Hid).
Qed.

(** How a turn that was not skipped ends, with the wrapper around it. *)
Record turn_settled (terminal : bool) (s s' : Desk.t) : Prop := {
  settled_unlocked : unlocked s';
  settled_answered : exists turn_id ids, answered s turn_id ids s';
  settled_dead : terminal = true -> mortality_is_dead (agent s') = true;
}.

Lemma wrapper_settles {A} (outcome : outcome Desk.t string A) terminal s :
  ends_turn terminal s outcome ->
  match outcome with
  | Done _ s1 | Fail _ s1 =>
      match (in_progress ← gets (fun s => terminal_turn_in_progress (agent s));
             if terminal && in_progress then settle_terminal_turn else mret tt : T unit) s1 with
      | Done _ s' => turn_settled terminal s s'
      | Fail _ _ => False
      | Trap => True
      end
  | Trap => True
  end.
Proof.
  assert (forall s1, turn_ended terminal s s1 ->
    match (in_progress ← gets (fun s => terminal_turn_in_progress (agent s));
           if terminal && in_progress then settle_terminal_turn else mret tt : T unit) s1 with
    | Done _ s' => turn_settled terminal s s'
    | Fail _ _ => False
    | Trap => True
    end) as Hsettle; [|by destruct outcome; [apply Hsettle..|]].
  intros s1 [Hlock Hanswered Hterminal].
  rewrite (M_bind_run (gets _ : T bool) _ s1 (terminal_turn_in_progress (agent s1)) s1 eq_refl). cbv beta.
  unfold terminal_turn_in_progress. destruct terminal; [|by split].
  specialize (Hterminal eq_refl). case_bool_decide as Hphase; simpl.
  - pose proof (settle_terminal_turn_dies s1 Hphase) as Hdies.
    assert (exists turn_id, MortalityRuntime.terminal_turn_id (mortality_runtime (agent s1)) = Some turn_id)
      as Hturn.
    { destruct Hterminal as [Hdead|[_ Hturn]]; [|done]. exfalso. unfold mortality_is_dead in Hdead.
      apply bool_decide_eq_true in Hdead. congruence. }
    specialize (Hdies Hturn). destruct (settle_terminal_turn s1) as [u s2|e s2|]; [|done..].
    destruct Hdies as (Hdead & Hunlocked & Hkept). split; [done| |done].
    destruct Hanswered as (turn_id & ids & Ha). exists turn_id, ids. by eapply answered_kept.
  - split; [done|done|]. intros _. destruct Hterminal as [|[]]; [done|contradiction].
Qed.

(** A skipped turn changes nothing. *)
Lemma skipped_turn trigger max_rounds max_duration max_calls s :
  skip_turn trigger s = true ->
  run_scheduled_turn_job_with_limits_and_tool_cap trigger max_rounds max_duration max_calls s = Done tt s.
Proof.
  intros Hskip. unfold run_scheduled_turn_job_with_limits_and_tool_cap, run_scheduled_turn_job_inner.
  exec. rewrite Hskip. unfold terminal_turn_in_progress.
  destruct (mortality_phase (agent s)); by repeat (rewrite bool_decide_eq_true_2 by done
    || rewrite bool_decide_eq_false_2 by done).
Qed.

Lemma turn_settles trigger max_rounds max_duration max_calls s :
  staged_in s (InboxMessage.id <$> list_staged_inbox_messages MAX_STAGED_INBOX_MESSAGES_PER_TURN s) ->
  skip_turn trigger s = false ->
  match run_scheduled_turn_job_with_limits_and_tool_cap trigger max_rounds max_duration max_calls s with
  | Done _ s' | Fail _ s' =>
      turn_settled (bool_decide (mortality_phase (agent s) = MortalityPhase.TerminalPending)) s s'
  | Trap => True
  end.
Proof.
  intros Hstaged Hskip. set (terminal := bool_decide _).
  assert (terminal = true -> mortality_phase (agent s) = MortalityPhase.TerminalPending) as Hterminal
    by apply bool_decide_eq_true.
  pose proof (start_turn_ends trigger max_rounds max_duration max_calls terminal _ s Hstaged Hterminal)
    as Hends. apply wrapper_settles in Hends.
  unfold run_scheduled_turn_job_with_limits_and_tool_cap, run_scheduled_turn_job_inner.
  rewrite (M_bind_run (gets (fun s => bool_decide (mortality_phase (agent s)
    = MortalityPhase.TerminalPending)) : T bool) _ s terminal s eq_refl). cbv beta.
  unfold mbind, M_bind, catch, get_state in Hends |- *. cbv beta in Hends |- *. rewrite Hskip.
  fold terminal. destruct (start_turn _ _ _ _ _ _ s) as [u s1|e s1|]; [| |done];
    revert Hends; unfold gets; cbv beta iota;
    destruct (if _ && _ then settle_terminal_turn else _) as [];
    done.
Qed.

(** ** The turn's promises *)

Section Promises.
Context `{!RowOrderOk rows}.

Lemma scheduled_turn_settles trigger s :
  keyed_inbox s -> skip_turn trigger s = false ->
  match run_scheduled_turn_job_with_trigger trigger s with
  | Done _ s' | Fail _ s' =>
      turn_settled (bool_decide (mortality_phase (agent s) = MortalityPhase.TerminalPending)) s s'
  | Trap => True
  end.
Proof. intros Hkeyed Hskip. by apply turn_settles; [apply staged_inbox_in|]. Qed.

(** C4 - Whether it returns or fails, a turn that was not skipped has released the
    turn lock, so that the next turn can start; a skipped one changes
    nothing. *)
Theorem turn_releases_lock (trigger : ScheduledTurnTrigger.t) (s : Desk.t) (Hkeyed : keyed_inbox s) :
  match run_scheduled_turn_job_with_trigger trigger s with
  | Done _ s' | Fail _ s' =>
      if skip_turn trigger s then s' = s
      else RuntimeSnapshot.turn_in_flight (snapshot_of s') = false
  | Trap => True
  end.
Proof.
  destruct (skip_turn trigger s) eqn:Hskip.
  - unfold run_scheduled_turn_job_with_trigger. by rewrite skipped_turn.
  - pose proof (scheduled_turn_settles trigger s Hkeyed Hskip) as Hsettled.
    by destruct (run_scheduled_turn_job_with_trigger trigger s) as [u s'|e s'|]; [apply Hsettled..|].
Qed.

(** C2 - Whether it returns or fails, a turn leaves every message that was staged or
    consumed as it was, or has consumed it and left a reply to it in the
    outbox: no message is consumed without an answer. *)
Theorem turn_answers_messages (trigger : ScheduledTurnTrigger.t) (s : Desk.t)
    (Hkeyed : keyed_inbox s) :
  match run_scheduled_turn_job_with_trigger trigger s with
  | Done _ s' | Fail _ s' =>
      forall id message, Desk.inbox s !! id = Some message ->
      InboxMessage.status message <> InboxMessageStatus.Pending ->
      Desk.inbox s' !! id = Some message
      \/ exists at_ns key reply, Desk.inbox s' !! id = Some (consume at_ns message)
         /\ Desk.outbox s' !! key = Some reply /\ id ∈ OutboxMessage.source_inbox_ids reply
         /\ is_blank (OutboxMessage.body reply) = false
  | Trap => True
  end.
Proof.
  assert (forall s', (exists turn_id ids, answered s turn_id ids s') ->
    forall id message, Desk.inbox s !! id = Some message ->
    InboxMessage.status message <> InboxMessageStatus.Pending ->
    Desk.inbox s' !! id = Some message
    \/ exists at_ns key reply, Desk.inbox s' !! id = Some (consume at_ns message)
       /\ Desk.outbox s' !! key = Some reply /\ id ∈ OutboxMessage.source_inbox_ids reply
       /\ is_blank (OutboxMessage.body reply) = false) as Hanswers.
  { intros s' (turn_id & ids & Hanswered) id message Hid Hstatus.
    destruct (Hanswered id message Hid Hstatus)
      as [Hsame|(Hin & [at_ns Hconsumed] & key & reply & Hkey & _ & Hids & Hbody)]; [by left|right].
    exists at_ns, key, reply. by rewrite Hids. }
  destruct (skip_turn trigger s) eqn:Hskip.
  - unfold run_scheduled_turn_job_with_trigger. rewrite skipped_turn by done. by left.
  - pose proof (scheduled_turn_settles trigger s Hkeyed Hskip) as Hsettled.
    by destruct (run_scheduled_turn_job_with_trigger trigger s) as [u s'|e s'|];
      [apply Hanswers, Hsettled..|].
Qed.

(** C5 - A turn that starts with mortality pending ends in death: whatever it
    returns, the agent is dead when it ends, also when its tools, the providers
    or the report to the factory fail. *)
Theorem terminal_turn_dies (trigger : ScheduledTurnTrigger.t) (s : Desk.t) (Hkeyed : keyed_inbox s)
    (Hpending : mortality_phase (agent s) = MortalityPhase.TerminalPending)
    (Hstarts : skip_turn trigger s = false) :
  match run_scheduled_turn_job_with_trigger trigger s with
  | Done _ s' | Fail _ s' => mortality_is_dead (agent s') = true
  | Trap => True
  end.
Proof.
  pose proof (scheduled_turn_settles trigger s Hkeyed Hstarts) as Hsettled.
  rewrite bool_decide_eq_true_2 in Hsettled by done.
  by destruct (run_scheduled_turn_job_with_trigger trigger s) as [u s'|e s'|]; [apply Hsettled..|].
Qed.
End Promises.
End Ports.
