(* ===== verification/TurnPlan.v ===== *)
(** * TurnPlan: which calls a round executes, and the records they leave

    [executed_calls_cleared]: a call that a round plans to execute is in the
    scope of the turn and neither suppressed nor capped.
    [round_records_match]: the records of a round are those of its calls, in
    order; the mismatches that the code reports as errors do not occur. *)

From S2P Require Import Prelude Text SpawnProtocol Types Externals AgentTypes AgentDomain TopUp AgentStore AgentScheduler StrategyTypes StrategyStore StrategyPolicy TurnTypes TurnStore Sanitize TurnText TurnPolicy TurnTools TurnDecision Turn TurnSteps.

(** ** Suppressions by index *)

Definition indices (suppressed : list SuppressedAutonomyToolCall.t) : list nat :=
  SuppressedAutonomyToolCall.index <$> suppressed.

(** Distinct indices between [low] and [high], in order. *)
Definition ascending (low high : nat) (l : list nat) : Prop :=
  StronglySorted lt l /\ Forall (fun i => low <= i < high) l.

Lemma ascending_nil low high : ascending low high [].
Proof. split; constructor. Qed.

Lemma ascending_cons low high l : ascending (S low) high l -> low < high -> ascending low high (low :: l).
Proof.
  intros [Hsorted Hbounds] Hlow. split; constructor; [done| |lia|].
  - eapply Forall_impl; [exact Hbounds|]. simpl. lia.
  - eapply Forall_impl; [exact Hbounds|]. simpl. lia.
Qed.

Lemma ascending_weaken low high l : ascending (S low) high l -> ascending low high l.
Proof. intros [Hsorted Hbounds]. split; [done|]. eapply Forall_impl; [exact Hbounds|]. simpl. lia. Qed.

(** The least of the indices is used up, or it is not the first. *)
Lemma ascending_head low high i l :
  ascending low high (i :: l) -> ascending (S low) high (if bool_decide (i = low) then l else i :: l).
Proof.
  intros [Hsorted Hbounds]. apply StronglySorted_inv in Hsorted as [Hsorted Hhead].
  apply Forall_cons in Hbounds as [Hi Hbounds]. case_bool_decide as Hlow.
  - subst i. split; [done|]. apply Forall_and; split; [by eapply Forall_impl; [exact Hhead|]; simpl; lia|].
    eapply Forall_impl; [exact Hbounds|]. simpl. lia.
  - split; [by constructor|]. constructor; [lia|]. apply Forall_and. split.
    + eapply Forall_impl; [exact Hhead|]. simpl. lia.
    + eapply Forall_impl; [exact Hbounds|]. simpl. lia.
Qed.

Lemma ascending_NoDup low high l : ascending low high l -> NoDup l.
Proof.
  intros [Hsorted _]. induction Hsorted as [|i l Hsorted IH Hhead]; constructor; [|done].
  intros Hin. rewrite Forall_forall in Hhead. specialize (Hhead i Hin). lia.
Qed.

(** ** The plan of a round *)

Definition planned_calls (calls : list ToolCall.t) (execution : list PlannedToolCallExecution.t)
    : list ToolCall.t :=
  omap (fun '(call, planned) => if is_execute planned then Some call else None) (zip calls execution).

(** What a plan says of the calls from [index] on. *)
Record plans (index : nat) (scope : InferenceToolScope.t)
    (suppressed : list SuppressedAutonomyToolCall.t) (calls : list ToolCall.t) (round : RoundPlan.t)
    : Prop := {
  plans_unused : RoundPlan.unused_suppressions round = [];
  plans_length : length (RoundPlan.planned_execution round) = length calls;
  plans_executable :
    RoundPlan.executable_tool_calls round = planned_calls calls (RoundPlan.planned_execution round);
  plans_execute : forall i call, calls !! i = Some call ->
    RoundPlan.planned_execution round !! i = Some PlannedToolCallExecution.Execute ->
    ((index + i)%nat ∉ indices suppressed) /\ tool_allowed_in_scope (ToolCall.tool call) scope = true;
}.

Lemma suppressed_not_execute reason : is_execute (suppressed_execution reason) = false.
Proof. by destruct reason. Qed.

(** A call that is not executed. *)
Lemma plans_skip index scope suppressed suppressed' call calls execution round :
  plans (S index) scope suppressed calls round -> is_execute execution = false ->
  (forall i, S index <= i -> i ∈ indices suppressed' -> i ∈ indices suppressed) ->
  plans index scope suppressed' (call :: calls) (plan_execution execution round).
Proof.
  intros [Hunused Hlength Hexecutable Hexecute] Hskip Hsame. destruct round as [planned executable unused v].
  simpl in *. split; simpl; [done|by rewrite Hlength| |].
  - unfold planned_calls. simpl. rewrite Hskip. exact Hexecutable.
  - intros [|i] call' Hcall Hplanned; simpl in *; [by injection Hplanned as ->|].
    destruct (Hexecute i call' Hcall Hplanned) as [Hfree Hscope]. split; [|done].
    rewrite Nat.add_succ_r. contradict Hfree. apply Hsame; [lia|done].
Qed.

Lemma plans_run index scope suppressed call calls round :
  plans (S index) scope suppressed calls round -> index ∉ indices suppressed ->
  tool_allowed_in_scope (ToolCall.tool call) scope = true ->
  plans index scope suppressed (call :: calls) (plan_execute call round).
Proof.
  intros [Hunused Hlength Hexecutable Hexecute] Hfree Hscope. destruct round as [planned executable unused v].
  simpl in *. split; simpl; [done|by rewrite Hlength| |].
  - unfold planned_calls. simpl. by rewrite Hexecutable.
  - intros [|i] call' Hcall Hplanned; simpl in *.
    + injection Hcall as <-. by rewrite Nat.add_0_r.
    + rewrite Nat.add_succ_r. by apply (Hexecute i).
Qed.

Lemma plan_round_plans scope calls : forall index suppressed validator,
  ascending index (index + length calls) (indices suppressed) ->
  plans index scope suppressed calls (plan_round index scope suppressed validator calls).
Proof.
  induction calls as [|call calls IH]; intros index suppressed validator Hasc; simpl.
  { destruct suppressed as [|entry suppressed]; [by split|]. destruct Hasc as [_ Hbounds].
    apply Forall_cons in Hbounds as [Hbound _]. simpl in Hbound. lia. }
  simpl in Hasc. rewrite Nat.add_succ_r in Hasc.
  assert (index ∉ indices suppressed -> ascending (S index) (S index + length calls) (indices suppressed) ->
    plans index scope suppressed (call :: calls)
      (if negb (tool_allowed_in_scope (ToolCall.tool call) scope) then
         plan_execution (PlannedToolCallExecution.RuntimeRestricted (out_of_scope call scope))
           (plan_round (S index) scope suppressed validator calls)
       else
         let '(verdict, validator) := validate_next (ToolCall.tool call) validator in
         match verdict with
         | Ok _ => plan_execute call (plan_round (S index) scope suppressed validator calls)
         | Err reason => plan_execution (PlannedToolCallExecution.SequenceBlocked reason)
                           (plan_round (S index) scope suppressed validator calls)
         end)) as Hunsuppressed.
  { intros Hfree Hrest. destruct (tool_allowed_in_scope _ _) eqn:Hscope; simpl.
    - destruct (validate_next _ _) as [[[]|reason] validator'].
      + apply plans_run; [by apply IH|done|done].
      + apply (plans_skip _ _ suppressed); [by apply IH|done|done].
    - apply (plans_skip _ _ suppressed); [by apply IH|done|done]. }
  destruct suppressed as [|entry suppressed]; [apply Hunsuppressed; [set_solver|apply ascending_nil]|].
  pose proof (ascending_head _ _ _ _ Hasc) as Hhead. simpl in Hhead.
  case_bool_decide as Hindex.
  - apply (plans_skip _ _ suppressed); [by apply IH|apply suppressed_not_execute|].
    intros i Hi [->|Hin]%elem_of_cons; [lia|done].
  - apply Hunsuppressed; [|exact Hhead]. intros Hin. destruct Hhead as [_ Hbounds].
    rewrite Forall_forall in Hbounds. specialize (Hbounds index Hin). lia.
Qed.

(** ** The suppressions of a round *)

Section Suppressions.
Context `{ext : Externals, libs : StrategyLibs}.

Lemma suppress_from_spec calls now_ns config s : forall index,
  ascending index (index + length calls) (indices (suppress_from index calls now_ns config s))
  /\ forall i call, calls !! i = Some call ->
       (index + i)%nat ∉ indices (suppress_from index calls now_ns config s) ->
       suppression_reason call now_ns config s = None.
Proof.
  induction calls as [|call calls IH]; intros index; simpl; [split; [apply ascending_nil|done]|].
  destruct (IH (S index)) as [Hasc Hnone].
  replace (index + S (length calls)) with (S index + length calls) by lia.
  destruct (suppression_reason call now_ns config s) as [reason|] eqn:Hreason.
  - split; [apply ascending_cons; [exact Hasc|simpl; lia]|]. intros [|i] call' Hcall Hfree; simpl in *.
    + rewrite Nat.add_0_r in Hfree. set_solver.
    + apply (Hnone i); [done|]. rewrite Nat.add_succ_r in Hfree. set_solver.
  - split; [by apply ascending_weaken|]. intros [|i] call' Hcall Hfree; simpl in *; [congruence|].
    apply (Hnone i); [done|]. by rewrite Nat.add_succ_r in Hfree.
Qed.

Lemma cap_suppressed_spec (caps : gmap string ConsecutiveDegradeCapState.t) suppressed calls : forall index,
  let capped := omap (fun '(index, call) =>
    if bool_decide (index ∈ indices suppressed) then None
    else
      cap ← caps !! ToolCall.tool call;
      Some (SuppressedAutonomyToolCall.mk index call
              (AutonomySuppressionReason.ConsecutiveDegradeCap
                 (ConsecutiveDegradeCapState.consecutive_degrade_count cap)
                 (ConsecutiveDegradeCapState.error_class cap))))
    (imap (fun i => pair (index + i)%nat) calls) in
  ascending index (index + length calls) (indices capped)
  /\ (forall i, i ∈ indices capped -> i ∉ indices suppressed)
  /\ forall i call, calls !! i = Some call -> (index + i)%nat ∉ indices suppressed ->
       (index + i)%nat ∉ indices capped -> caps !! ToolCall.tool call = None.
Proof.
  induction calls as [|call calls IH]; intros index capped.
  { split_and!; [apply ascending_nil|set_solver|done]. }
  specialize (IH (S index)). cbv zeta in IH.
  assert (imap (fun i => pair (index + i)%nat) (call :: calls)
          = (index, call) :: imap (fun i => pair (S index + i)%nat) calls) as Himap.
  { simpl. rewrite Nat.add_0_r. f_equal. apply imap_ext. intros i x _. simpl. f_equal. lia. }
  subst capped. cbv zeta. rewrite Himap. clear Himap. cbn [omap list_omap length].
  replace (index + S (length calls)) with (S index + length calls) by lia.
  set (rest := omap _ _) in *. clearbody rest. destruct IH as (Hasc & Hdisjoint & Hnone).
  case_bool_decide as Hin; [|destruct (caps !! ToolCall.tool call) as [cap|] eqn:Hcap; simpl].
  - split_and!; [by apply ascending_weaken|done|]. intros [|i] call' Hcall Hfree; simpl in *.
    + by rewrite Nat.add_0_r in Hfree.
    + rewrite Nat.add_succ_r in Hfree |- *. by apply Hnone.
  - split_and!; [apply ascending_cons; [exact Hasc|simpl; lia]| |].
    + intros i [->|Hi]%elem_of_cons; [done|by apply Hdisjoint].
    + intros [|i] call' Hcall Hfree Hfree'; simpl in *.
      * rewrite Nat.add_0_r in Hfree'. set_solver.
      * rewrite Nat.add_succ_r in Hfree, Hfree'. apply (Hnone i); [done|done|set_solver].
  - split_and!; [by apply ascending_weaken|done|]. intros [|i] call' Hcall Hfree Hfree'; simpl in *;
      [congruence|]. rewrite Nat.add_succ_r in Hfree, Hfree'. by apply (Hnone i).
Qed.

Lemma sorted_indices l :
  NoDup (indices l) ->
  StronglySorted lt (indices (sort_by_key (fun entry => N.of_nat (SuppressedAutonomyToolCall.index entry)) l)).
Proof.
  intros Hnodup. set (key := fun entry => N.of_nat (SuppressedAutonomyToolCall.index entry)).
  pose proof (sort_by_key_sorted key l) as Hsorted. pose proof (sort_by_key_perm key l) as Hperm.
  assert (NoDup (indices (sort_by_key key l))) as Hnodup' by (unfold indices; by rewrite Hperm).
  clear Hnodup Hperm. unfold key_sorted in Hsorted.
  induction Hsorted as [|entry sorted _ IH Hhead]; simpl; constructor.
  - apply IH. by apply NoDup_cons in Hnodup' as [_ ?].
  - apply NoDup_cons in Hnodup' as [Hfresh _]. apply Forall_fmap. rewrite Forall_forall in Hhead |- *.
    intros other Hother. specialize (Hhead other Hother). unfold key in Hhead. simpl.
    assert (SuppressedAutonomyToolCall.index entry <> SuppressedAutonomyToolCall.index other); [|lia].
    intros Heq. apply Hfresh. change (SuppressedAutonomyToolCall.index entry ∈ indices sorted).
    rewrite Heq. by apply list_elem_of_fmap_2.
Qed.
End Suppressions.

(** ** Cleared calls *)

Section Rounds.
Context `{ext : Externals, libs : StrategyLibs, turn_libs : TurnLibs, rows : RowOrder}.
Context `{u256 : U256Text, cost : CostApi, adapters : InferenceAdapters}.
Context `{futures : JoinFutures, tools : Tools, ports : TurnPorts}.
Context (frame : Frame.t) (plan : Plan.t).
#[local] Set Default Proof Using "All".

Definition suppress_calls (calls : list ToolCall.t) : R (list SuppressedAutonomyToolCall.t) :=
  suppressed ← suppress_round frame calls;
  suppress_capped frame calls suppressed.

Lemma say_details_Done before after details t u t' :
  say_details before after details t = Done u t' ->
  Turn.desk t' = Turn.desk t /\ Turn.degrade t' = Turn.degrade t
  /\ Turn.last_error t' = Turn.last_error t.
Proof. by destruct details; intros [= _ <-]. Qed.

(** What is suppressed, and what follows for a call that is not. *)
Definition suppressed_right (t : Turn.t) (calls : list ToolCall.t)
    (suppressed : list SuppressedAutonomyToolCall.t) : Prop :=
  ascending 0 (length calls) (indices suppressed)
  /\ (should_apply_autonomy_suppression (Frame.trigger frame) (Frame.has_external_input frame)
        (Turn.inference_round_count t) = true ->
      forall i call, calls !! i = Some call -> i ∉ indices suppressed ->
      suppression_reason call (Frame.started_at_ns frame)
        (RuntimeSnapshot.autonomy_suppression (Frame.snapshot frame)) (Turn.desk t) = None).

Lemma suppress_round_right calls t suppressed t' :
  suppress_round frame calls t = Done suppressed t' ->
  suppressed_right t calls suppressed /\ Turn.degrade t' = Turn.degrade t
  /\ Turn.last_error t' = Turn.last_error t.
Proof.
  intros H. run_inv H as rounds t1 Hget. injection Hget as <- <-. unfold suppressed_right.
  destruct (should_apply_autonomy_suppression _ _ _).
  - run_inv H as found t1 Hget. injection Hget as <- <-.
    run_inv H as u t1 Hdedupe. apply say_details_Done in Hdedupe as (_ & Hdegrade1 & Hlast1).
    run_inv H as u1 t2 Hfailure. apply say_details_Done in Hfailure as (_ & Hdegrade2 & Hlast2).
    injection H as <- <-. destruct (suppress_from_spec calls (Frame.started_at_ns frame)
      (RuntimeSnapshot.autonomy_suppression (Frame.snapshot frame)) (Turn.desk t) 0) as [Hasc Hnone].
    split_and!; [exact Hasc|by intros _|congruence|congruence].
  - injection H as <- <-. split_and!; [apply ascending_nil|done|done|done].
Qed.

Lemma suppress_calls_right calls t suppressed t' :
  suppress_calls calls t = Done suppressed t' ->
  suppressed_right t calls suppressed
  /\ (Frame.has_external_input frame = false -> forall i call, calls !! i = Some call ->
        i ∉ indices suppressed ->
        DegradeTracking.consecutive_degrade_cap_by_tool (Turn.degrade t) !! ToolCall.tool call = None)
  /\ Turn.last_error t' = Turn.last_error t.
Proof.
  intros H. run_inv H as found t1 Hround.
  apply suppress_round_right in Hround as ([Hasc Hnone] & Hdegrade & Hlast).
  run_inv H as degrade t2 Hget. injection Hget as <- <-. rewrite Hdegrade in H.
  destruct (Frame.has_external_input frame) eqn:Hinput in H.
  { injection H as <- <-. split; [split; [exact Hasc|exact Hnone]|]. split; [congruence|congruence]. }
  set (caps := DegradeTracking.consecutive_degrade_cap_by_tool (Turn.degrade t)) in *. cbv zeta in H.
  destruct (cap_suppressed_spec caps found calls 0) as (Hcasc & Hdisjoint & Hcap).
  change (omap _ _) with (cap_suppressed_calls caps found calls) in Hcasc, Hdisjoint, Hcap.
  destruct (cap_suppressed_calls caps found calls) as [|entry capped] eqn:Hcapped.
  { injection H as <- <-. split_and!; [done|intros _ i call Hcall Hfree; by apply (Hcap i); [| |set_solver]|done]. }
  rewrite <-Hcapped in *. clear Hcapped entry capped.
  run_inv H as u t2 Hsay. apply say_details_Done in Hsay as (_ & _ & Hlast2). injection H as <- <-.
  set (both := found ++ cap_suppressed_calls caps found calls).
  assert (forall i, i ∈ indices (sort_by_key (fun entry =>
      N.of_nat (SuppressedAutonomyToolCall.index entry)) both) <->
    i ∈ indices found \/ i ∈ indices (cap_suppressed_calls caps found calls)) as Hin.
  { intros i. unfold indices. rewrite sort_by_key_perm. unfold both. by rewrite fmap_app, elem_of_app. }
  split_and!; [split| |congruence].
  - split.
    + apply sorted_indices. unfold indices, both. rewrite fmap_app. apply NoDup_app. split_and!.
      * by eapply ascending_NoDup.
      * intros i Hi Hi'. by apply (Hdisjoint i).
      * by eapply ascending_NoDup.
    + apply Forall_forall. intros i [Hi|Hi]%Hin.
      * destruct Hasc as [_ Hbounds]. rewrite Forall_forall in Hbounds. by apply Hbounds.
      * destruct Hcasc as [_ Hbounds]. rewrite Forall_forall in Hbounds. by apply Hbounds.
  - intros Happlies i call Hcall Hfree. apply (Hnone Happlies i call Hcall). contradict Hfree. apply Hin. by left.
  - intros _ i call Hcall Hfree. apply (Hcap i call Hcall); contradict Hfree; apply Hin; [by left|by right].
Qed.

(** C10 - A call that a round plans to execute is in the turn's scope; it is not
    suppressed, where suppression applies; and its tool has not reached the
    cap of degraded rounds, where there is no external input. *)
Theorem executed_calls_cleared (validator : ToolSequenceValidator.t) (calls : list ToolCall.t)
    (t t' : Turn.t) (suppressed : list SuppressedAutonomyToolCall.t) (i : nat) (call : ToolCall.t)
    (Hsuppress : (suppressed ← suppress_round frame calls; suppress_capped frame calls suppressed) t
                 = Done suppressed t')
    (Hcall : calls !! i = Some call)
    (Hexecute : RoundPlan.planned_execution
                  (plan_round 0 (Plan.tool_scope plan) suppressed validator calls) !! i
                = Some PlannedToolCallExecution.Execute) :
  tool_allowed_in_scope (ToolCall.tool call) (Plan.tool_scope plan) = true
  /\ (should_apply_autonomy_suppression (Frame.trigger frame) (Frame.has_external_input frame)
        (Turn.inference_round_count t) = true ->
      suppression_reason call (Frame.started_at_ns frame)
        (RuntimeSnapshot.autonomy_suppression (Frame.snapshot frame)) (Turn.desk t) = None)
  /\ (Frame.has_external_input frame = false ->
      DegradeTracking.consecutive_degrade_cap_by_tool (Turn.degrade t) !! ToolCall.tool call = None).
Proof.
  apply suppress_calls_right in Hsuppress as ([Hasc Hnone] & Hcap & _).
  destruct (plan_round_plans (Plan.tool_scope plan) calls 0 suppressed validator Hasc) as [_ _ _ Hplans].
  destruct (Hplans i call Hcall Hexecute) as [Hfree Hscope]. simpl in Hfree. split_and!; [done| |].
  - intros Happlies. by apply (Hnone Happlies i).
  - intros Hinput. by apply (Hcap Hinput i).
Qed.

(** ** The records of a round *)

Context `{!JoinFuturesOk futures}.

(** The record that a planned call leaves, executed or not. *)
Definition record_matches (turn_id : string) (call : ToolCall.t) (record : ToolCallRecord.t) : Prop :=
  ToolCallRecord.turn_id record = turn_id
  /\ ToolCallRecord.args_json record = ToolCall.args_json call
  /\ ToolCallRecord.tool record ∈ [ToolCall.tool call; canonicalize_tool_name (ToolCall.tool call)].

Definition executed_of (planned : list (ToolCall.t * PlannedToolCallExecution.t)) : list ToolCall.t :=
  omap (fun '(call, planned) => if is_execute planned then Some call else None) planned.

Lemma collect_records_match completed_ns planned : forall executed records t,
  Forall2 (record_of (Frame.turn_id frame)) (executed_of planned) executed ->
  exists new t', collect_records frame completed_ns executed records planned t = Done (records ++ new, []) t'
    /\ Forall2 (fun entry => record_matches (Frame.turn_id frame) entry.1) planned new
    /\ Turn.last_error t' = Turn.last_error t.
Proof.
  induction planned as [|[call execution] planned IH]; intros executed records t Hexecuted; simpl in *.
  { apply Forall2_nil_inv_l in Hexecuted as ->. exists [], t. by rewrite app_nil_r. }
  assert (forall record t1, record_matches (Frame.turn_id frame) call record ->
    Turn.last_error t1 = Turn.last_error t -> Forall2 (record_of (Frame.turn_id frame)) (executed_of planned) executed ->
    exists new t', collect_records frame completed_ns executed (records ++ [record]) planned t1
                   = Done (records ++ new, []) t'
      /\ Forall2 (fun entry => record_matches (Frame.turn_id frame) entry.1) ((call, execution) :: planned) new
      /\ Turn.last_error t' = Turn.last_error t) as Hnext.
  { intros record t1 Hmatches Hlast Hrest. destruct (IH executed (records ++ [record]) t1 Hrest)
      as (new & t' & Hrun & Hnew & Hlast'). exists (record :: new), t'.
    rewrite Hrun, <-app_assoc. split_and!; [done|by constructor|congruence]. }
  destruct execution; simpl in Hexecuted.
  2-6: apply Hnext; [|done|done]; (split_and!; [done|done|set_solver]).
  apply Forall2_cons_inv_l in Hexecuted as (record & rest & (Hturn & Htool & Hargs & _) & Hrest & ->).
  destruct (IH rest (records ++ [record]) t Hrest) as (new & t' & Hrun & Hnew & Hlast').
  exists (record :: new), t'. rewrite Hrun, <-app_assoc. split_and!; [done| |done].
  constructor; [|done]. split_and!; [done|done|]. rewrite Htool. set_solver.
Qed.

(** The deadline either lets the round go on as it was, or stops it. *)
Lemma check_deadline_cases t :
  check_deadline frame t = Done tt t
  \/ exists t', check_deadline frame t = Fail tt t' /\ Turn.last_error t' = Turn.last_error t
       /\ Turn.continuation_stop_reason t' = ContinuationStopReason.MaxDuration.
Proof.
  unfold check_deadline, stop_for_turn_deadline_if_elapsed, desk_gets. exec.
  destruct (_ <? _)%N; [by left|right].
  by eexists.
Qed.

Lemma expect_none_nil {A} error t :
  Turn.last_error t = None -> expect_none (A := A) [] error t = Done tt t.
Proof. intros Hlast. unfold expect_none, break_on_error, mbind, M_bind, gets. by rewrite Hlast; simpl; rewrite Hlast. Qed.

Lemma Forall2_zip_l {A B C} (P : A -> C -> Prop) (l : list A) (k : list B) (r : list C) :
  length l = length k -> Forall2 (fun entry => P entry.1) (zip l k) r -> Forall2 P l r.
Proof.
  revert k r. induction l as [|a l IH]; intros [|b k] r; simpl; intros Hlength Hforall; try done.
  - by apply Forall2_nil_inv_l in Hforall as ->.
  - apply Forall2_cons_inv_l in Hforall as (c & r' & Ha & Hforall & ->).
    constructor; [done|]. apply (IH k r'); [lia|done].
Qed.

(** A step of a round that returns with [P], or stops the round with [Q]. *)
Definition ends {A} (m : R A) (t : Turn.t) (P : A -> Turn.t -> Prop) (Q : Turn.t -> Prop) : Prop :=
  match m t with Done a t' => P a t' | Fail _ t' => Q t' | Trap => True end.

Lemma ends_bind {A B} (m : R A) (f : A -> R B) t P Q :
  ends m t (fun a t' => ends (f a) t' P Q) Q -> ends (m ≫= f) t P Q.
Proof. unfold ends, mbind, M_bind. by destruct (m t). Qed.

Lemma ends_Done {A} (m : R A) (t t' : Turn.t) a (P : A -> Turn.t -> Prop) Q :
  m t = Done a t' -> P a t' -> ends m t P Q.
Proof. unfold ends. by intros ->. Qed.

(** Stopped by the deadline, without an error. *)
Definition past_deadline (t : Turn.t) : Prop :=
  Turn.last_error t = None /\ Turn.continuation_stop_reason t = ContinuationStopReason.MaxDuration.

Lemma ends_check_deadline t (P : unit -> Turn.t -> Prop) :
  Turn.last_error t = None -> P tt t -> ends (check_deadline frame) t P past_deadline.
Proof.
  intros Hlast HP. unfold ends. destruct (check_deadline_cases t) as [->|(t' & -> & Hlast' & Hreason)]; [done|].
  split; [congruence|done].
Qed.

(** What the tools do to the desk leaves the turn's error, and gives the
    records of the calls. *)
Lemma ends_execute_calls state calls prior t (P : result string (list ToolCallRecord.t) -> Turn.t -> Prop) Q :
  (forall executed t', Forall2 (record_of (Frame.turn_id frame)) calls executed ->
    Turn.last_error t' = Turn.last_error t -> P (Ok executed) t') ->
  ends (on_desk (execute_calls frame plan state calls prior)) t P Q.
Proof.
  intros HP. unfold ends, on_desk, zoom, catch, execute_calls.
  pose proof (execute_actions_yield (signer := turn_signer frame) (Plan.policies plan) state calls
    (Frame.turn_id frame) prior (Turn.desk t)) as Hyield.
  destruct (execute_actions_with_history _ _ _ _ _ _) as [executed desk|error desk|]; [|done|done].
  by apply HP.
Qed.

(** C11 - Executing a round yields the records of its calls, one per call and in
    order, with the call's arguments; the mismatches between calls and records
    that the code reports as errors do not occur, and a round that stops here
    does so for the turn's deadline. *)
Theorem round_records_match (trimmed_reply : string) (calls : list ToolCall.t)
    (suppressed : list SuppressedAutonomyToolCall.t) (t0 t : Turn.t)
    (Hsuppress : (suppressed ← suppress_round frame calls; suppress_capped frame calls suppressed) t0
                 = Done suppressed t)
    (Hlast : Turn.last_error t0 = None) :
  match execute_round frame plan trimmed_reply calls suppressed t with
  | Done (execution, records, _) t' =>
      Forall2 (record_matches (Frame.turn_id frame)) calls records
      /\ length execution = length calls /\ Turn.last_error t' = None
  | Fail _ t' => Turn.last_error t' = None
      /\ Turn.continuation_stop_reason t' = ContinuationStopReason.MaxDuration
  | Trap => True
  end.
Proof.
  apply suppress_calls_right in Hsuppress as ([Hasc _] & _ & Hlast'). rewrite Hlast in Hlast'.
  clear t0 Hlast.
  assert (ends (execute_round frame plan trimmed_reply calls suppressed) t (fun result t' =>
    Forall2 (record_matches (Frame.turn_id frame)) calls result.1.2
    /\ length result.1.1 = length calls /\ Turn.last_error t' = None) past_deadline) as Hends.
  2:{ unfold ends in Hends. by destruct (execute_round _ _ _ _ _ _) as [[[? ?] ?] ?| |]. }
  unfold execute_round. apply ends_bind. eapply ends_Done; [reflexivity|].
  destruct (plan_round_plans (Plan.tool_scope plan) calls 0 suppressed (Turn.tool_sequence_validator t) Hasc)
    as [Hunused Hlength Hexecutable _].
  set (round := plan_round _ _ _ _ _) in *. clearbody round. cbv zeta. rewrite Hunused.
  apply ends_bind. eapply ends_Done; [reflexivity|].
  apply ends_bind. eapply ends_Done; [by apply expect_none_nil|].
  apply ends_bind. eapply ends_Done; [reflexivity|].
  apply ends_bind. apply ends_check_deadline; [exact Hlast'|].
  apply ends_bind. eapply ends_Done; [reflexivity|].
  apply ends_bind. apply ends_execute_calls. intros executed t1 Hexecuted Hlast1.
  apply ends_bind. apply ends_check_deadline; [by rewrite Hlast1|].
  apply ends_bind. eapply ends_Done; [reflexivity|].
  apply ends_bind. eapply ends_Done; [reflexivity|].
  apply ends_bind. eapply ends_Done; [reflexivity|].
  rewrite Hexecutable in Hexecuted.
  apply ends_bind. set (t2 := t1 <| Turn.executed_any_tool ::= _ |>).
  destruct (collect_records_match (now (Turn.desk t2)) (zip calls (RoundPlan.planned_execution round))
    executed [] t2 Hexecuted) as (records & t3 & Hcollect & Hrecords & Hlast3).
  eapply ends_Done; [exact Hcollect|].
  assert (Turn.last_error t3 = None) as Hnone by (by rewrite Hlast3; simpl; rewrite Hlast1).
  apply ends_bind. eapply ends_Done; [by apply expect_none_nil|].
  eapply ends_Done; [reflexivity|]. split_and!; [|done|done].
  by apply (Forall2_zip_l _ _ (RoundPlan.planned_execution round)).
Qed.
End Rounds.
