(* ===== verification/TurnSamples.v ===== *)
(** * TurnSamples: concrete turns

    A turn that answers a message and the terminal turn of a dying agent are
    run under stand-ins for the tools, the providers and the libraries, and the
    theorems of the turn files are applied to them; nothing here models
    code. *)

From S2P Require Import Prelude Text SpawnProtocol Types Externals AgentTypes AgentDomain TopUp AgentStore AgentScheduler StrategyTypes StrategyStore StrategyPolicy StrategySamples TurnTypes TurnStore Sanitize TurnText TurnPolicy TurnPolicyFacts TurnTools TurnDecision Turn TurnSteps TurnOutcome TurnPlan.

Module TurnSamples.
#[local] Existing Instance toy_externals.
#[local] Existing Instance StrategySamples.toy_libs.
#[local] Existing Instance StrategySamples.toy_u256.
#[local] Existing Instance StrategySamples.toy_rows.
#[local] Existing Instance StrategySamples.toy_rows_ok.

#[local] Instance toy_turn_libs : TurnLibs := {
  envelope_from_str _ := Err "no envelope";
  envelope_outcome_from_value _ := Err "no outcome";
  decision_trigger_from_value _ := Err "no trigger";
  number_text _ := "0";
}.

#[local] Instance toy_cost : CostApi := {
  cost_http_request _ _ := 1%N;
  cost_sign_with_ecdsa _ _ := Ok 1%N;
}.

(** A provider that first asks for a tool, and answers once it has the
    result. *)
#[local] Instance toy_adapters : InferenceAdapters := {
  infer_with_transcript _ _ _ transcript := mret
    match transcript with
    | [] => InferenceOutput.mk
              [ToolCall.mk (Some "c1") "list_goals" "{}"; ToolCall.mk (Some "c2") "memory_stats" "{}"]
              "Looking." None
    | _ => InferenceOutput.mk [] "Hello to you." None
    end;
  total_cycle_balance _ := (10 ^ 13)%N;
}.

(** The one after the other. *)
#[local] Instance toy_futures : JoinFutures := {
  join_futures A B (m : T A) (m' : T B) := a ← m; b ← m'; mret (a, b);
}.

Lemma toy_futures_run {A B} (m : T A) (m' : T B) s :
  (join_futures m m' : T (A * B)) s
  = match m s with
    | Done a s1 => match m' s1 with
                   | Done b s2 => Done (a, b) s2
                   | Fail e s2 => Fail e s2
                   | Trap => Trap
                   end
    | Fail e s1 => Fail e s1
    | Trap => Trap
    end.
Proof.
  simpl. unfold mbind, M_bind. destruct (m s) as [a s1|e s1|]; [|done|done].
  by destruct (m' s1).
Qed.

#[local] Instance toy_futures_ok : JoinFuturesOk toy_futures.
Proof.
  split; intros A B m m' s; rewrite toy_futures_run.
  - intros a b s'. destruct (m s) as [a1 s1|e s1|] eqn:Hm; [|done|done].
    destruct (m' s1) as [b1 s2|e s2|] eqn:Hm'; [|done|done]. intros [= <- <- <-]. eauto 6.
  - intros e s'. destruct (m s) as [a1 s1|e1 s1|] eqn:Hm; [| |done].
    + destruct (m' s1) as [b1 s2|e2 s2|] eqn:Hm'; [done| |done]. intros [= <- <-]. eauto.
    + intros [= <- <-]. eauto.
Qed.

Definition quiet : T string := mret "ok".

#[local] Instance toy_tools : Tools := {
  MarketFetchHandshake := unit;
  set_goal_tool _ _ := quiet;
  list_goals_tool _ := quiet;
  update_goal_tool _ _ := quiet;
  journal_args_from_str _ := Err "no entry";
  refresh_certification s := s;
  remember_fact_tool _ _ := quiet;
  recall_facts_tool _ := quiet;
  memory_stats_tool := quiet;
  sql_query_tool _ := quiet;
  forget_fact_tool _ := quiet;
  prepare_market_http_fetch_args _ := mthrow "no market";
  prepare_market_fetch_http_fetch_args _ := mthrow "no market";
  persist_market_fetch_handshake_success _ _ := mret tt;
  record_market_fetch_handshake_failure _ _ := mret tt;
  http_fetch_tool _ := quiet;
  web_search_tool _ := quiet;
  top_up_status_tool := quiet;
  trigger_top_up_tool := quiet;
  list_strategy_templates_tool _ := quiet;
  register_strategy_tool _ := quiet;
  describe_strategy_action_tool _ := quiet;
  simulate_strategy_action_tool _ := quiet;
  execute_strategy_action_tool _ _ _ _ := quiet;
  get_strategy_outcomes_tool _ := quiet;
  update_prompt_layer_tool _ _ := quiet;
  set_welcome_message_tool _ := quiet;
  post_room_message_tool _ := quiet;
  list_peers_tool _ := quiet;
  pay_peer_tool _ _ := quiet;
  reproduce_tool _ _ := quiet;
  evm_read_tool _ := quiet;
  validate_terminal_estate_transfer_args _ := Ok tt;
  send_eth_tool _ := mthrow "no funds";
  set_min_prices_tool _ := quiet;
  canister_call_tool _ := quiet;
  create_plan_tool _ _ := quiet;
  get_plan_tool _ := quiet;
  advance_plan_step_tool _ _ := quiet;
  list_plans_tool _ := quiet;
  schedule_follow_up_tool _ _ := quiet;
}.

#[local] Instance toy_ports : TurnPorts := {
  debug_str text := text;
  build_dynamic_context_with_scope _ _ _ _ _ := "context";
  derive_and_cache_evm_address _ := mthrow "no key";
  MockSignerAdapter := {| sign_message _ := quiet |};
  ThresholdSignerAdapter _ := {| sign_message _ := quiet |};
  report_starvation _ _ _ := mthrow "no factory";
}.

Lemma calm_quiet : calm quiet.
Proof. unfold quiet. calm_walk. Qed.

Lemma calm_refused {A} (error : string) : calm (mthrow error : T A).
Proof. calm_walk. Qed.

#[local] Instance toy_ports_undisturbed : PortsUndisturbed.
Proof.
  split.
  - intros args turn_id prior batch. rewrite !Forall_cons, Forall_nil.
    split_and!; [first [exact calm_quiet|apply calm_refused]..|done].
  - intros s. reflexivity.
  - intros args. split; apply calm_refused.
  - intros handshake turn_id. split; simpl; calm_walk.
  - intros A B m m' Hm Hm'. simpl. calm_walk; done.
  - intros provider snapshot input transcript. simpl. calm_walk.
  - intros factory turn_id disposition. apply calm_refused.
Qed.

(** *** A desk with a staged message *)

Definition message (id : string) (status : InboxMessageStatus.t) : InboxMessage.t :=
  InboxMessage.mk id 1 "Hello" 10 "0xabc" InboxMessageSource.EvmInbox status (Some 11%N) None.

Definition agent0 : Agent.t := Agent.mk 1000 (Some RuntimeSnapshot.default) None ∅ ∅ None ∅ ∅ ∅.
Definition desk_of (agent : Agent.t) (inbox : gmap string InboxMessage.t) : Desk.t :=
  Desk.mk (StrategySamples.empty_book <| Book.agent := agent |>) ∅ ∅ ∅ inbox ∅ ∅ ∅ ∅ ∅ ∅ ∅ ∅ ∅ ∅
    InferenceProxyRuntimeMetrics.default [].

Definition staged_desk : Desk.t :=
  desk_of agent0 {["m1" := message "m1" InboxMessageStatus.Staged]}.

Lemma desk_of_keyed agent id status : keyed_inbox (desk_of agent {[id := message id status]}).
Proof. intros id' m Hlookup. simpl in Hlookup. apply lookup_singleton_Some in Hlookup as [<- <-]. done. Qed.

Lemma desk_of_empty_keyed agent : keyed_inbox (desk_of agent ∅).
Proof. intros id m. simpl. by rewrite lookup_empty. Qed.

(** The desk after a turn, whether it returned or failed. *)
Definition after_turn (trigger : ScheduledTurnTrigger.t) (s : Desk.t) : Desk.t :=
  default s (final_state (run_scheduled_turn_job_with_trigger trigger s)).

(** The message is answered in two rounds, with the results of two tools. *)
Definition answered : Desk.t := after_turn ScheduledTurnTrigger.Periodic staged_desk.

Example answered_desk :
  InboxMessage.status <$> Desk.inbox answered !! "m1" = Some InboxMessageStatus.Consumed
  /\ (OutboxMessage.body ∘ snd <$> map_to_list (Desk.outbox answered)) = ["Hello to you."]
  /\ (TurnRecord.tool_call_count <$> Desk.turns answered !! "turn-1") = Some 2%N.
Proof. split_and!; vm_compute; reflexivity. Qed.

(** An agent that is about to die; the report to the factory fails. *)
Definition dying_agent : Agent.t :=
  agent0 <| Agent.runtime_snapshot := Some (RuntimeSnapshot.default <| RuntimeSnapshot.mortality :=
    MortalityRuntime.default <| MortalityRuntime.phase := MortalityPhase.TerminalPending |> |>) |>.
Definition dying_desk : Desk.t := desk_of dying_agent ∅.
Definition dead : Desk.t := after_turn ScheduledTurnTrigger.Periodic dying_desk.

(** *** The frame and the plan of a turn *)

Definition frame : Frame.t :=
  Frame.mk ScheduledTurnTrigger.Periodic 3 (10 ^ 11) 8 false RuntimeSnapshot.default [] "turn-1" 1000.
Definition plan : Plan.t :=
  Plan.mk None false (AutonomyPolicy.conservative_default 1000) None AutonomyExplorationState.default
    InferenceToolScope.Full
    (InferenceInput.mk "input" "context" "turn-1" InferenceToolScope.Full None false) ∅.
Definition start : Turn.t := Turn.start (desk_of agent0 ∅) AgentState.Inferring.

Definition recall : ToolCall.t := ToolCall.mk (Some "c1") "memory_stats" "{}".
Definition success_record : ToolCallRecord.t :=
  ToolCallRecord.mk "turn-0" "memory_stats" "{}" "ok" true ToolCallOutcome.Executed None None.
Definition failure_record : ToolCallRecord.t :=
  ToolCallRecord.mk "turn-0" "memory_stats" "{}" "" false ToolCallOutcome.Executed (Some "no table") None.
Definition config : AutonomySuppressionConfig.t := AutonomySuppressionConfig.default.
Definition second : N := 1000000000.

(** A desk with five hundred trackers of failed calls. *)
Definition crowded_desk : Desk.t :=
  desk_of agent0 ∅ <| Desk.autonomy_tool_failures :=
    list_to_map ((fun n => (AUTONOMY_TOOL_FAILURE_KEY_PREFIX +:+ pretty n,
                            AutonomyToolFailureTracker.default)) <$> (N.of_nat <$> seq 0 500)) |>.

(** *** The theorems at these turns *)

Lemma turn_releases_lock_witness :
  skip_turn ScheduledTurnTrigger.Periodic staged_desk = false
  /\ match run_scheduled_turn_job_with_trigger ScheduledTurnTrigger.Periodic staged_desk with
     | Done _ s' | Fail _ s' =>
         if skip_turn ScheduledTurnTrigger.Periodic staged_desk then s' = staged_desk
         else RuntimeSnapshot.turn_in_flight (snapshot_of s') = false
     | Trap => True
     end.
Proof.
  split; [by vm_compute|]. apply turn_releases_lock. apply desk_of_keyed.
Defined.

Lemma turn_answers_messages_witness :
  match run_scheduled_turn_job_with_trigger ScheduledTurnTrigger.Periodic staged_desk with
  | Done _ s' | Fail _ s' =>
      forall id message, Desk.inbox staged_desk !! id = Some message ->
      InboxMessage.status message <> InboxMessageStatus.Pending ->
      Desk.inbox s' !! id = Some message
      \/ exists at_ns key reply, Desk.inbox s' !! id = Some (consume at_ns message)
         /\ Desk.outbox s' !! key = Some reply /\ id ∈ OutboxMessage.source_inbox_ids reply
         /\ is_blank (OutboxMessage.body reply) = false
  | Trap => True
  end.
Proof. apply turn_answers_messages. apply desk_of_keyed. Defined.

Lemma terminal_turn_dies_witness :
  mortality_is_dead (agent dying_desk) = false /\ mortality_is_dead (agent dead) = true
  /\ match run_scheduled_turn_job_with_trigger ScheduledTurnTrigger.Periodic dying_desk with
     | Done _ s' | Fail _ s' => mortality_is_dead (agent s') = true
     | Trap => True
     end.
Proof.
  split_and!; [by vm_compute|by vm_compute|].
  apply terminal_turn_dies; [apply desk_of_empty_keyed|by vm_compute|by vm_compute].
Defined.

Lemma run_rounds_ends_witness :
  exists n t1, n <= Frame.max_inference_rounds frame /\ nsteps (goes_on frame plan) n start t1 /\
    match run_round frame plan t1 with
    | Done _ _ => False
    | Fail _ t2 => run_rounds frame plan start = Done tt t2
    | Trap => run_rounds frame plan start = Trap
    end.
Proof. apply run_rounds_ends; simpl; lia. Defined.

Definition returns {S E A} (o : outcome S E A) : bool :=
  match o with Done _ _ => true | _ => false end.

Lemma turn_record_bounds_witness :
  match run_turn frame (Turn.start (desk_of agent0 ∅) AgentState.Sleeping) with
  | Done _ t' =>
      exists record, Desk.turns (Turn.desk t') !! Frame.turn_id frame = Some record
        /\ (TurnRecord.inference_round_count record
            <= N.of_nat (Frame.max_inference_rounds frame) + 1)%N
        /\ (TurnRecord.tool_call_count record <= N.of_nat (Frame.max_tool_calls_per_turn frame))%N
        /\ TurnRecord.state_to record
           = (if is_some (TurnRecord.error record) then AgentState.Faulted else AgentState.Sleeping)
  | _ => False
  end.
Proof.
  assert (returns (run_turn frame (Turn.start (desk_of agent0 ∅) AgentState.Sleeping)) = true) as Hreturns
    by (vm_compute; reflexivity).
  destruct (run_turn _ _) as [finished_at_ns t'|e t'|] eqn:Hrun in Hreturns |- *;
    [|discriminate Hreturns..].
  exact (turn_record_bounds frame _ _ _ _ Hrun).
Defined.

Lemma success_suppresses_witness :
  suppression_reason recall (5 * second) config
    (record_autonomy_tool_outcomes [recall] [PlannedToolCallExecution.Execute] [success_record]
       (2 * second) config (desk_of agent0 ∅))
  = Some (AutonomySuppressionReason.Dedupe 3).
Proof.
  apply (success_suppresses [recall] [PlannedToolCallExecution.Execute] [success_record]
    (2 * second) (5 * second) config (desk_of agent0 ∅) 0 recall recall success_record);
    vm_compute; first [reflexivity|done].
Defined.

Lemma failures_suppress_witness :
  autonomy_tool_failure_cooldown (tool_call_fingerprint (ToolCall.tool recall) (ToolCall.args_json recall))
    (5 * second) (foldl (fail_round recall failure_record config) (desk_of agent0 ∅)
                    (2 * second :: [3 * second; 4 * second]))%N
  = Some (AutonomyToolFailureCooldown.mk "no table" 3
            (4 * second + secs_to_ns (AutonomySuppressionConfig.failure_cooldown_secs config)))%N.
Proof.
  etrans; [apply failures_suppress|].
  - reflexivity.
  - vm_compute. reflexivity.
  - vm_compute. reflexivity.
  - vm_compute. reflexivity.
  - vm_compute. split_and!; try exact I; discriminate.
  - vm_compute. reflexivity.
  - vm_compute. reflexivity.
Defined.

Lemma class_scope_blind_witness :
  autonomy_tool_failure_class_scope_cooldown "memory_stats" "scope" 7 crowded_desk = None.
Proof. apply class_scope_blind. apply Nat.leb_le. by vm_compute. Defined.

Lemma execute_actions_records_witness :
  match execute_actions_with_history (signer := turn_signer frame) ∅ AgentState.ExecutingActions
          [recall; recall] "turn-1" [] (desk_of agent0 ∅) with
  | Done records _ => Forall2 (record_of "turn-1") [recall; recall] records
  | Fail _ _ => False
  | Trap => True
  end.
Proof. apply execute_actions_records. Defined.

(** Nothing is suppressed at the start of a first turn. *)
Lemma nothing_suppressed :
  (suppressed ← suppress_round frame [recall; recall]; suppress_capped frame [recall; recall] suppressed) start
  = Done [] start.
Proof. vm_compute. reflexivity. Qed.

Lemma executed_calls_cleared_witness :
  tool_allowed_in_scope (ToolCall.tool recall) (Plan.tool_scope plan) = true
  /\ (should_apply_autonomy_suppression (Frame.trigger frame) (Frame.has_external_input frame)
        (Turn.inference_round_count start) = true ->
      suppression_reason recall (Frame.started_at_ns frame)
        (RuntimeSnapshot.autonomy_suppression (Frame.snapshot frame)) (Turn.desk start) = None)
  /\ (Frame.has_external_input frame = false ->
      DegradeTracking.consecutive_degrade_cap_by_tool (Turn.degrade start) !! ToolCall.tool recall = None).
Proof.
  apply (executed_calls_cleared frame plan ToolSequenceValidator.new [recall; recall] start start [] 1 recall
    nothing_suppressed).
  - reflexivity.
  - vm_compute. reflexivity.
Defined.

Lemma round_records_match_witness :
  match execute_round frame plan "" [recall; recall] [] start with
  | Done (execution, records, _) t' =>
      Forall2 (record_matches (Frame.turn_id frame)) [recall; recall] records
      /\ length execution = 2 /\ Turn.last_error t' = None
  | Fail _ t' => Turn.last_error t' = None
      /\ Turn.continuation_stop_reason t' = ContinuationStopReason.MaxDuration
  | Trap => True
  end.
Proof. exact (round_records_match frame plan "" [recall; recall] [] start start nothing_suppressed eq_refl). Defined.
End TurnSamples.
