(* ===== verification/AgentConfig.v ===== *)
(** * AgentConfig: the automaton's configuration

    Models the setters of [components/ic-automaton/src/storage/stable.rs] that
    the steward, the controller and the installation write the configuration
    with: the loop, the suppression of repeated calls, inference, web search,
    the discovery worker, the EVM route, the steward, the welcome message, and
    the allowlist of HTTP domains with its table of [storage/sqlite.rs].

    [config_change_ok]: a change is refused and leaves the state as it was, or
    is made and keeps the configuration valid.  [allowlist_exact]: the
    allowlist holds the normal forms of the domains that were given, once each,
    in order. *)

From S2P Require Import Prelude Text SpawnProtocol Types Externals AgentTypes TopUpTypes TopUp AgentStore StrategyTypes StrategyStore StrategyValidator StrategyPolicy TurnTypes TurnStore Sanitize TurnText.
From Stdlib Require Import Ascii.

Definition Cfg : Type -> Type := M Agent.t string.

Definition change_snapshot (change : RuntimeSnapshot.t -> RuntimeSnapshot.t) : Cfg unit :=
  modify (update_snapshot change).
(** Most setters note the time of the change. *)
Definition touch_snapshot (change : RuntimeSnapshot.t -> RuntimeSnapshot.t) : Cfg unit :=
  modify (fun s => update_snapshot (fun snapshot =>
    change snapshot <| RuntimeSnapshot.last_transition_at_ns := Agent.clock s |>) s).

Definition delete_runtime_scalar (key : string) (s : Agent.t) : Agent.t :=
  s <| Agent.runtime_scalars ::= delete key |>.

(** [trim_end_matches('/')]. *)
Definition trim_end_slashes (text : string) : string :=
  concat_str (rev (drop_while (fun c => bool_decide (c = "/")) (rev (chars text)))).
(** [trim_start_matches('[')]. *)
Definition trim_start_brackets (text : string) : string :=
  concat_str (drop_while (fun c => bool_decide (c = "[")) (chars text)).

(** ** URLs *)

Definition is_local_http_url (url : string) : bool :=
  match strip_prefix url "http://" with
  | None => false
  | Some without_scheme =>
      let authority := first_segment "/" without_scheme in
      if is_empty authority then false
      else
        let host :=
          if starts_with authority "[" then trim_start_brackets (first_segment "]" authority)
          else first_segment ":" authority in
        bool_decide (host ∈ ["localhost"; "127.0.0.1"; "0.0.0.0"; "::1"])
  end.

Definition normalize_https_url (raw field : string) : result string string :=
  let trimmed := trim_end_slashes (trim raw) in
  err_if (is_empty trimmed) (field +:+ " cannot be empty");;
  let lowered := to_ascii_lowercase trimmed in
  if starts_with lowered "https://" then Ok trimmed
  else if starts_with lowered "http://" && is_local_http_url lowered then Ok trimmed
  else Err (field +:+ " must be an https:// URL or localhost http:// URL").

(** ** The agent and its suppression of repeated calls *)

Definition MAX_AUTONOMY_DEDUPE_WINDOW_SECS : N := 24 * 60 * 60.
Definition MIN_AUTONOMY_FAILURE_REPEAT_WINDOW_SECS : N := 1.
Definition MAX_AUTONOMY_FAILURE_REPEAT_WINDOW_SECS : N := 7 * 24 * 60 * 60.
Definition MIN_AUTONOMY_FAILURE_REPEAT_THRESHOLD : N := 1.
Definition MAX_AUTONOMY_FAILURE_REPEAT_THRESHOLD : N := 100.
Definition MIN_AUTONOMY_FAILURE_COOLDOWN_SECS : N := 1.
Definition MAX_AUTONOMY_FAILURE_COOLDOWN_SECS : N := 7 * 24 * 60 * 60.

Definition check_suppression_range (field : string) (low high value : N) : result string unit :=
  err_if ((value <? low)%N || (high <? value)%N)
    ("autonomy suppression " +:+ field +:+ " must be in " +:+ pretty low +:+ "..=" +:+ pretty high).

Definition validate_autonomy_suppression_config (config : AutonomySuppressionConfig.t)
    : result string unit :=
  err_if (MAX_AUTONOMY_DEDUPE_WINDOW_SECS
          <? AutonomySuppressionConfig.dedupe_window_secs config)%N
    ("autonomy suppression dedupe_window_secs must be in 0..="
     +:+ pretty MAX_AUTONOMY_DEDUPE_WINDOW_SECS);;
  check_suppression_range "failure_repeat_window_secs" MIN_AUTONOMY_FAILURE_REPEAT_WINDOW_SECS
    MAX_AUTONOMY_FAILURE_REPEAT_WINDOW_SECS
    (AutonomySuppressionConfig.failure_repeat_window_secs config);;
  check_suppression_range "failure_repeat_threshold" MIN_AUTONOMY_FAILURE_REPEAT_THRESHOLD
    MAX_AUTONOMY_FAILURE_REPEAT_THRESHOLD
    (AutonomySuppressionConfig.failure_repeat_threshold config);;
  check_suppression_range "failure_cooldown_secs" MIN_AUTONOMY_FAILURE_COOLDOWN_SECS
    MAX_AUTONOMY_FAILURE_COOLDOWN_SECS (AutonomySuppressionConfig.failure_cooldown_secs config).

Definition set_autonomy_tool_dedupe_enabled (enabled : bool) : Cfg AutonomySuppressionConfig.t :=
  touch_snapshot (fun snapshot => snapshot <| RuntimeSnapshot.autonomy_suppression ::=
    fun config => config <| AutonomySuppressionConfig.tool_dedupe_enabled := enabled |> |>);;
  gets (fun s => RuntimeSnapshot.autonomy_suppression (runtime_snapshot s)).

Definition set_autonomy_suppression_config (config : AutonomySuppressionConfig.t)
    : Cfg AutonomySuppressionConfig.t :=
  lift (validate_autonomy_suppression_config config);;
  touch_snapshot (fun snapshot => snapshot <| RuntimeSnapshot.autonomy_suppression := config |>);;
  mret config.

Definition set_soul (soul : string) : Cfg string :=
  touch_snapshot (fun snapshot => snapshot <| RuntimeSnapshot.soul := soul |>);;
  mret soul.

Definition MAX_WELCOME_MESSAGE_CHARS : N := 2000.
Definition WELCOME_MESSAGE_KEY : string := "ui.welcome_message".

Definition set_welcome_message (message : string) : Cfg string :=
  let normalized := trim message in
  fail_if (MAX_WELCOME_MESSAGE_CHARS <? char_count normalized)%N
    ("welcome message must not exceed " +:+ pretty MAX_WELCOME_MESSAGE_CHARS +:+ " characters");;
  modify (if is_empty normalized then delete_runtime_scalar WELCOME_MESSAGE_KEY
          else set_runtime_scalar WELCOME_MESSAGE_KEY normalized);;
  mret normalized.

(** ** Inference *)

(** A change of provider, model, address or key ends the suppression. *)
Definition reset_inference_suppression (snapshot : RuntimeSnapshot.t) : RuntimeSnapshot.t :=
  snapshot <| RuntimeSnapshot.autonomy_inference_suppression :=
    AutonomyInferenceSuppressionState.default |>.

Definition set_inference_provider (provider : InferenceProvider.t) : Cfg unit :=
  touch_snapshot (fun snapshot => reset_inference_suppression
    (snapshot <| RuntimeSnapshot.inference_provider := provider |>)).

Definition set_inference_model (model : string) : Cfg string :=
  fail_if (is_blank model) "inference model cannot be empty";;
  touch_snapshot (fun snapshot => reset_inference_suppression
    (snapshot <| RuntimeSnapshot.inference_model := trim model |>));;
  mret (trim model).

Definition set_openrouter_base_url (base_url : string) : Cfg string :=
  fail_if (is_blank base_url) "openrouter base url cannot be empty";;
  let base_url := trim_end_slashes (trim base_url) in
  touch_snapshot (fun snapshot => reset_inference_suppression
    (snapshot <| RuntimeSnapshot.openrouter_base_url := base_url |>));;
  mret base_url.

(** [lib.rs]'s [normalize_optional_trimmed] is the same function. *)
Definition normalize_optional_trimmed (value : option string) : option string :=
  entry ← value; if is_empty (trim entry) then None else Some (trim entry).

Definition set_openrouter_api_key (api_key : option string) : Cfg unit :=
  touch_snapshot (fun snapshot => reset_inference_suppression
    (snapshot <| RuntimeSnapshot.openrouter_api_key := normalize_optional_trimmed api_key |>)).

Definition set_openrouter_reasoning_level (level : OpenRouterReasoningLevel.t)
    : Cfg OpenRouterReasoningLevel.t :=
  touch_snapshot (fun snapshot => snapshot <| RuntimeSnapshot.openrouter_reasoning_level := level |>);;
  mret level.

Definition set_openrouter_proxy_config (config : OpenRouterProxyWorkerConfig.t)
    : Cfg OpenRouterProxyWorkerConfig.t :=
  let worker_base_url := trim_end_slashes (trim (OpenRouterProxyWorkerConfig.worker_base_url config)) in
  fail_if (is_empty worker_base_url) "openrouter proxy worker_base_url cannot be empty";;
  principal ← lift (ok_or (OpenRouterProxyWorkerConfig.trusted_callback_principal config)
    "openrouter proxy trusted_callback_principal is required");
  let stored := OpenRouterProxyWorkerConfig.mk worker_base_url (Some principal) in
  touch_snapshot (fun snapshot => snapshot <| RuntimeSnapshot.openrouter_proxy := stored |>);;
  mret stored.

Definition assert_inference_proxy_callback_authorized (caller_principal : Principal) (s : Agent.t)
    : result string unit :=
  expected ← ok_or (OpenRouterProxyWorkerConfig.trusted_callback_principal
                      (RuntimeSnapshot.openrouter_proxy (runtime_snapshot s)))
    "inference proxy trusted callback principal is not configured";
  err_if (bool_decide (caller_principal <> expected))
    ("unauthorized inference proxy callback caller=" +:+ caller_principal
     +:+ " expected=" +:+ expected).

Section LlmCanister.
Context `{ext : Externals}.

(** [Principal::from_text] yields the principal's canonical text. *)
Definition set_llm_canister_id (canister_id : string) : Cfg string :=
  fail_if (is_blank canister_id) "llm canister id cannot be empty";;
  normalized ← lift (map_err (fun error => "invalid llm canister id: " +:+ error)
                       (principal_from_text (trim canister_id)));
  touch_snapshot (fun snapshot => snapshot <| RuntimeSnapshot.llm_canister_id := normalized |>);;
  mret normalized.
End LlmCanister.

(** ** Web search *)

Definition set_search_api_key (api_key : option string) : Cfg unit :=
  modify match api_key with
         | Some key => set_runtime_scalar SEARCH_API_KEY_KEY key
         | None => delete_runtime_scalar SEARCH_API_KEY_KEY
         end.

Definition set_search_max_per_turn (max_per_turn : option N) : Cfg unit :=
  match max_per_turn with
  | Some value =>
      fail_if (value =? 0)%N "search max_per_turn must be at least 1";;
      modify (set_runtime_scalar SEARCH_MAX_PER_TURN_KEY (pretty value))
  | None => modify (delete_runtime_scalar SEARCH_MAX_PER_TURN_KEY)
  end.

(** [lib.rs]: the key is stored before the limit is looked at. *)
Definition apply_search_config (api_key : string) (max_searches_per_turn : option N) : Cfg string :=
  fail_if (is_blank api_key) "search api key must not be empty";;
  set_search_api_key (Some (trim api_key));;
  set_search_max_per_turn max_searches_per_turn;;
  mret "search_configured".

(** ** The discovery worker *)

Definition normalize_strategy_discovery_watchlist_entry (entry : ProtocolWatchlistEntry.t)
    : result string ProtocolWatchlistEntry.t :=
  let id := trim (ProtocolWatchlistEntry.id entry) in
  err_if (is_empty id) "strategy discovery watchlist id cannot be empty";;
  err_if (ProtocolWatchlistEntry.chain_id entry =? 0)%N
    ("strategy discovery watchlist id=" +:+ id +:+ " chain_id must be greater than zero");;
  let market_data_api_url := trim (ProtocolWatchlistEntry.market_data_api_url entry) in
  err_if (is_empty market_data_api_url)
    ("strategy discovery watchlist id=" +:+ id +:+ " market_data_api_url cannot be empty");;
  let abi_api_url := trim (ProtocolWatchlistEntry.abi_api_url entry) in
  err_if (is_empty abi_api_url)
    ("strategy discovery watchlist id=" +:+ id +:+ " abi_api_url cannot be empty");;
  pool_address ← normalize_evm_address (ProtocolWatchlistEntry.pool_address entry);
  Ok (ProtocolWatchlistEntry.mk id (ProtocolWatchlistEntry.chain_id entry) pool_address
        market_data_api_url abi_api_url).

(** What an enabled worker needs. *)
Definition check_discovery_enabled (config : StrategyDiscoveryWorkerConfig.t) : result string unit :=
  err_if (is_empty (StrategyDiscoveryWorkerConfig.worker_base_url config))
    "strategy discovery worker_base_url cannot be empty when enabled";;
  err_if (negb (is_some (StrategyDiscoveryWorkerConfig.worker_api_key config)))
    "strategy discovery worker_api_key is required when enabled";;
  err_if (negb (is_some (StrategyDiscoveryWorkerConfig.trusted_callback_principal config)))
    "strategy discovery trusted_callback_principal is required when enabled";;
  err_if (is_empty (StrategyDiscoveryWorkerConfig.objective config))
    "strategy discovery objective cannot be empty when enabled";;
  err_if (bool_decide (StrategyDiscoveryWorkerConfig.protocol_watchlist config = []))
    "strategy discovery protocol_watchlist cannot be empty when enabled".

Definition normalize_discovery_config (config : StrategyDiscoveryWorkerConfig.t)
    : result string StrategyDiscoveryWorkerConfig.t :=
  let worker_base_url :=
    trim_end_slashes (trim (StrategyDiscoveryWorkerConfig.worker_base_url config)) in
  let objective := trim (StrategyDiscoveryWorkerConfig.objective config) in
  protocol_watchlist ← try_map normalize_strategy_discovery_watchlist_entry
    (StrategyDiscoveryWorkerConfig.protocol_watchlist config);
  let worker_api_key :=
    normalize_optional_trimmed (StrategyDiscoveryWorkerConfig.worker_api_key config) in
  let stored := StrategyDiscoveryWorkerConfig.mk (StrategyDiscoveryWorkerConfig.enabled config)
    worker_base_url worker_api_key
    (StrategyDiscoveryWorkerConfig.trusted_callback_principal config)
    (StrategyDiscoveryWorkerConfig.result_ttl_secs config) objective protocol_watchlist in
  (if StrategyDiscoveryWorkerConfig.enabled config then check_discovery_enabled stored else Ok tt);;
  err_if (StrategyDiscoveryWorkerConfig.result_ttl_secs config =? 0)%N
    "strategy discovery result_ttl_secs must be greater than zero";;
  Ok stored.

Definition set_strategy_discovery_worker_config (config : StrategyDiscoveryWorkerConfig.t)
    : Cfg StrategyDiscoveryWorkerConfig.t :=
  stored ← lift (normalize_discovery_config config);
  touch_snapshot (fun snapshot =>
    snapshot <| RuntimeSnapshot.strategy_discovery_worker := stored |>);;
  mret stored.

Definition assert_strategy_discovery_callback_authorized (caller_principal : Principal)
    (s : Agent.t) : result string unit :=
  expected ← ok_or (StrategyDiscoveryWorkerConfig.trusted_callback_principal
                      (RuntimeSnapshot.strategy_discovery_worker (runtime_snapshot s)))
    "strategy discovery trusted callback principal is not configured";
  err_if (bool_decide (caller_principal <> expected))
    ("unauthorized strategy discovery callback caller=" +:+ caller_principal
     +:+ " expected=" +:+ expected).

(** ** The EVM route *)

Definition set_ecdsa_key_name (key_name : string) : Cfg string :=
  fail_if (is_blank key_name) "ecdsa key name cannot be empty";;
  touch_snapshot (fun snapshot => snapshot <| RuntimeSnapshot.ecdsa_key_name := trim key_name |>);;
  mret (trim key_name).

Definition evm_address_to_topic (address : string) : string :=
  "0x" +:+ pad_64 (default address (strip_prefix address "0x")).

(** An address that may be absent, in normal form. *)
Definition normalize_optional_address (message : string) (address : option string)
    : result string (option string) :=
  match address with
  | Some raw => normalized ← map_err (fun _ => message) (normalize_evm_address raw);
                Ok (Some normalized)
  | None => Ok None
  end.

Definition set_evm_address (address : option string) : Cfg (option string) :=
  normalized ← lift (normalize_optional_address
    "evm address must be a 0x-prefixed 20-byte hex string" address);
  touch_snapshot (fun snapshot => snapshot
    <| RuntimeSnapshot.evm_address := normalized |>
    <| RuntimeSnapshot.evm_cursor ::= fun cursor => cursor
         <| EvmPollCursor.automaton_address_topic := evm_address_to_topic <$> normalized |> |>);;
  mret normalized.

Definition set_inbox_contract_address (address : option string) : Cfg (option string) :=
  normalized ← lift (normalize_optional_address
    "inbox contract address must be a 0x-prefixed 20-byte hex string" address);
  touch_snapshot (fun snapshot => snapshot
    <| RuntimeSnapshot.inbox_contract_address := normalized |>
    <| RuntimeSnapshot.evm_cursor ::= fun cursor => cursor
         <| EvmPollCursor.contract_address := normalized |> |>);;
  mret normalized.

Definition set_evm_chain_id (chain_id : N) : Cfg N :=
  fail_if (chain_id =? 0)%N "evm chain id must be greater than 0";;
  touch_snapshot (fun snapshot => snapshot <| RuntimeSnapshot.evm_cursor ::= fun cursor => cursor
    <| EvmPollCursor.chain_id := chain_id |>
    <| EvmPollCursor.next_block := 0%N |>
    <| EvmPollCursor.next_log_index := 0%N |>
    <| EvmPollCursor.last_poll_at_ns := 0%N |>
    <| EvmPollCursor.consecutive_empty_polls := 0%N |> |>);;
  mret chain_id.

Definition MAX_EVM_CONFIRMATION_DEPTH : N := 100.

Definition set_evm_confirmation_depth (confirmation_depth : N) : Cfg N :=
  fail_if (MAX_EVM_CONFIRMATION_DEPTH <? confirmation_depth)%N
    ("evm confirmation depth must be <= " +:+ pretty MAX_EVM_CONFIRMATION_DEPTH);;
  touch_snapshot (fun snapshot => snapshot <| RuntimeSnapshot.evm_cursor ::= fun cursor => cursor
    <| EvmPollCursor.confirmation_depth := confirmation_depth |> |>);;
  mret confirmation_depth.

Definition set_evm_bootstrap_lookback_blocks (lookback_blocks : N) : Cfg N :=
  touch_snapshot (fun snapshot =>
    snapshot <| RuntimeSnapshot.evm_bootstrap_lookback_blocks := lookback_blocks |>);;
  mret lookback_blocks.

Definition set_evm_rpc_url (url : string) : Cfg string :=
  normalized ← lift (normalize_https_url url "evm rpc url");
  touch_snapshot (fun snapshot => snapshot <| RuntimeSnapshot.evm_rpc_url := normalized |>);;
  mret normalized.

Definition set_evm_rpc_fallback_url (url : option string) : Cfg (option string) :=
  normalized ← lift match normalize_optional_trimmed url with
    | Some trimmed => normalized ← normalize_https_url trimmed "evm rpc fallback url";
                      Ok (Some normalized)
    | None => Ok None
    end;
  touch_snapshot (fun snapshot => snapshot <| RuntimeSnapshot.evm_rpc_fallback_url := normalized |>);;
  mret normalized.

(** A setter that [AgentStore] gives as a function on the state. *)
Definition from_store {A} (op : Agent.t -> result string (A * Agent.t)) : Cfg A :=
  s ← get_state; '(a, s) ← lift (op s); put_state s;; mret a.

(** ** The steward *)

Definition normalize_steward_state (steward : StewardState.t) : result string StewardState.t :=
  err_if (StewardState.chain_id steward =? 0)%N "steward chain id must be greater than 0";;
  address ← map_err (fun _ => "steward address must be a 0x-prefixed 20-byte hex string")
    (normalize_evm_address (StewardState.address steward));
  let steward := steward <| StewardState.address := address |> in
  err_if (bool_decide (StewardState.principal steward = Some ANONYMOUS_PRINCIPAL))
    "steward principal cannot be anonymous";;
  Ok steward.

Definition same_identity (current updated : StewardState.t) : bool :=
  (StewardState.chain_id current =? StewardState.chain_id updated)%N
  && bool_decide (StewardState.address current = StewardState.address updated).

Definition steward_identity_rotated (previous : option StewardState.t) (updated : StewardState.t)
    : bool := is_none_or (fun current => negb (same_identity current updated)) previous.

Definition active_steward (s : Agent.t) : option StewardState.t :=
  RuntimeSnapshot.active_steward (runtime_snapshot s).
Definition next_nonce (s : Agent.t) : N :=
  StewardNonceState.next_nonce (RuntimeSnapshot.steward_nonce (runtime_snapshot s)).

Definition set_active_steward (steward : option StewardState.t) : Cfg (option StewardState.t) :=
  normalized ← lift match steward with
    | Some steward => normalized ← normalize_steward_state steward; Ok (Some normalized)
    | None => Ok None
    end;
  touch_snapshot (fun snapshot => snapshot <| RuntimeSnapshot.active_steward := normalized |>);;
  mret normalized.

Definition set_active_steward_with_nonce_reset_on_rotation (steward : StewardState.t)
    : Cfg StewardState.t :=
  normalized ← lift (normalize_steward_state steward);
  previous ← gets active_steward;
  if steward_identity_rotated previous normalized then
    let normalized := normalized <| StewardState.principal := None |> in
    touch_snapshot (fun snapshot => snapshot
      <| RuntimeSnapshot.steward_nonce := StewardNonceState.default |>
      <| RuntimeSnapshot.active_steward := Some normalized |>);;
    mret normalized
  else
    let normalized :=
      if is_some (StewardState.principal normalized) then normalized
      else normalized <| StewardState.principal := previous ≫= StewardState.principal |> in
    touch_snapshot (fun snapshot => snapshot
      <| RuntimeSnapshot.active_steward := Some normalized |>);;
    mret normalized.

Definition set_active_steward_principal (principal : option Principal) : Cfg (option Principal) :=
  fail_if (bool_decide (principal = Some ANONYMOUS_PRINCIPAL))
    "steward principal cannot be anonymous";;
  previous ← gets active_steward;
  active ← lift (ok_or previous "no active steward configured");
  touch_snapshot (fun snapshot => snapshot <| RuntimeSnapshot.active_steward :=
    Some (active <| StewardState.principal := principal |>) |>);;
  mret principal.

(** ** The allowlist of HTTP domains *)

Module CanisterCallType.
Inductive t :=
| Query
| Update.
End CanisterCallType.

Module CanisterCallPermission.
Record t := mk {
  canister_id : string;
  method : string;
  call_type : CanisterCallType.t;
}.
End CanisterCallPermission.

Module SkillRecord.
Record t := mk {
  name : string;
  description : string;
  instructions : string;
  enabled : bool;
  mutable : bool;
  allowed_canister_calls : list CanisterCallPermission.t;
}.
End SkillRecord.

Module MemoryFact.
Record t := mk {
  key : string;
  value : string;
  created_at_ns : N;
  updated_at_ns : N;
  source_turn_id : string;
}.
End MemoryFact.

Module PromptLayer.
Record t := mk {
  layer_id : N;
  content : string;
  updated_at_ns : N;
  updated_by_turn : string;
  version : N;
}.
#[global] Instance eta_t : Eta t := fun self =>
  mk (layer_id self) (content self) (updated_at_ns self) (updated_by_turn self) (version self).
End PromptLayer.

(** The tables of domains, skills, memory facts and prompt layers, beside those
    of a turn. *)
Module House.
Record t := mk {
  desk : Desk.t;
  http_domain_allowlist : gset string;
  skills : gmap string SkillRecord.t;
  memory_facts : gmap string MemoryFact.t;
  prompt_layers : gmap N PromptLayer.t;
}.
#[global] Instance eta_t : Eta t := fun self =>
  mk (desk self) (http_domain_allowlist self) (skills self) (memory_facts self)
    (prompt_layers self).
End House.

Definition H : Type -> Type := M House.t string.

Definition house_agent (s : House.t) : Agent.t := agent (House.desk s).
Definition on_house_agent (f : Agent.t -> Agent.t) (s : House.t) : House.t :=
  s <| House.desk ::= on_agent f |>.
(** A setter of the configuration, of the whole state. *)
Definition configure {A} (m : Cfg A) : H A :=
  zoom house_agent (fun agent => on_house_agent (fun _ => agent)) m.

Definition HTTP_ALLOWLIST_INITIALIZED_KEY : string := "http.allowlist.initialized".

(** A byte of ASCII that is a letter or a digit, or a hyphen as well. *)
Definition alphanumeric_byte (a : ascii) : bool := ascii_alphanumeric (String a "").
Definition label_byte (a : ascii) : bool := alphanumeric_byte a || (byte_of a =? 45)%N.

Definition label_ends_ok (label : string) : bool :=
  is_some_and alphanumeric_byte (head (str_bytes label))
  && is_some_and alphanumeric_byte (last (str_bytes label)).
Definition label_bytes_ok (label : string) : bool := forallb label_byte (str_bytes label).

Definition check_domain_label (label : string) : result string unit :=
  err_if (is_empty label) "http allowed domain labels must not be empty";;
  err_if (negb (label_ends_ok label))
    "http allowed domain labels must start and end with alphanumeric characters";;
  err_if (negb (label_bytes_ok label)) "http allowed domain labels may only contain [a-z0-9-]".

Definition normalize_http_allowed_domain (raw : string) : result string string :=
  let domain := to_ascii_lowercase (trim raw) in
  err_if (is_empty domain) "http allowed domain cannot be empty";;
  err_if (existsb (contains domain) ["://"; "/"; "?"; "#"; "@"; ":"])
    "http allowed domain must be a bare host without scheme/path/port";;
  err_if (starts_with domain "." || ends_with domain ".")
    "http allowed domain must not start or end with '.'";;
  try_each (split_on "." domain) check_domain_label;;
  Ok domain.

Definition list_allowed_http_domains (s : House.t) : list string :=
  merge_sort key_le (elements (House.http_domain_allowlist s)).
Definition is_http_allowlist_enforced (s : House.t) : bool :=
  default false (runtime_bool HTTP_ALLOWLIST_INITIALIZED_KEY (House.desk s)).

(** [Vec::dedup]. *)
Fixpoint dedup (l : list string) : list string :=
  match l with
  | x :: ((y :: _) as l') => if bool_decide (x = y) then dedup l' else x :: dedup l'
  | _ => l
  end.

(** The table's rows change, and the list counts as configured. *)
Definition write_domains (f : gset string -> gset string) (s : House.t) : House.t :=
  s <| House.http_domain_allowlist ::= f |>
    <| House.desk ::= save_runtime_bool HTTP_ALLOWLIST_INITIALIZED_KEY true |>.

Definition set_http_allowed_domains (domains : list string) : H (list string) :=
  normalized ← lift (try_map normalize_http_allowed_domain domains);
  let normalized := dedup (merge_sort key_le normalized) in
  modify (write_domains (fun _ => list_to_set normalized));;
  mret normalized.

Definition add_http_allowed_domain (domain : string) : H string :=
  normalized ← lift (normalize_http_allowed_domain domain);
  modify (write_domains (fun domains => {[normalized]} ∪ domains));;
  mret normalized.

Definition remove_http_allowed_domain (domain : string) : H bool :=
  normalized ← lift (normalize_http_allowed_domain domain);
  removed ← gets (fun s => bool_decide (normalized ∈ House.http_domain_allowlist s));
  modify (write_domains (fun domains => domains ∖ {[normalized]}));;
  mret removed.

(** ** The allowlist is what it was given *)

Lemma elem_of_try_map {E A B} (f : A -> result E B) (l : list A) ys y :
  try_map f l = Ok ys -> y ∈ ys <-> exists x, x ∈ l /\ f x = Ok y.
Proof.
  intros Hl. split; [by eapply try_map_elem|]. intros (x & Hx & Hy). apply try_map_Ok in Hl.
  apply list_elem_of_lookup in Hx as [i Hi].
  destruct (Forall2_lookup_l _ _ _ _ _ Hl Hi) as (y' & Hi' & Hy'). rewrite Hy in Hy'.
  injection Hy' as <-. by eapply list_elem_of_lookup_2.
Qed.

Lemma try_map_Err {E A B} (f : A -> result E B) (l : list A) e :
  try_map f l = Err e -> exists x, x ∈ l /\ f x = Err e.
Proof.
  induction l as [|x l IH]; [done|]. cbn [try_map].
  destruct (f x) as [y|e'] eqn:Hx; simpl; [|intros [= <-]; exists x; split; [left|done]].
  destruct (try_map f l) as [ys|e']; [done|]. intros [= <-].
  destruct (IH eq_refl) as (z & Hz & He). exists z. split; [by right|done].
Qed.

Lemma normalize_http_allowed_domain_Ok raw domain :
  normalize_http_allowed_domain raw = Ok domain -> domain = to_ascii_lowercase (trim raw).
Proof.
  unfold normalize_http_allowed_domain. intros Hok.
  do 3 apply err_if_seq_Ok in Hok as [_ Hok]. by apply result_seq_Ok in Hok as [_ [= <-]].
Qed.

Lemma normalize_http_allowed_domain_idem raw domain :
  normalize_http_allowed_domain raw = Ok domain -> normalize_http_allowed_domain domain = Ok domain.
Proof.
  intros Hok. assert (to_ascii_lowercase (trim domain) = domain) as Hdomain.
  { apply normalize_http_allowed_domain_Ok in Hok as ->.
    by rewrite trim_lower, trim_idem, to_ascii_lowercase_idem. }
  pose proof (normalize_http_allowed_domain_Ok _ _ Hok) as Hraw.
  rewrite <-Hok. unfold normalize_http_allowed_domain. by rewrite Hdomain, <-Hraw.
Qed.

Lemma dedup_cons x y l :
  dedup (x :: y :: l) = if bool_decide (x = y) then dedup (y :: l) else x :: dedup (y :: l).
Proof. done. Qed.

Lemma elem_of_dedup l x : x ∈ dedup l <-> x ∈ l.
Proof.
  induction l as [|y [|z l] IH]; [done|done|]. rewrite dedup_cons. case_bool_decide as Hyz.
  - rewrite IH. subst. set_solver.
  - rewrite elem_of_cons, IH. set_solver.
Qed.

Lemma dedup_sorted l :
  StronglySorted key_le l -> StronglySorted key_le (dedup l) /\ NoDup (dedup l).
Proof.
  induction l as [|y [|z l] IH]; intros Hl; [split; [done|constructor]|split; [done|]|].
  { apply NoDup_singleton. }
  apply StronglySorted_inv in Hl as [Hl Hall]. destruct (IH Hl) as [Hsorted Hdup].
  rewrite dedup_cons. case_bool_decide as Hyz; [done|]. split.
  - constructor; [done|]. rewrite Forall_forall in *. intros x Hx. apply Hall. by rewrite elem_of_dedup in Hx.
  - constructor; [|done]. rewrite elem_of_dedup. intros Hin. apply Hyz.
    apply StronglySorted_inv in Hl as [_ Htail]. rewrite Forall_forall in Hall, Htail.
    apply elem_of_cons in Hin as [|Hin]; [done|].
    apply (anti_symm key_le); [apply Hall; left|auto].
Qed.

Lemma sorted_set_unique l (domains : gset string) :
  StronglySorted key_le l -> NoDup l -> (forall x, x ∈ domains <-> x ∈ l) ->
  merge_sort key_le (elements domains) = l.
Proof.
  intros Hsorted Hdup Hiff. apply (StronglySorted_unique key_le); [|done|].
  - apply (StronglySorted_merge_sort key_le).
  - etrans; [apply merge_sort_Permutation|]. apply NoDup_Permutation; [apply NoDup_elements|done|].
    intros x. by rewrite elem_of_elements.
Qed.

(** The allowlist is the list it was given: [set_http_allowed_domains] refuses
    a list with an entry that is no bare host and leaves the state as it was,
    or stores the normal forms of exactly the entries given, each once, in
    ascending order, and from then on the allowlist is enforced.  What is
    stored is in normal form, so setting it again changes nothing. *)
Theorem allowlist_exact (domains : list string) (s : House.t) :
  match set_http_allowed_domains domains s with
  | Done stored s' =>
      stored = list_allowed_http_domains s'
      /\ (forall domain, domain ∈ stored <->
           exists raw, raw ∈ domains /\ normalize_http_allowed_domain raw = Ok domain)
      /\ NoDup stored /\ StronglySorted key_le stored
      /\ Forall (fun domain => normalize_http_allowed_domain domain = Ok domain) stored
      /\ is_http_allowlist_enforced s' = true
  | Fail e s' => s' = s /\ exists raw, raw ∈ domains /\ normalize_http_allowed_domain raw = Err e
  | Trap => False
  end.
Proof.
  unfold set_http_allowed_domains.
  destruct (try_map normalize_http_allowed_domain domains) as [normalized|e] eqn:Hmap.
  - exec. set (stored := dedup _).
    destruct (dedup_sorted (merge_sort key_le normalized)) as [Hsorted Hdup];
      [apply (StronglySorted_merge_sort key_le)|].
    assert (forall domain, domain ∈ stored <->
      exists raw, raw ∈ domains /\ normalize_http_allowed_domain raw = Ok domain) as Hiff.
    { intros domain. unfold stored. rewrite elem_of_dedup, merge_sort_Permutation.
      by apply elem_of_try_map. }
    split; [|split; [done|split; [done|split; [done|split]]]].
    + symmetry. unfold list_allowed_http_domains. apply sorted_set_unique; [done..|].
      intros x. unfold write_domains. simpl_set. by rewrite elem_of_list_to_set.
    + apply Forall_forall. intros domain (raw & _ & Hraw)%Hiff.
      by eapply normalize_http_allowed_domain_idem.
    + unfold is_http_allowlist_enforced, write_domains. simpl_set.
      unfold save_runtime_bool, runtime_bool, get_runtime_scalar, set_runtime_scalar.
      unfold on_agent, agent. simpl_set. by rewrite lookup_insert_eq.
  - exec. split; [done|]. by apply try_map_Err.
Qed.

(** ** The configuration stays valid *)

(** What an accepted URL is. *)
Definition endpoint_ok (url : string) : Prop :=
  url <> "" /\ (starts_with (to_ascii_lowercase url) "https://"
                || starts_with (to_ascii_lowercase url) "http://"
                   && is_local_http_url (to_ascii_lowercase url)) = true.

(** An address as [normalize_evm_address] leaves it. *)
Definition address_ok (address : string) : Prop := normalize_evm_address address = Ok address.

Definition steward_ok (steward : StewardState.t) : Prop :=
  StewardState.chain_id steward <> 0%N /\ address_ok (StewardState.address steward)
  /\ StewardState.principal steward <> Some ANONYMOUS_PRINCIPAL.

Definition discovery_ok (config : StrategyDiscoveryWorkerConfig.t) : Prop :=
  (StrategyDiscoveryWorkerConfig.enabled config = true -> check_discovery_enabled config = Ok tt)
  /\ StrategyDiscoveryWorkerConfig.result_ttl_secs config <> 0%N
  /\ Forall (fun entry => ProtocolWatchlistEntry.chain_id entry <> 0%N
                          /\ address_ok (ProtocolWatchlistEntry.pool_address entry))
       (StrategyDiscoveryWorkerConfig.protocol_watchlist config).

(** Callbacks are trusted only with a worker to send them. *)
Definition proxy_ok (config : OpenRouterProxyWorkerConfig.t) : Prop :=
  is_Some (OpenRouterProxyWorkerConfig.trusted_callback_principal config) ->
  OpenRouterProxyWorkerConfig.worker_base_url config <> "".

Definition cursor_ok (cursor : EvmPollCursor.t) : Prop :=
  EvmPollCursor.chain_id cursor <> 0%N
  /\ (EvmPollCursor.confirmation_depth cursor <= MAX_EVM_CONFIRMATION_DEPTH)%N.

Record config_ok (c : RuntimeSnapshot.t) : Prop := {
  ok_rpc_url : endpoint_ok (RuntimeSnapshot.evm_rpc_url c);
  ok_fallback_url : from_option endpoint_ok True (RuntimeSnapshot.evm_rpc_fallback_url c);
  ok_response_bytes : (0 < RuntimeSnapshot.evm_rpc_max_response_bytes c
                       <= MAX_EVM_RPC_RESPONSE_BYTES)%N;
  ok_cursor : cursor_ok (RuntimeSnapshot.evm_cursor c);
  ok_address : from_option address_ok True (RuntimeSnapshot.evm_address c);
  ok_topic : EvmPollCursor.automaton_address_topic (RuntimeSnapshot.evm_cursor c)
             = evm_address_to_topic <$> RuntimeSnapshot.evm_address c;
  ok_inbox : from_option address_ok True (RuntimeSnapshot.inbox_contract_address c);
  ok_inbox_cursor : EvmPollCursor.contract_address (RuntimeSnapshot.evm_cursor c)
                    = RuntimeSnapshot.inbox_contract_address c;
  ok_steward : from_option steward_ok True (RuntimeSnapshot.active_steward c);
  ok_suppression :
    validate_autonomy_suppression_config (RuntimeSnapshot.autonomy_suppression c) = Ok tt;
  ok_model : RuntimeSnapshot.inference_model c <> "";
  ok_proxy : proxy_ok (RuntimeSnapshot.openrouter_proxy c);
  ok_discovery : discovery_ok (RuntimeSnapshot.strategy_discovery_worker c);
}.

(** The changes, one for each setter. *)
Module ConfigChange.
Inductive t :=
| LoopEnabled (enabled : bool)
| ToolDedupeEnabled (enabled : bool)
| SuppressionConfig (config : AutonomySuppressionConfig.t)
| Soul (soul : string)
| WelcomeMessage (message : string)
| Provider (provider : InferenceProvider.t)
| Model (model : string)
| LlmCanister (canister_id : string)
| OpenrouterBaseUrl (base_url : string)
| OpenrouterApiKey (api_key : option string)
| ReasoningLevel (level : OpenRouterReasoningLevel.t)
| ProxyConfig (config : OpenRouterProxyWorkerConfig.t)
| DiscoveryWorker (config : StrategyDiscoveryWorkerConfig.t)
| EcdsaKeyName (key_name : string)
| EvmAddress (address : option string)
| InboxContract (address : option string)
| EvmChainId (chain_id : N)
| ConfirmationDepth (confirmation_depth : N)
| BootstrapLookback (lookback_blocks : N)
| EvmRpcUrl (url : string)
| EvmRpcFallbackUrl (url : option string)
| EvmRpcResponseBytes (max_response_bytes : N)
| ActiveSteward (steward : option StewardState.t)
| RotateSteward (steward : StewardState.t)
| StewardPrincipal (principal : option Principal)
| SearchMaxPerTurn (max_per_turn : option N).
End ConfigChange.

(** The setter without its answer. *)
Definition discard {A} (m : Cfg A) : Cfg unit := m;; mret tt.

Definition apply_change `{ext : Externals} (change : ConfigChange.t) : Cfg unit :=
  match change with
  | ConfigChange.LoopEnabled enabled => modify (set_loop_enabled enabled)
  | ConfigChange.ToolDedupeEnabled enabled => discard (set_autonomy_tool_dedupe_enabled enabled)
  | ConfigChange.SuppressionConfig config => discard (set_autonomy_suppression_config config)
  | ConfigChange.Soul soul => discard (set_soul soul)
  | ConfigChange.WelcomeMessage message => discard (set_welcome_message message)
  | ConfigChange.Provider provider => set_inference_provider provider
  | ConfigChange.Model model => discard (set_inference_model model)
  | ConfigChange.LlmCanister canister_id => discard (set_llm_canister_id canister_id)
  | ConfigChange.OpenrouterBaseUrl base_url => discard (set_openrouter_base_url base_url)
  | ConfigChange.OpenrouterApiKey api_key => set_openrouter_api_key api_key
  | ConfigChange.ReasoningLevel level => discard (set_openrouter_reasoning_level level)
  | ConfigChange.ProxyConfig config => discard (set_openrouter_proxy_config config)
  | ConfigChange.DiscoveryWorker config => discard (set_strategy_discovery_worker_config config)
  | ConfigChange.EcdsaKeyName key_name => discard (set_ecdsa_key_name key_name)
  | ConfigChange.EvmAddress address => discard (set_evm_address address)
  | ConfigChange.InboxContract address => discard (set_inbox_contract_address address)
  | ConfigChange.EvmChainId chain_id => discard (set_evm_chain_id chain_id)
  | ConfigChange.ConfirmationDepth depth => discard (set_evm_confirmation_depth depth)
  | ConfigChange.BootstrapLookback blocks => discard (set_evm_bootstrap_lookback_blocks blocks)
  | ConfigChange.EvmRpcUrl url => discard (set_evm_rpc_url url)
  | ConfigChange.EvmRpcFallbackUrl url => discard (set_evm_rpc_fallback_url url)
  | ConfigChange.EvmRpcResponseBytes bytes =>
      discard (from_store (set_evm_rpc_max_response_bytes bytes))
  | ConfigChange.ActiveSteward steward => discard (set_active_steward steward)
  | ConfigChange.RotateSteward steward =>
      discard (set_active_steward_with_nonce_reset_on_rotation steward)
  | ConfigChange.StewardPrincipal principal => discard (set_active_steward_principal principal)
  | ConfigChange.SearchMaxPerTurn max_per_turn => set_search_max_per_turn max_per_turn
  end.

(** ** Normal forms are valid *)

Lemma normalize_https_url_Ok raw field url :
  normalize_https_url raw field = Ok url -> endpoint_ok url.
Proof.
  unfold normalize_https_url. intros [Hne Hok]%err_if_seq_Ok. apply is_empty_false in Hne.
  set (trimmed := trim_end_slashes _) in *. unfold endpoint_ok.
  destruct (starts_with _ "https://") eqn:Hs; [injection Hok as <-; by rewrite Hs|].
  destruct (starts_with _ "http://" && _) eqn:Hl; [|done]. injection Hok as <-. by rewrite Hl, orb_true_r.
Qed.

Lemma normalize_evm_address_Ok raw address :
  normalize_evm_address raw = Ok address -> address_ok address.
Proof.
  intros Hok. assert (to_ascii_lowercase (trim address) = address) as Haddress.
  { unfold normalize_evm_address in Hok. apply err_if_seq_Ok in Hok as [_ [= <-]].
    by rewrite trim_lower, trim_idem, to_ascii_lowercase_idem. }
  assert (to_ascii_lowercase (trim raw) = address) as Hraw.
  { unfold normalize_evm_address in Hok. by apply err_if_seq_Ok in Hok as [_ [= <-]]. }
  unfold address_ok. rewrite <-Hok. unfold normalize_evm_address. by rewrite Haddress, Hraw.
Qed.

Lemma normalize_optional_address_Ok message raw address :
  normalize_optional_address message raw = Ok address -> from_option address_ok True address.
Proof.
  destruct raw as [raw|]; simpl; [|by intros [= <-]].
  intros (normalized & Hok & [= <-])%result_bind_Ok. apply map_err_Ok in Hok.
  by eapply normalize_evm_address_Ok.
Qed.

Lemma normalize_steward_state_Ok raw steward :
  normalize_steward_state raw = Ok steward -> steward_ok steward.
Proof.
  unfold normalize_steward_state. intros [Hchain Hok]%err_if_seq_Ok.
  apply result_bind_Ok in Hok as (address & Haddress & Hok).
  apply map_err_Ok, normalize_evm_address_Ok in Haddress.
  apply err_if_seq_Ok in Hok as [Hanon [= <-]]. apply N.eqb_neq in Hchain.
  by apply bool_decide_eq_false in Hanon.
Qed.

Lemma normalize_discovery_config_Ok raw config :
  normalize_discovery_config raw = Ok config -> discovery_ok config.
Proof.
  unfold normalize_discovery_config. intros (watchlist & Hmap & Hok)%result_bind_Ok.
  apply result_seq_Ok in Hok as [Hcheck Hok]. apply err_if_seq_Ok in Hok as [Httl [= <-]].
  apply N.eqb_neq in Httl. split; [|split; [done|]]; cbn.
  - intros Henabled. rewrite Henabled in Hcheck. apply is_ok_unit in Hcheck.
    by rewrite <-Hcheck, Henabled.
  - apply Forall_forall. intros entry Hentry.
    destruct (try_map_elem _ _ _ _ Hmap Hentry) as (raw' & _ & Hentry').
    unfold normalize_strategy_discovery_watchlist_entry in Hentry'.
    apply err_if_seq_Ok in Hentry' as [_ H0]. apply err_if_seq_Ok in H0 as [Hchain H0].
    do 2 apply err_if_seq_Ok in H0 as [_ H0].
    apply result_bind_Ok in H0 as (address & Haddress & [= <-]). cbn.
    split; [by apply N.eqb_neq|]. by eapply normalize_evm_address_Ok.
Qed.

(** ** A change is refused, or keeps the configuration *)

Definition snapshot_ok (s : Agent.t) : Prop := config_ok (runtime_snapshot s).

Definition keeps {A} (m : Cfg A) : Prop := forall s, snapshot_ok s ->
  match m s with Done _ s' => snapshot_ok s' | Fail _ s' => s' = s | Trap => False end.

Lemma keeps_lift {A B} (r : result string A) (k : A -> Cfg B) :
  (forall a, r = Ok a -> keeps (k a)) -> keeps (a ← lift r; k a).
Proof. intros Hk s Hs. destruct r as [a|e]; exec; [by apply Hk|done]. Qed.

Lemma keeps_fail_if {B} (b : bool) e (k : Cfg B) :
  (b = false -> keeps k) -> keeps (fail_if b e;; k).
Proof. intros Hk s Hs. destruct b; exec; [done|by apply Hk]. Qed.

Lemma keeps_gets {A B} (f : Agent.t -> A) (k : A -> Cfg B) :
  (forall s, snapshot_ok s -> match k (f s) s with
     Done _ s' => snapshot_ok s' | Fail _ s' => s' = s | Trap => False end) -> keeps (a ← gets f; k a).
Proof. intros Hk s Hs. exec. by apply Hk. Qed.

Lemma snapshot_update change s : runtime_snapshot (update_snapshot change s) = change (runtime_snapshot s).
Proof. done. Qed.

Lemma config_ok_touched c t : config_ok c -> config_ok (c <| RuntimeSnapshot.last_transition_at_ns := t |>).
Proof. intros []. split; simpl_set; done. Qed.

Lemma keeps_touch {A} change (a : Agent.t -> A) :
  (forall c, config_ok c -> config_ok (change c)) -> keeps (touch_snapshot change;; gets a).
Proof.
  intros Hchange s Hs. unfold touch_snapshot. exec. unfold snapshot_ok. rewrite snapshot_update.
  by apply config_ok_touched, Hchange.
Qed.

Lemma keeps_discard {A} (m : Cfg A) : keeps m -> keeps (discard m).
Proof.
  intros Hm s Hs. specialize (Hm s Hs). unfold discard, mbind, M_bind. by destruct (m s).
Qed.

Lemma keeps_modify_agent f : (forall s, snapshot_ok s -> snapshot_ok (f s)) -> keeps (modify f).
Proof. intros Hf s Hs. by apply Hf. Qed.

(** Each field of the configuration is either the one before, or new and valid. *)
Ltac solve_config_ok :=
  intros c [Hurl Hfallback Hbytes Hcursor Haddress Htopic Hinbox Hinbox_cursor Hsteward Hsuppression
            Hmodel Hproxy Hdiscovery];
  split; unfold reset_inference_suppression; simpl_set; try assumption.

Ltac keeps_setter :=
  apply keeps_discard;
  repeat first [ apply keeps_lift; intros ? ? | apply keeps_fail_if; intros ? ];
  apply keeps_touch; solve_config_ok.

Lemma touched change s :
  snapshot_ok s -> (forall c, config_ok c -> config_ok (change c)) ->
  match touch_snapshot change s with Done _ s' => snapshot_ok s' | _ => False end.
Proof. intros Hs Hchange. exact (keeps_touch change (fun _ => tt) Hchange s Hs). Qed.

(** The last step of a setter that has read the state [s]. *)
Ltac touch_at s Hs :=
  exec; match goal with
  | |- context [touch_snapshot ?f s] =>
      let Hchange := fresh in
      cut (forall c, config_ok c -> config_ok (f c));
      [intros Hchange; generalize (touched f s Hs Hchange); by destruct (touch_snapshot f s)|]
  end.

Section ConfigChanges.
Context `{ext : Externals}.

Lemma keeps_suppression config : keeps (discard (set_autonomy_suppression_config config)).
Proof. apply keeps_discard, keeps_lift. intros [] Hok. by apply keeps_touch; solve_config_ok. Qed.

Lemma keeps_dedupe enabled : keeps (discard (set_autonomy_tool_dedupe_enabled enabled)).
Proof. by keeps_setter. Qed.

Lemma keeps_model model : keeps (discard (set_inference_model model)).
Proof. keeps_setter. by apply is_blank_false. Qed.

Lemma keeps_proxy config : keeps (discard (set_openrouter_proxy_config config)).
Proof. keeps_setter. intros _. cbn. by apply is_empty_false. Qed.

Lemma keeps_discovery config : keeps (discard (set_strategy_discovery_worker_config config)).
Proof. keeps_setter. by eapply normalize_discovery_config_Ok. Qed.

Lemma keeps_evm_address address : keeps (discard (set_evm_address address)).
Proof. keeps_setter; [by eapply normalize_optional_address_Ok|done]. Qed.

Lemma keeps_inbox_contract address : keeps (discard (set_inbox_contract_address address)).
Proof. keeps_setter; [by eapply normalize_optional_address_Ok|done]. Qed.

Lemma keeps_chain_id chain_id : keeps (discard (set_evm_chain_id chain_id)).
Proof. keeps_setter. destruct Hcursor. split; simpl_set; [by apply N.eqb_neq|done]. Qed.

Lemma keeps_confirmation_depth depth : keeps (discard (set_evm_confirmation_depth depth)).
Proof. keeps_setter. destruct Hcursor. split; simpl_set; [done|by apply N.ltb_ge]. Qed.

Lemma keeps_rpc_url url : keeps (discard (set_evm_rpc_url url)).
Proof. keeps_setter. by eapply normalize_https_url_Ok. Qed.

Lemma keeps_fallback_url url : keeps (discard (set_evm_rpc_fallback_url url)).
Proof.
  keeps_setter. destruct (normalize_optional_trimmed url) as [trimmed|];
    [|by match goal with H : _ = Ok _ |- _ => injection H as <- end].
  match goal with H : _ = Ok _ |- _ =>
    apply result_bind_Ok in H as (normalized & Hok & [= <-]) end.
  by eapply normalize_https_url_Ok.
Qed.

Lemma keeps_response_bytes bytes : keeps (discard (from_store (set_evm_rpc_max_response_bytes bytes))).
Proof.
  apply keeps_discard. intros s Hs. unfold from_store, set_evm_rpc_max_response_bytes. exec.
  destruct (bytes =? 0)%N eqn:Hzero; [done|]. cbn [err_if mbind result_bind].
  destruct (MAX_EVM_RPC_RESPONSE_BYTES <? bytes)%N eqn:Hmax; [done|].
  apply N.eqb_neq in Hzero. apply N.ltb_ge in Hmax. cbn. unfold snapshot_ok.
  change (config_ok (runtime_snapshot s <| RuntimeSnapshot.evm_rpc_max_response_bytes := bytes |>
    <| RuntimeSnapshot.last_transition_at_ns := Agent.clock s |>)).
  apply config_ok_touched. revert Hs. unfold snapshot_ok. generalize (runtime_snapshot s).
  solve_config_ok. lia.
Qed.

Lemma keeps_steward steward : keeps (discard (set_active_steward steward)).
Proof.
  keeps_setter. destruct steward as [steward|];
    [|by match goal with H : _ = Ok _ |- _ => injection H as <- end].
  match goal with H : _ = Ok _ |- _ =>
    apply result_bind_Ok in H as (normalized & Hok & [= <-]) end.
  by eapply normalize_steward_state_Ok.
Qed.

Lemma keeps_rotation steward :
  keeps (discard (set_active_steward_with_nonce_reset_on_rotation steward)).
Proof.
  apply keeps_discard, keeps_lift. intros normalized (Hchain & Haddr & Hanon)%normalize_steward_state_Ok.
  apply keeps_gets. intros s Hs. destruct (steward_identity_rotated _ _).
  - touch_at s Hs. solve_config_ok. by split_and!.
  - touch_at s Hs. solve_config_ok. simpl.
    destruct (is_some (StewardState.principal normalized)); [by split_and!|].
    split_and!; simpl_set; [done|done|]. pose proof (ok_steward _ Hs) as Hactive.
    unfold active_steward. destruct (RuntimeSnapshot.active_steward (runtime_snapshot s)); [|done].
    by destruct Hactive as (_ & _ & Hprincipal).
Qed.

Lemma keeps_principal principal : keeps (discard (set_active_steward_principal principal)).
Proof.
  apply keeps_discard, keeps_fail_if. intros Hanon. apply bool_decide_eq_false in Hanon.
  apply keeps_gets. intros s Hs. pose proof (ok_steward _ Hs) as Hactive. unfold active_steward.
  destruct (RuntimeSnapshot.active_steward (runtime_snapshot s)) as [active|]; [|done]. exec.
  touch_at s Hs. solve_config_ok. by destruct Hactive as (? & ? & _).
Qed.

(** C12 - Every change is refused or made.  From a valid configuration, a setter that
    fails leaves the state as it was, and one that succeeds leaves a valid
    configuration: endpoints that are [https] or pass for local, addresses in
    normal form with their topic and their copy in the poll cursor in step, a
    chain, bounded confirmation depth and response sizes, a steward with a
    chain, an address and no anonymous principal, suppression windows in range,
    a model, and workers with an address and a key whenever they are trusted
    or enabled.  The configuration a canister starts with is valid. *)
Theorem config_change_ok (change : ConfigChange.t) (s : Agent.t) (Hs : snapshot_ok s) :
  match apply_change change s with
  | Done _ s' => snapshot_ok s'
  | Fail _ s' => s' = s
  | Trap => False
  end.
Proof.
  revert s Hs. change (keeps (apply_change change)). destruct change; simpl.
  - apply keeps_modify_agent. intros s Hs. unfold snapshot_ok, set_loop_enabled in *.
    rewrite snapshot_update. revert Hs. generalize (runtime_snapshot s). by solve_config_ok.
  - apply keeps_dedupe.
  - apply keeps_suppression.
  - by keeps_setter.
  - apply keeps_discard, keeps_fail_if. intros _ s Hs. exec. by case_match.
  - intros s Hs. by refine (keeps_touch _ (fun _ => tt) _ s Hs); solve_config_ok.
  - apply keeps_model.
  - by keeps_setter.
  - by keeps_setter.
  - intros s Hs. by refine (keeps_touch _ (fun _ => tt) _ s Hs); solve_config_ok.
  - by keeps_setter.
  - apply keeps_proxy.
  - apply keeps_discovery.
  - by keeps_setter.
  - apply keeps_evm_address.
  - apply keeps_inbox_contract.
  - apply keeps_chain_id.
  - apply keeps_confirmation_depth.
  - by keeps_setter.
  - apply keeps_rpc_url.
  - apply keeps_fallback_url.
  - apply keeps_response_bytes.
  - apply keeps_steward.
  - apply keeps_rotation.
  - apply keeps_principal.
  - intros s Hs. unfold set_search_max_per_turn. destruct max_per_turn as [value|]; [|done].
    by destruct (value =? 0)%N.
Qed.
End ConfigChanges.

Lemma config_default_ok : config_ok RuntimeSnapshot.default.
Proof. split; vm_compute; repeat split; try done; try discriminate. by intros [x ?]. Qed.

(** Web search is the exception: a budget of no searches is refused after the
    key has been stored, so the refused call enables web search. *)
Theorem refused_search_stores_key (api_key : string) (s : Agent.t) (Hkey : is_blank api_key = false) :
  apply_search_config api_key (Some 0%N) s
    = Fail "search max_per_turn must be at least 1"
        (set_runtime_scalar SEARCH_API_KEY_KEY (trim api_key) s).
Proof. unfold apply_search_config. by rewrite Hkey. Qed.

(** The test for a local address looks at the text up to the first colon, so
    an authority with user information passes for local. *)
Theorem local_url_userinfo :
  normalize_https_url "http://localhost:x@rpc.example/" "evm rpc url"
    = Ok "http://localhost:x@rpc.example".
Proof. by vm_compute. Qed.

(** *** Witnesses *)

Module ConfigSamples.
Definition agent : Agent.t := Agent.mk 7 None None ∅ ∅ None ∅ ∅ ∅.
Definition rotation : StewardState.t :=
  StewardState.mk 8453 "0xABCDEFabcdef0123456789012345678901234567" true None (Some "p").
End ConfigSamples.

Lemma config_change_ok_witness :
  match @apply_change toy_externals (ConfigChange.RotateSteward ConfigSamples.rotation)
          ConfigSamples.agent with
  | Done _ s' => snapshot_ok s'
  | _ => False
  end.
Proof.
  pose proof (@config_change_ok toy_externals (ConfigChange.RotateSteward ConfigSamples.rotation)
    ConfigSamples.agent config_default_ok) as Hok.
  assert (match @apply_change toy_externals (ConfigChange.RotateSteward ConfigSamples.rotation)
            ConfigSamples.agent with Done _ _ => true | _ => false end = true) as Hdone
    by (vm_compute; reflexivity).
  destruct (@apply_change toy_externals _ ConfigSamples.agent); [exact Hok|done|done].
Defined.

Lemma refused_search_stores_key_witness :
  apply_search_config " k" (Some 0%N) ConfigSamples.agent
    = Fail "search max_per_turn must be at least 1"
        (set_runtime_scalar SEARCH_API_KEY_KEY "k" ConfigSamples.agent).
Proof. exact (refused_search_stores_key " k" ConfigSamples.agent eq_refl). Defined.
