(* ===== verification/EvmRpc.v ===== *)
(** * EvmRpc: HTTP outcalls and the EVM JSON-RPC client

    Models [HttpEvmRpcClient] of [components/ic-automaton/src/features/evm.rs]
    in the canister build, with the decoding of response bodies as UTF-8.  The
    outcall itself belongs to the management canister: [OutcallPlatform] says
    what it answers, and may change any of the automaton's state, as other
    messages do while the outcall is awaited.

    [rpc_call_requests]: whatever an RPC call learns comes from requests with
    its own body to the configured endpoints, with the response bounded; and
    [rpc_call_unaffordable]: nothing is sent that the canister cannot pay. *)

From S2P Require Import Prelude Text SpawnProtocol Types Externals AgentTypes AgentDomain TopUpTypes TopUp AgentStore StrategyTypes StrategyStore StrategyPolicy StrategyExecution TurnTypes TurnStore Sanitize TurnText AgentConfig.
From Stdlib Require Import Ascii Strings.Byte.

(** ** UTF-8

    The well-formed sequences of the Unicode standard.  [utf8_head]: whether a
    text of bytes begins with a character, and how many bytes the character or
    the ill-formed part takes. *)

Definition between (low high n : N) : bool := ((low <=? n) && (n <=? high))%N.
(** A continuation byte; past the end there is none. *)
Definition continues (byte : option N) : bool := is_some_and (between 128 191) byte.

Definition second_byte_ok (first : N) (second : option N) : bool :=
  is_some_and
    (if (first =? 224)%N then between 160 191
     else if (first =? 237)%N then between 128 159
     else if (first =? 240)%N then between 144 191
     else if (first =? 244)%N then between 128 143
     else between 128 191) second.

Definition utf8_head (bytes : list N) : bool * nat :=
  let second := bytes !! 1 in
  let third := bytes !! 2 in
  let fourth := bytes !! 3 in
  match bytes with
  | [] => (true, 0)
  | first :: _ =>
      if (first <? 128)%N then (true, 1)
      else if between 194 223 first then
        if continues second then (true, 2) else (false, 1)
      else if between 224 239 first then
        if negb (second_byte_ok first second) then (false, 1)
        else if continues third then (true, 3) else (false, 2)
      else if between 240 244 first then
        if negb (second_byte_ok first second) then (false, 1)
        else if negb (continues third) then (false, 2)
        else if continues fourth then (true, 4) else (false, 3)
      else (false, 1)
  end.

(** Every chunk takes a byte, so as many rounds as there are bytes are enough. *)
Fixpoint utf8_chunks (rounds : nat) (bytes : list ascii) : list (bool * list ascii) :=
  match rounds, bytes with
  | S rounds, _ :: _ =>
      let '(valid, len) := utf8_head (byte_of <$> bytes) in
      (valid, take len bytes) :: utf8_chunks rounds (drop len bytes)
  | _, _ => []
  end.
Definition chunks_of (text : string) : list (bool * list ascii) :=
  utf8_chunks (String.length text) (str_bytes text).

(** [String::from_utf8] and [String::from_utf8_lossy]. *)
Definition from_utf8 (text : string) : option string :=
  if forallb fst (chunks_of text) then Some text else None.

Definition REPLACEMENT_CHARACTER : string :=
  String.string_of_list_ascii (ascii_of_N <$> [239; 191; 189]%N).
Definition from_utf8_lossy (text : string) : string :=
  concat_str ((fun chunk : bool * list ascii =>
    if chunk.1 then String.string_of_list_ascii chunk.2 else REPLACEMENT_CHARACTER)
    <$> chunks_of text).

(** ** Outcalls *)

Module HttpMethod.
Inductive t :=
| GET
| POST.
End HttpMethod.

(** [HttpRequestArgs]; there is no transform. *)
Module HttpRequest.
Record t := mk {
  url : string;
  max_response_bytes : N;
  method : HttpMethod.t;
  headers : list (string * string);
  body : option string;
  is_replicated : bool;
}.
End HttpRequest.

Module HttpResponse.
Record t := mk {
  status : N;
  body : string;
}.
End HttpResponse.

(** The management canister's [http_request], whose error is its [Display],
    and the canister's liquid cycles. *)
Class OutcallPlatform := {
  http_request : HttpRequest.t -> H HttpResponse.t;
  canister_liquid_cycle_balance : House.t -> N;
}.

(** [status.to_string().parse::<u16>()]. *)
Definition nat_to_u16 (status : N) : result string N :=
  if (status <=? max_uint 16)%N then Ok status
  else Err ("invalid HTTP status " +:+ pretty status +:+ ": number too large to fit in target type").

Definition is_success (status : N) : bool := between 200 299 status.

(** ** Numbers *)

(** [u64::from_str_radix(_, 16)], with its errors in the order it meets them. *)
Fixpoint hex_digits_u64 (acc : N) (text : string) : result string N :=
  match text with
  | EmptyString => Ok acc
  | String a text =>
      match hex_value a with
      | None => Err "invalid digit found in string"
      | Some digit =>
          if (acc * 16 + digit <=? max_uint 64)%N then hex_digits_u64 (acc * 16 + digit) text
          else Err "number too large to fit in target type"
      end
  end.
Definition u64_from_hex (text : string) : result string N :=
  if is_empty text then Err "cannot parse integer from empty string"
  else
    match strip_prefix text "+" with
    | Some "" => Err "invalid digit found in string"
    | Some digits => hex_digits_u64 0 digits
    | None => hex_digits_u64 0 text
    end.

Definition parse_hex_u64 (raw field : string) : result string N :=
  let value := trim raw in
  without_prefix ← ok_or
    match strip_prefix value "0x" with
    | Some rest => Some rest
    | None => strip_prefix value "0X"
    end (field +:+ " must be 0x-prefixed hex");
  map_err (fun error => "failed to parse " +:+ field +:+ " as hex u64: " +:+ error)
    (u64_from_hex without_prefix).

(** [{:x}]. *)
Definition lower_hex (n : N) : string :=
  let digits := drop_while (fun c => bool_decide (c = "0"))
    (chars (hex_fixed (N.to_nat (N.size n)) n)) in
  if bool_decide (digits = []) then "0" else concat_str digits.

(** ** The client *)

Definition HTTP_ERROR_BODY_PREVIEW_BYTES : nat := 256.
Definition CONTROL_PLANE_MAX_RESPONSE_BYTES : N := 4 * 1024.

Module HttpEvmRpcClient.
Record t := mk {
  rpc_url : string;
  fallback_rpc_url : option string;
  max_response_bytes : N;
}.
End HttpEvmRpcClient.

Definition clamp_response_bytes (max_response_bytes : N) : N :=
  N.min (N.max max_response_bytes 256) MAX_EVM_RPC_RESPONSE_BYTES.

Definition from_snapshot (snapshot : RuntimeSnapshot.t) : result string HttpEvmRpcClient.t :=
  let rpc_url := trim (RuntimeSnapshot.evm_rpc_url snapshot) in
  err_if (is_empty rpc_url) "evm rpc url is not configured";;
  Ok (HttpEvmRpcClient.mk rpc_url (RuntimeSnapshot.evm_rpc_fallback_url snapshot)
        (clamp_response_bytes (RuntimeSnapshot.evm_rpc_max_response_bytes snapshot))).

(** [replace(['\r', '\n'], " ")]. *)
Definition join_lines (text : string) : string :=
  map_str (fun a => if (byte_of a =? 10)%N || (byte_of a =? 13)%N then ascii_of_N 32 else a) text.

Definition http_error_body_preview (body : string) : string :=
  let preview_len := Nat.min (String.length body) HTTP_ERROR_BODY_PREVIEW_BYTES in
  let preview := trim (join_lines (from_utf8_lossy (String.substring 0 preview_len body))) in
  if is_empty preview then ""
  else if bool_decide (preview_len < String.length body) then preview +:+ "..." else preview.

Definition format_http_status_error (status : N) (body : string) : string :=
  let preview := http_error_body_preview body in
  if is_empty preview then "evm rpc returned status " +:+ pretty status
  else "evm rpc returned status " +:+ pretty status +:+ ": " +:+ preview.

(** The text of an [i64]. *)
Definition pretty_Z (n : Z) : string :=
  match n with Zneg p => "-" +:+ pretty (Npos p) | _ => pretty (Z.to_N n) end.

Section Client.
Context `{cost : CostApi, platform : OutcallPlatform, libs : StrategyLibs}.

Definition format_rpc_error (method : string) (error : Value.t) : string :=
  let code : option Z := Value.get "code" error ≫= Value.as_i64 in
  let message : option string := Value.get "message" error ≫= Value.as_str in
  "rpc returned error for " +:+ method +:+ ": " +:+
  match code, message with
  | Some code, Some message => "code=" +:+ pretty_Z code +:+ " message=" +:+ message
  | Some code, None => "code=" +:+ pretty_Z code
  | None, _ => value_text error
  end.

Definition ensure_http_affordable (request_size_bytes max_response_bytes : N) : H unit :=
  estimated ← lift (estimate_operation_cost (OperationClass.HttpOutcall request_size_bytes
                      (clamp_response_bytes max_response_bytes)));
  reserve ← gets (fun s => operation_reserve_floor_cycles (house_agent s));
  let requirements := affordability_requirements estimated DEFAULT_SAFETY_MARGIN_BPS reserve in
  liquid ← gets canister_liquid_cycle_balance;
  fail_if (negb (can_afford liquid requirements))
    ("insufficient cycles for evm rpc outcall: need "
     +:+ pretty (AffordabilityRequirements.required_cycles requirements)
     +:+ " liquid, have " +:+ pretty liquid).

Definition rpc_request (url body : string) (max_response_bytes : N) : HttpRequest.t :=
  HttpRequest.mk url max_response_bytes HttpMethod.POST
    [("content-type", "application/json")] (Some body) false.

Definition try_http_post (url body : string) (max_response_bytes : N) : H string :=
  response ← map_fail (fun error => "evm rpc outcall failed: " +:+ error)
    (http_request (rpc_request url body max_response_bytes));
  status ← lift (nat_to_u16 (HttpResponse.status response));
  fail_if (negb (is_success status))
    (format_http_status_error status (HttpResponse.body response));;
  mret (HttpResponse.body response).

Definition http_post (client : HttpEvmRpcClient.t) (body : string) (max_response_bytes : N)
    : H string :=
  let normalized_max := clamp_response_bytes max_response_bytes in
  result ← (catch (try_http_post (HttpEvmRpcClient.rpc_url client) body normalized_max)
            : H (result string string));
  match result with
  | Ok body => mret body
  | Err primary_error =>
      match HttpEvmRpcClient.fallback_rpc_url client with
      | Some fallback_url =>
          map_fail (fun fallback_error =>
            "primary rpc failed: " +:+ primary_error +:+ "; fallback rpc failed: "
            +:+ fallback_error) (try_http_post fallback_url body normalized_max)
      | None => mthrow primary_error
      end
  end.

Definition rpc_body (method : string) (params : Value.t) : string :=
  value_text (Value.Object (list_to_map
    [("jsonrpc", Value.String "2.0"); ("method", Value.String method); ("params", params);
     ("id", Value.Number (JsonNumber.PosInt 1))])).

Definition rpc_call (client : HttpEvmRpcClient.t) (method : string) (params : Value.t)
    (max_response_bytes : N) : H Value.t :=
  let body := rpc_body method params in
  ensure_http_affordable (str_len body) max_response_bytes;;
  raw ← http_post client body max_response_bytes;
  value ← lift (map_err (fun error =>
    "failed to parse " +:+ method +:+ " response JSON: " +:+ error) (value_from_str raw));
  match Value.get "error" value with
  | Some error => mthrow (format_rpc_error method error)
  | None => mret value
  end.

(** ** Its methods *)

(** [rpc_call] with the method in front of its errors. *)
Definition named_rpc_call (client : HttpEvmRpcClient.t) (method : string) (params : list Value.t)
    (max_response_bytes : N) : H Value.t :=
  map_fail (fun error => method +:+ " failed: " +:+ error)
    (rpc_call client method (Value.Array params) max_response_bytes).

(** [response.get("result").and_then(Value::as_str)]. *)
Definition result_text (method : string) (response : Value.t) : result string string :=
  ok_or (Value.get "result" response ≫= Value.as_str) (method +:+ " result was missing").

Definition control_call (client : HttpEvmRpcClient.t) (method : string) (params : list Value.t)
    : H string :=
  response ← named_rpc_call client method params CONTROL_PLANE_MAX_RESPONSE_BYTES;
  lift (result_text method response).

Definition eth_block_number (client : HttpEvmRpcClient.t) : H N :=
  raw ← control_call client "eth_blockNumber" [];
  lift (parse_hex_u64 raw "eth_blockNumber").

Definition eth_get_balance_with_limit (client : HttpEvmRpcClient.t) (address : string)
    (max_response_bytes : N) : H string :=
  response ← named_rpc_call client "eth_getBalance"
    [Value.String address; Value.String "latest"] max_response_bytes;
  raw ← lift (result_text "eth_getBalance" response);
  lift (normalize_hex_quantity raw "eth_getBalance result").

Definition eth_get_balance (client : HttpEvmRpcClient.t) (address : string) : H string :=
  eth_get_balance_with_limit client address CONTROL_PLANE_MAX_RESPONSE_BYTES.

Definition eth_get_code (client : HttpEvmRpcClient.t) (address : string) : H string :=
  raw ← control_call client "eth_getCode" [Value.String address; Value.String "latest"];
  lift (normalize_hex_blob raw "eth_getCode result").

Definition call_object (members : list (string * string)) : Value.t :=
  Value.Object (Value.String <$> (list_to_map members : gmap string string)).

Definition eth_call_with_limit (client : HttpEvmRpcClient.t) (address calldata : string)
    (max_response_bytes : N) : H string :=
  response ← named_rpc_call client "eth_call"
    [call_object [("to", address); ("data", calldata)]; Value.String "latest"] max_response_bytes;
  raw ← lift (result_text "eth_call" response);
  lift (normalize_hex_blob raw "eth_call result").

Definition eth_call (client : HttpEvmRpcClient.t) (address calldata : string) : H string :=
  eth_call_with_limit client address calldata CONTROL_PLANE_MAX_RESPONSE_BYTES.

Definition eth_get_transaction_count (client : HttpEvmRpcClient.t) (address : string) : H N :=
  raw ← control_call client "eth_getTransactionCount"
    [Value.String address; Value.String "pending"];
  lift (parse_hex_u64 raw "eth_getTransactionCount").

Definition eth_estimate_gas (client : HttpEvmRpcClient.t) (from to : string) (value_wei : N)
    (data_hex : string) : H N :=
  raw ← control_call client "eth_estimateGas"
    [call_object [("from", from); ("to", to); ("value", "0x" +:+ lower_hex value_wei);
                  ("data", data_hex)]];
  lift (parse_hex_u64 raw "eth_estimateGas").

Definition eth_send_raw_transaction (client : HttpEvmRpcClient.t) (raw_tx : list Byte.byte)
    : H string :=
  raw ← control_call client "eth_sendRawTransaction" [Value.String ("0x" +:+ hex_encode raw_tx)];
  lift (normalize_hex_blob raw "eth_sendRawTransaction result").

Definition json_rpc_call (client : HttpEvmRpcClient.t) (method params_json : string) : H string :=
  params ← lift (map_err (fun error => "invalid " +:+ method +:+ " params json: " +:+ error)
    (value_from_str params_json));
  response ← rpc_call client method params (HttpEvmRpcClient.max_response_bytes client);
  mret (value_text response).

(** [receipt.get("status")]. *)
Definition receipt_status (receipt : Value.t) : result string TransactionReceiptStatus.t :=
  let status : option string := Value.get "status" receipt ≫= Value.as_str in
  if bool_decide (status = Some "0x1") then Ok TransactionReceiptStatus.Confirmed
  else if bool_decide (status = Some "0x0") then Ok TransactionReceiptStatus.Reverted
  else Err "eth_getTransactionReceipt status was invalid".

Definition fetch_receipt (client : HttpEvmRpcClient.t) (tx_hash : string) : H Value.t :=
  response ← named_rpc_call client "eth_getTransactionReceipt" [Value.String tx_hash]
    CONTROL_PLANE_MAX_RESPONSE_BYTES;
  lift (ok_or (Value.get "result" response) "eth_getTransactionReceipt result was missing").

Definition transaction_receipt_status (client : HttpEvmRpcClient.t) (tx_hash : string)
    : H TransactionReceiptStatus.t :=
  receipt ← fetch_receipt client tx_hash;
  lift match receipt with
       | Value.Null => Ok TransactionReceiptStatus.Pending
       | _ => receipt_status receipt
       end.

(** What a receipt that is there says. *)
Definition observe_receipt (receipt : Value.t) (latest_block : N)
    : result string StrategyReceiptObservation.t :=
  status ← receipt_status receipt;
  number_text ← ok_or (Value.get "blockNumber" receipt ≫= Value.as_str)
    "eth_getTransactionReceipt blockNumber was missing";
  block_number ← parse_hex_u64 number_text "receipt blockNumber";
  hash_text ← ok_or (Value.get "blockHash" receipt ≫= Value.as_str)
    "eth_getTransactionReceipt blockHash was missing";
  err_if (is_blank hash_text) "eth_getTransactionReceipt blockHash was missing";;
  err_if (latest_block <? block_number)%N
    ("receipt block " +:+ pretty block_number +:+ " is greater than latest head "
     +:+ pretty latest_block);;
  Ok (StrategyReceiptObservation.mk status (Some block_number) (Some hash_text) latest_block).

Definition strategy_receipt_observation (client : HttpEvmRpcClient.t) (tx_hash : string)
    : H StrategyReceiptObservation.t :=
  receipt ← fetch_receipt client tx_hash;
  latest_block ← eth_block_number client;
  lift match receipt with
       | Value.Null => Ok (StrategyReceiptObservation.mk TransactionReceiptStatus.Pending None None
                             latest_block)
       | _ => observe_receipt receipt latest_block
       end.
End Client.

(** ** What an RPC call may send *)

(** A request of the call: its own body, to a configured endpoint, with a
    bound on the response. *)
Definition request_of_call `{libs : StrategyLibs} (client : HttpEvmRpcClient.t) (method : string)
    (params : Value.t) (request : HttpRequest.t) : Prop :=
  exists url max_response_bytes,
    (url = HttpEvmRpcClient.rpc_url client
     \/ HttpEvmRpcClient.fallback_rpc_url client = Some url)
    /\ (256 <= max_response_bytes <= MAX_EVM_RPC_RESPONSE_BYTES)%N
    /\ request = rpc_request url (rpc_body method params) max_response_bytes.

Lemma clamp_bounds max_response_bytes :
  (256 <= clamp_response_bytes max_response_bytes <= MAX_EVM_RPC_RESPONSE_BYTES)%N.
Proof. unfold clamp_response_bytes, MAX_EVM_RPC_RESPONSE_BYTES. lia. Qed.

Lemma bind_agree {S E A B} (m m' : M S E A) (k k' : A -> M S E B) s :
  m s = m' s -> (forall a s, k a s = k' a s) -> (a ← m; k a) s = (a ← m'; k' a) s.
Proof. unfold mbind, M_bind. intros -> Hk. by destruct (m' s). Qed.

Section Agreement.
Context `{cost : CostApi, libs : StrategyLibs} (platform platform' : OutcallPlatform).
Context (client : HttpEvmRpcClient.t) (method : string) (params : Value.t).
Context (Hrequest : forall request s, request_of_call client method params request ->
           @http_request platform request s = @http_request platform' request s).
Context (Hbalance : forall s,
           @canister_liquid_cycle_balance platform s = @canister_liquid_cycle_balance platform' s).

Lemma try_http_post_agree url max_response_bytes s :
  url = HttpEvmRpcClient.rpc_url client \/ HttpEvmRpcClient.fallback_rpc_url client = Some url ->
  @try_http_post platform url (rpc_body method params) (clamp_response_bytes max_response_bytes) s
  = @try_http_post platform' url (rpc_body method params) (clamp_response_bytes max_response_bytes) s.
Proof.
  intros Hurl. apply bind_agree; [|done]. unfold map_fail. rewrite Hrequest; [done|].
  eexists _, _. split; [exact Hurl|split; [apply clamp_bounds|done]].
Qed.

(** Whatever an RPC call answers, and whatever it does to the state, it owes to
    the answers to requests with its own body to the two endpoints of the
    client, each with a response limit between 256 bytes and 2 MiB, and to the
    balance: on platforms that agree on these the calls agree. *)
Theorem rpc_call_requests (max_response_bytes : N) (s : House.t) :
  @rpc_call _ platform _ client method params max_response_bytes s
  = @rpc_call _ platform' _ client method params max_response_bytes s.
Proof.
  unfold rpc_call. cbv zeta. apply bind_agree.
  - unfold ensure_http_affordable. apply bind_agree; [done|]. intros estimated s1.
    apply bind_agree; [done|]. intros reserve s2. cbv zeta. apply bind_agree; [|done].
    unfold gets. by rewrite Hbalance.
  - intros _ s1. apply bind_agree; [|done]. unfold http_post. cbv zeta. apply bind_agree.
    + unfold catch. by rewrite try_http_post_agree by auto.
    + intros result s2. destruct result as [body|error]; [done|].
      destruct (HttpEvmRpcClient.fallback_rpc_url client) as [url|] eqn:Hfallback; [|done].
      unfold map_fail. by rewrite try_http_post_agree by auto.
Qed.
End Agreement.

(** An outcall the liquid balance does not cover, reserve and margin included,
    is not made: the call fails at once, whatever the platform would do. *)
Theorem rpc_call_unaffordable `{cost : CostApi, platform : OutcallPlatform, libs : StrategyLibs}
    (client : HttpEvmRpcClient.t) (method : string) (params : Value.t) (max_response_bytes : N)
    (s : House.t) (estimated : N)
    (Hestimated : estimate_operation_cost (OperationClass.HttpOutcall
       (str_len (rpc_body method params)) (clamp_response_bytes max_response_bytes)) = Ok estimated)
    (Hpoor : can_afford (canister_liquid_cycle_balance s)
       (affordability_requirements estimated DEFAULT_SAFETY_MARGIN_BPS
          (operation_reserve_floor_cycles (house_agent s))) = false) :
  exists error, rpc_call client method params max_response_bytes s = Fail error s.
Proof.
  eexists. unfold rpc_call, ensure_http_affordable. rewrite Hestimated. exec. by rewrite Hpoor.
Qed.
