(* ===== verification/HouseSamples.v ===== *)
(** * HouseSamples: a house on which the theorems about outcalls compute

    Concrete stand-ins for the management canister and the price of its calls,
    and a small state; nothing here models code. *)

From S2P Require Import Prelude Text SpawnProtocol Types Externals AgentTypes AgentDomain TopUpTypes TopUp AgentStore StrategyTypes StrategyStore StrategyPolicy TurnTypes TurnStore StrategySamples TurnSamples AgentConfig EvmRpc.

Module HouseSamples.
#[local] Instance toy_cost : CostApi := {
  cost_http_request _ _ := 1%N;
  cost_sign_with_ecdsa _ _ := Ok 1%N;
}.

(** A server that has never anything to say. *)
#[local] Instance toy_platform : OutcallPlatform := {
  http_request _ := mret (HttpResponse.mk 200 "{}");
  canister_liquid_cycle_balance _ := (10 ^ 15)%N;
}.

(** The house of an automaton at the time 7. *)
Definition house_of (change : RuntimeSnapshot.t -> RuntimeSnapshot.t) : House.t :=
  House.mk (TurnSamples.desk_of (update_snapshot change ConfigSamples.agent) ∅) ∅ ∅ ∅ ∅.
End HouseSamples.
