(* ===== verification/HttpFetch.v ===== *)
(** * HttpFetch: fetching a page

    Models the [http_fetch] tool of
    [components/ic-automaton/src/features/http_fetch.rs] in the canister build,
    with the telemetry of outcalls of [storage/stable.rs].

    [http_fetch_only_allowed]: no request leaves for a host that was not
    allowed when the call began.  [http_fetch_retries_end]: the retries with
    ever larger limits end.  [json_path_roundtrip]: a path that is written out
    is read back. *)

From S2P Require Import Prelude Text SpawnProtocol Types Externals AgentTypes AgentDomain TopUpTypes TopUp AgentStore StrategyTypes StrategyStore StrategyPolicy TurnTypes TurnStore Sanitize TurnText StrategySamples AgentConfig EvmRpc HouseSamples.
From Stdlib Require Import Ascii.

Definition HTTP_FETCH_INITIAL_RESPONSE_BYTES : N := 64 * 1024.
Definition HTTP_FETCH_MAX_RESPONSE_BYTES : N := 512 * 1024.
Definition HTTP_FETCH_MAX_OUTPUT_CHARS : N := 8000.
Definition HTTP_FETCH_REGEX_MAX_PATTERN_CHARS : N := 256.
Definition JSON_PATH_HINT_MAX_KEYS : nat := 8.
Definition JSON_PATH_FALLBACK_MAX_ATTEMPTS : nat := 4.

Module ExtractionMode.
Inductive t :=
| JsonPath (path : string)
| Regex (pattern : string).
End ExtractionMode.

Module HttpFetchArgs.
Record t := mk {
  url : string;
  extract : option ExtractionMode.t;
  max_response_bytes : option N;
}.
End HttpFetchArgs.

(** [serde_json::from_str::<HttpFetchArgs>], and [RegexBuilder] with its size
    limits: what it builds decides whether a line matches. *)
Class HttpFetchLibs := {
  http_fetch_args_from_str : string -> result string HttpFetchArgs.t;
  build_regex : string -> result string (string -> bool);
}.

(** ** Telemetry of outcalls *)

Module RuntimeOutcallKind.
Inductive t :=
| Inference
| HttpFetch.
End RuntimeOutcallKind.

Definition MAX_TIMING_ERROR_CHARS : N := 512.

Definition record_outcall_stats `{ext : Externals} (started_at_ns finished_at_ns : N)
    (error : option string) (timed_out : bool) (stats : OutcallTimingStats.t)
    : OutcallTimingStats.t :=
  let duration_ms := (saturating_sub finished_at_ns started_at_ns `div` 1000000)%N in
  let count_if (b : bool) count := if b then saturating_add 64 count 1 else count in
  OutcallTimingStats.mk
    (saturating_add 64 (OutcallTimingStats.total_calls stats) 1)
    (count_if (is_some error) (OutcallTimingStats.failure_calls stats))
    (count_if timed_out (OutcallTimingStats.timeout_failures stats))
    (saturating_add 64 (OutcallTimingStats.total_duration_ms stats) duration_ms)
    (N.max (OutcallTimingStats.max_duration_ms stats) duration_ms)
    (Some duration_ms) (Some started_at_ns) (Some finished_at_ns)
    ((fun message => truncate_text_field message MAX_TIMING_ERROR_CHARS) <$> error).

Definition record_outcall_timing `{ext : Externals} (kind : RuntimeOutcallKind.t)
    (started_at_ns finished_at_ns : N) (error : option string) (timed_out : bool)
    (s : House.t) : House.t :=
  let record := record_outcall_stats started_at_ns finished_at_ns error timed_out in
  on_house_agent (update_snapshot (fun snapshot => snapshot <| RuntimeSnapshot.timing_telemetry ::=
    fun telemetry =>
      match kind with
      | RuntimeOutcallKind.Inference =>
          telemetry <| RuntimeTimingTelemetry.inference_outcall ::= record |>
      | RuntimeOutcallKind.HttpFetch =>
          telemetry <| RuntimeTimingTelemetry.http_fetch_outcall ::= record |>
      end |>)) s.

(** ** Hosts *)

(** A host without labels that are empty or hold anything but letters, digits
    and inner hyphens. *)
Definition host_label_ok (label : string) : bool :=
  negb (is_empty label) && label_ends_ok label && label_bytes_ok label.

Definition extract_https_host (raw_url : string) : result string string :=
  remainder ← ok_or (strip_prefix (trim raw_url) "https://") "only HTTPS URLs are allowed";
  let authority := take_until ["/"; "?"; "#"] remainder in
  err_if (is_empty authority) "could not parse host";;
  err_if (contains authority "@") "user info is not allowed in URL";;
  err_if (starts_with authority "[") "IPv6 hosts are not supported";;
  let host := to_ascii_lowercase (first_segment ":" authority) in
  err_if (is_empty host) "could not parse host";;
  err_if (starts_with host "." || ends_with host ".") "host is invalid";;
  err_if (negb (forallb host_label_ok (split_on "." host))) "host is invalid";;
  Ok host.

(** The domain itself or one below it. *)
Definition covers_host (host domain : string) : bool :=
  bool_decide (host = domain) || ends_with host ("." +:+ domain).

Definition ensure_host_allowed (host url : string) (s : House.t) : result string unit :=
  if negb (is_http_allowlist_enforced s) then Ok tt
  else
    let allowed := list_allowed_http_domains s in
    err_if (bool_decide (allowed = [])) "no domains allowed";;
    err_if (negb (existsb (covers_host host) allowed)) ("domain not in allowlist: " +:+ url).

(** ** JSON paths *)

Module JsonPathSegment.
Inductive t :=
| Field (name : string)
| Index (index : N).
End JsonPathSegment.

Definition invalid_path (path : string) : string :=
  "json_path extraction failed: invalid path `" +:+ path +:+ "`".

(** The characters after an opening bracket: the index, and what follows the
    closing bracket. *)
Definition parse_json_path_index (path : string) (l : list string)
    : result string (N * list string) :=
  let inside c := bool_decide (c <> "]") in
  let digits := take_while inside l in
  match drop_while inside l with
  | [] => Err (invalid_path path)
  | _ :: rest =>
      err_if (bool_decide (digits = []) || negb (forallb is_digit_char digits)) (invalid_path path);;
      index ← ok_or (parse_uint 32 (concat_str digits)) (invalid_path path);
      Ok (index, rest)
  end.

(** The indices that follow at once. *)
Fixpoint parse_indices (rounds : nat) (path : string) (l : list string)
    : result string (list JsonPathSegment.t * list string) :=
  match rounds, l with
  | S rounds, c :: l' =>
      if bool_decide (c = "[") then
        '(index, rest) ← parse_json_path_index path l';
        '(indices, rest) ← parse_indices rounds path rest;
        Ok (JsonPathSegment.Index index :: indices, rest)
      else Ok ([], l)
  | _, _ => Ok ([], l)
  end.

(** The segment at the head of the text. *)
Definition parse_segment (path : string) (c : string) (l : list string)
    : result string (JsonPathSegment.t * list string) :=
  if bool_decide (c = ".") then Err (invalid_path path)
  else if bool_decide (c = "[") then
    '(index, rest) ← parse_json_path_index path l;
    Ok (JsonPathSegment.Index index, rest)
  else
    let inside c := bool_decide (c ∉ ["."; "["]) in
    let field := concat_str (take_while inside (c :: l)) in
    err_if (is_blank field) (invalid_path path);;
    Ok (JsonPathSegment.Field field, drop_while inside (c :: l)).

(** Every round takes a character, so the length of the text is enough. *)
Fixpoint parse_segments (rounds : nat) (path : string) (l : list string)
    : result string (list JsonPathSegment.t) :=
  match rounds, l with
  | S rounds, c :: l =>
      '(segment, rest) ← parse_segment path c l;
      '(indices, rest) ← parse_indices (length rest) path rest;
      more ← match rest with
             | [] => Ok []
             | c :: rest =>
                 err_if (bool_decide (c <> ".") || bool_decide (rest = [])) (invalid_path path);;
                 parse_segments rounds path rest
             end;
      Ok (segment :: indices ++ more)
  | _, _ => Ok []
  end.

Definition strip_root (path : string) : string :=
  match strip_prefix path "$." with
  | Some rest => rest
  | None => default path (strip_prefix path "$")
  end.

Definition parse_json_path_segments (path : string) : result string (list JsonPathSegment.t) :=
  let path := strip_root path in
  segments ← parse_segments (length (chars path)) path (chars path);
  err_if (bool_decide (segments = [])) (invalid_path path);;
  Ok segments.

(** ** Extraction *)

Definition json_value_kind (value : Value.t) : string :=
  match value with
  | Value.Null => "null"
  | Value.Bool _ => "boolean"
  | Value.Number _ => "number"
  | Value.String _ => "string"
  | Value.Array _ => "array"
  | Value.Object _ => "object"
  end.

Definition json_path_missing_hint (current : Value.t) : string :=
  match current with
  | Value.Object fields =>
      if bool_decide (fields = ∅) then "; current node is empty object"
      else "; current node is object with keys: "
           +:+ join ", " (take JSON_PATH_HINT_MAX_KEYS (btree_keys fields))
           +:+ (if bool_decide (JSON_PATH_HINT_MAX_KEYS < size fields) then ", ..." else "")
  | Value.Array items =>
      "; current node is array (len=" +:+ pretty (N.of_nat (length items))
      +:+ "); use [index] syntax for array access"
  | other => "; current node is " +:+ json_value_kind other
  end.

(** A field, or the item of an array whose index the name spells. *)
Definition resolve_json_path_field (current : Value.t) (field_name : string) : option Value.t :=
  match Value.get field_name current with
  | Some value => Some value
  | None => index ← parse_uint 32 field_name; Value.get_index (N.to_nat index) current
  end.

Definition resolve_segment (current : Value.t) (segment : JsonPathSegment.t) : option Value.t :=
  match segment with
  | JsonPathSegment.Field name => resolve_json_path_field current name
  | JsonPathSegment.Index index => Value.get_index (N.to_nat index) current
  end.

Definition path_not_found (path : string) (current : Value.t) : string :=
  "json_path extraction failed: path `" +:+ path +:+ "` not found" +:+ json_path_missing_hint current.

Fixpoint walk_path (path : string) (current : Value.t) (segments : list JsonPathSegment.t)
    : result string Value.t :=
  match segments with
  | [] => Ok current
  | segment :: segments =>
      next ← ok_or (resolve_segment current segment) (path_not_found path current);
      walk_path path next segments
  end.

(** The same values under the paths other providers use. *)
Definition json_path_fallback_candidates (path : string) : list string :=
  let normalized := strip_root (trim path) in
  match strip_prefix normalized "pairs[0]." with Some rest => ["pair." +:+ rest] | None => [] end
  ++ match strip_prefix normalized "pair." with Some rest => ["pairs[0]." +:+ rest] | None => [] end
  ++ (if bool_decide (normalized = "market_data.current_price.usd") then ["0.current_price"] else [])
  ++ (if bool_decide (normalized = "0.current_price") then ["market_data.current_price.usd"] else []).

(** [str::lines]: the last line may lack its end, which is kept off the others
    with the carriage return before it. *)
Fixpoint drop_carriage_returns (pieces : list string) : list string :=
  match pieces with
  | [] | [""] => []
  | [last] => [last]
  | piece :: pieces =>
      default piece (strip_suffix piece (String (ascii_of_N 13) "")) :: drop_carriage_returns pieces
  end.
Definition lines (text : string) : list string := drop_carriage_returns (split_on newline text).

Section Extraction.
Context `{libs : StrategyLibs, fetch_libs : HttpFetchLibs}.

Definition serialize_json_path_value (value : Value.t) : string :=
  match value with Value.String text => text | other => value_text other end.

Definition extract_json_path_from_root (root : Value.t) (path : string) : result string string :=
  segments ← parse_json_path_segments path;
  value ← walk_path path root segments;
  Ok (serialize_json_path_value value).

Definition extract_json_path (body path : string) : result string string :=
  let trimmed_path := trim path in
  err_if (is_empty trimmed_path) "json_path extraction failed: missing required field: path";;
  root ← map_err (fun error =>
    "json_path extraction failed: response is not valid JSON: " +:+ error) (value_from_str body);
  match extract_json_path_from_root root trimmed_path with
  | Ok extracted => Ok extracted
  | Err primary_error =>
      if negb (starts_with primary_error "json_path extraction failed: path `")
      then Err primary_error
      else
        let try_path fallback_path :=
          if bool_decide (fallback_path = trimmed_path) then None
          else match extract_json_path_from_root root fallback_path with
               | Ok extracted => Some extracted
               | Err _ => None
               end in
        ok_or (head (omap try_path (take JSON_PATH_FALLBACK_MAX_ATTEMPTS
                                      (json_path_fallback_candidates trimmed_path)))) primary_error
  end.

Definition extract_regex_lines (body pattern : string) : result string string :=
  let trimmed_pattern := trim pattern in
  err_if (is_empty trimmed_pattern) "regex extraction failed: missing required field: pattern";;
  err_if (HTTP_FETCH_REGEX_MAX_PATTERN_CHARS <? char_count trimmed_pattern)%N
    ("regex extraction failed: pattern exceeds max length of "
     +:+ pretty HTTP_FETCH_REGEX_MAX_PATTERN_CHARS +:+ " characters");;
  is_match ← map_err (fun error => "regex extraction failed: invalid pattern: " +:+ error)
    (build_regex trimmed_pattern);
  let matched_lines := List.filter is_match (lines body) in
  err_if (bool_decide (matched_lines = [])) "regex extraction failed: no matching lines";;
  Ok (join newline matched_lines).

Definition extract_http_fetch_content (body : string) (extract : option ExtractionMode.t)
    : result string string :=
  match extract with
  | Some (ExtractionMode.JsonPath path) => extract_json_path body path
  | Some (ExtractionMode.Regex pattern) => extract_regex_lines body pattern
  | None => Ok body
  end.
End Extraction.

Definition truncate_http_fetch_output (content : string) : string :=
  if (HTTP_FETCH_MAX_OUTPUT_CHARS <? char_count content)%N
  then take_chars HTTP_FETCH_MAX_OUTPUT_CHARS content +:+ "... [truncated, "
       +:+ pretty (str_len content) +:+ " total bytes]"
  else content.

(** ** The tool *)

(** What a request must not cost, for a tool that keeps the default reserve. *)
Definition ensure_outcall_affordable `{cost : CostApi, platform : OutcallPlatform} (message : string)
    (request_size_bytes max_response_bytes : N) : H unit :=
  estimated ← lift (estimate_operation_cost
                      (OperationClass.HttpOutcall request_size_bytes max_response_bytes));
  let requirements := affordability_requirements estimated DEFAULT_SAFETY_MARGIN_BPS
    DEFAULT_RESERVE_FLOOR_CYCLES in
  liquid ← gets canister_liquid_cycle_balance;
  fail_if (negb (can_afford liquid requirements)) message.

Definition ensure_http_fetch_affordable `{cost : CostApi, platform : OutcallPlatform} : N -> N -> H unit :=
  ensure_outcall_affordable "insufficient cycles for HTTP fetch".

Definition is_response_too_large_error (error : string) : bool :=
  let normalized := to_ascii_lowercase (trim error) in
  contains normalized "http body exceeds size limit"
  || contains normalized "response exceeded max_response_bytes".

Definition next_retry_response_bytes (current_max_response_bytes : N) (error : string) : option N :=
  if negb (is_response_too_large_error error)
     || (HTTP_FETCH_MAX_RESPONSE_BYTES <=? current_max_response_bytes)%N
  then None
  else Some (N.min (saturating_mul 64 current_max_response_bytes 2) HTTP_FETCH_MAX_RESPONSE_BYTES).

Definition get_request (url : string) (max_response_bytes : N) : HttpRequest.t :=
  HttpRequest.mk url max_response_bytes HttpMethod.GET [] None false.

(** Doubling a limit of a byte twenty times passes the cap. *)
Definition RETRY_ROUNDS : nat := 20.

Section Tool.
Context `{ext : Externals, cost : CostApi, platform : OutcallPlatform, libs : StrategyLibs,
          fetch_libs : HttpFetchLibs}.

Definition parse_http_fetch_args (args_json : string) : result string HttpFetchArgs.t :=
  args ← map_err (fun error => "invalid http_fetch args json: " +:+ error)
    (http_fetch_args_from_str args_json);
  err_if (is_blank (HttpFetchArgs.url args)) "missing required field: url";;
  Ok args.

Definition http_get (url : string) (max_response_bytes : N) : H string :=
  response ← map_fail (fun error => "HTTP fetch failed: " +:+ error)
    (http_request (get_request url max_response_bytes));
  status ← lift (nat_to_u16 (HttpResponse.status response));
  fail_if (negb (is_success status)) ("HTTP " +:+ pretty status +:+ " from " +:+ url);;
  mret (HttpResponse.body response).

(** The loop, for at most [rounds] rounds; [RETRY_ROUNDS] are never used up. *)
Fixpoint http_get_with_size_retry (rounds : nat) (url : string)
    (request_size_bytes max_response_bytes : N) : H string :=
  match rounds with
  | O => fun _ => Trap
  | S rounds =>
      ensure_http_fetch_affordable request_size_bytes max_response_bytes;;
      result ← (catch (http_get url max_response_bytes) : H (result string string));
      match result with
      | Ok body => mret body
      | Err error =>
          match next_retry_response_bytes max_response_bytes error with
          | None => mthrow error
          | Some next_max => http_get_with_size_retry rounds url request_size_bytes next_max
          end
      end
  end.

Definition initial_response_bytes (args : HttpFetchArgs.t) : N :=
  match HttpFetchArgs.max_response_bytes args with
  | Some value => if (0 <? value)%N then N.min value HTTP_FETCH_MAX_RESPONSE_BYTES
                  else HTTP_FETCH_INITIAL_RESPONSE_BYTES
  | None => HTTP_FETCH_INITIAL_RESPONSE_BYTES
  end.

(** The request with its telemetry. *)
Definition fetch_body (args : HttpFetchArgs.t) : H string :=
  let url := HttpFetchArgs.url args in
  let request_size_bytes := saturating_add 32 (str_len url) 128 in
  started_at_ns ← gets (fun s => now (House.desk s));
  result ← (catch (http_get_with_size_retry RETRY_ROUNDS url request_size_bytes
                     (initial_response_bytes args)) : H (result string string));
  finished_at_ns ← gets (fun s => now (House.desk s));
  match result with
  | Ok body =>
      modify (record_outcall_timing RuntimeOutcallKind.HttpFetch started_at_ns finished_at_ns
                None false);;
      mret body
  | Err error =>
      let timeout_failure := contains (to_ascii_lowercase error) "timeout" in
      modify (record_outcall_timing RuntimeOutcallKind.HttpFetch started_at_ns finished_at_ns
                (Some error) timeout_failure);;
      mthrow error
  end.

Definition http_fetch_tool (args_json : string) : H string :=
  args ← lift (parse_http_fetch_args args_json);
  host ← lift (extract_https_host (HttpFetchArgs.url args));
  s ← get_state;
  lift (ensure_host_allowed host (HttpFetchArgs.url args) s);;
  body ← fetch_body args;
  let body := default "binary response (not UTF-8)" (from_utf8 body) in
  extracted ← lift (extract_http_fetch_content body (HttpFetchArgs.extract args));
  mret (frame_untrusted_content "http_fetch" (truncate_http_fetch_output extracted)).
End Tool.

(** ** The retries end *)

Lemma retry_limit max_response_bytes error next k :
  next_retry_response_bytes max_response_bytes error = Some next ->
  (HTTP_FETCH_MAX_RESPONSE_BYTES <= max_response_bytes * 2 ^ (k + 1))%N ->
  (max_response_bytes < HTTP_FETCH_MAX_RESPONSE_BYTES)%N
  /\ (HTTP_FETCH_MAX_RESPONSE_BYTES <= next * 2 ^ k)%N
  /\ (max_response_bytes <= next <= HTTP_FETCH_MAX_RESPONSE_BYTES)%N.
Proof.
  unfold next_retry_response_bytes, saturating_mul, max_uint.
  destruct (negb _ || _) eqn:Hstop; [done|]. apply orb_false_iff in Hstop as [_ Hless%N.leb_gt].
  intros [= <-] Hk. unfold HTTP_FETCH_MAX_RESPONSE_BYTES in *. rewrite N.add_1_r, N.pow_succ_r' in Hk.
  pose proof (N.pow_nonzero 2 k ltac:(done)) as Hpow. split; [lia|]. split; [|lia].
  destruct (N.min_spec (N.min (max_response_bytes * 2) (2 ^ 64 - 1)) (512 * 1024)) as [[_ ->]|[_ ->]];
    [|nia].
  destruct (N.min_spec (max_response_bytes * 2) (2 ^ 64 - 1)) as [[_ ->]|[? ->]]; [nia|lia].
Qed.

Lemma lift_run {S E A B} (r : result E A) (k : A -> M S E B) s :
  (a ← lift r; k a) s = match r with Ok a => k a s | Err e => Fail e s end.
Proof. by destruct r. Qed.

Section Retries.
Context `{ext : Externals, cost : CostApi, platform : OutcallPlatform}.
Context (Hanswer : forall request s, http_request request s <> Trap).

Lemma outcall_affordable message size limit s :
  ensure_outcall_affordable message size limit s = Done tt s
  \/ ensure_outcall_affordable message size limit s = Fail message s.
Proof.
  unfold ensure_outcall_affordable, estimate_operation_cost, lift, gets, fail_if, mbind, M_bind.
  destruct (negb _); auto.
Qed.

Lemma http_get_answers url max_response_bytes s : http_get url max_response_bytes s <> Trap.
Proof.
  unfold http_get, map_fail. specialize (Hanswer (get_request url max_response_bytes) s).
  unfold mbind, M_bind. destruct (http_request _ s) as [response s1|error s1|]; [|done|done].
  destruct (nat_to_u16 _); [|done]. cbn. by destruct (negb _).
Qed.

Lemma retry_step rounds url size limit s :
  http_get_with_size_retry (S rounds) url size limit s
  = match ensure_http_fetch_affordable size limit s with
    | Done _ s1 =>
        match http_get url limit s1 with
        | Done body s2 => Done body s2
        | Fail error s2 =>
            match next_retry_response_bytes limit error with
            | None => Fail error s2
            | Some next => http_get_with_size_retry rounds url size next s2
            end
        | Trap => Trap
        end
    | Fail error s1 => Fail error s1
    | Trap => Trap
    end.
Proof.
  cbn [http_get_with_size_retry]. unfold mbind, M_bind, catch.
  destruct (ensure_http_fetch_affordable size limit s) as [[] s1|error s1|]; [|done|done].
  destruct (http_get url limit s1) as [body s2|error s2|]; [done| |done].
  by destruct (next_retry_response_bytes limit error).
Qed.

Lemma retry_answers k : forall rounds url request_size_bytes max_response_bytes s,
  (HTTP_FETCH_MAX_RESPONSE_BYTES <= max_response_bytes * 2 ^ N.of_nat k)%N -> k < rounds ->
  http_get_with_size_retry rounds url request_size_bytes max_response_bytes s <> Trap
  /\ http_get_with_size_retry rounds url request_size_bytes max_response_bytes s
     = http_get_with_size_retry (S k) url request_size_bytes max_response_bytes s.
Proof.
  induction k as [|k IH]; intros [|rounds] url size limit s Hlimit Hrounds; try lia.
  all: rewrite !(retry_step _ url size limit s); unfold ensure_http_fetch_affordable.
  all: destruct (outcall_affordable "insufficient cycles for HTTP fetch" size limit s) as [-> | ->];
    [|done].
  all: pose proof (http_get_answers url limit s) as Hget.
  all: destruct (http_get url limit s) as [body s1|error s1|]; [done| |done].
  all: destruct (next_retry_response_bytes limit error) as [next|] eqn:Hnext; [|done].
  - unfold next_retry_response_bytes in Hnext. rewrite N.mul_1_r in Hlimit.
    apply N.leb_le in Hlimit. by rewrite Hlimit, orb_true_r in Hnext.
  - destruct (retry_limit _ _ _ (N.of_nat k) Hnext) as (_ & Hmore & _);
      [by replace (N.of_nat k + 1)%N with (N.of_nat (S k)) by lia|].
    apply IH; [done|lia].
Qed.

(** C24 - The retries end: twenty requests, from a limit of one byte up, are as good
    as any number, for a limit that doubles passes the cap of 512 KiB.  If the
    platform answers every request, so does the loop. *)
Theorem http_fetch_retries_end (url : string) (request_size_bytes max_response_bytes : N)
    (rounds : nat) (s : House.t) (Hlimit : (0 < max_response_bytes)%N)
    (Hrounds : RETRY_ROUNDS <= rounds) :
  http_get_with_size_retry rounds url request_size_bytes max_response_bytes s <> Trap
  /\ http_get_with_size_retry rounds url request_size_bytes max_response_bytes s
     = http_get_with_size_retry RETRY_ROUNDS url request_size_bytes max_response_bytes s.
Proof.
  apply retry_answers; [|unfold RETRY_ROUNDS in *; lia].
  unfold HTTP_FETCH_MAX_RESPONSE_BYTES. change (2 ^ N.of_nat 19)%N with 524288%N. lia.
Qed.
End Retries.

(** ** Only allowed hosts are asked *)

(** What the policy says of a page: a host that is one, and, if the allowlist
    is enforced, that is a domain of the list or a subdomain of one. *)
Definition host_allowed (url : string) (s : House.t) : Prop :=
  exists host, extract_https_host url = Ok host
    /\ (is_http_allowlist_enforced s = true ->
        exists domain, domain ∈ list_allowed_http_domains s
          /\ (host = domain \/ exists subdomain, host = subdomain +:+ "." +:+ domain)).

Lemma str_bytes_surj l : exists text, str_bytes text = l.
Proof. induction l as [|a l [text <-]]; [by exists ""|by exists (String a text)]. Qed.

Lemma ends_with_split text suffix :
  ends_with text suffix = true -> exists prefix, text = prefix +:+ suffix.
Proof.
  intros [k Hk]%bool_decide_eq_true. destruct (str_bytes_surj k) as [prefix <-].
  exists prefix. apply str_bytes_inj. by rewrite str_bytes_app.
Qed.

Lemma covers_host_spec host domain :
  covers_host host domain = true ->
  host = domain \/ exists subdomain, host = subdomain +:+ "." +:+ domain.
Proof.
  intros [->%bool_decide_eq_true|Hends%ends_with_split]%orb_true_iff; [by left|by right].
Qed.

Lemma ensure_host_allowed_Ok host url s :
  extract_https_host url = Ok host -> ensure_host_allowed host url s = Ok tt -> host_allowed url s.
Proof.
  intros Hhost Hok. exists host. split; [done|]. intros Henforced. unfold ensure_host_allowed in Hok.
  rewrite Henforced in Hok. apply err_if_seq_Ok in Hok as [_ Hok].
  destruct (existsb _ _) eqn:Hexists; [|done].
  apply existsb_exists in Hexists as (domain & Hin%list_elem_of_In & Hcovers%covers_host_spec).
  by exists domain.
Qed.

Lemma ensure_affordable_agree `{cost : CostApi} (platform platform' : OutcallPlatform)
    (Hbalance : forall s', @canister_liquid_cycle_balance platform s'
                           = @canister_liquid_cycle_balance platform' s') message size limit s' :
  @ensure_outcall_affordable _ platform message size limit s'
  = @ensure_outcall_affordable _ platform' message size limit s'.
Proof.
  unfold ensure_outcall_affordable. apply bind_agree; [done|]. intros estimated s1. cbv zeta.
  apply bind_agree; [|done]. unfold gets. by rewrite Hbalance.
Qed.

Section OnlyAllowed.
Context `{ext : Externals, cost : CostApi, libs : StrategyLibs, fetch_libs : HttpFetchLibs}.
Context (platform platform' : OutcallPlatform) (args_json : string) (s : House.t).
Context (Hrequest : forall args max_response_bytes s',
           parse_http_fetch_args args_json = Ok args ->
           host_allowed (HttpFetchArgs.url args) s ->
           (0 < max_response_bytes <= HTTP_FETCH_MAX_RESPONSE_BYTES)%N ->
           let request := get_request (HttpFetchArgs.url args) max_response_bytes in
           @http_request platform request s' = @http_request platform' request s').
Context (Hbalance : forall s',
           @canister_liquid_cycle_balance platform s' = @canister_liquid_cycle_balance platform' s').

Lemma initial_response_bounds args :
  (0 < initial_response_bytes args <= HTTP_FETCH_MAX_RESPONSE_BYTES)%N.
Proof.
  unfold initial_response_bytes, HTTP_FETCH_INITIAL_RESPONSE_BYTES, HTTP_FETCH_MAX_RESPONSE_BYTES.
  destruct (HttpFetchArgs.max_response_bytes args) as [value|]; [|lia].
  destruct (0 <? value)%N eqn:Hpositive; [apply N.ltb_lt in Hpositive|]; lia.
Qed.

Lemma retry_agree args rounds size limit s' :
  parse_http_fetch_args args_json = Ok args -> host_allowed (HttpFetchArgs.url args) s ->
  (0 < limit <= HTTP_FETCH_MAX_RESPONSE_BYTES)%N ->
  @http_get_with_size_retry _ platform rounds (HttpFetchArgs.url args) size limit s'
  = @http_get_with_size_retry _ platform' rounds (HttpFetchArgs.url args) size limit s'.
Proof.
  intros Hargs Hallowed. revert limit s'. induction rounds as [|rounds IH]; intros limit s' Hlimit; [done|].
  cbn [http_get_with_size_retry]. apply bind_agree; [by apply ensure_affordable_agree|]. intros _ s1.
  apply bind_agree.
  - unfold catch. enough (@http_get platform (HttpFetchArgs.url args) limit s1
      = @http_get platform' (HttpFetchArgs.url args) limit s1) as -> by done.
    apply bind_agree; [|done]. unfold map_fail. by rewrite (Hrequest args limit s1).
  - intros [body|error] s2; [done|].
    destruct (next_retry_response_bytes limit error) as [next|] eqn:Hnext; [|done].
    apply IH. unfold next_retry_response_bytes, saturating_mul, max_uint in Hnext.
    destruct (negb _ || _); [done|]. injection Hnext as <-. unfold HTTP_FETCH_MAX_RESPONSE_BYTES in *. lia.
Qed.

Lemma fetch_body_agree args s' :
  parse_http_fetch_args args_json = Ok args -> host_allowed (HttpFetchArgs.url args) s ->
  @fetch_body _ _ platform args s' = @fetch_body _ _ platform' args s'.
Proof.
  intros Hargs Hallowed. unfold fetch_body. cbv zeta. apply bind_agree; [done|]. intros started s1.
  apply bind_agree; [|done]. unfold catch. rewrite retry_agree; [done..|].
  apply initial_response_bounds.
Qed.

(** C13 - A page is asked for only if its host was allowed when the call began, and
    only itself, with [GET], no headers, no body and a limit of at most 512 KiB:
    on platforms that agree on these requests the tool does the same.  So a URL
    that is no [https] URL of a host, or whose host the enforced allowlist does
    not cover, leads to no request at all. *)
Theorem http_fetch_only_allowed :
  @http_fetch_tool _ _ platform _ _ args_json s = @http_fetch_tool _ _ platform' _ _ args_json s.
Proof.
  pose proof fetch_body_agree as Hfetch. unfold http_fetch_tool. rewrite !lift_run.
  destruct (parse_http_fetch_args args_json) as [args|] eqn:Hargs; [|done]. rewrite !lift_run.
  destruct (extract_https_host (HttpFetchArgs.url args)) as [host|] eqn:Hhost; [|done].
  unfold get_state, mbind at 1 5, M_bind at 1 5. rewrite !lift_run.
  destruct (ensure_host_allowed host (HttpFetchArgs.url args) s) as [[]|] eqn:Hallowed; [|done].
  apply (ensure_host_allowed_Ok _ _ _ Hhost) in Hallowed. apply bind_agree; [|done].
  by apply Hfetch.
Qed.
End OnlyAllowed.

(** ** A path is read back *)

(** What is written for a path: dots before the fields but the first. *)
Definition print_index (index : N) : list string :=
  ("[" :: chars (pretty index)) ++ ["]"].
Fixpoint print_rest (segments : list JsonPathSegment.t) : list string :=
  match segments with
  | [] => []
  | JsonPathSegment.Field name :: segments => "." :: (chars name ++ print_rest segments)
  | JsonPathSegment.Index index :: segments => print_index index ++ print_rest segments
  end.
Definition print_chars (segments : list JsonPathSegment.t) : list string :=
  match segments with
  | JsonPathSegment.Field name :: segments => chars name ++ print_rest segments
  | _ => print_rest segments
  end.
Definition print_path (segments : list JsonPathSegment.t) : string :=
  concat_str (print_chars segments).

(** A field is a text without dots and brackets that is not blank; an index is
    a [usize]. *)
Definition segment_ok (segment : JsonPathSegment.t) : Prop :=
  match segment with
  | JsonPathSegment.Field name =>
      is_str name /\ is_blank name = false /\ ("." ∉ chars name) /\ ("[" ∉ chars name)
  | JsonPathSegment.Index index => in_uint 32 index
  end.

Lemma take_drop_while {A} (p : A -> bool) l rest :
  Forall (fun x => p x = true) l -> is_some_and p (head rest) = false ->
  take_while p (l ++ rest) = l /\ drop_while p (l ++ rest) = rest.
Proof.
  intros Hl Hrest. induction Hl as [|x l Hx Hl [IH1 IH2]]; simpl.
  - destruct rest as [|x rest]; [done|]. simpl in *. by rewrite Hrest.
  - by rewrite Hx, IH1, IH2.
Qed.

Lemma all_digits_parse w acc s x :
  parse_digits w acc s = Some x -> Forall (fun a => is_Some (digit_value a)) (str_bytes s).
Proof.
  revert acc. induction s as [|a s IH]; intros acc; simpl; [constructor|].
  destruct (digit_value a) as [d|] eqn:Ha; [|done]. destruct (_ <=? _)%N; [|done].
  intros Hs. constructor; [by eexists|]. by eapply IH.
Qed.

Lemma digits_pretty (index : N) : Forall (fun a => is_Some (digit_value a)) (str_bytes (pretty index)).
Proof.
  pose proof (parse_uint_pretty index index) as Hparse.
  assert (in_uint index index) as Hin.
  { unfold in_uint, max_uint. pose proof (N.pow_gt_lin_r 2 index ltac:(lia)). lia. }
  specialize (Hparse Hin). unfold parse_uint in Hparse.
  rewrite strip_plus_digit in Hparse by apply pretty_N_digit_head. simpl in Hparse.
  destruct (pretty index) as [|a s] eqn:Hs; [done|]. by eapply all_digits_parse.
Qed.

Lemma chars_pretty (index : N) :
  chars (pretty index) = (fun a => String a "") <$> str_bytes (pretty index)
  /\ Forall (fun c => is_digit_char c = true) (chars (pretty index))
  /\ Forall is_lead_group (chars (pretty index)).
Proof.
  pose proof (digits_pretty index) as Hdigits.
  assert (chars (pretty index) = (fun a => String a "") <$> str_bytes (pretty index)) as Hchars.
  { apply chars_plain, forallb_forall. intros a Ha%list_elem_of_In.
    rewrite Forall_forall in Hdigits. destruct (Hdigits a Ha) as [d Hd]. unfold digit_value in Hd.
    destruct ((48 <=? _)%N && _) eqn:Hrange; [|done]. apply andb_true_iff in Hrange as [H1 H2].
    apply N.leb_le in H1, H2. unfold is_plain. apply andb_true_iff.
    rewrite N.leb_le, N.ltb_lt. lia. }
  rewrite Hchars. split; [done|]. split; apply Forall_fmap; eapply Forall_impl; try exact Hdigits.
  - intros a [d Hd]. unfold digit_value in Hd. simpl. by destruct ((48 <=? _)%N && _).
  - intros a [d Hd]. unfold digit_value in Hd. simpl. split; [|done]. unfold is_cont.
    destruct ((48 <=? _)%N && _) eqn:Hrange; [|done]. apply andb_true_iff in Hrange as [_ H2].
    apply N.leb_le in H2. apply andb_false_iff. left. apply N.leb_gt. lia.
Qed.

Lemma parse_index_printed path index rest :
  in_uint 32 index ->
  parse_json_path_index path (chars (pretty index) ++ ("]" :: rest)) = Ok (index, rest).
Proof.
  intros Hin. unfold parse_json_path_index. cbv zeta.
  destruct (chars_pretty index) as (Hchars & Hdigits & _).
  destruct (take_drop_while (fun c => bool_decide (c <> "]")) (chars (pretty index)) ("]" :: rest))
    as [-> ->]; [|done|].
  { eapply Forall_impl; [exact Hdigits|]. intros c Hc. apply bool_decide_eq_true_2. by intros ->. }
  assert (bool_decide (chars (pretty index) = []) = false) as ->.
  { apply bool_decide_eq_false_2, chars_nonempty, pretty_N_nonempty. }
  assert (forallb is_digit_char (chars (pretty index)) = true) as ->.
  { by apply forallb_forall, List.Forall_forall. }
  cbn [negb orb err_if mbind result_bind]. rewrite concat_chars.
  by rewrite (parse_uint_pretty 32 index Hin).
Qed.

Lemma parse_indices_printed path indices rest : forall rounds,
  Forall (in_uint 32) indices -> length indices <= rounds -> head rest <> Some "[" ->
  parse_indices rounds path (concat (print_index <$> indices) ++ rest)
  = Ok (JsonPathSegment.Index <$> indices, rest).
Proof.
  induction indices as [|index indices IH]; intros [|rounds] Hall Hrounds Hrest; cbn in Hrounds; try lia.
  - done.
  - destruct rest as [|c rest]; [done|]. cbn. rewrite bool_decide_eq_false_2; [done|].
    intros ->. by apply Hrest.
  - apply Forall_cons in Hall as [Hindex Hall]. rewrite fmap_cons. cbn [concat].
    unfold print_index at 1. rewrite <-!app_assoc. cbn [app parse_indices].
    rewrite bool_decide_eq_true_2 by done. rewrite parse_index_printed by done.
    cbn [mbind result_bind]. rewrite IH by (done || lia). done.
Qed.

(** A run of indices, and then a field or the end. *)
Lemma split_indices segments :
  exists indices more, segments = (JsonPathSegment.Index <$> indices) ++ more
    /\ match more with JsonPathSegment.Index _ :: _ => False | _ => True end.
Proof.
  induction segments as [|[name|index] segments (indices & more & -> & Hmore)].
  - by exists [], [].
  - by exists [], (JsonPathSegment.Field name :: (JsonPathSegment.Index <$> indices) ++ more).
  - by exists (index :: indices), more.
Qed.

Lemma print_rest_indices indices more :
  print_rest ((JsonPathSegment.Index <$> indices) ++ more)
  = concat (print_index <$> indices) ++ print_rest more.
Proof. induction indices as [|index indices IH]; [done|]. cbn [fmap list_fmap app print_rest concat].
  by rewrite IH, app_assoc. Qed.

Lemma length_print_indices indices : length indices <= length (concat (print_index <$> indices)).
Proof.
  induction indices as [|index indices IH]; [done|]. rewrite fmap_cons. cbn [concat].
  rewrite length_app. cbn [length print_index app]. lia.
Qed.

Lemma parse_segment_field path name c l rest :
  segment_ok (JsonPathSegment.Field name) -> chars name ++ rest = c :: l ->
  rest = [] \/ head rest = Some "." \/ head rest = Some "[" ->
  parse_segment path c l = Ok (JsonPathSegment.Field name, rest).
Proof.
  intros (Hstr & Hblank & Hdot & Hbracket) Hl Hrest. unfold parse_segment.
  destruct (chars name) as [|c' l'] eqn:Hname; [exfalso|].
  { apply (chars_nonempty name); [|done]. intros ->. by vm_compute in Hblank. }
  injection Hl as <- <-.
  rewrite !bool_decide_eq_false_2 by set_solver.
  change (c' :: (l' ++ rest)) with ((c' :: l') ++ rest). cbv zeta.
  destruct (take_drop_while (fun c => bool_decide (c ∉ ["."; "["])) (c' :: l') rest) as [-> ->].
  - apply Forall_forall. intros x Hx. apply bool_decide_eq_true_2. set_solver.
  - destruct rest as [|x rest]; [done|]. cbn in Hrest |- *. apply bool_decide_eq_false_2.
    intros Hx. apply Hx. destruct Hrest as [|[[= ->]|[= ->]]]; [done|set_solver..].
  - by rewrite <-Hname, concat_chars, Hblank.
Qed.

(** A segment and the indices after it. *)
Lemma parse_head_printed path segment indices more c l :
  segment_ok segment -> Forall (in_uint 32) indices ->
  match more with JsonPathSegment.Index _ :: _ => False | _ => True end ->
  print_chars (segment :: (JsonPathSegment.Index <$> indices) ++ more) = c :: l ->
  exists rest, parse_segment path c l = Ok (segment, rest)
    /\ length rest < length (c :: l) /\ length (print_rest more) <= length rest
    /\ parse_indices (length rest) path rest = Ok (JsonPathSegment.Index <$> indices, print_rest more).
Proof.
  intros Hsegment Hindices Hmore Hl.
  set (rest := concat (print_index <$> indices) ++ print_rest more).
  assert (head (print_rest more) <> Some "[") as Hhead by (by destruct more as [|[]]).
  assert (parse_indices (length rest) path rest
    = Ok (JsonPathSegment.Index <$> indices, print_rest more)) as Hparse.
  { apply parse_indices_printed; [done| |done]. unfold rest. rewrite length_app.
    pose proof (length_print_indices indices). lia. }
  assert (length (print_rest more) <= length rest) as Hlen by (unfold rest; rewrite length_app; lia).
  exists rest. destruct segment as [name|index]; cbn [print_chars print_rest] in Hl;
    rewrite print_rest_indices in Hl; fold rest in Hl.
  - split_and!; [|rewrite <-Hl, length_app|done|done].
    + eapply parse_segment_field; [done|exact Hl|]. unfold rest.
      destruct indices as [|index indices]; [|by right; right].
      destruct more as [|[] more]; [by left|by right; left|done].
    + pose proof (chars_nonempty name) as Hne. destruct (chars name); [|cbn; lia].
      exfalso. destruct Hsegment as (_ & Hblank & _). apply Hne; [|done]. intros ->. by vm_compute in Hblank.
  - unfold print_index in Hl. rewrite <-app_assoc in Hl. cbn [app] in Hl. injection Hl as <- <-.
    split_and!; [|cbn [length]; rewrite length_app; cbn [length app]; lia|done|done].
    unfold parse_segment. rewrite bool_decide_eq_false_2, bool_decide_eq_true_2 by done.
    by rewrite parse_index_printed.
Qed.

Lemma print_chars_cons segment segments :
  segment_ok segment -> exists c l, print_chars (segment :: segments) = c :: l.
Proof.
  intros Hsegment. destruct segment as [name|index]; cbn [print_chars print_rest]; [|by eexists _, _].
  destruct Hsegment as (_ & Hblank & _). pose proof (chars_nonempty name) as Hne.
  destruct (chars name) as [|c l]; [|by exists c, (l ++ print_rest segments)].
  exfalso. apply Hne; [|done]. intros ->. by vm_compute in Hblank.
Qed.

Lemma parse_segments_printed path rounds : forall segments,
  Forall segment_ok segments -> length (print_chars segments) <= rounds ->
  parse_segments rounds path (print_chars segments) = Ok segments.
Proof.
  induction rounds as [|rounds IH]; intros [|segment segments] Hall Hlen; try done.
  all: apply Forall_cons in Hall as [Hsegment Hall].
  all: destruct (print_chars_cons segment segments Hsegment) as (c & l & Hl); rewrite Hl in *.
  { cbn in Hlen. lia. }
  destruct (split_indices segments) as (indices & more & -> & Hmore).
  apply Forall_app in Hall as [Hindices Hok]. rewrite Forall_fmap in Hindices.
  destruct (parse_head_printed path _ _ _ _ _ Hsegment Hindices Hmore Hl)
    as (rest & Hhead & Hless & Hle & Hparse).
  cbn [parse_segments]. rewrite Hhead. cbn [mbind result_bind]. rewrite Hparse. cbn [mbind result_bind].
  destruct more as [|[name|] more]; [done| |done].
  apply Forall_cons in Hok as [Hname Hok]. cbn [print_rest].
  change (chars name ++ print_rest more) with (print_chars (JsonPathSegment.Field name :: more)).
  destruct (print_chars_cons _ more Hname) as (c' & l' & Hl'). rewrite Hl'.
  rewrite bool_decide_eq_false_2 by (intros Hdot; by apply Hdot).
  rewrite bool_decide_eq_false_2 by done. cbn [orb err_if]. rewrite <-Hl', IH; [done|by constructor|].
  cbn [print_rest length] in Hle.
  change (chars name ++ print_rest more) with (print_chars (JsonPathSegment.Field name :: more)) in Hle.
  cbn [length] in Hlen, Hless. lia.
Qed.

Lemma print_chars_lead segments :
  Forall segment_ok segments -> Forall is_lead_group (print_chars segments).
Proof.
  intros Hall. assert (Forall is_lead_group (print_rest segments)) as Hrest.
  { induction Hall as [|[name|index] segments Hok Hall IH]; [constructor| |]; cbn [print_rest].
    - constructor; [done|]. apply Forall_app. split; [apply Hok|done].
    - apply Forall_app. split; [|done]. unfold print_index. apply Forall_app. split; [|by repeat constructor].
      constructor; [done|]. apply chars_pretty. }
  destruct Hall as [|[name|index] segments Hok Hall]; [done| |done].
  by apply Forall_cons in Hrest as [_ Hrest].
Qed.

(** A path is read as it was written: fields joined by dots and indices in
    brackets, as long as it has a segment, no field is blank or holds a dot or
    a bracket, no index exceeds a [usize], and the text does not begin with the
    dollar that stands for the root. *)
Theorem json_path_roundtrip (segments : list JsonPathSegment.t) (Hsome : segments <> [])
    (Hok : Forall segment_ok segments) (Hroot : strip_prefix (print_path segments) "$" = None) :
  parse_json_path_segments (print_path segments) = Ok segments.
Proof.
  assert (strip_root (print_path segments) = print_path segments) as Hstrip.
  { unfold strip_root. rewrite Hroot. destruct (strip_prefix (print_path segments) "$.") eqn:H; [|done].
    apply strip_prefix_Some in H. rewrite H in Hroot.
    change ("$." +:+ s) with ("$" +:+ ("." +:+ s)) in Hroot. by rewrite strip_prefix_app in Hroot. }
  unfold parse_json_path_segments. cbv zeta. rewrite Hstrip. unfold print_path.
  rewrite chars_concat_lead by by apply print_chars_lead.
  rewrite parse_segments_printed by done. cbn [mbind result_bind].
  by rewrite bool_decide_eq_false_2.
Qed.

(** ** Witnesses *)

Module FetchSamples.
#[local] Existing Instance toy_externals.
#[local] Existing Instance StrategySamples.toy_libs.
#[local] Existing Instance HouseSamples.toy_cost.
#[local] Existing Instance HouseSamples.toy_platform.

(** Every call asks for a page of a host that is not on the list. *)
#[local] Instance toy_fetch_libs : HttpFetchLibs := {
  http_fetch_args_from_str text := Ok (HttpFetchArgs.mk text None None);
  build_regex pattern := Ok (fun line => contains line pattern);
}.

Definition house : House.t :=
  write_domains (fun _ => {["example.org"]}) (HouseSamples.house_of (fun snapshot => snapshot)).

Lemma not_listed : ~ host_allowed "https://evil.test/example.org" house.
Proof.
  intros (host & Hhost & Hlisted). vm_compute in Hhost. injection Hhost as <-.
  destruct Hlisted as (domain & Hdomain & Hcovers); [by vm_compute|].
  assert (list_allowed_http_domains house = ["example.org"]) as Hlist by (by vm_compute).
  rewrite Hlist in Hdomain. apply list_elem_of_singleton in Hdomain as ->.
  destruct Hcovers as [[=]|[subdomain Hcovers]]. pose proof (ends_with_app subdomain ".example.org") as Hends.
  change ("evil.test" = subdomain +:+ ".example.org") in Hcovers. rewrite <-Hcovers in Hends.
  vm_compute in Hends. discriminate Hends.
Qed.

(** A platform on which every request would end the call. *)
Definition trapping : OutcallPlatform := {|
  http_request _ := fun _ => Trap;
  canister_liquid_cycle_balance _ := (10 ^ 15)%N;
|}.

Lemma http_fetch_only_allowed_witness :
  @http_fetch_tool _ _ trapping _ _ "https://evil.test/example.org" house
  = http_fetch_tool "https://evil.test/example.org" house.
Proof.
  apply http_fetch_only_allowed; [|done].
  intros args limit s' [= <-] Hallowed. by destruct not_listed.
Defined.

Lemma http_fetch_retries_end_witness :
  http_get_with_size_retry 21 "https://example.org/" 148 1 house <> Trap.
Proof. eapply http_fetch_retries_end; [done|reflexivity|unfold RETRY_ROUNDS; lia]. Defined.

Lemma json_path_roundtrip_witness :
  parse_json_path_segments "data[0][12].price.usd"
  = Ok [JsonPathSegment.Field "data"; JsonPathSegment.Index 0; JsonPathSegment.Index 12;
        JsonPathSegment.Field "price"; JsonPathSegment.Field "usd"].
Proof.
  apply (json_path_roundtrip [JsonPathSegment.Field "data"; JsonPathSegment.Index 0;
    JsonPathSegment.Index 12; JsonPathSegment.Field "price"; JsonPathSegment.Field "usd"]);
    [done| |by vm_compute].
  apply Forall_forall. intros segment Hsegment.
  repeat (apply elem_of_cons in Hsegment as [->|Hsegment]; [|]); [..|by apply not_elem_of_nil in Hsegment].
  all: try (vm_compute; discriminate).
  all: split_and!; [repeat constructor|reflexivity|..].
  all: intros Hin; revert Hin; apply (bool_decide_unpack (_ ∉ _)); vm_compute; exact I.
Defined.
End FetchSamples.
