(* ===== verification/WebSearch.v ===== *)
(** * WebSearch: searching the web

    Models the [web_search] tool of
    [components/ic-automaton/src/features/web_search.rs] in the canister build.

    [search_url_roundtrip]: what the search engine reads from the URL is the
    query, the filters and the count, and nothing a query could smuggle in.
    [web_search_only_brave]: every request goes to the search engine, with the
    configured key, for the arguments or a narrower version of them. *)

From S2P Require Import Prelude Text SpawnProtocol Types Externals AgentTypes AgentDomain TopUpTypes TopUp AgentStore StrategyTypes StrategyStore StrategyPolicy TurnTypes TurnStore Sanitize TurnText StrategySamples AgentConfig EvmRpc HouseSamples HttpFetch.
From Stdlib Require Import Ascii.

Definition WEB_SEARCH_DEFAULT_RESULTS : N := 3.
Definition WEB_SEARCH_MAX_RESULTS : N := 6.
Definition WEB_SEARCH_RETRY_RESULTS : N := 3.
Definition WEB_SEARCH_MAX_QUERY_CHARS : N := 320.
Definition WEB_SEARCH_MAX_OUTPUT_CHARS : N := 8000.
Definition WEB_SEARCH_MAX_SNIPPET_CHARS : N := 320.
Definition WEB_SEARCH_MAX_DOMAIN_FILTERS : nat := 5.
Definition WEB_SEARCH_MAX_RESPONSE_BYTES : N := 128 * 1024.

Module WebSearchArgs.
Record t := mk {
  query : string;
  count : option N;
  freshness : option string;
  include_domains : option (list string);
  exclude_domains : option (list string);
}.
End WebSearchArgs.

Module NormalizedWebSearchArgs.
Record t := mk {
  query : string;
  count : N;
  freshness : option string;
  include_domains : list string;
  exclude_domains : list string;
}.
#[global] Instance eq_dec : EqDecision t.
Proof. solve_decision. Defined.
End NormalizedWebSearchArgs.

Module BraveSearchResult.
Record t := mk {
  title : option string;
  url : option string;
  description : option string;
  age : option string;
  page_age : option string;
}.
End BraveSearchResult.

(** [BraveSearchResponse] with its [BraveSearchWeb]: the results, if any. *)
Module BraveSearchResponse.
Record t := mk { web : option (list BraveSearchResult.t); }.
End BraveSearchResponse.

(** [serde_json]'s readers of the arguments and of the answer. *)
Class WebSearchLibs := {
  web_search_args_from_str : string -> result string WebSearchArgs.t;
  brave_response_from_slice : string -> result string BraveSearchResponse.t;
}.

(** ** Arguments *)

Definition normalize_freshness (freshness : option string) : result string (option string) :=
  match freshness with
  | None => Ok None
  | Some freshness =>
      let normalized := to_ascii_lowercase (trim freshness) in
      if bool_decide (normalized ∈ [""; "any"]) then Ok None
      else if bool_decide (normalized ∈ ["day"; "week"; "month"]) then Ok (Some normalized)
      else Err "freshness must be one of: day, week, month, any"
  end.

Definition normalize_domain (domain : string) : result string string :=
  let trimmed := trim domain in
  err_if (is_empty trimmed) "domain filters must not contain empty entries";;
  let without_scheme :=
    match strip_prefix trimmed "https://" with
    | Some rest => rest
    | None => default trimmed (strip_prefix trimmed "http://")
    end in
  let host := to_ascii_lowercase (trim (first_segment "/" without_scheme)) in
  let host := default host (strip_prefix host "www.") in
  err_if (is_empty host || existsb is_whitespace (chars host) || contains host "/"
          || contains host "?" || contains host "#") ("invalid domain filter: " +:+ trimmed);;
  Ok host.

(** Each domain once, in the order they first come. *)
Fixpoint normalize_domains_onto (normalized : list string) (domains : list string)
    : result string (list string) :=
  match domains with
  | [] => Ok normalized
  | entry :: domains =>
      domain ← normalize_domain entry;
      normalize_domains_onto
        (if bool_decide (domain ∈ normalized) then normalized else normalized ++ [domain]) domains
  end.
Definition normalize_domains (domains : option (list string)) : result string (list string) :=
  normalize_domains_onto [] (default [] domains).

Definition normalize_web_search_args (args : WebSearchArgs.t)
    : result string NormalizedWebSearchArgs.t :=
  let query := trim (WebSearchArgs.query args) in
  err_if (is_empty query) "missing required field: query";;
  err_if (WEB_SEARCH_MAX_QUERY_CHARS <? char_count query)%N
    ("query may contain at most " +:+ pretty WEB_SEARCH_MAX_QUERY_CHARS +:+ " characters");;
  let count := N.min (N.max (default WEB_SEARCH_DEFAULT_RESULTS (WebSearchArgs.count args)) 1)
    WEB_SEARCH_MAX_RESULTS in
  freshness ← normalize_freshness (WebSearchArgs.freshness args);
  include_domains ← normalize_domains (WebSearchArgs.include_domains args);
  exclude_domains ← normalize_domains (WebSearchArgs.exclude_domains args);
  err_if (bool_decide (WEB_SEARCH_MAX_DOMAIN_FILTERS < length include_domains))
    ("include_domains may contain at most "
     +:+ pretty (N.of_nat WEB_SEARCH_MAX_DOMAIN_FILTERS) +:+ " entries");;
  err_if (bool_decide (WEB_SEARCH_MAX_DOMAIN_FILTERS < length exclude_domains))
    ("exclude_domains may contain at most "
     +:+ pretty (N.of_nat WEB_SEARCH_MAX_DOMAIN_FILTERS) +:+ " entries");;
  err_if (existsb (fun domain => bool_decide (domain ∈ exclude_domains)) include_domains)
    "include_domains and exclude_domains must not overlap";;
  Ok (NormalizedWebSearchArgs.mk query count freshness include_domains exclude_domains).

(** ** The URL *)

Definition unreserved (a : ascii) : bool :=
  ascii_alphanumeric (String a "") || bool_decide (String a "" ∈ ["-"; "_"; "."; "~"]).

(** [%{byte:02X}]. *)
Definition hex_upper (n : N) : ascii :=
  if (n <? 10)%N then ascii_of_N (48 + n) else ascii_of_N (55 + n).
Definition percent_byte (a : ascii) : string :=
  let n := byte_of a in
  String "%" (String (hex_upper (n `div` 16)) (String (hex_upper (n `mod` 16)) "")).

Fixpoint percent_encode_query_component (value : string) : string :=
  match value with
  | "" => ""
  | String a value =>
      (if unreserved a then String a ""
       else if (byte_of a =? 32)%N then "+"
       else percent_byte a) +:+ percent_encode_query_component value
  end.

(** The query with its filters. *)
Definition scoped_query (args : NormalizedWebSearchArgs.t) : string :=
  let include_domains := NormalizedWebSearchArgs.include_domains args in
  NormalizedWebSearchArgs.query args
  +:+ (if bool_decide (include_domains = []) then ""
       else " (" +:+ join " OR " ((fun domain => "site:" +:+ domain) <$> include_domains) +:+ ")")
  +:+ concat_str ((fun domain => " -site:" +:+ domain)
                    <$> NormalizedWebSearchArgs.exclude_domains args).

Definition SEARCH_URL : string := "https://api.search.brave.com/res/v1/web/search?".

Definition build_brave_search_url (args : NormalizedWebSearchArgs.t) : string :=
  SEARCH_URL +:+ join "&"
    (["q=" +:+ percent_encode_query_component (scoped_query args);
      "count=" +:+ pretty (NormalizedWebSearchArgs.count args)]
     ++ match NormalizedWebSearchArgs.freshness args with
        | Some freshness => ["freshness=" +:+ percent_encode_query_component freshness]
        | None => []
        end).

(** ** Retries *)

Definition narrowed (args : NormalizedWebSearchArgs.t) (count : N) : NormalizedWebSearchArgs.t :=
  NormalizedWebSearchArgs.mk (NormalizedWebSearchArgs.query args) count
    (NormalizedWebSearchArgs.freshness args) (NormalizedWebSearchArgs.include_domains args)
    (NormalizedWebSearchArgs.exclude_domains args).

(** A candidate joins the plan unless it is the arguments or already there. *)
Definition push_retry (args : NormalizedWebSearchArgs.t) (retries : list NormalizedWebSearchArgs.t)
    (candidate : NormalizedWebSearchArgs.t) : list NormalizedWebSearchArgs.t :=
  if bool_decide (candidate <> args) && bool_decide (candidate ∉ retries)
  then retries ++ [candidate] else retries.

(** [(1..=n).rev()]. *)
Definition countdown (n : N) : list N := rev (N.of_nat <$> seq 1 (N.to_nat n)).

Definition body_limit_retry_sequence (args : NormalizedWebSearchArgs.t) (error : string)
    : list NormalizedWebSearchArgs.t :=
  if negb (is_response_too_large_error error) then []
  else
    let retries := foldl (push_retry args) []
      (narrowed args
       <$> countdown (N.min (NormalizedWebSearchArgs.count args) WEB_SEARCH_RETRY_RESULTS)) in
    if bool_decide (NormalizedWebSearchArgs.include_domains args = [])
       && bool_decide (NormalizedWebSearchArgs.exclude_domains args = [])
    then retries
    else push_retry args retries
           (NormalizedWebSearchArgs.mk (NormalizedWebSearchArgs.query args) 1
              (NormalizedWebSearchArgs.freshness args) [] []).

(** ** Results *)

Definition truncate_with_dots (value : string) (max_chars : N) : string :=
  if (max_chars <? char_count value)%N then take_chars max_chars value +:+ "..." else value.

Definition quoted (text : string) : string :=
  let mark := String (ascii_of_N 34) "" in mark +:+ text +:+ mark.

Definition format_search_result (index : nat) (result : BraveSearchResult.t)
    : Prelude.result string string :=
  let title := default "Untitled result" (normalize_optional_trimmed (BraveSearchResult.title result)) in
  url ← ok_or (normalize_optional_trimmed (BraveSearchResult.url result))
    "web_search provider returned a result without a URL";
  let snippet := default "No snippet available."
    (normalize_optional_trimmed (BraveSearchResult.description result)) in
  let date := match BraveSearchResult.page_age result with
              | Some date => Some date
              | None => BraveSearchResult.age result
              end in
  Ok (newline +:+ newline +:+ "[" +:+ pretty (N.of_nat (index + 1)) +:+ "] " +:+ quoted title
      +:+ newline +:+ "    " +:+ url
      +:+ match normalize_optional_trimmed date with
          | Some date => newline +:+ "    Published: " +:+ date
          | None => ""
          end
      +:+ newline +:+ "    " +:+ truncate_with_dots snippet WEB_SEARCH_MAX_SNIPPET_CHARS).

Definition format_search_results (query : string) (response : BraveSearchResponse.t)
    : Prelude.result string string :=
  let results := default [] (BraveSearchResponse.web response) in
  err_if (bool_decide (results = [])) "web_search returned no results";;
  entries ← try_map (fun entry => format_search_result entry.1 entry.2)
    (imap pair (take (N.to_nat WEB_SEARCH_MAX_RESULTS) results));
  Ok (truncate_with_dots
        ("Found " +:+ pretty (N.min (N.of_nat (length results)) WEB_SEARCH_MAX_RESULTS)
         +:+ " results for " +:+ quoted query +:+ ":" +:+ concat_str entries)
        WEB_SEARCH_MAX_OUTPUT_CHARS).

(** ** The tool *)

Definition search_request (url api_key : string) (max_response_bytes : N) : HttpRequest.t :=
  HttpRequest.mk url max_response_bytes HttpMethod.GET [("X-Subscription-Token", api_key)] None false.

(** [nat_to_u16] of this file, with its own message. *)
Definition provider_status (status : N) : Prelude.result string N :=
  if (status <=? max_uint 16)%N then Ok status
  else Err "invalid HTTP status from provider: number too large to fit in target type".

Definition get_search_api_key (s : House.t) : option string :=
  get_runtime_scalar SEARCH_API_KEY_KEY (house_agent s).

Section Tool.
Context `{ext : Externals, cost : CostApi, platform : OutcallPlatform, search_libs : WebSearchLibs}.

Definition parse_web_search_args (args_json : string) : Prelude.result string NormalizedWebSearchArgs.t :=
  args ← map_err (fun error => "invalid web_search args json: " +:+ error)
    (web_search_args_from_str args_json);
  normalize_web_search_args args.

Definition ensure_web_search_affordable : N -> N -> H unit :=
  ensure_outcall_affordable "insufficient cycles for web_search".

Definition http_get_search (url api_key : string) (max_response_bytes : N) : H string :=
  started_at_ns ← gets (fun s => now (House.desk s));
  response ← map_fail (fun error => "web_search failed: " +:+ error)
    (http_request (search_request url api_key max_response_bytes));
  finished_at_ns ← gets (fun s => now (House.desk s));
  status ← lift (provider_status (HttpResponse.status response));
  let record error := modify (record_outcall_timing RuntimeOutcallKind.HttpFetch started_at_ns
    finished_at_ns error false) : H unit in
  if negb (is_success status) then
    record (Some ("HTTP " +:+ pretty status));;
    mthrow ("web_search provider returned HTTP " +:+ pretty status)
  else
    record None;;
    mret (HttpResponse.body response).

(** One pass of the loop. *)
Definition search_attempt (attempt : NormalizedWebSearchArgs.t) (api_key : string)
    : H (Prelude.result string string) :=
  let url := build_brave_search_url attempt in
  let request_size_bytes := saturating_add 32 (saturating_add 32 (str_len url) (str_len api_key)) 256 in
  ensure_web_search_affordable request_size_bytes WEB_SEARCH_MAX_RESPONSE_BYTES;;
  catch (http_get_search url api_key WEB_SEARCH_MAX_RESPONSE_BYTES).

(** The attempts of the plan, after the first. *)
Fixpoint search_attempts (last_error : string) (attempts : list NormalizedWebSearchArgs.t)
    (api_key : string) : H string :=
  match attempts with
  | [] => mthrow last_error
  | attempt :: attempts =>
      result ← search_attempt attempt api_key;
      match result with
      | Ok body => mret body
      | Err error =>
          if negb (is_response_too_large_error error) then mthrow error
          else search_attempts error attempts api_key
      end
  end.

Definition http_get_search_with_retry (args : NormalizedWebSearchArgs.t) (api_key : string) : H string :=
  result ← search_attempt args api_key;
  match result with
  | Ok body => mret body
  | Err error =>
      if negb (is_response_too_large_error error) then mthrow error
      else search_attempts error (body_limit_retry_sequence args error) api_key
  end.

Definition web_search_tool (args_json : string) : H string :=
  args ← lift (parse_web_search_args args_json);
  api_key ← gets get_search_api_key;
  api_key ← lift (ok_or api_key "search api key is not configured");
  body ← http_get_search_with_retry args api_key;
  response ← lift (map_err (fun error => "web_search failed to parse provider response: " +:+ error)
    (brave_response_from_slice body));
  formatted ← lift (format_search_results (NormalizedWebSearchArgs.query args) response);
  mret (frame_untrusted_content "web_search" formatted).
End Tool.

(** ** What the search engine reads *)

(** A query string as a server reads it: pairs, decoded. *)
Fixpoint percent_decode (value : string) : option string :=
  match value with
  | "" => Some ""
  | String a value =>
      if bool_decide (String a "" = "+") then String " " <$> percent_decode value
      else if bool_decide (String a "" = "%") then
        match value with
        | String high (String low value) =>
            high ← hex_value high; low ← hex_value low;
            String (ascii_of_N (16 * high + low)) <$> percent_decode value
        | _ => None
        end
      else String a <$> percent_decode value
  end.

Definition read_parameter (piece : string) : option (string * string) :=
  '(name, value) ← split_once "=" piece; value ← percent_decode value; Some (name, value).

Definition read_search_url (url : string) : option (list (string * string)) :=
  query ← strip_prefix url SEARCH_URL; mapM read_parameter (split_on "&" query).

Definition encode_byte (a : ascii) : string :=
  if unreserved a then String a "" else if (byte_of a =? 32)%N then "+" else percent_byte a.

Lemma decode_byte a rest : percent_decode (encode_byte a +:+ rest) = String a <$> percent_decode rest.
Proof. by destruct a as [[] [] [] [] [] [] [] []]. Qed.

Lemma encode_cons a value :
  percent_encode_query_component (String a value)
  = encode_byte a +:+ percent_encode_query_component value.
Proof. done. Qed.

Lemma percent_decode_encode value :
  percent_decode (percent_encode_query_component value) = Some value.
Proof.
  induction value as [|a value IH]; [done|]. rewrite encode_cons, decode_byte, IH. done.
Qed.

(** A byte that ends no parameter. *)
Definition parameter_byte (a : ascii) : bool := is_plain a && negb (bool_decide (String a "" = "&")).

Lemma encode_byte_plain a : forallb parameter_byte (str_bytes (encode_byte a)) = true.
Proof. by destruct a as [[] [] [] [] [] [] [] []]. Qed.

Lemma encoded_plain value :
  forallb parameter_byte (str_bytes (percent_encode_query_component value)) = true.
Proof.
  induction value as [|a value IH]; [done|].
  by rewrite encode_cons, str_bytes_app, forallb_app, encode_byte_plain, IH.
Qed.

Lemma encode_pretty (n : N) : percent_encode_query_component (pretty n) = pretty n.
Proof.
  pose proof (digits_pretty n) as Hdigits. induction (pretty n) as [|a value IH]; [done|].
  apply Forall_cons in Hdigits as [[d Ha] Hdigits]. rewrite encode_cons, (IH Hdigits).
  assert (encode_byte a = String a "") as ->; [|done]. clear -Ha.
  by destruct a as [[] [] [] [] [] [] [] []].
Qed.

Lemma pretty_plain (n : N) : forallb parameter_byte (str_bytes (pretty n)) = true.
Proof.
  apply forallb_forall. intros a Ha%list_elem_of_In. pose proof (digits_pretty n) as Hdigits.
  rewrite Forall_forall in Hdigits. destruct (Hdigits a Ha) as [d Hd]. clear -Hd.
  by destruct a as [[] [] [] [] [] [] [] []].
Qed.

Lemma split_parameters pieces :
  pieces <> [] -> Forall (fun piece => forallb parameter_byte (str_bytes piece) = true) pieces ->
  split_on "&" (join "&" pieces) = pieces.
Proof.
  intros Hne Hplain. unfold split_on.
  assert (forall piece, piece ∈ pieces ->
    chars piece = (fun a => String a "") <$> str_bytes piece) as Hchars.
  { intros piece Hin. apply chars_plain. rewrite Forall_forall in Hplain. specialize (Hplain _ Hin).
    apply forallb_forall. intros a Ha. rewrite forallb_forall in Hplain. specialize (Hplain _ Ha).
    by apply andb_true_iff in Hplain as [? _]. }
  assert (pieces = concat_str <$> (chars <$> pieces)) as Heq.
  { rewrite <-list_fmap_compose. rewrite <-(list_fmap_id pieces) at 1.
    apply list_fmap_ext. intros i x _. symmetry. apply concat_chars. }
  rewrite Heq at 1. rewrite join_concat.
  rewrite chars_concat_lead.
  - rewrite split_list_join; [by rewrite <-Heq|by destruct pieces|].
    apply Forall_fmap, Forall_forall. intros piece Hin Hamp. rewrite (Hchars _ Hin) in Hamp.
    apply list_elem_of_fmap in Hamp as (a & Ha & Hin'). rewrite Forall_forall in Hplain.
    specialize (Hplain _ Hin). rewrite forallb_forall in Hplain.
    apply list_elem_of_In, Hplain, andb_true_iff in Hin' as [_ Hneq]. by rewrite <-Ha in Hneq.
  - apply Forall_forall. intros c [->|(x & Hx & Hc)]%elem_of_join_lists; [done|].
    apply list_elem_of_fmap in Hx as (piece & -> & Hin). rewrite (Hchars _ Hin) in Hc.
    apply list_elem_of_fmap in Hc as (a & -> & Ha). rewrite Forall_forall in Hplain.
    specialize (Hplain _ Hin). rewrite forallb_forall in Hplain.
    apply list_elem_of_In, Hplain in Ha. clear -Ha. by destruct a as [[] [] [] [] [] [] [] []].
Qed.

Lemma split_once_equals name value :
  contains name "=" = false -> split_once "=" (name +:+ "=" +:+ value) = Some (name, value).
Proof.
  induction name as [|a name IH]; intros Hnone; [exact (split_once_head "=" value)|].
  cbn [contains] in Hnone. apply orb_false_iff in Hnone as [Ha Hnone].
  change (String a name +:+ "=" +:+ value) with (String a (name +:+ "=" +:+ value)). cbn [split_once].
  assert (strip_prefix (String a (name +:+ "=" +:+ value)) "=" = None) as ->.
  { cbn [starts_with] in Ha. cbn [strip_prefix]. destruct (bool_decide _); [by destruct name|done]. }
  by rewrite (IH Hnone).
Qed.

(** C23 - The search engine reads what was meant: from the URL of a search it decodes
    the query with its filters, the number of results and the freshness, each
    once and in this order.  No text in the query, however it is written, adds
    a parameter or changes another. *)
Theorem search_url_roundtrip (args : NormalizedWebSearchArgs.t) :
  read_search_url (build_brave_search_url args)
  = Some ([("q", scoped_query args); ("count", pretty (NormalizedWebSearchArgs.count args))]
          ++ match NormalizedWebSearchArgs.freshness args with
             | Some freshness => [("freshness", freshness)]
             | None => []
             end).
Proof.
  unfold read_search_url, build_brave_search_url. rewrite strip_prefix_app. cbn [mbind option_bind].
  assert (forall name value, contains name "=" = false ->
    read_parameter (name +:+ "=" +:+ percent_encode_query_component value) = Some (name, value)) as Hread.
  { intros name value Hname. unfold read_parameter. rewrite split_once_equals by done. cbn [mbind option_bind].
    by rewrite percent_decode_encode. }
  assert (forall value, read_parameter ("q=" +:+ percent_encode_query_component value)
    = Some ("q", value)) as Hq by exact (fun value => Hread "q" value eq_refl).
  assert (forall value, read_parameter ("freshness=" +:+ percent_encode_query_component value)
    = Some ("freshness", value)) as Hfreshness by exact (fun value => Hread "freshness" value eq_refl).
  assert (forall n : N, read_parameter ("count=" +:+ pretty n) = Some ("count", pretty n)) as Hcount.
  { intros n. rewrite <-(encode_pretty n) at 1. exact (Hread "count" (pretty n) eq_refl). }
  rewrite split_parameters; [|done|].
  - destruct (NormalizedWebSearchArgs.freshness args) as [freshness|]; cbn [app mapM mbind option_bind].
    + by rewrite Hq, Hcount, Hfreshness.
    + by rewrite Hq, Hcount.
  - assert (forall name value, forallb parameter_byte (str_bytes (name +:+ "=")) = true ->
      forallb parameter_byte (str_bytes value) = true ->
      forallb parameter_byte (str_bytes (name +:+ "=" +:+ value)) = true) as Hpiece.
    { intros name value. rewrite !str_bytes_app, !forallb_app. by intros [-> ->]%andb_true_iff ->. }
    apply Forall_app. split; [apply Forall_cons; split; [|apply Forall_singleton]|].
    + by apply (Hpiece "q"), encoded_plain.
    + by apply (Hpiece "count"), pretty_plain.
    + destruct (NormalizedWebSearchArgs.freshness args) as [freshness|]; [|done].
      apply Forall_singleton. by apply (Hpiece "freshness"), encoded_plain.
Qed.

(** ** What is asked, and how often *)

(** The arguments, with fewer results and perhaps without the filters. *)
Definition narrower (args attempt : NormalizedWebSearchArgs.t) : Prop :=
  NormalizedWebSearchArgs.query attempt = NormalizedWebSearchArgs.query args
  /\ NormalizedWebSearchArgs.freshness attempt = NormalizedWebSearchArgs.freshness args
  /\ (NormalizedWebSearchArgs.count attempt <= NormalizedWebSearchArgs.count args)%N
  /\ (NormalizedWebSearchArgs.include_domains attempt = NormalizedWebSearchArgs.include_domains args
      /\ NormalizedWebSearchArgs.exclude_domains attempt = NormalizedWebSearchArgs.exclude_domains args
      \/ NormalizedWebSearchArgs.include_domains attempt = []
         /\ NormalizedWebSearchArgs.exclude_domains attempt = []).

Lemma elem_of_push_retry args retries candidate attempt :
  attempt ∈ push_retry args retries candidate -> attempt ∈ retries \/ attempt = candidate.
Proof. unfold push_retry. destruct (_ && _); set_solver. Qed.

Lemma length_push_retry args retries candidate :
  length (push_retry args retries candidate) <= S (length retries).
Proof. unfold push_retry. destruct (_ && _); rewrite ?length_app; cbn; lia. Qed.

Lemma push_retries args candidates : forall retries,
  (forall attempt, attempt ∈ foldl (push_retry args) retries candidates ->
     attempt ∈ retries \/ attempt ∈ candidates)
  /\ length (foldl (push_retry args) retries candidates) <= length retries + length candidates.
Proof.
  induction candidates as [|candidate candidates IH]; intros retries; [split; [by left|cbn; lia]|].
  cbn [foldl length]. destruct (IH (push_retry args retries candidate)) as [Hin Hlen].
  pose proof (length_push_retry args retries candidate). split; [|lia].
  intros attempt [Hold|Hnew]%Hin; [|right; by right].
  apply elem_of_push_retry in Hold as [Hold| ->]; [by left|right; left].
Qed.

Lemma elem_of_countdown n k : k ∈ countdown n -> (1 <= k <= n)%N.
Proof.
  unfold countdown. rewrite list_elem_of_In, <-in_rev, <-list_elem_of_In, list_elem_of_fmap.
  intros (i & -> & Hi%elem_of_seq). lia.
Qed.

(** The plan holds at most four attempts, each with fewer results. *)
Lemma retry_sequence_narrower args error :
  (1 <= NormalizedWebSearchArgs.count args)%N ->
  Forall (narrower args) (body_limit_retry_sequence args error)
  /\ length (body_limit_retry_sequence args error) <= 4.
Proof.
  intros Hcount. unfold body_limit_retry_sequence. destruct (negb _); [split; [constructor|cbn; lia]|].
  cbv zeta. set (n := N.min _ _). set (retries := foldl _ _ _).
  destruct (push_retries args (narrowed args <$> countdown n) []) as [Hin Hlen].
  fold retries in Hin, Hlen. rewrite length_fmap in Hlen. cbn [length] in Hlen.
  assert (length (countdown n) <= 3) as Hthree.
  { unfold countdown. rewrite length_rev, length_fmap, length_seq. unfold n, WEB_SEARCH_RETRY_RESULTS. lia. }
  assert (Forall (narrower args) retries) as Hretries.
  { apply Forall_forall. intros attempt [Hnone|Hattempt]%Hin; [set_solver|].
    apply list_elem_of_fmap in Hattempt as (k & -> & [_ Hk]%elem_of_countdown).
    unfold narrower. cbn. split_and!; [done|done|unfold n in Hk; lia|auto]. }
  destruct (_ && _); [split; [done|lia]|]. split.
  - rewrite Forall_forall in Hretries |- *. intros attempt [Hold| ->]%elem_of_push_retry; [auto|].
    unfold narrower. cbn. split_and!; [done|done|done|auto].
  - etrans; [apply length_push_retry|]. lia.
Qed.

Lemma parsed_count args normalized :
  normalize_web_search_args args = Ok normalized ->
  (1 <= NormalizedWebSearchArgs.count normalized <= WEB_SEARCH_MAX_RESULTS)%N.
Proof.
  unfold normalize_web_search_args. intros Hok. do 2 apply err_if_seq_Ok in Hok as [_ Hok].
  cbv zeta in Hok. do 3 apply result_bind_Ok in Hok as (? & _ & Hok).
  do 3 apply err_if_seq_Ok in Hok as [_ Hok]. injection Hok as <-. cbn.
  unfold WEB_SEARCH_MAX_RESULTS. lia.
Qed.

Section OnlyBrave.
Context `{ext : Externals, cost : CostApi, search_libs : WebSearchLibs}.
Context (platform platform' : OutcallPlatform) (args_json : string) (s : House.t).
Context (Hrequest : forall args attempt api_key s',
           parse_web_search_args args_json = Ok args -> narrower args attempt ->
           get_search_api_key s = Some api_key ->
           let request := search_request (build_brave_search_url attempt) api_key
                            WEB_SEARCH_MAX_RESPONSE_BYTES in
           @http_request platform request s' = @http_request platform' request s').
Context (Hbalance : forall s',
           @canister_liquid_cycle_balance platform s' = @canister_liquid_cycle_balance platform' s').

Lemma search_attempt_agree args attempt api_key s' :
  parse_web_search_args args_json = Ok args -> narrower args attempt ->
  get_search_api_key s = Some api_key ->
  @search_attempt _ _ platform attempt api_key s' = @search_attempt _ _ platform' attempt api_key s'.
Proof.
  intros Hargs Hnarrower Hkey. unfold search_attempt. cbv zeta.
  apply bind_agree; [by apply ensure_affordable_agree|]. intros _ s1. unfold catch.
  enough (@http_get_search _ platform (build_brave_search_url attempt) api_key
            WEB_SEARCH_MAX_RESPONSE_BYTES s1
          = @http_get_search _ platform' (build_brave_search_url attempt) api_key
            WEB_SEARCH_MAX_RESPONSE_BYTES s1) as -> by done.
  unfold http_get_search. apply bind_agree; [done|]. intros started s2.
  apply bind_agree; [|done]. unfold map_fail. by rewrite (Hrequest args attempt api_key s2).
Qed.

Lemma search_attempts_agree args attempts api_key :
  parse_web_search_args args_json = Ok args -> Forall (narrower args) attempts ->
  get_search_api_key s = Some api_key -> forall error s',
  @search_attempts _ _ platform error attempts api_key s'
  = @search_attempts _ _ platform' error attempts api_key s'.
Proof.
  intros Hargs Hall Hkey. induction Hall as [|attempt attempts Hnarrower Hall IH]; intros error s'; [done|].
  cbn [search_attempts]. apply bind_agree; [by eapply search_attempt_agree|].
  intros [body|error'] s1; [done|]. destruct (negb _); [done|]. apply IH.
Qed.

Lemma search_retry_agree args api_key s' :
  parse_web_search_args args_json = Ok args -> get_search_api_key s = Some api_key ->
  @http_get_search_with_retry _ _ platform args api_key s'
  = @http_get_search_with_retry _ _ platform' args api_key s'.
Proof.
  intros Hargs Hkey. unfold http_get_search_with_retry. apply bind_agree.
  - eapply search_attempt_agree; [done| |done]. unfold narrower. split_and!; [done..|auto].
  - intros [body|error] s1; [done|]. destruct (negb _); [done|].
    eapply search_attempts_agree; [done| |done]. apply retry_sequence_narrower.
    unfold parse_web_search_args in Hargs. apply result_bind_Ok in Hargs as (raw & _ & Hargs).
    apply parsed_count in Hargs. lia.
Qed.

(** A search asks the search engine and nothing else: a [GET] of the search
    URL, with the configured key as its only header, for the arguments as they
    were read or, after an answer that was too large, for fewer results, at
    last without the domain filters.  On platforms that agree on these requests
    the tool does the same; without a key, or with arguments that are refused,
    nothing is asked. *)
Theorem web_search_only_brave :
  @web_search_tool _ _ platform _ args_json s = @web_search_tool _ _ platform' _ args_json s.
Proof.
  pose proof search_retry_agree as Hretry. unfold web_search_tool. rewrite !lift_run.
  destruct (parse_web_search_args args_json) as [args|] eqn:Hargs; [|done].
  unfold gets, mbind at 1 6, M_bind at 1 6. rewrite !lift_run.
  destruct (get_search_api_key s) as [api_key|] eqn:Hkey; [|done]. cbn [ok_or].
  apply bind_agree; [|done]. by apply Hretry.
Qed.
End OnlyBrave.

(** ** Witnesses *)

Module SearchSamples.
#[local] Existing Instance toy_externals.
#[local] Existing Instance HouseSamples.toy_cost.
#[local] Existing Instance HouseSamples.toy_platform.

#[local] Instance toy_search_libs : WebSearchLibs := {
  web_search_args_from_str text := Ok (WebSearchArgs.mk text None None None None);
  brave_response_from_slice _ := Ok (BraveSearchResponse.mk None);
}.

(** No key is configured. *)
Definition house : House.t := HouseSamples.house_of (fun snapshot => snapshot).

Lemma web_search_only_brave_witness :
  @web_search_tool _ _ FetchSamples.trapping _ "rust & coq" house = web_search_tool "rust & coq" house.
Proof.
  apply web_search_only_brave; [|done].
  intros args attempt api_key s' _ _ Hkey. vm_compute in Hkey. discriminate Hkey.
Defined.
End SearchSamples.
