(* ===== verification/CanisterCall.v ===== *)
(** * CanisterCall: skills, and the calls they permit

    Models the table of skills ([components/ic-automaton/src/storage/stable.rs],
    [storage/sqlite.rs], [features/skills.rs]) and the [canister_call] tool of
    [features/canister_call.rs] in the canister build, with its arm of
    [tools.rs] that the survival policy may skip.

    [canister_calls_permitted]: the tool calls no canister but one that an
    enabled skill names, and no method but the one named with it.
    [seeding_keeps_skills]: an upgrade adds the skills that are missing and
    leaves those that are there. *)

From S2P Require Import Prelude Text SpawnProtocol Types Externals AgentTypes AgentDomain TopUpTypes TopUp AgentStore StrategyTypes StrategyStore StrategyPolicy TurnTypes TurnStore Sanitize TurnText StrategySamples AgentConfig EvmRpc HouseSamples HttpFetch WebSearch.
From Stdlib Require Import Ascii Strings.Byte.

(** ** Skills *)

Definition upsert_skill (skill : SkillRecord.t) (s : House.t) : House.t :=
  s <| House.skills ::= <[SkillRecord.name skill := skill]> |>.

(** [delete_skill] of [sqlite.rs] trims the name and cannot fail, so
    [remove_skill] always answers [true]. *)
Definition remove_skill (name : string) (s : House.t) : bool * House.t :=
  let trimmed := trim name in
  (true, if is_empty trimmed then s else s <| House.skills ::= delete trimmed |>).

(** In the order of their names, at most a thousand. *)
Definition MAX_LISTED_SKILLS : nat := 1000.
Definition list_skills (s : House.t) : list SkillRecord.t :=
  take MAX_LISTED_SKILLS (btree_values (House.skills s)).

Definition CYCLES_LEDGER_CANISTER_ID : string := "um5iw-rqaaa-aaaaq-qaaba-cai".

Definition cycles_management_instructions : string :=
  join newline
    ["To check cycles ledger balance, use canister_call:";
     "- canister_id: " +:+ quoted CYCLES_LEDGER_CANISTER_ID;
     "- method: " +:+ quoted "icrc1_balance_of";
     "- args_candid: " +:+ quoted ("(record { owner = principal \" +:+ quoted "<self-canister-id>\"
       +:+ "; subaccount = null })");
     "";
     "The response is a nat (number of cycles, 1 T-cycle = 1_000_000_000_000).";
     "";
     "To withdraw cycles from the ledger and deposit them into this canister, use:";
     "- canister_id: " +:+ quoted CYCLES_LEDGER_CANISTER_ID;
     "- method: " +:+ quoted "withdraw";
     "- args_candid: " +:+ quoted ("(record { amount = <amount> : nat; from_subaccount = null; to = principal \"
       +:+ quoted "<self-canister-id>\" +:+ "; created_at_time = null })");
     "";
     "Always check balance before withdrawing. Prefer conservative top-up amounts.";
     "Replace <self-canister-id> with this canister's own principal from context."].

Definition cycles_management_skill : SkillRecord.t :=
  SkillRecord.mk "cycles-management"
    "Cycles ledger balance monitoring and self-top-up via canister_call"
    cycles_management_instructions true true
    [CanisterCallPermission.mk CYCLES_LEDGER_CANISTER_ID "icrc1_balance_of" CanisterCallType.Query;
     CanisterCallPermission.mk CYCLES_LEDGER_CANISTER_ID "withdraw" CanisterCallType.Update].

Definition load_defaults : list SkillRecord.t := [cycles_management_skill].

Definition install_defaults (s : House.t) : House.t :=
  foldl (fun s skill => upsert_skill skill s) s load_defaults.

(** The names are read once, before the first skill is stored. *)
Definition seed_missing_defaults (s : House.t) : House.t :=
  let existing := SkillRecord.name <$> list_skills s in
  foldl (fun s skill =>
    if bool_decide (SkillRecord.name skill ∈ existing) then s else upsert_skill skill s)
    s load_defaults.

(** ** The tool *)

Definition SURVIVAL_OPERATION_MAX_BACKOFF_SECS_INTER_CANISTER_CALL : N := 120.
Definition MAX_CANISTER_CALL_OUTPUT_CHARS : N := 4000.

Module CanisterCallArgs.
Record t := mk {
  canister_id : string;
  method : string;
  args_candid : string;
}.
End CanisterCallArgs.

(** [ic_cdk::call::CallFailed], with what the code reads of each. *)
Module CallFailed.
Inductive t :=
| InsufficientLiquidCycleBalance (available required : N)
| CallPerformFailed (debug : string)
| CallRejected (raw_reject_code : N) (reject_message : string).
End CallFailed.

(** [Call::bounded_wait] with raw arguments. *)
Class CallPlatform :=
  bounded_wait : Principal -> string -> list byte -> M House.t CallFailed.t (list byte).

(** [ic_cdk::api::id], [serde_json] on the arguments, and Candid's text and
    binary forms; errors are their [Display]. *)
Class CandidLibs := {
  canister_self : Principal;
  canister_call_args_from_str : string -> result string CanisterCallArgs.t;
  IDLArgs : Type;
  parse_idl_args : string -> result string IDLArgs;
  idl_args_to_bytes : IDLArgs -> result string (list byte);
  idl_args_from_bytes : list byte -> result string string;
}.

(** What the arms of [CallFailed] are reported as. *)
Definition call_error (error : CallFailed.t) : string :=
  match error with
  | CallFailed.InsufficientLiquidCycleBalance available required =>
      "insufficient cycles: available=" +:+ pretty available +:+ " required=" +:+ pretty required
  | CallFailed.CallPerformFailed debug => "call_perform failed (system error): " +:+ debug
  | CallFailed.CallRejected code message =>
      "call rejected: code=" +:+ pretty code +:+ " msg=" +:+ message
  end.

Definition truncate_call_output (result_text : string) : string :=
  if (MAX_CANISTER_CALL_OUTPUT_CHARS <? char_count result_text)%N
  then take_chars MAX_CANISTER_CALL_OUTPUT_CHARS result_text +:+ "... [truncated, "
       +:+ pretty (str_len result_text) +:+ " total chars]"
  else result_text.

(** [str::replace]; every round takes a byte. *)
Fixpoint replace_rounds (rounds : nat) (text from to : string) : string :=
  match rounds, text with
  | S rounds, String a rest =>
      match strip_prefix text from with
      | Some rest => to +:+ replace_rounds rounds rest from to
      | None => String a (replace_rounds rounds rest from to)
      end
  | _, _ => text
  end.
Definition replace (text from to : string) : string := replace_rounds (String.length text) text from to.

Section Tool.
Context `{ext : Externals, calls : CallPlatform, candid : CandidLibs}.

Definition permits (canister_id : Principal) (method : string) (p : CanisterCallPermission.t) : bool :=
  match principal_from_text (CanisterCallPermission.canister_id p) with
  | Ok id => bool_decide (id = canister_id)
  | Err _ => false
  end && bool_decide (CanisterCallPermission.method p = method).

(** Whether an enabled skill permits the call. *)
Definition permitted (canister_id : Principal) (method : string) (s : House.t) : bool :=
  existsb (permits canister_id method)
    (concat (SkillRecord.allowed_canister_calls <$> List.filter SkillRecord.enabled (list_skills s))).

Definition resolve_self_canister_placeholder (args_candid : string) : string :=
  if contains args_candid "<self-canister-id>"
  then replace args_candid "<self-canister-id>" canister_self else args_candid.

Definition do_call (canister_id : Principal) (method : string) (encoded_args : list byte)
    : H (list byte) := map_fail call_error (bounded_wait canister_id method encoded_args).

Definition call_canister_raw (canister_id : Principal) (method args_candid canister_id_text : string)
    : H string :=
  let args_candid := resolve_self_canister_placeholder args_candid in
  idl_args ← lift (map_err (fun e => "candid parse error in args_candid: " +:+ e)
    (parse_idl_args args_candid));
  encoded ← lift (map_err (fun e => "candid encode error: " +:+ e) (idl_args_to_bytes idl_args));
  response_bytes ← do_call canister_id method encoded;
  result_text ← lift (map_err (fun e => "candid decode error in response: " +:+ e)
    (idl_args_from_bytes response_bytes));
  mret (frame_untrusted_content ("canister:" +:+ canister_id_text +:+ "." +:+ method)
          (truncate_call_output result_text)).

Definition canister_call_tool (args_json : string) : H string :=
  args ← lift (map_err (fun e => "invalid canister_call args: " +:+ e)
    (canister_call_args_from_str args_json));
  let canister_id_text := CanisterCallArgs.canister_id args in
  let method := CanisterCallArgs.method args in
  canister_id ← lift (map_err (fun e =>
    "invalid canister principal " +:+ quoted canister_id_text +:+ ": " +:+ e)
    (principal_from_text canister_id_text));
  allowed ← gets (permitted canister_id method);
  fail_if (negb allowed)
    ("canister_call to " +:+ canister_id_text +:+ "." +:+ method
     +:+ " not permitted by any active skill");;
  call_canister_raw canister_id method (CanisterCallArgs.args_candid args) canister_id_text.

(** The arm of the tool manager: the survival policy may skip the call, and
    counts how it ended. *)
Definition execute_canister_call (args_json : string) : H string :=
  s ← get_state;
  let now_ns := now (House.desk s) in
  if negb (can_run_survival_operation SurvivalOperationClass.InterCanisterCall now_ns (house_agent s))
  then mthrow "canister_call skipped due to survival policy"
  else
    result ← (catch (canister_call_tool args_json) : H (Prelude.result string string));
    match result with
    | Ok output =>
        modify (on_house_agent
          (record_survival_operation_success SurvivalOperationClass.InterCanisterCall));;
        mret output
    | Err error =>
        modify (on_house_agent
          (record_survival_operation_failure SurvivalOperationClass.InterCanisterCall now_ns
             SURVIVAL_OPERATION_MAX_BACKOFF_SECS_INTER_CANISTER_CALL));;
        mthrow error
    end.
End Tool.

(** ** Only what a skill permits *)

(** An enabled skill of the list names the canister, in any of its spellings,
    and the method. *)
Definition skill_permits `{ext : Externals} (canister_id : Principal) (method : string)
    (s : House.t) : Prop :=
  exists skill p, skill ∈ list_skills s /\ SkillRecord.enabled skill = true
    /\ p ∈ SkillRecord.allowed_canister_calls skill
    /\ principal_from_text (CanisterCallPermission.canister_id p) = Ok canister_id
    /\ CanisterCallPermission.method p = method.

Lemma permitted_spec `{ext : Externals} canister_id method s :
  permitted canister_id method s = true <-> skill_permits canister_id method s.
Proof.
  unfold permitted, skill_permits. rewrite existsb_exists. split.
  - intros (p & Hin & Hpermits). apply in_concat in Hin as (l & Hl & Hp).
    apply list_elem_of_In, list_elem_of_fmap in Hl as (skill & -> & Hskill).
    apply list_elem_of_In, filter_In in Hskill as [Hskill Henabled].
    exists skill, p. unfold permits in Hpermits. apply andb_true_iff in Hpermits as [Hid Hmethod].
    destruct (principal_from_text _) as [id|]; [|done].
    apply bool_decide_eq_true in Hid as ->, Hmethod. rewrite !list_elem_of_In. by split_and!.
  - intros (skill & p & Hskill & Henabled & Hp & Hid & Hmethod). exists p. split.
    + apply in_concat. exists (SkillRecord.allowed_canister_calls skill).
      split; [|by apply list_elem_of_In].
      apply list_elem_of_In, list_elem_of_fmap. exists skill. split; [done|].
      apply list_elem_of_In, filter_In. split; [by apply list_elem_of_In|done].
    + unfold permits. by rewrite Hid, !bool_decide_eq_true_2.
Qed.

Lemma gets_fail_if {S E A B} (f : S -> A) (b : A -> bool) (e : A -> E) (k : A -> M S E B) s :
  (a ← gets f; fail_if (b a) (e a);; k a) s = if b (f s) then Fail (e (f s)) s else k (f s) s.
Proof. unfold gets, fail_if, mbind, M_bind. by destruct (b (f s)). Qed.

(** C21 - The tool calls only what a skill permits: to any call it makes, an enabled
    skill grants the canister and the method together, when the call is made.
    Whatever calls that no skill grants would do, the tool does the same; and
    if none is granted it fails at once. *)
Theorem canister_calls_permitted `{ext : Externals, candid : CandidLibs}
    (calls calls' : CallPlatform) (args_json : string) (s : House.t)
    (Hcalls : forall canister_id method args, skill_permits canister_id method s ->
       calls canister_id method args s = calls' canister_id method args s) :
  @canister_call_tool _ calls _ args_json s = @canister_call_tool _ calls' _ args_json s.
Proof.
  unfold canister_call_tool, H. rewrite !lift_run.
  destruct (map_err _ (canister_call_args_from_str args_json)) as [args|]; [|done]. cbv beta zeta.
  rewrite !lift_run. destruct (map_err _ (principal_from_text _)) as [id|]; [|done].
  rewrite !(gets_fail_if _ negb).
  destruct (permitted id (CanisterCallArgs.method args) s) eqn:Hpermitted; [|done].
  apply permitted_spec in Hpermitted. cbn [negb]. unfold call_canister_raw, H. cbv zeta.
  rewrite !lift_run. destruct (map_err _ (parse_idl_args _)) as [idl_args|]; [|done].
  rewrite !lift_run. destruct (map_err _ (idl_args_to_bytes _)) as [encoded|]; [|done].
  apply bind_agree; [|done]. unfold do_call, map_fail. unfold bounded_wait. by rewrite Hcalls.
Qed.

(** ** Seeding *)

(** Skills are kept under their names. *)
Definition skills_named (s : House.t) : Prop :=
  map_Forall (fun name skill => SkillRecord.name skill = name) (House.skills s).

Lemma elem_of_list_skills s skill :
  size (House.skills s) <= MAX_LISTED_SKILLS ->
  skill ∈ list_skills s <-> exists name, House.skills s !! name = Some skill.
Proof.
  intros Hsize. unfold list_skills. rewrite take_ge; [apply elem_of_btree_values|].
  unfold btree_values. rewrite length_fmap, length_btree_iter. lia.
Qed.

(** Seeding after an upgrade adds the default skills that are missing and
    changes no skill that is there, whatever the controller made of it; doing
    it again changes nothing. *)
Theorem seeding_keeps_skills (s : House.t) (Hnamed : skills_named s)
    (Hsize : size (House.skills s) < MAX_LISTED_SKILLS) :
  let s' := seed_missing_defaults s in
  House.skills s ⊆ House.skills s'
  /\ (forall skill, skill ∈ load_defaults -> is_Some (House.skills s' !! SkillRecord.name skill))
  /\ (forall name skill, House.skills s' !! name = Some skill ->
       House.skills s !! name = Some skill \/ skill ∈ load_defaults)
  /\ skills_named s' /\ seed_missing_defaults s' = s'.
Proof.
  set (name := SkillRecord.name cycles_management_skill).
  assert (forall s, skills_named s -> size (House.skills s) <= MAX_LISTED_SKILLS ->
    seed_missing_defaults s = if bool_decide (is_Some (House.skills s !! name)) then s
                              else upsert_skill cycles_management_skill s) as Hseed.
  { clear s Hnamed Hsize. intros s Hnamed Hsize. unfold seed_missing_defaults. cbn [foldl load_defaults].
    enough (SkillRecord.name cycles_management_skill ∈ SkillRecord.name <$> list_skills s
            <-> is_Some (House.skills s !! name)) as Hiff by by rewrite (bool_decide_ext _ _ Hiff).
    rewrite list_elem_of_fmap. split.
    - intros (skill & Hname & Hin). apply elem_of_list_skills in Hin as [key Hkey]; [|done].
      exists skill. unfold name. rewrite Hname, (Hnamed _ _ Hkey). done.
    - intros [skill Hskill]. exists skill. split; [symmetry; exact (Hnamed _ _ Hskill)|].
      apply elem_of_list_skills; [done|]. by exists name. }
  cbv zeta. rewrite (Hseed s Hnamed) by lia.
  destruct (House.skills s !! name) as [skill|] eqn:Hskill.
  - rewrite bool_decide_eq_true_2 by eauto. split_and!; [done| |auto|done|].
    + intros skill' ->%list_elem_of_singleton. fold name. eauto.
    + rewrite Hseed by (done || lia). rewrite Hskill. by rewrite bool_decide_eq_true_2 by eauto.
  - rewrite bool_decide_eq_false_2 by by intros [? ?]. unfold upsert_skill. simpl_set. fold name.
    split_and!.
    + by apply insert_subseteq.
    + intros skill ->%list_elem_of_singleton. fold name. rewrite lookup_insert_eq. eauto.
    + intros key skill Hkey. apply lookup_insert_Some in Hkey as [[_ <-]|[_ Hkey]]; [right; left|by left].
    + unfold skills_named. simpl_set. by apply map_Forall_insert_2.
    + rewrite Hseed.
      * simpl_set. rewrite lookup_insert_eq. by rewrite bool_decide_eq_true_2 by eauto.
      * unfold skills_named. simpl_set. by apply map_Forall_insert_2.
      * simpl_set. rewrite map_size_insert_None by done. lia.
Qed.

(** ** Witnesses *)

Module CallSamples.
#[local] Existing Instance toy_externals.

#[local] Instance toy_candid : CandidLibs := {
  canister_self := "automaton";
  canister_call_args_from_str text := Ok (CanisterCallArgs.mk "ledger" text "()");
  IDLArgs := string;
  parse_idl_args text := Ok text;
  idl_args_to_bytes text := Ok (as_bytes text);
  idl_args_from_bytes _ := Ok "(1 : nat)";
}.

(** A ledger that answers its methods, and one that traps on [drain]. *)
Definition obliging : CallPlatform := fun _ _ _ => mret [x01].
Definition strict : CallPlatform := fun _ method _ =>
  if bool_decide (method = "drain") then fun _ => Trap else mret [x01].

Definition reader : SkillRecord.t :=
  SkillRecord.mk "reader" "d" "i" true true
    [CanisterCallPermission.mk "ledger" "balance" CanisterCallType.Query].
Definition house : House.t :=
  upsert_skill reader (HouseSamples.house_of (fun snapshot => snapshot)).

Lemma canister_calls_permitted_witness :
  @canister_call_tool _ strict _ "drain" house = @canister_call_tool _ obliging _ "drain" house.
Proof.
  apply canister_calls_permitted. intros canister_id method args Hpermits. unfold strict.
  case_bool_decide as Hdrain; [|done]. subst method. apply permitted_spec in Hpermits.
  assert (permitted canister_id "drain" house = false) as Hrefused; [|congruence].
  unfold permitted. assert (list_skills house = [reader]) as -> by (vm_compute; reflexivity).
  cbn -[permits bool_decide]. unfold permits. by rewrite andb_false_r.
Defined.

Lemma seeding_keeps_skills_witness :
  seed_missing_defaults (seed_missing_defaults house) = seed_missing_defaults house.
Proof.
  apply seeding_keeps_skills; [|vm_compute; lia].
  apply map_Forall_insert_2; [done|apply map_Forall_empty].
Defined.
End CallSamples.
