(* ===== verification/AgentMemory.v ===== *)
(** * AgentMemory: what the automaton remembers

    Models the memory facts of [components/ic-automaton/src]: their table
    ([storage/sqlite.rs]), its bounds ([storage/stable.rs]) and the tools
    [remember], [recall], [memory_stats] and [forget] ([tools.rs]).

    [memory_write_exact]: a write stores the fact, keeps the table bounded and
    costs at most the oldest fact that is not critical.
    [memory_calls_safe]: the table's invariant.  [prune_wildcard] and
    [prune_future_cutoff]: two prefixes and times that do not prune what they
    say. *)

From S2P Require Import Prelude Text SpawnProtocol Types Externals AgentTypes AgentDomain TopUpTypes TopUp AgentStore StrategyTypes StrategyStore StrategyPolicy TurnTypes TurnStore Sanitize TurnText StrategySamples AgentConfig EvmRpc HouseSamples HttpFetch.
From Stdlib Require Import Ascii.

Definition MAX_MEMORY_FACTS : N := 500.
Definition MAX_MEMORY_VALUE_BYTES : nat := 4096.
Definition MAX_MEMORY_RECALL_RESULTS : N := 50.

Module MemoryFactSort.
Inductive t :=
| UpdatedAtDesc
| KeyAsc.
End MemoryFactSort.

Module MemoryFactStats.
Record t := mk {
  total_facts : N;
  storage_bytes : N;
  config_facts : N;
}.
End MemoryFactStats.

(** ** The table *)

(** SQLite's [LIKE] on characters: [_] is any one, [%] any number, and ASCII
    letters match in either case. *)
Fixpoint sql_like (pattern text : list string) : bool :=
  match pattern with
  | [] => bool_decide (text = [])
  | c :: pattern =>
      if bool_decide (c = "%") then
        (fix anywhere (text : list string) : bool :=
           sql_like pattern text
           || match text with [] => false | _ :: text => anywhere text end) text
      else
        match text with
        | [] => false
        | d :: text =>
            (bool_decide (c = "_") || bool_decide (to_ascii_lowercase c = to_ascii_lowercase d))
            && sql_like pattern text
        end
  end.

(** [key LIKE '{prefix}%']. *)
Definition key_like (prefix : string) (fact : MemoryFact.t) : bool :=
  sql_like (chars (prefix +:+ "%")) (chars (MemoryFact.key fact)).

Definition upsert_memory_fact (fact : MemoryFact.t) (s : House.t) : House.t :=
  s <| House.memory_facts ::= <[MemoryFact.key fact := fact]> |>.

Definition delete_memory_fact (key : string) (s : House.t) : House.t :=
  let trimmed := trim key in
  if is_empty trimmed then s else s <| House.memory_facts ::= delete trimmed |>.

Definition get_memory_fact (key : string) (s : House.t) : option MemoryFact.t :=
  House.memory_facts s !! key.

(** [ORDER BY key]. *)
Definition memory_rows (s : House.t) : list MemoryFact.t := btree_values (House.memory_facts s).

(** The listings of [sqlite.rs], before they are sorted. *)
Definition list_memory_rows (limit : N) (s : House.t) : list MemoryFact.t :=
  limit_rows (bounded_limit limit 500 1000) (memory_rows s).
Definition list_memory_rows_by_prefix (prefix : string) (limit : N) (s : House.t)
    : list MemoryFact.t :=
  limit_rows (bounded_limit limit 500 1000) (List.filter (key_like prefix) (memory_rows s)).

Definition memory_fact_count (s : House.t) : N := N.of_nat (size (House.memory_facts s)).
Definition count_memory_facts_by_prefix (prefix : string) (s : House.t) : N :=
  N.of_nat (length (List.filter (key_like prefix) (memory_rows s))).

Section Prune.
Context `{rows : RowOrder}.

(** The facts to go: what the filters select, the oldest first, to the limit. *)
Definition prune_selects (prefix : option string) (updated_before_ns : option N)
    (fact : MemoryFact.t) : bool :=
  is_none_or (fun prefix => key_like prefix fact) prefix
  && is_none_or (fun cutoff => (as_i64 (MemoryFact.updated_at_ns fact) <? as_i64 cutoff)%Z)
       updated_before_ns.

Definition older_fact (x y : MemoryFact.t) : bool :=
  (as_i64 (MemoryFact.updated_at_ns x) <=? as_i64 (MemoryFact.updated_at_ns y))%Z.

Definition prune_memory_facts (prefix : option string) (updated_before_ns : option N) (limit : N)
    (s : House.t) : list string * House.t :=
  if negb (is_some prefix) && negb (is_some updated_before_ns) then ([], s)
  else
    let selected := List.filter (prune_selects prefix updated_before_ns) (memory_rows s) in
    let keys := MemoryFact.key <$> limit_rows limit (order_rows older_fact selected) in
    (keys, s <| House.memory_facts ::= fun facts => foldr delete facts keys |>).
End Prune.

(** ** Its bounds *)

Definition is_critical_exact_memory_key (key : string) : bool :=
  bool_decide (key = "balance.eth") || bool_decide (key = "balance.eth.last_checked_ns")
  || starts_with key "balance.eth." || starts_with key "wallet." || starts_with key "config.".

(** The first of the least recently written; among those written together the
    rows come in the order of their keys. *)
Definition eviction_candidate (s : House.t) : option string :=
  MemoryFact.key <$> head (sort_by_key MemoryFact.updated_at_ns
    (List.filter (fun stored => negb (is_critical_exact_memory_key (MemoryFact.key stored)))
       (list_memory_rows MAX_MEMORY_FACTS s))).

Definition set_memory_fact (fact : MemoryFact.t) (s : House.t) : result string House.t :=
  let is_new := negb (is_some (get_memory_fact (MemoryFact.key fact) s)) in
  if (MAX_MEMORY_FACTS <=? memory_fact_count s)%N && is_new then
    candidate_key ← ok_or (eviction_candidate s)
      "memory full: non-evictable capacity reached (all stored facts are critical)";
    Ok (upsert_memory_fact fact (delete_memory_fact candidate_key s))
  else Ok (upsert_memory_fact fact s).

(** [is_ok] of a deletion that cannot fail. *)
Definition remove_memory_fact (key : string) (s : House.t) : bool * House.t :=
  (true, delete_memory_fact key s).

Definition fact_key_le : relation MemoryFact.t := fun x y => key_le (MemoryFact.key x) (MemoryFact.key y).
#[export] Instance fact_key_le_dec : RelDecision fact_key_le := fun x y => key_le_dec _ _.

Definition sort_memory_facts (sort : MemoryFactSort.t) (facts : list MemoryFact.t)
    : list MemoryFact.t :=
  match sort with
  | MemoryFactSort.UpdatedAtDesc => rev (sort_by_key MemoryFact.updated_at_ns (rev facts))
  | MemoryFactSort.KeyAsc => merge_sort fact_key_le facts
  end.

Definition list_all_memory_facts_sorted (limit : N) (sort : MemoryFactSort.t) (s : House.t)
    : list MemoryFact.t :=
  limit_rows limit (sort_memory_facts sort (list_memory_rows (N.max limit MAX_MEMORY_FACTS) s)).
Definition list_all_memory_facts (limit : N) (s : House.t) : list MemoryFact.t :=
  list_all_memory_facts_sorted limit MemoryFactSort.UpdatedAtDesc s.
Definition list_memory_facts_by_prefix_sorted (prefix : string) (limit : N)
    (sort : MemoryFactSort.t) (s : House.t) : list MemoryFact.t :=
  limit_rows limit (sort_memory_facts sort
    (list_memory_rows_by_prefix prefix (N.max limit MAX_MEMORY_FACTS) s)).

Definition memory_fact_stats (s : House.t) : MemoryFactStats.t :=
  let fact_bytes f := (str_len (MemoryFact.key f) + str_len (MemoryFact.value f)
                       + str_len (MemoryFact.source_turn_id f) + 16)%N in
  MemoryFactStats.mk (memory_fact_count s)
    (foldr (fun f sum => (fact_bytes f + sum)%N) 0%N (list_memory_rows (max_uint 32) s))
    (count_memory_facts_by_prefix "config." s).

(** ** The tools *)

Module RecallArgs.
Record t := mk {
  prefix : option string;
  sort_by : MemoryFactSort.t;
  count_only : bool;
}.
End RecallArgs.

(** [serde_json::from_str::<RecallArgs>], its [sort_by] as the sort it stands
    for. *)
Class MemoryLibs := recall_args_from_str : string -> result string RecallArgs.t.

Definition normalize_memory_prefix (raw : string) : result string string :=
  let normalized := to_ascii_lowercase (trim raw) in
  err_if (bool_decide (MAX_MEMORY_KEY_BYTES < String.length normalized))
    ("prefix must be at most " +:+ pretty (N.of_nat MAX_MEMORY_KEY_BYTES) +:+ " bytes");;
  err_if (existsb is_control (chars normalized)) "prefix must not contain control characters";;
  Ok normalized.

Section Tools.
Context `{libs : StrategyLibs, memory_libs : MemoryLibs}.

Definition parse_remember_args (args_json : string) : result string (string * string) :=
  value ← map_err (fun error => "invalid remember args json: " +:+ error) (value_from_str args_json);
  key_raw ← ok_or (Value.get "key" value ≫= Value.as_str) "missing required field: key";
  value_raw ← ok_or (Value.get "value" value) "missing required field: value";
  value ← match value_raw with
          | Value.String text => Ok text
          | Value.Number _ | Value.Bool _ | Value.Null => Ok (value_text value_raw)
          | _ => Err "remember value must be a JSON scalar"
          end;
  err_if (bool_decide (MAX_MEMORY_VALUE_BYTES < String.length value))
    ("value must be at most " +:+ pretty (N.of_nat MAX_MEMORY_VALUE_BYTES) +:+ " bytes");;
  key ← normalize_memory_key key_raw;
  Ok (key, value).

Definition parse_recall_args (args_json : string) : result string RecallArgs.t :=
  let trimmed := trim args_json in
  args ← (if is_empty trimmed || eq_ignore_ascii_case trimmed "null"
          then Ok (RecallArgs.mk None MemoryFactSort.UpdatedAtDesc false)
          else map_err (fun error => "invalid recall args json: " +:+ error)
                 (recall_args_from_str trimmed));
  normalized_prefix ← normalize_memory_prefix (default "" (RecallArgs.prefix args));
  Ok (RecallArgs.mk (Some normalized_prefix) (RecallArgs.sort_by args) (RecallArgs.count_only args)).

Definition parse_forget_args (args_json : string) : result string string :=
  value ← map_err (fun error => "invalid forget args json: " +:+ error) (value_from_str args_json);
  key_raw ← ok_or (Value.get "key" value ≫= Value.as_str) "missing required field: key";
  normalize_memory_key key_raw.

(** What [remember] stores: a fact keeps the time it was first stored. *)
Definition remembered (key value turn_id : string) (s : House.t) : MemoryFact.t :=
  let now_ns := now (House.desk s) in
  MemoryFact.mk key value (default now_ns (MemoryFact.created_at_ns <$> get_memory_fact key s))
    now_ns turn_id.

Definition remember_fact_tool (args_json turn_id : string) : H string :=
  '(key, value) ← lift (parse_remember_args args_json);
  s ← get_state;
  s' ← lift (set_memory_fact (remembered key value turn_id s) s);
  put_state s';;
  mret ("stored: " +:+ key).

Definition recall_facts_tool (args_json : string) : H string :=
  args ← lift (parse_recall_args args_json);
  let prefix := default "" (RecallArgs.prefix args) in
  if RecallArgs.count_only args then
    count ← gets (count_memory_facts_by_prefix prefix);
    mret (value_text (Value.Object (list_to_map
      [("prefix", Value.String prefix); ("count", Value.Number (JsonNumber.PosInt count));
       ("count_only", Value.Bool true)])))
  else
    let sort := RecallArgs.sort_by args in
    facts ← gets (if is_empty prefix
                  then list_all_memory_facts_sorted MAX_MEMORY_RECALL_RESULTS sort
                  else list_memory_facts_by_prefix_sorted prefix MAX_MEMORY_RECALL_RESULTS sort);
    mret (if bool_decide (facts = []) then "no facts found"
          else join newline ((fun fact => MemoryFact.key fact +:+ "=" +:+ MemoryFact.value fact)
                             <$> facts)).

Definition memory_stats_tool : H string :=
  stats ← gets memory_fact_stats;
  let number n := Value.Number (JsonNumber.PosInt n) in
  mret (value_text (Value.Object (list_to_map
    [("total_facts", number (MemoryFactStats.total_facts stats));
     ("config_facts", number (MemoryFactStats.config_facts stats));
     ("storage_bytes", number (MemoryFactStats.storage_bytes stats))]))).

Definition forget_fact_tool (args_json : string) : H string :=
  key ← lift (parse_forget_args args_json);
  removed ← gets (fun s => (remove_memory_fact key s).1);
  modify (delete_memory_fact key);;
  mret (if removed : bool then "forgot: " +:+ key else "no fact for key: " +:+ key).
End Tools.

(** ** A write *)

(** At most [MAX_MEMORY_FACTS] facts, each under its own trimmed key. *)
Record memory_ok (s : House.t) : Prop := {
  memory_bounded : size (House.memory_facts s) <= N.to_nat MAX_MEMORY_FACTS;
  memory_keyed : map_Forall (fun key fact => MemoryFact.key fact = key /\ trim key = key /\ key <> "")
                   (House.memory_facts s);
}.

Lemma all_rows s :
  memory_ok s -> list_memory_rows MAX_MEMORY_FACTS s = memory_rows s.
Proof.
  intros [Hsize _]. unfold list_memory_rows, limit_rows, memory_rows. apply take_ge.
  unfold btree_values. rewrite length_fmap, length_btree_iter. by vm_compute bounded_limit.
Qed.

Lemma elem_of_memory_rows s fact :
  memory_ok s -> fact ∈ memory_rows s <-> House.memory_facts s !! MemoryFact.key fact = Some fact.
Proof.
  intros [_ Hkeyed]. unfold memory_rows. rewrite elem_of_btree_values. split; [|by eexists].
  intros [key Hfact]. destruct (Hkeyed _ _ Hfact) as [-> _]. done.
Qed.

Definition evictable (s : House.t) (fact : MemoryFact.t) : Prop :=
  House.memory_facts s !! MemoryFact.key fact = Some fact
  /\ is_critical_exact_memory_key (MemoryFact.key fact) = false.

Lemma eviction_candidate_spec s :
  memory_ok s ->
  match eviction_candidate s with
  | Some key => exists victim, key = MemoryFact.key victim /\ evictable s victim
      /\ forall fact, evictable s fact ->
           (MemoryFact.updated_at_ns victim <= MemoryFact.updated_at_ns fact)%N
  | None => forall fact, ~ evictable s fact
  end.
Proof.
  intros Hok. unfold eviction_candidate. rewrite all_rows by done.
  set (candidates := List.filter _ _).
  assert (forall fact, fact ∈ candidates <-> evictable s fact) as Hin.
  { intros fact. unfold candidates, evictable.
    rewrite list_elem_of_In, filter_In, <-list_elem_of_In, elem_of_memory_rows, negb_true_iff; done. }
  pose proof (sort_by_key_perm MemoryFact.updated_at_ns candidates) as Hperm.
  pose proof (sort_by_key_sorted MemoryFact.updated_at_ns candidates) as Hsorted.
  destruct (sort_by_key MemoryFact.updated_at_ns candidates) as [|victim rest]; simpl.
  - intros fact Hfact%Hin. rewrite <-Hperm in Hfact. by apply not_elem_of_nil in Hfact.
  - exists victim. split; [done|]. split; [apply Hin; rewrite <-Hperm; left|].
    intros fact Hfact%Hin. rewrite <-Hperm in Hfact. apply elem_of_cons in Hfact as [->|Hfact]; [done|].
    apply StronglySorted_inv in Hsorted as [_ Hall]. rewrite Forall_forall in Hall. by apply Hall.
Qed.

(** A valid key to write or delete under. *)
Definition key_ok (key : string) : Prop := trim key = key /\ key <> "".

Lemma delete_memory_fact_run key s :
  key_ok key -> delete_memory_fact key s = s <| House.memory_facts ::= delete key |>.
Proof. intros [Htrim Hne]. unfold delete_memory_fact. rewrite Htrim. by destruct key. Qed.

(** The only fact that a write may cost. *)
Definition evicted_by_write (s : House.t) (key : string) (victim : option string) : Prop :=
  match victim with
  | None => (memory_fact_count s < MAX_MEMORY_FACTS)%N \/ is_Some (get_memory_fact key s)
  | Some victim => memory_fact_count s = MAX_MEMORY_FACTS /\ get_memory_fact key s = None
      /\ exists fact, victim = MemoryFact.key fact /\ evictable s fact
           /\ forall other, evictable s other ->
                (MemoryFact.updated_at_ns fact <= MemoryFact.updated_at_ns other)%N
  end.

Lemma memory_ok_upsert fact s :
  memory_ok s -> key_ok (MemoryFact.key fact) ->
  (memory_fact_count s < MAX_MEMORY_FACTS)%N \/ is_Some (get_memory_fact (MemoryFact.key fact) s) ->
  memory_ok (upsert_memory_fact fact s).
Proof.
  intros [Hsize Hkeyed] Hkey Hroom. unfold upsert_memory_fact. split; simpl_set.
  - unfold memory_fact_count, get_memory_fact, MAX_MEMORY_FACTS in *.
    destruct (House.memory_facts s !! MemoryFact.key fact) as [old|] eqn:Hold.
    + by rewrite map_size_insert_Some by eauto.
    + rewrite map_size_insert_None by done. destruct Hroom as [Hroom|[? [=]]]. lia.
  - apply map_Forall_insert_2; [by destruct Hkey|done].
Qed.

Lemma memory_ok_delete key s : memory_ok s -> memory_ok (delete_memory_fact key s).
Proof.
  intros [Hsize Hkeyed]. unfold delete_memory_fact. destruct (is_empty (trim key)); [done|].
  split; simpl_set; [|by apply map_Forall_delete].
  etrans; [|exact Hsize]. apply map_subseteq_size, delete_subseteq.
Qed.

Definition write_exact (fact : MemoryFact.t) (s : House.t) : Prop :=
  match set_memory_fact fact s with
  | Ok s' => memory_ok s' /\ exists victim, evicted_by_write s (MemoryFact.key fact) victim
      /\ House.desk s' = House.desk s
      /\ House.memory_facts s'
         = <[MemoryFact.key fact := fact]>
             (from_option (fun key => delete key (House.memory_facts s)) (House.memory_facts s) victim)
  | Err _ => memory_fact_count s = MAX_MEMORY_FACTS
      /\ get_memory_fact (MemoryFact.key fact) s = None
      /\ forall key stored, House.memory_facts s !! key = Some stored ->
           is_critical_exact_memory_key key = true
  end.

Lemma write_correct fact s : memory_ok s -> key_ok (MemoryFact.key fact) -> write_exact fact s.
Proof.
  intros Hok Hkey. unfold write_exact. assert (memory_fact_count s <= MAX_MEMORY_FACTS)%N as Hle.
  { destruct Hok as [Hsize _]. unfold memory_fact_count, MAX_MEMORY_FACTS in *. lia. }
  unfold set_memory_fact. destruct (get_memory_fact (MemoryFact.key fact) s) as [old|] eqn:Hold; simpl.
  { rewrite andb_false_r. split; [apply memory_ok_upsert; rewrite ?Hold; eauto|].
    exists None. unfold evicted_by_write, upsert_memory_fact. rewrite Hold. simpl_set. eauto. }
  rewrite andb_true_r. destruct (N.leb_spec MAX_MEMORY_FACTS (memory_fact_count s)) as [Hfull|Hroom].
  2: { split; [apply memory_ok_upsert; auto|]. exists None.
       unfold evicted_by_write, upsert_memory_fact. simpl_set. auto. }
  assert (memory_fact_count s = MAX_MEMORY_FACTS) as Hcount by lia.
  pose proof (eviction_candidate_spec s Hok) as Hcandidate.
  destruct (eviction_candidate s) as [key|]; simpl.
  - destruct Hcandidate as (victim & -> & Hevictable & Holdest). destruct Hevictable as [Hstored Hplain].
    assert (key_ok (MemoryFact.key victim)) as Hvictim
      by by destruct (memory_keyed _ Hok _ _ Hstored) as (_ & ? & ?).
    rewrite delete_memory_fact_run by done. split.
    + apply memory_ok_upsert; [rewrite <-delete_memory_fact_run by done; by apply memory_ok_delete|done|].
      left. unfold memory_fact_count in *. simpl_set. rewrite map_size_delete_Some by eauto.
      unfold MAX_MEMORY_FACTS in *. lia.
    + exists (Some (MemoryFact.key victim)). unfold upsert_memory_fact. simpl_set.
      split_and!; [|done|done]. split_and!; [done|done|]. exists victim. by split_and!.
  - split_and!; [done|done|]. intros key stored Hstored.
    destruct (memory_keyed _ Hok _ _ Hstored) as (<- & _ & _).
    destruct (is_critical_exact_memory_key (MemoryFact.key stored)) eqn:Hcritical; [done|].
    destruct (Hcandidate stored). by split.
Qed.

(** C20 - A write does what it says.  From a valid memory, it stores the fact under
    its key and keeps the memory valid, and no other fact changes or goes but
    one: if the memory was full and the key new, a fact that is not critical
    and was written no later than any other such fact.  It fails only if the
    memory is full of critical facts and the key is new, and then nothing is
    stored. *)
Theorem memory_write_exact (fact : MemoryFact.t) (s : House.t) (Hok : memory_ok s)
    (Hkey : key_ok (MemoryFact.key fact)) :
  match set_memory_fact fact s with
  | Ok s' => memory_ok s' /\ exists victim, evicted_by_write s (MemoryFact.key fact) victim
      /\ House.desk s' = House.desk s
      /\ House.memory_facts s'
         = <[MemoryFact.key fact := fact]>
             (from_option (fun key => delete key (House.memory_facts s)) (House.memory_facts s) victim)
  | Err _ => memory_fact_count s = MAX_MEMORY_FACTS
      /\ get_memory_fact (MemoryFact.key fact) s = None
      /\ forall key stored, House.memory_facts s !! key = Some stored ->
           is_critical_exact_memory_key key = true
  end.
Proof. exact (write_correct fact s Hok Hkey). Qed.

(** ** Every way in *)

(** The tools, and the pruning that the steward commands. *)
Module MemoryCall.
Inductive t :=
| Remember (args_json turn_id : string)
| Recall (args_json : string)
| Stats
| Forget (args_json : string)
| Prune (prefix : option string) (updated_before_ns : option N) (limit : N).
End MemoryCall.

Definition run_memory_call `{libs : StrategyLibs, memory_libs : MemoryLibs, rows : RowOrder}
    (call : MemoryCall.t) : H string :=
  match call with
  | MemoryCall.Remember args_json turn_id => remember_fact_tool args_json turn_id
  | MemoryCall.Recall args_json => recall_facts_tool args_json
  | MemoryCall.Stats => memory_stats_tool
  | MemoryCall.Forget args_json => forget_fact_tool args_json
  | MemoryCall.Prune prefix updated_before_ns limit =>
      s ← get_state;
      let '(keys, s) := prune_memory_facts prefix updated_before_ns limit s in
      put_state s;;
      mret ("memory_facts_pruned=" +:+ pretty (N.of_nat (length keys)))
  end.

Lemma bad_length_empty key : bad_length key = false -> key <> "".
Proof. by intros Hlength ->. Qed.

(** A normal form is trimmed and not empty. *)
Lemma normalized_key_ok raw key : is_str raw -> normalize_memory_key raw = Ok key -> key_ok key.
Proof.
  intros Hstr (normalized & Hnormalized & _ & Hcontrol & Hlength & Hkey)%normalize_memory_key_Ok.
  split; [|by apply bad_length_empty].
  assert (to_ascii_lowercase normalized = normalized) as Hlower
    by (rewrite Hnormalized; apply to_ascii_lowercase_idem).
  assert (trim normalized = normalized) as Htrim by by rewrite Hnormalized, trim_lower, trim_idem.
  assert (is_str normalized) as Hnormal.
  { rewrite Hnormalized. unfold is_str. rewrite chars_lower, Forall_fmap. apply Forall_forall.
    intros c Hc%elem_of_trim. unfold is_str in Hstr. rewrite Forall_forall in Hstr.
    by apply is_lead_group_lower, Hstr. }
  assert (Forall (fun c => is_control c = false) (chars normalized)) as Hplain
    by (apply Forall_forall; by apply existsb_false).
  subst key. unfold canonicalize_memory_key. case_bool_decide; [done|].
  apply trim_join, Forall_canonical_segments; [apply latest_segment|].
  by apply key_segments_ok.
Qed.

Lemma memory_ok_prune `{rows : RowOrder} prefix updated_before_ns limit s :
  memory_ok s -> memory_ok (prune_memory_facts prefix updated_before_ns limit s).2.
Proof.
  intros Hok. unfold prune_memory_facts. destruct (_ && _); [done|]. cbv zeta. cbn [snd].
  generalize (MemoryFact.key <$> limit_rows limit (order_rows older_fact
    (List.filter (prune_selects prefix updated_before_ns) (memory_rows s)))). intros keys.
  destruct Hok as [Hsize Hkeyed].
  assert (foldr delete (House.memory_facts s) keys ⊆ House.memory_facts s) as Hsub.
  { induction keys as [|key keys IH]; [done|]. cbn [foldr]. etrans; [apply delete_subseteq|done]. }
  split; simpl_set.
  - etrans; [|exact Hsize]. by apply map_subseteq_size.
  - intros key fact Hfact. by apply Hkeyed, (lookup_weaken _ _ _ _ Hfact).
Qed.

(** The memory stays valid through every call, and a call that fails leaves
    everything as it was.  [Hstr] says that the strings of a JSON value are
    UTF-8, as [serde_json] makes them. *)
Theorem memory_calls_safe `{libs : StrategyLibs, memory_libs : MemoryLibs, rows : RowOrder}
    (call : MemoryCall.t) (s : House.t)
    (Hstr : forall text value key raw, value_from_str text = Ok value ->
       Value.get key value ≫= Value.as_str = Some raw -> is_str raw)
    (Hok : memory_ok s) :
  match run_memory_call call s with
  | Done _ s' => memory_ok s' /\ House.desk s' = House.desk s
  | Fail _ s' => s' = s
  | Trap => False
  end.
Proof.
  destruct call as [args_json turn_id|args_json| |args_json|prefix cutoff limit]; simpl.
  - unfold remember_fact_tool. destruct (parse_remember_args args_json) as [[key value]|] eqn:Hargs;
      exec; [|done].
    assert (key_ok key) as Hkey.
    { unfold parse_remember_args in Hargs. apply result_bind_Ok in Hargs as (json & Hjson & Hargs).
      apply result_bind_Ok in Hargs as (raw & Hraw%ok_or_Ok & Hargs).
      do 2 apply result_bind_Ok in Hargs as (? & _ & Hargs). apply err_if_seq_Ok in Hargs as [_ Hargs].
      apply result_bind_Ok in Hargs as (key' & Hkey & [= <- <-]). apply map_err_Ok in Hjson.
      eapply normalized_key_ok; [|done]. by eapply Hstr. }
    pose proof (write_correct (remembered key value turn_id s) s Hok Hkey) as Hwrite.
    unfold write_exact in Hwrite.
    destruct (set_memory_fact _ s) as [s'|]; exec; [|done].
    destruct Hwrite as (Hok' & _ & _ & Hdesk & _). done.
  - unfold recall_facts_tool. destruct (parse_recall_args args_json) as [args|]; exec; [|done].
    by destruct (RecallArgs.count_only args).
  - done.
  - unfold forget_fact_tool. destruct (parse_forget_args args_json) as [key|]; exec; [|done].
    split; [by apply memory_ok_delete|]. unfold delete_memory_fact. by destruct (is_empty (trim key)).
  - exec. pose proof (memory_ok_prune prefix cutoff limit s Hok) as Hprune.
    assert (House.desk (prune_memory_facts prefix cutoff limit s).2 = House.desk s) as Hdesk.
    { unfold prune_memory_facts. by destruct (_ && _). }
    by destruct (prune_memory_facts prefix cutoff limit s).
Qed.

(** ** What pruning gets wrong *)

Lemma as_i64_small n : (n < 2 ^ 63)%N -> as_i64 n = Z.of_N n.
Proof. unfold as_i64. intros Hn. destruct (n <? 2 ^ 63)%N eqn:H; [done|]. apply N.ltb_ge in H. lia. Qed.

(** The prefix is a pattern: an underscore stands for any character, so that
    pruning [room_1] forgets [room21] as well. *)
Theorem prune_wildcard `{rows : RowOrder, rows_ok : !RowOrderOk rows} (s : House.t) (fact : MemoryFact.t)
    (Hstored : House.memory_facts s !! "room21.note" = Some fact)
    (Hkey : MemoryFact.key fact = "room21.note")
    (Hsize : size (House.memory_facts s) <= 1000) :
  starts_with "room21.note" "room_1" = false
  /\ House.memory_facts (prune_memory_facts (Some "room_1") None 1000 s).2 !! "room21.note" = None.
Proof.
  split; [done|]. unfold prune_memory_facts. cbn [is_some negb andb snd]. simpl_set.
  set (selected := List.filter _ (memory_rows s)).
  assert (length (memory_rows s) = size (House.memory_facts s)) as Hlength
    by (unfold memory_rows, btree_values; by rewrite length_fmap, length_btree_iter).
  unfold limit_rows. rewrite take_ge.
  2: { rewrite (order_rows_perm older_fact selected). unfold selected.
       pose proof (filter_length_le (prune_selects (Some "room_1") None) (memory_rows s)). lia. }
  assert ("room21.note" ∈ MemoryFact.key <$> order_rows older_fact selected) as Hin.
  { rewrite (order_rows_perm older_fact selected), <-Hkey. apply list_elem_of_fmap_2.
    unfold selected. rewrite list_elem_of_In, filter_In, <-list_elem_of_In. split.
    - apply elem_of_btree_values. by eexists.
    - unfold prune_selects, key_like. cbn [is_none_or]. rewrite Hkey. by vm_compute. }
  clear -Hin. induction Hin as [keys|key other keys Hin IH]; cbn [foldr]; [apply lookup_delete_eq|].
  apply lookup_delete_None. by right.
Qed.

(** The time is stored as a signed number: a cutoff past the year 2262, such as
    the largest [u64] for all facts, is read as one before 1970 and prunes
    nothing. *)
Theorem prune_future_cutoff `{rows : RowOrder} (cutoff limit : N) (s : House.t)
    (Hcutoff : (2 ^ 63 <= cutoff <= max_uint 64)%N)
    (Hpast : map_Forall (fun _ fact => (MemoryFact.updated_at_ns fact < 2 ^ 63)%N)
               (House.memory_facts s))
    (Hrows : order_rows older_fact [] = []) :
  prune_memory_facts None (Some cutoff) limit s = ([], s).
Proof.
  unfold prune_memory_facts. cbn [is_some negb andb].
  assert (List.filter (prune_selects None (Some cutoff)) (memory_rows s) = []) as ->.
  { destruct (List.filter _ _) as [|fact rest] eqn:Hfilter; [done|exfalso].
    assert (In fact (List.filter (prune_selects None (Some cutoff)) (memory_rows s))) as Hin
      by (rewrite Hfilter; by left).
    apply filter_In in Hin as [Hin Hselects]. apply list_elem_of_In in Hin.
    unfold memory_rows in Hin. apply elem_of_btree_values in Hin as [key Hfact].
    unfold prune_selects in Hselects. cbn [is_none_or andb] in Hselects.
    apply Z.ltb_lt in Hselects. rewrite as_i64_small in Hselects by by apply (Hpast _ _ Hfact).
    unfold as_i64, max_uint in *. destruct (cutoff <? 2 ^ 63)%N eqn:Hless; [apply N.ltb_lt in Hless; lia|].
    lia. }
  rewrite Hrows. unfold limit_rows. rewrite take_nil. cbn [fmap list_fmap foldr]. by destruct s.
Qed.

(** ** Witnesses *)

Module MemorySamples.
#[local] Existing Instance StrategySamples.toy_libs.
#[local] Existing Instance StrategySamples.toy_rows.
#[local] Existing Instance StrategySamples.toy_rows_ok.
#[local] Instance toy_memory_libs : MemoryLibs := fun _ => Ok (RecallArgs.mk None MemoryFactSort.KeyAsc true).

Definition note : MemoryFact.t := MemoryFact.mk "room21.note" "quiet" 1 2 "turn-1".
Definition price : MemoryFact.t := MemoryFact.mk "price.latest" "7" 3 3 "turn-2".
Definition house : House.t :=
  upsert_memory_fact note (HouseSamples.house_of (fun snapshot => snapshot)).

Lemma house_ok : memory_ok house.
Proof.
  split; [by vm_compute; lia|]. apply map_Forall_insert_2; [by vm_compute|apply map_Forall_empty].
Qed.

Lemma memory_write_exact_witness :
  exists s', set_memory_fact price house = Ok s' /\ memory_ok s'.
Proof.
  pose proof (memory_write_exact price house house_ok ltac:(by vm_compute)) as Hwrite.
  revert Hwrite.
  assert (match set_memory_fact price house with Ok _ => true | Err _ => false end = true) as Hok
    by (vm_compute; reflexivity).
  destruct (set_memory_fact price house) as [s'|]; [|discriminate].
  intros [Hmemory _]. by exists s'.
Defined.

(** The toy reader of JSON knows only values without strings. *)
Lemma memory_calls_safe_witness :
  match run_memory_call (MemoryCall.Prune (Some "room") None 3) house with
  | Done _ s' => memory_ok s'
  | _ => False
  end.
Proof.
  assert (forall text value key raw, value_from_str text = Ok value ->
    Value.get key value ≫= Value.as_str = Some raw -> is_str raw) as Hstr.
  { intros text value key raw. simpl. repeat case_bool_decide; intros [= <-] Hraw.
    - discriminate Hraw.
    - cbn in Hraw. destruct (decide (key = "plan")) as [->|Hne].
      + vm_compute in Hraw. discriminate Hraw.
      + rewrite lookup_singleton_ne in Hraw by done. discriminate Hraw.
    - cbn in Hraw. rewrite lookup_empty in Hraw. discriminate Hraw. }
  pose proof (memory_calls_safe (MemoryCall.Prune (Some "room") None 3) house Hstr house_ok) as Hsafe.
  destruct (run_memory_call _ house) as [output s'|error s'|] eqn:Hrun; [by destruct Hsafe| |done].
  vm_compute in Hrun. discriminate Hrun.
Defined.

Lemma prune_wildcard_witness :
  House.memory_facts (prune_memory_facts (Some "room_1") None 1000 house).2 !! "room21.note" = None.
Proof. apply (prune_wildcard house note); [by vm_compute|done|by vm_compute; lia]. Defined.

Lemma prune_future_cutoff_witness : prune_memory_facts None (Some (max_uint 64)) 10 house = ([], house).
Proof.
  apply prune_future_cutoff; [by vm_compute|apply map_Forall_insert_2|done];
    [by vm_compute|apply map_Forall_empty].
Defined.
End MemorySamples.
