(* ===== verification/AgentSteward.v ===== *)
(** * AgentSteward: who may command the automaton

    Models the steward's authority in [components/ic-automaton/src]: of
    [features/evm.rs] the verification of a signed proof, by recovering the
    signer or, for a contract wallet, by asking the contract (EIP-1271); of
    [lib.rs] the consumption of the nonce, the authorisation of the linked
    principal, and [steward_execute] and [steward_execute_ingress], over any
    command language ([StewardCommands]).

    [steward_command_authorised]: what must hold, before the chain is asked and
    after, for a signed command to be obeyed.  [nonces_consecutive]: the
    nonces of one steward are consumed in order, each once.
    [replay_after_rotation]: but a steward that is replaced and comes back
    starts again at nonce zero, and its old proofs with it. *)

From S2P Require Import Prelude Text SpawnProtocol Types Externals AgentTypes AgentDomain TopUpTypes TopUp AgentStore StrategyTypes StrategyStore StrategyValidator StrategyPolicy TurnTypes TurnStore Sanitize TurnText StrategySamples AgentConfig EvmRpc HouseSamples.
From Stdlib Require Import Ascii Strings.Byte.

Definition EVM_STEWARD_SIGNING_DOMAIN : string := "ic-automaton:steward-execute:v1".
Definition EIP1271_IS_VALID_SIGNATURE_FUNCTION_SIGNATURE : string :=
  "isValidSignature(bytes32,bytes)".
Definition EIP1271_IS_VALID_SIGNATURE_MAGIC_VALUE : string := "1626ba7e".

Module EvmStewardProof.
Record t := mk {
  canister_id : string;
  chain_id : N;
  address : string;
  command_hash : string;
  nonce : N;
  expires_at_ns : N;
  signature : string;
}.
End EvmStewardProof.

Module EvmStewardVerificationContext.
Record t := mk {
  canister_id : string;
  active_steward : option StewardState.t;
  expected_nonce : N;
  expected_command_hash : string;
  now_ns : N;
}.
End EvmStewardVerificationContext.

Module VerifiedEvmStewardProof.
Record t := mk {
  canister_id : string;
  chain_id : N;
  address : string;
  command_hash : string;
  nonce : N;
  expires_at_ns : N;
}.
End VerifiedEvmStewardProof.

Module PreparedStewardVerification.
Record t := mk {
  canister_id : string;
  chain_id : N;
  normalized_address : string;
  command_hash : string;
  nonce : N;
  expires_at_ns : N;
  payload : string;
}.
Definition into_verified (self : t) : VerifiedEvmStewardProof.t :=
  VerifiedEvmStewardProof.mk (canister_id self) (chain_id self) (normalized_address self)
    (command_hash self) (nonce self) (expires_at_ns self).
End PreparedStewardVerification.

(** ** What a proof must say *)

Definition normalize_command_hash (raw field : string) : result string string :=
  normalized ← normalize_hex_blob raw field;
  err_if (negb (str_len normalized =? 66)%N) (field +:+ " must be a 32-byte hex blob");;
  Ok normalized.

Definition canonical_steward_signing_payload (canister_id : string) (chain_id : N)
    (address command_hash : string) (nonce expires_at_ns : N) : string :=
  join newline [EVM_STEWARD_SIGNING_DOMAIN;
    "canister_id:" +:+ canister_id;
    "chain_id:" +:+ pretty chain_id;
    "address:" +:+ address;
    "command_hash:" +:+ command_hash;
    "nonce:" +:+ pretty nonce;
    "expires_at_ns:" +:+ pretty expires_at_ns].

Definition mismatch (what expected got : string) : string :=
  what +:+ ": expected=" +:+ expected +:+ " got=" +:+ got.

Definition prepare_steward_verification (proof : EvmStewardProof.t)
    (context : EvmStewardVerificationContext.t) : result string PreparedStewardVerification.t :=
  active_steward ← ok_or (EvmStewardVerificationContext.active_steward context)
    "no active steward configured";
  err_if (negb (StewardState.enabled active_steward)) "active steward is disabled";;
  normalized_address ← normalize_evm_address (EvmStewardProof.address proof);
  command_hash ← normalize_command_hash (EvmStewardProof.command_hash proof) "proof command hash";
  expected_command_hash ←
    normalize_command_hash (EvmStewardVerificationContext.expected_command_hash context)
      "expected command hash";
  err_if (bool_decide (command_hash <> expected_command_hash))
    (mismatch "proof command hash mismatch" expected_command_hash command_hash);;
  let proof_canister_id := trim (EvmStewardProof.canister_id proof) in
  let expected_canister_id := trim (EvmStewardVerificationContext.canister_id context) in
  err_if (bool_decide (proof_canister_id <> expected_canister_id))
    (mismatch "proof canister_id mismatch" expected_canister_id proof_canister_id);;
  err_if (negb (EvmStewardProof.chain_id proof =? StewardState.chain_id active_steward)%N)
    (mismatch "proof chain_id does not match active steward"
       (pretty (StewardState.chain_id active_steward)) (pretty (EvmStewardProof.chain_id proof)));;
  active_address ← normalize_evm_address (StewardState.address active_steward);
  err_if (bool_decide (normalized_address <> active_address))
    (mismatch "proof address does not match active steward" active_address normalized_address);;
  err_if (negb (EvmStewardProof.nonce proof
                =? EvmStewardVerificationContext.expected_nonce context)%N)
    (mismatch "proof nonce mismatch" (pretty (EvmStewardVerificationContext.expected_nonce context))
       (pretty (EvmStewardProof.nonce proof)));;
  err_if (EvmStewardProof.expires_at_ns proof <? EvmStewardVerificationContext.now_ns context)%N
    ("proof expired: expires_at_ns=" +:+ pretty (EvmStewardProof.expires_at_ns proof)
     +:+ " now_ns=" +:+ pretty (EvmStewardVerificationContext.now_ns context));;
  let payload := canonical_steward_signing_payload expected_canister_id
    (EvmStewardProof.chain_id proof) normalized_address command_hash
    (EvmStewardProof.nonce proof) (EvmStewardProof.expires_at_ns proof) in
  Ok (PreparedStewardVerification.mk expected_canister_id (EvmStewardProof.chain_id proof)
        normalized_address command_hash (EvmStewardProof.nonce proof)
        (EvmStewardProof.expires_at_ns proof) payload).

(** ** Signatures *)

Definition decode_hex_blob_bytes (raw field : string) : result string (list byte) :=
  normalized ← normalize_hex_blob raw field;
  ok_or (decode_hex_pairs (trim_start_0x normalized)) ("failed to decode " +:+ field).

Definition parse_steward_signature (raw : string) : result string (list byte * N) :=
  normalized ← normalize_hex_blob raw "proof signature";
  let without_prefix := trim_start_0x normalized in
  err_if (negb (str_len without_prefix =? 130)%N) "proof signature must be 65 bytes (r||s||v)";;
  signature_bytes ← ok_or (decode_hex_pairs without_prefix) "failed to decode proof signature";
  let recovery := Byte.to_N (default x00 (signature_bytes !! 64)) in
  v ← (if (recovery <=? 1)%N then Ok recovery
       else if (recovery =? 27)%N || (recovery =? 28)%N then Ok (recovery - 27)%N
       else Err ("unsupported proof signature recovery id byte: " +:+ pretty recovery));
  Ok (take 64 signature_bytes, v).

Definition is_empty_contract_code (raw_code : string) : bool :=
  forallb (fun a => (byte_of a =? 48)%N) (str_bytes (trim_start_0x (trim raw_code))).

Definition is_eip1271_magic_result (raw : string) : result string bool :=
  normalized ← normalize_hex_blob raw "eip1271 isValidSignature result";
  let payload := trim_start_0x normalized in
  Ok ((8 <=? str_len payload)%N && starts_with payload EIP1271_IS_VALID_SIGNATURE_MAGIC_VALUE).

Section Signatures.
Context `{ext : Externals}.

Definition ethereum_personal_message_hash (message : string) : list byte :=
  let prefix := String (ascii_of_N 25) ("Ethereum Signed Message:" +:+ newline
    +:+ pretty (str_len message)) in
  keccak256 (as_bytes prefix ++ as_bytes message).

Definition recover_steward_signer_address (payload signature_hex : string) : result string string :=
  let message_hash := ethereum_personal_message_hash payload in
  '(signature_compact, recovery_id) ← parse_steward_signature signature_hex;
  signature ← map_err (fun error => "invalid proof signature bytes: " +:+ error)
    (signature_from_slice signature_compact);
  bytes ← map_err (fun error =>
    "failed to recover signer key from proof signature: " +:+ error)
    (recover_from_prehash message_hash signature recovery_id);
  err_if (negb (length bytes =? 65)%nat || bool_decide (head bytes <> Some x04))
    "recovered signer key is not an uncompressed secp256k1 point";;
  Ok ("0x" +:+ hex_encode (take 20 (drop 12 (keccak256 (drop 1 bytes))))).

Definition function_selector_hex (signature : string) : string :=
  hex_encode (take 4 (keccak256 (as_bytes signature))).

Definition encode_eip1271_is_valid_signature_call (message_hash signature : list byte) : string :=
  let padding := ((32 - length signature mod 32) mod 32)%nat in
  "0x" +:+ function_selector_hex EIP1271_IS_VALID_SIGNATURE_FUNCTION_SIGNATURE
  +:+ hex_encode message_hash +:+ hex_fixed 64 64
  +:+ hex_fixed 64 (N.of_nat (length signature))
  +:+ hex_encode signature +:+ concat_str (replicate padding "00").

Definition recovered_mismatch (recovered address : string) : string :=
  "recovered signer address does not match proof address: recovered=" +:+ recovered
  +:+ " proof=" +:+ address.

Definition verify_evm_steward_proof (proof : EvmStewardProof.t)
    (context : EvmStewardVerificationContext.t) : result string VerifiedEvmStewardProof.t :=
  prepared ← prepare_steward_verification proof context;
  recovered ← recover_steward_signer_address (PreparedStewardVerification.payload prepared)
    (EvmStewardProof.signature proof);
  let address := PreparedStewardVerification.normalized_address prepared in
  err_if (bool_decide (recovered <> address)) (recovered_mismatch recovered address);;
  Ok (PreparedStewardVerification.into_verified prepared).

Context `{cost : CostApi, platform : OutcallPlatform, libs : StrategyLibs}.

Definition verify_eip1271_signature (rpc : HttpEvmRpcClient.t)
    (address payload signature_hex : string) : H bool :=
  deployed_code ← map_fail (fun error => "eth_getCode failed: " +:+ error) (eth_get_code rpc address);
  if is_empty_contract_code deployed_code then mret false
  else
    signature ← lift (decode_hex_blob_bytes signature_hex "proof signature");
    let message_hash := ethereum_personal_message_hash payload in
    let calldata := encode_eip1271_is_valid_signature_call message_hash signature in
    raw ← map_fail (fun error => "eth_call isValidSignature failed: " +:+ error)
      (eth_call rpc address calldata);
    lift (is_eip1271_magic_result raw).

Definition verify_evm_steward_proof_with_eip1271_fallback (proof : EvmStewardProof.t)
    (context : EvmStewardVerificationContext.t) (rpc : option HttpEvmRpcClient.t)
    : H VerifiedEvmStewardProof.t :=
  prepared ← lift (prepare_steward_verification proof context);
  let address := PreparedStewardVerification.normalized_address prepared in
  let payload := PreparedStewardVerification.payload prepared in
  let verified := PreparedStewardVerification.into_verified prepared in
  let fallback signature_error :=
    match rpc with
    | None => mthrow signature_error
    | Some rpc =>
        accepted ← (catch (verify_eip1271_signature rpc address payload
                             (EvmStewardProof.signature proof)) : H (result string bool));
        match accepted with
        | Ok true => mret verified
        | Ok false => mthrow signature_error
        | Err error => mthrow (signature_error +:+ "; eip1271 fallback error: " +:+ error)
        end
    end in
  match recover_steward_signer_address payload (EvmStewardProof.signature proof) with
  | Ok recovered =>
      if bool_decide (recovered = address) then mret verified
      else fallback (recovered_mismatch recovered address)
  | Err error => fallback error
  end.
End Signatures.

(** ** Commands *)

(** What the authority needs of a command language: [candid::encode_one] and
    [dispatch_steward_command]. *)
Class StewardCommands (Command : Type) := {
  encode_one : Command -> result string (list byte);
  dispatch_steward_command : Command -> string -> H string;
}.

(** A change of the steward's usage, which does not touch the time of the last
    transition. *)
Definition note_usage (next : option N) (steward : StewardState.t) (s : House.t) : House.t :=
  on_house_agent (fun agent => update_snapshot (fun snapshot =>
    let snapshot :=
      match next with
      | Some next => snapshot <| RuntimeSnapshot.steward_nonce := StewardNonceState.mk next |>
      | None => snapshot
      end in
    snapshot <| RuntimeSnapshot.active_steward := Some (steward
      <| StewardState.last_used_at_ns := Some (Agent.clock agent) |>) |>) agent) s.

Definition consume_steward_nonce_and_record_usage (verified : VerifiedEvmStewardProof.t) : H unit :=
  s ← get_state;
  let expected_nonce := next_nonce (house_agent s) in
  fail_if (negb (expected_nonce =? VerifiedEvmStewardProof.nonce verified)%N)
    (mismatch "proof nonce mismatch" (pretty expected_nonce)
       (pretty (VerifiedEvmStewardProof.nonce verified)));;
  next ← lift (ok_or (checked_add 64 expected_nonce 1) "steward nonce overflow");
  steward ← lift (ok_or (active_steward (house_agent s)) "no active steward configured");
  fail_if (negb (StewardState.enabled steward)) "active steward is disabled";;
  fail_if (negb (StewardState.chain_id steward =? VerifiedEvmStewardProof.chain_id verified)%N
           || bool_decide (StewardState.address steward <> VerifiedEvmStewardProof.address verified))
    "active steward changed before proof consumption";;
  modify (note_usage (Some next) steward).

Definition authorize_and_record_steward_ingress_usage (caller : Principal) : H StewardState.t :=
  fail_if (bool_decide (caller = ANONYMOUS_PRINCIPAL))
    "anonymous caller cannot execute steward ingress command";;
  s ← get_state;
  steward ← lift (ok_or (active_steward (house_agent s)) "no active steward configured");
  fail_if (negb (StewardState.enabled steward)) "active steward is disabled";;
  expected_principal ← lift (ok_or (StewardState.principal steward)
    "active steward principal is not configured");
  fail_if (bool_decide (caller <> expected_principal))
    ("caller principal does not match active steward principal: caller=" +:+ caller
     +:+ " expected=" +:+ expected_principal);;
  modify (note_usage None steward);;
  mret (steward <| StewardState.last_used_at_ns := Some (Agent.clock (house_agent s)) |>).

(** Whether the identity changed, and so the nonce was reset. *)
Definition update_active_steward_and_maybe_reset_nonce (chain_id : N) (address : string)
    (enabled : bool) : Cfg (option StewardState.t * StewardState.t * bool) :=
  previous ← gets active_steward;
  stored ← set_active_steward_with_nonce_reset_on_rotation
    (StewardState.mk chain_id address enabled None None);
  mret (previous, stored, steward_identity_rotated previous stored).

Section Execute.
Context `{ext : Externals, cost : CostApi, platform : OutcallPlatform, libs : StrategyLibs}.
Context {Command : Type} `{commands : StewardCommands Command}.
Context (canister_id : Principal).

Definition steward_command_hash (command : Command) : result string string :=
  encoded ← map_err (fun error => "failed to encode steward command: " +:+ error)
    (encode_one command);
  Ok ("0x" +:+ hex_encode (keccak256 encoded)).

(** The context is read once, before anything is awaited. *)
Definition verification_context (command_hash : string) (s : House.t)
    : EvmStewardVerificationContext.t :=
  EvmStewardVerificationContext.mk canister_id (active_steward (house_agent s))
    (next_nonce (house_agent s)) command_hash (now (House.desk s)).

Definition rpc_client (s : House.t) : option HttpEvmRpcClient.t :=
  match from_snapshot (snapshot_of (House.desk s)) with Ok client => Some client | Err _ => None end.

Definition verify_steward_proof_for_command_hash (command_hash : string)
    (proof : EvmStewardProof.t) : H VerifiedEvmStewardProof.t :=
  s ← get_state;
  verify_evm_steward_proof_with_eip1271_fallback proof (verification_context command_hash s)
    (rpc_client s).

(** The part of [steward_execute] before the command is dispatched. *)
Definition authorize_steward_command (command : Command) (proof : EvmStewardProof.t)
    : H VerifiedEvmStewardProof.t :=
  command_hash ← lift (steward_command_hash command);
  verified ← verify_steward_proof_for_command_hash command_hash proof;
  consume_steward_nonce_and_record_usage verified;;
  mret verified.

Definition steward_execute (command : Command) (proof : EvmStewardProof.t) : H string :=
  verified ← authorize_steward_command command proof;
  dispatch_steward_command command
    ("steward:" +:+ pretty (VerifiedEvmStewardProof.chain_id verified) +:+ ":"
     +:+ VerifiedEvmStewardProof.address verified).

Definition steward_execute_ingress (caller : Principal) (command : Command) : H string :=
  steward ← authorize_and_record_steward_ingress_usage caller;
  dispatch_steward_command command
    ("steward:" +:+ pretty (StewardState.chain_id steward) +:+ ":"
     +:+ StewardState.address steward +:+ ":principal:" +:+ caller).

(** ** Who is obeyed *)

(** What a proof was found to say, against the state it was checked in. *)
Record proof_fits (command : Command) (proof : EvmStewardProof.t) (s : House.t)
    (steward : StewardState.t) (prepared : PreparedStewardVerification.t) : Prop := {
  fits_active : active_steward (house_agent s) = Some steward;
  fits_enabled : StewardState.enabled steward = true;
  fits_chain : EvmStewardProof.chain_id proof = StewardState.chain_id steward;
  fits_address : normalize_evm_address (EvmStewardProof.address proof)
    = Ok (PreparedStewardVerification.normalized_address prepared);
  fits_steward_address : normalize_evm_address (StewardState.address steward)
    = Ok (PreparedStewardVerification.normalized_address prepared);
  fits_canister : trim (EvmStewardProof.canister_id proof) = trim canister_id;
  fits_command : exists expected, steward_command_hash command = Ok expected
    /\ normalize_command_hash (EvmStewardProof.command_hash proof) "proof command hash"
       = Ok (PreparedStewardVerification.command_hash prepared)
    /\ normalize_command_hash expected "expected command hash"
       = Ok (PreparedStewardVerification.command_hash prepared);
  fits_nonce : EvmStewardProof.nonce proof = next_nonce (house_agent s);
  fits_expiry : (now (House.desk s) <= EvmStewardProof.expires_at_ns proof)%N;
  fits_payload : PreparedStewardVerification.payload prepared
    = canonical_steward_signing_payload (trim canister_id) (StewardState.chain_id steward)
        (PreparedStewardVerification.normalized_address prepared)
        (PreparedStewardVerification.command_hash prepared)
        (EvmStewardProof.nonce proof) (EvmStewardProof.expires_at_ns proof);
  fits_verified : PreparedStewardVerification.into_verified prepared
    = VerifiedEvmStewardProof.mk (trim canister_id) (StewardState.chain_id steward)
        (PreparedStewardVerification.normalized_address prepared)
        (PreparedStewardVerification.command_hash prepared)
        (EvmStewardProof.nonce proof) (EvmStewardProof.expires_at_ns proof);
}.

Lemma prepare_fits command proof s hash prepared :
  steward_command_hash command = Ok hash ->
  prepare_steward_verification proof (verification_context hash s) = Ok prepared ->
  exists steward, proof_fits command proof s steward prepared.
Proof.
  intros Hhash Hok. unfold prepare_steward_verification in Hok. cbn in Hok.
  apply result_bind_Ok in Hok as (steward & Hactive%ok_or_Ok & Hok).
  apply err_if_seq_Ok in Hok as [Henabled Hok].
  apply result_bind_Ok in Hok as (address & Haddress & Hok).
  apply result_bind_Ok in Hok as (command_hash & Hcommand & Hok).
  apply result_bind_Ok in Hok as (expected & Hexpected & Hok).
  apply err_if_seq_Ok in Hok as [Hsame Hok]. apply err_if_seq_Ok in Hok as [Hcanister Hok].
  apply err_if_seq_Ok in Hok as [Hchain Hok].
  apply result_bind_Ok in Hok as (active_address & Hactive_address & Hok).
  apply err_if_seq_Ok in Hok as [Hmatch Hok]. apply err_if_seq_Ok in Hok as [Hnonce Hok].
  apply err_if_seq_Ok in Hok as [Hexpiry [= <-]].
  apply bool_decide_eq_false, dec_stable in Hsame as ->, Hcanister, Hmatch as <-.
  apply negb_false_iff in Henabled, Hchain, Hnonce. apply N.eqb_eq in Hchain, Hnonce.
  apply N.ltb_ge in Hexpiry. exists steward.
  split; cbn; rewrite ?Hcanister, <-?Hchain; eauto.
Qed.

(** The signature is the steward's: it recovers to the address, and nothing was
    awaited, or the contract at the address accepted it. *)
Definition signature_accepted (proof : EvmStewardProof.t) (prepared : PreparedStewardVerification.t)
    (s s1 : House.t) : Prop :=
  let address := PreparedStewardVerification.normalized_address prepared in
  let payload := PreparedStewardVerification.payload prepared in
  let signature := EvmStewardProof.signature proof in
  recover_steward_signer_address payload signature = Ok address /\ s1 = s
  \/ exists rpc, from_snapshot (snapshot_of (House.desk s)) = Ok rpc
       /\ verify_eip1271_signature rpc address payload signature s = Done true s1.

Lemma rpc_client_Some s rpc :
  rpc_client s = Some rpc -> from_snapshot (snapshot_of (House.desk s)) = Ok rpc.
Proof. unfold rpc_client. destruct (from_snapshot _); [by intros [= ->]|done]. Qed.

Lemma verify_proof_Done command hash proof s verified s1 :
  steward_command_hash command = Ok hash ->
  verify_steward_proof_for_command_hash hash proof s = Done verified s1 ->
  exists steward prepared, proof_fits command proof s steward prepared
    /\ verified = PreparedStewardVerification.into_verified prepared
    /\ signature_accepted proof prepared s s1.
Proof.
  intros Hhash Hrun. unfold verify_steward_proof_for_command_hash in Hrun.
  run_inv Hrun as s0 t0 H0. injection H0 as <- <-.
  unfold verify_evm_steward_proof_with_eip1271_fallback in Hrun.
  run_inv Hrun as prepared t1 H1. apply lift_Done in H1 as [Hprepared ->].
  destruct (prepare_fits _ _ _ _ _ Hhash Hprepared) as [steward Hfits].
  exists steward, prepared. split; [done|]. unfold signature_accepted.
  set (payload := PreparedStewardVerification.payload prepared) in *.
  set (address := PreparedStewardVerification.normalized_address prepared) in *.
  set (signature := EvmStewardProof.signature proof) in *. cbv zeta in Hrun.
  assert (forall error,
    match rpc_client s with
    | Some rpc =>
        accepted ← catch (verify_eip1271_signature rpc address payload signature);
        match accepted with
        | Ok true => mret (PreparedStewardVerification.into_verified prepared)
        | Ok false => mthrow error
        | Err e => mthrow (error +:+ "; eip1271 fallback error: " +:+ e)
        end
    | None => mthrow error
    end s = Done verified s1 ->
    verified = PreparedStewardVerification.into_verified prepared
    /\ exists rpc, from_snapshot (snapshot_of (House.desk s)) = Ok rpc
         /\ verify_eip1271_signature rpc address payload signature s = Done true s1) as Hfallback.
  { intros error Hfall. destruct (rpc_client s) as [rpc|] eqn:Hrpc; [|done].
    apply rpc_client_Some in Hrpc. run_inv Hfall as accepted t2 H2. apply catch_Done in H2.
    destruct accepted as [[]|]; [|done|done]. injection Hfall as <- <-. split; [done|].
    by exists rpc. }
  destruct (recover_steward_signer_address payload signature) as [recovered|error] eqn:Hrecover.
  - case_bool_decide as Hsame.
    + injection Hrun as <- <-. split; [done|]. left. by rewrite <-Hsame.
    + apply Hfallback in Hrun as [? ?]. auto.
  - apply Hfallback in Hrun as [? ?]. auto.
Qed.

Lemma consume_Done verified s u s' :
  consume_steward_nonce_and_record_usage verified s = Done u s' ->
  let nonce := VerifiedEvmStewardProof.nonce verified in
  exists steward, next_nonce (house_agent s) = nonce /\ (nonce < max_uint 64)%N
    /\ active_steward (house_agent s) = Some steward
    /\ StewardState.enabled steward = true
    /\ StewardState.chain_id steward = VerifiedEvmStewardProof.chain_id verified
    /\ StewardState.address steward = VerifiedEvmStewardProof.address verified
    /\ s' = note_usage (Some (nonce + 1)%N) steward s.
Proof.
  intros Hrun nonce. unfold consume_steward_nonce_and_record_usage in Hrun.
  run_inv Hrun as s0 t0 H0. injection H0 as <- <-.
  run_inv Hrun as u1 t1 H1. apply fail_if_Done in H1 as [Hnonce ->].
  run_inv Hrun as next t2 H2. apply lift_Done in H2 as [Hnext ->].
  run_inv Hrun as steward t3 H3. apply lift_Done in H3 as [Hactive%ok_or_Ok ->].
  run_inv Hrun as u4 t4 H4. apply fail_if_Done in H4 as [Henabled ->].
  run_inv Hrun as u5 t5 H5. apply fail_if_Done in H5 as [Hsame ->].
  injection Hrun as _ <-. apply negb_false_iff, N.eqb_eq in Hnonce.
  apply negb_false_iff in Henabled. apply orb_false_iff in Hsame as [Hchain Haddress].
  apply negb_false_iff, N.eqb_eq in Hchain. apply bool_decide_eq_false, dec_stable in Haddress.
  apply ok_or_Ok, checked_add_Some in Hnext as [-> Hmax]. rewrite Hnonce in *.
  exists steward. unfold in_uint in Hmax. split_and!; [done|fold nonce in Hmax; lia|done..].
Qed.

(** C6 - Only the steward's proofs are obeyed.  When a signed command is authorised,
    the state in which the proof arrived had an enabled steward; the proof
    names its chain and its address, this canister, the very command, the
    steward's next nonce, and has not expired; and over exactly these values
    the signature recovers to the address, or, if not, the contract there
    accepts it.  Whatever other messages did while the contract was asked, the
    steward in office afterwards is enabled and the same, and its next nonce
    still the proof's; that nonce is consumed, and nothing else changes. *)
Theorem steward_command_authorised (command : Command) (proof : EvmStewardProof.t) (s s' : House.t)
    (verified : VerifiedEvmStewardProof.t)
    (Hrun : authorize_steward_command command proof s = Done verified s') :
  exists steward prepared s1 steward1,
    proof_fits command proof s steward prepared
    /\ verified = PreparedStewardVerification.into_verified prepared
    /\ signature_accepted proof prepared s s1
    /\ active_steward (house_agent s1) = Some steward1
    /\ StewardState.enabled steward1 = true
    /\ StewardState.chain_id steward1 = StewardState.chain_id steward
    /\ StewardState.address steward1 = PreparedStewardVerification.normalized_address prepared
    /\ next_nonce (house_agent s1) = EvmStewardProof.nonce proof
    /\ (EvmStewardProof.nonce proof < max_uint 64)%N
    /\ s' = note_usage (Some (EvmStewardProof.nonce proof + 1)%N) steward1 s1.
Proof.
  unfold authorize_steward_command in Hrun.
  run_inv Hrun as hash t0 H0. apply lift_Done in H0 as [Hhash ->].
  run_inv Hrun as verified1 s1 Hverify. run_inv Hrun as u s2 Hconsume. injection Hrun as -> ->.
  destruct (verify_proof_Done _ _ _ _ _ _ Hhash Hverify) as (steward & prepared & Hfits & -> & Hsig).
  apply consume_Done in Hconsume as (steward1 & Hnonce & Hmax & Hactive & Henabled & Hchain & Haddress
    & ->). pose proof (fits_verified _ _ _ _ _ Hfits) as Hverified. rewrite Hverified in *.
  exists steward, prepared, s1, steward1. by split_and!.
Qed.

Lemma err_if_skip {E B} (b : bool) (e : E) (k : result E B) : b = false -> (err_if b e;; k) = k.
Proof. by intros ->. Qed.

(** The other way: a proof that fits is prepared. *)
Lemma fits_prepare command proof s steward prepared hash :
  proof_fits command proof s steward prepared -> steward_command_hash command = Ok hash ->
  prepare_steward_verification proof (verification_context hash s) = Ok prepared.
Proof.
  intros [Hactive Henabled Hchain Haddress Hsteward Hcanister (hash' & Hhash' & Hcommand & Hexpected)
    Hnonce Hexpiry Hpayload Hverified] Hhash.
  rewrite Hhash in Hhash'. injection Hhash' as <-.
  unfold prepare_steward_verification. cbn [verification_context EvmStewardVerificationContext.active_steward
    EvmStewardVerificationContext.expected_command_hash EvmStewardVerificationContext.canister_id
    EvmStewardVerificationContext.expected_nonce EvmStewardVerificationContext.now_ns].
  rewrite Hactive. cbn [ok_or mbind result_bind].
  rewrite err_if_skip by (by rewrite Henabled).
  rewrite Haddress. cbn [mbind result_bind]. rewrite Hcommand. cbn [mbind result_bind].
  rewrite Hexpected. cbn [mbind result_bind]. cbv zeta.
  rewrite err_if_skip by (apply bool_decide_eq_false_2; tauto).
  rewrite err_if_skip by (apply bool_decide_eq_false_2; tauto).
  rewrite err_if_skip by (by rewrite Hchain, N.eqb_refl).
  rewrite Hsteward. cbn [mbind result_bind].
  rewrite err_if_skip by (apply bool_decide_eq_false_2; tauto).
  rewrite err_if_skip by (by rewrite Hnonce, N.eqb_refl).
  rewrite err_if_skip by (by apply N.ltb_ge).
  rewrite Hchain, <-Hpayload. destruct prepared. cbn in *. by injection Hverified as <- <- <- <-.
Qed.

(** A proof that fits and whose signature recovers to the steward is accepted,
    without anything being awaited. *)
Lemma fits_authorised command proof s steward prepared :
  proof_fits command proof s steward prepared ->
  recover_steward_signer_address (PreparedStewardVerification.payload prepared)
    (EvmStewardProof.signature proof) = Ok (PreparedStewardVerification.normalized_address prepared) ->
  StewardState.address steward = PreparedStewardVerification.normalized_address prepared ->
  (EvmStewardProof.nonce proof < max_uint 64)%N ->
  authorize_steward_command command proof s
    = Done (PreparedStewardVerification.into_verified prepared)
        (note_usage (Some (EvmStewardProof.nonce proof + 1)%N) steward s).
Proof.
  intros Hfits Hrecover Haddress Hmax.
  pose proof (fits_command _ _ _ _ _ Hfits) as (hash & Hhash & _).
  unfold authorize_steward_command. rewrite Hhash. unfold lift at 1, mbind at 1, M_bind at 1.
  assert (verify_steward_proof_for_command_hash hash proof s
    = Done (PreparedStewardVerification.into_verified prepared) s) as Hverify.
  { unfold verify_steward_proof_for_command_hash, get_state, mbind, M_bind.
    unfold verify_evm_steward_proof_with_eip1271_fallback.
    rewrite (fits_prepare _ _ _ _ _ _ Hfits Hhash). unfold lift, mbind, M_bind. cbv zeta.
    rewrite Hrecover, bool_decide_eq_true_2 by done. done. }
  rewrite (M_bind_run _ _ _ _ _ Hverify).
  assert (consume_steward_nonce_and_record_usage (PreparedStewardVerification.into_verified prepared) s
    = Done tt (note_usage (Some (EvmStewardProof.nonce proof + 1)%N) steward s)) as Hconsume.
  { unfold consume_steward_nonce_and_record_usage. rewrite (fits_verified _ _ _ _ _ Hfits).
    cbn [VerifiedEvmStewardProof.nonce VerifiedEvmStewardProof.chain_id VerifiedEvmStewardProof.address].
    exec. rewrite (fits_nonce _ _ _ _ _ Hfits), N.eqb_refl. cbn [negb].
    unfold checked_add, in_uint. rewrite (fits_nonce _ _ _ _ _ Hfits) in Hmax.
    rewrite (fits_active _ _ _ _ _ Hfits). cbn [ok_or].
    destruct (next_nonce (house_agent s) + 1 <=? max_uint 64)%N eqn:Hle; [|apply N.leb_gt in Hle; lia].
    cbn [ok_or]. by rewrite (fits_enabled _ _ _ _ _ Hfits), N.eqb_refl, Haddress, bool_decide_eq_false_2 by tauto. }
  by rewrite (M_bind_run _ _ _ _ _ Hconsume).
Qed.
End Execute.

(** ** The linked principal *)

Definition may_command (caller : Principal) (s : House.t) (steward : StewardState.t) : Prop :=
  caller <> ANONYMOUS_PRINCIPAL
  /\ active_steward (house_agent s) = Some steward
  /\ StewardState.enabled steward = true
  /\ StewardState.principal steward = Some caller.

(** A message is obeyed without a signature exactly when its caller is the
    principal linked to the enabled steward, and is not anonymous; the use is
    noted, no nonce is consumed, and a refused message leaves no trace. *)
Theorem ingress_authorised (caller : Principal) (s : House.t) :
  match authorize_and_record_steward_ingress_usage caller s with
  | Done used s' => exists steward, may_command caller s steward
      /\ used = steward <| StewardState.last_used_at_ns := Some (Agent.clock (house_agent s)) |>
      /\ s' = note_usage None steward s
      /\ active_steward (house_agent s') = Some used
      /\ next_nonce (house_agent s') = next_nonce (house_agent s)
  | Fail _ s' => s' = s /\ forall steward, ~ may_command caller s steward
  | Trap => False
  end.
Proof.
  unfold authorize_and_record_steward_ingress_usage, may_command. exec.
  case_bool_decide as Hanon; [split; [done|]; by intros steward (? & _)|].
  destruct (active_steward (house_agent s)) as [steward|] eqn:Hactive;
    [|split; [done|]; by intros steward (_ & [=] & _)]. cbn [ok_or].
  destruct (StewardState.enabled steward) eqn:Henabled; cbn [negb];
    [|split; [done|]; by intros other (_ & [= <-] & Hother & _); rewrite Henabled in Hother].
  destruct (StewardState.principal steward) as [expected|] eqn:Hprincipal; cbn [ok_or];
    [|split; [done|]; intros other (_ & [= <-] & _ & Hother); by rewrite Hprincipal in Hother].
  case_bool_decide as Hcaller.
  - split; [done|]. intros other (_ & [= <-] & _ & Hother). rewrite Hprincipal in Hother. congruence.
  - subst expected. exists steward. by split_and!.
Qed.

(** ** The nonces of one steward *)

Definition rotates (change : ConfigChange.t) (s : Agent.t) : bool :=
  match change with
  | ConfigChange.RotateSteward steward =>
      match normalize_steward_state steward with
      | Ok normalized => steward_identity_rotated (active_steward s) normalized
      | Err _ => false
      end
  | _ => false
  end.

(** The nonce stays as it is. *)
Definition nonce_kept (s s' : Agent.t) : Prop := next_nonce s' = next_nonce s.
#[local] Instance nonce_kept_preorder : PreOrder nonce_kept.
Proof. split; [done|]. unfold nonce_kept. intros s1 s2 s3 -> ->. done. Qed.

Definition quiet {A} (m : Cfg A) : Prop := stable (fun _ => True) nonce_kept m.

Lemma quiet_touch change :
  (forall c, RuntimeSnapshot.steward_nonce (change c) = RuntimeSnapshot.steward_nonce c) ->
  quiet (touch_snapshot change).
Proof.
  intros Hchange. apply stable_modify. intros s _. split; [done|].
  unfold nonce_kept, next_nonce. rewrite snapshot_update. simpl_set. by rewrite Hchange.
Qed.

Lemma quiet_discard {A} (m : Cfg A) : quiet m -> quiet (discard m).
Proof. intros Hm. apply stable_bind; [apply _|done|]. intros _. apply stable_ret. apply _. Qed.

Lemma quiet_store {A} (op : Agent.t -> result string (A * Agent.t)) :
  (forall s a s', op s = Ok (a, s') -> nonce_kept s s') -> quiet (from_store op).
Proof.
  intros Hop s s' Hfinal _. split; [done|]. unfold from_store in Hfinal. revert Hfinal. exec.
  destruct (op s) as [[a s1]|] eqn:Ha; simpl; [|by intros [= <-]]. intros [= <-]. by eapply Hop.
Qed.

Lemma quiet_response_bytes bytes : quiet (from_store (set_evm_rpc_max_response_bytes bytes)).
Proof.
  apply quiet_store. unfold set_evm_rpc_max_response_bytes. intros s a s' Hok.
  do 2 apply err_if_seq_Ok in Hok as [_ Hok]. injection Hok as _ <-.
  unfold nonce_kept, next_nonce. rewrite snapshot_update. by simpl_set.
Qed.

Lemma quiet_search_limit limit : quiet (set_search_max_per_turn limit).
Proof.
  destruct limit as [value|]; [apply stable_bind; [apply _|auto with stable|intros _]|];
    by apply stable_modify.
Qed.

Ltac quiet_setter :=
  repeat first
    [ apply quiet_response_bytes
    | apply quiet_search_limit
    | apply stable_bind; [apply _| |intros ?]
    | apply quiet_touch; reflexivity
    | solve [auto with stable]
    | apply stable_modify; by intros ?
    | case_match ].

(** The whole state, when the change is to the configuration. *)
Lemma configure_Done {A} (m : Cfg A) a (s s' : House.t) :
  configure m s = Done a s' ->
  exists t, m (house_agent s) = Done a t /\ s' = on_house_agent (fun _ => t) s.
Proof. unfold configure, zoom. destruct (m (house_agent s)); intros [= <- <-]. eauto. Qed.

Section Nonces.
Context `{ext : Externals}.

(** A rotation, run. *)
Lemma rotation_run steward normalized s :
  normalize_steward_state steward = Ok normalized ->
  steward_identity_rotated (active_steward s) normalized = true ->
  exists s', set_active_steward_with_nonce_reset_on_rotation steward s
      = Done (normalized <| StewardState.principal := None |>) s'
    /\ active_steward s' = Some (normalized <| StewardState.principal := None |>)
    /\ next_nonce s' = 0%N /\ Agent.clock s' = Agent.clock s.
Proof.
  intros Hok Hrotated. unfold set_active_steward_with_nonce_reset_on_rotation. rewrite Hok. exec.
  rewrite Hrotated. eexists. split; [reflexivity|].
  unfold active_steward, next_nonce. rewrite snapshot_update. by simpl_set.
Qed.

(** Only a change of the steward's identity touches the nonce. *)
Lemma change_nonce change s u s' :
  apply_change change s = Done u s' -> rotates change s = false -> nonce_kept s s'.
Proof.
  intros Hrun Hrotates. destruct change;
    try (match type of Hrun with ?m _ = _ => assert (quiet m) as Hquiet end;
         [cbn [apply_change]; try apply quiet_discard; solve [quiet_setter]
         |by apply (Hquiet s s'); [rewrite Hrun|]]).
  revert Hrun. cbn [apply_change rotates] in *. unfold discard, set_active_steward_with_nonce_reset_on_rotation.
  destruct (normalize_steward_state steward) as [normalized|]; [|done]. exec. rewrite Hrotates.
  intros [= _ <-]. unfold nonce_kept, next_nonce. rewrite snapshot_update. by simpl_set.
Qed.

(** What befalls the nonce, message by message: [steward_execute] consumes one,
    [steward_execute_ingress] and the configuration leave it, and so does
    whatever else a message does, for nothing else writes the field. *)
Inductive steward_step : House.t -> list N -> House.t -> Prop :=
| consumed_step verified u s s' :
    consume_steward_nonce_and_record_usage verified s = Done u s' ->
    steward_step s [VerifiedEvmStewardProof.nonce verified] s'
| ingress_step caller used s s' :
    authorize_and_record_steward_ingress_usage caller s = Done used s' -> steward_step s [] s'
| configured_step change u s s' :
    rotates change (house_agent s) = false ->
    configure (apply_change change) s = Done u s' -> steward_step s [] s'
| other_step s s' : nonce_kept (house_agent s) (house_agent s') -> steward_step s [] s'.

Inductive steward_run : House.t -> list N -> House.t -> Prop :=
| run_nil s : steward_run s [] s
| run_cons s nonces s1 rest s2 :
    steward_step s nonces s1 -> steward_run s1 rest s2 -> steward_run s (nonces ++ rest) s2.

Lemma note_usage_nonce next steward s :
  next_nonce (house_agent (note_usage next steward s)) = default (next_nonce (house_agent s)) next.
Proof.
  unfold note_usage, house_agent, on_house_agent, agent, on_agent. simpl_set. unfold next_nonce.
  rewrite snapshot_update. destruct next; by simpl_set.
Qed.

Lemma note_usage_clock next steward s :
  Agent.clock (house_agent (note_usage next steward s)) = Agent.clock (house_agent s).
Proof.
  unfold note_usage, house_agent, on_house_agent, agent, on_agent. by simpl_set.
Qed.

Lemma note_usage_steward next steward s :
  active_steward (house_agent (note_usage next steward s))
    = Some (steward <| StewardState.last_used_at_ns := Some (Agent.clock (house_agent s)) |>).
Proof.
  unfold note_usage, house_agent, on_house_agent, agent, on_agent. simpl_set.
  unfold active_steward. rewrite snapshot_update. destruct next; by simpl_set.
Qed.

Lemma house_agent_replaced t s : house_agent (on_house_agent (fun _ => t) s) = t.
Proof. unfold house_agent, on_house_agent, agent, on_agent. by simpl_set. Qed.

Lemma ingress_Done caller used s s' :
  authorize_and_record_steward_ingress_usage caller s = Done used s' ->
  exists steward, s' = note_usage None steward s.
Proof.
  intros Hrun. unfold authorize_and_record_steward_ingress_usage in Hrun.
  run_inv Hrun as u0 t0 H0. apply fail_if_Done in H0 as [_ ->].
  run_inv Hrun as s1 t1 H1. injection H1 as <- <-.
  run_inv Hrun as steward t2 H2. apply lift_Done in H2 as [_ ->].
  run_inv Hrun as u3 t3 H3. apply fail_if_Done in H3 as [_ ->].
  run_inv Hrun as expected t4 H4. apply lift_Done in H4 as [_ ->].
  run_inv Hrun as u5 t5 H5. apply fail_if_Done in H5 as [_ ->].
  injection Hrun as _ <-. by exists steward.
Qed.

(** A step consumes the next nonce, or none. *)
Lemma step_nonces s nonces s' :
  steward_step s nonces s' ->
  (nonces = [] /\ next_nonce (house_agent s') = next_nonce (house_agent s))
  \/ (nonces = [next_nonce (house_agent s)]
      /\ next_nonce (house_agent s') = (next_nonce (house_agent s) + 1)%N).
Proof.
  intros [verified u s0 s1 Hrun|caller used s0 s1 Hrun|change u s0 s1 Hrotates Hrun|s0 s1 Hkept].
  - right. apply consume_Done in Hrun as (steward & Hnext & _ & _ & _ & _ & _ & ->).
    by rewrite note_usage_nonce, Hnext.
  - left. apply ingress_Done in Hrun as [steward ->]. by rewrite note_usage_nonce.
  - left. apply configure_Done in Hrun as (t & Hrun & ->). rewrite house_agent_replaced.
    split; [done|]. by eapply change_nonce.
  - by left.
Qed.

(** C14 - While the steward keeps its identity its nonces are consumed in order and
    without a gap: [k] commands consume the next [k] nonces, however the
    signed commands are interleaved with the principal's and with changes of
    the configuration.  So no nonce is consumed twice, and no proof obeyed
    twice. *)
Theorem nonces_consecutive (s s' : House.t) (nonces : list N) (Hrun : steward_run s nonces s') :
  nonces = (fun i => (next_nonce (house_agent s) + N.of_nat i)%N) <$> seq 0 (length nonces)
  /\ next_nonce (house_agent s') = (next_nonce (house_agent s) + N.of_nat (length nonces))%N
  /\ NoDup nonces.
Proof.
  assert (nonces = (fun i => (next_nonce (house_agent s) + N.of_nat i)%N) <$> seq 0 (length nonces)
    /\ next_nonce (house_agent s') = (next_nonce (house_agent s) + N.of_nat (length nonces))%N)
    as [Hnonces Hnext].
  { induction Hrun as [s|s nonces s1 rest s2 Hstep Hrun [IHnonces IHnext]].
    { split; [done|]. cbn. lia. }
    apply step_nonces in Hstep as [[-> Hsame]|[-> Hsame]]; rewrite Hsame in *; [by split|].
    cbn [app length]. split; [|lia]. rewrite <-cons_seq, <-seq_shift, fmap_cons. f_equal; [lia|].
    etrans; [exact IHnonces|]. rewrite <-list_fmap_compose. apply list_fmap_ext. simpl. lia. }
  split; [done|]. split; [done|]. rewrite Hnonces. apply NoDup_fmap_2; [|apply NoDup_seq].
  intros i j. lia.
Qed.

Context `{cost : CostApi, platform : OutcallPlatform, libs : StrategyLibs}.
Context {Command : Type} `{commands : StewardCommands Command}.
Context (canister_id : Principal).

Lemma configure_run {A} (m : Cfg A) a t (s : House.t) :
  m (house_agent s) = Done a t -> configure m s = Done a (on_house_agent (fun _ => t) s).
Proof. intros Hm. unfold configure, zoom. by rewrite Hm. Qed.

(** A proof that fits in one state fits in another with the same steward and
    the same next nonce. *)
Lemma fits_again command proof s steward prepared s' steward' :
  proof_fits canister_id command proof s steward prepared ->
  active_steward (house_agent s') = Some steward' ->
  StewardState.enabled steward' = true ->
  StewardState.chain_id steward' = StewardState.chain_id steward ->
  StewardState.address steward' = StewardState.address steward ->
  next_nonce (house_agent s') = EvmStewardProof.nonce proof ->
  (now (House.desk s') <= EvmStewardProof.expires_at_ns proof)%N ->
  proof_fits canister_id command proof s' steward' prepared.
Proof. intros [] ? ? Hchain Haddress ? ?. split; rewrite ?Hchain, ?Haddress; done. Qed.

(** The steward [away] comes into office, and then [back]. *)
Definition rotate_away_and_back (away back : StewardState.t) : H unit :=
  configure (set_active_steward_with_nonce_reset_on_rotation away);;
  configure (set_active_steward_with_nonce_reset_on_rotation back);;
  mret tt.

(** After both rotations the steward is back, with nonce zero. *)
Lemma rotated_back away back away' back' s steward :
  normalize_steward_state away = Ok away' -> normalize_steward_state back = Ok back' ->
  active_steward (house_agent s) = Some steward ->
  same_identity steward away' = false -> same_identity steward back' = true ->
  exists s', rotate_away_and_back away back s = Done tt s'
    /\ active_steward (house_agent s') = Some (back' <| StewardState.principal := None |>)
    /\ next_nonce (house_agent s') = 0%N
    /\ now (House.desk s') = now (House.desk s).
Proof.
  intros Haway Hback Hactive Hother Hsame.
  assert (same_identity (away' <| StewardState.principal := None |>) back' = false) as Hreturn.
  { apply andb_true_iff in Hsame as [Hchain%N.eqb_eq Haddress%bool_decide_eq_true].
    unfold same_identity in *. simpl_set. rewrite <-Hchain, <-Haddress, N.eqb_sym.
    rewrite <-Hother. f_equal. apply bool_decide_ext. by split. }
  destruct (rotation_run away away' (house_agent s)) as (t1 & Hrun1 & Hactive1 & _ & Hclock1);
    [done|rewrite Hactive; cbn; by rewrite Hother|].
  destruct (rotation_run back back' t1) as (t2 & Hrun2 & Hactive2 & Hnonce & Hclock2);
    [done|rewrite Hactive1; cbn -[same_identity]; by rewrite Hreturn|].
  eexists. split.
  { unfold rotate_away_and_back. rewrite (M_bind_run _ _ _ _ _ (configure_run _ _ _ _ Hrun1)).
    rewrite (M_bind_run _ _ _ _ _ (configure_run _ _ t2 _ ltac:(by rewrite house_agent_replaced))).
    reflexivity. }
  change (now (House.desk ?x)) with (Agent.clock (house_agent x)).
  rewrite !house_agent_replaced. change (now (House.desk s)) with (Agent.clock (house_agent s)).
  rewrite Hclock2, Hclock1. done.
Qed.

(** But a steward that is replaced and comes back starts again at nonce zero:
    the command it signed first, as long as it has not expired, is obeyed once
    more.  The proof says nothing of when, or in which term of office, it was
    signed. *)
Theorem replay_after_rotation (command : Command) (proof : EvmStewardProof.t) (s : House.t)
    (steward away back away' back' : StewardState.t) (prepared : PreparedStewardVerification.t)
    (Hfits : proof_fits canister_id command proof s steward prepared)
    (Hrecover : recover_steward_signer_address (PreparedStewardVerification.payload prepared)
       (EvmStewardProof.signature proof)
     = Ok (PreparedStewardVerification.normalized_address prepared))
    (Haddress : StewardState.address steward = PreparedStewardVerification.normalized_address prepared)
    (Hzero : EvmStewardProof.nonce proof = 0%N)
    (Haway : normalize_steward_state away = Ok away')
    (Hother : same_identity steward away' = false)
    (Hback : normalize_steward_state back = Ok back')
    (Hsame : same_identity steward back' = true) (Henabled : StewardState.enabled back' = true) :
  let verified := PreparedStewardVerification.into_verified prepared in
  exists s', (authorize_steward_command canister_id command proof;;
              rotate_away_and_back away back;;
              authorize_steward_command canister_id command proof) s = Done verified s'.
Proof.
  intros verified. pose proof (fits_active _ _ _ _ _ _ Hfits) as Hactive.
  rewrite (M_bind_run _ _ _ _ _ (fits_authorised _ _ _ _ _ _ Hfits Hrecover Haddress
    ltac:(rewrite Hzero; reflexivity))).
  set (s1 := note_usage _ _ _).
  destruct (rotated_back away back away' back' s1
    (steward <| StewardState.last_used_at_ns := Some (Agent.clock (house_agent s)) |>))
    as (s2 & Hrun & Hactive2 & Hnonce2 & Hnow); [done|done|apply note_usage_steward|done|done|].
  rewrite (M_bind_run _ _ _ _ _ Hrun).
  apply andb_true_iff in Hsame as [Hchain%N.eqb_eq Hsame%bool_decide_eq_true].
  eexists. eapply fits_authorised; [|exact Hrecover| |by rewrite Hzero].
  - eapply fits_again; [exact Hfits|exact Hactive2|done|done|done|congruence|].
    rewrite Hnow. unfold s1. change (now (House.desk ?x)) with (Agent.clock (house_agent x)).
    rewrite note_usage_clock. exact (fits_expiry _ _ _ _ _ _ Hfits).
  - cbn. congruence.
Qed.
End Nonces.

(** ** Witnesses *)

Module StewardSamples.
#[local] Existing Instance toy_externals.
#[local] Existing Instance StrategySamples.toy_libs.
#[local] Existing Instance HouseSamples.toy_cost.
#[local] Existing Instance HouseSamples.toy_platform.

(** Commands are texts, and are answered with who gave them. *)
#[local] Instance toy_commands : StewardCommands string := {
  encode_one command := Ok (as_bytes command);
  dispatch_steward_command command actor := mret actor;
}.

Definition canister_id : Principal := "automaton".
Definition command : string := "pause".

(** The address that the toy key recovery finds in a signature of ones. *)
Definition address : string := "0x" +:+ hex_encode (take 20 (drop 12 (toy_digest (replicate 64 x11)))).
Definition signature : string := "0x" +:+ hex_encode (replicate 64 x11) +:+ "1b".
Definition command_hash : string := "0x" +:+ hex_encode (toy_digest (as_bytes command)).

Definition steward : StewardState.t := StewardState.mk 8453 address true None (Some "alice").
Definition other : StewardState.t :=
  StewardState.mk 8453 "0x2222222222222222222222222222222222222222" true None None.
Definition house : House.t := HouseSamples.house_of (fun snapshot =>
  snapshot <| RuntimeSnapshot.active_steward := Some steward |>).
Definition proof : EvmStewardProof.t :=
  EvmStewardProof.mk "automaton" 8453 address command_hash 0 9 signature.

Definition prepared : PreparedStewardVerification.t :=
  PreparedStewardVerification.mk canister_id 8453 address command_hash 0 9
    (canonical_steward_signing_payload canister_id 8453 address command_hash 0 9).

Lemma proof_ok : proof_fits canister_id command proof house steward prepared.
Proof.
  split; try reflexivity; try (vm_compute; reflexivity).
  - exists command_hash. split_and!; vm_compute; reflexivity.
  - by vm_compute.
Qed.

Lemma steward_command_authorised_witness :
  match authorize_steward_command canister_id command proof house with
  | Done _ s' => next_nonce (house_agent s') = 1%N
  | _ => False
  end.
Proof.
  pose proof (steward_command_authorised canister_id command proof house) as Hauthorised.
  assert (match authorize_steward_command canister_id command proof house with
          | Done _ _ => true | _ => false end = true) as Hdone by (vm_compute; reflexivity).
  destruct (authorize_steward_command canister_id command proof house) as [verified s'| |];
    [|discriminate..].
  destruct (Hauthorised s' verified eq_refl)
    as (steward & prepared & s1 & steward1 & _ & _ & _ & _ & _ & _ & _ & _ & _ & ->).
  apply note_usage_nonce.
Defined.

(** A signed command, then a message of the principal. *)
Lemma nonces_consecutive_witness :
  let used := note_usage (Some 1%N) steward house in
  let noted := note_usage None (steward <| StewardState.last_used_at_ns := Some 7%N |>) used in
  NoDup [0%N] /\ steward_run house [0%N] noted.
Proof.
  intros used noted.
  assert (steward_run house [0%N] noted) as Hrun.
  { apply (run_cons house [0%N] used [] noted).
    { apply (consumed_step (PreparedStewardVerification.into_verified prepared) tt).
      vm_compute. reflexivity. }
    apply (run_cons used [] noted [] noted); [|constructor].
    apply (ingress_step "alice"
      (steward <| StewardState.last_used_at_ns := Some 7%N |>)). vm_compute. reflexivity. }
  split; [|exact Hrun]. apply (nonces_consecutive house noted [0%N] Hrun).
Defined.

Lemma replay_after_rotation_witness :
  exists s', (authorize_steward_command canister_id command proof;;
              rotate_away_and_back other steward;;
              authorize_steward_command canister_id command proof) house
    = Done (PreparedStewardVerification.into_verified prepared) s'.
Proof.
  refine (replay_after_rotation canister_id command proof house steward other steward other steward
    prepared proof_ok _ eq_refl eq_refl _ _ _ _ eq_refl); vm_compute; reflexivity.
Defined.
End StewardSamples.
